(* ===== verification/_CoqProject ===== *)
-Q . S2P
Prelude.v
Bytes.v
Net.v
Wire.v
Proto.v
ControlMessages.v
ControlFormat.v
ControlCodec.v
ControlFeed.v
ProtoTheorems.v
UdpProto.v
Utils.v
IdSlab.v
LanAddress.v
OriginLookup.v
ProxyProtocol.v
Packets.v
UdpClients.v
UdpReceiver.v
UdpClientsTheory.v
UdpChannel.v
Json.v
Text.v
FileSystem.v
Api.v
NameLookup.v
HttpClient.v
ControlIo.v
ControlConnect.v
EstablishedControl.v
MaintainedControl.v
TcpPipe.v
TcpClients.v
PlayitAgent.v
ApiTunnels.v
ApiAccount.v
ApiClient.v
WebApi.v
IpResource.v
SessionStore.v
SessionTheorems.v
IpcModel.v
Ipc.v
IpcCodec.v
RuntimeError.v
SecretStore.v
SecretTheorems.v
RuntimeOptions.v
RuntimeTunnels.v
RuntimeState.v
RuntimeHandle.v
Supervisor.v
IpcServer.v
IpcTheorems.v
RuntimeTheory.v
TunnelTheorems.v
SupervisorTheorems.v
ClaimTheory.v
Shutdown.v
ServiceTheorems.v
Program.v
Tui.v
CliModel.v
ServiceManager.v
SocketAccess.v
CliSession.v
CliCommands.v
CliLogic.v
CliTheorems.v
CliSignals.v
CliCredentials.v
CliWorld.v
AgentIdentity.v
Daemon.v
DaemonTheorems.v
WindowsHost.v
Tray.v
TrayTheorems.v
WindowsSetup.v
AgentLife.v
