(* ===== verification/Prelude.v ===== *)
(** * A verification library for the playit agent

    The playit agent makes services of a private network reachable through
    tunnel servers. It keeps a signed control session with a tunnel server;
    TCP clients are announced on that session and claimed one by one; UDP
    datagrams arrive on a second channel, each with a footer that names its
    flow, and are sent on from a local socket per client. Around the agent
    there is a runtime, which provisions the agent's secret, builds the agent
    and restarts it, talks to the web API about tunnels, and serves clients on
    a local socket. The daemon is the process around the runtime, and the
    command line is what a user talks to it with: it starts and stops the
    installed service, claims the agent for an account, signs in, and shows the
    service's state on a screen. On Windows the daemon runs under a service
    host, a tray icon shows its state, and a helper of the installer sets it
    up. This library is a shallow embedding of the
    crates that do this work, under src/packages: agent_proto (the wire
    protocol), agent_core (the agent), api_client (the web API), playit-ipc
    (the local protocol), playit-runtime (the runtime), playitd (the daemon),
    playit-cli (the command line), playitd-tray (the tray) and
    playitd-windows-setup (the installer's helper), with theorems about what
    they guarantee.

    ** The parts and the files that model them

    Foundations.
    - Prelude: outcomes of fallible code ([Ok], [Err], [Panic]), machine
      integers ([u_add], [u_sub], wrapping), lists, tactics and hints.
    - Bytes: big-endian words; std::io writers into a [Vec] or a slice (monad
      [W]) and readers of a slice (monad [R]); the byteorder crate as a class.
    - Net: the addresses of std::net.
    - Wire: the [MessageEncoding] trait as a class, the message-encoding
      crate as [EncodingLib] with its laws, and [Codec], the relation between
      an implementation and a wire format from which all round trips follow.
    - Json: JSON values, the [Serde] class (a writer, a reader, the values
      that survive both) and the representations that serde derives: structs
      with optional fields, tagged enums, sequences, maps. Text: trimming and
      characters of strings.
    - FileSystem: a file system whose calls can fail or write in part, and a
      logic for the states that others can see.

    The protocol, agent_proto.
    - Proto: lib.rs, rpc.rs, raw_slice.rs, hmac.rs.
    - ControlMessages: control_messages.rs, the writers and readers;
      ControlFormat: the formats as data; ControlCodec: that the former
      implement the latter. ControlFeed: control_feed.rs. ProtoTheorems: the
      theorems about both.
    - UdpProto: udp_proto.rs, the footers of tunneled datagrams.

    The agent, agent_core.
    - Utils, IdSlab: utils/ (hashing, counters, sets of intervals, id slabs,
      key interning); stats.rs and the error counters.
    - LanAddress, OriginLookup, ProxyProtocol: network/lan_address.rs,
      origin_lookup.rs, proxy_protocol.rs.
    - Packets: network/udp/packets.rs, the lock-free packet pool, as the
      interleaving of its atomic queue accesses.
    - UdpClients, UdpClientsTheory: network/udp/udp_clients.rs and the handle
      of udp_receiver.rs. UdpReceiver: the task of udp_receiver.rs.
      UdpChannel: network/udp/udp_channel.rs.
    - NameLookup: utils/name_lookup.rs.
    - ControlIo: agent_control/errors.rs and the world of answers.
      ControlConnect: address_selector.rs, connected_control.rs and the
      sockets of mod.rs. EstablishedControl: established_control.rs.
      MaintainedControl: maintained_control.rs.
    - TcpPipe, TcpClients: network/tcp/.
    - PlayitAgent: playit_agent.rs, the tunnel task and the UDP task.

    The web API, api_client.
    - Api, ApiTunnels, ApiAccount: api.rs, every request, response and error
      with its JSON form, and the endpoints with their paths and policies.
    - HttpClient: http_client.rs, a call with its retries, delays and
      credentials over a transport. ApiClient: lib.rs and the methods of
      api.rs, and the theorems about calls.
    - WebApi: auth.rs and web_api.rs, account sessions and their calls.
      SessionStore, SessionTheorems: session.rs, the two stores behind one
      interface. IpResource: ip_resource.rs.

    The local protocol and its server.
    - IpcModel: playit-ipc/src/model.rs. Ipc: ipc.rs and endpoint.rs, messages
      and the client. IpcCodec: that the messages round-trip and how unknown
      ones are read. IpcServer: playitd/src/ipc_server.rs, the connection.
      IpcTheorems: order and dispatch on a connection.

    The runtime, playit-runtime.
    - RuntimeError: error.rs. RuntimeOptions: options.rs. SecretStore,
      SecretTheorems: secret.rs on FileSystem. RuntimeTunnels: tunnels.rs.
    - RuntimeState: state.rs and the shared state of handle.rs, with the monad
      [RT] over it. RuntimeHandle: the operations of handle.rs, and claim.rs,
      the tasks that wait for the user to accept a claim.
    - Supervisor: runtime.rs, the machine ([sup_step]) and the step relation
      of the whole ([step]): the machine, the handle's callers, and the claim
      tasks, interleaved.
    - RuntimeTheory: what computations keep ([keeps], [stable]) and values in
      range. TunnelTheorems: requests and failures of tunnel operations.
      SupervisorTheorems, ClaimTheory, Shutdown: invariants of the whole and
      its end. ServiceTheorems: a client, the connection and the runtime
      composed, and the runs on which the theorems are witnessed.

    Programs that talk to their surroundings.
    - Program: programs as trees of calls, their traces, a logic of traces
      (which call may follow which history, and what a program leaves), and an
      interpreter with the surroundings as a state.

    The command line, playit-cli.
    - Tui: ui/tui_app.rs and ui/widgets.rs, the state of the screen and the
      text that is drawn; messages lose nothing but markup, the log shows its
      last lines.
    - CliModel: the calls a command can make and the monad [Cli] of commands;
      errors and their texts; ui/mod.rs and signal_handle.rs.
      ServiceManager: playitd/src/manager.rs and linux.rs. SocketAccess:
      linux.rs and service.rs of playit-cli, playitd/src/unix_account.rs.
      CliSession: account.rs and the sessions of client.rs. CliCommands: the
      commands of client.rs and main.rs, [main] and its dispatch.
    - CliLogic: triples for commands. CliTheorems: which changes to the service
      a run may make. CliCredentials: which credentials go where, and runs in
      a row over a session store. CliSignals: the screen and Ctrl-C.
      CliWorld: surroundings in which the runs of the witnesses take place, and
      the calls of commands over HTTP.

    The daemon, playitd.
    - AgentIdentity: agent_control/version.rs, platform.rs and the API client
      of agent_control/mod.rs.
    - Daemon: daemon.rs, paths.rs, unix.rs, bin/playitd.rs and the listener of
      ipc_server.rs, and logging.rs. DaemonTheorems: the order of a run; the
      daemon's socket and what SocketAccess finds of it.
    - AgentLife: playit_agent.rs again, how an agent is built and how it ends,
      over PlayitAgent and AgentIdentity.

    Windows.
    - WindowsHost: the calls of the Windows programs; playitd/src/manager.rs
      and paths.rs as they are compiled there; bin/playitd-service.rs, the host
      of the daemon, with the order of its run.
    - Tray: playitd-tray, the state and the handlers of the window (frontend.rs,
      state.rs), the worker thread and its requests (backend.rs,
      backend_actions.rs), the shortcut, and the process around them.
      TrayTheorems: that the threads agree, and what is asked of the service.
    - WindowsSetup: playitd/src/windows.rs and windows_secret.rs of
      playit-runtime, who may use the pipe and the files; secret.rs as it is
      compiled there; the commands of playitd-windows-setup.

    The calls go from PlayitAgent down: the tunnel task calls [update] of
    MaintainedControl, which calls EstablishedControl, which calls
    ControlConnect, which reads and writes ProtoTheorems' messages; new
    clients go to TcpClients, UDP session details to UdpChannel; the UDP task
    passes what UdpChannel receives to [handle_tunneled_packet] of UdpClients
    and returns what [dispatch_origin_packet] makes of local replies. The
    supervisor builds and joins the agent, whose results and counters are
    events of the machine; the runtime's polls keep the agent's OriginLookup
    table. The server calls RuntimeHandle, which calls ApiClient,
    RuntimeTunnels and SecretStore. The daemon starts the runtime and runs the
    server; a command of the command line is a client of the server through
    [Request], of the web API through [Api], and of the stores through
    [SessionSave], [SessionLoad] and [SessionClear]. The tray's worker is a
    client of the server and of the service manager through WindowsHost.

    ** How code is rendered

    A struct is a record, an enum an inductive type, an integer of w bits a
    [Z] whose range is a predicate ([uint w]). A function that can fail
    returns an [outcome]; [unwrap], [expect], [assert!], slice bounds and
    checked arithmetic give [Panic], so that absence of panics is a theorem.
    Arithmetic takes [overflow_checks]: with it an overflow panics (a debug
    build), without it the result wraps (the release build). Methods take
    their object's state and return the new one. Where nothing can panic
    (api_client, the runtime) a result is a sum.

    The asynchronous control code runs in the monad [M] of ControlIo: a
    computation gets its own state and a world, an infinite supply of answers
    of the clock, the network and the API, of which it consumes one per await,
    and in which it records what it sends. Theorems quantify over the world.
    A deadline ([try_timeout]) may cut a computation at any await and keeps
    what it did to the state; cancellation likewise. The tasks that share
    state (the packet pool, the worker of TCP clients with its tasks, the
    halves of a pipe and of the UDP channel, the tasks of the runtime) are
    step functions or relations, and their theorems hold on every reachable
    state, by rule induction.

    The runtime's code runs in [RT] over its shared state, the API's traffic,
    the disk and the host's answers. A step of the runtime is what a task does
    between two places where it waits for another task; a request to the API
    within an operation is part of its step. The supervisor waits for a
    secret, at the head of its loop, for the run data, for the agent to be set
    up, while it runs and stops, and between attempts; a shutdown is looked for
    where the code does. A caller of [set_secret] waits between its request and
    the answer ([provisioned]). Publishing a state is part of the step that does
    it, and so is persisting a secret and answering its sender. [ri_events] is
    the log of what was sent to subscribers; that the broadcast channel keeps
    256 updates for each, and a slower subscriber loses some, is not modelled,
    and no theorem is about what a subscriber receives. The API answers as a
    function of what it was sent before ([Transport]), and the theorems quantify
    over it. A call reads the credentials once, when it starts.

    The command line, the daemon and the Windows programs are programs
    ([Program.prog]): each await,
    read, write and system call is a call, which the surroundings answer in any
    way at all, an exit of the process being a call without an answer, a panic
    one too or (in the daemon) a result. Theorems about them hold of every trace, finished or not: loops
    that wait for the user have no bound in the code and need none here. The
    tray's window is a stack of such programs, one for each message that is
    being handled: while a handler shows a box or the menu, the next message
    starts another one above it. A handler's accesses to the window's state are
    atomic pieces of work, between which the worker thread moves.

    JSON is a value, not text: the text form is a parameter ([JsonText]), as
    are the decimal and textual forms of numbers, ids, dates and addresses
    ([Formats]). Reading follows serde's derived code on objects, the form in
    which structs and enums are written: unknown fields are ignored, a missing
    [Option] is [None], unknown variants are errors unless the code has a
    fallback. (A struct given as a sequence of its fields, or a variant given
    by its number, which serde also takes and nothing writes, is not modelled:
    the theorems on arbitrary documents are about objects with a textual tag.)

    Nothing runs out of fuel: apart from the programs above, every loop of the
    code that is modelled is bounded by the code itself ([for] over a range or a list, [m_for]) or is
    a step of a task that never ends. The attempts of an HTTP call are
    counted down from its policy's own maximum. The bounds that the theorems
    state are the code's own: at most three pings of five waits per address
    in [connect_to_first], five sends of five waits each in [authenticate]
    (82 operations with the API call, the clock and the pauses), 182
    operations in [update]. The tunnel task is the iteration of its loop body,
    for any number of rounds.

    Code of other crates is a parameter, a class of operations, with a class
    of laws that states its documented behaviour: byteorder
    ([ByteOrderLaws]), message-encoding ([EncodingLaws]), hmac ([HmacLaws]),
    slotmap ([SlotMapLaws]), slab, crossbeam's [ArrayQueue], tokio's watch
    channel ([WatchLaws]), serde_json and the text forms ([JsonTextLaws],
    [FormatsLaws]), the host's clock and ids ([Host], [HostLaws]), hexadecimal
    decoding of secrets ([SecretLib]), a session's text ([JsonFileLaws]). Each has a reference instance that
    satisfies the laws, on which the witnesses of the theorems run. Sockets,
    name resolution, the rate limiter and the API are inputs.

    ** What the theorems show

    - The protocol round-trips. Control requests, feeds and flow footers are
      written as exactly the bytes of their formats and read back; readers
      are total and never panic; a footer that parses is one the writer
      produces.
      Registrations are signed over their own encoding; the legacy encodings
      agree with the current ones. Where a size constant is wrong or a
      write is refused, that is stated.
    - UDP. A datagram survives the channel; a client's conversation goes to
      the right local target and back, each reply under the ids of its client's
      latest datagram; the table of clients stays consistent
      under all three of its operations, none of which panics on it, apart
      from the port offset the code asserts on; the pool never hands a packet
      out twice, under any interleaving, but can lose a wake-up.
    - The control session. Choosing a server, registering, and maintaining
      the session end, do not panic, send only where they should, and leave
      the session they claim to leave; expiry, clock correction, escalation
      to a hard reconnect, silence and reload are characterized; the tunnel
      task preserves all of it for ever, from the state in which an agent is
      built, and when the agent's run returns its tasks have ended.
    - TCP. A client is connected to its service only after it was claimed,
      and the header it is announced with is the one of its addresses; the
      table keeps ids unique and drops the idle, a client with an ended pipe
      being judged by the other alone; a pipe copies a prefix of its source.
    - Local routing. The origin table and port resolution, the local source
      address of a client, PROXY headers (the version 2 parser is the inverse
      of the writer), interning of keys.
    - The web API. The retry loop is equal to the specification that tries the
      policy's number of times; what writes is sent at most once; a call
      gives the caller the value the API was given to encode. An account's
      calls go where the user signed in, under the session's key; both
      session stores are a cell for one session, and the file never yields a
      session that was not saved.
    - The runtime. A client that makes calls, other than subscribing, gets what
      the runtime's handle gives, whatever the runtime's tasks do meanwhile
      (ServiceTheorems, a refinement); what is shown is where the supervisor
      is; a replacement of the secret is atomic under failures at any point, and a
      provisioned secret is found after a restart; one claim at a time, the
      one on display; a shutdown is final, is never stuck, and ends after a
      stated number of steps, and the handle does nothing after it.
    - The command line. Whatever the surroundings answer: secrets are given to,
      reset in and taken from the service, and the service is started and
      stopped, only as the command and the user's answers justify; credentials
      go only where they belong, and a session that was stored by a login is the
      one all later commands use, over any store that keeps its promises; the
      screen (raw mode, the alternate screen, the cursor) and the guard of
      Ctrl-C are given back on every way out on which the program returns and
      the terminal's calls succeed, and what Ctrl-C does at any moment is stated. The calls over HTTP are those of
      WebApi.
    - The daemon. It removes nobody's socket, serves nobody before the socket's
      mode and group are set, ends the runtime after the server, says success
      exactly when all went well, and panics exactly when the server ended by
      itself; the users whom that mode lets in are
      those whom the command line tells that nothing is wrong, and the advice it
      gives to others works. The agent registers as the version it is.
    - Windows. The service host reports in order, starts the daemon once, kills
      it only when a wait is over, and reports that it has stopped only when the
      daemon has, was never started, or could not be asked about. The flags, the menu and the tooltip of the tray agree with
      what is on its way between its threads, and nothing is forgotten; a window
      whose state was freed is used only on one path, which is reached. The
      tray's worker changes the service only as the request and what it found
      justify. Access lists name the system, the administrators and at most one
      user, whatever text is given for the user, and are applied with every
      handle given back; a secret is stored in a file that is protected before
      it is written, and takes the place of the old one in one step. A migration touches nothing that exists. Entries of the
      installer's log can be read back.
    - Tunnels. What is asked of the API for a tunnel is what the agent then
      routes; which failures may be retried.

    ** What is not modelled

    The failure of the tray's worker to build its runtime (an [expect]); sizes
    of a packet pool that do not fit into the address space.
    Log output, apart from the updates made of it, and the texts of [Display]
    and [Debug] where they are only shown. The variants for macOS (launchd, its
    paths). Drawing the tray's icon.
    Layout and colours of the screen; the parsing of arguments by clap.
    Fairness of the scheduler is not assumed anywhere. *)

From stdpp Require Export base tactics option numbers list strings gmap fin_maps.

#[global] Open Scope Z_scope.

(** ** Outcomes of fallible code

    A Rust function returning [Result<A, E>] either returns [Ok], returns
    [Err], or does not return because it panicked ([unwrap] on [None],
    [assert!], an out-of-range index, an overflow in a checked build). *)

Inductive outcome (E A : Type) : Type :=
  | Ok (a : A)
  | Err (e : E)
  | Panic.

Arguments Ok {E A} a.
Arguments Err {E A} e.
Arguments Panic {E A}.

#[global] Instance outcome_ret {E} : MRet (outcome E) := λ A a, Ok a.

#[global] Instance outcome_bind {E} : MBind (outcome E) := λ A B f m,
  match m with
  | Ok a => f a
  | Err e => Err e
  | Panic => Panic
  end.

#[global] Instance outcome_fmap {E} : FMap (outcome E) := λ A B f m,
  match m with
  | Ok a => Ok (f a)
  | Err e => Err e
  | Panic => Panic
  end.

#[global] Instance outcome_eq_dec {E A} `{EqDecision E, EqDecision A} :
  EqDecision (outcome E A).
Proof. solve_decision. Defined.

(** [map_err(f)] of [Result]. *)
Definition map_err {E F A} (f : E → F) (m : outcome E A) : outcome F A :=
  match m with
  | Ok a => Ok a
  | Err e => Err (f e)
  | Panic => Panic
  end.

(** [opt.ok_or(e)]. *)
Definition ok_or {E A} (e : E) (o : option A) : outcome E A :=
  match o with
  | Some a => Ok a
  | None => Err e
  end.

(** [opt.unwrap()] and [opt.expect(..)]. *)
Definition unwrap {E A} (o : option A) : outcome E A :=
  match o with
  | Some a => Ok a
  | None => Panic
  end.

(** [assert!(b)]. *)
Definition assert {E} (b : bool) : outcome E () :=
  if b then Ok () else Panic.

(** [&l\[..n\]] and [&l\[n..\]], which panic when [n] is out of range. *)
Definition slice_to {E A} (n : nat) (l : list A) : outcome E (list A) :=
  if decide (n ≤ length l)%nat then Ok (take n l) else Panic.

Definition slice_from {E A} (n : nat) (l : list A) : outcome E (list A) :=
  if decide (n ≤ length l)%nat then Ok (drop n l) else Panic.

(** [io::ErrorKind] as far as the sources name it, and [io::Error]. *)
Inductive ErrorKind : Set :=
  | UnexpectedEof
  | WriteZero
  | InvalidData
  | InvalidInput
  | Unsupported
  | WouldBlock
  | BrokenPipe
  | ConnectionAborted
  | ConnectionReset
  | NotConnected
  | NotFound
  | AlreadyExists
  | IoPermissionDenied
  | Other.

#[global] Instance ErrorKind_eq_dec : EqDecision ErrorKind.
Proof. solve_decision. Defined.

Record io_error : Type := IoError { err_kind : ErrorKind; err_msg : string }.

#[global] Instance io_error_eq_dec : EqDecision io_error.
Proof. solve_decision. Defined.

(** ** Machine integers

    A [uN] is a [Z] in range; [overflow_checks] is the build profile's
    setting (on in debug builds, off in the release profile of the
    workspace's Cargo.toml, where the operation wraps). *)

Definition uint (w v : Z) : Prop := 0 ≤ v < 2 ^ w.

#[global] Instance uint_dec w v : Decision (uint w v).
Proof. unfold uint. apply _. Defined.

Definition wrap (w v : Z) : Z := v `mod` 2 ^ w.

(** [a + b] and [a - b] on [uN]. *)
Definition u_add {E} (overflow_checks : bool) (w a b : Z) : outcome E Z :=
  if decide (a + b < 2 ^ w) then Ok (a + b)
  else if overflow_checks then Panic else Ok (wrap w (a + b)).

Definition u_sub {E} (overflow_checks : bool) (w a b : Z) : outcome E Z :=
  if decide (b ≤ a) then Ok (a - b)
  else if overflow_checks then Panic else Ok (wrap w (a - b)).

Definition saturating_sub (a b : Z) : Z := Z.max 0 (a - b).

Definition saturating_add (w a b : Z) : Z := Z.min (2 ^ w - 1) (a + b).

Definition checked_add (w a b : Z) : option Z :=
  if decide (a + b < 2 ^ w) then Some (a + b) else None.

(** [v as i64] of a [u64], and [a - b] on [i64]. *)
Definition as_i64 (v : Z) : Z :=
  if decide (wrap 64 v < 2 ^ 63) then wrap 64 v else wrap 64 v - 2 ^ 64.

Definition i64_sub {E} (overflow_checks : bool) (a b : Z) : outcome E Z :=
  if decide (- 2 ^ 63 ≤ a - b < 2 ^ 63) then Ok (a - b)
  else if overflow_checks then Panic else Ok (as_i64 (a - b)).

(** ** Automation *)

Create HintDb agent discriminated.

(** Take a successful computation apart: a bind that returned [Ok] came
    from parts that returned [Ok]. *)
Lemma outcome_bind_Ok {E A B} (m : outcome E A) (f : A → outcome E B) b :
  m ≫= f = Ok b ↔ ∃ a, m = Ok a ∧ f a = Ok b.
Proof.
  destruct m; cbn; split; try (by intros (?&?&?)); [by eauto | by intros (?&[= ->]&?) | done | done].
Qed.

Lemma outcome_bind_not_Panic {E A B} (m : outcome E A) (f : A → outcome E B) :
  m ≠ Panic → (∀ a, m = Ok a → f a ≠ Panic) → m ≫= f ≠ Panic.
Proof. destruct m; cbn; naive_solver. Qed.

Lemma ok_or_Ok {E A} (e : E) (o : option A) a : ok_or e o = Ok a ↔ o = Some a.
Proof. destruct o; cbn; naive_solver. Qed.

Lemma ok_or_not_Panic {E A} (e : E) (o : option A) : ok_or e o ≠ Panic.
Proof. by destruct o. Qed.

Lemma unwrap_Ok {E A} (o : option A) a : @unwrap E A o = Ok a ↔ o = Some a.
Proof. destruct o; cbn; naive_solver. Qed.

Lemma u_add_fits {E} oc w a b : a + b < 2 ^ w → @u_add E oc w a b = Ok (a + b).
Proof. intros. unfold u_add. by rewrite decide_True. Qed.

Lemma u_sub_fits {E} oc w a b : b ≤ a → @u_sub E oc w a b = Ok (a - b).
Proof. intros. unfold u_sub. by rewrite decide_True. Qed.

Lemma u_sub_panics {E} w a b : a < b → @u_sub E true w a b = Panic.
Proof. intros. unfold u_sub. by rewrite decide_False by lia. Qed.

Lemma u_sub_wraps {E} w a b : a < b → @u_sub E false w a b = Ok (wrap w (a - b)).
Proof. intros. unfold u_sub. by rewrite decide_False by lia. Qed.

Lemma u_add_wraps {E} w a b : 2 ^ w ≤ a + b → @u_add E false w a b = Ok (wrap w (a + b)).
Proof. intros. unfold u_add. by rewrite decide_False by lia. Qed.

Lemma wrap_small w v : uint w v → wrap w v = v.
Proof. intros. by apply Z.mod_small. Qed.

Lemma wrap_uint w v : 0 ≤ w → uint w (wrap w v).
Proof. intros. apply Z.mod_pos_bound. lia. Qed.

Lemma uint_mono w1 w2 v : w1 ≤ w2 → uint w1 v → uint w2 v.
Proof.
  intros Hle [? ?]. split; [done|].
  eapply Z.lt_le_trans; [done|]. apply Z.pow_le_mono_r; lia.
Qed.

#[export] Hint Resolve wrap_uint : agent.

(** [simplify_outcome] inverts every hypothesis of the form
    [bind .. = Ok ..]. *)
Ltac simplify_outcome :=
  repeat match goal with
  | H : mbind _ _ = Ok _ |- _ =>
      apply outcome_bind_Ok in H;
      let a := fresh "a" in let Ha := fresh "H" in
      destruct H as (a & Ha & H)
  | H : ok_or _ _ = Ok _ |- _ => apply ok_or_Ok in H
  | H : unwrap _ = Ok _ |- _ => apply unwrap_Ok in H
  | H : mret _ = Ok _ |- _ => unfold mret, outcome_ret in H
  | _ => progress simplify_eq/=
  end.

(** Prove a closed decidable proposition by evaluating its decision. *)
Lemma decide_by_eval (P : Prop) {HP : Decision P} : bool_decide P = true → P.
Proof. by rewrite bool_decide_eq_true. Qed.

Ltac decide_now :=
  lazymatch goal with
  | |- ?P => refine (decide_by_eval P _); vm_compute; reflexivity
  end.

(** Decide a closed range or comparison goal. *)
Ltac uint_solve := unfold uint in *; cbn in *; lia.

(** ** Generic lemmas on lists *)

Section lists.
Context {A : Type}.
Implicit Types l k : list A.

Lemma take_app_exact l k n : n = length l → take n (l ++ k) = l.
Proof. intros ->. by rewrite take_app_length. Qed.

Lemma drop_app_exact l k n : n = length l → drop n (l ++ k) = k.
Proof. intros ->. by rewrite drop_app_length. Qed.

Lemma drop_suffix l k n : n = length k → drop (length (l ++ k) - n) (l ++ k) = k.
Proof.
  intros ->. rewrite length_app.
  replace (length l + length k - length k)%nat with (length l) by lia.
  apply drop_app_length.
Qed.

Lemma length_drop_suffix l n : (n ≤ length l)%nat → length (drop (length l - n) l) = n.
Proof. intros. rewrite length_drop. lia. Qed.

End lists.
