(* ===== verification/Bytes.v ===== *)
(** * Bytes, big-endian words, and the std::io readers and writers

    The standard library's [Write] for [Vec<u8>] and [&mut \[u8\]] and its
    [Read] for [&\[u8\]], as state-passing monads; and the interface of the
    byteorder crate, whose big-endian reads and writes the sources call. *)

From S2P Require Import Prelude.
From coqutil Require Export Byte.
From coqutil Require Import Word.LittleEndianList.

#[global] Instance byte_eq_dec : EqDecision byte.
Proof. intros x y. destruct (Byte.byte_eq_dec x y); [by left | by right]. Defined.

(** ** Big-endian words *)

Definition be_bytes (n : nat) (v : Z) : list byte := reverse (le_split n v).

Definition be_val (bs : list byte) : Z := le_combine (reverse bs).

(** ** Writers

    A sink holds what has been written and, for [&mut \[u8\]], the room that
    is left; a [Vec<u8>] has no limit. *)

Record sink : Type := Sink { sk_data : list byte; sk_room : option nat }.

Definition W (A : Type) : Type := sink → outcome io_error A * sink.

#[global] Instance W_ret : MRet W := λ A a s, (Ok a, s).

#[global] Instance W_bind : MBind W := λ A B f m s,
  match m s with
  | (Ok a, s') => f a s'
  | (Err e, s') => (Err e, s')
  | (Panic, s') => (Panic, s')
  end.

Definition w_err {A} (k : ErrorKind) (msg : string) : W A := λ s, (Err (IoError k msg), s).

Definition w_panic {A} : W A := λ s, (Panic, s).

(** [Write::write]: how many bytes of [data] the sink takes. *)
Definition sink_write (data : list byte) : W Z := λ s,
  match sk_room s with
  | None => (Ok (Z.of_nat (length data)), Sink (sk_data s ++ data) None)
  | Some r =>
      let amt := Nat.min r (length data) in
      (Ok (Z.of_nat amt), Sink (sk_data s ++ take amt data) (Some (r - amt)%nat))
  end.

(** [Write::write_all]. *)
Definition write_all (data : list byte) : W () :=
  n ← sink_write data;
  if decide (n = Z.of_nat (length data)) then mret ()
  else w_err WriteZero "failed to write whole buffer".

(** ** Readers over a byte slice *)

Definition R (A : Type) : Type := list byte → outcome io_error (A * list byte).

#[global] Instance R_ret : MRet R := λ A a bs, Ok (a, bs).

#[global] Instance R_bind : MBind R := λ A B f m bs,
  match m bs with
  | Ok (a, rest) => f a rest
  | Err e => Err e
  | Panic => Panic
  end.

Definition r_err {A} (k : ErrorKind) (msg : string) : R A := λ _, Err (IoError k msg).

(** [Read::read] into a buffer of [n] bytes. *)
Definition slice_read (n : nat) : R (list byte) := λ bs, Ok (take n bs, drop n bs).

(** [Read::read_exact] into a buffer of [n] bytes. *)
Definition read_exact (n : nat) : R (list byte) := λ bs,
  if decide (n ≤ length bs)%nat then Ok (take n bs, drop n bs)
  else Err (IoError UnexpectedEof "failed to fill whole buffer").

(** Lift an outcome into a reader. *)
Definition r_lift {A} (m : outcome io_error A) : R A := λ bs,
  match m with
  | Ok a => Ok (a, bs)
  | Err e => Err e
  | Panic => Panic
  end.

(** ** The byteorder crate

    [write_uN::<BigEndian>], [read_uN::<BigEndian>] of the extension traits
    and [BigEndian::read_uN(&buf)], indexed by the width in bytes. *)

Class ByteOrder : Type := {
  bo_write : nat → Z → W ();
  bo_read : nat → R Z;
  bo_slice : nat → list byte → outcome io_error Z;
}.

(** What the crate documents: words are written most significant byte first
    with [write_all], read back with [read_exact], and the slice form panics
    when the slice is too short. *)
Class ByteOrderLaws {BO : ByteOrder} : Prop := {
  bo_write_spec n v s : uint (8 * Z.of_nat n) v → bo_write n v s = write_all (be_bytes n v) s;
  bo_read_spec n bs : bo_read n bs = (b ← read_exact n; mret (be_val b)) bs;
  bo_slice_spec n bs : (n ≤ length bs)%nat → bo_slice n bs = Ok (be_val (take n bs));
}.

Arguments ByteOrderLaws : clear implicits.

(** A concrete instance, used where a statement is evaluated. *)
Definition big_endian : ByteOrder := {|
  bo_write n v := write_all (be_bytes n v);
  bo_read n := b ← read_exact n; mret (be_val b);
  bo_slice n bs :=
    if decide (n ≤ length bs)%nat then Ok (be_val (take n bs)) else Panic;
|}.

(** ** What a writer emits and what a reader accepts

    [emits w bs n]: on every sink, [w] behaves as [write_all bs] and then
    returns [n]. [reads r bs x]: on every input that starts with [bs], [r]
    returns [x] and stops right after [bs]. *)

Definition emit {A} (bs : list byte) (a : A) : W A := write_all bs ≫= λ _, mret a.

Definition emits {A} (w : W A) (bs : list byte) (a : A) : Prop := ∀ s, w s = emit bs a s.

Definition reads {A} (r : R A) (bs : list byte) (a : A) : Prop :=
  ∀ rest, r (bs ++ rest) = Ok (a, rest).

Definition no_panic {A} (r : R A) : Prop := ∀ bs, r bs ≠ Panic.

#[global] Arguments be_bytes : simpl never.
#[global] Arguments be_val : simpl never.
#[global] Arguments write_all : simpl never.
#[global] Arguments read_exact : simpl never.
#[global] Arguments slice_read : simpl never.

(** ** Lemmas *)

Lemma length_be_bytes n v : length (be_bytes n v) = n.
Proof. unfold be_bytes. by rewrite length_reverse, length_le_split. Qed.

Lemma be_val_be_bytes n v : uint (8 * Z.of_nat n) v → be_val (be_bytes n v) = v.
Proof.
  intros. unfold be_val, be_bytes. rewrite reverse_involutive, le_combine_split.
  apply Z.mod_small. unfold uint in *. by replace (Z.of_nat n * 8) with (8 * Z.of_nat n) by lia.
Qed.

Lemma be_bytes_be_val bs : be_bytes (length bs) (be_val bs) = bs.
Proof.
  unfold be_val, be_bytes. rewrite <-(length_reverse bs), split_le_combine.
  apply reverse_involutive.
Qed.

Lemma be_val_uint bs : uint (8 * Z.of_nat (length bs)) (be_val bs).
Proof.
  unfold uint, be_val. rewrite <-(length_reverse bs). apply le_combine_bound.
Qed.

Lemma be_bytes_inj n v1 v2 :
  uint (8 * Z.of_nat n) v1 → uint (8 * Z.of_nat n) v2 → be_bytes n v1 = be_bytes n v2 → v1 = v2.
Proof.
  intros H1 H2 Heq. rewrite <-(be_val_be_bytes n v1), <-(be_val_be_bytes n v2) by done.
  by rewrite Heq.
Qed.

Lemma big_endian_laws : ByteOrderLaws big_endian.
Proof.
  split; [done | done |]. intros n bs Hle. cbn. by rewrite decide_True.
Qed.

Lemma write_all_vec bs data :
  write_all bs (Sink data None) = (Ok (), Sink (data ++ bs) None).
Proof. unfold write_all, mbind, W_bind, sink_write. cbn. by rewrite decide_True. Qed.

Lemma write_all_room bs data r :
  write_all bs (Sink data (Some r)) =
  if decide (length bs ≤ r)%nat
  then (Ok (), Sink (data ++ bs) (Some (r - length bs)%nat))
  else (Err (IoError WriteZero "failed to write whole buffer"),
        Sink (data ++ take r bs) (Some 0%nat)).
Proof.
  unfold write_all, mbind, W_bind, sink_write; cbn. repeat case_decide; try lia.
  - rewrite Nat.min_r by lia. by rewrite firstn_all.
  - rewrite Nat.min_l by lia. by rewrite Nat.sub_diag.
Qed.

Lemma write_all_nil s : write_all [] s = (Ok (), s).
Proof.
  destruct s as [d [r|]]; [rewrite write_all_room | rewrite write_all_vec]; cbn.
  - by rewrite app_nil_r, Nat.sub_0_r.
  - by rewrite app_nil_r.
Qed.

Lemma write_all_app b1 b2 s :
  (write_all b1 ≫= λ _, write_all b2) s = write_all (b1 ++ b2) s.
Proof.
  destruct s as [d [r|]]; unfold mbind, W_bind.
  - rewrite !write_all_room. rewrite length_app. case_decide; cbn.
    + rewrite write_all_room. repeat case_decide; try lia.
      * by rewrite <-app_assoc, Nat.sub_add_distr.
      * rewrite take_app_ge by lia. by rewrite <-app_assoc.
    + rewrite decide_False by lia. by rewrite take_app_le by lia.
  - rewrite !write_all_vec. by rewrite app_assoc.
Qed.

Lemma emits_ret {A} (a : A) : emits (mret a) [] a.
Proof. intros s. unfold emit, mbind, W_bind. by rewrite write_all_nil. Qed.

Lemma emits_bind {A B} (w : W A) (k : A → W B) b1 b2 a b :
  emits w b1 a → emits (k a) b2 b → emits (w ≫= k) (b1 ++ b2) b.
Proof.
  intros Hw Hk s. unfold emit. unfold mbind, W_bind. rewrite Hw.
  unfold emit, mbind, W_bind. rewrite <-write_all_app. unfold mbind, W_bind.
  destruct (write_all b1 s) as [[[]|e|] s']; [|done|done]. cbn. by rewrite Hk.
Qed.

Lemma emits_write_all bs : emits (write_all bs) bs ().
Proof. intros s. unfold emit, mbind, W_bind. by destruct (write_all bs s) as [[[]| |] ?]. Qed.

Lemma emits_eq {A} (w : W A) bs1 bs2 a1 a2 :
  emits w bs1 a1 → bs1 = bs2 → a1 = a2 → emits w bs2 a2.
Proof. by intros ? -> ->. Qed.

(** Into a [Vec] an emitting writer succeeds and appends exactly its bytes. *)
Lemma emits_vec {A} (w : W A) bs a data :
  emits w bs a → w (Sink data None) = (Ok a, Sink (data ++ bs) None).
Proof.
  intros Hw. rewrite Hw. unfold emit, mbind, W_bind. by rewrite write_all_vec.
Qed.

Lemma reads_ret {A} (a : A) : reads (mret a) [] a.
Proof. by intros rest. Qed.

Lemma reads_bind {A B} (r : R A) (k : A → R B) b1 b2 a b :
  reads r b1 a → reads (k a) b2 b → reads (r ≫= k) (b1 ++ b2) b.
Proof.
  intros Hr Hk rest. unfold mbind, R_bind. rewrite <-app_assoc, Hr. apply Hk.
Qed.

Lemma reads_eq {A} (r : R A) bs1 bs2 a1 a2 :
  reads r bs1 a1 → bs1 = bs2 → a1 = a2 → reads r bs2 a2.
Proof. by intros ? -> ->. Qed.

Lemma reads_exact bs n : n = length bs → reads (read_exact n) bs bs.
Proof.
  intros -> rest. unfold read_exact. rewrite decide_True by (rewrite length_app; lia).
  by rewrite take_app_length, drop_app_length.
Qed.

Lemma reads_slice_read bs n : n = length bs → reads (slice_read n) bs bs.
Proof.
  intros -> rest. unfold slice_read. by rewrite take_app_length, drop_app_length.
Qed.

Lemma no_panic_ret {A} (a : A) : no_panic (mret a).
Proof. done. Qed.

Lemma no_panic_err {A} k msg : no_panic (@r_err A k msg).
Proof. done. Qed.

Lemma no_panic_bind {A B} (r : R A) (k : A → R B) :
  no_panic r → (∀ a, no_panic (k a)) → no_panic (r ≫= k).
Proof.
  intros Hr Hk bs. unfold mbind, R_bind. specialize (Hr bs).
  destruct (r bs) as [[a rest]|e|]; [apply Hk | done | done].
Qed.

Lemma no_panic_read_exact n : no_panic (read_exact n).
Proof. intros bs. unfold read_exact. by case_decide. Qed.

Lemma no_panic_slice_read n : no_panic (slice_read n).
Proof. done. Qed.

Lemma no_panic_lift {A} (m : outcome io_error A) : m ≠ Panic → no_panic (r_lift m).
Proof. intros ? bs. by destruct m. Qed.

Lemma R_bind_Ok {A B} (m : R A) (f : A → R B) bs b rest :
  (m ≫= f) bs = Ok (b, rest) → ∃ a r1, m bs = Ok (a, r1) ∧ f a r1 = Ok (b, rest).
Proof.
  unfold mbind, R_bind. destruct (m bs) as [[a r1]| |]; intros; [by eauto | done | done].
Qed.

(** Take a reader that succeeded apart. *)
Ltac r_inv :=
  repeat match goal with
  | H : mbind _ _ _ = Ok (_, _) |- _ =>
      apply R_bind_Ok in H;
      let a := fresh "a" in let r := fresh "r" in let Ha := fresh "Hr" in
      destruct H as (a & r & Ha & H)
  | H : mret _ _ = Ok _ |- _ => unfold mret, R_ret in H; simplify_eq
  | H : r_err _ _ _ = Ok _ |- _ => done
  end.

Section byteorder.
Context {BO : ByteOrder} {BOL : ByteOrderLaws BO}.

Lemma emits_bo_write n v : uint (8 * Z.of_nat n) v → emits (bo_write n v) (be_bytes n v) ().
Proof. intros ? s. rewrite bo_write_spec by done. apply emits_write_all. Qed.

Lemma reads_bo_read n v : uint (8 * Z.of_nat n) v → reads (bo_read n) (be_bytes n v) v.
Proof.
  intros ? rest. rewrite bo_read_spec.
  unfold mbind, R_bind. rewrite reads_exact by by rewrite length_be_bytes.
  unfold mret, R_ret. by rewrite be_val_be_bytes.
Qed.

Lemma bo_read_short n bs :
  (length bs < n)%nat →
  bo_read n bs = Err (IoError UnexpectedEof "failed to fill whole buffer").
Proof.
  intros. rewrite bo_read_spec. unfold mbind, R_bind, read_exact.
  by rewrite decide_False by lia.
Qed.

Lemma bo_read_enough n bs :
  (n ≤ length bs)%nat → bo_read n bs = Ok (be_val (take n bs), drop n bs).
Proof.
  intros. rewrite bo_read_spec. unfold mbind, R_bind, read_exact. by rewrite decide_True.
Qed.

Lemma bo_read_uint n bs v rest : bo_read n bs = Ok (v, rest) → uint (8 * Z.of_nat n) v.
Proof.
  destruct (decide (n ≤ length bs)%nat) as [Hn|Hn].
  - rewrite bo_read_enough by done. intros. simplify_eq.
    pose proof (be_val_uint (take n bs)) as H. by rewrite length_take, Nat.min_l in H.
  - by rewrite bo_read_short by lia.
Qed.

Lemma no_panic_bo_read n : no_panic (bo_read n).
Proof.
  intros bs. rewrite bo_read_spec.
  apply (no_panic_bind _ _ (no_panic_read_exact n)). intros. apply no_panic_ret.
Qed.

End byteorder.

#[export] Hint Resolve no_panic_ret no_panic_err no_panic_read_exact no_panic_slice_read
  no_panic_bo_read : agent.
