(* ===== verification/Net.v ===== *)
(** * Network addresses of std::net

    [Ipv4Addr] and [Ipv6Addr] are the integers of their big-endian octets
    (what [u32::from(ip)] and [u128::from(ip)] give), socket addresses the
    records of the standard library, the IPv6 flow label and scope included. *)

From S2P Require Import Prelude Bytes.

Inductive IpAddr : Type :=
  | IpV4 (ip : Z)
  | IpV6 (ip : Z).

Record SocketAddrV4 : Type := SockV4 { sa4_ip : Z; sa4_port : Z }.

Record SocketAddrV6 : Type := SockV6 {
  sa6_ip : Z;
  sa6_port : Z;
  sa6_flowinfo : Z;
  sa6_scope_id : Z;
}.

Inductive SocketAddr : Type :=
  | SaV4 (a : SocketAddrV4)
  | SaV6 (a : SocketAddrV6).

#[global] Instance IpAddr_eq_dec : EqDecision IpAddr.
Proof. solve_decision. Defined.
#[global] Instance SocketAddrV4_eq_dec : EqDecision SocketAddrV4.
Proof. solve_decision. Defined.
#[global] Instance SocketAddrV6_eq_dec : EqDecision SocketAddrV6.
Proof. solve_decision. Defined.
#[global] Instance SocketAddr_eq_dec : EqDecision SocketAddr.
Proof. solve_decision. Defined.

#[global] Instance SocketAddr_countable : Countable SocketAddr.
Proof.
  refine (inj_countable'
    (λ a, match a with
          | SaV4 (SockV4 ip port) => inl (ip, port)
          | SaV6 (SockV6 ip port fl sc) => inr (ip, port, fl, sc)
          end)
    (λ c, match c with
          | inl (ip, port) => SaV4 (SockV4 ip port)
          | inr (ip, port, fl, sc) => SaV6 (SockV6 ip port fl sc)
          end) _).
  by intros [[]|[]].
Defined.

(** [SocketAddr::new(ip, port)], [.ip()], [.port()], [.is_ipv6()]. *)
Definition SocketAddr_new (ip : IpAddr) (port : Z) : SocketAddr :=
  match ip with
  | IpV4 a => SaV4 (SockV4 a port)
  | IpV6 a => SaV6 (SockV6 a port 0 0)
  end.

Definition SocketAddr_ip (a : SocketAddr) : IpAddr :=
  match a with
  | SaV4 a => IpV4 (sa4_ip a)
  | SaV6 a => IpV6 (sa6_ip a)
  end.

Definition SocketAddr_port (a : SocketAddr) : Z :=
  match a with
  | SaV4 a => sa4_port a
  | SaV6 a => sa6_port a
  end.

Definition is_ipv6 (a : SocketAddr) : bool :=
  match a with
  | SaV4 _ => false
  | SaV6 _ => true
  end.

(** [Ipv4Addr::is_loopback] (127.0.0.0/8) and [IpAddr::is_loopback]. *)
Definition Ipv4_is_loopback (ip : Z) : bool := bool_decide (Z.shiftr ip 24 = 127).

Definition is_loopback (ip : IpAddr) : bool :=
  match ip with
  | IpV4 a => Ipv4_is_loopback a
  | IpV6 a => bool_decide (a = 1)
  end.

(** [.octets()]. *)
Definition Ipv4_octets (ip : Z) : list byte := be_bytes 4 ip.

Definition Ipv6_octets (ip : Z) : list byte := be_bytes 16 ip.

(** Values of the Rust types: every integer fits its width. *)
Definition IpAddr_wf (ip : IpAddr) : Prop :=
  match ip with
  | IpV4 a => uint 32 a
  | IpV6 a => uint 128 a
  end.

Definition SocketAddrV4_wf (a : SocketAddrV4) : Prop :=
  uint 32 (sa4_ip a) ∧ uint 16 (sa4_port a).

Definition SocketAddrV6_wf (a : SocketAddrV6) : Prop :=
  uint 128 (sa6_ip a) ∧ uint 16 (sa6_port a) ∧
  uint 32 (sa6_flowinfo a) ∧ uint 32 (sa6_scope_id a).

Definition SocketAddr_wf (a : SocketAddr) : Prop :=
  match a with
  | SaV4 a => SocketAddrV4_wf a
  | SaV6 a => SocketAddrV6_wf a
  end.

(** The addresses [SocketAddr::new] builds: no flow label, no scope. *)
Definition SocketAddr_plain (a : SocketAddr) : Prop :=
  SocketAddr_wf a ∧ a = SocketAddr_new (SocketAddr_ip a) (SocketAddr_port a).

#[global] Instance IpAddr_wf_dec ip : Decision (IpAddr_wf ip).
Proof. destruct ip; cbn; apply _. Defined.
#[global] Instance SocketAddr_wf_dec a : Decision (SocketAddr_wf a).
Proof. destruct a; cbn; unfold SocketAddrV4_wf, SocketAddrV6_wf; apply _. Defined.
#[global] Instance SocketAddr_plain_dec a : Decision (SocketAddr_plain a).
Proof. unfold SocketAddr_plain. apply _. Defined.

Lemma SocketAddr_plain_wf a : SocketAddr_plain a → SocketAddr_wf a.
Proof. by intros []. Qed.

Lemma SocketAddr_new_ip ip port : SocketAddr_ip (SocketAddr_new ip port) = ip.
Proof. by destruct ip. Qed.

Lemma SocketAddr_new_port ip port : SocketAddr_port (SocketAddr_new ip port) = port.
Proof. by destruct ip. Qed.

Lemma SocketAddr_new_plain ip port :
  IpAddr_wf ip → uint 16 port → SocketAddr_plain (SocketAddr_new ip port).
Proof.
  intros Hip Hp. split.
  - destruct ip; cbn in *; unfold SocketAddrV4_wf, SocketAddrV6_wf; cbn; split_and!; done.
  - by rewrite SocketAddr_new_ip, SocketAddr_new_port.
Qed.

#[export] Hint Resolve SocketAddr_plain_wf SocketAddr_new_plain : agent.
