(* ===== verification/Wire.v ===== *)
(** * The message-encoding interface

    The wire format of the control protocol is written against the
    [MessageEncoding] trait of the message-encoding crate, which also
    implements it for the primitive types. The trait is a class here; the
    crate's own implementations are a record of operations, with their wire
    formats and the laws the protocol code relies on. *)

From S2P Require Import Prelude Bytes Net.

(** The trait. *)
Class MessageEncoding (T : Type) : Type := {
  write_to : T → W Z;
  read_from : R T;
}.

(** An encoding is faithful to a format [enc] on the values satisfying [P]:
    the writer emits exactly the format's bytes and reports their number,
    the reader accepts them and leaves the rest, and no input makes the
    reader panic. *)
Record Codec {T} (P : T → Prop) (enc : T → list byte) (w : T → W Z) (r : R T) : Prop := {
  codec_emits x : P x → emits (w x) (enc x) (Z.of_nat (length (enc x)));
  codec_reads x : P x → reads r (enc x) x;
  codec_no_panic : no_panic r;
}.

Arguments codec_emits {T P enc w r}.
Arguments codec_reads {T P enc w r}.
Arguments codec_no_panic {T P enc w r}.

Definition option_P {T} (P : T → Prop) (o : option T) : Prop :=
  match o with
  | Some x => P x
  | None => True
  end.

#[global] Instance option_P_dec {T} (P : T → Prop) `{∀ x, Decision (P x)} o :
  Decision (option_P P o).
Proof. destruct o; cbn; apply _. Defined.

(** The crate's implementations for [u16], [u32], [u64], [Option<T>],
    [Vec<u8>], [IpAddr] and [SocketAddr], with their formats. *)
Class EncodingLib : Type := {
  u16_write_to : Z → W Z;
  u16_read_from : R Z;
  u32_write_to : Z → W Z;
  u32_read_from : R Z;
  u64_write_to : Z → W Z;
  u64_read_from : R Z;
  option_enc : ∀ {T}, (T → list byte) → option T → list byte;
  option_write_to : ∀ {T}, (T → W Z) → option T → W Z;
  option_read_from : ∀ {T}, R T → R (option T);
  vec_limit : Z;
  vec_enc : list byte → list byte;
  vec_write_to : list byte → W Z;
  vec_read_from : R (list byte);
  IpAddr_enc : IpAddr → list byte;
  IpAddr_write_to : IpAddr → W Z;
  IpAddr_read_from : R IpAddr;
  SocketAddr_enc : SocketAddr → list byte;
  SocketAddr_write_to : SocketAddr → W Z;
  SocketAddr_read_from : R SocketAddr;
}.

(** What the protocol relies on: integers are big-endian (the sources read
    with byteorder what they wrote with this trait), every other type round
    trips. Nothing is assumed about the formats of options, vectors and
    addresses, nor about vectors of [vec_limit] bytes and more. *)
Class EncodingLaws {ML : EncodingLib} : Prop := {
  u16_codec : Codec (uint 16) (be_bytes 2) u16_write_to u16_read_from;
  u32_codec : Codec (uint 32) (be_bytes 4) u32_write_to u32_read_from;
  u64_codec : Codec (uint 64) (be_bytes 8) u64_write_to u64_read_from;
  option_codec {T} (P : T → Prop) enc w r :
    Codec P enc w r →
    Codec (option_P P) (option_enc enc) (option_write_to w) (option_read_from r);
  vec_codec :
    Codec (λ v, Z.of_nat (length v) < vec_limit) vec_enc vec_write_to vec_read_from;
  IpAddr_codec : Codec IpAddr_wf IpAddr_enc IpAddr_write_to IpAddr_read_from;
  SocketAddr_codec :
    Codec SocketAddr_plain SocketAddr_enc SocketAddr_write_to SocketAddr_read_from;
}.

Arguments EncodingLaws : clear implicits.

Create HintDb codec discriminated.
#[export] Hint Resolve u16_codec u32_codec u64_codec option_codec vec_codec IpAddr_codec
  SocketAddr_codec : codec.

(** Prove that a record's writer emits its format: one [emits_bind] per
    field, each field by its own codec. *)
Ltac emits_leaf :=
  first
    [ apply emits_ret
    | apply emits_write_all
    | apply emits_bo_write
    | eapply codec_emits; [solve [eauto with codec] | ] ].

Ltac emits_seq :=
  lazymatch goal with
  | |- emits (mbind _ _) _ _ => eapply emits_bind; [emits_leaf | cbv beta; emits_seq]
  | |- _ => emits_leaf
  end.

Ltac solve_emits :=
  eapply emits_eq;
  [ emits_seq
  | rewrite ?app_nil_r, <-?app_assoc; try done
  | rewrite ?length_app, ?length_be_bytes; cbn; try lia ].

Ltac reads_leaf :=
  first
    [ apply reads_ret
    | apply reads_bo_read
    | apply reads_exact
    | apply reads_slice_read
    | lazymatch goal with
      | |- reads ?r _ _ =>
          let Hc := fresh "Hc" in
          eassert (Codec _ _ _ r) as Hc by (solve [eauto with codec]);
          apply (codec_reads Hc); clear Hc
      end ].

Ltac reads_seq :=
  lazymatch goal with
  | |- reads (mbind _ _) _ _ => eapply reads_bind; [reads_leaf | cbv beta; reads_seq]
  | |- _ => reads_leaf
  end.

(** The format on the right is a concatenation of the fields' formats. *)
Ltac solve_reads :=
  lazymatch goal with
  | |- reads _ ?bs _ => rewrite <-(app_nil_r bs), <-?app_assoc
  end;
  reads_seq.

Ltac no_panic_leaf :=
  first
    [ solve [eauto with agent]
    | eapply codec_no_panic; solve [eauto with codec] ].

Ltac solve_no_panic :=
  repeat match goal with
  | |- no_panic (mbind _ _) => apply no_panic_bind; [no_panic_leaf | intros ?]
  | |- no_panic (if _ then _ else _) => case_match
  | |- no_panic (match _ with _ => _ end) => case_match
  | |- no_panic _ => no_panic_leaf
  end.

(** ** A reference instance

    Tags as in the byte strings of the repository's own encoding tests
    (control_messages.rs, tests [agent_register_v1_ip4_same_encoding_test]
    and [.._ip6_..]): [04 ip port], [06 ip port]. It shows that the laws can
    hold and lets examples be evaluated. *)

Definition emit_len (bs : list byte) : W Z := emit bs (Z.of_nat (length bs)).

Definition ref_option_enc {T} (enc : T → list byte) (o : option T) : list byte :=
  match o with
  | None => be_bytes 1 0
  | Some x => be_bytes 1 1 ++ enc x
  end.

Definition ref_IpAddr_enc (ip : IpAddr) : list byte :=
  match ip with
  | IpV4 a => be_bytes 1 4 ++ be_bytes 4 a
  | IpV6 a => be_bytes 1 6 ++ be_bytes 16 a
  end.

Definition ref_SocketAddr_enc (a : SocketAddr) : list byte :=
  ref_IpAddr_enc (SocketAddr_ip a) ++ be_bytes 2 (SocketAddr_port a).

Definition read_be (n : nat) : R Z := b ← read_exact n; mret (be_val b).

Definition ref_IpAddr_read : R IpAddr :=
  t ← read_be 1;
  if decide (t = 4) then a ← read_be 4; mret (IpV4 a)
  else if decide (t = 6) then a ← read_be 16; mret (IpV6 a)
  else r_err InvalidData "ip".

Definition ref_option_write {T} (w : T → W Z) (o : option T) : W Z :=
  match o with
  | None => emit_len (be_bytes 1 0)
  | Some x => n ← emit_len (be_bytes 1 1); m ← w x; mret (n + m)
  end.

Definition ref_option_read {T} (r : R T) : R (option T) :=
  t ← read_be 1;
  if decide (t = 0) then mret None
  else x ← r; mret (Some x).

Definition reference_encoding : EncodingLib := {|
  u16_write_to v := emit_len (be_bytes 2 v);
  u16_read_from := read_be 2;
  u32_write_to v := emit_len (be_bytes 4 v);
  u32_read_from := read_be 4;
  u64_write_to v := emit_len (be_bytes 8 v);
  u64_read_from := read_be 8;
  option_enc := @ref_option_enc;
  option_write_to := @ref_option_write;
  option_read_from := @ref_option_read;
  vec_limit := 2 ^ 64;
  vec_enc v := be_bytes 8 (Z.of_nat (length v)) ++ v;
  vec_write_to v := emit_len (be_bytes 8 (Z.of_nat (length v)) ++ v);
  vec_read_from := n ← read_be 8; read_exact (Z.to_nat n);
  IpAddr_enc := ref_IpAddr_enc;
  IpAddr_write_to ip := emit_len (ref_IpAddr_enc ip);
  IpAddr_read_from := ref_IpAddr_read;
  SocketAddr_enc := ref_SocketAddr_enc;
  SocketAddr_write_to a := emit_len (ref_SocketAddr_enc a);
  SocketAddr_read_from := ip ← ref_IpAddr_read; port ← read_be 2; mret (SocketAddr_new ip port);
|}.

Lemma emits_emit_len bs : emits (emit_len bs) bs (Z.of_nat (length bs)).
Proof. by intros s. Qed.

Lemma reads_read_be n v : uint (8 * Z.of_nat n) v → reads (read_be n) (be_bytes n v) v.
Proof.
  intros. eapply reads_eq;
    [eapply reads_bind; [apply reads_exact; by rewrite length_be_bytes | apply reads_ret] | |].
  - apply app_nil_r.
  - by apply be_val_be_bytes.
Qed.

Lemma no_panic_read_be n : no_panic (read_be n).
Proof. unfold read_be. solve_no_panic. Qed.

Lemma ref_option_codec {T} (P : T → Prop) enc w r :
  Codec P enc w r →
  Codec (option_P P) (ref_option_enc enc) (ref_option_write w) (ref_option_read r).
Proof.
  intros [Hw Hr Hn]. split.
  - intros [x|] Hx; [|apply emits_emit_len]. eapply emits_eq.
    + eapply emits_bind; [apply emits_emit_len|].
      eapply emits_bind; [by apply Hw | apply emits_ret].
    + by rewrite app_nil_r.
    + cbn. rewrite length_app. lia.
  - intros [x|] Hx.
    + eapply reads_eq; [eapply reads_bind; [apply (reads_read_be 1 1); by vm_compute|]| |done].
      * cbn. eapply reads_bind; [by apply Hr | apply reads_ret].
      * cbn. by rewrite app_nil_r.
    + eapply reads_eq; [eapply reads_bind; [apply (reads_read_be 1 0); by vm_compute|]| |done].
      * cbn. apply reads_ret.
      * apply app_nil_r.
  - apply no_panic_bind; [apply no_panic_read_be|]. intros t. case_decide; [done|].
    by apply no_panic_bind.
Qed.

Lemma reads_ref_IpAddr ip : IpAddr_wf ip → reads ref_IpAddr_read (ref_IpAddr_enc ip) ip.
Proof.
  intros Hip. destruct ip as [a|a]; cbn [ref_IpAddr_enc].
  - apply (reads_bind _ _ _ _ 4); [by apply reads_read_be | cbn].
    rewrite <-(app_nil_r (be_bytes 4 a)).
    eapply reads_bind; [by apply reads_read_be | apply reads_ret].
  - apply (reads_bind _ _ _ _ 6); [by apply reads_read_be | cbn].
    rewrite <-(app_nil_r (be_bytes 16 a)).
    eapply reads_bind; [by apply reads_read_be | apply reads_ret].
Qed.

Lemma no_panic_ref_IpAddr : no_panic ref_IpAddr_read.
Proof.
  apply no_panic_bind; [apply no_panic_read_be|]. intros t.
  repeat case_decide; [..|done]; (apply no_panic_bind; [apply no_panic_read_be|done]).
Qed.

Lemma reference_uint_codec n w :
  w = 8 * Z.of_nat n →
  Codec (uint w) (be_bytes n) (λ v, emit_len (be_bytes n v)) (read_be n).
Proof.
  intros ->. split; [intros; apply emits_emit_len | apply reads_read_be | apply no_panic_read_be].
Qed.

Lemma reference_encoding_laws : EncodingLaws reference_encoding.
Proof.
  split.
  - by apply reference_uint_codec.
  - by apply reference_uint_codec.
  - by apply reference_uint_codec.
  - intros. by apply ref_option_codec.
  - split; [intros; apply emits_emit_len| |].
    + cbn -[Z.pow]. intros v Hv. eapply reads_bind; [apply reads_read_be; unfold uint; cbn in *; lia|].
      apply reads_exact. lia.
    + apply no_panic_bind; [apply no_panic_read_be | intros; apply no_panic_read_exact].
  - split; [intros; apply emits_emit_len | apply reads_ref_IpAddr | apply no_panic_ref_IpAddr].
  - split; [intros; apply emits_emit_len| |].
    + intros a [Hwf Heq].
      assert (IpAddr_wf (SocketAddr_ip a) ∧ uint 16 (SocketAddr_port a)) as [Hip Hport]
        by (destruct a as [[]|[]]; split; apply Hwf).
      cbn. unfold ref_SocketAddr_enc. eapply reads_bind; [by apply reads_ref_IpAddr|].
      rewrite <-(app_nil_r (be_bytes 2 _)).
      eapply reads_bind; [by apply reads_read_be|]. rewrite <-Heq. apply reads_ret.
    + apply no_panic_bind; [apply no_panic_ref_IpAddr|]. intros.
      apply no_panic_bind; [apply no_panic_read_be|done].
Qed.
