(* ===== verification/Proto.v ===== *)
(** * Shared protocol types (agent_proto/src/lib.rs, raw_slice.rs, rpc.rs,
      hmac.rs)

    Sessions, port ranges, raw slices and the request envelope, each with
    its [MessageEncoding] implementation, its wire format, and the proof
    that the implementation is faithful to the format; and signatures. *)

From S2P Require Import Prelude Bytes Net Wire.

(** ** Data *)

Record AgentSessionId : Type := {
  asi_session_id : Z;
  asi_account_id : Z;
  asi_agent_id : Z;
}.

Inductive PortProto : Type := Both | Tcp | Udp.

Record PortRange : Type := {
  pr_ip : IpAddr;
  pr_port_start : Z;
  pr_port_end : Z;
  pr_port_proto : PortProto;
}.

(** [RawSlice<'a>(pub &'a \[u8\])]. *)
Record RawSlice : Type := MkRawSlice { raw_bytes : list byte }.

Record ControlRpcMessage (T : Type) : Type := {
  rpc_request_id : Z;
  rpc_content : T;
}.
Arguments rpc_request_id {T}.
Arguments rpc_content {T}.
Arguments Build_ControlRpcMessage {T}.

#[global] Instance AgentSessionId_eq_dec : EqDecision AgentSessionId.
Proof. solve_decision. Defined.
#[global] Instance PortProto_eq_dec : EqDecision PortProto.
Proof. solve_decision. Defined.
#[global] Instance PortRange_eq_dec : EqDecision PortRange.
Proof. solve_decision. Defined.
#[global] Instance ControlRpcMessage_eq_dec {T} `{EqDecision T} : EqDecision (ControlRpcMessage T).
Proof. solve_decision. Defined.

(** ** Encodings *)

Section encodings.
Context {BO : ByteOrder} {ML : EncodingLib}.

Definition AgentSessionId_write_to (x : AgentSessionId) : W Z :=
  n1 ← u64_write_to (asi_session_id x);
  n2 ← u64_write_to (asi_account_id x);
  n3 ← u64_write_to (asi_agent_id x);
  mret (n1 + n2 + n3).

Definition AgentSessionId_read_from : R AgentSessionId :=
  session_id ← bo_read 8;
  account_id ← bo_read 8;
  agent_id ← bo_read 8;
  mret {| asi_session_id := session_id; asi_account_id := account_id; asi_agent_id := agent_id |}.

Definition AgentSessionId_STATIC_SIZE : Z := 8 * 3.

Definition PortProto_write_to (x : PortProto) : W Z :=
  bo_write 1 (match x with Tcp => 1 | Udp => 2 | Both => 3 end);;
  mret 1.

Definition PortProto_read_from : R PortProto :=
  tag ← bo_read 1;
  match tag with
  | 1 => mret Tcp
  | 2 => mret Udp
  | 3 => mret Both
  | _ => r_err Other "invalid port proto"
  end.

Definition PortRange_write_to (x : PortRange) : W Z :=
  n1 ← IpAddr_write_to (pr_ip x);
  bo_write 2 (pr_port_start x);;
  bo_write 2 (pr_port_end x);;
  n2 ← PortProto_write_to (pr_port_proto x);
  mret (4 + n1 + n2).

Definition PortRange_read_from : R PortRange :=
  ip ← IpAddr_read_from;
  port_start ← bo_read 2;
  port_end ← bo_read 2;
  port_proto ← PortProto_read_from;
  mret {| pr_ip := ip; pr_port_start := port_start; pr_port_end := port_end;
          pr_port_proto := port_proto |}.

Definition RawSlice_write_to (x : RawSlice) : W Z :=
  n ← sink_write (raw_bytes x);
  if decide (n = Z.of_nat (length (raw_bytes x))) then mret (Z.of_nat (length (raw_bytes x)))
  else w_err WriteZero "not enough space to write raw slice".

Definition RawSlice_read_from : R RawSlice := r_err Unsupported "cannot read for RawSlice".

Definition ControlRpcMessage_write_to {T} `{MessageEncoding T} (x : ControlRpcMessage T) : W Z :=
  n1 ← u64_write_to (rpc_request_id x);
  n2 ← write_to (rpc_content x);
  mret (n1 + n2).

Definition ControlRpcMessage_read_from {T} `{MessageEncoding T} : R (ControlRpcMessage T) :=
  request_id ← bo_read 8;
  content ← read_from;
  mret {| rpc_request_id := request_id; rpc_content := content |}.

#[global] Instance AgentSessionId_encoding : MessageEncoding AgentSessionId :=
  {| write_to := AgentSessionId_write_to; read_from := AgentSessionId_read_from |}.
#[global] Instance PortProto_encoding : MessageEncoding PortProto :=
  {| write_to := PortProto_write_to; read_from := PortProto_read_from |}.
#[global] Instance PortRange_encoding : MessageEncoding PortRange :=
  {| write_to := PortRange_write_to; read_from := PortRange_read_from |}.
#[global] Instance RawSlice_encoding : MessageEncoding RawSlice :=
  {| write_to := RawSlice_write_to; read_from := RawSlice_read_from |}.
#[global] Instance ControlRpcMessage_encoding {T} `{MessageEncoding T} :
  MessageEncoding (ControlRpcMessage T) :=
  {| write_to := ControlRpcMessage_write_to; read_from := ControlRpcMessage_read_from |}.

(** ** Wire formats *)

Definition AgentSessionId_wf (x : AgentSessionId) : Prop :=
  uint 64 (asi_session_id x) ∧ uint 64 (asi_account_id x) ∧ uint 64 (asi_agent_id x).

Definition AgentSessionId_enc (x : AgentSessionId) : list byte :=
  be_bytes 8 (asi_session_id x) ++ be_bytes 8 (asi_account_id x) ++ be_bytes 8 (asi_agent_id x).

Definition PortProto_enc (x : PortProto) : list byte :=
  be_bytes 1 (match x with Tcp => 1 | Udp => 2 | Both => 3 end).

Definition PortRange_wf (x : PortRange) : Prop :=
  IpAddr_wf (pr_ip x) ∧ uint 16 (pr_port_start x) ∧ uint 16 (pr_port_end x).

Definition PortRange_enc (x : PortRange) : list byte :=
  IpAddr_enc (pr_ip x) ++ be_bytes 2 (pr_port_start x) ++ be_bytes 2 (pr_port_end x) ++
  PortProto_enc (pr_port_proto x).

Definition ControlRpcMessage_wf {T} (P : T → Prop) (x : ControlRpcMessage T) : Prop :=
  uint 64 (rpc_request_id x) ∧ P (rpc_content x).

Definition ControlRpcMessage_enc {T} (enc : T → list byte) (x : ControlRpcMessage T) : list byte :=
  be_bytes 8 (rpc_request_id x) ++ enc (rpc_content x).

#[global] Instance AgentSessionId_wf_dec x : Decision (AgentSessionId_wf x).
Proof. unfold AgentSessionId_wf. apply _. Defined.
#[global] Instance PortRange_wf_dec x : Decision (PortRange_wf x).
Proof. unfold PortRange_wf. apply _. Defined.
#[global] Instance ControlRpcMessage_wf_dec {T} (P : T → Prop) `{∀ x, Decision (P x)} x :
  Decision (ControlRpcMessage_wf P x).
Proof. unfold ControlRpcMessage_wf. apply _. Defined.

(** ** Faithfulness *)

Context {BOL : ByteOrderLaws BO} {MLL : EncodingLaws ML}.

Lemma AgentSessionId_codec :
  Codec AgentSessionId_wf AgentSessionId_enc AgentSessionId_write_to AgentSessionId_read_from.
Proof.
  split.
  - intros [s a g] (?&?&?). unfold AgentSessionId_write_to, AgentSessionId_enc.
    solve_emits; done.
  - intros [s a g] (?&?&?). unfold AgentSessionId_read_from, AgentSessionId_enc. cbn.
    solve_reads; done.
  - unfold AgentSessionId_read_from. solve_no_panic.
Qed.

Lemma PortProto_codec :
  Codec (λ _, True) PortProto_enc PortProto_write_to PortProto_read_from.
Proof.
  split.
  - intros x _. unfold PortProto_write_to, PortProto_enc. solve_emits. by destruct x.
  - intros x _. unfold PortProto_read_from. rewrite <-(app_nil_r (PortProto_enc x)).
    eapply reads_bind; [apply reads_bo_read; by destruct x|]. destruct x; apply reads_ret.
  - unfold PortProto_read_from. solve_no_panic.
Qed.
End encodings.

#[export] Hint Resolve AgentSessionId_codec PortProto_codec : codec.

Section encodings2.
Context {BO : ByteOrder} {ML : EncodingLib}.
Context {BOL : ByteOrderLaws BO} {MLL : EncodingLaws ML}.

Lemma PortRange_codec :
  Codec PortRange_wf PortRange_enc PortRange_write_to PortRange_read_from.
Proof.
  split.
  - intros [ip ps pe pp] (?&?&?). unfold PortRange_write_to, PortRange_enc. solve_emits; done.
  - intros [ip ps pe pp] (?&?&?). unfold PortRange_read_from, PortRange_enc. cbn.
    solve_reads; done.
  - unfold PortRange_read_from. solve_no_panic.
Qed.

Lemma emits_RawSlice bs :
  ∀ data, RawSlice_write_to (MkRawSlice bs) (Sink data None) =
          (Ok (Z.of_nat (length bs)), Sink (data ++ bs) None).
Proof. intros data. unfold RawSlice_write_to, mbind, W_bind. cbn. by rewrite decide_True. Qed.

Lemma ControlRpcMessage_codec {T} `{MessageEncoding T} (P : T → Prop) (enc : T → list byte) :
  Codec P enc write_to read_from →
  Codec (ControlRpcMessage_wf P) (ControlRpcMessage_enc enc)
    ControlRpcMessage_write_to ControlRpcMessage_read_from.
Proof.
  intros HT. split.
  - intros [i c] (?&?). unfold ControlRpcMessage_write_to, ControlRpcMessage_enc.
    solve_emits; done.
  - intros [i c] (?&?). unfold ControlRpcMessage_read_from, ControlRpcMessage_enc. cbn.
    solve_reads; done.
  - unfold ControlRpcMessage_read_from. solve_no_panic.
Qed.
End encodings2.

#[export] Hint Resolve PortRange_codec ControlRpcMessage_codec : codec.

(** ** Message authentication (agent_proto/src/hmac.rs)

    [HmacSha256] is a thin wrapper over the hmac crate's [Hmac<Sha256>],
    whose operations are parameters. *)

(** [Hmac<Sha256>]: [new_from_slice], [update], [finalize] and
    [verify_slice] of the [Mac] trait. *)
Class HmacLib : Type := {
  mac : Type;
  mac_new_from_slice : list byte → option mac;
  mac_update : mac → list byte → mac;
  mac_finalize : mac → list byte;
  mac_verify_slice : mac → list byte → bool;
}.

(** Documented behaviour: HMAC takes keys of any length, a SHA-256 tag has
    32 bytes, and a tag verifies when it is the tag of the input. *)
Class HmacLaws {HL : HmacLib} : Prop := {
  mac_new_ok secret : is_Some (mac_new_from_slice secret);
  mac_finalize_length m : length (mac_finalize m) = 32%nat;
  mac_verify_spec m tag : mac_verify_slice m tag = true ↔ tag = mac_finalize m;
}.

Arguments HmacLaws : clear implicits.

Section hmac.
Context {HL : HmacLib}.

Record HmacSha256 : Type := MkHmacSha256 { hmac_key : mac }.

Definition HmacSha256_create (secret : list byte) : outcome io_error HmacSha256 :=
  MkHmacSha256 <$> unwrap (mac_new_from_slice secret).

(** [Result<(), ()>] as a [bool]. *)
Definition HmacSha256_verify (h : HmacSha256) (data sig : list byte) : bool :=
  mac_verify_slice (mac_update (hmac_key h) data) sig.

Definition HmacSha256_sign (h : HmacSha256) (data : list byte) : list byte :=
  mac_finalize (mac_update (hmac_key h) data).

Definition HmacSha256_sign_fixed (h : HmacSha256) (data : list byte) : list byte :=
  HmacSha256_sign h data.

Context {HLL : HmacLaws HL}.

Lemma HmacSha256_verify_sign h data sig :
  HmacSha256_verify h data sig = true ↔ sig = HmacSha256_sign h data.
Proof. apply mac_verify_spec. Qed.

Lemma HmacSha256_sign_length h data : length (HmacSha256_sign h data) = 32%nat.
Proof. apply mac_finalize_length. Qed.

Lemma HmacSha256_create_ok secret : ∃ h, HmacSha256_create secret = Ok h.
Proof. unfold HmacSha256_create. destruct (mac_new_ok secret) as [m ->]. by eexists. Qed.
End hmac.

(** A toy instance (the tag is the first 32 bytes of key and data), which
    shows the laws can hold. *)
Definition toy_hmac : HmacLib := {|
  mac := list byte;
  mac_new_from_slice k := Some k;
  mac_update k d := k ++ d;
  mac_finalize m := take 32 (m ++ replicate 32 Byte.x00);
  mac_verify_slice m tag := bool_decide (tag = take 32 (m ++ replicate 32 Byte.x00));
|}.

Lemma toy_hmac_laws : HmacLaws toy_hmac.
Proof.
  split.
  - intros. by eexists.
  - intros m. cbn -[replicate]. rewrite length_take, length_app, length_replicate. lia.
  - intros m tag. cbn -[replicate]. by rewrite bool_decide_eq_true.
Qed.
