(* ===== verification/ControlMessages.v ===== *)
(** * Control messages (agent_proto/src/control_messages.rs)

    Requests and responses of the control protocol, their encodings as the
    sources write them, their wire formats, and the signature of the
    registration request. *)

From S2P Require Import Prelude Bytes Net Wire Proto.

(** ** Data *)

Record CheckMtuReceived : Type := { cmr_id : Z; cmr_message_size : Z }.

Record SendMtuTest : Type := {
  smt_id : Z;
  smt_data_center_id : Z;
  smt_udp_payload_length : Z;
}.

Record AgentCheckPortMapping : Type := {
  acpm_agent_session_id : AgentSessionId;
  acpm_port_range : PortRange;
}.

Record Ping : Type := {
  ping_now : Z;
  ping_current_ping : option Z;
  ping_session_id : option AgentSessionId;
}.

Record AgentRegister : Type := {
  ar_proto_version : Z;
  ar_account_id : Z;
  ar_agent_id : Z;
  ar_agent_version : Z;
  ar_timestamp : Z;
  ar_client_addr : SocketAddr;
  ar_tunnel_addr : SocketAddr;
  ar_signature : list byte;
}.

Record AgentRegisterV1 : Type := {
  ar1_account_id : Z;
  ar1_agent_id : Z;
  ar1_agent_version : Z;
  ar1_timestamp : Z;
  ar1_client_addr : SocketAddr;
  ar1_tunnel_addr : SocketAddr;
  ar1_signature : list byte;
}.

Inductive ControlRequest : Type :=
  | ReqPing (data : Ping)
  | ReqAgentRegister (data : AgentRegister)
  | ReqAgentKeepAlive (data : AgentSessionId)
  | ReqSetupUdpChannel (data : AgentSessionId)
  | ReqAgentCheckPortMapping (data : AgentCheckPortMapping)
  | ReqCheckMtuReceived (data : CheckMtuReceived)
  | ReqSendMtuTest (data : SendMtuTest).

(** [#\[repr(u32)\] enum ControlRequestId]. *)
Inductive ControlRequestId : Type :=
  | PingV1_Id
  | AgentRegisterV1_Id
  | AgentKeepAliveV1_Id
  | SetupUdpChannelV1_Id
  | AgentCheckPortMappingV1_Id
  | PingV2_Id
  | AgentRegisterV2_Id
  | CheckMtuReceivedV1_Id
  | SendMtuTestV1_Id
  | END_Id.

Record CheckMtuReceivedAck : Type := {
  ack_id : Z;
  ack_message_length : Z;
  ack_ip_header_length : Z;
  ack_udp_payload_length : Z;
}.

Record MtuTestPacket : Type := {
  mtp_data_center_id : Z;
  mtp_udp_payload_length : Z;
}.

Inductive MtuTestFailCode : Type :=
  | InvalidUdpPayloadLength
  | InvalidDcId
  | UnknownCode.

Record MtuTestFail : Type := { mtf_error_code : MtuTestFailCode }.

Inductive AgentPortMappingFound : Type := ToAgent (id : AgentSessionId).

Record AgentPortMapping : Type := {
  apm_range : PortRange;
  apm_found : option AgentPortMappingFound;
}.

Record UdpChannelDetails : Type := {
  ucd_tunnel_addr : SocketAddr;
  ucd_token : list byte;
}.

Record Pong : Type := {
  pong_request_now : Z;
  pong_server_now : Z;
  pong_server_id : Z;
  pong_data_center_id : Z;
  pong_client_addr : SocketAddr;
  pong_tunnel_addr : SocketAddr;
  pong_session_expire_at : option Z;
}.

Record AgentRegistered : Type := {
  reg_id : AgentSessionId;
  reg_expires_at : Z;
}.

Inductive ControlResponse : Type :=
  | ResPong (data : Pong)
  | ResInvalidSignature
  | ResUnauthorized
  | ResRequestQueued
  | ResTryAgainLater
  | ResAgentRegistered (data : AgentRegistered)
  | ResAgentPortMapping (data : AgentPortMapping)
  | ResUdpChannelDetails (data : UdpChannelDetails)
  | ResCheckMtuReceivedAck (data : CheckMtuReceivedAck)
  | ResMtuTestPacket (data : MtuTestPacket)
  | ResMtuTestFail (data : MtuTestFail).

#[global] Instance CheckMtuReceived_eq_dec : EqDecision CheckMtuReceived.
Proof. solve_decision. Defined.
#[global] Instance SendMtuTest_eq_dec : EqDecision SendMtuTest.
Proof. solve_decision. Defined.
#[global] Instance AgentCheckPortMapping_eq_dec : EqDecision AgentCheckPortMapping.
Proof. solve_decision. Defined.
#[global] Instance Ping_eq_dec : EqDecision Ping.
Proof. solve_decision. Defined.
#[global] Instance AgentRegister_eq_dec : EqDecision AgentRegister.
Proof. solve_decision. Defined.
#[global] Instance ControlRequestId_eq_dec : EqDecision ControlRequestId.
Proof. solve_decision. Defined.
#[global] Instance CheckMtuReceivedAck_eq_dec : EqDecision CheckMtuReceivedAck.
Proof. solve_decision. Defined.
#[global] Instance MtuTestPacket_eq_dec : EqDecision MtuTestPacket.
Proof. solve_decision. Defined.
#[global] Instance MtuTestFailCode_eq_dec : EqDecision MtuTestFailCode.
Proof. solve_decision. Defined.
#[global] Instance MtuTestFail_eq_dec : EqDecision MtuTestFail.
Proof. solve_decision. Defined.
#[global] Instance AgentPortMappingFound_eq_dec : EqDecision AgentPortMappingFound.
Proof. solve_decision. Defined.
#[global] Instance AgentPortMapping_eq_dec : EqDecision AgentPortMapping.
Proof. solve_decision. Defined.
#[global] Instance UdpChannelDetails_eq_dec : EqDecision UdpChannelDetails.
Proof. solve_decision. Defined.
#[global] Instance Pong_eq_dec : EqDecision Pong.
Proof. solve_decision. Defined.
#[global] Instance AgentRegistered_eq_dec : EqDecision AgentRegistered.
Proof. solve_decision. Defined.
#[global] Instance ControlResponse_eq_dec : EqDecision ControlResponse.
Proof. solve_decision. Defined.

(** ** Request ids *)

(** [id as u32]. *)
Definition ControlRequestId_num (id : ControlRequestId) : Z :=
  match id with
  | PingV1_Id => 1
  | AgentRegisterV1_Id => 2
  | AgentKeepAliveV1_Id => 3
  | SetupUdpChannelV1_Id => 4
  | AgentCheckPortMappingV1_Id => 5
  | PingV2_Id => 6
  | AgentRegisterV2_Id => 7
  | CheckMtuReceivedV1_Id => 8
  | SendMtuTestV1_Id => 9
  | END_Id => 10
  end.

(** The [transmute] gives the variant with that discriminant; numbers
    without a variant would be undefined behaviour ([None] here). *)
Definition ControlRequestId_transmute (num : Z) : option ControlRequestId :=
  match num with
  | 1 => Some PingV1_Id
  | 2 => Some AgentRegisterV1_Id
  | 3 => Some AgentKeepAliveV1_Id
  | 4 => Some SetupUdpChannelV1_Id
  | 5 => Some AgentCheckPortMappingV1_Id
  | 6 => Some PingV2_Id
  | 7 => Some AgentRegisterV2_Id
  | 8 => Some CheckMtuReceivedV1_Id
  | 9 => Some SendMtuTestV1_Id
  | 10 => Some END_Id
  | _ => None
  end.

Definition ControlRequestId_from_num (num : Z) : option ControlRequestId :=
  if decide (ControlRequestId_num END_Id ≤ num ∨ num = 0) then None
  else ControlRequestId_transmute num.

(** ** The MTU test pattern *)

Definition MTU_PATTERN_SIZE : nat := 4.

Definition PATTERN : list byte := [Byte.x0a; Byte.x0b; Byte.x0c; Byte.x0d].

Definition MTU_TEST_PATTERN : list byte :=
  (λ i, default Byte.x00 (PATTERN !! (i `mod` 4)%nat)) <$> seq 0 2048.

Definition write_mtu_pattern (len : nat) : W Z :=
  if decide (len ≤ 2048)%nat
  then write_all (take len MTU_TEST_PATTERN);; mret (Z.of_nat len)
  else w_panic.

(** One iteration consumes at least one byte of the input, so the input's
    length bounds the iterations; running out of [fuel] is a [Panic]. *)
Fixpoint verify_mtu_loop (fuel i len : nat) (bs : list byte) {struct fuel} :
    outcome io_error (() * list byte) :=
  match fuel with
  | O => Panic
  | S fuel =>
      if decide (i < len)%nat then
        let size := Nat.min (len - i) 128 in
        '(buffer, rest) ← read_exact size bs;
        offset ← slice_from (i `mod` MTU_PATTERN_SIZE)%nat MTU_TEST_PATTERN;
        expect ← slice_to size offset;
        if decide (buffer = expect) then verify_mtu_loop fuel (i + size) len rest
        else Err (IoError InvalidData "invalid mtu test pattern")
      else Ok ((), bs)
  end.

Definition read_and_verify_mtu_pattern (len : nat) : R () := λ bs,
  verify_mtu_loop (S (length bs)) 0 len bs.

(** [ENCODING_INCLUDES_VERSION_BIT] *)
Definition ENCODING_INCLUDES_VERSION_BIT : Z := Z.shiftl 1 63.

Definition has_version_bit (v : Z) : bool :=
  bool_decide (Z.land v ENCODING_INCLUDES_VERSION_BIT = ENCODING_INCLUDES_VERSION_BIT).

(** [!bit] of a [u64]. *)
Definition u64_not (v : Z) : Z := 2 ^ 64 - 1 - v.

(** ** Encodings *)

Section encodings.
Context {BO : ByteOrder} {ML : EncodingLib}.

Definition ControlRequestId_write_to (id : ControlRequestId) : W Z :=
  u32_write_to (ControlRequestId_num id).

Definition ControlRequestId_read_from : R ControlRequestId :=
  v ← u32_read_from;
  r_lift (ok_or (IoError InvalidData "invalid request id") (ControlRequestId_from_num v)).

Definition CheckMtuReceived_write_to (x : CheckMtuReceived) : W Z :=
  n1 ← u64_write_to (cmr_id x);
  n2 ← u32_write_to (cmr_message_size x);
  n3 ← write_mtu_pattern (Z.to_nat (cmr_message_size x));
  mret (n1 + n2 + n3).

Definition CheckMtuReceived_read_from : R CheckMtuReceived :=
  id ← u64_read_from;
  message_size ← u32_read_from;
  read_and_verify_mtu_pattern (Z.to_nat message_size);;
  mret {| cmr_id := id; cmr_message_size := message_size |}.

Definition SendMtuTest_write_to (x : SendMtuTest) : W Z :=
  n1 ← u64_write_to (smt_id x);
  n2 ← u32_write_to (smt_data_center_id x);
  n3 ← u32_write_to (smt_udp_payload_length x);
  mret (n1 + n2 + n3).

Definition SendMtuTest_read_from : R SendMtuTest :=
  id ← u64_read_from;
  data_center_id ← u32_read_from;
  udp_payload_length ← u32_read_from;
  mret {| smt_id := id; smt_data_center_id := data_center_id;
          smt_udp_payload_length := udp_payload_length |}.

Definition SendMtuTest_STATIC_SIZE : Z := 8 + 4 + 4.

Definition AgentCheckPortMapping_write_to (x : AgentCheckPortMapping) : W Z :=
  n1 ← AgentSessionId_write_to (acpm_agent_session_id x);
  n2 ← PortRange_write_to (acpm_port_range x);
  mret (n1 + n2).

Definition AgentCheckPortMapping_read_from : R AgentCheckPortMapping :=
  agent_session_id ← AgentSessionId_read_from;
  port_range ← PortRange_read_from;
  mret {| acpm_agent_session_id := agent_session_id; acpm_port_range := port_range |}.

Definition Ping_write_to (x : Ping) : W Z :=
  n1 ← u64_write_to (ping_now x);
  n2 ← option_write_to u32_write_to (ping_current_ping x);
  n3 ← option_write_to AgentSessionId_write_to (ping_session_id x);
  mret (n1 + n2 + n3).

Definition Ping_read_from : R Ping :=
  now ← u64_read_from;
  current_ping ← option_read_from u32_read_from;
  session_id ← option_read_from AgentSessionId_read_from;
  mret {| ping_now := now; ping_current_ping := current_ping; ping_session_id := session_id |}.

(** The fields after the account id. *)
Definition AgentRegister_write_tail (x : AgentRegister) (sum : Z) : W Z :=
  n1 ← u64_write_to (ar_agent_id x);
  n2 ← u64_write_to (ar_agent_version x);
  n3 ← u64_write_to (ar_timestamp x);
  n4 ← SocketAddr_write_to (ar_client_addr x);
  n5 ← SocketAddr_write_to (ar_tunnel_addr x);
  write_all (ar_signature x);;
  mret (sum + n1 + n2 + n3 + n4 + n5 + Z.of_nat (length (ar_signature x))).

Definition AgentRegister_write_to (x : AgentRegister) : W Z :=
  if decide (ar_proto_version x ≤ 1) then
    if has_version_bit (ar_account_id x)
    then w_err InvalidInput "account id too large for proto version 1"
    else
      sum ← u64_write_to (ar_account_id x);
      AgentRegister_write_tail x sum
  else
    if has_version_bit (ar_proto_version x)
    then w_err InvalidInput "invalid proto version"
    else
      n1 ← u64_write_to (Z.lor (ar_proto_version x) ENCODING_INCLUDES_VERSION_BIT);
      n2 ← u64_write_to (ar_account_id x);
      AgentRegister_write_tail x (n1 + n2).

Definition AgentRegister_read_tail (proto_version account_id : Z) : R AgentRegister :=
  agent_id ← u64_read_from;
  agent_version ← u64_read_from;
  timestamp ← u64_read_from;
  client_addr ← SocketAddr_read_from;
  tunnel_addr ← SocketAddr_read_from;
  signature ← read_exact 32;
  mret {| ar_proto_version := proto_version; ar_account_id := account_id;
          ar_agent_id := agent_id; ar_agent_version := agent_version;
          ar_timestamp := timestamp; ar_client_addr := client_addr;
          ar_tunnel_addr := tunnel_addr; ar_signature := signature |}.

Definition AgentRegister_read_from : R AgentRegister :=
  first_word ← u64_read_from;
  if has_version_bit first_word then
    account_id ← u64_read_from;
    AgentRegister_read_tail (Z.land first_word (u64_not ENCODING_INCLUDES_VERSION_BIT)) account_id
  else AgentRegister_read_tail 1 first_word.

Definition AgentRegisterV1_write_to (x : AgentRegisterV1) : W Z :=
  bo_write 8 (ar1_account_id x);;
  bo_write 8 (ar1_agent_id x);;
  bo_write 8 (ar1_agent_version x);;
  bo_write 8 (ar1_timestamp x);;
  n1 ← SocketAddr_write_to (ar1_client_addr x);
  n2 ← SocketAddr_write_to (ar1_tunnel_addr x);
  written ← sink_write (ar1_signature x);
  if decide (written = 32) then mret (8 + 8 + 8 + 8 + n1 + n2 + 32)
  else w_err WriteZero "failed to write full signature".

Definition AgentRegisterV1_read_from : R AgentRegisterV1 :=
  account_id ← bo_read 8;
  agent_id ← bo_read 8;
  agent_version ← bo_read 8;
  timestamp ← bo_read 8;
  client_addr ← SocketAddr_read_from;
  tunnel_addr ← SocketAddr_read_from;
  signature ← slice_read 32;
  if decide (length signature = 32%nat) then
    mret {| ar1_account_id := account_id; ar1_agent_id := agent_id;
            ar1_agent_version := agent_version; ar1_timestamp := timestamp;
            ar1_client_addr := client_addr; ar1_tunnel_addr := tunnel_addr;
            ar1_signature := signature |}
  else r_err UnexpectedEof "missing signature".

Definition AgentRegisterV1_upgrade (x : AgentRegisterV1) : AgentRegister :=
  {| ar_proto_version := 1; ar_account_id := ar1_account_id x; ar_agent_id := ar1_agent_id x;
     ar_agent_version := ar1_agent_version x; ar_timestamp := ar1_timestamp x;
     ar_client_addr := ar1_client_addr x; ar_tunnel_addr := ar1_tunnel_addr x;
     ar_signature := ar1_signature x |}.

Definition ControlRequest_write_to (x : ControlRequest) : W Z :=
  match x with
  | ReqPing data =>
      n1 ← ControlRequestId_write_to PingV2_Id;
      n2 ← Ping_write_to data;
      mret (n1 + n2)
  | ReqAgentRegister data =>
      n1 ← (if decide (ar_proto_version data ≤ 1)
            then ControlRequestId_write_to AgentRegisterV1_Id
            else ControlRequestId_write_to AgentRegisterV2_Id);
      n2 ← AgentRegister_write_to data;
      mret (n1 + n2)
  | ReqAgentKeepAlive data =>
      n1 ← ControlRequestId_write_to AgentKeepAliveV1_Id;
      n2 ← AgentSessionId_write_to data;
      mret (n1 + n2)
  | ReqSetupUdpChannel data =>
      n1 ← ControlRequestId_write_to SetupUdpChannelV1_Id;
      n2 ← AgentSessionId_write_to data;
      mret (n1 + n2)
  | ReqAgentCheckPortMapping data =>
      n1 ← ControlRequestId_write_to AgentCheckPortMappingV1_Id;
      n2 ← AgentCheckPortMapping_write_to data;
      mret (n1 + n2)
  | ReqCheckMtuReceived data =>
      n1 ← ControlRequestId_write_to CheckMtuReceivedV1_Id;
      n2 ← CheckMtuReceived_write_to data;
      mret (n1 + n2)
  | ReqSendMtuTest data =>
      n1 ← ControlRequestId_write_to SendMtuTestV1_Id;
      n2 ← SendMtuTest_write_to data;
      mret (n1 + n2)
  end.

Definition ControlRequest_read_from : R ControlRequest :=
  id ← ControlRequestId_read_from;
  match id with
  | PingV2_Id => x ← Ping_read_from; mret (ReqPing x)
  | AgentRegisterV1_Id =>
      x ← AgentRegisterV1_read_from; mret (ReqAgentRegister (AgentRegisterV1_upgrade x))
  | AgentRegisterV2_Id => x ← AgentRegister_read_from; mret (ReqAgentRegister x)
  | AgentKeepAliveV1_Id => x ← AgentSessionId_read_from; mret (ReqAgentKeepAlive x)
  | SetupUdpChannelV1_Id => x ← AgentSessionId_read_from; mret (ReqSetupUdpChannel x)
  | AgentCheckPortMappingV1_Id =>
      x ← AgentCheckPortMapping_read_from; mret (ReqAgentCheckPortMapping x)
  | CheckMtuReceivedV1_Id => x ← CheckMtuReceived_read_from; mret (ReqCheckMtuReceived x)
  | SendMtuTestV1_Id => x ← SendMtuTest_read_from; mret (ReqSendMtuTest x)
  | PingV1_Id =>
      now ← u64_read_from;
      mret (ReqPing {| ping_now := now; ping_current_ping := None; ping_session_id := None |})
  | END_Id => r_err Other "old control request no longer supported"
  end.

Definition CheckMtuReceivedAck_write_to (x : CheckMtuReceivedAck) : W Z :=
  n1 ← u64_write_to (ack_id x);
  n2 ← u32_write_to (ack_message_length x);
  n3 ← u32_write_to (ack_ip_header_length x);
  n4 ← u32_write_to (ack_udp_payload_length x);
  mret (n1 + n2 + n3 + n4).

Definition CheckMtuReceivedAck_read_from : R CheckMtuReceivedAck :=
  id ← u64_read_from;
  message_length ← u32_read_from;
  ip_header_length ← u32_read_from;
  udp_payload_length ← u32_read_from;
  mret {| ack_id := id; ack_message_length := message_length;
          ack_ip_header_length := ip_header_length;
          ack_udp_payload_length := udp_payload_length |}.

Definition CheckMtuReceivedAck_STATIC_SIZE : Z := 8 + 4 + 4 + 4.

Definition MtuTestPacket_STATIC_SIZE : Z := 4.

(** The count of the first write is dropped. *)
Definition MtuTestPacket_write_to (x : MtuTestPacket) : W Z :=
  u32_write_to (mtp_data_center_id x);;
  u32_write_to (mtp_udp_payload_length x).

Definition MtuTestPacket_read_from : R MtuTestPacket :=
  data_center_id ← u32_read_from;
  udp_payload_length ← u32_read_from;
  mret {| mtp_data_center_id := data_center_id; mtp_udp_payload_length := udp_payload_length |}.

Definition MtuTestFailCode_num (c : MtuTestFailCode) : Z :=
  match c with
  | InvalidUdpPayloadLength => 0
  | InvalidDcId => 1
  | UnknownCode => 2
  end.

Definition MtuTestFailCode_write_to (c : MtuTestFailCode) : W Z :=
  u32_write_to (MtuTestFailCode_num c).

Definition MtuTestFailCode_read_from : R MtuTestFailCode :=
  num ← u32_read_from;
  if decide (MtuTestFailCode_num UnknownCode ≤ num) then mret UnknownCode
  else mret (if decide (num = 0) then InvalidUdpPayloadLength else InvalidDcId).

Definition MtuTestFailCode_STATIC_SIZE : Z := 4.

Definition MtuTestFail_write_to (x : MtuTestFail) : W Z :=
  MtuTestFailCode_write_to (mtf_error_code x).

Definition MtuTestFail_read_from : R MtuTestFail :=
  error_code ← MtuTestFailCode_read_from;
  mret {| mtf_error_code := error_code |}.

Definition AgentPortMappingFound_write_to (x : AgentPortMappingFound) : W Z :=
  match x with
  | ToAgent id =>
      n1 ← u32_write_to 1;
      n2 ← AgentSessionId_write_to id;
      mret (n1 + n2)
  end.

Definition AgentPortMappingFound_read_from : R AgentPortMappingFound :=
  tag ← bo_read 4;
  match tag with
  | 1 => id ← AgentSessionId_read_from; mret (ToAgent id)
  | _ => r_err Other "unknown AgentPortMappingFound id"
  end.

Definition AgentPortMapping_write_to (x : AgentPortMapping) : W Z :=
  n1 ← PortRange_write_to (apm_range x);
  n2 ← option_write_to AgentPortMappingFound_write_to (apm_found x);
  mret (n1 + n2).

Definition AgentPortMapping_read_from : R AgentPortMapping :=
  range ← PortRange_read_from;
  found ← option_read_from AgentPortMappingFound_read_from;
  mret {| apm_range := range; apm_found := found |}.

Definition UdpChannelDetails_write_to (x : UdpChannelDetails) : W Z :=
  n1 ← SocketAddr_write_to (ucd_tunnel_addr x);
  n2 ← vec_write_to (ucd_token x);
  mret (n1 + n2).

Definition UdpChannelDetails_read_from : R UdpChannelDetails :=
  tunnel_addr ← SocketAddr_read_from;
  token ← vec_read_from;
  mret {| ucd_tunnel_addr := tunnel_addr; ucd_token := token |}.

Definition Pong_write_to (x : Pong) : W Z :=
  n1 ← u64_write_to (pong_request_now x);
  n2 ← u64_write_to (pong_server_now x);
  n3 ← u64_write_to (pong_server_id x);
  n4 ← u32_write_to (pong_data_center_id x);
  n5 ← SocketAddr_write_to (pong_client_addr x);
  n6 ← SocketAddr_write_to (pong_tunnel_addr x);
  n7 ← option_write_to u64_write_to (pong_session_expire_at x);
  mret (n1 + n2 + n3 + n4 + n5 + n6 + n7).

Definition Pong_read_from : R Pong :=
  request_now ← bo_read 8;
  server_now ← bo_read 8;
  server_id ← bo_read 8;
  data_center_id ← bo_read 4;
  client_addr ← SocketAddr_read_from;
  tunnel_addr ← SocketAddr_read_from;
  session_expire_at ← option_read_from u64_read_from;
  mret {| pong_request_now := request_now; pong_server_now := server_now;
          pong_server_id := server_id; pong_data_center_id := data_center_id;
          pong_client_addr := client_addr; pong_tunnel_addr := tunnel_addr;
          pong_session_expire_at := session_expire_at |}.

Definition AgentRegistered_write_to (x : AgentRegistered) : W Z :=
  n1 ← AgentSessionId_write_to (reg_id x);
  n2 ← u64_write_to (reg_expires_at x);
  mret (n1 + n2).

Definition AgentRegistered_read_from : R AgentRegistered :=
  id ← AgentSessionId_read_from;
  expires_at ← bo_read 8;
  mret {| reg_id := id; reg_expires_at := expires_at |}.

Definition ControlResponse_write_to (x : ControlResponse) : W Z :=
  match x with
  | ResPong data => n1 ← u32_write_to 1; n2 ← Pong_write_to data; mret (n1 + n2)
  | ResInvalidSignature => u32_write_to 2
  | ResUnauthorized => u32_write_to 3
  | ResRequestQueued => u32_write_to 4
  | ResTryAgainLater => u32_write_to 5
  | ResAgentRegistered data =>
      n1 ← u32_write_to 6; n2 ← AgentRegistered_write_to data; mret (n1 + n2)
  | ResAgentPortMapping data =>
      n1 ← u32_write_to 7; n2 ← AgentPortMapping_write_to data; mret (n1 + n2)
  | ResUdpChannelDetails data =>
      n1 ← u32_write_to 8; n2 ← UdpChannelDetails_write_to data; mret (n1 + n2)
  | ResCheckMtuReceivedAck data =>
      n1 ← u32_write_to 9; n2 ← CheckMtuReceivedAck_write_to data; mret (n1 + n2)
  | ResMtuTestPacket data =>
      n1 ← u32_write_to 10; n2 ← MtuTestPacket_write_to data; mret (n1 + n2)
  | ResMtuTestFail data =>
      n1 ← u32_write_to 11; n2 ← MtuTestFail_write_to data; mret (n1 + n2)
  end.

Definition ControlResponse_read_from : R ControlResponse :=
  tag ← bo_read 4;
  match tag with
  | 1 => x ← Pong_read_from; mret (ResPong x)
  | 2 => mret ResInvalidSignature
  | 3 => mret ResUnauthorized
  | 4 => mret ResRequestQueued
  | 5 => mret ResTryAgainLater
  | 6 => x ← AgentRegistered_read_from; mret (ResAgentRegistered x)
  | 7 => x ← AgentPortMapping_read_from; mret (ResAgentPortMapping x)
  | 8 => x ← UdpChannelDetails_read_from; mret (ResUdpChannelDetails x)
  | 9 => x ← CheckMtuReceivedAck_read_from; mret (ResCheckMtuReceivedAck x)
  | 10 => x ← MtuTestPacket_read_from; mret (ResMtuTestPacket x)
  | 11 => x ← MtuTestFail_read_from; mret (ResMtuTestFail x)
  | _ => r_err Other "invalid ControlResponse id"
  end.

#[global] Instance ControlRequest_encoding : MessageEncoding ControlRequest :=
  {| write_to := ControlRequest_write_to; read_from := ControlRequest_read_from |}.
#[global] Instance ControlResponse_encoding : MessageEncoding ControlResponse :=
  {| write_to := ControlResponse_write_to; read_from := ControlResponse_read_from |}.

(** ** The registration signature *)

Context {HL : HmacLib}.

(** [write_plain(&self, temp_buffer)]: the buffer afterwards. The buffer is
    cleared first, so its old contents do not matter. *)
Definition AgentRegister_write_plain (x : AgentRegister) (temp_buffer : list byte) :
    outcome io_error (list byte) :=
  match AgentRegister_write_to x (Sink [] None) with
  | (Ok _, s) =>
      assert (bool_decide (length (ar_signature x) ≤ length (sk_data s))%nat);;
      Ok (take (length (sk_data s) - length (ar_signature x)) (sk_data s))
  | (_, _) => Panic
  end.

Definition with_signature (x : AgentRegister) (sig : list byte) : AgentRegister :=
  {| ar_proto_version := ar_proto_version x; ar_account_id := ar_account_id x;
     ar_agent_id := ar_agent_id x; ar_agent_version := ar_agent_version x;
     ar_timestamp := ar_timestamp x; ar_client_addr := ar_client_addr x;
     ar_tunnel_addr := ar_tunnel_addr x; ar_signature := sig |}.

(** [update_signature]: the message and the buffer afterwards. *)
Definition AgentRegister_update_signature (x : AgentRegister) (temp_buffer : list byte)
    (hmac : HmacSha256) : outcome io_error (AgentRegister * list byte) :=
  plain ← AgentRegister_write_plain x temp_buffer;
  Ok (with_signature x (HmacSha256_sign hmac plain), plain).

Definition AgentRegister_verify_signature (x : AgentRegister) (temp_buffer : list byte)
    (hmac : HmacSha256) : outcome io_error (bool * list byte) :=
  plain ← AgentRegister_write_plain x temp_buffer;
  Ok (HmacSha256_verify hmac plain (ar_signature x), plain).
End encodings.
