(* ===== verification/ControlFormat.v ===== *)
(** * Wire formats of the control messages, and their implementations' faithfulness

    For every message of control_messages.rs: the values its Rust type can
    hold ([_wf]), the bytes it has on the wire ([_enc]), and the proof that
    the writer emits and the reader accepts exactly these bytes. *)

From S2P Require Import Prelude Bytes Net Wire Proto ControlMessages.

(** ** Formats *)

Section formats.
Context {ML : EncodingLib}.

Definition id_enc (id : ControlRequestId) : list byte := be_bytes 4 (ControlRequestId_num id).

Definition CheckMtuReceived_wf (x : CheckMtuReceived) : Prop :=
  uint 64 (cmr_id x) ∧ 0 ≤ cmr_message_size x ≤ 2048.

Definition CheckMtuReceived_enc (x : CheckMtuReceived) : list byte :=
  be_bytes 8 (cmr_id x) ++ be_bytes 4 (cmr_message_size x) ++
  take (Z.to_nat (cmr_message_size x)) MTU_TEST_PATTERN.

Definition SendMtuTest_wf (x : SendMtuTest) : Prop :=
  uint 64 (smt_id x) ∧ uint 32 (smt_data_center_id x) ∧ uint 32 (smt_udp_payload_length x).

Definition SendMtuTest_enc (x : SendMtuTest) : list byte :=
  be_bytes 8 (smt_id x) ++ be_bytes 4 (smt_data_center_id x) ++
  be_bytes 4 (smt_udp_payload_length x).

Definition AgentCheckPortMapping_wf (x : AgentCheckPortMapping) : Prop :=
  AgentSessionId_wf (acpm_agent_session_id x) ∧ PortRange_wf (acpm_port_range x).

Definition AgentCheckPortMapping_enc (x : AgentCheckPortMapping) : list byte :=
  AgentSessionId_enc (acpm_agent_session_id x) ++ PortRange_enc (acpm_port_range x).

Definition Ping_wf (x : Ping) : Prop :=
  uint 64 (ping_now x) ∧ option_P (uint 32) (ping_current_ping x) ∧
  option_P AgentSessionId_wf (ping_session_id x).

Definition Ping_enc (x : Ping) : list byte :=
  be_bytes 8 (ping_now x) ++ option_enc (be_bytes 4) (ping_current_ping x) ++
  option_enc AgentSessionId_enc (ping_session_id x).

(** What an [AgentRegister] can hold. *)
Definition AgentRegister_wf (x : AgentRegister) : Prop :=
  uint 64 (ar_proto_version x) ∧ uint 64 (ar_account_id x) ∧ uint 64 (ar_agent_id x) ∧
  uint 64 (ar_agent_version x) ∧ uint 64 (ar_timestamp x) ∧
  SocketAddr_plain (ar_client_addr x) ∧ SocketAddr_plain (ar_tunnel_addr x) ∧
  length (ar_signature x) = 32%nat.

(** What its encoding can carry: the top bit of the first word tells the two
    formats apart. *)
Definition AgentRegister_encodable (x : AgentRegister) : Prop :=
  if decide (ar_proto_version x ≤ 1) then ar_account_id x < 2 ^ 63
  else ar_proto_version x < 2 ^ 63.

Definition AgentRegister_tail_enc (x : AgentRegister) : list byte :=
  be_bytes 8 (ar_agent_id x) ++ be_bytes 8 (ar_agent_version x) ++
  be_bytes 8 (ar_timestamp x) ++ SocketAddr_enc (ar_client_addr x) ++
  SocketAddr_enc (ar_tunnel_addr x) ++ ar_signature x.

Definition AgentRegister_head_enc (x : AgentRegister) : list byte :=
  if decide (ar_proto_version x ≤ 1) then be_bytes 8 (ar_account_id x)
  else be_bytes 8 (Z.lor (ar_proto_version x) ENCODING_INCLUDES_VERSION_BIT) ++
       be_bytes 8 (ar_account_id x).

Definition AgentRegister_enc (x : AgentRegister) : list byte :=
  AgentRegister_head_enc x ++ AgentRegister_tail_enc x.

(** Versions 0 and 1 share a format; the reader reports 1. *)
Definition AgentRegister_norm (x : AgentRegister) : AgentRegister :=
  {| ar_proto_version := Z.max 1 (ar_proto_version x); ar_account_id := ar_account_id x;
     ar_agent_id := ar_agent_id x; ar_agent_version := ar_agent_version x;
     ar_timestamp := ar_timestamp x; ar_client_addr := ar_client_addr x;
     ar_tunnel_addr := ar_tunnel_addr x; ar_signature := ar_signature x |}.

Definition ControlRequest_wf (x : ControlRequest) : Prop :=
  match x with
  | ReqPing d => Ping_wf d
  | ReqAgentRegister d => AgentRegister_wf d ∧ AgentRegister_encodable d
  | ReqAgentKeepAlive d | ReqSetupUdpChannel d => AgentSessionId_wf d
  | ReqAgentCheckPortMapping d => AgentCheckPortMapping_wf d
  | ReqCheckMtuReceived d => CheckMtuReceived_wf d
  | ReqSendMtuTest d => SendMtuTest_wf d
  end.

Definition ControlRequest_enc (x : ControlRequest) : list byte :=
  match x with
  | ReqPing d => id_enc PingV2_Id ++ Ping_enc d
  | ReqAgentRegister d =>
      id_enc (if decide (ar_proto_version d ≤ 1) then AgentRegisterV1_Id else AgentRegisterV2_Id) ++
      AgentRegister_enc d
  | ReqAgentKeepAlive d => id_enc AgentKeepAliveV1_Id ++ AgentSessionId_enc d
  | ReqSetupUdpChannel d => id_enc SetupUdpChannelV1_Id ++ AgentSessionId_enc d
  | ReqAgentCheckPortMapping d => id_enc AgentCheckPortMappingV1_Id ++ AgentCheckPortMapping_enc d
  | ReqCheckMtuReceived d => id_enc CheckMtuReceivedV1_Id ++ CheckMtuReceived_enc d
  | ReqSendMtuTest d => id_enc SendMtuTestV1_Id ++ SendMtuTest_enc d
  end.

Definition ControlRequest_norm (x : ControlRequest) : ControlRequest :=
  match x with
  | ReqAgentRegister d => ReqAgentRegister (AgentRegister_norm d)
  | _ => x
  end.

Definition CheckMtuReceivedAck_wf (x : CheckMtuReceivedAck) : Prop :=
  uint 64 (ack_id x) ∧ uint 32 (ack_message_length x) ∧ uint 32 (ack_ip_header_length x) ∧
  uint 32 (ack_udp_payload_length x).

Definition CheckMtuReceivedAck_enc (x : CheckMtuReceivedAck) : list byte :=
  be_bytes 8 (ack_id x) ++ be_bytes 4 (ack_message_length x) ++
  be_bytes 4 (ack_ip_header_length x) ++ be_bytes 4 (ack_udp_payload_length x).

Definition MtuTestPacket_wf (x : MtuTestPacket) : Prop :=
  uint 32 (mtp_data_center_id x) ∧ uint 32 (mtp_udp_payload_length x).

Definition MtuTestPacket_enc (x : MtuTestPacket) : list byte :=
  be_bytes 4 (mtp_data_center_id x) ++ be_bytes 4 (mtp_udp_payload_length x).

Definition MtuTestFail_enc (x : MtuTestFail) : list byte :=
  be_bytes 4 (MtuTestFailCode_num (mtf_error_code x)).

Definition AgentPortMappingFound_wf (x : AgentPortMappingFound) : Prop :=
  match x with
  | ToAgent id => AgentSessionId_wf id
  end.

Definition AgentPortMappingFound_enc (x : AgentPortMappingFound) : list byte :=
  match x with
  | ToAgent id => be_bytes 4 1 ++ AgentSessionId_enc id
  end.

Definition AgentPortMapping_wf (x : AgentPortMapping) : Prop :=
  PortRange_wf (apm_range x) ∧ option_P AgentPortMappingFound_wf (apm_found x).

Definition AgentPortMapping_enc (x : AgentPortMapping) : list byte :=
  PortRange_enc (apm_range x) ++ option_enc AgentPortMappingFound_enc (apm_found x).

Definition UdpChannelDetails_wf (x : UdpChannelDetails) : Prop :=
  SocketAddr_plain (ucd_tunnel_addr x) ∧ Z.of_nat (length (ucd_token x)) < vec_limit.

Definition UdpChannelDetails_enc (x : UdpChannelDetails) : list byte :=
  SocketAddr_enc (ucd_tunnel_addr x) ++ vec_enc (ucd_token x).

Definition Pong_wf (x : Pong) : Prop :=
  uint 64 (pong_request_now x) ∧ uint 64 (pong_server_now x) ∧ uint 64 (pong_server_id x) ∧
  uint 32 (pong_data_center_id x) ∧ SocketAddr_plain (pong_client_addr x) ∧
  SocketAddr_plain (pong_tunnel_addr x) ∧ option_P (uint 64) (pong_session_expire_at x).

Definition Pong_enc (x : Pong) : list byte :=
  be_bytes 8 (pong_request_now x) ++ be_bytes 8 (pong_server_now x) ++
  be_bytes 8 (pong_server_id x) ++ be_bytes 4 (pong_data_center_id x) ++
  SocketAddr_enc (pong_client_addr x) ++ SocketAddr_enc (pong_tunnel_addr x) ++
  option_enc (be_bytes 8) (pong_session_expire_at x).

Definition AgentRegistered_wf (x : AgentRegistered) : Prop :=
  AgentSessionId_wf (reg_id x) ∧ uint 64 (reg_expires_at x).

Definition AgentRegistered_enc (x : AgentRegistered) : list byte :=
  AgentSessionId_enc (reg_id x) ++ be_bytes 8 (reg_expires_at x).

Definition ControlResponse_wf (x : ControlResponse) : Prop :=
  match x with
  | ResPong d => Pong_wf d
  | ResAgentRegistered d => AgentRegistered_wf d
  | ResAgentPortMapping d => AgentPortMapping_wf d
  | ResUdpChannelDetails d => UdpChannelDetails_wf d
  | ResCheckMtuReceivedAck d => CheckMtuReceivedAck_wf d
  | ResMtuTestPacket d => MtuTestPacket_wf d
  | _ => True
  end.

Definition ControlResponse_enc (x : ControlResponse) : list byte :=
  match x with
  | ResPong d => be_bytes 4 1 ++ Pong_enc d
  | ResInvalidSignature => be_bytes 4 2
  | ResUnauthorized => be_bytes 4 3
  | ResRequestQueued => be_bytes 4 4
  | ResTryAgainLater => be_bytes 4 5
  | ResAgentRegistered d => be_bytes 4 6 ++ AgentRegistered_enc d
  | ResAgentPortMapping d => be_bytes 4 7 ++ AgentPortMapping_enc d
  | ResUdpChannelDetails d => be_bytes 4 8 ++ UdpChannelDetails_enc d
  | ResCheckMtuReceivedAck d => be_bytes 4 9 ++ CheckMtuReceivedAck_enc d
  | ResMtuTestPacket d => be_bytes 4 10 ++ MtuTestPacket_enc d
  | ResMtuTestFail d => be_bytes 4 11 ++ MtuTestFail_enc d
  end.

(** The count [write_to] returns: the number of bytes, except that an MTU
    test packet counts only one of its two fields. *)
Definition ControlResponse_count (x : ControlResponse) : Z :=
  match x with
  | ResMtuTestPacket _ => Z.of_nat (length (ControlResponse_enc x)) - 4
  | _ => Z.of_nat (length (ControlResponse_enc x))
  end.
End formats.

Ltac wf_dec := unfold Ping_wf, AgentRegister_wf, AgentRegister_encodable, CheckMtuReceived_wf,
  SendMtuTest_wf, AgentCheckPortMapping_wf, CheckMtuReceivedAck_wf, MtuTestPacket_wf,
  AgentPortMapping_wf, UdpChannelDetails_wf, Pong_wf, AgentRegistered_wf.

#[global] Instance AgentPortMappingFound_wf_dec x : Decision (AgentPortMappingFound_wf x).
Proof. destruct x; cbn; apply _. Defined.
#[global] Instance AgentRegister_encodable_dec x : Decision (AgentRegister_encodable x).
Proof. unfold AgentRegister_encodable. case_decide; apply _. Defined.
#[global] Instance AgentRegister_wf_dec x : Decision (AgentRegister_wf x).
Proof. unfold AgentRegister_wf. apply _. Defined.
#[global] Instance Pong_wf_dec x : Decision (Pong_wf x).
Proof. unfold Pong_wf. apply _. Defined.
#[global] Instance ControlRequest_wf_dec x : Decision (ControlRequest_wf x).
Proof. destruct x; cbn; wf_dec; apply _. Defined.
#[global] Instance ControlResponse_wf_dec {ML : EncodingLib} x : Decision (ControlResponse_wf x).
Proof. destruct x; cbn; wf_dec; apply _. Defined.

(** ** The MTU pattern *)

Lemma MTU_TEST_PATTERN_lookup i :
  (i < 2048)%nat →
  MTU_TEST_PATTERN !! i = Some (default Byte.x00 (PATTERN !! (i `mod` 4)%nat)).
Proof.
  intros. unfold MTU_TEST_PATTERN. rewrite list_lookup_fmap, lookup_seq_lt by done. done.
Qed.

Lemma length_MTU_TEST_PATTERN : length MTU_TEST_PATTERN = 2048%nat.
Proof. unfold MTU_TEST_PATTERN. by rewrite length_fmap, length_seq. Qed.

#[global] Opaque MTU_TEST_PATTERN.

(** The pattern has period 4. *)
Lemma MTU_TEST_PATTERN_periodic i size :
  (i + size ≤ 2048)%nat →
  take size (drop (i `mod` 4) MTU_TEST_PATTERN) = take size (drop i MTU_TEST_PATTERN).
Proof.
  intros Hle. pose proof (Nat.Div0.mod_le i 4).
  apply list_eq. intros k. destruct (decide (k < size)%nat).
  - rewrite !lookup_take_lt, !lookup_drop by lia.
    rewrite !MTU_TEST_PATTERN_lookup by lia. by rewrite Nat.Div0.add_mod_idemp_l.
  - by rewrite !lookup_take_ge by lia.
Qed.

Lemma verify_mtu_loop_ok fuel i len rest :
  (i ≤ len ≤ 2048)%nat → (len - i < fuel)%nat →
  verify_mtu_loop fuel i len (take (len - i) (drop i MTU_TEST_PATTERN) ++ rest) = Ok ((), rest).
Proof.
  revert i. induction fuel as [|fuel IH]; intros i Hi Hf; [lia|].
  cbn [verify_mtu_loop]. case_decide as Hlt; cycle 1.
  { replace (len - i)%nat with 0%nat by lia. done. }
  set (size := Nat.min (len - i) 128).
  assert (take (len - i) (drop i MTU_TEST_PATTERN) =
    take size (drop i MTU_TEST_PATTERN) ++
    take (len - (i + size)) (drop (i + size) MTU_TEST_PATTERN)) as ->.
  { replace (len - i)%nat with (size + (len - (i + size)))%nat by lia.
    by rewrite <-take_take_drop, drop_drop. }
  rewrite <-app_assoc. rewrite reads_exact;
    [|rewrite length_take, length_drop, length_MTU_TEST_PATTERN; lia].
  cbn [mbind outcome_bind]. unfold slice_from, slice_to, MTU_PATTERN_SIZE.
  pose proof (Nat.mod_upper_bound i 4).
  rewrite decide_True by (rewrite length_MTU_TEST_PATTERN; lia). cbn [mbind outcome_bind].
  rewrite decide_True by (rewrite length_drop, length_MTU_TEST_PATTERN; lia). cbn [mbind outcome_bind].
  rewrite MTU_TEST_PATTERN_periodic, decide_True by (done || lia). apply IH; lia.
Qed.

Lemma reads_mtu_pattern len :
  (len ≤ 2048)%nat →
  reads (read_and_verify_mtu_pattern len) (take len MTU_TEST_PATTERN) ().
Proof.
  intros Hlen rest. unfold read_and_verify_mtu_pattern.
  rewrite <-(verify_mtu_loop_ok (S (length (take len MTU_TEST_PATTERN ++ rest))) 0 len rest);
    [by rewrite drop_0, Nat.sub_0_r | lia |].
  rewrite length_app, length_take, length_MTU_TEST_PATTERN. lia.
Qed.

(** On any input the loop stops within the fuel and does not panic. *)
Lemma verify_mtu_loop_no_panic fuel i len bs :
  (length bs < fuel)%nat → verify_mtu_loop fuel i len bs ≠ Panic.
Proof.
  revert i bs. induction fuel as [|fuel IH]; intros i bs Hf; [lia|].
  cbn [verify_mtu_loop]. case_decide; [|done].
  set (size := Nat.min (len - i) 128). unfold read_exact. case_decide; [|done]. cbn [mbind outcome_bind].
  unfold slice_from, slice_to, MTU_PATTERN_SIZE. pose proof (Nat.mod_upper_bound i 4).
  rewrite decide_True by (rewrite length_MTU_TEST_PATTERN; lia). cbn [mbind outcome_bind].
  rewrite decide_True by (rewrite length_drop, length_MTU_TEST_PATTERN; lia). cbn [mbind outcome_bind].
  case_decide; [|done]. apply IH. rewrite length_drop. lia.
Qed.

Lemma no_panic_mtu_pattern len : no_panic (read_and_verify_mtu_pattern len).
Proof. intros bs. apply verify_mtu_loop_no_panic. lia. Qed.

Lemma emits_mtu_pattern len :
  (len ≤ 2048)%nat →
  emits (write_mtu_pattern len) (take len MTU_TEST_PATTERN) (Z.of_nat len).
Proof.
  intros. unfold write_mtu_pattern. rewrite decide_True by done.
  eapply emits_eq; [eapply emits_bind; [apply emits_write_all | apply emits_ret] | | done].
  apply app_nil_r.
Qed.

#[export] Hint Resolve no_panic_mtu_pattern : agent.
