(* ===== verification/ControlCodec.v ===== *)
(** * Faithfulness of the control-message encodings

    One [Codec] proof per message, composed from its fields' proofs, and the
    round trips of requests and responses. *)

From S2P Require Import Prelude Bytes Net Wire Proto ControlMessages ControlFormat.

(** ** The version bit *)

Lemma version_bit_eq : ENCODING_INCLUDES_VERSION_BIT = 2 ^ 63.
Proof. reflexivity. Qed.

Lemma has_version_bit_spec v : uint 64 v → has_version_bit v = bool_decide (2 ^ 63 ≤ v).
Proof.
  intros [Hlo Hhi]. unfold has_version_bit. apply bool_decide_ext.
  rewrite version_bit_eq.
  assert (Z.land v (2 ^ 63) = Z.b2z (Z.testbit v 63) * 2 ^ 63) as ->.
  { apply Z.bits_inj'. intros n Hn.
    rewrite Z.land_spec, Z.pow2_bits_eqb, <-Z.shiftl_mul_pow2, Z.shiftl_spec by lia.
    destruct (Z.eqb_spec 63 n) as [<-|Hne].
    - rewrite Z.sub_diag, andb_true_r. by destruct (Z.testbit v 63).
    - rewrite andb_false_r. destruct (decide (n < 63)).
      + by rewrite Z.testbit_neg_r by lia.
      + destruct (Z.testbit v 63); cbn [Z.b2z]; [|by rewrite Z.bits_0].
        by rewrite Z.bits_above_log2 by (cbn; lia). }
  assert (Z.testbit v 63 = bool_decide (2 ^ 63 ≤ v)) as ->.
  { rewrite Z.testbit_eqb by lia.
    destruct (decide (2 ^ 63 ≤ v)).
    - rewrite bool_decide_eq_true_2 by done.
      replace (v / 2 ^ 63) with 1; [done|]. apply Z.div_unique with (v - 2 ^ 63); lia.
    - rewrite bool_decide_eq_false_2 by done. by rewrite Z.div_small by lia. }
  case_bool_decide; cbn; lia.
Qed.

Lemma lor_version_bit v :
  0 ≤ v < 2 ^ 63 → Z.lor v ENCODING_INCLUDES_VERSION_BIT = v + 2 ^ 63.
Proof.
  intros. rewrite version_bit_eq. rewrite <-Z.add_lor_land.
  replace (Z.land v (2 ^ 63)) with 0; [lia|]. symmetry.
  apply Z.bits_inj'. intros n Hn. rewrite Z.land_spec, Z.pow2_bits_eqb, Z.bits_0 by lia.
  destruct (Z.eqb_spec 63 n) as [<-|Hne]; [|apply andb_false_r].
  rewrite andb_true_r. destruct (decide (v = 0)) as [->|]; [apply Z.bits_0|].
  apply Z.bits_above_log2; [lia|]. apply Z.log2_lt_pow2; lia.
Qed.

Lemma clear_version_bit v :
  0 ≤ v < 2 ^ 63 → Z.land (v + 2 ^ 63) (u64_not ENCODING_INCLUDES_VERSION_BIT) = v.
Proof.
  intros. replace (u64_not ENCODING_INCLUDES_VERSION_BIT) with (Z.ones 63) by reflexivity.
  rewrite Z.land_ones by lia. replace (v + 2 ^ 63) with (v + 1 * 2 ^ 63) by lia.
  rewrite Z.mod_add by lia. by apply Z.mod_small.
Qed.

Lemma from_num_num id :
  id ≠ END_Id → ControlRequestId_from_num (ControlRequestId_num id) = Some id.
Proof. by destruct id. Qed.

(** ** Codecs *)

Section codecs.
Context {BO : ByteOrder} {ML : EncodingLib}.
Context {BOL : ByteOrderLaws BO} {MLL : EncodingLaws ML}.

Lemma emits_id id : emits (ControlRequestId_write_to id) (id_enc id) 4.
Proof.
  unfold ControlRequestId_write_to.
  eapply emits_eq; [apply (codec_emits u32_codec) | done | by rewrite length_be_bytes].
  by destruct id.
Qed.

Lemma reads_id id : id ≠ END_Id → reads ControlRequestId_read_from (id_enc id) id.
Proof.
  intros Hne. unfold ControlRequestId_read_from, id_enc.
  rewrite <-(app_nil_r (be_bytes 4 _)). eapply reads_bind.
  - apply (codec_reads u32_codec). by destruct id.
  - rewrite from_num_num by done. by intros rest.
Qed.

Lemma no_panic_id : no_panic ControlRequestId_read_from.
Proof.
  unfold ControlRequestId_read_from. apply no_panic_bind; [apply (codec_no_panic u32_codec)|].
  intros. apply no_panic_lift, ok_or_not_Panic.
Qed.

Lemma CheckMtuReceived_codec :
  Codec CheckMtuReceived_wf CheckMtuReceived_enc CheckMtuReceived_write_to
    CheckMtuReceived_read_from.
Proof.
  split.
  - intros [i n] [? ?]. cbn in *. unfold CheckMtuReceived_write_to, CheckMtuReceived_enc. cbn.
    eapply emits_eq.
    { eapply emits_bind; [emits_leaf; done|]. eapply emits_bind; [emits_leaf; unfold uint; lia|].
      eapply emits_bind; [apply emits_mtu_pattern; lia | apply emits_ret]. }
    + by rewrite app_nil_r.
    + rewrite !length_app, !length_be_bytes, length_take, length_MTU_TEST_PATTERN. lia.
  - intros [i n] [? ?]. cbn in *. unfold CheckMtuReceived_read_from, CheckMtuReceived_enc. cbn.
    rewrite <-(app_nil_r (_ ++ _)), <-!app_assoc.
    eapply reads_bind; [reads_leaf; done|].
    eapply reads_bind; [reads_leaf; unfold uint; lia|].
    eapply reads_bind; [apply reads_mtu_pattern; lia | apply reads_ret].
  - unfold CheckMtuReceived_read_from. solve_no_panic.
Qed.

Lemma SendMtuTest_codec :
  Codec SendMtuTest_wf SendMtuTest_enc SendMtuTest_write_to SendMtuTest_read_from.
Proof.
  split.
  - intros [] (?&?&?). unfold SendMtuTest_write_to, SendMtuTest_enc. solve_emits; done.
  - intros [] (?&?&?). unfold SendMtuTest_read_from, SendMtuTest_enc. cbn. solve_reads; done.
  - unfold SendMtuTest_read_from. solve_no_panic.
Qed.

Lemma AgentCheckPortMapping_codec :
  Codec AgentCheckPortMapping_wf AgentCheckPortMapping_enc AgentCheckPortMapping_write_to
    AgentCheckPortMapping_read_from.
Proof.
  split.
  - intros [] (?&?). unfold AgentCheckPortMapping_write_to, AgentCheckPortMapping_enc.
    solve_emits; done.
  - intros [] (?&?). unfold AgentCheckPortMapping_read_from, AgentCheckPortMapping_enc. cbn.
    solve_reads; done.
  - unfold AgentCheckPortMapping_read_from. solve_no_panic.
Qed.

Lemma Ping_codec : Codec Ping_wf Ping_enc Ping_write_to Ping_read_from.
Proof.
  split.
  - intros [] (?&?&?). unfold Ping_write_to, Ping_enc. solve_emits; done.
  - intros [] (?&?&?). unfold Ping_read_from, Ping_enc. cbn. solve_reads; done.
  - unfold Ping_read_from. solve_no_panic.
Qed.

Lemma emits_register_tail x sum :
  AgentRegister_wf x →
  emits (AgentRegister_write_tail x sum) (AgentRegister_tail_enc x)
    (sum + Z.of_nat (length (AgentRegister_tail_enc x))).
Proof.
  intros (?&?&?&?&?&?&?&?). unfold AgentRegister_write_tail, AgentRegister_tail_enc.
  solve_emits; done.
Qed.

Lemma emits_AgentRegister x :
  AgentRegister_wf x → AgentRegister_encodable x →
  emits (AgentRegister_write_to x) (AgentRegister_enc x) (Z.of_nat (length (AgentRegister_enc x))).
Proof.
  intros Hwf He. pose proof Hwf as (?&?&?).
  unfold AgentRegister_write_to, AgentRegister_enc, AgentRegister_head_enc, AgentRegister_encodable in *.
  case_decide; rewrite has_version_bit_spec, bool_decide_eq_false_2 by (done || lia).
  - eapply emits_eq; [eapply emits_bind; [emits_leaf; done | by apply emits_register_tail] | done |].
    rewrite length_app. lia.
  - eapply emits_eq.
    { eapply emits_bind; [emits_leaf|].
      - rewrite lor_version_bit by (unfold uint in *; lia). unfold uint in *; lia.
      - eapply emits_bind; [emits_leaf; done | by apply emits_register_tail]. }
    + by rewrite <-app_assoc.
    + rewrite !length_app. lia.
Qed.

Lemma reads_register_tail x pv acc :
  AgentRegister_wf x →
  reads (AgentRegister_read_tail pv acc) (AgentRegister_tail_enc x)
    {| ar_proto_version := pv; ar_account_id := acc;
       ar_agent_id := ar_agent_id x; ar_agent_version := ar_agent_version x;
       ar_timestamp := ar_timestamp x; ar_client_addr := ar_client_addr x;
       ar_tunnel_addr := ar_tunnel_addr x; ar_signature := ar_signature x |}.
Proof.
  intros (?&?&?&?&?&?&?&?). unfold AgentRegister_read_tail, AgentRegister_tail_enc.
  solve_reads; done.
Qed.

Lemma reads_AgentRegister x :
  AgentRegister_wf x → AgentRegister_encodable x →
  reads AgentRegister_read_from (AgentRegister_enc x) (AgentRegister_norm x).
Proof.
  intros Hwf He. pose proof Hwf as (?&?&?).
  unfold AgentRegister_read_from, AgentRegister_enc, AgentRegister_head_enc,
    AgentRegister_encodable, AgentRegister_norm in *.
  case_decide; rewrite <-?app_assoc.
  - eapply reads_bind; [reads_leaf; done|].
    rewrite has_version_bit_spec, bool_decide_eq_false_2 by (done || lia).
    replace (Z.max 1 (ar_proto_version x)) with 1 by lia. by apply reads_register_tail.
  - rewrite lor_version_bit by (unfold uint in *; lia).
    eapply reads_bind; [reads_leaf; unfold uint in *; lia|].
    rewrite has_version_bit_spec, bool_decide_eq_true_2 by (unfold uint in *; lia).
    eapply reads_bind; [reads_leaf; done|].
    rewrite clear_version_bit by (unfold uint in *; lia).
    replace (Z.max 1 (ar_proto_version x)) with (ar_proto_version x) by lia.
    by apply reads_register_tail.
Qed.

(** The version-1 reader accepts what the current writer emits for versions
    0 and 1. *)
Lemma reads_AgentRegisterV1 x :
  AgentRegister_wf x → ar_proto_version x ≤ 1 →
  ∃ y, reads AgentRegisterV1_read_from (AgentRegister_enc x) y ∧
       AgentRegisterV1_upgrade y = AgentRegister_norm x.
Proof.
  intros (?&?&?&?&?&?&?&Hlen) Hv. eexists. split.
  - unfold AgentRegisterV1_read_from, AgentRegister_enc, AgentRegister_head_enc,
      AgentRegister_tail_enc. rewrite decide_True by done.
    rewrite <-(app_nil_r (_ ++ _)), <-!app_assoc.
    do 6 (eapply reads_bind; [reads_leaf; done|]).
    eapply reads_bind; [by apply reads_slice_read|].
    rewrite decide_True by done. apply reads_ret.
  - unfold AgentRegisterV1_upgrade, AgentRegister_norm. cbn. f_equal. lia.
Qed.

Lemma no_panic_AgentRegister : no_panic AgentRegister_read_from.
Proof. unfold AgentRegister_read_from, AgentRegister_read_tail. solve_no_panic. Qed.

Lemma no_panic_AgentRegisterV1 : no_panic AgentRegisterV1_read_from.
Proof. unfold AgentRegisterV1_read_from. solve_no_panic. Qed.

Lemma CheckMtuReceivedAck_codec :
  Codec CheckMtuReceivedAck_wf CheckMtuReceivedAck_enc CheckMtuReceivedAck_write_to
    CheckMtuReceivedAck_read_from.
Proof.
  split.
  - intros [] (?&?&?&?). unfold CheckMtuReceivedAck_write_to, CheckMtuReceivedAck_enc.
    solve_emits; done.
  - intros [] (?&?&?&?). unfold CheckMtuReceivedAck_read_from, CheckMtuReceivedAck_enc. cbn.
    solve_reads; done.
  - unfold CheckMtuReceivedAck_read_from. solve_no_panic.
Qed.

Lemma emits_MtuTestPacket x :
  MtuTestPacket_wf x → emits (MtuTestPacket_write_to x) (MtuTestPacket_enc x) 4.
Proof. destruct x. intros [? ?]. unfold MtuTestPacket_write_to, MtuTestPacket_enc. solve_emits; done. Qed.

Lemma reads_MtuTestPacket x :
  MtuTestPacket_wf x → reads MtuTestPacket_read_from (MtuTestPacket_enc x) x.
Proof.
  destruct x. intros [? ?]. unfold MtuTestPacket_read_from, MtuTestPacket_enc. cbn.
  solve_reads; done.
Qed.

Lemma MtuTestFail_codec :
  Codec (λ _, True) MtuTestFail_enc MtuTestFail_write_to MtuTestFail_read_from.
Proof.
  split.
  - intros [c] _. unfold MtuTestFail_write_to, MtuTestFailCode_write_to, MtuTestFail_enc.
    emits_leaf. by destruct c.
  - intros [c] _. unfold MtuTestFail_read_from, MtuTestFailCode_read_from, MtuTestFail_enc.
    rewrite <-(app_nil_r (be_bytes 4 _)), <-(app_nil_r (be_bytes 4 _)), <-app_assoc. cbn [app].
    eapply reads_bind; [|apply (reads_ret (Build_MtuTestFail _))].
    rewrite <-(app_nil_r (be_bytes 4 _)).
    eapply reads_bind; [apply (codec_reads u32_codec); by destruct c|].
    destruct c; apply reads_ret.
  - unfold MtuTestFail_read_from, MtuTestFailCode_read_from.
    apply no_panic_bind; [|intros; apply no_panic_ret]. solve_no_panic.
Qed.

Lemma AgentPortMappingFound_codec :
  Codec AgentPortMappingFound_wf AgentPortMappingFound_enc AgentPortMappingFound_write_to
    AgentPortMappingFound_read_from.
Proof.
  split.
  - intros [id] ?. unfold AgentPortMappingFound_write_to, AgentPortMappingFound_enc.
    solve_emits; done.
  - intros [id] ?. unfold AgentPortMappingFound_read_from, AgentPortMappingFound_enc.
    eapply reads_bind; [by apply reads_bo_read|]. cbn. solve_reads; done.
  - unfold AgentPortMappingFound_read_from. solve_no_panic.
Qed.
End codecs.

#[export] Hint Resolve CheckMtuReceived_codec SendMtuTest_codec AgentCheckPortMapping_codec
  Ping_codec CheckMtuReceivedAck_codec MtuTestFail_codec AgentPortMappingFound_codec : codec.

Section messages.
Context {BO : ByteOrder} {ML : EncodingLib}.
Context {BOL : ByteOrderLaws BO} {MLL : EncodingLaws ML}.

Lemma AgentPortMapping_codec :
  Codec AgentPortMapping_wf AgentPortMapping_enc AgentPortMapping_write_to
    AgentPortMapping_read_from.
Proof.
  split.
  - intros [] (?&?). unfold AgentPortMapping_write_to, AgentPortMapping_enc. solve_emits; done.
  - intros [] (?&?). unfold AgentPortMapping_read_from, AgentPortMapping_enc. cbn.
    solve_reads; done.
  - unfold AgentPortMapping_read_from. solve_no_panic.
Qed.

Lemma UdpChannelDetails_codec :
  Codec UdpChannelDetails_wf UdpChannelDetails_enc UdpChannelDetails_write_to
    UdpChannelDetails_read_from.
Proof.
  split.
  - intros [] (?&?). unfold UdpChannelDetails_write_to, UdpChannelDetails_enc. solve_emits; done.
  - intros [] (?&?). unfold UdpChannelDetails_read_from, UdpChannelDetails_enc. cbn.
    solve_reads; done.
  - unfold UdpChannelDetails_read_from. solve_no_panic.
Qed.

Lemma Pong_codec : Codec Pong_wf Pong_enc Pong_write_to Pong_read_from.
Proof.
  split.
  - intros [] (?&?&?&?&?&?&?). unfold Pong_write_to, Pong_enc. solve_emits; done.
  - intros [] (?&?&?&?&?&?&?). unfold Pong_read_from, Pong_enc. cbn. solve_reads; done.
  - unfold Pong_read_from. solve_no_panic.
Qed.

Lemma AgentRegistered_codec :
  Codec AgentRegistered_wf AgentRegistered_enc AgentRegistered_write_to AgentRegistered_read_from.
Proof.
  split.
  - intros [] (?&?). unfold AgentRegistered_write_to, AgentRegistered_enc. solve_emits; done.
  - intros [] (?&?). unfold AgentRegistered_read_from, AgentRegistered_enc. cbn.
    solve_reads; done.
  - unfold AgentRegistered_read_from. solve_no_panic.
Qed.
End messages.

#[export] Hint Resolve AgentPortMapping_codec UdpChannelDetails_codec Pong_codec
  AgentRegistered_codec : codec.

Section control.
Context {BO : ByteOrder} {ML : EncodingLib}.
Context {BOL : ByteOrderLaws BO} {MLL : EncodingLaws ML}.

(** A tagged writer: the tag, the body, the sum of both counts. *)
Lemma emits_tagged (wt wb : W Z) bt bb nt nb :
  emits wt bt nt → emits wb bb nb →
  emits (n1 ← wt; n2 ← wb; mret (n1 + n2)) (bt ++ bb) (nt + nb).
Proof.
  intros Ht Hb. eapply emits_eq;
    [eapply emits_bind; [exact Ht | eapply emits_bind; [exact Hb | apply emits_ret]] | | done].
  by rewrite app_nil_r.
Qed.

Lemma reads_wrapped {A B} (r : R A) (f : A → B) bs a :
  reads r bs a → reads (x ← r; mret (f x)) bs (f a).
Proof.
  intros Hr. rewrite <-(app_nil_r bs). eapply reads_bind; [exact Hr | apply reads_ret].
Qed.

Lemma emits_ControlRequest x :
  ControlRequest_wf x →
  emits (ControlRequest_write_to x) (ControlRequest_enc x)
    (Z.of_nat (length (ControlRequest_enc x))).
Proof.
  intros Hwf. destruct x as [d|d|d|d|d|d|d]; cbn [ControlRequest_write_to ControlRequest_enc];
    rewrite length_app, Nat2Z.inj_add; unfold id_enc at 2; rewrite length_be_bytes;
    [|destruct Hwf as [Hwf He]; apply emits_tagged;
      [case_decide; apply emits_id | by apply emits_AgentRegister]|..];
    (apply emits_tagged; [apply emits_id | emits_leaf; exact Hwf]).
Qed.

Lemma reads_ControlRequest x :
  ControlRequest_wf x →
  reads ControlRequest_read_from (ControlRequest_enc x) (ControlRequest_norm x).
Proof.
  intros Hwf. unfold ControlRequest_read_from.
  destruct x as [d|d|d|d|d|d|d]; cbn [ControlRequest_enc ControlRequest_norm];
    [| destruct Hwf as [Hwf He]; case_decide |..];
    (eapply reads_bind; [by apply reads_id|]; cbv beta iota).
  2: { destruct (reads_AgentRegisterV1 d) as (y & Hy & <-); [done..|].
       by apply (reads_wrapped _ (λ z, ReqAgentRegister (AgentRegisterV1_upgrade z))). }
  2: by apply reads_wrapped, reads_AgentRegister.
  all: apply reads_wrapped; reads_leaf; exact Hwf.
Qed.

Lemma no_panic_ControlRequest : no_panic ControlRequest_read_from.
Proof.
  pose proof no_panic_id. pose proof no_panic_AgentRegister. pose proof no_panic_AgentRegisterV1.
  unfold ControlRequest_read_from. apply no_panic_bind; [done|]. intros id.
  destruct id; try (apply no_panic_bind; [first [done | no_panic_leaf] | intros; apply no_panic_ret]).
  apply no_panic_err.
Qed.

Lemma emits_ControlResponse x :
  ControlResponse_wf x →
  emits (ControlResponse_write_to x) (ControlResponse_enc x) (ControlResponse_count x).
Proof.
  intros Hwf.
  destruct x as [d| | | | |d|d|d|d|d|d];
    cbn [ControlResponse_write_to ControlResponse_enc ControlResponse_count];
    try (by apply (codec_emits u32_codec));
    rewrite length_app, Nat2Z.inj_add, length_be_bytes;
    try (apply emits_tagged; [by apply (codec_emits u32_codec) | emits_leaf; exact Hwf || done]).
  eapply emits_eq; [apply emits_tagged; [by apply (codec_emits u32_codec) |
    by apply emits_MtuTestPacket] | done |].
  unfold MtuTestPacket_enc. rewrite length_app, !length_be_bytes. lia.
Qed.

Lemma reads_ControlResponse x :
  ControlResponse_wf x → reads ControlResponse_read_from (ControlResponse_enc x) x.
Proof.
  intros Hwf. unfold ControlResponse_read_from.
  destruct x as [d| | | | |d|d|d|d|d|d]; cbn [ControlResponse_enc];
    try lazymatch goal with
        | |- reads _ (be_bytes 4 ?t) _ => rewrite <-(app_nil_r (be_bytes 4 t))
        end;
    (eapply reads_bind; [by apply reads_bo_read|]; cbv beta iota);
    try apply reads_ret; apply reads_wrapped; try (reads_leaf; exact Hwf || done).
  by apply reads_MtuTestPacket.
Qed.

Lemma no_panic_ControlResponse : no_panic ControlResponse_read_from.
Proof.
  unfold ControlResponse_read_from. apply no_panic_bind; [apply no_panic_bo_read|]. intros tag.
  repeat case_match; try apply no_panic_ret; try apply no_panic_err;
    (apply no_panic_bind; [|intros; apply no_panic_ret]); try no_panic_leaf.
  unfold MtuTestPacket_read_from. solve_no_panic.
Qed.
End control.
