(* ===== verification/ControlFeed.v ===== *)
(** * The control feed (agent_proto/src/control_feed.rs)

    What the tunnel server sends to the agent: responses and new clients,
    the latter in a current and a legacy form. *)

From S2P Require Import Prelude Bytes Net Wire Proto ControlMessages ControlFormat.
From S2P Require Import ControlCodec.

(** ** Data *)

Record ClaimInstructions : Type := {
  ci_address : SocketAddr;
  ci_token : list byte;
}.

Record NewClient : Type := {
  nc_connect_addr : SocketAddr;
  nc_peer_addr : SocketAddr;
  nc_data_center_id : Z;
  nc_tunnel_id : Z;
  nc_port_offset : Z;
  nc_claim_instructions : ClaimInstructions;
}.

Record NewClientOld : Type := {
  nco_connect_addr : SocketAddr;
  nco_peer_addr : SocketAddr;
  nco_claim_instructions : ClaimInstructions;
  nco_tunnel_server_id : Z;
  nco_data_center_id : Z;
}.

Inductive ControlFeed : Type :=
  | FeedResponse (res : ControlRpcMessage ControlResponse)
  | FeedNewClient (client : NewClient)
  | FeedNewClientOld (client : NewClientOld).

#[global] Instance ClaimInstructions_eq_dec : EqDecision ClaimInstructions.
Proof. solve_decision. Defined.
#[global] Instance NewClient_eq_dec : EqDecision NewClient.
Proof. solve_decision. Defined.
#[global] Instance NewClientOld_eq_dec : EqDecision NewClientOld.
Proof. solve_decision. Defined.
#[global] Instance ControlFeed_eq_dec : EqDecision ControlFeed.
Proof. solve_decision. Defined.

(** [impl From<NewClientOld> for NewClient]. *)
Definition NewClient_from_old (v : NewClientOld) : NewClient :=
  {| nc_connect_addr := nco_connect_addr v;
     nc_peer_addr := nco_peer_addr v;
     nc_data_center_id := nco_data_center_id v;
     nc_tunnel_id := 0;
     nc_port_offset := 0;
     nc_claim_instructions := nco_claim_instructions v |}.

(** ** Encodings *)

Section encodings.
Context {BO : ByteOrder} {ML : EncodingLib}.

Definition ClaimInstructions_write_to (x : ClaimInstructions) : W Z :=
  n1 ← SocketAddr_write_to (ci_address x);
  n2 ← vec_write_to (ci_token x);
  mret (n1 + n2).

Definition ClaimInstructions_read_from : R ClaimInstructions :=
  address ← SocketAddr_read_from;
  token ← vec_read_from;
  mret {| ci_address := address; ci_token := token |}.

Definition NewClient_write_to (x : NewClient) : W Z :=
  n1 ← SocketAddr_write_to (nc_connect_addr x);
  n2 ← SocketAddr_write_to (nc_peer_addr x);
  n3 ← u32_write_to (nc_data_center_id x);
  n4 ← u64_write_to (nc_tunnel_id x);
  n5 ← u16_write_to (nc_port_offset x);
  n6 ← ClaimInstructions_write_to (nc_claim_instructions x);
  mret (n1 + n2 + n3 + n4 + n5 + n6).

Definition NewClient_read_from : R NewClient :=
  connect_addr ← SocketAddr_read_from;
  peer_addr ← SocketAddr_read_from;
  data_center_id ← u32_read_from;
  tunnel_id ← u64_read_from;
  port_offset ← u16_read_from;
  claim_instructions ← ClaimInstructions_read_from;
  mret {| nc_connect_addr := connect_addr; nc_peer_addr := peer_addr;
          nc_data_center_id := data_center_id; nc_tunnel_id := tunnel_id;
          nc_port_offset := port_offset; nc_claim_instructions := claim_instructions |}.

Definition NewClientOld_write_to (x : NewClientOld) : W Z :=
  n1 ← SocketAddr_write_to (nco_connect_addr x);
  n2 ← SocketAddr_write_to (nco_peer_addr x);
  n3 ← ClaimInstructions_write_to (nco_claim_instructions x);
  n4 ← u64_write_to (nco_tunnel_server_id x);
  n5 ← u32_write_to (nco_data_center_id x);
  mret (n1 + n2 + n3 + n4 + n5).

Definition NewClientOld_read_from : R NewClientOld :=
  connect_addr ← SocketAddr_read_from;
  peer_addr ← SocketAddr_read_from;
  claim_instructions ← ClaimInstructions_read_from;
  tunnel_server_id ← bo_read 8;
  data_center_id ← bo_read 4;
  mret {| nco_connect_addr := connect_addr; nco_peer_addr := peer_addr;
          nco_claim_instructions := claim_instructions;
          nco_tunnel_server_id := tunnel_server_id; nco_data_center_id := data_center_id |}.

Definition ControlFeed_write_to (x : ControlFeed) : W Z :=
  match x with
  | FeedResponse res =>
      n1 ← u32_write_to 1; n2 ← ControlRpcMessage_write_to res; mret (n1 + n2)
  | FeedNewClientOld client =>
      n1 ← u32_write_to 2; n2 ← NewClientOld_write_to client; mret (n1 + n2)
  | FeedNewClient client =>
      n1 ← u32_write_to 3; n2 ← NewClient_write_to client; mret (n1 + n2)
  end.

Definition ControlFeed_read_from : R ControlFeed :=
  tag ← bo_read 4;
  match tag with
  | 1 => res ← ControlRpcMessage_read_from; mret (FeedResponse res)
  | 2 => old ← NewClientOld_read_from; mret (FeedNewClient (NewClient_from_old old))
  | 3 => client ← NewClient_read_from; mret (FeedNewClient client)
  | _ => r_err Other "invalid ControlFeed id"
  end.

#[global] Instance ControlFeed_encoding : MessageEncoding ControlFeed :=
  {| write_to := ControlFeed_write_to; read_from := ControlFeed_read_from |}.
End encodings.

(** ** Formats *)

Section formats.
Context {ML : EncodingLib}.

Definition ClaimInstructions_wf (x : ClaimInstructions) : Prop :=
  SocketAddr_plain (ci_address x) ∧ Z.of_nat (length (ci_token x)) < vec_limit.

Definition ClaimInstructions_enc (x : ClaimInstructions) : list byte :=
  SocketAddr_enc (ci_address x) ++ vec_enc (ci_token x).

Definition NewClient_wf (x : NewClient) : Prop :=
  SocketAddr_plain (nc_connect_addr x) ∧ SocketAddr_plain (nc_peer_addr x) ∧
  uint 32 (nc_data_center_id x) ∧ uint 64 (nc_tunnel_id x) ∧ uint 16 (nc_port_offset x) ∧
  ClaimInstructions_wf (nc_claim_instructions x).

Definition NewClient_enc (x : NewClient) : list byte :=
  SocketAddr_enc (nc_connect_addr x) ++ SocketAddr_enc (nc_peer_addr x) ++
  be_bytes 4 (nc_data_center_id x) ++ be_bytes 8 (nc_tunnel_id x) ++
  be_bytes 2 (nc_port_offset x) ++ ClaimInstructions_enc (nc_claim_instructions x).

Definition NewClientOld_wf (x : NewClientOld) : Prop :=
  SocketAddr_plain (nco_connect_addr x) ∧ SocketAddr_plain (nco_peer_addr x) ∧
  ClaimInstructions_wf (nco_claim_instructions x) ∧
  uint 64 (nco_tunnel_server_id x) ∧ uint 32 (nco_data_center_id x).

Definition NewClientOld_enc (x : NewClientOld) : list byte :=
  SocketAddr_enc (nco_connect_addr x) ++ SocketAddr_enc (nco_peer_addr x) ++
  ClaimInstructions_enc (nco_claim_instructions x) ++
  be_bytes 8 (nco_tunnel_server_id x) ++ be_bytes 4 (nco_data_center_id x).

Definition ControlFeed_wf (x : ControlFeed) : Prop :=
  match x with
  | FeedResponse res => ControlRpcMessage_wf ControlResponse_wf res
  | FeedNewClient client => NewClient_wf client
  | FeedNewClientOld client => NewClientOld_wf client
  end.

Definition ControlFeed_enc (x : ControlFeed) : list byte :=
  match x with
  | FeedResponse res => be_bytes 4 1 ++ ControlRpcMessage_enc ControlResponse_enc res
  | FeedNewClientOld client => be_bytes 4 2 ++ NewClientOld_enc client
  | FeedNewClient client => be_bytes 4 3 ++ NewClient_enc client
  end.

(** The reader turns legacy clients into current ones. *)
Definition ControlFeed_norm (x : ControlFeed) : ControlFeed :=
  match x with
  | FeedNewClientOld client => FeedNewClient (NewClient_from_old client)
  | _ => x
  end.

Definition ControlFeed_count (x : ControlFeed) : Z :=
  match x with
  | FeedResponse {| rpc_content := ResMtuTestPacket _ |} =>
      Z.of_nat (length (ControlFeed_enc x)) - 4
  | _ => Z.of_nat (length (ControlFeed_enc x))
  end.
End formats.

#[global] Instance ControlFeed_wf_dec {ML : EncodingLib} x : Decision (ControlFeed_wf x).
Proof.
  destruct x; cbn; unfold NewClient_wf, NewClientOld_wf, ClaimInstructions_wf; apply _.
Defined.

(** ** Faithfulness *)

Section facts.
Context {BO : ByteOrder} {ML : EncodingLib}.
Context {BOL : ByteOrderLaws BO} {MLL : EncodingLaws ML}.

Lemma ClaimInstructions_codec :
  Codec ClaimInstructions_wf ClaimInstructions_enc ClaimInstructions_write_to
    ClaimInstructions_read_from.
Proof.
  split.
  - intros [] (?&?). unfold ClaimInstructions_write_to, ClaimInstructions_enc. solve_emits; done.
  - intros [] (?&?). unfold ClaimInstructions_read_from, ClaimInstructions_enc. cbn.
    solve_reads; done.
  - unfold ClaimInstructions_read_from. solve_no_panic.
Qed.
End facts.

#[export] Hint Resolve ClaimInstructions_codec : codec.

Section facts2.
Context {BO : ByteOrder} {ML : EncodingLib}.
Context {BOL : ByteOrderLaws BO} {MLL : EncodingLaws ML}.

Lemma NewClient_codec :
  Codec NewClient_wf NewClient_enc NewClient_write_to NewClient_read_from.
Proof.
  split.
  - intros [] (?&?&?&?&?&?). unfold NewClient_write_to, NewClient_enc. solve_emits; done.
  - intros [] (?&?&?&?&?&?). unfold NewClient_read_from, NewClient_enc. cbn. solve_reads; done.
  - unfold NewClient_read_from. solve_no_panic.
Qed.

Lemma NewClientOld_codec :
  Codec NewClientOld_wf NewClientOld_enc NewClientOld_write_to NewClientOld_read_from.
Proof.
  split.
  - intros [] (?&?&?&?&?). unfold NewClientOld_write_to, NewClientOld_enc. solve_emits; done.
  - intros [] (?&?&?&?&?). unfold NewClientOld_read_from, NewClientOld_enc. cbn.
    solve_reads; done.
  - unfold NewClientOld_read_from. solve_no_panic.
Qed.

Lemma emits_response_msg res :
  ControlRpcMessage_wf ControlResponse_wf res →
  emits (ControlRpcMessage_write_to res) (ControlRpcMessage_enc ControlResponse_enc res)
    (8 + ControlResponse_count (rpc_content res)).
Proof.
  destruct res as [i c]. intros [? ?].
  unfold ControlRpcMessage_write_to, ControlRpcMessage_enc. cbn.
  apply emits_tagged; [by apply (codec_emits u64_codec) | by apply emits_ControlResponse].
Qed.

Lemma reads_response_msg res :
  ControlRpcMessage_wf ControlResponse_wf res →
  reads ControlRpcMessage_read_from (ControlRpcMessage_enc ControlResponse_enc res) res.
Proof.
  destruct res as [i c]. intros [? ?].
  unfold ControlRpcMessage_read_from, ControlRpcMessage_enc. cbn.
  eapply reads_bind; [by apply reads_bo_read|].
  by apply (reads_wrapped _ (Build_ControlRpcMessage i)), reads_ControlResponse.
Qed.

Lemma emits_ControlFeed x :
  ControlFeed_wf x → emits (ControlFeed_write_to x) (ControlFeed_enc x) (ControlFeed_count x).
Proof.
  intros Hwf. destruct x as [res|c|c]; cbn [ControlFeed_write_to ControlFeed_enc].
  - eapply emits_eq;
      [apply emits_tagged; [by apply (codec_emits u32_codec) | by apply emits_response_msg]
      | done |].
    destruct res as [i c]. cbn [ControlFeed_count ControlFeed_enc rpc_content].
    rewrite length_app, length_be_bytes. unfold ControlRpcMessage_enc. cbn [rpc_content].
    rewrite length_app, length_be_bytes. destruct c; cbn [ControlResponse_count rpc_content]; lia.
  - cbn [ControlFeed_count ControlFeed_enc]. rewrite length_app, Nat2Z.inj_add, length_be_bytes.
    apply emits_tagged; [by apply (codec_emits u32_codec) | by apply (codec_emits NewClient_codec)].
  - cbn [ControlFeed_count ControlFeed_enc]. rewrite length_app, Nat2Z.inj_add, length_be_bytes.
    apply emits_tagged; [by apply (codec_emits u32_codec) | by apply (codec_emits NewClientOld_codec)].
Qed.

Lemma reads_ControlFeed x :
  ControlFeed_wf x → reads ControlFeed_read_from (ControlFeed_enc x) (ControlFeed_norm x).
Proof.
  intros Hwf. unfold ControlFeed_read_from.
  destruct x as [res|c|c]; cbn [ControlFeed_enc ControlFeed_norm];
    (eapply reads_bind; [by apply reads_bo_read|]; cbv beta iota).
  - by apply reads_wrapped, reads_response_msg.
  - by apply reads_wrapped, (codec_reads NewClient_codec).
  - by apply (reads_wrapped _ (λ o, FeedNewClient (NewClient_from_old o))),
      (codec_reads NewClientOld_codec).
Qed.

Lemma no_panic_ControlFeed : no_panic ControlFeed_read_from.
Proof.
  pose proof no_panic_ControlResponse as Hres.
  unfold ControlFeed_read_from. apply no_panic_bind; [apply no_panic_bo_read|]. intros tag.
  repeat case_match; try apply no_panic_err;
    (apply no_panic_bind; [|intros; apply no_panic_ret]);
    first [ apply (codec_no_panic NewClient_codec) | apply (codec_no_panic NewClientOld_codec) | idtac].
  unfold ControlRpcMessage_read_from. apply no_panic_bind; [apply no_panic_bo_read|].
  intros. apply no_panic_bind; [done | intros; apply no_panic_ret].
Qed.
End facts2.

#[export] Hint Resolve NewClient_codec NewClientOld_codec : codec.
