(* ===== verification/ProtoTheorems.v ===== *)
(** * What the control protocol's encodings guarantee

    Round trips of requests and feed messages into vectors and into bounded
    slices, the branches on which writing fails, the equivalence of the
    legacy registration encoding, signatures, and the totality of the
    readers on hostile input. *)

From S2P Require Import Prelude Bytes Net Wire Proto ControlMessages ControlFormat.
From S2P Require Import ControlCodec ControlFeed.

(** How a faithful writer behaves on every sink: into a vector it appends
    [bs], into a slice with [room] bytes left it succeeds exactly when [bs]
    fits, and otherwise leaves the prefix that did. *)
Definition writes_exactly (w : W Z) (bs : list byte) (n : Z) : Prop :=
  (∀ data, w (Sink data None) = (Ok n, Sink (data ++ bs) None)) ∧
  (∀ data room, w (Sink data (Some room)) =
     if decide (length bs ≤ room)%nat
     then (Ok n, Sink (data ++ bs) (Some (room - length bs)%nat))
     else (Err (IoError WriteZero "failed to write whole buffer"),
           Sink (data ++ take room bs) (Some 0%nat))).

(** The message [read_from] gives back for [m]. *)
Definition request_msg_norm (m : ControlRpcMessage ControlRequest) :
    ControlRpcMessage ControlRequest :=
  {| rpc_request_id := rpc_request_id m; rpc_content := ControlRequest_norm (rpc_content m) |}.

(** Concrete inputs for the witnesses. *)
Definition sample_session : AgentSessionId :=
  {| asi_session_id := 7; asi_account_id := 100; asi_agent_id := 32 |}.

Definition sample_v4 : SocketAddr := SaV4 (SockV4 (127 * 2 ^ 24 + 1) 4123).

Definition sample_v6 : SocketAddr := SaV6 (SockV6 136 5312 0 0).

Definition sample_register (proto : Z) : AgentRegister :=
  {| ar_proto_version := proto; ar_account_id := 100; ar_agent_id := 32;
     ar_agent_version := 676; ar_timestamp := 103201401; ar_client_addr := sample_v4;
     ar_tunnel_addr := sample_v6; ar_signature := replicate 32 Byte.x00 |}.

Definition sample_request (proto : Z) : ControlRpcMessage ControlRequest :=
  {| rpc_request_id := 1; rpc_content := ReqAgentRegister (sample_register proto) |}.

Definition sample_claim : ClaimInstructions :=
  {| ci_address := sample_v4; ci_token := [Byte.x01; Byte.x02] |}.

Definition sample_old_client : NewClientOld :=
  {| nco_connect_addr := sample_v4; nco_peer_addr := sample_v6;
     nco_claim_instructions := sample_claim; nco_tunnel_server_id := 5;
     nco_data_center_id := 9 |}.

(** ** Shared lemmas *)

Lemma emits_writes_exactly w bs n : emits w bs n → writes_exactly w bs n.
Proof.
  intros Hw. split.
  - intros data. by apply emits_vec.
  - intros data room. rewrite Hw. unfold emit, mbind, W_bind. rewrite write_all_room.
    by case_decide.
Qed.

Section theory.
Context {BO : ByteOrder} {ML : EncodingLib}.
Context {BOL : ByteOrderLaws BO} {MLL : EncodingLaws ML}.

Lemma emits_request_msg (m : ControlRpcMessage ControlRequest) :
  ControlRpcMessage_wf ControlRequest_wf m →
  emits (ControlRpcMessage_write_to m) (ControlRpcMessage_enc ControlRequest_enc m)
    (Z.of_nat (length (ControlRpcMessage_enc ControlRequest_enc m))).
Proof.
  destruct m as [i c]. intros [? ?].
  unfold ControlRpcMessage_write_to, ControlRpcMessage_enc. cbn.
  rewrite length_app, Nat2Z.inj_add.
  apply emits_tagged; [by apply (codec_emits u64_codec) | by apply emits_ControlRequest].
Qed.

Lemma reads_request_msg (m : ControlRpcMessage ControlRequest) :
  ControlRpcMessage_wf ControlRequest_wf m →
  reads ControlRpcMessage_read_from (ControlRpcMessage_enc ControlRequest_enc m)
    (request_msg_norm m).
Proof.
  destruct m as [i c]. intros [? ?].
  unfold ControlRpcMessage_read_from, ControlRpcMessage_enc. cbn.
  eapply reads_bind; [by apply reads_bo_read|].
  by apply (reads_wrapped _ (Build_ControlRpcMessage i)), reads_ControlRequest.
Qed.

Lemma write_plain_encodable x buf :
  AgentRegister_wf x → AgentRegister_encodable x →
  AgentRegister_write_plain x buf =
  Ok (take (length (AgentRegister_enc x) - 32) (AgentRegister_enc x)).
Proof.
  intros Hwf He. unfold AgentRegister_write_plain.
  rewrite (emits_vec _ _ _ [] (emits_AgentRegister x Hwf He)). cbn.
  assert (length (ar_signature x) = 32%nat) as Hlen by apply Hwf.
  rewrite Hlen, bool_decide_eq_true_2; [done|].
  unfold AgentRegister_enc, AgentRegister_tail_enc. rewrite !length_app, Hlen. lia.
Qed.

(** The signed bytes do not contain the signature. *)
Lemma plain_without_signature x :
  length (ar_signature x) = 32%nat →
  take (length (AgentRegister_enc x) - 32) (AgentRegister_enc x) =
  AgentRegister_head_enc x ++ be_bytes 8 (ar_agent_id x) ++ be_bytes 8 (ar_agent_version x) ++
  be_bytes 8 (ar_timestamp x) ++ SocketAddr_enc (ar_client_addr x) ++
  SocketAddr_enc (ar_tunnel_addr x).
Proof.
  intros Hlen. unfold AgentRegister_enc, AgentRegister_tail_enc.
  rewrite !app_assoc. rewrite take_app_le.
  - rewrite length_app, Hlen.
    match goal with |- take (?a + _ - _) _ = _ => replace (a + 32 - 32)%nat with a by lia end.
    apply firstn_all.
  - rewrite length_app, Hlen. lia.
Qed.

Lemma with_signature_wf x sig :
  AgentRegister_wf x → length sig = 32%nat → AgentRegister_wf (with_signature x sig).
Proof. unfold AgentRegister_wf. cbn. tauto. Qed.

Lemma write_plain_signature_irrelevant x sig buf1 buf2 :
  AgentRegister_wf x → AgentRegister_encodable x → length sig = 32%nat →
  AgentRegister_write_plain (with_signature x sig) buf1 = AgentRegister_write_plain x buf2.
Proof.
  intros Hwf He Hsig.
  pose proof (with_signature_wf x sig Hwf Hsig).
  rewrite !write_plain_encodable by done.
  rewrite !plain_without_signature by (done || apply Hwf). done.
Qed.

Lemma unencodable_rejected x s :
  AgentRegister_wf x → ¬ AgentRegister_encodable x →
  ∃ msg, AgentRegister_write_to x s = (Err (IoError InvalidInput msg), s).
Proof.
  intros (?&?&_) He. unfold AgentRegister_encodable, AgentRegister_write_to in *.
  case_decide; rewrite has_version_bit_spec, bool_decide_eq_true_2 by (done || lia);
    by eexists.
Qed.

Lemma bo_write_vec n v data :
  uint (8 * Z.of_nat n) v →
  bo_write n v (Sink data None) = (Ok (), Sink (data ++ be_bytes n v) None).
Proof. intros. by apply emits_vec, emits_bo_write. Qed.

Lemma codec_vec {T} {P : T → Prop} {enc w r} (Hc : Codec P enc w r) x data :
  P x → w x (Sink data None) = (Ok (Z.of_nat (length (enc x))), Sink (data ++ enc x) None).
Proof. intros. by apply emits_vec, (codec_emits Hc). Qed.

Lemma V1_write_vec y data :
  AgentRegister_wf (AgentRegisterV1_upgrade y) →
  AgentRegisterV1_write_to y (Sink data None) =
  (Ok (Z.of_nat (length (AgentRegister_enc (AgentRegisterV1_upgrade y)))),
   Sink (data ++ AgentRegister_enc (AgentRegisterV1_upgrade y)) None).
Proof.
  intros (?&?&?&?&?&?&?&Hlen). cbn in *. unfold AgentRegisterV1_write_to, mbind, W_bind.
  do 4 rewrite bo_write_vec by done.
  do 2 rewrite (codec_vec SocketAddr_codec) by done.
  cbn. rewrite Hlen, decide_True by done. unfold mret, W_ret.
  unfold AgentRegister_enc, AgentRegister_head_enc, AgentRegister_tail_enc. cbn.
  rewrite decide_True by done.
  rewrite !length_app, !length_be_bytes, Hlen, <-!app_assoc. f_equal. f_equal. lia.
Qed.
End theory.

(** The length of a fixed-size format. *)
Ltac enc_length :=
  unfold AgentSessionId_enc, PortProto_enc, SendMtuTest_enc, CheckMtuReceivedAck_enc,
    MtuTestFail_enc;
  rewrite ?length_app, !length_be_bytes; done.

(** ** Round trips *)

Section claims.
Context {BO : ByteOrder} {ML : EncodingLib} {HL : HmacLib}.
Context {BOL : ByteOrderLaws BO} {MLL : EncodingLaws ML} {HLL : HmacLaws HL}.

(** C1: Every control request inside its range is written as exactly the
    bytes of its format, with their number as the returned count and with
    the std behaviour when a slice is too small; whatever follows, reading
    these bytes gives the request back and stops right after it. The one
    value that changes is protocol version 0, which reads back as 1. *)
Theorem control_request_roundtrip (m : ControlRpcMessage ControlRequest) :
  ControlRpcMessage_wf ControlRequest_wf m →
  let bs := ControlRpcMessage_enc ControlRequest_enc m in
  writes_exactly (ControlRpcMessage_write_to m) bs (Z.of_nat (length bs)) ∧
  (∀ rest, ControlRpcMessage_read_from (bs ++ rest) = Ok (request_msg_norm m, rest)) ∧
  (match rpc_content m with ReqAgentRegister d => ar_proto_version d ≠ 0 | _ => True end →
   request_msg_norm m = m).
Proof.
  intros Hwf. split_and!.
  - by apply emits_writes_exactly, emits_request_msg.
  - by apply reads_request_msg.
  - destruct m as [i []]; try done. destruct Hwf as [_ [[Hv _] _]].
    cbn in *. intros. unfold request_msg_norm. cbn. do 2 f_equal.
    destruct data as [v]. unfold AgentRegister_norm. cbn in *. f_equal. uint_solve.
Qed.

(** C2: Every feed message of the tunnel server is written as exactly the
    bytes of its format and read back from them, a legacy new-client notice
    as the current notice with tunnel id 0 and port offset 0. *)
Theorem control_feed_roundtrip (x : ControlFeed) :
  ControlFeed_wf x →
  writes_exactly (ControlFeed_write_to x) (ControlFeed_enc x) (ControlFeed_count x) ∧
  (∀ rest, ControlFeed_read_from (ControlFeed_enc x ++ rest) = Ok (ControlFeed_norm x, rest)).
Proof.
  intros Hwf. split.
  - by apply emits_writes_exactly, emits_ControlFeed.
  - by apply reads_ControlFeed.
Qed.

(** C4: No datagram makes a reader of the control protocol panic or loop:
    on every input, control requests, control responses and feed messages
    are read to a value or to an error. The loop over the MTU pattern stops
    within the length of the input. *)
Theorem readers_total (bs : list byte) :
  ControlRpcMessage_read_from (T := ControlRequest) bs ≠ Panic ∧
  ControlRpcMessage_read_from (T := ControlResponse) bs ≠ Panic ∧
  ControlFeed_read_from bs ≠ Panic.
Proof.
  split_and!; [..|apply no_panic_ControlFeed];
    (unfold ControlRpcMessage_read_from; apply no_panic_bind; [apply no_panic_bo_read|];
     intros; apply no_panic_bind; [|intros; apply no_panic_ret]).
  - apply no_panic_ControlRequest.
  - apply no_panic_ControlResponse.
Qed.

(** A registration whose first word would collide with the version bit
    is refused with [InvalidInput]; as a request into a vector only the four
    id bytes are left behind, and signing it panics on the [expect]. A
    received-MTU report of more than 2048 bytes panics after its two
    fields. *)
Theorem request_write_failures (x : AgentRegister) (r : CheckMtuReceived) :
  AgentRegister_wf x → ¬ AgentRegister_encodable x →
  uint 64 (cmr_id r) → uint 32 (cmr_message_size r) → 2048 < cmr_message_size r →
  (∀ s, ∃ msg, AgentRegister_write_to x s = (Err (IoError InvalidInput msg), s)) ∧
  (∀ data, ∃ msg id, ControlRequest_write_to (ReqAgentRegister x) (Sink data None) =
     (Err (IoError InvalidInput msg), Sink (data ++ id_enc id) None)) ∧
  (∀ buf h, AgentRegister_update_signature x buf h = Panic) ∧
  (∀ data, CheckMtuReceived_write_to r (Sink data None) =
     (Panic, Sink (data ++ be_bytes 8 (cmr_id r) ++ be_bytes 4 (cmr_message_size r)) None)).
Proof.
  intros Hwf He Hid Hsize Hbig. split_and!.
  - intros s. by apply unencodable_rejected.
  - intros data. unfold ControlRequest_write_to, mbind, W_bind.
    case_decide; rewrite (emits_vec _ _ _ _ (emits_id _));
      edestruct (unencodable_rejected x) as [msg ->]; try done; by eexists _, _.
  - intros. unfold AgentRegister_update_signature, AgentRegister_write_plain.
    by destruct (unencodable_rejected x (Sink [] None)) as [msg ->].
  - intros data. unfold CheckMtuReceived_write_to, mbind, W_bind.
    rewrite (codec_vec u64_codec), (codec_vec u32_codec) by done.
    unfold write_mtu_pattern. rewrite decide_False by lia. unfold w_panic. by rewrite app_assoc.
Qed.

(** The current registration encoding is the legacy one for protocol
    version 1: both writers produce the same bytes and count, and both
    readers read the message back from them. *)
Theorem legacy_register_equivalent (y : AgentRegisterV1) :
  AgentRegister_wf (AgentRegisterV1_upgrade y) → ar1_account_id y < 2 ^ 63 →
  (∀ data, AgentRegister_write_to (AgentRegisterV1_upgrade y) (Sink data None) =
           AgentRegisterV1_write_to y (Sink data None)) ∧
  (∀ rest, let bs := sk_data (AgentRegisterV1_write_to y (Sink [] None)).2 ++ rest in
     AgentRegister_read_from bs = Ok (AgentRegisterV1_upgrade y, rest) ∧
     AgentRegisterV1_read_from bs = Ok (y, rest)).
Proof.
  intros Hwf Hacc. set (x := AgentRegisterV1_upgrade y) in *.
  assert (AgentRegister_encodable x) as He by done.
  assert (AgentRegister_norm x = x) as Hnorm by done.
  split.
  - intros data. rewrite V1_write_vec by done.
    by rewrite (emits_vec _ _ _ data (emits_AgentRegister x Hwf He)).
  - intros rest. rewrite V1_write_vec by done. cbn [snd sk_data app]. split.
    + by rewrite (reads_AgentRegister x Hwf He), Hnorm.
    + destruct (reads_AgentRegisterV1 x Hwf) as (z & Hz & Heq); [done|].
      rewrite Hz, Hnorm in *. do 2 f_equal. destruct y, z. unfold x in Heq.
      cbn in Heq. by simplify_eq.
Qed.

(** Signing and verifying a registration. The signed bytes are the
    encoding without its signature, so neither the old signature nor the
    buffers' contents matter; a signed message verifies, and of all
    signatures only the tag of these bytes does. *)
Theorem register_signature (h : HmacSha256) (x : AgentRegister) (buf buf' : list byte) :
  AgentRegister_wf x → AgentRegister_encodable x →
  ∃ plain,
    plain ++ ar_signature x = AgentRegister_enc x ∧
    AgentRegister_update_signature x buf h =
      Ok (with_signature x (HmacSha256_sign h plain), plain) ∧
    AgentRegister_wf (with_signature x (HmacSha256_sign h plain)) ∧
    (∀ sig, length sig = 32%nat →
       AgentRegister_verify_signature (with_signature x sig) buf' h =
       Ok (bool_decide (sig = HmacSha256_sign h plain), plain)).
Proof.
  intros Hwf He. assert (length (ar_signature x) = 32%nat) as Hlen by apply Hwf.
  exists (take (length (AgentRegister_enc x) - 32) (AgentRegister_enc x)). split_and!.
  - rewrite plain_without_signature by done.
    unfold AgentRegister_enc, AgentRegister_tail_enc. by rewrite <-!app_assoc.
  - unfold AgentRegister_update_signature. by rewrite (write_plain_encodable x).
  - eapply with_signature_wf; [done | apply HmacSha256_sign_length].
  - intros sig Hsig. unfold AgentRegister_verify_signature.
    rewrite (write_plain_signature_irrelevant x sig buf' []), write_plain_encodable by done.
    cbn. do 2 f_equal. apply eq_bool_prop_intro.
    by rewrite !Is_true_true, HmacSha256_verify_sign, bool_decide_eq_true.
Qed.

(** The sizes a type announces ([STATIC_SIZE]) are the sizes it has on
    the wire, for sessions, protocols, MTU tests, their acknowledgements and
    failures. *)
Theorem static_sizes (a : AgentSessionId) (p : PortProto) (t : SendMtuTest)
    (k : CheckMtuReceivedAck) (f : MtuTestFail) :
  AgentSessionId_wf a → SendMtuTest_wf t → CheckMtuReceivedAck_wf k →
  (∃ bs, writes_exactly (AgentSessionId_write_to a) bs AgentSessionId_STATIC_SIZE ∧
         Z.of_nat (length bs) = AgentSessionId_STATIC_SIZE) ∧
  (∃ bs, writes_exactly (PortProto_write_to p) bs 1 ∧ length bs = 1%nat) ∧
  (∃ bs, writes_exactly (SendMtuTest_write_to t) bs SendMtuTest_STATIC_SIZE ∧
         Z.of_nat (length bs) = SendMtuTest_STATIC_SIZE) ∧
  (∃ bs, writes_exactly (CheckMtuReceivedAck_write_to k) bs CheckMtuReceivedAck_STATIC_SIZE ∧
         Z.of_nat (length bs) = CheckMtuReceivedAck_STATIC_SIZE) ∧
  (∃ bs, writes_exactly (MtuTestFail_write_to f) bs MtuTestFailCode_STATIC_SIZE ∧
         Z.of_nat (length bs) = MtuTestFailCode_STATIC_SIZE).
Proof.
  intros Ha Ht Hk.
  split_and!; (eexists; split; [apply emits_writes_exactly; eapply emits_eq;
    [emits_leaf; done || exact I | done | enc_length] | enc_length]).
Qed.

(** An MTU test packet is the exception: it has eight bytes on the wire
    and reads back, but its writer counts four (the count of its first field
    is dropped), which is also its [STATIC_SIZE]; the count of the enclosing
    response and feed message is four short as well. *)
Theorem mtu_test_packet_undercount (x : MtuTestPacket) (i : Z) :
  MtuTestPacket_wf x → uint 64 i →
  length (MtuTestPacket_enc x) = 8%nat ∧ MtuTestPacket_STATIC_SIZE = 4 ∧
  writes_exactly (MtuTestPacket_write_to x) (MtuTestPacket_enc x) MtuTestPacket_STATIC_SIZE ∧
  (let msg := FeedResponse {| rpc_request_id := i; rpc_content := ResMtuTestPacket x |} in
   writes_exactly (ControlFeed_write_to msg) (ControlFeed_enc msg)
     (Z.of_nat (length (ControlFeed_enc msg)) - 4)).
Proof.
  intros Hx Hi. split_and!.
  - unfold MtuTestPacket_enc. by rewrite length_app, !length_be_bytes.
  - done.
  - by apply emits_writes_exactly, emits_MtuTestPacket.
  - by apply emits_writes_exactly, (emits_ControlFeed
      (FeedResponse {| rpc_request_id := i; rpc_content := ResMtuTestPacket x |})).
Qed.
End claims.

(** ** The claims at concrete inputs *)

#[local] Existing Instance big_endian.
#[local] Existing Instance big_endian_laws.
#[local] Existing Instance reference_encoding.
#[local] Existing Instance reference_encoding_laws.
#[local] Existing Instance toy_hmac.
#[local] Existing Instance toy_hmac_laws.

Definition sample_legacy : AgentRegisterV1 :=
  {| ar1_account_id := 100; ar1_agent_id := 32; ar1_agent_version := 676;
     ar1_timestamp := 103201401; ar1_client_addr := sample_v4; ar1_tunnel_addr := sample_v6;
     ar1_signature := replicate 32 Byte.x07 |}.

Lemma control_request_roundtrip_witness :
  ControlRpcMessage_read_from
    (sk_data (ControlRpcMessage_write_to (sample_request 2) (Sink [] None)).2) =
  Ok (sample_request 2, []).
Proof.
  destruct (control_request_roundtrip (sample_request 2)) as ([Hw _] & Hr & Hn);
    [decide_now|].
  rewrite Hw. cbn [snd sk_data app]. rewrite <-(app_nil_r (ControlRpcMessage_enc _ _)), Hr, Hn.
  - reflexivity.
  - cbn. lia.
Defined.

Lemma control_feed_roundtrip_witness :
  ControlFeed_read_from
    (sk_data (ControlFeed_write_to (FeedNewClientOld sample_old_client) (Sink [] None)).2) =
  Ok (FeedNewClient (NewClient_from_old sample_old_client), []).
Proof.
  destruct (control_feed_roundtrip (FeedNewClientOld sample_old_client)) as ([Hw _] & Hr);
    [decide_now|].
  rewrite Hw. cbn [snd sk_data app]. rewrite <-(app_nil_r (ControlFeed_enc _)), Hr.
  reflexivity.
Defined.

Lemma readers_total_witness : ControlFeed_read_from (replicate 3 Byte.xff) ≠ Panic.
Proof. apply (readers_total (replicate 3 Byte.xff)). Defined.

Lemma request_write_failures_witness :
  AgentRegister_update_signature (sample_register (2 ^ 63 + 1)) [] (MkHmacSha256 (HL := toy_hmac) []) = Panic ∧
  (CheckMtuReceived_write_to {| cmr_id := 1; cmr_message_size := 2049 |} (Sink [] None)).1 = Panic.
Proof.
  destruct (request_write_failures (sample_register (2 ^ 63 + 1))
    {| cmr_id := 1; cmr_message_size := 2049 |}) as (_ & _ & Hs & Hm).
  - decide_now.
  - decide_now.
  - decide_now.
  - decide_now.
  - reflexivity.
  - split; [apply Hs | by rewrite Hm].
Defined.

Lemma legacy_register_equivalent_witness :
  AgentRegister_write_to (AgentRegisterV1_upgrade sample_legacy) (Sink [] None) =
  AgentRegisterV1_write_to sample_legacy (Sink [] None).
Proof.
  apply (legacy_register_equivalent sample_legacy).
  - decide_now.
  - reflexivity.
Defined.

Lemma register_signature_witness :
  ∃ y plain,
    AgentRegister_update_signature (sample_register 2) [] (MkHmacSha256 (HL := toy_hmac) [Byte.x05]) = Ok (y, plain).
Proof.
  destruct (register_signature (MkHmacSha256 (HL := toy_hmac) [Byte.x05]) (sample_register 2) [] [])
    as (plain & _ & Hu & _).
  - decide_now.
  - decide_now.
  - eexists _, plain. exact Hu.
Defined.

Lemma static_sizes_witness :
  ∃ bs, writes_exactly (AgentSessionId_write_to sample_session) bs 24 ∧ Z.of_nat (length bs) = 24.
Proof.
  apply (static_sizes sample_session Tcp
    {| smt_id := 1; smt_data_center_id := 2; smt_udp_payload_length := 3 |}
    {| ack_id := 1; ack_message_length := 2; ack_ip_header_length := 3;
       ack_udp_payload_length := 4 |} {| mtf_error_code := InvalidDcId |}).
  - decide_now.
  - decide_now.
  - decide_now.
Defined.

Lemma mtu_test_packet_undercount_witness :
  MtuTestPacket_write_to {| mtp_data_center_id := 2; mtp_udp_payload_length := 3 |} (Sink [] None) =
  (Ok 4, Sink (be_bytes 4 2 ++ be_bytes 4 3) None).
Proof.
  apply (mtu_test_packet_undercount {| mtp_data_center_id := 2; mtp_udp_payload_length := 3 |} 0).
  - decide_now.
  - by vm_compute.
Defined.
