(* ===== verification/UdpProto.v ===== *)
(** * Flow footers of tunnelled datagrams (agent_proto/src/udp_proto.rs)

    Every datagram between the agent and the tunnel server carries its flow
    at its end; the last eight bytes select one of four layouts. *)

From S2P Require Import Prelude Bytes Net.

(** ** Data *)

Definition REDIRECT_FLOW_4_FOOTER_ID_V1 : Z := 0x5cb867cf788173b2.

Definition REDIRECT_FLOW_6_FOOTER_ID_V1 : Z := 0x6668676f68616366.

Definition REDIRECT_FLOW_4_FOOTER_ID_V2 : Z := 0x5cb867cf78817399.

Definition REDIRECT_FLOW_6_FOOTER_ID_V2 : Z := 0x6cb667cf78817369.

Definition UDP_CHANNEL_ESTABLISH_ID : Z := 0xd01fe6830ddce781.

Definition EXT_LEN : nat := 18.

Definition IP4_LEN_V1 : nat := 20.

Definition IP4_LEN_V2_WITHOUT_FRAG : nat := 20 + EXT_LEN + 2.

Definition IP4_LEN_V2_WITH_FRAG : nat := IP4_LEN_V2_WITHOUT_FRAG + 3.

Definition IP6_LEN_V1 : nat := 48.

Definition IP6_LEN_V2 : nat := IP6_LEN_V1 - 4 + EXT_LEN.

(** The ids are [NonZeroU64]. *)
Record UdpFlowExtension : Type := {
  ext_client_server_id : Z;
  ext_tunnel_id : Z;
  ext_port_offset : Z;
}.

(** [packet_id] is a [NonZeroU16]. *)
Record FragmentInfo : Type := {
  frag_packet_id : Z;
  frag_frag_offset : Z;
  frag_has_more : bool;
}.

Inductive UdpFlow : Type :=
  | FlowV4 (src dst : SocketAddrV4) (frag : option FragmentInfo)
      (extension : option UdpFlowExtension)
  | FlowV6 (src dst : Z * Z) (extension : option UdpFlowExtension).

#[global] Instance UdpFlowExtension_eq_dec : EqDecision UdpFlowExtension.
Proof. solve_decision. Defined.
#[global] Instance FragmentInfo_eq_dec : EqDecision FragmentInfo.
Proof. solve_decision. Defined.
#[global] Instance UdpFlow_eq_dec : EqDecision UdpFlow.
Proof. solve_decision. Defined.

(** [NonZeroU64::new] and [NonZeroU16::new]. *)
Definition NonZero_new (v : Z) : option Z := if decide (v = 0) then None else Some v.

(** ** Accessors *)

Definition UdpFlow_extension (f : UdpFlow) : option UdpFlowExtension :=
  match f with
  | FlowV4 _ _ _ extension => extension
  | FlowV6 _ _ extension => extension
  end.

Definition UdpFlow_client_server_id (f : UdpFlow) : option Z :=
  ext_client_server_id <$> UdpFlow_extension f.

(** The update through [extension_mut]. *)
Definition UdpFlow_extension_mut (g : UdpFlowExtension → UdpFlowExtension) (f : UdpFlow) :
    UdpFlow :=
  match f with
  | FlowV4 src dst frag extension => FlowV4 src dst frag (g <$> extension)
  | FlowV6 src dst extension => FlowV6 src dst (g <$> extension)
  end.

Definition UdpFlow_update_client_server_id (f : UdpFlow) (client_server_id : Z) : UdpFlow :=
  UdpFlow_extension_mut
    (λ e, {| ext_client_server_id := client_server_id; ext_tunnel_id := ext_tunnel_id e;
             ext_port_offset := ext_port_offset e |}) f.

Definition UdpFlow_flip (f : UdpFlow) : UdpFlow :=
  match f with
  | FlowV4 src dst frag extension => FlowV4 dst src frag extension
  | FlowV6 src dst extension => FlowV6 dst src extension
  end.

Definition UdpFlow_src (f : UdpFlow) : SocketAddr :=
  match f with
  | FlowV4 src _ _ _ => SaV4 src
  | FlowV6 (ip, port) _ _ => SaV6 (SockV6 ip port 0 0)
  end.

Definition UdpFlow_dst (f : UdpFlow) : SocketAddr :=
  match f with
  | FlowV4 _ dst _ _ => SaV4 dst
  | FlowV6 _ (ip, port) _ => SaV6 (SockV6 ip port 0 0)
  end.

Definition UdpFlow_footer_len (f : UdpFlow) : nat :=
  match f with
  | FlowV4 _ _ _ None => IP4_LEN_V1
  | FlowV4 _ _ (Some _) (Some _) => IP4_LEN_V2_WITH_FRAG
  | FlowV4 _ _ None (Some _) => IP4_LEN_V2_WITHOUT_FRAG
  | FlowV6 _ _ None => IP6_LEN_V1
  | FlowV6 _ _ (Some _) => IP6_LEN_V2
  end.

(** The maxima are taken with the message-encoding crate's [m_max_list]. *)
Section max_len.
Context (m_max_list : list nat → nat).

Definition MAX_IP4_LEN : nat :=
  m_max_list [IP4_LEN_V1; IP4_LEN_V2_WITH_FRAG; IP4_LEN_V2_WITHOUT_FRAG].

Definition MAX_IP6_LEN : nat := m_max_list [IP6_LEN_V1; IP6_LEN_V2].

Definition MX_LEN : nat := m_max_list [MAX_IP4_LEN; MAX_IP6_LEN].
End max_len.

(** ** Writing and parsing *)

Section footer.
Context {BO : ByteOrder}.

(** [slice.write_uN::<BigEndian>(v).unwrap()]: an error is a panic. *)
Definition put (n : nat) (v : Z) : W () := λ s,
  match bo_write n v s with
  | (Err _, s') => (Panic, s')
  | r => r
  end.

Definition write_extension (e : UdpFlowExtension) : W () :=
  put 8 (ext_client_server_id e);;
  put 8 (ext_tunnel_id e);;
  put 2 (ext_port_offset e).

Definition write_frag (frag : option FragmentInfo) : W () :=
  match frag with
  | None => put 2 0
  | Some frag =>
      put 1 (if frag_has_more frag then 1 else 0);;
      put 2 (frag_frag_offset frag);;
      put 2 (frag_packet_id frag)
  end.

Definition UdpFlow_write_body (f : UdpFlow) : W () :=
  match f with
  | FlowV4 src dst frag extension =>
      put 4 (sa4_ip src);;
      put 4 (sa4_ip dst);;
      put 2 (sa4_port src);;
      put 2 (sa4_port dst);;
      match extension with
      | Some extension =>
          write_extension extension;;
          write_frag frag;;
          put 8 REDIRECT_FLOW_4_FOOTER_ID_V2
      | None => put 8 REDIRECT_FLOW_4_FOOTER_ID_V1
      end
  | FlowV6 src dst extension =>
      put 16 src.1;;
      put 16 dst.1;;
      put 2 src.2;;
      put 2 dst.2;;
      match extension with
      | Some extension =>
          write_extension extension;;
          put 8 REDIRECT_FLOW_6_FOOTER_ID_V2
      | None =>
          put 4 0;;
          put 8 REDIRECT_FLOW_6_FOOTER_ID_V1
      end
  end.

(** [write_to(&self, slice: &mut \[u8\]) -> bool], with the slice afterwards:
    the bytes written replace its first ones. *)
Definition UdpFlow_write_to (f : UdpFlow) (slice : list byte) :
    outcome io_error (bool * list byte) :=
  if decide (length slice < UdpFlow_footer_len f)%nat then Ok (false, slice)
  else
    match UdpFlow_write_body f (Sink [] (Some (length slice))) with
    | (Ok _, s) => Ok (true, sk_data s ++ drop (length (sk_data s)) slice)
    | (Err e, _) => Err e
    | (Panic, _) => Panic
    end.

(** Readers of [from_tail], whose error is [Option<u64>]. *)
Definition TR (A : Type) : Type := list byte → outcome (option Z) (A * list byte).

#[global] Instance TR_ret : MRet TR := λ A a bs, Ok (a, bs).
#[global] Instance TR_bind : MBind TR := λ A B f m bs,
  match m bs with
  | Ok (a, rest) => f a rest
  | Err e => Err e
  | Panic => Panic
  end.

(** [slice.read_uN::<BigEndian>().unwrap()]. *)
Definition get (n : nat) : TR Z := λ bs,
  match bo_read n bs with
  | Ok r => Ok r
  | _ => Panic
  end.

(** [NonZeroU64::new(..).ok_or(None)?]. *)
Definition tr_ok_or {A} (o : option A) : TR A := λ bs, a ← ok_or None o; Ok (a, bs).

Definition get_non_zero (n : nat) : TR Z :=
  v ← get n;
  tr_ok_or (NonZero_new v).

(** [&slice\[slice.len() - n..\]], after the check that [n] bytes are there. *)
Definition tail_slice {A} (n : nat) (slice : list byte) (r : TR A) : outcome (option Z) A :=
  if decide (length slice < n)%nat then Err None
  else
    t ← slice_from (length slice - n) slice;
    res ← r t;
    Ok res.1.

(** [BigEndian::read_uN(&slice\[slice.len() - k..\])]. *)
Definition read_back (n k : nat) (slice : list byte) : outcome (option Z) Z :=
  t ← slice_from (length slice - k) slice;
  match bo_slice n t with
  | Ok v => Ok v
  | _ => Panic
  end.

Definition read_v4_v1 : TR UdpFlow :=
  src_ip ← get 4;
  dst_ip ← get 4;
  src_port ← get 2;
  dst_port ← get 2;
  mret (FlowV4 (SockV4 src_ip src_port) (SockV4 dst_ip dst_port) None None).

Definition read_extension : TR UdpFlowExtension :=
  client_server_id ← get_non_zero 8;
  tunnel_id ← get_non_zero 8;
  port_offset ← get 2;
  mret {| ext_client_server_id := client_server_id; ext_tunnel_id := tunnel_id;
          ext_port_offset := port_offset |}.

Definition read_frag (packet_id : Z) : TR (option FragmentInfo) :=
  match NonZero_new packet_id with
  | Some packet_id =>
      has_more ← get 1;
      frag_offset ← get 2;
      mret (Some {| frag_packet_id := packet_id; frag_frag_offset := frag_offset;
                    frag_has_more := bool_decide (has_more ≠ 0) |})
  | None => mret None
  end.

Definition read_v4_v2 (packet_id : Z) : TR UdpFlow :=
  src_ip ← get 4;
  dst_ip ← get 4;
  src_port ← get 2;
  dst_port ← get 2;
  extension ← read_extension;
  frag ← read_frag packet_id;
  mret (FlowV4 (SockV4 src_ip src_port) (SockV4 dst_ip dst_port) frag (Some extension)).

Definition read_v6_v1 : TR UdpFlow :=
  src_ip ← get 16;
  dst_ip ← get 16;
  src_port ← get 2;
  dst_port ← get 2;
  get 4;;
  mret (FlowV6 (src_ip, src_port) (dst_ip, dst_port) None).

Definition read_v6_v2 : TR UdpFlow :=
  src_ip ← get 16;
  dst_ip ← get 16;
  src_port ← get 2;
  dst_port ← get 2;
  extension ← read_extension;
  mret (FlowV6 (src_ip, src_port) (dst_ip, dst_port) (Some extension)).

Definition UdpFlow_from_tail (slice : list byte) : outcome (option Z) UdpFlow :=
  if decide (length slice < 8)%nat then Err None
  else
    footer_id ← read_back 8 8 slice;
    if decide (footer_id = REDIRECT_FLOW_4_FOOTER_ID_V1) then
      tail_slice IP4_LEN_V1 slice read_v4_v1
    else if decide (footer_id = REDIRECT_FLOW_4_FOOTER_ID_V2) then
      if decide (length slice < 10)%nat then Err None
      else
        packet_id ← read_back 2 10 slice;
        tail_slice
          (if decide (packet_id = 0) then IP4_LEN_V2_WITHOUT_FRAG else IP4_LEN_V2_WITH_FRAG)
          slice (read_v4_v2 packet_id)
    else if decide (footer_id = REDIRECT_FLOW_6_FOOTER_ID_V1) then
      tail_slice IP6_LEN_V1 slice read_v6_v1
    else if decide (footer_id = REDIRECT_FLOW_6_FOOTER_ID_V2) then
      tail_slice IP6_LEN_V2 slice read_v6_v2
    else Err (Some footer_id).
End footer.

(** ** Format *)

Definition ext_enc (e : UdpFlowExtension) : list byte :=
  be_bytes 8 (ext_client_server_id e) ++ be_bytes 8 (ext_tunnel_id e) ++
  be_bytes 2 (ext_port_offset e).

Definition frag_enc (frag : option FragmentInfo) : list byte :=
  match frag with
  | None => be_bytes 2 0
  | Some f =>
      be_bytes 1 (if frag_has_more f then 1 else 0) ++ be_bytes 2 (frag_frag_offset f) ++
      be_bytes 2 (frag_packet_id f)
  end.

(** The addresses and what follows them, without the footer id. *)
Definition flow_body_enc (f : UdpFlow) : list byte :=
  match f with
  | FlowV4 src dst frag ext =>
      be_bytes 4 (sa4_ip src) ++ be_bytes 4 (sa4_ip dst) ++ be_bytes 2 (sa4_port src) ++
      be_bytes 2 (sa4_port dst) ++
      match ext with
      | Some e => ext_enc e ++ frag_enc frag
      | None => []
      end
  | FlowV6 src dst ext =>
      be_bytes 16 src.1 ++ be_bytes 16 dst.1 ++ be_bytes 2 src.2 ++ be_bytes 2 dst.2 ++
      match ext with
      | Some e => ext_enc e
      | None => be_bytes 4 0
      end
  end.

Definition footer_id (f : UdpFlow) : Z :=
  match f with
  | FlowV4 _ _ _ None => REDIRECT_FLOW_4_FOOTER_ID_V1
  | FlowV4 _ _ _ (Some _) => REDIRECT_FLOW_4_FOOTER_ID_V2
  | FlowV6 _ _ None => REDIRECT_FLOW_6_FOOTER_ID_V1
  | FlowV6 _ _ (Some _) => REDIRECT_FLOW_6_FOOTER_ID_V2
  end.

Definition flow_enc (f : UdpFlow) : list byte := flow_body_enc f ++ be_bytes 8 (footer_id f).

(** Values of the Rust types. *)
Definition ext_wf (e : UdpFlowExtension) : Prop :=
  (uint 64 (ext_client_server_id e) ∧ ext_client_server_id e ≠ 0) ∧
  (uint 64 (ext_tunnel_id e) ∧ ext_tunnel_id e ≠ 0) ∧ uint 16 (ext_port_offset e).

Definition frag_wf (f : FragmentInfo) : Prop :=
  (uint 16 (frag_packet_id f) ∧ frag_packet_id f ≠ 0) ∧ uint 16 (frag_frag_offset f).

Definition flow_wf (f : UdpFlow) : Prop :=
  match f with
  | FlowV4 src dst frag ext =>
      SocketAddrV4_wf src ∧ SocketAddrV4_wf dst ∧
      match frag with Some g => frag_wf g | None => True end ∧
      match ext with Some e => ext_wf e | None => True end
  | FlowV6 src dst ext =>
      uint 128 src.1 ∧ uint 16 src.2 ∧ uint 128 dst.1 ∧ uint 16 dst.2 ∧
      match ext with Some e => ext_wf e | None => True end
  end.

#[global] Instance flow_wf_dec f : Decision (flow_wf f).
Proof.
  destruct f as [? ? [] []|? ? []]; cbn; unfold SocketAddrV4_wf, frag_wf, ext_wf; apply _.
Defined.

(** The old IPv4 layout has no room for a fragment. *)
Definition flow_norm (f : UdpFlow) : UdpFlow :=
  match f with
  | FlowV4 src dst _ None => FlowV4 src dst None None
  | _ => f
  end.

(** ** Faithfulness *)

(** [puts w bs]: with room for [bs], [w] appends exactly [bs]. *)
Definition puts (w : W ()) (bs : list byte) : Prop :=
  ∀ data room, (length bs ≤ room)%nat →
    w (Sink data (Some room)) = (Ok (), Sink (data ++ bs) (Some (room - length bs)%nat)).

(** [gets r bs a]: [r] reads [a] from the front of every input that starts
    with [bs]. *)
Definition gets {A} (r : TR A) (bs : list byte) (a : A) : Prop :=
  ∀ rest, r (bs ++ rest) = Ok (a, rest).

(** [needs r n P]: with [n] bytes at hand [r] does not panic, what it returns
    satisfies [P], it leaves exactly the rest, and it fails only with
    [None]. *)
Definition needs {A} (r : TR A) (n : nat) (P : A → Prop) : Prop :=
  ∀ bs, (n ≤ length bs)%nat →
    match r bs with
    | Ok (a, rest) => P a ∧ length rest = (length bs - n)%nat
    | Err e => e = None
    | Panic => False
    end.

Lemma puts_bind w1 w2 b1 b2 : puts w1 b1 → puts w2 b2 → puts (w1;; w2) (b1 ++ b2).
Proof.
  intros H1 H2 data room Hr. rewrite length_app in *. unfold mbind, W_bind.
  rewrite H1, H2 by lia. by rewrite <-app_assoc, Nat.sub_add_distr.
Qed.

Lemma gets_ret {A} (a : A) : gets (mret a) [] a.
Proof. by intros rest. Qed.

Lemma gets_bind {A B} (r : TR A) (k : A → TR B) b1 b2 a b :
  gets r b1 a → gets (k a) b2 b → gets (r ≫= k) (b1 ++ b2) b.
Proof. intros Hr Hk rest. unfold mbind, TR_bind. by rewrite <-app_assoc, Hr, Hk. Qed.

Lemma needs_ret {A} (a : A) (P : A → Prop) : P a → needs (mret a) 0 P.
Proof. intros ? bs _. cbn. split; [done | lia]. Qed.

Lemma needs_bind {A B} (r : TR A) (k : A → TR B) n m P Q :
  needs r n P → (∀ a, P a → needs (k a) m Q) → needs (r ≫= k) (n + m) Q.
Proof.
  intros Hr Hk bs Hlen. unfold mbind, TR_bind. specialize (Hr bs ltac:(lia)).
  destruct (r bs) as [[a rest]|e|]; [|done..]. destruct Hr as [Ha Hl].
  specialize (Hk a Ha rest ltac:(lia)). destruct (k a rest) as [[b rest']|e|]; [|done..].
  destruct Hk. split; [done | lia].
Qed.

Section facts.
Context {BO : ByteOrder} {BOL : ByteOrderLaws BO}.

Lemma puts_put n v : uint (8 * Z.of_nat n) v → puts (put n v) (be_bytes n v).
Proof.
  intros Hv data room Hr. unfold put. rewrite bo_write_spec, write_all_room by done.
  by rewrite decide_True.
Qed.

Lemma gets_get n v : uint (8 * Z.of_nat n) v → gets (get n) (be_bytes n v) v.
Proof. intros Hv rest. unfold get. by rewrite reads_bo_read. Qed.

Lemma gets_non_zero n v :
  uint (8 * Z.of_nat n) v → v ≠ 0 → gets (get_non_zero n) (be_bytes n v) v.
Proof.
  intros Hv Hne. rewrite <-(app_nil_r (be_bytes n v)). eapply gets_bind; [by apply gets_get|].
  intros rest. unfold tr_ok_or, NonZero_new. by rewrite decide_False.
Qed.

Lemma needs_get n : needs (get n) n (uint (8 * Z.of_nat n)).
Proof.
  intros bs Hlen. unfold get. rewrite bo_read_enough by done. split.
  - rewrite <-(length_take_le bs n) at 1 by done. apply be_val_uint.
  - apply length_drop.
Qed.

Lemma needs_non_zero n : needs (get_non_zero n) n (λ v, uint (8 * Z.of_nat n) v ∧ v ≠ 0).
Proof.
  replace n with (n + 0)%nat at 2 by lia. eapply needs_bind; [apply needs_get|].
  intros v Hv bs _. unfold tr_ok_or, NonZero_new. case_decide; cbn; [done|].
  split_and!; [done.. | lia].
Qed.

Lemma puts_extension e : ext_wf e → puts (write_extension e) (ext_enc e).
Proof.
  intros ([? ?] & [? ?] & ?). repeat apply puts_bind; by apply puts_put.
Qed.

Lemma puts_frag frag :
  match frag with Some g => frag_wf g | None => True end → puts (write_frag frag) (frag_enc frag).
Proof.
  destruct frag as [[p o m]|]; cbn; [intros ([? ?] & ?) | intros _; by apply puts_put].
  repeat apply puts_bind; apply puts_put; [by destruct m | done..].
Qed.

Ltac puts_step :=
  lazymatch goal with
  | |- puts (mbind _ _) _ => apply puts_bind
  | |- puts (write_extension _) _ => by apply puts_extension
  | |- puts (write_frag _) _ => by apply puts_frag
  | |- puts (put _ _) _ => apply puts_put; first [assumption | by vm_compute]
  end.

Lemma puts_flow f : flow_wf f → puts (UdpFlow_write_body f) (flow_enc f).
Proof.
  unfold flow_enc. destruct f as [src dst frag [e|]|src dst [e|]]; cbn;
    unfold SocketAddrV4_wf; intros Hwf; destruct_and?; rewrite <-?app_assoc;
    repeat puts_step.
Qed.

Lemma gets_extension e : ext_wf e → gets read_extension (ext_enc e) e.
Proof.
  destruct e. intros ([? ?] & [? ?] & ?). unfold ext_enc. cbn in *.
  rewrite <-(app_nil_r (_ ++ _)), <-!app_assoc.
  eapply gets_bind; [by apply gets_non_zero|]. eapply gets_bind; [by apply gets_non_zero|].
  eapply gets_bind; [by apply gets_get | apply gets_ret].
Qed.

(** Reading the layout at the end of a longer slice. *)
Lemma tail_slice_gets {A} (r : TR A) n prefix b c a :
  gets r b a → n = length (b ++ c) → tail_slice n (prefix ++ b ++ c) r = Ok a.
Proof.
  intros Hr ->. unfold tail_slice, slice_from.
  rewrite decide_False by (rewrite (length_app prefix); lia).
  rewrite decide_True by lia. cbn [mbind outcome_bind].
  rewrite drop_suffix by done. by rewrite Hr.
Qed.

Lemma read_back_app n k v prefix c :
  uint (8 * Z.of_nat n) v → k = (n + length c)%nat →
  read_back n k (prefix ++ be_bytes n v ++ c) = Ok v.
Proof.
  intros Hv ->. unfold read_back, slice_from.
  rewrite decide_True by lia. cbn [mbind outcome_bind].
  rewrite drop_suffix by (by rewrite length_app, length_be_bytes).
  rewrite bo_slice_spec by (rewrite length_app, length_be_bytes; lia).
  by rewrite take_app_exact, be_val_be_bytes by by rewrite ?length_be_bytes.
Qed.

Lemma gets_v4 src dst (k : Z → Z → Z → Z → TR UdpFlow) b f :
  SocketAddrV4_wf src → SocketAddrV4_wf dst →
  gets (k (sa4_ip src) (sa4_ip dst) (sa4_port src) (sa4_port dst)) b f →
  gets (src_ip ← get 4; dst_ip ← get 4; src_port ← get 2; dst_port ← get 2;
        k src_ip dst_ip src_port dst_port)
    (be_bytes 4 (sa4_ip src) ++ be_bytes 4 (sa4_ip dst) ++ be_bytes 2 (sa4_port src) ++
     be_bytes 2 (sa4_port dst) ++ b) f.
Proof. intros [? ?] [? ?] Hk. by do 4 (eapply gets_bind; [by apply gets_get|]). Qed.

Lemma gets_v6 (src dst : Z * Z) (k : Z → Z → Z → Z → TR UdpFlow) b f :
  uint 128 src.1 ∧ uint 16 src.2 → uint 128 dst.1 ∧ uint 16 dst.2 →
  gets (k src.1 dst.1 src.2 dst.2) b f →
  gets (src_ip ← get 16; dst_ip ← get 16; src_port ← get 2; dst_port ← get 2;
        k src_ip dst_ip src_port dst_port)
    (be_bytes 16 src.1 ++ be_bytes 16 dst.1 ++ be_bytes 2 src.2 ++ be_bytes 2 dst.2 ++ b) f.
Proof. intros [? ?] [? ?] Hk. by do 4 (eapply gets_bind; [by apply gets_get|]). Qed.

(** The part of the fragment before its packet id. *)
Definition frag_head (frag : option FragmentInfo) : list byte :=
  match frag with
  | None => []
  | Some f => be_bytes 1 (if frag_has_more f then 1 else 0) ++ be_bytes 2 (frag_frag_offset f)
  end.

Definition frag_id (frag : option FragmentInfo) : Z :=
  match frag with
  | None => 0
  | Some f => frag_packet_id f
  end.

Lemma frag_enc_split frag : frag_enc frag = frag_head frag ++ be_bytes 2 (frag_id frag).
Proof. destruct frag; cbn; by rewrite <-?app_assoc. Qed.

Lemma frag_id_uint frag :
  match frag with Some g => frag_wf g | None => True end → uint 16 (frag_id frag).
Proof. destruct frag; cbn; [by intros [[? _] _] | done]. Qed.

Lemma gets_frag frag :
  match frag with Some g => frag_wf g | None => True end →
  gets (read_frag (frag_id frag)) (frag_head frag) frag.
Proof.
  destruct frag as [[p o m]|]; cbn; [|intros _; apply gets_ret].
  intros ([? ?] & ?). cbn in *.
  unfold read_frag, NonZero_new. rewrite decide_False by done.
  rewrite <-(app_nil_r (be_bytes 2 o)).
  eapply gets_bind; [apply gets_get; by destruct m|].
  eapply gets_bind; [by apply gets_get|]. destruct m; apply gets_ret.
Qed.

Lemma length_flow_enc f : length (flow_enc f) = UdpFlow_footer_len f.
Proof.
  unfold flow_enc. rewrite length_app, length_be_bytes.
  destruct f as [? ? [] []|? ? []]; cbn; unfold ext_enc, frag_enc;
    by rewrite ?length_app, ?length_be_bytes.
Qed.

Lemma footer_id_uint f : uint 64 (footer_id f).
Proof. by destruct f as [? ? ? []|? ? []]. Qed.

(** The footer id of an encoded flow is found at its end. *)
Lemma from_tail_footer f prefix :
  ¬ (length (prefix ++ flow_enc f) < 8)%nat ∧
  read_back 8 8 (prefix ++ flow_enc f) = Ok (footer_id f).
Proof.
  unfold flow_enc. split.
  - rewrite !length_app, length_be_bytes. lia.
  - rewrite app_assoc, <-(app_nil_r (be_bytes 8 _)).
    apply read_back_app; [apply footer_id_uint | done].
Qed.

Lemma from_tail_v4_v2 src dst frag e prefix :
  flow_wf (FlowV4 src dst frag (Some e)) →
  UdpFlow_from_tail (prefix ++ flow_enc (FlowV4 src dst frag (Some e))) =
  Ok (FlowV4 src dst frag (Some e)).
Proof.
  set (f := FlowV4 src dst frag (Some e)). intros (Hs & Hd & Hf & He).
  destruct (from_tail_footer f prefix) as [Hlen Hid].
  unfold UdpFlow_from_tail. rewrite decide_False, Hid by done. cbn [mbind outcome_bind].
  rewrite decide_False, decide_True by done.
  rewrite decide_False by (rewrite length_app, length_flow_enc; unfold f; destruct frag; cbn; lia).
  assert (read_back 2 10 (prefix ++ flow_enc f) = Ok (frag_id frag)) as ->.
  { unfold flow_enc, f. cbn [flow_body_enc]. rewrite frag_enc_split, !app_assoc, <-(app_assoc _ _ (be_bytes 8 _)).
    apply read_back_app; [by apply frag_id_uint | by rewrite length_be_bytes]. }
  cbn [mbind outcome_bind].
  unfold flow_enc, f. cbn [flow_body_enc]. rewrite frag_enc_split.
  match goal with
  | |- tail_slice _ (prefix ++ (?a ++ ?b ++ ?c ++ ?d ++ ?e ++ ?g ++ ?h) ++ ?k) _ = _ =>
      replace ((a ++ b ++ c ++ d ++ e ++ g ++ h) ++ k) with ((a ++ b ++ c ++ d ++ e ++ g) ++ h ++ k)
        by (by rewrite <-!app_assoc)
  end.
  apply tail_slice_gets.
  - unfold read_v4_v2.
    apply (gets_v4 src dst (λ a b c d, extension ← read_extension; frag ← read_frag _; mret _));
      [done | done |].
    eapply gets_bind; [by apply gets_extension|]. rewrite <-(app_nil_r (frag_head frag)).
    eapply gets_bind; [by apply gets_frag|]. destruct src, dst. apply gets_ret.
  - unfold ext_enc. rewrite !length_app, !length_be_bytes.
    destruct frag as [g|]; cbn [frag_id frag_head].
    + destruct Hf as [[? ?] ?]. rewrite decide_False by done. rewrite !length_app, !length_be_bytes. done.
    + by rewrite decide_True.
Qed.

Lemma from_tail_enc f prefix :
  flow_wf f → UdpFlow_from_tail (prefix ++ flow_enc (flow_norm f)) = Ok (flow_norm f).
Proof.
  intros Hwf. destruct f as [src dst frag [e|]|src dst [e|]]; [by apply from_tail_v4_v2|..];
    (destruct (from_tail_footer (flow_norm (FlowV4 src dst frag None)) prefix) as [Hlen Hid] ||
     destruct (from_tail_footer (FlowV6 src dst (Some e)) prefix) as [Hlen Hid] ||
     destruct (from_tail_footer (FlowV6 src dst None) prefix) as [Hlen Hid]);
    cbn [flow_norm] in *; unfold UdpFlow_from_tail; rewrite decide_False, Hid by done;
    cbn [mbind outcome_bind footer_id]; unfold flow_enc; cbn [flow_body_enc].
  - destruct Hwf as (?&?&?&?). rewrite decide_True by done.
    apply tail_slice_gets; [|by rewrite !length_app, !length_be_bytes].
    apply (gets_v4 src dst (λ a b c d, mret _)); [done..|]. destruct src, dst. apply gets_ret.
  - destruct Hwf as (?&?&?&?&?). do 3 rewrite decide_False by done. rewrite decide_True by done.
    apply tail_slice_gets; [|by unfold ext_enc; rewrite !length_app, !length_be_bytes].
    apply (gets_v6 src dst (λ a b c d, extension ← read_extension; mret _)); [done..|].
    rewrite <-(app_nil_r (ext_enc e)).
    eapply gets_bind; [by apply gets_extension|]. destruct src, dst. apply gets_ret.
  - destruct Hwf as (?&?&?&?&?). do 2 rewrite decide_False by done. rewrite decide_True by done.
    apply tail_slice_gets; [|by rewrite !length_app, !length_be_bytes].
    apply (gets_v6 src dst (λ a b c d, get 4;; mret _)); [done..|].
    rewrite <-(app_nil_r (be_bytes 4 0)).
    eapply gets_bind; [by apply gets_get|]. destruct src, dst. apply gets_ret.
Qed.

(** ** Parsing arbitrary input *)

Lemma needs_extension : needs read_extension 18 ext_wf.
Proof.
  apply (needs_bind _ _ 8 10 _ _ (needs_non_zero 8)). intros c [? ?].
  apply (needs_bind _ _ 8 2 _ _ (needs_non_zero 8)). intros t [? ?].
  apply (needs_bind _ _ 2 0 _ _ (needs_get 2)). intros p ?.
  by apply needs_ret.
Qed.

Lemma needs_frag packet_id :
  uint 16 packet_id →
  needs (read_frag packet_id) (if decide (packet_id = 0) then 0 else 3)
    (λ o, match o with Some g => packet_id ≠ 0 ∧ frag_wf g | None => packet_id = 0 end).
Proof.
  intros Hp. unfold read_frag, NonZero_new. case_decide; [by apply needs_ret|].
  apply (needs_bind _ _ 1 2 _ _ (needs_get 1)). intros m _.
  apply (needs_bind _ _ 2 0 _ _ (needs_get 2)). intros o ?. by apply needs_ret.
Qed.

Lemma needs_v4 (k : Z → Z → Z → Z → TR UdpFlow) n P :
  (∀ si di sp dp, SocketAddrV4_wf (SockV4 si sp) → SocketAddrV4_wf (SockV4 di dp) →
     needs (k si di sp dp) n P) →
  needs (src_ip ← get 4; dst_ip ← get 4; src_port ← get 2; dst_port ← get 2;
         k src_ip dst_ip src_port dst_port) (12 + n) P.
Proof.
  intros Hk. apply (needs_bind _ _ 4 (8 + n) _ _ (needs_get 4)). intros si ?.
  apply (needs_bind _ _ 4 (4 + n) _ _ (needs_get 4)). intros di ?.
  apply (needs_bind _ _ 2 (2 + n) _ _ (needs_get 2)). intros sp ?.
  apply (needs_bind _ _ 2 n _ _ (needs_get 2)). intros dp ?. by apply Hk.
Qed.

Lemma needs_v6 (k : Z → Z → Z → Z → TR UdpFlow) n P :
  (∀ si di sp dp, uint 128 si → uint 128 di → uint 16 sp → uint 16 dp →
     needs (k si di sp dp) n P) →
  needs (src_ip ← get 16; dst_ip ← get 16; src_port ← get 2; dst_port ← get 2;
         k src_ip dst_ip src_port dst_port) (36 + n) P.
Proof.
  intros Hk. apply (needs_bind _ _ 16 (20 + n) _ _ (needs_get 16)). intros si ?.
  apply (needs_bind _ _ 16 (4 + n) _ _ (needs_get 16)). intros di ?.
  apply (needs_bind _ _ 2 (2 + n) _ _ (needs_get 2)). intros sp ?.
  apply (needs_bind _ _ 2 n _ _ (needs_get 2)). intros dp ?. by apply Hk.
Qed.

(** A parsed flow is well formed, carries nothing the layout cannot, and
    occupies the end of the slice. *)
Definition parsed (slice : list byte) (o : outcome (option Z) UdpFlow) : Prop :=
  match o with
  | Ok f => flow_wf f ∧ flow_norm f = f ∧ (UdpFlow_footer_len f ≤ length slice)%nat
  | Err None => True
  | Err (Some id) =>
      uint 64 id ∧ id ∉ [REDIRECT_FLOW_4_FOOTER_ID_V1; REDIRECT_FLOW_4_FOOTER_ID_V2;
                         REDIRECT_FLOW_6_FOOTER_ID_V1; REDIRECT_FLOW_6_FOOTER_ID_V2]
  | Panic => False
  end.

Lemma tail_slice_parsed n m slice (r : TR UdpFlow) :
  (m ≤ n)%nat →
  needs r m (λ f, flow_wf f ∧ flow_norm f = f ∧ UdpFlow_footer_len f = n) →
  parsed slice (tail_slice n slice r).
Proof.
  intros Hm Hr. unfold tail_slice. case_decide; [done|].
  unfold slice_from. rewrite decide_True by lia. cbn [mbind outcome_bind].
  set (t := drop (length slice - n) slice).
  assert (length t = n) as Ht by (apply length_drop_suffix; lia).
  specialize (Hr t ltac:(lia)). destruct (r t) as [[f rest]|e|]; cbn; [|by rewrite Hr|done].
  destruct Hr as [(?&?&?) _]. split_and!; [done..|lia].
Qed.

Lemma read_back_total n k slice :
  (n ≤ k ≤ length slice)%nat → ∃ v, read_back n k slice = Ok v ∧ uint (8 * Z.of_nat n) v.
Proof.
  intros Hk. unfold read_back, slice_from. rewrite decide_True by lia. cbn [mbind outcome_bind].
  assert (length (drop (length slice - k) slice) = k) as Ht by (apply length_drop_suffix; lia).
  rewrite bo_slice_spec by lia. eexists. split; [done|].
  rewrite <-(length_take_le (drop (length slice - k) slice) n) at 1 by lia. apply be_val_uint.
Qed.

Lemma needs_read_v4_v2 packet_id :
  uint 16 packet_id →
  needs (read_v4_v2 packet_id) (30 + if decide (packet_id = 0) then 0 else 3)
    (λ f, flow_wf f ∧ flow_norm f = f ∧ UdpFlow_footer_len f =
       if decide (packet_id = 0) then IP4_LEN_V2_WITHOUT_FRAG else IP4_LEN_V2_WITH_FRAG).
Proof.
  intros Hp. apply (needs_v4 (λ a b c d, extension ← read_extension; frag ← read_frag _; mret _)).
  intros si di sp dp ? ?.
  apply (needs_bind _ _ 18 _ _ _ needs_extension). intros e ?.
  rewrite <-(Nat.add_0_r (if decide _ then _ else _)).
  eapply needs_bind; [by apply needs_frag|]. intros o Ho. apply needs_ret.
  destruct o as [g|]; cbn.
  - destruct Ho. by rewrite decide_False.
  - by rewrite decide_True.
Qed.

Lemma from_tail_parsed slice : parsed slice (UdpFlow_from_tail slice).
Proof.
  unfold UdpFlow_from_tail. case_decide; [done|].
  destruct (read_back_total 8 8 slice) as (id & -> & Hid); [lia|]. cbn [mbind outcome_bind].
  case_decide; [|case_decide; [|case_decide; [|case_decide]]].
  - apply (tail_slice_parsed _ 12); [unfold IP4_LEN_V1; lia|].
    apply (needs_v4 (λ a b c d, mret _) 0). intros. by apply needs_ret.
  - case_decide; [done|].
    destruct (read_back_total 2 10 slice) as (pid & -> & Hpid); [lia|]. cbn [mbind outcome_bind].
    eapply tail_slice_parsed; [|by apply needs_read_v4_v2].
    unfold IP4_LEN_V2_WITH_FRAG, IP4_LEN_V2_WITHOUT_FRAG, EXT_LEN. case_decide; lia.
  - apply (tail_slice_parsed _ 40); [unfold IP6_LEN_V1; lia|].
    apply (needs_v6 (λ a b c d, get 4;; mret _) 4). intros.
    apply (needs_bind _ _ 4 0 _ _ (needs_get 4)). intros. by apply needs_ret.
  - apply (tail_slice_parsed _ 54); [unfold IP6_LEN_V2, IP6_LEN_V1, EXT_LEN; lia|].
    apply (needs_v6 (λ a b c d, extension ← read_extension; mret _) 18). intros.
    apply (needs_bind _ _ 18 0 _ _ needs_extension). intros. by apply needs_ret.
  - split; [done|]. rewrite !not_elem_of_cons. split_and!; [done..|apply not_elem_of_nil].
Qed.

Lemma flow_enc_norm f : flow_enc (flow_norm f) = flow_enc f.
Proof. by destruct f as [? ? [] []|]. Qed.

Lemma write_to_enough f slice :
  flow_wf f → (UdpFlow_footer_len f ≤ length slice)%nat →
  UdpFlow_write_to f slice = Ok (true, flow_enc f ++ drop (UdpFlow_footer_len f) slice).
Proof.
  intros Hwf Hlen. unfold UdpFlow_write_to. rewrite decide_False by lia.
  rewrite puts_flow by (done || by rewrite length_flow_enc).
  cbn. by rewrite length_flow_enc.
Qed.

(** C3: A flow footer survives the wire. With enough room [write_to] puts
    exactly [footer_len] bytes at the front of the slice and keeps the rest;
    [from_tail] finds the flow at the end of any datagram that ends with
    them, whatever comes before. Only a fragment of an IPv4 flow without
    extension is dropped, since its layout has no field for it. *)
Theorem udp_flow_roundtrip (f : UdpFlow) (slice prefix : list byte) :
  flow_wf f → (UdpFlow_footer_len f ≤ length slice)%nat →
  ∃ footer,
    UdpFlow_write_to f slice = Ok (true, footer ++ drop (UdpFlow_footer_len f) slice) ∧
    length footer = UdpFlow_footer_len f ∧
    UdpFlow_from_tail (prefix ++ footer) = Ok (flow_norm f) ∧
    (UdpFlow_extension f ≠ None ∨ is_ipv6 (UdpFlow_src f) → flow_norm f = f).
Proof.
  intros Hwf Hlen. exists (flow_enc f). split_and!.
  - by apply write_to_enough.
  - apply length_flow_enc.
  - rewrite <-(flow_enc_norm f). by apply from_tail_enc.
  - destruct f as [? ? [] []|]; cbn; naive_solver.
Qed.

(** Parsing never panics, whatever a datagram holds. A parsed flow has
    non-zero ids and every field in range, fits in the datagram, and is what
    re-encoding it parses to again; a refused footer id is the footer id of
    no flow; a slice too short for a flow is left
    untouched by the writer, which reports it. *)
Theorem udp_flow_parse_total (slice prefix : list byte) (f : UdpFlow) :
  match UdpFlow_from_tail slice with
  | Ok g => flow_wf g ∧ (UdpFlow_footer_len g ≤ length slice)%nat ∧
            UdpFlow_from_tail (prefix ++ flow_enc g) = Ok g
  | Err (Some id) => uint 64 id ∧ id ≠ footer_id f
  | Err None => True
  | Panic => False
  end ∧
  ((length slice < UdpFlow_footer_len f)%nat → UdpFlow_write_to f slice = Ok (false, slice)).
Proof.
  split.
  - pose proof (from_tail_parsed slice) as Hp.
    destruct (UdpFlow_from_tail slice) as [g|[id|]|]; cbn in Hp; [|..|done|done].
    + destruct Hp as (Hwf & Hn & Hlen). split_and!; [done..|].
      rewrite <-Hn at 1 2. by rewrite from_tail_enc, Hn.
    + rewrite !not_elem_of_cons in Hp.
      destruct f as [? ? [] []|? ? []]; cbn; split; naive_solver.
  - intros. unfold UdpFlow_write_to. by rewrite decide_True.
Qed.
End facts.

(** The flow of the repository's own test [udp_flow_v4_test], as a fragment. *)
Definition sample_flow : UdpFlow :=
  FlowV4 (SockV4 0x04020103 1234) (SockV4 0x01020304 5512)
    (Some {| frag_packet_id := 77; frag_frag_offset := 1480; frag_has_more := true |})
    (Some {| ext_client_server_id := 12; ext_tunnel_id := 123; ext_port_offset := 123 |}).

Lemma udp_flow_roundtrip_witness :
  ∃ footer,
    UdpFlow_write_to (BO := big_endian) sample_flow (replicate 50 Byte.x01) =
      Ok (true, footer ++ replicate 7 Byte.x01) ∧
    UdpFlow_from_tail (BO := big_endian) ([Byte.x68; Byte.x69] ++ footer) = Ok sample_flow.
Proof.
  destruct (udp_flow_roundtrip (BO := big_endian) (BOL := big_endian_laws) sample_flow
    (replicate 50 Byte.x01) [Byte.x68; Byte.x69]) as (footer & Hw & _ & Hr & Hn).
  - decide_now.
  - decide_now.
  - exists footer. split; [exact Hw|]. by rewrite Hr.
Defined.

Lemma udp_flow_parse_total_witness :
  UdpFlow_write_to (BO := big_endian) sample_flow (replicate 42 Byte.x01) =
    Ok (false, replicate 42 Byte.x01).
Proof.
  apply (udp_flow_parse_total (BO := big_endian) (BOL := big_endian_laws)
    (replicate 42 Byte.x01) [] sample_flow).
  decide_now.
Defined.
