(* ===== verification/Utils.v ===== *)
(** * Helpers of agent_core/src/utils

    Hash mixing ([shuffle.rs]), instance counters ([instance_count.rs]), sets
    of non-overlapping items ([non_overlapping.rs]), report intervals
    ([error_helper.rs]), reading addresses ([ip_bytes.rs]) and clocks
    ([mod.rs]); and the counters of agent_core/src/stats.rs. *)

From S2P Require Import Prelude Bytes Net.

(** ** shuffle.rs *)

(** [(v >> 16) ^ v] and [.overflowing_mul(0x45d9f3).0] on [u32]. *)
Definition xor_shift (v : Z) : Z := Z.lxor (Z.shiftr v 16) v.

Definition mul_u32 (v m : Z) : Z := wrap 32 (v * m).

Definition shuffle (v : Z) : Z :=
  let v := mul_u32 (xor_shift v) 0x45d9f3 in
  let v := mul_u32 (xor_shift v) 0x45d9f3 in
  xor_shift v.

Section shuffle_slice.
Context {BO : ByteOrder}.

(** The [while] over whole words; a word is four bytes shorter each time, so
    the length of the input is enough fuel. *)
Fixpoint shuffle_words (fuel : nat) (v : Z) (bytes : list byte) :
    outcome io_error (Z * list byte) :=
  match fuel with
  | O => Panic
  | S fuel =>
      if decide (4 ≤ length bytes)%nat then
        match bo_read 4 bytes with
        | Ok (w, rest) => shuffle_words fuel (Z.lxor v (shuffle w)) rest
        | _ => Panic
        end
      else Ok (v, bytes)
  end.

Definition shuffle_slice (bytes : list byte) : outcome io_error Z :=
  '(v, rest) ← shuffle_words (S (length bytes)) 0 bytes;
  Ok (foldl (λ v b, Z.lxor v (shuffle (byte.unsigned b))) v rest).
End shuffle_slice.

(** ** ip_bytes.rs *)

Definition read_ip4 : R Z := b ← read_exact 4; mret (be_val b).

Definition read_ip6 : R Z := b ← read_exact 16; mret (be_val b).

(** ** instance_count.rs *)

Section instance_count.
Context {K : Type} `{Countable K}.

Record InstanceCount : Type := { counters : gmap K Z }.

Definition InstanceCount_default : InstanceCount := {| counters := ∅ |}.

Definition has_instance (c : InstanceCount) (key : K) : bool :=
  bool_decide (is_Some (counters c !! key)).

Definition InstanceCount_is_empty (c : InstanceCount) : bool := bool_decide (counters c = ∅).

(** [*count + 1] on [usize]. *)
Definition InstanceCount_inc (overflow_checks : bool) (c : InstanceCount) (key : K) :
    outcome io_error (Z * InstanceCount) :=
  match counters c !! key with
  | Some count =>
      value ← u_add overflow_checks 64 count 1;
      Ok (value, {| counters := <[key := value]> (counters c) |})
  | None => Ok (1, {| counters := <[key := 1]> (counters c) |})
  end.

Definition InstanceCount_dec (overflow_checks : bool) (c : InstanceCount) (key : K) :
    outcome io_error (option Z * InstanceCount) :=
  match counters c !! key with
  | None => Ok (None, c)
  | Some count =>
      assert (bool_decide (count ≠ 0));;
      value ← u_sub overflow_checks 64 count 1;
      Ok (Some value,
          {| counters :=
               if decide (value = 0) then delete key (<[key := value]> (counters c))
               else <[key := value]> (counters c) |})
  end.
End instance_count.
Arguments InstanceCount K {_ _}.

(** ** non_overlapping.rs *)

(** The trait [NonOverlappingCheck]. *)
Class NonOverlappingCheck (Element : Type) : Type := {
  is_same : Element → Element → bool;
  is_overlapping : Element → Element → bool;
}.

Section non_overlapping.
Context {T : Type} `{NonOverlappingCheck T}.

Record NonOverlapping : Type := { elements : list T }.

Definition NonOverlapping_new : NonOverlapping := {| elements := [] |}.

Definition NonOverlapping_with (elem : T) : NonOverlapping := {| elements := [elem] |}.

(** [Err] gives the element back. *)
Definition NonOverlapping_add (s : NonOverlapping) (to_add : T) : (() + T) * NonOverlapping :=
  if existsb (λ item, is_overlapping to_add item) (elements s) then (inr to_add, s)
  else (inl (), {| elements := elements s ++ [to_add] |}).

(** [iter().position(..)]. *)
Fixpoint position (p : T → bool) (l : list T) : option nat :=
  match l with
  | [] => None
  | x :: l => if p x then Some 0%nat else S <$> position p l
  end.

(** [Vec::swap_remove(pos)]: the last element takes the place of the removed
    one. *)
Definition swap_remove (pos : nat) (l : list T) : list T :=
  match last l with
  | Some x => take (length l - 1) (<[pos := x]> l)
  | None => l
  end.

Definition NonOverlapping_remove (s : NonOverlapping) (item : T) : bool * NonOverlapping :=
  match position (λ a, is_same a item) (elements s) with
  | None => (false, s)
  | Some pos => (true, {| elements := swap_remove pos (elements s) |})
  end.

Definition NonOverlapping_contains (s : NonOverlapping) (item : T) : bool :=
  match position (λ a, is_same a item) (elements s) with
  | Some _ => true
  | None => false
  end.
End non_overlapping.
Arguments NonOverlapping T : clear implicits.

(** ** error_helper.rs *)

(** Instants are nanoseconds since an arbitrary origin. *)
Record MaxErrorInterval : Type := {
  last_report : Z;
  min_wait : Z;
  redundant_calls : Z;
}.

Definition MaxErrorInterval_new (now interval : Z) : MaxErrorInterval :=
  {| last_report := now - interval * 2; min_wait := interval; redundant_calls := 0 |}.

(** [now - last_report] on [Instant] saturates at zero. *)
Definition MaxErrorInterval_check (now : Z) (m : MaxErrorInterval) : bool * MaxErrorInterval :=
  if decide (min_wait m ≤ saturating_sub now (last_report m))
  then (true, {| last_report := now; min_wait := min_wait m;
                 redundant_calls := redundant_calls m |})
  else (false, m).

Definition MaxErrorInterval_calls (m : MaxErrorInterval) : Z * MaxErrorInterval :=
  (redundant_calls m,
   {| last_report := last_report m; min_wait := min_wait m; redundant_calls := 0 |}).

(** [with_error] and [take_error] with the callback's calls as a list. *)
Definition with_error {E A} (r : outcome E A) : outcome E A * list E :=
  match r with
  | Err e => (Err e, [e])
  | r => (r, [])
  end.

Definition take_error {E A} (r : outcome E A) : list E :=
  match r with
  | Err e => [e]
  | _ => []
  end.

(** ** mod.rs *)

(** [now_sec()] from the milliseconds of the system clock. *)
Definition now_sec (now_milli : Z) : Z := wrap 32 (now_milli / 1000).

(** ** Facts *)

Lemma wrap_range w v : 0 ≤ w → 0 ≤ wrap w v < 2 ^ w.
Proof. apply wrap_uint. Qed.

Lemma uint_shiftr_bits w v n : uint w v → w ≤ n → Z.testbit v n = false.
Proof.
  intros [Hlo Hhi] Hn. destruct (decide (v = 0)) as [->|]; [apply Z.bits_0|].
  destruct (decide (0 ≤ w)); [|rewrite Z.pow_neg_r in Hhi by lia; lia].
  apply Z.bits_above_log2; [lia|].
  apply Z.lt_le_trans with w; [apply Z.log2_lt_pow2; lia | done].
Qed.

Lemma uint_bits w v : 0 ≤ w → 0 ≤ v → (∀ n, w ≤ n → Z.testbit v n = false) → uint w v.
Proof.
  intros Hw Hv Hb. split; [done|]. destruct (decide (v = 0)) as [->|]; [by apply Z.pow_pos_nonneg|].
  apply Z.log2_lt_pow2; [lia|]. apply Znot_ge_lt. intros Hge.
  pose proof (Z.bit_log2 v ltac:(lia)) as Ht. by rewrite Hb in Ht by lia.
Qed.

Lemma uint_lxor w a b : 0 ≤ w → uint w a → uint w b → uint w (Z.lxor a b).
Proof.
  intros Hw Ha Hb. apply uint_bits; [done | apply Z.lxor_nonneg; unfold uint in *; lia |].
  intros n Hn. by rewrite Z.lxor_spec, (uint_shiftr_bits w a), (uint_shiftr_bits w b).
Qed.

Lemma xor_shift_uint v : uint 32 v → uint 32 (xor_shift v).
Proof.
  intros Hv. unfold xor_shift. apply uint_lxor; [lia | | done].
  unfold uint in *. rewrite Z.shiftr_div_pow2 by lia. split; [apply Z.div_pos; lia|].
  apply Z.div_lt_upper_bound; lia.
Qed.

(** [xor_shift] is its own inverse on 32 bits. *)
Lemma xor_shift_involutive v : uint 32 v → xor_shift (xor_shift v) = v.
Proof.
  intros Hv. unfold xor_shift. apply Z.bits_inj'. intros n Hn.
  rewrite !Z.lxor_spec, !Z.shiftr_spec, Z.lxor_spec, Z.shiftr_spec by lia.
  rewrite (uint_shiftr_bits 32 v (n + 16 + 16)) by (done || lia).
  by destruct (Z.testbit v (n + 16)), (Z.testbit v n).
Qed.

Lemma mul_u32_uint v m : uint 32 (mul_u32 v m).
Proof. by apply wrap_uint. Qed.

(** [0xdd72673b] is the inverse of the multiplier modulo 2^32. *)
Lemma mul_u32_inverse v : uint 32 v → mul_u32 (mul_u32 v 0x45d9f3) 0xdd72673b = v.
Proof.
  intros Hv. unfold mul_u32, wrap. rewrite Zmult_mod_idemp_l, <-Z.mul_assoc.
  rewrite <-Zmult_mod_idemp_r. change ((0x45d9f3 * 0xdd72673b) mod 2 ^ 32) with 1.
  rewrite Z.mul_1_r. by apply Z.mod_small.
Qed.

Definition unshuffle (v : Z) : Z :=
  xor_shift (mul_u32 (xor_shift (mul_u32 (xor_shift v) 0xdd72673b)) 0xdd72673b).

Lemma shuffle_uint v : uint 32 v → uint 32 (shuffle v).
Proof. intros. unfold shuffle. apply xor_shift_uint, mul_u32_uint. Qed.

Lemma unshuffle_shuffle v : uint 32 v → unshuffle (shuffle v) = v.
Proof.
  intros Hv. unfold unshuffle, shuffle.
  rewrite (xor_shift_involutive (mul_u32 _ _)) by apply mul_u32_uint.
  rewrite mul_u32_inverse by apply xor_shift_uint, mul_u32_uint.
  rewrite (xor_shift_involutive (mul_u32 _ _)) by apply mul_u32_uint.
  rewrite mul_u32_inverse by by apply xor_shift_uint. by apply xor_shift_involutive.
Qed.

#[export] Hint Resolve shuffle_uint uint_lxor : agent.

(** Splitting off words: every step makes the input shorter. *)
Lemma shuffle_words_total {BO : ByteOrder} {BOL : ByteOrderLaws BO} fuel v bytes :
  uint 32 v → (length bytes < fuel)%nat →
  ∃ v' rest, shuffle_words fuel v bytes = Ok (v', rest) ∧ uint 32 v' ∧ (length rest < 4)%nat.
Proof.
  revert v bytes. induction fuel as [|fuel IH]; intros v bytes Hv Hlen; [lia|].
  cbn. case_decide; [|eexists _, _; split_and!; [done..|lia]].
  rewrite bo_read_enough by done. apply IH.
  - apply uint_lxor; [lia | done |]. apply shuffle_uint.
    pose proof (be_val_uint (take 4 bytes)) as Hw. by rewrite length_take_le in Hw.
  - rewrite length_drop. lia.
Qed.

Lemma byte_uint b : uint 8 (byte.unsigned b).
Proof. apply byte.unsigned_range. Qed.

Lemma shuffle_slice_total {BO : ByteOrder} {BOL : ByteOrderLaws BO} bytes :
  ∃ v, shuffle_slice bytes = Ok v ∧ uint 32 v.
Proof.
  unfold shuffle_slice.
  destruct (shuffle_words_total (S (length bytes)) 0 bytes) as (v & rest & -> & Hv & _);
    [by vm_compute | lia |].
  eexists. split; [done|]. clear -Hv. revert v Hv. induction rest as [|b rest IH]; [done|].
  intros v Hv. cbn. apply IH. apply uint_lxor; [lia | done |].
  apply shuffle_uint. eapply uint_mono; [|apply byte_uint]. lia.
Qed.

(** ** Instance counters: a finite multiset *)

Section instance_facts.
Context {K : Type} `{Countable K}.
Implicit Types c : InstanceCount K.

(** Every stored count is positive. *)
Definition InstanceCount_inv c : Prop := map_Forall (λ _ n, 0 < n < 2 ^ 64) (counters c).

(** The multiplicity of [key]. *)
Definition multiplicity c (key : K) : Z := default 0 (counters c !! key).

Lemma multiplicity_nonneg c key : InstanceCount_inv c → 0 ≤ multiplicity c key.
Proof.
  intros Hi. unfold multiplicity. destruct (counters c !! key) eqn:Hk; cbn; [|lia].
  apply Hi in Hk. lia.
Qed.

Lemma has_instance_multiplicity c key :
  InstanceCount_inv c → has_instance c key = bool_decide (0 < multiplicity c key).
Proof.
  intros Hi. unfold has_instance, multiplicity. apply bool_decide_ext.
  destruct (counters c !! key) eqn:Hk; cbn; rewrite ?is_Some_alt.
  - apply Hi in Hk. naive_solver lia.
  - naive_solver lia.
Qed.

(** Adding an instance raises its own multiplicity by one and no other. *)
Lemma InstanceCount_inc_spec oc c key :
  InstanceCount_inv c → multiplicity c key + 1 < 2 ^ 64 →
  ∃ c', InstanceCount_inc oc c key = Ok (multiplicity c key + 1, c') ∧ InstanceCount_inv c' ∧
    ∀ k, multiplicity c' k = if decide (k = key) then multiplicity c key + 1 else multiplicity c k.
Proof.
  intros Hi Hmax. pose proof (multiplicity_nonneg c key Hi) as Hge.
  exists {| counters := <[key := multiplicity c key + 1]> (counters c) |}. split_and!.
  - unfold InstanceCount_inc, multiplicity in *. destruct (counters c !! key); cbn in *; [|done].
    by rewrite u_add_fits.
  - apply map_Forall_insert_2; [lia | exact Hi].
  - intros k. unfold multiplicity at 1. cbn. case_decide as Hk; subst.
    + by rewrite lookup_insert_eq.
    + by rewrite lookup_insert_ne.
Qed.

(** Removing one lowers it; at zero the key disappears; without an instance
    nothing happens. The [assert_ne!] cannot fail. *)
Lemma InstanceCount_dec_spec oc c key :
  InstanceCount_inv c →
  ∃ c', InstanceCount_dec oc c key =
      Ok (if decide (0 < multiplicity c key) then Some (multiplicity c key - 1) else None, c') ∧
    InstanceCount_inv c' ∧
    ∀ k, multiplicity c' k =
      if decide (k = key) then Z.max 0 (multiplicity c key - 1) else multiplicity c k.
Proof.
  intros Hi. pose proof (multiplicity_nonneg c key Hi) as Hge.
  unfold InstanceCount_dec. destruct (counters c !! key) as [n|] eqn:Hk.
  - assert (multiplicity c key = n) as Hn by (unfold multiplicity; by rewrite Hk).
    apply Hi in Hk as Hrange. rewrite Hn.
    rewrite bool_decide_eq_true_2, u_sub_fits by lia. cbn.
    rewrite (decide_True (P := 0 < n)) by lia. eexists. split_and!; [done| |].
    + unfold InstanceCount_inv. cbn. case_decide.
      * rewrite delete_insert_eq. by apply map_Forall_delete.
      * apply map_Forall_insert_2; [lia | exact Hi].
    + intros k. unfold multiplicity at 1. cbn. case_decide as Hv; case_decide as Hkk; subst.
      * rewrite lookup_delete_eq. cbn. lia.
      * by rewrite lookup_delete_ne, lookup_insert_ne.
      * rewrite lookup_insert_eq. cbn. lia.
      * by rewrite lookup_insert_ne.
  - assert (multiplicity c key = 0) as Hn by (unfold multiplicity; by rewrite Hk).
    rewrite Hn. eexists. split_and!; [done.. |]. intros k. case_decide; subst; [by rewrite Hn | done].
Qed.
End instance_facts.

(** ** Non-overlapping sets *)

Section non_overlapping_facts.
Context {T : Type} `{NonOverlappingCheck T}.
Context (overlap_sym : ∀ a b : T, is_overlapping a b = is_overlapping b a).
Implicit Types s : NonOverlapping T.

Definition pairwise_disjoint (l : list T) : Prop :=
  ∀ i j a b, i ≠ j → l !! i = Some a → l !! j = Some b → is_overlapping a b = false.

Lemma position_spec (p : T → bool) l :
  match position p l with
  | Some i => ∃ x, l !! i = Some x ∧ p x = true
  | None => Forall (λ x, p x = false) l
  end.
Proof.
  induction l as [|x l IH]; cbn; [done|].
  destruct (p x) eqn:Hp; [by exists x|].
  destruct (position p l); cbn; [done|]. by constructor.
Qed.

(** Where the elements of the list after [swap_remove] come from. *)
Lemma swap_remove_lookup pos (l : list T) i x :
  (pos < length l)%nat → swap_remove pos l !! i = Some x →
  (i < length l - 1)%nat ∧
  l !! (if decide (i = pos) then (length l - 1)%nat else i) = Some x.
Proof.
  intros Hpos Hx. unfold swap_remove in Hx.
  rewrite last_lookup in Hx.
  destruct (l !! pred (length l)) as [y|] eqn:Hl; cycle 1.
  { apply lookup_ge_None in Hl. lia. }
  apply lookup_take_Some in Hx as [Hx Hi]. split; [lia|].
  case_decide; subst.
  - rewrite list_lookup_insert_eq in Hx by done. simplify_eq.
    by replace (length l - 1)%nat with (pred (length l)) by lia.
  - by rewrite list_lookup_insert_ne in Hx by done.
Qed.

(** The set stays pairwise disjoint: an overlapping element is refused and
    given back, the others are kept by removal. *)
Lemma NonOverlapping_add_spec s x :
  pairwise_disjoint (elements s) →
  pairwise_disjoint (elements (NonOverlapping_add s x).2) ∧
  ((NonOverlapping_add s x).1 = inr x ∧ (NonOverlapping_add s x).2 = s ∧
     (∃ y, y ∈ elements s ∧ is_overlapping x y = true) ∨
   (NonOverlapping_add s x).1 = inl () ∧ elements (NonOverlapping_add s x).2 = elements s ++ [x]).
Proof.
  intros Hd. unfold NonOverlapping_add. destruct (existsb _ _) eqn:He.
  - split; [done|]. left. apply existsb_exists in He as (y & Hy & Ho).
    split_and!; [done..|]. exists y. by rewrite list_elem_of_In.
  - split; [|by right].
    assert (∀ y, y ∈ elements s → is_overlapping x y = false) as Hx.
    { intros y Hy. apply not_true_iff_false. intros Ho.
      apply not_true_iff_false in He. apply He, existsb_exists. exists y. by rewrite <-list_elem_of_In. }
    intros i j a b Hij Ha Hb. cbn in *.
    apply lookup_app_Some in Ha as [Ha|[? Ha]], Hb as [Hb|[? Hb]];
      rewrite ?list_lookup_singleton_Some in *; destruct_and?; subst.
    + by eapply Hd.
    + rewrite overlap_sym. apply Hx. by eapply list_elem_of_lookup_2.
    + apply Hx. by eapply list_elem_of_lookup_2.
    + lia.
Qed.

Lemma NonOverlapping_remove_spec s x :
  pairwise_disjoint (elements s) →
  pairwise_disjoint (elements (NonOverlapping_remove s x).2) ∧
  (NonOverlapping_remove s x).1 = NonOverlapping_contains s x ∧
  (NonOverlapping_contains s x = false → (NonOverlapping_remove s x).2 = s).
Proof.
  intros Hd. unfold NonOverlapping_remove, NonOverlapping_contains.
  pose proof (position_spec (λ a, is_same a x) (elements s)) as Hp.
  destruct (position _ _) as [pos|]; [|done]. split_and!; [|done|done]. cbn.
  destruct Hp as (y & Hy & _). apply lookup_lt_Some in Hy.
  intros i j a b Hij Ha Hb.
  apply swap_remove_lookup in Ha as [Hi Ha], Hb as [Hj Hb]; [|done..].
  eapply Hd; [|done..]. repeat case_decide; subst; lia.
Qed.
End non_overlapping_facts.

(** ** Agent statistics (agent_core/src/stats.rs) and error counters
    (network/errors.rs, network/udp/udp_errors.rs)

    Atomic counters shared by the components. Each operation is one atomic
    access, so a component's view is a sequence of these operations; atomic
    additions and subtractions wrap around. *)

Record AgentStats : Type := {
  bytes_in : Z;
  bytes_out : Z;
  active_tcp : Z;
  active_udp : Z;
}.

Definition AgentStats_new : AgentStats :=
  {| bytes_in := 0; bytes_out := 0; active_tcp := 0; active_udp := 0 |}.

Definition add_bytes_in (s : AgentStats) (bytes : Z) : AgentStats :=
  {| bytes_in := wrap 64 (bytes_in s + bytes); bytes_out := bytes_out s;
     active_tcp := active_tcp s; active_udp := active_udp s |}.

Definition add_bytes_out (s : AgentStats) (bytes : Z) : AgentStats :=
  {| bytes_in := bytes_in s; bytes_out := wrap 64 (bytes_out s + bytes);
     active_tcp := active_tcp s; active_udp := active_udp s |}.

Definition set_tcp (s : AgentStats) (count : Z) : AgentStats :=
  {| bytes_in := bytes_in s; bytes_out := bytes_out s;
     active_tcp := count; active_udp := active_udp s |}.

Definition set_udp (s : AgentStats) (count : Z) : AgentStats :=
  {| bytes_in := bytes_in s; bytes_out := bytes_out s;
     active_tcp := active_tcp s; active_udp := count |}.

Definition inc_tcp (s : AgentStats) : AgentStats := set_tcp s (wrap 32 (active_tcp s + 1)).

Definition dec_tcp (s : AgentStats) : AgentStats := set_tcp s (wrap 32 (active_tcp s - 1)).

Definition inc_udp (s : AgentStats) : AgentStats := set_udp s (wrap 32 (active_udp s + 1)).

Definition dec_udp (s : AgentStats) : AgentStats := set_udp s (wrap 32 (active_udp s - 1)).

(** [snapshot] loads the four counters one after the other. *)
Record StatsSnapshot : Type := {
  snap_bytes_in : Z;
  snap_bytes_out : Z;
  snap_active_tcp : Z;
  snap_active_udp : Z;
}.

Definition AgentStats_snapshot (s : AgentStats) : StatsSnapshot :=
  {| snap_bytes_in := bytes_in s; snap_bytes_out := bytes_out s;
     snap_active_tcp := active_tcp s; snap_active_udp := active_udp s |}.

(** The counters of [UdpErrors]; a run is the list of increments. *)
Inductive UdpErrors : Type :=
  | no_session_send_fail
  | tail_append_fail
  | send_io_error
  | recv_io_error
  | recv_with_no_session
  | recv_source_no_match
  | recv_too_small
  | recv_invalid_footer_id
  | establish_send_io_error
  | establish_no_session
  | new_client_ratelimit
  | origin_client_missing
  | origin_reject_bad_id
  | origin_tunnel_not_found
  | origin_source_not_ip4
  | origin_reject_addr_differ
  | origin_reject_port_too_low
  | origin_reject_port_too_high
  | origin_send_io_error
  | origin_v1_proxy_protocol.

#[global] Instance UdpErrors_eq_dec : EqDecision UdpErrors.
Proof. solve_decision. Defined.

(** [IntCounter::inc] on [AtomicU64]. *)
Definition IntCounter_inc (c : Z) : Z := wrap 64 (c + 1).

(** Opening and closing a connection leaves the gauge where it was, even
    across a wrap-around. *)
Lemma inc_dec_tcp s : uint 32 (active_tcp s) → dec_tcp (inc_tcp s) = s.
Proof.
  intros Hs. destruct s as [bi bo t u]. unfold dec_tcp, inc_tcp, set_tcp, wrap. cbn in *.
  rewrite Zminus_mod_idemp_l, Z.add_simpl_r. by rewrite Z.mod_small by uint_solve.
Qed.
