(* ===== verification/IdSlab.v ===== *)
(** * Slabs with stable ids (agent_core/src/utils/id_slab.rs, key_to_id.rs)

    [IdSlab] bounds a [SlotMap] of the slotmap crate by a capacity and hands
    out entries that are reserved before they are filled; [KeyToId] interns
    keys on top of it. *)

From S2P Require Import Prelude.

(** ** The slotmap crate *)

Class SlotMapLib : Type := {
  sm_key : Type;
  slotmap : Type → Type;
  key_as_ffi : sm_key → Z;
  key_from_ffi : Z → sm_key;
  sm_with_capacity : ∀ {T}, Z → slotmap T;
  sm_len : ∀ {T}, slotmap T → Z;
  sm_get : ∀ {T}, slotmap T → sm_key → option T;
  (** the assignment through [get_mut] *)
  sm_set : ∀ {T}, slotmap T → sm_key → T → slotmap T;
  sm_insert : ∀ {T}, slotmap T → T → sm_key * slotmap T;
  sm_remove : ∀ {T}, slotmap T → sm_key → option T * slotmap T;
  sm_values : ∀ {T}, slotmap T → list T;
}.

(** Documented behaviour: a key survives the trip through its integer, a
    map holds what was inserted under the key that insertion returned, keys
    of live entries differ, and [len] counts the entries. *)
Class SlotMapLaws {SM : SlotMapLib} : Prop := {
  key_from_as k : key_from_ffi (key_as_ffi k) = k;
  sm_key_dec (k1 k2 : sm_key) : k1 = k2 ∨ k1 ≠ k2;
  sm_get_new {T} c k : sm_get (@sm_with_capacity SM T c) k = None;
  sm_len_new {T} c : sm_len (@sm_with_capacity SM T c) = 0;
  sm_len_nonneg {T} (m : slotmap T) : 0 ≤ sm_len m;
  sm_get_set {T} (m : slotmap T) k x :
    is_Some (sm_get m k) →
    sm_get (sm_set m k x) k = Some x ∧
    (∀ k', k' ≠ k → sm_get (sm_set m k x) k' = sm_get m k') ∧
    sm_len (sm_set m k x) = sm_len m;
  sm_get_insert {T} (m : slotmap T) x k m' :
    sm_insert m x = (k, m') →
    sm_get m k = None ∧ sm_get m' k = Some x ∧
    (∀ k', k' ≠ k → sm_get m' k' = sm_get m k') ∧ sm_len m' = sm_len m + 1;
  sm_get_remove {T} (m : slotmap T) k o m' :
    sm_remove m k = (o, m') →
    o = sm_get m k ∧ sm_get m' k = None ∧
    (∀ k', k' ≠ k → sm_get m' k' = sm_get m k') ∧
    sm_len m' = match o with Some _ => sm_len m - 1 | None => sm_len m end;
  sm_values_get {T} (m : slotmap T) x : x ∈ sm_values m ↔ ∃ k, sm_get m k = Some x;
}.

Arguments SlotMapLaws : clear implicits.

(** ** id_slab.rs *)

Inductive Entry (T : Type) : Type :=
  | Reserved
  | Occupied (value : T).
Arguments Reserved {T}.
Arguments Occupied {T} value.

Section id_slab.
Context {SM : SlotMapLib}.

Record IdSlab (T : Type) : Type := MkIdSlab {
  entries : slotmap (Entry T);
  capacity : Z;
}.
Arguments MkIdSlab {T}.
Arguments entries {T}.
Arguments capacity {T}.

Context {T : Type}.
Implicit Types s : IdSlab T.

Definition id_from_key (key : sm_key) : Z := key_as_ffi key.

Definition key_from_id (id : Z) : sm_key := key_from_ffi id.

Definition IdSlab_with_capacity (cap : Z) : IdSlab T := MkIdSlab (sm_with_capacity cap) cap.

Definition IdSlab_len s : Z := sm_len (entries s).

Definition IdSlab_is_empty s : bool := bool_decide (sm_len (entries s) = 0).

Definition IdSlab_available s : Z := saturating_sub (capacity s) (sm_len (entries s)).

(** What [Entry::Reserved => None, Entry::Occupied(v) => Some(v)] selects. *)
Definition occupied (o : option (Entry T)) : option T :=
  match o with
  | Some (Occupied value) => Some value
  | _ => None
  end.

Definition IdSlab_get s (id : Z) : option T := occupied (sm_get (entries s) (key_from_id id)).

(** [*get_mut(id)? = value]. *)
Definition IdSlab_set s (id : Z) (value : T) : IdSlab T :=
  match IdSlab_get s id with
  | Some _ => MkIdSlab (sm_set (entries s) (key_from_id id) (Occupied value)) (capacity s)
  | None => s
  end.

Definition IdSlab_remove s (id : Z) : option T * IdSlab T :=
  let '(o, m) := sm_remove (entries s) (key_from_id id) in
  (occupied o, MkIdSlab m (capacity s)).

(** [Err(value)] gives the value back. *)
Definition IdSlab_insert s (value : T) : (Z + T) * IdSlab T :=
  if decide (capacity s ≤ sm_len (entries s)) then (inr value, s)
  else
    let '(key, m) := sm_insert (entries s) (Occupied value) in
    (inl (id_from_key key), MkIdSlab m (capacity s)).

(** [IdSlabVacantEntry]: the slab with the reservation and the key. *)
Definition IdSlab_vacant_entry s : option (sm_key * IdSlab T) :=
  if decide (capacity s ≤ sm_len (entries s)) then None
  else
    let '(key, m) := sm_insert (entries s) Reserved in
    Some (key, MkIdSlab m (capacity s)).

Definition VacantEntry_id (key : sm_key) : Z := id_from_key key.

(** [insert(self, value)]: the [expect] needs the reserved slot to exist. *)
Definition VacantEntry_insert s (key : sm_key) (value : T) : outcome io_error (Z * IdSlab T) :=
  unwrap (sm_get (entries s) key);;
  Ok (id_from_key key, MkIdSlab (sm_set (entries s) key (Occupied value)) (capacity s)).

(** [Drop] of an entry that was not filled. *)
Definition VacantEntry_drop s (key : sm_key) : IdSlab T :=
  MkIdSlab (sm_remove (entries s) key).2 (capacity s).

Definition IdSlab_iter s : list T := omap (λ e, occupied (Some e)) (sm_values (entries s)).
End id_slab.
Arguments IdSlab {SM} T.
Arguments MkIdSlab {SM T}.
Arguments entries {SM T}.
Arguments capacity {SM T}.

(** ** key_to_id.rs *)

Section key_to_id.
Context {SM : SlotMapLib} {K V : Type} `{Countable K}.

Record KeyToId : Type := MkKeyToId {
  k2i_items : IdSlab V;
  k2i_lookup : gmap K Z;
}.

Definition KeyToId_default : KeyToId :=
  MkKeyToId (IdSlab_with_capacity (1024 * 1024)) ∅.

(** [value_fn] runs only when a new entry is reserved. *)
Definition KeyToId_get_or_add (s : KeyToId) (key : K) (value_fn : () → V) :
    outcome io_error (option Z * KeyToId) :=
  match k2i_lookup s !! key with
  | Some id => Ok (Some id, s)
  | None =>
      match IdSlab_vacant_entry (k2i_items s) with
      | None => Ok (None, s)
      | Some (k, items) =>
          let id := VacantEntry_id k in
          '(_, items) ← VacantEntry_insert items k (value_fn ());
          Ok (Some id, MkKeyToId items (<[key := id]> (k2i_lookup s)))
      end
  end.

Definition KeyToId_remove (s : KeyToId) (key : K) :
    outcome io_error (option (Z * V) * KeyToId) :=
  match k2i_lookup s !! key with
  | None => Ok (None, s)
  | Some id =>
      let '(o, items) := IdSlab_remove (k2i_items s) id in
      removed_item ← unwrap o;
      Ok (Some (id, removed_item), MkKeyToId items (delete key (k2i_lookup s)))
  end.
End key_to_id.
Arguments KeyToId {SM} K V {_ _}.

(** ** Facts *)

Section slab_facts.
Context {SM : SlotMapLib} {SML : SlotMapLaws SM} {T : Type}.
Implicit Types s : IdSlab T.

Definition IdSlab_inv s : Prop := sm_len (entries s) ≤ capacity s.

(** Ids that insertion returned denote keys one to one. *)
Lemma id_from_key_inj k1 k2 : id_from_key k1 = id_from_key k2 → k1 = k2.
Proof.
  unfold id_from_key. intros Heq. rewrite <-(key_from_as k1), <-(key_from_as k2). by rewrite Heq.
Qed.

Lemma key_from_id_from_key k : key_from_id (id_from_key k) = k.
Proof. apply key_from_as. Qed.

(** A reservation is invisible, keeps every other entry, and uses one unit of
    capacity. *)
Lemma vacant_entry_spec s k s' :
  IdSlab_vacant_entry s = Some (k, s') →
  IdSlab_len s < capacity s ∧ IdSlab_len s' = IdSlab_len s + 1 ∧ capacity s' = capacity s ∧
  sm_get (entries s) k = None ∧ sm_get (entries s') k = Some Reserved ∧
  (∀ id, IdSlab_get s' id = IdSlab_get s id).
Proof.
  unfold IdSlab_vacant_entry. case_decide; [done|].
  destruct (sm_insert (entries s) Reserved) as [k0 m] eqn:Hins. intros [= -> <-].
  apply sm_get_insert in Hins as (Hnone & Hsome & Hother & Hlen).
  unfold IdSlab_len. cbn. split_and!; [lia|done..|].
  intros id. unfold IdSlab_get. cbn.
  destruct (sm_key_dec (key_from_id id) k) as [->|Hne]; [by rewrite Hnone, Hsome|].
  by rewrite Hother.
Qed.

Lemma VacantEntry_insert_spec s k x :
  sm_get (entries s) k = Some Reserved →
  ∃ s', VacantEntry_insert s k x = Ok (id_from_key k, s') ∧
    IdSlab_get s' (id_from_key k) = Some x ∧
    (∀ id, key_from_id id ≠ k → IdSlab_get s' id = IdSlab_get s id) ∧
    IdSlab_len s' = IdSlab_len s ∧ capacity s' = capacity s.
Proof.
  intros Hk. unfold VacantEntry_insert. rewrite Hk. cbn.
  destruct (sm_get_set (entries s) k (Occupied x)) as (Hg & Ho & Hl); [by eexists|].
  eexists. split_and!; [done | | | exact Hl | done].
  - unfold IdSlab_get. cbn. by rewrite key_from_id_from_key, Hg.
  - intros id Hne. unfold IdSlab_get. cbn. by rewrite Ho.
Qed.

(** Dropping a reservation undoes it. *)
Lemma VacantEntry_drop_spec s k s' :
  IdSlab_vacant_entry s = Some (k, s') →
  IdSlab_len (VacantEntry_drop s' k) = IdSlab_len s ∧
  IdSlab_available (VacantEntry_drop s' k) = IdSlab_available s ∧
  (∀ id, IdSlab_get (VacantEntry_drop s' k) id = IdSlab_get s id).
Proof.
  intros Hv. apply vacant_entry_spec in Hv as (_ & Hlen & Hcap & Hnone & Hres & Hget).
  unfold VacantEntry_drop, IdSlab_available, IdSlab_len in *.
  destruct (sm_remove (entries s') k) as [o m] eqn:Hrem. cbn.
  apply sm_get_remove in Hrem as (-> & Hk & Hother & Hl). rewrite Hres in Hl.
  split_and!; [lia | by rewrite Hl, Hlen, Hcap, Z.add_simpl_r |].
  intros id. rewrite <-Hget. unfold IdSlab_get. cbn.
  destruct (sm_key_dec (key_from_id id) k) as [->|Hne]; [by rewrite Hk, Hres|].
  by rewrite Hother.
Qed.

Lemma IdSlab_remove_spec s id o s' :
  IdSlab_remove s id = (o, s') →
  o = IdSlab_get s id ∧ IdSlab_get s' id = None ∧ capacity s' = capacity s ∧
  (∀ id', key_from_id id' ≠ key_from_id id → IdSlab_get s' id' = IdSlab_get s id') ∧
  (is_Some o → IdSlab_len s' = IdSlab_len s - 1) ∧ IdSlab_len s' ≤ IdSlab_len s.
Proof.
  unfold IdSlab_remove, IdSlab_get, IdSlab_len.
  destruct (sm_remove (entries s) (key_from_id id)) as [o' m] eqn:Hrem. intros [= <- <-].
  apply sm_get_remove in Hrem as (-> & Hk & Hother & Hl). cbn.
  split_and!; [done | by rewrite Hk | done | | |].
  - intros id' Hne. by rewrite Hother.
  - intros [x Hx]. rewrite Hl. by destruct (sm_get (entries s) (key_from_id id)).
  - destruct (sm_get (entries s) (key_from_id id)); lia.
Qed.

Lemma IdSlab_insert_spec s x :
  (capacity s ≤ IdSlab_len s ∧ IdSlab_insert s x = (inr x, s)) ∨
  (IdSlab_len s < capacity s ∧ ∃ k s', IdSlab_insert s x = (inl (id_from_key k), s') ∧
     IdSlab_get s (id_from_key k) = None ∧ IdSlab_get s' (id_from_key k) = Some x ∧
     (∀ id, key_from_id id ≠ k → IdSlab_get s' id = IdSlab_get s id) ∧
     IdSlab_len s' = IdSlab_len s + 1 ∧ capacity s' = capacity s).
Proof.
  unfold IdSlab_insert, IdSlab_get, IdSlab_len. case_decide; [by left|right].
  destruct (sm_insert (entries s) (Occupied x)) as [k m] eqn:Hins.
  apply sm_get_insert in Hins as (Hnone & Hsome & Hother & Hlen).
  split; [lia|]. exists k, (MkIdSlab m (capacity s)). cbn. rewrite key_from_id_from_key.
  split_and!; [done | by rewrite Hnone | by rewrite Hsome | | done | done].
  intros id Hne. by rewrite Hother.
Qed.
End slab_facts.

(** ** A reference instance: a finite map with fresh keys *)

Definition ref_slotmap : SlotMapLib := {|
  sm_key := Z;
  slotmap T := gmap Z T;
  key_as_ffi k := k;
  key_from_ffi k := k;
  sm_with_capacity T _ := ∅;
  sm_len T m := Z.of_nat (size m);
  sm_get T m k := m !! k;
  sm_set T m k x := <[k := x]> m;
  sm_insert T m x := (fresh (dom m : gset Z), <[fresh (dom m : gset Z) := x]> m);
  sm_remove T m k := (m !! k, delete k m);
  sm_values T m := (map_to_list m).*2;
|}.

Lemma ref_slotmap_laws : SlotMapLaws ref_slotmap.
Proof.
  split; cbn.
  - done.
  - intros k1 k2. destruct (decide (k1 = k2)); auto.
  - intros. apply lookup_empty.
  - intros. by rewrite map_size_empty.
  - intros. lia.
  - intros T m k x [y Hy]. split_and!.
    + apply lookup_insert_eq.
    + intros. by rewrite lookup_insert_ne.
    + by rewrite map_size_insert_Some by by eexists.
  - intros T m x k m' [= <- <-].
    assert (m !! fresh (dom m : gset Z) = None) as Hf by (apply not_elem_of_dom, is_fresh).
    split_and!; [done | apply lookup_insert_eq | | ].
    + intros. by rewrite lookup_insert_ne.
    + rewrite map_size_insert_None by done. lia.
  - intros T m k o m' [= <- <-]. split_and!; [done | apply lookup_delete_eq | |].
    + intros. by rewrite lookup_delete_ne.
    + rewrite map_size_delete. destruct (m !! k) eqn:Hk; [|done].
      assert (size m ≠ 0%nat) by (intros Hz; apply map_size_empty_inv in Hz; by simplify_map_eq).
      lia.
  - intros T m x. rewrite list_elem_of_fmap. split.
    + intros ([k y] & -> & Hin). exists k. by apply elem_of_map_to_list.
    + intros [k Hk]. exists (k, x). split; [done|]. by apply elem_of_map_to_list.
Qed.

(** ** Interning keys *)

Section key_to_id_facts.
Context {SM : SlotMapLib} {SML : SlotMapLaws SM} {K V : Type} `{Countable K}.
Implicit Types s : KeyToId K V.

(** Every key has a live entry under an id of its own, the capacity is
    respected, and nothing else is in the slab. *)
Record KeyToId_inv s : Prop := {
  k2i_live key id : k2i_lookup s !! key = Some id →
    is_Some (IdSlab_get (k2i_items s) id) ∧ ∃ k, id = id_from_key k;
  k2i_inj key1 key2 id :
    k2i_lookup s !! key1 = Some id → k2i_lookup s !! key2 = Some id → key1 = key2;
  k2i_cap : IdSlab_inv (k2i_items s);
  k2i_size : IdSlab_len (k2i_items s) = Z.of_nat (size (k2i_lookup s));
}.

(** The id and value stored for [key]. *)
Definition KeyToId_find s (key : K) : option (Z * V) :=
  id ← k2i_lookup s !! key;
  v ← IdSlab_get (k2i_items s) id;
  Some (id, v).

Lemma KeyToId_default_inv : KeyToId_inv KeyToId_default.
Proof.
  split; cbn.
  - intros key id. by rewrite lookup_empty.
  - intros key1 key2 id. by rewrite lookup_empty.
  - unfold IdSlab_inv. cbn. rewrite sm_len_new. lia.
  - unfold IdSlab_len. cbn. by rewrite sm_len_new, map_size_empty.
Qed.

Lemma KeyToId_find_Some s key id :
  KeyToId_inv s → k2i_lookup s !! key = Some id → ∃ v, KeyToId_find s key = Some (id, v).
Proof.
  intros Hi Hk. destruct (k2i_live s Hi key id Hk) as [[v Hv] _].
  exists v. unfold KeyToId_find. rewrite Hk. cbn. by rewrite Hv.
Qed.

Lemma KeyToId_find_None s key : k2i_lookup s !! key = None → KeyToId_find s key = None.
Proof. unfold KeyToId_find. by intros ->. Qed.

(** Filling a reservation keeps the invariant and the other keys. *)
Lemma KeyToId_add_fresh s key v k items :
  KeyToId_inv s → k2i_lookup s !! key = None →
  IdSlab_vacant_entry (k2i_items s) = Some (k, items) →
  ∃ items', VacantEntry_insert items k v = Ok (id_from_key k, items') ∧
    let s' := MkKeyToId items' (<[key := id_from_key k]> (k2i_lookup s)) in
    KeyToId_inv s' ∧ KeyToId_find s' key = Some (id_from_key k, v) ∧
    ∀ key', key' ≠ key → KeyToId_find s' key' = KeyToId_find s key'.
Proof.
  intros Hi Hk Hv.
  apply vacant_entry_spec in Hv as (Hroom & Hlen & Hcap & Hnone & Hres & Hget).
  destruct (VacantEntry_insert_spec items k v Hres) as (items' & Hins & Hid & Hother & Hl & Hc).
  exists items'. split; [done|]. intros s'.
  assert (∀ id, IdSlab_get (k2i_items s) id ≠ None → key_from_id id ≠ k) as Hne.
  { intros id Hsome Heq. apply Hsome. unfold IdSlab_get. by rewrite Heq, Hnone. }
  assert (∀ key' id, k2i_lookup s !! key' = Some id →
            IdSlab_get items' id = IdSlab_get (k2i_items s) id) as Hold.
  { intros key' id Hk'. destruct (k2i_live s Hi key' id Hk') as [[v' Hv'] _].
    rewrite Hother, Hget; [done|]. apply Hne. by rewrite Hv'. }
  split_and!.
  - split; cbn.
    + intros key' id. rewrite lookup_insert_Some. intros [[<- <-]|[? Hk']].
      * split; [by eexists|by eexists].
      * rewrite (Hold key') by done. by apply (k2i_live s Hi key').
    + intros key1 key2 id. rewrite !lookup_insert_Some.
      assert (∀ key', k2i_lookup s !! key' ≠ Some (id_from_key k)) as Hfresh.
      { intros key' Hk'. destruct (k2i_live s Hi _ _ Hk') as [Hsome _].
        unfold IdSlab_get in Hsome. rewrite key_from_id_from_key, Hnone in Hsome.
        by destruct Hsome. }
      intros [[<- <-]|[? H1]] [[<- H2]|[? H2]]; [done | by destruct (Hfresh _ H2) | | ].
      * subst. by destruct (Hfresh _ H1).
      * by eapply (k2i_inj s Hi).
    + unfold IdSlab_inv, IdSlab_len in *. lia.
    + rewrite Hl, Hlen, (k2i_size s Hi), map_size_insert_None by done. lia.
  - unfold KeyToId_find. cbn. rewrite lookup_insert_eq. cbn. by rewrite Hid.
  - intros key' Hne'. unfold KeyToId_find. cbn. rewrite lookup_insert_ne by done.
    destruct (k2i_lookup s !! key') as [id|] eqn:Hk'; [|done]. cbn. by rewrite (Hold key').
Qed.

Lemma KeyToId_remove_key s key id items o :
  KeyToId_inv s → k2i_lookup s !! key = Some id → IdSlab_remove (k2i_items s) id = (o, items) →
  ∃ v, o = Some v ∧ KeyToId_find s key = Some (id, v) ∧
    let s' := MkKeyToId items (delete key (k2i_lookup s)) in
    KeyToId_inv s' ∧ ∀ key', KeyToId_find s' key' =
      if decide (key' = key) then None else KeyToId_find s key'.
Proof.
  intros Hi Hk Hrem. destruct (k2i_live s Hi key id Hk) as [[v Hv] [k ->]].
  apply IdSlab_remove_spec in Hrem as (-> & Hgone & Hcap & Hother & Hlen & Hle).
  exists v. split; [done|]. split; [unfold KeyToId_find; rewrite Hk; cbn; by rewrite Hv|].
  assert (∀ key' id, key' ≠ key → k2i_lookup s !! key' = Some id →
            IdSlab_get items id = IdSlab_get (k2i_items s) id) as Hold.
  { intros key' id' Hne Hk'. destruct (k2i_live s Hi key' id' Hk') as [_ [k' ->]].
    apply Hother. rewrite !key_from_id_from_key. intros <-. apply Hne.
    by eapply (k2i_inj s Hi). }
  intros s'. split.
  - split; cbn.
    + intros key' id'. rewrite lookup_delete_Some. intros [Hne Hk'].
      rewrite (Hold key') by done. by apply (k2i_live s Hi key').
    + intros key1 key2 id'. rewrite !lookup_delete_Some. intros [_ H1] [_ H2].
      by eapply (k2i_inj s Hi).
    + pose proof (k2i_cap s Hi). unfold IdSlab_inv, IdSlab_len in *. lia.
    + rewrite Hlen, (k2i_size s Hi) by (by eexists). rewrite map_size_delete, Hk.
      assert (size (k2i_lookup s) ≠ 0%nat)
        by (intros Hz; apply map_size_empty_inv in Hz; by rewrite Hz, lookup_empty in Hk).
      lia.
  - intros key'. unfold KeyToId_find. cbn. case_decide; subst; [by rewrite lookup_delete_eq|].
    rewrite lookup_delete_ne by done.
    destruct (k2i_lookup s !! key') as [id'|] eqn:Hk'; [|done]. cbn. by rewrite (Hold key').
Qed.

(** Interning. On a well-formed store [get_or_add] and [remove] never
    fail an [expect] and keep it well formed. An interned key keeps its id
    and its value whatever is done to other keys; a new key gets an id no
    live key has, unless the store is full, in which case nothing changes;
    removal returns exactly what was stored and forgets only that key. *)
Theorem key_to_id_interns (s : KeyToId K V) (key : K) (value_fn : () → V) :
  KeyToId_inv s →
  (∃ o s', KeyToId_get_or_add s key value_fn = Ok (o, s') ∧ KeyToId_inv s' ∧
     match o with
     | None => s' = s ∧ KeyToId_find s key = None ∧ IdSlab_available (k2i_items s) = 0
     | Some id =>
         (∀ key', key' ≠ key → KeyToId_find s' key' = KeyToId_find s key') ∧
         KeyToId_find s' key =
           Some (default (id, value_fn ()) (KeyToId_find s key)) ∧
         (∀ key' v, key' ≠ key → KeyToId_find s key' ≠ Some (id, v))
     end) ∧
  (∃ s', KeyToId_remove s key = Ok (KeyToId_find s key, s') ∧ KeyToId_inv s' ∧
     ∀ key', KeyToId_find s' key' = if decide (key' = key) then None else KeyToId_find s key').
Proof.
  intros Hi. split.
  - unfold KeyToId_get_or_add. destruct (k2i_lookup s !! key) as [id|] eqn:Hk.
    + exists (Some id), s. split_and!; [done | done | done | |].
      * destruct (KeyToId_find_Some s key id Hi Hk) as [v ->]. done.
      * intros key' v Hne Hf. unfold KeyToId_find in Hf.
        destruct (k2i_lookup s !! key') as [id'|] eqn:Hk'; [|done]. cbn in Hf.
        destruct (IdSlab_get _ _); [|done]. simplify_eq/=. by destruct Hne; eapply (k2i_inj s Hi).
    + destruct (IdSlab_vacant_entry (k2i_items s)) as [[k items]|] eqn:Hv.
      * destruct (KeyToId_add_fresh s key (value_fn ()) k items Hi Hk Hv)
          as (items' & Hins & Hi' & Hf & Ho).
        rewrite Hins. cbn. exists (Some (id_from_key k)). eexists. split_and!; [done | done | exact Ho | |].
        { rewrite (KeyToId_find_None s) by done. exact Hf. }
        intros key' v Hne Hf'. rewrite <-Ho in Hf' by done.
        unfold KeyToId_find in Hf'. cbn in Hf'.
        destruct (<[key:=_]> (k2i_lookup s) !! key') as [id'|] eqn:Hk'; [|done]. cbn in Hf'.
        destruct (IdSlab_get items' id'); [|done]. simplify_eq/=. destruct Hne.
        by eapply (k2i_inj _ Hi'); [exact Hk' | cbn; rewrite lookup_insert_eq].
      * exists None, s. split_and!; [done | done | done | by apply KeyToId_find_None |].
        unfold IdSlab_vacant_entry in Hv. unfold IdSlab_available, saturating_sub.
        case_decide; [lia|]. by destruct (sm_insert _ _).
  - unfold KeyToId_remove. destruct (k2i_lookup s !! key) as [id|] eqn:Hk.
    + destruct (IdSlab_remove (k2i_items s) id) as [o items] eqn:Hrem.
      destruct (KeyToId_remove_key s key id items o Hi Hk Hrem) as (v & -> & Hf & Hi' & Ho).
      cbn. rewrite Hf. eexists. split_and!; [done | done | exact Ho].
    + rewrite (KeyToId_find_None s) by done. exists s. split_and!; [done..|].
      intros key'. case_decide; subst; [by apply KeyToId_find_None | done].
Qed.
End key_to_id_facts.

Lemma key_to_id_interns_witness :
  ∃ o s', KeyToId_get_or_add (SM := ref_slotmap) (K := Z) (V := Z) KeyToId_default 5 (λ _, 9) =
    Ok (o, s') ∧ KeyToId_inv s'.
Proof.
  destruct (key_to_id_interns (SM := ref_slotmap) (SML := ref_slotmap_laws) (K := Z) (V := Z)
    KeyToId_default 5 (λ _, 9)) as [(o & s' & Heq & Hinv & _) _].
  - apply (KeyToId_default_inv (SML := ref_slotmap_laws)).
  - exists o, s'. split; [exact Heq | exact Hinv].
Defined.
