(* ===== verification/LanAddress.v ===== *)
(** * Local source addresses (agent_core/src/network/lan_address.rs)

    Traffic of one client is sent to the local service from a loopback
    address and port derived from the client's address, with fallbacks when
    the operating system refuses them. The socket calls are parameters. *)

From S2P Require Import Prelude Bytes Net Utils.

Section lan_address.
Context {BO : ByteOrder}.

(** [ip.octets()\[a..b\]] read as a word. *)
Definition octet_word (bytes : list byte) (a b : nat) : outcome io_error Z :=
  t ← slice_to b bytes;
  t ← slice_from a t;
  bo_slice 4 t.

Definition shuffle_ip_to_u32 (ip : IpAddr) : outcome io_error Z :=
  match ip with
  | IpV4 ip => Ok ip
  | IpV6 ip =>
      let bytes := Ipv6_octets ip in
      w0 ← octet_word bytes 0 4;
      w1 ← octet_word bytes 4 8;
      w2 ← octet_word bytes 8 12;
      w3 ← octet_word bytes 12 16;
      Ok (Z.lxor (Z.lxor (Z.lxor (shuffle w0) (shuffle w1)) (shuffle w2)) (shuffle w3))
  end.

Definition as_local_masked (ip : Z) : Z :=
  let ip := Z.land (shuffle ip) 0x00FFFFFF in
  let ip := if decide (ip = 0) then 1 else ip in
  Z.lor ip 0x7F000000.

Definition map_to_local_ip4 (ip : IpAddr) : outcome io_error Z :=
  v ← shuffle_ip_to_u32 ip;
  Ok (as_local_masked v).

(** [rand_id] and [local_port] of [udp_socket]. *)
Definition udp_rand_id (peer_port tunnel_id ip_shuffle : Z) : Z :=
  Z.lxor (Z.lxor (Z.lxor (shuffle peer_port) (shuffle (wrap 32 (Z.shiftr tunnel_id 32))))
    (shuffle (wrap 32 tunnel_id))) ip_shuffle.

Definition udp_local_port (rand_id : Z) : Z := wrap 16 (2048 + rand_id `mod` (65535 - 2048)).

Context {sock : Type}.

(** [UdpSocket::bind(addr).await]. *)
Context (bind : SocketAddr → outcome io_error sock).

Definition Ipv4_UNSPECIFIED : Z := 0.

Definition Ipv6_UNSPECIFIED : Z := 0.

(** Try an address; when it is refused go on with the next. *)
Definition bind_or (addr : SocketAddr) (next : outcome io_error sock) : outcome io_error sock :=
  match bind addr with
  | Err _ => next
  | r => r
  end.

Definition LanAddress_udp_socket (special_lan_ip : bool) (peer target : SocketAddr)
    (tunnel_id : Z) : outcome io_error sock :=
  ip_shuffle ← shuffle_ip_to_u32 (SocketAddr_ip peer);
  let rand_id := udp_rand_id (SocketAddr_port peer) tunnel_id ip_shuffle in
  let local_port := udp_local_port rand_id in
  if special_lan_ip then
    let local_ip := as_local_masked ip_shuffle in
    bind_or (SaV4 (SockV4 local_ip local_port)) (
    bind_or (SaV4 (SockV4 local_ip 0)) (
    bind (SaV4 (SockV4 0 0))))
  else
    let bind_addr :=
      match target with
      | SaV4 _ => SaV4 (SockV4 Ipv4_UNSPECIFIED local_port)
      | SaV6 _ => SaV6 (SockV6 Ipv6_UNSPECIFIED local_port 0 0)
      end in
    let fallback_addr :=
      match target with
      | SaV4 _ => SaV4 (SockV4 Ipv4_UNSPECIFIED 0)
      | SaV6 _ => SaV6 (SockV6 Ipv6_UNSPECIFIED 0 0 0)
      end in
    bind_or bind_addr (bind fallback_addr).

(** [TcpSocket::new_v4]+[bind]+[connect] and [TcpStream::connect]. *)
Context {stream : Type}.
Context (tcp_new_v4 : outcome io_error ()).
Context (tcp_bind : SocketAddr → outcome io_error ()).
Context (tcp_connect_from : SocketAddr → SocketAddr → outcome io_error stream).
Context (tcp_connect : SocketAddr → outcome io_error stream).

Definition LanAddress_tcp_socket (special_lan_ip : bool) (peer host : SocketAddr) :
    outcome io_error stream :=
  if is_loopback (SocketAddr_ip host) && special_lan_ip then
    local_ip ← map_to_local_ip4 (SocketAddr_ip peer);
    tcp_new_v4;;
    let local := SaV4 (SockV4 local_ip 0) in
    match tcp_bind local with
    | Err _ => tcp_connect host
    | _ =>
        match tcp_connect_from local host with
        | Err _ => tcp_connect host
        | v => v
        end
    end
  else tcp_connect host.
End lan_address.

(** ** Facts *)

Lemma as_local_masked_range ip :
  127 * 2 ^ 24 < as_local_masked ip < 128 * 2 ^ 24.
Proof.
  unfold as_local_masked. set (m := Z.land (shuffle ip) 0xFFFFFF).
  assert (0 ≤ m < 2 ^ 24) as Hm.
  { unfold m. change 0xFFFFFF with (Z.ones 24). rewrite Z.land_ones by lia.
    apply Z.mod_pos_bound. lia. }
  set (k := if decide (m = 0) then 1 else m).
  assert (0 < k < 2 ^ 24) as Hk by (unfold k; case_decide; lia).
  pose proof (Z.add_lor_land k 0x7F000000) as Hadd.
  enough (Z.land k 0x7F000000 = 0) by lia.
  change 0x7F000000 with (Z.shiftl 127 24). apply Z.bits_inj'. intros n Hn.
  rewrite Z.land_spec, Z.bits_0. destruct (decide (n < 24)).
  - rewrite Z.shiftl_spec, (Z.testbit_neg_r 127 (n - 24)) by lia. apply andb_false_r.
  - rewrite (uint_shiftr_bits 24 k n); [done | unfold uint; lia | lia].
Qed.

Lemma udp_local_port_range rand_id : 2048 ≤ udp_local_port rand_id < 65535.
Proof.
  unfold udp_local_port. pose proof (Z.mod_pos_bound rand_id (65535 - 2048) ltac:(lia)).
  rewrite wrap_small; [lia|]. unfold uint. lia.
Qed.

Section facts.
Context {BO : ByteOrder} {BOL : ByteOrderLaws BO}.

Lemma octet_word_total ip a b :
  b = (a + 4)%nat → (b ≤ 16)%nat → ∃ w, octet_word (Ipv6_octets ip) a b = Ok w ∧ uint 32 w.
Proof.
  intros -> Ha. unfold octet_word, slice_to, slice_from, Ipv6_octets.
  rewrite decide_True by (rewrite length_be_bytes; lia). cbn [mbind outcome_bind].
  rewrite decide_True by (rewrite length_take, length_be_bytes; lia). cbn [mbind outcome_bind].
  set (t := drop a _). assert (length t = 4%nat) as Ht
    by (unfold t; rewrite length_drop, length_take, length_be_bytes; lia).
  rewrite bo_slice_spec by lia. eexists. split; [done|].
  rewrite take_ge by lia. pose proof (be_val_uint t) as Hw. by rewrite Ht in Hw.
Qed.

Lemma shuffle_ip_total ip :
  IpAddr_wf ip → ∃ v, shuffle_ip_to_u32 ip = Ok v ∧ uint 32 v.
Proof.
  destruct ip as [a|a]; unfold shuffle_ip_to_u32; [by eauto|]. intros _.
  destruct (octet_word_total a 0 4) as (w0 & -> & ?); [lia|lia|].
  destruct (octet_word_total a 4 8) as (w1 & -> & ?); [lia|lia|].
  destruct (octet_word_total a 8 12) as (w2 & -> & ?); [lia|lia|].
  destruct (octet_word_total a 12 16) as (w3 & -> & ?); [lia|lia|].
  cbn. eexists. split; [done|]. do 3 (apply uint_lxor; [lia | | by apply shuffle_uint]).
  by apply shuffle_uint.
Qed.

(** The local addresses a client can be given: its own loopback address with
    the preferred port or any port, or the unspecified address. *)
Definition lan_candidates (special_lan_ip : bool) (target : SocketAddr) (ip port : Z) :
    list SocketAddr :=
  if special_lan_ip then [SaV4 (SockV4 ip port); SaV4 (SockV4 ip 0); SaV4 (SockV4 0 0)]
  else if is_ipv6 target then [SaV6 (SockV6 0 port 0 0); SaV6 (SockV6 0 0 0 0)]
  else [SaV4 (SockV4 0 port); SaV4 (SockV4 0 0)].

(** The first address the system accepts. *)
Fixpoint first_bound {sock} (bind : SocketAddr → outcome io_error sock) (err : outcome io_error sock)
    (l : list SocketAddr) : outcome io_error sock :=
  match l with
  | [] => err
  | a :: l =>
      match bind a with
      | Err e => first_bound bind (Err e) l
      | r => r
      end
  end.

(** The addresses tried depend only on the client and the tunnel. *)
Lemma udp_socket_first_bound {sock} (peer : SocketAddr) (tunnel_id : Z) :
  SocketAddr_wf peer →
  ∃ ip port,
    is_loopback (IpV4 ip) = true ∧ ip ≠ 127 * 2 ^ 24 ∧ uint 32 ip ∧ 2048 ≤ port < 65535 ∧
    ∀ (bind : SocketAddr → outcome io_error sock) special_lan_ip target,
      LanAddress_udp_socket bind special_lan_ip peer target tunnel_id =
      first_bound bind Panic (lan_candidates special_lan_ip target ip port).
Proof.
  intros Hpeer.
  assert (IpAddr_wf (SocketAddr_ip peer)) as Hip
    by (destruct peer as [[]|[]]; destruct Hpeer; done).
  destruct (shuffle_ip_total _ Hip) as (v & Hv & Hvr).
  exists (as_local_masked v), (udp_local_port (udp_rand_id (SocketAddr_port peer) tunnel_id v)).
  pose proof (as_local_masked_range v).
  pose proof (udp_local_port_range (udp_rand_id (SocketAddr_port peer) tunnel_id v)).
  split_and!; [|unfold uint; lia..|].
  - cbn. unfold Ipv4_is_loopback. apply bool_decide_eq_true.
    rewrite Z.shiftr_div_pow2 by lia. symmetry.
    apply Z.div_unique with (as_local_masked v - 127 * 2 ^ 24); lia.
  - intros bind special_lan_ip target. unfold LanAddress_udp_socket. rewrite Hv.
    cbn [mbind outcome_bind].
    generalize (as_local_masked v) as ip.
    generalize (udp_local_port (udp_rand_id (SocketAddr_port peer) tunnel_id v)) as port.
    intros port ip. unfold bind_or, lan_candidates, Ipv4_UNSPECIFIED, Ipv6_UNSPECIFIED.
    destruct special_lan_ip, target; cbn;
      repeat match goal with |- context [bind ?a] => destruct (bind a) end; done.
Qed.

Lemma udp_socket_not_Panic {sock} (bind : SocketAddr → outcome io_error sock) special_lan_ip peer
    target tunnel_id :
  SocketAddr_wf peer → (∀ a, bind a ≠ Panic) →
  LanAddress_udp_socket bind special_lan_ip peer target tunnel_id ≠ Panic.
Proof.
  intros Hpeer Hb.
  destruct (udp_socket_first_bound (sock := sock) peer tunnel_id Hpeer)
    as (ip & port & _ & _ & _ & _ & ->).
  unfold lan_candidates. destruct special_lan_ip, target; cbn;
    repeat match goal with
    | |- context [bind ?a] => pose proof (Hb a); destruct (bind a)
    end; done.
Qed.

(** Opening the local UDP socket of a client. The socket is bound to the
    first address the system accepts of a list that depends only on the
    client, the tunnel and the target: on a loopback target with client
    addresses enabled, an address in 127.0.0.0/8 that is not its network
    address with a port of 2048..65534, then any port of that address, then
    any address; otherwise the unspecified address of the target's family.
    It fails only when the last of them fails. *)
Theorem udp_socket_binds {sock} (peer : SocketAddr) (tunnel_id : Z) :
  SocketAddr_wf peer →
  ∃ ip port,
    is_loopback (IpV4 ip) = true ∧ ip ≠ 127 * 2 ^ 24 ∧ uint 32 ip ∧ 2048 ≤ port < 65535 ∧
    ∀ (bind : SocketAddr → outcome io_error sock) special_lan_ip target,
      LanAddress_udp_socket bind special_lan_ip peer target tunnel_id =
      first_bound bind Panic (lan_candidates special_lan_ip target ip port).
Proof. apply udp_socket_first_bound. Qed.
End facts.

Lemma udp_socket_binds_witness :
  ∃ ip port,
    LanAddress_udp_socket (BO := big_endian) Ok true (SaV6 (SockV6 1 40000 0 0))
      (SaV4 (SockV4 (127 * 2 ^ 24 + 1) 25565)) 77 = Ok (SaV4 (SockV4 ip port)) ∧
    is_loopback (IpV4 ip) = true.
Proof.
  destruct (udp_socket_binds (BO := big_endian) (BOL := big_endian_laws) (sock := SocketAddr)
    (SaV6 (SockV6 1 40000 0 0)) 77) as (ip & port & Hl & _ & _ & _ & Heq).
  - decide_now.
  - exists ip, port. rewrite Heq. split; [reflexivity | exact Hl].
Defined.
