(* ===== verification/OriginLookup.v ===== *)
(** * Tunnel origins (agent_core/src/network/origin_lookup.rs)

    Which local service a tunnel's traffic goes to: the resources built from
    the API's tunnel list, the table they are looked up in, and the local
    address of a port of the tunnel. *)

From S2P Require Import Prelude Net Proto.
From Stdlib Require Import Ascii.

(** ** The API's data (api_client/src/api.rs) *)

Inductive PortType : Type := PortTypeTcp | PortTypeUdp | PortTypeBoth.

Inductive TunnelType : Type :=
  | MinecraftJava
  | MinecraftBedrock
  | Valheim
  | Terraria
  | Starbound
  | Rust
  | Num7days
  | Unturned
  | Https
  | Hytale
  | ProjectZomboid
  | VintageStory.

Inductive ProxyProtocol : Type := ProxyProtocolV1 | ProxyProtocolV2.

#[global] Instance ProxyProtocol_eq_dec : EqDecision ProxyProtocol.
Proof. solve_decision. Defined.
#[global] Instance TunnelType_eq_dec : EqDecision TunnelType.
Proof. solve_decision. Defined.

Record AgentTunnelAttr : Type := { attr_name : string; attr_value : string }.

(** The fields [from_agent_tunnel] reads. *)
Record AgentTunnelV1 : Type := {
  tunn_internal_id : Z;
  tunn_display_address : string;
  tunn_port_type : PortType;
  tunn_port_count : Z;
  tunn_tunnel_type : option string;
  tunn_fields : list AgentTunnelAttr;
}.

(** The [#\[serde(rename = ..)\]] names: what [serde_json::from_value] gives
    for a JSON string. *)
Definition TunnelType_from_value (v : string) : option TunnelType :=
  if decide (v = "minecraft-java")%string then Some MinecraftJava
  else if decide (v = "minecraft-bedrock")%string then Some MinecraftBedrock
  else if decide (v = "valheim")%string then Some Valheim
  else if decide (v = "terraria")%string then Some Terraria
  else if decide (v = "starbound")%string then Some Starbound
  else if decide (v = "rust")%string then Some Rust
  else if decide (v = "7days")%string then Some Num7days
  else if decide (v = "unturned")%string then Some Unturned
  else if decide (v = "https")%string then Some Https
  else if decide (v = "hytale")%string then Some Hytale
  else if decide (v = "project-zomboid")%string then Some ProjectZomboid
  else if decide (v = "vintage-story")%string then Some VintageStory
  else None.

Definition ProxyProtocol_from_value (v : string) : option ProxyProtocol :=
  if decide (v = "proxy-protocol-v1")%string then Some ProxyProtocolV1
  else if decide (v = "proxy-protocol-v2")%string then Some ProxyProtocolV2
  else None.

(** ** Strings of the standard library *)

(** [u16::from_str]: an optional plus sign, then decimal digits, the value at
    most 65535. *)
Definition digit_value (c : ascii) : option Z :=
  let n := Z.of_N (N_of_ascii c) in
  if decide (48 ≤ n ≤ 57) then Some (n - 48) else None.

Fixpoint parse_digits (acc : Z) (s : string) : option Z :=
  match s with
  | EmptyString => Some acc
  | String c s =>
      d ← digit_value c;
      let acc := acc * 10 + d in
      if decide (acc ≤ 65535) then parse_digits acc s else None
  end.

Definition u16_from_str (s : string) : option Z :=
  match s with
  | EmptyString => None
  | String "+" EmptyString => None
  | String "+" rest => parse_digits 0 rest
  | _ => parse_digits 0 s
  end.

(** [s.rsplit(c).next()]: what follows the last [c], or all of [s]. *)
Fixpoint after_last (c : ascii) (s : string) : option string :=
  match s with
  | EmptyString => None
  | String a s =>
      match after_last c s with
      | Some r => Some r
      | None => if decide (a = c) then Some s else None
      end
  end.

Definition rsplit_first (c : ascii) (s : string) : string := default s (after_last c s).

(** ** Data *)

Inductive OriginIp : Type :=
  | IpAddress (ip : IpAddr)
  | Hostname (host : string).

Inductive OriginTarget : Type :=
  | TargetHttps (ip : OriginIp) (http_port https_port : Z)
  | TargetPort (ip : OriginIp) (port : Z).

Record OriginResource : Type := {
  or_tunnel_id : Z;
  or_proto : PortProto;
  or_target : OriginTarget;
  or_port_count : Z;
  or_proxy_protocol : option ProxyProtocol;
}.

(** [Key { tunnel_id, is_tcp }]. *)
Definition OriginKey : Type := (Z * bool)%type.

(** The table behind the lock. *)
Record OriginLookup : Type := { origin_map : gmap OriginKey OriginResource }.

(** ** The table *)

Definition OriginLookup_default : OriginLookup := {| origin_map := ∅ |}.

(** One iteration of the loop in [update]. *)
Definition update_insert (next : gmap OriginKey OriginResource) (res : OriginResource) :
    gmap OriginKey OriginResource :=
  match or_proto res with
  | Tcp => <[(or_tunnel_id res, true) := res]> next
  | Udp => <[(or_tunnel_id res, false) := res]> next
  | Both =>
      <[(or_tunnel_id res, false) := res]> (<[(or_tunnel_id res, true) := res]> next)
  end.

(** The old table is replaced as a whole. *)
Definition OriginLookup_update (l : OriginLookup) (resources : list OriginResource) :
    OriginLookup :=
  {| origin_map := foldl update_insert ∅ resources |}.

Definition OriginLookup_lookup (l : OriginLookup) (tunnel_id : Z) (is_tcp : bool) :
    option OriginResource :=
  origin_map l !! (tunnel_id, is_tcp).

(** ** Building resources *)

Section build.
(** [str::trim] and [IpAddr::from_str]. *)
Context (str_trim : string → string) (IpAddr_from_str : string → option IpAddr).

(** [fields.iter().find(|f| f.name.eq(name))]. *)
Definition find_field (tunn : AgentTunnelV1) (name : string) : option AgentTunnelAttr :=
  snd <$> list_find (λ f, attr_name f = name) (tunn_fields tunn).

Definition parse_origin_ip (tunn : AgentTunnelV1) : OriginIp :=
  match find_field tunn "local_ip" with
  | None => IpAddress (IpV4 0x7F000001)
  | Some v =>
      let value := str_trim (attr_value v) in
      if decide (value = EmptyString) then IpAddress (IpV4 0x7F000001)
      else
        match IpAddr_from_str value with
        | Some ip => IpAddress ip
        | None => Hostname value
        end
  end.

(** [find(..).and_then(|v| u16::from_str(&v.value).ok())]. *)
Definition port_field (tunn : AgentTunnelV1) (name : string) : option Z :=
  v ← find_field tunn name;
  u16_from_str (attr_value v).

Definition display_port (tunn : AgentTunnelV1) : option Z :=
  u16_from_str (rsplit_first ":" (tunn_display_address tunn)).

Definition tunnel_target (tunn : AgentTunnelV1) (tunnel_type : option TunnelType) :
    option OriginTarget :=
  match tunnel_type with
  | Some Https =>
      Some (TargetHttps (parse_origin_ip tunn) (default 80 (port_field tunn "http_port"))
              (default 443 (port_field tunn "https_port")))
  | _ =>
      local_port ← match port_field tunn "local_port" with
                   | Some p => Some p
                   | None => display_port tunn
                   end;
      Some (TargetPort (parse_origin_ip tunn) local_port)
  end.

Definition PortProto_of_type (t : PortType) : PortProto :=
  match t with
  | PortTypeTcp => Tcp
  | PortTypeUdp => Udp
  | PortTypeBoth => Both
  end.

Definition from_agent_tunnel (tunn : AgentTunnelV1) : option OriginResource :=
  let tunnel_type := tunn_tunnel_type tunn ≫= TunnelType_from_value in
  let proxy_protocol :=
    v ← find_field tunn "proxy_protocol"; ProxyProtocol_from_value (attr_value v) in
  target ← tunnel_target tunn tunnel_type;
  Some {| or_tunnel_id := tunn_internal_id tunn;
          or_proto := PortProto_of_type (tunn_port_type tunn);
          or_target := target;
          or_port_count := tunn_port_count tunn;
          or_proxy_protocol := proxy_protocol |}.

Definition update_from_run_data (l : OriginLookup) (tunnels : list AgentTunnelV1) : OriginLookup :=
  OriginLookup_update l (omap from_agent_tunnel tunnels).
End build.

(** ** Resolving a port of the tunnel *)

Section resolve.
(** [lookup_host((host, port)).await]: [None] when it fails. *)
Context (lookup_host : string → Z → option (list SocketAddr)).

Definition OriginIp_resolve (o : OriginIp) (port : Z) : option SocketAddr :=
  match o with
  | IpAddress ip => Some (SocketAddr_new ip port)
  | Hostname hostname =>
      addrs ← lookup_host hostname port;
      head addrs
  end.

Definition resolve_local (r : OriginResource) (port_offset : Z) : option SocketAddr :=
  match or_target r with
  | TargetHttps ip http_port https_port =>
      if decide (port_offset = 0) then OriginIp_resolve ip http_port
      else if decide (port_offset = 1) then OriginIp_resolve ip https_port
      else None
  | TargetPort ip port =>
      if decide (or_port_count r = 0) then OriginIp_resolve ip port
      else if decide (or_port_count r ≤ port_offset) then None
      else
        resolved_port ← checked_add 16 port port_offset;
        OriginIp_resolve ip resolved_port
  end.
End resolve.

(** ** Facts *)

(** A resource serves TCP, UDP or both. *)
Definition serves (tunnel_id : Z) (is_tcp : bool) (r : OriginResource) : Prop :=
  or_tunnel_id r = tunnel_id ∧ or_proto r ≠ (if is_tcp then Udp else Tcp).

#[global] Instance serves_dec id t r : Decision (serves id t r).
Proof. unfold serves. destruct t; apply _. Defined.

Lemma update_insert_lookup m r id t :
  update_insert m r !! (id, t) = if decide (serves id t r) then Some r else m !! (id, t).
Proof.
  unfold update_insert. case_decide as Hs; unfold serves in Hs; destruct (or_proto r), t;
    destruct (decide (or_tunnel_id r = id)) as [<-|Hne]; try naive_solver;
    repeat first [rewrite lookup_insert_eq | rewrite lookup_insert_ne by congruence];
    naive_solver.
Qed.

(** Later resources of the list win. *)
Lemma update_lookup rs m id t :
  foldl update_insert m rs !! (id, t) =
  match last (filter (serves id t) rs) with
  | Some r => Some r
  | None => m !! (id, t)
  end.
Proof.
  revert m. induction rs as [|r rs IH] using rev_ind; intros m; [done|].
  rewrite foldl_app, filter_app. cbn [foldl]. rewrite update_insert_lookup, IH, filter_cons, filter_nil.
  case_decide; [by rewrite last_snoc | by rewrite app_nil_r].
Qed.

Lemma digit_value_range c d : digit_value c = Some d → 0 ≤ d ≤ 9.
Proof. unfold digit_value. case_decide; intros; simplify_eq; lia. Qed.

Lemma parse_digits_range acc s n : 0 ≤ acc ≤ 65535 → parse_digits acc s = Some n → uint 16 n.
Proof.
  revert acc. induction s as [|c s IH]; intros acc Hacc; cbn; [intros; simplify_eq; uint_solve|].
  destruct (digit_value c) as [d|] eqn:Hd; [|done]. apply digit_value_range in Hd. cbn.
  case_decide; [|done]. apply IH. lia.
Qed.

Lemma u16_from_str_range s n : u16_from_str s = Some n → uint 16 n.
Proof.
  assert (∀ s', parse_digits 0 s' = Some n → uint 16 n) as Hp
    by (intros; eapply parse_digits_range; [|done]; lia).
  unfold u16_from_str. intros Hs. repeat case_match; try done; by eapply Hp.
Qed.

Definition target_wf (t : OriginTarget) : Prop :=
  match t with
  | TargetHttps _ a b => uint 16 a ∧ uint 16 b
  | TargetPort _ p => uint 16 p
  end.

Lemma port_field_range tunn name p : port_field tunn name = Some p → uint 16 p.
Proof.
  unfold port_field. destruct (find_field tunn name); cbn; [apply u16_from_str_range | done].
Qed.

Lemma tunnel_target_wf trim from_str tunn ty t :
  tunnel_target trim from_str tunn ty = Some t → target_wf t.
Proof.
  assert (∀ name d, uint 16 d → uint 16 (default d (port_field tunn name))) as Hdef.
  { intros name d Hd. destruct (port_field tunn name) eqn:Hp; cbn; [|done].
    by eapply port_field_range. }
  intros Ht. unfold tunnel_target in Ht.
  assert (target_wf t ∨ ∃ p, match port_field tunn "local_port" with
                   | Some p => Some p | None => display_port tunn end = Some p ∧
                   t = TargetPort (parse_origin_ip trim from_str tunn) p) as [?|(p & Hp & ->)].
  { destruct ty as [[]|]; try (right; destruct (match port_field tunn "local_port" with
                   | Some p => Some p | None => display_port tunn end); cbn in Ht;
                   [simplify_eq; by eexists | done]).
    left. simplify_eq. split; by apply Hdef. }
  - done.
  - cbn. destruct (port_field tunn "local_port") eqn:Hf; simplify_eq.
    + by eapply port_field_range.
    + by eapply u16_from_str_range.
Qed.

(** The origin table after an update. A lookup finds the last resource
    of the update that serves the tunnel and protocol, a resource for both
    protocols under either, and nothing of the previous table. *)
Theorem origin_update_lookup (l : OriginLookup) (rs : list OriginResource) (tunnel_id : Z)
    (is_tcp : bool) :
  OriginLookup_lookup (OriginLookup_update l rs) tunnel_id is_tcp =
  last (filter (serves tunnel_id is_tcp) rs).
Proof.
  unfold OriginLookup_lookup, OriginLookup_update. cbn. rewrite update_lookup.
  by destruct (last _).
Qed.

(** The ports a tunnel can reach on the local machine. *)
Definition reachable_port (r : OriginResource) (port_offset p : Z) : Prop :=
  match or_target r with
  | TargetHttps _ http_port https_port =>
      (port_offset = 0 ∧ p = http_port) ∨ (port_offset = 1 ∧ p = https_port)
  | TargetPort _ port =>
      (or_port_count r = 0 ∧ p = port) ∨
      (0 ≤ port_offset < or_port_count r ∧ p = port + port_offset ∧ p ≤ 65535)
  end.

(** The port [resolve_local] asks for, and the host it asks for it. *)
Definition offset_port (r : OriginResource) (port_offset : Z) : option Z :=
  match or_target r with
  | TargetHttps _ http_port https_port =>
      if decide (port_offset = 0) then Some http_port
      else if decide (port_offset = 1) then Some https_port else None
  | TargetPort _ port =>
      if decide (or_port_count r = 0) then Some port
      else if decide (or_port_count r ≤ port_offset) then None
      else checked_add 16 port port_offset
  end.

Definition target_ip (t : OriginTarget) : OriginIp :=
  match t with
  | TargetHttps ip _ _ | TargetPort ip _ => ip
  end.

Lemma resolve_local_offset lookup_host r port_offset :
  resolve_local lookup_host r port_offset =
  p ← offset_port r port_offset; OriginIp_resolve lookup_host (target_ip (or_target r)) p.
Proof.
  unfold resolve_local, offset_port. destruct (or_target r); cbn; by repeat case_decide.
Qed.

Lemma offset_port_spec r port_offset p :
  target_wf (or_target r) → 0 ≤ port_offset →
  offset_port r port_offset = Some p ↔ reachable_port r port_offset p.
Proof.
  unfold offset_port, reachable_port. destruct (or_target r) as [ip hp sp|ip q]; cbn;
    unfold checked_add; intros Hwf Hoff; repeat case_decide; split; intros; simplify_eq;
    try lia; destruct_or?; destruct_and?; f_equal; try lia; done.
Qed.

Lemma reachable_port_uint r port_offset p :
  target_wf (or_target r) → reachable_port r port_offset p → uint 16 p.
Proof.
  unfold reachable_port. destruct (or_target r); cbn; unfold uint; intros;
    destruct_or?; destruct_and?; subst; lia.
Qed.

(** What a host stands for. *)
Definition resolves_to (lookup_host : string → Z → option (list SocketAddr)) (o : OriginIp)
    (p : Z) (a : SocketAddr) : Prop :=
  match o with
  | IpAddress ip => a = SocketAddr_new ip p
  | Hostname h => ∃ addrs, lookup_host h p = Some addrs ∧ head addrs = Some a
  end.

Lemma OriginIp_resolve_spec lookup_host o p a :
  OriginIp_resolve lookup_host o p = Some a ↔ resolves_to lookup_host o p a.
Proof.
  destruct o as [ip|h]; cbn; [naive_solver|]. destruct (lookup_host h p); cbn; naive_solver.
Qed.

(** Resolving a tunnel port. A resource built from a tunnel of the API
    has every port in range; [resolve_local] asks for exactly the port of
    the tunnel's range at that offset (the fixed port when the tunnel has no
    range, the HTTP and HTTPS ports at offsets 0 and 1), and for none
    outside the range or past port 65535. An address target gives that
    port of the address, a host name the first of its addresses. *)
Theorem resolve_local_spec trim from_str lookup_host (tunn : AgentTunnelV1) (r : OriginResource)
    (port_offset : Z) :
  from_agent_tunnel trim from_str tunn = Some r → 0 ≤ port_offset →
  target_wf (or_target r) ∧ or_tunnel_id r = tunn_internal_id tunn ∧
  ∀ a, resolve_local lookup_host r port_offset = Some a ↔
    ∃ p, reachable_port r port_offset p ∧ uint 16 p ∧
         resolves_to lookup_host (target_ip (or_target r)) p a.
Proof.
  intros Hr Hoff. unfold from_agent_tunnel in Hr.
  destruct (tunnel_target trim from_str tunn _) as [t|] eqn:Ht; [|done]. cbn in Hr.
  apply tunnel_target_wf in Ht. injection Hr as Hr.
  assert (target_wf (or_target r)) as Hwf by (by rewrite <-Hr).
  split_and!; [done | by rewrite <-Hr |]. intros a.
  rewrite resolve_local_offset, bind_Some. split.
  - intros (p & Hp & Ha). apply offset_port_spec in Hp; [|done..]. exists p.
    split_and!; [done | by eapply reachable_port_uint | by apply OriginIp_resolve_spec].
  - intros (p & Hp & _ & Ha). exists p.
    split; [by apply offset_port_spec | by apply OriginIp_resolve_spec].
Qed.

(** A tunnel of the shape of the repository's tests, with ports 25565..25567. *)
Definition sample_tunnel : AgentTunnelV1 := {|
  tunn_internal_id := 7;
  tunn_display_address := "public.example:25565";
  tunn_port_type := PortTypeUdp;
  tunn_port_count := 3;
  tunn_tunnel_type := None;
  tunn_fields := [ {| attr_name := "local_ip"; attr_value := "" |} ];
|}.

Definition sample_resource : OriginResource := {|
  or_tunnel_id := 7;
  or_proto := Udp;
  or_target := TargetPort (IpAddress (IpV4 0x7F000001)) 25565;
  or_port_count := 3;
  or_proxy_protocol := None;
|}.

Lemma resolve_local_spec_witness :
  resolve_local (λ _ _, None) sample_resource 2 = Some (SaV4 (SockV4 0x7F000001 25567)).
Proof.
  destruct (resolve_local_spec id (λ _, None) (λ _ _, None) sample_tunnel sample_resource 2)
    as (_ & _ & Hr).
  - reflexivity.
  - lia.
  - apply Hr. exists 25567. split_and!; [|decide_now..|reflexivity].
    right. cbn. lia.
Defined.
