(* ===== verification/ProxyProtocol.v ===== *)
(** * PROXY protocol headers (agent_core/src/network/proxy_protocol.rs)

    The header that tells a local service which client a connection or
    datagram comes from: the text form of version 1, the binary form of
    version 2 for streams and datagrams, and the parser of the latter. *)

From S2P Require Import Prelude Bytes Net UdpProto Utils.
From stdpp Require Import pretty.
#[local] Open Scope Z_scope.

Inductive ProxyProtocolHeader : Type :=
  | AfInet (client_ip proxy_ip client_port proxy_port : Z)
  | AfInet6 (client_ip proxy_ip client_port proxy_port : Z).

#[global] Instance ProxyProtocolHeader_eq_dec : EqDecision ProxyProtocolHeader.
Proof. solve_decision. Defined.

Definition ProxyProtocolHeader_from_udp_flow (flow : UdpFlow) : ProxyProtocolHeader :=
  match flow with
  | FlowV4 src dst _ _ => AfInet (sa4_ip src) (sa4_ip dst) (sa4_port src) (sa4_port dst)
  | FlowV6 src dst _ => AfInet6 src.1 dst.1 src.2 dst.2
  end.

(** ** Version 1 *)

(** [Display] of [u16], [Ipv4Addr] and [Ipv6Addr]. *)
Definition dec (v : Z) : string := pretty (Z.to_N v).

Definition Ipv4_fmt (ip : Z) : string :=
  (dec (Z.shiftr ip 24) +:+ "." +:+ dec (wrap 8 (Z.shiftr ip 16)) +:+ "." +:+
   dec (wrap 8 (Z.shiftr ip 8)) +:+ "." +:+ dec (wrap 8 ip))%string.

Definition hex_digit (d : Z) : string :=
  if decide (d < 10) then dec d
  else String.String (Ascii.ascii_of_N (Z.to_N (87 + d))) EmptyString.

(** [{:x}] of a [u16]: no leading zeros. *)
Definition hex16 (v : Z) : string :=
  let d3 := Z.shiftr v 12 in
  let d2 := wrap 4 (Z.shiftr v 8) in
  let d1 := wrap 4 (Z.shiftr v 4) in
  let d0 := wrap 4 v in
  ((if decide (v < 2 ^ 12) then "" else hex_digit d3) +:+
   (if decide (v < 2 ^ 8) then "" else hex_digit d2) +:+
   (if decide (v < 2 ^ 4) then "" else hex_digit d1) +:+ hex_digit d0)%string.

Definition Ipv6_segments (ip : Z) : list Z :=
  (λ i, wrap 16 (Z.shiftr ip (16 * (7 - Z.of_nat i)))) <$> seq 0 8.

(** The longest run of zero segments, the first one of several. *)
Definition zero_span_step (st : nat * (nat * nat) * (nat * nat)) (segment : Z) :
    nat * (nat * nat) * (nat * nat) :=
  let '(i, (ls, ll), (cs, cl)) := st in
  if decide (segment = 0) then
    let cs := if decide (cl = 0)%nat then i else cs in
    let cl := S cl in
    (S i, (if decide (ll < cl)%nat then (cs, cl) else (ls, ll)), (cs, cl))
  else (S i, (ls, ll), (0, 0)%nat).

Definition zero_span (segments : list Z) : nat * nat :=
  (foldl zero_span_step (0, (0, 0), (0, 0))%nat segments).1.2.

Definition fmt_subslice (chunk : list Z) : string :=
  match chunk with
  | [] => ""
  | first :: tail => foldl (λ s v, s +:+ ":" +:+ hex16 v)%string (hex16 first) tail
  end.

Definition Ipv6_fmt (ip : Z) : string :=
  let segments := Ipv6_segments ip in
  if decide (Z.shiftr ip 32 = 0xffff) then ("::ffff:" +:+ Ipv4_fmt (wrap 32 ip))%string
  else
    let '(start, len) := zero_span segments in
    if decide (1 < len)%nat then
      (fmt_subslice (take start segments) +:+ "::" +:+ fmt_subslice (drop (start + len) segments))%string
    else fmt_subslice segments.

Definition crlf : string :=
  String.String (Ascii.ascii_of_N 13) (String.String (Ascii.ascii_of_N 10) EmptyString).

Definition ProxyProtocolHeader_to_string (h : ProxyProtocolHeader) : string :=
  match h with
  | AfInet client_ip proxy_ip client_port proxy_port =>
      ("PROXY TCP4 " +:+ Ipv4_fmt client_ip +:+ " " +:+ Ipv4_fmt proxy_ip +:+ " " +:+
       dec client_port +:+ " " +:+ dec proxy_port +:+ crlf)%string
  | AfInet6 client_ip proxy_ip client_port proxy_port =>
      ("PROXY TCP6 " +:+ Ipv6_fmt client_ip +:+ " " +:+ Ipv6_fmt proxy_ip +:+ " " +:+
       dec client_port +:+ " " +:+ dec proxy_port +:+ crlf)%string
  end.

Definition write_v1_tcp (h : ProxyProtocolHeader) : W () :=
  write_all (Stdlib.Strings.String.list_byte_of_string (ProxyProtocolHeader_to_string h)).

(** ** Version 2 *)

Definition PROXY_PROTOCOL_V2_HEADER : list byte :=
  [Byte.x0d; Byte.x0a; Byte.x0d; Byte.x0a; Byte.x00; Byte.x0d; Byte.x0a; Byte.x51; Byte.x55;
   Byte.x49; Byte.x54; Byte.x0a; Byte.x21].

Definition UDP_PROXY_PROTOCOL_LEN_V6 : nat := 16 + 36.

Definition UDP_PROXY_PROTOCOL_LEN_V4 : nat := 16 + 12.

Definition UDP_PROXY_PROTOCOL_MAX_LEN : nat := UDP_PROXY_PROTOCOL_LEN_V6.

(** Addresses and ports, the same for streams and datagrams. *)
Definition write_addrs (ip_len : nat) (client_ip proxy_ip client_port proxy_port : Z) : W () :=
  write_all (be_bytes ip_len client_ip);;
  write_all (be_bytes ip_len proxy_ip);;
  write_all (be_bytes 2 client_port);;
  write_all (be_bytes 2 proxy_port).

Definition write_v2_tcp (h : ProxyProtocolHeader) : W () :=
  write_all PROXY_PROTOCOL_V2_HEADER;;
  match h with
  | AfInet client_ip proxy_ip client_port proxy_port =>
      write_all [Byte.x11];;
      write_all (be_bytes 2 12);;
      write_addrs 4 client_ip proxy_ip client_port proxy_port
  | AfInet6 client_ip proxy_ip client_port proxy_port =>
      write_all [Byte.x21];;
      write_all (be_bytes 2 36);;
      write_addrs 16 client_ip proxy_ip client_port proxy_port
  end.

Definition write_v2_udp (h : ProxyProtocolHeader) : W () :=
  write_all PROXY_PROTOCOL_V2_HEADER;;
  match h with
  | AfInet client_ip proxy_ip client_port proxy_port =>
      write_all [Byte.x12];;
      write_all (be_bytes 2 12);;
      write_addrs 4 client_ip proxy_ip client_port proxy_port
  | AfInet6 client_ip proxy_ip client_port proxy_port =>
      write_all [Byte.x22];;
      write_all (be_bytes 2 36);;
      write_addrs 16 client_ip proxy_ip client_port proxy_port
  end.

Section parse.
Context {BO : ByteOrder}.

(** Reading from the fixed-size [slab]; every read is unwrapped. *)
Definition parse_slab (header : Z → Z → Z → Z → ProxyProtocolHeader) (ip : R Z) (len : Z)
    (slab buffer : list byte) : outcome io_error (option (ProxyProtocolHeader * list byte)) :=
  match bo_read 2 slab with
  | Ok (n, r) =>
      if decide (n ≠ len) then Ok None
      else
        match (client_ip ← ip; proxy_ip ← ip; client_port ← bo_read 2; proxy_port ← bo_read 2;
               mret (header client_ip proxy_ip client_port proxy_port)) r with
        | Ok (h, _) => Ok (Some (h, buffer))
        | _ => Panic
        end
  | _ => Panic
  end.

(** [parse_v2_udp(buffer)]: the header and the rest of the reader. *)
Definition parse_v2_udp (buffer : list byte) :
    outcome io_error (option (ProxyProtocolHeader * list byte)) :=
  match read_exact (length PROXY_PROTOCOL_V2_HEADER) buffer with
  | Ok (header, buffer) =>
      if decide (header ≠ PROXY_PROTOCOL_V2_HEADER) then Ok None
      else
        match bo_read 1 buffer with
        | Ok (proto_type, buffer) =>
            if decide (proto_type = 0x12) then
              match read_exact 14 buffer with
              | Ok (slab, buffer) => parse_slab AfInet read_ip4 12 slab buffer
              | _ => Ok None
              end
            else if decide (proto_type = 0x22) then
              match read_exact 38 buffer with
              | Ok (slab, buffer) => parse_slab AfInet6 read_ip6 36 slab buffer
              | _ => Ok None
              end
            else Ok None
        | _ => Ok None
        end
  | _ => Ok None
  end.
End parse.

(** ** Format *)

Definition addrs_enc (ip_len : nat) (ci pi cp pp : Z) : list byte :=
  be_bytes ip_len ci ++ be_bytes ip_len pi ++ be_bytes 2 cp ++ be_bytes 2 pp.

(** The version-2 header with the transport's low nibble. *)
Definition v2_enc (udp : bool) (h : ProxyProtocolHeader) : list byte :=
  PROXY_PROTOCOL_V2_HEADER ++
  match h with
  | AfInet ci pi cp pp =>
      be_bytes 1 (if udp then 0x12 else 0x11) ++ be_bytes 2 12 ++ addrs_enc 4 ci pi cp pp
  | AfInet6 ci pi cp pp =>
      be_bytes 1 (if udp then 0x22 else 0x21) ++ be_bytes 2 36 ++ addrs_enc 16 ci pi cp pp
  end.

Definition header_wf (h : ProxyProtocolHeader) : Prop :=
  match h with
  | AfInet ci pi cp pp => uint 32 ci ∧ uint 32 pi ∧ uint 16 cp ∧ uint 16 pp
  | AfInet6 ci pi cp pp => uint 128 ci ∧ uint 128 pi ∧ uint 16 cp ∧ uint 16 pp
  end.

#[global] Instance header_wf_dec h : Decision (header_wf h).
Proof. destruct h; cbn; apply _. Defined.

Lemma emits_addrs n ci pi cp pp : emits (write_addrs n ci pi cp pp) (addrs_enc n ci pi cp pp) ().
Proof. repeat (eapply emits_bind; [apply emits_write_all|]). apply emits_write_all. Qed.

Lemma emits_v2_udp h : emits (write_v2_udp h) (v2_enc true h) ().
Proof.
  eapply emits_bind; [apply emits_write_all|].
  destruct h; do 2 (eapply emits_bind; [apply emits_write_all|]); apply emits_addrs.
Qed.

Lemma emits_v2_tcp h : emits (write_v2_tcp h) (v2_enc false h) ().
Proof.
  eapply emits_bind; [apply emits_write_all|].
  destruct h; do 2 (eapply emits_bind; [apply emits_write_all|]); apply emits_addrs.
Qed.

Lemma length_v2_enc udp h :
  length (v2_enc udp h) =
  match h with
  | AfInet _ _ _ _ => UDP_PROXY_PROTOCOL_LEN_V4
  | AfInet6 _ _ _ _ => UDP_PROXY_PROTOCOL_LEN_V6
  end.
Proof. unfold v2_enc, addrs_enc. destruct h; by rewrite !length_app, !length_be_bytes. Qed.

(** ** Parsing *)

Section facts.
Context {BO : ByteOrder} {BOL : ByteOrderLaws BO}.

(** [read_ip4] and [read_ip6]. *)
Lemma read_ip_enough (n : nat) bs :
  (n ≤ length bs)%nat →
  (b ← read_exact n; mret (be_val b) : R Z) bs = Ok (be_val (take n bs), drop n bs).
Proof. intros. unfold mbind, R_bind, read_exact. by rewrite decide_True. Qed.

(** A slab of the right size is parsed without an unwrap failing, and its
    fields are its slices. *)
Lemma parse_slab_spec header n len slab rest :
  length slab = (6 + n + n)%nat →
  parse_slab header (b ← read_exact n; mret (be_val b)) len slab rest =
  if decide (be_val (take 2 slab) ≠ len) then Ok None
  else Ok (Some (header (be_val (take n (drop 2 slab))) (be_val (take n (drop (2 + n) slab)))
                   (be_val (take 2 (drop (2 + n + n) slab)))
                   (be_val (take 2 (drop (4 + n + n) slab))), rest)).
Proof.
  intros Hlen. unfold parse_slab. rewrite bo_read_enough by lia. case_decide; [done|].
  unfold mbind at 1, R_bind. rewrite read_ip_enough by (rewrite length_drop; lia).
  unfold mbind at 1. rewrite read_ip_enough by (rewrite !length_drop; lia).
  unfold mbind. rewrite bo_read_enough by (rewrite !length_drop; lia).
  rewrite bo_read_enough by (rewrite !length_drop; lia). unfold mret, R_ret.
  rewrite !drop_drop. do 4 f_equal; do 2 f_equal; f_equal; lia.
Qed.

Lemma be_bytes_take n bs :
  (n ≤ length bs)%nat → be_bytes n (be_val (take n bs)) = take n bs.
Proof. intros. rewrite <-(length_take_le bs n) at 1 by done. apply be_bytes_be_val. Qed.

Lemma be_val_take_uint n bs :
  (n ≤ length bs)%nat → uint (8 * Z.of_nat n) (be_val (take n bs)).
Proof. intros. rewrite <-(length_take_le bs n) at 1 by done. apply be_val_uint. Qed.

(** A slab is its length word followed by its four fields. *)
Lemma slab_split n slab :
  length slab = (6 + n + n)%nat →
  slab = be_bytes 2 (be_val (take 2 slab)) ++
    addrs_enc n (be_val (take n (drop 2 slab))) (be_val (take n (drop (2 + n) slab)))
      (be_val (take 2 (drop (2 + n + n) slab))) (be_val (take 2 (drop (4 + n + n) slab))).
Proof.
  intros Hlen. unfold addrs_enc.
  rewrite !be_bytes_take by (rewrite ?length_drop; lia).
  rewrite (take_ge (drop (4 + n + n) slab)) by (rewrite length_drop; lia).
  replace (4 + n + n)%nat with (2 + n + n + 2)%nat by lia.
  rewrite <-(drop_drop slab 2 (2 + n + n)), take_drop.
  rewrite <-(drop_drop slab n (2 + n)), take_drop.
  by rewrite <-(drop_drop slab n 2), take_drop, take_drop.
Qed.

(** What the parser returns for each of the two families. *)
Lemma parse_family header n len slab rest h rest' :
  length slab = (6 + n + n)%nat →
  parse_slab header (b ← read_exact n; mret (be_val b)) len slab rest = Ok (Some (h, rest')) →
  ∃ ci pi cp pp, h = header ci pi cp pp ∧ rest' = rest ∧
    slab = be_bytes 2 len ++ addrs_enc n ci pi cp pp ∧
    uint (8 * Z.of_nat n) ci ∧ uint (8 * Z.of_nat n) pi ∧ uint 16 cp ∧ uint 16 pp.
Proof.
  intros Hlen Hp. rewrite parse_slab_spec in Hp by done. case_decide as Hl; [done|].
  injection Hp as <- <-. pose proof (slab_split n slab Hlen) as Hs. rewrite Hl in Hs.
  eexists _, _, _, _. split_and!; [done | done | exact Hs | | | |];
    try (apply be_val_take_uint; rewrite length_drop; lia);
    apply (be_val_take_uint 2); rewrite length_drop; lia.
Qed.

Lemma parse_enc h rest :
  header_wf h → parse_v2_udp (v2_enc true h ++ rest) = Ok (Some (h, rest)).
Proof.
  intros Hwf. unfold v2_enc, parse_v2_udp. rewrite <-app_assoc.
  rewrite reads_exact by done. rewrite decide_False by (intros Hne; by apply Hne).
  destruct h as [ci pi cp pp|ci pi cp pp]; cbn in Hwf; destruct_and!; rewrite <-!app_assoc;
    (rewrite reads_bo_read by done); rewrite ?decide_False, ?decide_True by done;
    unfold addrs_enc; rewrite !app_assoc;
    (rewrite reads_exact by (by rewrite !length_app, !length_be_bytes)); rewrite <-!app_assoc;
    unfold parse_slab; (rewrite reads_bo_read by done);
    rewrite decide_False by (intros Hne; by apply Hne).
  - unfold read_ip4, mbind, R_bind.
    do 2 (rewrite (reads_exact (be_bytes 4 _)) by (by rewrite length_be_bytes); cbn [mret R_ret]).
    unfold mret, R_ret.
    rewrite reads_bo_read, <-(app_nil_r (be_bytes 2 pp)), reads_bo_read by done.
    by rewrite !be_val_be_bytes.
  - unfold read_ip6, mbind, R_bind.
    do 2 (rewrite (reads_exact (be_bytes 16 _)) by (by rewrite length_be_bytes); cbn [mret R_ret]).
    unfold mret, R_ret.
    rewrite reads_bo_read, <-(app_nil_r (be_bytes 2 pp)), reads_bo_read by done.
    by rewrite !be_val_be_bytes.
Qed.

Lemma read_exact_inv n bs : 
  (∃ a rest, read_exact n bs = Ok (a, rest) ∧ bs = a ++ rest ∧ length a = n) ∨
  (∃ e, read_exact n bs = Err e).
Proof.
  unfold read_exact. case_decide; [left | right; by eexists].
  eexists _, _. split_and!; [done | by rewrite take_drop | by apply length_take_le].
Qed.

Lemma bo_read1_inv bs :
  (∃ v rest, bo_read 1 bs = Ok (v, rest) ∧ bs = be_bytes 1 v ++ rest) ∨
  (∃ e, bo_read 1 bs = Err e).
Proof.
  destruct (decide (1 ≤ length bs)%nat); [left | right].
  - rewrite bo_read_enough by done. eexists _, _. split; [done|].
    by rewrite be_bytes_take, take_drop.
  - rewrite bo_read_short by lia. by eexists.
Qed.

Lemma parse_total bs : ∃ o, parse_v2_udp bs = Ok o.
Proof.
  unfold parse_v2_udp.
  destruct (read_exact_inv 13 bs) as [(hd & b1 & Hr & -> & Hlen)|[e Hr]];
    change (length PROXY_PROTOCOL_V2_HEADER) with 13%nat; rewrite Hr; [|by eexists].
  case_decide; [by eexists|].
  destruct (bo_read1_inv b1) as [(v & b2 & Hv & ->)|[e Hv]]; rewrite Hv; [|by eexists].
  case_decide; [|case_decide; [|by eexists]].
  - destruct (read_exact_inv 14 b2) as [(slab & b3 & -> & -> & Hs)|[e ->]]; [|by eexists].
    unfold read_ip4. rewrite parse_slab_spec by done. case_decide; by eexists.
  - destruct (read_exact_inv 38 b2) as [(slab & b3 & -> & -> & Hs)|[e ->]]; [|by eexists].
    unfold read_ip6. rewrite parse_slab_spec by done. case_decide; by eexists.
Qed.

Lemma parse_inv bs h rest :
  parse_v2_udp bs = Ok (Some (h, rest)) → header_wf h ∧ bs = v2_enc true h ++ rest.
Proof.
  unfold parse_v2_udp.
  destruct (read_exact_inv 13 bs) as [(hd & b1 & Hr & -> & Hlen)|[e Hr]];
    change (length PROXY_PROTOCOL_V2_HEADER) with 13%nat; rewrite Hr; [|done].
  case_decide as Hhd; [done|]. subst hd.
  destruct (bo_read1_inv b1) as [(v & b2 & Hv & ->)|[e Hv]]; rewrite Hv; [|done].
  case_decide as Ht; [subst v|case_decide as Ht'; [subst v|done]].
  - destruct (read_exact_inv 14 b2) as [(slab & b3 & -> & -> & Hs)|[e ->]]; [|done].
    intros Hp. unfold read_ip4 in Hp.
    apply (parse_family _ 4) in Hp as (ci & pi & cp & pp & -> & -> & -> & ? & ? & ? & ?); [|done].
    split; [done|]. unfold v2_enc. by rewrite <-!app_assoc.
  - destruct (read_exact_inv 38 b2) as [(slab & b3 & -> & -> & Hs)|[e ->]]; [|done].
    intros Hp. unfold read_ip6 in Hp.
    apply (parse_family _ 16) in Hp as (ci & pi & cp & pp & -> & -> & -> & ? & ? & ? & ?); [|done].
    split; [done|]. unfold v2_enc. by rewrite <-!app_assoc.
Qed.

(** PROXY protocol version 2 over UDP. The parser is exactly the inverse
    of the writer: it accepts an input if and only if it starts with the
    header written for some addresses, returns these addresses and leaves
    the rest, and answers every other input without panicking. The header
    is 28 bytes for IPv4 and 52 for IPv6, and a datagram's header names its
    source as the client. *)
Theorem proxy_v2_udp_inverse (bs rest : list byte) (h : ProxyProtocolHeader) (f : UdpFlow) :
  (parse_v2_udp bs = Ok (Some (h, rest)) ↔
     header_wf h ∧ ∃ enc, (∀ data, write_v2_udp h (Sink data None) = (Ok (), Sink (data ++ enc) None)) ∧
                          bs = enc ++ rest) ∧
  (∃ o, parse_v2_udp bs = Ok o) ∧
  length (v2_enc true h) = (if h is AfInet _ _ _ _ then 28 else 52)%nat ∧
  (flow_wf f → header_wf (ProxyProtocolHeader_from_udp_flow f)) ∧
  UdpFlow_src f = match ProxyProtocolHeader_from_udp_flow f with
                  | AfInet ci _ cp _ => SaV4 (SockV4 ci cp)
                  | AfInet6 ci _ cp _ => SaV6 (SockV6 ci cp 0 0)
                  end.
Proof.
  split_and!.
  - split.
    + intros Hp. apply parse_inv in Hp as [Hwf ->]. split; [done|]. exists (v2_enc true h).
      split; [|done]. intros data. apply emits_vec, emits_v2_udp.
    + intros (Hwf & enc & Henc & ->).
      specialize (Henc []). rewrite (emits_vec _ _ _ _ (emits_v2_udp h)) in Henc.
      injection Henc as <-. by apply parse_enc.
  - apply parse_total.
  - rewrite length_v2_enc. by destruct h.
  - destruct f as [[] [] ? ?|[] [] ?]; cbn; unfold SocketAddrV4_wf; cbn; tauto.
  - by destruct f as [[] [] ? ?|[] [] ?].
Qed.
End facts.

Lemma proxy_v2_udp_inverse_witness :
  parse_v2_udp (BO := big_endian) (v2_enc true (AfInet 0x7b2d0c22 0x05060708 421 662)) =
  Ok (Some (AfInet 0x7b2d0c22 0x05060708 421 662, [])).
Proof.
  apply (proxy_v2_udp_inverse (BO := big_endian) (BOL := big_endian_laws) _ _ _ sample_flow).
  split; [decide_now|]. eexists. split; [|by rewrite app_nil_r].
  intros data. apply emits_vec, emits_v2_udp.
Defined.

(** The text form, on addresses that exercise the compression of zeros. *)
Example proxy_v1_text_v4 :
  ProxyProtocolHeader_to_string (AfInet 0x7b2d0c22 0x05060708 421 65535) =
  ("PROXY TCP4 123.45.12.34 5.6.7.8 421 65535" +:+ crlf)%string.
Proof. vm_compute. reflexivity. Qed.

Example proxy_v1_text_v6 :
  ProxyProtocolHeader_to_string
    (AfInet6 0x20010db8000000000001000000000001 0xffff01020304 100 999) =
  ("PROXY TCP6 2001:db8::1:0:0:1 ::ffff:1.2.3.4 100 999" +:+ crlf)%string.
Proof. vm_compute. reflexivity. Qed.
