(* ===== verification/Packets.v ===== *)
(** * The packet pool (agent_core/src/network/udp/packets.rs)

    One buffer cut into packets of 2048 bytes, a queue of free packets and a
    queue of wakers, shared by all tasks without a lock. The operations are
    given as their atomic queue accesses, so that they can be interleaved. *)

From S2P Require Import Prelude Bytes.

(** ** crossbeam's [ArrayQueue] *)

Class ArrayQueueLib : Type := {
  aqueue : Type → Type;
  aq_new : ∀ {T}, nat → aqueue T;
  (** [None] when the queue is full *)
  aq_push : ∀ {T}, aqueue T → T → option (aqueue T);
  aq_pop : ∀ {T}, aqueue T → option (T * aqueue T);
  (** capacity and contents, front first *)
  aq_capacity : ∀ {T}, aqueue T → nat;
  aq_items : ∀ {T}, aqueue T → list T;
}.

(** A bounded first-in-first-out queue. *)
Class ArrayQueueLaws {AQ : ArrayQueueLib} : Prop := {
  aq_new_spec {T} n : aq_items (@aq_new AQ T n) = [] ∧ aq_capacity (@aq_new AQ T n) = n;
  aq_push_spec {T} (q : aqueue T) x :
    match aq_push q x with
    | Some q' => (length (aq_items q) < aq_capacity q)%nat ∧ aq_items q' = aq_items q ++ [x] ∧
                 aq_capacity q' = aq_capacity q
    | None => (aq_capacity q ≤ length (aq_items q))%nat
    end;
  aq_pop_spec {T} (q : aqueue T) :
    match aq_pop q with
    | Some (x, q') => aq_items q = x :: aq_items q' ∧ aq_capacity q' = aq_capacity q
    | None => aq_items q = []
    end;
}.

Arguments ArrayQueueLaws : clear implicits.

(** ** The pool *)

Definition PACKET_LEN : nat := 2048.

(** Tasks are named by numbers; a [Waker] names the task it wakes. *)
Definition task_id : Type := nat.

Section pool.
Context {AQ : ArrayQueueLib}.

Record PacketsInner : Type := {
  buffer : list byte;
  packet_count : nat;
  free_packets : aqueue nat;
  waiting : aqueue task_id;
}.

(** A packet is an offset into the buffer and a length. *)
Record Packet : Type := { ptr : nat; len : nat }.

Definition with_free (p : PacketsInner) (q : aqueue nat) : PacketsInner :=
  {| buffer := buffer p; packet_count := packet_count p; free_packets := q;
     waiting := waiting p |}.

Definition with_waiting (p : PacketsInner) (q : aqueue task_id) : PacketsInner :=
  {| buffer := buffer p; packet_count := packet_count p; free_packets := free_packets p;
     waiting := q |}.

Definition next_power_of_two (n : nat) : nat :=
  if decide (n ≤ 1)%nat then 1%nat else (2 ^ Nat.log2_up n)%nat.

(** The loop that fills the queue; each [push] is unwrapped. *)
Fixpoint push_all (q : aqueue nat) (ptrs : list nat) : outcome io_error (aqueue nat) :=
  match ptrs with
  | [] => Ok q
  | p :: ptrs => q ← unwrap (aq_push q p); push_all q ptrs
  end.

Definition packet_ptrs (count : nat) : list nat := (λ i, i * PACKET_LEN)%nat <$> seq 0 count.

(** The sizes are those that fit into [usize]; the agent makes pools of 8192. *)
Definition Packets_new (packet_count : nat) : outcome io_error PacketsInner :=
  let packet_count := next_power_of_two packet_count in
  let bytes := (packet_count * PACKET_LEN)%nat in
  free ← push_all (aq_new packet_count) (packet_ptrs packet_count);
  Ok {| buffer := replicate bytes Byte.x00; packet_count := packet_count; free_packets := free;
        waiting := aq_new 1024 |}.

(** [allocate], and the first access of a poll of [allocate_wait]. *)
Definition Packets_allocate (p : PacketsInner) : option (Packet * PacketsInner) :=
  match aq_pop (free_packets p) with
  | Some (ptr, q) => Some ({| ptr := ptr; len := PACKET_LEN |}, with_free p q)
  | None => None
  end.

(** The second access of a poll: register the waker; when the queue is full
    the waker is woken at once ([true]). *)
Definition poll_register (p : PacketsInner) (waker : task_id) : bool * PacketsInner :=
  match aq_push (waiting p) waker with
  | Some q => (false, with_waiting p q)
  | None => (true, p)
  end.

(** [Drop]: give the packet back, then wake one waiting task. *)
Definition drop_push (p : PacketsInner) (ptr : nat) : outcome io_error PacketsInner :=
  q ← unwrap (aq_push (free_packets p) ptr);
  Ok (with_free p q).

Definition drop_wake (p : PacketsInner) : option task_id * PacketsInner :=
  match aq_pop (waiting p) with
  | Some (waker, q) => (Some waker, with_waiting p q)
  | None => (None, p)
  end.

(** [as_ref], [full_slice], a write through [as_mut] or [full_slice_mut], and
    [set_len]. *)
Definition Packet_as_ref (p : PacketsInner) (k : Packet) : list byte :=
  take (len k) (drop (ptr k) (buffer p)).

Definition Packet_full_slice (p : PacketsInner) (k : Packet) : list byte :=
  take PACKET_LEN (drop (ptr k) (buffer p)).

Definition Packet_write (p : PacketsInner) (k : Packet) (data : list byte) : PacketsInner :=
  {| buffer := take (ptr k) (buffer p) ++ take PACKET_LEN data ++
               drop (ptr k + Nat.min PACKET_LEN (length data)) (buffer p);
     packet_count := packet_count p; free_packets := free_packets p; waiting := waiting p |}.

Definition Packet_set_len (k : Packet) (n : nat) : outcome io_error Packet :=
  if decide (PACKET_LEN < n)%nat then Err (IoError InvalidInput "packet len too large")
  else Ok {| ptr := ptr k; len := n |}.

(** ** A packet as its owner sees it

    Since live packets never overlap (below), the components that own a
    packet can treat it as its 2048 bytes and its length. *)

Record OwnedPacket : Type := { pk_full : list byte; pk_len : nat }.

Definition owned (p : PacketsInner) (k : Packet) : OwnedPacket :=
  {| pk_full := Packet_full_slice p k; pk_len := len k |}.

Definition pk_bytes (k : OwnedPacket) : list byte := take (pk_len k) (pk_full k).

Definition pk_set_len (k : OwnedPacket) (n : nat) : outcome io_error OwnedPacket :=
  if decide (PACKET_LEN < n)%nat then Err (IoError InvalidInput "packet len too large")
  else Ok {| pk_full := pk_full k; pk_len := n |}.

Definition pk_wf (k : OwnedPacket) : Prop :=
  length (pk_full k) = PACKET_LEN ∧ (pk_len k ≤ PACKET_LEN)%nat.

(** ** All interleavings

    A poller is ready to run, has found no packet and is about to register,
    or is parked; a wake-up makes a parked task ready. A dropped packet is
    in the queue before its waker is taken. *)

Inductive task_state : Type := Ready | Checked | Parked.

Record world : Type := {
  inner : PacketsInner;
  live : list nat;
  tasks : gmap task_id task_state;
  woken : gset task_id;
  pending_wakes : nat;
}.

Definition start (p : PacketsInner) : world :=
  {| inner := p; live := []; tasks := ∅; woken := ∅; pending_wakes := 0 |}.

Inductive step : world → world → Prop :=
  | step_spawn w t :
      tasks w !! t = None →
      step w {| inner := inner w; live := live w; tasks := <[t := Ready]> (tasks w);
                woken := woken w; pending_wakes := pending_wakes w |}
  | step_poll_take w t k p :
      tasks w !! t = Some Ready → Packets_allocate (inner w) = Some (k, p) →
      step w {| inner := p; live := ptr k :: live w; tasks := delete t (tasks w);
                woken := woken w; pending_wakes := pending_wakes w |}
  | step_poll_empty w t :
      tasks w !! t = Some Ready → Packets_allocate (inner w) = None →
      step w {| inner := inner w; live := live w; tasks := <[t := Checked]> (tasks w);
                woken := woken w; pending_wakes := pending_wakes w |}
  | step_register w t b p :
      tasks w !! t = Some Checked → poll_register (inner w) t = (b, p) →
      step w {| inner := p; live := live w; tasks := <[t := Parked]> (tasks w);
                woken := (if b then {[t]} else ∅) ∪ woken w; pending_wakes := pending_wakes w |}
  | step_run w t :
      tasks w !! t = Some Parked → t ∈ woken w →
      step w {| inner := inner w; live := live w; tasks := <[t := Ready]> (tasks w);
                woken := woken w ∖ {[t]}; pending_wakes := pending_wakes w |}
  | step_cancel w t :
      step w {| inner := inner w; live := live w; tasks := delete t (tasks w);
                woken := woken w; pending_wakes := pending_wakes w |}
  | step_drop w l1 q l2 p :
      live w = l1 ++ q :: l2 → drop_push (inner w) q = Ok p →
      step w {| inner := p; live := l1 ++ l2; tasks := tasks w; woken := woken w;
                pending_wakes := S (pending_wakes w) |}
  | step_wake w o p :
      pending_wakes w ≠ 0%nat → drop_wake (inner w) = (o, p) →
      step w {| inner := p; live := live w; tasks := tasks w;
                woken := (match o with Some t => {[t]} | None => ∅ end) ∪ woken w;
                pending_wakes := pred (pending_wakes w) |}
  | step_write w l1 q l2 data :
      live w = l1 ++ q :: l2 →
      step w {| inner := Packet_write (inner w) {| ptr := q; len := PACKET_LEN |} data;
                live := live w; tasks := tasks w; woken := woken w;
                pending_wakes := pending_wakes w |}.

(** Worlds that some interleaving of tasks leads to. *)
Inductive reachable (n : nat) : world → Prop :=
  | reach_start p : Packets_new n = Ok p → reachable n (start p)
  | reach_step w w' : reachable n w → step w w' → reachable n w'.
End pool.

(** ** Safety *)

Section facts.
Context {AQ : ArrayQueueLib} {AQL : ArrayQueueLaws AQ}.

(** Free and live packets together are exactly the packets of the pool. *)
Record pool_inv (w : world) : Prop := {
  inv_ptrs : live w ++ aq_items (free_packets (inner w)) ≡ₚ packet_ptrs (packet_count (inner w));
  inv_capacity : aq_capacity (free_packets (inner w)) = packet_count (inner w);
  inv_buffer : length (buffer (inner w)) = (packet_count (inner w) * PACKET_LEN)%nat;
}.

Lemma length_packet_ptrs n : length (packet_ptrs n) = n.
Proof. unfold packet_ptrs. by rewrite length_fmap, length_seq. Qed.

Lemma NoDup_packet_ptrs n : NoDup (packet_ptrs n).
Proof. unfold packet_ptrs. apply NoDup_fmap_2, NoDup_seq. intros a b. unfold PACKET_LEN. lia. Qed.

Lemma elem_of_packet_ptrs n p :
  p ∈ packet_ptrs n ↔ ∃ i, (i < n)%nat ∧ p = (i * PACKET_LEN)%nat.
Proof.
  unfold packet_ptrs. rewrite list_elem_of_fmap. setoid_rewrite elem_of_seq. naive_solver lia.
Qed.

Lemma push_all_spec (q : aqueue nat) ptrs :
  (length (aq_items q) + length ptrs ≤ aq_capacity q)%nat →
  ∃ q', push_all q ptrs = Ok q' ∧ aq_items q' = aq_items q ++ ptrs ∧
        aq_capacity q' = aq_capacity q.
Proof.
  revert q. induction ptrs as [|x ptrs IH]; intros q Hlen; cbn in *.
  - exists q. by rewrite app_nil_r.
  - pose proof (aq_push_spec q x) as Hp. destruct (aq_push q x) as [q'|]; [|lia].
    destruct Hp as (_ & Hi & Hc). cbn.
    destruct (IH q') as (q'' & -> & Hi' & Hc'); [rewrite Hi, Hc, length_app; cbn; lia|].
    exists q''. split_and!; [done | by rewrite Hi', Hi, <-app_assoc | lia].
Qed.

Lemma Packets_new_spec n :
  ∃ p, Packets_new n = Ok p ∧ pool_inv (start p) ∧ packet_count p = next_power_of_two n ∧
       waiting p = aq_new 1024.
Proof.
  unfold Packets_new. destruct (aq_new_spec (T := nat) (next_power_of_two n)) as [Hi Hc].
  destruct (push_all_spec (aq_new (next_power_of_two n)) (packet_ptrs (next_power_of_two n)))
    as (q & -> & Hq & Hqc); [rewrite Hi, Hc, length_packet_ptrs; cbn; lia|].
  eexists. split_and!; [done | | done | done].
  split; cbn; [by rewrite Hq, Hi | by rewrite Hqc | by rewrite length_replicate].
Qed.

Lemma allocate_spec p k p' :
  Packets_allocate p = Some (k, p') →
  aq_items (free_packets p) = ptr k :: aq_items (free_packets p') ∧
  aq_capacity (free_packets p') = aq_capacity (free_packets p) ∧
  packet_count p' = packet_count p ∧ buffer p' = buffer p ∧ len k = PACKET_LEN.
Proof.
  unfold Packets_allocate. pose proof (aq_pop_spec (free_packets p)) as Hp.
  destruct (aq_pop _) as [[x q]|]; [|done]. intros [= <- <-]. cbn. naive_solver.
Qed.

(** A live packet can always be given back. *)
Lemma drop_push_ok w q :
  pool_inv w → q ∈ live w →
  ∃ p, drop_push (inner w) q = Ok p ∧
    aq_items (free_packets p) = aq_items (free_packets (inner w)) ++ [q] ∧
    aq_capacity (free_packets p) = aq_capacity (free_packets (inner w)) ∧
    packet_count p = packet_count (inner w) ∧ buffer p = buffer (inner w).
Proof.
  intros Hi Hq. unfold drop_push. pose proof (aq_push_spec (free_packets (inner w)) q) as Hp.
  destruct (aq_push _ q) as [q'|]; cbn.
  - eexists. split; [done|]. naive_solver.
  - pose proof (Permutation_length (inv_ptrs w Hi)) as Hlen.
    rewrite length_app, length_packet_ptrs in Hlen. rewrite (inv_capacity w Hi) in Hp.
    apply list_elem_of_split in Hq as (l1 & l2 & Hl). rewrite Hl, length_app in Hlen.
    cbn in Hlen. lia.
Qed.

Lemma length_Packet_write w k data :
  pool_inv w → ptr k ∈ live w →
  length (buffer (Packet_write (inner w) k data)) = length (buffer (inner w)).
Proof.
  intros Hi Hk. assert (ptr k ∈ packet_ptrs (packet_count (inner w))) as Hp
    by (rewrite <-(inv_ptrs w Hi); set_solver).
  apply elem_of_packet_ptrs in Hp as (i & Hlt & Hp). unfold Packet_write. cbn [buffer].
  assert (ptr k + PACKET_LEN ≤ length (buffer (inner w)))%nat
    by (rewrite (inv_buffer w Hi), Hp; nia).
  rewrite !length_app, length_drop, !length_take. lia.
Qed.

Lemma step_inv w w' : step w w' → pool_inv w → pool_inv w'.
Proof.
  intros Hs Hi. pose proof Hi as [Hp Hc Hb].
  destruct Hs as [w t Ht|w t k p Ht Ha|w t Ht Ha|w t b p Ht Hr|w t Ht Hw|w t|w l1 q l2 p Hl Hd
    |w o p Hn Hw|w l1 q l2 data Hl]; cbn in *; try done.
  - apply allocate_spec in Ha as (Hf & Hc' & Hn & Hb' & _).
    split; cbn; [|congruence..]. rewrite Hn, <-Hp, Hf.
    rewrite (Permutation_middle (live w) _ (ptr k)). done.
  - unfold poll_register in Hr. destruct (aq_push _ t); simplify_eq; done.
  - destruct (drop_push_ok w q Hi) as (p' & Hd' & Hf & Hc' & Hn & Hb'); [rewrite Hl; apply elem_of_app; right; apply list_elem_of_here|].
    rewrite Hd in Hd'. simplify_eq. split; cbn; [|congruence..].
    rewrite Hn, <-Hp, Hf, Hl, <-!app_assoc. cbn.
    by rewrite (app_assoc l2), <-Permutation_cons_append, Permutation_middle.
  - unfold drop_wake in Hw. destruct (aq_pop (waiting (inner w))) as [[t q]|]; simplify_eq; done.
  - split; cbn; [done..|]. rewrite <-Hb.
    apply (length_Packet_write w {| ptr := q; len := PACKET_LEN |}); [done|].
    rewrite Hl. apply elem_of_app. right. apply list_elem_of_here.
Qed.

Lemma step_count w w' : step w w' → packet_count (inner w') = packet_count (inner w).
Proof.
  intros Hs. destruct Hs; cbn; try done.
  - by apply allocate_spec in H0 as (_ & _ & -> & _).
  - unfold poll_register in H0. destruct (aq_push _ t); by simplify_eq.
  - unfold drop_push in H0. destruct (aq_push _ q); [|done]. cbn in H0. by simplify_eq.
  - unfold drop_wake in H0. destruct (aq_pop _) as [[]|]; by simplify_eq.
Qed.

Lemma reachable_inv n w : reachable n w → pool_inv w.
Proof.
  induction 1 as [p Hp|w w' _ IH Hs].
  - destruct (Packets_new_spec n) as (p' & Hp' & Hi & _).
    rewrite Hp in Hp'. by injection Hp' as <-.
  - by eapply step_inv.
Qed.

Lemma next_power_of_two_spec n :
  (n ≤ next_power_of_two n ∧ 1 ≤ next_power_of_two n)%nat ∧
  (1 < n → next_power_of_two n < 2 * n)%nat ∧ ∃ k, next_power_of_two n = (2 ^ k)%nat.
Proof.
  unfold next_power_of_two. case_decide.
  - split_and!; [lia | lia | lia | by exists 0%nat].
  - pose proof (Nat.log2_up_spec n ltac:(lia)) as [Hlo Hhi].
    assert (0 < Nat.log2_up n)%nat by (apply Nat.log2_up_pos; lia).
    destruct (Nat.log2_up n) as [|k] eqn:Hk; [lia|]. cbn [pred] in Hlo.
    rewrite Nat.pow_succ_r' in *. split_and!; [lia | lia | lia |]. by exists (S k).
Qed.

(** Different packets of the pool do not overlap. *)
Lemma packet_ptrs_disjoint n p q :
  p ∈ packet_ptrs n → q ∈ packet_ptrs n → p ≠ q → (p + PACKET_LEN ≤ q ∨ q + PACKET_LEN ≤ p)%nat.
Proof.
  rewrite !elem_of_packet_ptrs. intros (i & _ & ->) (j & _ & ->) Hne.
  unfold PACKET_LEN in *. destruct (decide (i < j)%nat); lia.
Qed.

Lemma packet_ptrs_bound n p : p ∈ packet_ptrs n → (p + PACKET_LEN ≤ n * PACKET_LEN)%nat.
Proof. rewrite elem_of_packet_ptrs. intros (i & ? & ->). nia. Qed.

(** A write stays inside its packet. *)
Lemma Packet_write_frame w k q data :
  (ptr k + PACKET_LEN ≤ length (buffer (inner w)))%nat →
  (ptr k + PACKET_LEN ≤ ptr q ∨ ptr q + PACKET_LEN ≤ ptr k)%nat →
  Packet_full_slice (Packet_write (inner w) k data) q = Packet_full_slice (inner w) q.
Proof.
  intros Hk Hd. unfold Packet_full_slice, Packet_write. cbn [buffer].
  set (b := buffer (inner w)) in *. set (d := take PACKET_LEN data).
  assert (length d = Nat.min PACKET_LEN (length data)) as Hdl by apply length_take.
  rewrite <-Hdl. assert (length d ≤ PACKET_LEN)%nat by lia.
  apply list_eq. intros i. destruct (decide (i < PACKET_LEN)%nat) as [Hi|Hi];
    [|by rewrite !lookup_take_ge by lia].
  rewrite !lookup_take_lt, !lookup_drop by done. destruct Hd as [Hd|Hd].
  - rewrite lookup_app_r by (rewrite length_take; lia).
    rewrite lookup_app_r by (rewrite length_take; lia). rewrite lookup_drop, length_take.
    f_equal. lia.
  - rewrite lookup_app_l by (rewrite length_take; lia). by rewrite lookup_take_lt by lia.
Qed.

(** C34: Safety of the pool under every interleaving of pollers, drops, wakes
    and writes. No packet is handed out twice, every live packet lies inside
    the buffer, a write to one leaves the bytes of the others alone, none is
    lost, and giving a packet back never finds the queue full, so the
    [expect] in [Drop] cannot fail. *)
Theorem packet_pool_safe (n : nat) (w : world) :
  reachable n w →
  NoDup (live w) ∧
  (length (live w) + length (aq_items (free_packets (inner w))) = next_power_of_two n)%nat ∧
  (∀ q, q ∈ live w →
     (q + PACKET_LEN ≤ length (buffer (inner w)))%nat ∧ drop_push (inner w) q ≠ Panic) ∧
  (∀ q1 q2 data, q1 ∈ live w → q2 ∈ live w → q1 ≠ q2 →
     let k1 := {| ptr := q1; len := PACKET_LEN |} in
     let k2 := {| ptr := q2; len := PACKET_LEN |} in
     Packet_full_slice (Packet_write (inner w) k1 data) k2 = Packet_full_slice (inner w) k2).
Proof.
  intros Hr. assert (packet_count (inner w) = next_power_of_two n) as Hcount.
  { induction Hr as [p Hp|w w' _ IH Hs].
    - destruct (Packets_new_spec n) as (p' & Hp' & _ & Hn & _). rewrite Hp in Hp'.
      by injection Hp' as <-.
    - rewrite <-IH. by apply step_count. }
  apply reachable_inv in Hr as Hi. pose proof Hi as [Hp Hc Hb].
  assert (∀ q, q ∈ live w → q ∈ packet_ptrs (packet_count (inner w))) as Hin
    by (intros q Hq; rewrite <-Hp; apply elem_of_app; by left).
  split_and!.
  - apply (NoDup_app (live w) (aq_items (free_packets (inner w)))). rewrite Hp.
    apply NoDup_packet_ptrs.
  - rewrite <-length_app, (Permutation_length Hp), length_packet_ptrs. done.
  - intros q Hq. split; [rewrite Hb; by apply packet_ptrs_bound, Hin|].
    destruct (drop_push_ok w q Hi Hq) as (p & -> & _). done.
  - intros q1 q2 data H1 H2 Hne k1 k2. apply Packet_write_frame; cbn [ptr].
    + rewrite Hb. by apply packet_ptrs_bound, Hin.
    + by eapply packet_ptrs_disjoint; [apply Hin | apply Hin|].
Qed.

(** The owner's view is what the pointer shows. *)
Lemma owned_as_ref p k :
  (len k ≤ PACKET_LEN)%nat → pk_bytes (owned p k) = Packet_as_ref p k.
Proof.
  intros Hlen. unfold pk_bytes, owned, Packet_as_ref, Packet_full_slice. cbn [pk_full pk_len].
  rewrite take_take. by rewrite Nat.min_l by lia.
Qed.

Lemma allocate_None p : aq_items (free_packets p) = [] → Packets_allocate p = None.
Proof.
  intros Hf. unfold Packets_allocate. pose proof (aq_pop_spec (free_packets p)) as Hp.
  destruct (aq_pop _) as [[x q]|]; [|done]. rewrite Hf in Hp. by destruct Hp.
Qed.

Lemma allocate_Some p x l :
  aq_items (free_packets p) = x :: l →
  ∃ p', Packets_allocate p = Some ({| ptr := x; len := PACKET_LEN |}, p') ∧
    aq_items (free_packets p') = l ∧ waiting p' = waiting p.
Proof.
  intros Hf. unfold Packets_allocate. pose proof (aq_pop_spec (free_packets p)) as Hp.
  destruct (aq_pop _) as [[y q]|]; [|by rewrite Hf in Hp].
  destruct Hp as [Hp _]. rewrite Hf in Hp. simplify_eq. by eexists.
Qed.

(** The pool can lose a wake-up. A task that found the pool empty
    registers its waker only afterwards; when the last packet is given back
    in between, nobody is woken, and the task is parked beside a free packet
    with no wake-up on its way. *)
Theorem packet_pool_lost_wakeup :
  ∃ (w : world) (t : task_id),
    reachable 1 w ∧ tasks w !! t = Some Parked ∧ (t ∉ woken w) ∧ pending_wakes w = 0%nat ∧
    live w = [] ∧ aq_items (free_packets (inner w)) ≠ [].
Proof.
  destruct (Packets_new_spec 1) as (p0 & Hnew & Hi0 & Hn & Hw0).
  pose proof (inv_ptrs _ Hi0) as Hfree. cbn [live inner start app] in Hfree.
  rewrite Hn in Hfree. apply Permutation_singleton_r in Hfree.
  destruct (allocate_Some p0 0 [] Hfree) as (p1 & Ha & Hf1 & Hw1).
  assert (aq_items (waiting p1) = [] ∧ aq_capacity (waiting p1) = 1024%nat) as [Hwi Hwc]
    by (rewrite Hw1, Hw0; apply aq_new_spec).
  set (w1 := {| inner := p1; live := [0%nat]; tasks := <[1%nat := Checked]> ∅;
                woken := ∅; pending_wakes := 0 |}).
  assert (reachable 1 w1) as Hr1.
  { eapply reach_step; [eapply reach_step; [eapply reach_step; [eapply reach_step;
      [by apply (reach_start 1 p0) | by apply (step_spawn _ 0%nat)] |
       by eapply (step_poll_take _ 0%nat); [|exact Ha]; apply lookup_insert_eq] |
       by apply (step_spawn _ 1%nat)] |].
    match goal with |- step ?w _ => replace w1 with (
      {| inner := inner w; live := live w; tasks := <[1%nat := Checked]> (tasks w);
         woken := woken w; pending_wakes := pending_wakes w |}) end.
    - apply step_poll_empty; [apply lookup_insert_eq | by apply allocate_None].
    - unfold w1. cbn. f_equal. }
  destruct (drop_push_ok w1 0) as (p2 & Hd & Hf2 & _);
    [by eapply reachable_inv | by apply list_elem_of_here|].
  assert (waiting p2 = waiting p1) as Hw2.
  { unfold drop_push in Hd. destruct (aq_push _ 0%nat); [|done]. cbn in Hd. by simplify_eq. }
  assert (drop_wake p2 = (None, p2)) as Hwake.
  { unfold drop_wake. pose proof (aq_pop_spec (waiting p2)) as Hp. rewrite Hw2, Hwi in *.
    destruct (aq_pop (waiting p1)) as [[t q]|]; [by destruct Hp | done]. }
  destruct (poll_register p2 1%nat) as [b p3] eqn:Hreg.
  assert (b = false ∧ free_packets p3 = free_packets p2) as [-> Hf3].
  { unfold poll_register in Hreg. pose proof (aq_push_spec (waiting p2) 1%nat) as Hp.
    rewrite Hw2, Hwi, Hwc in *.
    destruct (aq_push (waiting p1) 1%nat); simplify_eq; [done|]. cbn in Hp. lia. }
  eexists _, 1%nat. split.
  - eapply reach_step; [eapply reach_step; [eapply reach_step; [exact Hr1|]|]|].
    + by apply (step_drop w1 [] 0%nat [] p2).
    + by eapply step_wake; [|exact Hwake].
    + by eapply (step_register _ 1%nat); [|exact Hreg].
  - cbn. rewrite Hf3, Hf2. cbn. split_and!; [done | set_solver | done | done |].
    by destruct (aq_items (free_packets p1)).
Qed.
End facts.

(** A reference queue: a list with a capacity. *)
Definition ref_queue : ArrayQueueLib := {|
  aqueue T := (nat * list T)%type;
  aq_new T n := (n, []);
  aq_push T q x := if decide (length q.2 < q.1)%nat then Some (q.1, q.2 ++ [x]) else None;
  aq_pop T q := match q.2 with [] => None | x :: l => Some (x, (q.1, l)) end;
  aq_capacity T q := q.1;
  aq_items T q := q.2;
|}.

Lemma ref_queue_laws : ArrayQueueLaws ref_queue.
Proof.
  split; cbn.
  - done.
  - intros T [c l] x. cbn. case_decide; cbn; [done | lia].
  - intros T [c [|x l]]; done.
Qed.

Lemma packet_pool_safe_witness :
  ∃ p, Packets_new (AQ := ref_queue) 3 = Ok p ∧ NoDup (live (start p)) ∧
    (length (live (start p)) + length (aq_items (free_packets (inner (start p)))) = 4)%nat.
Proof.
  destruct (Packets_new_spec (AQL := ref_queue_laws) 3) as (p & Hp & _).
  exists p. split; [exact Hp|].
  destruct (packet_pool_safe (AQL := ref_queue_laws) 3 (start p)) as (Hn & Hc & _).
  - apply reach_start. exact Hp.
  - split; [exact Hn | exact Hc].
Defined.

Lemma packet_pool_lost_wakeup_witness :
  ∃ (w : world (AQ := ref_queue)) (t : task_id), reachable 1 w ∧ tasks w !! t = Some Parked.
Proof.
  destruct (packet_pool_lost_wakeup (AQL := ref_queue_laws)) as (w & t & Hr & Ht & _).
  exists w, t. split; [exact Hr | exact Ht].
Defined.
