(* ===== verification/UdpClients.v ===== *)
(** * Virtual UDP clients (agent_core/src/network/udp/udp_clients.rs,
      udp_receiver.rs)

    Every remote client of a UDP tunnel has a local socket of its own. The
    table maps (source address, tunnel) to a slot of a slab; a datagram from
    the local service comes back with the client's id, which names the slot
    and the generation of its occupant. *)

From S2P Require Import Prelude Bytes Net UdpProto Utils LanAddress OriginLookup ProxyProtocol.
From S2P Require Import Packets Utils.
From stdpp Require Import sorting.
#[local] Open Scope Z_scope.

(** ** The slab crate *)

Class SlabLib : Type := {
  slab : Type → Type;
  slab_with_capacity : ∀ {T}, Z → slab T;
  slab_get : ∀ {T}, slab T → nat → option T;
  (** the assignment through [get_mut] *)
  slab_set : ∀ {T}, slab T → nat → T → slab T;
  (** panics ([None]) when the slot is vacant *)
  slab_remove : ∀ {T}, slab T → nat → option (T * slab T);
  slab_vacant_key : ∀ {T}, slab T → nat;
  slab_insert : ∀ {T}, slab T → T → slab T;
  slab_iter : ∀ {T}, slab T → list (nat * T);
  slab_len : ∀ {T}, slab T → Z;
}.

(** Documented behaviour of the crate: a store from slots to values, where
    insertion uses the vacant key and iteration visits every occupied slot
    once. *)
Class SlabLaws {SL : SlabLib} : Prop := {
  slab_get_new {T} n i : slab_get (@slab_with_capacity SL T n) i = None;
  slab_len_new {T} n : slab_len (@slab_with_capacity SL T n) = 0;
  slab_get_set {T} (s : slab T) i x j :
    is_Some (slab_get s i) → slab_get (slab_set s i x) j = if decide (j = i) then Some x else slab_get s j;
  slab_vacant {T} (s : slab T) : slab_get s (slab_vacant_key s) = None;
  slab_get_insert {T} (s : slab T) x j :
    slab_get (slab_insert s x) j = if decide (j = slab_vacant_key s) then Some x else slab_get s j;
  slab_remove_spec {T} (s : slab T) i :
    match slab_get s i with
    | Some x => ∃ s', slab_remove s i = Some (x, s') ∧
                  ∀ j, slab_get s' j = if decide (j = i) then None else slab_get s j
    | None => slab_remove s i = None
    end;
  slab_iter_nodup {T} (s : slab T) : NoDup (slab_iter s).*1;
  slab_iter_get {T} (s : slab T) i x : (i, x) ∈ slab_iter s ↔ slab_get s i = Some x;
  slab_len_iter {T} (s : slab T) : slab_len s = Z.of_nat (length (slab_iter s));
}.

Arguments SlabLaws : clear implicits.

(** ** Data *)

Record UdpClientKey : Type := { source_addr : SocketAddr; key_tunnel_id : Z }.

#[global] Instance UdpClientKey_eq_dec : EqDecision UdpClientKey.
Proof. solve_decision. Defined.

#[global] Instance UdpClientKey_countable : Countable UdpClientKey.
Proof.
  refine (inj_countable' (λ k, (source_addr k, key_tunnel_id k))
    (λ p, {| source_addr := p.1; key_tunnel_id := p.2 |}) _).
  by intros [].
Defined.

(** The handle of a receive task: its id and whether it was seen to end. *)
Record UdpReceiver : Type := { rcv_id : Z; rcv_closed : bool }.

Record UdpReceivedPacket : Type := {
  rx_id : Z;
  rx_packet : OwnedPacket;
  rx_from : SocketAddr;
}.

Section udp_clients.
Context {BO : ByteOrder} {SL : SlabLib} {sock : Type}.

Record Client : Type := {
  c_id : Z;
  c_key : UdpClientKey;
  c_socket : sock;
  c_target_addr : SocketAddr;
  c_port_offset : Z;
  c_flow : UdpFlow;
  c_receiver : UdpReceiver;
  c_from_tunnel_ts : Z;
  c_from_origin_ts : Z;
}.

(** What the handlers do besides changing the table: count an error, hand a
    datagram to a socket, start or cancel a receive task. *)
Inductive udp_event : Type :=
  | EvError (e : UdpErrors)
  | EvSend (s : sock) (data : list byte) (dst : SocketAddr)
  | EvSpawn (id : Z)
  | EvCancel (id : Z).

Record UdpClients : Type := {
  u_lookup : OriginLookup;
  virtual_client_lookup : gmap UdpClientKey nat;
  virtual_clients : slab Client;
  next_client_generation : Z;
  u_stats : AgentStats;
  u_events : list udp_event;
}.

(** What the outside decides during a call: whether the task of a receiver
    has ended, whether it ends in time when cancelled, the rate limiter's
    answer, name resolution, binding and sending. *)
Record udp_env : Type := {
  env_ended : Z → bool;
  env_shutdown_in_time : Z → bool;
  env_limiter_ok : bool;
  env_lookup_host : string → Z → option (list SocketAddr);
  env_bind : SocketAddr → outcome io_error sock;
  env_send_ok : list byte → SocketAddr → bool;
}.

(** ** Updates *)

Definition set_client (u : UdpClients) (slot : nat) (c : Client) : UdpClients :=
  {| u_lookup := u_lookup u; virtual_client_lookup := virtual_client_lookup u;
     virtual_clients := slab_set (virtual_clients u) slot c;
     next_client_generation := next_client_generation u; u_stats := u_stats u;
     u_events := u_events u |}.

Definition set_table (u : UdpClients) (l : gmap UdpClientKey nat) (s : slab Client) : UdpClients :=
  {| u_lookup := u_lookup u; virtual_client_lookup := l; virtual_clients := s;
     next_client_generation := next_client_generation u; u_stats := u_stats u;
     u_events := u_events u |}.

Definition set_stats (u : UdpClients) (s : AgentStats) : UdpClients :=
  {| u_lookup := u_lookup u; virtual_client_lookup := virtual_client_lookup u;
     virtual_clients := virtual_clients u; next_client_generation := next_client_generation u;
     u_stats := s; u_events := u_events u |}.

Definition emit_event (u : UdpClients) (e : udp_event) : UdpClients :=
  {| u_lookup := u_lookup u; virtual_client_lookup := virtual_client_lookup u;
     virtual_clients := virtual_clients u; next_client_generation := next_client_generation u;
     u_stats := u_stats u; u_events := u_events u ++ [e] |}.

Definition count_error (u : UdpClients) (e : UdpErrors) : UdpClients := emit_event u (EvError e).

(** [socket.send_to(data, dst).await], counting a failure. *)
Definition send_to (env : udp_env) (u : UdpClients) (s : sock) (data : list byte)
    (dst : SocketAddr) : UdpClients :=
  let u := emit_event u (EvSend s data dst) in
  if env_send_ok env data dst then u else count_error u origin_send_io_error.

(** [self.stats.set_udp(self.virtual_clients.len() as u32)]. *)
Definition report_len (u : UdpClients) : UdpClients :=
  set_stats u (set_udp (u_stats u) (wrap 32 (slab_len (virtual_clients u)))).

Definition set_receiver (c : Client) (r : UdpReceiver) : Client :=
  {| c_id := c_id c; c_key := c_key c; c_socket := c_socket c; c_target_addr := c_target_addr c;
     c_port_offset := c_port_offset c; c_flow := c_flow c; c_receiver := r;
     c_from_tunnel_ts := c_from_tunnel_ts c; c_from_origin_ts := c_from_origin_ts c |}.

(** [receiver.is_closed()]: once seen closed it stays closed. *)
Definition is_closed (env : udp_env) (r : UdpReceiver) : bool * UdpReceiver :=
  let closed := rcv_closed r || env_ended env (rcv_id r) in
  (closed, {| rcv_id := rcv_id r; rcv_closed := closed |}).

(** [receiver.shutdown().await] panics when the task takes over 15 s. *)
Definition shutdown (env : udp_env) (r : UdpReceiver) (u : UdpClients) :
    outcome io_error UdpClients :=
  let u := emit_event u (EvCancel (rcv_id r)) in
  assert (env_shutdown_in_time env (rcv_id r));;
  Ok u.

(** ** Ids *)

Definition pack_client_id (slot generation : Z) : Z := Z.lor (Z.shiftl generation 32) slot.

Definition unpack_slot (id : Z) : nat := Z.to_nat (wrap 32 id).

(** [UdpReceiverSetup::create(id, ..)]. *)
Definition UdpReceiverSetup_create (u : UdpClients) (id : Z) : UdpReceiver * UdpClients :=
  ({| rcv_id := id; rcv_closed := false |}, emit_event u (EvSpawn id)).

(** ** Construction *)

Definition UdpClients_new (lookup : OriginLookup) (stats : AgentStats) : UdpClients :=
  {| u_lookup := lookup; virtual_client_lookup := ∅; virtual_clients := slab_with_capacity 2048;
     next_client_generation := 1; u_stats := stats; u_events := [] |}.

(** [build_quota]: the rate and burst of the limiter, at least one each. *)
Definition build_quota (new_client_ratelimit new_client_ratelimit_burst : Z) : Z * Z :=
  (default 1 (NonZero_new new_client_ratelimit), default 1 (NonZero_new new_client_ratelimit_burst)).

(** ** clear_old *)

(** The condition, with the precedence of [&&] over [||]. *)
Definition should_remove (now_ms : Z) (receiver_closed : bool) (c : Client) : bool :=
  let since_origin := saturating_sub now_ms (c_from_origin_ts c) in
  let since_tunnel := saturating_sub now_ms (c_from_tunnel_ts c) in
  receiver_closed
  || (bool_decide (60000 < since_tunnel) && bool_decide (60000 < since_origin))
  || bool_decide (90000 < since_tunnel)
  || bool_decide (90000 < since_origin).

(** The scan: every receiver is polled, the slots to remove are collected. *)
Definition scan_step (env : udp_env) (now_ms : Z) (st : slab Client * list nat)
    (e : nat * Client) : slab Client * list nat :=
  let '(s, to_remove) := st in
  let '(slot, client) := e in
  let '(closed, receiver) := is_closed env (c_receiver client) in
  (slab_set s slot (set_receiver client receiver),
   if should_remove now_ms closed client then to_remove ++ [slot] else to_remove).

(** One iteration of the removal loop. *)
Definition remove_slot (env : udp_env) (u : UdpClients) (slot : nat) :
    outcome io_error UdpClients :=
  '(client, s) ← unwrap (slab_remove (virtual_clients u) slot);
  removed ← unwrap (virtual_client_lookup u !! c_key client);
  let u := set_table u (delete (c_key client) (virtual_client_lookup u)) s in
  assert (bool_decide (removed = slot));;
  shutdown env (c_receiver client) u.

Fixpoint remove_slots (env : udp_env) (u : UdpClients) (slots : list nat) :
    outcome io_error UdpClients :=
  match slots with
  | [] => Ok u
  | slot :: slots => u ← remove_slot env u slot; remove_slots env u slots
  end.

Definition clear_old (env : udp_env) (u : UdpClients) (now_ms : Z) : outcome io_error UdpClients :=
  let '(s, to_remove) :=
    foldl (scan_step env now_ms) (virtual_clients u, []) (slab_iter (virtual_clients u)) in
  let u := set_table u (virtual_client_lookup u) s in
  u ← remove_slots env u (reverse (merge_sort (≤)%nat to_remove));
  Ok (report_len u).

(** ** dispatch_origin_packet *)

(** Put the port offset back into the client's flow. *)
Definition reply_flow (overflow_checks : bool) (flow : UdpFlow) (port_offset : Z) :
    outcome io_error UdpFlow :=
  match flow with
  | FlowV4 src dst frag (Some ext) =>
      port ← u_add overflow_checks 16 (sa4_port src) port_offset;
      Ok (FlowV4 (SockV4 (sa4_ip src) port) dst frag
            (Some {| ext_client_server_id := ext_client_server_id ext;
                     ext_tunnel_id := ext_tunnel_id ext; ext_port_offset := port_offset |}))
  | FlowV6 src dst (Some ext) =>
      port ← u_add overflow_checks 16 src.2 port_offset;
      Ok (FlowV6 (src.1, port) dst
            (Some {| ext_client_server_id := ext_client_server_id ext;
                     ext_tunnel_id := ext_tunnel_id ext; ext_port_offset := port_offset |}))
  | _ => Panic
  end.

Definition set_origin_ts (c : Client) (now_ms : Z) : Client :=
  {| c_id := c_id c; c_key := c_key c; c_socket := c_socket c; c_target_addr := c_target_addr c;
     c_port_offset := c_port_offset c; c_flow := c_flow c; c_receiver := c_receiver c;
     c_from_tunnel_ts := c_from_tunnel_ts c; c_from_origin_ts := now_ms |}.

Definition dispatch_origin_packet (overflow_checks : bool) (u : UdpClients) (now_ms : Z)
    (packet : UdpReceivedPacket) :
    outcome io_error (option (UdpFlow * OwnedPacket) * UdpClients) :=
  match slab_get (virtual_clients u) (unpack_slot (rx_id packet)) with
  | None => Ok (None, count_error u origin_client_missing)
  | Some client =>
      if decide (c_id client ≠ rx_id packet) then Ok (None, count_error u origin_reject_bad_id)
      else if decide (rx_from packet ≠ c_target_addr client) then
        Ok (None, count_error u origin_reject_addr_differ)
      else
        let port_offset := c_port_offset client in
        let u := set_client u (unpack_slot (rx_id packet)) (set_origin_ts client now_ms) in
        let u := set_stats u (add_bytes_out (u_stats u) (Z.of_nat (pk_len (rx_packet packet)))) in
        flow ← reply_flow overflow_checks (c_flow client) port_offset;
        Ok (Some (flow, rx_packet packet), u)
  end.

(** ** handle_tunneled_packet *)

(** The flow a new client answers with: flipped, its port offset removed. *)
Definition new_client_flow (flow : UdpFlow) (port_offset : Z) : outcome io_error UdpFlow :=
  match UdpFlow_flip flow with
  | FlowV4 src dst frag (Some ext) =>
      src ← (if decide (port_offset ≠ 0) then
               assert (bool_decide (port_offset ≤ sa4_port src));;
               Ok (SockV4 (sa4_ip src) (sa4_port src - port_offset))
             else Ok src);
      Ok (FlowV4 src dst frag
            (Some {| ext_client_server_id := ext_client_server_id ext;
                     ext_tunnel_id := ext_tunnel_id ext; ext_port_offset := 0 |}))
  | FlowV6 src dst (Some ext) =>
      src ← (if decide (port_offset ≠ 0) then
               assert (bool_decide (port_offset ≤ src.2));;
               Ok (src.1, src.2 - port_offset)
             else Ok src);
      Ok (FlowV6 src dst
            (Some {| ext_client_server_id := ext_client_server_id ext;
                     ext_tunnel_id := ext_tunnel_id ext; ext_port_offset := 0 |}))
  | _ => Panic
  end.

(** A datagram for a client that is already there. *)
Definition refresh_client (c : Client) (now_ms client_server_id : Z) : Client :=
  {| c_id := c_id c; c_key := c_key c; c_socket := c_socket c; c_target_addr := c_target_addr c;
     c_port_offset := c_port_offset c;
     c_flow := UdpFlow_update_client_server_id (c_flow c) client_server_id;
     c_receiver := c_receiver c; c_from_tunnel_ts := now_ms;
     c_from_origin_ts := c_from_origin_ts c |}.

(** [matches!(target_addr, SocketAddr::V4(a) if a.ip().is_loopback())]. *)
Definition is_loopback_v4 (a : SocketAddr) : bool :=
  match a with
  | SaV4 a => Ipv4_is_loopback (sa4_ip a)
  | SaV6 _ => false
  end.

(** The PROXY protocol header a new client starts with. *)
Definition send_proxy_header (env : udp_env) (u : UdpClients) (s : sock) (flow : UdpFlow)
    (proto : option ProxyProtocol) (target_addr : SocketAddr) : outcome io_error UdpClients :=
  match proto with
  | None => Ok u
  | Some ProxyProtocolV1 => Ok (count_error u origin_v1_proxy_protocol)
  | Some ProxyProtocolV2 =>
      match write_v2_udp (ProxyProtocolHeader_from_udp_flow flow) (Sink [] None) with
      | (Ok _, out) => Ok (send_to env u s (sk_data out) target_addr)
      | _ => Panic
      end
  end.

(** The part after the socket is open. *)
Definition add_client (env : udp_env) (u : UdpClients) (now_ms : Z) (flow : UdpFlow)
    (extension : UdpFlowExtension) (packet : OwnedPacket) (key : UdpClientKey)
    (origin : OriginResource) (target_addr : SocketAddr) (socket : sock) :
    outcome io_error UdpClients :=
  let slot := slab_vacant_key (virtual_clients u) in
  assert (bool_decide (Z.of_nat slot < 2 ^ 32));;
  let generation := next_client_generation u in
  let u := {| u_lookup := u_lookup u; virtual_client_lookup := virtual_client_lookup u;
              virtual_clients := virtual_clients u;
              next_client_generation := wrap 32 (generation + 1);
              u_stats := u_stats u; u_events := u_events u |} in
  let id := pack_client_id (Z.of_nat slot) generation in
  let '(receiver, u) := UdpReceiverSetup_create u id in
  client_flow ← new_client_flow flow (ext_port_offset extension);
  let client := {| c_id := id; c_key := key; c_socket := socket; c_target_addr := target_addr;
                   c_port_offset := ext_port_offset extension; c_flow := client_flow;
                   c_receiver := receiver; c_from_tunnel_ts := now_ms;
                   c_from_origin_ts := now_ms |} in
  u ← send_proxy_header env u socket flow (or_proxy_protocol origin) target_addr;
  let u := send_to env u socket (pk_bytes packet) target_addr in
  Ok (report_len (set_table u (<[key := slot]> (virtual_client_lookup u))
        (slab_insert (virtual_clients u) client))).

(** From the rate limiter to the new client. *)
Definition open_client (env : udp_env) (u : UdpClients) (now_ms : Z) (flow : UdpFlow)
    (extension : UdpFlowExtension) (packet : OwnedPacket) (key : UdpClientKey)
    (origin : OriginResource) : outcome io_error UdpClients :=
  if negb (env_limiter_ok env) then Ok (count_error u new_client_ratelimit)
  else
    match resolve_local (env_lookup_host env) origin (ext_port_offset extension) with
    | None => Ok u
    | Some target_addr =>
        let special_lan :=
          is_loopback_v4 target_addr &&
          match or_proxy_protocol origin with None => true | Some _ => false end in
        match LanAddress_udp_socket (env_bind env) special_lan (source_addr key) target_addr
                (key_tunnel_id key) with
        | Err _ => Ok u
        | Panic => Panic
        | Ok socket => add_client env u now_ms flow extension packet key origin target_addr socket
        end
    end.

Definition handle_tunneled_packet (env : udp_env) (u : UdpClients) (now_ms : Z) (flow : UdpFlow)
    (packet : OwnedPacket) : outcome io_error UdpClients :=
  match UdpFlow_extension flow with
  | None => Ok u
  | Some extension =>
      match OriginLookup_lookup (u_lookup u) (ext_tunnel_id extension) false with
      | None => Ok u
      | Some origin =>
          let key := {| source_addr := UdpFlow_src flow;
                        key_tunnel_id := ext_tunnel_id extension |} in
          match virtual_client_lookup u !! key with
          | None => open_client env u now_ms flow extension packet key origin
          | Some slot =>
              match slab_get (virtual_clients u) slot with
              | Some client =>
                  let '(closed, receiver) := is_closed env (c_receiver client) in
                  let client := set_receiver client receiver in
                  let u := set_client u slot client in
                  if negb closed then
                    let u := set_client u slot
                               (refresh_client client now_ms (ext_client_server_id extension)) in
                    let u := send_to env u (c_socket client) (pk_bytes packet)
                               (c_target_addr client) in
                    Ok (set_stats u (add_bytes_in (u_stats u) (Z.of_nat (pk_len packet))))
                  else
                    '(client, s) ← unwrap (slab_remove (virtual_clients u) slot);
                    let u := emit_event
                               (set_table u (delete key (virtual_client_lookup u)) s)
                               (EvCancel (rcv_id (c_receiver client))) in
                    open_client env (report_len u) now_ms flow extension packet key origin
              | None =>
                  let u := set_table u (delete key (virtual_client_lookup u)) (virtual_clients u) in
                  open_client env (report_len u) now_ms flow extension packet key origin
              end
          end
      end
  end.
End udp_clients.
