(* ===== verification/UdpReceiver.v ===== *)
(** * The receive task of a UDP client (agent_core/src/network/udp/udp_receiver.rs)

    One task per client's socket: it takes a packet from the pool, receives
    into it and hands it on under the client's id. A machine whose states are
    the places where the task waits. *)

From S2P Require Import Prelude Bytes Net IdSlab UdpProto Packets Utils UdpClients.

Inductive rx_pc : Type :=
  | RxWaitPacket
  | RxWaitData (packet : OwnedPacket)
  | RxWaitSend (packet : UdpReceivedPacket)
  | RxEnded.

Record rx_task : Type := {
  rxt_id : Z;
  rxt_pc : rx_pc;
  rxt_cancel : bool;
  (** when the next failure may be logged, and how many were *)
  rxt_next_error_log_allowed : Z;
  rxt_logged : nat;
  (** what was handed on *)
  rxt_output : list UdpReceivedPacket;
  (** whether the end was signalled *)
  rxt_end : bool;
}.

Definition rx_start (id now : Z) : rx_task :=
  {| rxt_id := id; rxt_pc := RxWaitPacket; rxt_cancel := false; rxt_next_error_log_allowed := now;
     rxt_logged := 0; rxt_output := []; rxt_end := false |}.

(** [cancel] comes from the handle; the others wake the task. *)
Inductive rx_event : Type :=
  | RxCancel
  | RxCancelled
  | RxPacket (packet : OwnedPacket)
  | RxDatagram (data : list byte) (source : SocketAddr)
  | RxFailed (now : Z)
  | RxSent
  | RxOutputClosed.

Definition rx_at (t : rx_task) (p : rx_pc) : rx_task :=
  {| rxt_id := rxt_id t; rxt_pc := p; rxt_cancel := rxt_cancel t;
     rxt_next_error_log_allowed := rxt_next_error_log_allowed t; rxt_logged := rxt_logged t;
     rxt_output := rxt_output t; rxt_end := rxt_end t |}.

(** The loop is left, and the end signalled. *)
Definition rx_break (t : rx_task) : rx_task :=
  {| rxt_id := rxt_id t; rxt_pc := RxEnded; rxt_cancel := rxt_cancel t;
     rxt_next_error_log_allowed := rxt_next_error_log_allowed t; rxt_logged := rxt_logged t;
     rxt_output := rxt_output t; rxt_end := true |}.

(** [recv_from(packet.full_slice_mut())]: the datagram fills the packet as far
    as it goes. *)
Definition receive_into (data : list byte) (packet : OwnedPacket) : nat * OwnedPacket :=
  let data := take (length (pk_full packet)) data in
  (length data, {| pk_full := data ++ drop (length data) (pk_full packet); pk_len := pk_len packet |}).

Definition on_datagram (t : rx_task) (packet : OwnedPacket) (data : list byte) (source : SocketAddr) :
    outcome io_error rx_task :=
  let '(bytes, packet) := receive_into data packet in
  packet ← match pk_set_len packet bytes with Err _ => Panic | r => r end;
  Ok (rx_at t (RxWaitSend {| rx_id := rxt_id t; rx_packet := packet; rx_from := source |})).

(** A failure is logged at most once a second; the packet goes back to the
    pool. *)
Definition on_failure (t : rx_task) (now : Z) : rx_task :=
  let allowed := bool_decide (rxt_next_error_log_allowed t ≤ now) in
  {| rxt_id := rxt_id t; rxt_pc := RxWaitPacket; rxt_cancel := rxt_cancel t;
     rxt_next_error_log_allowed := if allowed then now + 1000 else rxt_next_error_log_allowed t;
     rxt_logged := rxt_logged t + Nat.b2n allowed; rxt_output := rxt_output t; rxt_end := rxt_end t |}.

Definition on_sent (t : rx_task) (packet : UdpReceivedPacket) : rx_task :=
  {| rxt_id := rxt_id t; rxt_pc := RxWaitPacket; rxt_cancel := rxt_cancel t;
     rxt_next_error_log_allowed := rxt_next_error_log_allowed t; rxt_logged := rxt_logged t;
     rxt_output := rxt_output t ++ [packet]; rxt_end := rxt_end t |}.

(** [None] when the task does not wait for the event. *)
Definition rx_step (e : rx_event) (t : rx_task) : option (outcome io_error rx_task) :=
  match e, rxt_pc t with
  | RxCancel, _ =>
      Some (Ok {| rxt_id := rxt_id t; rxt_pc := rxt_pc t; rxt_cancel := true;
                  rxt_next_error_log_allowed := rxt_next_error_log_allowed t; rxt_logged := rxt_logged t;
                  rxt_output := rxt_output t; rxt_end := rxt_end t |})
  | _, RxEnded => None
  | RxCancelled, _ => if rxt_cancel t then Some (Ok (rx_break t)) else None
  | RxPacket packet, RxWaitPacket => Some (Ok (rx_at t (RxWaitData packet)))
  | RxDatagram data source, RxWaitData packet => Some (on_datagram t packet data source)
  | RxFailed now, RxWaitData _ => Some (Ok (on_failure t now))
  | RxSent, RxWaitSend packet => Some (Ok (on_sent t packet))
  | RxOutputClosed, RxWaitSend _ => Some (Ok (rx_break t))
  | _, _ => None
  end.

(** A run of events the task waits for. *)
Fixpoint rx_run (l : list rx_event) (t : rx_task) : option (outcome io_error rx_task) :=
  match l with
  | [] => Some (Ok t)
  | e :: l =>
      r ← rx_step e t;
      match r with
      | Ok t => rx_run l t
      | r => Some r
      end
  end.

(** ** What is handed on *)

(** The datagrams of a run. *)
Definition datagrams (l : list rx_event) : list (list byte * SocketAddr) :=
  omap (λ e, match e with RxDatagram data source => Some (data, source) | _ => None end) l.

(** What the pool hands out. *)
Definition rx_event_wf (e : rx_event) : Prop :=
  match e with RxPacket packet => pk_wf packet | _ => True end.

Definition rx_wf (t : rx_task) : Prop :=
  match rxt_pc t with RxWaitData packet => pk_wf packet | _ => True end.

Definition carries (id : Z) (x : UdpReceivedPacket) (d : list byte * SocketAddr) : Prop :=
  rx_id x = id ∧ pk_wf (rx_packet x) ∧ pk_bytes (rx_packet x) = take PACKET_LEN d.1 ∧ rx_from x = d.2.

(** The one packet that may be on its way. *)
Definition in_hand (t : rx_task) : list UdpReceivedPacket :=
  match rxt_pc t with RxWaitSend packet => [packet] | _ => [] end.

Lemma receive_spec data packet :
  pk_wf packet →
  let '(n, packet') := receive_into data packet in
  ∃ packet'', pk_set_len packet' n = Ok packet'' ∧ pk_wf packet'' ∧ pk_bytes packet'' = take PACKET_LEN data.
Proof.
  intros [Hfull Hlen]. unfold receive_into. rewrite Hfull. unfold pk_set_len.
  set (d := take PACKET_LEN data). assert (length d ≤ PACKET_LEN)%nat as Hd by (subst d; rewrite length_take; lia).
  rewrite decide_False by lia. eexists. split; [done|]. unfold pk_wf, pk_bytes. cbn [pk_full pk_len].
  rewrite take_app_length, length_app, length_drop, Hfull. split_and!; [lia | done | done].
Qed.

(** No step panics, and what was handed on or is in hand follows what came. *)
Lemma rx_step_spec e t r l :
  rx_event_wf e → rx_wf t → rx_step e t = Some r →
  Forall2 (carries (rxt_id t)) (rxt_output t ++ in_hand t) l →
  ∃ t', r = Ok t' ∧ rx_wf t' ∧ rxt_id t' = rxt_id t ∧
    ((rxt_pc t' = RxEnded ∧ rxt_output t' = rxt_output t) ∨
     Forall2 (carries (rxt_id t)) (rxt_output t' ++ in_hand t') (l ++ datagrams [e])).
Proof.
  intros He Ht Hs Hl. unfold rx_step, rx_wf, in_hand in *.
  destruct e as [| |packet|data source|now| |], (rxt_pc t) as [|k|x|] eqn:Hpc; try done;
    try (destruct (rxt_cancel t); [|done]); injection Hs as <-;
    try (eexists; split; [done|]; cbn; rewrite ?Hpc, ?app_nil_r in *; split_and!; [done | done | (by left) || (by right)]).
  - pose proof (receive_spec data k Ht) as Hr. unfold on_datagram. destruct (receive_into data k) as [n k'].
    destruct Hr as (k'' & -> & Hwf & Hb). cbn [mbind outcome_bind]. eexists. split; [done|]. cbn. split_and!; [done..|].
    right. rewrite app_nil_r in Hl. apply Forall2_app; [done|]. by constructor.
Qed.

(** Where a run may have led. *)
Definition delivered (id : Z) (t : rx_task) (l : list (list byte * SocketAddr)) : Prop :=
  rxt_id t = id ∧ rx_wf t ∧
  (rxt_pc t = RxEnded ∧ (∃ lost, (length lost ≤ 1)%nat ∧ Forall2 (carries id) (rxt_output t ++ lost) l) ∨
   Forall2 (carries id) (rxt_output t ++ in_hand t) l).

Lemma rx_step_delivered id e t r l :
  rx_event_wf e → rx_step e t = Some r → delivered id t l →
  ∃ t', r = Ok t' ∧ delivered id t' (l ++ datagrams [e]).
Proof.
  intros He Hs (<- & Hwf & [[Hpc (lost & Hlost & Hl)]|Hl]).
  - unfold rx_step in Hs. rewrite Hpc in Hs. destruct e; try done. injection Hs as <-. eexists. split; [done|].
    cbn. rewrite app_nil_r. split_and!; [done | done | left; eauto].
  - destruct (rx_step_spec e t r l He Hwf Hs Hl) as (t' & -> & Hwf' & Hid & Hor). exists t'. split; [done|].
    split_and!; [done | done |]. destruct Hor as [[Hpc Hout]|Hor]; [left|by right]. split; [done|].
    exists (in_hand t). rewrite Hout. split; [unfold in_hand; destruct (rxt_pc t); cbn; lia|].
    assert (datagrams [e] = []) as ->; [|by rewrite app_nil_r].
    unfold rx_step in Hs. destruct e as [| | |data source| | |]; try done. destruct (rxt_pc t) as [|k|x|]; try done.
    unfold on_datagram in Hs. destruct (receive_into data k) as [n k']. destruct (pk_set_len k' n); simplify_eq/=.
Qed.

(** The task hands on what it receives. Whatever comes in which order, it does
    not panic; what it handed on are the datagrams that came, in their order,
    each under the client's id with its source and its bytes (as far as they
    fit a packet), and none is missing but the one in hand when it ends. *)
Theorem receiver_delivers (id now : Z) (l : list rx_event) r :
  Forall rx_event_wf l → rx_run l (rx_start id now) = Some r →
  ∃ t, r = Ok t ∧ delivered id t (datagrams l).
Proof.
  intros Hl. change (datagrams l) with ([] ++ datagrams l).
  assert (delivered id (rx_start id now) []) as Hd by (split_and!; [done | done | right; constructor]).
  revert Hd. generalize (rx_start id now), (@nil (list byte * SocketAddr)).
  induction Hl as [|e l He _ IH]; intros t d Hd Hr; cbn in Hr.
  - injection Hr as <-. exists t. by rewrite app_nil_r.
  - apply bind_Some in Hr as (r1 & Hs & Hr). destruct (rx_step_delivered id e t r1 d He Hs Hd) as (t1 & -> & Hd1).
    destruct (IH t1 _ Hd1 Hr) as (t' & -> & Ht'). exists t'. split; [done|].
    rewrite <-app_assoc in Ht'. unfold datagrams in *. by rewrite <-omap_app in Ht'.
Qed.

(** A cancelled task can end wherever it waits, and has then signalled it. *)
Theorem receiver_ends (t : rx_task) :
  rxt_cancel t = true → rxt_pc t ≠ RxEnded →
  ∃ t', rx_step RxCancelled t = Some (Ok t') ∧ rxt_pc t' = RxEnded ∧ rxt_end t' = true.
Proof.
  intros Hc Hp. unfold rx_step. rewrite Hc. destruct (rxt_pc t); try done; by eexists.
Qed.
