(* ===== verification/UdpClientsTheory.v ===== *)
(** * Invariants of the UDP client table

    The lookup table and the slab stay inverse to each other through every
    handler, ids name the slot they are stored in, and the flow kept for a
    client can always be turned back into the reply's flow. *)

From S2P Require Import Prelude Bytes Net UdpProto Utils LanAddress OriginLookup ProxyProtocol.
From S2P Require Import Packets Utils UdpClients.
From stdpp Require Import sorting.
#[local] Open Scope Z_scope.

(** ** Ids *)

Lemma pack_client_id_eq slot generation :
  uint 32 slot → pack_client_id slot generation = generation * 2 ^ 32 + slot.
Proof.
  intros Hs. unfold pack_client_id. rewrite <-Z.shiftl_mul_pow2 by lia.
  pose proof (Z.add_lor_land (Z.shiftl generation 32) slot) as Hadd.
  enough (Z.land (Z.shiftl generation 32) slot = 0) by lia.
  apply Z.bits_inj'. intros n Hn. rewrite Z.land_spec, Z.bits_0.
  destruct (decide (n < 32)).
  - by rewrite Z.shiftl_spec, Z.testbit_neg_r by lia.
  - rewrite (uint_shiftr_bits 32 slot n) by (done || lia). apply andb_false_r.
Qed.

Lemma unpack_pack (slot : nat) generation :
  Z.of_nat slot < 2 ^ 32 → unpack_slot (pack_client_id (Z.of_nat slot) generation) = slot.
Proof.
  intros Hs. rewrite pack_client_id_eq by (unfold uint; lia). unfold unpack_slot, wrap.
  rewrite Z.add_comm, Z.mod_add by lia. rewrite Z.mod_small by lia. lia.
Qed.

(** A slot and a generation are recovered from the id. *)
Lemma pack_client_id_inj s1 g1 s2 g2 :
  uint 32 s1 → uint 32 s2 → pack_client_id s1 g1 = pack_client_id s2 g2 → s1 = s2 ∧ g1 = g2.
Proof. intros H1 H2. rewrite !pack_client_id_eq by done. unfold uint in *. lia. Qed.

Section theory.
Context {BO : ByteOrder} {SL : SlabLib} {sock : Type}.
Context {BOL : ByteOrderLaws BO} {SLL : SlabLaws SL}.
Implicit Types (c : Client (sock := sock)) (u : UdpClients (sock := sock))
  (env : udp_env (sock := sock)).

(** ** The invariant *)

Record client_ok (slot : nat) c : Prop := {
  ok_slot : Z.of_nat slot < 2 ^ 32;
  ok_id : ∃ generation, uint 32 generation ∧ c_id c = pack_client_id (Z.of_nat slot) generation;
  ok_receiver : rcv_id (c_receiver c) = c_id c;
  ok_flow : flow_wf (c_flow c);
  ok_extension : ∃ e, UdpFlow_extension (c_flow c) = Some e ∧
                      ext_tunnel_id e = key_tunnel_id (c_key c) ∧ ext_port_offset e = 0;
  ok_dst : UdpFlow_dst (c_flow c) = source_addr (c_key c);
  ok_offset : 0 ≤ c_port_offset c;
  ok_port : SocketAddr_port (UdpFlow_src (c_flow c)) + c_port_offset c < 2 ^ 16;
}.

Record table_inv (l : gmap UdpClientKey nat) (s : slab (Client (sock := sock))) : Prop := {
  tbl_fwd key slot : l !! key = Some slot → ∃ c, slab_get s slot = Some c ∧ c_key c = key;
  tbl_bwd slot c : slab_get s slot = Some c → l !! c_key c = Some slot ∧ client_ok slot c;
}.

Definition clients_inv u : Prop :=
  table_inv (virtual_client_lookup u) (virtual_clients u) ∧ uint 32 (next_client_generation u).

Lemma table_inv_set l s slot c c' :
  table_inv l s → slab_get s slot = Some c → client_ok slot c' → c_key c' = c_key c →
  table_inv l (slab_set s slot c').
Proof.
  intros [Hf Hb] Hc Hok Hk. split.
  - intros key i Hi. destruct (Hf key i Hi) as (ci & Hci & Hki).
    rewrite slab_get_set by by eexists. case_decide; subst; [|by eauto].
    exists c'. split; [done|]. by rewrite Hk; simplify_eq.
  - intros i ci. rewrite slab_get_set by by eexists. case_decide; subst; [|by eauto].
    intros [= <-]. rewrite Hk. split; [by apply Hb|done].
Qed.

Lemma table_inv_remove l s slot c :
  table_inv l s → slab_get s slot = Some c →
  ∃ s', slab_remove s slot = Some (c, s') ∧
    (∀ j, slab_get s' j = if decide (j = slot) then None else slab_get s j) ∧
    l !! c_key c = Some slot ∧ table_inv (delete (c_key c) l) s'.
Proof.
  intros [Hf Hb] Hc. pose proof (slab_remove_spec s slot) as Hr. rewrite Hc in Hr.
  destruct Hr as (s' & Hr & Hg). destruct (Hb slot c Hc) as [Hl Hok].
  exists s'. split_and!; [done..|]. split.
  - intros key i. rewrite lookup_delete_Some. intros [Hne Hi].
    destruct (Hf key i Hi) as (ci & Hci & <-). exists ci. split; [|done].
    rewrite Hg. case_decide; [subst; by simplify_eq | done].
  - intros i ci. rewrite Hg. case_decide as Hi; [done|]. intros Hci.
    destruct (Hb i ci Hci) as [Hli Hoki]. split; [|done].
    rewrite lookup_delete_ne; [done|]. intros Heq. rewrite <-Heq in Hli. by simplify_eq.
Qed.

Lemma table_inv_insert l s key c :
  table_inv l s → l !! key = None → c_key c = key → client_ok (slab_vacant_key s) c →
  table_inv (<[key := slab_vacant_key s]> l) (slab_insert s c).
Proof.
  intros [Hf Hb] Hl Hk Hok. pose proof (slab_vacant s) as Hv. split.
  - intros key' i. rewrite lookup_insert_Some. setoid_rewrite slab_get_insert.
    intros [[<- <-]|[Hne Hi]].
    + exists c. by rewrite decide_True.
    + destruct (Hf key' i Hi) as (ci & Hci & <-). exists ci. split; [|done].
      rewrite decide_False; [done|]. intros ->. by simplify_eq.
  - intros i ci. rewrite slab_get_insert. case_decide; subst.
    + intros [= <-]. by rewrite lookup_insert_eq.
    + intros Hci. destruct (Hb i ci Hci) as [Hli Hoki]. split; [|done].
      rewrite lookup_insert_ne; [done|]. intros Heq. rewrite <-Heq in Hli. by simplify_eq.
Qed.

Lemma client_ok_receiver slot c r :
  client_ok slot c → rcv_id r = rcv_id (c_receiver c) → client_ok slot (set_receiver c r).
Proof. intros [] Hr. split; cbn; try done. congruence. Qed.

Lemma client_ok_origin_ts slot c now :
  client_ok slot c → client_ok slot (set_origin_ts c now).
Proof. intros []. by split. Qed.

Lemma update_id_facts f n :
  flow_wf f → uint 64 n → n ≠ 0 →
  flow_wf (UdpFlow_update_client_server_id f n) ∧
  UdpFlow_dst (UdpFlow_update_client_server_id f n) = UdpFlow_dst f ∧
  UdpFlow_src (UdpFlow_update_client_server_id f n) = UdpFlow_src f.
Proof.
  destruct f as [? ? ? [e|]|[] [] [e|]]; cbn; unfold ext_wf; cbn; tauto.
Qed.

Lemma client_ok_refresh slot c now n :
  client_ok slot c → uint 64 n → n ≠ 0 → client_ok slot (refresh_client c now n).
Proof.
  intros [? ? ? Hf (e & He & Ht & Ho) Hd ? Hp] Hn Hne.
  destruct (update_id_facts (c_flow c) n Hf Hn Hne) as (Hf' & Hd' & Hs').
  split; cbn; try done; try congruence.
  destruct (c_flow c) as [? ? ? [e'|]|? ? [e'|]]; cbn in *; simplify_eq;
    (eexists; split_and!; [done..|]); done.
Qed.

(** ** Reply flows *)

(** The flow kept for a new client and the flow rebuilt from it. *)
Lemma new_client_flow_ok flow e :
  flow_wf flow → UdpFlow_extension flow = Some e →
  ext_port_offset e ≤ SocketAddr_port (UdpFlow_dst flow) →
  ∃ f, new_client_flow flow (ext_port_offset e) = Ok f ∧ flow_wf f ∧
    UdpFlow_dst f = UdpFlow_src flow ∧
    (∃ e', UdpFlow_extension f = Some e' ∧ ext_tunnel_id e' = ext_tunnel_id e ∧
           ext_port_offset e' = 0) ∧
    SocketAddr_port (UdpFlow_src f) + ext_port_offset e = SocketAddr_port (UdpFlow_dst flow) ∧
    ∀ oc, reply_flow oc f (ext_port_offset e) = Ok (UdpFlow_flip flow).
Proof.
  intros Hwf He Hle. unfold new_client_flow.
  assert (uint 16 (SocketAddr_port (UdpFlow_dst flow)) ∧ 0 ≤ ext_port_offset e) as [Hport Hoff].
  { destruct flow as [? [] ? ?|? [] ?]; cbn in *; unfold SocketAddrV4_wf, ext_wf in *; cbn in *;
      subst; unfold uint in *; cbn in *; lia. }
  destruct flow as [[] [di dp] frag ?|[si sp] [di dp] ?]; cbn in He; subst; cbn in *;
    unfold SocketAddrV4_wf, ext_wf in Hwf; cbn in Hwf; destruct_and?;
    (case_decide; [rewrite bool_decide_eq_true_2 by done|]; cbn;
     (eexists; split; [done|]); cbn; unfold SocketAddrV4_wf, ext_wf; cbn; unfold uint in *;
     split_and!; try done; try lia; try (eexists; split_and!; [done..|]; done);
     intros oc; (rewrite u_add_fits by lia); cbn; destruct e; cbn in *; repeat f_equal; lia).
Qed.

Lemma reply_flow_ok oc c slot :
  client_ok slot c →
  ∃ f, reply_flow oc (c_flow c) (c_port_offset c) = Ok f ∧ UdpFlow_dst f = source_addr (c_key c) ∧
    SocketAddr_ip (UdpFlow_src f) = SocketAddr_ip (UdpFlow_src (c_flow c)) ∧
    SocketAddr_port (UdpFlow_src f) = SocketAddr_port (UdpFlow_src (c_flow c)) + c_port_offset c ∧
    ext_port_offset <$> UdpFlow_extension f = Some (c_port_offset c) ∧
    UdpFlow_client_server_id f = UdpFlow_client_server_id (c_flow c).
Proof.
  intros [? ? ? Hf (e & He & Ht & Ho) Hd ? Hp].
  destruct (c_flow c) as [src dst frag ext|[] [] ext]; cbn in *; subst;
    (rewrite u_add_fits by done); cbn; (eexists; split_and!; done).
Qed.

(** ** Expiry *)

(** What the poll of a client's receiver finds and leaves. *)
Definition closed_now env c : bool := (is_closed env (c_receiver c)).1.

Definition polled env c : Client := set_receiver c (is_closed env (c_receiver c)).2.

Definition expired env (now_ms : Z) c : bool := should_remove now_ms (closed_now env c) c.

(** When a client is given up: its receiver has ended, both directions have
    been silent for over a minute, or one for over a minute and a half. *)
Definition given_up env (now_ms : Z) c : Prop :=
  closed_now env c = true ∨
  (c_from_tunnel_ts c + 60000 < now_ms ∧ c_from_origin_ts c + 60000 < now_ms) ∨
  c_from_tunnel_ts c + 90000 < now_ms ∨ c_from_origin_ts c + 90000 < now_ms.

#[global] Instance given_up_dec env now_ms c : Decision (given_up env now_ms c).
Proof. unfold given_up. apply _. Defined.

Lemma expired_given_up env now_ms c : expired env now_ms c = bool_decide (given_up env now_ms c).
Proof.
  apply eq_bool_prop_intro. unfold expired, should_remove, given_up, saturating_sub.
  rewrite !orb_True, andb_True, !bool_decide_spec, Is_true_true.
  destruct (closed_now env c); [naive_solver|]. lia.
Qed.

Lemma client_ok_polled env slot c : client_ok slot c → client_ok slot (polled env c).
Proof. intros. by apply client_ok_receiver. Qed.

Lemma scan_spec env now es (s : slab Client) acc :
  NoDup es.*1 → (∀ i c, (i, c) ∈ es → slab_get s i = Some c) →
  ∃ s', foldl (scan_step env now) (s, acc) es =
      (s', acc ++ (filter (λ e, expired env now e.2 = true) es).*1) ∧
    ∀ i, slab_get s' i = if decide (i ∈ es.*1) then polled env <$> slab_get s i else slab_get s i.
Proof.
  revert s acc. induction es as [|[i c] es IH]; intros s acc Hnd Hes; cbn in *.
  { exists s. split; [by rewrite app_nil_r|]. intros j. by rewrite decide_False by apply not_elem_of_nil. }
  apply NoDup_cons in Hnd as [Hi Hnd].
  assert (slab_get s i = Some c) as Hc by (apply Hes; apply list_elem_of_here).
  set (s1 := slab_set s i (polled env c)).
  assert (∀ j, slab_get s1 j = if decide (j = i) then Some (polled env c) else slab_get s j) as Hs1
    by (intros j; apply slab_get_set; by eexists).
  destruct (IH s1 (if expired env now c then acc ++ [i] else acc)) as (s' & Hf & Hg); [done| |].
  { intros j cj Hj. rewrite Hs1, decide_False; [by apply Hes, list_elem_of_further|].
    intros ->. apply Hi. apply list_elem_of_fmap. by exists (i, cj). }
  exists s'. split.
  - change (foldl (scan_step env now)
      (s1, if expired env now c then acc ++ [i] else acc) es = (s', acc ++
        (filter (λ e : nat * Client, expired env now e.2 = true) ((i, c) :: es)).*1)).
    rewrite Hf, filter_cons. cbn. destruct (expired env now c) eqn:He.
    + rewrite decide_True by done. cbn. by rewrite <-app_assoc.
    + by rewrite decide_False.
  - intros j. rewrite Hg, Hs1. destruct (decide (j = i)) as [->|Hne].
    + rewrite decide_False by done. rewrite decide_True by apply list_elem_of_here. by rewrite Hc.
    + destruct (decide (j ∈ es.*1)) as [Hj|Hj].
      * rewrite decide_True; [done|]. by apply list_elem_of_further.
      * rewrite decide_False; [done|]. rewrite not_elem_of_cons. done.
Qed.

Lemma remove_slots_spec env u slots :
  table_inv (virtual_client_lookup u) (virtual_clients u) → NoDup slots →
  (∀ i, i ∈ slots → is_Some (slab_get (virtual_clients u) i)) →
  (∀ i c, i ∈ slots → slab_get (virtual_clients u) i = Some c →
     env_shutdown_in_time env (rcv_id (c_receiver c)) = true) →
  ∃ u', remove_slots env u slots = Ok u' ∧
    table_inv (virtual_client_lookup u') (virtual_clients u') ∧
    (∀ i, slab_get (virtual_clients u') i =
       if decide (i ∈ slots) then None else slab_get (virtual_clients u) i) ∧
    next_client_generation u' = next_client_generation u ∧ u_stats u' = u_stats u ∧
    u_lookup u' = u_lookup u.
Proof.
  revert u. induction slots as [|i slots IH]; intros u Ht Hnd Hocc Htime; cbn.
  { exists u. by split_and!. }
  apply NoDup_cons in Hnd as [Hi Hnd].
  destruct (Hocc i) as [c Hc]; [apply list_elem_of_here|].
  destruct (table_inv_remove _ _ i c Ht Hc) as (s' & Hrem & Hg & Hl & Ht').
  unfold remove_slot. rewrite Hrem. cbn. rewrite Hl. cbn. rewrite bool_decide_eq_true_2 by done.
  cbn. unfold shutdown. rewrite (Htime i c) by (done || apply list_elem_of_here). cbn.
  set (u1 := emit_event _ _).
  assert (∀ j, j ∈ slots → slab_get s' j = slab_get (virtual_clients u) j) as Hother.
  { intros j Hj. rewrite Hg, decide_False; [done|]. by intros ->. }
  destruct (IH u1) as (u' & Hu' & Ht'' & Hg' & Hgen & Hst & Hlk); [done|done| | |].
  - intros j Hj. cbn. rewrite Hother by done. by apply Hocc, list_elem_of_further.
  - intros j cj Hj. cbn. rewrite Hother by done. by apply Htime, list_elem_of_further.
  - exists u'. split_and!; try done. intros j. rewrite Hg'. cbn. rewrite Hg.
    destruct (decide (j = i)) as [->|Hne].
    + rewrite (decide_True (P := i ∈ i :: slots)) by apply list_elem_of_here. by case_decide.
    + destruct (decide (j ∈ slots)) as [Hj|Hj].
      * rewrite decide_True; [done|]. by apply list_elem_of_further.
      * rewrite decide_False; [done|]. by rewrite not_elem_of_cons.
Qed.

(** The whole scan: every receiver is polled and the expired slots are
    collected, without repetition. *)
Lemma scan_table env now u :
  table_inv (virtual_client_lookup u) (virtual_clients u) →
  ∃ s' rem, foldl (scan_step env now) (virtual_clients u, []) (slab_iter (virtual_clients u)) =
      (s', rem) ∧
    (∀ i, slab_get s' i = polled env <$> slab_get (virtual_clients u) i) ∧
    (∀ i, i ∈ rem ↔ ∃ c, slab_get (virtual_clients u) i = Some c ∧ expired env now c = true) ∧
    NoDup rem ∧ table_inv (virtual_client_lookup u) s'.
Proof.
  intros Ht. set (es := slab_iter (virtual_clients u)).
  assert (∀ i c, (i, c) ∈ es ↔ slab_get (virtual_clients u) i = Some c) as Hes
    by (intros; apply slab_iter_get).
  destruct (scan_spec env now es (virtual_clients u) []) as (s' & Hfold & Hg);
    [apply slab_iter_nodup | intros i c; apply Hes|].
  assert (∀ i, slab_get s' i = polled env <$> slab_get (virtual_clients u) i) as Hs'.
  { intros i. rewrite Hg. case_decide as Hi; [done|].
    destruct (slab_get (virtual_clients u) i) as [c|] eqn:Hc; [|done].
    destruct Hi. apply list_elem_of_fmap. exists (i, c). split; [done|]. by apply Hes. }
  eexists s', _. split_and!; [exact Hfold | done | | |].
  - intros i. cbn [app]. rewrite list_elem_of_fmap. setoid_rewrite list_elem_of_filter. split.
    + intros ([j c] & -> & He & Hin). exists c. split; [by apply Hes | done].
    + intros (c & Hc & He). exists (i, c). split_and!; [done | done | by apply Hes].
  - cbn [app]. apply (sublist_NoDup _ es.*1); [apply slab_iter_nodup|].
    apply fmap_sublist, sublist_filter.
  - split.
    + intros key slot Hl. destruct (tbl_fwd _ _ Ht key slot Hl) as (c & Hc & Hk).
      exists (polled env c). by rewrite Hs', Hc.
    + intros slot c. rewrite Hs'.
      destruct (slab_get (virtual_clients u) slot) as [c0|] eqn:Hc0; [|done].
      intros [= <-]. destruct (tbl_bwd _ _ Ht slot c0 Hc0) as [Hl Hok].
      split; [done | by apply client_ok_polled].
Qed.

(** Expiring clients. On a consistent table [clear_old] never hits its
    [unwrap] or [assert_eq!], as long as cancelled receive tasks end in time.
    It removes exactly the clients whose receiver has closed, that were
    silent for over a minute in both directions, or for over a minute and a
    half in one; the others keep their slot, the table stays consistent and
    the active count is the number of clients left. *)
Theorem clear_old_spec env u (now_ms : Z) :
  clients_inv u →
  (∀ slot c, slab_get (virtual_clients u) slot = Some c → given_up env now_ms c →
     env_shutdown_in_time env (c_id c) = true) →
  ∃ u', clear_old env u now_ms = Ok u' ∧ clients_inv u' ∧
    (∀ slot, slab_get (virtual_clients u') slot =
       c ← slab_get (virtual_clients u) slot;
       if decide (given_up env now_ms c) then None else Some (polled env c)) ∧
    active_udp (u_stats u') = wrap 32 (slab_len (virtual_clients u')).
Proof.
  intros [Ht Hgen] Htime. unfold clear_old.
  destruct (scan_table env now_ms u Ht) as (s' & rem & -> & Hs' & Hrem & Hnd & Ht').
  set (slots := reverse (merge_sort (≤)%nat rem)).
  assert (slots ≡ₚ rem) as Hperm
    by (unfold slots; by rewrite reverse_Permutation, merge_sort_Permutation).
  destruct (remove_slots_spec env (set_table u (virtual_client_lookup u) s') slots)
    as (u' & -> & Ht'' & Hg' & Hgen' & Hst & _); [done | by rewrite Hperm | | |].
  - intros i Hi. rewrite Hperm, Hrem in Hi. destruct Hi as (c & Hc & _). cbn. rewrite Hs', Hc.
    by eexists.
  - intros i c Hi. rewrite Hperm, Hrem in Hi. destruct Hi as (c0 & Hc0 & He). cbn.
    rewrite Hs', Hc0. intros [= <-]. cbn. destruct (tbl_bwd _ _ Ht i c0 Hc0) as [_ Hok].
    rewrite (ok_receiver _ _ Hok). rewrite expired_given_up in He.
    eapply Htime; [done | by apply bool_decide_eq_true in He].
  - eexists. split_and!; [done | | | done].
    + split; [done|]. cbn. by rewrite Hgen'.
    + intros slot. cbn. rewrite Hg'. cbn. rewrite Hs'.
      destruct (slab_get (virtual_clients u) slot) as [c|] eqn:Hc; cbn; [|by case_decide].
      case_decide as Hm; rewrite Hperm, Hrem in Hm.
      * destruct Hm as (c' & Hc' & He). simplify_eq. rewrite expired_given_up in He.
        by rewrite decide_True by (by apply bool_decide_eq_true in He).
      * rewrite decide_False; [done|]. intros Hg. apply Hm. exists c.
        by rewrite expired_given_up, bool_decide_true.
Qed.

(** ** Datagrams from the local service *)

(** A datagram from the local service goes back to exactly one client.
    With a consistent table the handler never panics, in either build
    profile: it forwards the datagram if and only if a live client has the
    datagram's id and its service sent it. The reply's flow is then
    addressed to that client's source address, with the port and the port
    offset of the tunnel's range restored, and only the client's timestamp
    changes; otherwise an error is counted and nothing else happens. *)
Theorem dispatch_origin_packet_spec (overflow_checks : bool) u (now_ms : Z)
    (packet : UdpReceivedPacket) :
  clients_inv u →
  ∃ o u', dispatch_origin_packet overflow_checks u now_ms packet = Ok (o, u') ∧ clients_inv u' ∧
    (is_Some o ↔ ∃ slot c, slab_get (virtual_clients u) slot = Some c ∧
                           c_id c = rx_id packet ∧ c_target_addr c = rx_from packet) ∧
    match o with
    | None => ∃ e, u' = count_error u e
    | Some (flow, pk) =>
        pk = rx_packet packet ∧
        ∃ slot c, slab_get (virtual_clients u) slot = Some c ∧ c_id c = rx_id packet ∧
          UdpFlow_dst flow = source_addr (c_key c) ∧
          SocketAddr_port (UdpFlow_src flow) =
            SocketAddr_port (UdpFlow_src (c_flow c)) + c_port_offset c ∧
          ext_port_offset <$> UdpFlow_extension flow = Some (c_port_offset c) ∧
          ∀ i, slab_get (virtual_clients u') i =
               if decide (i = slot) then Some (set_origin_ts c now_ms)
               else slab_get (virtual_clients u) i
    end.
Proof.
  intros [Ht Hgen]. unfold dispatch_origin_packet.
  assert (∀ slot c, slab_get (virtual_clients u) slot = Some c → c_id c = rx_id packet →
            slot = unpack_slot (rx_id packet)) as Hslot.
  { intros slot c Hc <-. destruct (tbl_bwd _ _ Ht slot c Hc) as [_ [Hs (g & _ & ->)]].
    by rewrite unpack_pack. }
  destruct (slab_get _ (unpack_slot _)) as [c|] eqn:Hc; cycle 1.
  { eexists None, _. split_and!; [done | done | | by eexists].
    split; [by intros []|]. intros (slot & c & Hs & Hid & _).
    rewrite (Hslot slot c Hs Hid) in Hs. congruence. }
  case_decide as Hid; [|case_decide as Hfrom].
  - eexists None, _. split_and!; [done | done | | by eexists].
    split; [by intros []|]. intros (slot & c' & Hs & Hid' & _).
    rewrite (Hslot slot c' Hs Hid') in Hs. congruence.
  - eexists None, _. split_and!; [done | done | | by eexists].
    split; [by intros []|]. intros (slot & c' & Hs & Hid' & Hf).
    rewrite (Hslot slot c' Hs Hid') in Hs. congruence.
  - destruct (tbl_bwd _ _ Ht _ c Hc) as [Hl Hok].
    destruct (reply_flow_ok overflow_checks c _ Hok) as (f & -> & Hd & _ & Hp & He & _). cbn.
    eexists (Some _), _. split; [done|]. split; [|split; [|split; [done|]]].
    + split; [|done]. cbn. by eapply table_inv_set; [| |apply client_ok_origin_ts|].
    + split; [|by eexists]. intros _. by exists (unpack_slot (rx_id packet)), c.
    + exists (unpack_slot (rx_id packet)), c. split_and!; try done.
      intros i. cbn. apply slab_get_set. by eexists.
Qed.

(** ** Datagrams from the tunnel *)

(** Nothing but the event log differs. *)
Definition same_table u u' : Prop :=
  virtual_client_lookup u' = virtual_client_lookup u ∧ virtual_clients u' = virtual_clients u ∧
  next_client_generation u' = next_client_generation u ∧ u_lookup u' = u_lookup u ∧
  u_stats u' = u_stats u.

Lemma send_to_table env u s data dst : same_table u (send_to env u s data dst).
Proof. unfold send_to. destruct (env_send_ok env data dst); by split_and!. Qed.

Lemma send_proxy_header_ok env u s flow proto target :
  ∃ u', send_proxy_header env u s flow proto target = Ok u' ∧ same_table u u'.
Proof.
  unfold send_proxy_header. destruct proto as [[]|]; [by eexists| |by eexists].
  rewrite (emits_vec _ _ _ _ (emits_v2_udp _)). eexists. split; [done | apply send_to_table].
Qed.

Lemma flow_src_wf flow : flow_wf flow → SocketAddr_wf (UdpFlow_src flow).
Proof.
  destruct flow as [src ? ? ?|[si sp] ? ?]; cbn; [tauto|].
  unfold SocketAddrV6_wf. cbn. intros. split_and!; try tauto; done.
Qed.

(** A new client: its table entry, and the reply it will give. *)
Lemma add_client_ok env u now flow e packet key origin target socket :
  clients_inv u → flow_wf flow → UdpFlow_extension flow = Some e →
  ext_port_offset e ≤ SocketAddr_port (UdpFlow_dst flow) →
  key = {| source_addr := UdpFlow_src flow; key_tunnel_id := ext_tunnel_id e |} →
  virtual_client_lookup u !! key = None →
  Z.of_nat (slab_vacant_key (virtual_clients u)) < 2 ^ 32 →
  ∃ u' c, add_client env u now flow e packet key origin target socket = Ok u' ∧ clients_inv u' ∧
    slab_get (virtual_clients u') (slab_vacant_key (virtual_clients u)) = Some c ∧
    c_target_addr c = target ∧ c_key c = key ∧ c_port_offset c = ext_port_offset e ∧
    bytes_in (u_stats u') = bytes_in (u_stats u) ∧
    u_lookup u' = u_lookup u ∧ rcv_closed (c_receiver c) = false ∧
    ∀ oc, reply_flow oc (c_flow c) (c_port_offset c) = Ok (UdpFlow_flip flow).
Proof.
  intros [Ht Hgen] Hwf He Hoff Hkey Hl Hv. unfold add_client.
  rewrite bool_decide_eq_true_2 by done. cbn.
  destruct (new_client_flow_ok flow e Hwf He Hoff) as (f & -> & Hf & Hd & (e' & He' & Ht' & Ho') & Hp & Hrep).
  cbn. match goal with |- context [send_proxy_header env ?u0] => set (u1 := u0) end.
  destruct (send_proxy_header_ok env u1 socket flow (or_proxy_protocol origin) target)
    as (u2 & -> & (Hl2 & Hs2 & Hg2 & Hk2 & Hst2)). cbn.
  destruct (send_to_table env u2 socket (pk_bytes packet) target) as (Hl3 & Hs3 & Hg3 & Hk3 & Hst3).
  eexists _, _. split_and!; [done | | | | | | | | |].
  - unfold clients_inv. cbn. rewrite Hl3, Hs3, Hg3, Hl2, Hs2, Hg2. cbn. split; [|by apply wrap_uint].
    apply table_inv_insert; [done | done | done |]. unfold uint in *.
    split; cbn; try done; try lia.
    + by eexists.
    + exists e'. subst key. by split_and!.
    + by rewrite Hd, Hkey.
    + destruct flow as [? ? ? ?|? ? ?]; cbn in He; subst; cbn in Hwf; unfold ext_wf in Hwf;
        unfold uint in *; lia.
    + assert (uint 16 (SocketAddr_port (UdpFlow_dst flow)))
        by (destruct flow as [? [] ? ?|? [] ?]; cbn in Hwf; unfold SocketAddrV4_wf in Hwf; cbn in *; tauto).
      unfold uint in *. lia.
  - cbn. rewrite Hs3, Hs2. cbn. rewrite slab_get_insert, decide_True by done. reflexivity.
  - done.
  - done.
  - done.
  - cbn. by rewrite Hst3, Hst2.
  - cbn. by rewrite Hk3, Hk2.
  - done.
  - exact Hrep.
Qed.

Definition flow_key (flow : UdpFlow) (e : UdpFlowExtension) : UdpClientKey :=
  {| source_addr := UdpFlow_src flow; key_tunnel_id := ext_tunnel_id e |}.

Lemma open_client_ok env u now flow e packet origin :
  clients_inv u → flow_wf flow → UdpFlow_extension flow = Some e →
  ext_port_offset e ≤ SocketAddr_port (UdpFlow_dst flow) → (∀ a, env_bind env a ≠ Panic) →
  virtual_client_lookup u !! flow_key flow e = None →
  Z.of_nat (slab_vacant_key (virtual_clients u)) < 2 ^ 32 →
  ∃ u', open_client env u now flow e packet (flow_key flow e) origin = Ok u' ∧ clients_inv u'.
Proof.
  intros Hi Hwf He Hoff Hbind Hl Hv. unfold open_client.
  destruct (negb _); [by eexists|]. destruct (resolve_local _ _ _) as [target|]; [|by eexists].
  match goal with |- context [LanAddress_udp_socket ?b ?sp ?p ?t ?i] =>
    pose proof (udp_socket_not_Panic b sp p t i (flow_src_wf flow Hwf) Hbind) as Hs;
    destruct (LanAddress_udp_socket b sp p t i) as [socket|err|] eqn:Hsock end;
    cbn in Hs; [|by eexists|done].
  destruct (add_client_ok env u now flow e packet (flow_key flow e) origin target socket)
    as (u' & c & Hu & Hi' & _); [done..|]. by exists u'.
Qed.

Lemma refresh_table env l s slot c now n :
  table_inv l s → slab_get s slot = Some c → uint 64 n → n ≠ 0 →
  table_inv l (slab_set (slab_set s slot (polled env c)) slot (refresh_client (polled env c) now n)).
Proof.
  intros Ht Hc Hn Hne. destruct (tbl_bwd _ _ Ht _ _ Hc) as [_ Hok].
  apply (client_ok_polled env) in Hok as Hok'.
  eapply (table_inv_set _ _ slot (polled env c)); [| |by apply client_ok_refresh|done].
  - by eapply table_inv_set.
  - rewrite slab_get_set by by eexists. by rewrite decide_True.
Qed.

(** The closed receiver's client makes room for a new one. *)
Lemma replace_client_table env u slot c :
  clients_inv u → slab_get (virtual_clients u) slot = Some c →
  ∃ s', slab_remove (slab_set (virtual_clients u) slot (polled env c)) slot =
      Some (polled env c, s') ∧
    table_inv (delete (c_key c) (virtual_client_lookup u)) s' ∧
    ∀ j, slab_get s' j = if decide (j = slot) then None else slab_get (virtual_clients u) j.
Proof.
  intros [Ht _] Hc. destruct (tbl_bwd _ _ Ht slot c Hc) as [Hl Hok].
  assert (table_inv (virtual_client_lookup u) (slab_set (virtual_clients u) slot (polled env c)))
    as Ht' by (eapply table_inv_set; [done | done | by apply client_ok_polled | done]).
  assert (∀ j, slab_get (slab_set (virtual_clients u) slot (polled env c)) j =
    if decide (j = slot) then Some (polled env c) else slab_get (virtual_clients u) j) as Hg
    by (intros; apply slab_get_set; by eexists).
  destruct (table_inv_remove _ _ slot (polled env c) Ht') as (s' & Hr & Hg' & _ & Ht'');
    [by rewrite Hg, decide_True|].
  exists s'. split_and!; [done | done|]. intros j. rewrite Hg', Hg. by case_decide.
Qed.

(** The slab a new client for [flow] would be put in. *)
Definition slab_at_insert env u (flow : UdpFlow) : slab Client :=
  default (virtual_clients u) (
    e ← UdpFlow_extension flow;
    slot ← virtual_client_lookup u !! flow_key flow e;
    c ← slab_get (virtual_clients u) slot;
    snd <$> slab_remove (slab_set (virtual_clients u) slot (polled env c)) slot).

(** C7: Handling a datagram from the tunnel keeps the table consistent and
    does not panic, on every path (unknown tunnel, known client, client with
    a dead receiver, rate limit, unresolvable origin, failing socket, new
    client), provided the flow's port offset does not exceed its destination
    port and slots fit in 32 bits. *)
Theorem handle_tunneled_packet_safe env u (now_ms : Z) (flow : UdpFlow) (packet : OwnedPacket) :
  clients_inv u → flow_wf flow →
  (∀ e, UdpFlow_extension flow = Some e →
     ext_port_offset e ≤ SocketAddr_port (UdpFlow_dst flow)) →
  (∀ a, env_bind env a ≠ Panic) →
  Z.of_nat (slab_vacant_key (slab_at_insert env u flow)) < 2 ^ 32 →
  ∃ u', handle_tunneled_packet env u now_ms flow packet = Ok u' ∧ clients_inv u'.
Proof.
  intros Hi Hwf Hoff Hbind Hv. pose proof Hi as [Ht Hgen].
  unfold handle_tunneled_packet, slab_at_insert in *.
  destruct (UdpFlow_extension flow) as [e|] eqn:He; [|by eexists]. cbn in Hv.
  specialize (Hoff e eq_refl).
  destruct (OriginLookup_lookup _ _ _) as [origin|]; [|by eexists].
  fold (flow_key flow e). destruct (virtual_client_lookup u !! flow_key flow e) as [slot|] eqn:Hl;
    cbn in Hv; [|by apply open_client_ok].
  destruct (tbl_fwd _ _ Ht _ _ Hl) as (c & Hc & Hk). rewrite Hc in *. cbn in Hv.
  destruct (tbl_bwd _ _ Ht _ _ Hc) as [_ Hok].
  unfold is_closed at 1. cbn [set_receiver]. destruct (negb _).
  - match goal with |- context [send_to env ?w ?s ?d ?t] =>
      destruct (send_to_table env w s d t) as (Hl' & Hs' & Hg' & _);
      set (w2 := send_to env w s d t) in * end.
    eexists. split; [done|]. unfold clients_inv. cbn [set_stats virtual_client_lookup
      virtual_clients next_client_generation]. rewrite Hl', Hs', Hg'. split; [|done]. cbn.
    assert (uint 64 (ext_client_server_id e) ∧ ext_client_server_id e ≠ 0) as [? ?].
    { destruct flow; cbn in He; subst; cbn in Hwf; unfold ext_wf in Hwf; tauto. }
    by apply (refresh_table env).
  - destruct (replace_client_table env u slot c Hi Hc) as (s' & Hr & Ht' & _).
    cbn. change (set_receiver c _) with (polled env c). rewrite Hr in *. cbn in *.
    apply open_client_ok; cbn; try done.
    + split; cbn; [by rewrite <-Hk | done].
    + by rewrite lookup_delete_eq.
Qed.

(** What it takes for a datagram to open a client: the tunnel is known, its
    origin resolves, the limiter and the system agree. *)
Record opens env u (flow : UdpFlow) (e : UdpFlowExtension) (target : SocketAddr) (socket : sock) :
    Prop := {
  opens_ext : UdpFlow_extension flow = Some e;
  opens_new : virtual_client_lookup u !! flow_key flow e = None;
  opens_limit : env_limiter_ok env = true;
  opens_origin : ∃ origin, OriginLookup_lookup (u_lookup u) (ext_tunnel_id e) false = Some origin ∧
    resolve_local (env_lookup_host env) origin (ext_port_offset e) = Some target ∧
    LanAddress_udp_socket (env_bind env)
      (is_loopback_v4 target && match or_proxy_protocol origin with None => true | Some _ => false end)
      (UdpFlow_src flow) target (ext_tunnel_id e) = Ok socket;
}.

Lemma opens_handle env u now flow e target socket packet :
  opens env u flow e target socket →
  ∃ origin, handle_tunneled_packet env u now flow packet =
            add_client env u now flow e packet (flow_key flow e) origin target socket.
Proof.
  intros [He Hl Hlim (origin & Ho & Hr & Hs)]. exists origin.
  unfold handle_tunneled_packet. rewrite He, Ho. fold (flow_key flow e). rewrite Hl.
  unfold open_client. rewrite Hlim. cbn [negb]. rewrite Hr. cbn [flow_key source_addr key_tunnel_id].
  by rewrite Hs.
Qed.

(** *** A conversation *)

(** What follows the first datagram of a client: its further datagrams, and
    datagrams that local services send. *)
Inductive exchange : Type :=
  | FromTunnel (env : udp_env (sock := sock)) (now_ms : Z) (flow : UdpFlow) (packet : OwnedPacket)
  | FromOrigin (overflow_checks : bool) (now_ms : Z) (packet : UdpReceivedPacket).

Definition exchanged (x : exchange) u : outcome io_error (UdpClients (sock := sock)) :=
  match x with
  | FromTunnel env now_ms flow packet => handle_tunneled_packet env u now_ms flow packet
  | FromOrigin oc now_ms packet => '(_, u) ← dispatch_origin_packet oc u now_ms packet; Ok u
  end.

Fixpoint conversation (l : list exchange) u : outcome io_error (UdpClients (sock := sock)) :=
  match l with
  | [] => Ok u
  | x :: l => u ← exchanged x u; conversation l u
  end.

(** A datagram of the client [id], whose receive task is at work. *)
Definition belongs (id : Z) (flow : UdpFlow) (e : UdpFlowExtension) (x : exchange) : Prop :=
  match x with
  | FromTunnel env _ f _ =>
      flow_wf f ∧ UdpFlow_src f = UdpFlow_src flow ∧ env_ended env id = false ∧
      ∃ e', UdpFlow_extension f = Some e' ∧ ext_tunnel_id e' = ext_tunnel_id e
  | FromOrigin _ _ _ => True
  end.

(** The server id of the last datagram from the tunnel. *)
Definition latest (n : Z) (l : list exchange) : Z :=
  foldl (λ n x, match x with FromTunnel _ _ f _ => default n (UdpFlow_client_server_id f) | FromOrigin _ _ _ => n end) n l.

(** The client stays what it was opened as, under the server id [n]. *)
Record talking (id : Z) (flow : UdpFlow) (e : UdpFlowExtension) (target : SocketAddr) (n : Z) u : Prop := {
  tk_inv : clients_inv u;
  tk_origin : is_Some (OriginLookup_lookup (u_lookup u) (ext_tunnel_id e) false);
  tk_client : ∃ slot c, slab_get (virtual_clients u) slot = Some c ∧ c_id c = id ∧ c_key c = flow_key flow e ∧
    c_target_addr c = target ∧ rcv_closed (c_receiver c) = false ∧
    ∀ oc, reply_flow oc (c_flow c) (c_port_offset c) = Ok (UdpFlow_update_client_server_id (UdpFlow_flip flow) n);
}.

Lemma reply_flow_updated oc f off g n :
  reply_flow oc f off = Ok g →
  reply_flow oc (UdpFlow_update_client_server_id f n) off = Ok (UdpFlow_update_client_server_id g n).
Proof.
  destruct f as [src dst frag [x|]|src dst [x|]]; cbn; try done; destruct (u_add _ _ _ _); cbn; try done; by intros [= <-].
Qed.

Lemma update_id_twice f n m :
  UdpFlow_update_client_server_id (UdpFlow_update_client_server_id f n) m = UdpFlow_update_client_server_id f m.
Proof. by destruct f as [? ? ? []|? ? []]. Qed.

Lemma update_id_same f e :
  UdpFlow_extension f = Some e → UdpFlow_update_client_server_id (UdpFlow_flip f) (ext_client_server_id e) = UdpFlow_flip f.
Proof. destruct f as [? ? ? []|? ? []]; cbn; try done; by intros [= ->]; destruct e. Qed.

Lemma talking_tunnel id flow e target n u env now f e' packet :
  talking id flow e target n u → flow_wf f → UdpFlow_src f = UdpFlow_src flow → env_ended env id = false →
  UdpFlow_extension f = Some e' → ext_tunnel_id e' = ext_tunnel_id e →
  ∃ u', handle_tunneled_packet env u now f packet = Ok u' ∧ talking id flow e target (ext_client_server_id e') u'.
Proof.
  intros [[Ht Hg] [origin Ho] (slot & c & Hc & Hid & Hk & Htgt & Hcl & Hrep)] Hwf Hsrc Hend He Htn.
  destruct (tbl_bwd _ _ Ht _ _ Hc) as [Hl Hok].
  unfold handle_tunneled_packet. rewrite He, Htn, Ho. change {| source_addr := _; key_tunnel_id := _ |} with
    {| source_addr := UdpFlow_src f; key_tunnel_id := ext_tunnel_id e |}. rewrite Hsrc. fold (flow_key flow e).
  rewrite <-Hk, Hl, Hc. unfold is_closed. rewrite (ok_receiver _ _ Hok), Hid, Hend, Hcl. cbn [negb orb].
  match goal with |- context [send_to env ?w ?s ?d ?t] =>
    destruct (send_to_table env w s d t) as (Hl' & Hs' & Hg' & Hlk & _); set (w2 := send_to env w s d t) in * end.
  eexists. split; [done|].
  assert (Hp : set_receiver c {| rcv_id := id; rcv_closed := false |} = polled env c).
  { unfold polled, is_closed. by rewrite (ok_receiver _ _ Hok), Hid, Hend, Hcl. }
  assert (uint 64 (ext_client_server_id e') ∧ ext_client_server_id e' ≠ 0) as [? ?].
  { destruct f; cbn in He; subst; cbn in Hwf; unfold ext_wf in Hwf; tauto. }
  split.
  - unfold clients_inv. cbn [set_stats virtual_client_lookup virtual_clients next_client_generation].
    rewrite Hl', Hs', Hg'. split; [|done]. cbn. rewrite Hp. by apply refresh_table.
  - cbn [set_stats u_lookup]. rewrite Hlk. cbn. by rewrite Ho.
  - exists slot, (refresh_client (polled env c) now (ext_client_server_id e')). split_and!; try done.
    + cbn [set_stats virtual_clients]. rewrite Hs'. cbn. rewrite Hp. rewrite slab_get_set, decide_True; [done..|].
      rewrite slab_get_set, decide_True; [by eexists|done|by eexists].
    + cbn. unfold is_closed. by rewrite (ok_receiver _ _ Hok), Hid, Hend, Hcl.
    + intros oc. cbn. erewrite reply_flow_updated by apply Hrep. by rewrite update_id_twice.
Qed.

Lemma talking_origin id flow e target n u oc now packet :
  talking id flow e target n u →
  ∃ u', exchanged (FromOrigin oc now packet) u = Ok u' ∧ talking id flow e target n u'.
Proof.
  intros [Hi Ho (slot & c & Hc & Hid & Hk & Htgt & Hcl & Hrep)]. pose proof Hi as [Ht Hg]. unfold exchanged, dispatch_origin_packet.
  destruct (slab_get _ (unpack_slot _)) as [c'|] eqn:Hc'; [|eexists; split; [done|]; split; [done|done|by exists slot, c]].
  case_decide; [eexists; split; [done|]; split; [done|done|by exists slot, c]|].
  case_decide; [eexists; split; [done|]; split; [done|done|by exists slot, c]|].
  destruct (tbl_bwd _ _ Ht _ _ Hc') as [_ Hok']. destruct (reply_flow_ok oc c' _ Hok') as (g & -> & _). cbn.
  eexists. split; [done|]. split; [|done|].
  - split; [|done]. cbn. by eapply table_inv_set; [| |apply client_ok_origin_ts|].
  - cbn. setoid_rewrite slab_get_set; [|by eexists]. destruct (decide (slot = unpack_slot (rx_id packet))) as [->|Hne].
    + rewrite Hc in Hc'. injection Hc' as <-. exists (unpack_slot (rx_id packet)), (set_origin_ts c now).
      by rewrite decide_True.
    + exists slot, c. by rewrite decide_False.
Qed.

Lemma talking_conversation id flow e target l n u :
  talking id flow e target n u → Forall (belongs id flow e) l →
  ∃ u', conversation l u = Ok u' ∧ talking id flow e target (latest n l) u'.
Proof.
  intros Ht Hl. revert n u Ht. induction Hl as [|x l Hx _ IH]; intros n u Ht; [by exists u|].
  destruct x as [env now f packet|oc now packet]; cbn [conversation latest foldl].
  - destruct Hx as (Hwf & Hsrc & Hend & e' & He' & Htn).
    destruct (talking_tunnel id flow e target n u env now f e' packet) as (u1 & Hu & Ht1); [done..|].
    cbn [exchanged]. rewrite Hu. cbn [mbind outcome_bind]. unfold UdpFlow_client_server_id. rewrite He'. by apply IH.
  - destruct (talking_origin id flow e target n u oc now packet Ht) as (u1 & Hu & Ht1). rewrite Hu. by apply IH.
Qed.

(** C6: A tunnelled conversation. The first datagram of a flow opens a client.
    Whatever further datagrams of the same source and tunnel arrive, and
    whatever local services send, in any order and while the client's receive
    task runs, nothing panics, and what the local service sends from the
    client's target is returned to the tunnel under the flow of the first
    datagram with source and destination exchanged: same addresses, same
    ports, same tunnel id and port offset, although the table keeps the flow
    without its offset, and the server id of the last datagram that came from
    the tunnel. The bytes of that first datagram are not counted as received. *)
Theorem tunnel_reply_roundtrip env u (now_ms : Z) (flow : UdpFlow) (e : UdpFlowExtension)
    (target : SocketAddr) (socket : sock) (packet : OwnedPacket) :
  clients_inv u → flow_wf flow → opens env u flow e target socket →
  ext_port_offset e ≤ SocketAddr_port (UdpFlow_dst flow) →
  Z.of_nat (slab_vacant_key (virtual_clients u)) < 2 ^ 32 →
  ∃ u' id, handle_tunneled_packet env u now_ms flow packet = Ok u' ∧ clients_inv u' ∧
    bytes_in (u_stats u') = bytes_in (u_stats u) ∧
    ∀ later, Forall (belongs id flow e) later →
    ∃ u'', conversation later u' = Ok u'' ∧ clients_inv u'' ∧
    ∀ overflow_checks now_ms' pk, ∃ u3,
      dispatch_origin_packet overflow_checks u'' now_ms'
        {| rx_id := id; rx_packet := pk; rx_from := target |} =
      Ok (Some (UdpFlow_update_client_server_id (UdpFlow_flip flow) (latest (ext_client_server_id e) later), pk), u3).
Proof.
  intros Hi Hwf Hopen Hoff Hv. pose proof Hopen as [He Hl _ (o & Ho & _)].
  destruct (opens_handle env u now_ms flow e target socket packet Hopen) as [origin Hh].
  destruct (add_client_ok env u now_ms flow e packet (flow_key flow e) origin target socket)
    as (u' & c & Ha & Hi' & Hc & Htgt & Hk & _ & Hb & Hlk & Hcl & Hrep); [done..|].
  exists u', (c_id c). split; [by rewrite Hh|]. split_and!; [done | done |]. intros later Hlater.
  destruct (talking_conversation (c_id c) flow e target later (ext_client_server_id e) u') as (u2 & Hu2 & Ht2); [|done|].
  { split; [done|by rewrite Hlk, Ho|]. eexists _, c. split_and!; try done. intros oc. by rewrite Hrep, update_id_same. }
  exists u2. destruct Ht2 as [Hi2 _ (slot & c2 & Hc2 & Hid & _ & Htgt2 & _ & Hrep2)]. split_and!; [done|done|].
  intros oc now' pk. pose proof Hi2 as [Ht2 _]. destruct (tbl_bwd _ _ Ht2 _ _ Hc2) as [_ Hok].
  destruct (ok_id _ _ Hok) as (g & _ & Hid2). unfold dispatch_origin_packet. cbn [rx_id rx_from rx_packet].
  rewrite <-Hid, Hid2, unpack_pack by apply Hok. rewrite Hc2, <-Hid2.
  rewrite !decide_False by (intros Hne; by apply Hne). rewrite Hrep2. by eexists.
Qed.

(** A datagram of a known client goes to the target the client was
    opened with, whatever port offset the datagram asks for (the table is
    keyed by source address and tunnel only); the client's receive time and
    server id are refreshed, its bytes counted, every other client is left
    alone. *)
Theorem known_client_forward env u (now_ms : Z) (flow : UdpFlow) (e : UdpFlowExtension)
    (packet : OwnedPacket) (slot : nat) c :
  clients_inv u → UdpFlow_extension flow = Some e →
  is_Some (OriginLookup_lookup (u_lookup u) (ext_tunnel_id e) false) →
  virtual_client_lookup u !! flow_key flow e = Some slot →
  slab_get (virtual_clients u) slot = Some c → closed_now env c = false →
  ∃ u', handle_tunneled_packet env u now_ms flow packet = Ok u' ∧
    u_events u' = u_events u ++ EvSend (c_socket c) (pk_bytes packet) (c_target_addr c) ::
      (if env_send_ok env (pk_bytes packet) (c_target_addr c) then [] else [EvError origin_send_io_error]) ∧
    u_stats u' = add_bytes_in (u_stats u) (Z.of_nat (pk_len packet)) ∧
    virtual_client_lookup u' = virtual_client_lookup u ∧
    ∀ i, slab_get (virtual_clients u') i =
      if decide (i = slot)
      then Some (refresh_client (polled env c) now_ms (ext_client_server_id e))
      else slab_get (virtual_clients u) i.
Proof.
  intros Hi He [origin Ho] Hl Hc Hopen. unfold handle_tunneled_packet. rewrite He, Ho.
  fold (flow_key flow e). rewrite Hl, Hc. unfold closed_now in Hopen.
  unfold polled. destruct (is_closed env (c_receiver c)) as [cl r]. cbn in Hopen. subst cl. cbn [negb].
  eexists. split; [done|]. unfold send_to. split_and!.
  - destruct (env_send_ok env _ _); cbn; [done | by rewrite <-app_assoc].
  - by destruct (env_send_ok env _ _).
  - by destruct (env_send_ok env _ _).
  - intros i. assert (∀ x : Client, slab_get (slab_set (slab_set (virtual_clients u) slot
      (set_receiver c r)) slot x) i = if decide (i = slot) then Some x else slab_get (virtual_clients u) i) as Hg.
    { intros x. rewrite slab_get_set, slab_get_set;
        [by case_decide | by eexists | rewrite slab_get_set, decide_True by (done || by eexists); by eexists]. }
    destruct (env_send_ok env _ _); cbn; apply Hg.
Qed.

(** A flow whose port offset exceeds its destination port stops the
    agent: opening a client for it fails an [assert!]. The tunnel server
    decides both numbers, and an origin without a port range accepts every
    offset. *)
Theorem port_offset_panics env u (now_ms : Z) (flow : UdpFlow) (e : UdpFlowExtension)
    (target : SocketAddr) (socket : sock) (packet : OwnedPacket) :
  flow_wf flow → opens env u flow e target socket →
  SocketAddr_port (UdpFlow_dst flow) < ext_port_offset e →
  handle_tunneled_packet env u now_ms flow packet = Panic.
Proof.
  intros Hwf Hopen Hlt. pose proof Hopen as [He _ _ _].
  destruct (opens_handle env u now_ms flow e target socket packet Hopen) as [origin ->].
  unfold add_client. case_bool_decide; [|done]. cbn [assert mbind outcome_bind].
  assert (new_client_flow flow (ext_port_offset e) = Panic) as ->; [|done].
  unfold new_client_flow. destruct flow as [? [] ? ?|? [] ?]; cbn in *; subst; cbn in *;
    unfold SocketAddrV4_wf, uint in Hwf; cbn in Hwf;
    rewrite decide_True by lia; by rewrite bool_decide_eq_false_2 by lia.
Qed.
End theory.

(** ** A reference slab and a running example *)

Definition ref_slab : SlabLib := {|
  slab T := gmap nat T;
  slab_with_capacity T _ := ∅;
  slab_get T s i := s !! i;
  slab_set T s i x := <[i := x]> s;
  slab_remove T s i := match s !! i with Some x => Some (x, delete i s) | None => None end;
  slab_vacant_key T s := fresh (dom s : gset nat);
  slab_insert T s x := <[fresh (dom s : gset nat) := x]> s;
  slab_iter T s := map_to_list s;
  slab_len T s := Z.of_nat (size s);
|}.

Lemma ref_slab_laws : SlabLaws ref_slab.
Proof.
  split; cbn.
  - intros. apply lookup_empty.
  - intros. by rewrite map_size_empty.
  - intros T s i x j _. case_decide; subst; [by rewrite lookup_insert_eq | by rewrite lookup_insert_ne].
  - intros T s. apply not_elem_of_dom, is_fresh.
  - intros T s x j. case_decide; subst; [by rewrite lookup_insert_eq | by rewrite lookup_insert_ne].
  - intros T s i. destruct (s !! i) as [x|]; [|done]. eexists. split; [done|].
    intros j. case_decide; subst; [by rewrite lookup_delete_eq | by rewrite lookup_delete_ne].
  - intros T s. apply NoDup_fst_map_to_list.
  - intros T s i x. apply elem_of_map_to_list.
  - intros T s. by rewrite length_map_to_list.
Qed.

Definition sample_env : udp_env (sock := SocketAddr) := {|
  env_ended _ := false;
  env_shutdown_in_time _ := true;
  env_limiter_ok := true;
  env_lookup_host _ _ := None;
  env_bind a := Ok a;
  env_send_ok _ _ := true;
|}.

Definition sample_clients : UdpClients (SL := ref_slab) (sock := SocketAddr) :=
  UdpClients_new (OriginLookup_update OriginLookup_default [sample_resource]) AgentStats_new.

Definition sample_ext (port_offset : Z) : UdpFlowExtension :=
  {| ext_client_server_id := 12; ext_tunnel_id := 7; ext_port_offset := port_offset |}.

(** A client at 4.2.1.3:1234 talking to port 25567 of the tunnel. *)
Definition sample_tunnel_flow (dst_port port_offset : Z) : UdpFlow :=
  FlowV4 (SockV4 0x04020103 1234) (SockV4 0x01020304 dst_port) None (Some (sample_ext port_offset)).

Definition sample_target : SocketAddr := SaV4 (SockV4 0x7F000001 25567).

Definition sample_packet : OwnedPacket :=
  {| pk_full := replicate 2048 Byte.x41; pk_len := 3 |}.

#[local] Existing Instance big_endian.
#[local] Existing Instance big_endian_laws.
#[local] Existing Instance ref_slab.
#[local] Existing Instance ref_slab_laws.

Lemma UdpClients_new_inv lookup stats :
  clients_inv (UdpClients_new (SL := ref_slab) (sock := SocketAddr) lookup stats).
Proof.
  split; [|by vm_compute]. split; cbn.
  - intros key slot. by rewrite lookup_empty.
  - intros slot c. by rewrite lookup_empty.
Qed.

(** The socket the client is given. *)
Definition sample_socket (dst_port port_offset : Z) : SocketAddr :=
  match LanAddress_udp_socket (env_bind sample_env) true
          (UdpFlow_src (sample_tunnel_flow dst_port port_offset)) sample_target 7 with
  | Ok a => a
  | _ => sample_target
  end.

Lemma sample_opens dst_port :
  opens sample_env sample_clients (sample_tunnel_flow dst_port 2) (sample_ext 2) sample_target
    (sample_socket dst_port 2).
Proof.
  split; [done | apply lookup_empty | done |].
  exists sample_resource. split_and!; [by vm_compute..|]. cbn [sample_tunnel_flow UdpFlow_src].
  vm_compute. reflexivity.
Qed.

(** The table after the first datagram. *)
Lemma sample_table :
  ∃ (u : UdpClients (SL := ref_slab) (sock := SocketAddr)) slot c,
    clients_inv u ∧ slab_get (virtual_clients u) slot = Some c ∧
    c_target_addr c = sample_target ∧ c_key c = flow_key (sample_tunnel_flow 25567 2) (sample_ext 2) ∧
    virtual_client_lookup u !! c_key c = Some slot.
Proof.
  destruct (add_client_ok sample_env sample_clients 1000 (sample_tunnel_flow 25567 2) (sample_ext 2)
    sample_packet (flow_key (sample_tunnel_flow 25567 2) (sample_ext 2)) sample_resource sample_target
    sample_target) as (u & c & _ & Hi & Hc & Ht & Hk & _).
  - apply UdpClients_new_inv.
  - decide_now.
  - done.
  - decide_now.
  - done.
  - apply lookup_empty.
  - by vm_compute.
  - eexists u, _, c. split_and!; [done | exact Hc | done | done |].
    destruct Hi as [Hi _]. by apply (tbl_bwd _ _ Hi).
Qed.

Lemma clear_old_spec_witness :
  ∃ (u u' : UdpClients (SL := ref_slab) (sock := SocketAddr)),
    (∃ slot, is_Some (slab_get (virtual_clients u) slot)) ∧ clear_old sample_env u 200000 = Ok u'.
Proof.
  destruct sample_table as (u & slot & c & Hi & Hc & _).
  destruct (clear_old_spec sample_env u 200000) as (u' & Hu & _).
  - exact Hi.
  - intros. reflexivity.
  - exists u, u'. split; [exists slot; by rewrite Hc | exact Hu].
Defined.

Lemma dispatch_origin_packet_spec_witness :
  ∃ (u : UdpClients (SL := ref_slab) (sock := SocketAddr)) id o u',
    dispatch_origin_packet true u 2000 {| rx_id := id; rx_packet := sample_packet;
      rx_from := sample_target |} = Ok (o, u') ∧ is_Some o.
Proof.
  destruct sample_table as (u & slot & c & Hi & Hc & Ht & _).
  destruct (dispatch_origin_packet_spec true u 2000
    {| rx_id := c_id c; rx_packet := sample_packet; rx_from := sample_target |})
    as (o & u' & Hu & _ & Ho & _).
  - exact Hi.
  - exists u, (c_id c), o, u'. split; [exact Hu|]. apply Ho. exists slot, c. done.
Defined.

Lemma handle_tunneled_packet_safe_witness :
  ∃ u', handle_tunneled_packet sample_env sample_clients 1000 (sample_tunnel_flow 25567 2)
          sample_packet = Ok u'.
Proof.
  destruct (handle_tunneled_packet_safe sample_env sample_clients 1000
    (sample_tunnel_flow 25567 2) sample_packet) as (u' & Hu & _).
  - apply UdpClients_new_inv.
  - decide_now.
  - intros e [= <-]. decide_now.
  - done.
  - by vm_compute.
  - exists u'. exact Hu.
Defined.

(** Two datagrams and a reply. *)
Lemma tunnel_reply_roundtrip_witness :
  ∃ u' id u'' u3,
    handle_tunneled_packet sample_env sample_clients 1000 (sample_tunnel_flow 25567 2)
      sample_packet = Ok u' ∧
    conversation [FromTunnel sample_env 1001 (sample_tunnel_flow 25567 2) sample_packet] u' = Ok u'' ∧
    dispatch_origin_packet true u'' 1002
      {| rx_id := id; rx_packet := sample_packet; rx_from := sample_target |} =
    Ok (Some (UdpFlow_flip (sample_tunnel_flow 25567 2), sample_packet), u3).
Proof.
  destruct (tunnel_reply_roundtrip sample_env sample_clients 1000 (sample_tunnel_flow 25567 2)
    (sample_ext 2) sample_target (sample_socket 25567 2) sample_packet)
    as (u' & id & Hu & _ & _ & Hd).
  - apply UdpClients_new_inv.
  - decide_now.
  - apply sample_opens.
  - decide_now.
  - by vm_compute.
  - destruct (Hd [FromTunnel sample_env 1001 (sample_tunnel_flow 25567 2) sample_packet]) as (u'' & Hu'' & _ & Hr).
    + apply Forall_singleton. split_and!; [decide_now|done|done|by exists (sample_ext 2)].
    + destruct (Hr true 1002 sample_packet) as [u3 Hr']. exists u', id, u'', u3. split_and!; [exact Hu|exact Hu''|exact Hr'].
Defined.

Lemma known_client_forward_witness :
  ∃ (u : UdpClients (SL := ref_slab) (sock := SocketAddr)) u',
    handle_tunneled_packet sample_env u 1000 (sample_tunnel_flow 25565 0) sample_packet = Ok u'.
Proof.
  destruct sample_table as (u & slot & c & Hi & Hc & Ht & Hk & Hl).
  set (l := OriginLookup_update OriginLookup_default [sample_resource]).
  set (u0 := {| u_lookup := l; virtual_client_lookup := virtual_client_lookup u;
    virtual_clients := slab_set (virtual_clients u) slot (set_receiver c
      {| rcv_id := c_id c; rcv_closed := false |});
    next_client_generation := next_client_generation u; u_stats := u_stats u; u_events := [] |}).
  destruct (known_client_forward sample_env u0 1000 (sample_tunnel_flow 25565 0) (sample_ext 0)
    sample_packet slot (set_receiver c {| rcv_id := c_id c; rcv_closed := false |}))
    as (u' & Hu & _).
  - destruct Hi as [Ht' Hg]. split; [|exact Hg]. destruct (tbl_bwd _ _ Ht' _ _ Hc) as [_ Hok].
    eapply table_inv_set; [exact Ht' | exact Hc | | done].
    apply client_ok_receiver; [done|]. by rewrite (ok_receiver _ _ Hok).
  - done.
  - decide_now.
  - cbn. rewrite <-Hl, Hk. done.
  - cbn. by rewrite lookup_insert_eq.
  - done.
  - exists u0, u'. exact Hu.
Defined.

Lemma port_offset_panics_witness :
  handle_tunneled_packet sample_env sample_clients 1000 (sample_tunnel_flow 1 2) sample_packet = Panic.
Proof.
  apply (port_offset_panics sample_env sample_clients 1000 (sample_tunnel_flow 1 2) (sample_ext 2)
    sample_target (sample_socket 1 2) sample_packet).
  - decide_now.
  - apply sample_opens.
  - decide_now.
Defined.
