(* ===== verification/UdpChannel.v ===== *)
(** * The UDP channel (agent_core/src/network/udp/udp_channel.rs)

    Two tasks share a socket to the tunnel server: one sends datagrams with
    their flow appended and keeps the session established, the other checks
    what arrives and takes the flow off again. *)

From S2P Require Import Prelude Bytes Net UdpProto ControlMessages Packets Utils.

(** ** State *)

(** Behind atomics and a lock, shared by both tasks and the handle. *)
Record Shared : Type := {
  establish_rx_epoch : Z;
  establish_tx_epoch : Z;
  session_tunnel_addr : option SocketAddr;
}.

Definition Shared_default : Shared :=
  {| establish_rx_epoch := 0; establish_tx_epoch := 0; session_tunnel_addr := None |}.

Definition store_rx (s : Shared) (v : Z) : Shared :=
  {| establish_rx_epoch := v; establish_tx_epoch := establish_tx_epoch s;
     session_tunnel_addr := session_tunnel_addr s |}.

Definition store_tx (s : Shared) (v : Z) : Shared :=
  {| establish_rx_epoch := establish_rx_epoch s; establish_tx_epoch := v;
     session_tunnel_addr := session_tunnel_addr s |}.

Definition store_addr (s : Shared) (a : SocketAddr) : Shared :=
  {| establish_rx_epoch := establish_rx_epoch s; establish_tx_epoch := establish_tx_epoch s;
     session_tunnel_addr := Some a |}.

(** [SendTask] with the local variable of its loop. *)
Record SendTask : Type := {
  session : option UdpChannelDetails;
  last_establish_send : Z;
}.

Inductive chan_event : Type :=
  | ChanError (e : UdpErrors)
  | ChanSend (data : list byte) (dst : SocketAddr).

(** ** The handle *)

(** [time_since_established] and [time_since_establish_send], in
    milliseconds. *)
Definition time_since (ts now_milli : Z) : option Z :=
  if decide (ts = 0) then None else Some (Z.max now_milli ts - ts).

Definition time_since_established (s : Shared) (now_milli : Z) : option Z :=
  time_since (establish_rx_epoch s) now_milli.

Definition time_since_establish_send (s : Shared) (now_milli : Z) : option Z :=
  time_since (establish_tx_epoch s) now_milli.

Section channel.
Context {BO : ByteOrder}.

(** [socket.send_to(data, dst).await.is_ok()]. *)
Context (send_ok : list byte → SocketAddr → bool).

Definition chan_send (data : list byte) (dst : SocketAddr) (e : UdpErrors) : list chan_event :=
  ChanSend data dst :: if send_ok data dst then [] else [ChanError e].

(** ** Sending *)

(** When the timer of the loop fires, in milliseconds of the monotonic
    clock. *)
Definition MIN_INTERVAL : Z := 3000.

Definition MAX_ESTABLISH_WAIT : Z := 15000.

Definition SEND_INTERVAL : Z := 10000.

Definition next_send (t : SendTask) (s : Shared) (now_instant now_milli : Z) : Z :=
  match session t with
  | None => now_instant + 5000
  | Some _ =>
      let last_rx := establish_rx_epoch s in
      let since_establish := Z.max now_milli last_rx - last_rx in
      if decide (MAX_ESTABLISH_WAIT ≤ since_establish) then last_establish_send t + MIN_INTERVAL
      else last_establish_send t + SEND_INTERVAL
  end.

Definition send_establish (t : SendTask) (s : Shared) (now_milli : Z) : Shared * list chan_event :=
  match session t with
  | None => (s, [ChanError establish_no_session])
  | Some session =>
      (store_tx s now_milli,
       chan_send (ucd_token session) (ucd_tunnel_addr session) establish_send_io_error)
  end.

Definition handle_session (t : SendTask) (s : Shared) (details : UdpChannelDetails)
    (now_milli : Z) : SendTask * Shared * list chan_event :=
  let should_send :=
    match session t with
    | None => true
    | Some old =>
        if decide (old ≠ details) then true
        else bool_decide (5000 < saturating_sub now_milli (establish_rx_epoch s))
    end in
  let s := store_addr s (ucd_tunnel_addr details) in
  let t := {| session := Some details; last_establish_send := last_establish_send t |} in
  if should_send then
    let '(s, ev) := send_establish t s now_milli in
    (t, s, ev)
  else (t, s, []).

(** [send(&self, flow, packet)]: the datagram sent and the errors counted. *)
Definition SendTask_send (t : SendTask) (flow : UdpFlow) (packet : OwnedPacket) :
    outcome io_error (list chan_event) :=
  match session t with
  | None => Ok [ChanError no_session_send_fail]
  | Some session =>
      let og_len := pk_len packet in
      remaining ← slice_from og_len (pk_full packet);
      '(ok, remaining) ← UdpFlow_write_to flow remaining;
      let full := take og_len (pk_full packet) ++ remaining in
      if negb ok then Ok [ChanError tail_append_fail]
      else
        match pk_set_len {| pk_full := full; pk_len := og_len |} (og_len + UdpFlow_footer_len flow) with
        | Ok packet => Ok (chan_send (pk_bytes packet) (ucd_tunnel_addr session) send_io_error)
        | _ => Panic
        end
  end.

(** One turn of the [select!] loop. *)
Inductive send_input : Type :=
  | InTimer
  | InSession (details : UdpChannelDetails)
  | InSend (flow : UdpFlow) (packet : OwnedPacket).

Definition SendTask_step (t : SendTask) (s : Shared) (i : send_input) (now_instant now_milli : Z) :
    outcome io_error (SendTask * Shared * list chan_event) :=
  match i with
  | InTimer =>
      let t := {| session := session t; last_establish_send := now_instant |} in
      let '(s, ev) := send_establish t s now_milli in
      Ok (t, s, ev)
  | InSession details => Ok (handle_session t s details now_milli)
  | InSend flow packet =>
      ev ← SendTask_send t flow packet;
      Ok (t, s, ev)
  end.

(** ** Receiving *)

(** What [recv_from] leaves in the packet. *)
Definition received (packet : OwnedPacket) (data : list byte) : OwnedPacket :=
  {| pk_full := data ++ drop (length data) (pk_full packet); pk_len := pk_len packet |}.

(** One turn of the receive loop: what is passed on, and the packet kept for
    the next turn when nothing is. *)
Definition RecvTask_step (s : Shared) (packet : OwnedPacket)
    (recv : option (list byte * SocketAddr)) (now_milli : Z) :
    outcome io_error (option (UdpFlow * OwnedPacket) * OwnedPacket * Shared * list chan_event) :=
  match recv with
  | None => Ok (None, packet, s, [ChanError recv_io_error])
  | Some (data, source) =>
      let packet := received packet data in
      match session_tunnel_addr s with
      | None => Ok (None, packet, s, [ChanError recv_with_no_session])
      | Some session_addr =>
          if decide (session_addr ≠ source) then
            Ok (None, packet, s, [ChanError recv_source_no_match])
          else
            match pk_set_len packet (length data) with
            | Ok packet =>
                match UdpFlow_from_tail (pk_bytes packet) with
                | Panic => Panic
                | Err (Some footer) =>
                    if decide (footer = UDP_CHANNEL_ESTABLISH_ID) then
                      Ok (None, packet, store_rx s now_milli, [])
                    else Ok (None, packet, s, [ChanError recv_invalid_footer_id])
                | Err None => Ok (None, packet, s, [ChanError recv_too_small])
                | Ok flow =>
                    match pk_set_len packet (length data - UdpFlow_footer_len flow) with
                    | Ok packet => Ok (Some (flow, packet), packet, s, [])
                    | _ => Panic
                    end
                end
            | _ => Panic
            end
      end
  end.
End channel.

(** ** Facts *)

Section facts.
Context {BO : ByteOrder} {BOL : ByteOrderLaws BO}.

(** The datagram of a packet: its bytes and then its flow. *)
Lemma SendTask_send_ok send_ok t details flow packet :
  session t = Some details → pk_wf packet → flow_wf flow →
  SendTask_send send_ok t flow packet =
  Ok (if decide (pk_len packet + UdpFlow_footer_len flow ≤ PACKET_LEN)%nat
      then chan_send send_ok (pk_bytes packet ++ flow_enc flow) (ucd_tunnel_addr details) send_io_error
      else [ChanError tail_append_fail]).
Proof.
  intros Hs [Hfull Hlen] Hwf. unfold SendTask_send, slice_from. rewrite Hs.
  rewrite decide_True by lia. cbn [mbind outcome_bind]. case_decide as Hfit.
  - rewrite write_to_enough by (done || (rewrite length_drop; lia)). cbn [mbind outcome_bind negb].
    unfold pk_set_len. rewrite decide_False by lia. cbn [pk_full].
    unfold pk_bytes. cbn [pk_full pk_len]. do 2 f_equal.
    rewrite take_app_ge by (rewrite length_take; lia). rewrite length_take, Nat.min_l by lia.
    f_equal. replace (pk_len packet + UdpFlow_footer_len flow - pk_len packet)%nat
      with (UdpFlow_footer_len flow) by lia.
    by apply take_app_exact; rewrite length_flow_enc.
  - unfold UdpFlow_write_to. rewrite decide_True by (rewrite length_drop; lia). done.
Qed.

Lemma received_bytes packet data :
  pk_bytes {| pk_full := pk_full (received packet data); pk_len := length data |} = data.
Proof. unfold pk_bytes, received. cbn. by rewrite take_app_length. Qed.

(** The result of one receive, spelled out. *)
Lemma RecvTask_step_flow s packet data source addr now f :
  session_tunnel_addr s = Some addr → addr = source → (length data ≤ PACKET_LEN)%nat →
  UdpFlow_from_tail data = Ok f →
  ∃ pk, RecvTask_step s packet (Some (data, source)) now = Ok (Some (f, pk), pk, s, []) ∧
    pk_bytes pk = take (length data - UdpFlow_footer_len f) data.
Proof.
  intros Hs <- Hlen Hf. unfold RecvTask_step. rewrite Hs, decide_False by (intros H; by apply H).
  unfold pk_set_len at 1. rewrite decide_False by lia. rewrite received_bytes, Hf.
  unfold pk_set_len. rewrite decide_False by lia. eexists. split; [done|].
  unfold pk_bytes, received. cbn. rewrite take_app_le by lia. done.
Qed.

(** C5: A datagram survives the channel. With a session, sending a packet hands
    one datagram to the socket, the packet's bytes followed by the footer of
    its flow, addressed to the tunnel server; when the socket refuses it, that
    is counted and the datagram is not sent again. A packet without room for
    the footer is counted and nothing is sent. The receiving end of a channel
    with the same peer delivers the very bytes of the packet and its flow: the
    same flow, except that the footer of an IPv4 flow without an extension has
    no place for a fragment, which is then left out. *)
Theorem channel_roundtrip send_ok (t : SendTask) (details : UdpChannelDetails) (flow : UdpFlow)
    (packet rpacket : OwnedPacket) (s : Shared) (source : SocketAddr) (now : Z) :
  session t = Some details → pk_wf packet → flow_wf flow →
  session_tunnel_addr s = Some source →
  if decide (pk_len packet + UdpFlow_footer_len flow ≤ PACKET_LEN)%nat
  then ∃ footer, length footer = UdpFlow_footer_len flow ∧
      let data := pk_bytes packet ++ footer in
      SendTask_send send_ok t flow packet =
        Ok (ChanSend data (ucd_tunnel_addr details) ::
            if send_ok data (ucd_tunnel_addr details) then [] else [ChanError send_io_error]) ∧
      (∃ pk, RecvTask_step s rpacket (Some (data, source)) now = Ok (Some (flow_norm flow, pk), pk, s, []) ∧
             pk_bytes pk = pk_bytes packet) ∧
      ((∀ src dst frag, flow ≠ FlowV4 src dst (Some frag) None) → flow_norm flow = flow)
  else SendTask_send send_ok t flow packet = Ok [ChanError tail_append_fail].
Proof.
  intros Hs Hpk Hwf Haddr. rewrite (SendTask_send_ok send_ok t details) by done.
  case_decide as Hfit; [|done]. destruct Hpk as [Hfull Hlen].
  assert (length (pk_bytes packet) = pk_len packet) as Hb
    by (unfold pk_bytes; rewrite length_take; lia).
  assert (length (pk_bytes packet ++ flow_enc flow) = pk_len packet + UdpFlow_footer_len flow)%nat
    as Hdata by (by rewrite length_app, length_flow_enc, Hb).
  exists (flow_enc flow). split; [by rewrite length_flow_enc|]. split; [done|].
  assert (UdpFlow_from_tail (pk_bytes packet ++ flow_enc flow) = Ok (flow_norm flow)) as Hft.
  { rewrite <-(flow_enc_norm flow). by apply from_tail_enc. }
  assert (UdpFlow_footer_len (flow_norm flow) = UdpFlow_footer_len flow) as Hnl
    by (by rewrite <-!length_flow_enc, flow_enc_norm).
  split; [|destruct flow as [? ? [] []|]; cbn; naive_solver].
  destruct (RecvTask_step_flow s rpacket (pk_bytes packet ++ flow_enc flow) source source now (flow_norm flow))
    as (pk & Hr & Hbytes); [done | done | lia | done |].
  exists pk. split; [done|]. rewrite Hbytes, Hdata, Hnl.
  apply take_app_exact. lia.
Qed.

(** What the receive task lets through. No datagram that fits a packet
    makes it panic. Without a session, or from another address than the
    session's, nothing is delivered and the shared state does not change;
    from the session's address an establish reply only stamps the receive
    time, and a datagram that ends in a flow is delivered without the
    footer, the flow well formed. *)
Theorem channel_receive_filter (s : Shared) (packet : OwnedPacket) (data : list byte)
    (source : SocketAddr) (now : Z) :
  (length data ≤ PACKET_LEN)%nat →
  ∃ o pk s' ev, RecvTask_step s packet (Some (data, source)) now = Ok (o, pk, s', ev) ∧
    (session_tunnel_addr s ≠ Some source → o = None ∧ s' = s ∧ length ev = 1%nat) ∧
    (session_tunnel_addr s = Some source →
       match UdpFlow_from_tail data with
       | Ok f => s' = s ∧ ev = [] ∧ o = Some (f, pk) ∧ flow_wf f ∧
                 pk_bytes pk = take (length data - UdpFlow_footer_len f) data ∧
                 (UdpFlow_footer_len f ≤ length data)%nat
       | Err e => o = None ∧
           s' = (if decide (e = Some UDP_CHANNEL_ESTABLISH_ID) then store_rx s now else s)
       | Panic => False
       end).
Proof.
  intros Hlen. destruct (decide (session_tunnel_addr s = Some source)) as [Hs|Hs].
  - pose proof (from_tail_parsed data) as Hp. destruct (UdpFlow_from_tail data) as [f|e|] eqn:Hf.
    + destruct (RecvTask_step_flow s packet data source source now f Hs eq_refl Hlen Hf)
        as (pk & Hr & Hb). destruct Hp as (Hwf & _ & Hle).
      eexists _, _, _, _. split; [exact Hr|]. split; [done|]. intros _. by split_and!.
    + unfold RecvTask_step. rewrite Hs, decide_False by (intros H; by apply H).
      unfold pk_set_len. rewrite decide_False by lia. rewrite received_bytes, Hf.
      destruct e as [id|]; [case_decide|]; (eexists _, _, _, _; split; [done|]; split; [done|]);
        intros _; case_decide; naive_solver.
    + done.
  - unfold RecvTask_step. destruct (session_tunnel_addr s) as [a|] eqn:Ha.
    + rewrite decide_True by congruence. by eexists _, _, _, _.
    + by eexists _, _, _, _.
Qed.

(** Keeping the session alive. Once the task has a session, its timer
    is due between three and ten seconds after the last establish message,
    three exactly when the server has not answered for fifteen seconds; when
    it fires, the session's token is sent to the session's address and the
    send time recorded. A new or changed session is announced at once, an
    unchanged one only when the server has been silent for five seconds, and
    in every case the receive task accepts its address from then on. *)
Theorem channel_establish_schedule send_ok (t : SendTask) (s : Shared)
    (details : UdpChannelDetails) (now_instant now_milli : Z) :
  (is_Some (session t) →
     3000 ≤ next_send t s now_instant now_milli - last_establish_send t ≤ 10000 ∧
     (next_send t s now_instant now_milli = last_establish_send t + 3000 ↔
        15000 ≤ saturating_sub now_milli (establish_rx_epoch s))) ∧
  (∃ t' s' ev, handle_session send_ok t s details now_milli = (t', s', ev) ∧
     session t' = Some details ∧ session_tunnel_addr s' = Some (ucd_tunnel_addr details) ∧
     ((∃ ev', ev = ChanSend (ucd_token details) (ucd_tunnel_addr details) :: ev') ↔
        session t ≠ Some details ∨ 5000 < saturating_sub now_milli (establish_rx_epoch s)) ∧
     SendTask_step send_ok t' s' InTimer now_instant now_milli =
       Ok ({| session := Some details; last_establish_send := now_instant |},
           store_tx s' now_milli,
           chan_send send_ok (ucd_token details) (ucd_tunnel_addr details) establish_send_io_error)).
Proof.
  split.
  - intros [d Hd]. unfold next_send, saturating_sub. rewrite Hd.
    unfold MAX_ESTABLISH_WAIT, MIN_INTERVAL, SEND_INTERVAL. case_decide; lia.
  - unfold handle_session.
    set (should := match session t with None => true | Some _ => _ end).
    assert (should = true ↔
      session t ≠ Some details ∨ 5000 < saturating_sub now_milli (establish_rx_epoch s)) as Hsh.
    { unfold should. destruct (session t) as [old|]; [|naive_solver].
      case_decide as Hne; [naive_solver|]. subst old. rewrite bool_decide_eq_true. naive_solver. }
    destruct should; cbn; (eexists _, _, _; split_and!; [done..| | done]).
    + rewrite <-Hsh. split; [done|]. intros _. by eexists.
    + rewrite <-Hsh. split; [by intros []|done].
Qed.
End facts.

Definition sample_details : UdpChannelDetails :=
  {| ucd_tunnel_addr := SaV4 (SockV4 0x05060708 5522); ucd_token := [Byte.x01; Byte.x02] |}.

Definition sample_task : SendTask :=
  {| session := Some sample_details; last_establish_send := 0 |}.

Definition sample_shared : Shared :=
  {| establish_rx_epoch := 10; establish_tx_epoch := 5;
     session_tunnel_addr := Some (SaV4 (SockV4 0x05060708 5522)) |}.

Definition sample_payload : OwnedPacket :=
  {| pk_full := replicate 2048 Byte.x41; pk_len := 100 |}.

Lemma channel_roundtrip_witness :
  ∃ data pk,
    SendTask_send (BO := big_endian) (λ _ _, true) sample_task sample_flow sample_payload =
      Ok [ChanSend data (ucd_tunnel_addr sample_details)] ∧
    RecvTask_step (BO := big_endian) sample_shared sample_payload
      (Some (data, SaV4 (SockV4 0x05060708 5522))) 20 = Ok (Some (sample_flow, pk), pk, sample_shared, []).
Proof.
  pose proof (channel_roundtrip (BO := big_endian) (BOL := big_endian_laws) (λ _ _, true)
    sample_task sample_details sample_flow sample_payload sample_payload sample_shared
    (SaV4 (SockV4 0x05060708 5522)) 20) as H.
  rewrite decide_True in H by (unfold PACKET_LEN; cbn; lia).
  destruct H as (footer & _ & Hs & (pk & Hr & _) & Hn).
  - reflexivity.
  - split; [by vm_compute | cbn; unfold PACKET_LEN; lia].
  - decide_now.
  - reflexivity.
  - exists (pk_bytes sample_payload ++ footer), pk. split; [exact Hs|exact Hr].
Defined.

Lemma channel_receive_filter_witness :
  ∃ o pk s' ev, RecvTask_step (BO := big_endian) sample_shared sample_payload
    (Some ([Byte.x00], SaV4 (SockV4 0 1))) 20 = Ok (o, pk, s', ev) ∧ o = None.
Proof.
  destruct (channel_receive_filter (BO := big_endian) (BOL := big_endian_laws) sample_shared
    sample_payload [Byte.x00] (SaV4 (SockV4 0 1)) 20) as (o & pk & s' & ev & Hr & Hno & _).
  - cbn. unfold PACKET_LEN. lia.
  - exists o, pk, s', ev. split; [exact Hr|]. apply Hno. by intros [= ?].
Defined.

Lemma channel_establish_schedule_witness :
  3000 ≤ next_send sample_task sample_shared 1000 2000 - last_establish_send sample_task ≤ 10000.
Proof.
  destruct (channel_establish_schedule (BO := big_endian) (λ _ _, true) sample_task sample_shared
    sample_details 1000 2000) as [H _].
  apply H. by eexists.
Defined.
