(* ===== verification/Json.v ===== *)
(** * JSON documents and serde's representations

    The IPC protocol and the stored files of the service are JSON (or TOML)
    documents written and read by code that serde derives from the type
    declarations and their attributes. A document is a [value]; a type with a
    derived [Serialize] and [Deserialize] is an instance of [Serde]. The
    functions below are serde's documented representations of the attributes
    the sources use: structs, unit variants, internally and adjacently tagged
    enums, optional and defaulted fields. Readers are given for these
    representations only; serde's positional form of structs is not used by
    the program. Printing and parsing text is the crate's ([JsonText]). *)

From S2P Require Import Prelude.

(** ** Documents *)

(** The three kinds of serde_json's [Number]; a float is kept as its text. *)
Inductive number : Set :=
  | PosInt (n : Z)
  | NegInt (n : Z)
  | Float (text : string).

(** An object keeps its entries in the order of the document. *)
Inductive value : Set :=
  | Null
  | Bool (b : bool)
  | Number (n : number)
  | Str (s : string)
  | Array (elems : list value)
  | Object (entries : list (string * value)).

(** ** The traits *)

Class Serde (T : Type) : Type := {
  to_value : T → value;
  from_value : value → option T;
}.

(** What a type's derived code promises for the values in [wf]: they are read
    back, and are not written as [null] (which an [Option] would take for
    [None]). *)
Class SerdeLaws (T : Type) {S : Serde T} (wf : T → Prop) : Prop := {
  from_to_value : ∀ x, wf x → from_value (to_value x) = Some x;
  to_value_not_null : ∀ x, wf x → to_value x ≠ Null;
}.

Arguments SerdeLaws T {S} wf : assert.

(** ** Scalars, options, lists *)

#[global] Instance Serde_bool : Serde bool := {|
  to_value := Bool;
  from_value v := match v with Bool b => Some b | _ => None end |}.

#[global] Instance Serde_string : Serde string := {|
  to_value := Str;
  from_value v := match v with Str s => Some s | _ => None end |}.

(** [serde_json::Value] itself. *)
#[global] Instance Serde_value : Serde value := {|
  to_value := λ v, v;
  from_value := Some |}.

(** [uN]: a non-negative integer in range. *)
Definition Serde_uint (w : Z) : Serde Z := {|
  to_value n := Number (PosInt n);
  from_value v :=
    match v with
    | Number (PosInt n) => if decide (uint w n) then Some n else None
    | _ => None
    end |}.

#[global] Instance Serde_option {T} `{Serde T} : Serde (option T) := {|
  to_value o := match o with Some x => to_value x | None => Null end;
  from_value v := match v with Null => Some None | _ => Some <$> from_value v end |}.

#[global] Instance Serde_list {T} `{Serde T} : Serde (list T) := {|
  to_value l := Array (to_value <$> l);
  from_value v := match v with Array l => mapM from_value l | _ => None end |}.

#[global] Instance Serde_unit : Serde () := {|
  to_value _ := Null;
  from_value v := match v with Null => Some () | _ => None end |}.

(** [HashMap<K, V>]: an object; of a repeated key the last value stays. *)
Definition Serde_map {K V} `{Countable K} (key : K → string) (unkey : string → option K)
    (S : Serde V) : Serde (gmap K V) := {|
  to_value m := Object (prod_map key to_value <$> map_to_list m);
  from_value v :=
    match v with
    | Object entries =>
        l ← mapM (λ e : string * value, k ← unkey e.1; x ← from_value e.2; Some (k, x)) entries;
        Some (foldl (λ m e, <[e.1 := e.2]> m) ∅ l)
    | _ => None
    end |}.

(** ** Structs *)

(** The value of a field: [None] when the document repeats it, which is an
    error; [Some None] when it is absent. *)
Fixpoint lookup_field (name : string) (entries : list (string * value)) :
    option (option value) :=
  match entries with
  | [] => Some None
  | (k, v) :: entries =>
      match lookup_field name entries with
      | Some None => Some (if String.eqb k name then Some v else None)
      | Some (Some v') => if String.eqb k name then None else Some (Some v')
      | None => None
      end
  end.

(** A required field. *)
Definition field {T} (S : Serde T) (name : string) (entries : list (string * value)) : option T :=
  o ← lookup_field name entries;
  v ← o;
  from_value v.

(** A field that is [default] when absent: [#\[serde(default)\]], and any field
    of type [Option]. *)
Definition field_or {T} (S : Serde T) (default : T) (name : string)
    (entries : list (string * value)) : option T :=
  o ← lookup_field name entries;
  match o with
  | Some v => from_value v
  | None => Some default
  end.

Definition entries_of (v : value) : option (list (string * value)) :=
  match v with Object entries => Some entries | _ => None end.

(** ** Enums *)

(** Unit variants under their wire names. *)
Fixpoint find_variant {T} (name : string) (l : list (string * T)) : option T :=
  match l with
  | [] => None
  | (k, x) :: l => if String.eqb k name then Some x else find_variant name l
  end.

Definition Serde_unit_enum {T} (name : T → string) (variants : list (string * T)) : Serde T := {|
  to_value x := Str (name x);
  from_value v :=
    match v with
    | Str s | Object [(s, Null)] => find_variant s variants
    | _ => None
    end |}.

(** The same with a variant for every other name: [#\[serde(other)\]]. *)
Definition Serde_other_enum {T} (name : T → string) (other : T) (variants : list (string * T)) :
    Serde T := {|
  to_value x := Str (name x);
  from_value v :=
    match v with
    | Str s | Object [(s, Null)] => Some (default other (find_variant s variants))
    | _ => None
    end |}.

(** [#\[serde(tag = .., content = ..)\]]: the name and the data side by side;
    a unit variant has no data. *)
Definition adjacent (tag content name : string) (data : option value) : value :=
  Object ((tag, Str name) :: match data with Some v => [(content, v)] | None => [] end).

Definition adjacent_parts (tag content : string) (v : value) : option (string * option value) :=
  entries ← entries_of v;
  name ← field Serde_string tag entries;
  data ← lookup_field content entries;
  Some (name, data).

Definition newtype_variant {T U} (S : Serde T) (c : T → U) (data : option value) : option U :=
  v ← data;
  c <$> from_value v.

Definition unit_variant {U} (c : U) (data : option value) : option U :=
  match data with
  | None | Some Null => Some c
  | Some _ => None
  end.

(** [#\[serde(tag = ..)\]]: the name among the fields of the variant. *)
Definition internal (tag name : string) (fields : list (string * value)) : value :=
  Object ((tag, Str name) :: fields).

Definition internal_parts (tag : string) (v : value) :
    option (string * list (string * value)) :=
  entries ← entries_of v;
  name ← field Serde_string tag entries;
  Some (name, List.filter (λ e, negb (String.eqb e.1 tag)) entries).

(** A variant that holds a struct has the struct's fields beside the name; a
    unit variant ignores them. *)
Definition fields_of (v : value) : list (string * value) := default [] (entries_of v).

Definition internal_newtype {T U} (S : Serde T) (c : T → U) (fields : list (string * value)) :
    option U := c <$> from_value (Object fields).

Definition internal_unit {U} (c : U) (_ : list (string * value)) : option U := Some c.

(** [#\[serde(untagged)\]] with two variants: the first that fits. *)
Definition untagged {T} (a b : option T) : option T :=
  match a with Some x => Some x | None => b end.

(** ** Text

    [serde_json::to_string] and [from_str], and the codec that frames a
    document as one line. *)

Class JsonText : Type := {
  text : Type;
  to_text : value → text;
  from_text : text → option value;
}.

Class JsonTextLaws {JT : JsonText} : Prop := {
  from_to_text : ∀ v, from_text (to_text v) = Some v;
}.

Arguments JsonTextLaws : clear implicits.

Definition value_text : JsonText := {| text := value; to_text := λ v, v; from_text := Some |}.

Lemma value_text_laws : JsonTextLaws value_text.
Proof. by split. Qed.

(** ** Laws of the representations *)

#[global] Instance Serde_bool_laws : SerdeLaws bool (λ _, True).
Proof. by split. Qed.

#[global] Instance Serde_string_laws : SerdeLaws string (λ _, True).
Proof. by split. Qed.

#[global] Instance Serde_value_laws : SerdeLaws value (λ v, v ≠ Null).
Proof. by split. Qed.

#[global] Instance Serde_uint_laws w : @SerdeLaws Z (Serde_uint w) (uint w).
Proof. split; [|done]. intros x Hx. cbn. by rewrite decide_True. Qed.

Lemma from_to_option {T} {S : Serde T} wf `{!SerdeLaws T wf} (o : option T) :
  from_option wf True o → from_value (to_value o) = Some o.
Proof.
  intros Hwf. destruct o as [x|]; [|done]. cbn in Hwf |- *.
  pose proof (to_value_not_null x Hwf). rewrite (from_to_value x) by done.
  by destruct (to_value x).
Qed.

#[global] Instance Serde_list_laws {T} {S : Serde T} wf `{!SerdeLaws T wf} :
  SerdeLaws (list T) (Forall wf).
Proof.
  split; [|done]. intros l Hl. cbn. induction Hl as [|x l Hx Hl IH]; [done|].
  cbn. rewrite (from_to_value x) by done. cbn. by rewrite IH.
Qed.

Lemma unit_enum_laws {T} (name : T → string) variants :
  (∀ x, find_variant (name x) variants = Some x) →
  @SerdeLaws T (Serde_unit_enum name variants) (λ _, True).
Proof. intros Hn. split; [|done]. intros x _. apply Hn. Qed.

Lemma other_enum_laws {T} (name : T → string) other variants :
  (∀ x, find_variant (name x) variants = Some x) →
  @SerdeLaws T (Serde_other_enum name other variants) (λ _, True).
Proof. intros Hn. split; [|done]. intros x _. cbn. by rewrite Hn. Qed.

Lemma foldl_insert_list_to_map {K V} `{Countable K} (l : list (K * V)) (m : gmap K V) :
  NoDup l.*1 → (∀ k, k ∈ l.*1 → m !! k = None) →
  foldl (λ m e, <[e.1 := e.2]> m) m l = list_to_map l ∪ m.
Proof.
  revert m. induction l as [|[k x] l IH]; intros m Hd Hm; cbn; [by rewrite (left_id_L ∅ (∪))|].
  apply NoDup_cons in Hd as [Hk Hd]. rewrite IH; [| done |].
  - rewrite <-insert_union_r by (by apply not_elem_of_list_to_map). by rewrite insert_union_l.
  - intros k' Hk'. cbn in *. rewrite lookup_insert_ne by (intros ->; done). apply Hm. by right.
Qed.

Lemma Serde_map_laws {K V} `{Countable K} (key : K → string) (unkey : string → option K)
    {S : Serde V} wf `{!SerdeLaws V wf} :
  (∀ k, unkey (key k) = Some k) →
  @SerdeLaws (gmap K V) (Serde_map key unkey S) (map_Forall (λ _, wf)).
Proof.
  intros Hk. split; [|done]. intros m Hm. cbn [to_value from_value Serde_map].
  assert (mapM (λ e : string * value, k ← unkey e.1; x ← from_value e.2; Some (k, x))
    (prod_map key to_value <$> map_to_list m) = Some (map_to_list m)) as ->.
  { apply mapM_Some, Forall2_fmap_l, Forall_Forall2_diag, Forall_forall. intros [k x] Hin.
    apply elem_of_map_to_list in Hin. cbn. rewrite Hk. cbn.
    by rewrite (from_to_value x) by (by eapply Hm). }
  cbn. f_equal. rewrite foldl_insert_list_to_map; [| apply NoDup_fst_map_to_list | set_solver].
  by rewrite list_to_map_to_list, (right_id_L ∅ (∪)).
Qed.

#[global] Instance Serde_string_map_laws {V} {S : Serde V} wf `{!SerdeLaws V wf} :
  @SerdeLaws (gmap string V) (Serde_map (λ s, s) Some S) (map_Forall (λ _, wf)).
Proof. by apply (Serde_map_laws (λ s : string, s) Some wf). Qed.

(** ** Proofs for derived code *)

(** The ranges of the fields, from those of the whole. *)
Ltac serde_side :=
  match goal with
  | |- True => exact I
  | |- Forall (λ _, True) _ => apply Forall_true; done
  | |- map_Forall (λ _ _, True) _ => by intros ???
  | |- from_option (λ _, True) True ?o => by destruct o
  | |- from_option (Forall (λ _, True)) True ?o => by destruct o; [apply Forall_true|]
  | |- _ => tauto
  end.

(** Take a derived reader applied to a derived document apart, field by
    field. *)
Ltac serde_fields :=
  unfold field, field_or;
  cbn [entries_of mbind option_bind lookup_field String.eqb Ascii.eqb Bool.eqb];
  repeat (first
    [ rewrite from_to_value by serde_side
    | rewrite (from_to_option _) by serde_side ];
    cbn [mbind option_bind fmap option_fmap option_map]).

(** Unfold the reader and the writer of the type at hand, no other. *)
Ltac serde_unfold :=
  match goal with
  | |- @from_value _ ?S _ = _ => unfold S
  end;
  cbn [to_value from_value];
  try match goal with
  | |- ?f (?g _) = _ => unfold f, g
  end.

(** A tagged enum: its writer and reader go through the parts of a tagged
    document. *)
Ltac serde_variant :=
  serde_unfold;
  unfold adjacent_parts, adjacent, internal_parts, internal, newtype_variant, unit_variant,
    internal_newtype, internal_unit;
  serde_fields;
  cbn [from_value to_value Serde_string find_variant String.eqb Ascii.eqb Bool.eqb mbind option_bind];
  serde_fields; try reflexivity.

Ltac serde_struct :=
  split; [|done];
  let x := fresh "x" in let Hwf := fresh "Hwf" in
  intros x Hwf; serde_unfold;
  try (match type of Hwf with ?w _ => unfold w in Hwf end);
  serde_fields; by destruct x.

Ltac serde_enum :=
  split; [|by intros []]; let Hwf := fresh "Hwf" in intros [] Hwf; serde_variant.
