(* ===== verification/Text.v ===== *)
(** * Text of the standard library

    [str::trim] and the checks on characters that the runtime uses. Strings
    are the bytes of their UTF-8 encoding. *)

From S2P Require Import Prelude OriginLookup.
From stdpp Require Import pretty.
From Stdlib Require Import Ascii.
#[local] Open Scope Z_scope.

(** ** [trim] *)

(** The encodings of the characters with the White_Space property. *)
Definition white_space : list (list ascii) :=
  map (map ascii_of_nat)
  ([[9]; [10]; [11]; [12]; [13]; [32]; [194; 133]; [194; 160]; [225; 154; 128];
    [226; 128; 128]; [226; 128; 129]; [226; 128; 130]; [226; 128; 131]; [226; 128; 132];
    [226; 128; 133]; [226; 128; 134]; [226; 128; 135]; [226; 128; 136]; [226; 128; 137];
    [226; 128; 138]; [226; 128; 168]; [226; 128; 169]; [226; 128; 175]; [226; 129; 159];
    [227; 128; 128]])%nat.

Fixpoint strip_one (e l : list ascii) : option (list ascii) :=
  match e, l with
  | [], l => Some l
  | a :: e, b :: l => if Ascii.eqb a b then strip_one e l else None
  | _ :: _, [] => None
  end.

Fixpoint strip_any (es : list (list ascii)) (l : list ascii) : option (list ascii) :=
  match es with
  | [] => None
  | e :: es => match strip_one e l with Some r => Some r | None => strip_any es l end
  end.

(** Every round takes at least one byte off. *)
Fixpoint strip_all (fuel : nat) (es : list (list ascii)) (l : list ascii) : list ascii :=
  match fuel with
  | O => l
  | S fuel => match strip_any es l with Some r => strip_all fuel es r | None => l end
  end.

Definition trim_start_bytes (l : list ascii) : list ascii := strip_all (length l) white_space l.

Definition trim_end_bytes (l : list ascii) : list ascii :=
  reverse (strip_all (length l) (reverse <$> white_space) (reverse l)).

Definition str_trim (s : string) : string :=
  String.string_of_list_ascii (trim_end_bytes (trim_start_bytes (String.list_ascii_of_string s))).

(** ** Characters *)

Definition is_ascii_hexdigit (c : ascii) : bool :=
  let n := nat_of_ascii c in
  ((48 <=? n) && (n <=? 57) || (65 <=? n) && (n <=? 70) || (97 <=? n) && (n <=? 102))%nat.

Definition all_hex (s : string) : bool := forallb is_ascii_hexdigit (String.list_ascii_of_string s).

(** [is_ascii_whitespace] of a byte. *)
Definition is_ascii_whitespace (c : ascii) : bool :=
  existsb (Nat.eqb (nat_of_ascii c)) [9; 10; 12; 13; 32]%nat.

(** ** Numbers *)

(** [uN::from_str]: an optional plus sign, then decimal digits, in range. *)
Fixpoint digits_value (w acc : Z) (s : string) : option Z :=
  match s with
  | EmptyString => Some acc
  | String c s =>
      d ← digit_value c;
      if decide (uint w (acc * 10 + d)) then digits_value w (acc * 10 + d) s else None
  end.

Definition uint_from_str (w : Z) (s : string) : option Z :=
  match s with
  | EmptyString => None
  | String "+" EmptyString => None
  | String "+" rest => digits_value w 0 rest
  | _ => digits_value w 0 s
  end.

(** [starts_with]. *)
Definition starts_with (prefix s : string) : bool := String.prefix prefix s.

(** ** Facts *)

(** *** Concatenation *)

Lemma append_cons c (a b : string) : (String c a +:+ b = String c (a +:+ b))%string.
Proof. done. Qed.

Lemma append_length (a b : string) : String.length (a +:+ b)%string = (String.length a + String.length b)%nat.
Proof. induction a as [|c a IH]; [done|]. rewrite append_cons. cbn. by rewrite IH. Qed.

Lemma append_assoc (a b c : string) : (a +:+ (b +:+ c) = (a +:+ b) +:+ c)%string.
Proof. induction a as [|x a IH]; [done|]. by rewrite !append_cons, IH. Qed.

Lemma append_nil (a : string) : (a +:+ EmptyString = a)%string.
Proof. induction a as [|x a IH]; [done|]. by rewrite !append_cons, IH. Qed.

(** No white space begins or ends with a hexadecimal digit. *)
Definition starts_no_hex (e : list ascii) : bool :=
  match e with a :: _ => negb (is_ascii_hexdigit a) | [] => false end.

Lemma strip_any_hex es c l :
  forallb starts_no_hex es = true → is_ascii_hexdigit c = true → strip_any es (c :: l) = None.
Proof.
  intros Hes Hc. induction es as [|e es IH]; [done|]. cbn in Hes. apply andb_prop in Hes as [He Hes].
  cbn [strip_any]. destruct e as [|a e]; [done|]. cbn [strip_one].
  destruct (Ascii.eqb_spec a c) as [->|_]; [|by apply IH]. cbn in He. by rewrite Hc in He.
Qed.

Lemma strip_all_hex es l :
  forallb starts_no_hex es = true → forallb is_ascii_hexdigit l = true →
  ∀ fuel, strip_all fuel es l = l.
Proof.
  intros Hes Hl fuel. destruct fuel as [|fuel]; [done|]. cbn [strip_all].
  destruct l as [|c l]; cbn in Hl.
  - assert (strip_any es [] = None) as ->; [|done].
    clear fuel. induction es as [|[|a e] es IH]; [done | done |]. cbn in Hes |- *.
    apply andb_prop in Hes as [_ Hes]. by apply IH.
  - apply andb_prop in Hl as [Hc _]. by rewrite strip_any_hex.
Qed.

Lemma forallb_reverse {A} (f : A → bool) l : forallb f (reverse l) = forallb f l.
Proof.
  induction l as [|x l IH]; [done|]. rewrite reverse_cons, forallb_app, IH. cbn.
  by rewrite andb_true_r, andb_comm.
Qed.

(** Trimming leaves hexadecimal text alone. *)
Lemma str_trim_hex s : all_hex s = true → str_trim s = s.
Proof.
  intros Hs. unfold str_trim, trim_start_bytes, trim_end_bytes, all_hex in *.
  rewrite (strip_all_hex white_space); [|by vm_compute | done].
  rewrite strip_all_hex; [|by vm_compute | by rewrite forallb_reverse].
  by rewrite reverse_involutive, String.string_of_list_ascii_of_string.
Qed.

(** Trimming stops at a byte that no white space contains. *)
Lemma strip_one_stop (c : ascii) (e l1 l2 r : list ascii) :
  c ∉ e → strip_one e (l1 ++ c :: l2) = Some r → ∃ l1', r = l1' ++ c :: l2.
Proof.
  revert l1. induction e as [|a e IH]; intros l1 Hc; cbn; [intros [= <-]; by exists l1|].
  apply not_elem_of_cons in Hc as [Ha Hc]. destruct l1 as [|b l1]; cbn.
  - destruct (Ascii.eqb_spec a c) as [->|_]; done.
  - destruct (Ascii.eqb a b); [by apply IH | done].
Qed.

Lemma strip_all_stop (c : ascii) (es : list (list ascii)) (l2 : list ascii) :
  Forall (λ e, c ∉ e) es → ∀ fuel l1, ∃ l1', strip_all fuel es (l1 ++ c :: l2) = l1' ++ c :: l2.
Proof.
  intros Hes. induction fuel as [|fuel IH]; intros l1; [by exists l1|]. cbn.
  destruct (strip_any es (l1 ++ c :: l2)) as [r|] eqn:Hr; [|by exists l1].
  assert (∃ l1', r = l1' ++ c :: l2) as [l1' ->]; [|apply IH].
  clear IH. induction Hes as [|e es He _ IHes]; [done|]. cbn in Hr.
  destruct (strip_one e (l1 ++ c :: l2)) as [r'|] eqn:Hone; [|by apply IHes].
  injection Hr as <-. by eapply strip_one_stop.
Qed.

Lemma str_trim_not_hex (c : ascii) (rest : string) :
  Forall (λ e, c ∉ e) white_space → is_ascii_hexdigit c = false →
  all_hex (str_trim (String.String c rest)) = false.
Proof.
  intros Hc Hhex. unfold all_hex, str_trim, trim_start_bytes, trim_end_bytes.
  rewrite String.list_ascii_of_string_of_list_ascii, forallb_reverse. cbn [String.list_ascii_of_string].
  destruct (strip_all_stop c white_space (String.list_ascii_of_string rest) Hc
    (length (c :: String.list_ascii_of_string rest)) []) as [l1 Hl1].
  cbn [app] in Hl1. rewrite Hl1.
  rewrite reverse_app, reverse_cons, <-app_assoc. cbn [app].
  edestruct (strip_all_stop c (reverse <$> white_space)) as [l2 Hl2];
    [|rewrite Hl2, forallb_app; cbn; by rewrite Hhex, andb_false_r].
  apply Forall_fmap. eapply Forall_impl; [exact Hc|]. intros e He. cbn. by rewrite elem_of_reverse.
Qed.

Lemma digits_value_range w acc s n : uint w acc → digits_value w acc s = Some n → uint w n.
Proof.
  revert acc. induction s as [|c s IH]; intros acc Ha; cbn; [by intros [= <-]|].
  destruct (digit_value c) as [d|]; [|done]. cbn. case_decide; [by apply IH | done].
Qed.

Lemma uint_from_str_range w s n : uint_from_str w s = Some n → 0 ≤ w → uint w n.
Proof.
  intros Hs Hw. assert (uint w 0) as H0 by (unfold uint; lia).
  destruct s as [|c s]; [done|]. unfold uint_from_str in Hs.
  assert (digits_value w 0 (String c s) = Some n ∨ digits_value w 0 s = Some n) as [Hd|Hd];
    [| by eapply digits_value_range..].
  destruct c as [[] [] [] [] [] [] [] []]; auto. destruct s; auto.
Qed.

(** ** Numbers are read back *)

Lemma digit_value_char d : (d < 10)%N → digit_value (pretty_N_char d) = Some (Z.of_N d).
Proof.
  intros Hd.
  assert (d = 0 ∨ d = 1 ∨ d = 2 ∨ d = 3 ∨ d = 4 ∨ d = 5 ∨ d = 6 ∨ d = 7 ∨ d = 8 ∨ d = 9)%N as Hcases by lia.
  naive_solver.
Qed.

(** The digits of [x], then [s]. *)
Lemma digits_value_pretty w x s :
  uint w (Z.of_N x) → digits_value w 0 (pretty_N_go x s) = digits_value w (Z.of_N x) s.
Proof.
  revert s. induction (N.lt_wf_0 x) as [x _ IH]; intros s Hx.
  assert (x = 0 ∨ 0 < x)%N as [->|Hpos] by lia; [done|].
  pose proof (N.div_mod x 10 ltac:(done)) as Hdiv. pose proof (N.mod_lt x 10 ltac:(done)) as Hmod.
  assert (x / 10 < x)%N as Hlt by (by apply N.div_lt).
  rewrite pretty_N_go_step by done. rewrite IH; [|done|unfold uint in *; lia]. cbn [digits_value].
  rewrite digit_value_char by done. cbn [mbind option_bind].
  replace (Z.of_N (x / 10) * 10 + Z.of_N (x mod 10)) with (Z.of_N x) by lia. by rewrite decide_True.
Qed.

Lemma pretty_N_go_head x s :
  (0 < x)%N → ∃ d r, pretty_N_go x s = String (pretty_N_char d) r.
Proof.
  revert s. induction (N.lt_wf_0 x) as [x _ IH]; intros s Hx. rewrite pretty_N_go_step by done.
  destruct (N.eq_0_gt_0_cases (x `div` 10)) as [->|Hpos]; [by eexists _, _|].
  apply IH; [by apply N.div_lt | done].
Qed.

(** [uN::from_str] reads what [Display] writes. *)
Lemma uint_from_str_pretty w n : uint w n → uint_from_str w (pretty n) = Some n.
Proof.
  intros Hn. destruct n as [|p|p]; [| |unfold uint in Hn; lia].
  - change (digits_value w 0 "0" = Some 0). cbn [digits_value].
    change (digit_value "0") with (Some 0). cbn [mbind option_bind]. by rewrite decide_True.
  - change (pretty (Z.pos p)) with (pretty_N_go (N.pos p) EmptyString).
    pose proof (digits_value_pretty w (N.pos p) EmptyString Hn) as Hd.
    destruct (pretty_N_go_head (N.pos p) EmptyString) as (d & r & Hr); [done|].
    rewrite Hr in Hd |- *. unfold uint_from_str.
    destruct d as [|[[[[]|[]|]|[[]|[]|]|]|[[[]|[]|]|[[]|[]|]|]|]]; exact Hd.
Qed.

Lemma digits_value_u16 acc s : 0 ≤ acc → digits_value 16 acc s = parse_digits acc s.
Proof.
  revert acc. induction s as [|c s IH]; intros acc Ha; [done|]. cbn.
  destruct (digit_value c) as [d|] eqn:Hd; [|done]. cbn.
  assert (0 ≤ d) by (unfold digit_value in Hd; case_decide; simplify_eq; lia).
  unfold uint. destruct (decide (acc * 10 + d ≤ 65535)).
  - rewrite decide_True by lia. apply IH. lia.
  - by rewrite decide_False by lia.
Qed.

Lemma u16_from_str_uint s : u16_from_str s = uint_from_str 16 s.
Proof. unfold u16_from_str, uint_from_str. repeat case_match; by rewrite ?digits_value_u16. Qed.

Lemma u16_from_str_pretty n : uint 16 n → u16_from_str (pretty n) = Some n.
Proof. rewrite u16_from_str_uint. apply uint_from_str_pretty. Qed.
