(* ===== verification/FileSystem.v ===== *)
(** * A file system that can fail

    Paths and the calls of [std::fs] that the programs use. The file system is
    a map from paths to nodes; every call may fail, a write in part, and the
    states that others can see in between are recorded. A program logic for
    computations on it: a triple bounds every state that others can see, and
    relates the result to the last one. *)

From S2P Require Import Prelude OriginLookup.
From Stdlib Require Import Ascii.
#[local] Open Scope string_scope.
#[local] Open Scope list_scope.
#[local] Open Scope Z_scope.

(** ** Paths

    A path is its list of components; an absolute one starts with the root,
    written as a slash. *)

Notation path := (list string).

Definition root : string := "/".

(** [Path::parent]. *)
Definition parent (p : path) : option path :=
  match reverse p with
  | [] => None
  | c :: rest => if decide (c = root) then None else Some (reverse rest)
  end.

(** [Path::file_name]. *)
Definition file_name (p : path) : option string :=
  match reverse p with
  | [] => None
  | c :: _ => if decide (c = root ∨ c = ".."%string) then None else Some c
  end.

(** [Path::extension]: what follows the last dot of the name, unless the name
    begins with it. *)
Definition extension (p : path) : option string :=
  name ← file_name p;
  ext ← after_last "." name;
  if decide (name = "." +:+ ext) then None else Some ext.

Fixpoint display (p : path) : string :=
  match p with
  | [] => EmptyString
  | [c] => c
  | c :: rest => if decide (c = root) then root +:+ display rest else c +:+ "/" +:+ display rest
  end.

(** ** The file system *)

Inductive node : Type :=
  | Dir (mode : Z)
  | File (content : string) (mode : Z).

Notation nodes := (gmap (list string) node).

(** [None]: the next call succeeds if it can. [Some (e, k)]: it fails with
    [e]; of a write, [k] bytes got through. *)
Definition fault : Type := option (io_error * nat).

Record fs : Type := {
  fs_nodes : nodes;
  fs_faults : list fault;
  fs_seen : list nodes;
}.

(** A computation on the file system. *)
Definition FS (E A : Type) : Type := fs → (E + A) * fs.

#[global] Instance FS_ret {E} : MRet (FS E) := λ A a s, (inr a, s).

#[global] Instance FS_bind {E} : MBind (FS E) := λ A B f m s,
  match m s with
  | (inr a, s) => f a s
  | (inl e, s) => (inl e, s)
  end.

Definition fs_err {E A} (e : E) : FS E A := λ s, (inl e, s).

Definition fs_map_err {E F A} (f : E → F) (m : FS E A) : FS F A := λ s,
  match m s with
  | (inr a, s) => (inr a, s)
  | (inl e, s) => (inl (f e), s)
  end.

(** Run [m] and look at its result. *)
Definition fs_try {E F A} (m : FS E A) : FS F (E + A) := λ s,
  let '(r, s) := m s in (inr r, s).

(** A system call: its effect on the nodes, or what it leaves when it fails
    half way. *)
Definition sys {A : Type} (op : nodes → (io_error + A) * nodes) (torn : nat → nodes → nodes) :
    FS io_error A := λ s,
  let seen n faults := {| fs_nodes := n; fs_faults := faults; fs_seen := fs_seen s ++ [n] |} in
  match fs_faults s with
  | Some (e, k) :: faults => (inl e, seen (torn k (fs_nodes s)) faults)
  | faults => let '(r, n) := op (fs_nodes s) in (r, seen n (tail faults))
  end.

Definition keep (_ : nat) (n : nodes) : nodes := n.

Definition not_found : io_error := IoError NotFound "No such file or directory".
Definition exists_already : io_error := IoError AlreadyExists "File exists".
Definition not_a_directory : io_error := IoError Other "Not a directory".
Definition is_a_directory : io_error := IoError Other "Is a directory".

(** A path can hold a node when its parent is a directory; the empty parent is
    the working directory. *)
Definition has_parent (n : nodes) (p : path) : bool :=
  match parent p with
  | None => false
  | Some [] => true
  | Some q => match n !! q with Some (Dir _) => true | _ => false end
  end.

Definition metadata (p : path) : FS io_error bool :=
  sys (λ n, (match n !! p with
             | Some (Dir _) => inr true
             | Some (File _ _) => inr false
             | None => inl not_found
             end, n)) keep.

(** The missing directories of a path are created from the top; [mode] is
    what the process's mask leaves of the default. *)
Fixpoint make_dirs (mode : Z) (done rest : path) (n : nodes) : (io_error + ()) * nodes :=
  match rest with
  | [] => (inr (), n)
  | c :: rest =>
      let p := done ++ [c] in
      match n !! p with
      | Some (Dir _) => make_dirs mode p rest n
      | Some (File _ _) => (inl not_a_directory, n)
      | None => make_dirs mode p rest (<[p := Dir mode]> n)
      end
  end.

Definition create_dir_all (mode : Z) (p : path) : FS io_error () := sys (make_dirs mode [] p) keep.

Definition set_permissions (p : path) (mode : Z) : FS io_error () :=
  sys (λ n, match n !! p with
            | Some (Dir _) => (inr (), <[p := Dir mode]> n)
            | Some (File content _) => (inr (), <[p := File content mode]> n)
            | None => (inl not_found, n)
            end) keep.

(** [OpenOptions::new().write(true).create_new(true).mode(mode).open(p)]. *)
Definition create_new (p : path) (mode : Z) : FS io_error () :=
  sys (λ n, match n !! p with
            | Some _ => (inl exists_already, n)
            | None => if has_parent n p then (inr (), <[p := File EmptyString mode]> n) else (inl not_found, n)
            end) keep.

(** [File::create]: an existing file is emptied and keeps its mode. *)
Definition create_truncated (p : path) (mode : Z) : FS io_error () :=
  sys (λ n, match n !! p with
            | Some (Dir _) => (inl is_a_directory, n)
            | Some (File _ mode) => (inr (), <[p := File EmptyString mode]> n)
            | None => if has_parent n p then (inr (), <[p := File EmptyString mode]> n) else (inl not_found, n)
            end) keep.

Definition set_content (p : path) (content : string) (n : nodes) : nodes :=
  match n !! p with
  | Some (File _ mode) => <[p := File content mode]> n
  | _ => n
  end.

Definition string_take (k : nat) (s : string) : string := String.substring 0 k s.

Definition write_all (p : path) (content : string) : FS io_error () :=
  sys (λ n, (inr (), set_content p content n)) (λ k, set_content p (string_take k content)).

Definition sync_all : FS io_error () := sys (λ n, (inr (), n)) keep.

Definition rename (from to : path) : FS io_error () :=
  sys (λ n, match n !! from, n !! to with
            | None, _ => (inl not_found, n)
            | Some _, Some (Dir _) => (inl is_a_directory, n)
            | Some x, _ => (inr (), <[to := x]> (delete from n))
            end) keep.

Definition remove_op (p : path) (n : nodes) : (io_error + ()) * nodes :=
  match n !! p with
  | Some (File _ _) => (inr (), delete p n)
  | Some (Dir _) => (inl is_a_directory, n)
  | None => (inl not_found, n)
  end.

Definition remove_file (p : path) : FS io_error () := sys (remove_op p) keep.

Definition read_result (x : option node) : io_error + string :=
  match x with
  | Some (File content _) => inr content
  | Some (Dir _) => inl is_a_directory
  | None => inl not_found
  end.

Definition read_to_string (p : path) : FS io_error string := sys (λ n, (read_result (n !! p), n)) keep.

(** ** Triples *)

Section logic.
Context {E : Type}.

(** Started where [P] holds, [m] shows only states in [I] and ends in [Q]. *)
Definition triple {A : Type} (I P : nodes → Prop) (m : FS E A) (Q : E + A → nodes → Prop) : Prop :=
  ∀ s r s', m s = (r, s') → P (fs_nodes s) →
  ∃ seen, fs_seen s' = fs_seen s ++ seen ∧ Forall I seen ∧ Q r (fs_nodes s').

Lemma fs_triple_ret {A : Type} (I P : nodes → Prop) (a : A) (Q : E + A → nodes → Prop) :
  (∀ n, P n → Q (inr a) n) → triple I P (mret a) Q.
Proof. intros HQ s r s' [= <- <-] HP. exists []. rewrite app_nil_r. auto. Qed.

Lemma triple_err {A : Type} (I P : nodes → Prop) (e : E) (Q : E + A → nodes → Prop) :
  (∀ n, P n → Q (inl e) n) → triple I P (fs_err e) Q.
Proof. intros HQ s r s' [= <- <-] HP. exists []. rewrite app_nil_r. auto. Qed.

Lemma triple_bind {A B : Type} (I P : nodes → Prop) (m : FS E A) (f : A → FS E B) (R : E + A → nodes → Prop)
    (Q : E + B → nodes → Prop) :
  triple I P m R →
  (∀ a, triple I (R (inr a)) (f a) Q) →
  (∀ e n, R (inl e) n → Q (inl e) n) →
  triple I P (m ≫= f) Q.
Proof.
  intros Hm Hf He s r s' Hrun HP. unfold mbind, FS_bind in Hrun.
  destruct (m s) as [[e|a] s1] eqn:Hms; destruct (Hm _ _ _ Hms HP) as (seen1 & Hs1 & Hi1 & HR).
  - injection Hrun as <- <-. exists seen1. auto.
  - destruct (Hf a _ _ _ Hrun HR) as (seen2 & Hs2 & Hi2 & HQ).
    exists (seen1 ++ seen2). rewrite Hs2, Hs1, app_assoc. split_and!; [done | by apply Forall_app | done].
Qed.

Lemma fs_triple_weaken {A : Type} (I P P' : nodes → Prop) (m : FS E A) (Q Q' : E + A → nodes → Prop) :
  triple I P m Q → (∀ n, P' n → P n) → (∀ r n, Q r n → Q' r n) → triple I P' m Q'.
Proof.
  intros Hm HP HQ s r s' Hrun HP'. destruct (Hm _ _ _ Hrun (HP _ HP')) as (seen & ? & ? & ?).
  exists seen. auto.
Qed.
End logic.

Lemma triple_map_err {E F A : Type} (I P : nodes → Prop) (f : E → F) (m : FS E A)
    (Q : F + A → nodes → Prop) (R : E + A → nodes → Prop) :
  triple I P m R → (∀ a n, R (inr a) n → Q (inr a) n) → (∀ e n, R (inl e) n → Q (inl (f e)) n) →
  triple I P (fs_map_err f m) Q.
Proof.
  intros Hm Ha He s r s' Hrun HP. unfold fs_map_err in Hrun.
  destruct (m s) as [[e|a] s1] eqn:Hms; destruct (Hm _ _ _ Hms HP) as (seen & ? & ? & ?);
    injection Hrun as <- <-; exists seen; auto.
Qed.

Lemma triple_try {E F A : Type} (I P : nodes → Prop) (m : FS E A) (Q : E + A → nodes → Prop) (Q' : F + (E + A) → nodes → Prop) :
  triple I P m Q → (∀ r n, Q r n → Q' (inr r) n) → triple I P (fs_try m) Q'.
Proof.
  intros Hm HQ s r s' Hrun HP. unfold fs_try in Hrun. destruct (m s) as [r1 s1] eqn:Hms.
  injection Hrun as <- <-. destruct (Hm _ _ _ Hms HP) as (seen & ? & ? & ?). exists seen. auto.
Qed.

Lemma triple_sys {A : Type} (I P : nodes → Prop) (op : nodes → (io_error + A) * nodes)
    (torn : nat → nodes → nodes) (Q : io_error + A → nodes → Prop) :
  (∀ n, P n → I (op n).2 ∧ Q (op n).1 (op n).2) →
  (∀ n e k, P n → I (torn k n) ∧ Q (inl e) (torn k n)) →
  triple I P (sys op torn) Q.
Proof.
  intros Hop Htorn s r s' Hrun HP. unfold sys in Hrun.
  destruct (fs_faults s) as [|[[e k]|] faults].
  - specialize (Hop _ HP). destruct (op (fs_nodes s)) as [r1 n1]. injection Hrun as <- <-.
    destruct Hop as [HI HQ]. exists [n1]. cbn. split_and!; [done | by apply Forall_singleton | done].
  - injection Hrun as <- <-. destruct (Htorn _ e k HP) as [HI HQ].
    exists [torn k (fs_nodes s)]. cbn. split_and!; [done | by apply Forall_singleton | done].
  - specialize (Hop _ HP). destruct (op (fs_nodes s)) as [r1 n1]. injection Hrun as <- <-.
    destruct Hop as [HI HQ]. exists [n1]. cbn. split_and!; [done | by apply Forall_singleton | done].
Qed.

(** A call whose failure ends the computation. *)
Lemma triple_call {E A : Type} (I P R : nodes → Prop) (f : io_error → E)
    (op : nodes → (io_error + ()) * nodes) (torn : nat → nodes → nodes) (k : FS E A)
    (Q : E + A → nodes → Prop) :
  (∀ n, P n → I (op n).2 ∧ ((op n).1 = inr () → R (op n).2)) →
  (∀ n j, P n → I (torn j n)) →
  (∀ e n, I n → Q (inl e) n) →
  triple I R k Q → triple I P (fs_map_err f (sys op torn);; k) Q.
Proof.
  intros Hop Htorn He Hk.
  eapply (triple_bind _ _ _ _ (λ r n, I n ∧ (r = inr () → R n))).
  - eapply (triple_map_err _ _ _ _ _ (λ r n, I n ∧ (r = inr () → R n))); [|naive_solver..].
    apply triple_sys; [|naive_solver]. intros n Hn. destruct (Hop n Hn). naive_solver.
  - intros []. eapply fs_triple_weaken; [done | naive_solver | done].
  - naive_solver.
Qed.

(** ** Parents *)

Lemma parent_snoc p q : parent p = Some q → ∃ c, p = q ++ [c].
Proof.
  unfold parent. destruct (reverse p) as [|c rest] eqn:Hr; [done|]. case_decide; [done|].
  intros [= <-]. exists c. rewrite <-(reverse_involutive p), Hr. by rewrite reverse_cons.
Qed.

Lemma parent_shorter p q : parent p = Some q → (length q < length p)%nat.
Proof. intros [c ->]%parent_snoc. rewrite length_app. cbn. lia. Qed.

(** Every call succeeds that can. *)
Definition no_faults (n : nodes) : fs := {| fs_nodes := n; fs_faults := []; fs_seen := [] |}.
