(* ===== verification/Api.v ===== *)
(** * The API's documents (api_client/src/api.rs)

    The formats of the values inside the API's JSON, the answer envelope, and
    the data that several calls share, each with the documents serde derives
    for it and the proof that it is read back from its document. *)

From S2P Require Import Prelude Net Json OriginLookup.
From Stdlib Require Import Ascii.
#[local] Open Scope string_scope.
#[local] Open Scope list_scope.
#[local] Open Scope Z_scope.

(** ** Values written as text *)

(** [Display] (or the crate's own) and [FromStr] of a type. *)
Record text_format (T : Type) : Type := {
  show : T → string;
  read : string → option T;
}.
Arguments show {T} _ _.
Arguments read {T} _ _.

(** A UUID is its 128 bits, a [DateTime<Utc>] its nanoseconds since 1970. *)
Definition Uuid : Set := Z.
Definition DateTime : Set := Z.

(** The years 1970 to 9999. *)
Definition DateTime_wf (t : DateTime) : Prop := 0 ≤ t < 253402300800 * 10 ^ 9.

(** The formats of the crates uuid and chrono and of [std::net]. *)
Class Formats : Type := {
  uuid_text : text_format Uuid;
  datetime_text : text_format DateTime;
  ip_text : text_format IpAddr;
  ipv4_text : text_format Z;
  ipv6_text : text_format Z;
  sock_text : text_format SocketAddr;
  sock4_text : text_format SocketAddrV4;
  sock6_text : text_format SocketAddrV6;
}.

Definition reads_back {T} (f : text_format T) (wf : T → Prop) : Prop :=
  ∀ x, wf x → read f (show f x) = Some x.

Definition SocketAddrV4_wf (a : SocketAddrV4) : Prop := SocketAddr_wf (SaV4 a).
Definition SocketAddrV6_wf (a : SocketAddrV6) : Prop := SocketAddr_wf (SaV6 a).

(** What the formats document: the text of a value is read as the value. *)
Class FormatsLaws {FM : Formats} : Prop := {
  uuid_reads_back : reads_back uuid_text (uint 128);
  datetime_reads_back : reads_back datetime_text DateTime_wf;
  ip_reads_back : reads_back ip_text IpAddr_wf;
  ipv4_reads_back : reads_back ipv4_text (uint 32);
  ipv6_reads_back : reads_back ipv6_text (uint 128);
  sock_reads_back : reads_back sock_text SocketAddr_wf;
  sock4_reads_back : reads_back sock4_text SocketAddrV4_wf;
  sock6_reads_back : reads_back sock6_text SocketAddrV6_wf;
}.
Arguments FormatsLaws : clear implicits.

Definition Serde_text {T} (f : text_format T) : Serde T := {|
  to_value x := Str (show f x);
  from_value v := match v with Str s => read f s | _ => None end |}.

Lemma Serde_text_laws {T} (f : text_format T) wf :
  reads_back f wf → @SerdeLaws T (Serde_text f) wf.
Proof. intros Hf. split; [exact Hf | done]. Qed.

Section text_laws.
Context {FM : Formats} {FL : FormatsLaws FM}.

#[global] Instance uuid_laws : @SerdeLaws Uuid (Serde_text uuid_text) (uint 128).
Proof. apply Serde_text_laws, uuid_reads_back. Qed.
#[global] Instance datetime_laws : @SerdeLaws DateTime (Serde_text datetime_text) DateTime_wf.
Proof. apply Serde_text_laws, datetime_reads_back. Qed.
#[global] Instance ip_laws : @SerdeLaws IpAddr (Serde_text ip_text) IpAddr_wf.
Proof. apply Serde_text_laws, ip_reads_back. Qed.
#[global] Instance ipv4_laws : @SerdeLaws Z (Serde_text ipv4_text) (uint 32).
Proof. apply Serde_text_laws, ipv4_reads_back. Qed.
#[global] Instance ipv6_laws : @SerdeLaws Z (Serde_text ipv6_text) (uint 128).
Proof. apply Serde_text_laws, ipv6_reads_back. Qed.
#[global] Instance sock_laws : @SerdeLaws SocketAddr (Serde_text sock_text) SocketAddr_wf.
Proof. apply Serde_text_laws, sock_reads_back. Qed.
#[global] Instance sock4_laws : @SerdeLaws SocketAddrV4 (Serde_text sock4_text) SocketAddrV4_wf.
Proof. apply Serde_text_laws, sock4_reads_back. Qed.
#[global] Instance sock6_laws : @SerdeLaws SocketAddrV6 (Serde_text sock6_text) SocketAddrV6_wf.
Proof. apply Serde_text_laws, sock6_reads_back. Qed.
End text_laws.

(** [NonZeroU64]. *)
Definition nonzero64 (n : Z) : Prop := n ≠ 0 ∧ uint 64 n.

Definition Serde_nonzero64 : Serde Z := {|
  to_value n := Number (PosInt n);
  from_value v :=
    n ← from_value (Serde := Serde_uint 64) v;
    if decide (n = 0) then None else Some n |}.

#[global] Instance Serde_nonzero64_laws : @SerdeLaws Z Serde_nonzero64 nonzero64.
Proof.
  split; [|done]. intros x [Hz Hx]. cbn. rewrite decide_True by done. cbn. by rewrite decide_False.
Qed.

(** ** Shared data *)

Record PathNotFound : Type := {
  PathNotFound_path : string;
}.

#[global] Instance PathNotFound_serde : Serde PathNotFound := {|
  to_value x :=
    Object
      [("path"%string, to_value (Serde := Serde_string) (PathNotFound_path x))];
  from_value v :=
    entries ← entries_of v;
    path' ← field Serde_string "path" entries;
    Some {| PathNotFound_path := path' |} |}.

#[global] Instance PathNotFound_laws : SerdeLaws PathNotFound (λ _, True).
Proof. serde_struct. Qed.

Inductive AuthError : Set :=
  | AuthError_AuthRequired
  | AuthError_InvalidHeader
  | AuthError_InvalidSignature
  | AuthError_InvalidTimestamp
  | AuthError_InvalidApiKey
  | AuthError_InvalidAgentKey
  | AuthError_SessionExpired
  | AuthError_InvalidAuthType
  | AuthError_ScopeNotAllowed
  | AuthError_NoLongerValid
  | AuthError_GuestAccountNotAllowed
  | AuthError_EmailMustBeVerified
  | AuthError_AccountDoesNotExist
  | AuthError_AdminOnly
  | AuthError_InvalidToken
  | AuthError_TotpRequred
  | AuthError_NotAllowedWithReadOnly
  | AuthError_DefaultAgentBlocked
  | AuthError_AgentNotSelfManaged
  | AuthError_SelfManagedAgentCanOnlyAffectSelf
  | AuthError_AccountNotAuthorized.

Definition AuthError_name (x : AuthError) : string :=
  match x with
  | AuthError_AuthRequired => "AuthRequired"
  | AuthError_InvalidHeader => "InvalidHeader"
  | AuthError_InvalidSignature => "InvalidSignature"
  | AuthError_InvalidTimestamp => "InvalidTimestamp"
  | AuthError_InvalidApiKey => "InvalidApiKey"
  | AuthError_InvalidAgentKey => "InvalidAgentKey"
  | AuthError_SessionExpired => "SessionExpired"
  | AuthError_InvalidAuthType => "InvalidAuthType"
  | AuthError_ScopeNotAllowed => "ScopeNotAllowed"
  | AuthError_NoLongerValid => "NoLongerValid"
  | AuthError_GuestAccountNotAllowed => "GuestAccountNotAllowed"
  | AuthError_EmailMustBeVerified => "EmailMustBeVerified"
  | AuthError_AccountDoesNotExist => "AccountDoesNotExist"
  | AuthError_AdminOnly => "AdminOnly"
  | AuthError_InvalidToken => "InvalidToken"
  | AuthError_TotpRequred => "TotpRequred"
  | AuthError_NotAllowedWithReadOnly => "NotAllowedWithReadOnly"
  | AuthError_DefaultAgentBlocked => "DefaultAgentBlocked"
  | AuthError_AgentNotSelfManaged => "AgentNotSelfManaged"
  | AuthError_SelfManagedAgentCanOnlyAffectSelf => "SelfManagedAgentCanOnlyAffectSelf"
  | AuthError_AccountNotAuthorized => "AccountNotAuthorized"
  end.

#[global] Instance AuthError_serde : Serde AuthError :=
  Serde_unit_enum AuthError_name
    [(AuthError_name AuthError_AuthRequired, AuthError_AuthRequired);
     (AuthError_name AuthError_InvalidHeader, AuthError_InvalidHeader);
     (AuthError_name AuthError_InvalidSignature, AuthError_InvalidSignature);
     (AuthError_name AuthError_InvalidTimestamp, AuthError_InvalidTimestamp);
     (AuthError_name AuthError_InvalidApiKey, AuthError_InvalidApiKey);
     (AuthError_name AuthError_InvalidAgentKey, AuthError_InvalidAgentKey);
     (AuthError_name AuthError_SessionExpired, AuthError_SessionExpired);
     (AuthError_name AuthError_InvalidAuthType, AuthError_InvalidAuthType);
     (AuthError_name AuthError_ScopeNotAllowed, AuthError_ScopeNotAllowed);
     (AuthError_name AuthError_NoLongerValid, AuthError_NoLongerValid);
     (AuthError_name AuthError_GuestAccountNotAllowed, AuthError_GuestAccountNotAllowed);
     (AuthError_name AuthError_EmailMustBeVerified, AuthError_EmailMustBeVerified);
     (AuthError_name AuthError_AccountDoesNotExist, AuthError_AccountDoesNotExist);
     (AuthError_name AuthError_AdminOnly, AuthError_AdminOnly);
     (AuthError_name AuthError_InvalidToken, AuthError_InvalidToken);
     (AuthError_name AuthError_TotpRequred, AuthError_TotpRequred);
     (AuthError_name AuthError_NotAllowedWithReadOnly, AuthError_NotAllowedWithReadOnly);
     (AuthError_name AuthError_DefaultAgentBlocked, AuthError_DefaultAgentBlocked);
     (AuthError_name AuthError_AgentNotSelfManaged, AuthError_AgentNotSelfManaged);
     (AuthError_name AuthError_SelfManagedAgentCanOnlyAffectSelf, AuthError_SelfManagedAgentCanOnlyAffectSelf);
     (AuthError_name AuthError_AccountNotAuthorized, AuthError_AccountNotAuthorized)].

#[global] Instance AuthError_laws : SerdeLaws AuthError (λ _, True).
Proof. apply unit_enum_laws. by intros []. Qed.

Record ApiInternalError : Type := {
  ApiInternalError_trace_id : string;
}.

#[global] Instance ApiInternalError_serde : Serde ApiInternalError := {|
  to_value x :=
    Object
      [("trace_id"%string, to_value (Serde := Serde_string) (ApiInternalError_trace_id x))];
  from_value v :=
    entries ← entries_of v;
    trace_id' ← field Serde_string "trace_id" entries;
    Some {| ApiInternalError_trace_id := trace_id' |} |}.

#[global] Instance ApiInternalError_laws : SerdeLaws ApiInternalError (λ _, True).
Proof. serde_struct. Qed.

Inductive ApiResponseError : Type :=
  | ApiResponseError_Validation (x : string)
  | ApiResponseError_PathNotFound (x : PathNotFound)
  | ApiResponseError_Auth (x : AuthError)
  | ApiResponseError_Internal (x : ApiInternalError).

#[global] Instance ApiResponseError_serde : Serde ApiResponseError := {|
  to_value x :=
    match x with
    | ApiResponseError_Validation x => adjacent "type" "message" "validation" (Some (to_value (Serde := Serde_string) x))
    | ApiResponseError_PathNotFound x => adjacent "type" "message" "path-not-found" (Some (to_value (Serde := PathNotFound_serde) x))
    | ApiResponseError_Auth x => adjacent "type" "message" "auth" (Some (to_value (Serde := AuthError_serde) x))
    | ApiResponseError_Internal x => adjacent "type" "message" "internal" (Some (to_value (Serde := ApiInternalError_serde) x))
    end;
  from_value v :=
    '(name, data) ← adjacent_parts "type" "message" v;
    variant ← find_variant name
      [("validation", newtype_variant Serde_string ApiResponseError_Validation);
       ("path-not-found", newtype_variant PathNotFound_serde ApiResponseError_PathNotFound);
       ("auth", newtype_variant AuthError_serde ApiResponseError_Auth);
       ("internal", newtype_variant ApiInternalError_serde ApiResponseError_Internal)]%string;
    variant data |}.

#[global] Instance ApiResponseError_laws : SerdeLaws ApiResponseError (λ _, True).
Proof. serde_enum. Qed.

Definition PortType_name (x : PortType) : string :=
  match x with
  | PortTypeTcp => "tcp"
  | PortTypeUdp => "udp"
  | PortTypeBoth => "both"
  end.

#[global] Instance PortType_serde : Serde PortType :=
  Serde_unit_enum PortType_name
    [(PortType_name PortTypeTcp, PortTypeTcp);
     (PortType_name PortTypeUdp, PortTypeUdp);
     (PortType_name PortTypeBoth, PortTypeBoth)].

#[global] Instance PortType_laws : SerdeLaws PortType (λ _, True).
Proof. apply unit_enum_laws. by intros []. Qed.

Definition TunnelType_name (x : TunnelType) : string :=
  match x with
  | MinecraftJava => "minecraft-java"
  | MinecraftBedrock => "minecraft-bedrock"
  | Valheim => "valheim"
  | Terraria => "terraria"
  | Starbound => "starbound"
  | Rust => "rust"
  | Num7days => "7days"
  | Unturned => "unturned"
  | Https => "https"
  | Hytale => "hytale"
  | ProjectZomboid => "project-zomboid"
  | VintageStory => "vintage-story"
  end.

#[global] Instance TunnelType_serde : Serde TunnelType :=
  Serde_unit_enum TunnelType_name
    [(TunnelType_name MinecraftJava, MinecraftJava);
     (TunnelType_name MinecraftBedrock, MinecraftBedrock);
     (TunnelType_name Valheim, Valheim);
     (TunnelType_name Terraria, Terraria);
     (TunnelType_name Starbound, Starbound);
     (TunnelType_name Rust, Rust);
     (TunnelType_name Num7days, Num7days);
     (TunnelType_name Unturned, Unturned);
     (TunnelType_name Https, Https);
     (TunnelType_name Hytale, Hytale);
     (TunnelType_name ProjectZomboid, ProjectZomboid);
     (TunnelType_name VintageStory, VintageStory)].

#[global] Instance TunnelType_laws : SerdeLaws TunnelType (λ _, True).
Proof. apply unit_enum_laws. by intros []. Qed.

Definition ProxyProtocol_name (x : ProxyProtocol) : string :=
  match x with
  | ProxyProtocolV1 => "proxy-protocol-v1"
  | ProxyProtocolV2 => "proxy-protocol-v2"
  end.

#[global] Instance ProxyProtocol_serde : Serde ProxyProtocol :=
  Serde_unit_enum ProxyProtocol_name
    [(ProxyProtocol_name ProxyProtocolV1, ProxyProtocolV1);
     (ProxyProtocol_name ProxyProtocolV2, ProxyProtocolV2)].

#[global] Instance ProxyProtocol_laws : SerdeLaws ProxyProtocol (λ _, True).
Proof. apply unit_enum_laws. by intros []. Qed.

#[global] Instance AgentTunnelAttr_serde : Serde AgentTunnelAttr := {|
  to_value x :=
    Object
      [("name"%string, to_value (Serde := Serde_string) (attr_name x));
       ("value"%string, to_value (Serde := Serde_string) (attr_value x))];
  from_value v :=
    entries ← entries_of v;
    name' ← field Serde_string "name" entries;
    value' ← field Serde_string "value" entries;
    Some {| attr_name := name';
            attr_value := value' |} |}.

#[global] Instance AgentTunnelAttr_laws : SerdeLaws AgentTunnelAttr (λ _, True).
Proof. serde_struct. Qed.

Inductive PlayitNetwork : Set :=
  | PlayitNetwork_Global
  | PlayitNetwork_NorthAmerica
  | PlayitNetwork_Europe
  | PlayitNetwork_Asia
  | PlayitNetwork_India
  | PlayitNetwork_SouthAmerica
  | PlayitNetwork_Chile
  | PlayitNetwork_SeattleWashington
  | PlayitNetwork_LosAngelesCalifornia
  | PlayitNetwork_DenverColorado
  | PlayitNetwork_DallasTexas
  | PlayitNetwork_ChicagoIllinois
  | PlayitNetwork_NewYork
  | PlayitNetwork_NaReserved1
  | PlayitNetwork_NaReserved2
  | PlayitNetwork_UnitedKingdom
  | PlayitNetwork_Germany
  | PlayitNetwork_Sweden
  | PlayitNetwork_Poland
  | PlayitNetwork_Romania
  | PlayitNetwork_Test
  | PlayitNetwork_Japan
  | PlayitNetwork_Australia.

Definition PlayitNetwork_name (x : PlayitNetwork) : string :=
  match x with
  | PlayitNetwork_Global => "global"
  | PlayitNetwork_NorthAmerica => "north-america"
  | PlayitNetwork_Europe => "europe"
  | PlayitNetwork_Asia => "asia"
  | PlayitNetwork_India => "india"
  | PlayitNetwork_SouthAmerica => "south-america"
  | PlayitNetwork_Chile => "chile"
  | PlayitNetwork_SeattleWashington => "seattle-washington"
  | PlayitNetwork_LosAngelesCalifornia => "los-angeles-california"
  | PlayitNetwork_DenverColorado => "denver-colorado"
  | PlayitNetwork_DallasTexas => "dallas-texas"
  | PlayitNetwork_ChicagoIllinois => "chicago-illinois"
  | PlayitNetwork_NewYork => "new-york"
  | PlayitNetwork_NaReserved1 => "_NaReserved1"
  | PlayitNetwork_NaReserved2 => "_NaReserved2"
  | PlayitNetwork_UnitedKingdom => "united-kingdom"
  | PlayitNetwork_Germany => "germany"
  | PlayitNetwork_Sweden => "sweden"
  | PlayitNetwork_Poland => "poland"
  | PlayitNetwork_Romania => "romania"
  | PlayitNetwork_Test => "_Test"
  | PlayitNetwork_Japan => "japan"
  | PlayitNetwork_Australia => "australia"
  end.

Definition PlayitNetwork_of_name (s : string) : option PlayitNetwork :=
  find_variant s
    [(PlayitNetwork_name PlayitNetwork_Global, PlayitNetwork_Global);
     (PlayitNetwork_name PlayitNetwork_NorthAmerica, PlayitNetwork_NorthAmerica);
     (PlayitNetwork_name PlayitNetwork_Europe, PlayitNetwork_Europe);
     (PlayitNetwork_name PlayitNetwork_Asia, PlayitNetwork_Asia);
     (PlayitNetwork_name PlayitNetwork_India, PlayitNetwork_India);
     (PlayitNetwork_name PlayitNetwork_SouthAmerica, PlayitNetwork_SouthAmerica);
     (PlayitNetwork_name PlayitNetwork_Chile, PlayitNetwork_Chile);
     (PlayitNetwork_name PlayitNetwork_SeattleWashington, PlayitNetwork_SeattleWashington);
     (PlayitNetwork_name PlayitNetwork_LosAngelesCalifornia, PlayitNetwork_LosAngelesCalifornia);
     (PlayitNetwork_name PlayitNetwork_DenverColorado, PlayitNetwork_DenverColorado);
     (PlayitNetwork_name PlayitNetwork_DallasTexas, PlayitNetwork_DallasTexas);
     (PlayitNetwork_name PlayitNetwork_ChicagoIllinois, PlayitNetwork_ChicagoIllinois);
     (PlayitNetwork_name PlayitNetwork_NewYork, PlayitNetwork_NewYork);
     (PlayitNetwork_name PlayitNetwork_NaReserved1, PlayitNetwork_NaReserved1);
     (PlayitNetwork_name PlayitNetwork_NaReserved2, PlayitNetwork_NaReserved2);
     (PlayitNetwork_name PlayitNetwork_UnitedKingdom, PlayitNetwork_UnitedKingdom);
     (PlayitNetwork_name PlayitNetwork_Germany, PlayitNetwork_Germany);
     (PlayitNetwork_name PlayitNetwork_Sweden, PlayitNetwork_Sweden);
     (PlayitNetwork_name PlayitNetwork_Poland, PlayitNetwork_Poland);
     (PlayitNetwork_name PlayitNetwork_Romania, PlayitNetwork_Romania);
     (PlayitNetwork_name PlayitNetwork_Test, PlayitNetwork_Test);
     (PlayitNetwork_name PlayitNetwork_Japan, PlayitNetwork_Japan);
     (PlayitNetwork_name PlayitNetwork_Australia, PlayitNetwork_Australia)].

#[global] Instance PlayitNetwork_eq_dec : EqDecision PlayitNetwork.
Proof. solve_decision. Defined.

#[global] Instance PlayitNetwork_countable : Countable PlayitNetwork.
Proof. refine (inj_countable PlayitNetwork_name PlayitNetwork_of_name _). by intros []. Defined.

#[global] Instance PlayitNetwork_serde : Serde PlayitNetwork :=
  Serde_unit_enum PlayitNetwork_name
    [(PlayitNetwork_name PlayitNetwork_Global, PlayitNetwork_Global);
     (PlayitNetwork_name PlayitNetwork_NorthAmerica, PlayitNetwork_NorthAmerica);
     (PlayitNetwork_name PlayitNetwork_Europe, PlayitNetwork_Europe);
     (PlayitNetwork_name PlayitNetwork_Asia, PlayitNetwork_Asia);
     (PlayitNetwork_name PlayitNetwork_India, PlayitNetwork_India);
     (PlayitNetwork_name PlayitNetwork_SouthAmerica, PlayitNetwork_SouthAmerica);
     (PlayitNetwork_name PlayitNetwork_Chile, PlayitNetwork_Chile);
     (PlayitNetwork_name PlayitNetwork_SeattleWashington, PlayitNetwork_SeattleWashington);
     (PlayitNetwork_name PlayitNetwork_LosAngelesCalifornia, PlayitNetwork_LosAngelesCalifornia);
     (PlayitNetwork_name PlayitNetwork_DenverColorado, PlayitNetwork_DenverColorado);
     (PlayitNetwork_name PlayitNetwork_DallasTexas, PlayitNetwork_DallasTexas);
     (PlayitNetwork_name PlayitNetwork_ChicagoIllinois, PlayitNetwork_ChicagoIllinois);
     (PlayitNetwork_name PlayitNetwork_NewYork, PlayitNetwork_NewYork);
     (PlayitNetwork_name PlayitNetwork_NaReserved1, PlayitNetwork_NaReserved1);
     (PlayitNetwork_name PlayitNetwork_NaReserved2, PlayitNetwork_NaReserved2);
     (PlayitNetwork_name PlayitNetwork_UnitedKingdom, PlayitNetwork_UnitedKingdom);
     (PlayitNetwork_name PlayitNetwork_Germany, PlayitNetwork_Germany);
     (PlayitNetwork_name PlayitNetwork_Sweden, PlayitNetwork_Sweden);
     (PlayitNetwork_name PlayitNetwork_Poland, PlayitNetwork_Poland);
     (PlayitNetwork_name PlayitNetwork_Romania, PlayitNetwork_Romania);
     (PlayitNetwork_name PlayitNetwork_Test, PlayitNetwork_Test);
     (PlayitNetwork_name PlayitNetwork_Japan, PlayitNetwork_Japan);
     (PlayitNetwork_name PlayitNetwork_Australia, PlayitNetwork_Australia)].

#[global] Instance PlayitNetwork_laws : SerdeLaws PlayitNetwork (λ _, True).
Proof. apply unit_enum_laws. by intros []. Qed.


#[global] Instance PlayitNetwork_map_laws {V} {S : Serde V} wf `{!SerdeLaws V wf} :
  @SerdeLaws (gmap PlayitNetwork V) (Serde_map PlayitNetwork_name PlayitNetwork_of_name S)
    (map_Forall (λ _, wf)).
Proof. apply (Serde_map_laws _ _ wf). by intros []. Qed.

(** ** Formats that exist

    The bits of an encoding as text, for every type at once. *)

Fixpoint bits_text (p : positive) : string :=
  match p with
  | xH => EmptyString
  | xO p => String "0" (bits_text p)
  | xI p => String "1" (bits_text p)
  end.

Fixpoint text_bits (s : string) : option positive :=
  match s with
  | EmptyString => Some 1%positive
  | String c s =>
      p ← text_bits s;
      if decide (c = "0"%char) then Some (xO p) else if decide (c = "1"%char) then Some (xI p) else None
  end.

Lemma text_bits_text p : text_bits (bits_text p) = Some p.
Proof. induction p as [p IH|p IH|]; cbn; [by rewrite IH..|done]. Qed.

Definition countable_format {T : Type} (enc : T → positive) (dec : positive → option T) : text_format T :=
  {| show x := bits_text (enc x); read s := text_bits s ≫= dec |}.

Lemma countable_reads_back {T : Type} (enc : T → positive) (dec : positive → option T) (wf : T → Prop) :
  (∀ x, dec (enc x) = Some x) → reads_back (countable_format enc dec) wf.
Proof. intros Hd x _. cbn. rewrite text_bits_text. apply Hd. Qed.

(** An address without port, and the two kinds of socket address. *)
Definition ip_of (a : SocketAddr) : option IpAddr := Some (SocketAddr_ip a).
Definition v4_of (a : SocketAddr) : option SocketAddrV4 := match a with SaV4 a => Some a | SaV6 _ => None end.
Definition v6_of (a : SocketAddr) : option SocketAddrV6 := match a with SaV6 a => Some a | SaV4 _ => None end.

#[export] Instance plain_formats : Formats := {|
  uuid_text := countable_format (encode (A := Z)) decode;
  datetime_text := countable_format (encode (A := Z)) decode;
  ip_text := countable_format (λ ip, encode (SocketAddr_new ip 0)) (λ p, decode p ≫= ip_of);
  ipv4_text := countable_format (encode (A := Z)) decode;
  ipv6_text := countable_format (encode (A := Z)) decode;
  sock_text := countable_format (encode (A := SocketAddr)) decode;
  sock4_text := countable_format (λ a, encode (SaV4 a)) (λ p, decode p ≫= v4_of);
  sock6_text := countable_format (λ a, encode (SaV6 a)) (λ p, decode p ≫= v6_of);
|}.

#[export] Instance plain_formats_laws : FormatsLaws plain_formats.
Proof.
  split; apply countable_reads_back; intros x; rewrite ?decode_encode; try done. by destruct x.
Qed.
