(* ===== verification/NameLookup.v ===== *)
(** * Host names (agent_core/src/utils/name_lookup.rs)

    An address, or a host with an optional port, as a list of addresses. Name
    resolution is a parameter. *)

From S2P Require Import Prelude Net OriginLookup Api.
From stdpp Require Import pretty.
From Stdlib Require Import Ascii.
#[local] Open Scope string_scope.
#[local] Open Scope list_scope.
#[local] Open Scope Z_scope.

(** [s.split(c)]: the parts between the separators, at least one: the first,
    and those that follow. *)
Fixpoint split_on (c : ascii) (s : string) : string * list string :=
  match s with
  | EmptyString => (EmptyString, [])
  | String a s =>
      let '(first, rest) := split_on c s in
      if Ascii.eqb a c then (EmptyString, first :: rest) else (String a first, rest)
  end.

Section lookup.
Context {FM : Formats}.
(** [tokio::net::lookup_host]. *)
Context (lookup_host : string → io_error + list SocketAddr).

Definition ip_lookup (name : string) : list SocketAddr :=
  match lookup_host name with inr l => l | inl _ => [] end.

Definition address_lookup (name : string) (default_port : Z) : list SocketAddr :=
  match read sock_text name with
  | Some addr => [addr]
  | None =>
      let '(ip_part, rest) := split_on ":" name in
      let port_number := default default_port (head rest ≫= u16_from_str) in
      match tail rest with
      | _ :: _ => []
      | [] => ip_lookup (ip_part +:+ ":" +:+ pretty port_number)
      end
  end.

(** ** What is asked for *)

(** A text without the separator. *)
Definition plain (c : ascii) (s : string) : Prop := split_on c s = (s, []).

Lemma split_on_app c s t :
  plain c s → split_on c (s +:+ String c t) = (s, let '(first, rest) := split_on c t in first :: rest).
Proof.
  unfold plain. induction s as [|a s IH]; intros Hs.
  - change (EmptyString +:+ String c t) with (String c t). cbn [split_on]. destruct (split_on c t). by rewrite Ascii.eqb_refl.
  - change (String a s +:+ String c t) with (String a (s +:+ String c t)). cbn [split_on] in Hs |- *.
    destruct (split_on c s) as [f r]. destruct (Ascii.eqb a c); [done|]. injection Hs as -> ->. by rewrite IH.
Qed.

(** An address is itself; a host is resolved with the default port, and with
    a port of its own with that one, the default when it is no port; with
    more parts it is nothing. Nothing but the resolver decides the rest. *)
Theorem address_lookup_spec (host port more : string) (default_port : Z) :
  plain ":" host → plain ":" port →
  (∀ a, read sock_text host = Some a → address_lookup host default_port = [a]) ∧
  (read sock_text host = None →
   address_lookup host default_port = ip_lookup (host +:+ ":" +:+ pretty default_port)) ∧
  (read sock_text (host +:+ ":" +:+ port) = None →
   address_lookup (host +:+ ":" +:+ port) default_port =
     ip_lookup (host +:+ ":" +:+ pretty (default default_port (u16_from_str port)))) ∧
  (read sock_text (host +:+ ":" +:+ port +:+ ":" +:+ more) = None →
   address_lookup (host +:+ ":" +:+ port +:+ ":" +:+ more) default_port = []).
Proof.
  intros Hh Hp. unfold address_lookup. pose proof Hh as Hh'. pose proof Hp as Hp'. unfold plain in Hh', Hp'. split_and!.
  - by intros a ->.
  - intros ->. by rewrite Hh'.
  - intros ->. change (":" +:+ port) with (String ":" port). rewrite split_on_app by done. by rewrite Hp'.
  - intros ->. change (":" +:+ port +:+ ":" +:+ more) with (String ":" (port +:+ String ":" more)).
    rewrite !split_on_app by done. by destruct (split_on ":" more).
Qed.
End lookup.
