(* ===== verification/HttpClient.v ===== *)
(** * The HTTP client of the API (api_client/src/http_client.rs)

    Credentials, and the call that posts a document and reads the answer
    envelope, with its retries. reqwest and the network are a parameter: the
    answer to each request, in the order they are sent. *)

From S2P Require Import Prelude Text Json OriginLookup Api.
#[local] Open Scope string_scope.
#[local] Open Scope list_scope.
#[local] Open Scope Z_scope.

(** ** Credentials *)

Inductive AuthState : Type :=
  | Anonymous
  | AgentKey (secret : string)
  | Bearer (token : string).

Definition AuthState_agent_key (secret : string) : AuthState := AgentKey (str_trim secret).

Definition header_value (a : AuthState) : option string :=
  match a with
  | Anonymous => None
  | AgentKey secret => Some ("Agent-Key " +:+ secret)
  | Bearer token => Some ("Bearer " +:+ token)
  end.

Definition AuthState_kind (a : AuthState) : string :=
  match a with
  | Anonymous => "anonymous"
  | AgentKey _ => "agent"
  | Bearer _ => "account"
  end.

(** [Debug]. *)
Definition AuthState_debug (a : AuthState) : string :=
  match a with
  | Anonymous => "Anonymous"
  | AgentKey _ => "AgentKey(<redacted>)"
  | Bearer _ => "Bearer(<redacted>)"
  end.

Inductive AuthPolicy : Set :=
  | PolicyAnonymous
  | PolicyAgent
  | PolicyAccount
  | PolicyAgentOrAccount.

Definition AuthPolicy_allows (p : AuthPolicy) (a : AuthState) : bool :=
  match p, a with
  | PolicyAnonymous, Anonymous
  | PolicyAgent, AgentKey _
  | PolicyAccount, Bearer _
  | PolicyAgentOrAccount, AgentKey _
  | PolicyAgentOrAccount, Bearer _ => true
  | _, _ => false
  end.

Record HttpClient : Type := {
  hc_api_base : string;
  hc_auth_header : option string;
}.

Definition HttpClient_new (api_base : string) (auth_header : option string) : HttpClient :=
  {| hc_api_base := api_base; hc_auth_header := auth_header |}.

Definition HttpClient_new_with_auth (api_base : string) (auth : AuthState) : HttpClient :=
  HttpClient_new api_base (header_value auth).

Definition HttpClient_set_auth (c : HttpClient) (auth : AuthState) : HttpClient :=
  {| hc_api_base := hc_api_base c; hc_auth_header := header_value auth |}.

Definition HttpClient_remove_auth (c : HttpClient) : HttpClient :=
  {| hc_api_base := hc_api_base c; hc_auth_header := None |}.

(** [clone]: [locked] when the header is being written at the moment. *)
Definition HttpClient_clone (locked : bool) (c : HttpClient) : HttpClient :=
  {| hc_api_base := hc_api_base c;
     hc_auth_header := if locked then None else hc_auth_header c |}.

Definition HttpClient_auth_kind (c : HttpClient) : string :=
  match hc_auth_header c with
  | None => "anonymous"
  | Some value =>
      if starts_with "Agent-Key " value then "agent"
      else if starts_with "Bearer " value then "account"
      else "unknown"
  end.

(** ** The answer envelope (api.rs) *)

Inductive ApiResult (A B : Type) : Type :=
  | ApiSuccess (data : A)
  | ApiFailed (fail : B)
  | ApiErrored (e : ApiResponseError).
Arguments ApiSuccess {A B} data.
Arguments ApiFailed {A B} fail.
Arguments ApiErrored {A B} e.

Section envelope.
Context {FM : Formats} {A B : Type} (SA : Serde A) (SB : Serde B).

Definition ApiResult_serde : Serde (ApiResult A B) := {|
  to_value x :=
    match x with
    | ApiSuccess v => adjacent "status" "data" "success" (Some (to_value v))
    | ApiFailed f => adjacent "status" "data" "fail" (Some (to_value f))
    | ApiErrored e => adjacent "status" "data" "error" (Some (to_value (Serde := ApiResponseError_serde) e))
    end;
  from_value v :=
    '(name, data) ← adjacent_parts "status" "data" v;
    variant ← find_variant name
      [("success", newtype_variant SA ApiSuccess);
       ("fail", newtype_variant SB ApiFailed);
       ("error", newtype_variant ApiResponseError_serde ApiErrored)]%string;
    variant data |}.
End envelope.

Inductive RetryPolicy : Set := RetryNever | RetryTransient.

(** ** reqwest *)

(** The predicates of [reqwest::Error] that are asked for. *)
Record ReqwestError : Set := {
  is_connect : bool;
  is_timeout : bool;
  is_request : bool;
  is_body : bool;
}.

(** A header value that may be text. *)
Definition HeaderValue : Set := option string.

Inductive HttpClientError : Set :=
  | SerializeError
  | ParseError (status : Z)
  | HttpRequestError (e : ReqwestError)
  | TooManyRequests.

Definition is_retryable_request_error (e : ReqwestError) : bool :=
  is_connect e || is_timeout e || is_request e || is_body e.

Definition TOO_MANY_REQUESTS : Z := 429.

Definition is_server_error (status : Z) : bool := (500 <=? status) && (status <? 600).

Definition is_transient (e : HttpClientError) : bool :=
  match e with
  | HttpRequestError e => is_retryable_request_error e
  | ParseError status => (status =? TOO_MANY_REQUESTS) || is_server_error status
  | TooManyRequests => true
  | SerializeError => false
  end.

Section http.
Context {JT : JsonText}.

Record HttpRequest : Type := {
  hr_url : string;
  hr_auth : option string;
  hr_body : text;
}.

(** What comes back for a request. *)
Inductive exchange : Type :=
  | NoResponse (e : ReqwestError)
  | BrokenBody (status : Z) (retry_after : option HeaderValue) (e : ReqwestError)
  | Response (status : Z) (retry_after : option HeaderValue) (body : text).

End http.

(** The transport: whether a request can be built, the answer to the n-th
    request that is sent, and [httpdate::parse_http_date] of a text as the
    time that is left then, in nanoseconds. *)
Class Transport {JT : JsonText} : Type := {
  build_error : HttpRequest → option ReqwestError;
  answer_to : nat → HttpRequest → exchange;
  http_date : nat → string → option Z;
}.
Arguments Transport JT : clear implicits.

(** What was sent, and how long the client slept in between. *)
Record traffic {JT : JsonText} : Type := {
  tr_sent : list HttpRequest;
  tr_slept : list Z;
}.
Arguments traffic JT : clear implicits.

(** ** The call *)

Definition MAX_REQUEST_ATTEMPTS : nat := 3.

(** Durations are nanoseconds. *)
Definition RETRY_DELAY : Z := 250 * 10 ^ 6.
Definition MAX_RETRY_DELAY : Z := 5 * 10 ^ 9.

Definition max_attempts (policy : RetryPolicy) : nat :=
  match policy with RetryNever => 1 | RetryTransient => MAX_REQUEST_ATTEMPTS end.

Definition retries (policy : RetryPolicy) : bool :=
  match policy with RetryNever => false | RetryTransient => true end.

Section call.
Context {FM : Formats} {JT : JsonText} {T : Transport JT}.

Definition parse_retry_after (n : nat) (value : HeaderValue) : option Z :=
  text ← value;
  let text := str_trim text in
  match uint_from_str 64 text with
  | Some seconds => Some (seconds * 10 ^ 9)
  | None => Z.max 0 <$> http_date n text
  end.

Definition http_retry_delay (n attempt : nat) (retry_after : option HeaderValue) : Z :=
  Z.min (default (RETRY_DELAY * (Z.of_nat attempt + 1)) (retry_after ≫= parse_retry_after n))
    MAX_RETRY_DELAY.

Definition log_sent (r : HttpRequest) (t : traffic JT) : traffic JT :=
  {| tr_sent := tr_sent t ++ [r]; tr_slept := tr_slept t |}.

Definition log_slept (d : Z) (t : traffic JT) : traffic JT :=
  {| tr_sent := tr_sent t; tr_slept := tr_slept t ++ [d] |}.

(** Read the answer. *)
Definition read_answer {A B} (SA : Serde A) (SB : Serde B) (status : Z) (body : text) :
    HttpClientError + ApiResult A B :=
  if decide (status = TOO_MANY_REQUESTS) then inl TooManyRequests
  else
    match from_text body ≫= from_value (Serde := ApiResult_serde SA SB) with
    | Some r => inr r
    | None => inl (ParseError status)
    end.

(** One round of the loop: [inl] the delay before the next, or the result. *)
Definition attempt_step {A B} (SA : Serde A) (SB : Serde B) (policy : RetryPolicy)
    (last : bool) (n attempt : nat) (x : exchange) : Z + (HttpClientError + ApiResult A B) :=
  match x with
  | NoResponse e =>
      if retries policy && negb last && is_retryable_request_error e
      then inl (http_retry_delay n attempt None)
      else inr (inl (HttpRequestError e))
  | BrokenBody status retry_after e =>
      if retries policy && negb last && is_retryable_request_error e
      then inl (http_retry_delay n attempt retry_after)
      else inr (inl (HttpRequestError e))
  | Response status retry_after body =>
      if retries policy && ((status =? TOO_MANY_REQUESTS) || is_server_error status) && negb last
      then inl (http_retry_delay n attempt retry_after)
      else inr (read_answer SA SB status body)
  end.

(** The rounds that are left, from round [attempt]; [None] is the
    [unreachable!] behind the loop. *)
Fixpoint attempt_loop {A B} (SA : Serde A) (SB : Serde B) (policy : RetryPolicy)
    (req : HttpRequest) (rounds attempt : nat) (t : traffic JT) :
    option (HttpClientError + ApiResult A B) * traffic JT :=
  match rounds with
  | O => (None, t)
  | S rounds =>
      match build_error req with
      | Some e => (Some (inl (HttpRequestError e)), t)
      | None =>
          let n := length (tr_sent t) in
          let t := log_sent req t in
          let last := negb (attempt + 1 <? max_attempts policy)%nat in
          match attempt_step SA SB policy last n attempt (answer_to n req) with
          | inr r => (Some r, t)
          | inl d => attempt_loop SA SB policy req rounds (attempt + 1) (log_slept d t)
          end
      end
  end.

Definition http_request (c : HttpClient) (path : string) (body : value) : HttpRequest :=
  {| hr_url := hc_api_base c +:+ path; hr_auth := hc_auth_header c; hr_body := to_text body |}.

Definition call_with_policy {Q A B} (SQ : Serde Q) (SA : Serde A) (SB : Serde B) (c : HttpClient)
    (path : string) (req : Q) (policy : RetryPolicy) (t : traffic JT) :
    option (HttpClientError + ApiResult A B) * traffic JT :=
  attempt_loop SA SB policy (http_request c path (to_value req)) (max_attempts policy) 0 t.

Definition call {Q A B} (SQ : Serde Q) (SA : Serde A) (SB : Serde B) (c : HttpClient)
    (path : string) (req : Q) (t : traffic JT) :
    option (HttpClientError + ApiResult A B) * traffic JT :=
  call_with_policy SQ SA SB c path req RetryNever t.
End call.
