(* ===== verification/ControlIo.v ===== *)
(** * The world the control tasks run in

    The control connection is driven by what the network, the clock and the
    API answer. A computation is a function of its own state and of a world
    that holds these answers, one per operation, and records what was sent.
    A deadline ([try_timeout] of agent_control/errors.rs) may cut a
    computation short before any of its awaits; what was done to the state
    by then stays done. *)

From S2P Require Import Prelude Json Api HttpClient Bytes Net.

(** ** Errors (agent_control/errors.rs)

    A typed failure of the API is kept as its JSON text, as in the code. *)

Inductive SetupError : Type :=
  | SetupIoError (e : io_error)
  | FailedToConnect
  | ApiFail (fail : string)
  | ApiError (e : ApiResponseError)
  | RequestError (e : HttpClientError)
  | AttemptingToAuthWithOldFlow
  | FailedToDecodeSignedAgentRegisterHex
  | NoResponseFromAuthenticate
  | RegisterInvalidSignature
  | RegisterUnauthorized
  | SetupTimeout.

Inductive ControlError : Type :=
  | ControlIoError (e : io_error)
  | InvalidRemote (expected got : SocketAddr)
  | FailedToReadControlFeed (e : io_error)
  | ControlTimeout.

(** [Result<A, E>]. *)
Inductive result (E A : Type) : Type :=
  | ROk (a : A)
  | RErr (e : E).
Arguments ROk {E A} a.
Arguments RErr {E A} e.

(** ** The world *)

Inductive recv_result : Type :=
  | RecvTimeout
  | RecvError (e : io_error)
  | RecvPacket (data : list byte) (peer : SocketAddr).

(** Answers are indexed by a counter of operations. [wd_cut n] is the
    deadline set at operation [n]: [Some k] when it falls before the next
    [k + 1]-th await, [None] when it is not reached. The registration key is
    signed for a client and a tunnel address. *)
Record answers : Type := {
  wd_clock : nat → Z;
  wd_recv : nat → recv_result;
  wd_send : nat → option io_error;
  wd_sign : nat → SocketAddr → SocketAddr → result SetupError string;
  wd_targets : nat → result SetupError (list SocketAddr);
  wd_create_io : nat → option SetupError;
  wd_cut : nat → option nat;
}.

Record world : Type := {
  wd : answers;
  wd_pos : nat;
  wd_budget : option nat;
  wd_sent : list (list byte * SocketAddr);
}.

(** A computation returns, is cut short by a deadline, or panics. *)
Inductive mres (A : Type) : Type :=
  | MDone (a : A)
  | MCut
  | MPanic.
Arguments MDone {A} a.
Arguments MCut {A}.
Arguments MPanic {A}.

Definition M (S A : Type) : Type := S → world → mres A * S * world.

#[global] Instance M_ret {S} : MRet (M S) := λ A a s w, (MDone a, s, w).

#[global] Instance M_bind {S} : MBind (M S) := λ A B f m s w,
  match m s w with
  | (MDone a, s', w') => f a s' w'
  | (MCut, s', w') => (MCut, s', w')
  | (MPanic, s', w') => (MPanic, s', w')
  end.

Section ops.
Context {S : Type}.

Definition m_get : M S S := λ s w, (MDone s, s, w).

Definition m_put (s : S) : M S () := λ _ w, (MDone (), s, w).

Definition m_modify (f : S → S) : M S () := λ s w, (MDone (), f s, w).

Definition m_panic {A} : M S A := λ s w, (MPanic, s, w).

(** Code that can only return or panic. *)
Definition m_lift {A} (o : outcome io_error A) : M S A := λ s w,
  match o with
  | Ok a => (MDone a, s, w)
  | _ => (MPanic, s, w)
  end.

Definition bump (w : world) : world :=
  {| wd := wd w; wd_pos := Datatypes.S (wd_pos w); wd_budget := wd_budget w; wd_sent := wd_sent w |}.

(** [now_milli()]. *)
Definition m_now : M S Z := λ s w, (MDone (wd_clock (wd w) (wd_pos w)), s, bump w).

(** An await: the deadline may have passed. *)
Definition m_await : M S () := λ s w,
  match wd_budget w with
  | Some 0%nat => (MCut, s, w)
  | Some (Datatypes.S k) =>
      (MDone (), s, {| wd := wd w; wd_pos := wd_pos w; wd_budget := Some k; wd_sent := wd_sent w |})
  | None => (MDone (), s, w)
  end.

(** [packet_io.send_to(data, dst).await]. *)
Definition m_send_raw (data : list byte) (dst : SocketAddr) : M S (option io_error) := λ s w,
  (MDone (wd_send (wd w) (wd_pos w)), s,
   {| wd := wd w; wd_pos := Datatypes.S (wd_pos w); wd_budget := wd_budget w;
      wd_sent := wd_sent w ++ [(data, dst)] |}).

Definition m_send (data : list byte) (dst : SocketAddr) : M S (option io_error) :=
  m_await;; m_send_raw data dst.

(** [packet_io.recv_from(&mut buf).await] with a buffer of [size] bytes, under
    a timeout of its own. *)
Definition m_recv_raw (size : nat) : M S recv_result := λ s w,
  (MDone (match wd_recv (wd w) (wd_pos w) with
          | RecvPacket data peer => RecvPacket (take size data) peer
          | r => r
          end), s, bump w).

Definition m_recv (size : nat) : M S recv_result := m_await;; m_recv_raw size.

(** The calls of [AuthResource] and the creation of a socket. *)
Definition m_ask_raw {A} (f : answers → nat → A) : M S A := λ s w,
  (MDone (f (wd w) (wd_pos w)), s, bump w).

Definition m_ask {A} (f : answers → nat → A) : M S A := m_await;; m_ask_raw f.

(** [m.try_timeout(..)]: under a deadline of its own; the deadline of the
    caller keeps counting. *)
Definition min_budget (a b : option nat) : option nat :=
  match a, b with
  | Some x, Some y => Some (Nat.min x y)
  | Some x, None => Some x
  | None, b => b
  end.

Definition used (before after : option nat) : nat :=
  match before, after with
  | Some x, Some y => (x - y)%nat
  | _, _ => 0%nat
  end.

Definition m_try_timeout {E A} (timeout : E) (m : M S (result E A)) : M S (result E A) := λ s w,
  let outer := wd_budget w in
  let inner := wd_cut (wd w) (wd_pos w) in
  let b := min_budget inner outer in
  let restore w' := {| wd := wd w'; wd_pos := wd_pos w';
                       wd_budget := match outer with
                                    | Some x => Some (x - used b (wd_budget w'))%nat
                                    | None => None
                                    end;
                       wd_sent := wd_sent w' |} in
  match m s {| wd := wd w; wd_pos := Datatypes.S (wd_pos w); wd_budget := b; wd_sent := wd_sent w |} with
  | (MDone r, s', w') => (MDone r, s', restore w')
  | (MPanic, s', w') => (MPanic, s', restore w')
  | (MCut, s', w') =>
      (* the deadline that fell: the caller's, or this one *)
      match inner, outer with
      | Some x, Some y => if decide (y < x)%nat then (MCut, s', restore w') else (MDone (RErr timeout), s', restore w')
      | None, _ => (MCut, s', restore w')
      | Some _, None => (MDone (RErr timeout), s', restore w')
      end
  end.
End ops.

(** A computation on a part of the state. *)
Definition m_zoom {S T A} (get : S → T) (set : S → T → S) (m : M T A) : M S A := λ s w,
  match m (get s) w with
  | (r, t, w') => (r, set s t, w')
  end.

(** [for _ in 0..n { .. }] whose body may [break] or [return]. *)
Inductive loop_step (A : Type) : Type :=
  | LContinue
  | LBreak
  | LReturn (a : A).
Arguments LContinue {A}.
Arguments LBreak {A}.
Arguments LReturn {A} a.

Fixpoint m_for {S A} (n : nat) (body : M S (loop_step A)) : M S (option A) :=
  match n with
  | O => mret None
  | Datatypes.S n =>
      r ← body;
      match r with
      | LContinue => m_for n body
      | LBreak => mret None
      | LReturn a => mret (Some a)
      end
  end.

Fixpoint m_for_each {S T A} (l : list T) (body : T → M S (loop_step A)) : M S (option A) :=
  match l with
  | [] => mret None
  | x :: l =>
      r ← body x;
      match r with
      | LContinue => m_for_each l body
      | LBreak => mret None
      | LReturn a => mret (Some a)
      end
  end.

(** ** Reasoning *)

Lemma bind_MDone {S A B} (m : M S A) (k : A → M S B) s w b s' w' :
  (m ≫= k) s w = (MDone b, s', w') →
  ∃ a s1 w1, m s w = (MDone a, s1, w1) ∧ k a s1 w1 = (MDone b, s', w').
Proof.
  unfold mbind, M_bind. destruct (m s w) as [[[a| |] s1] w1]; intros H; [|done..]. by eauto.
Qed.

Lemma bind_done {S A B} (m : M S A) (f : A → M S B) s w a s1 w1 :
  m s w = (MDone a, s1, w1) → (m ≫= f) s w = f a s1 w1.
Proof. intros H. unfold mbind, M_bind. by rewrite H. Qed.

(** Take a finished computation apart. *)
Ltac m_inv :=
  repeat match goal with
  | H : mbind _ _ _ _ = (MDone _, _, _) |- _ =>
      apply bind_MDone in H;
      let a := fresh "a" in let s := fresh "s" in let w := fresh "w" in let Ha := fresh "Hm" in
      destruct H as (a & s & w & Ha & H); cbn beta in H
  | H : mret _ _ _ = (MDone _, _, _) |- _ => unfold mret, M_ret in H; simplify_eq
  | H : m_get _ _ = _ |- _ => unfold m_get in H; simplify_eq
  | H : m_modify _ _ _ = _ |- _ => unfold m_modify in H; simplify_eq
  | H : m_put _ _ _ = _ |- _ => unfold m_put in H; simplify_eq
  | H : m_panic _ _ = (MDone _, _, _) |- _ => done
  end.

(** ** Bounded, safe computations

    [m_ok m k Q]: with a clock that fits in 64 bits, [m] does not panic,
    performs at most [k] operations, does not change the answers of the
    world, and what it returns satisfies [Q]. *)

Definition clock_ok (a : answers) : Prop := ∀ n, uint 64 (wd_clock a n).

Definition m_ok {S A} (m : M S A) (k : nat) (Q : A → Prop) : Prop :=
  ∀ s w, clock_ok (wd w) →
    let '(r, s', w') := m s w in
    match r with MDone a => Q a | MCut => True | MPanic => False end ∧
    wd w' = wd w ∧ (wd_pos w ≤ wd_pos w' ≤ wd_pos w + k)%nat.

Lemma m_ok_ret {S A} (a : A) k (Q : A → Prop) : Q a → m_ok (mret a : M S A) k Q.
Proof. intros Ha s w _. cbn. split_and!; [done | done | lia | lia]. Qed.

Lemma m_ok_bind {S A B} (m : M S A) (f : A → M S B) k1 k2 P Q :
  m_ok m k1 P → (∀ a, P a → m_ok (f a) k2 Q) → m_ok (m ≫= f) (k1 + k2) Q.
Proof.
  intros Hm Hf s w Hc. unfold mbind, M_bind. specialize (Hm s w Hc).
  destruct (m s w) as [[[a| |] s1] w1]; destruct Hm as (Ha & Hw & Hp); [|split_and!; done || lia..].
  specialize (Hf a Ha s1 w1). rewrite Hw in Hf. specialize (Hf Hc).
  destruct (f a s1 w1) as [[r s2] w2]. destruct Hf as (Hr & Hw2 & Hp2).
  split_and!; [done | congruence | lia | lia].
Qed.

Lemma m_ok_weaken {S A} (m : M S A) k k' (P Q : A → Prop) :
  m_ok m k P → (k ≤ k')%nat → (∀ a, P a → Q a) → m_ok m k' Q.
Proof.
  intros Hm Hk HPQ s w Hc. specialize (Hm s w Hc).
  destruct (m s w) as [[[a| |] s1] w1]; destruct Hm as (Ha & Hw & Hp); split_and!; try done; try lia.
  by apply HPQ.
Qed.

Lemma m_ok_get {S} (Q : S → Prop) : (∀ s, Q s) → m_ok m_get 0 Q.
Proof. intros HQ s w _. cbn. split_and!; [done | done | lia | lia]. Qed.

Lemma m_ok_modify {S} (f : S → S) : m_ok (m_modify f) 0 (λ _, True).
Proof. intros s w _. cbn. split_and!; [done | done | lia | lia]. Qed.

Lemma m_ok_now {S} : m_ok (m_now : M S Z) 1 (uint 64).
Proof. intros s w Hc. cbn. split_and!; [apply Hc | done | lia | lia]. Qed.

Lemma m_ok_await {S} : m_ok (m_await : M S ()) 0 (λ _, True).
Proof.
  intros s w _. unfold m_await. destruct (wd_budget w) as [[|n]|]; cbn; split_and!; done || lia.
Qed.

Lemma m_ok_send {S} data dst : m_ok (m_send data dst : M S _) 1 (λ _, True).
Proof.
  unfold m_send. eapply (m_ok_bind _ _ 0 1); [apply m_ok_await|]. intros _ _ s w _.
  cbn. split_and!; [done | done | lia | lia].
Qed.

Lemma m_ok_recv {S} n : m_ok (m_recv n : M S _) 1 (λ _, True).
Proof.
  unfold m_recv. eapply (m_ok_bind _ _ 0 1); [apply m_ok_await|]. intros _ _ s w _.
  cbn. split_and!; [done | done | lia | lia].
Qed.

Lemma m_ok_ask {S A} (f : answers → nat → A) : m_ok (m_ask f : M S A) 1 (λ _, True).
Proof.
  unfold m_ask. eapply (m_ok_bind _ _ 0 1); [apply m_ok_await|]. intros _ _ s w _.
  cbn. split_and!; [done | done | lia | lia].
Qed.

Lemma m_ok_for {S A} n (body : M S (loop_step A)) k Q :
  m_ok body k (λ r, match r with LReturn a => Q a | _ => True end) →
  m_ok (m_for n body) (n * k) (λ o, match o with Some a => Q a | None => True end).
Proof.
  intros Hb. induction n as [|n IH]; cbn [m_for].
  - by apply m_ok_ret.
  - cbn [Nat.mul]. eapply m_ok_bind; [exact Hb|]. intros [| |a] Ha.
    + exact IH.
    + by apply m_ok_ret.
    + by apply m_ok_ret.
Qed.

Lemma m_ok_for_each {S T A} (l : list T) (body : T → M S (loop_step A)) (k : T → nat) Q :
  (∀ x, x ∈ l → m_ok (body x) (k x) (λ r, match r with LReturn a => Q a | _ => True end)) →
  m_ok (m_for_each l body) (sum_list_with k l) (λ o, match o with Some a => Q a | None => True end).
Proof.
  induction l as [|x l IH]; intros Hb; cbn [m_for_each sum_list_with].
  - by apply m_ok_ret.
  - eapply m_ok_bind; [apply Hb, list_elem_of_here|]. intros [| |a] Ha.
    + apply IH. intros y Hy. by apply Hb, list_elem_of_further.
    + by apply m_ok_ret.
    + by apply m_ok_ret.
Qed.

(** The answers seen by a computation that returned are those of the start. *)
Lemma m_ok_wd {S A} (m : M S A) k Q s w a s' w' :
  m_ok m k Q → clock_ok (wd w) → m s w = (MDone a, s', w') → wd w' = wd w ∧ Q a.
Proof.
  intros Hm Hc Heq. specialize (Hm s w Hc). rewrite Heq in Hm. naive_solver.
Qed.

Lemma m_ok_strengthen {S A} (m : M S A) k (P Q : A → Prop) :
  m_ok m k P → (∀ s w a s' w', clock_ok (wd w) → m s w = (MDone a, s', w') → Q a) → m_ok m k Q.
Proof.
  intros Hm HQ s w Hc. specialize (Hm s w Hc). specialize (λ a s' w', HQ s w a s' w' Hc).
  destruct (m s w) as [[[a| |] s'] w']; destruct Hm as (? & ? & ?); split_and!; naive_solver.
Qed.

Lemma m_recv_inv {S} n (s : S) w r s' w' :
  m_recv n s w = (MDone r, s', w') →
  s' = s ∧ wd w' = wd w ∧
  match r with
  | RecvPacket d peer => ∃ k data, wd_recv (wd w) k = RecvPacket data peer ∧ d = take n data
  | _ => True
  end.
Proof.
  unfold m_recv, mbind, M_bind, m_await, m_recv_raw. intros H.
  destruct (wd_budget w) as [[|b]|]; [done|..]; cbn in H; simplify_eq; cbn;
    (split_and!; [done | done|]); destruct (wd_recv (wd w) (wd_pos w)) eqn:Hr; by eauto.
Qed.

Lemma m_ask_inv {S A} (f : answers → nat → A) (s : S) w a s' w' :
  m_ask f s w = (MDone a, s', w') →
  s' = s ∧ wd w' = wd w ∧ wd_sent w' = wd_sent w ∧ ∃ n, a = f (wd w) n.
Proof.
  unfold m_ask, mbind, M_bind, m_await, m_ask_raw. intros H.
  destruct (wd_budget w) as [[|b]|]; [done|..]; cbn in H; simplify_eq; cbn; by eauto.
Qed.

Lemma m_now_inv {S} (s : S) w a s' w' :
  m_now s w = (MDone a, s', w') →
  s' = s ∧ wd w' = wd w ∧ wd_sent w' = wd_sent w ∧ ∃ n, a = wd_clock (wd w) n.
Proof. unfold m_now. intros H. simplify_eq. cbn. by eauto. Qed.

(** A loop that returns does so from one of its iterations, in the world the
    loop started in. *)
Lemma m_for_return {S A} n (body : M S (loop_step A)) k Q s w a s' w' :
  m_ok body k Q → clock_ok (wd w) → m_for n body s w = (MDone (Some a), s', w') →
  ∃ s1 w1, wd w1 = wd w ∧ body s1 w1 = (MDone (LReturn a), s', w').
Proof.
  intros Hok. revert s w. induction n as [|n IH]; intros s w Hc H; cbn in H; [done|].
  apply bind_MDone in H as (r & s1 & w1 & Hb & H).
  apply (m_ok_wd _ _ _ _ _ _ _ _ Hok Hc) in Hb as Hw. destruct Hw as [Hw _].
  destruct r; m_inv; [|by eauto].
  destruct (IH s1 w1) as (s2 & w2 & Hw2 & Hb2); [by rewrite Hw | done |].
  exists s2, w2. split; [congruence | done].
Qed.

Lemma m_for_each_return {S T A} (l : list T) (body : T → M S (loop_step A)) k Q s w a s' w' :
  (∀ x, m_ok (body x) (k x) Q) → clock_ok (wd w) →
  m_for_each l body s w = (MDone (Some a), s', w') →
  ∃ x s1 w1, x ∈ l ∧ wd w1 = wd w ∧ body x s1 w1 = (MDone (LReturn a), s', w').
Proof.
  intros Hok. revert s w. induction l as [|x l IH]; intros s w Hc H; cbn in H; [done|].
  apply bind_MDone in H as (r & s1 & w1 & Hb & H).
  apply (m_ok_wd _ _ _ _ _ _ _ _ (Hok x) Hc) in Hb as Hw. destruct Hw as [Hw _].
  destruct r; m_inv.
  - destruct (IH s1 w1) as (y & s2 & w2 & Hy & Hw2 & Hb2); [by rewrite Hw | done |].
    exists y, s2, w2. split_and!; [by apply list_elem_of_further | congruence | done].
  - exists x, s, w. split_and!; [apply list_elem_of_here | done | done].
Qed.

(** ** What a computation does to its state and to the log of sends

    [m_rel R m]: however [m] ends, the state and the datagrams sent relate to
    those of the start by [R]. *)

Definition sends : Type := list (list byte * SocketAddr).

Class IoPreorder {S} (R : S → sends → S → sends → Prop) : Prop := {
  io_refl s l : R s l s l;
  io_trans s1 l1 s2 l2 s3 l3 : R s1 l1 s2 l2 → R s2 l2 s3 l3 → R s1 l1 s3 l3;
}.

Definition m_rel {S A} (R : S → sends → S → sends → Prop) (m : M S A) : Prop :=
  ∀ s w, let '(_, s', w') := m s w in R s (wd_sent w) s' (wd_sent w').

Section rel.
Context {S : Type} (R : S → sends → S → sends → Prop) `{!IoPreorder R}.

Lemma m_rel_MDone {A} (m : M S A) s w a s' w' :
  m_rel R m → m s w = (a, s', w') → R s (wd_sent w) s' (wd_sent w').
Proof. intros Hm Heq. specialize (Hm s w). by rewrite Heq in Hm. Qed.

Lemma m_rel_ret {A} (a : A) : m_rel R (mret a).
Proof. intros s w. apply io_refl. Qed.

Lemma m_rel_get : m_rel R m_get.
Proof. intros s w. apply io_refl. Qed.

Lemma m_rel_panic {A} : m_rel R (m_panic (A := A)).
Proof. intros s w. apply io_refl. Qed.

Lemma m_rel_now : m_rel R m_now.
Proof. intros s w. apply io_refl. Qed.

Lemma m_rel_modify f : (∀ s l, R s l (f s) l) → m_rel R (m_modify f).
Proof. intros Hf s w. apply Hf. Qed.

Lemma m_rel_bind {A B} (m : M S A) (k : A → M S B) :
  m_rel R m → (∀ a, m_rel R (k a)) → m_rel R (m ≫= k).
Proof.
  intros Hm Hk s w. unfold mbind, M_bind. specialize (Hm s w).
  destruct (m s w) as [[[a| |] s1] w1]; [|done|done].
  specialize (Hk a s1 w1). destruct (k a s1 w1) as [[r s2] w2]. by eapply io_trans.
Qed.

Lemma m_rel_await : m_rel R m_await.
Proof. intros s w. unfold m_await. destruct (wd_budget w) as [[|n]|]; apply io_refl. Qed.

Lemma m_rel_recv n : m_rel R (m_recv n).
Proof. apply m_rel_bind; [apply m_rel_await|]. intros _ s w. apply io_refl. Qed.

Lemma m_rel_ask {A} (f : answers → nat → A) : m_rel R (m_ask f).
Proof. apply m_rel_bind; [apply m_rel_await|]. intros _ s w. apply io_refl. Qed.

Lemma m_rel_for {A} n (body : M S (loop_step A)) : m_rel R body → m_rel R (m_for n body).
Proof.
  intros Hb. induction n as [|n IH]; cbn [m_for]; [apply m_rel_ret|].
  apply m_rel_bind; [done|]. intros []; [done | apply m_rel_ret | apply m_rel_ret].
Qed.

Lemma m_rel_for_each {T A} (l : list T) (body : T → M S (loop_step A)) :
  (∀ x, m_rel R (body x)) → m_rel R (m_for_each l body).
Proof.
  intros Hb. induction l as [|x l IH]; cbn [m_for_each]; [apply m_rel_ret|].
  apply m_rel_bind; [done|]. intros []; [done | apply m_rel_ret | apply m_rel_ret].
Qed.

Lemma m_rel_try_timeout {E A} (e : E) (m : M S (result E A)) :
  m_rel R m → m_rel R (m_try_timeout e m).
Proof.
  intros Hm s w. unfold m_try_timeout.
  match goal with |- context [m s ?w0] => specialize (Hm s w0); destruct (m s w0) as [[[a| |] s1] w1] end;
    cbn in *; try done.
  destruct (wd_cut (wd w) (wd_pos w)), (wd_budget w); try done. by case_decide.
Qed.

(** The iteration a loop returned from, and what came before it. *)
Lemma m_for_return_rel {A} n (body : M S (loop_step A)) k Q s w a s' w' :
  m_ok body k Q → m_rel R body → clock_ok (wd w) →
  m_for n body s w = (MDone (Some a), s', w') →
  ∃ s1 w1, wd w1 = wd w ∧ R s (wd_sent w) s1 (wd_sent w1) ∧
           body s1 w1 = (MDone (LReturn a), s', w').
Proof.
  intros Hok Hrel. revert s w. induction n as [|n IH]; intros s w Hc H; cbn in H; [done|].
  apply bind_MDone in H as (r & s1 & w1 & Hb & H).
  apply (m_ok_wd _ _ _ _ _ _ _ _ Hok Hc) in Hb as Hw. destruct Hw as [Hw _].
  pose proof (m_rel_MDone _ _ _ _ _ _ Hrel Hb) as HR.
  destruct r; m_inv.
  - destruct (IH s1 w1) as (s2 & w2 & Hw2 & HR2 & Hb2); [by rewrite Hw | done |].
    exists s2, w2. split_and!; [congruence | by eapply io_trans | done].
  - exists s, w. split_and!; [done | apply io_refl | done].
Qed.
End rel.

(** A deadline lets a computation return, or stops it and leaves what it did. *)
Lemma m_try_timeout_inv {S E A} (e : E) (c : M S (result E A)) s w r s' w' :
  m_try_timeout e c s w = (r, s', w') →
  ∃ w0 r0 w1, wd w0 = wd w ∧ c s w0 = (r0, s', w1) ∧ wd w1 = wd w' ∧ wd_sent w1 = wd_sent w' ∧
    (r = r0 ∨ r0 = MCut ∧ r = MDone (RErr e)).
Proof.
  unfold m_try_timeout. intros H.
  match type of H with context [c s ?w0] =>
    exists w0; destruct (c s w0) as [[r0 s1] w1] eqn:Hc end.
  exists r0, w1. destruct r0 as [a| |]; simplify_eq; try (split_and!; try done; by left).
  destruct (wd_cut (wd w) (wd_pos w)), (wd_budget w); [case_decide|..]; simplify_eq;
    (split_and!; try done); first [by left | by right].
Qed.

(** Deadlines and parts of the state. *)
Lemma m_ok_try_timeout {S E A} (e : E) (m : M S (result E A)) k Q :
  m_ok m k Q → Q (RErr e) → m_ok (m_try_timeout e m) (1 + k) Q.
Proof.
  intros Hm He s w Hc. unfold m_try_timeout.
  match goal with |- context [m s ?w0] =>
    specialize (Hm s w0 Hc); destruct (m s w0) as [[[a| |] s1] w1] end;
    cbn in *; destruct Hm as (Hr & Hw & Hp1 & Hp2); try done.
  - split_and!; [done | done | lia | lia].
  - destruct (wd_cut (wd w) (wd_pos w)), (wd_budget w); [case_decide|..]; cbn;
      split_and!; done || lia.
Qed.

Lemma m_ok_zoom {S T A} (get : S → T) (set : S → T → S) (m : M T A) k Q :
  m_ok m k Q → m_ok (m_zoom get set m) k Q.
Proof.
  intros Hm s w Hc. unfold m_zoom. specialize (Hm (get s) w Hc).
  by destruct (m (get s) w) as [[r t] w'].
Qed.

(** ** Safety under an invariant

    [m_safe I m k Q]: [m_ok] for computations that start in a state with [I],
    which they keep. *)

Definition m_safe {S A} (I : S → Prop) (m : M S A) (k : nat) (Q : A → Prop) : Prop :=
  ∀ s w, clock_ok (wd w) → I s →
    let '(r, s', w') := m s w in
    match r with MDone a => Q a | MCut => True | MPanic => False end ∧ I s' ∧
    wd w' = wd w ∧ (wd_pos w ≤ wd_pos w' ≤ wd_pos w + k)%nat.

Section safe.
Context {S : Type} (I : S → Prop).

Lemma m_safe_of_ok {A} (m : M S A) k Q :
  m_ok m k Q → (∀ s w, I s → I (m s w).1.2) → m_safe I m k Q.
Proof.
  intros Hm HI s w Hc Hs. specialize (Hm s w Hc). specialize (HI s w Hs).
  destruct (m s w) as [[r s'] w']. cbn in HI. destruct Hm as (? & ? & ? & ?). by split_and!.
Qed.

Lemma m_safe_ret {A} (a : A) k (Q : A → Prop) : Q a → m_safe I (mret a) k Q.
Proof. intros Ha. apply m_safe_of_ok; [by apply m_ok_ret | done]. Qed.

Lemma m_safe_get k : m_safe I m_get k I.
Proof. intros s w _ Hs. cbn. split_and!; [done | done | done | lia | lia]. Qed.

Lemma m_safe_modify f k : (∀ s, I s → I (f s)) → m_safe I (m_modify f) k (λ _, True).
Proof. intros Hf s w _ Hs. cbn. split_and!; [done | by apply Hf | done | lia | lia]. Qed.

Lemma m_safe_put s0 k : I s0 → m_safe I (m_put s0) k (λ _, True).
Proof. intros Hs0 s w _ Hs. cbn. split_and!; [done | done | done | lia | lia]. Qed.

Lemma m_safe_now : m_safe I m_now 1 (uint 64).
Proof. apply m_safe_of_ok; [apply m_ok_now | done]. Qed.

Lemma m_safe_await k : m_safe I m_await k (λ _, True).
Proof.
  intros s w _ Hs. unfold m_await.
  destruct (wd_budget w) as [[|n]|]; cbn; split_and!; done || lia.
Qed.

Lemma m_safe_lift {A} (o : outcome io_error A) a k (Q : A → Prop) :
  o = Ok a → Q a → m_safe I (m_lift o) k Q.
Proof. intros -> Ha s w _ Hs. cbn. split_and!; [done | done | done | lia | lia]. Qed.

Lemma m_safe_bind {A B} (m : M S A) (f : A → M S B) k1 k2 P Q :
  m_safe I m k1 P → (∀ a, P a → m_safe I (f a) k2 Q) → m_safe I (m ≫= f) (k1 + k2) Q.
Proof.
  intros Hm Hf s w Hc Hs. unfold mbind, M_bind. specialize (Hm s w Hc Hs).
  destruct (m s w) as [[[a| |] s1] w1]; destruct Hm as (Ha & Hs1 & Hw & Hp);
    [|split_and!; done || lia..].
  specialize (Hf a Ha s1 w1). rewrite Hw in Hf. specialize (Hf Hc Hs1).
  destruct (f a s1 w1) as [[r s2] w2]. destruct Hf as (Hr & Hs2 & Hw2 & Hp2).
  split_and!; [done | done | congruence | lia | lia].
Qed.

Lemma m_safe_weaken {A} (m : M S A) k k' (P Q : A → Prop) :
  m_safe I m k P → (k ≤ k')%nat → (∀ a, P a → Q a) → m_safe I m k' Q.
Proof.
  intros Hm Hk HPQ s w Hc Hs. specialize (Hm s w Hc Hs).
  destruct (m s w) as [[[a| |] s1] w1]; destruct Hm as (Ha & Hs1 & Hw & Hp);
    split_and!; try done; try lia. by apply HPQ.
Qed.

Lemma m_safe_try_timeout {E A} (e : E) (m : M S (result E A)) k Q :
  m_safe I m k Q → Q (RErr e) → m_safe I (m_try_timeout e m) (1 + k) Q.
Proof.
  intros Hm He s w Hc Hs. unfold m_try_timeout.
  match goal with |- context [m s ?w0] =>
    specialize (Hm s w0 Hc Hs); destruct (m s w0) as [[[a| |] s1] w1] end;
    cbn in *; destruct Hm as (Hr & Hs1 & Hw & Hp1 & Hp2); try done.
  - split_and!; [done | done | done | lia | lia].
  - destruct (wd_cut (wd w) (wd_pos w)), (wd_budget w); [case_decide|..]; cbn;
      split_and!; done || lia.
Qed.
End safe.

Lemma m_safe_zoom {S T A} (get : S → T) (set : S → T → S) (I : S → Prop) (J : T → Prop)
    (m : M T A) k Q :
  (∀ s, I s → J (get s)) → (∀ s t, I s → J t → I (set s t)) →
  m_safe J m k Q → m_safe I (m_zoom get set m) k Q.
Proof.
  intros Hget Hset Hm s w Hc Hs. unfold m_zoom. specialize (Hm (get s) w Hc (Hget s Hs)).
  destruct (m (get s) w) as [[r t] w']. destruct Hm as (Hr & Ht & Hw).
  split_and!; [done | by apply Hset | apply Hw | apply Hw | apply Hw].
Qed.

(** ** How a computation ends

    [m_wp m s w P]: started in [s] and [w], [m] ends with [P]. *)

Definition m_wp {S A} (m : M S A) (s : S) (w : world) (P : mres A → S → world → Prop) : Prop :=
  let '(r, s', w') := m s w in P r s' w'.

Lemma m_wp_bind {S A B} (m : M S A) (f : A → M S B) s w P :
  m_wp m s w (λ r s' w', match r with
                         | MDone a => m_wp (f a) s' w' P
                         | MCut => P MCut s' w'
                         | MPanic => P MPanic s' w'
                         end) →
  m_wp (m ≫= f) s w P.
Proof. unfold m_wp, mbind, M_bind. by destruct (m s w) as [[[a| |] s1] w1]. Qed.

Lemma m_wp_mono {S A} (m : M S A) s w (P Q : mres A → S → world → Prop) :
  m_wp m s w P → (∀ r s' w', P r s' w' → Q r s' w') → m_wp m s w Q.
Proof. unfold m_wp. destruct (m s w) as [[r s'] w']. eauto. Qed.

(** A computation under a deadline ends as it does without, or stops. *)
Lemma m_wp_try_timeout {S E A} (e : E) (m : M S (result E A)) s w (P : mres (result E A) → S → world → Prop) :
  (∀ w0, wd w0 = wd w →
     m_wp m s w0 (λ r s' w1, ∀ w', wd w' = wd w1 →
       P r s' w' ∧ (r = MCut → P (MDone (RErr e)) s' w'))) →
  m_wp (m_try_timeout e m) s w P.
Proof.
  intros H. unfold m_wp. destruct (m_try_timeout e m s w) as [[r s'] w'] eqn:Hrun.
  apply m_try_timeout_inv in Hrun as (w0 & r0 & w1 & Hw0 & Hm & Hw1 & _ & Hr).
  specialize (H w0 Hw0). unfold m_wp in H. rewrite Hm in H.
  destruct (H w' (eq_sym Hw1)) as [Hp Hcut]. destruct Hr as [-> | [-> ->]]; [done | by apply Hcut].
Qed.

Lemma m_wp_ask {S A} (f : answers → nat → A) (s : S) w (P : mres A → S → world → Prop) :
  (∀ n w', wd w' = wd w → P (MDone (f (wd w) n)) s w') →
  (∀ w', wd w' = wd w → P MCut s w') →
  m_wp (m_ask f) s w P.
Proof.
  intros Hd Hc. unfold m_wp, m_ask, m_await, m_ask_raw, mbind, M_bind.
  destruct (wd_budget w) as [[|b]|]; cbn; [by apply Hc | by apply (Hd (wd_pos w)) | by apply Hd].
Qed.

(** ** Safety without a bound

    [m_keeps I m]: from a state with [I], [m] does not panic and keeps [I]. *)

Definition m_keeps {S A} (I : S → Prop) (m : M S A) : Prop :=
  ∀ s w, clock_ok (wd w) → I s →
    m_wp m s w (λ r s' w', r ≠ MPanic ∧ I s' ∧ wd w' = wd w).

Section keeps.
Context {S : Type} (I : S → Prop).

Lemma m_keeps_safe {A} (m : M S A) k Q : m_safe I m k Q → m_keeps I m.
Proof.
  intros Hm s w Hc Hs. specialize (Hm s w Hc Hs). unfold m_wp.
  destruct (m s w) as [[r s'] w']. destruct Hm as (Hr & Hs' & Hw & _).
  split_and!; [by destruct r | done | done].
Qed.

Lemma m_keeps_ret {A} (a : A) : m_keeps I (mret a).
Proof. by apply (m_keeps_safe _ 0 (λ _, True)), m_safe_ret. Qed.

Lemma m_keeps_modify f : (∀ s, I s → I (f s)) → m_keeps I (m_modify f).
Proof. intros Hf. by eapply (m_keeps_safe _ 0), m_safe_modify. Qed.

Lemma m_keeps_bind {A B} (m : M S A) (f : A → M S B) :
  m_keeps I m → (∀ a, m_keeps I (f a)) → m_keeps I (m ≫= f).
Proof.
  intros Hm Hf s w Hc Hs. apply m_wp_bind. eapply m_wp_mono; [by apply Hm|].
  intros [a| |] s' w' (Hp & Hs' & Hw); [|done..].
  eapply m_wp_mono; [apply Hf; [by rewrite Hw | done]|].
  intros r s2 w2 (? & ? & ?). split_and!; [done | done | congruence].
Qed.
End keeps.

Lemma m_keeps_zoom {S T A} (get : S → T) (set : S → T → S) (I : S → Prop) (J : T → Prop) (m : M T A) :
  (∀ s, I s → J (get s)) → (∀ s t, I s → J t → I (set s t)) →
  m_keeps J m → m_keeps I (m_zoom get set m).
Proof.
  intros Hget Hset Hm s w Hc Hs. unfold m_wp, m_zoom. specialize (Hm (get s) w Hc (Hget s Hs)).
  unfold m_wp in Hm. destruct (m (get s) w) as [[r t] w']. destruct Hm as (? & ? & ?).
  split_and!; [done | by apply Hset | done].
Qed.
