(* ===== verification/ControlConnect.v ===== *)
(** * Finding a tunnel server and registering with it
      (agent_core/src/agent_control/address_selector.rs,
      connected_control.rs, mod.rs) *)

From S2P Require Import Prelude Bytes Net Wire Proto ControlMessages ControlFormat.
From S2P Require Import ControlCodec ControlFeed ProtoTheorems ControlIo.

(** ** Sockets and addresses (mod.rs) *)

Inductive stack : Type := Ip4Socket | Ip6Socket.

(** [DualStackUdpSocket::send_to]: the socket that is used. *)
Definition dual_send_socket (has_ip6 : bool) (target : SocketAddr) : stack :=
  if is_ipv6 target && has_ip6 then Ip6Socket else Ip4Socket.

(** [recv_from]: the order in which the sockets are polled; [next] counts the
    calls. *)
Definition dual_recv_order (has_ip6 : bool) (next : Z) : list stack :=
  let ip6 := if has_ip6 then [Ip6Socket] else [] in
  if decide (next `mod` 2 = 0) then ip6 ++ [Ip4Socket] else [Ip4Socket] ++ ip6.

(** [PoolBoth::poll]: the first socket that is ready. *)
Fixpoint pool_both {A} (poll : stack → option A) (order : list stack) : option A :=
  match order with
  | [] => None
  | s :: order =>
      match poll s with
      | Some ready => Some ready
      | None => pool_both poll order
      end
  end.

(** [get_control_addresses]: IPv6 targets first, port 5525. *)
Definition control_addresses (targets6 targets4 : list Z) : list SocketAddr :=
  ((λ ip, SocketAddr_new (IpV6 ip) 5525) <$> targets6) ++
  ((λ ip, SocketAddr_new (IpV4 ip) 5525) <$> targets4).

(** ** State *)

Record ConnectedControl : Type := {
  cc_control_addr : SocketAddr;
  cc_pong_latest : Pong;
}.

Definition ConnectedControl_new (control_addr : SocketAddr) (pong : Pong) : ConnectedControl :=
  {| cc_control_addr := control_addr; cc_pong_latest := pong |}.

Definition set_pong (c : ConnectedControl) (p : Pong) : ConnectedControl :=
  {| cc_control_addr := cc_control_addr c; cc_pong_latest := p |}.

Section control.
Context {BO : ByteOrder} {ML : EncodingLib}.

(** [msg.write_to(&mut buffer)] into an empty vector. *)
Definition encode {T} `{MessageEncoding T} (msg : T) : outcome io_error (list byte) :=
  match write_to msg (Sink [] None) with
  | (Ok _, s) => Ok (sk_data s)
  | (Err e, _) => Err e
  | (Panic, _) => Panic
  end.

Definition first_ping (now : Z) : ControlRpcMessage ControlRequest :=
  {| rpc_request_id := 1;
     rpc_content := ReqPing {| ping_now := now; ping_current_ping := None;
                               ping_session_id := None |} |}.

(** ** address_selector.rs *)

(** One wait for the pong of [addr]. *)
Definition await_pong (addr : SocketAddr) : M () (loop_step Pong) :=
  res ← m_recv 2048;
  match res with
  | RecvPacket data peer =>
      if decide (peer ≠ addr) then mret LContinue
      else
        match ControlFeed_read_from data with
        | Ok (FeedResponse msg, _) =>
            if decide (rpc_request_id msg ≠ 1) then mret LContinue
            else
              match rpc_content msg with
              | ResPong pong => mret (LReturn pong)
              | _ => mret LContinue
              end
        | Panic => m_panic
        | _ => mret LContinue
        end
  | _ => mret LContinue
  end.

(** One attempt: a ping, then up to [waits] answers. *)
Definition try_addr (addr : SocketAddr) : M () (loop_step (result SetupError ConnectedControl)) :=
  now ← m_now;
  match encode (first_ping now) with
  | Err e => mret (LReturn (RErr (SetupIoError e)))
  | Panic => m_panic
  | Ok buffer =>
      err ← m_send buffer addr;
      match err with
      | Some _ => mret LBreak
      | None =>
          pong ← m_for (if is_ipv6 addr then 3 else 5) (await_pong addr);
          match pong with
          | Some pong => mret (LReturn (ROk (ConnectedControl_new addr pong)))
          | None => mret LContinue
          end
      end
  end.

Definition connect_to_first (options : list SocketAddr) :
    M () (result SetupError ConnectedControl) :=
  res ← m_for_each options (λ addr,
    r ← m_for (if is_ipv6 addr then 1 else 3) (try_addr addr);
    match r with
    | Some r => mret (LReturn r)
    | None => mret LContinue
    end);
  mret (default (RErr FailedToConnect) res).

(** ** connected_control.rs *)

Definition ConnectedControl_send {T} `{MessageEncoding T} (msg : T) :
    M ConnectedControl (result io_error ()) :=
  c ← m_get;
  match encode msg with
  | Err e => mret (RErr e)
  | Panic => m_panic
  | Ok buffer =>
      err ← m_send buffer (cc_control_addr c);
      mret (match err with Some e => RErr e | None => ROk () end)
  end.

(** What [recv] does with the answer of the socket. *)
Definition accept_feed (data : list byte) (remote : SocketAddr) :
    M ConnectedControl (result ControlError ControlFeed) :=
  c ← m_get;
  if decide (remote ≠ cc_control_addr c) then
    mret (RErr (InvalidRemote (cc_control_addr c) remote))
  else
    match ControlFeed_read_from data with
    | Panic => m_panic
    | Err e => mret (RErr (FailedToReadControlFeed e))
    | Ok (feed, _) =>
        match feed with
        | FeedResponse {| rpc_content := ResPong pong |} => m_modify (λ c, set_pong c pong)
        | _ => mret ()
        end;;
        mret (ROk feed)
    end.

(** [tokio::time::timeout(.., self.recv())]: [None] when it times out. *)
Definition ConnectedControl_recv : M ConnectedControl (option (result ControlError ControlFeed)) :=
  r ← m_recv 1024;
  match r with
  | RecvTimeout => mret None
  | RecvError e => mret (Some (RErr (ControlIoError e)))
  | RecvPacket data remote => r ← accept_feed data remote; mret (Some r)
  end.

Context (hex_decode : string → option (list byte)).

(** What a response to the registration means. *)
Definition register_response (auth_pong : Pong) (request_id : Z) (content : ControlResponse) :
    M ConnectedControl (loop_step (result SetupError AgentRegistered)) :=
  match content with
  | ResAgentRegistered registered => mret (LReturn (ROk registered))
  | ResInvalidSignature => mret (LReturn (RErr RegisterInvalidSignature))
  | ResUnauthorized =>
      now ← m_now;
      ConnectedControl_send {| rpc_request_id := request_id;
        rpc_content := ReqPing {| ping_now := now; ping_current_ping := None;
                                  ping_session_id := None |} |};;
      mret (LReturn (RErr RegisterUnauthorized))
  | ResPong pong =>
      if decide (pong_client_addr pong ≠ pong_client_addr auth_pong ∨
                 pong_tunnel_addr pong ≠ pong_tunnel_addr auth_pong)
      then mret (LReturn (RErr AttemptingToAuthWithOldFlow))
      else mret LContinue
  | ResRequestQueued => m_await;; mret LBreak
  | _ => mret LContinue
  end.

Definition await_registered (auth_pong : Pong) (request_id : Z) :
    M ConnectedControl (loop_step (result SetupError AgentRegistered)) :=
  message ← ConnectedControl_recv;
  match message with
  | None => mret LContinue
  | Some (RErr _) => mret LBreak
  | Some (ROk (FeedResponse response)) =>
      if decide (rpc_request_id response = request_id)
      then register_response auth_pong request_id (rpc_content response)
      else mret LContinue
  | Some (ROk _) => mret LContinue
  end.

(** One of the five attempts of [authenticate]. *)
Definition register_attempt (auth_pong : Pong) (request_id : Z) (bytes : list byte) :
    M ConnectedControl (loop_step (result SetupError AgentRegistered)) :=
  sent ← ConnectedControl_send {| rpc_request_id := request_id; rpc_content := MkRawSlice bytes |};
  match sent with
  | RErr e => mret (LReturn (RErr (SetupIoError e)))
  | ROk _ =>
      r ← m_for 5 (await_registered auth_pong request_id);
      match r with
      | Some r => mret (LReturn r)
      | None => mret LContinue
      end
  end.

Definition ConnectedControl_authenticate : M ConnectedControl (result SetupError AgentRegistered) :=
  c ← m_get;
  let auth_pong := cc_pong_latest c in
  res ← m_ask (λ a n, wd_sign a n (pong_client_addr auth_pong) (pong_tunnel_addr auth_pong));
  match res with
  | RErr e => mret (RErr e)
  | ROk key =>
      match hex_decode key with
      | None => mret (RErr FailedToDecodeSignedAgentRegisterHex)
      | Some bytes =>
          request_id ← m_now;
          r ← m_for 5 (register_attempt auth_pong request_id bytes);
          mret (default (RErr FailedToConnect) r)
      end
  end.
End control.

(** ** Facts *)

Section facts.
Context {BO : ByteOrder} {ML : EncodingLib}.
Context {BOL : ByteOrderLaws BO} {MLL : EncodingLaws ML}.

(** A datagram from [addr] that carries [msg]. *)
Definition answered (a : answers) (size : nat) (addr : SocketAddr)
    (msg : ControlRpcMessage ControlResponse) : Prop :=
  ∃ n data rest, wd_recv a n = RecvPacket data addr ∧
    ControlFeed_read_from (take size data) = Ok (FeedResponse msg, rest).

Lemma encode_request (m : ControlRpcMessage ControlRequest) :
  ControlRpcMessage_wf ControlRequest_wf m →
  encode m = Ok (ControlRpcMessage_enc ControlRequest_enc m).
Proof.
  intros Hwf. unfold encode. cbn [write_to ControlRpcMessage_encoding].
  by rewrite (emits_vec _ _ _ _ (emits_request_msg m Hwf)).
Qed.

Lemma encode_ping request_id now :
  uint 64 request_id → uint 64 now →
  ∃ bs, encode {| rpc_request_id := request_id;
    rpc_content := ReqPing {| ping_now := now; ping_current_ping := None;
                              ping_session_id := None |} |} = Ok bs.
Proof. intros. eexists. by apply encode_request. Qed.

(** ** Connecting *)

Lemma await_pong_ok addr : m_ok (await_pong addr) 1 (λ _, True).
Proof.
  unfold await_pong. eapply (m_ok_bind _ _ 1 0); [apply m_ok_recv|]. intros [| |data peer] _;
    try by apply m_ok_ret.
  case_decide; [by apply m_ok_ret|]. pose proof (no_panic_ControlFeed data) as Hp.
  destruct (ControlFeed_read_from data) as [[[msg| |] rest]| |]; try done; try by apply m_ok_ret.
  case_decide; [by apply m_ok_ret|]. destruct (rpc_content msg); by apply m_ok_ret.
Qed.

Lemma await_pong_sound addr s w pong s' w' :
  await_pong addr s w = (MDone (LReturn pong), s', w') →
  wd w' = wd w ∧ answered (wd w) 2048 addr {| rpc_request_id := 1; rpc_content := ResPong pong |}.
Proof.
  unfold await_pong. intros H. m_inv. apply m_recv_inv in Hm as (-> & Hw & Hr).
  destruct a as [| |data peer]; m_inv. destruct Hr as (k & data0 & Hk & ->).
  case_decide as Hpeer; m_inv. subst peer.
  destruct (ControlFeed_read_from _) as [[[msg| |] rest]| |] eqn:Hread; m_inv.
  case_decide as Hid; m_inv. destruct msg as [i c]. cbn in *. subst i.
  destruct c; m_inv. split; [done|]. by exists k, data0, rest.
Qed.

Definition attempts (addr : SocketAddr) : nat := if is_ipv6 addr then 1 else 3.

Definition waits (addr : SocketAddr) : nat := if is_ipv6 addr then 3 else 5.

Lemma try_addr_ok addr : m_ok (try_addr addr) (2 + waits addr) (λ _, True).
Proof.
  unfold try_addr. eapply (m_ok_bind _ _ 1 (1 + waits addr)); [apply m_ok_now|]. intros now Hnow.
  destruct (encode_ping 1 now) as [bs Hbs]; [by vm_compute | done |].
  unfold first_ping. rewrite Hbs. eapply m_ok_bind; [apply m_ok_send|].
  intros [e|] _; [by apply m_ok_ret|].
  replace (waits addr) with (waits addr * 1 + 0)%nat by lia.
  eapply m_ok_bind; [apply (m_ok_for _ _ 1 (λ _, True))|].
  - eapply m_ok_weaken; [apply await_pong_ok | lia | by intros []].
  - intros [p|] _; by apply m_ok_ret.
Qed.

Lemma connect_to_first_ok options :
  m_ok (connect_to_first options)
    (sum_list_with (λ a, attempts a * (2 + waits a))%nat options) (λ _, True).
Proof.
  unfold connect_to_first.
  rewrite <-(Nat.add_0_r (sum_list_with _ _)).
  eapply m_ok_bind; [apply (m_ok_for_each _ _ _ (λ _, True))|].
  - intros addr _. fold (attempts addr). rewrite <-(Nat.add_0_r (_ * _)).
    eapply m_ok_bind; [apply (m_ok_for _ _ _ (λ _, True))|].
    + eapply m_ok_weaken; [apply try_addr_ok | lia | by intros []].
    + intros [r|] _; by apply m_ok_ret.
  - intros r _. by apply m_ok_ret.
Qed.

Lemma try_addr_sound addr s w c s' w' :
  clock_ok (wd w) → try_addr addr s w = (MDone (LReturn (ROk c)), s', w') →
  cc_control_addr c = addr ∧
  answered (wd w) 2048 addr {| rpc_request_id := 1; rpc_content := ResPong (cc_pong_latest c) |}.
Proof.
  intros Hc H. unfold try_addr in H. m_inv.
  apply (m_ok_wd _ _ _ _ _ _ _ _ m_ok_now Hc) in Hm as [Hw0 _].
  destruct (encode (first_ping a)) as [bs| |]; m_inv.
  assert (clock_ok (wd w0)) as Hc0 by by rewrite Hw0.
  apply (m_ok_wd _ _ _ _ _ _ _ _ (m_ok_send _ _) Hc0) in Hm as [Hw1 _].
  destruct a0; m_inv.
  destruct a0; m_inv.
  apply (m_for_return _ _ 1 (λ _, True)) in Hm as (s2 & w2 & Hw2 & Hb);
    [|apply await_pong_ok | by rewrite Hw1].
  apply await_pong_sound in Hb as [_ Ha]. split; [done|]. cbn. by rewrite Hw2, Hw1, Hw0 in Ha.
Qed.

Lemma connect_to_first_sound options w c w' :
  clock_ok (wd w) → connect_to_first options () w = (MDone (ROk c), (), w') →
  cc_control_addr c ∈ options ∧
  answered (wd w) 2048 (cc_control_addr c)
    {| rpc_request_id := 1; rpc_content := ResPong (cc_pong_latest c) |}.
Proof.
  intros Hc Hrun. unfold connect_to_first in Hrun. m_inv.
  destruct a as [r|]; cbn in *; [|done]. subst r.
  eapply (m_for_each_return _ _ (λ a, attempts a * (2 + waits a) + 0)%nat (λ _, True)) in Hm
    as (addr & s1 & w1 & Hin & Hw1 & Hb); [| |done].
  - m_inv. destruct a as [r|]; m_inv. fold (attempts addr) in Hm.
    apply (m_for_return _ _ (2 + waits addr) (λ _, True)) in Hm as (s2 & w2 & Hw2 & Hb);
      [|apply try_addr_ok | by rewrite Hw1].
    apply try_addr_sound in Hb as [Ha Hans]; [|by rewrite Hw2, Hw1].
    rewrite Ha. split; [done|]. by rewrite Hw2, Hw1 in Hans.
  - intros addr. fold (attempts addr). eapply m_ok_bind; [apply (m_ok_for _ _ _ (λ _, True))|].
    + eapply m_ok_weaken; [apply try_addr_ok | lia | by intros []].
    + intros [r|] _; by apply m_ok_ret.
Qed.

(** *** What is sent, and what is waited for *)

(** Datagram number [j] of the network is the pong of [addr]. *)
Definition pong_at (a : answers) (addr : SocketAddr) (pong : Pong) (j : nat) : Prop :=
  ∃ data rest, wd_recv a j = RecvPacket data addr ∧
    ControlFeed_read_from (take 2048 data) =
      Ok (FeedResponse {| rpc_request_id := 1; rpc_content := ResPong pong |}, rest).

Definition silent (a : answers) (addr : SocketAddr) (i j : nat) : Prop :=
  ∀ x pong, (i ≤ x < j)%nat → ¬ pong_at a addr pong x.

(** The ping that carries the clock's answer number [k]. *)
Definition ping_at (a : answers) (addr : SocketAddr) (k : nat) : list byte * SocketAddr :=
  (ControlRpcMessage_enc ControlRequest_enc (first_ping (wd_clock a k)), addr).

(** Nothing came of it: it could not be sent, or none of the waits that follow
    gave a pong. *)
Definition unanswered (a : answers) (addr : SocketAddr) (k : nat) : Prop :=
  is_Some (wd_send a (S k)) ∨ silent a addr (S (S k)) (S (S k) + waits addr).

(** It was sent, and a wait that follows it gave the first pong. *)
Definition answered_at (a : answers) (addr : SocketAddr) (k : nat) (pong : Pong) : Prop :=
  wd_send a (S k) = None ∧
  ∃ j, (S (S k) ≤ j < S (S k) + waits addr)%nat ∧ silent a addr (S (S k)) j ∧ pong_at a addr pong j.

(** A candidate that was pinged as often as it should be, or could not be. *)
Definition given_up (a : answers) (p : SocketAddr * list nat) : Prop :=
  Forall (unanswered a p.1) p.2 ∧
  (length p.2 = attempts p.1 ∨ ∃ ks k, p.2 = ks ++ [k] ∧ is_Some (wd_send a (S k))).

(** How a computation ends; it is only cut short by a deadline. *)
Definition m_ends {A} (m : M () A) (w : world) (Q : mres A → world → Prop) : Prop :=
  let '(r, _, w') := m () w in
  wd w' = wd w ∧ (wd_budget w = None → r ≠ MCut ∧ wd_budget w' = None) ∧ Q r w'.

Lemma m_ends_bind {A B} (m : M () A) (f : A → M () B) w Q :
  m_ends m w (λ r w1, match r with
    | MDone a => wd w1 = wd w → m_ends (f a) w1 Q
    | MCut => Q MCut w1
    | MPanic => Q MPanic w1
    end) → m_ends (m ≫= f) w Q.
Proof.
  unfold m_ends, mbind, M_bind. destruct (m () w) as [[[a| |] []] w1]; intros (Hw & Hb & HQ);
    [|split_and!; [done | naive_solver | done]..].
  specialize (HQ Hw). destruct (f a () w1) as [[r []] w2]. destruct HQ as (Hw2 & Hb2 & HQ).
  split_and!; [congruence | naive_solver | done].
Qed.

Lemma m_ends_ret {A} (a : A) w (Q : mres A → world → Prop) : Q (MDone a) w → m_ends (mret a) w Q.
Proof. intros HQ. by split_and!. Qed.

Lemma m_ends_conseq {A} (m : M () A) w (P Q : mres A → world → Prop) :
  m_ends m w P → (∀ r w', wd w' = wd w → P r w' → Q r w') → m_ends m w Q.
Proof. unfold m_ends. destruct (m () w) as [[r []] w']. naive_solver. Qed.

Lemma m_recv_runs n w :
  m_ends (m_recv n) w (λ r w', wd_sent w' = wd_sent w ∧ match r with
    | MDone x => wd_pos w' = S (wd_pos w) ∧
        x = match wd_recv (wd w) (wd_pos w) with RecvPacket data peer => RecvPacket (take n data) peer | x => x end
    | MCut => True
    | MPanic => False
    end).
Proof.
  unfold m_ends, m_recv, m_recv_raw, m_await, mbind, M_bind.
  destruct (wd_budget w) as [[|b]|] eqn:Hb; cbn; rewrite ?Hb; by split_and!.
Qed.

Lemma m_send_runs data dst w :
  m_ends (m_send data dst) w (λ r w', match r with
    | MDone e => wd_pos w' = S (wd_pos w) ∧ e = wd_send (wd w) (wd_pos w) ∧ wd_sent w' = wd_sent w ++ [(data, dst)]
    | MCut => wd_sent w' = wd_sent w
    | MPanic => False
    end).
Proof.
  unfold m_ends, m_send, m_send_raw, m_await, mbind, M_bind.
  destruct (wd_budget w) as [[|b]|] eqn:Hb; cbn; rewrite ?Hb; by split_and!.
Qed.

Lemma await_pong_runs addr w :
  m_ends (await_pong addr) w (λ r w', wd_sent w' = wd_sent w ∧ match r with
    | MDone (LReturn pong) => wd_pos w' = S (wd_pos w) ∧ pong_at (wd w) addr pong (wd_pos w)
    | MDone LContinue => wd_pos w' = S (wd_pos w) ∧ ∀ pong, ¬ pong_at (wd w) addr pong (wd_pos w)
    | MCut => True
    | _ => False
    end).
Proof.
  apply m_ends_bind. eapply m_ends_conseq; [apply m_recv_runs|]. intros r w1 Hw1 [Hs Hr].
  destruct r as [x| |]; [|done..]. destruct Hr as [Hp ->]. intros _.
  assert (Hno : (∀ pong data rest, wd_recv (wd w) (wd_pos w) = RecvPacket data addr →
      ControlFeed_read_from (take 2048 data) ≠
        Ok (FeedResponse {| rpc_request_id := 1; rpc_content := ResPong pong |}, rest)) →
    m_ends (mret LContinue) w1 (λ r w', wd_sent w' = wd_sent w ∧ match r with
      | MDone (LReturn pong) => wd_pos w' = S (wd_pos w) ∧ pong_at (wd w) addr pong (wd_pos w)
      | MDone LContinue => wd_pos w' = S (wd_pos w) ∧ ∀ pong, ¬ pong_at (wd w) addr pong (wd_pos w)
      | MCut => True
      | _ => False
      end)).
  { intros Hnone. apply m_ends_ret. split_and!; [done | done|]. intros pong (data & rest & H1 & H2). by eapply Hnone. }
  destruct (wd_recv (wd w) (wd_pos w)) as [|e|data peer] eqn:Hr; [by apply Hno..|].
  case_decide as Hpeer; [apply Hno; naive_solver|]. subst peer.
  pose proof (no_panic_ControlFeed (take 2048 data)) as Hpanic.
  destruct (ControlFeed_read_from (take 2048 data)) as [[[[i x]| |] rest]| |] eqn:Hread; [| | | |done];
    try (apply Hno; intros ? ? ? [= <-]; congruence).
  cbn [rpc_request_id rpc_content]. case_decide as Hi; [apply Hno; intros ? ? ? [= <-]; congruence|]. subst i.
  destruct x; try (apply Hno; intros ? ? ? [= <-]; congruence).
  apply m_ends_ret. split_and!; [done | done|]. by exists data, rest.
Qed.

Lemma await_pongs_runs addr n w :
  m_ends (m_for n (await_pong addr)) w (λ r w', wd_sent w' = wd_sent w ∧ match r with
    | MDone (Some pong) =>
        ∃ j, (wd_pos w ≤ j < wd_pos w + n)%nat ∧ silent (wd w) addr (wd_pos w) j ∧ pong_at (wd w) addr pong j
    | MDone None => silent (wd w) addr (wd_pos w) (wd_pos w + n)
    | MCut => True
    | MPanic => False
    end).
Proof.
  revert w. induction n as [|n IH]; intros w; cbn [m_for].
  { apply m_ends_ret. split; [done|]. intros x pong Hx. lia. }
  apply m_ends_bind. eapply m_ends_conseq; [apply await_pong_runs|]. intros r w1 Hw1 [Hs Hr].
  destruct r as [[| |pong]| |]; try done.
  - destruct Hr as [Hp Hno]. intros _. eapply m_ends_conseq; [apply IH|]. intros r w2 _ [Hs2 Hr2].
    rewrite Hw1, Hp in Hr2. split; [congruence|]. destruct r as [[pong|]| |]; [|intros x pong Hx|done..].
    + destruct Hr2 as (j & Hj & Hsil & Hpong). exists j. split_and!; [lia|lia| |done].
      intros x p Hx. destruct (decide (x = wd_pos w)) as [->|]; [apply Hno | apply Hsil; lia].
    + destruct (decide (x = wd_pos w)) as [->|]; [apply Hno | apply Hr2; lia].
  - destruct Hr as [Hp Hpong]. intros _. apply m_ends_ret. split; [done|].
    exists (wd_pos w). split_and!; [lia | lia | intros x p Hx; lia | done].
Qed.

Lemma try_addr_runs addr w :
  clock_ok (wd w) →
  m_ends (try_addr addr) w (λ r w', ∃ ks, (length ks ≤ 1)%nat ∧
    wd_sent w' = wd_sent w ++ (ping_at (wd w) addr <$> ks) ∧ match r with
    | MDone (LReturn (ROk c)) =>
        cc_control_addr c = addr ∧ ∃ k, ks = [k] ∧ answered_at (wd w) addr k (cc_pong_latest c)
    | MDone LContinue => ∃ k, ks = [k] ∧ unanswered (wd w) addr k
    | MDone LBreak => ∃ k, ks = [k] ∧ is_Some (wd_send (wd w) (S k))
    | MCut => True
    | _ => False
    end).
Proof.
  intros Hc. unfold try_addr. apply m_ends_bind. split_and!; [done | done|]. intros _.
  assert (uint 64 (wd_clock (wd w) (wd_pos w))) as Hnow by apply Hc.
  assert (uint 64 1) as Hid by by vm_compute.
  rewrite encode_request by done.
  apply m_ends_bind. eapply m_ends_conseq; [apply m_send_runs|]. cbn [bump wd wd_pos wd_sent].
  intros r w1 Hw1 Hr. destruct r as [e| |]; [|by exists []; rewrite app_nil_r; split_and!; [cbn; lia|..]|done].
  destruct Hr as (Hp & -> & Hs). intros _. destruct (wd_send (wd w) (S (wd_pos w))) as [e|] eqn:Hsend.
  { apply m_ends_ret. exists [wd_pos w]. split_and!; [done | done|]. exists (wd_pos w). by rewrite Hsend. }
  fold (waits addr). apply m_ends_bind. eapply m_ends_conseq; [apply await_pongs_runs|].
  intros r w2 Hw2 [Hs2 Hr2]. rewrite Hw1, Hp in Hr2. cbn [bump wd wd_pos] in Hr2.
  destruct r as [[pong|]| |]; [| |by exists [wd_pos w]; rewrite Hs2|done]; intros _; apply m_ends_ret;
    exists [wd_pos w]; rewrite Hs2; (split; [done|]; split; [done|]).
  - split; [done|]. by exists (wd_pos w).
  - exists (wd_pos w). split; [done|]. by right.
Qed.

(** All attempts at one candidate. *)
Lemma try_addrs_runs addr n w :
  clock_ok (wd w) →
  m_ends (m_for n (try_addr addr)) w (λ r w', ∃ ks, (length ks ≤ n)%nat ∧
    wd_sent w' = wd_sent w ++ (ping_at (wd w) addr <$> ks) ∧ match r with
    | MDone (Some (ROk c)) => cc_control_addr c = addr ∧
        ∃ before k, ks = before ++ [k] ∧ Forall (unanswered (wd w) addr) before ∧
          answered_at (wd w) addr k (cc_pong_latest c)
    | MDone None => Forall (unanswered (wd w) addr) ks ∧
        (length ks = n ∨ ∃ before k, ks = before ++ [k] ∧ is_Some (wd_send (wd w) (S k)))
    | MCut => True
    | _ => False
    end).
Proof.
  revert w. induction n as [|n IH]; intros w Hc; cbn [m_for].
  { apply m_ends_ret. exists []. rewrite app_nil_r. split_and!; [done | done | done | by left]. }
  apply m_ends_bind. eapply m_ends_conseq; [by apply try_addr_runs|]. intros r w1 Hw1 (ks1 & Hl1 & Hs1 & Hr1).
  destruct r as [[| |[c|e]]| |]; try done; [..|by exists ks1; split_and!; [lia|..]].
  - destruct Hr1 as (k & -> & Hk). intros _. eapply m_ends_conseq; [apply IH; by rewrite Hw1|].
    intros r w2 _ (ks & Hl & Hs & Hr). rewrite Hw1 in Hs, Hr. exists (k :: ks).
    split; [cbn; lia|]. split; [by rewrite Hs, Hs1, <-app_assoc|].
    destruct r as [[[c|e]|]| |]; try done.
    + destruct Hr as (Hc' & before & k' & -> & Hb & Ha). split; [done|].
      exists (k :: before), k'. split_and!; [done | by constructor | done].
    + destruct Hr as [Hf He]. split; [by constructor|].
      destruct He as [<-|(before & k' & -> & Hk')]; [by left | right; by exists (k :: before), k'].
  - destruct Hr1 as (k & -> & Hk). intros _. apply m_ends_ret. exists [k]. split; [cbn; lia|]. split; [done|].
    split; [apply Forall_singleton; by left | right; by exists [], k].
  - destruct Hr1 as (Hc' & k & -> & Hk). intros _. apply m_ends_ret. exists [k]. split; [cbn; lia|]. split; [done|].
    split; [done|]. by exists [], k.
Qed.

(** The candidates that were tried, each with its pings. *)
Definition pings_sent (a : answers) (probes : list (SocketAddr * list nat)) : list (list byte * SocketAddr) :=
  probes ≫= λ p, ping_at a p.1 <$> p.2.

(** What a search for a server leaves behind. *)
Definition searched (options : list SocketAddr) (w : world)
    (r : mres (option (result SetupError ConnectedControl))) (w' : world) : Prop :=
  ∃ probes, probes.*1 `prefix_of` options ∧ Forall (λ p, length p.2 ≤ attempts p.1)%nat probes ∧
    wd_sent w' = wd_sent w ++ pings_sent (wd w) probes ∧
    match r with
    | MDone (Some (ROk c)) =>
        ∃ before ks k, probes = before ++ [(cc_control_addr c, ks ++ [k])] ∧ Forall (given_up (wd w)) before ∧
          Forall (unanswered (wd w) (cc_control_addr c)) ks ∧
          answered_at (wd w) (cc_control_addr c) k (cc_pong_latest c)
    | MDone (Some (RErr _)) | MPanic => False
    | MDone None => probes.*1 = options ∧ Forall (given_up (wd w)) probes
    | MCut => True
    end.

Lemma search_runs options w :
  clock_ok (wd w) →
  m_ends (m_for_each options (λ addr, r ← m_for (attempts addr) (try_addr addr);
      match r with Some r => mret (LReturn r) | None => mret LContinue end)) w (searched options w).
Proof.
  revert w. induction options as [|addr options IH]; intros w Hc; cbn [m_for_each].
  { apply m_ends_ret. exists []. cbn. rewrite app_nil_r. by split_and!. }
  apply m_ends_bind, m_ends_bind. eapply m_ends_conseq; [by apply try_addrs_runs|].
  intros r w1 Hw1 (ks & Hl & Hs & Hr).
  assert (Hone : wd_sent w1 = wd_sent w ++ pings_sent (wd w) [(addr, ks)]) by (by cbn; rewrite app_nil_r).
  assert (Hpre : [addr] `prefix_of` addr :: options) by (by exists options).
  destruct r as [[[c|e]|]| |]; try done; [| |exists [(addr, ks)]; split_and!; [done | by apply Forall_singleton|..]; done].
  - destruct Hr as (<- & before & k & -> & Hb & Ha). intros _. apply m_ends_ret. intros _. apply m_ends_ret.
    exists [(cc_control_addr c, before ++ [k])]. split_and!; [done | by apply Forall_singleton | done|].
    by exists [], before, k.
  - intros _. apply m_ends_ret. intros _. eapply m_ends_conseq; [apply IH; by rewrite Hw1|].
    intros r w2 _ (probes & Hp & Hls & Hs2 & Hr2). rewrite Hw1 in Hs2, Hr2. exists ((addr, ks) :: probes).
    split; [by apply prefix_cons|]. split; [by constructor|].
    split; [rewrite Hs2, Hs; unfold pings_sent; cbn; by rewrite <-app_assoc|].
    destruct r as [[[c|e]|]| |]; try done.
    + destruct Hr2 as (before & ks' & k & -> & Hb & Hrest). exists ((addr, ks) :: before), ks', k.
      split; [done|]. split; [by constructor | done].
    + destruct Hr2 as [<- Hg]. split; [done | by constructor].
Qed.

(** C35: Choosing a tunnel server. Whatever the network answers, the search
    does not panic, it ends (cut short only by an outer deadline) after at most
    21 operations for each IPv4 candidate and 5 for each IPv6 candidate, and
    all it sends is pings: it takes the candidates in their order and sends each
    at most three pings (one to an IPv6 candidate) that carry the time of their
    sending, to that candidate's address. When it succeeds, the server is the
    last candidate pinged and the pong the connection starts with is the first
    one that came from its address, under the ping's id, in the five (three)
    waits after its last ping; no ping before it was answered in time. When it
    fails, it is as [FailedToConnect], and every candidate was pinged as often
    as it should be, or until a ping could not be sent, without an answer. *)
Theorem connect_to_first_spec (options : list SocketAddr) (w : world) :
  clock_ok (wd w) →
  let '(r, _, w') := connect_to_first options () w in
  r ≠ MPanic ∧ (wd_budget w = None → r ≠ MCut) ∧ wd w' = wd w ∧
  (wd_pos w' ≤ wd_pos w + sum_list_with (λ a, if is_ipv6 a then 5 else 21) options)%nat ∧
  ∃ probes, probes.*1 `prefix_of` options ∧ Forall (λ p, length p.2 ≤ attempts p.1)%nat probes ∧
    wd_sent w' = wd_sent w ++ pings_sent (wd w) probes ∧
    match r with
    | MDone (ROk c) =>
        ∃ before ks k, probes = before ++ [(cc_control_addr c, ks ++ [k])] ∧ Forall (given_up (wd w)) before ∧
          Forall (unanswered (wd w) (cc_control_addr c)) ks ∧
          answered_at (wd w) (cc_control_addr c) k (cc_pong_latest c)
    | MDone (RErr e) => e = FailedToConnect ∧ probes.*1 = options ∧ Forall (given_up (wd w)) probes
    | _ => True
    end.
Proof.
  intros Hc. pose proof (connect_to_first_ok options () w Hc) as Hok.
  assert (Hrun : m_ends (connect_to_first options) w (λ r w', ∃ r0, searched options w r0 w' ∧
    match r with MDone x => ∃ o, r0 = MDone o ∧ x = default (RErr FailedToConnect) o | MCut => r0 = MCut | MPanic => r0 = MPanic end)).
  { apply m_ends_bind. eapply m_ends_conseq; [by apply search_runs|]. intros r w1 Hw1 Hs.
    destruct r as [o| |]; [|by eexists..]. intros _. apply m_ends_ret. exists (MDone o). split; [done|]. by exists o. }
  unfold m_ends in Hrun. destruct (connect_to_first options () w) as [[r []] w'].
  destruct Hok as (Hr & _ & _ & Hhi). destruct Hrun as (Hw & Hb & r0 & (probes & Hp & Hl & Hs & Hsr) & Hr0).
  split; [by destruct r|]. split; [naive_solver|]. split; [done|]. split.
  - eapply Nat.le_trans; [exact Hhi|]. apply Nat.add_le_mono_l. clear.
    induction options as [|a l IH]; [done|]. cbn [sum_list_with].
    apply Nat.add_le_mono; [|exact IH]. unfold attempts, waits. by destruct (is_ipv6 a).
  - exists probes. split; [done|]. split; [done|]. split; [done|]. destruct r as [x| |]; [|done..].
    destruct Hr0 as ([[c|e]|] & -> & ->); cbn [default]; [done..|]. by split.
Qed.

(** ** Sending and receiving on a connection *)

(** The address stays, and everything sent goes to it. *)
Definition sent_to_control (c : ConnectedControl) (l : sends) (c' : ConnectedControl) (l' : sends) :
    Prop :=
  cc_control_addr c' = cc_control_addr c ∧
  ∃ k, l' = l ++ k ∧ Forall (λ p, p.2 = cc_control_addr c) k.

#[local] Instance sent_to_control_preorder : IoPreorder sent_to_control.
Proof.
  split.
  - intros c l. split; [done|]. exists []. by rewrite app_nil_r.
  - intros c1 l1 c2 l2 c3 l3 [Ha (k1 & -> & H1)] [Hb (k2 & -> & H2)].
    split; [congruence|]. exists (k1 ++ k2). rewrite app_assoc. split; [done|].
    apply Forall_app_2; [done|]. by rewrite Ha in H2.
Qed.

Lemma encode_raw request_id bytes :
  uint 64 request_id →
  encode {| rpc_request_id := request_id; rpc_content := MkRawSlice bytes |} =
  Ok (be_bytes 8 request_id ++ bytes).
Proof.
  intros Hid. unfold encode. cbn [write_to ControlRpcMessage_encoding].
  unfold ControlRpcMessage_write_to, mbind, W_bind. cbn [rpc_request_id rpc_content].
  rewrite (emits_vec _ _ _ _ (codec_emits u64_codec _ Hid)).
  cbn [write_to RawSlice_encoding]. rewrite emits_RawSlice. cbn. reflexivity.
Qed.

Lemma send_ok {T} `{MessageEncoding T} (msg : T) bs :
  encode msg = Ok bs → m_ok (ConnectedControl_send msg) 1 (λ _, True).
Proof.
  intros Henc. unfold ConnectedControl_send. eapply (m_ok_bind _ _ 0 1 (λ _, True)); [by apply m_ok_get|].
  intros c _. rewrite Henc. rewrite <-(Nat.add_0_r 1). eapply m_ok_bind; [apply m_ok_send|].
  intros e _. by apply m_ok_ret.
Qed.

Lemma send_rel {T} `{MessageEncoding T} (msg : T) : m_rel sent_to_control (ConnectedControl_send msg).
Proof.
  intros c w. unfold ConnectedControl_send, m_get, mbind, M_bind. cbn.
  destruct (encode msg) as [bs| |]; [|apply io_refl..].
  unfold m_send, mbind, M_bind, m_await.
  destruct (wd_budget w) as [[|b]|]; cbn; [apply io_refl|..];
    (split; [done|]; eexists; split; [done|]; by apply Forall_singleton).
Qed.

(** A datagram that was sent is in the log. *)
Lemma send_inv {T} `{MessageEncoding T} (msg : T) bs c w r c' w' :
  encode msg = Ok bs → ConnectedControl_send msg c w = (MDone r, c', w') →
  c' = c ∧ wd w' = wd w ∧ wd_sent w' = wd_sent w ++ [(bs, cc_control_addr c)].
Proof.
  intros Henc Hs. unfold ConnectedControl_send in Hs. m_inv. rewrite Henc in Hs. m_inv.
  unfold m_send, m_send_raw, mbind, M_bind, m_await in Hm.
  destruct (wd_budget w0) as [[|b]|]; cbn in Hm; by simplify_eq.
Qed.

Lemma accept_feed_ok data remote : m_ok (accept_feed data remote) 0 (λ _, True).
Proof.
  unfold accept_feed. eapply (m_ok_bind _ _ 0 0 (λ _, True)); [by apply m_ok_get|]. intros c _.
  case_decide; [by apply m_ok_ret|]. pose proof (no_panic_ControlFeed data) as Hp.
  destruct (ControlFeed_read_from data) as [[feed rest]| |]; [|by apply m_ok_ret|done].
  eapply (m_ok_bind _ _ 0 0 (λ _, True)); [|intros _ _; by apply m_ok_ret].
  destruct feed as [[i []]| |]; first [by apply m_ok_modify | by apply m_ok_ret].
Qed.

Lemma accept_feed_rel data remote : m_rel sent_to_control (accept_feed data remote).
Proof.
  unfold accept_feed. apply m_rel_bind; [apply _ | apply m_rel_get, _ |]. intros c.
  case_decide; [apply m_rel_ret, _|].
  destruct (ControlFeed_read_from data) as [[feed rest]| |];
    [|apply m_rel_ret, _ | apply m_rel_panic, _].
  apply m_rel_bind; [apply _ | | intros _; apply m_rel_ret, _].
  destruct feed as [[i []]| |]; try (apply m_rel_ret, _).
  apply m_rel_modify. intros c' l. split; [done|]. exists []. by rewrite app_nil_r.
Qed.

Lemma recv_ok : m_ok ConnectedControl_recv 1 (λ _, True).
Proof.
  unfold ConnectedControl_recv. eapply (m_ok_bind _ _ 1 0); [apply m_ok_recv|].
  intros [| |data remote] _; try by apply m_ok_ret.
  eapply (m_ok_bind _ _ 0 0); [apply accept_feed_ok|]. intros r _. by apply m_ok_ret.
Qed.

Lemma recv_rel : m_rel sent_to_control ConnectedControl_recv.
Proof.
  unfold ConnectedControl_recv. apply m_rel_bind; [apply _ | apply m_rel_recv, _ |].
  intros []; try apply m_rel_ret, _.
  apply m_rel_bind; [apply _ | apply accept_feed_rel | intros; apply m_rel_ret, _].
Qed.

(** What is received came from the control address, and the newest pong is
    kept. *)
Lemma recv_inv c w feed c' w' :
  ConnectedControl_recv c w = (MDone (Some (ROk feed)), c', w') →
  wd w' = wd w ∧ wd_sent w' = wd_sent w ∧ cc_control_addr c' = cc_control_addr c ∧
  cc_pong_latest c' = (match feed with
                       | FeedResponse {| rpc_content := ResPong pong |} => pong
                       | _ => cc_pong_latest c
                       end) ∧
  ∃ n data rest, wd_recv (wd w) n = RecvPacket data (cc_control_addr c) ∧
    ControlFeed_read_from (take 1024 data) = Ok (feed, rest).
Proof.
  intros H. unfold ConnectedControl_recv in H. m_inv.
  assert (wd_sent w0 = wd_sent w) as Hs.
  { unfold m_recv, m_recv_raw, mbind, M_bind, m_await in Hm.
    destruct (wd_budget w) as [[|b]|]; cbn in Hm; by simplify_eq. }
  apply m_recv_inv in Hm as (-> & Hw & Hr). destruct a as [| |data remote]; m_inv.
  unfold accept_feed in Hm. m_inv. destruct Hr as (k & data0 & Hk & ->).
  case_decide as Hd; m_inv. subst remote.
  destruct (ControlFeed_read_from _) as [[f rest]| |] eqn:Hread; m_inv.
  destruct feed as [[i []]| |]; m_inv; (split_and!; [done | done | done | done | by eauto 10]).
Qed.

(** ** Registering *)

Lemma register_response_ok auth_pong request_id content :
  uint 64 request_id → m_ok (register_response auth_pong request_id content) 2 (λ _, True).
Proof.
  intros Hid. destruct content; cbn; try (by apply m_ok_ret).
  - case_decide; by apply m_ok_ret.
  - eapply (m_ok_bind _ _ 1 1); [apply m_ok_now|]. intros now Hnow.
    destruct (encode_ping request_id now Hid Hnow) as [bs Hbs].
    eapply (m_ok_bind _ _ 1 0); [by eapply send_ok|]. intros _ _. by apply m_ok_ret.
  - eapply (m_ok_bind _ _ 0 2); [apply m_ok_await|]. intros _ _. by apply m_ok_ret.
Qed.

Lemma register_response_rel auth_pong request_id content :
  m_rel sent_to_control (register_response auth_pong request_id content).
Proof.
  destruct content; cbn; try apply m_rel_ret, _.
  - case_decide; apply m_rel_ret, _.
  - apply m_rel_bind; [apply _ | apply m_rel_now, _ |]. intros now.
    apply m_rel_bind; [apply _ | apply send_rel | intros; apply m_rel_ret, _].
  - apply m_rel_bind; [apply _ | apply m_rel_await, _ | intros; apply m_rel_ret, _].
Qed.

Lemma await_registered_ok auth_pong request_id :
  uint 64 request_id → m_ok (await_registered auth_pong request_id) 3 (λ _, True).
Proof.
  intros Hid. eapply (m_ok_bind _ _ 1 2); [apply recv_ok|].
  intros [[[response| |]|e]|] _; try by apply m_ok_ret.
  case_decide; [by apply register_response_ok | by apply m_ok_ret].
Qed.

Lemma await_registered_rel auth_pong request_id :
  m_rel sent_to_control (await_registered auth_pong request_id).
Proof.
  apply m_rel_bind; [apply _ | apply recv_rel |].
  intros [[[response| |]|e]|]; try apply m_rel_ret, _.
  case_decide; [apply register_response_rel | apply m_rel_ret, _].
Qed.

Lemma await_registered_sound auth_pong request_id c w reg c' w' :
  await_registered auth_pong request_id c w = (MDone (LReturn (ROk reg)), c', w') →
  answered (wd w) 1024 (cc_control_addr c)
    {| rpc_request_id := request_id; rpc_content := ResAgentRegistered reg |}.
Proof.
  intros H. unfold await_registered in H. m_inv.
  destruct a as [[[[i content]| |]|e]|]; m_inv. case_decide as Hid; m_inv. cbn in Hid. subst i.
  apply recv_inv in Hm as (_ & _ & _ & _ & k & data & rest & Hk & Hread).
  destruct content; cbn in H; m_inv; [by case_decide; m_inv|]. by exists k, data, rest.
Qed.

Lemma register_attempt_ok auth_pong request_id bytes :
  uint 64 request_id → m_ok (register_attempt auth_pong request_id bytes) 16 (λ _, True).
Proof.
  intros Hid. eapply (m_ok_bind _ _ 1 15); [by eapply send_ok, encode_raw|].
  intros [_|e] _; [|by apply m_ok_ret].
  eapply (m_ok_bind _ _ (5 * 3) 0); [|intros [r|] _; by apply m_ok_ret].
  apply (m_ok_for _ _ _ (λ _, True)).
  eapply m_ok_weaken; [by apply await_registered_ok | lia | by intros []].
Qed.

Lemma register_attempt_rel auth_pong request_id bytes :
  m_rel sent_to_control (register_attempt auth_pong request_id bytes).
Proof.
  apply m_rel_bind; [apply _ | apply send_rel |]. intros [_|e]; [|apply m_rel_ret, _].
  apply m_rel_bind; [apply _ | apply m_rel_for, await_registered_rel; apply _ |].
  intros [r|]; apply m_rel_ret, _.
Qed.

Lemma register_attempt_sound auth_pong request_id bytes c w reg c' w' :
  uint 64 request_id → clock_ok (wd w) →
  register_attempt auth_pong request_id bytes c w = (MDone (LReturn (ROk reg)), c', w') →
  (be_bytes 8 request_id ++ bytes, cc_control_addr c) ∈ wd_sent w' ∧
  answered (wd w) 1024 (cc_control_addr c)
    {| rpc_request_id := request_id; rpc_content := ResAgentRegistered reg |}.
Proof.
  intros Hid Hc H. unfold register_attempt in H. m_inv.
  apply (send_inv _ _ _ _ _ _ _ (encode_raw _ _ Hid)) in Hm as (-> & Hw & Hsent).
  destruct a as [_|e]; m_inv. destruct a as [r|]; m_inv.
  pose proof (m_rel_MDone _ _ _ _ _ _ _
    (m_rel_for _ 5 _ (await_registered_rel auth_pong request_id)) Hm) as [_ (k & Hk & _)].
  apply (m_for_return_rel sent_to_control _ _ 3 (λ _, True)) in Hm
    as (s2 & w2 & Hw2 & [Ha _] & Hb);
    [|by apply await_registered_ok | apply await_registered_rel | by rewrite Hw].
  apply await_registered_sound in Hb. rewrite Hw2, Hw, Ha in Hb. split; [|done].
  rewrite Hk, Hsent. set_solver.
Qed.

Context (hex_decode : string → option (list byte)).

Lemma authenticate_ok : m_ok (ConnectedControl_authenticate hex_decode) 82 (λ _, True).
Proof.
  unfold ConnectedControl_authenticate.
  eapply (m_ok_bind _ _ 0 82 (λ _, True)); [by apply m_ok_get|]. intros c _.
  eapply (m_ok_bind _ _ 1 81); [apply m_ok_ask|]. intros [key|e] _; [|by apply m_ok_ret].
  destruct (hex_decode key) as [bytes|]; [|by apply m_ok_ret].
  eapply (m_ok_bind _ _ 1 80); [apply m_ok_now|]. intros rid Hrid.
  eapply (m_ok_bind _ _ (5 * 16) 0); [|intros r _; by apply m_ok_ret].
  apply (m_ok_for _ _ _ (λ _, True)).
  eapply m_ok_weaken; [by apply (register_attempt_ok (cc_pong_latest c) rid bytes) | lia | by intros []].
Qed.

Lemma authenticate_rel : m_rel sent_to_control (ConnectedControl_authenticate hex_decode).
Proof.
  unfold ConnectedControl_authenticate.
  apply m_rel_bind; [apply _ | apply m_rel_get, _ |]. intros c.
  apply m_rel_bind; [apply _ | apply m_rel_ask, _ |]. intros [key|e]; [|apply m_rel_ret, _].
  destruct (hex_decode key) as [bytes|]; [|apply m_rel_ret, _].
  apply m_rel_bind; [apply _ | apply m_rel_now, _ |]. intros rid.
  apply m_rel_bind; [apply _ | | intros; apply m_rel_ret, _].
  apply m_rel_for; [apply _|]. apply (register_attempt_rel (cc_pong_latest c) rid bytes).
Qed.

Lemma authenticate_sound c w reg c' w' :
  clock_ok (wd w) → ConnectedControl_authenticate hex_decode c w = (MDone (ROk reg), c', w') →
  ∃ i j key bytes,
    wd_sign (wd w) i (pong_client_addr (cc_pong_latest c)) (pong_tunnel_addr (cc_pong_latest c)) =
      ROk key ∧
    hex_decode key = Some bytes ∧
    (be_bytes 8 (wd_clock (wd w) j) ++ bytes, cc_control_addr c) ∈ wd_sent w' ∧
    answered (wd w) 1024 (cc_control_addr c)
      {| rpc_request_id := wd_clock (wd w) j; rpc_content := ResAgentRegistered reg |}.
Proof.
  intros Hc H. unfold ConnectedControl_authenticate in H. m_inv.
  apply m_ask_inv in Hm0 as (-> & Hw & Hl & i & Hi).
  destruct a0 as [key|e]; m_inv. destruct (hex_decode key) as [bytes|] eqn:Hhex; m_inv.
  apply m_now_inv in Hm as (-> & Hw2 & Hl2 & j & ->). rewrite Hw in Hw2.
  match goal with H : default _ _ = _ |- _ => rename H into Hd end.
  match type of Hd with default _ ?o = _ => destruct o as [r|]; cbn in Hd; [subst r|done] end.
  apply (m_for_return_rel sent_to_control _ _ 16 (λ _, True)) in Hm0
    as (s3 & w3 & Hw3 & [Ha _] & Hb);
    [|apply register_attempt_ok; by rewrite Hw | apply register_attempt_rel | by rewrite Hw2].
  apply register_attempt_sound in Hb as [Hs Hans];
    [|by rewrite Hw | by rewrite Hw3, Hw2].
  rewrite Hw3, Hw2, Ha, ?Hw in *. by exists i, j, key, bytes.
Qed.

(** C36: Registering. Whatever the network and the API answer, registering
    does not panic, ends after at most 82 operations, keeps the control
    address and sends to no other address. When it returns a session, the API
    signed a key for the addresses of the pong the connection had at the start,
    a datagram with the bytes of that key under a fresh request id was sent, and
    the control address answered that request id with this session. *)
Theorem authenticate_spec (c : ConnectedControl) (w : world) :
  clock_ok (wd w) →
  let '(r, c', w') := ConnectedControl_authenticate hex_decode c w in
  r ≠ MPanic ∧ (wd_pos w' ≤ wd_pos w + 82)%nat ∧ sent_to_control c (wd_sent w) c' (wd_sent w') ∧
  ∀ reg, r = MDone (ROk reg) →
    ∃ i j key bytes,
      wd_sign (wd w) i (pong_client_addr (cc_pong_latest c)) (pong_tunnel_addr (cc_pong_latest c)) =
        ROk key ∧
      hex_decode key = Some bytes ∧
      (be_bytes 8 (wd_clock (wd w) j) ++ bytes, cc_control_addr c) ∈ wd_sent w' ∧
      answered (wd w) 1024 (cc_control_addr c)
        {| rpc_request_id := wd_clock (wd w) j; rpc_content := ResAgentRegistered reg |}.
Proof.
  intros Hc. pose proof (authenticate_ok c w Hc) as Hok.
  pose proof (authenticate_rel c w) as Hrel.
  destruct (ConnectedControl_authenticate hex_decode c w) as [[r c'] w'] eqn:Hrun.
  destruct Hok as (Hr & Hw & Hlo & Hhi). split_and!; [by destruct r | done | done |].
  intros reg ->. by eapply authenticate_sound.
Qed.
End facts.

(** ** Witnesses *)

#[local] Existing Instance big_endian.
#[local] Existing Instance big_endian_laws.
#[local] Existing Instance reference_encoding.
#[local] Existing Instance reference_encoding_laws.

Definition sample_pong : Pong :=
  {| pong_request_now := 1000; pong_server_now := 1000; pong_server_id := 1;
     pong_data_center_id := 2; pong_client_addr := sample_v4; pong_tunnel_addr := sample_v6;
     pong_session_expire_at := None |}.

Definition sample_registered : AgentRegistered :=
  {| reg_id := sample_session; reg_expires_at := 61000 |}.

(** A network that answers every receive with [res]. *)
Definition sample_answers (id : Z) (res : ControlResponse) : answers := {|
  wd_clock _ := 1000;
  wd_recv _ := RecvPacket
    (ControlFeed_enc (FeedResponse {| rpc_request_id := id; rpc_content := res |})) sample_v4;
  wd_send _ := None;
  wd_sign _ _ _ := ROk "00ff";
  wd_targets _ := ROk [sample_v4];
  wd_create_io _ := None;
  wd_cut _ := None;
|}.

Definition sample_world (a : answers) : world :=
  {| wd := a; wd_pos := 0; wd_budget := None; wd_sent := [] |}.

(** The IPv6 candidate is pinged in vain; the first ping to the other one is
    answered. *)
Lemma connect_to_first_spec_witness :
  let a := sample_answers 1 (ResPong sample_pong) in
  ∃ w' probes ks k, connect_to_first [sample_v6; sample_v4] () (sample_world a) =
    (MDone (ROk (ConnectedControl_new sample_v4 sample_pong)), (), w') ∧
  wd_sent w' = pings_sent a (probes ++ [(sample_v4, ks ++ [k])]) ∧ Forall (given_up a) probes ∧
  answered_at a sample_v4 k sample_pong.
Proof.
  intros a. pose proof (connect_to_first_spec [sample_v6; sample_v4] (sample_world a)) as H.
  assert ((connect_to_first [sample_v6; sample_v4] () (sample_world a)).1.1 =
    MDone (ROk (ConnectedControl_new sample_v4 sample_pong))) as Hv by (vm_compute; reflexivity).
  destruct (connect_to_first _ _ _) as [[r []] w'] eqn:Hrun. cbn [fst] in Hv. subst r.
  destruct H as (_ & _ & _ & _ & probes & _ & _ & Hs & before & ks & k & -> & Hb & _ & Ha); [intros n; decide_now|].
  exists w', before, ks, k. split_and!; [done | exact Hs | done | exact Ha].
Defined.

Lemma authenticate_spec_witness :
  ∃ c' w', ConnectedControl_authenticate (λ _, Some [Byte.x00; Byte.xff])
    (ConnectedControl_new sample_v4 sample_pong)
    (sample_world (sample_answers 1000 (ResAgentRegistered sample_registered))) =
    (MDone (ROk sample_registered), c', w') ∧
  sent_to_control (ConnectedControl_new sample_v4 sample_pong) [] c' (wd_sent w').
Proof.
  pose proof (authenticate_spec (λ _, Some [Byte.x00; Byte.xff])
    (ConnectedControl_new sample_v4 sample_pong)
    (sample_world (sample_answers 1000 (ResAgentRegistered sample_registered)))) as H.
  assert ((ConnectedControl_authenticate (λ _, Some [Byte.x00; Byte.xff])
    (ConnectedControl_new sample_v4 sample_pong)
    (sample_world (sample_answers 1000 (ResAgentRegistered sample_registered)))).1.1 =
    MDone (ROk sample_registered)) as Hv by (vm_compute; reflexivity).
  destruct (ConnectedControl_authenticate _ _ _) as [[r c'] w'] eqn:Hrun. cbn [fst] in Hv. subst r.
  destruct H as (_ & _ & H & _); [intros n; decide_now|].
  by exists c', w'.
Defined.
