(* ===== verification/EstablishedControl.v ===== *)
(** * The established control session
      (agent_core/src/agent_control/established_control.rs and the
      conversions of connected_control.rs)

    A registered connection: the clock arithmetic of pongs, the expiry of the
    session, and the record of MTU probes. *)

From S2P Require Import Prelude Bytes Net Wire Proto ControlMessages ControlFormat.
From S2P Require Import ControlCodec ControlFeed ProtoTheorems ControlIo ControlConnect.

(** ** Data *)

Record MtuData : Type := {
  mtu_largest_received_packet : option CheckMtuReceivedAck;
  mtu_largest_payload_by_datacenter : gmap Z Z;
  mtu_latest_test_fail : option MtuTestFail;
}.

Definition MtuData_default : MtuData :=
  {| mtu_largest_received_packet := None; mtu_largest_payload_by_datacenter := ∅;
     mtu_latest_test_fail := None |}.

Record EstablishedControl : Type := {
  ec_conn : ConnectedControl;
  ec_pong_at_auth : Pong;
  ec_session_setup_deadline : option Z;
  ec_registered : AgentRegistered;
  ec_current_ping : option Z;
  ec_clock_offset : Z;
  ec_force_expired : bool;
  ec_pending_mtu_data : MtuData;
  ec_known_mtu_data : MtuData;
}.

Inductive ExpiredReason : Type := Forced | SessionNotSetup | FlowChanged.

Definition SESSION_SETUP_GRACE_MS : Z := 5000.

(** ** MTU probes *)

Definition record_check_mtu_received_ack (ack : CheckMtuReceivedAck) (m : MtuData) : MtuData :=
  let should_replace :=
    match mtu_largest_received_packet m with
    | Some current => bool_decide (ack_message_length current ≤ ack_message_length ack)
    | None => true
    end in
  if should_replace then
    {| mtu_largest_received_packet := Some ack;
       mtu_largest_payload_by_datacenter := mtu_largest_payload_by_datacenter m;
       mtu_latest_test_fail := mtu_latest_test_fail m |}
  else m.

Definition record_mtu_test_packet (packet : MtuTestPacket) (m : MtuData) : MtuData :=
  {| mtu_largest_received_packet := mtu_largest_received_packet m;
     mtu_largest_payload_by_datacenter :=
       partial_alter (λ current,
           match current with
           | Some current => Some (Z.max current (mtp_udp_payload_length packet))
           | None => Some (mtp_udp_payload_length packet)
           end) (mtp_data_center_id packet) (mtu_largest_payload_by_datacenter m);
     mtu_latest_test_fail := mtu_latest_test_fail m |}.

Definition record_mtu_test_fail (fail : MtuTestFail) (m : MtuData) : MtuData :=
  {| mtu_largest_received_packet := mtu_largest_received_packet m;
     mtu_largest_payload_by_datacenter := mtu_largest_payload_by_datacenter m;
     mtu_latest_test_fail := Some fail |}.

Definition latest_test_fail_code (m : MtuData) : option MtuTestFailCode :=
  mtf_error_code <$> mtu_latest_test_fail m.

(** ** Field updates *)

Definition ec_set_conn (e : EstablishedControl) (c : ConnectedControl) : EstablishedControl :=
  {| ec_conn := c; ec_pong_at_auth := ec_pong_at_auth e;
     ec_session_setup_deadline := ec_session_setup_deadline e; ec_registered := ec_registered e;
     ec_current_ping := ec_current_ping e; ec_clock_offset := ec_clock_offset e;
     ec_force_expired := ec_force_expired e; ec_pending_mtu_data := ec_pending_mtu_data e;
     ec_known_mtu_data := ec_known_mtu_data e |}.

Definition ec_set_registered (r : AgentRegistered) (e : EstablishedControl) : EstablishedControl :=
  {| ec_conn := ec_conn e; ec_pong_at_auth := ec_pong_at_auth e;
     ec_session_setup_deadline := ec_session_setup_deadline e; ec_registered := r;
     ec_current_ping := ec_current_ping e; ec_clock_offset := ec_clock_offset e;
     ec_force_expired := ec_force_expired e; ec_pending_mtu_data := ec_pending_mtu_data e;
     ec_known_mtu_data := ec_known_mtu_data e |}.

Definition ec_set_mtu (pending known : MtuData) (e : EstablishedControl) : EstablishedControl :=
  {| ec_conn := ec_conn e; ec_pong_at_auth := ec_pong_at_auth e;
     ec_session_setup_deadline := ec_session_setup_deadline e; ec_registered := ec_registered e;
     ec_current_ping := ec_current_ping e; ec_clock_offset := ec_clock_offset e;
     ec_force_expired := ec_force_expired e; ec_pending_mtu_data := pending;
     ec_known_mtu_data := known |}.

Definition set_expired (e : EstablishedControl) : EstablishedControl :=
  {| ec_conn := ec_conn e; ec_pong_at_auth := ec_pong_at_auth e;
     ec_session_setup_deadline := ec_session_setup_deadline e; ec_registered := ec_registered e;
     ec_current_ping := ec_current_ping e; ec_clock_offset := ec_clock_offset e;
     ec_force_expired := true; ec_pending_mtu_data := ec_pending_mtu_data e;
     ec_known_mtu_data := ec_known_mtu_data e |}.

Definition commit_pending_mtu_data (e : EstablishedControl) : EstablishedControl :=
  ec_set_mtu (ec_pending_mtu_data e) (ec_pending_mtu_data e) e.

Definition clear_pending_mtu_data (e : EstablishedControl) : EstablishedControl :=
  ec_set_mtu MtuData_default (ec_known_mtu_data e) e.

Definition clear_known_mtu_data (e : EstablishedControl) : EstablishedControl :=
  ec_set_mtu (ec_pending_mtu_data e) MtuData_default e.

Definition pong_with_expire (p : Pong) (session_expire_at : option Z) : Pong :=
  {| pong_request_now := pong_request_now p; pong_server_now := pong_server_now p;
     pong_server_id := pong_server_id p; pong_data_center_id := pong_data_center_id p;
     pong_client_addr := pong_client_addr p; pong_tunnel_addr := pong_tunnel_addr p;
     pong_session_expire_at := session_expire_at |}.

(** ** Expiry *)

Definition get_expire_at (e : EstablishedControl) : Z := reg_expires_at (ec_registered e).

Definition flow_changed (e : EstablishedControl) : bool :=
  bool_decide (pong_client_addr (cc_pong_latest (ec_conn e)) ≠ pong_client_addr (ec_pong_at_auth e)) ||
  bool_decide (pong_tunnel_addr (cc_pong_latest (ec_conn e)) ≠ pong_tunnel_addr (ec_pong_at_auth e)).

(** [is_expired] at the time [now] the clock shows. *)
Definition is_expired (now : Z) (e : EstablishedControl) : option ExpiredReason :=
  if ec_force_expired e then Some Forced
  else if bool_decide (pong_session_expire_at (ec_pong_at_auth e) = None) &&
          match ec_session_setup_deadline e with
          | None => true
          | Some deadline => bool_decide (deadline ≤ now)
          end then Some SessionNotSetup
  else if flow_changed e then Some FlowChanged
  else None.

(** ** Conversions of connected_control.rs *)

Definition into_established (now : Z) (c : ConnectedControl) (registered : AgentRegistered) :
    EstablishedControl :=
  {| ec_conn := c;
     ec_pong_at_auth := cc_pong_latest c;
     ec_session_setup_deadline :=
       match pong_session_expire_at (cc_pong_latest c) with
       | None => Some (saturating_add 64 now 5000)
       | Some _ => None
       end;
     ec_registered := registered;
     ec_current_ping := None;
     ec_clock_offset := 0;
     ec_force_expired := false;
     ec_pending_mtu_data := MtuData_default;
     ec_known_mtu_data := MtuData_default |}.

Definition option_or {A} (a b : option A) : option A :=
  match a with Some _ => a | None => b end.

Definition reset_established (c : ConnectedControl) (registered : AgentRegistered)
    (e : EstablishedControl) : EstablishedControl :=
  let session_expire_at :=
    option_or (pong_session_expire_at (ec_pong_at_auth e))
              (pong_session_expire_at (cc_pong_latest c)) in
  {| ec_conn := c;
     ec_pong_at_auth := pong_with_expire (cc_pong_latest c) session_expire_at;
     ec_session_setup_deadline := ec_session_setup_deadline e;
     ec_registered := registered;
     ec_current_ping := None;
     ec_clock_offset := ec_clock_offset e;
     ec_force_expired := false;
     ec_pending_mtu_data := MtuData_default;
     ec_known_mtu_data := MtuData_default |}.

Section control.
Context {BO : ByteOrder} {ML : EncodingLib}.
Context (hex_decode : string → option (list byte)) (overflow_checks : bool).

(** [ConnectedControl::auth_into_established]. *)
Definition auth_into_established : M ConnectedControl (result SetupError EstablishedControl) :=
  r ← ConnectedControl_authenticate hex_decode;
  match r with
  | RErr e => mret (RErr e)
  | ROk registered =>
      c ← m_get;
      match pong_session_expire_at (cc_pong_latest c) with
      | None => now ← m_now; mret (ROk (into_established now c registered))
      | Some _ => mret (ROk (into_established 0 c registered))
      end
  end.

(** ** Sends *)

Definition EstablishedControl_send (req : ControlRpcMessage ControlRequest) :
    M EstablishedControl (result ControlError ()) :=
  r ← m_zoom ec_conn ec_set_conn (ConnectedControl_send req);
  mret (match r with ROk _ => ROk () | RErr e => RErr (ControlIoError e) end).

Definition send_keep_alive (request_id : Z) : M EstablishedControl (result ControlError ()) :=
  e ← m_get;
  EstablishedControl_send {| rpc_request_id := request_id;
    rpc_content := ReqAgentKeepAlive (reg_id (ec_registered e)) |}.

Definition send_setup_udp_channel (request_id : Z) : M EstablishedControl (result ControlError ()) :=
  e ← m_get;
  EstablishedControl_send {| rpc_request_id := request_id;
    rpc_content := ReqSetupUdpChannel (reg_id (ec_registered e)) |}.

Definition send_ping (request_id now : Z) : M EstablishedControl (result ControlError ()) :=
  e ← m_get;
  EstablishedControl_send {| rpc_request_id := request_id;
    rpc_content := ReqPing {| ping_now := now; ping_current_ping := ec_current_ping e;
                              ping_session_id := Some (reg_id (ec_registered e)) |} |}.

Definition send_check_mtu_received (request_id id message_size : Z) :
    M EstablishedControl (result ControlError ()) :=
  EstablishedControl_send {| rpc_request_id := request_id;
    rpc_content := ReqCheckMtuReceived {| cmr_id := id; cmr_message_size := message_size |} |}.

Definition send_mtu_test (request_id id data_center_id udp_payload_length : Z) :
    M EstablishedControl (result ControlError ()) :=
  EstablishedControl_send {| rpc_request_id := request_id;
    rpc_content := ReqSendMtuTest {| smt_id := id; smt_data_center_id := data_center_id;
                                     smt_udp_payload_length := udp_payload_length |} |}.

(** ** Authenticating again *)

(** What a new registration does to the session. *)
Definition reauthenticated (now : Z) (registered : AgentRegistered) (e : EstablishedControl) :
    EstablishedControl :=
  let session_expire_at :=
    option_or (pong_session_expire_at (ec_pong_at_auth e))
              (pong_session_expire_at (cc_pong_latest (ec_conn e))) in
  {| ec_conn := ec_conn e;
     ec_pong_at_auth := pong_with_expire (cc_pong_latest (ec_conn e)) session_expire_at;
     ec_session_setup_deadline :=
       match session_expire_at with
       | None => Some (saturating_add 64 now SESSION_SETUP_GRACE_MS)
       | Some _ => None
       end;
     ec_registered := registered;
     ec_current_ping := ec_current_ping e;
     ec_clock_offset := ec_clock_offset e;
     ec_force_expired := false;
     ec_pending_mtu_data := ec_pending_mtu_data e;
     ec_known_mtu_data := ec_known_mtu_data e |}.

Definition EstablishedControl_authenticate : M EstablishedControl (result SetupError ()) :=
  r ← m_zoom ec_conn ec_set_conn (ConnectedControl_authenticate hex_decode);
  match r with
  | RErr e => mret (RErr e)
  | ROk registered =>
      e ← m_get;
      match option_or (pong_session_expire_at (ec_pong_at_auth e))
                      (pong_session_expire_at (cc_pong_latest (ec_conn e))) with
      | None => now ← m_now; m_modify (reauthenticated now registered)
      | Some _ => m_modify (reauthenticated 0 registered)
      end;;
      mret (ROk ())
  end.

(** ** Receiving *)

(** [x.abs()] of an [i64], used for its check only. *)
Definition i64_abs (x : Z) : outcome io_error Z :=
  if decide (x = - 2 ^ 63) then (if overflow_checks then Panic else Ok x) else Ok (Z.abs x).

(** What a pong that is read when the clock shows [now] does. *)
Definition handle_pong (now : Z) (pong : Pong) (e : EstablishedControl) :
    outcome io_error EstablishedControl :=
  rtt64 ← u_sub overflow_checks 64 (Z.max now (pong_request_now pong)) (pong_request_now pong);
  let rtt := wrap 32 rtt64 in
  server_ts ← u_sub overflow_checks 64 (pong_server_now pong) (rtt / 2);
  let local_ts := pong_request_now pong in
  clock_offset ← i64_sub overflow_checks (as_i64 local_ts) (as_i64 server_ts);
  i64_abs clock_offset;;
  match pong_session_expire_at pong with
  | None =>
      Ok {| ec_conn := ec_conn e; ec_pong_at_auth := ec_pong_at_auth e;
            ec_session_setup_deadline := ec_session_setup_deadline e;
            ec_registered := ec_registered e;
            ec_current_ping := Some rtt; ec_clock_offset := clock_offset;
            ec_force_expired := ec_force_expired e;
            ec_pending_mtu_data := ec_pending_mtu_data e;
            ec_known_mtu_data := ec_known_mtu_data e |}
  | Some expires_at =>
      left ← u_sub overflow_checks 64 expires_at (pong_server_now pong);
      sum ← u_add overflow_checks 64 (pong_request_now pong) (Z.max left rtt);
      local_expires_at ← u_sub overflow_checks 64 sum rtt;
      Ok {| ec_conn := ec_conn e;
            ec_pong_at_auth := pong_with_expire (ec_pong_at_auth e) (Some expires_at);
            ec_session_setup_deadline := None;
            ec_registered := {| reg_id := reg_id (ec_registered e);
                                reg_expires_at := local_expires_at |};
            ec_current_ping := Some rtt; ec_clock_offset := clock_offset;
            ec_force_expired := ec_force_expired e;
            ec_pending_mtu_data := ec_pending_mtu_data e;
            ec_known_mtu_data := ec_known_mtu_data e |}
  end.

Definition on_pending_mtu (f : MtuData → MtuData) (e : EstablishedControl) : EstablishedControl :=
  ec_set_mtu (f (ec_pending_mtu_data e)) (ec_known_mtu_data e) e.

(** The effect of a response on the session. *)
Definition handle_response (content : ControlResponse) : M EstablishedControl () :=
  match content with
  | ResAgentRegistered registered => m_modify (ec_set_registered registered)
  | ResPong pong =>
      now ← m_now;
      e ← m_get;
      e' ← m_lift (handle_pong now pong e);
      m_put e'
  | ResCheckMtuReceivedAck ack => m_modify (on_pending_mtu (record_check_mtu_received_ack ack))
  | ResMtuTestPacket packet => m_modify (on_pending_mtu (record_mtu_test_packet packet))
  | ResMtuTestFail fail => m_modify (on_pending_mtu (record_mtu_test_fail fail))
  | _ => mret ()
  end.

(** [tokio::time::timeout(.., self.recv_feed_msg())]: [None] when it times
    out. *)
Definition recv_feed_msg : M EstablishedControl (option (result ControlError ControlFeed)) :=
  r ← m_zoom ec_conn ec_set_conn ConnectedControl_recv;
  match r with
  | Some (ROk feed) =>
      match feed with
      | FeedResponse res => handle_response (rpc_content res)
      | _ => mret ()
      end;;
      mret (Some (ROk feed))
  | other => mret other
  end.
End control.

(** ** Facts *)

(** *** The clock *)

Section clock.
Context (overflow_checks : bool).

Lemma i64_sub_fits a b :
  uint 63 a → uint 63 b → i64_sub (E := io_error) overflow_checks (as_i64 a) (as_i64 b) = Ok (a - b).
Proof.
  unfold uint. intros Ha Hb. unfold as_i64.
  rewrite !wrap_small by (unfold uint; lia). rewrite !decide_True by lia.
  unfold i64_sub. by rewrite decide_True by lia.
Qed.

Lemma i64_abs_fits a b :
  uint 63 a → uint 63 b → i64_abs overflow_checks (a - b) = Ok (Z.abs (a - b)).
Proof. unfold uint, i64_abs. intros Ha Hb. by rewrite decide_False by lia. Qed.

(** The times of a pong that arrives [rtt] milliseconds after the ping and
    that are far from the bounds of the integers. *)
Definition pong_sane (now : Z) (pong : Pong) : Prop :=
  0 ≤ pong_request_now pong ≤ now ∧ now - pong_request_now pong < 2 ^ 32 ∧
  uint 63 (pong_request_now pong) ∧ uint 63 (pong_server_now pong) ∧
  (now - pong_request_now pong) / 2 ≤ pong_server_now pong.

(** The measurements of such a pong. *)
Lemma handle_pong_measures now pong e :
  pong_sane now pong →
  handle_pong overflow_checks now pong e =
  let rtt := now - pong_request_now pong in
  let clock_offset := pong_request_now pong - (pong_server_now pong - rtt / 2) in
  match pong_session_expire_at pong with
  | None =>
      Ok {| ec_conn := ec_conn e; ec_pong_at_auth := ec_pong_at_auth e;
            ec_session_setup_deadline := ec_session_setup_deadline e;
            ec_registered := ec_registered e;
            ec_current_ping := Some rtt; ec_clock_offset := clock_offset;
            ec_force_expired := ec_force_expired e;
            ec_pending_mtu_data := ec_pending_mtu_data e;
            ec_known_mtu_data := ec_known_mtu_data e |}
  | Some expires_at =>
      left ← u_sub overflow_checks 64 expires_at (pong_server_now pong);
      sum ← u_add overflow_checks 64 (pong_request_now pong) (Z.max left rtt);
      local_expires_at ← u_sub overflow_checks 64 sum rtt;
      Ok {| ec_conn := ec_conn e;
            ec_pong_at_auth := pong_with_expire (ec_pong_at_auth e) (Some expires_at);
            ec_session_setup_deadline := None;
            ec_registered := {| reg_id := reg_id (ec_registered e);
                                reg_expires_at := local_expires_at |};
            ec_current_ping := Some rtt; ec_clock_offset := clock_offset;
            ec_force_expired := ec_force_expired e;
            ec_pending_mtu_data := ec_pending_mtu_data e;
            ec_known_mtu_data := ec_known_mtu_data e |}
  end.
Proof.
  intros (Hnow & Hrtt & Hreq & Hsrv & Hhalf). unfold handle_pong.
  rewrite Z.max_l, u_sub_fits by lia. cbn [mbind outcome_bind].
  rewrite wrap_small by (unfold uint; lia). rewrite u_sub_fits by done. cbn [mbind outcome_bind].
  assert (uint 63 (pong_server_now pong - (now - pong_request_now pong) / 2)) as Hts.
  { unfold uint in *. assert (0 ≤ (now - pong_request_now pong) / 2) by (apply Z.div_pos; lia). lia. }
  rewrite i64_sub_fits by done. cbn [mbind outcome_bind]. by rewrite i64_abs_fits.
Qed.
End clock.

(** C37: The clock of a session. A pong that carries an expiry time not before
    the server's own time ([pong_of_expired_session] shows the other case), read
    within 49 days of its ping, with a server time of at least half the round
    trip, is handled without overflow in every build: the round trip is the time
    since the ping; whenever between ping and pong the server stamped it, and
    however far its clock is off by [delta], the estimated clock offset errs by
    at most half the round trip (rounded up); and the expiry time, converted to
    the local clock, is never late: it is between one and two round trips early,
    or it is the time of the ping when less than a round trip remains. The
    session counts as set up from then on. *)
Theorem pong_clock (overflow_checks : bool) (now stamped delta expires_at : Z) (pong : Pong)
    (e : EstablishedControl) :
  pong_sane now pong → pong_request_now pong ≤ stamped ≤ now →
  pong_server_now pong = stamped + delta → pong_session_expire_at pong = Some expires_at →
  pong_server_now pong ≤ expires_at → uint 63 expires_at →
  let rtt := now - pong_request_now pong in
  ∃ e', handle_pong overflow_checks now pong e = Ok e' ∧
    ec_current_ping e' = Some rtt ∧
    Z.abs (ec_clock_offset e' - - delta) ≤ (rtt + 1) / 2 ∧
    (rtt ≤ expires_at - pong_server_now pong →
      rtt ≤ (expires_at - delta) - get_expire_at e' ≤ 2 * rtt) ∧
    (expires_at - pong_server_now pong < rtt → get_expire_at e' = pong_request_now pong) ∧
    reg_id (ec_registered e') = reg_id (ec_registered e) ∧
    ∀ t, is_expired t e' ≠ Some SessionNotSetup.
Proof.
  intros Hsane Hst Hsrv Hexp Hle Hu rtt. pose proof Hsane as (Hnow & Hrtt & Hreq & Hs63 & Hhalf).
  rewrite handle_pong_measures by done. rewrite Hexp. cbn zeta. fold rtt.
  rewrite u_sub_fits by done. cbn [mbind outcome_bind].
  rewrite u_add_fits by (unfold uint in *; lia). cbn [mbind outcome_bind].
  rewrite u_sub_fits by lia. cbn [mbind outcome_bind].
  eexists. split; [done|]. cbn. unfold get_expire_at. cbn.
  assert (0 ≤ rtt) by lia.
  split_and!; [done | | lia | lia | done |].
  - pose proof (Z.div_mod rtt 2) as Hd. pose proof (Z.mod_pos_bound rtt 2).
    pose proof (Z.div_mod (rtt + 1) 2) as Hd1. pose proof (Z.mod_pos_bound (rtt + 1) 2). lia.
  - intros t. unfold is_expired. cbn. destruct (ec_force_expired e); [done|].
    destruct (flow_changed _); done.
Qed.

(** Sessions that are over. A pong whose session expired before the
    server sent it makes the subtraction underflow: a build with overflow
    checks panics; the release build wraps twice and still ends with an expiry
    time in the past, earlier than the ping by the time since the expiry and
    the round trip. *)
Theorem pong_of_expired_session (now expires_at : Z) (pong : Pong) (e : EstablishedControl) :
  pong_sane now pong → pong_session_expire_at pong = Some expires_at →
  0 ≤ expires_at < pong_server_now pong →
  let rtt := now - pong_request_now pong in
  rtt + (pong_server_now pong - expires_at) ≤ pong_request_now pong →
  handle_pong true now pong e = Panic ∧
  ∃ e', handle_pong false now pong e = Ok e' ∧
    get_expire_at e' = pong_request_now pong - (pong_server_now pong - expires_at) - rtt.
Proof.
  intros Hsane Hexp Hover rtt Hpast. pose proof Hsane as (Hnow & Hrtt & Hreq & Hs63 & Hhalf).
  rewrite !handle_pong_measures by done. rewrite Hexp. cbn zeta. fold rtt.
  unfold uint in *. split.
  - by rewrite u_sub_panics by lia.
  - assert (wrap 64 (expires_at - pong_server_now pong) =
            2 ^ 64 + (expires_at - pong_server_now pong)) as Hw.
    { unfold wrap. symmetry. apply (Z.mod_unique _ _ (-1)); lia. }
    rewrite u_sub_wraps, Hw by lia. cbn [mbind outcome_bind].
    rewrite Z.max_l, u_add_wraps by lia. cbn [mbind outcome_bind].
    assert (wrap 64 (pong_request_now pong + (2 ^ 64 + (expires_at - pong_server_now pong))) =
            pong_request_now pong + (expires_at - pong_server_now pong)) as Hw2.
    { unfold wrap. symmetry. apply (Z.mod_unique _ _ 1); lia. }
    rewrite Hw2, u_sub_fits by lia. cbn [mbind outcome_bind].
    eexists. split; [done|]. unfold get_expire_at. cbn. lia.
Qed.

(** *** MTU probes *)

Definition acks (rs : list ControlResponse) : list CheckMtuReceivedAck :=
  omap (λ r, match r with ResCheckMtuReceivedAck a => Some a | _ => None end) rs.

Definition payloads (dc : Z) (rs : list ControlResponse) : list Z :=
  omap (λ r, match r with
             | ResMtuTestPacket p =>
                 if decide (mtp_data_center_id p = dc) then Some (mtp_udp_payload_length p) else None
             | _ => None
             end) rs.

Definition fails (rs : list ControlResponse) : list MtuTestFail :=
  omap (λ r, match r with ResMtuTestFail f => Some f | _ => None end) rs.

(** The responses [rs] handled one after the other. *)
Inductive handles (overflow_checks : bool) :
    EstablishedControl → list ControlResponse → EstablishedControl → Prop :=
  | handles_nil e : handles overflow_checks e [] e
  | handles_snoc e rs e1 r e2 w w' :
      handles overflow_checks e rs e1 →
      handle_response overflow_checks r e1 w = (MDone (), e2, w') →
      handles overflow_checks e (rs ++ [r]) e2.

(** The best acknowledgement: the last of the longest messages. *)
Definition best_ack (o : option CheckMtuReceivedAck) (l : list CheckMtuReceivedAck) : Prop :=
  match o with
  | None => l = []
  | Some a =>
      ∃ l1 l2, l = l1 ++ a :: l2 ∧
        Forall (λ b, ack_message_length b ≤ ack_message_length a) l1 ∧
        Forall (λ b, ack_message_length b < ack_message_length a) l2
  end.

(** The largest number of a list. *)
Definition is_largest (o : option Z) (l : list Z) : Prop :=
  match o with
  | None => l = []
  | Some n => n ∈ l ∧ Forall (λ m, m ≤ n) l
  end.

Definition mtu_record (m : MtuData) (rs : list ControlResponse) : Prop :=
  best_ack (mtu_largest_received_packet m) (acks rs) ∧
  (∀ dc, is_largest (mtu_largest_payload_by_datacenter m !! dc) (payloads dc rs)) ∧
  mtu_latest_test_fail m = last (fails rs).

(** The part of [handle_response] that concerns the record. *)
Definition mtu_step (r : ControlResponse) (m : MtuData) : MtuData :=
  match r with
  | ResCheckMtuReceivedAck ack => record_check_mtu_received_ack ack m
  | ResMtuTestPacket packet => record_mtu_test_packet packet m
  | ResMtuTestFail fail => record_mtu_test_fail fail m
  | _ => m
  end.

Lemma handle_pong_mtu oc now pong e e' :
  handle_pong oc now pong e = Ok e' →
  ec_pending_mtu_data e' = ec_pending_mtu_data e ∧ ec_known_mtu_data e' = ec_known_mtu_data e.
Proof.
  unfold handle_pong. intros H. simplify_outcome.
  destruct (pong_session_expire_at pong); simplify_outcome; done.
Qed.

Lemma handle_response_mtu oc r e w e' w' :
  handle_response oc r e w = (MDone (), e', w') →
  ec_pending_mtu_data e' = mtu_step r (ec_pending_mtu_data e) ∧
  ec_known_mtu_data e' = ec_known_mtu_data e.
Proof.
  intros H. destruct r; cbn in H; m_inv; try done.
  unfold m_lift in *.
  match goal with H : context [handle_pong ?oc ?t ?p ?s] |- _ =>
    destruct (handle_pong oc t p s) eqn:Hp; simplify_eq end.
  unfold m_now in *. simplify_eq. by apply handle_pong_mtu in Hp.
Qed.

Lemma best_ack_step ack m l :
  best_ack (mtu_largest_received_packet m) l →
  best_ack (mtu_largest_received_packet (record_check_mtu_received_ack ack m)) (l ++ [ack]).
Proof.
  unfold record_check_mtu_received_ack, best_ack.
  destruct (mtu_largest_received_packet m) as [a|] eqn:Hm.
  - intros (l1 & l2 & -> & H1 & H2). case_bool_decide as Hle; cbn.
    + exists (l1 ++ a :: l2), []. split_and!; [done | | done].
      apply Forall_app. split; [eapply Forall_impl; [done|]; cbn; lia|].
      apply Forall_cons. split; [done|]. eapply Forall_impl; [done|]. cbn. lia.
    + rewrite Hm. exists l1, (l2 ++ [ack]). rewrite <-app_assoc. split_and!; [done | done |].
      apply Forall_app. split; [done|]. apply Forall_singleton. lia.
  - intros ->. exists [], []. done.
Qed.

Lemma is_largest_step packet m (f : Z → list Z) dc :
  is_largest (mtu_largest_payload_by_datacenter m !! dc) (f dc) →
  is_largest (mtu_largest_payload_by_datacenter (record_mtu_test_packet packet m) !! dc)
    (f dc ++ (if decide (mtp_data_center_id packet = dc) then [mtp_udp_payload_length packet] else [])).
Proof.
  intros H. cbn. case_decide as Hdc.
  - subst dc. rewrite lookup_partial_alter.
    rewrite decide_True by done.
    destruct (mtu_largest_payload_by_datacenter m !! _) as [n|]; cbn in *.
    + destruct H as [Hin Hall]. split.
      * apply elem_of_app. destruct (Z.max_spec n (mtp_udp_payload_length packet)) as [[? ->]|[? ->]];
          [right; by apply list_elem_of_singleton | by left].
      * apply Forall_app. split; [eapply Forall_impl; [done|]; cbn; lia|].
        apply Forall_singleton. lia.
    + rewrite H. split; [by apply list_elem_of_singleton | by apply Forall_singleton].
  - rewrite lookup_partial_alter_ne by done. by rewrite app_nil_r.
Qed.

Lemma mtu_record_step r m rs : mtu_record m rs → mtu_record (mtu_step r m) (rs ++ [r]).
Proof.
  intros (Ha & Hp & Hf). unfold mtu_record, acks, payloads, fails in *.
  rewrite !omap_app. setoid_rewrite omap_app.
  destruct r; cbn; rewrite ?app_nil_r; try (split_and!; [done | intros dc; rewrite app_nil_r; done | done]).
  - split_and!; [|intros dc; rewrite app_nil_r; unfold record_check_mtu_received_ack|].
    + by apply best_ack_step.
    + repeat case_match; cbn; apply Hp.
    + unfold record_check_mtu_received_ack. repeat case_match; cbn; apply Hf.
  - split_and!; [done | | done]. intros dc. specialize (Hp dc).
    pose proof (is_largest_step data m (λ dc, payloads dc rs) dc Hp) as H.
    unfold payloads in H. by case_decide.
  - split_and!; [done | intros dc; rewrite app_nil_r; apply Hp |]. by rewrite last_snoc.
Qed.

(** The record of MTU probes. From a cleared record, after any sequence
    of responses, the record holds the last of the longest messages the server
    acknowledged, for every data center the largest payload that arrived and
    nothing for the others, and the last failure; committing makes it the known
    data, which no response changes. *)
Theorem mtu_probes (overflow_checks : bool) (e e' : EstablishedControl) (rs : list ControlResponse) :
  handles overflow_checks (clear_pending_mtu_data e) rs e' →
  mtu_record (ec_pending_mtu_data e') rs ∧
  ec_known_mtu_data e' = ec_known_mtu_data e ∧
  mtu_record (ec_known_mtu_data (commit_pending_mtu_data e')) rs.
Proof.
  intros H. cut (mtu_record (ec_pending_mtu_data e') rs ∧ ec_known_mtu_data e' = ec_known_mtu_data e).
  { intros [? ?]. by split_and!. }
  remember (clear_pending_mtu_data e) as e0 eqn:He.
  induction H as [e0 | e0 rs e1 r e2 w w' Hh IH Hr].
  - subst e0. by split_and!.
  - destruct (IH He) as [Hrec Hk]. apply handle_response_mtu in Hr as [-> ->].
    split; [by apply mtu_record_step | done].
Qed.

(** *** Expiry *)

Lemma flow_changed_fresh e pong :
  cc_pong_latest (ec_conn e) = pong →
  pong_client_addr (ec_pong_at_auth e) = pong_client_addr pong →
  pong_tunnel_addr (ec_pong_at_auth e) = pong_tunnel_addr pong → flow_changed e = false.
Proof. intros Hl Hc Ht. unfold flow_changed. rewrite Hl, Hc, Ht. by rewrite !bool_decide_eq_false_2 by tauto. Qed.

(** When a session is not expired. *)
Lemma is_expired_None now e :
  is_expired now e = None ↔
  ec_force_expired e = false ∧ flow_changed e = false ∧
  (pong_session_expire_at (ec_pong_at_auth e) = None →
   ∃ d, ec_session_setup_deadline e = Some d ∧ now < d).
Proof.
  unfold is_expired. destruct (ec_force_expired e); [naive_solver|].
  case_bool_decide as Hn; cbn.
  - destruct (ec_session_setup_deadline e) as [d|]; [case_bool_decide|]; destruct (flow_changed e);
      split; try done; try naive_solver lia.
  - destruct (flow_changed e); split; naive_solver.
Qed.

Section expiry.
Context {BO : ByteOrder} {ML : EncodingLib}.
Context {BOL : ByteOrderLaws BO} {MLL : EncodingLaws ML}.
Context (hex_decode : string → option (list byte)).

Lemma zoom_conn_inv {A} (m : M ConnectedControl A) e w r e' w' :
  m_zoom ec_conn ec_set_conn m e w = (r, e', w') →
  ∃ c', m (ec_conn e) w = (r, c', w') ∧ e' = ec_set_conn e c'.
Proof. unfold m_zoom. destruct (m (ec_conn e) w) as [[a c'] w1]. intros. simplify_eq. by eauto. Qed.

Lemma EstablishedControl_authenticate_ok :
  m_ok (EstablishedControl_authenticate hex_decode) 83 (λ _, True).
Proof.
  eapply (m_ok_bind _ _ 82 1); [apply m_ok_zoom, authenticate_ok|].
  intros [reg|err] _; [|by apply m_ok_ret].
  eapply (m_ok_bind _ _ 0 1 (λ _, True)); [by apply m_ok_get|]. intros e _.
  eapply (m_ok_bind _ _ 1 0 (λ _, True)); [|intros; by apply m_ok_ret].
  destruct (option_or _ _); [eapply m_ok_weaken; [apply m_ok_modify | lia | done]|].
  eapply (m_ok_bind _ _ 1 0); [apply m_ok_now|]. intros now _. apply m_ok_modify.
Qed.

(** A successful registration: what the session becomes. *)
Lemma EstablishedControl_authenticate_inv e w e' w' :
  EstablishedControl_authenticate hex_decode e w = (MDone (ROk ()), e', w') →
  ∃ c' w1 reg now,
    ConnectedControl_authenticate hex_decode (ec_conn e) w = (MDone (ROk reg), c', w1) ∧
    e' = reauthenticated now reg (ec_set_conn e c') ∧
    (pong_session_expire_at (ec_pong_at_auth e') = None → ∃ n, now = wd_clock (wd w1) n).
Proof.
  intros H. unfold EstablishedControl_authenticate in H. m_inv.
  apply zoom_conn_inv in Hm as (c' & Hc & ->). destruct a as [reg|]; m_inv.
  eexists c', _, reg. destruct (option_or _ _) eqn:Hor; m_inv.
  - exists 0. split_and!; [done | done |]. cbn in *. by rewrite Hor.
  - unfold m_now in Hm. simplify_eq. eexists. split_and!; [done | done | by eauto].
Qed.

Lemma reauthenticated_fresh now t registered e :
  is_expired t (reauthenticated now registered e) = None ↔
  (pong_session_expire_at (ec_pong_at_auth (reauthenticated now registered e)) = None →
   t < saturating_add 64 now SESSION_SETUP_GRACE_MS).
Proof.
  rewrite is_expired_None. rewrite (flow_changed_fresh _ (cc_pong_latest (ec_conn e))) by done.
  cbn. destruct (option_or _ _); [naive_solver|]. split; [naive_solver|]. eauto 10.
Qed.

Lemma authenticated_session e w e' w' t :
  clock_ok (wd w) → EstablishedControl_authenticate hex_decode e w = (MDone (ROk ()), e', w') →
  (∃ id, answered (wd w) 1024 (cc_control_addr (ec_conn e))
     {| rpc_request_id := id; rpc_content := ResAgentRegistered (ec_registered e') |}) ∧
  (is_expired t e' = None ↔
    (pong_session_expire_at (ec_pong_at_auth e') = None →
     ∃ n, t < saturating_add 64 (wd_clock (wd w) n) 5000 ∧
          ec_session_setup_deadline e' = Some (saturating_add 64 (wd_clock (wd w) n) 5000))).
Proof.
  intros Hc H. apply EstablishedControl_authenticate_inv in H
    as (c' & w1 & reg & now & Hauth & -> & Hnow).
  apply (m_ok_wd _ _ _ _ _ _ _ _ (authenticate_ok hex_decode) Hc) in Hauth as Hw1.
  destruct Hw1 as [Hw1 _]. rewrite Hw1 in Hnow. split.
  - apply authenticate_sound in Hauth as (i & j & key & bytes & _ & _ & _ & Hans); [|done].
    by eexists.
  - rewrite reauthenticated_fresh. split.
    + intros Hlt Hn. destruct (Hnow Hn) as [n ->]. exists n. split; [by apply Hlt|].
      cbn in Hn |- *. by rewrite Hn.
    + intros Hlt Hn. destruct (Hlt Hn) as (n & Hlt' & Hd). cbn in Hn, Hd. rewrite Hn in Hd.
      unfold SESSION_SETUP_GRACE_MS in *. congruence.
Qed.

Lemma failed_session e w err e' w' :
  EstablishedControl_authenticate hex_decode e w = (MDone (RErr err), e', w') →
  ∃ pong, e' = ec_set_conn e (set_pong (ec_conn e) pong).
Proof.
  intros H. unfold EstablishedControl_authenticate in H. m_inv.
  apply zoom_conn_inv in Hm as (c' & Hc & ->). destruct a as [reg|]; m_inv.
  apply (m_rel_MDone _ _ _ _ _ _ _ (authenticate_rel hex_decode)) in Hc as [Ha _].
  exists (cc_pong_latest c'). f_equal. destruct c'. cbn in *. by subst.
Qed.

(** The expiry of a session. Registering again succeeds only with a
    session the control address answered with; the session is then expired at
    [t] only when no pong ever carried an expiry time and the five seconds of
    grace, counted from a time the clock showed, are over. A failed
    registration changes nothing but the newest pong. Moving the session to a
    new connection leaves the deadline of the old one in place: a session that
    was never set up and whose grace is over is expired at once, where a new
    session on the same connection is not. *)
Theorem session_expiry (e : EstablishedControl) (w : world) (c : ConnectedControl)
    (registered : AgentRegistered) (deadline t : Z) :
  clock_ok (wd w) →
  (let '(r, e', w') := EstablishedControl_authenticate hex_decode e w in
   r ≠ MPanic ∧
   (r = MDone (ROk ()) →
     (∃ id, answered (wd w) 1024 (cc_control_addr (ec_conn e))
        {| rpc_request_id := id; rpc_content := ResAgentRegistered (ec_registered e') |}) ∧
     (is_expired t e' = None ↔
       (pong_session_expire_at (ec_pong_at_auth e') = None →
        ∃ n, t < saturating_add 64 (wd_clock (wd w) n) 5000 ∧
             ec_session_setup_deadline e' = Some (saturating_add 64 (wd_clock (wd w) n) 5000)))) ∧
   (∀ err, r = MDone (RErr err) → ∃ pong, e' = ec_set_conn e (set_pong (ec_conn e) pong))) ∧
  (pong_session_expire_at (ec_pong_at_auth e) = None →
   pong_session_expire_at (cc_pong_latest c) = None →
   ec_session_setup_deadline e = Some deadline → deadline ≤ t → uint 63 t →
   is_expired t (reset_established c registered e) = Some SessionNotSetup ∧
   is_expired t (into_established t c registered) = None).
Proof.
  intros Hc. split.
  - pose proof (EstablishedControl_authenticate_ok e w Hc) as Hok.
    destruct (EstablishedControl_authenticate hex_decode e w) as [[r e'] w'] eqn:Hrun.
    destruct Hok as (Hr & _). split_and!; [by destruct r | |].
    + intros ->. by eapply authenticated_session.
    + intros err ->. by eapply failed_session.
  - intros Hp Hcp Hd Hle Ht. split.
    + unfold is_expired, reset_established. cbn. rewrite Hp, Hcp, Hd. cbn.
      by rewrite !bool_decide_eq_true_2.
    + apply is_expired_None. cbn. rewrite Hcp. split_and!; [done | |].
      * by apply (flow_changed_fresh _ (cc_pong_latest c)).
      * intros _. eexists. split; [done|]. unfold saturating_add, uint in *. lia.
Qed.
End expiry.

(** *** Safety *)

(** What the requests need of a session to be written. *)
Definition session_wf (e : EstablishedControl) : Prop :=
  AgentSessionId_wf (reg_id (ec_registered e)) ∧ option_P (uint 32) (ec_current_ping e).

(** A registration that was read can be written. *)
Definition response_wf (r : ControlResponse) : Prop :=
  match r with ResAgentRegistered reg => AgentSessionId_wf (reg_id reg) | _ => True end.

Section safety.
Context {BO : ByteOrder} {ML : EncodingLib}.
Context {BOL : ByteOrderLaws BO} {MLL : EncodingLaws ML}.
Context (hex_decode : string → option (list byte)).

Lemma AgentRegistered_read_wf bs reg rest :
  AgentRegistered_read_from bs = Ok (reg, rest) → AgentSessionId_wf (reg_id reg).
Proof.
  unfold AgentRegistered_read_from, AgentSessionId_read_from. intros H. r_inv. cbn.
  split_and!; by eapply (bo_read_uint 8).
Qed.

Lemma ControlFeed_read_wf bs msg rest :
  ControlFeed_read_from bs = Ok (FeedResponse msg, rest) → response_wf (rpc_content msg).
Proof.
  unfold ControlFeed_read_from. intros H. r_inv.
  repeat (case_match; r_inv; try done).
  all: unfold ControlRpcMessage_read_from in *; r_inv; cbn in *;
    unfold ControlResponse_read_from in *; r_inv;
    repeat (case_match; r_inv; try done); by eapply AgentRegistered_read_wf.
Qed.

Lemma m_safe_conn {A} (m : M ConnectedControl A) k Q :
  m_ok m k Q → m_safe session_wf (m_zoom ec_conn ec_set_conn m) k Q.
Proof.
  intros Hm. apply (m_safe_zoom _ _ _ (λ _, True)); [done | done |]. by apply m_safe_of_ok.
Qed.

Lemma EstablishedControl_send_safe (req : ControlRpcMessage ControlRequest) :
  ControlRpcMessage_wf ControlRequest_wf req →
  m_safe session_wf (EstablishedControl_send req) 1 (λ _, True).
Proof.
  intros Hreq. rewrite <-(Nat.add_0_r 1). eapply m_safe_bind.
  - by apply m_safe_conn, (send_ok _ _ (encode_request _ Hreq)).
  - intros r _. by apply m_safe_ret.
Qed.

Lemma send_with_session_safe (f : EstablishedControl → ControlRpcMessage ControlRequest) :
  (∀ e, session_wf e → ControlRpcMessage_wf ControlRequest_wf (f e)) →
  m_safe session_wf (e ← m_get; EstablishedControl_send (f e)) 1 (λ _, True).
Proof.
  intros Hf. apply (m_safe_bind _ _ _ 0 1 session_wf); [apply m_safe_get|].
  intros e He. by apply EstablishedControl_send_safe, Hf.
Qed.

Lemma send_keep_alive_safe : m_safe session_wf (send_keep_alive 100) 1 (λ _, True).
Proof. apply send_with_session_safe. intros e [He _]. split; [by vm_compute | exact He]. Qed.

Lemma send_setup_udp_channel_safe : m_safe session_wf (send_setup_udp_channel 1) 1 (λ _, True).
Proof. apply send_with_session_safe. intros e [He _]. split; [by vm_compute | exact He]. Qed.

Lemma send_ping_safe now : uint 64 now → m_safe session_wf (send_ping 200 now) 1 (λ _, True).
Proof.
  intros Hnow. apply send_with_session_safe. intros e [He Hp]. split; [by vm_compute|].
  by split_and!.
Qed.

Lemma authenticate_wf :
  m_ok (ConnectedControl_authenticate hex_decode) 82
    (λ r, match r with ROk reg => AgentSessionId_wf (reg_id reg) | _ => True end).
Proof.
  eapply m_ok_strengthen; [apply authenticate_ok|]. intros c w [reg|] c' w' Hc Hrun; [|done].
  apply authenticate_sound in Hrun as (? & ? & ? & ? & _ & _ & _ & (? & ? & ? & _ & Hr)); [|done].
  by apply ControlFeed_read_wf in Hr.
Qed.

Lemma EstablishedControl_authenticate_safe :
  m_safe session_wf (EstablishedControl_authenticate hex_decode) 83 (λ _, True).
Proof.
  eapply (m_safe_bind _ _ _ 82 1); [apply m_safe_conn, authenticate_wf|].
  intros [reg|err] Hreg; [|by apply m_safe_ret].
  eapply (m_safe_bind _ _ _ 0 1); [apply m_safe_get|]. intros e He.
  eapply (m_safe_bind _ _ _ 1 0 (λ _, True)); [|intros; by apply m_safe_ret].
  assert (∀ now s, session_wf s → session_wf (reauthenticated now reg s)) as Hk
    by (intros now s [_ ?]; by split).
  destruct (option_or _ _); [apply m_safe_modify, Hk|].
  eapply (m_safe_bind _ _ _ 1 0); [apply m_safe_now|]. intros now _. apply m_safe_modify, Hk.
Qed.

(** In the release build no pong panics. *)
Lemma handle_pong_release now pong e :
  session_wf e → ∃ e', handle_pong false now pong e = Ok e' ∧ session_wf e'.
Proof.
  intros [Hid _]. unfold handle_pong.
  assert (∀ a b, ∃ c, u_sub (E := io_error) false 64 a b = Ok c) as Hs
    by (intros; unfold u_sub; case_decide; by eexists).
  assert (∀ a b, ∃ c, u_add (E := io_error) false 64 a b = Ok c) as Ha
    by (intros; unfold u_add; case_decide; by eexists).
  assert (∀ a b, ∃ c, i64_sub (E := io_error) false a b = Ok c) as Hi
    by (intros; unfold i64_sub; case_decide; by eexists).
  assert (∀ a, ∃ c, i64_abs false a = Ok c) as Hb
    by (intros; unfold i64_abs; case_decide; by eexists).
  repeat match goal with
  | |- context [u_sub false 64 ?a ?b] => destruct (Hs a b) as [? ->]; cbn [mbind outcome_bind]
  | |- context [i64_sub false ?a ?b] => destruct (Hi a b) as [? ->]; cbn [mbind outcome_bind]
  | |- context [i64_abs false ?a] => destruct (Hb a) as [? ->]; cbn [mbind outcome_bind]
  | |- context [u_add false 64 ?a ?b] => destruct (Ha a b) as [? ->]; cbn [mbind outcome_bind]
  end.
  destruct (pong_session_expire_at pong) as [t|];
  repeat match goal with
  | |- context [u_sub false 64 ?a ?b] => destruct (Hs a b) as [? ->]; cbn [mbind outcome_bind]
  | |- context [u_add false 64 ?a ?b] => destruct (Ha a b) as [? ->]; cbn [mbind outcome_bind]
  end; (eexists; split; [done|]; split; [done|]; by apply wrap_uint).
Qed.

Lemma handle_response_safe r :
  response_wf r → m_safe session_wf (handle_response false r) 1 (λ _, True).
Proof.
  intros Hr. destruct r; cbn; try (by apply m_safe_ret).
  - eapply (m_safe_bind _ _ _ 1 0); [apply m_safe_now|]. intros now _.
    eapply (m_safe_bind _ _ _ 0 0); [apply m_safe_get|]. intros e He.
    destruct (handle_pong_release now data e He) as (e' & Hp & Hwf).
    eapply (m_safe_bind _ _ _ 0 0); [by eapply m_safe_lift with (Q := eq e')|].
    intros e'' <-. by apply m_safe_put.
  - apply m_safe_modify. intros e [_ Hp]. by split.
Qed.

Lemma recv_feed_msg_safe : m_safe session_wf (recv_feed_msg false) 2 (λ _, True).
Proof.
  eapply (m_safe_bind _ _ _ 1 1).
  - apply m_safe_conn.
    apply (m_ok_strengthen _ _ _ (λ r, match r with
      | Some (ROk (FeedResponse msg)) => response_wf (rpc_content msg) | _ => True end) recv_ok).
    intros c w [[[msg| |]|]|] c' w' _ Hrun; try done.
    apply recv_inv in Hrun as (_ & _ & _ & _ & k & data & rest & _ & Hread).
    by eapply ControlFeed_read_wf.
  - intros [[feed|]|] Hf; try (by apply m_safe_ret).
    eapply (m_safe_bind _ _ _ 1 0 (λ _, True)); [|intros; by apply m_safe_ret].
    destruct feed; [by apply handle_response_safe | by apply m_safe_ret..].
Qed.
End safety.

(** ** Witnesses *)

#[local] Existing Instance big_endian.
#[local] Existing Instance big_endian_laws.
#[local] Existing Instance reference_encoding.
#[local] Existing Instance reference_encoding_laws.

Definition sample_conn : ConnectedControl := ConnectedControl_new sample_v4 sample_pong.

Definition sample_established : EstablishedControl :=
  into_established 1000 sample_conn sample_registered.

(** A pong for a ping sent at 100000, stamped by a clock 50 seconds ahead. *)
Definition sample_session_pong (expires_at : Z) : Pong :=
  {| pong_request_now := 100000; pong_server_now := 150020; pong_server_id := 1;
     pong_data_center_id := 2; pong_client_addr := sample_v4; pong_tunnel_addr := sample_v6;
     pong_session_expire_at := Some expires_at |}.

Lemma pong_clock_witness :
  ∃ e', handle_pong true 100050 (sample_session_pong 210020) sample_established = Ok e' ∧
    ec_current_ping e' = Some 50 ∧ Z.abs (ec_clock_offset e' - - 50000) ≤ 25 ∧
    50 ≤ (210020 - 50000) - get_expire_at e' ≤ 100.
Proof.
  destruct (pong_clock true 100050 100020 50000 210020 (sample_session_pong 210020) sample_established)
    as (e' & H1 & H2 & H3 & H4 & _).
  - repeat split; vm_compute; discriminate.
  - cbn. lia.
  - reflexivity.
  - reflexivity.
  - cbn. lia.
  - decide_now.
  - exists e'. split_and!; [exact H1 | exact H2 | exact H3 | apply H4; cbn; lia | apply H4; cbn; lia].
Defined.

Lemma pong_of_expired_session_witness :
  handle_pong true 100050 (sample_session_pong 149020) sample_established = Panic ∧
  ∃ e', handle_pong false 100050 (sample_session_pong 149020) sample_established = Ok e' ∧
    get_expire_at e' = 98950.
Proof.
  destruct (pong_of_expired_session 100050 149020 (sample_session_pong 149020) sample_established)
    as (H1 & e' & H2 & H3).
  - repeat split; vm_compute; discriminate.
  - reflexivity.
  - cbn. lia.
  - cbn. lia.
  - split; [exact H1|]. exists e'. split; [exact H2 | exact H3].
Defined.

Definition sample_ack (id len : Z) : CheckMtuReceivedAck :=
  {| ack_id := id; ack_message_length := len; ack_ip_header_length := 20;
     ack_udp_payload_length := len - 28 |}.

Lemma mtu_probes_witness :
  ∃ e', handles true (clear_pending_mtu_data sample_established)
    [ResCheckMtuReceivedAck (sample_ack 1 1200); ResCheckMtuReceivedAck (sample_ack 2 1100)] e' ∧
  mtu_record (ec_pending_mtu_data e')
    [ResCheckMtuReceivedAck (sample_ack 1 1200); ResCheckMtuReceivedAck (sample_ack 2 1100)].
Proof.
  set (r1 := ResCheckMtuReceivedAck (sample_ack 1 1200)).
  set (r2 := ResCheckMtuReceivedAck (sample_ack 2 1100)).
  set (e1 := on_pending_mtu (record_check_mtu_received_ack (sample_ack 1 1200))
               (clear_pending_mtu_data sample_established)).
  set (e2 := on_pending_mtu (record_check_mtu_received_ack (sample_ack 2 1100)) e1).
  assert (handles true (clear_pending_mtu_data sample_established) [r1; r2] e2) as H.
  { set (w := sample_world (sample_answers 1 (ResPong sample_pong))).
    apply (handles_snoc true _ [r1] e1 r2 e2 w w); [|reflexivity].
    apply (handles_snoc true _ [] (clear_pending_mtu_data sample_established) r1 e1 w w);
      [constructor | reflexivity]. }
  exists e2. split; [exact H|]. apply (mtu_probes true sample_established e2 [r1; r2] H).
Defined.

Lemma session_expiry_witness :
  is_expired 7000 (reset_established sample_conn sample_registered sample_established) =
    Some SessionNotSetup ∧
  is_expired 7000 (into_established 7000 sample_conn sample_registered) = None.
Proof.
  apply (session_expiry (λ _, Some [Byte.x00]) sample_established
    (sample_world (sample_answers 1000 (ResAgentRegistered sample_registered)))
    sample_conn sample_registered 6000 7000).
  - intros n. decide_now.
  - reflexivity.
  - reflexivity.
  - reflexivity.
  - lia.
  - decide_now.
Defined.
