(* ===== verification/MaintainedControl.v ===== *)
(** * Keeping the control session alive
      (agent_core/src/agent_control/maintained_control.rs)

    Pings, keep-alives and re-registration, the connection state that is
    published, and the escalation from a new registration on the same socket
    to a reconnect on a new one. *)

From S2P Require Import Prelude Bytes Net Wire Proto ControlMessages ControlFormat.
From S2P Require Import ControlCodec ControlFeed ProtoTheorems ControlIo ControlConnect.
From S2P Require Import EstablishedControl.

(** ** The watch channel (tokio) *)

Class WatchLib : Type := {
  watch : Type → Type;
  watch_new {A} : A → watch A;
  watch_borrow {A} : watch A → A;
  watch_send {A} : watch A → A → watch A;
  watch_subscribe {A} : watch A → watch A;
  watch_receivers {A} : watch A → nat;
}.

(** [send] fails, and keeps the value, when there is no receiver. *)
Class WatchLaws (WL : WatchLib) : Prop := {
  watch_borrow_new {A} (a : A) : watch_borrow (watch_new a) = a;
  watch_borrow_send {A} (w : watch A) a :
    watch_borrow (watch_send w a) = if decide (watch_receivers w = 0%nat) then watch_borrow w else a;
  watch_receivers_send {A} (w : watch A) a : watch_receivers (watch_send w a) = watch_receivers w;
  watch_borrow_subscribe {A} (w : watch A) : watch_borrow (watch_subscribe w) = watch_borrow w;
  watch_receivers_subscribe {A} (w : watch A) :
    watch_receivers (watch_subscribe w) = S (watch_receivers w);
}.

Definition ref_watch : WatchLib := {|
  watch A := (A * nat)%type;
  watch_new A a := (a, 0%nat);
  watch_borrow A w := w.1;
  watch_send A w a := if decide (w.2 = 0%nat) then w else (a, w.2);
  watch_subscribe A w := (w.1, S w.2);
  watch_receivers A w := w.2;
|}.

Lemma ref_watch_laws : WatchLaws ref_watch.
Proof. split; try done; intros; cbn; by case_decide. Qed.

(** ** Data *)

Inductive ControlConnectionState : Type := Connected | Reconnecting.

#[global] Instance ControlConnectionState_eq_dec : EqDecision ControlConnectionState.
Proof. solve_decision. Defined.

Definition HARD_RECONNECT_FAILURE_THRESHOLD : Z := 3.

Inductive TunnelControlEvent : Type :=
  | EvNewClient (c : NewClient)
  | EvUdpChannelDetails (d : UdpChannelDetails).

Section maintained.
Context {BO : ByteOrder} {ML : EncodingLib} {WL : WatchLib}.

Record MaintainedControl : Type := {
  mc_control : EstablishedControl;
  mc_last_keep_alive : Z;
  mc_last_ping : Z;
  mc_last_pong : Z;
  mc_last_udp_auth : Z;
  mc_last_control_targets : list SocketAddr;
  mc_control_state : watch ControlConnectionState;
  mc_soft_reconnect_failures : Z;
  mc_hard_reconnect_requested : bool;
}.

(** ** Field updates *)

Definition mc_set_control (m : MaintainedControl) (e : EstablishedControl) : MaintainedControl :=
  {| mc_control := e; mc_last_keep_alive := mc_last_keep_alive m; mc_last_ping := mc_last_ping m;
     mc_last_pong := mc_last_pong m; mc_last_udp_auth := mc_last_udp_auth m;
     mc_last_control_targets := mc_last_control_targets m; mc_control_state := mc_control_state m;
     mc_soft_reconnect_failures := mc_soft_reconnect_failures m;
     mc_hard_reconnect_requested := mc_hard_reconnect_requested m |}.

Definition mc_set_times (keep_alive ping pong udp_auth : Z) (m : MaintainedControl) : MaintainedControl :=
  {| mc_control := mc_control m; mc_last_keep_alive := keep_alive; mc_last_ping := ping;
     mc_last_pong := pong; mc_last_udp_auth := udp_auth;
     mc_last_control_targets := mc_last_control_targets m; mc_control_state := mc_control_state m;
     mc_soft_reconnect_failures := mc_soft_reconnect_failures m;
     mc_hard_reconnect_requested := mc_hard_reconnect_requested m |}.

Definition mc_set_ping (t : Z) (m : MaintainedControl) : MaintainedControl :=
  mc_set_times (mc_last_keep_alive m) t (mc_last_pong m) (mc_last_udp_auth m) m.

Definition mc_set_pong (t : Z) (m : MaintainedControl) : MaintainedControl :=
  mc_set_times (mc_last_keep_alive m) (mc_last_ping m) t (mc_last_udp_auth m) m.

Definition mc_set_keep_alive (t : Z) (m : MaintainedControl) : MaintainedControl :=
  mc_set_times t (mc_last_ping m) (mc_last_pong m) (mc_last_udp_auth m) m.

Definition mc_set_udp_auth (t : Z) (m : MaintainedControl) : MaintainedControl :=
  mc_set_times (mc_last_keep_alive m) (mc_last_ping m) (mc_last_pong m) t m.

Definition mc_set_targets (l : list SocketAddr) (m : MaintainedControl) : MaintainedControl :=
  {| mc_control := mc_control m; mc_last_keep_alive := mc_last_keep_alive m;
     mc_last_ping := mc_last_ping m; mc_last_pong := mc_last_pong m;
     mc_last_udp_auth := mc_last_udp_auth m; mc_last_control_targets := l;
     mc_control_state := mc_control_state m;
     mc_soft_reconnect_failures := mc_soft_reconnect_failures m;
     mc_hard_reconnect_requested := mc_hard_reconnect_requested m |}.

Definition mc_set_failures (failures : Z) (hard : bool) (m : MaintainedControl) : MaintainedControl :=
  {| mc_control := mc_control m; mc_last_keep_alive := mc_last_keep_alive m;
     mc_last_ping := mc_last_ping m; mc_last_pong := mc_last_pong m;
     mc_last_udp_auth := mc_last_udp_auth m; mc_last_control_targets := mc_last_control_targets m;
     mc_control_state := mc_control_state m;
     mc_soft_reconnect_failures := failures; mc_hard_reconnect_requested := hard |}.

Definition mc_set_watch (w : watch ControlConnectionState) (m : MaintainedControl) : MaintainedControl :=
  {| mc_control := mc_control m; mc_last_keep_alive := mc_last_keep_alive m;
     mc_last_ping := mc_last_ping m; mc_last_pong := mc_last_pong m;
     mc_last_udp_auth := mc_last_udp_auth m; mc_last_control_targets := mc_last_control_targets m;
     mc_control_state := w; mc_soft_reconnect_failures := mc_soft_reconnect_failures m;
     mc_hard_reconnect_requested := mc_hard_reconnect_requested m |}.

(** ** State and failures *)

Definition subscribe_control_state (m : MaintainedControl) : MaintainedControl :=
  mc_set_watch (watch_subscribe (mc_control_state m)) m.

Definition set_control_state (state : ControlConnectionState) (m : MaintainedControl) :
    MaintainedControl :=
  if decide (watch_borrow (mc_control_state m) ≠ state)
  then mc_set_watch (watch_send (mc_control_state m) state) m
  else m.

(** The new count is also what the function returns. *)
Definition note_control_failure (m : MaintainedControl) : MaintainedControl :=
  let failures := saturating_add 32 (mc_soft_reconnect_failures m) 1 in
  mc_set_failures failures
    (if decide (HARD_RECONNECT_FAILURE_THRESHOLD ≤ failures) then true
     else mc_hard_reconnect_requested m) m.

Definition take_hard_reconnect_request (m : MaintainedControl) : bool * MaintainedControl :=
  (mc_hard_reconnect_requested m, mc_set_failures (mc_soft_reconnect_failures m) false m).

(** [self.control.set_expired()]. *)
Definition expire_control (m : MaintainedControl) : MaintainedControl :=
  mc_set_control m (set_expired (mc_control m)).

(** What follows a failed send. *)
Definition send_failed (m : MaintainedControl) : MaintainedControl :=
  expire_control (note_control_failure m).

(** The fields a new connection resets. *)
Definition reset_after_connect (now : Z) (m : MaintainedControl) : MaintainedControl :=
  set_control_state Connected (mc_set_failures 0 false (mc_set_times 0 0 now 0 m)).

(** ** Operations *)

(** A computation on a local value. *)
Definition m_local {T A} (t : T) (m : M T A) : M MaintainedControl (A * T) := λ s w,
  match m t w with
  | (MDone a, t', w') => (MDone (a, t'), s, w')
  | (MCut, _, w') => (MCut, s, w')
  | (MPanic, _, w') => (MPanic, s, w')
  end.

Definition m_control {A} (m : M EstablishedControl A) : M MaintainedControl A :=
  m_zoom mc_control mc_set_control m.

Context (hex_decode : string → option (list byte)) (overflow_checks : bool).

Definition MaintainedControl_new (now : Z) (control : EstablishedControl)
    (addresses : list SocketAddr) : MaintainedControl :=
  {| mc_control := control; mc_last_keep_alive := 0; mc_last_ping := 0; mc_last_pong := now;
     mc_last_udp_auth := 0; mc_last_control_targets := addresses;
     mc_control_state := watch_new Connected; mc_soft_reconnect_failures := 0;
     mc_hard_reconnect_requested := false |}.

(** [setup], which owns no state yet. *)
Definition setup : M () (result SetupError MaintainedControl) :=
  addresses ← m_ask wd_targets;
  match addresses with
  | RErr e => mret (RErr e)
  | ROk addresses =>
      setup ← m_try_timeout SetupTimeout (connect_to_first addresses);
      match setup with
      | RErr e => mret (RErr e)
      | ROk setup =>
          control ← (λ s w, match m_try_timeout SetupTimeout
                                    (auth_into_established hex_decode) setup w with
                            | (r, _, w') => (r, s, w')
                            end);
          match control with
          | RErr e => mret (RErr e)
          | ROk control =>
              now ← m_now;
              mret (ROk (MaintainedControl_new now control addresses))
          end
      end
  end.

Definition replace_connection (connected : ConnectedControl) (force : bool) :
    M MaintainedControl (result SetupError bool) :=
  m ← m_get;
  let old := cc_pong_latest (ec_conn (mc_control m)) in
  let new := cc_pong_latest connected in
  if negb force &&
     bool_decide (SocketAddr_ip (pong_client_addr old) = SocketAddr_ip (pong_client_addr new)) &&
     bool_decide (pong_tunnel_addr old = pong_tunnel_addr new)
  then mret (ROk false)
  else
    m_modify (set_control_state Reconnecting);;
    r ← m_local connected (m_try_timeout SetupTimeout (ConnectedControl_authenticate hex_decode));
    match r with
    | (RErr e, _) => mret (RErr e)
    | (ROk registered, connected) =>
        m_modify (λ m, mc_set_control m (reset_established connected registered (mc_control m)));;
        now ← m_now;
        m_modify (reset_after_connect now);;
        mret (ROk true)
    end.

Definition reload_control_addr (force : bool) : M MaintainedControl (result SetupError bool) :=
  m_modify (λ m, if force then set_control_state Reconnecting m else m);;
  addresses ← m_try_timeout SetupTimeout (m_ask wd_targets);
  match addresses with
  | RErr e => mret (RErr e)
  | ROk addresses =>
      m ← m_get;
      if negb force && bool_decide (mc_last_control_targets m = addresses) then mret (ROk false)
      else
        m_modify (set_control_state Reconnecting);;
        new_io ← m_try_timeout SetupTimeout
          (r ← m_ask wd_create_io; mret (match r with Some e => RErr e | None => ROk () end));
        match new_io with
        | RErr e => mret (RErr e)
        | ROk _ =>
            connected ← m_local () (m_try_timeout SetupTimeout (connect_to_first addresses));
            match connected.1 with
            | RErr e => mret (RErr e)
            | ROk connected =>
                updated ← m_try_timeout SetupTimeout (replace_connection connected force);
                match updated with
                | RErr e => mret (RErr e)
                | ROk updated =>
                    m_modify (mc_set_targets addresses);;
                    now ← m_now;
                    m_modify (reset_after_connect now);;
                    mret (ROk updated)
                end
            end
        end
  end.

Definition send_udp_session_auth (now_ms min_wait_ms : Z) : M MaintainedControl bool :=
  m ← m_get;
  next ← m_lift (u_add overflow_checks 64 (mc_last_udp_auth m) min_wait_ms);
  if decide (now_ms < next) then mret false
  else
    m_modify (mc_set_udp_auth now_ms);;
    r ← m_control (m_try_timeout ControlTimeout (send_setup_udp_channel 1));
    match r with
    | RErr _ => m_modify send_failed
    | ROk _ => mret ()
    end;;
    mret true.

(** [self.control.is_expired()], which reads the clock only when it needs to. *)
Definition m_is_expired : M MaintainedControl (option ExpiredReason) :=
  m ← m_get;
  let e := mc_control m in
  if ec_force_expired e then mret (Some Forced)
  else
    match pong_session_expire_at (ec_pong_at_auth e), ec_session_setup_deadline e with
    | None, Some _ => now ← m_now; mret (is_expired now e)
    | _, _ => mret (is_expired 0 e)
    end.

(** The receive loop of [update]: at most [n] messages, and ten timeouts. *)
Fixpoint feed_loop (n : nat) (timeouts : Z) : M MaintainedControl (option TunnelControlEvent) :=
  match n with
  | O => mret None
  | S n =>
      r ← m_control (recv_feed_msg overflow_checks);
      match r with
      | Some (ROk (FeedNewClient new_client)) => mret (Some (EvNewClient new_client))
      | Some (ROk (FeedNewClientOld new_client)) =>
          mret (Some (EvNewClient (NewClient_from_old new_client)))
      | Some (ROk (FeedResponse msg)) =>
          match rpc_content msg with
          | ResUdpChannelDetails details => mret (Some (EvUdpChannelDetails details))
          | ResUnauthorized =>
              m_modify (λ m, expire_control (set_control_state Reconnecting m));;
              feed_loop n timeouts
          | ResPong _ =>
              now ← m_now;
              m_modify (mc_set_pong now);;
              feed_loop n timeouts
          | _ => feed_loop n timeouts
          end
      | Some (RErr _) => feed_loop n timeouts
      | None =>
          let timeouts := timeouts + 1 in
          if decide (10 ≤ timeouts) then mret None else feed_loop n timeouts
      end
  end.

(** The first part of [update]: register again when the session is expired.
    [true] when [update] goes on. *)
Definition update_registration : M MaintainedControl bool :=
  reason ← m_is_expired;
  match reason with
  | None => mret true
  | Some _ =>
      m_modify (set_control_state Reconnecting);;
      r ← m_control (m_try_timeout SetupTimeout (EstablishedControl_authenticate hex_decode));
      match r with
      | RErr _ =>
          m_modify note_control_failure;;
          m_await;;
          mret false
      | ROk _ =>
          m_modify (mc_set_failures 0 false);;
          now ← m_now;
          m_modify (mc_set_pong now);;
          m_modify (set_control_state Connected);;
          mret true
      end
  end.

(** The second part: a ping every second. *)
Definition update_ping (now : Z) : M MaintainedControl () :=
  m ← m_get;
  since ← m_lift (u_sub overflow_checks 64 now (mc_last_ping m));
  if decide (1000 < since) then
    m_modify (mc_set_ping now);;
    r ← m_control (m_try_timeout ControlTimeout (send_ping 200 now));
    match r with
    | RErr _ => m_modify send_failed
    | ROk _ => mret ()
    end
  else mret ().

(** The third part: a keep-alive every minute, every ten seconds when the
    session is about to expire. *)
Definition update_keep_alive (now : Z) : M MaintainedControl () :=
  m ← m_get;
  let expire_at := get_expire_at (mc_control m) in
  time_till_expire ← m_lift (u_sub overflow_checks 64 (Z.max expire_at now) now);
  let interval := if decide (time_till_expire < 30000) then 10000 else 60000 in
  since ← m_lift (u_sub overflow_checks 64 now (mc_last_keep_alive m));
  if decide (interval < since) then
    m_modify (mc_set_keep_alive now);;
    r ← m_control (m_try_timeout ControlTimeout (send_keep_alive 100));
    match r with
    | RErr _ => m_modify send_failed
    | ROk _ => mret ()
    end
  else mret ().

(** The last part: a server that stopped answering. *)
Definition update_silence : M MaintainedControl () :=
  m ← m_get;
  if decide (mc_last_pong m ≠ 0) then
    now ← m_now;
    since ← m_lift (u_sub overflow_checks 64 now (mc_last_pong m));
    if decide (6000 < since) then
      m_modify (λ m, send_failed (set_control_state Reconnecting (mc_set_pong 0 m)))
    else mret ()
  else mret ().

Definition update : M MaintainedControl (option TunnelControlEvent) :=
  go ← update_registration;
  if (go : bool) then
    now ← m_now;
    update_ping now;;
    update_keep_alive now;;
    event ← feed_loop 30 0;
    match event with
    | Some event => mret (Some event)
    | None => update_silence;; mret None
    end
  else mret None.
End maintained.

(** ** Facts *)

Section facts.
Context {BO : ByteOrder} {ML : EncodingLib} {WL : WatchLib}.
Context {BOL : ByteOrderLaws BO} {MLL : EncodingLaws ML} {WLL : WatchLaws WL}.
Context (hex_decode : string → option (list byte)).
Implicit Types m : MaintainedControl.

Lemma set_control_state_fields state m :
  mc_control (set_control_state state m) = mc_control m ∧
  mc_last_keep_alive (set_control_state state m) = mc_last_keep_alive m ∧
  mc_last_ping (set_control_state state m) = mc_last_ping m ∧
  mc_last_pong (set_control_state state m) = mc_last_pong m ∧
  mc_last_udp_auth (set_control_state state m) = mc_last_udp_auth m ∧
  mc_last_control_targets (set_control_state state m) = mc_last_control_targets m ∧
  mc_soft_reconnect_failures (set_control_state state m) = mc_soft_reconnect_failures m ∧
  mc_hard_reconnect_requested (set_control_state state m) = mc_hard_reconnect_requested m ∧
  watch_receivers (mc_control_state (set_control_state state m)) =
    watch_receivers (mc_control_state m).
Proof.
  unfold set_control_state. case_decide; cbn; split_and!; try done. apply watch_receivers_send.
Qed.

(** The published state, when someone listens. *)
Lemma set_control_state_published state m :
  watch_receivers (mc_control_state m) ≠ 0%nat →
  watch_borrow (mc_control_state (set_control_state state m)) = state.
Proof.
  intros Hr. unfold set_control_state. case_decide as Hd; cbn.
  - by rewrite watch_borrow_send, decide_False.
  - destruct (decide (watch_borrow (mc_control_state m) = state)); naive_solver.
Qed.

(** *** Safety *)

(** The session of [m] can be written, and a hard reconnect is only requested
    after three failures. *)
Definition maintained_wf m : Prop :=
  session_wf (mc_control m) ∧
  (mc_hard_reconnect_requested m = true → 3 ≤ mc_soft_reconnect_failures m).

Lemma wf_set_control_state state m : maintained_wf m → maintained_wf (set_control_state state m).
Proof. intros [Hs Hh]. unfold set_control_state. by case_decide. Qed.

Lemma wf_note m :
  maintained_wf m → maintained_wf (note_control_failure m).
Proof.
  intros [Hs Hh]. split; [done|]. cbn. unfold HARD_RECONNECT_FAILURE_THRESHOLD.
  case_decide; [done|]. intros Hr. specialize (Hh Hr). unfold saturating_add in *. lia.
Qed.

Lemma wf_send_failed m : maintained_wf m → maintained_wf (send_failed m).
Proof. intros Hm. by apply wf_note in Hm. Qed.

Lemma m_safe_control {A} (c : M EstablishedControl A) k Q :
  m_safe session_wf c k Q → m_safe maintained_wf (m_control c) k Q.
Proof. intros Hc. eapply m_safe_zoom; [..|exact Hc]; [by intros m [? _] | by intros m e [_ ?]]. Qed.

Lemma u_sub_release a b : ∃ c, u_sub (E := io_error) false 64 a b = Ok c.
Proof. unfold u_sub. case_decide; by eexists. Qed.

Lemma m_safe_u_sub {S} (I : S → Prop) a b k :
  m_safe I (m_lift (u_sub false 64 a b)) k (λ _, True).
Proof. destruct (u_sub_release a b) as [c Hc]. by eapply m_safe_lift. Qed.

(** A send under a deadline of its own, and what its failure does. *)
Lemma m_safe_send_or_fail (c : M EstablishedControl (result ControlError ())) :
  m_safe session_wf c 1 (λ _, True) →
  m_safe maintained_wf
    (r ← m_control (m_try_timeout ControlTimeout c);
     match r with RErr _ => m_modify send_failed | ROk _ => mret () end) 2 (λ _, True).
Proof.
  intros Hc. eapply (m_safe_bind _ _ _ 2 0).
  - apply m_safe_control. by apply (m_safe_try_timeout _ _ _ 1).
  - intros [_|e] _; [by apply m_safe_ret | apply m_safe_modify, wf_send_failed].
Qed.

Lemma update_registration_safe : m_safe maintained_wf (update_registration hex_decode) 86 (λ _, True).
Proof.
  eapply (m_safe_bind _ _ _ 1 85 (λ _, True)).
  { eapply (m_safe_bind _ _ _ 0 1); [apply m_safe_get|]. intros m Hm.
    cbv beta zeta. destruct (ec_force_expired _); [by apply m_safe_ret|].
    destruct (pong_session_expire_at _); [by apply m_safe_ret|].
    destruct (ec_session_setup_deadline _); [|by apply m_safe_ret].
    eapply (m_safe_bind _ _ _ 1 0); [apply m_safe_now|]. intros. by apply m_safe_ret. }
  intros [reason|] _; [|by apply m_safe_ret].
  eapply (m_safe_bind _ _ _ 0 85); [apply m_safe_modify, wf_set_control_state|]. intros _ _.
  eapply (m_safe_bind _ _ _ 84 1).
  { apply m_safe_control. apply (m_safe_try_timeout _ _ _ 83 (λ _, True)); [|done].
    apply EstablishedControl_authenticate_safe. }
  intros [_|e] _.
  - eapply (m_safe_bind _ _ _ 0 1); [apply m_safe_modify; intros m [? _]; by split|]. intros _ _.
    eapply (m_safe_bind _ _ _ 1 0); [apply m_safe_now|]. intros now _.
    eapply (m_safe_bind _ _ _ 0 0); [by apply m_safe_modify|]. intros _ _.
    eapply (m_safe_bind _ _ _ 0 0); [apply m_safe_modify, wf_set_control_state|]. intros _ _.
    by apply m_safe_ret.
  - eapply (m_safe_bind _ _ _ 0 1); [apply m_safe_modify, wf_note|]. intros _ _.
    eapply (m_safe_bind _ _ _ 0 1); [apply m_safe_await|]. intros _ _. by apply m_safe_ret.
Qed.

Lemma update_ping_safe now :
  uint 64 now → m_safe maintained_wf (update_ping false now) 2 (λ _, True).
Proof.
  intros Hnow. eapply (m_safe_bind _ _ _ 0 2); [apply m_safe_get|]. intros m Hm.
  eapply (m_safe_bind _ _ _ 0 2); [apply m_safe_u_sub|]. intros since _.
  case_decide; [|by apply m_safe_ret].
  eapply (m_safe_bind _ _ _ 0 2); [by apply m_safe_modify|]. intros _ _.
  by apply m_safe_send_or_fail, send_ping_safe.
Qed.

Lemma update_keep_alive_safe now : m_safe maintained_wf (update_keep_alive false now) 2 (λ _, True).
Proof.
  eapply (m_safe_bind _ _ _ 0 2); [apply m_safe_get|]. intros m Hm.
  eapply (m_safe_bind _ _ _ 0 2); [apply m_safe_u_sub|]. intros till _.
  eapply (m_safe_bind _ _ _ 0 2); [apply m_safe_u_sub|]. intros since _.
  case_decide; [|by apply m_safe_ret].
  eapply (m_safe_bind _ _ _ 0 2); [by apply m_safe_modify|]. intros _ _.
  apply m_safe_send_or_fail, send_keep_alive_safe.
Qed.

Lemma feed_loop_safe n timeouts : m_safe maintained_wf (feed_loop false n timeouts) (n * 3) (λ _, True).
Proof.
  revert timeouts. induction n as [|n IH]; intros timeouts; cbn [feed_loop]; [by apply m_safe_ret|].
  change (S n * 3)%nat with (2 + (1 + n * 3))%nat.
  assert (∀ t, m_safe maintained_wf (feed_loop false n t) (1 + n * 3) (λ _, True)) as IH'
    by (intros t; eapply m_safe_weaken; [apply IH | lia | done]).
  eapply m_safe_bind; [apply m_safe_control, recv_feed_msg_safe|].
  intros [[[msg|c|c]|e]|] _; try (by apply m_safe_ret); try (by apply IH').
  - destruct (rpc_content msg); try (by apply m_safe_ret); try (by apply IH').
    + eapply m_safe_bind; [apply m_safe_now|]. intros now _.
      apply (m_safe_bind _ _ _ 0 (n * 3) (λ _, True)); [by apply m_safe_modify|]. intros _ _. apply IH.
    + apply (m_safe_bind _ _ _ 0 (1 + n * 3) (λ _, True)); [|intros _ _; apply IH'].
      apply m_safe_modify. intros m Hm. by apply (wf_set_control_state Reconnecting) in Hm.
  - case_decide; [by apply m_safe_ret | apply IH'].
Qed.

Lemma update_silence_safe : m_safe maintained_wf (update_silence false) 1 (λ _, True).
Proof.
  eapply (m_safe_bind _ _ _ 0 1); [apply m_safe_get|]. intros m Hm.
  case_decide; [|by apply m_safe_ret].
  eapply (m_safe_bind _ _ _ 1 0); [apply m_safe_now|]. intros now _.
  eapply (m_safe_bind _ _ _ 0 0); [apply m_safe_u_sub|]. intros since _.
  case_decide; [|by apply m_safe_ret].
  apply m_safe_modify. intros m' Hm'. apply wf_send_failed, wf_set_control_state. exact Hm'.
Qed.

Lemma send_udp_session_auth_safe now_ms min_wait_ms :
  m_safe maintained_wf (send_udp_session_auth false now_ms min_wait_ms) 2 (λ _, True).
Proof.
  eapply (m_safe_bind _ _ _ 0 2); [apply m_safe_get|]. intros m Hm.
  eapply (m_safe_bind _ _ _ 0 2 (λ _, True)).
  { unfold u_add. case_decide; by eapply m_safe_lift. }
  intros next _. case_decide; [by apply m_safe_ret|].
  eapply (m_safe_bind _ _ _ 0 2); [by apply m_safe_modify|]. intros _ _.
  eapply (m_safe_bind _ _ _ 2 0).
  - apply m_safe_control, (m_safe_try_timeout _ _ _ 1 (λ _, True)); [|done].
    apply send_setup_udp_channel_safe.
  - intros [_|e] _; (eapply (m_safe_bind _ _ _ 0 0 (λ _, True)); [|intros; by apply m_safe_ret]);
      [by apply m_safe_ret | apply m_safe_modify, wf_send_failed].
Qed.

Lemma update_safe_aux : m_safe maintained_wf (update hex_decode false) 182 (λ _, True).
Proof.
  eapply (m_safe_bind _ _ _ 86 96); [apply update_registration_safe|].
  intros [] _; [|by apply m_safe_ret].
  eapply (m_safe_bind _ _ _ 1 95); [apply m_safe_now|]. intros now Hnow.
  eapply (m_safe_bind _ _ _ 2 93); [by apply update_ping_safe|]. intros _ _.
  eapply (m_safe_bind _ _ _ 2 91); [apply update_keep_alive_safe|]. intros _ _.
  eapply (m_safe_bind _ _ _ 90 1); [apply (feed_loop_safe 30)|].
  intros [ev|] _; [by apply m_safe_ret|].
  eapply (m_safe_bind _ _ _ 1 0); [apply update_silence_safe|]. intros _ _. by apply m_safe_ret.
Qed.

(** C38: The maintenance of a session in the release build. Whatever the
    network, the API and the clock answer, [update] and [send_udp_session_auth]
    do not panic and end after at most 182 and two operations; they keep a
    session whose requests can be written, and a hard reconnect is never
    requested before three failures. *)
Theorem update_safe (m : MaintainedControl) (w : world) (now_ms min_wait_ms : Z) :
  clock_ok (wd w) → maintained_wf m →
  (let '(r, m', w') := update hex_decode false m w in
   r ≠ MPanic ∧ maintained_wf m' ∧ (wd_pos w' ≤ wd_pos w + 182)%nat) ∧
  (let '(r, m', w') := send_udp_session_auth false now_ms min_wait_ms m w in
   r ≠ MPanic ∧ maintained_wf m' ∧ (wd_pos w' ≤ wd_pos w + 2)%nat).
Proof.
  intros Hc Hm. split.
  - pose proof (update_safe_aux m w Hc Hm) as H.
    destruct (update hex_decode false m w) as [[r m'] w']. destruct H as (Hr & Hwf & _ & _ & Hp).
    split_and!; [by destruct r | done | done].
  - pose proof (send_udp_session_auth_safe now_ms min_wait_ms m w Hc Hm) as H.
    destruct (send_udp_session_auth false now_ms min_wait_ms m w) as [[r m'] w'].
    destruct H as (Hr & Hwf & _ & _ & Hp). split_and!; [by destruct r | done | done].
Qed.

(** *** A silent server *)

(** What [update] does when it gives the server up. *)
Definition lost (m : MaintainedControl) : MaintainedControl :=
  send_failed (set_control_state Reconnecting (mc_set_pong 0 m)).

(** Silence. In every build: no pong for more than six seconds, and the
    session is marked expired, so that the next [update] registers again, the
    state published is [Reconnecting], and one failure is counted; until then
    nothing happens. A system clock that was set back behind the last pong
    panics a build with overflow checks, and in the release build looks like
    such a silence. *)
Theorem silence_spec (overflow_checks : bool) (m : MaintainedControl) (w : world) :
  let now := wd_clock (wd w) (wd_pos w) in
  uint 63 (mc_last_pong m) → mc_last_pong m ≠ 0 → 0 ≤ now →
  update_silence overflow_checks m w =
    (if decide (now < mc_last_pong m) then
       if overflow_checks then (MPanic, m, bump w) else (MDone (), lost m, bump w)
     else if decide (6000 < now - mc_last_pong m) then (MDone (), lost m, bump w)
     else (MDone (), m, bump w)) ∧
  (∀ t, is_expired t (mc_control (lost m)) = Some Forced) ∧
  mc_soft_reconnect_failures (lost m) = saturating_add 32 (mc_soft_reconnect_failures m) 1 ∧
  (watch_receivers (mc_control_state m) ≠ 0%nat →
   watch_borrow (mc_control_state (lost m)) = Reconnecting).
Proof.
  intros now Hu Hne Hnow. split_and!.
  - unfold update_silence, m_get, m_now, mbind, M_bind. rewrite decide_True by done.
    fold now. unfold m_lift, uint in *. case_decide as Hlt.
    + destruct overflow_checks; [by rewrite u_sub_panics|]. rewrite u_sub_wraps by done.
      assert (wrap 64 (now - mc_last_pong m) = 2 ^ 64 + (now - mc_last_pong m)) as ->.
      { unfold wrap. symmetry. apply (Z.mod_unique _ _ (-1)); lia. }
      by rewrite decide_True by lia.
    + rewrite u_sub_fits by lia. by case_decide.
  - done.
  - unfold lost, send_failed, expire_control, note_control_failure. cbn.
    by destruct (set_control_state_fields Reconnecting (mc_set_pong 0 m)) as (_ & _ & _ & _ & _ & _ & -> & _).
  - intros Hr. unfold lost. cbn. by apply set_control_state_published.
Qed.

(** *** Escalation *)

Fixpoint updates (n : nat) : M MaintainedControl () :=
  match n with
  | O => mret ()
  | S n => update hex_decode false;; updates n
  end.

(** The API refuses every registration. *)
Definition api_refuses (a : answers) : Prop := ∀ n c t, ∃ e, wd_sign a n c t = RErr e.

Lemma authenticate_refused c w :
  api_refuses (wd w) →
  let '(r, c', w') := ConnectedControl_authenticate hex_decode c w in
  (r = MCut ∧ wd_budget w ≠ None ∨ ∃ e, r = MDone (RErr e)) ∧ c' = c ∧ wd w' = wd w.
Proof.
  intros Hapi. unfold ConnectedControl_authenticate, m_get, m_ask, m_ask_raw, m_await, mbind, M_bind.
  destruct (wd_budget w) as [[|b]|]; cbn; [by split_and!; [left|..]|..];
    match goal with |- context [wd_sign ?a ?n ?x ?y] => destruct (Hapi n x y) as [e ->] end; cbn;
    by split_and!; [right; eexists|..].
Qed.

(** The session is expired, for whatever reason, whenever the clock is read. *)
Definition stays_expired (a : answers) (e : EstablishedControl) : Prop := ∀ n, is_expired (wd_clock a n) e ≠ None.

Lemma m_is_expired_reason m w :
  stays_expired (wd w) (mc_control m) →
  ∃ reason w', m_is_expired m w = (MDone (Some reason), m, w') ∧ wd w' = wd w ∧ wd_budget w' = wd_budget w.
Proof.
  intros He. specialize (He (wd_pos w)). unfold m_is_expired, m_get, m_now, mbind, M_bind.
  destruct (ec_force_expired (mc_control m)) eqn:Hf; [by eexists _, _|].
  destruct (is_expired (wd_clock (wd w) (wd_pos w)) (mc_control m)) as [reason|] eqn:Hr; [|done].
  exists reason. unfold is_expired in *. rewrite Hf in *.
  destruct (pong_session_expire_at _), (ec_session_setup_deadline _); cbn in *; rewrite ?Hr; by eexists.
Qed.

Lemma update_registration_refused m w :
  stays_expired (wd w) (mc_control m) → api_refuses (wd w) → wd_budget w = None →
  ∃ w', update_registration hex_decode m w =
          (MDone false, note_control_failure (set_control_state Reconnecting m), w') ∧
        wd w' = wd w ∧ wd_budget w' = None.
Proof.
  intros Hf Hapi Hb. unfold update_registration.
  destruct (m_is_expired_reason m w Hf) as (reason & w0 & He & Hw0 & Hb0). erewrite bind_done by exact He. clear He.
  rewrite <-Hw0 in *. rewrite Hb in Hb0. clear Hb Hf Hw0. rename Hb0 into Hb.
  unfold m_get, m_modify, mbind, M_bind. cbn. set (m1 := set_control_state Reconnecting m).
  assert (mc_control m1 = mc_control m) as Hm1 by apply set_control_state_fields.
  unfold m_control, m_zoom. rewrite Hm1. unfold m_try_timeout, EstablishedControl_authenticate, mbind, M_bind.
  unfold m_zoom. rewrite Hb.
  match goal with |- context [ConnectedControl_authenticate _ _ ?w0] =>
    pose proof (authenticate_refused (ec_conn (mc_control m)) w0 Hapi) as Ha;
    destruct (ConnectedControl_authenticate hex_decode (ec_conn (mc_control m)) w0) as [[r c'] w1] end.
  destruct Ha as (Hr & -> & Hw1). cbn in Hw1.
  assert (mc_set_control m1 (ec_set_conn (mc_control m) (ec_conn (mc_control m))) = m1) as Hsame.
  { rewrite <-Hm1. by destruct m1 as [[] ? ? ? ? ? ? ? ?]. }
  destruct Hr as [[-> Hbw] | [e ->]].
  - cbn in Hbw |- *. destruct (wd_cut (wd w0) (wd_pos w0)) as [k|]; [|done]. cbn.
    rewrite Hsame. unfold m_await. cbn. eexists. by split_and!.
  - cbn. rewrite Hsame. unfold m_await. cbn. eexists. by split_and!.
Qed.

Lemma update_refused m w :
  stays_expired (wd w) (mc_control m) → api_refuses (wd w) → wd_budget w = None →
  ∃ w', update hex_decode false m w =
          (MDone None, note_control_failure (set_control_state Reconnecting m), w') ∧
        wd w' = wd w ∧ wd_budget w' = None.
Proof.
  intros Hf Hapi Hb. destruct (update_registration_refused m w Hf Hapi Hb) as (w' & Hu & Hw).
  exists w'. split; [|done]. unfold update. by erewrite bind_done by exact Hu.
Qed.

Lemma updates_refused n m w :
  stays_expired (wd w) (mc_control m) → api_refuses (wd w) → wd_budget w = None →
  0 ≤ mc_soft_reconnect_failures m + Z.of_nat n < 2 ^ 32 →
  ∃ m' w', updates n m w = (MDone (), m', w') ∧
    mc_control m' = mc_control m ∧
    mc_soft_reconnect_failures m' = mc_soft_reconnect_failures m + Z.of_nat n ∧
    mc_hard_reconnect_requested m' =
      mc_hard_reconnect_requested m ||
      bool_decide ((0 < n)%nat ∧ 3 ≤ mc_soft_reconnect_failures m + Z.of_nat n) ∧
    (watch_receivers (mc_control_state m) ≠ 0%nat →
     (0 < n)%nat ∨ watch_borrow (mc_control_state m) = Reconnecting →
     watch_borrow (mc_control_state m') = Reconnecting).
Proof.
  revert m w. induction n as [|n IH]; intros m w Hf Hapi Hb Hr.
  - exists m, w. split_and!; [done | done | lia | | intros _ [?|?]; [lia|done]].
    rewrite bool_decide_eq_false_2 by lia. by rewrite orb_false_r.
  - destruct (update_refused m w Hf Hapi Hb) as (w1 & Hu & Hw1 & Hb1).
    set (m1 := note_control_failure (set_control_state Reconnecting m)) in *.
    destruct (set_control_state_fields Reconnecting m)
      as (Hc & _ & _ & _ & _ & _ & Hs & Hh & Hrec).
    assert (mc_soft_reconnect_failures m1 = mc_soft_reconnect_failures m + 1) as Hs1
      by (unfold m1, note_control_failure, saturating_add; cbn; rewrite Hs; lia).
    destruct (IH m1 w1) as (m' & w' & Hrun & Hc' & Hf' & Hh' & Hp').
    + rewrite Hw1. cbn. by rewrite Hc.
    + by rewrite Hw1.
    + done.
    + rewrite Hs1. lia.
    + exists m', w'. split_and!.
      * cbn [updates]. by erewrite bind_done by exact Hu.
      * rewrite Hc'. exact Hc.
      * lia.
      * rewrite Hh', Hs1. unfold m1, note_control_failure, saturating_add. cbn. rewrite Hs, Hh.
        apply Bool.eq_iff_eq_true. rewrite !orb_true_iff, !bool_decide_eq_true.
        unfold HARD_RECONNECT_FAILURE_THRESHOLD.
        destruct (decide (3 ≤ _)); split; intros [?|?]; first [by left | right; lia].
      * intros Hrc _. apply Hp'; [cbn; by rewrite Hrec|]. right.
        cbn. by apply set_control_state_published.
Qed.

(** C39: Escalation. Take a session that is expired whenever that is looked at,
    forced, never set up or moved to another flow, with any count of failures so
    far. While the API refuses every registration, each [update], when no outer
    deadline cuts it, completes, counts one failure and keeps the session; from the third failure
    on a hard reconnect is requested, not earlier (unless one was pending before);
    the request is handed out once; and the state published meanwhile is
    [Reconnecting]. The build without overflow checks is meant, and fewer than
    2^32 failures, where the count saturates. *)
Theorem refused_registration_escalates (m : MaintainedControl) (w : world) (n : nat) :
  stays_expired (wd w) (mc_control m) → api_refuses (wd w) → wd_budget w = None →
  let failures := mc_soft_reconnect_failures m + Z.of_nat n in
  0 ≤ mc_soft_reconnect_failures m → failures < 2 ^ 32 →
  ∃ m' w', updates n m w = (MDone (), m', w') ∧
    mc_control m' = mc_control m ∧ mc_soft_reconnect_failures m' = failures ∧
    (take_hard_reconnect_request m').1 =
      mc_hard_reconnect_requested m || bool_decide ((0 < n)%nat ∧ 3 ≤ failures) ∧
    (take_hard_reconnect_request (take_hard_reconnect_request m').2).1 = false ∧
    ((0 < n)%nat → watch_receivers (mc_control_state m) ≠ 0%nat →
     watch_borrow (mc_control_state m') = Reconnecting).
Proof.
  intros Hf Hapi Hb failures H0 Hn.
  destruct (updates_refused n m w) as (m' & w' & Hrun & Hc & Hfail & Hhard & Hpub); [done..|lia|].
  exists m', w'. split_and!; [done | done | done | exact Hhard | done |].
  intros Hpos Hrc. apply Hpub; [done | by left].
Qed.

(** *** Moving to another server *)

(** Everything but the published state is as it was. *)
Definition same_session m m' : Prop := ∃ v, m' = mc_set_watch v m.

Lemma same_session_refl m : same_session m m.
Proof. exists (mc_control_state m). by destruct m. Qed.

Lemma same_session_trans m1 m2 m3 : same_session m1 m2 → same_session m2 m3 → same_session m1 m3.
Proof. intros [v1 ->] [v2 ->]. by exists v2. Qed.

Lemma same_session_state state m : same_session m (set_control_state state m).
Proof. unfold set_control_state. case_decide; [by eexists | apply same_session_refl]. Qed.

(** Someone listens, and [Reconnecting] is what is published. *)
Definition publishes state m : Prop :=
  watch_receivers (mc_control_state m) ≠ 0%nat → watch_borrow (mc_control_state m) = state.

(** The session of [m] is kept, or [m] is freshly connected. *)
Definition fresh (a : answers) (addrs : list SocketAddr) m : Prop :=
  mc_soft_reconnect_failures m = 0 ∧ mc_hard_reconnect_requested m = false ∧
  mc_last_ping m = 0 ∧ mc_last_keep_alive m = 0 ∧ mc_last_udp_auth m = 0 ∧
  mc_last_control_targets m = addrs ∧ (∃ n, mc_last_pong m = wd_clock a n) ∧
  publishes Connected m.

(** The session of [m] is one that a server among [addrs] answered with. *)
Definition registered_at (a : answers) (addrs : list SocketAddr) m : Prop :=
  cc_control_addr (ec_conn (mc_control m)) ∈ addrs ∧
  ec_force_expired (mc_control m) = false ∧ flow_changed (mc_control m) = false ∧
  ec_current_ping (mc_control m) = None ∧
  ∃ id, answered a 1024 (cc_control_addr (ec_conn (mc_control m)))
    {| rpc_request_id := id; rpc_content := ResAgentRegistered (ec_registered (mc_control m)) |}.

Lemma reset_after_connect_fresh now m :
  mc_control (reset_after_connect now m) = mc_control m ∧
  mc_soft_reconnect_failures (reset_after_connect now m) = 0 ∧
  mc_hard_reconnect_requested (reset_after_connect now m) = false ∧
  mc_last_ping (reset_after_connect now m) = 0 ∧
  mc_last_keep_alive (reset_after_connect now m) = 0 ∧
  mc_last_udp_auth (reset_after_connect now m) = 0 ∧
  mc_last_control_targets (reset_after_connect now m) = mc_last_control_targets m ∧
  mc_last_pong (reset_after_connect now m) = now ∧
  publishes Connected (reset_after_connect now m).
Proof.
  unfold reset_after_connect. set (m0 := mc_set_failures 0 false (mc_set_times 0 0 now 0 m)).
  destruct (set_control_state_fields Connected m0) as (-> & -> & -> & -> & -> & -> & -> & -> & Hr).
  split_and!; try done. intros Hn. apply set_control_state_published. by rewrite <-Hr.
Qed.

(** What [replace_connection] leaves behind, in each way it can end. *)
Definition replaced (a : answers) (addr : SocketAddr) (force : bool) m
    (r : mres (result SetupError bool)) m' : Prop :=
  match r with
  | MDone (ROk true) =>
      registered_at a [addr] m'
  | MDone (ROk false) => m' = m ∧ force = false
  | _ => same_session m m' ∧ publishes Reconnecting m'
  end.

Lemma publishes_state state m : publishes state (set_control_state state m).
Proof.
  intros Hr. apply set_control_state_published.
  by destruct (set_control_state_fields state m) as (_ & _ & _ & _ & _ & _ & _ & _ & <-).
Qed.

Lemma m_local_inv {T A} (t : T) (c : M T A) m w r m' w' :
  m_local t c m w = (r, m', w') →
  m' = m ∧
  match r with
  | MDone (a, t') => c t w = (MDone a, t', w')
  | _ => True
  end.
Proof. unfold m_local. destruct (c t w) as [[[a| |] t'] w1]; intros; by simplify_eq. Qed.


Lemma replace_connection_spec connected force m w :
  clock_ok (wd w) →
  m_wp (replace_connection hex_decode connected force) m w (λ r m' w',
    r ≠ MPanic ∧ wd w' = wd w ∧ replaced (wd w) (cc_control_addr connected) force m r m').
Proof.
  intros Hc. unfold replace_connection. apply m_wp_bind. unfold m_wp at 1, m_get. cbn beta iota zeta.
  destruct (_ && _ && _) eqn:Hg.
  { unfold m_wp, mret, M_ret. split_and!; try done. by destruct force. }
  clear Hg. apply m_wp_bind. unfold m_wp at 1, m_modify. set (m1 := set_control_state Reconnecting m).
  assert (same_session m m1 ∧ publishes Reconnecting m1) as Hm1
    by (split; [apply same_session_state | apply publishes_state]).
  apply m_wp_bind. unfold m_wp at 1.
  destruct (m_local connected _ m1 w) as [[r m2] w2] eqn:Hl.
  pose proof (m_ok_try_timeout SetupTimeout _ _ _ (authenticate_wf hex_decode) I connected w Hc) as Hok.
  unfold m_local in Hl.
  destruct (m_try_timeout SetupTimeout _ connected w) as [[r0 c'] w0] eqn:Ht.
  destruct Hok as (Hr & Hw & _). destruct r0 as [[reg|e]| |]; simplify_eq; [|by split_and!..].
  apply m_try_timeout_inv in Ht as (wa & ra & wb & Hwa & Hauth & Hwb & _ & [<-|[_ ?]]); [|done].
  unfold m_wp, mbind, M_bind, m_modify, m_now, mret, M_ret. cbn [bump wd].
  split_and!; [done | done |]. cbn [replaced].
  apply (m_rel_MDone _ _ _ _ _ _ _ (authenticate_rel hex_decode)) in Hauth as Haddr.
  destruct Haddr as [Haddr _].
  apply authenticate_sound in Hauth as (i & j & key & bytes & _ & _ & _ & Hans); [|by rewrite Hwa].
  unfold registered_at. rewrite (proj1 (reset_after_connect_fresh _ _)). cbn.
  rewrite Haddr. split_and!; [by apply list_elem_of_singleton | done | | done |].
  - by apply (flow_changed_fresh _ (cc_pong_latest c')).
  - rewrite Hwa in Hans. by eexists.
Qed.

(** How a reload ends. *)
Definition reloaded (a : answers) (force : bool) m (r : mres (result SetupError bool)) m' : Prop :=
  match r with
  | MPanic => False
  | MDone (ROk updated) =>
      ∃ n addrs, wd_targets a n = ROk addrs ∧
        (m' = m ∧ updated = false ∧ force = false ∧ addrs = mc_last_control_targets m ∨
         fresh a addrs m' ∧
         if updated then registered_at a addrs m'
         else mc_control m' = mc_control m ∧ force = false)
  | _ => same_session m m' ∧ (m' = m ∧ force = false ∨ publishes Reconnecting m')
  end.

(** The end of [reload_control_addr], once a server answered. *)
Lemma reload_finish force m m1 n addrs connected w :
  clock_ok (wd w) → wd_targets (wd w) n = ROk addrs →
  same_session m m1 → publishes Reconnecting m1 → cc_control_addr connected ∈ addrs →
  m_wp (updated ← m_try_timeout SetupTimeout (replace_connection hex_decode connected force);
        match updated with
        | RErr e => mret (RErr e)
        | ROk updated =>
            m_modify (mc_set_targets addrs);;
            now ← m_now;
            m_modify (reset_after_connect now);;
            mret (ROk updated)
        end) m1 w (λ r m' w', reloaded (wd w) force m r m' ∧ wd w' = wd w).
Proof.
  intros Hc Ha Hs1 Hp1 Hin. apply m_wp_bind. apply m_wp_try_timeout. intros w0 Hw0.
  assert (clock_ok (wd w0)) as Hc0 by by rewrite Hw0.
  eapply m_wp_mono; [exact (replace_connection_spec connected force m1 w0 Hc0)|].
  cbn beta. intros r m2 w1 (Hnp & Hw1 & Hrep) w2 Hw2. rewrite Hw0 in *.
  destruct r as [[[]|e]| |]; cbn in Hrep; try done.
  - split; [|done]. unfold m_wp, mbind, M_bind, m_modify, m_now, mret, M_ret. cbn.
    split; [|congruence]. exists n, addrs. split; [done|]. right.
    destruct (reset_after_connect_fresh (wd_clock (wd w2) (wd_pos w2)) (mc_set_targets addrs m2))
      as (Hc2 & ? & ? & ? & ? & ? & ? & ? & ?).
    split; [unfold fresh; split_and!; try done; exists (wd_pos w2); congruence|].
    destruct Hrep as (Hin' & Hf & Hfl & Hping & Hans). unfold registered_at. rewrite Hc2. cbn.
    split_and!; try done. apply list_elem_of_singleton in Hin'. by rewrite Hin'.
  - destruct Hrep as [-> ->]. split; [|done].
    unfold m_wp, mbind, M_bind, m_modify, m_now, mret, M_ret. cbn.
    split; [|congruence]. exists n, addrs. split; [done|]. right.
    destruct (reset_after_connect_fresh (wd_clock (wd w2) (wd_pos w2)) (mc_set_targets addrs m1))
      as (Hc2 & ? & ? & ? & ? & ? & ? & ? & ?).
    split; [unfold fresh; split_and!; try done; exists (wd_pos w2); congruence|].
    split; [|done]. rewrite Hc2. destruct Hs1 as [v ->]. done.
  - split; [|done]. destruct Hrep as [? ?]. split; [|cbn; congruence].
    split; [by eapply same_session_trans | by right].
  - destruct Hrep as [? ?].
    split; [|intros _]; (split; [|cbn; congruence]);
      (split; [by eapply same_session_trans | by right]).
Qed.

Lemma reload_ends (force : bool) (m : MaintainedControl) (w : world) :
  clock_ok (wd w) →
  m_wp (reload_control_addr hex_decode force) m w
    (λ r m' w', reloaded (wd w) force m r m' ∧ wd w' = wd w).
Proof.
  intros Hc. unfold reload_control_addr. apply m_wp_bind. unfold m_wp at 1, m_modify.
  set (m0 := if force then _ else m).
  assert (same_session m m0 ∧ (m0 = m ∧ force = false ∨ publishes Reconnecting m0)) as [Hs0 Hp0].
  { unfold m0. destruct force; [split; [apply same_session_state | right; apply publishes_state]|].
    split; [apply same_session_refl | by left]. }
  apply m_wp_bind, m_wp_try_timeout. intros w1 Hw1.
  assert (∀ v, wd v = wd w → (same_session m m0 ∧ (m0 = m ∧ force = false ∨ publishes Reconnecting m0)) ∧
    wd v = wd w) as Hfail0 by done.
  apply m_wp_ask; [|intros v Hv v' Hv'; split; [|intros _]; apply Hfail0; congruence].
  intros n w2 Hw2 w3 Hw3. split; [|done]. rewrite Hw1. rewrite Hw2, Hw1 in Hw3.
  destruct (wd_targets (wd w) n) as [addrs|e] eqn:Ht; [|by apply Hfail0].
  apply m_wp_bind. unfold m_wp at 1, m_get. destruct (negb force && _) eqn:Hg.
  { apply andb_true_iff in Hg as [Hf Hg]. apply bool_decide_eq_true in Hg.
    destruct force; [done|]. split; [|done]. exists n, addrs. split; [done|]. by left. }
  clear Hg Hfail0. apply m_wp_bind. unfold m_wp at 1, m_modify.
  set (m1 := set_control_state Reconnecting m0).
  assert (same_session m m1) as Hs1 by (eapply same_session_trans; [done | apply same_session_state]).
  assert (publishes Reconnecting m1) as Hp1 by apply publishes_state.
  assert (∀ v, wd v = wd w → (same_session m m1 ∧ (m1 = m ∧ force = false ∨ publishes Reconnecting m1)) ∧
    wd v = wd w) as Hfail1 by (intros; split; [split; [|right]|]; done).
  apply m_wp_bind, m_wp_try_timeout. intros w4 Hw4. apply m_wp_bind.
  apply m_wp_ask; [|intros v Hv v' Hv'; split; [|intros _]; apply Hfail1; congruence].
  intros k w5 Hw5. unfold m_wp at 1, mret, M_ret. intros w6 Hw6. split; [|done].
  assert (wd w6 = wd w) as Hw by congruence.
  destruct (wd_create_io (wd w4) k) as [e|]; [by apply Hfail1|].
  apply m_wp_bind. unfold m_wp at 1. unfold m_local.
  pose proof (m_ok_try_timeout SetupTimeout _ _ _ (connect_to_first_ok addrs) I () w6) as Hok.
  rewrite Hw in Hok. specialize (Hok Hc).
  destruct (m_try_timeout SetupTimeout _ () w6) as [[r0 []] w7] eqn:Hrun.
  destruct Hok as (Hr & Hw7 & _). destruct r0 as [[connected|e]| |]; try done;
    try (apply Hfail1; congruence).
  apply m_try_timeout_inv in Hrun as (wa & ra & wb & Hwa & Hcon & Hwb & _ & [<-|[_ ?]]); [|done].
  rewrite Hw in Hwa. apply connect_to_first_sound in Hcon as [Hin _]; [|by rewrite Hwa].
  cbn [fst]. rewrite <-Hw7 in Hc, Ht |- *. by eapply reload_finish.
Qed.

(** Reloading the control address. A reload does not panic. When it
    succeeds, either nothing changed, because the API names the servers that
    are in use; or the failure counters and timers are reset and [Connected]
    is published, and the session is the old one or one that a server named by
    the API registered, on its current flow. When it fails, the session, the
    timers and the counters are as before, but [Reconnecting] stays published,
    also when the session that is kept is healthy. *)
Theorem reload_spec (force : bool) (m : MaintainedControl) (w : world) :
  clock_ok (wd w) →
  let '(r, m', _) := reload_control_addr hex_decode force m w in reloaded (wd w) force m r m'.
Proof.
  intros Hc. pose proof (reload_ends force m w Hc) as H. unfold m_wp in H.
  destruct (reload_control_addr hex_decode force m w) as [[r m'] w']. apply H.
Qed.
End facts.

(** ** Witnesses *)

#[local] Existing Instance big_endian.
#[local] Existing Instance big_endian_laws.
#[local] Existing Instance reference_encoding.
#[local] Existing Instance reference_encoding_laws.
#[local] Existing Instance ref_watch.
#[local] Existing Instance ref_watch_laws.

(** A session with a listener, last answered at 1000. *)
Definition sample_maintained : MaintainedControl :=
  subscribe_control_state (MaintainedControl_new 1000 sample_established [sample_v4]).

Definition sample_refusing : answers := {|
  wd_clock _ := 9000; wd_recv _ := RecvTimeout; wd_send _ := None;
  wd_sign _ _ _ := RErr (ApiFail "AccountLimit"); wd_targets _ := ROk [sample_v6];
  wd_create_io _ := Some FailedToConnect; wd_cut _ := None;
|}.

Lemma update_safe_witness :
  (update (λ _, Some [Byte.x00]) false sample_maintained (sample_world sample_refusing)).1.1 ≠ MPanic.
Proof.
  destruct (update_safe (λ _, Some [Byte.x00]) sample_maintained (sample_world sample_refusing) 0 0)
    as [H _].
  - intros n. decide_now.
  - split; [split; decide_now | discriminate].
  - destruct (update _ _ _ _) as [[r m'] w']. apply H.
Defined.

Lemma silence_spec_witness :
  (∃ m', update_silence false sample_maintained (sample_world sample_refusing) =
           (MDone (), m', bump (sample_world sample_refusing)) ∧
         is_expired 0 (mc_control m') = Some Forced ∧
         watch_borrow (mc_control_state m') = Reconnecting).
Proof.
  destruct (silence_spec false sample_maintained (sample_world sample_refusing))
    as (Hrun & Hexp & _ & Hpub).
  - decide_now.
  - discriminate.
  - vm_compute. discriminate.
  - exists (lost sample_maintained). split_and!; [exact Hrun | apply Hexp | apply Hpub; discriminate].
Defined.

Lemma refused_registration_escalates_witness :
  ∃ m' w', updates (λ _, None) 3 (expire_control sample_maintained) (sample_world sample_refusing) =
             (MDone (), m', w') ∧
           (take_hard_reconnect_request m').1 = true.
Proof.
  destruct (refused_registration_escalates (λ _, None) (expire_control sample_maintained)
    (sample_world sample_refusing) 3) as (m' & w' & Hrun & _ & _ & Htake & _).
  - intros n. discriminate.
  - intros n c t. eexists. reflexivity.
  - reflexivity.
  - vm_compute. discriminate.
  - vm_compute. reflexivity.
  - exists m', w'. split; [exact Hrun | rewrite Htake; vm_compute; reflexivity].
Defined.

Lemma reload_spec_witness :
  ∃ m' w', reload_control_addr (λ _, None) false sample_maintained (sample_world sample_refusing) =
    (MDone (RErr FailedToConnect), m', w') ∧ same_session sample_maintained m' ∧
    is_expired 1500 (mc_control m') = None ∧ watch_borrow (mc_control_state m') = Reconnecting.
Proof.
  pose proof (reload_spec (λ _, None) false sample_maintained (sample_world sample_refusing)) as H.
  assert ((reload_control_addr (λ _, None) false sample_maintained (sample_world sample_refusing)).1.1 =
    MDone (RErr FailedToConnect)) as Hr by (vm_compute; reflexivity).
  assert (watch_borrow (mc_control_state (reload_control_addr (λ _, None) false sample_maintained
    (sample_world sample_refusing)).1.2) = Reconnecting) as Hp by (vm_compute; reflexivity).
  destruct (reload_control_addr _ _ _ _) as [[r m'] w'] eqn:Hrun. cbn [fst snd] in Hr, Hp. subst r.
  destruct H as [Hs _]; [intros n; decide_now|].
  exists m', w'. split_and!; [done | exact Hs | | exact Hp].
  destruct Hs as [v ->]. reflexivity.
Defined.
