(* ===== verification/TcpPipe.v ===== *)
(** * TCP pipes (agent_core/src/network/tcp/tcp_pipe.rs, tcp_client.rs)

    A pipe copies one direction of a TCP connection and keeps the time of its
    last activity and a count of bytes in shared atomics. Its task is a loop;
    what the sockets, the clock and the cancellation token do in each
    iteration is an input. *)

From S2P Require Import Prelude Bytes Utils.

Definition TCP_PIPE_BUFFER_SIZE : nat := Z.to_nat (16 * 1024).
Arguments TCP_PIPE_BUFFER_SIZE : simpl never.

Definition u64_MAX : Z := 2 ^ 64 - 1.

Inductive PipeDirection : Type := TunnelToOrigin | OriginToTunnel.

Record Shared : Type := {
  last_activity_cell : Z;
  bytes_written_cell : Z;
}.

(** A pipe and its task: the shared cells, what the source still holds, what
    the destination was given, and whether the task has ended. *)
Record TcpPipe : Type := {
  pp_shared : Shared;
  pp_direction : PipeDirection;
  pp_src : list byte;
  pp_dst : list byte;
  pp_ended : bool;
}.

(** [new_with_stats]. *)
Definition TcpPipe_new (now : Z) (direction : PipeDirection) (src dst : list byte) : TcpPipe :=
  {| pp_shared := {| last_activity_cell := now; bytes_written_cell := 0 |};
     pp_direction := direction; pp_src := src; pp_dst := dst; pp_ended := false |}.

Definition bytes_written (p : TcpPipe) : Z := bytes_written_cell (pp_shared p).

Definition last_activity (p : TcpPipe) : Z :=
  let value := last_activity_cell (pp_shared p) in
  if decide (value = u64_MAX) then 0 else value.

Definition TcpPipe_is_closed (p : TcpPipe) : bool :=
  bool_decide (last_activity_cell (pp_shared p) = u64_MAX).

(** One iteration: the token is cancelled, the read fails, or up to [ready]
    bytes are there; then the write fails after some bytes, or succeeds at a
    time. *)
Inductive write_result : Type :=
  | WriteFails (taken : nat)
  | WriteDone (now : Z).

Inductive pipe_input : Type :=
  | PipeCancelled
  | PipeReadError
  | PipeReady (ready : nat) (res : write_result).

(** The end of the task. *)
Definition pipe_close (p : TcpPipe) : TcpPipe :=
  {| pp_shared := {| last_activity_cell := u64_MAX; bytes_written_cell := bytes_written p |};
     pp_direction := pp_direction p; pp_src := pp_src p; pp_dst := pp_dst p; pp_ended := true |}.

Definition count_stats (direction : PipeDirection) (bytes : Z) (stats : AgentStats) : AgentStats :=
  match direction with
  | TunnelToOrigin => add_bytes_in stats bytes
  | OriginToTunnel => add_bytes_out stats bytes
  end.

Definition pipe_step (i : pipe_input) (st : TcpPipe * option AgentStats) :
    TcpPipe * option AgentStats :=
  let '(p, stats) := st in
  match i with
  | PipeCancelled | PipeReadError => (pipe_close p, stats)
  | PipeReady ready res =>
      let n := Nat.min ready TCP_PIPE_BUFFER_SIZE in
      let chunk := take n (pp_src p) in
      let byte_count := Z.of_nat (length chunk) in
      if decide (byte_count = 0) then (pipe_close p, stats)
      else
        match res with
        | WriteFails taken =>
            (pipe_close {| pp_shared := pp_shared p; pp_direction := pp_direction p;
                           pp_src := drop n (pp_src p);
                           pp_dst := pp_dst p ++ take taken chunk; pp_ended := false |}, stats)
        | WriteDone now =>
            ({| pp_shared := {| last_activity_cell := now;
                                bytes_written_cell := wrap 64 (bytes_written p + byte_count) |};
                pp_direction := pp_direction p;
                pp_src := drop n (pp_src p); pp_dst := pp_dst p ++ chunk; pp_ended := false |},
             count_stats (pp_direction p) byte_count <$> stats)
        end
  end.

(** The task: iterations until it ends. *)
Fixpoint pipe_run (inputs : list pipe_input) (st : TcpPipe * option AgentStats) :
    TcpPipe * option AgentStats :=
  match inputs with
  | [] => st
  | i :: inputs => if pp_ended st.1 then st else pipe_run inputs (pipe_step i st)
  end.

(** ** tcp_client.rs *)

Record TcpClientStat : Type := { tunn_to_origin : Z; origin_to_tunn : Z }.

Definition TcpClientStat_min (s : TcpClientStat) : Z := Z.min (tunn_to_origin s) (origin_to_tunn s).

Record TcpClient : Type := {
  tc_tunn_to_origin : TcpPipe;
  tc_origin_to_tunn : TcpPipe;
}.

(** [create_with_stats]: a pipe in each direction, over what each stream still
    has to deliver and what it was already sent. *)
Definition TcpClient_create (now : Z) (tunn_in origin_in tunn_out origin_out : list byte) : TcpClient :=
  {| tc_tunn_to_origin := TcpPipe_new now TunnelToOrigin tunn_in origin_out;
     tc_origin_to_tunn := TcpPipe_new now OriginToTunnel origin_in tunn_out |}.

Definition last_use (c : TcpClient) : TcpClientStat :=
  {| tunn_to_origin := last_activity (tc_tunn_to_origin c);
     origin_to_tunn := last_activity (tc_origin_to_tunn c) |}.

Definition TcpClient_bytes_written (c : TcpClient) : TcpClientStat :=
  {| tunn_to_origin := bytes_written (tc_tunn_to_origin c);
     origin_to_tunn := bytes_written (tc_origin_to_tunn c) |}.

(** ** Facts *)

Definition input_time_ok (i : pipe_input) : Prop :=
  match i with PipeReady _ (WriteDone now) => 0 ≤ now < u64_MAX | _ => True end.

Definition write_fails (i : pipe_input) : Prop :=
  match i with PipeReady _ (WriteFails _) => True | _ => False end.

#[global] Instance input_time_ok_dec i : Decision (input_time_ok i).
Proof. destruct i as [| |ready []]; cbn; apply _. Defined.

(** The bytes counted for a direction. *)
Definition direction_bytes (direction : PipeDirection) (stats : AgentStats) : Z :=
  match direction with
  | TunnelToOrigin => bytes_in stats
  | OriginToTunnel => bytes_out stats
  end.

(** What the task adds to the statistics. *)
Definition counted (direction : PipeDirection) (n : Z) (stats0 stats : option AgentStats) : Prop :=
  match stats0, stats with
  | None, None => True
  | Some s0, Some s =>
      direction_bytes direction s = wrap 64 (direction_bytes direction s0 + n) ∧
      active_tcp s = active_tcp s0 ∧ active_udp s = active_udp s0
  | _, _ => False
  end.

(** The state of a pipe that has copied [copied] of [src0]; [lost] was read,
    but the write that should pass it on failed on the way. *)
Definition pipe_inv (src0 dst0 : list byte) (direction : PipeDirection) (stats0 : option AgentStats)
    (copied lost : list byte) (st : TcpPipe * option AgentStats) : Prop :=
  src0 = copied ++ lost ++ pp_src st.1 ∧
  (∃ k, pp_dst st.1 = dst0 ++ copied ++ take k lost) ∧
  (lost ≠ [] → pp_ended st.1 = true) ∧
  pp_direction st.1 = direction ∧
  bytes_written st.1 = wrap 64 (Z.of_nat (length copied)) ∧
  pp_ended st.1 = TcpPipe_is_closed st.1 ∧
  counted direction (Z.of_nat (length copied)) stats0 st.2.

Lemma counted_add direction n m stats0 stats :
  counted direction n stats0 stats →
  counted direction (n + m) stats0 (count_stats direction m <$> stats).
Proof.
  unfold counted. destruct stats0 as [s0|], stats as [s|]; try done.
  intros (Hb & Ht & Hu). destruct direction; cbn in *; rewrite Hb; split_and!; try done;
    unfold wrap; rewrite Zplus_mod_idemp_l; f_equal; lia.
Qed.

Lemma pipe_step_inv src0 dst0 direction stats0 copied st i :
  pipe_inv src0 dst0 direction stats0 copied [] st → pp_ended st.1 = false → input_time_ok i →
  ∃ chunk lost, pipe_inv src0 dst0 direction stats0 (copied ++ chunk) lost (pipe_step i st) ∧
    (lost ≠ [] → write_fails i).
Proof.
  destruct st as [p stats]. intros (Hsrc & [k Hdst] & _ & Hdir & Hbw & Hend & Hst) He Hi. cbn in *.
  rewrite take_nil, app_nil_r in Hdst.
  assert (∃ chunk lost, pipe_inv src0 dst0 direction stats0 (copied ++ chunk) lost (pipe_close p, stats) ∧
    (lost ≠ [] → write_fails i)) as Hclose.
  { exists [], []. rewrite app_nil_r. split; [|done]. split_and!; try done. exists 0%nat. cbn.
    by rewrite app_nil_r. }
  destruct i as [| |ready res]; [done|done|]. unfold pipe_step.
  generalize (Nat.min ready TCP_PIPE_BUFFER_SIZE). intros n. cbv zeta. case_decide as H0; [done|].
  destruct res as [taken|now].
  - exists [], (take n (pp_src p)). rewrite app_nil_r. split; [|done].
    split_and!; cbn; try done; [by rewrite take_drop|]. exists taken. by rewrite Hdst, app_assoc.
  - exists (take n (pp_src p)), []. split; [|done].
    split_and!; cbn; try done.
    + by rewrite <-app_assoc, take_drop.
    + exists 0%nat. by rewrite Hdst, app_nil_r, app_assoc.
    + rewrite Hbw, length_app, Nat2Z.inj_add. unfold wrap. by rewrite Zplus_mod_idemp_l.
    + unfold TcpPipe_is_closed. cbn. cbn in Hi. by rewrite bool_decide_eq_false_2 by lia.
    + rewrite length_app, Nat2Z.inj_add, Hdir. by apply counted_add.
Qed.

Lemma pipe_run_inv inputs src0 dst0 direction stats0 copied st :
  pipe_inv src0 dst0 direction stats0 copied [] st → Forall input_time_ok inputs →
  ∃ copied' lost, pipe_inv src0 dst0 direction stats0 copied' lost (pipe_run inputs st) ∧
    (lost ≠ [] → Exists write_fails inputs).
Proof.
  revert copied st. induction inputs as [|i inputs IH]; intros copied st Hinv Hok; cbn.
  - by exists copied, [].
  - destruct (pp_ended st.1) eqn:He; [by exists copied, []|].
    apply Forall_cons in Hok as [Hi Hok].
    destruct (pipe_step_inv _ _ _ _ _ _ i Hinv He Hi) as (chunk & lost & Hstep & Hlost).
    destruct lost as [|x lost].
    + destruct (IH _ _ Hstep Hok) as (c' & l' & Hrun & Hex). exists c', l'.
      split; [done|]. intros Hne. right. by apply Hex.
    + exists (copied ++ chunk), (x :: lost). split; [|intros; left; by apply Hlost].
      assert (pp_ended (pipe_step i st).1 = true) as He2 by (destruct Hstep as (_ & _ & He2 & _); by apply He2).
      destruct inputs; cbn; [|rewrite He2]; done.
Qed.

Lemma pipe_new_inv now direction src dst stats :
  0 ≤ now < u64_MAX →
  match stats with Some s => uint 64 (direction_bytes direction s) | None => True end →
  pipe_inv src dst direction stats [] [] (TcpPipe_new now direction src dst, stats).
Proof.
  intros Hnow Hs. split_and!; cbn; try done.
  - exists 0%nat. by rewrite app_nil_r.
  - unfold TcpPipe_is_closed. cbn. by rewrite bool_decide_eq_false_2 by lia.
  - destruct stats as [s|]; cbn; [|done]. rewrite Z.add_0_r, wrap_small by done. done.
Qed.

(** An input that moves at least one byte. *)
Definition moves (i : pipe_input) : Prop :=
  match i with PipeReady (S _) (WriteDone _) => True | _ => False end.

Lemma pipe_drains inputs src dst direction sh stats :
  Forall moves inputs → (length src < length inputs)%nat →
  let p := {| pp_shared := sh; pp_direction := direction; pp_src := src; pp_dst := dst;
              pp_ended := false |} in
  pp_dst (pipe_run inputs (p, stats)).1 = dst ++ src ∧
  pp_ended (pipe_run inputs (p, stats)).1 = true.
Proof.
  revert src dst sh stats. induction inputs as [|i inputs IH]; intros src dst sh stats Hm Hlen;
    [cbn in Hlen; lia|].
  apply Forall_cons in Hm as [Hi Hm]. destruct i as [| |[|ready] [|now]]; try done.
  cbn [pipe_run fst pp_ended]. unfold pipe_step. cbn [pp_src].
  set (n := Nat.min (S ready) TCP_PIPE_BUFFER_SIZE).
  assert (1 ≤ TCP_PIPE_BUFFER_SIZE)%nat by (unfold TCP_PIPE_BUFFER_SIZE; lia).
  assert (1 ≤ n)%nat as Hn by lia. clearbody n.
  case_decide as H0.
  - assert (src = []) as ->.
    { rewrite length_take in H0. destruct src; [done|]. cbn in H0. lia. }
    destruct inputs; cbn; by rewrite app_nil_r.
  - rewrite length_take in H0. edestruct IH as [Hd He]; [done| |split; [rewrite Hd|exact He]].
    + rewrite length_drop. cbn in Hlen. lia.
    + cbn. by rewrite <-app_assoc, take_drop.
Qed.

(** A pipe copies. Whatever the sockets do: the destination is given a
    prefix of the source, in order, and only a failed write, which ends the
    pipe, may take bytes from the source that are not passed on; the pipe's
    counter and the agent's counter for its direction grow by exactly the bytes
    copied, modulo 2^64, and no other gauge moves; the pipe reads as closed,
    with last activity 0, exactly when its task has ended. And it makes
    progress: while both sockets work, after one iteration more than there are
    bytes everything is copied and the pipe has ended. *)
Theorem pipe_copies (now : Z) (direction : PipeDirection) (src dst : list byte)
    (stats : option AgentStats) (inputs : list pipe_input) :
  0 ≤ now < u64_MAX → Forall input_time_ok inputs →
  match stats with Some s => uint 64 (direction_bytes direction s) | None => True end →
  let st := pipe_run inputs (TcpPipe_new now direction src dst, stats) in
  (∃ copied lost, pipe_inv src dst direction stats copied lost st ∧
     (lost ≠ [] → Exists write_fails inputs)) ∧
  (pp_ended st.1 = true → last_activity st.1 = 0) ∧
  (Forall moves inputs → (length src < length inputs)%nat →
     pp_dst st.1 = dst ++ src ∧ pp_ended st.1 = true).
Proof.
  intros Hnow Hi Hs st.
  destruct (pipe_run_inv inputs _ _ _ _ _ _ (pipe_new_inv now direction src dst stats Hnow Hs) Hi)
    as (copied & lost & Hinv & Hex).
  split_and!; [by eauto | |].
  - intros He. destruct Hinv as (_ & _ & _ & _ & _ & Hcl & _). fold st in Hcl. rewrite He in Hcl.
    unfold last_activity. symmetry in Hcl. apply bool_decide_eq_true in Hcl. by rewrite decide_True.
  - intros Hm Hlen. by apply pipe_drains.
Qed.

(** ** Witness *)

Lemma pipe_copies_witness :
  pp_dst (pipe_run [PipeReady 2 (WriteDone 5); PipeReady 9 (WriteDone 6); PipeReady 1 (WriteDone 7);
                    PipeReady 1 (WriteDone 8)]
    (TcpPipe_new 1 OriginToTunnel [Byte.x01; Byte.x02; Byte.x03] [Byte.xff], Some AgentStats_new)).1 =
  [Byte.xff; Byte.x01; Byte.x02; Byte.x03].
Proof.
  apply (pipe_copies 1 OriginToTunnel [Byte.x01; Byte.x02; Byte.x03] [Byte.xff] (Some AgentStats_new)).
  - vm_compute. split; [discriminate | reflexivity].
  - decide_now.
  - decide_now.
  - repeat constructor.
  - cbn. lia.
Defined.
