(* ===== verification/TcpClients.v ===== *)
(** * TCP clients (agent_core/src/network/tcp/tcp_clients.rs, tcp_errors.rs,
      tcp_settings.rs)

    The worker that owns the table of TCP clients, and the task it starts for
    each new client: claim the connection from the tunnel server, connect to
    the local server, announce the client with a PROXY header, and pipe. *)

From S2P Require Import Prelude Bytes Net Proto ControlFeed OriginLookup LanAddress.
From S2P Require Import ProxyProtocol Utils TcpPipe.

(** ** Data *)

(** The counters of [TcpErrors]; a run is the list of increments. *)
Inductive TcpErrors : Type :=
  | new_client_origin_not_found
  | invalid_proto_match
  | new_client_rate_limited
  | new_client_invalid_port_offset
  | new_client_claim_connect_timeout
  | new_client_claim_connect_error
  | new_client_set_tunnel_no_delay_error
  | new_client_send_claim_timeout
  | new_client_send_claim_error
  | new_client_claim_expect_timeout
  | new_client_claim_expect_error
  | new_client_origin_connect_error
  | new_client_origin_connect_timeout
  | new_client_set_origin_no_delay_error
  | new_client_write_proxy_proto_timeout
  | new_client_write_proxy_proto_error.

#[global] Instance TcpErrors_eq_dec : EqDecision TcpErrors.
Proof. solve_decision. Defined.

Record TcpSettings : Type := {
  new_client_ratelimit : Z;
  new_client_ratelimit_burst : Z;
  tcp_no_delay : bool;
}.

Definition TcpSettings_default : TcpSettings :=
  {| new_client_ratelimit := 100; new_client_ratelimit_burst := 300; tcp_no_delay := true |}.

(** [build_quota]: rate and burst, zero clamped to one. *)
Definition tcp_quota (settings : TcpSettings) : Z * Z :=
  (if decide (new_client_ratelimit settings = 0) then 1 else new_client_ratelimit settings,
   if decide (new_client_ratelimit_burst settings = 0) then 1 else new_client_ratelimit_burst settings).

Record Client : Type := {
  cl_id : Z;
  cl_added_at : Z;
  cl_tunnel_id : Z;
  cl_port_offset : Z;
  cl_source_addr : SocketAddr;
  cl_tunnel_addr : SocketAddr;
  cl_origin_addr : SocketAddr;
  cl_tcp : TcpClient;
}.

Record TcpClientDetails : Type := {
  td_id : Z;
  td_added_at : Z;
  td_tunnel_id : Z;
  td_port_offset : Z;
  td_source_addr : SocketAddr;
  td_tunnel_addr : SocketAddr;
  td_origin_addr : SocketAddr;
  td_last_use : TcpClientStat;
  td_bytes_written : TcpClientStat;
}.

Definition Client_details (c : Client) : TcpClientDetails :=
  {| td_id := cl_id c; td_added_at := cl_added_at c; td_tunnel_id := cl_tunnel_id c;
     td_port_offset := cl_port_offset c; td_source_addr := cl_source_addr c;
     td_tunnel_addr := cl_tunnel_addr c; td_origin_addr := cl_origin_addr c;
     td_last_use := last_use (cl_tcp c); td_bytes_written := TcpClient_bytes_written (cl_tcp c) |}.

Inductive Event : Type :=
  | ClearOld
  | NewClientEvent (details : NewClient)
  | ConnectedClient (c : Client)
  | GetDetails.

(** ** The task of a new client *)

(** An operation under a timeout and the cancellation token. *)
Inductive timed (A : Type) : Type :=
  | TCancelled
  | TTimeout
  | TError (e : io_error)
  | TOk (a : A).
Arguments TCancelled {A}.
Arguments TTimeout {A}.
Arguments TError {A} e.
Arguments TOk {A} a.

(** What the task does that others see. *)
Inductive task_event : Type :=
  | TaskError (e : TcpErrors)
  | TaskClaim (addr : SocketAddr)
  | TaskToken (token : list byte)
  | TaskConfirmed (reply : list byte)
  | TaskOrigin (addr : SocketAddr)
  | TaskHeader (data : list byte).

(** A task logs what it does and either goes on with a value or has returned. *)
Definition T (A : Type) : Type := (list task_event * option A)%type.

#[global] Instance T_ret : MRet T := λ A a, ([], Some a).

#[global] Instance T_bind : MBind T := λ A B f m,
  match m with
  | (ev, Some a) => let '(ev', r) := f a in (ev ++ ev', r)
  | (ev, None) => (ev, None)
  end.

Definition t_log (e : task_event) : T () := ([e], Some ()).

Definition t_return {A} : T A := ([], None).

Definition t_fail {A} (e : TcpErrors) : T A := ([TaskError e], None).

(** The value of an operation, or the error counter of its failure. *)
Definition t_await {A} (timeout error : TcpErrors) (r : timed A) : T A :=
  match r with
  | TCancelled => t_return
  | TTimeout => t_fail timeout
  | TError _ => t_fail error
  | TOk a => mret a
  end.

(** What the outside decides: name resolution, the connection to the claim
    address with the bytes the tunnel server will send on it, whether the
    socket options are set, the token's write, the wait for the confirmation,
    the sockets of the local connection with the bytes the local server will
    send, its timing, the header's write, and the clock. *)
Record task_env : Type := {
  te_lookup_host : string → Z → option (list SocketAddr);
  te_claim_connect : SocketAddr → timed (list byte);
  te_tunnel_nodelay : bool → bool;
  te_send_token : timed ();
  te_confirm : timed ();
  te_tcp_new_v4 : outcome io_error ();
  te_tcp_bind : SocketAddr → outcome io_error ();
  te_tcp_connect_from : SocketAddr → SocketAddr → outcome io_error (list byte);
  te_tcp_connect : SocketAddr → outcome io_error (list byte);
  te_origin_time : timed ();
  te_origin_nodelay : bool;
  te_write_header : timed ();
  te_now : Z;
}.

(** The header a client is announced with. *)
Definition proxy_header (details : NewClient) : option ProxyProtocolHeader :=
  match nc_peer_addr details, nc_connect_addr details with
  | SaV4 (SockV4 pip pport), SaV4 (SockV4 tip tport) => Some (AfInet pip tip pport tport)
  | SaV6 (SockV6 pip pport _ _), SaV6 (SockV6 tip tport _ _) => Some (AfInet6 pip tip pport tport)
  | _, _ => None
  end.

(** The bytes a header is written as. *)
Definition header_bytes (proto : ProxyProtocol) (h : ProxyProtocolHeader) : list byte :=
  sk_data (match proto with
           | ProxyProtocolV1 => write_v1_tcp h
           | ProxyProtocolV2 => write_v2_tcp h
           end (Sink [] None)).2.

Section task.
Context {BO : ByteOrder}.

(** [LanAddress::tcp_socket(true, ..)] under its timeout; a panic ends the
    task, like its cancellation. *)
Definition connect_origin (env : task_env) (peer origin_addr : SocketAddr) : timed (list byte) :=
  match te_origin_time env with
  | TOk _ =>
      match LanAddress_tcp_socket (te_tcp_new_v4 env) (te_tcp_bind env) (te_tcp_connect_from env)
              (te_tcp_connect env) true peer origin_addr with
      | Ok origin_in => TOk origin_in
      | Err e => TError e
      | Panic => TCancelled
      end
  | TCancelled => TCancelled
  | TTimeout => TTimeout
  | TError e => TError e
  end.

Definition client_task (env : task_env) (setting_tcp_no_delay : bool) (client_id : Z)
    (found : OriginResource) (details : NewClient) (header : ProxyProtocolHeader) : T Client :=
  match resolve_local (te_lookup_host env) found (nc_port_offset details) with
  | None => t_fail new_client_invalid_port_offset
  | Some origin_addr =>
      (* connect to tunnel server *)
      t_log (TaskClaim (ci_address (nc_claim_instructions details)));;
      tunn_in ← t_await new_client_claim_connect_timeout new_client_claim_connect_error
        (te_claim_connect env (ci_address (nc_claim_instructions details)));
      (if te_tunnel_nodelay env setting_tcp_no_delay then mret ()
       else t_log (TaskError new_client_set_tunnel_no_delay_error));;
      (* send token to tunnel server to claim client *)
      t_await new_client_send_claim_timeout new_client_send_claim_error (te_send_token env);;
      t_log (TaskToken (ci_token (nc_claim_instructions details)));;
      t_await new_client_claim_expect_timeout new_client_claim_expect_error (te_confirm env);;
      match read_exact 8 tunn_in with
      | Ok (reply, tunn_in) =>
          t_log (TaskConfirmed reply);;
          (* connect to origin *)
          t_log (TaskOrigin origin_addr);;
          origin_in ← t_await new_client_origin_connect_timeout new_client_origin_connect_error
            (connect_origin env (nc_peer_addr details) origin_addr);
          (if te_origin_nodelay env then mret ()
           else t_log (TaskError new_client_set_origin_no_delay_error));;
          origin_out ← match or_proxy_protocol found with
                       | Some proto =>
                           t_await new_client_write_proxy_proto_timeout
                             new_client_write_proxy_proto_error (te_write_header env);;
                           t_log (TaskHeader (header_bytes proto header));;
                           mret (header_bytes proto header)
                       | None => mret []
                       end;
          mret {| cl_id := client_id; cl_added_at := te_now env;
                  cl_tunnel_id := nc_tunnel_id details; cl_port_offset := nc_port_offset details;
                  cl_source_addr := nc_peer_addr details; cl_tunnel_addr := nc_connect_addr details;
                  cl_origin_addr := origin_addr;
                  cl_tcp := TcpClient_create (te_now env) tunn_in origin_in
                              (ci_token (nc_claim_instructions details)) origin_out |}
      | _ => t_fail new_client_claim_expect_error
      end
  end.

End task.

(** ** The worker *)

Record Worker : Type := {
  wk_lookup : OriginLookup;
  wk_settings : TcpSettings;
  wk_stats : AgentStats;
  wk_clients : list Client;
  wk_next_client_id : Z;
}.

Definition Worker_new (settings : TcpSettings) (lookup : OriginLookup) (stats : AgentStats) : Worker :=
  {| wk_lookup := lookup; wk_settings := settings; wk_stats := stats; wk_clients := [];
     wk_next_client_id := 1 |}.

(** A task that was started: the arguments of [client_task]. *)
Record spawned : Type := {
  sp_id : Z;
  sp_found : OriginResource;
  sp_details : NewClient;
  sp_header : ProxyProtocolHeader;
}.

Inductive worker_out : Type :=
  | OutError (e : TcpErrors)
  | OutSpawn (t : spawned)
  | OutDetails (l : list TcpClientDetails).

Definition set_clients (w : Worker) (l : list Client) : Worker :=
  {| wk_lookup := wk_lookup w; wk_settings := wk_settings w;
     wk_stats := set_tcp (wk_stats w) (wrap 32 (Z.of_nat (length l)));
     wk_clients := l; wk_next_client_id := wk_next_client_id w |}.

(** The predicate of [retain] in [ClearOld], negated. *)
Definition is_old (now : Z) (c : Client) : bool :=
  let u := last_use (cl_tcp c) in
  let since_tunn := Z.max now (tunn_to_origin u) - tunn_to_origin u in
  let since_orig := Z.max now (origin_to_tunn u) - origin_to_tunn u in
  bool_decide (90000 < since_tunn) && bool_decide (30000 < since_orig) ||
  bool_decide (90000 < since_orig) && bool_decide (30000 < since_tunn) ||
  bool_decide (60000 < since_tunn) && bool_decide (60000 < since_orig).

(** One event, at the time [now]. *)
Definition worker_step (overflow_checks : bool) (now : Z) (ev : Event) (w : Worker) :
    outcome io_error (Worker * list worker_out) :=
  match ev with
  | NewClientEvent details =>
      let client_id := wk_next_client_id w in
      next ← u_add overflow_checks 64 client_id 1;
      let w := {| wk_lookup := wk_lookup w; wk_settings := wk_settings w; wk_stats := wk_stats w;
                  wk_clients := wk_clients w; wk_next_client_id := next |} in
      match OriginLookup_lookup (wk_lookup w) (nc_tunnel_id details) true with
      | None => Ok (w, [OutError new_client_origin_not_found])
      | Some found =>
          match proxy_header details with
          | None => Ok (w, [OutError invalid_proto_match])
          | Some header =>
              Ok (w, [OutSpawn {| sp_id := client_id; sp_found := found; sp_details := details;
                                  sp_header := header |}])
          end
      end
  | GetDetails => Ok (w, [OutDetails (Client_details <$> wk_clients w)])
  | ConnectedClient client => Ok (set_clients w (wk_clients w ++ [client]), [])
  | ClearOld => Ok (set_clients w (filter (λ c, is_old now c = false) (wk_clients w)), [])
  end.

(** [TcpClients::handle_new_client]: the rate limiter's answer, then the event
    channel. *)
Definition handle_new_client (limiter_ok : bool) (new_client : NewClient) : list TcpErrors * list Event :=
  if limiter_ok then ([], [NewClientEvent new_client]) else ([new_client_rate_limited], []).

(** ** Facts: the task *)

Definition is_nodelay_error (e : task_event) : bool :=
  match e with
  | TaskError new_client_set_tunnel_no_delay_error
  | TaskError new_client_set_origin_no_delay_error => true
  | _ => false
  end.

(** The events other than failures to set a socket option, which do not end
    the task. *)
Definition visible (ev : list task_event) : list task_event :=
  filter (λ e, is_nodelay_error e = false) ev.

Definition is_error (e : task_event) : bool :=
  match e with TaskError _ => true | _ => false end.

Section facts.
Context {BO : ByteOrder}.

(** One of the awaited operations is cancelled. *)
Definition task_cancelled (env : task_env) (details : NewClient) (origin_addr : SocketAddr) : Prop :=
  te_claim_connect env (ci_address (nc_claim_instructions details)) = TCancelled ∨
  te_send_token env = TCancelled ∨ te_confirm env = TCancelled ∨
  connect_origin env (nc_peer_addr details) origin_addr = TCancelled ∨
  te_write_header env = TCancelled.

(** A task that failed with an error, or was cancelled. *)
Ltac task_ends H :=
  injection H as <- <-;
  first [ left; by eexists
        | right; split; [reflexivity | eexists; split; [reflexivity | unfold task_cancelled; by eauto 6]] ].

(** A TCP client is claimed before it is connected. The task of a new
    client hands a client to the worker only after it connected to the claim
    address, sent the token and read the eight bytes of the answer, then
    connected to the local address the tunnel resolves to and, when the tunnel
    asks for it, wrote the PROXY header first; nothing the tunnel server sent
    after the answer is lost, and what goes to the local server starts with the
    header. A task that ends without a client counted exactly one error, unless
    it was cancelled. *)
Theorem client_task_spec (env : task_env) (no_delay : bool) (client_id : Z) (found : OriginResource)
    (details : NewClient) (header : ProxyProtocolHeader) :
  let '(ev, r) := client_task env no_delay client_id found details header in
  match r with
  | Some c =>
      ∃ origin_addr reply tunn_in origin_in,
        resolve_local (te_lookup_host env) found (nc_port_offset details) = Some origin_addr ∧
        te_claim_connect env (ci_address (nc_claim_instructions details)) = TOk (reply ++ tunn_in) ∧
        length reply = 8%nat ∧
        connect_origin env (nc_peer_addr details) origin_addr = TOk origin_in ∧
        let hdr := from_option (λ proto, header_bytes proto header) [] (or_proxy_protocol found) in
        visible ev =
          [TaskClaim (ci_address (nc_claim_instructions details));
           TaskToken (ci_token (nc_claim_instructions details)); TaskConfirmed reply;
           TaskOrigin origin_addr] ++
          match or_proxy_protocol found with Some _ => [TaskHeader hdr] | None => [] end ∧
        cl_id c = client_id ∧ cl_origin_addr c = origin_addr ∧
        cl_tunnel_id c = nc_tunnel_id details ∧ cl_source_addr c = nc_peer_addr details ∧
        cl_tcp c = TcpClient_create (te_now env) tunn_in origin_in
                     (ci_token (nc_claim_instructions details)) hdr
  | None =>
      (∃ e, filter (λ e, is_error e = true) (visible ev) = [TaskError e]) ∨
      filter (λ e, is_error e = true) (visible ev) = [] ∧
      ∃ origin_addr,
        resolve_local (te_lookup_host env) found (nc_port_offset details) = Some origin_addr ∧
        task_cancelled env details origin_addr
  end.
Proof.
  destruct (client_task env no_delay client_id found details header) as [ev r] eqn:H.
  unfold client_task in H.
  destruct (resolve_local _ _ _) as [origin_addr|] eqn:Hres;
    [|task_ends H].
  destruct (te_claim_connect env _) as [| |e|tunn_in] eqn:Hclaim; cbn in H; try task_ends H.
  destruct (te_send_token env) as [| |e|[]] eqn:Htok; destruct (te_tunnel_nodelay env no_delay);
    cbn in H; try task_ends H.
  all: destruct (te_confirm env) as [| |e|[]] eqn:Hconf; cbn in H; try task_ends H.
  all: destruct (read_exact_inv 8 tunn_in) as [(reply & rest & Hread & -> & Hlen) | [e Hread]];
    rewrite Hread in H; cbn in H; try task_ends H.
  all: destruct (connect_origin env _ origin_addr) as [| |e|origin_in] eqn:Horig;
    destruct (te_origin_nodelay env); cbn in H; try task_ends H.
  all: destruct (or_proxy_protocol found) as [proto|]; cbn in H;
    try (destruct (te_write_header env) as [| |e|[]] eqn:Hh; cbn in H; try task_ends H).
  all: injection H as <- <-; exists origin_addr, reply, rest, origin_in; by split_and!.
Qed.
End facts.

(** ** Facts: the worker and its tasks *)

Record system : Type := {
  sys_worker : Worker;
  sys_tasks : list spawned;
}.

Definition spawned_of (outs : list worker_out) : list spawned :=
  omap (λ o, match o with OutSpawn t => Some t | _ => None end) outs.

Definition with_tcp (c : Client) (t : TcpClient) : Client :=
  {| cl_id := cl_id c; cl_added_at := cl_added_at c; cl_tunnel_id := cl_tunnel_id c;
     cl_port_offset := cl_port_offset c; cl_source_addr := cl_source_addr c;
     cl_tunnel_addr := cl_tunnel_addr c; cl_origin_addr := cl_origin_addr c; cl_tcp := t |}.

Definition with_traffic (w : Worker) (l : list Client) (stats : AgentStats) : Worker :=
  {| wk_lookup := wk_lookup w; wk_settings := wk_settings w; wk_stats := stats; wk_clients := l;
     wk_next_client_id := wk_next_client_id w |}.

(** The worker, the tasks it started and the pipes run concurrently: events of
    the worker, ends of tasks and traffic, in any order. *)
Inductive sys_step {BO : ByteOrder} (overflow_checks : bool) : system → system → Prop :=
  | step_event now ev s w' outs :
      match ev with ConnectedClient _ => False | _ => True end →
      worker_step overflow_checks now ev (sys_worker s) = Ok (w', outs) →
      sys_step overflow_checks s
        {| sys_worker := w'; sys_tasks := sys_tasks s ++ spawned_of outs |}
  | step_task env now s t1 t t2 ev c w' outs :
      sys_tasks s = t1 ++ t :: t2 →
      client_task env (tcp_no_delay (wk_settings (sys_worker s))) (sp_id t) (sp_found t)
        (sp_details t) (sp_header t) = (ev, Some c) →
      worker_step overflow_checks now (ConnectedClient c) (sys_worker s) = Ok (w', outs) →
      sys_step overflow_checks s {| sys_worker := w'; sys_tasks := t1 ++ t2 |}
  | step_task_fails s t1 t t2 :
      sys_tasks s = t1 ++ t :: t2 →
      sys_step overflow_checks s {| sys_worker := sys_worker s; sys_tasks := t1 ++ t2 |}
  | step_traffic inputs s l1 c l2 pipe stats :
      wk_clients (sys_worker s) = l1 ++ c :: l2 →
      pipe_run inputs (tc_tunn_to_origin (cl_tcp c), Some (wk_stats (sys_worker s))) =
        (pipe, Some stats) →
      sys_step overflow_checks s
        {| sys_worker := with_traffic (sys_worker s)
             (l1 ++ with_tcp c {| tc_tunn_to_origin := pipe;
                                  tc_origin_to_tunn := tc_origin_to_tunn (cl_tcp c) |} :: l2) stats;
           sys_tasks := sys_tasks s |}
  | step_traffic_back inputs s l1 c l2 pipe stats :
      wk_clients (sys_worker s) = l1 ++ c :: l2 →
      pipe_run inputs (tc_origin_to_tunn (cl_tcp c), Some (wk_stats (sys_worker s))) =
        (pipe, Some stats) →
      sys_step overflow_checks s
        {| sys_worker := with_traffic (sys_worker s)
             (l1 ++ with_tcp c {| tc_tunn_to_origin := tc_tunn_to_origin (cl_tcp c);
                                  tc_origin_to_tunn := pipe |} :: l2) stats;
           sys_tasks := sys_tasks s |}.

(** The ids in use. *)
Definition sys_ids (s : system) : list Z :=
  (cl_id <$> wk_clients (sys_worker s)) ++ (sp_id <$> sys_tasks s).

Definition sys_inv (s : system) : Prop :=
  NoDup (sys_ids s) ∧ Forall (λ i, 1 ≤ i < wk_next_client_id (sys_worker s)) (sys_ids s) ∧
  1 ≤ wk_next_client_id (sys_worker s) ∧
  active_tcp (wk_stats (sys_worker s)) = wrap 32 (Z.of_nat (length (wk_clients (sys_worker s)))).

Lemma sys_ids_drop s t1 t t2 :
  sys_tasks s = t1 ++ t :: t2 →
  sys_ids s ≡ₚ sp_id t :: (cl_id <$> wk_clients (sys_worker s)) ++ (sp_id <$> t1 ++ t2).
Proof.
  intros Ht. unfold sys_ids. rewrite Ht, !fmap_app, fmap_cons.
  rewrite <-!Permutation_middle. done.
Qed.

Lemma count_stats_gauges d n s :
  active_tcp (count_stats d n s) = active_tcp s ∧ active_udp (count_stats d n s) = active_udp s.
Proof. by destruct d. Qed.

Lemma pipe_run_gauges inputs p s p' s' :
  pipe_run inputs (p, Some s) = (p', Some s') → active_tcp s' = active_tcp s.
Proof.
  revert p s. induction inputs as [|i inputs IH]; intros p s H; cbn [pipe_run fst] in H;
    [by simplify_eq|].
  destruct (pp_ended p); [by simplify_eq|].
  destruct (pipe_step i (p, Some s)) as [q [t|]] eqn:Hs.
  - apply IH in H. rewrite H. unfold pipe_step in Hs.
    destruct i as [| |ready res]; [by simplify_eq | by simplify_eq |].
    case_decide; [by simplify_eq|]. destruct res; cbn in Hs; simplify_eq; [done|].
    apply count_stats_gauges.
  - exfalso. unfold pipe_step in Hs.
    destruct i as [| |ready res]; [done | done |]. case_decide; [done|]. by destruct res.
Qed.

Section system.
Context {BO : ByteOrder}.

Lemma client_task_id env nd id found details header ev c :
  client_task env nd id found details header = (ev, Some c) → cl_id c = id.
Proof.
  unfold client_task. intros H. destruct (resolve_local _ _ _); [|done].
  destruct (te_claim_connect env _) as [| |e|tunn_in]; cbn in H; try done.
  destruct (te_send_token env), (te_tunnel_nodelay env nd); cbn in H; try done.
  all: destruct (te_confirm env); cbn in H; try done.
  all: destruct (read_exact 8 tunn_in) as [[reply rest]| |]; cbn in H; try done.
  all: destruct (connect_origin env _ _), (te_origin_nodelay env); cbn in H; try done.
  all: destruct (or_proxy_protocol found); cbn in H; try (destruct (te_write_header env); cbn in H).
  all: try done; by simplify_eq.
Qed.

Lemma sys_inv_sublist s w' tasks' :
  sys_inv s → wk_next_client_id w' = wk_next_client_id (sys_worker s) →
  active_tcp (wk_stats w') = wrap 32 (Z.of_nat (length (wk_clients w'))) →
  NoDup ((cl_id <$> wk_clients w') ++ (sp_id <$> tasks')) →
  (cl_id <$> wk_clients w') ++ (sp_id <$> tasks') ⊆ sys_ids s →
  sys_inv {| sys_worker := w'; sys_tasks := tasks' |}.
Proof.
  intros (Hnd & Hall & Hpos & Hst) Hn Hst' Hnd' Hsub. unfold sys_inv, sys_ids. cbn.
  rewrite Hn. split_and!; [done | | done | done].
  rewrite Forall_forall in Hall |- *. intros i Hi. by apply Hall, Hsub.
Qed.

(** Traffic changes no id. *)
Lemma sys_inv_traffic s l1 c l2 t stats :
  sys_inv s → wk_clients (sys_worker s) = l1 ++ c :: l2 →
  active_tcp stats = active_tcp (wk_stats (sys_worker s)) →
  sys_inv {| sys_worker := with_traffic (sys_worker s) (l1 ++ with_tcp c t :: l2) stats;
             sys_tasks := sys_tasks s |}.
Proof.
  intros Hinv Hl Hst.
  assert ((cl_id <$> l1 ++ with_tcp c t :: l2) = (cl_id <$> wk_clients (sys_worker s))) as Hids
    by (rewrite Hl, !fmap_app, !fmap_cons; done).
  pose proof Hinv as (Hnd & _ & _ & Hgauge).
  apply (sys_inv_sublist s); cbn; try done.
  - rewrite Hst, Hgauge, Hl, !length_app. done.
  - rewrite Hids. exact Hnd.
  - by rewrite Hids.
Qed.

Lemma sys_inv_clear s now :
  sys_inv s →
  sys_inv {| sys_worker := set_clients (sys_worker s)
               (filter (λ c, is_old now c = false) (wk_clients (sys_worker s)));
             sys_tasks := sys_tasks s |}.
Proof.
  intros Hinv. pose proof Hinv as (Hnd & _).
  assert (sublist ((cl_id <$> filter (λ c, is_old now c = false) (wk_clients (sys_worker s))) ++
             (sp_id <$> sys_tasks s)) (sys_ids s)) as Hsub.
  { unfold sys_ids. apply sublist_app; [|done]. apply fmap_sublist, sublist_filter. }
  apply (sys_inv_sublist s); cbn; try done.
  - by eapply sublist_NoDup.
  - intros x Hx. by eapply sublist_subseteq.
Qed.

Lemma sys_inv_new s details next found header :
  sys_inv s → next = wk_next_client_id (sys_worker s) + 1 →
  sys_inv {| sys_worker := {| wk_lookup := wk_lookup (sys_worker s);
               wk_settings := wk_settings (sys_worker s); wk_stats := wk_stats (sys_worker s);
               wk_clients := wk_clients (sys_worker s); wk_next_client_id := next |};
             sys_tasks := sys_tasks s ++ match found with
               | Some f => [{| sp_id := wk_next_client_id (sys_worker s); sp_found := f;
                               sp_details := details; sp_header := header |}]
               | None => [] end |}.
Proof.
  intros (Hnd & Hall & Hpos & Hst) ->. unfold sys_inv, sys_ids. cbn.
  rewrite fmap_app, app_assoc. fold (sys_ids s).
  assert (Forall (λ i, 1 ≤ i < wk_next_client_id (sys_worker s) + 1) (sys_ids s)) as Hall'
    by (eapply Forall_impl; [exact Hall|]; cbn; lia).
  destruct found as [f|]; cbn; [|rewrite app_nil_r; split_and!; done || lia].
  split_and!; [| | lia | done].
  - apply NoDup_app. split_and!; [done | | apply NoDup_singleton].
    intros x Hx Hin. apply list_elem_of_singleton in Hin. rewrite Forall_forall in Hall.
    apply Hall in Hx. lia.
  - apply Forall_app. split; [done|]. apply Forall_singleton. lia.
Qed.

Lemma sys_inv_connected s t1 t t2 c :
  sys_inv s → sys_tasks s = t1 ++ t :: t2 → cl_id c = sp_id t →
  sys_inv {| sys_worker := set_clients (sys_worker s) (wk_clients (sys_worker s) ++ [c]);
             sys_tasks := t1 ++ t2 |}.
Proof.
  intros Hinv Ht Hid. pose proof Hinv as (Hnd & _).
  pose proof (sys_ids_drop s t1 t t2 Ht) as Hp.
  assert ((cl_id <$> wk_clients (sys_worker s) ++ [c]) ++ (sp_id <$> t1 ++ t2) ≡ₚ sys_ids s) as Hp'.
  { rewrite Hp, fmap_app. cbn. rewrite Hid, <-app_assoc. symmetry. apply Permutation_middle. }
  apply (sys_inv_sublist s); cbn; try done.
  - by rewrite Hp'.
  - by rewrite Hp'.
Qed.

Lemma sys_step_inv oc s s' :
  sys_inv s → wk_next_client_id (sys_worker s) < 2 ^ 64 - 1 → sys_step oc s s' →
  sys_inv s' ∧ wk_next_client_id (sys_worker s') ≤ wk_next_client_id (sys_worker s) + 1.
Proof.
  intros Hinv Hnext Hstep.
  destruct Hstep as [now ev s w' outs Hev Hw | env now s t1 t t2 ev c w' outs Ht Hc Hw
    | s t1 t t2 Ht | inputs s l1 c l2 pipe stats Hl Hrun | inputs s l1 c l2 pipe stats Hl Hrun].
  - destruct ev as [|details|c|]; [| |done|]; cbn in Hw.
    + injection Hw as <- <-. cbn. rewrite app_nil_r. split; [by apply sys_inv_clear | lia].
    + rewrite u_add_fits in Hw by lia. cbn in Hw.
      destruct (OriginLookup_lookup _ _ _) as [found|]; [destruct (proxy_header details) as [h|]|];
        injection Hw as <- <-; cbn; (split; [|lia]).
      * by apply (sys_inv_new s details _ (Some found) h).
      * by apply (sys_inv_new s details _ None (AfInet 0 0 0 0)).
      * by apply (sys_inv_new s details _ None (AfInet 0 0 0 0)).
    + injection Hw as <- <-. cbn. rewrite app_nil_r. split; [by destruct s | lia].
  - cbn in Hw. injection Hw as <- <-. split; [|cbn; lia].
    eapply sys_inv_connected; [done | done |]. by eapply client_task_id.
  - split; [|cbn; lia]. pose proof Hinv as (Hnd & _ & _ & Hst).
    pose proof (sys_ids_drop s t1 t t2 Ht) as Hp. rewrite Hp in Hnd. apply NoDup_cons in Hnd as [_ Hnd].
    apply (sys_inv_sublist s); cbn; try done. rewrite Hp. by apply list_subseteq_cons.
  - split; [|cbn; lia]. eapply sys_inv_traffic; [done | done | by eapply pipe_run_gauges].
  - split; [|cbn; lia]. eapply sys_inv_traffic; [done | done | by eapply pipe_run_gauges].
Qed.

Lemma sys_steps_inv oc n s s' :
  nsteps (sys_step oc) n s s' → sys_inv s →
  wk_next_client_id (sys_worker s) + Z.of_nat n ≤ 2 ^ 64 - 1 →
  sys_inv s' ∧ wk_next_client_id (sys_worker s') ≤ wk_next_client_id (sys_worker s) + Z.of_nat n.
Proof.
  intros Hsteps. induction Hsteps as [s | n s s1 s2 Hstep Hsteps IH]; intros Hinv Hn; [split; [done|lia]|].
  destruct (sys_step_inv _ _ _ Hinv ltac:(lia) Hstep) as [Hinv1 Hn1].
  destruct IH as [? ?]; [done | lia |]. split; [done|lia].
Qed.

(** What clearing reads of a pipe: when it was last used, or 0 once it ended. *)
Lemma last_activity_open p :
  TcpPipe_is_closed p = false → last_activity p = last_activity_cell (pp_shared p).
Proof. intros Hp%bool_decide_eq_false. unfold last_activity. by rewrite decide_False. Qed.

Lemma last_activity_ended p : TcpPipe_is_closed p = true → last_activity p = 0.
Proof. intros Hp%bool_decide_eq_true. unfold last_activity. by rewrite decide_True. Qed.

(** C40: The table of TCP clients. However events, tasks and traffic
    interleave, for fewer than 2^64 - 2 steps: no two clients or pending tasks
    share an id, ids are only handed out once, and the gauge of active
    connections is the size of the table. And clearing keeps a client both of
    whose pipes are open when either was used within the last thirty seconds,
    and removes it when both were unused for more than a minute, or one for
    more than ninety seconds and the other for more than thirty. A client with
    an ended pipe is judged by the other pipe alone, however recently the
    ended one was used: once the clock is past ninety seconds it is kept
    exactly when the other pipe is open and was used within the last thirty
    seconds. *)
Theorem tcp_clients_table (overflow_checks : bool) (settings : TcpSettings) (lookup : OriginLookup)
    (n : nat) (s : system) (now : Z) :
  nsteps (sys_step overflow_checks) n
    {| sys_worker := Worker_new settings lookup AgentStats_new; sys_tasks := [] |} s →
  Z.of_nat n < 2 ^ 64 - 2 →
  sys_inv s ∧
  ∃ w', worker_step overflow_checks now ClearOld (sys_worker s) = Ok (w', []) ∧
    ∀ c, c ∈ wk_clients (sys_worker s) →
      let ended := TcpPipe_is_closed in
      let unused p := now - last_activity_cell (pp_shared p) in
      let tunn := tc_tunn_to_origin (cl_tcp c) in
      let orig := tc_origin_to_tunn (cl_tcp c) in
      (ended tunn = false → ended orig = false →
        (unused tunn ≤ 30000 ∨ unused orig ≤ 30000 → c ∈ wk_clients w') ∧
        (60000 < unused tunn ∧ 60000 < unused orig ∨
         90000 < unused tunn ∧ 30000 < unused orig ∨
         90000 < unused orig ∧ 30000 < unused tunn → c ∉ wk_clients w')) ∧
      (90000 < now →
        (ended tunn = true → c ∈ wk_clients w' ↔ ended orig = false ∧ unused orig ≤ 30000) ∧
        (ended orig = true → c ∈ wk_clients w' ↔ ended tunn = false ∧ unused tunn ≤ 30000)).
Proof.
  intros Hsteps Hn. split.
  - eapply (sys_steps_inv _ n) in Hsteps; [apply Hsteps | | cbn; lia].
    split_and!; [apply NoDup_nil_2 | apply Forall_nil_2 | cbn; lia | done].
  - eexists. split; [done|]. intros c Hc ended unused tunn orig. cbn [wk_clients set_clients].
    assert (Hkept : c ∈ filter (λ c, is_old now c = false) (wk_clients (sys_worker s)) ↔ is_old now c = false)
      by (rewrite list_elem_of_filter; naive_solver).
    rewrite !Hkept. clear Hkept. unfold is_old, last_use. cbn [tunn_to_origin origin_to_tunn]. fold tunn orig.
    rewrite !orb_false_iff, !andb_false_iff, !bool_decide_eq_false. subst ended unused. cbn beta.
    split; [|intros Hnow; split].
    + intros Ht Ho. rewrite (last_activity_open _ Ht), (last_activity_open _ Ho). lia.
    + intros Ht. rewrite (last_activity_ended _ Ht).
      destruct (TcpPipe_is_closed orig) eqn:Ho;
        [rewrite (last_activity_ended _ Ho) | rewrite (last_activity_open _ Ho)]; split; intuition (lia || done).
    + intros Ho. rewrite (last_activity_ended _ Ho).
      destruct (TcpPipe_is_closed tunn) eqn:Ht;
        [rewrite (last_activity_ended _ Ht) | rewrite (last_activity_open _ Ht)]; split; intuition (lia || done).
Qed.
End system.

(** ** Witness *)

Definition sample_new_client : NewClient :=
  {| nc_connect_addr := SaV4 (SockV4 1 80); nc_peer_addr := SaV4 (SockV4 2 4000);
     nc_data_center_id := 1; nc_tunnel_id := or_tunnel_id sample_resource; nc_port_offset := 0;
     nc_claim_instructions := {| ci_address := SaV4 (SockV4 3 81); ci_token := [Byte.x07] |} |}.

Definition sample_system (lookup : OriginLookup) : system :=
  {| sys_worker := Worker_new TcpSettings_default lookup AgentStats_new; sys_tasks := [] |}.

Lemma tcp_clients_table_witness :
  ∃ s, sys_step (BO := big_endian) false
         (sample_system (OriginLookup_update OriginLookup_default [sample_resource])) s ∧
       (length (sys_ids s) ≤ 1)%nat ∧ sys_inv s.
Proof.
  set (lookup := OriginLookup_update OriginLookup_default [sample_resource]).
  assert (∃ w' outs, worker_step false 1000 (NewClientEvent sample_new_client)
    (sys_worker (sample_system lookup)) = Ok (w', outs) ∧
    (length (sys_ids {| sys_worker := w'; sys_tasks := [] ++ spawned_of outs |}) ≤ 1)%nat) as (w' & outs & Hw & Hlen).
  { eexists _, _. split; [vm_compute; reflexivity | vm_compute; lia]. }
  assert (sys_step (BO := big_endian) false (sample_system lookup)
    {| sys_worker := w'; sys_tasks := [] ++ spawned_of outs |}) as Hstep
    by (eapply (step_event false 1000); [|exact Hw]; exact I).
  eexists. split; [exact Hstep|]. split; [exact Hlen|].
  apply (tcp_clients_table (BO := big_endian) false TcpSettings_default lookup 1
    {| sys_worker := w'; sys_tasks := [] ++ spawned_of outs |} 5000).
  - eapply nsteps_l; [exact Hstep | apply nsteps_O].
  - vm_compute. reflexivity.
Defined.
