(* ===== verification/PlayitAgent.v ===== *)
(** * The agent (agent_core/src/playit_agent.rs)

    Two tasks: the tunnel task drives the control session and hands new
    clients and UDP sessions on; the UDP task moves datagrams between local
    sockets and the channel. They share one flag, by which the UDP task asks
    for its session to be renewed. Cancellation stops a task between two awaits
    and has no other effect on its state. *)

From S2P Require Import Prelude Bytes Net Wire Proto ControlMessages ControlFormat ControlFeed.
From S2P Require Import ProtoTheorems UdpProto Packets Utils UdpClients UdpChannel ControlIo.
From S2P Require Import ControlConnect EstablishedControl MaintainedControl TcpClients.

(** ** The tunnel task *)

Section tunnel.
Context {BO : ByteOrder} {ML : EncodingLib} {WL : WatchLib}.
Context (hex_decode : string → option (list byte)) (overflow_checks : bool).

Record TunnelTask : Type := {
  tt_control : MaintainedControl;
  tt_last_control_addr_check : Z;
  tt_should_renew_udp : bool;
}.

Definition tt_set_control (t : TunnelTask) (m : MaintainedControl) : TunnelTask :=
  {| tt_control := m; tt_last_control_addr_check := tt_last_control_addr_check t;
     tt_should_renew_udp := tt_should_renew_udp t |}.

Definition tt_set_check (now : Z) (t : TunnelTask) : TunnelTask :=
  {| tt_control := tt_control t; tt_last_control_addr_check := now;
     tt_should_renew_udp := tt_should_renew_udp t |}.

Definition tt_set_renew (b : bool) (t : TunnelTask) : TunnelTask :=
  {| tt_control := tt_control t; tt_last_control_addr_check := tt_last_control_addr_check t;
     tt_should_renew_udp := b |}.

Definition m_maintained {A} (c : M MaintainedControl A) : M TunnelTask A :=
  m_zoom tt_control tt_set_control c.

(** [should_renew_udp.load()], and the request it leads to. *)
Definition renew_phase : M TunnelTask () :=
  t ← m_get;
  if tt_should_renew_udp t then
    now ← m_now;
    m_maintained (send_udp_session_auth overflow_checks now 5000);;
    mret ()
  else mret ().

(** The reload: forced by a hard reconnect request, or every thirty seconds.
    The result is that of the reload, if there was one. *)
Definition reload_phase : M TunnelTask (option (result SetupError bool)) :=
  now ← m_now;
  t ← m_get;
  let '(force_reload, control) := take_hard_reconnect_request (tt_control t) in
  m_put (tt_set_control t control);;
  let periodic_reload := bool_decide (30000 < saturating_sub now (tt_last_control_addr_check t)) in
  if force_reload || periodic_reload then
    m_modify (tt_set_check now);;
    r ← m_maintained (reload_control_addr hex_decode force_reload);
    match r with
    | ROk _ => m_modify (λ t, if force_reload then tt_set_renew true t else t)
    | RErr _ => mret ()
    end;;
    mret (Some r)
  else mret None.

Definition tunnel_iteration : M TunnelTask (option TunnelControlEvent) :=
  renew_phase;;
  reload_phase;;
  m_maintained (update hex_decode overflow_checks).

(** The loop; between two iterations the UDP task may set the flag. *)
Fixpoint tunnel_loop (flags : list bool) : M TunnelTask (list (option TunnelControlEvent)) :=
  match flags with
  | [] => mret []
  | flag :: flags =>
      m_modify (tt_set_renew flag);;
      ev ← tunnel_iteration;
      evs ← tunnel_loop flags;
      mret (ev :: evs)
  end.
End tunnel.

(** What the task does with an event: a client goes to the TCP worker, a UDP
    session into the channel of eight to the UDP task, unless it is full. *)
Definition dispatch_event (limiter_ok : bool) (ev : option TunnelControlEvent)
    (sessions : list UdpChannelDetails) : list TcpErrors * list Event * list UdpChannelDetails :=
  match ev with
  | Some (EvNewClient new_client) => (handle_new_client limiter_ok new_client, sessions)
  | Some (EvUdpChannelDetails udp_details) =>
      ([], [], if decide (length sessions < 8)%nat then sessions ++ [udp_details] else sessions)
  | None => ([], [], sessions)
  end.

(** ** The UDP task *)

Section udp.
Context {BO : ByteOrder} {SL : SlabLib} {sock : Type}.

Inductive udp_input : Type :=
  | UdpOrigin (recv : UdpReceivedPacket)
  | UdpTunnel (flow : UdpFlow) (packet : OwnedPacket)
  | UdpSession (session : option UdpChannelDetails)
  | UdpClear
  | UdpIdle.

(** What is handed to the channel. *)
Inductive udp_output : Type :=
  | ToChannel (flow : UdpFlow) (packet : OwnedPacket)
  | ToSession (details : UdpChannelDetails).

(** [udp_needs_renew]. *)
Definition udp_needs_renew (shared : Shared) (now : Z) : bool :=
  match time_since_established shared now with
  | Some since => bool_decide (6000 ≤ since)
  | None => true
  end.

(** One turn of the loop: the clients, what goes to the channel, and the flag,
    if the turn stores it. [None] when the task ends. *)
Definition udp_step (overflow_checks : bool) (env : udp_env) (shared : Shared) (now : Z)
    (i : udp_input) (u : UdpClients (sock := sock)) :
    outcome io_error (option (UdpClients (sock := sock) * list udp_output * option bool)) :=
  let renew := Some (udp_needs_renew shared now) in
  match i with
  | UdpOrigin recv =>
      '(out, u) ← dispatch_origin_packet overflow_checks u now recv;
      match out with
      | None => Ok (Some (u, [], None))
      | Some (flow, packet) => Ok (Some (u, [ToChannel flow packet], renew))
      end
  | UdpTunnel flow packet =>
      u ← handle_tunneled_packet env u now flow packet;
      Ok (Some (u, [], renew))
  | UdpSession None => Ok None
  | UdpSession (Some session) => Ok (Some (u, [ToSession session], renew))
  | UdpClear =>
      u ← clear_old env u now;
      Ok (Some (u, [], renew))
  | UdpIdle => Ok (Some (u, [], renew))
  end.
End udp.

(** ** Facts *)

Section facts.
Context {BO : ByteOrder} {ML : EncodingLib} {WL : WatchLib}.
Context {BOL : ByteOrderLaws BO} {MLL : EncodingLaws ML} {WLL : WatchLaws WL}.
Context (hex_decode : string → option (list byte)).

Definition tunnel_wf (t : TunnelTask) : Prop := maintained_wf (tt_control t).

(** A reload keeps the control well formed. *)
Lemma reloaded_wf a force m r m' :
  maintained_wf m → reloaded a force m r m' → maintained_wf m'.
Proof.
  intros Hm Hr.
  assert (∀ v, maintained_wf (mc_set_watch v m)) as Hsame by (intros v; exact Hm).
  destruct r as [[updated|e]| |]; cbn in Hr; [| | |done];
    [|by destruct Hr as [[v ->] _]..].
  destruct Hr as (n & addrs & _ & [(-> & _) | [(Hf & Hh & _) Hu]]); [done|].
  split; [|by rewrite Hh]. destruct updated.
  - destruct Hu as (_ & _ & _ & Hping & id & k & data & rest & _ & Hread).
    apply ControlFeed_read_wf in Hread. split; [exact Hread | by rewrite Hping].
  - destruct Hu as [-> _]. apply Hm.
Qed.

Lemma m_keeps_maintained {A} (c : M MaintainedControl A) :
  m_keeps maintained_wf c → m_keeps tunnel_wf (m_maintained c).
Proof. intros Hc. by eapply m_keeps_zoom; [..|exact Hc]. Qed.

Lemma renew_phase_keeps : m_keeps tunnel_wf (renew_phase false).
Proof.
  apply m_keeps_bind; [eapply (m_keeps_safe _ _ 0), m_safe_get|]. intros t.
  destruct (tt_should_renew_udp t); [|apply m_keeps_ret].
  apply m_keeps_bind; [eapply m_keeps_safe, m_safe_now|]. intros now.
  apply m_keeps_bind; [|intros; apply m_keeps_ret].
  eapply m_keeps_maintained, m_keeps_safe, send_udp_session_auth_safe.
Qed.

Lemma reload_keeps force : m_keeps maintained_wf (reload_control_addr hex_decode force).
Proof.
  intros m w Hc Hm. eapply m_wp_mono; [by apply reload_ends|].
  intros r m' w' [Hr Hw]. split_and!; [by destruct r | by eapply reloaded_wf | done].
Qed.

(** How the reload phase ends. *)
Lemma reload_phase_ends t w :
  clock_ok (wd w) → tunnel_wf t →
  m_wp (reload_phase hex_decode) t w (λ r t' w',
    r ≠ MPanic ∧ tunnel_wf t' ∧ wd w' = wd w ∧
    let now := wd_clock (wd w) (wd_pos w) in
    let force := mc_hard_reconnect_requested (tt_control t) in
    (r = MDone None →
       force = false ∧ saturating_sub now (tt_last_control_addr_check t) ≤ 30000) ∧
    (∀ res, r = MDone (Some res) →
       tt_last_control_addr_check t' = now ∧
       (mc_hard_reconnect_requested (tt_control t') = false) ∧
       tt_should_renew_udp t' =
         match res with ROk _ => force || tt_should_renew_udp t | RErr _ => tt_should_renew_udp t end)).
Proof.
  intros Hc Ht. unfold reload_phase. apply m_wp_bind. unfold m_wp at 1, m_now.
  apply m_wp_bind. unfold m_wp at 1, m_get. cbn [take_hard_reconnect_request].
  apply m_wp_bind. unfold m_wp at 1, m_put.
  set (force := mc_hard_reconnect_requested (tt_control t)).
  set (m1 := mc_set_failures _ false (tt_control t)).
  assert (maintained_wf m1) as Hm1 by (destruct Ht as [? _]; by split).
  destruct (force || _) eqn:Hgo.
  - apply m_wp_bind. unfold m_wp at 1, m_modify. apply m_wp_bind.
    unfold m_wp at 1, m_maintained, m_zoom.
    match goal with |- context [reload_control_addr hex_decode force ?m ?w] =>
      pose proof (reload_ends hex_decode force m w Hc) as Hend; unfold m_wp in Hend;
      destruct (reload_control_addr hex_decode force m w) as [[r m'] w'] end.
    destruct Hend as [Hr Hw]. pose proof (reloaded_wf _ _ _ _ _ Hm1 Hr) as Hm'.
    assert (∀ e, r = MDone e → mc_hard_reconnect_requested m' = false) as Hhard.
    { intros e ->. destruct e as [u|e]; cbn in Hr.
      - destruct Hr as (? & ? & _ & [(-> & _)|[(_ & Hh & _) _]]); done.
      - by destruct Hr as [[v ->] _]. }
    destruct r as [[u|e]| |]; [| | |done]; unfold m_wp, mbind, M_bind, m_modify, mret, M_ret; cbn.
    + split_and!; try done; [by destruct force|]. intros res [= <-].
      destruct force; (split_and!; [done | by eapply Hhard | done]).
    + split_and!; try done. intros res [= <-]. split_and!; [done | by eapply Hhard | done].
    + by split_and!.
  - unfold m_wp, mret, M_ret. split_and!; try done.
    intros _. apply orb_false_iff in Hgo as [-> Hp]. split; [done|].
    apply bool_decide_eq_false in Hp. cbn in Hp. lia.
Qed.

Lemma tunnel_iteration_keeps : m_keeps tunnel_wf (tunnel_iteration hex_decode false).
Proof.
  apply m_keeps_bind; [apply renew_phase_keeps|]. intros _. apply m_keeps_bind.
  - intros t w Hc Ht. eapply m_wp_mono; [by apply reload_phase_ends|]. naive_solver.
  - intros _. eapply m_keeps_maintained, m_keeps_safe, update_safe_aux.
Qed.

Lemma tunnel_loop_keeps flags : m_keeps tunnel_wf (tunnel_loop hex_decode false flags).
Proof.
  induction flags as [|flag flags IH]; cbn [tunnel_loop]; [apply m_keeps_ret|].
  apply m_keeps_bind; [by apply m_keeps_modify|]. intros _.
  apply m_keeps_bind; [apply tunnel_iteration_keeps|]. intros ev.
  apply m_keeps_bind; [exact IH|]. intros evs. apply m_keeps_ret.
Qed.
(** The tunnel task. In the release build, whatever the network, the API,
    the clock and the UDP task do, the loop runs on without a panic and keeps a
    session whose requests can be written. In each iteration, the addresses
    are reloaded when a hard reconnect was requested or the last reload is more
    than thirty seconds old, the request is taken back, and after a forced
    reload that succeeded a new UDP session is asked for. *)
Theorem tunnel_task_spec (t : TunnelTask) (w : world) (flags : list bool) :
  clock_ok (wd w) → tunnel_wf t →
  (let '(r, t', w') := tunnel_loop hex_decode false flags t w in
   r ≠ MPanic ∧ tunnel_wf t' ∧ wd w' = wd w) ∧
  (let '(r, t', _) := reload_phase hex_decode t w in
   let now := wd_clock (wd w) (wd_pos w) in
   let force := mc_hard_reconnect_requested (tt_control t) in
   (r = MDone None →
      force = false ∧ saturating_sub now (tt_last_control_addr_check t) ≤ 30000) ∧
   (∀ res, r = MDone (Some res) →
      tt_last_control_addr_check t' = now ∧
      mc_hard_reconnect_requested (tt_control t') = false ∧
      tt_should_renew_udp t' =
        match res with ROk _ => force || tt_should_renew_udp t | RErr _ => tt_should_renew_udp t end)).
Proof.
  intros Hc Ht. split.
  - exact (tunnel_loop_keeps flags t w Hc Ht).
  - pose proof (reload_phase_ends t w Hc Ht) as H. unfold m_wp in H.
    destruct (reload_phase hex_decode t w) as [[r t'] w']. apply H.
Qed.
End facts.

(** ** Witness *)

#[local] Existing Instance big_endian.
#[local] Existing Instance big_endian_laws.
#[local] Existing Instance reference_encoding.
#[local] Existing Instance reference_encoding_laws.
#[local] Existing Instance ref_watch.
#[local] Existing Instance ref_watch_laws.

Definition sample_tunnel_task : TunnelTask :=
  {| tt_control := mc_set_failures 3 true sample_maintained; tt_last_control_addr_check := 8000;
     tt_should_renew_udp := false |}.

Lemma tunnel_task_spec_witness :
  (tunnel_loop (λ _, None) false [true; false] sample_tunnel_task (sample_world sample_refusing)).1.1 ≠
    MPanic ∧
  mc_hard_reconnect_requested (tt_control
    (reload_phase (λ _, None) sample_tunnel_task (sample_world sample_refusing)).1.2) = false.
Proof.
  destruct (tunnel_task_spec (λ _, None) sample_tunnel_task (sample_world sample_refusing) [true; false])
    as [H1 H2].
  - intros n. decide_now.
  - split; [split; decide_now | intros _; cbn; lia].
  - split.
    + destruct (tunnel_loop _ _ _ _ _) as [[r t'] w']. apply H1.
    + destruct (reload_phase _ _ _) as [[r t'] w'] eqn:Hrun. destruct H2 as [_ H2].
      apply (H2 (RErr FailedToConnect)).
      apply (f_equal (λ x, x.1.1)) in Hrun. cbn [fst] in Hrun. rewrite <-Hrun. vm_compute. reflexivity.
Defined.
