(* ===== verification/ApiTunnels.v ===== *)
(** * Documents of the tunnel and agent calls (api_client/src/api.rs)

    Requests, answers and failures of [tunnels_*], [agents_*] and their [v1]
    versions, as serde derives their documents. *)

From S2P Require Import Prelude Net Json OriginLookup Api.
#[local] Open Scope string_scope.
#[local] Open Scope list_scope.
#[local] Open Scope Z_scope.

Section api.
Context {FM : Formats} {FL : FormatsLaws FM}.

Record ReqTunnelsListV1 : Set := ReqTunnelsListV1_new {}.

#[global] Instance ReqTunnelsListV1_serde : Serde ReqTunnelsListV1 := {|
  to_value _ := Object [];
  from_value v := _ ← entries_of v; Some ReqTunnelsListV1_new |}.

#[global] Instance ReqTunnelsListV1_laws : SerdeLaws ReqTunnelsListV1 (λ _, True).
Proof. by split; [intros []|]. Qed.

Inductive AccountTunnelOfflineReason : Set :=
  | AccountTunnelOfflineReason_OriginNotSet
  | AccountTunnelOfflineReason_AgentDisabled
  | AccountTunnelOfflineReason_AgentOverLimit
  | AccountTunnelOfflineReason_TunnelDisabled
  | AccountTunnelOfflineReason_PublicAllocationMissing
  | AccountTunnelOfflineReason_PublicAllocationPending.

Definition AccountTunnelOfflineReason_name (x : AccountTunnelOfflineReason) : string :=
  match x with
  | AccountTunnelOfflineReason_OriginNotSet => "OriginNotSet"
  | AccountTunnelOfflineReason_AgentDisabled => "AgentDisabled"
  | AccountTunnelOfflineReason_AgentOverLimit => "AgentOverLimit"
  | AccountTunnelOfflineReason_TunnelDisabled => "TunnelDisabled"
  | AccountTunnelOfflineReason_PublicAllocationMissing => "PublicAllocationMissing"
  | AccountTunnelOfflineReason_PublicAllocationPending => "PublicAllocationPending"
  end.

#[global] Instance AccountTunnelOfflineReason_serde : Serde AccountTunnelOfflineReason :=
  Serde_unit_enum AccountTunnelOfflineReason_name
    [(AccountTunnelOfflineReason_name AccountTunnelOfflineReason_OriginNotSet, AccountTunnelOfflineReason_OriginNotSet);
     (AccountTunnelOfflineReason_name AccountTunnelOfflineReason_AgentDisabled, AccountTunnelOfflineReason_AgentDisabled);
     (AccountTunnelOfflineReason_name AccountTunnelOfflineReason_AgentOverLimit, AccountTunnelOfflineReason_AgentOverLimit);
     (AccountTunnelOfflineReason_name AccountTunnelOfflineReason_TunnelDisabled, AccountTunnelOfflineReason_TunnelDisabled);
     (AccountTunnelOfflineReason_name AccountTunnelOfflineReason_PublicAllocationMissing, AccountTunnelOfflineReason_PublicAllocationMissing);
     (AccountTunnelOfflineReason_name AccountTunnelOfflineReason_PublicAllocationPending, AccountTunnelOfflineReason_PublicAllocationPending)].

#[global] Instance AccountTunnelOfflineReason_laws : SerdeLaws AccountTunnelOfflineReason (λ _, True).
Proof. apply unit_enum_laws. by intros []. Qed.

Inductive HostnameVerifyLevel : Set :=
  | HostnameVerifyLevel_None
  | HostnameVerifyLevel_NoRawIp
  | HostnameVerifyLevel_NoAutoName.

Definition HostnameVerifyLevel_name (x : HostnameVerifyLevel) : string :=
  match x with
  | HostnameVerifyLevel_None => "None"
  | HostnameVerifyLevel_NoRawIp => "NoRawIp"
  | HostnameVerifyLevel_NoAutoName => "NoAutoName"
  end.

#[global] Instance HostnameVerifyLevel_serde : Serde HostnameVerifyLevel :=
  Serde_unit_enum HostnameVerifyLevel_name
    [(HostnameVerifyLevel_name HostnameVerifyLevel_None, HostnameVerifyLevel_None);
     (HostnameVerifyLevel_name HostnameVerifyLevel_NoRawIp, HostnameVerifyLevel_NoRawIp);
     (HostnameVerifyLevel_name HostnameVerifyLevel_NoAutoName, HostnameVerifyLevel_NoAutoName)].

#[global] Instance HostnameVerifyLevel_laws : SerdeLaws HostnameVerifyLevel (λ _, True).
Proof. apply unit_enum_laws. by intros []. Qed.

Record AccountTunnelProps : Type := {
  AccountTunnelProps_hostname_verify_level : HostnameVerifyLevel;
}.

#[global] Instance AccountTunnelProps_serde : Serde AccountTunnelProps := {|
  to_value x :=
    Object
      [("hostname_verify_level"%string, to_value (Serde := HostnameVerifyLevel_serde) (AccountTunnelProps_hostname_verify_level x))];
  from_value v :=
    entries ← entries_of v;
    hostname_verify_level' ← field HostnameVerifyLevel_serde "hostname_verify_level" entries;
    Some {| AccountTunnelProps_hostname_verify_level := hostname_verify_level' |} |}.

#[global] Instance AccountTunnelProps_laws : SerdeLaws AccountTunnelProps (λ _, True).
Proof. serde_struct. Qed.

Record AgentTunnelConfig : Type := {
  AgentTunnelConfig_fields : list AgentTunnelAttr;
}.

#[global] Instance AgentTunnelConfig_serde : Serde AgentTunnelConfig := {|
  to_value x :=
    Object
      [("fields"%string, to_value (Serde := (@Serde_list _ AgentTunnelAttr_serde)) (AgentTunnelConfig_fields x))];
  from_value v :=
    entries ← entries_of v;
    fields' ← field_or (@Serde_list _ AgentTunnelAttr_serde) [] "fields" entries;
    Some {| AgentTunnelConfig_fields := fields' |} |}.

#[global] Instance AgentTunnelConfig_laws : SerdeLaws AgentTunnelConfig (λ _, True).
Proof. serde_struct. Qed.

Record HasAgentConfig : Type := {
  HasAgentConfig_config_schema_id : Uuid;
  HasAgentConfig_config_data : AgentTunnelConfig;
}.

#[global] Instance HasAgentConfig_serde : Serde HasAgentConfig := {|
  to_value x :=
    Object
      [("config_schema_id"%string, to_value (Serde := (Serde_text uuid_text)) (HasAgentConfig_config_schema_id x));
       ("config_data"%string, to_value (Serde := AgentTunnelConfig_serde) (HasAgentConfig_config_data x))];
  from_value v :=
    entries ← entries_of v;
    config_schema_id' ← field (Serde_text uuid_text) "config_schema_id" entries;
    config_data' ← field AgentTunnelConfig_serde "config_data" entries;
    Some {| HasAgentConfig_config_schema_id := config_schema_id';
            HasAgentConfig_config_data := config_data' |} |}.

Definition HasAgentConfig_wf (x : HasAgentConfig) : Prop :=
  (uint 128) (HasAgentConfig_config_schema_id x).

#[global] Instance HasAgentConfig_laws : SerdeLaws HasAgentConfig HasAgentConfig_wf.
Proof. serde_struct. Qed.

Record TunnelOriginNotSet : Type := {
  TunnelOriginNotSet_agent_config : option HasAgentConfig;
}.

#[global] Instance TunnelOriginNotSet_serde : Serde TunnelOriginNotSet := {|
  to_value x :=
    Object
      [("agent_config"%string, to_value (Serde := (@Serde_option _ HasAgentConfig_serde)) (TunnelOriginNotSet_agent_config x))];
  from_value v :=
    entries ← entries_of v;
    agent_config' ← field_or (@Serde_option _ HasAgentConfig_serde) None "agent_config" entries;
    Some {| TunnelOriginNotSet_agent_config := agent_config' |} |}.

Definition TunnelOriginNotSet_wf (x : TunnelOriginNotSet) : Prop :=
  (from_option HasAgentConfig_wf True) (TunnelOriginNotSet_agent_config x).

#[global] Instance TunnelOriginNotSet_laws : SerdeLaws TunnelOriginNotSet TunnelOriginNotSet_wf.
Proof. serde_struct. Qed.

Inductive AgentTunnelAttrType : Set :=
  | AgentTunnelAttrType_Ip
  | AgentTunnelAttrType_Ip4
  | AgentTunnelAttrType_Ip6
  | AgentTunnelAttrType_SockAddr
  | AgentTunnelAttrType_SockAddr4
  | AgentTunnelAttrType_SockAddr6
  | AgentTunnelAttrType_Port
  | AgentTunnelAttrType_U64
  | AgentTunnelAttrType_I64
  | AgentTunnelAttrType_Boolean
  | AgentTunnelAttrType_String.

Definition AgentTunnelAttrType_name (x : AgentTunnelAttrType) : string :=
  match x with
  | AgentTunnelAttrType_Ip => "Ip"
  | AgentTunnelAttrType_Ip4 => "Ip4"
  | AgentTunnelAttrType_Ip6 => "Ip6"
  | AgentTunnelAttrType_SockAddr => "SockAddr"
  | AgentTunnelAttrType_SockAddr4 => "SockAddr4"
  | AgentTunnelAttrType_SockAddr6 => "SockAddr6"
  | AgentTunnelAttrType_Port => "Port"
  | AgentTunnelAttrType_U64 => "U64"
  | AgentTunnelAttrType_I64 => "I64"
  | AgentTunnelAttrType_Boolean => "Boolean"
  | AgentTunnelAttrType_String => "String"
  end.

#[global] Instance AgentTunnelAttrType_serde : Serde AgentTunnelAttrType :=
  Serde_unit_enum AgentTunnelAttrType_name
    [(AgentTunnelAttrType_name AgentTunnelAttrType_Ip, AgentTunnelAttrType_Ip);
     (AgentTunnelAttrType_name AgentTunnelAttrType_Ip4, AgentTunnelAttrType_Ip4);
     (AgentTunnelAttrType_name AgentTunnelAttrType_Ip6, AgentTunnelAttrType_Ip6);
     (AgentTunnelAttrType_name AgentTunnelAttrType_SockAddr, AgentTunnelAttrType_SockAddr);
     (AgentTunnelAttrType_name AgentTunnelAttrType_SockAddr4, AgentTunnelAttrType_SockAddr4);
     (AgentTunnelAttrType_name AgentTunnelAttrType_SockAddr6, AgentTunnelAttrType_SockAddr6);
     (AgentTunnelAttrType_name AgentTunnelAttrType_Port, AgentTunnelAttrType_Port);
     (AgentTunnelAttrType_name AgentTunnelAttrType_U64, AgentTunnelAttrType_U64);
     (AgentTunnelAttrType_name AgentTunnelAttrType_I64, AgentTunnelAttrType_I64);
     (AgentTunnelAttrType_name AgentTunnelAttrType_Boolean, AgentTunnelAttrType_Boolean);
     (AgentTunnelAttrType_name AgentTunnelAttrType_String, AgentTunnelAttrType_String)].

#[global] Instance AgentTunnelAttrType_laws : SerdeLaws AgentTunnelAttrType (λ _, True).
Proof. apply unit_enum_laws. by intros []. Qed.

Record AgentTunnelSchemaField : Type := {
  AgentTunnelSchemaField_label : option string;
  AgentTunnelSchemaField_description : option string;
  AgentTunnelSchemaField_value_type : AgentTunnelAttrType;
  AgentTunnelSchemaField_allow_null : bool;
  AgentTunnelSchemaField_default_value : option string;
  AgentTunnelSchemaField_variants : option (list string);
}.

#[global] Instance AgentTunnelSchemaField_serde : Serde AgentTunnelSchemaField := {|
  to_value x :=
    Object
      [("label"%string, to_value (Serde := (@Serde_option _ Serde_string)) (AgentTunnelSchemaField_label x));
       ("description"%string, to_value (Serde := (@Serde_option _ Serde_string)) (AgentTunnelSchemaField_description x));
       ("value_type"%string, to_value (Serde := AgentTunnelAttrType_serde) (AgentTunnelSchemaField_value_type x));
       ("allow_null"%string, to_value (Serde := Serde_bool) (AgentTunnelSchemaField_allow_null x));
       ("default_value"%string, to_value (Serde := (@Serde_option _ Serde_string)) (AgentTunnelSchemaField_default_value x));
       ("variants"%string, to_value (Serde := (@Serde_option _ (@Serde_list _ Serde_string))) (AgentTunnelSchemaField_variants x))];
  from_value v :=
    entries ← entries_of v;
    label' ← field_or (@Serde_option _ Serde_string) None "label" entries;
    description' ← field_or (@Serde_option _ Serde_string) None "description" entries;
    value_type' ← field AgentTunnelAttrType_serde "value_type" entries;
    allow_null' ← field Serde_bool "allow_null" entries;
    default_value' ← field_or (@Serde_option _ Serde_string) None "default_value" entries;
    variants' ← field_or (@Serde_option _ (@Serde_list _ Serde_string)) None "variants" entries;
    Some {| AgentTunnelSchemaField_label := label';
            AgentTunnelSchemaField_description := description';
            AgentTunnelSchemaField_value_type := value_type';
            AgentTunnelSchemaField_allow_null := allow_null';
            AgentTunnelSchemaField_default_value := default_value';
            AgentTunnelSchemaField_variants := variants' |} |}.

#[global] Instance AgentTunnelSchemaField_laws : SerdeLaws AgentTunnelSchemaField (λ _, True).
Proof. serde_struct. Qed.

Record AgentTunnelSchema : Type := {
  AgentTunnelSchema_fields : gmap string AgentTunnelSchemaField;
}.

#[global] Instance AgentTunnelSchema_serde : Serde AgentTunnelSchema := {|
  to_value x :=
    Object
      [("fields"%string, to_value (Serde := (Serde_map (λ s, s) Some AgentTunnelSchemaField_serde)) (AgentTunnelSchema_fields x))];
  from_value v :=
    entries ← entries_of v;
    fields' ← field (Serde_map (λ s, s) Some AgentTunnelSchemaField_serde) "fields" entries;
    Some {| AgentTunnelSchema_fields := fields' |} |}.

#[global] Instance AgentTunnelSchema_laws : SerdeLaws AgentTunnelSchema (λ _, True).
Proof. serde_struct. Qed.

Record InvalidTunnelConfig : Type := {
  InvalidTunnelConfig_agent_schema_id : Uuid;
  InvalidTunnelConfig_current_schema : AgentTunnelSchema;
  InvalidTunnelConfig_target_schema : option AgentTunnelSchema;
}.

#[global] Instance InvalidTunnelConfig_serde : Serde InvalidTunnelConfig := {|
  to_value x :=
    Object
      [("agent_schema_id"%string, to_value (Serde := (Serde_text uuid_text)) (InvalidTunnelConfig_agent_schema_id x));
       ("current_schema"%string, to_value (Serde := AgentTunnelSchema_serde) (InvalidTunnelConfig_current_schema x));
       ("target_schema"%string, to_value (Serde := (@Serde_option _ AgentTunnelSchema_serde)) (InvalidTunnelConfig_target_schema x))];
  from_value v :=
    entries ← entries_of v;
    agent_schema_id' ← field (Serde_text uuid_text) "agent_schema_id" entries;
    current_schema' ← field AgentTunnelSchema_serde "current_schema" entries;
    target_schema' ← field_or (@Serde_option _ AgentTunnelSchema_serde) None "target_schema" entries;
    Some {| InvalidTunnelConfig_agent_schema_id := agent_schema_id';
            InvalidTunnelConfig_current_schema := current_schema';
            InvalidTunnelConfig_target_schema := target_schema' |} |}.

Definition InvalidTunnelConfig_wf (x : InvalidTunnelConfig) : Prop :=
  (uint 128) (InvalidTunnelConfig_agent_schema_id x).

#[global] Instance InvalidTunnelConfig_laws : SerdeLaws InvalidTunnelConfig InvalidTunnelConfig_wf.
Proof. serde_struct. Qed.

Record TunnelToAgent : Type := {
  TunnelToAgent_agent_id : Uuid;
  TunnelToAgent_name : string;
  TunnelToAgent_config_schema_id : Uuid;
  TunnelToAgent_config_data : AgentTunnelConfig;
  TunnelToAgent_config_invalid : option InvalidTunnelConfig;
}.

#[global] Instance TunnelToAgent_serde : Serde TunnelToAgent := {|
  to_value x :=
    Object
      [("agent_id"%string, to_value (Serde := (Serde_text uuid_text)) (TunnelToAgent_agent_id x));
       ("name"%string, to_value (Serde := Serde_string) (TunnelToAgent_name x));
       ("config_schema_id"%string, to_value (Serde := (Serde_text uuid_text)) (TunnelToAgent_config_schema_id x));
       ("config_data"%string, to_value (Serde := AgentTunnelConfig_serde) (TunnelToAgent_config_data x));
       ("config_invalid"%string, to_value (Serde := (@Serde_option _ InvalidTunnelConfig_serde)) (TunnelToAgent_config_invalid x))];
  from_value v :=
    entries ← entries_of v;
    agent_id' ← field (Serde_text uuid_text) "agent_id" entries;
    name' ← field Serde_string "name" entries;
    config_schema_id' ← field (Serde_text uuid_text) "config_schema_id" entries;
    config_data' ← field AgentTunnelConfig_serde "config_data" entries;
    config_invalid' ← field_or (@Serde_option _ InvalidTunnelConfig_serde) None "config_invalid" entries;
    Some {| TunnelToAgent_agent_id := agent_id';
            TunnelToAgent_name := name';
            TunnelToAgent_config_schema_id := config_schema_id';
            TunnelToAgent_config_data := config_data';
            TunnelToAgent_config_invalid := config_invalid' |} |}.

Definition TunnelToAgent_wf (x : TunnelToAgent) : Prop :=
  (uint 128) (TunnelToAgent_agent_id x) ∧
  (uint 128) (TunnelToAgent_config_schema_id x) ∧
  (from_option InvalidTunnelConfig_wf True) (TunnelToAgent_config_invalid x).

#[global] Instance TunnelToAgent_laws : SerdeLaws TunnelToAgent TunnelToAgent_wf.
Proof. serde_struct. Qed.

Inductive AccountTunnelOrigin : Type :=
  | AccountTunnelOrigin_NotSet (x : TunnelOriginNotSet)
  | AccountTunnelOrigin_Agent (x : TunnelToAgent).

#[global] Instance AccountTunnelOrigin_serde : Serde AccountTunnelOrigin := {|
  to_value x :=
    match x with
    | AccountTunnelOrigin_NotSet x => adjacent "type" "details" "not-set" (Some (to_value (Serde := TunnelOriginNotSet_serde) x))
    | AccountTunnelOrigin_Agent x => adjacent "type" "details" "agent" (Some (to_value (Serde := TunnelToAgent_serde) x))
    end;
  from_value v :=
    '(name, data) ← adjacent_parts "type" "details" v;
    variant ← find_variant name
      [("not-set", newtype_variant TunnelOriginNotSet_serde AccountTunnelOrigin_NotSet);
       ("agent", newtype_variant TunnelToAgent_serde AccountTunnelOrigin_Agent)]%string;
    variant data |}.

Definition AccountTunnelOrigin_wf (y : AccountTunnelOrigin) : Prop :=
  match y with
  | AccountTunnelOrigin_NotSet x => TunnelOriginNotSet_wf x
  | AccountTunnelOrigin_Agent x => TunnelToAgent_wf x
  end.

#[global] Instance AccountTunnelOrigin_laws : SerdeLaws AccountTunnelOrigin AccountTunnelOrigin_wf.
Proof. serde_enum. Qed.

Record PortAllocationRequest : Type := {
  PortAllocationRequest_id : Uuid;
  PortAllocationRequest_status : string;
  PortAllocationRequest_region : PlayitNetwork;
  PortAllocationRequest_public_port : option Z;
  PortAllocationRequest_public_ip : option IpAddr;
}.

#[global] Instance PortAllocationRequest_serde : Serde PortAllocationRequest := {|
  to_value x :=
    Object
      [("id"%string, to_value (Serde := (Serde_text uuid_text)) (PortAllocationRequest_id x));
       ("status"%string, to_value (Serde := Serde_string) (PortAllocationRequest_status x));
       ("region"%string, to_value (Serde := PlayitNetwork_serde) (PortAllocationRequest_region x));
       ("public_port"%string, to_value (Serde := (@Serde_option _ (Serde_uint 16))) (PortAllocationRequest_public_port x));
       ("public_ip"%string, to_value (Serde := (@Serde_option _ (Serde_text ip_text))) (PortAllocationRequest_public_ip x))];
  from_value v :=
    entries ← entries_of v;
    id' ← field (Serde_text uuid_text) "id" entries;
    status' ← field Serde_string "status" entries;
    region' ← field PlayitNetwork_serde "region" entries;
    public_port' ← field_or (@Serde_option _ (Serde_uint 16)) None "public_port" entries;
    public_ip' ← field_or (@Serde_option _ (Serde_text ip_text)) None "public_ip" entries;
    Some {| PortAllocationRequest_id := id';
            PortAllocationRequest_status := status';
            PortAllocationRequest_region := region';
            PortAllocationRequest_public_port := public_port';
            PortAllocationRequest_public_ip := public_ip' |} |}.

Definition PortAllocationRequest_wf (x : PortAllocationRequest) : Prop :=
  (uint 128) (PortAllocationRequest_id x) ∧
  (from_option (uint 16) True) (PortAllocationRequest_public_port x) ∧
  (from_option IpAddr_wf True) (PortAllocationRequest_public_ip x).

#[global] Instance PortAllocationRequest_laws : SerdeLaws PortAllocationRequest PortAllocationRequest_wf.
Proof. serde_struct. Qed.

Inductive DisabledReason : Set :=
  | DisabledReason_RequiresPremium
  | DisabledReason_OverPortLimit.

Definition DisabledReason_name (x : DisabledReason) : string :=
  match x with
  | DisabledReason_RequiresPremium => "requires-premium"
  | DisabledReason_OverPortLimit => "over-port-limit"
  end.

#[global] Instance DisabledReason_serde : Serde DisabledReason :=
  Serde_unit_enum DisabledReason_name
    [(DisabledReason_name DisabledReason_RequiresPremium, DisabledReason_RequiresPremium);
     (DisabledReason_name DisabledReason_OverPortLimit, DisabledReason_OverPortLimit)].

#[global] Instance DisabledReason_laws : SerdeLaws DisabledReason (λ _, True).
Proof. apply unit_enum_laws. by intros []. Qed.

Record ExpireNotice : Type := {
  ExpireNotice_disable_at : DateTime;
  ExpireNotice_remove_at : DateTime;
  ExpireNotice_reason : DisabledReason;
}.

#[global] Instance ExpireNotice_serde : Serde ExpireNotice := {|
  to_value x :=
    Object
      [("disable_at"%string, to_value (Serde := (Serde_text datetime_text)) (ExpireNotice_disable_at x));
       ("remove_at"%string, to_value (Serde := (Serde_text datetime_text)) (ExpireNotice_remove_at x));
       ("reason"%string, to_value (Serde := DisabledReason_serde) (ExpireNotice_reason x))];
  from_value v :=
    entries ← entries_of v;
    disable_at' ← field (Serde_text datetime_text) "disable_at" entries;
    remove_at' ← field (Serde_text datetime_text) "remove_at" entries;
    reason' ← field DisabledReason_serde "reason" entries;
    Some {| ExpireNotice_disable_at := disable_at';
            ExpireNotice_remove_at := remove_at';
            ExpireNotice_reason := reason' |} |}.

Definition ExpireNotice_wf (x : ExpireNotice) : Prop :=
  DateTime_wf (ExpireNotice_disable_at x) ∧
  DateTime_wf (ExpireNotice_remove_at x).

#[global] Instance ExpireNotice_laws : SerdeLaws ExpireNotice ExpireNotice_wf.
Proof. serde_struct. Qed.

Record PortAllocation : Type := {
  PortAllocation_alloc_id : Uuid;
  PortAllocation_ip_region : PlayitNetwork;
  PortAllocation_ip_hostname : string;
  PortAllocation_auto_domain : string;
  PortAllocation_ip : IpAddr;
  PortAllocation_port : Z;
  PortAllocation_port_count : Z;
  PortAllocation_port_type : PortType;
  PortAllocation_expire_notice : option ExpireNotice;
}.

#[global] Instance PortAllocation_serde : Serde PortAllocation := {|
  to_value x :=
    Object
      [("alloc_id"%string, to_value (Serde := (Serde_text uuid_text)) (PortAllocation_alloc_id x));
       ("ip_region"%string, to_value (Serde := PlayitNetwork_serde) (PortAllocation_ip_region x));
       ("ip_hostname"%string, to_value (Serde := Serde_string) (PortAllocation_ip_hostname x));
       ("auto_domain"%string, to_value (Serde := Serde_string) (PortAllocation_auto_domain x));
       ("ip"%string, to_value (Serde := (Serde_text ip_text)) (PortAllocation_ip x));
       ("port"%string, to_value (Serde := (Serde_uint 16)) (PortAllocation_port x));
       ("port_count"%string, to_value (Serde := (Serde_uint 16)) (PortAllocation_port_count x));
       ("port_type"%string, to_value (Serde := PortType_serde) (PortAllocation_port_type x));
       ("expire_notice"%string, to_value (Serde := (@Serde_option _ ExpireNotice_serde)) (PortAllocation_expire_notice x))];
  from_value v :=
    entries ← entries_of v;
    alloc_id' ← field (Serde_text uuid_text) "alloc_id" entries;
    ip_region' ← field PlayitNetwork_serde "ip_region" entries;
    ip_hostname' ← field Serde_string "ip_hostname" entries;
    auto_domain' ← field Serde_string "auto_domain" entries;
    ip' ← field (Serde_text ip_text) "ip" entries;
    port' ← field (Serde_uint 16) "port" entries;
    port_count' ← field (Serde_uint 16) "port_count" entries;
    port_type' ← field PortType_serde "port_type" entries;
    expire_notice' ← field_or (@Serde_option _ ExpireNotice_serde) None "expire_notice" entries;
    Some {| PortAllocation_alloc_id := alloc_id';
            PortAllocation_ip_region := ip_region';
            PortAllocation_ip_hostname := ip_hostname';
            PortAllocation_auto_domain := auto_domain';
            PortAllocation_ip := ip';
            PortAllocation_port := port';
            PortAllocation_port_count := port_count';
            PortAllocation_port_type := port_type';
            PortAllocation_expire_notice := expire_notice' |} |}.

Definition PortAllocation_wf (x : PortAllocation) : Prop :=
  (uint 128) (PortAllocation_alloc_id x) ∧
  IpAddr_wf (PortAllocation_ip x) ∧
  (uint 16) (PortAllocation_port x) ∧
  (uint 16) (PortAllocation_port_count x) ∧
  (from_option ExpireNotice_wf True) (PortAllocation_expire_notice x).

#[global] Instance PortAllocation_laws : SerdeLaws PortAllocation PortAllocation_wf.
Proof. serde_struct. Qed.

Inductive HostnameRoutingType : Set :=
  | HostnameRoutingType_Https
  | HostnameRoutingType_MinecraftJava.

Definition HostnameRoutingType_name (x : HostnameRoutingType) : string :=
  match x with
  | HostnameRoutingType_Https => "https"
  | HostnameRoutingType_MinecraftJava => "minecraft-java"
  end.

#[global] Instance HostnameRoutingType_serde : Serde HostnameRoutingType :=
  Serde_unit_enum HostnameRoutingType_name
    [(HostnameRoutingType_name HostnameRoutingType_Https, HostnameRoutingType_Https);
     (HostnameRoutingType_name HostnameRoutingType_MinecraftJava, HostnameRoutingType_MinecraftJava)].

#[global] Instance HostnameRoutingType_laws : SerdeLaws HostnameRoutingType (λ _, True).
Proof. apply unit_enum_laws. by intros []. Qed.

Record HostnameRouting : Type := {
  HostnameRouting_id : option Uuid;
  HostnameRouting_hostname : string;
  HostnameRouting_routing_type : HostnameRoutingType;
  HostnameRouting_region : PlayitNetwork;
}.

#[global] Instance HostnameRouting_serde : Serde HostnameRouting := {|
  to_value x :=
    Object
      [("id"%string, to_value (Serde := (@Serde_option _ (Serde_text uuid_text))) (HostnameRouting_id x));
       ("hostname"%string, to_value (Serde := Serde_string) (HostnameRouting_hostname x));
       ("routing_type"%string, to_value (Serde := HostnameRoutingType_serde) (HostnameRouting_routing_type x));
       ("region"%string, to_value (Serde := PlayitNetwork_serde) (HostnameRouting_region x))];
  from_value v :=
    entries ← entries_of v;
    id' ← field_or (@Serde_option _ (Serde_text uuid_text)) None "id" entries;
    hostname' ← field Serde_string "hostname" entries;
    routing_type' ← field HostnameRoutingType_serde "routing_type" entries;
    region' ← field PlayitNetwork_serde "region" entries;
    Some {| HostnameRouting_id := id';
            HostnameRouting_hostname := hostname';
            HostnameRouting_routing_type := routing_type';
            HostnameRouting_region := region' |} |}.

Definition HostnameRouting_wf (x : HostnameRouting) : Prop :=
  (from_option (uint 128) True) (HostnameRouting_id x).

#[global] Instance HostnameRouting_laws : SerdeLaws HostnameRouting HostnameRouting_wf.
Proof. serde_struct. Qed.

Record GatewayAllocation : Type := {
  GatewayAllocation_id : option string;
  GatewayAllocation_hostname : string;
  GatewayAllocation_region : PlayitNetwork;
}.

#[global] Instance GatewayAllocation_serde : Serde GatewayAllocation := {|
  to_value x :=
    Object
      [("id"%string, to_value (Serde := (@Serde_option _ Serde_string)) (GatewayAllocation_id x));
       ("hostname"%string, to_value (Serde := Serde_string) (GatewayAllocation_hostname x));
       ("region"%string, to_value (Serde := PlayitNetwork_serde) (GatewayAllocation_region x))];
  from_value v :=
    entries ← entries_of v;
    id' ← field_or (@Serde_option _ Serde_string) None "id" entries;
    hostname' ← field Serde_string "hostname" entries;
    region' ← field PlayitNetwork_serde "region" entries;
    Some {| GatewayAllocation_id := id';
            GatewayAllocation_hostname := hostname';
            GatewayAllocation_region := region' |} |}.

#[global] Instance GatewayAllocation_laws : SerdeLaws GatewayAllocation (λ _, True).
Proof. serde_struct. Qed.

Inductive PublicAllocation : Type :=
  | PublicAllocation_PortAllocation (x : PortAllocation)
  | PublicAllocation_HostnameRouting (x : HostnameRouting)
  | PublicAllocation_Gateway (x : GatewayAllocation).

#[global] Instance PublicAllocation_serde : Serde PublicAllocation := {|
  to_value x :=
    match x with
    | PublicAllocation_PortAllocation x => adjacent "type" "details" "PortAllocation" (Some (to_value (Serde := PortAllocation_serde) x))
    | PublicAllocation_HostnameRouting x => adjacent "type" "details" "HostnameRouting" (Some (to_value (Serde := HostnameRouting_serde) x))
    | PublicAllocation_Gateway x => adjacent "type" "details" "Gateway" (Some (to_value (Serde := GatewayAllocation_serde) x))
    end;
  from_value v :=
    '(name, data) ← adjacent_parts "type" "details" v;
    variant ← find_variant name
      [("PortAllocation", newtype_variant PortAllocation_serde PublicAllocation_PortAllocation);
       ("HostnameRouting", newtype_variant HostnameRouting_serde PublicAllocation_HostnameRouting);
       ("Gateway", newtype_variant GatewayAllocation_serde PublicAllocation_Gateway)]%string;
    variant data |}.

Definition PublicAllocation_wf (y : PublicAllocation) : Prop :=
  match y with
  | PublicAllocation_PortAllocation x => PortAllocation_wf x
  | PublicAllocation_HostnameRouting x => HostnameRouting_wf x
  | _ => True
  end.

#[global] Instance PublicAllocation_laws : SerdeLaws PublicAllocation PublicAllocation_wf.
Proof. serde_enum. Qed.

Inductive ConnectAddressSource : Type :=
  | ConnectAddressSource_PortAllocation (x : Uuid)
  | ConnectAddressSource_HostnameRouting (x : Uuid)
  | ConnectAddressSource_Gateway (x : string).

#[global] Instance ConnectAddressSource_serde : Serde ConnectAddressSource := {|
  to_value x :=
    match x with
    | ConnectAddressSource_PortAllocation x => adjacent "resource" "id" "port-allocation" (Some (to_value (Serde := (Serde_text uuid_text)) x))
    | ConnectAddressSource_HostnameRouting x => adjacent "resource" "id" "hostname-routing" (Some (to_value (Serde := (Serde_text uuid_text)) x))
    | ConnectAddressSource_Gateway x => adjacent "resource" "id" "gateway" (Some (to_value (Serde := Serde_string) x))
    end;
  from_value v :=
    '(name, data) ← adjacent_parts "resource" "id" v;
    variant ← find_variant name
      [("port-allocation", newtype_variant (Serde_text uuid_text) ConnectAddressSource_PortAllocation);
       ("hostname-routing", newtype_variant (Serde_text uuid_text) ConnectAddressSource_HostnameRouting);
       ("gateway", newtype_variant Serde_string ConnectAddressSource_Gateway)]%string;
    variant data |}.

Definition ConnectAddressSource_wf (y : ConnectAddressSource) : Prop :=
  match y with
  | ConnectAddressSource_PortAllocation x => (uint 128) x
  | ConnectAddressSource_HostnameRouting x => (uint 128) x
  | _ => True
  end.

#[global] Instance ConnectAddressSource_laws : SerdeLaws ConnectAddressSource ConnectAddressSource_wf.
Proof. serde_enum. Qed.

Record ConnectAddr4 : Type := {
  ConnectAddr4_address : SocketAddrV4;
  ConnectAddr4_source : ConnectAddressSource;
}.

#[global] Instance ConnectAddr4_serde : Serde ConnectAddr4 := {|
  to_value x :=
    Object
      [("address"%string, to_value (Serde := (Serde_text sock4_text)) (ConnectAddr4_address x));
       ("source"%string, to_value (Serde := ConnectAddressSource_serde) (ConnectAddr4_source x))];
  from_value v :=
    entries ← entries_of v;
    address' ← field (Serde_text sock4_text) "address" entries;
    source' ← field ConnectAddressSource_serde "source" entries;
    Some {| ConnectAddr4_address := address';
            ConnectAddr4_source := source' |} |}.

Definition ConnectAddr4_wf (x : ConnectAddr4) : Prop :=
  SocketAddrV4_wf (ConnectAddr4_address x) ∧
  ConnectAddressSource_wf (ConnectAddr4_source x).

#[global] Instance ConnectAddr4_laws : SerdeLaws ConnectAddr4 ConnectAddr4_wf.
Proof. serde_struct. Qed.

Record ConnectAddr6 : Type := {
  ConnectAddr6_address : SocketAddrV6;
  ConnectAddr6_source : ConnectAddressSource;
}.

#[global] Instance ConnectAddr6_serde : Serde ConnectAddr6 := {|
  to_value x :=
    Object
      [("address"%string, to_value (Serde := (Serde_text sock6_text)) (ConnectAddr6_address x));
       ("source"%string, to_value (Serde := ConnectAddressSource_serde) (ConnectAddr6_source x))];
  from_value v :=
    entries ← entries_of v;
    address' ← field (Serde_text sock6_text) "address" entries;
    source' ← field ConnectAddressSource_serde "source" entries;
    Some {| ConnectAddr6_address := address';
            ConnectAddr6_source := source' |} |}.

Definition ConnectAddr6_wf (x : ConnectAddr6) : Prop :=
  SocketAddrV6_wf (ConnectAddr6_address x) ∧
  ConnectAddressSource_wf (ConnectAddr6_source x).

#[global] Instance ConnectAddr6_laws : SerdeLaws ConnectAddr6 ConnectAddr6_wf.
Proof. serde_struct. Qed.

Record ConnectIp4 : Type := {
  ConnectIp4_address : Z;
  ConnectIp4_default_port : Z;
  ConnectIp4_source : ConnectAddressSource;
}.

#[global] Instance ConnectIp4_serde : Serde ConnectIp4 := {|
  to_value x :=
    Object
      [("address"%string, to_value (Serde := (Serde_text ipv4_text)) (ConnectIp4_address x));
       ("default_port"%string, to_value (Serde := (Serde_uint 16)) (ConnectIp4_default_port x));
       ("source"%string, to_value (Serde := ConnectAddressSource_serde) (ConnectIp4_source x))];
  from_value v :=
    entries ← entries_of v;
    address' ← field (Serde_text ipv4_text) "address" entries;
    default_port' ← field (Serde_uint 16) "default_port" entries;
    source' ← field ConnectAddressSource_serde "source" entries;
    Some {| ConnectIp4_address := address';
            ConnectIp4_default_port := default_port';
            ConnectIp4_source := source' |} |}.

Definition ConnectIp4_wf (x : ConnectIp4) : Prop :=
  (uint 32) (ConnectIp4_address x) ∧
  (uint 16) (ConnectIp4_default_port x) ∧
  ConnectAddressSource_wf (ConnectIp4_source x).

#[global] Instance ConnectIp4_laws : SerdeLaws ConnectIp4 ConnectIp4_wf.
Proof. serde_struct. Qed.

Record ConnectIp6 : Type := {
  ConnectIp6_address : Z;
  ConnectIp6_default_port : Z;
  ConnectIp6_source : ConnectAddressSource;
}.

#[global] Instance ConnectIp6_serde : Serde ConnectIp6 := {|
  to_value x :=
    Object
      [("address"%string, to_value (Serde := (Serde_text ipv6_text)) (ConnectIp6_address x));
       ("default_port"%string, to_value (Serde := (Serde_uint 16)) (ConnectIp6_default_port x));
       ("source"%string, to_value (Serde := ConnectAddressSource_serde) (ConnectIp6_source x))];
  from_value v :=
    entries ← entries_of v;
    address' ← field (Serde_text ipv6_text) "address" entries;
    default_port' ← field (Serde_uint 16) "default_port" entries;
    source' ← field ConnectAddressSource_serde "source" entries;
    Some {| ConnectIp6_address := address';
            ConnectIp6_default_port := default_port';
            ConnectIp6_source := source' |} |}.

Definition ConnectIp6_wf (x : ConnectIp6) : Prop :=
  (uint 128) (ConnectIp6_address x) ∧
  (uint 16) (ConnectIp6_default_port x) ∧
  ConnectAddressSource_wf (ConnectIp6_source x).

#[global] Instance ConnectIp6_laws : SerdeLaws ConnectIp6 ConnectIp6_wf.
Proof. serde_struct. Qed.

Record ConnectAutoName : Type := {
  ConnectAutoName_address : string;
  ConnectAutoName_source : ConnectAddressSource;
}.

#[global] Instance ConnectAutoName_serde : Serde ConnectAutoName := {|
  to_value x :=
    Object
      [("address"%string, to_value (Serde := Serde_string) (ConnectAutoName_address x));
       ("source"%string, to_value (Serde := ConnectAddressSource_serde) (ConnectAutoName_source x))];
  from_value v :=
    entries ← entries_of v;
    address' ← field Serde_string "address" entries;
    source' ← field ConnectAddressSource_serde "source" entries;
    Some {| ConnectAutoName_address := address';
            ConnectAutoName_source := source' |} |}.

Definition ConnectAutoName_wf (x : ConnectAutoName) : Prop :=
  ConnectAddressSource_wf (ConnectAutoName_source x).

#[global] Instance ConnectAutoName_laws : SerdeLaws ConnectAutoName ConnectAutoName_wf.
Proof. serde_struct. Qed.

Inductive DomainMode : Set :=
  | DomainMode_Ip
  | DomainMode_Srv
  | DomainMode_SrvAndIp
  | DomainMode_Hostname.

Definition DomainMode_name (x : DomainMode) : string :=
  match x with
  | DomainMode_Ip => "Ip"
  | DomainMode_Srv => "Srv"
  | DomainMode_SrvAndIp => "SrvAndIp"
  | DomainMode_Hostname => "Hostname"
  end.

#[global] Instance DomainMode_serde : Serde DomainMode :=
  Serde_unit_enum DomainMode_name
    [(DomainMode_name DomainMode_Ip, DomainMode_Ip);
     (DomainMode_name DomainMode_Srv, DomainMode_Srv);
     (DomainMode_name DomainMode_SrvAndIp, DomainMode_SrvAndIp);
     (DomainMode_name DomainMode_Hostname, DomainMode_Hostname)].

#[global] Instance DomainMode_laws : SerdeLaws DomainMode (λ _, True).
Proof. apply unit_enum_laws. by intros []. Qed.

Record ConnectDomain : Type := {
  ConnectDomain_id : Uuid;
  ConnectDomain_domain : string;
  ConnectDomain_address : string;
  ConnectDomain_mode : DomainMode;
  ConnectDomain_source : ConnectAddressSource;
}.

#[global] Instance ConnectDomain_serde : Serde ConnectDomain := {|
  to_value x :=
    Object
      [("id"%string, to_value (Serde := (Serde_text uuid_text)) (ConnectDomain_id x));
       ("domain"%string, to_value (Serde := Serde_string) (ConnectDomain_domain x));
       ("address"%string, to_value (Serde := Serde_string) (ConnectDomain_address x));
       ("mode"%string, to_value (Serde := DomainMode_serde) (ConnectDomain_mode x));
       ("source"%string, to_value (Serde := ConnectAddressSource_serde) (ConnectDomain_source x))];
  from_value v :=
    entries ← entries_of v;
    id' ← field (Serde_text uuid_text) "id" entries;
    domain' ← field Serde_string "domain" entries;
    address' ← field Serde_string "address" entries;
    mode' ← field DomainMode_serde "mode" entries;
    source' ← field ConnectAddressSource_serde "source" entries;
    Some {| ConnectDomain_id := id';
            ConnectDomain_domain := domain';
            ConnectDomain_address := address';
            ConnectDomain_mode := mode';
            ConnectDomain_source := source' |} |}.

Definition ConnectDomain_wf (x : ConnectDomain) : Prop :=
  (uint 128) (ConnectDomain_id x) ∧
  ConnectAddressSource_wf (ConnectDomain_source x).

#[global] Instance ConnectDomain_laws : SerdeLaws ConnectDomain ConnectDomain_wf.
Proof. serde_struct. Qed.

Inductive ConnectAddress : Type :=
  | ConnectAddress_Addr4 (x : ConnectAddr4)
  | ConnectAddress_Addr6 (x : ConnectAddr6)
  | ConnectAddress_Ip4 (x : ConnectIp4)
  | ConnectAddress_Ip6 (x : ConnectIp6)
  | ConnectAddress_Auto (x : ConnectAutoName)
  | ConnectAddress_Domain (x : ConnectDomain).

#[global] Instance ConnectAddress_serde : Serde ConnectAddress := {|
  to_value x :=
    match x with
    | ConnectAddress_Addr4 x => adjacent "type" "value" "addr4" (Some (to_value (Serde := ConnectAddr4_serde) x))
    | ConnectAddress_Addr6 x => adjacent "type" "value" "addr6" (Some (to_value (Serde := ConnectAddr6_serde) x))
    | ConnectAddress_Ip4 x => adjacent "type" "value" "ip4" (Some (to_value (Serde := ConnectIp4_serde) x))
    | ConnectAddress_Ip6 x => adjacent "type" "value" "ip6" (Some (to_value (Serde := ConnectIp6_serde) x))
    | ConnectAddress_Auto x => adjacent "type" "value" "auto" (Some (to_value (Serde := ConnectAutoName_serde) x))
    | ConnectAddress_Domain x => adjacent "type" "value" "domain" (Some (to_value (Serde := ConnectDomain_serde) x))
    end;
  from_value v :=
    '(name, data) ← adjacent_parts "type" "value" v;
    variant ← find_variant name
      [("addr4", newtype_variant ConnectAddr4_serde ConnectAddress_Addr4);
       ("addr6", newtype_variant ConnectAddr6_serde ConnectAddress_Addr6);
       ("ip4", newtype_variant ConnectIp4_serde ConnectAddress_Ip4);
       ("ip6", newtype_variant ConnectIp6_serde ConnectAddress_Ip6);
       ("auto", newtype_variant ConnectAutoName_serde ConnectAddress_Auto);
       ("domain", newtype_variant ConnectDomain_serde ConnectAddress_Domain)]%string;
    variant data |}.

Definition ConnectAddress_wf (y : ConnectAddress) : Prop :=
  match y with
  | ConnectAddress_Addr4 x => ConnectAddr4_wf x
  | ConnectAddress_Addr6 x => ConnectAddr6_wf x
  | ConnectAddress_Ip4 x => ConnectIp4_wf x
  | ConnectAddress_Ip6 x => ConnectIp6_wf x
  | ConnectAddress_Auto x => ConnectAutoName_wf x
  | ConnectAddress_Domain x => ConnectDomain_wf x
  end.

#[global] Instance ConnectAddress_laws : SerdeLaws ConnectAddress ConnectAddress_wf.
Proof. serde_enum. Qed.

Record AccountTunnelV1 : Type := {
  AccountTunnelV1_id : Uuid;
  AccountTunnelV1_created_at : DateTime;
  AccountTunnelV1_name : option string;
  AccountTunnelV1_user_enabled : bool;
  AccountTunnelV1_offline_reasons : option (list AccountTunnelOfflineReason);
  AccountTunnelV1_tunnel_type : option TunnelType;
  AccountTunnelV1_port_type : PortType;
  AccountTunnelV1_port_count : Z;
  AccountTunnelV1_firewall_id : option Uuid;
  AccountTunnelV1_props : AccountTunnelProps;
  AccountTunnelV1_origin : AccountTunnelOrigin;
  AccountTunnelV1_port_allocation_requests : list PortAllocationRequest;
  AccountTunnelV1_public_allocations : list PublicAllocation;
  AccountTunnelV1_connect_addresses : list ConnectAddress;
}.

#[global] Instance AccountTunnelV1_serde : Serde AccountTunnelV1 := {|
  to_value x :=
    Object
      [("id"%string, to_value (Serde := (Serde_text uuid_text)) (AccountTunnelV1_id x));
       ("created_at"%string, to_value (Serde := (Serde_text datetime_text)) (AccountTunnelV1_created_at x));
       ("name"%string, to_value (Serde := (@Serde_option _ Serde_string)) (AccountTunnelV1_name x));
       ("user_enabled"%string, to_value (Serde := Serde_bool) (AccountTunnelV1_user_enabled x));
       ("offline_reasons"%string, to_value (Serde := (@Serde_option _ (@Serde_list _ AccountTunnelOfflineReason_serde))) (AccountTunnelV1_offline_reasons x));
       ("tunnel_type"%string, to_value (Serde := (@Serde_option _ TunnelType_serde)) (AccountTunnelV1_tunnel_type x));
       ("port_type"%string, to_value (Serde := PortType_serde) (AccountTunnelV1_port_type x));
       ("port_count"%string, to_value (Serde := (Serde_uint 16)) (AccountTunnelV1_port_count x));
       ("firewall_id"%string, to_value (Serde := (@Serde_option _ (Serde_text uuid_text))) (AccountTunnelV1_firewall_id x));
       ("props"%string, to_value (Serde := AccountTunnelProps_serde) (AccountTunnelV1_props x));
       ("origin"%string, to_value (Serde := AccountTunnelOrigin_serde) (AccountTunnelV1_origin x));
       ("port_allocation_requests"%string, to_value (Serde := (@Serde_list _ PortAllocationRequest_serde)) (AccountTunnelV1_port_allocation_requests x));
       ("public_allocations"%string, to_value (Serde := (@Serde_list _ PublicAllocation_serde)) (AccountTunnelV1_public_allocations x));
       ("connect_addresses"%string, to_value (Serde := (@Serde_list _ ConnectAddress_serde)) (AccountTunnelV1_connect_addresses x))];
  from_value v :=
    entries ← entries_of v;
    id' ← field (Serde_text uuid_text) "id" entries;
    created_at' ← field (Serde_text datetime_text) "created_at" entries;
    name' ← field_or (@Serde_option _ Serde_string) None "name" entries;
    user_enabled' ← field Serde_bool "user_enabled" entries;
    offline_reasons' ← field_or (@Serde_option _ (@Serde_list _ AccountTunnelOfflineReason_serde)) None "offline_reasons" entries;
    tunnel_type' ← field_or (@Serde_option _ TunnelType_serde) None "tunnel_type" entries;
    port_type' ← field PortType_serde "port_type" entries;
    port_count' ← field (Serde_uint 16) "port_count" entries;
    firewall_id' ← field_or (@Serde_option _ (Serde_text uuid_text)) None "firewall_id" entries;
    props' ← field AccountTunnelProps_serde "props" entries;
    origin' ← field AccountTunnelOrigin_serde "origin" entries;
    port_allocation_requests' ← field_or (@Serde_list _ PortAllocationRequest_serde) [] "port_allocation_requests" entries;
    public_allocations' ← field_or (@Serde_list _ PublicAllocation_serde) [] "public_allocations" entries;
    connect_addresses' ← field_or (@Serde_list _ ConnectAddress_serde) [] "connect_addresses" entries;
    Some {| AccountTunnelV1_id := id';
            AccountTunnelV1_created_at := created_at';
            AccountTunnelV1_name := name';
            AccountTunnelV1_user_enabled := user_enabled';
            AccountTunnelV1_offline_reasons := offline_reasons';
            AccountTunnelV1_tunnel_type := tunnel_type';
            AccountTunnelV1_port_type := port_type';
            AccountTunnelV1_port_count := port_count';
            AccountTunnelV1_firewall_id := firewall_id';
            AccountTunnelV1_props := props';
            AccountTunnelV1_origin := origin';
            AccountTunnelV1_port_allocation_requests := port_allocation_requests';
            AccountTunnelV1_public_allocations := public_allocations';
            AccountTunnelV1_connect_addresses := connect_addresses' |} |}.

Definition AccountTunnelV1_wf (x : AccountTunnelV1) : Prop :=
  (uint 128) (AccountTunnelV1_id x) ∧
  DateTime_wf (AccountTunnelV1_created_at x) ∧
  (uint 16) (AccountTunnelV1_port_count x) ∧
  (from_option (uint 128) True) (AccountTunnelV1_firewall_id x) ∧
  AccountTunnelOrigin_wf (AccountTunnelV1_origin x) ∧
  (Forall PortAllocationRequest_wf) (AccountTunnelV1_port_allocation_requests x) ∧
  (Forall PublicAllocation_wf) (AccountTunnelV1_public_allocations x) ∧
  (Forall ConnectAddress_wf) (AccountTunnelV1_connect_addresses x).

#[global] Instance AccountTunnelV1_laws : SerdeLaws AccountTunnelV1 AccountTunnelV1_wf.
Proof. serde_struct. Qed.

Record AccountTunnelsV1 : Type := {
  AccountTunnelsV1_tunnels : list AccountTunnelV1;
}.

#[global] Instance AccountTunnelsV1_serde : Serde AccountTunnelsV1 := {|
  to_value x :=
    Object
      [("tunnels"%string, to_value (Serde := (@Serde_list _ AccountTunnelV1_serde)) (AccountTunnelsV1_tunnels x))];
  from_value v :=
    entries ← entries_of v;
    tunnels' ← field_or (@Serde_list _ AccountTunnelV1_serde) [] "tunnels" entries;
    Some {| AccountTunnelsV1_tunnels := tunnels' |} |}.

Definition AccountTunnelsV1_wf (x : AccountTunnelsV1) : Prop :=
  (Forall AccountTunnelV1_wf) (AccountTunnelsV1_tunnels x).

#[global] Instance AccountTunnelsV1_laws : SerdeLaws AccountTunnelsV1 AccountTunnelsV1_wf.
Proof. serde_struct. Qed.

Record TunnelProtocolRawPorts : Type := {
  TunnelProtocolRawPorts_port_type : PortType;
  TunnelProtocolRawPorts_port_count : Z;
  TunnelProtocolRawPorts_software_description : string;
}.

#[global] Instance TunnelProtocolRawPorts_serde : Serde TunnelProtocolRawPorts := {|
  to_value x :=
    Object
      [("port_type"%string, to_value (Serde := PortType_serde) (TunnelProtocolRawPorts_port_type x));
       ("port_count"%string, to_value (Serde := (Serde_uint 16)) (TunnelProtocolRawPorts_port_count x));
       ("software_description"%string, to_value (Serde := Serde_string) (TunnelProtocolRawPorts_software_description x))];
  from_value v :=
    entries ← entries_of v;
    port_type' ← field PortType_serde "port_type" entries;
    port_count' ← field (Serde_uint 16) "port_count" entries;
    software_description' ← field Serde_string "software_description" entries;
    Some {| TunnelProtocolRawPorts_port_type := port_type';
            TunnelProtocolRawPorts_port_count := port_count';
            TunnelProtocolRawPorts_software_description := software_description' |} |}.

Definition TunnelProtocolRawPorts_wf (x : TunnelProtocolRawPorts) : Prop :=
  (uint 16) (TunnelProtocolRawPorts_port_count x).

#[global] Instance TunnelProtocolRawPorts_laws : SerdeLaws TunnelProtocolRawPorts TunnelProtocolRawPorts_wf.
Proof. serde_struct. Qed.

Inductive TunnelProtocolV1 : Type :=
  | TunnelProtocolV1_TunnelType (x : TunnelType)
  | TunnelProtocolV1_RawPorts (x : TunnelProtocolRawPorts).

#[global] Instance TunnelProtocolV1_serde : Serde TunnelProtocolV1 := {|
  to_value x :=
    match x with
    | TunnelProtocolV1_TunnelType x => adjacent "type" "details" "tunnel-type" (Some (to_value (Serde := TunnelType_serde) x))
    | TunnelProtocolV1_RawPorts x => adjacent "type" "details" "raw-ports" (Some (to_value (Serde := TunnelProtocolRawPorts_serde) x))
    end;
  from_value v :=
    '(name, data) ← adjacent_parts "type" "details" v;
    variant ← find_variant name
      [("tunnel-type", newtype_variant TunnelType_serde TunnelProtocolV1_TunnelType);
       ("raw-ports", newtype_variant TunnelProtocolRawPorts_serde TunnelProtocolV1_RawPorts)]%string;
    variant data |}.

Definition TunnelProtocolV1_wf (y : TunnelProtocolV1) : Prop :=
  match y with
  | TunnelProtocolV1_RawPorts x => TunnelProtocolRawPorts_wf x
  | _ => True
  end.

#[global] Instance TunnelProtocolV1_laws : SerdeLaws TunnelProtocolV1 TunnelProtocolV1_wf.
Proof. serde_enum. Qed.

Record AgentOrigin : Type := {
  AgentOrigin_agent_id : option Uuid;
  AgentOrigin_config : option AgentTunnelConfig;
}.

#[global] Instance AgentOrigin_serde : Serde AgentOrigin := {|
  to_value x :=
    Object
      [("agent_id"%string, to_value (Serde := (@Serde_option _ (Serde_text uuid_text))) (AgentOrigin_agent_id x));
       ("config"%string, to_value (Serde := (@Serde_option _ AgentTunnelConfig_serde)) (AgentOrigin_config x))];
  from_value v :=
    entries ← entries_of v;
    agent_id' ← field_or (@Serde_option _ (Serde_text uuid_text)) None "agent_id" entries;
    config' ← field_or (@Serde_option _ AgentTunnelConfig_serde) None "config" entries;
    Some {| AgentOrigin_agent_id := agent_id';
            AgentOrigin_config := config' |} |}.

Definition AgentOrigin_wf (x : AgentOrigin) : Prop :=
  (from_option (uint 128) True) (AgentOrigin_agent_id x).

#[global] Instance AgentOrigin_laws : SerdeLaws AgentOrigin AgentOrigin_wf.
Proof. serde_struct. Qed.

Inductive AccountTunnelOriginCreate : Type :=
  | AccountTunnelOriginCreate_Agent (x : AgentOrigin).

#[global] Instance AccountTunnelOriginCreate_serde : Serde AccountTunnelOriginCreate := {|
  to_value x :=
    match x with
    | AccountTunnelOriginCreate_Agent x => adjacent "type" "data" "agent" (Some (to_value (Serde := AgentOrigin_serde) x))
    end;
  from_value v :=
    '(name, data) ← adjacent_parts "type" "data" v;
    variant ← find_variant name
      [("agent", newtype_variant AgentOrigin_serde AccountTunnelOriginCreate_Agent)]%string;
    variant data |}.

Definition AccountTunnelOriginCreate_wf (y : AccountTunnelOriginCreate) : Prop :=
  match y with
  | AccountTunnelOriginCreate_Agent x => AgentOrigin_wf x
  end.

#[global] Instance AccountTunnelOriginCreate_laws : SerdeLaws AccountTunnelOriginCreate AccountTunnelOriginCreate_wf.
Proof. serde_enum. Qed.

Record UseGateway : Type := {
  UseGateway_gateway_id : Uuid;
}.

#[global] Instance UseGateway_serde : Serde UseGateway := {|
  to_value x :=
    Object
      [("gateway_id"%string, to_value (Serde := (Serde_text uuid_text)) (UseGateway_gateway_id x))];
  from_value v :=
    entries ← entries_of v;
    gateway_id' ← field (Serde_text uuid_text) "gateway_id" entries;
    Some {| UseGateway_gateway_id := gateway_id' |} |}.

Definition UseGateway_wf (x : UseGateway) : Prop :=
  (uint 128) (UseGateway_gateway_id x).

#[global] Instance UseGateway_laws : SerdeLaws UseGateway UseGateway_wf.
Proof. serde_struct. Qed.

Record UseAllocDedicatedIp : Type := {
  UseAllocDedicatedIp_ip_hostname : string;
  UseAllocDedicatedIp_port : option Z;
}.

#[global] Instance UseAllocDedicatedIp_serde : Serde UseAllocDedicatedIp := {|
  to_value x :=
    Object
      [("ip_hostname"%string, to_value (Serde := Serde_string) (UseAllocDedicatedIp_ip_hostname x));
       ("port"%string, to_value (Serde := (@Serde_option _ (Serde_uint 16))) (UseAllocDedicatedIp_port x))];
  from_value v :=
    entries ← entries_of v;
    ip_hostname' ← field Serde_string "ip_hostname" entries;
    port' ← field_or (@Serde_option _ (Serde_uint 16)) None "port" entries;
    Some {| UseAllocDedicatedIp_ip_hostname := ip_hostname';
            UseAllocDedicatedIp_port := port' |} |}.

Definition UseAllocDedicatedIp_wf (x : UseAllocDedicatedIp) : Prop :=
  (from_option (uint 16) True) (UseAllocDedicatedIp_port x).

#[global] Instance UseAllocDedicatedIp_laws : SerdeLaws UseAllocDedicatedIp UseAllocDedicatedIp_wf.
Proof. serde_struct. Qed.

Record UseAllocSharedIp : Type := {
  UseAllocSharedIp_ip_hostname : string;
  UseAllocSharedIp_port : option Z;
}.

#[global] Instance UseAllocSharedIp_serde : Serde UseAllocSharedIp := {|
  to_value x :=
    Object
      [("ip_hostname"%string, to_value (Serde := Serde_string) (UseAllocSharedIp_ip_hostname x));
       ("port"%string, to_value (Serde := (@Serde_option _ (Serde_uint 16))) (UseAllocSharedIp_port x))];
  from_value v :=
    entries ← entries_of v;
    ip_hostname' ← field Serde_string "ip_hostname" entries;
    port' ← field_or (@Serde_option _ (Serde_uint 16)) None "port" entries;
    Some {| UseAllocSharedIp_ip_hostname := ip_hostname';
            UseAllocSharedIp_port := port' |} |}.

Definition UseAllocSharedIp_wf (x : UseAllocSharedIp) : Prop :=
  (from_option (uint 16) True) (UseAllocSharedIp_port x).

#[global] Instance UseAllocSharedIp_laws : SerdeLaws UseAllocSharedIp UseAllocSharedIp_wf.
Proof. serde_struct. Qed.

Record UseAllocRegion : Type := {
  UseAllocRegion_region : PlayitNetwork;
  UseAllocRegion_port : option Z;
}.

#[global] Instance UseAllocRegion_serde : Serde UseAllocRegion := {|
  to_value x :=
    Object
      [("region"%string, to_value (Serde := PlayitNetwork_serde) (UseAllocRegion_region x));
       ("port"%string, to_value (Serde := (@Serde_option _ (Serde_uint 16))) (UseAllocRegion_port x))];
  from_value v :=
    entries ← entries_of v;
    region' ← field PlayitNetwork_serde "region" entries;
    port' ← field_or (@Serde_option _ (Serde_uint 16)) None "port" entries;
    Some {| UseAllocRegion_region := region';
            UseAllocRegion_port := port' |} |}.

Definition UseAllocRegion_wf (x : UseAllocRegion) : Prop :=
  (from_option (uint 16) True) (UseAllocRegion_port x).

#[global] Instance UseAllocRegion_laws : SerdeLaws UseAllocRegion UseAllocRegion_wf.
Proof. serde_struct. Qed.

Inductive CreateTunnelEndpoint : Type :=
  | CreateTunnelEndpoint_Gateway (x : UseGateway)
  | CreateTunnelEndpoint_DedicatedIp (x : UseAllocDedicatedIp)
  | CreateTunnelEndpoint_SharedIp (x : UseAllocSharedIp)
  | CreateTunnelEndpoint_Region (x : UseAllocRegion)
  | CreateTunnelEndpoint_PortAllocation (x : Uuid).

#[global] Instance CreateTunnelEndpoint_serde : Serde CreateTunnelEndpoint := {|
  to_value x :=
    match x with
    | CreateTunnelEndpoint_Gateway x => adjacent "type" "details" "gateway" (Some (to_value (Serde := UseGateway_serde) x))
    | CreateTunnelEndpoint_DedicatedIp x => adjacent "type" "details" "dedicated-ip" (Some (to_value (Serde := UseAllocDedicatedIp_serde) x))
    | CreateTunnelEndpoint_SharedIp x => adjacent "type" "details" "shared-ip" (Some (to_value (Serde := UseAllocSharedIp_serde) x))
    | CreateTunnelEndpoint_Region x => adjacent "type" "details" "region" (Some (to_value (Serde := UseAllocRegion_serde) x))
    | CreateTunnelEndpoint_PortAllocation x => adjacent "type" "details" "port-allocation" (Some (to_value (Serde := (Serde_text uuid_text)) x))
    end;
  from_value v :=
    '(name, data) ← adjacent_parts "type" "details" v;
    variant ← find_variant name
      [("gateway", newtype_variant UseGateway_serde CreateTunnelEndpoint_Gateway);
       ("dedicated-ip", newtype_variant UseAllocDedicatedIp_serde CreateTunnelEndpoint_DedicatedIp);
       ("shared-ip", newtype_variant UseAllocSharedIp_serde CreateTunnelEndpoint_SharedIp);
       ("region", newtype_variant UseAllocRegion_serde CreateTunnelEndpoint_Region);
       ("port-allocation", newtype_variant (Serde_text uuid_text) CreateTunnelEndpoint_PortAllocation)]%string;
    variant data |}.

Definition CreateTunnelEndpoint_wf (y : CreateTunnelEndpoint) : Prop :=
  match y with
  | CreateTunnelEndpoint_Gateway x => UseGateway_wf x
  | CreateTunnelEndpoint_DedicatedIp x => UseAllocDedicatedIp_wf x
  | CreateTunnelEndpoint_SharedIp x => UseAllocSharedIp_wf x
  | CreateTunnelEndpoint_Region x => UseAllocRegion_wf x
  | CreateTunnelEndpoint_PortAllocation x => (uint 128) x
  end.

#[global] Instance CreateTunnelEndpoint_laws : SerdeLaws CreateTunnelEndpoint CreateTunnelEndpoint_wf.
Proof. serde_enum. Qed.

Record ReqTunnelsCreateV1 : Type := {
  ReqTunnelsCreateV1_name : string;
  ReqTunnelsCreateV1_protocol : TunnelProtocolV1;
  ReqTunnelsCreateV1_origin : AccountTunnelOriginCreate;
  ReqTunnelsCreateV1_endpoint : CreateTunnelEndpoint;
  ReqTunnelsCreateV1_enabled : bool;
  ReqTunnelsCreateV1_firewall_id : option Uuid;
}.

#[global] Instance ReqTunnelsCreateV1_serde : Serde ReqTunnelsCreateV1 := {|
  to_value x :=
    Object
      [("name"%string, to_value (Serde := Serde_string) (ReqTunnelsCreateV1_name x));
       ("protocol"%string, to_value (Serde := TunnelProtocolV1_serde) (ReqTunnelsCreateV1_protocol x));
       ("origin"%string, to_value (Serde := AccountTunnelOriginCreate_serde) (ReqTunnelsCreateV1_origin x));
       ("endpoint"%string, to_value (Serde := CreateTunnelEndpoint_serde) (ReqTunnelsCreateV1_endpoint x));
       ("enabled"%string, to_value (Serde := Serde_bool) (ReqTunnelsCreateV1_enabled x));
       ("firewall_id"%string, to_value (Serde := (@Serde_option _ (Serde_text uuid_text))) (ReqTunnelsCreateV1_firewall_id x))];
  from_value v :=
    entries ← entries_of v;
    name' ← field Serde_string "name" entries;
    protocol' ← field TunnelProtocolV1_serde "protocol" entries;
    origin' ← field AccountTunnelOriginCreate_serde "origin" entries;
    endpoint' ← field CreateTunnelEndpoint_serde "endpoint" entries;
    enabled' ← field Serde_bool "enabled" entries;
    firewall_id' ← field_or (@Serde_option _ (Serde_text uuid_text)) None "firewall_id" entries;
    Some {| ReqTunnelsCreateV1_name := name';
            ReqTunnelsCreateV1_protocol := protocol';
            ReqTunnelsCreateV1_origin := origin';
            ReqTunnelsCreateV1_endpoint := endpoint';
            ReqTunnelsCreateV1_enabled := enabled';
            ReqTunnelsCreateV1_firewall_id := firewall_id' |} |}.

Definition ReqTunnelsCreateV1_wf (x : ReqTunnelsCreateV1) : Prop :=
  TunnelProtocolV1_wf (ReqTunnelsCreateV1_protocol x) ∧
  AccountTunnelOriginCreate_wf (ReqTunnelsCreateV1_origin x) ∧
  CreateTunnelEndpoint_wf (ReqTunnelsCreateV1_endpoint x) ∧
  (from_option (uint 128) True) (ReqTunnelsCreateV1_firewall_id x).

#[global] Instance ReqTunnelsCreateV1_laws : SerdeLaws ReqTunnelsCreateV1 ReqTunnelsCreateV1_wf.
Proof. serde_struct. Qed.

Record ObjectId : Type := {
  ObjectId_id : Uuid;
}.

#[global] Instance ObjectId_serde : Serde ObjectId := {|
  to_value x :=
    Object
      [("id"%string, to_value (Serde := (Serde_text uuid_text)) (ObjectId_id x))];
  from_value v :=
    entries ← entries_of v;
    id' ← field (Serde_text uuid_text) "id" entries;
    Some {| ObjectId_id := id' |} |}.

Definition ObjectId_wf (x : ObjectId) : Prop :=
  (uint 128) (ObjectId_id x).

#[global] Instance ObjectId_laws : SerdeLaws ObjectId ObjectId_wf.
Proof. serde_struct. Qed.

Inductive TunnelCreateErrorV1 : Set :=
  | TunnelCreateErrorV1_AgentNotFound
  | TunnelCreateErrorV1_InvalidAgentId
  | TunnelCreateErrorV1_DedicatedIpNotFound
  | TunnelCreateErrorV1_PortAllocNotFound
  | TunnelCreateErrorV1_InvalidIpHostname
  | TunnelCreateErrorV1_InvalidPortCount
  | TunnelCreateErrorV1_RequiresVerifiedAccount
  | TunnelCreateErrorV1_RegionNotSupported
  | TunnelCreateErrorV1_InvalidTunnelConfig
  | TunnelCreateErrorV1_FirewallNotFound
  | TunnelCreateErrorV1_TunnelNameIsNotAscii
  | TunnelCreateErrorV1_TunnelNameTooLong
  | TunnelCreateErrorV1_PortAllocDoesNotMatchPortDetails
  | TunnelCreateErrorV1_RegionRequiresPlayitPremium
  | TunnelCreateErrorV1_PortAllocCurrentlyAssigned
  | TunnelCreateErrorV1_PublicPortRequiresPlayitPremium
  | TunnelCreateErrorV1_AgentVersionTooOld
  | TunnelCreateErrorV1_RequiresPlayitPremium
  | TunnelCreateErrorV1_AllocRequestNotSupportedByPorts
  | TunnelCreateErrorV1_InvalidHostnameId
  | TunnelCreateErrorV1_HostnameHasTunnelTypeTarget
  | TunnelCreateErrorV1_EndpointDoesNotSupportProtocol
  | TunnelCreateErrorV1_InvalidGatewayId
  | TunnelCreateErrorV1_GatewayAlreadyHasTunnelType
  | TunnelCreateErrorV1_GatewayDoesNotSupportTunnelType
  | TunnelCreateErrorV1_TunnelTypeBlockedOnRegion
  | TunnelCreateErrorV1_InvalidSoftwareDescription
  | TunnelCreateErrorV1_Other.

Definition TunnelCreateErrorV1_name (x : TunnelCreateErrorV1) : string :=
  match x with
  | TunnelCreateErrorV1_AgentNotFound => "AgentNotFound"
  | TunnelCreateErrorV1_InvalidAgentId => "InvalidAgentId"
  | TunnelCreateErrorV1_DedicatedIpNotFound => "DedicatedIpNotFound"
  | TunnelCreateErrorV1_PortAllocNotFound => "PortAllocNotFound"
  | TunnelCreateErrorV1_InvalidIpHostname => "InvalidIpHostname"
  | TunnelCreateErrorV1_InvalidPortCount => "InvalidPortCount"
  | TunnelCreateErrorV1_RequiresVerifiedAccount => "RequiresVerifiedAccount"
  | TunnelCreateErrorV1_RegionNotSupported => "RegionNotSupported"
  | TunnelCreateErrorV1_InvalidTunnelConfig => "InvalidTunnelConfig"
  | TunnelCreateErrorV1_FirewallNotFound => "FirewallNotFound"
  | TunnelCreateErrorV1_TunnelNameIsNotAscii => "TunnelNameIsNotAscii"
  | TunnelCreateErrorV1_TunnelNameTooLong => "TunnelNameTooLong"
  | TunnelCreateErrorV1_PortAllocDoesNotMatchPortDetails => "PortAllocDoesNotMatchPortDetails"
  | TunnelCreateErrorV1_RegionRequiresPlayitPremium => "RegionRequiresPlayitPremium"
  | TunnelCreateErrorV1_PortAllocCurrentlyAssigned => "PortAllocCurrentlyAssigned"
  | TunnelCreateErrorV1_PublicPortRequiresPlayitPremium => "PublicPortRequiresPlayitPremium"
  | TunnelCreateErrorV1_AgentVersionTooOld => "AgentVersionTooOld"
  | TunnelCreateErrorV1_RequiresPlayitPremium => "RequiresPlayitPremium"
  | TunnelCreateErrorV1_AllocRequestNotSupportedByPorts => "AllocRequestNotSupportedByPorts"
  | TunnelCreateErrorV1_InvalidHostnameId => "InvalidHostnameId"
  | TunnelCreateErrorV1_HostnameHasTunnelTypeTarget => "HostnameHasTunnelTypeTarget"
  | TunnelCreateErrorV1_EndpointDoesNotSupportProtocol => "EndpointDoesNotSupportProtocol"
  | TunnelCreateErrorV1_InvalidGatewayId => "InvalidGatewayId"
  | TunnelCreateErrorV1_GatewayAlreadyHasTunnelType => "GatewayAlreadyHasTunnelType"
  | TunnelCreateErrorV1_GatewayDoesNotSupportTunnelType => "GatewayDoesNotSupportTunnelType"
  | TunnelCreateErrorV1_TunnelTypeBlockedOnRegion => "TunnelTypeBlockedOnRegion"
  | TunnelCreateErrorV1_InvalidSoftwareDescription => "InvalidSoftwareDescription"
  | TunnelCreateErrorV1_Other => "Other"
  end.

#[global] Instance TunnelCreateErrorV1_serde : Serde TunnelCreateErrorV1 :=
  Serde_other_enum TunnelCreateErrorV1_name TunnelCreateErrorV1_Other
    [(TunnelCreateErrorV1_name TunnelCreateErrorV1_AgentNotFound, TunnelCreateErrorV1_AgentNotFound);
     (TunnelCreateErrorV1_name TunnelCreateErrorV1_InvalidAgentId, TunnelCreateErrorV1_InvalidAgentId);
     (TunnelCreateErrorV1_name TunnelCreateErrorV1_DedicatedIpNotFound, TunnelCreateErrorV1_DedicatedIpNotFound);
     (TunnelCreateErrorV1_name TunnelCreateErrorV1_PortAllocNotFound, TunnelCreateErrorV1_PortAllocNotFound);
     (TunnelCreateErrorV1_name TunnelCreateErrorV1_InvalidIpHostname, TunnelCreateErrorV1_InvalidIpHostname);
     (TunnelCreateErrorV1_name TunnelCreateErrorV1_InvalidPortCount, TunnelCreateErrorV1_InvalidPortCount);
     (TunnelCreateErrorV1_name TunnelCreateErrorV1_RequiresVerifiedAccount, TunnelCreateErrorV1_RequiresVerifiedAccount);
     (TunnelCreateErrorV1_name TunnelCreateErrorV1_RegionNotSupported, TunnelCreateErrorV1_RegionNotSupported);
     (TunnelCreateErrorV1_name TunnelCreateErrorV1_InvalidTunnelConfig, TunnelCreateErrorV1_InvalidTunnelConfig);
     (TunnelCreateErrorV1_name TunnelCreateErrorV1_FirewallNotFound, TunnelCreateErrorV1_FirewallNotFound);
     (TunnelCreateErrorV1_name TunnelCreateErrorV1_TunnelNameIsNotAscii, TunnelCreateErrorV1_TunnelNameIsNotAscii);
     (TunnelCreateErrorV1_name TunnelCreateErrorV1_TunnelNameTooLong, TunnelCreateErrorV1_TunnelNameTooLong);
     (TunnelCreateErrorV1_name TunnelCreateErrorV1_PortAllocDoesNotMatchPortDetails, TunnelCreateErrorV1_PortAllocDoesNotMatchPortDetails);
     (TunnelCreateErrorV1_name TunnelCreateErrorV1_RegionRequiresPlayitPremium, TunnelCreateErrorV1_RegionRequiresPlayitPremium);
     (TunnelCreateErrorV1_name TunnelCreateErrorV1_PortAllocCurrentlyAssigned, TunnelCreateErrorV1_PortAllocCurrentlyAssigned);
     (TunnelCreateErrorV1_name TunnelCreateErrorV1_PublicPortRequiresPlayitPremium, TunnelCreateErrorV1_PublicPortRequiresPlayitPremium);
     (TunnelCreateErrorV1_name TunnelCreateErrorV1_AgentVersionTooOld, TunnelCreateErrorV1_AgentVersionTooOld);
     (TunnelCreateErrorV1_name TunnelCreateErrorV1_RequiresPlayitPremium, TunnelCreateErrorV1_RequiresPlayitPremium);
     (TunnelCreateErrorV1_name TunnelCreateErrorV1_AllocRequestNotSupportedByPorts, TunnelCreateErrorV1_AllocRequestNotSupportedByPorts);
     (TunnelCreateErrorV1_name TunnelCreateErrorV1_InvalidHostnameId, TunnelCreateErrorV1_InvalidHostnameId);
     (TunnelCreateErrorV1_name TunnelCreateErrorV1_HostnameHasTunnelTypeTarget, TunnelCreateErrorV1_HostnameHasTunnelTypeTarget);
     (TunnelCreateErrorV1_name TunnelCreateErrorV1_EndpointDoesNotSupportProtocol, TunnelCreateErrorV1_EndpointDoesNotSupportProtocol);
     (TunnelCreateErrorV1_name TunnelCreateErrorV1_InvalidGatewayId, TunnelCreateErrorV1_InvalidGatewayId);
     (TunnelCreateErrorV1_name TunnelCreateErrorV1_GatewayAlreadyHasTunnelType, TunnelCreateErrorV1_GatewayAlreadyHasTunnelType);
     (TunnelCreateErrorV1_name TunnelCreateErrorV1_GatewayDoesNotSupportTunnelType, TunnelCreateErrorV1_GatewayDoesNotSupportTunnelType);
     (TunnelCreateErrorV1_name TunnelCreateErrorV1_TunnelTypeBlockedOnRegion, TunnelCreateErrorV1_TunnelTypeBlockedOnRegion);
     (TunnelCreateErrorV1_name TunnelCreateErrorV1_InvalidSoftwareDescription, TunnelCreateErrorV1_InvalidSoftwareDescription);
     (TunnelCreateErrorV1_name TunnelCreateErrorV1_Other, TunnelCreateErrorV1_Other)].

#[global] Instance TunnelCreateErrorV1_laws : SerdeLaws TunnelCreateErrorV1 (λ _, True).
Proof. apply other_enum_laws. by intros []. Qed.

Record ReqSchemasGetV1 : Type := {
  ReqSchemasGetV1_id : Uuid;
}.

#[global] Instance ReqSchemasGetV1_serde : Serde ReqSchemasGetV1 := {|
  to_value x :=
    Object
      [("id"%string, to_value (Serde := (Serde_text uuid_text)) (ReqSchemasGetV1_id x))];
  from_value v :=
    entries ← entries_of v;
    id' ← field (Serde_text uuid_text) "id" entries;
    Some {| ReqSchemasGetV1_id := id' |} |}.

Definition ReqSchemasGetV1_wf (x : ReqSchemasGetV1) : Prop :=
  (uint 128) (ReqSchemasGetV1_id x).

#[global] Instance ReqSchemasGetV1_laws : SerdeLaws ReqSchemasGetV1 ReqSchemasGetV1_wf.
Proof. serde_struct. Qed.

Record AgentTunnelTypeSupportedPorts : Type := {
  AgentTunnelTypeSupportedPorts_min : Z;
  AgentTunnelTypeSupportedPorts_max : Z;
}.

#[global] Instance AgentTunnelTypeSupportedPorts_serde : Serde AgentTunnelTypeSupportedPorts := {|
  to_value x :=
    Object
      [("min"%string, to_value (Serde := (Serde_uint 16)) (AgentTunnelTypeSupportedPorts_min x));
       ("max"%string, to_value (Serde := (Serde_uint 16)) (AgentTunnelTypeSupportedPorts_max x))];
  from_value v :=
    entries ← entries_of v;
    min' ← field (Serde_uint 16) "min" entries;
    max' ← field (Serde_uint 16) "max" entries;
    Some {| AgentTunnelTypeSupportedPorts_min := min';
            AgentTunnelTypeSupportedPorts_max := max' |} |}.

Definition AgentTunnelTypeSupportedPorts_wf (x : AgentTunnelTypeSupportedPorts) : Prop :=
  (uint 16) (AgentTunnelTypeSupportedPorts_min x) ∧
  (uint 16) (AgentTunnelTypeSupportedPorts_max x).

#[global] Instance AgentTunnelTypeSupportedPorts_laws : SerdeLaws AgentTunnelTypeSupportedPorts AgentTunnelTypeSupportedPorts_wf.
Proof. serde_struct. Qed.

Inductive AgentSchemaTunnelType : Type :=
  | AgentSchemaTunnelType_CustomTcp (x : AgentTunnelTypeSupportedPorts)
  | AgentSchemaTunnelType_CustomUdp (x : AgentTunnelTypeSupportedPorts)
  | AgentSchemaTunnelType_CustomBoth (x : AgentTunnelTypeSupportedPorts)
  | AgentSchemaTunnelType_TunnelType (x : TunnelType).

#[global] Instance AgentSchemaTunnelType_serde : Serde AgentSchemaTunnelType := {|
  to_value x :=
    match x with
    | AgentSchemaTunnelType_CustomTcp x => adjacent "name" "details" "custom-tcp" (Some (to_value (Serde := AgentTunnelTypeSupportedPorts_serde) x))
    | AgentSchemaTunnelType_CustomUdp x => adjacent "name" "details" "custom-udp" (Some (to_value (Serde := AgentTunnelTypeSupportedPorts_serde) x))
    | AgentSchemaTunnelType_CustomBoth x => adjacent "name" "details" "custom-both" (Some (to_value (Serde := AgentTunnelTypeSupportedPorts_serde) x))
    | AgentSchemaTunnelType_TunnelType x => adjacent "name" "details" "tunnel-type" (Some (to_value (Serde := TunnelType_serde) x))
    end;
  from_value v :=
    '(name, data) ← adjacent_parts "name" "details" v;
    variant ← find_variant name
      [("custom-tcp", newtype_variant AgentTunnelTypeSupportedPorts_serde AgentSchemaTunnelType_CustomTcp);
       ("custom-udp", newtype_variant AgentTunnelTypeSupportedPorts_serde AgentSchemaTunnelType_CustomUdp);
       ("custom-both", newtype_variant AgentTunnelTypeSupportedPorts_serde AgentSchemaTunnelType_CustomBoth);
       ("tunnel-type", newtype_variant TunnelType_serde AgentSchemaTunnelType_TunnelType)]%string;
    variant data |}.

Definition AgentSchemaTunnelType_wf (y : AgentSchemaTunnelType) : Prop :=
  match y with
  | AgentSchemaTunnelType_CustomTcp x => AgentTunnelTypeSupportedPorts_wf x
  | AgentSchemaTunnelType_CustomUdp x => AgentTunnelTypeSupportedPorts_wf x
  | AgentSchemaTunnelType_CustomBoth x => AgentTunnelTypeSupportedPorts_wf x
  | _ => True
  end.

#[global] Instance AgentSchemaTunnelType_laws : SerdeLaws AgentSchemaTunnelType AgentSchemaTunnelType_wf.
Proof. serde_enum. Qed.

Record AgentSchemaForTunnelType : Type := {
  AgentSchemaForTunnelType_tunnel_type : AgentSchemaTunnelType;
  AgentSchemaForTunnelType_schema : option AgentTunnelSchema;
}.

#[global] Instance AgentSchemaForTunnelType_serde : Serde AgentSchemaForTunnelType := {|
  to_value x :=
    Object
      [("tunnel_type"%string, to_value (Serde := AgentSchemaTunnelType_serde) (AgentSchemaForTunnelType_tunnel_type x));
       ("schema"%string, to_value (Serde := (@Serde_option _ AgentTunnelSchema_serde)) (AgentSchemaForTunnelType_schema x))];
  from_value v :=
    entries ← entries_of v;
    tunnel_type' ← field AgentSchemaTunnelType_serde "tunnel_type" entries;
    schema' ← field_or (@Serde_option _ AgentTunnelSchema_serde) None "schema" entries;
    Some {| AgentSchemaForTunnelType_tunnel_type := tunnel_type';
            AgentSchemaForTunnelType_schema := schema' |} |}.

Definition AgentSchemaForTunnelType_wf (x : AgentSchemaForTunnelType) : Prop :=
  AgentSchemaTunnelType_wf (AgentSchemaForTunnelType_tunnel_type x).

#[global] Instance AgentSchemaForTunnelType_laws : SerdeLaws AgentSchemaForTunnelType AgentSchemaForTunnelType_wf.
Proof. serde_struct. Qed.

Record AgentSchema : Type := {
  AgentSchema_default_schema : option AgentTunnelSchema;
  AgentSchema_schemas : list AgentSchemaForTunnelType;
  AgentSchema_only_explicit_schemas : bool;
}.

#[global] Instance AgentSchema_serde : Serde AgentSchema := {|
  to_value x :=
    Object
      [("default_schema"%string, to_value (Serde := (@Serde_option _ AgentTunnelSchema_serde)) (AgentSchema_default_schema x));
       ("schemas"%string, to_value (Serde := (@Serde_list _ AgentSchemaForTunnelType_serde)) (AgentSchema_schemas x));
       ("only_explicit_schemas"%string, to_value (Serde := Serde_bool) (AgentSchema_only_explicit_schemas x))];
  from_value v :=
    entries ← entries_of v;
    default_schema' ← field_or (@Serde_option _ AgentTunnelSchema_serde) None "default_schema" entries;
    schemas' ← field (@Serde_list _ AgentSchemaForTunnelType_serde) "schemas" entries;
    only_explicit_schemas' ← field Serde_bool "only_explicit_schemas" entries;
    Some {| AgentSchema_default_schema := default_schema';
            AgentSchema_schemas := schemas';
            AgentSchema_only_explicit_schemas := only_explicit_schemas' |} |}.

Definition AgentSchema_wf (x : AgentSchema) : Prop :=
  (Forall AgentSchemaForTunnelType_wf) (AgentSchema_schemas x).

#[global] Instance AgentSchema_laws : SerdeLaws AgentSchema AgentSchema_wf.
Proof. serde_struct. Qed.

Record SchemaData : Type := {
  SchemaData_id : Uuid;
  SchemaData_details : AgentSchema;
}.

#[global] Instance SchemaData_serde : Serde SchemaData := {|
  to_value x :=
    Object
      [("id"%string, to_value (Serde := (Serde_text uuid_text)) (SchemaData_id x));
       ("details"%string, to_value (Serde := AgentSchema_serde) (SchemaData_details x))];
  from_value v :=
    entries ← entries_of v;
    id' ← field (Serde_text uuid_text) "id" entries;
    details' ← field AgentSchema_serde "details" entries;
    Some {| SchemaData_id := id';
            SchemaData_details := details' |} |}.

Definition SchemaData_wf (x : SchemaData) : Prop :=
  (uint 128) (SchemaData_id x) ∧
  AgentSchema_wf (SchemaData_details x).

#[global] Instance SchemaData_laws : SerdeLaws SchemaData SchemaData_wf.
Proof. serde_struct. Qed.

Inductive SchemaGetError : Set :=
  | SchemaGetError_SchemaNotFound.

Definition SchemaGetError_name (x : SchemaGetError) : string :=
  match x with
  | SchemaGetError_SchemaNotFound => "SchemaNotFound"
  end.

#[global] Instance SchemaGetError_serde : Serde SchemaGetError :=
  Serde_unit_enum SchemaGetError_name
    [(SchemaGetError_name SchemaGetError_SchemaNotFound, SchemaGetError_SchemaNotFound)].

#[global] Instance SchemaGetError_laws : SerdeLaws SchemaGetError (λ _, True).
Proof. apply unit_enum_laws. by intros []. Qed.

Record ReqTunnelsConfigV1 : Type := {
  ReqTunnelsConfigV1_tunnel_id : Uuid;
  ReqTunnelsConfigV1_new_agent_id : option Uuid;
  ReqTunnelsConfigV1_new_config : option AgentTunnelConfig;
}.

#[global] Instance ReqTunnelsConfigV1_serde : Serde ReqTunnelsConfigV1 := {|
  to_value x :=
    Object
      [("tunnel_id"%string, to_value (Serde := (Serde_text uuid_text)) (ReqTunnelsConfigV1_tunnel_id x));
       ("new_agent_id"%string, to_value (Serde := (@Serde_option _ (Serde_text uuid_text))) (ReqTunnelsConfigV1_new_agent_id x));
       ("new_config"%string, to_value (Serde := (@Serde_option _ AgentTunnelConfig_serde)) (ReqTunnelsConfigV1_new_config x))];
  from_value v :=
    entries ← entries_of v;
    tunnel_id' ← field (Serde_text uuid_text) "tunnel_id" entries;
    new_agent_id' ← field_or (@Serde_option _ (Serde_text uuid_text)) None "new_agent_id" entries;
    new_config' ← field_or (@Serde_option _ AgentTunnelConfig_serde) None "new_config" entries;
    Some {| ReqTunnelsConfigV1_tunnel_id := tunnel_id';
            ReqTunnelsConfigV1_new_agent_id := new_agent_id';
            ReqTunnelsConfigV1_new_config := new_config' |} |}.

Definition ReqTunnelsConfigV1_wf (x : ReqTunnelsConfigV1) : Prop :=
  (uint 128) (ReqTunnelsConfigV1_tunnel_id x) ∧
  (from_option (uint 128) True) (ReqTunnelsConfigV1_new_agent_id x).

#[global] Instance ReqTunnelsConfigV1_laws : SerdeLaws ReqTunnelsConfigV1 ReqTunnelsConfigV1_wf.
Proof. serde_struct. Qed.

Record AgentTunnelPortAllocTypeDetails : Type := {
  AgentTunnelPortAllocTypeDetails_tunnel_type : option TunnelType;
  AgentTunnelPortAllocTypeDetails_port_type : PortType;
  AgentTunnelPortAllocTypeDetails_port_count : Z;
}.

#[global] Instance AgentTunnelPortAllocTypeDetails_serde : Serde AgentTunnelPortAllocTypeDetails := {|
  to_value x :=
    Object
      [("tunnel_type"%string, to_value (Serde := (@Serde_option _ TunnelType_serde)) (AgentTunnelPortAllocTypeDetails_tunnel_type x));
       ("port_type"%string, to_value (Serde := PortType_serde) (AgentTunnelPortAllocTypeDetails_port_type x));
       ("port_count"%string, to_value (Serde := (Serde_uint 16)) (AgentTunnelPortAllocTypeDetails_port_count x))];
  from_value v :=
    entries ← entries_of v;
    tunnel_type' ← field_or (@Serde_option _ TunnelType_serde) None "tunnel_type" entries;
    port_type' ← field PortType_serde "port_type" entries;
    port_count' ← field (Serde_uint 16) "port_count" entries;
    Some {| AgentTunnelPortAllocTypeDetails_tunnel_type := tunnel_type';
            AgentTunnelPortAllocTypeDetails_port_type := port_type';
            AgentTunnelPortAllocTypeDetails_port_count := port_count' |} |}.

Definition AgentTunnelPortAllocTypeDetails_wf (x : AgentTunnelPortAllocTypeDetails) : Prop :=
  (uint 16) (AgentTunnelPortAllocTypeDetails_port_count x).

#[global] Instance AgentTunnelPortAllocTypeDetails_laws : SerdeLaws AgentTunnelPortAllocTypeDetails AgentTunnelPortAllocTypeDetails_wf.
Proof. serde_struct. Qed.

Inductive AgentSchemaValidationError : Type :=
  | AgentSchemaValidationError_NoSchemaFound
  | AgentSchemaValidationError_TooManyFields
  | AgentSchemaValidationError_TunnelTypeNotSupported (x : AgentTunnelPortAllocTypeDetails)
  | AgentSchemaValidationError_UnknownField (x : string)
  | AgentSchemaValidationError_MissingRequiredField (x : string)
  | AgentSchemaValidationError_InvalidValueForType (x : string)
  | AgentSchemaValidationError_ValueNotInVariants (x : string).

#[global] Instance AgentSchemaValidationError_serde : Serde AgentSchemaValidationError := {|
  to_value x :=
    match x with
    | AgentSchemaValidationError_NoSchemaFound => adjacent "error" "field" "NoSchemaFound" None
    | AgentSchemaValidationError_TooManyFields => adjacent "error" "field" "TooManyFields" None
    | AgentSchemaValidationError_TunnelTypeNotSupported x => adjacent "error" "field" "TunnelTypeNotSupported" (Some (to_value (Serde := AgentTunnelPortAllocTypeDetails_serde) x))
    | AgentSchemaValidationError_UnknownField x => adjacent "error" "field" "UnknownField" (Some (to_value (Serde := Serde_string) x))
    | AgentSchemaValidationError_MissingRequiredField x => adjacent "error" "field" "MissingRequiredField" (Some (to_value (Serde := Serde_string) x))
    | AgentSchemaValidationError_InvalidValueForType x => adjacent "error" "field" "InvalidValueForType" (Some (to_value (Serde := Serde_string) x))
    | AgentSchemaValidationError_ValueNotInVariants x => adjacent "error" "field" "ValueNotInVariants" (Some (to_value (Serde := Serde_string) x))
    end;
  from_value v :=
    '(name, data) ← adjacent_parts "error" "field" v;
    variant ← find_variant name
      [("NoSchemaFound", unit_variant AgentSchemaValidationError_NoSchemaFound);
       ("TooManyFields", unit_variant AgentSchemaValidationError_TooManyFields);
       ("TunnelTypeNotSupported", newtype_variant AgentTunnelPortAllocTypeDetails_serde AgentSchemaValidationError_TunnelTypeNotSupported);
       ("UnknownField", newtype_variant Serde_string AgentSchemaValidationError_UnknownField);
       ("MissingRequiredField", newtype_variant Serde_string AgentSchemaValidationError_MissingRequiredField);
       ("InvalidValueForType", newtype_variant Serde_string AgentSchemaValidationError_InvalidValueForType);
       ("ValueNotInVariants", newtype_variant Serde_string AgentSchemaValidationError_ValueNotInVariants)]%string;
    variant data |}.

Definition AgentSchemaValidationError_wf (y : AgentSchemaValidationError) : Prop :=
  match y with
  | AgentSchemaValidationError_TunnelTypeNotSupported x => AgentTunnelPortAllocTypeDetails_wf x
  | _ => True
  end.

#[global] Instance AgentSchemaValidationError_laws : SerdeLaws AgentSchemaValidationError AgentSchemaValidationError_wf.
Proof. serde_enum. Qed.

Inductive TunnelConfigError : Type :=
  | TunnelConfigError_TunnelNotFound
  | TunnelConfigError_AgentNotFound
  | TunnelConfigError_AgentVersionUnknown
  | TunnelConfigError_CannotConfigTunnelWithoutAgent
  | TunnelConfigError_SelfManagedAgentCannotReassignTunnel
  | TunnelConfigError_InvalidConfig (x : AgentSchemaValidationError)
  | TunnelConfigError_ConfigNotCompatibleWithAgent
  | TunnelConfigError_NothingToUpdate.

#[global] Instance TunnelConfigError_serde : Serde TunnelConfigError := {|
  to_value x :=
    match x with
    | TunnelConfigError_TunnelNotFound => adjacent "error" "details" "TunnelNotFound" None
    | TunnelConfigError_AgentNotFound => adjacent "error" "details" "AgentNotFound" None
    | TunnelConfigError_AgentVersionUnknown => adjacent "error" "details" "AgentVersionUnknown" None
    | TunnelConfigError_CannotConfigTunnelWithoutAgent => adjacent "error" "details" "CannotConfigTunnelWithoutAgent" None
    | TunnelConfigError_SelfManagedAgentCannotReassignTunnel => adjacent "error" "details" "SelfManagedAgentCannotReassignTunnel" None
    | TunnelConfigError_InvalidConfig x => adjacent "error" "details" "InvalidConfig" (Some (to_value (Serde := AgentSchemaValidationError_serde) x))
    | TunnelConfigError_ConfigNotCompatibleWithAgent => adjacent "error" "details" "ConfigNotCompatibleWithAgent" None
    | TunnelConfigError_NothingToUpdate => adjacent "error" "details" "NothingToUpdate" None
    end;
  from_value v :=
    '(name, data) ← adjacent_parts "error" "details" v;
    variant ← find_variant name
      [("TunnelNotFound", unit_variant TunnelConfigError_TunnelNotFound);
       ("AgentNotFound", unit_variant TunnelConfigError_AgentNotFound);
       ("AgentVersionUnknown", unit_variant TunnelConfigError_AgentVersionUnknown);
       ("CannotConfigTunnelWithoutAgent", unit_variant TunnelConfigError_CannotConfigTunnelWithoutAgent);
       ("SelfManagedAgentCannotReassignTunnel", unit_variant TunnelConfigError_SelfManagedAgentCannotReassignTunnel);
       ("InvalidConfig", newtype_variant AgentSchemaValidationError_serde TunnelConfigError_InvalidConfig);
       ("ConfigNotCompatibleWithAgent", unit_variant TunnelConfigError_ConfigNotCompatibleWithAgent);
       ("NothingToUpdate", unit_variant TunnelConfigError_NothingToUpdate)]%string;
    variant data |}.

Definition TunnelConfigError_wf (y : TunnelConfigError) : Prop :=
  match y with
  | TunnelConfigError_InvalidConfig x => AgentSchemaValidationError_wf x
  | _ => True
  end.

#[global] Instance TunnelConfigError_laws : SerdeLaws TunnelConfigError TunnelConfigError_wf.
Proof. serde_enum. Qed.

Inductive PropsetDetails : Type :=
  | PropsetDetails_HostnameVerifyLevel (x : HostnameVerifyLevel).

#[global] Instance PropsetDetails_serde : Serde PropsetDetails := {|
  to_value x :=
    match x with
    | PropsetDetails_HostnameVerifyLevel x => adjacent "type" "value" "hostname_verify_level" (Some (to_value (Serde := HostnameVerifyLevel_serde) x))
    end;
  from_value v :=
    '(name, data) ← adjacent_parts "type" "value" v;
    variant ← find_variant name
      [("hostname_verify_level", newtype_variant HostnameVerifyLevel_serde PropsetDetails_HostnameVerifyLevel)]%string;
    variant data |}.

#[global] Instance PropsetDetails_laws : SerdeLaws PropsetDetails (λ _, True).
Proof. serde_enum. Qed.

Record ReqTunnelsPropset : Type := {
  ReqTunnelsPropset_tunnel_id : Uuid;
  ReqTunnelsPropset_details : PropsetDetails;
}.

#[global] Instance ReqTunnelsPropset_serde : Serde ReqTunnelsPropset := {|
  to_value x :=
    Object
      [("tunnel_id"%string, to_value (Serde := (Serde_text uuid_text)) (ReqTunnelsPropset_tunnel_id x));
       ("details"%string, to_value (Serde := PropsetDetails_serde) (ReqTunnelsPropset_details x))];
  from_value v :=
    entries ← entries_of v;
    tunnel_id' ← field (Serde_text uuid_text) "tunnel_id" entries;
    details' ← field PropsetDetails_serde "details" entries;
    Some {| ReqTunnelsPropset_tunnel_id := tunnel_id';
            ReqTunnelsPropset_details := details' |} |}.

Definition ReqTunnelsPropset_wf (x : ReqTunnelsPropset) : Prop :=
  (uint 128) (ReqTunnelsPropset_tunnel_id x).

#[global] Instance ReqTunnelsPropset_laws : SerdeLaws ReqTunnelsPropset ReqTunnelsPropset_wf.
Proof. serde_struct. Qed.

Inductive TunnelProxyPropSetError : Set :=
  | TunnelProxyPropSetError_RequiresPermium
  | TunnelProxyPropSetError_TunnelNotFound
  | TunnelProxyPropSetError_PropertyValueNotSupportedForTunnelType.

Definition TunnelProxyPropSetError_name (x : TunnelProxyPropSetError) : string :=
  match x with
  | TunnelProxyPropSetError_RequiresPermium => "RequiresPermium"
  | TunnelProxyPropSetError_TunnelNotFound => "TunnelNotFound"
  | TunnelProxyPropSetError_PropertyValueNotSupportedForTunnelType => "PropertyValueNotSupportedForTunnelType"
  end.

#[global] Instance TunnelProxyPropSetError_serde : Serde TunnelProxyPropSetError :=
  Serde_unit_enum TunnelProxyPropSetError_name
    [(TunnelProxyPropSetError_name TunnelProxyPropSetError_RequiresPermium, TunnelProxyPropSetError_RequiresPermium);
     (TunnelProxyPropSetError_name TunnelProxyPropSetError_TunnelNotFound, TunnelProxyPropSetError_TunnelNotFound);
     (TunnelProxyPropSetError_name TunnelProxyPropSetError_PropertyValueNotSupportedForTunnelType, TunnelProxyPropSetError_PropertyValueNotSupportedForTunnelType)].

#[global] Instance TunnelProxyPropSetError_laws : SerdeLaws TunnelProxyPropSetError (λ _, True).
Proof. apply unit_enum_laws. by intros []. Qed.

Record ReqAgentsRundataV1 : Set := ReqAgentsRundataV1_new {}.

#[global] Instance ReqAgentsRundataV1_serde : Serde ReqAgentsRundataV1 := {|
  to_value _ := Object [];
  from_value v := _ ← entries_of v; Some ReqAgentsRundataV1_new |}.

#[global] Instance ReqAgentsRundataV1_laws : SerdeLaws ReqAgentsRundataV1 (λ _, True).
Proof. by split; [intros []|]. Qed.

Record ApiAgentTunnelV1 : Type := {
  ApiAgentTunnelV1_id : Uuid;
  ApiAgentTunnelV1_internal_id : Z;
  ApiAgentTunnelV1_name : string;
  ApiAgentTunnelV1_display_address : string;
  ApiAgentTunnelV1_port_type : PortType;
  ApiAgentTunnelV1_port_count : Z;
  ApiAgentTunnelV1_tunnel_type : option string;
  ApiAgentTunnelV1_tunnel_type_display : string;
  ApiAgentTunnelV1_agent_config : AgentTunnelConfig;
  ApiAgentTunnelV1_disabled_reason : option string;
}.

#[global] Instance ApiAgentTunnelV1_serde : Serde ApiAgentTunnelV1 := {|
  to_value x :=
    Object
      [("id"%string, to_value (Serde := (Serde_text uuid_text)) (ApiAgentTunnelV1_id x));
       ("internal_id"%string, to_value (Serde := (Serde_uint 64)) (ApiAgentTunnelV1_internal_id x));
       ("name"%string, to_value (Serde := Serde_string) (ApiAgentTunnelV1_name x));
       ("display_address"%string, to_value (Serde := Serde_string) (ApiAgentTunnelV1_display_address x));
       ("port_type"%string, to_value (Serde := PortType_serde) (ApiAgentTunnelV1_port_type x));
       ("port_count"%string, to_value (Serde := (Serde_uint 16)) (ApiAgentTunnelV1_port_count x));
       ("tunnel_type"%string, to_value (Serde := (@Serde_option _ Serde_string)) (ApiAgentTunnelV1_tunnel_type x));
       ("tunnel_type_display"%string, to_value (Serde := Serde_string) (ApiAgentTunnelV1_tunnel_type_display x));
       ("agent_config"%string, to_value (Serde := AgentTunnelConfig_serde) (ApiAgentTunnelV1_agent_config x));
       ("disabled_reason"%string, to_value (Serde := (@Serde_option _ Serde_string)) (ApiAgentTunnelV1_disabled_reason x))];
  from_value v :=
    entries ← entries_of v;
    id' ← field (Serde_text uuid_text) "id" entries;
    internal_id' ← field (Serde_uint 64) "internal_id" entries;
    name' ← field Serde_string "name" entries;
    display_address' ← field Serde_string "display_address" entries;
    port_type' ← field PortType_serde "port_type" entries;
    port_count' ← field (Serde_uint 16) "port_count" entries;
    tunnel_type' ← field_or (@Serde_option _ Serde_string) None "tunnel_type" entries;
    tunnel_type_display' ← field Serde_string "tunnel_type_display" entries;
    agent_config' ← field AgentTunnelConfig_serde "agent_config" entries;
    disabled_reason' ← field_or (@Serde_option _ Serde_string) None "disabled_reason" entries;
    Some {| ApiAgentTunnelV1_id := id';
            ApiAgentTunnelV1_internal_id := internal_id';
            ApiAgentTunnelV1_name := name';
            ApiAgentTunnelV1_display_address := display_address';
            ApiAgentTunnelV1_port_type := port_type';
            ApiAgentTunnelV1_port_count := port_count';
            ApiAgentTunnelV1_tunnel_type := tunnel_type';
            ApiAgentTunnelV1_tunnel_type_display := tunnel_type_display';
            ApiAgentTunnelV1_agent_config := agent_config';
            ApiAgentTunnelV1_disabled_reason := disabled_reason' |} |}.

Definition ApiAgentTunnelV1_wf (x : ApiAgentTunnelV1) : Prop :=
  (uint 128) (ApiAgentTunnelV1_id x) ∧
  (uint 64) (ApiAgentTunnelV1_internal_id x) ∧
  (uint 16) (ApiAgentTunnelV1_port_count x).

#[global] Instance ApiAgentTunnelV1_laws : SerdeLaws ApiAgentTunnelV1 ApiAgentTunnelV1_wf.
Proof. serde_struct. Qed.

Record AgentPendingTunnelV1 : Type := {
  AgentPendingTunnelV1_id : Uuid;
  AgentPendingTunnelV1_name : string;
  AgentPendingTunnelV1_tunnel_type : option string;
  AgentPendingTunnelV1_tunnel_type_display : string;
  AgentPendingTunnelV1_port_type : PortType;
  AgentPendingTunnelV1_port_count : Z;
  AgentPendingTunnelV1_status_msg : string;
}.

#[global] Instance AgentPendingTunnelV1_serde : Serde AgentPendingTunnelV1 := {|
  to_value x :=
    Object
      [("id"%string, to_value (Serde := (Serde_text uuid_text)) (AgentPendingTunnelV1_id x));
       ("name"%string, to_value (Serde := Serde_string) (AgentPendingTunnelV1_name x));
       ("tunnel_type"%string, to_value (Serde := (@Serde_option _ Serde_string)) (AgentPendingTunnelV1_tunnel_type x));
       ("tunnel_type_display"%string, to_value (Serde := Serde_string) (AgentPendingTunnelV1_tunnel_type_display x));
       ("port_type"%string, to_value (Serde := PortType_serde) (AgentPendingTunnelV1_port_type x));
       ("port_count"%string, to_value (Serde := (Serde_uint 16)) (AgentPendingTunnelV1_port_count x));
       ("status_msg"%string, to_value (Serde := Serde_string) (AgentPendingTunnelV1_status_msg x))];
  from_value v :=
    entries ← entries_of v;
    id' ← field (Serde_text uuid_text) "id" entries;
    name' ← field Serde_string "name" entries;
    tunnel_type' ← field_or (@Serde_option _ Serde_string) None "tunnel_type" entries;
    tunnel_type_display' ← field Serde_string "tunnel_type_display" entries;
    port_type' ← field PortType_serde "port_type" entries;
    port_count' ← field (Serde_uint 16) "port_count" entries;
    status_msg' ← field Serde_string "status_msg" entries;
    Some {| AgentPendingTunnelV1_id := id';
            AgentPendingTunnelV1_name := name';
            AgentPendingTunnelV1_tunnel_type := tunnel_type';
            AgentPendingTunnelV1_tunnel_type_display := tunnel_type_display';
            AgentPendingTunnelV1_port_type := port_type';
            AgentPendingTunnelV1_port_count := port_count';
            AgentPendingTunnelV1_status_msg := status_msg' |} |}.

Definition AgentPendingTunnelV1_wf (x : AgentPendingTunnelV1) : Prop :=
  (uint 128) (AgentPendingTunnelV1_id x) ∧
  (uint 16) (AgentPendingTunnelV1_port_count x).

#[global] Instance AgentPendingTunnelV1_laws : SerdeLaws AgentPendingTunnelV1 AgentPendingTunnelV1_wf.
Proof. serde_struct. Qed.

Inductive AgentNoticePriority : Set :=
  | AgentNoticePriority_Critical
  | AgentNoticePriority_High
  | AgentNoticePriority_Low.

Definition AgentNoticePriority_name (x : AgentNoticePriority) : string :=
  match x with
  | AgentNoticePriority_Critical => "Critical"
  | AgentNoticePriority_High => "High"
  | AgentNoticePriority_Low => "Low"
  end.

#[global] Instance AgentNoticePriority_serde : Serde AgentNoticePriority :=
  Serde_unit_enum AgentNoticePriority_name
    [(AgentNoticePriority_name AgentNoticePriority_Critical, AgentNoticePriority_Critical);
     (AgentNoticePriority_name AgentNoticePriority_High, AgentNoticePriority_High);
     (AgentNoticePriority_name AgentNoticePriority_Low, AgentNoticePriority_Low)].

#[global] Instance AgentNoticePriority_laws : SerdeLaws AgentNoticePriority (λ _, True).
Proof. apply unit_enum_laws. by intros []. Qed.

Record AgentNotice : Type := {
  AgentNotice_priority : AgentNoticePriority;
  AgentNotice_message : string;
  AgentNotice_resolve_link : option string;
}.

#[global] Instance AgentNotice_serde : Serde AgentNotice := {|
  to_value x :=
    Object
      [("priority"%string, to_value (Serde := AgentNoticePriority_serde) (AgentNotice_priority x));
       ("message"%string, to_value (Serde := Serde_string) (AgentNotice_message x));
       ("resolve_link"%string, to_value (Serde := (@Serde_option _ Serde_string)) (AgentNotice_resolve_link x))];
  from_value v :=
    entries ← entries_of v;
    priority' ← field AgentNoticePriority_serde "priority" entries;
    message' ← field Serde_string "message" entries;
    resolve_link' ← field_or (@Serde_option _ Serde_string) None "resolve_link" entries;
    Some {| AgentNotice_priority := priority';
            AgentNotice_message := message';
            AgentNotice_resolve_link := resolve_link' |} |}.

#[global] Instance AgentNotice_laws : SerdeLaws AgentNotice (λ _, True).
Proof. serde_struct. Qed.

Inductive ApiAccountStatus : Set :=
  | ApiAccountStatus_Guest
  | ApiAccountStatus_EmailNotVerified
  | ApiAccountStatus_Verified.

Definition ApiAccountStatus_name (x : ApiAccountStatus) : string :=
  match x with
  | ApiAccountStatus_Guest => "guest"
  | ApiAccountStatus_EmailNotVerified => "email-not-verified"
  | ApiAccountStatus_Verified => "verified"
  end.

#[global] Instance ApiAccountStatus_serde : Serde ApiAccountStatus :=
  Serde_unit_enum ApiAccountStatus_name
    [(ApiAccountStatus_name ApiAccountStatus_Guest, ApiAccountStatus_Guest);
     (ApiAccountStatus_name ApiAccountStatus_EmailNotVerified, ApiAccountStatus_EmailNotVerified);
     (ApiAccountStatus_name ApiAccountStatus_Verified, ApiAccountStatus_Verified)].

#[global] Instance ApiAccountStatus_laws : SerdeLaws ApiAccountStatus (λ _, True).
Proof. apply unit_enum_laws. by intros []. Qed.

Record AgentPermissions : Type := {
  AgentPermissions_is_self_managed : bool;
  AgentPermissions_has_premium : bool;
  AgentPermissions_account_status : ApiAccountStatus;
}.

#[global] Instance AgentPermissions_serde : Serde AgentPermissions := {|
  to_value x :=
    Object
      [("is_self_managed"%string, to_value (Serde := Serde_bool) (AgentPermissions_is_self_managed x));
       ("has_premium"%string, to_value (Serde := Serde_bool) (AgentPermissions_has_premium x));
       ("account_status"%string, to_value (Serde := ApiAccountStatus_serde) (AgentPermissions_account_status x))];
  from_value v :=
    entries ← entries_of v;
    is_self_managed' ← field Serde_bool "is_self_managed" entries;
    has_premium' ← field Serde_bool "has_premium" entries;
    account_status' ← field ApiAccountStatus_serde "account_status" entries;
    Some {| AgentPermissions_is_self_managed := is_self_managed';
            AgentPermissions_has_premium := has_premium';
            AgentPermissions_account_status := account_status' |} |}.

#[global] Instance AgentPermissions_laws : SerdeLaws AgentPermissions (λ _, True).
Proof. serde_struct. Qed.

Record AgentRunDataV1 : Type := {
  AgentRunDataV1_agent_id : Uuid;
  AgentRunDataV1_tunnels : list ApiAgentTunnelV1;
  AgentRunDataV1_pending : list AgentPendingTunnelV1;
  AgentRunDataV1_notices : list AgentNotice;
  AgentRunDataV1_permissions : AgentPermissions;
}.

#[global] Instance AgentRunDataV1_serde : Serde AgentRunDataV1 := {|
  to_value x :=
    Object
      [("agent_id"%string, to_value (Serde := (Serde_text uuid_text)) (AgentRunDataV1_agent_id x));
       ("tunnels"%string, to_value (Serde := (@Serde_list _ ApiAgentTunnelV1_serde)) (AgentRunDataV1_tunnels x));
       ("pending"%string, to_value (Serde := (@Serde_list _ AgentPendingTunnelV1_serde)) (AgentRunDataV1_pending x));
       ("notices"%string, to_value (Serde := (@Serde_list _ AgentNotice_serde)) (AgentRunDataV1_notices x));
       ("permissions"%string, to_value (Serde := AgentPermissions_serde) (AgentRunDataV1_permissions x))];
  from_value v :=
    entries ← entries_of v;
    agent_id' ← field (Serde_text uuid_text) "agent_id" entries;
    tunnels' ← field (@Serde_list _ ApiAgentTunnelV1_serde) "tunnels" entries;
    pending' ← field (@Serde_list _ AgentPendingTunnelV1_serde) "pending" entries;
    notices' ← field (@Serde_list _ AgentNotice_serde) "notices" entries;
    permissions' ← field AgentPermissions_serde "permissions" entries;
    Some {| AgentRunDataV1_agent_id := agent_id';
            AgentRunDataV1_tunnels := tunnels';
            AgentRunDataV1_pending := pending';
            AgentRunDataV1_notices := notices';
            AgentRunDataV1_permissions := permissions' |} |}.

Definition AgentRunDataV1_wf (x : AgentRunDataV1) : Prop :=
  (uint 128) (AgentRunDataV1_agent_id x) ∧
  (Forall ApiAgentTunnelV1_wf) (AgentRunDataV1_tunnels x) ∧
  (Forall AgentPendingTunnelV1_wf) (AgentRunDataV1_pending x).

#[global] Instance AgentRunDataV1_laws : SerdeLaws AgentRunDataV1 AgentRunDataV1_wf.
Proof. serde_struct. Qed.

Record AssignedDefaultCreate : Type := {
  AssignedDefaultCreate_local_ip : IpAddr;
  AssignedDefaultCreate_local_port : option Z;
}.

#[global] Instance AssignedDefaultCreate_serde : Serde AssignedDefaultCreate := {|
  to_value x :=
    Object
      [("local_ip"%string, to_value (Serde := (Serde_text ip_text)) (AssignedDefaultCreate_local_ip x));
       ("local_port"%string, to_value (Serde := (@Serde_option _ (Serde_uint 16))) (AssignedDefaultCreate_local_port x))];
  from_value v :=
    entries ← entries_of v;
    local_ip' ← field (Serde_text ip_text) "local_ip" entries;
    local_port' ← field_or (@Serde_option _ (Serde_uint 16)) None "local_port" entries;
    Some {| AssignedDefaultCreate_local_ip := local_ip';
            AssignedDefaultCreate_local_port := local_port' |} |}.

Definition AssignedDefaultCreate_wf (x : AssignedDefaultCreate) : Prop :=
  IpAddr_wf (AssignedDefaultCreate_local_ip x) ∧
  (from_option (uint 16) True) (AssignedDefaultCreate_local_port x).

#[global] Instance AssignedDefaultCreate_laws : SerdeLaws AssignedDefaultCreate AssignedDefaultCreate_wf.
Proof. serde_struct. Qed.

Record AssignedAgentCreate : Type := {
  AssignedAgentCreate_agent_id : Uuid;
  AssignedAgentCreate_local_ip : IpAddr;
  AssignedAgentCreate_local_port : option Z;
}.

#[global] Instance AssignedAgentCreate_serde : Serde AssignedAgentCreate := {|
  to_value x :=
    Object
      [("agent_id"%string, to_value (Serde := (Serde_text uuid_text)) (AssignedAgentCreate_agent_id x));
       ("local_ip"%string, to_value (Serde := (Serde_text ip_text)) (AssignedAgentCreate_local_ip x));
       ("local_port"%string, to_value (Serde := (@Serde_option _ (Serde_uint 16))) (AssignedAgentCreate_local_port x))];
  from_value v :=
    entries ← entries_of v;
    agent_id' ← field (Serde_text uuid_text) "agent_id" entries;
    local_ip' ← field (Serde_text ip_text) "local_ip" entries;
    local_port' ← field_or (@Serde_option _ (Serde_uint 16)) None "local_port" entries;
    Some {| AssignedAgentCreate_agent_id := agent_id';
            AssignedAgentCreate_local_ip := local_ip';
            AssignedAgentCreate_local_port := local_port' |} |}.

Definition AssignedAgentCreate_wf (x : AssignedAgentCreate) : Prop :=
  (uint 128) (AssignedAgentCreate_agent_id x) ∧
  IpAddr_wf (AssignedAgentCreate_local_ip x) ∧
  (from_option (uint 16) True) (AssignedAgentCreate_local_port x).

#[global] Instance AssignedAgentCreate_laws : SerdeLaws AssignedAgentCreate AssignedAgentCreate_wf.
Proof. serde_struct. Qed.

Record AssignedManagedCreate : Type := {
  AssignedManagedCreate_agent_id : option Uuid;
}.

#[global] Instance AssignedManagedCreate_serde : Serde AssignedManagedCreate := {|
  to_value x :=
    Object
      [("agent_id"%string, to_value (Serde := (@Serde_option _ (Serde_text uuid_text))) (AssignedManagedCreate_agent_id x))];
  from_value v :=
    entries ← entries_of v;
    agent_id' ← field_or (@Serde_option _ (Serde_text uuid_text)) None "agent_id" entries;
    Some {| AssignedManagedCreate_agent_id := agent_id' |} |}.

Definition AssignedManagedCreate_wf (x : AssignedManagedCreate) : Prop :=
  (from_option (uint 128) True) (AssignedManagedCreate_agent_id x).

#[global] Instance AssignedManagedCreate_laws : SerdeLaws AssignedManagedCreate AssignedManagedCreate_wf.
Proof. serde_struct. Qed.

Inductive TunnelOriginCreate : Type :=
  | TunnelOriginCreate_Default (x : AssignedDefaultCreate)
  | TunnelOriginCreate_Agent (x : AssignedAgentCreate)
  | TunnelOriginCreate_Managed (x : AssignedManagedCreate).

#[global] Instance TunnelOriginCreate_serde : Serde TunnelOriginCreate := {|
  to_value x :=
    match x with
    | TunnelOriginCreate_Default x => adjacent "type" "data" "default" (Some (to_value (Serde := AssignedDefaultCreate_serde) x))
    | TunnelOriginCreate_Agent x => adjacent "type" "data" "agent" (Some (to_value (Serde := AssignedAgentCreate_serde) x))
    | TunnelOriginCreate_Managed x => adjacent "type" "data" "managed" (Some (to_value (Serde := AssignedManagedCreate_serde) x))
    end;
  from_value v :=
    '(name, data) ← adjacent_parts "type" "data" v;
    variant ← find_variant name
      [("default", newtype_variant AssignedDefaultCreate_serde TunnelOriginCreate_Default);
       ("agent", newtype_variant AssignedAgentCreate_serde TunnelOriginCreate_Agent);
       ("managed", newtype_variant AssignedManagedCreate_serde TunnelOriginCreate_Managed)]%string;
    variant data |}.

Definition TunnelOriginCreate_wf (y : TunnelOriginCreate) : Prop :=
  match y with
  | TunnelOriginCreate_Default x => AssignedDefaultCreate_wf x
  | TunnelOriginCreate_Agent x => AssignedAgentCreate_wf x
  | TunnelOriginCreate_Managed x => AssignedManagedCreate_wf x
  end.

#[global] Instance TunnelOriginCreate_laws : SerdeLaws TunnelOriginCreate TunnelOriginCreate_wf.
Proof. serde_enum. Qed.

Record UseAllocPortAlloc : Type := {
  UseAllocPortAlloc_alloc_id : Uuid;
}.

#[global] Instance UseAllocPortAlloc_serde : Serde UseAllocPortAlloc := {|
  to_value x :=
    Object
      [("alloc_id"%string, to_value (Serde := (Serde_text uuid_text)) (UseAllocPortAlloc_alloc_id x))];
  from_value v :=
    entries ← entries_of v;
    alloc_id' ← field (Serde_text uuid_text) "alloc_id" entries;
    Some {| UseAllocPortAlloc_alloc_id := alloc_id' |} |}.

Definition UseAllocPortAlloc_wf (x : UseAllocPortAlloc) : Prop :=
  (uint 128) (UseAllocPortAlloc_alloc_id x).

#[global] Instance UseAllocPortAlloc_laws : SerdeLaws UseAllocPortAlloc UseAllocPortAlloc_wf.
Proof. serde_struct. Qed.

Record UseRegion : Type := {
  UseRegion_region : PlayitNetwork;
}.

#[global] Instance UseRegion_serde : Serde UseRegion := {|
  to_value x :=
    Object
      [("region"%string, to_value (Serde := PlayitNetwork_serde) (UseRegion_region x))];
  from_value v :=
    entries ← entries_of v;
    region' ← field PlayitNetwork_serde "region" entries;
    Some {| UseRegion_region := region' |} |}.

#[global] Instance UseRegion_laws : SerdeLaws UseRegion (λ _, True).
Proof. serde_struct. Qed.

Inductive TunnelCreateUseAllocation : Type :=
  | TunnelCreateUseAllocation_DedicatedIp (x : UseAllocDedicatedIp)
  | TunnelCreateUseAllocation_PortAllocation (x : UseAllocPortAlloc)
  | TunnelCreateUseAllocation_Region (x : UseRegion).

#[global] Instance TunnelCreateUseAllocation_serde : Serde TunnelCreateUseAllocation := {|
  to_value x :=
    match x with
    | TunnelCreateUseAllocation_DedicatedIp x => adjacent "type" "details" "dedicated-ip" (Some (to_value (Serde := UseAllocDedicatedIp_serde) x))
    | TunnelCreateUseAllocation_PortAllocation x => adjacent "type" "details" "port-allocation" (Some (to_value (Serde := UseAllocPortAlloc_serde) x))
    | TunnelCreateUseAllocation_Region x => adjacent "type" "details" "region" (Some (to_value (Serde := UseRegion_serde) x))
    end;
  from_value v :=
    '(name, data) ← adjacent_parts "type" "details" v;
    variant ← find_variant name
      [("dedicated-ip", newtype_variant UseAllocDedicatedIp_serde TunnelCreateUseAllocation_DedicatedIp);
       ("port-allocation", newtype_variant UseAllocPortAlloc_serde TunnelCreateUseAllocation_PortAllocation);
       ("region", newtype_variant UseRegion_serde TunnelCreateUseAllocation_Region)]%string;
    variant data |}.

Definition TunnelCreateUseAllocation_wf (y : TunnelCreateUseAllocation) : Prop :=
  match y with
  | TunnelCreateUseAllocation_DedicatedIp x => UseAllocDedicatedIp_wf x
  | TunnelCreateUseAllocation_PortAllocation x => UseAllocPortAlloc_wf x
  | _ => True
  end.

#[global] Instance TunnelCreateUseAllocation_laws : SerdeLaws TunnelCreateUseAllocation TunnelCreateUseAllocation_wf.
Proof. serde_enum. Qed.

Record ReqTunnelsCreate : Type := {
  ReqTunnelsCreate_name : option string;
  ReqTunnelsCreate_tunnel_type : option TunnelType;
  ReqTunnelsCreate_port_type : PortType;
  ReqTunnelsCreate_port_count : Z;
  ReqTunnelsCreate_origin : TunnelOriginCreate;
  ReqTunnelsCreate_enabled : bool;
  ReqTunnelsCreate_alloc : option TunnelCreateUseAllocation;
  ReqTunnelsCreate_firewall_id : option Uuid;
  ReqTunnelsCreate_proxy_protocol : option ProxyProtocol;
}.

#[global] Instance ReqTunnelsCreate_serde : Serde ReqTunnelsCreate := {|
  to_value x :=
    Object
      [("name"%string, to_value (Serde := (@Serde_option _ Serde_string)) (ReqTunnelsCreate_name x));
       ("tunnel_type"%string, to_value (Serde := (@Serde_option _ TunnelType_serde)) (ReqTunnelsCreate_tunnel_type x));
       ("port_type"%string, to_value (Serde := PortType_serde) (ReqTunnelsCreate_port_type x));
       ("port_count"%string, to_value (Serde := (Serde_uint 16)) (ReqTunnelsCreate_port_count x));
       ("origin"%string, to_value (Serde := TunnelOriginCreate_serde) (ReqTunnelsCreate_origin x));
       ("enabled"%string, to_value (Serde := Serde_bool) (ReqTunnelsCreate_enabled x));
       ("alloc"%string, to_value (Serde := (@Serde_option _ TunnelCreateUseAllocation_serde)) (ReqTunnelsCreate_alloc x));
       ("firewall_id"%string, to_value (Serde := (@Serde_option _ (Serde_text uuid_text))) (ReqTunnelsCreate_firewall_id x));
       ("proxy_protocol"%string, to_value (Serde := (@Serde_option _ ProxyProtocol_serde)) (ReqTunnelsCreate_proxy_protocol x))];
  from_value v :=
    entries ← entries_of v;
    name' ← field_or (@Serde_option _ Serde_string) None "name" entries;
    tunnel_type' ← field_or (@Serde_option _ TunnelType_serde) None "tunnel_type" entries;
    port_type' ← field PortType_serde "port_type" entries;
    port_count' ← field (Serde_uint 16) "port_count" entries;
    origin' ← field TunnelOriginCreate_serde "origin" entries;
    enabled' ← field Serde_bool "enabled" entries;
    alloc' ← field_or (@Serde_option _ TunnelCreateUseAllocation_serde) None "alloc" entries;
    firewall_id' ← field_or (@Serde_option _ (Serde_text uuid_text)) None "firewall_id" entries;
    proxy_protocol' ← field_or (@Serde_option _ ProxyProtocol_serde) None "proxy_protocol" entries;
    Some {| ReqTunnelsCreate_name := name';
            ReqTunnelsCreate_tunnel_type := tunnel_type';
            ReqTunnelsCreate_port_type := port_type';
            ReqTunnelsCreate_port_count := port_count';
            ReqTunnelsCreate_origin := origin';
            ReqTunnelsCreate_enabled := enabled';
            ReqTunnelsCreate_alloc := alloc';
            ReqTunnelsCreate_firewall_id := firewall_id';
            ReqTunnelsCreate_proxy_protocol := proxy_protocol' |} |}.

Definition ReqTunnelsCreate_wf (x : ReqTunnelsCreate) : Prop :=
  (uint 16) (ReqTunnelsCreate_port_count x) ∧
  TunnelOriginCreate_wf (ReqTunnelsCreate_origin x) ∧
  (from_option TunnelCreateUseAllocation_wf True) (ReqTunnelsCreate_alloc x) ∧
  (from_option (uint 128) True) (ReqTunnelsCreate_firewall_id x).

#[global] Instance ReqTunnelsCreate_laws : SerdeLaws ReqTunnelsCreate ReqTunnelsCreate_wf.
Proof. serde_struct. Qed.

Inductive TunnelCreateError : Set :=
  | TunnelCreateError_DefaultAgentNotSupported
  | TunnelCreateError_AgentNotFound
  | TunnelCreateError_InvalidAgentId
  | TunnelCreateError_AgentVersionTooOld
  | TunnelCreateError_DedicatedIpNotFound
  | TunnelCreateError_DedicatedIpPortNotAvailable
  | TunnelCreateError_DedicatedIpNotEnoughSpace
  | TunnelCreateError_PortAllocNotFound
  | TunnelCreateError_InvalidIpHostname
  | TunnelCreateError_ManagedMissingAgentId
  | TunnelCreateError_InvalidPortCount
  | TunnelCreateError_RequiresVerifiedAccount
  | TunnelCreateError_InvalidTunnelName
  | TunnelCreateError_FirewallNotFound
  | TunnelCreateError_AllocInvalid
  | TunnelCreateError_InvalidOrigin
  | TunnelCreateError_RequiresPlayitPremium
  | TunnelCreateError_TunnelTypeRequiresDescription
  | TunnelCreateError_Other.

Definition TunnelCreateError_name (x : TunnelCreateError) : string :=
  match x with
  | TunnelCreateError_DefaultAgentNotSupported => "DefaultAgentNotSupported"
  | TunnelCreateError_AgentNotFound => "AgentNotFound"
  | TunnelCreateError_InvalidAgentId => "InvalidAgentId"
  | TunnelCreateError_AgentVersionTooOld => "AgentVersionTooOld"
  | TunnelCreateError_DedicatedIpNotFound => "DedicatedIpNotFound"
  | TunnelCreateError_DedicatedIpPortNotAvailable => "DedicatedIpPortNotAvailable"
  | TunnelCreateError_DedicatedIpNotEnoughSpace => "DedicatedIpNotEnoughSpace"
  | TunnelCreateError_PortAllocNotFound => "PortAllocNotFound"
  | TunnelCreateError_InvalidIpHostname => "InvalidIpHostname"
  | TunnelCreateError_ManagedMissingAgentId => "ManagedMissingAgentId"
  | TunnelCreateError_InvalidPortCount => "InvalidPortCount"
  | TunnelCreateError_RequiresVerifiedAccount => "RequiresVerifiedAccount"
  | TunnelCreateError_InvalidTunnelName => "InvalidTunnelName"
  | TunnelCreateError_FirewallNotFound => "FirewallNotFound"
  | TunnelCreateError_AllocInvalid => "AllocInvalid"
  | TunnelCreateError_InvalidOrigin => "InvalidOrigin"
  | TunnelCreateError_RequiresPlayitPremium => "RequiresPlayitPremium"
  | TunnelCreateError_TunnelTypeRequiresDescription => "TunnelTypeRequiresDescription"
  | TunnelCreateError_Other => "Other"
  end.

#[global] Instance TunnelCreateError_serde : Serde TunnelCreateError :=
  Serde_other_enum TunnelCreateError_name TunnelCreateError_Other
    [(TunnelCreateError_name TunnelCreateError_DefaultAgentNotSupported, TunnelCreateError_DefaultAgentNotSupported);
     (TunnelCreateError_name TunnelCreateError_AgentNotFound, TunnelCreateError_AgentNotFound);
     (TunnelCreateError_name TunnelCreateError_InvalidAgentId, TunnelCreateError_InvalidAgentId);
     (TunnelCreateError_name TunnelCreateError_AgentVersionTooOld, TunnelCreateError_AgentVersionTooOld);
     (TunnelCreateError_name TunnelCreateError_DedicatedIpNotFound, TunnelCreateError_DedicatedIpNotFound);
     (TunnelCreateError_name TunnelCreateError_DedicatedIpPortNotAvailable, TunnelCreateError_DedicatedIpPortNotAvailable);
     (TunnelCreateError_name TunnelCreateError_DedicatedIpNotEnoughSpace, TunnelCreateError_DedicatedIpNotEnoughSpace);
     (TunnelCreateError_name TunnelCreateError_PortAllocNotFound, TunnelCreateError_PortAllocNotFound);
     (TunnelCreateError_name TunnelCreateError_InvalidIpHostname, TunnelCreateError_InvalidIpHostname);
     (TunnelCreateError_name TunnelCreateError_ManagedMissingAgentId, TunnelCreateError_ManagedMissingAgentId);
     (TunnelCreateError_name TunnelCreateError_InvalidPortCount, TunnelCreateError_InvalidPortCount);
     (TunnelCreateError_name TunnelCreateError_RequiresVerifiedAccount, TunnelCreateError_RequiresVerifiedAccount);
     (TunnelCreateError_name TunnelCreateError_InvalidTunnelName, TunnelCreateError_InvalidTunnelName);
     (TunnelCreateError_name TunnelCreateError_FirewallNotFound, TunnelCreateError_FirewallNotFound);
     (TunnelCreateError_name TunnelCreateError_AllocInvalid, TunnelCreateError_AllocInvalid);
     (TunnelCreateError_name TunnelCreateError_InvalidOrigin, TunnelCreateError_InvalidOrigin);
     (TunnelCreateError_name TunnelCreateError_RequiresPlayitPremium, TunnelCreateError_RequiresPlayitPremium);
     (TunnelCreateError_name TunnelCreateError_TunnelTypeRequiresDescription, TunnelCreateError_TunnelTypeRequiresDescription);
     (TunnelCreateError_name TunnelCreateError_Other, TunnelCreateError_Other)].

#[global] Instance TunnelCreateError_laws : SerdeLaws TunnelCreateError (λ _, True).
Proof. apply other_enum_laws. by intros []. Qed.

Record ReqTunnelsList : Type := {
  ReqTunnelsList_tunnel_id : option Uuid;
  ReqTunnelsList_agent_id : option Uuid;
}.

#[global] Instance ReqTunnelsList_serde : Serde ReqTunnelsList := {|
  to_value x :=
    Object
      [("tunnel_id"%string, to_value (Serde := (@Serde_option _ (Serde_text uuid_text))) (ReqTunnelsList_tunnel_id x));
       ("agent_id"%string, to_value (Serde := (@Serde_option _ (Serde_text uuid_text))) (ReqTunnelsList_agent_id x))];
  from_value v :=
    entries ← entries_of v;
    tunnel_id' ← field_or (@Serde_option _ (Serde_text uuid_text)) None "tunnel_id" entries;
    agent_id' ← field_or (@Serde_option _ (Serde_text uuid_text)) None "agent_id" entries;
    Some {| ReqTunnelsList_tunnel_id := tunnel_id';
            ReqTunnelsList_agent_id := agent_id' |} |}.

Definition ReqTunnelsList_wf (x : ReqTunnelsList) : Prop :=
  (from_option (uint 128) True) (ReqTunnelsList_tunnel_id x) ∧
  (from_option (uint 128) True) (ReqTunnelsList_agent_id x).

#[global] Instance ReqTunnelsList_laws : SerdeLaws ReqTunnelsList ReqTunnelsList_wf.
Proof. serde_struct. Qed.

Inductive TunnelOfflineReason : Set :=
  | TunnelOfflineReason_RequiresPremium
  | TunnelOfflineReason_OverPortLimit
  | TunnelOfflineReason_IpUsedInGre
  | TunnelOfflineReason_PublicPortNotAvailable.

Definition TunnelOfflineReason_name (x : TunnelOfflineReason) : string :=
  match x with
  | TunnelOfflineReason_RequiresPremium => "requires-premium"
  | TunnelOfflineReason_OverPortLimit => "over-port-limit"
  | TunnelOfflineReason_IpUsedInGre => "ip-used-in-gre"
  | TunnelOfflineReason_PublicPortNotAvailable => "public-port-not-available"
  end.

#[global] Instance TunnelOfflineReason_serde : Serde TunnelOfflineReason :=
  Serde_unit_enum TunnelOfflineReason_name
    [(TunnelOfflineReason_name TunnelOfflineReason_RequiresPremium, TunnelOfflineReason_RequiresPremium);
     (TunnelOfflineReason_name TunnelOfflineReason_OverPortLimit, TunnelOfflineReason_OverPortLimit);
     (TunnelOfflineReason_name TunnelOfflineReason_IpUsedInGre, TunnelOfflineReason_IpUsedInGre);
     (TunnelOfflineReason_name TunnelOfflineReason_PublicPortNotAvailable, TunnelOfflineReason_PublicPortNotAvailable)].

#[global] Instance TunnelOfflineReason_laws : SerdeLaws TunnelOfflineReason (λ _, True).
Proof. apply unit_enum_laws. by intros []. Qed.

Record TunnelDisabled : Type := {
  TunnelDisabled_reason : TunnelOfflineReason;
}.

#[global] Instance TunnelDisabled_serde : Serde TunnelDisabled := {|
  to_value x :=
    Object
      [("reason"%string, to_value (Serde := TunnelOfflineReason_serde) (TunnelDisabled_reason x))];
  from_value v :=
    entries ← entries_of v;
    reason' ← field TunnelOfflineReason_serde "reason" entries;
    Some {| TunnelDisabled_reason := reason' |} |}.

#[global] Instance TunnelDisabled_laws : SerdeLaws TunnelDisabled (λ _, True).
Proof. serde_struct. Qed.

Record TunnelDedicatedIp : Type := {
  TunnelDedicatedIp_sub_id : Uuid;
  TunnelDedicatedIp_region : PlayitNetwork;
}.

#[global] Instance TunnelDedicatedIp_serde : Serde TunnelDedicatedIp := {|
  to_value x :=
    Object
      [("sub_id"%string, to_value (Serde := (Serde_text uuid_text)) (TunnelDedicatedIp_sub_id x));
       ("region"%string, to_value (Serde := PlayitNetwork_serde) (TunnelDedicatedIp_region x))];
  from_value v :=
    entries ← entries_of v;
    sub_id' ← field (Serde_text uuid_text) "sub_id" entries;
    region' ← field PlayitNetwork_serde "region" entries;
    Some {| TunnelDedicatedIp_sub_id := sub_id';
            TunnelDedicatedIp_region := region' |} |}.

Definition TunnelDedicatedIp_wf (x : TunnelDedicatedIp) : Prop :=
  (uint 128) (TunnelDedicatedIp_sub_id x).

#[global] Instance TunnelDedicatedIp_laws : SerdeLaws TunnelDedicatedIp TunnelDedicatedIp_wf.
Proof. serde_struct. Qed.

Record SubscriptionId : Type := {
  SubscriptionId_sub_id : Uuid;
}.

#[global] Instance SubscriptionId_serde : Serde SubscriptionId := {|
  to_value x :=
    Object
      [("sub_id"%string, to_value (Serde := (Serde_text uuid_text)) (SubscriptionId_sub_id x))];
  from_value v :=
    entries ← entries_of v;
    sub_id' ← field (Serde_text uuid_text) "sub_id" entries;
    Some {| SubscriptionId_sub_id := sub_id' |} |}.

Definition SubscriptionId_wf (x : SubscriptionId) : Prop :=
  (uint 128) (SubscriptionId_sub_id x).

#[global] Instance SubscriptionId_laws : SerdeLaws SubscriptionId SubscriptionId_wf.
Proof. serde_struct. Qed.

Inductive TunnelAssignment : Type :=
  | TunnelAssignment_DedicatedIp (x : TunnelDedicatedIp)
  | TunnelAssignment_SharedIp
  | TunnelAssignment_DedicatedPort (x : SubscriptionId).

#[global] Instance TunnelAssignment_serde : Serde TunnelAssignment := {|
  to_value x :=
    match x with
    | TunnelAssignment_DedicatedIp x => adjacent "type" "subscription" "dedicated-ip" (Some (to_value (Serde := TunnelDedicatedIp_serde) x))
    | TunnelAssignment_SharedIp => adjacent "type" "subscription" "shared-ip" None
    | TunnelAssignment_DedicatedPort x => adjacent "type" "subscription" "dedicated-port" (Some (to_value (Serde := SubscriptionId_serde) x))
    end;
  from_value v :=
    '(name, data) ← adjacent_parts "type" "subscription" v;
    variant ← find_variant name
      [("dedicated-ip", newtype_variant TunnelDedicatedIp_serde TunnelAssignment_DedicatedIp);
       ("shared-ip", unit_variant TunnelAssignment_SharedIp);
       ("dedicated-port", newtype_variant SubscriptionId_serde TunnelAssignment_DedicatedPort)]%string;
    variant data |}.

Definition TunnelAssignment_wf (y : TunnelAssignment) : Prop :=
  match y with
  | TunnelAssignment_DedicatedIp x => TunnelDedicatedIp_wf x
  | TunnelAssignment_DedicatedPort x => SubscriptionId_wf x
  | _ => True
  end.

#[global] Instance TunnelAssignment_laws : SerdeLaws TunnelAssignment TunnelAssignment_wf.
Proof. serde_enum. Qed.

Inductive IpType : Set :=
  | IpType_Both
  | IpType_Ip4
  | IpType_Ip6.

Definition IpType_name (x : IpType) : string :=
  match x with
  | IpType_Both => "both"
  | IpType_Ip4 => "ip4"
  | IpType_Ip6 => "ip6"
  end.

#[global] Instance IpType_serde : Serde IpType :=
  Serde_unit_enum IpType_name
    [(IpType_name IpType_Both, IpType_Both);
     (IpType_name IpType_Ip4, IpType_Ip4);
     (IpType_name IpType_Ip6, IpType_Ip6)].

#[global] Instance IpType_laws : SerdeLaws IpType (λ _, True).
Proof. apply unit_enum_laws. by intros []. Qed.

Record TunnelAllocated : Type := {
  TunnelAllocated_id : Uuid;
  TunnelAllocated_ip_hostname : string;
  TunnelAllocated_static_ip4 : option Z;
  TunnelAllocated_static_ip6 : Z;
  TunnelAllocated_assigned_domain : string;
  TunnelAllocated_assigned_srv : option string;
  TunnelAllocated_tunnel_ip : IpAddr;
  TunnelAllocated_port_start : Z;
  TunnelAllocated_port_end : Z;
  TunnelAllocated_assignment : TunnelAssignment;
  TunnelAllocated_ip_type : IpType;
  TunnelAllocated_region : PlayitNetwork;
}.

#[global] Instance TunnelAllocated_serde : Serde TunnelAllocated := {|
  to_value x :=
    Object
      [("id"%string, to_value (Serde := (Serde_text uuid_text)) (TunnelAllocated_id x));
       ("ip_hostname"%string, to_value (Serde := Serde_string) (TunnelAllocated_ip_hostname x));
       ("static_ip4"%string, to_value (Serde := (@Serde_option _ (Serde_text ipv4_text))) (TunnelAllocated_static_ip4 x));
       ("static_ip6"%string, to_value (Serde := (Serde_text ipv6_text)) (TunnelAllocated_static_ip6 x));
       ("assigned_domain"%string, to_value (Serde := Serde_string) (TunnelAllocated_assigned_domain x));
       ("assigned_srv"%string, to_value (Serde := (@Serde_option _ Serde_string)) (TunnelAllocated_assigned_srv x));
       ("tunnel_ip"%string, to_value (Serde := (Serde_text ip_text)) (TunnelAllocated_tunnel_ip x));
       ("port_start"%string, to_value (Serde := (Serde_uint 16)) (TunnelAllocated_port_start x));
       ("port_end"%string, to_value (Serde := (Serde_uint 16)) (TunnelAllocated_port_end x));
       ("assignment"%string, to_value (Serde := TunnelAssignment_serde) (TunnelAllocated_assignment x));
       ("ip_type"%string, to_value (Serde := IpType_serde) (TunnelAllocated_ip_type x));
       ("region"%string, to_value (Serde := PlayitNetwork_serde) (TunnelAllocated_region x))];
  from_value v :=
    entries ← entries_of v;
    id' ← field (Serde_text uuid_text) "id" entries;
    ip_hostname' ← field Serde_string "ip_hostname" entries;
    static_ip4' ← field_or (@Serde_option _ (Serde_text ipv4_text)) None "static_ip4" entries;
    static_ip6' ← field (Serde_text ipv6_text) "static_ip6" entries;
    assigned_domain' ← field Serde_string "assigned_domain" entries;
    assigned_srv' ← field_or (@Serde_option _ Serde_string) None "assigned_srv" entries;
    tunnel_ip' ← field (Serde_text ip_text) "tunnel_ip" entries;
    port_start' ← field (Serde_uint 16) "port_start" entries;
    port_end' ← field (Serde_uint 16) "port_end" entries;
    assignment' ← field TunnelAssignment_serde "assignment" entries;
    ip_type' ← field IpType_serde "ip_type" entries;
    region' ← field PlayitNetwork_serde "region" entries;
    Some {| TunnelAllocated_id := id';
            TunnelAllocated_ip_hostname := ip_hostname';
            TunnelAllocated_static_ip4 := static_ip4';
            TunnelAllocated_static_ip6 := static_ip6';
            TunnelAllocated_assigned_domain := assigned_domain';
            TunnelAllocated_assigned_srv := assigned_srv';
            TunnelAllocated_tunnel_ip := tunnel_ip';
            TunnelAllocated_port_start := port_start';
            TunnelAllocated_port_end := port_end';
            TunnelAllocated_assignment := assignment';
            TunnelAllocated_ip_type := ip_type';
            TunnelAllocated_region := region' |} |}.

Definition TunnelAllocated_wf (x : TunnelAllocated) : Prop :=
  (uint 128) (TunnelAllocated_id x) ∧
  (from_option (uint 32) True) (TunnelAllocated_static_ip4 x) ∧
  (uint 128) (TunnelAllocated_static_ip6 x) ∧
  IpAddr_wf (TunnelAllocated_tunnel_ip x) ∧
  (uint 16) (TunnelAllocated_port_start x) ∧
  (uint 16) (TunnelAllocated_port_end x) ∧
  TunnelAssignment_wf (TunnelAllocated_assignment x).

#[global] Instance TunnelAllocated_laws : SerdeLaws TunnelAllocated TunnelAllocated_wf.
Proof. serde_struct. Qed.

Inductive AccountTunnelAllocation : Type :=
  | AccountTunnelAllocation_Pending
  | AccountTunnelAllocation_Disabled (x : TunnelDisabled)
  | AccountTunnelAllocation_Allocated (x : TunnelAllocated).

#[global] Instance AccountTunnelAllocation_serde : Serde AccountTunnelAllocation := {|
  to_value x :=
    match x with
    | AccountTunnelAllocation_Pending => adjacent "status" "data" "pending" None
    | AccountTunnelAllocation_Disabled x => adjacent "status" "data" "disabled" (Some (to_value (Serde := TunnelDisabled_serde) x))
    | AccountTunnelAllocation_Allocated x => adjacent "status" "data" "allocated" (Some (to_value (Serde := TunnelAllocated_serde) x))
    end;
  from_value v :=
    '(name, data) ← adjacent_parts "status" "data" v;
    variant ← find_variant name
      [("pending", unit_variant AccountTunnelAllocation_Pending);
       ("disabled", newtype_variant TunnelDisabled_serde AccountTunnelAllocation_Disabled);
       ("allocated", newtype_variant TunnelAllocated_serde AccountTunnelAllocation_Allocated)]%string;
    variant data |}.

Definition AccountTunnelAllocation_wf (y : AccountTunnelAllocation) : Prop :=
  match y with
  | AccountTunnelAllocation_Allocated x => TunnelAllocated_wf x
  | _ => True
  end.

#[global] Instance AccountTunnelAllocation_laws : SerdeLaws AccountTunnelAllocation AccountTunnelAllocation_wf.
Proof. serde_enum. Qed.

Record AssignedAgent : Type := {
  AssignedAgent_agent_id : Uuid;
  AssignedAgent_agent_name : string;
  AssignedAgent_local_ip : IpAddr;
  AssignedAgent_local_port : option Z;
}.

#[global] Instance AssignedAgent_serde : Serde AssignedAgent := {|
  to_value x :=
    Object
      [("agent_id"%string, to_value (Serde := (Serde_text uuid_text)) (AssignedAgent_agent_id x));
       ("agent_name"%string, to_value (Serde := Serde_string) (AssignedAgent_agent_name x));
       ("local_ip"%string, to_value (Serde := (Serde_text ip_text)) (AssignedAgent_local_ip x));
       ("local_port"%string, to_value (Serde := (@Serde_option _ (Serde_uint 16))) (AssignedAgent_local_port x))];
  from_value v :=
    entries ← entries_of v;
    agent_id' ← field (Serde_text uuid_text) "agent_id" entries;
    agent_name' ← field Serde_string "agent_name" entries;
    local_ip' ← field (Serde_text ip_text) "local_ip" entries;
    local_port' ← field_or (@Serde_option _ (Serde_uint 16)) None "local_port" entries;
    Some {| AssignedAgent_agent_id := agent_id';
            AssignedAgent_agent_name := agent_name';
            AssignedAgent_local_ip := local_ip';
            AssignedAgent_local_port := local_port' |} |}.

Definition AssignedAgent_wf (x : AssignedAgent) : Prop :=
  (uint 128) (AssignedAgent_agent_id x) ∧
  IpAddr_wf (AssignedAgent_local_ip x) ∧
  (from_option (uint 16) True) (AssignedAgent_local_port x).

#[global] Instance AssignedAgent_laws : SerdeLaws AssignedAgent AssignedAgent_wf.
Proof. serde_struct. Qed.

Record AssignedManaged : Type := {
  AssignedManaged_agent_id : Uuid;
  AssignedManaged_agent_name : string;
}.

#[global] Instance AssignedManaged_serde : Serde AssignedManaged := {|
  to_value x :=
    Object
      [("agent_id"%string, to_value (Serde := (Serde_text uuid_text)) (AssignedManaged_agent_id x));
       ("agent_name"%string, to_value (Serde := Serde_string) (AssignedManaged_agent_name x))];
  from_value v :=
    entries ← entries_of v;
    agent_id' ← field (Serde_text uuid_text) "agent_id" entries;
    agent_name' ← field Serde_string "agent_name" entries;
    Some {| AssignedManaged_agent_id := agent_id';
            AssignedManaged_agent_name := agent_name' |} |}.

Definition AssignedManaged_wf (x : AssignedManaged) : Prop :=
  (uint 128) (AssignedManaged_agent_id x).

#[global] Instance AssignedManaged_laws : SerdeLaws AssignedManaged AssignedManaged_wf.
Proof. serde_struct. Qed.

Inductive TunnelOrigin : Type :=
  | TunnelOrigin_Agent (x : AssignedAgent)
  | TunnelOrigin_Managed (x : AssignedManaged).

#[global] Instance TunnelOrigin_serde : Serde TunnelOrigin := {|
  to_value x :=
    match x with
    | TunnelOrigin_Agent x => adjacent "type" "data" "agent" (Some (to_value (Serde := AssignedAgent_serde) x))
    | TunnelOrigin_Managed x => adjacent "type" "data" "managed" (Some (to_value (Serde := AssignedManaged_serde) x))
    end;
  from_value v :=
    '(name, data) ← adjacent_parts "type" "data" v;
    variant ← find_variant name
      [("agent", newtype_variant AssignedAgent_serde TunnelOrigin_Agent);
       ("managed", newtype_variant AssignedManaged_serde TunnelOrigin_Managed)]%string;
    variant data |}.

Definition TunnelOrigin_wf (y : TunnelOrigin) : Prop :=
  match y with
  | TunnelOrigin_Agent x => AssignedAgent_wf x
  | TunnelOrigin_Managed x => AssignedManaged_wf x
  end.

#[global] Instance TunnelOrigin_laws : SerdeLaws TunnelOrigin TunnelOrigin_wf.
Proof. serde_enum. Qed.

Record TunnelDomain : Type := {
  TunnelDomain_id : Uuid;
  TunnelDomain_name : string;
}.

#[global] Instance TunnelDomain_serde : Serde TunnelDomain := {|
  to_value x :=
    Object
      [("id"%string, to_value (Serde := (Serde_text uuid_text)) (TunnelDomain_id x));
       ("name"%string, to_value (Serde := Serde_string) (TunnelDomain_name x))];
  from_value v :=
    entries ← entries_of v;
    id' ← field (Serde_text uuid_text) "id" entries;
    name' ← field Serde_string "name" entries;
    Some {| TunnelDomain_id := id';
            TunnelDomain_name := name' |} |}.

Definition TunnelDomain_wf (x : TunnelDomain) : Prop :=
  (uint 128) (TunnelDomain_id x).

#[global] Instance TunnelDomain_laws : SerdeLaws TunnelDomain TunnelDomain_wf.
Proof. serde_struct. Qed.

Record Ratelimit : Type := {
  Ratelimit_bytes_per_second : option Z;
  Ratelimit_packets_per_second : option Z;
}.

#[global] Instance Ratelimit_serde : Serde Ratelimit := {|
  to_value x :=
    Object
      [("bytes_per_second"%string, to_value (Serde := (@Serde_option _ (Serde_uint 32))) (Ratelimit_bytes_per_second x));
       ("packets_per_second"%string, to_value (Serde := (@Serde_option _ (Serde_uint 32))) (Ratelimit_packets_per_second x))];
  from_value v :=
    entries ← entries_of v;
    bytes_per_second' ← field_or (@Serde_option _ (Serde_uint 32)) None "bytes_per_second" entries;
    packets_per_second' ← field_or (@Serde_option _ (Serde_uint 32)) None "packets_per_second" entries;
    Some {| Ratelimit_bytes_per_second := bytes_per_second';
            Ratelimit_packets_per_second := packets_per_second' |} |}.

Definition Ratelimit_wf (x : Ratelimit) : Prop :=
  (from_option (uint 32) True) (Ratelimit_bytes_per_second x) ∧
  (from_option (uint 32) True) (Ratelimit_packets_per_second x).

#[global] Instance Ratelimit_laws : SerdeLaws Ratelimit Ratelimit_wf.
Proof. serde_struct. Qed.

Record AccountTunnel : Type := {
  AccountTunnel_id : Uuid;
  AccountTunnel_tunnel_type : option TunnelType;
  AccountTunnel_created_at : DateTime;
  AccountTunnel_name : option string;
  AccountTunnel_port_type : PortType;
  AccountTunnel_port_count : Z;
  AccountTunnel_alloc : AccountTunnelAllocation;
  AccountTunnel_origin : option TunnelOrigin;
  AccountTunnel_domain : option TunnelDomain;
  AccountTunnel_firewall_id : option Uuid;
  AccountTunnel_ratelimit : Ratelimit;
  AccountTunnel_active : bool;
  AccountTunnel_disabled_reason : option TunnelOfflineReason;
  AccountTunnel_region : option PlayitNetwork;
  AccountTunnel_expire_notice : option ExpireNotice;
  AccountTunnel_proxy_protocol : option ProxyProtocol;
  AccountTunnel_hostname_verify_level : HostnameVerifyLevel;
  AccountTunnel_agent_over_limit : bool;
}.

#[global] Instance AccountTunnel_serde : Serde AccountTunnel := {|
  to_value x :=
    Object
      [("id"%string, to_value (Serde := (Serde_text uuid_text)) (AccountTunnel_id x));
       ("tunnel_type"%string, to_value (Serde := (@Serde_option _ TunnelType_serde)) (AccountTunnel_tunnel_type x));
       ("created_at"%string, to_value (Serde := (Serde_text datetime_text)) (AccountTunnel_created_at x));
       ("name"%string, to_value (Serde := (@Serde_option _ Serde_string)) (AccountTunnel_name x));
       ("port_type"%string, to_value (Serde := PortType_serde) (AccountTunnel_port_type x));
       ("port_count"%string, to_value (Serde := (Serde_uint 16)) (AccountTunnel_port_count x));
       ("alloc"%string, to_value (Serde := AccountTunnelAllocation_serde) (AccountTunnel_alloc x));
       ("origin"%string, to_value (Serde := (@Serde_option _ TunnelOrigin_serde)) (AccountTunnel_origin x));
       ("domain"%string, to_value (Serde := (@Serde_option _ TunnelDomain_serde)) (AccountTunnel_domain x));
       ("firewall_id"%string, to_value (Serde := (@Serde_option _ (Serde_text uuid_text))) (AccountTunnel_firewall_id x));
       ("ratelimit"%string, to_value (Serde := Ratelimit_serde) (AccountTunnel_ratelimit x));
       ("active"%string, to_value (Serde := Serde_bool) (AccountTunnel_active x));
       ("disabled_reason"%string, to_value (Serde := (@Serde_option _ TunnelOfflineReason_serde)) (AccountTunnel_disabled_reason x));
       ("region"%string, to_value (Serde := (@Serde_option _ PlayitNetwork_serde)) (AccountTunnel_region x));
       ("expire_notice"%string, to_value (Serde := (@Serde_option _ ExpireNotice_serde)) (AccountTunnel_expire_notice x));
       ("proxy_protocol"%string, to_value (Serde := (@Serde_option _ ProxyProtocol_serde)) (AccountTunnel_proxy_protocol x));
       ("hostname_verify_level"%string, to_value (Serde := HostnameVerifyLevel_serde) (AccountTunnel_hostname_verify_level x));
       ("agent_over_limit"%string, to_value (Serde := Serde_bool) (AccountTunnel_agent_over_limit x))];
  from_value v :=
    entries ← entries_of v;
    id' ← field (Serde_text uuid_text) "id" entries;
    tunnel_type' ← field_or (@Serde_option _ TunnelType_serde) None "tunnel_type" entries;
    created_at' ← field (Serde_text datetime_text) "created_at" entries;
    name' ← field_or (@Serde_option _ Serde_string) None "name" entries;
    port_type' ← field PortType_serde "port_type" entries;
    port_count' ← field (Serde_uint 16) "port_count" entries;
    alloc' ← field AccountTunnelAllocation_serde "alloc" entries;
    origin' ← field_or (@Serde_option _ TunnelOrigin_serde) None "origin" entries;
    domain' ← field_or (@Serde_option _ TunnelDomain_serde) None "domain" entries;
    firewall_id' ← field_or (@Serde_option _ (Serde_text uuid_text)) None "firewall_id" entries;
    ratelimit' ← field Ratelimit_serde "ratelimit" entries;
    active' ← field Serde_bool "active" entries;
    disabled_reason' ← field_or (@Serde_option _ TunnelOfflineReason_serde) None "disabled_reason" entries;
    region' ← field_or (@Serde_option _ PlayitNetwork_serde) None "region" entries;
    expire_notice' ← field_or (@Serde_option _ ExpireNotice_serde) None "expire_notice" entries;
    proxy_protocol' ← field_or (@Serde_option _ ProxyProtocol_serde) None "proxy_protocol" entries;
    hostname_verify_level' ← field HostnameVerifyLevel_serde "hostname_verify_level" entries;
    agent_over_limit' ← field Serde_bool "agent_over_limit" entries;
    Some {| AccountTunnel_id := id';
            AccountTunnel_tunnel_type := tunnel_type';
            AccountTunnel_created_at := created_at';
            AccountTunnel_name := name';
            AccountTunnel_port_type := port_type';
            AccountTunnel_port_count := port_count';
            AccountTunnel_alloc := alloc';
            AccountTunnel_origin := origin';
            AccountTunnel_domain := domain';
            AccountTunnel_firewall_id := firewall_id';
            AccountTunnel_ratelimit := ratelimit';
            AccountTunnel_active := active';
            AccountTunnel_disabled_reason := disabled_reason';
            AccountTunnel_region := region';
            AccountTunnel_expire_notice := expire_notice';
            AccountTunnel_proxy_protocol := proxy_protocol';
            AccountTunnel_hostname_verify_level := hostname_verify_level';
            AccountTunnel_agent_over_limit := agent_over_limit' |} |}.

Definition AccountTunnel_wf (x : AccountTunnel) : Prop :=
  (uint 128) (AccountTunnel_id x) ∧
  DateTime_wf (AccountTunnel_created_at x) ∧
  (uint 16) (AccountTunnel_port_count x) ∧
  AccountTunnelAllocation_wf (AccountTunnel_alloc x) ∧
  (from_option TunnelOrigin_wf True) (AccountTunnel_origin x) ∧
  (from_option TunnelDomain_wf True) (AccountTunnel_domain x) ∧
  (from_option (uint 128) True) (AccountTunnel_firewall_id x) ∧
  Ratelimit_wf (AccountTunnel_ratelimit x) ∧
  (from_option ExpireNotice_wf True) (AccountTunnel_expire_notice x).

#[global] Instance AccountTunnel_laws : SerdeLaws AccountTunnel AccountTunnel_wf.
Proof. serde_struct. Qed.

Record AllocatedPorts : Type := {
  AllocatedPorts_allowed : Z;
  AllocatedPorts_claimed : Z;
  AllocatedPorts_desired : Z;
}.

#[global] Instance AllocatedPorts_serde : Serde AllocatedPorts := {|
  to_value x :=
    Object
      [("allowed"%string, to_value (Serde := (Serde_uint 32)) (AllocatedPorts_allowed x));
       ("claimed"%string, to_value (Serde := (Serde_uint 32)) (AllocatedPorts_claimed x));
       ("desired"%string, to_value (Serde := (Serde_uint 32)) (AllocatedPorts_desired x))];
  from_value v :=
    entries ← entries_of v;
    allowed' ← field (Serde_uint 32) "allowed" entries;
    claimed' ← field (Serde_uint 32) "claimed" entries;
    desired' ← field (Serde_uint 32) "desired" entries;
    Some {| AllocatedPorts_allowed := allowed';
            AllocatedPorts_claimed := claimed';
            AllocatedPorts_desired := desired' |} |}.

Definition AllocatedPorts_wf (x : AllocatedPorts) : Prop :=
  (uint 32) (AllocatedPorts_allowed x) ∧
  (uint 32) (AllocatedPorts_claimed x) ∧
  (uint 32) (AllocatedPorts_desired x).

#[global] Instance AllocatedPorts_laws : SerdeLaws AllocatedPorts AllocatedPorts_wf.
Proof. serde_struct. Qed.

Record AccountTunnels : Type := {
  AccountTunnels_tunnels : list AccountTunnel;
  AccountTunnels_tcp_alloc : AllocatedPorts;
  AccountTunnels_udp_alloc : AllocatedPorts;
}.

#[global] Instance AccountTunnels_serde : Serde AccountTunnels := {|
  to_value x :=
    Object
      [("tunnels"%string, to_value (Serde := (@Serde_list _ AccountTunnel_serde)) (AccountTunnels_tunnels x));
       ("tcp_alloc"%string, to_value (Serde := AllocatedPorts_serde) (AccountTunnels_tcp_alloc x));
       ("udp_alloc"%string, to_value (Serde := AllocatedPorts_serde) (AccountTunnels_udp_alloc x))];
  from_value v :=
    entries ← entries_of v;
    tunnels' ← field (@Serde_list _ AccountTunnel_serde) "tunnels" entries;
    tcp_alloc' ← field AllocatedPorts_serde "tcp_alloc" entries;
    udp_alloc' ← field AllocatedPorts_serde "udp_alloc" entries;
    Some {| AccountTunnels_tunnels := tunnels';
            AccountTunnels_tcp_alloc := tcp_alloc';
            AccountTunnels_udp_alloc := udp_alloc' |} |}.

Definition AccountTunnels_wf (x : AccountTunnels) : Prop :=
  (Forall AccountTunnel_wf) (AccountTunnels_tunnels x) ∧
  AllocatedPorts_wf (AccountTunnels_tcp_alloc x) ∧
  AllocatedPorts_wf (AccountTunnels_udp_alloc x).

#[global] Instance AccountTunnels_laws : SerdeLaws AccountTunnels AccountTunnels_wf.
Proof. serde_struct. Qed.

Record ReqTunnelsUpdate : Type := {
  ReqTunnelsUpdate_tunnel_id : Uuid;
  ReqTunnelsUpdate_local_ip : IpAddr;
  ReqTunnelsUpdate_local_port : option Z;
  ReqTunnelsUpdate_agent_id : option Uuid;
  ReqTunnelsUpdate_enabled : bool;
}.

#[global] Instance ReqTunnelsUpdate_serde : Serde ReqTunnelsUpdate := {|
  to_value x :=
    Object
      [("tunnel_id"%string, to_value (Serde := (Serde_text uuid_text)) (ReqTunnelsUpdate_tunnel_id x));
       ("local_ip"%string, to_value (Serde := (Serde_text ip_text)) (ReqTunnelsUpdate_local_ip x));
       ("local_port"%string, to_value (Serde := (@Serde_option _ (Serde_uint 16))) (ReqTunnelsUpdate_local_port x));
       ("agent_id"%string, to_value (Serde := (@Serde_option _ (Serde_text uuid_text))) (ReqTunnelsUpdate_agent_id x));
       ("enabled"%string, to_value (Serde := Serde_bool) (ReqTunnelsUpdate_enabled x))];
  from_value v :=
    entries ← entries_of v;
    tunnel_id' ← field (Serde_text uuid_text) "tunnel_id" entries;
    local_ip' ← field (Serde_text ip_text) "local_ip" entries;
    local_port' ← field_or (@Serde_option _ (Serde_uint 16)) None "local_port" entries;
    agent_id' ← field_or (@Serde_option _ (Serde_text uuid_text)) None "agent_id" entries;
    enabled' ← field Serde_bool "enabled" entries;
    Some {| ReqTunnelsUpdate_tunnel_id := tunnel_id';
            ReqTunnelsUpdate_local_ip := local_ip';
            ReqTunnelsUpdate_local_port := local_port';
            ReqTunnelsUpdate_agent_id := agent_id';
            ReqTunnelsUpdate_enabled := enabled' |} |}.

Definition ReqTunnelsUpdate_wf (x : ReqTunnelsUpdate) : Prop :=
  (uint 128) (ReqTunnelsUpdate_tunnel_id x) ∧
  IpAddr_wf (ReqTunnelsUpdate_local_ip x) ∧
  (from_option (uint 16) True) (ReqTunnelsUpdate_local_port x) ∧
  (from_option (uint 128) True) (ReqTunnelsUpdate_agent_id x).

#[global] Instance ReqTunnelsUpdate_laws : SerdeLaws ReqTunnelsUpdate ReqTunnelsUpdate_wf.
Proof. serde_struct. Qed.

Inductive UpdateError : Set :=
  | UpdateError_ChangingAgentIdNotAllowed
  | UpdateError_TunnelNotFound
  | UpdateError_CannotUpdateLocalAddressForUnassignedTunnel
  | UpdateError_InvalidAgentId
  | UpdateError_AddressOrProxyProtoNotSupportedByAgent.

Definition UpdateError_name (x : UpdateError) : string :=
  match x with
  | UpdateError_ChangingAgentIdNotAllowed => "ChangingAgentIdNotAllowed"
  | UpdateError_TunnelNotFound => "TunnelNotFound"
  | UpdateError_CannotUpdateLocalAddressForUnassignedTunnel => "CannotUpdateLocalAddressForUnassignedTunnel"
  | UpdateError_InvalidAgentId => "InvalidAgentId"
  | UpdateError_AddressOrProxyProtoNotSupportedByAgent => "AddressOrProxyProtoNotSupportedByAgent"
  end.

#[global] Instance UpdateError_serde : Serde UpdateError :=
  Serde_unit_enum UpdateError_name
    [(UpdateError_name UpdateError_ChangingAgentIdNotAllowed, UpdateError_ChangingAgentIdNotAllowed);
     (UpdateError_name UpdateError_TunnelNotFound, UpdateError_TunnelNotFound);
     (UpdateError_name UpdateError_CannotUpdateLocalAddressForUnassignedTunnel, UpdateError_CannotUpdateLocalAddressForUnassignedTunnel);
     (UpdateError_name UpdateError_InvalidAgentId, UpdateError_InvalidAgentId);
     (UpdateError_name UpdateError_AddressOrProxyProtoNotSupportedByAgent, UpdateError_AddressOrProxyProtoNotSupportedByAgent)].

#[global] Instance UpdateError_laws : SerdeLaws UpdateError (λ _, True).
Proof. apply unit_enum_laws. by intros []. Qed.

Record ReqTunnelsDelete : Type := {
  ReqTunnelsDelete_tunnel_id : Uuid;
}.

#[global] Instance ReqTunnelsDelete_serde : Serde ReqTunnelsDelete := {|
  to_value x :=
    Object
      [("tunnel_id"%string, to_value (Serde := (Serde_text uuid_text)) (ReqTunnelsDelete_tunnel_id x))];
  from_value v :=
    entries ← entries_of v;
    tunnel_id' ← field (Serde_text uuid_text) "tunnel_id" entries;
    Some {| ReqTunnelsDelete_tunnel_id := tunnel_id' |} |}.

Definition ReqTunnelsDelete_wf (x : ReqTunnelsDelete) : Prop :=
  (uint 128) (ReqTunnelsDelete_tunnel_id x).

#[global] Instance ReqTunnelsDelete_laws : SerdeLaws ReqTunnelsDelete ReqTunnelsDelete_wf.
Proof. serde_struct. Qed.

Inductive DeleteError : Set :=
  | DeleteError_TunnelNotFound.

Definition DeleteError_name (x : DeleteError) : string :=
  match x with
  | DeleteError_TunnelNotFound => "TunnelNotFound"
  end.

#[global] Instance DeleteError_serde : Serde DeleteError :=
  Serde_unit_enum DeleteError_name
    [(DeleteError_name DeleteError_TunnelNotFound, DeleteError_TunnelNotFound)].

#[global] Instance DeleteError_laws : SerdeLaws DeleteError (λ _, True).
Proof. apply unit_enum_laws. by intros []. Qed.

Record ReqTunnelsRename : Type := {
  ReqTunnelsRename_tunnel_id : Uuid;
  ReqTunnelsRename_name : string;
}.

#[global] Instance ReqTunnelsRename_serde : Serde ReqTunnelsRename := {|
  to_value x :=
    Object
      [("tunnel_id"%string, to_value (Serde := (Serde_text uuid_text)) (ReqTunnelsRename_tunnel_id x));
       ("name"%string, to_value (Serde := Serde_string) (ReqTunnelsRename_name x))];
  from_value v :=
    entries ← entries_of v;
    tunnel_id' ← field (Serde_text uuid_text) "tunnel_id" entries;
    name' ← field Serde_string "name" entries;
    Some {| ReqTunnelsRename_tunnel_id := tunnel_id';
            ReqTunnelsRename_name := name' |} |}.

Definition ReqTunnelsRename_wf (x : ReqTunnelsRename) : Prop :=
  (uint 128) (ReqTunnelsRename_tunnel_id x).

#[global] Instance ReqTunnelsRename_laws : SerdeLaws ReqTunnelsRename ReqTunnelsRename_wf.
Proof. serde_struct. Qed.

Inductive TunnelRenameError : Set :=
  | TunnelRenameError_TunnelNotFound
  | TunnelRenameError_NameTooLong.

Definition TunnelRenameError_name (x : TunnelRenameError) : string :=
  match x with
  | TunnelRenameError_TunnelNotFound => "TunnelNotFound"
  | TunnelRenameError_NameTooLong => "NameTooLong"
  end.

#[global] Instance TunnelRenameError_serde : Serde TunnelRenameError :=
  Serde_unit_enum TunnelRenameError_name
    [(TunnelRenameError_name TunnelRenameError_TunnelNotFound, TunnelRenameError_TunnelNotFound);
     (TunnelRenameError_name TunnelRenameError_NameTooLong, TunnelRenameError_NameTooLong)].

#[global] Instance TunnelRenameError_laws : SerdeLaws TunnelRenameError (λ _, True).
Proof. apply unit_enum_laws. by intros []. Qed.

Record ReqTunnelsFirewallAssign : Type := {
  ReqTunnelsFirewallAssign_tunnel_id : Uuid;
  ReqTunnelsFirewallAssign_firewall_id : option Uuid;
}.

#[global] Instance ReqTunnelsFirewallAssign_serde : Serde ReqTunnelsFirewallAssign := {|
  to_value x :=
    Object
      [("tunnel_id"%string, to_value (Serde := (Serde_text uuid_text)) (ReqTunnelsFirewallAssign_tunnel_id x));
       ("firewall_id"%string, to_value (Serde := (@Serde_option _ (Serde_text uuid_text))) (ReqTunnelsFirewallAssign_firewall_id x))];
  from_value v :=
    entries ← entries_of v;
    tunnel_id' ← field (Serde_text uuid_text) "tunnel_id" entries;
    firewall_id' ← field_or (@Serde_option _ (Serde_text uuid_text)) None "firewall_id" entries;
    Some {| ReqTunnelsFirewallAssign_tunnel_id := tunnel_id';
            ReqTunnelsFirewallAssign_firewall_id := firewall_id' |} |}.

Definition ReqTunnelsFirewallAssign_wf (x : ReqTunnelsFirewallAssign) : Prop :=
  (uint 128) (ReqTunnelsFirewallAssign_tunnel_id x) ∧
  (from_option (uint 128) True) (ReqTunnelsFirewallAssign_firewall_id x).

#[global] Instance ReqTunnelsFirewallAssign_laws : SerdeLaws ReqTunnelsFirewallAssign ReqTunnelsFirewallAssign_wf.
Proof. serde_struct. Qed.

Inductive TunnelsFirewallAssignError : Set :=
  | TunnelsFirewallAssignError_TunnelNotFound
  | TunnelsFirewallAssignError_InvalidFirewallId.

Definition TunnelsFirewallAssignError_name (x : TunnelsFirewallAssignError) : string :=
  match x with
  | TunnelsFirewallAssignError_TunnelNotFound => "TunnelNotFound"
  | TunnelsFirewallAssignError_InvalidFirewallId => "InvalidFirewallId"
  end.

#[global] Instance TunnelsFirewallAssignError_serde : Serde TunnelsFirewallAssignError :=
  Serde_unit_enum TunnelsFirewallAssignError_name
    [(TunnelsFirewallAssignError_name TunnelsFirewallAssignError_TunnelNotFound, TunnelsFirewallAssignError_TunnelNotFound);
     (TunnelsFirewallAssignError_name TunnelsFirewallAssignError_InvalidFirewallId, TunnelsFirewallAssignError_InvalidFirewallId)].

#[global] Instance TunnelsFirewallAssignError_laws : SerdeLaws TunnelsFirewallAssignError (λ _, True).
Proof. apply unit_enum_laws. by intros []. Qed.

Record ReqTunnelsRatelimit : Type := {
  ReqTunnelsRatelimit_tunnel_id : Uuid;
  ReqTunnelsRatelimit_bytes_per_second : option Z;
  ReqTunnelsRatelimit_packets_per_second : option Z;
}.

#[global] Instance ReqTunnelsRatelimit_serde : Serde ReqTunnelsRatelimit := {|
  to_value x :=
    Object
      [("tunnel_id"%string, to_value (Serde := (Serde_text uuid_text)) (ReqTunnelsRatelimit_tunnel_id x));
       ("bytes_per_second"%string, to_value (Serde := (@Serde_option _ (Serde_uint 32))) (ReqTunnelsRatelimit_bytes_per_second x));
       ("packets_per_second"%string, to_value (Serde := (@Serde_option _ (Serde_uint 32))) (ReqTunnelsRatelimit_packets_per_second x))];
  from_value v :=
    entries ← entries_of v;
    tunnel_id' ← field (Serde_text uuid_text) "tunnel_id" entries;
    bytes_per_second' ← field_or (@Serde_option _ (Serde_uint 32)) None "bytes_per_second" entries;
    packets_per_second' ← field_or (@Serde_option _ (Serde_uint 32)) None "packets_per_second" entries;
    Some {| ReqTunnelsRatelimit_tunnel_id := tunnel_id';
            ReqTunnelsRatelimit_bytes_per_second := bytes_per_second';
            ReqTunnelsRatelimit_packets_per_second := packets_per_second' |} |}.

Definition ReqTunnelsRatelimit_wf (x : ReqTunnelsRatelimit) : Prop :=
  (uint 128) (ReqTunnelsRatelimit_tunnel_id x) ∧
  (from_option (uint 32) True) (ReqTunnelsRatelimit_bytes_per_second x) ∧
  (from_option (uint 32) True) (ReqTunnelsRatelimit_packets_per_second x).

#[global] Instance ReqTunnelsRatelimit_laws : SerdeLaws ReqTunnelsRatelimit ReqTunnelsRatelimit_wf.
Proof. serde_struct. Qed.

Inductive TunnelRatelimitError : Set :=
  | TunnelRatelimitError_TunnelNotFound
  | TunnelRatelimitError_InvalidRatelimit
  | TunnelRatelimitError_PlayitPremiumRequired.

Definition TunnelRatelimitError_name (x : TunnelRatelimitError) : string :=
  match x with
  | TunnelRatelimitError_TunnelNotFound => "TunnelNotFound"
  | TunnelRatelimitError_InvalidRatelimit => "InvalidRatelimit"
  | TunnelRatelimitError_PlayitPremiumRequired => "PlayitPremiumRequired"
  end.

#[global] Instance TunnelRatelimitError_serde : Serde TunnelRatelimitError :=
  Serde_unit_enum TunnelRatelimitError_name
    [(TunnelRatelimitError_name TunnelRatelimitError_TunnelNotFound, TunnelRatelimitError_TunnelNotFound);
     (TunnelRatelimitError_name TunnelRatelimitError_InvalidRatelimit, TunnelRatelimitError_InvalidRatelimit);
     (TunnelRatelimitError_name TunnelRatelimitError_PlayitPremiumRequired, TunnelRatelimitError_PlayitPremiumRequired)].

#[global] Instance TunnelRatelimitError_laws : SerdeLaws TunnelRatelimitError (λ _, True).
Proof. apply unit_enum_laws. by intros []. Qed.

Record ReqTunnelsEnable : Type := {
  ReqTunnelsEnable_tunnel_id : Uuid;
  ReqTunnelsEnable_enabled : bool;
}.

#[global] Instance ReqTunnelsEnable_serde : Serde ReqTunnelsEnable := {|
  to_value x :=
    Object
      [("tunnel_id"%string, to_value (Serde := (Serde_text uuid_text)) (ReqTunnelsEnable_tunnel_id x));
       ("enabled"%string, to_value (Serde := Serde_bool) (ReqTunnelsEnable_enabled x))];
  from_value v :=
    entries ← entries_of v;
    tunnel_id' ← field (Serde_text uuid_text) "tunnel_id" entries;
    enabled' ← field Serde_bool "enabled" entries;
    Some {| ReqTunnelsEnable_tunnel_id := tunnel_id';
            ReqTunnelsEnable_enabled := enabled' |} |}.

Definition ReqTunnelsEnable_wf (x : ReqTunnelsEnable) : Prop :=
  (uint 128) (ReqTunnelsEnable_tunnel_id x).

#[global] Instance ReqTunnelsEnable_laws : SerdeLaws ReqTunnelsEnable ReqTunnelsEnable_wf.
Proof. serde_struct. Qed.

Inductive TunnelEnableError : Set :=
  | TunnelEnableError_TunnelNotFound.

Definition TunnelEnableError_name (x : TunnelEnableError) : string :=
  match x with
  | TunnelEnableError_TunnelNotFound => "TunnelNotFound"
  end.

#[global] Instance TunnelEnableError_serde : Serde TunnelEnableError :=
  Serde_unit_enum TunnelEnableError_name
    [(TunnelEnableError_name TunnelEnableError_TunnelNotFound, TunnelEnableError_TunnelNotFound)].

#[global] Instance TunnelEnableError_laws : SerdeLaws TunnelEnableError (λ _, True).
Proof. apply unit_enum_laws. by intros []. Qed.

Record ReqTunnelsProxySet : Type := {
  ReqTunnelsProxySet_tunnel_id : Uuid;
  ReqTunnelsProxySet_proxy_protocol : option ProxyProtocol;
}.

#[global] Instance ReqTunnelsProxySet_serde : Serde ReqTunnelsProxySet := {|
  to_value x :=
    Object
      [("tunnel_id"%string, to_value (Serde := (Serde_text uuid_text)) (ReqTunnelsProxySet_tunnel_id x));
       ("proxy_protocol"%string, to_value (Serde := (@Serde_option _ ProxyProtocol_serde)) (ReqTunnelsProxySet_proxy_protocol x))];
  from_value v :=
    entries ← entries_of v;
    tunnel_id' ← field (Serde_text uuid_text) "tunnel_id" entries;
    proxy_protocol' ← field_or (@Serde_option _ ProxyProtocol_serde) None "proxy_protocol" entries;
    Some {| ReqTunnelsProxySet_tunnel_id := tunnel_id';
            ReqTunnelsProxySet_proxy_protocol := proxy_protocol' |} |}.

Definition ReqTunnelsProxySet_wf (x : ReqTunnelsProxySet) : Prop :=
  (uint 128) (ReqTunnelsProxySet_tunnel_id x).

#[global] Instance ReqTunnelsProxySet_laws : SerdeLaws ReqTunnelsProxySet ReqTunnelsProxySet_wf.
Proof. serde_struct. Qed.

Inductive TunnelProxySetError : Set :=
  | TunnelProxySetError_TunnelNotFound
  | TunnelProxySetError_ProxyProtocolNotSupportedByAgent.

Definition TunnelProxySetError_name (x : TunnelProxySetError) : string :=
  match x with
  | TunnelProxySetError_TunnelNotFound => "TunnelNotFound"
  | TunnelProxySetError_ProxyProtocolNotSupportedByAgent => "ProxyProtocolNotSupportedByAgent"
  end.

#[global] Instance TunnelProxySetError_serde : Serde TunnelProxySetError :=
  Serde_unit_enum TunnelProxySetError_name
    [(TunnelProxySetError_name TunnelProxySetError_TunnelNotFound, TunnelProxySetError_TunnelNotFound);
     (TunnelProxySetError_name TunnelProxySetError_ProxyProtocolNotSupportedByAgent, TunnelProxySetError_ProxyProtocolNotSupportedByAgent)].

#[global] Instance TunnelProxySetError_laws : SerdeLaws TunnelProxySetError (λ _, True).
Proof. apply unit_enum_laws. by intros []. Qed.

Record ReqAgentsRename : Type := {
  ReqAgentsRename_agent_id : Uuid;
  ReqAgentsRename_name : string;
}.

#[global] Instance ReqAgentsRename_serde : Serde ReqAgentsRename := {|
  to_value x :=
    Object
      [("agent_id"%string, to_value (Serde := (Serde_text uuid_text)) (ReqAgentsRename_agent_id x));
       ("name"%string, to_value (Serde := Serde_string) (ReqAgentsRename_name x))];
  from_value v :=
    entries ← entries_of v;
    agent_id' ← field (Serde_text uuid_text) "agent_id" entries;
    name' ← field Serde_string "name" entries;
    Some {| ReqAgentsRename_agent_id := agent_id';
            ReqAgentsRename_name := name' |} |}.

Definition ReqAgentsRename_wf (x : ReqAgentsRename) : Prop :=
  (uint 128) (ReqAgentsRename_agent_id x).

#[global] Instance ReqAgentsRename_laws : SerdeLaws ReqAgentsRename ReqAgentsRename_wf.
Proof. serde_struct. Qed.

Inductive AgentRenameError : Set :=
  | AgentRenameError_AgentNotFound
  | AgentRenameError_InvalidName
  | AgentRenameError_InvalidAgentId.

Definition AgentRenameError_name (x : AgentRenameError) : string :=
  match x with
  | AgentRenameError_AgentNotFound => "AgentNotFound"
  | AgentRenameError_InvalidName => "InvalidName"
  | AgentRenameError_InvalidAgentId => "InvalidAgentId"
  end.

#[global] Instance AgentRenameError_serde : Serde AgentRenameError :=
  Serde_unit_enum AgentRenameError_name
    [(AgentRenameError_name AgentRenameError_AgentNotFound, AgentRenameError_AgentNotFound);
     (AgentRenameError_name AgentRenameError_InvalidName, AgentRenameError_InvalidName);
     (AgentRenameError_name AgentRenameError_InvalidAgentId, AgentRenameError_InvalidAgentId)].

#[global] Instance AgentRenameError_laws : SerdeLaws AgentRenameError (λ _, True).
Proof. apply unit_enum_laws. by intros []. Qed.

Inductive PlayitPop : Set :=
  | PlayitPop_Any
  | PlayitPop_UsLosAngeles
  | PlayitPop_UsSeattle
  | PlayitPop_UsDallas
  | PlayitPop_UsMiami
  | PlayitPop_UsChicago
  | PlayitPop_UsNewJersey
  | PlayitPop_CanadaToronto
  | PlayitPop_Mexico
  | PlayitPop_BrazilSaoPaulo
  | PlayitPop_Spain
  | PlayitPop_London
  | PlayitPop_Germany
  | PlayitPop_Poland
  | PlayitPop_Sweden
  | PlayitPop_IndiaDelhi
  | PlayitPop_IndiaMumbai
  | PlayitPop_IndiaBangalore
  | PlayitPop_Singapore
  | PlayitPop_Tokyo
  | PlayitPop_Sydney
  | PlayitPop_SantiagoChile
  | PlayitPop_Israel
  | PlayitPop_Romania
  | PlayitPop_UsNewYork
  | PlayitPop_UsDenver
  | PlayitPop_Staging.

Definition PlayitPop_name (x : PlayitPop) : string :=
  match x with
  | PlayitPop_Any => "Any"
  | PlayitPop_UsLosAngeles => "USLosAngeles"
  | PlayitPop_UsSeattle => "USSeattle"
  | PlayitPop_UsDallas => "USDallas"
  | PlayitPop_UsMiami => "USMiami"
  | PlayitPop_UsChicago => "USChicago"
  | PlayitPop_UsNewJersey => "USNewJersey"
  | PlayitPop_CanadaToronto => "CanadaToronto"
  | PlayitPop_Mexico => "Mexico"
  | PlayitPop_BrazilSaoPaulo => "BrazilSaoPaulo"
  | PlayitPop_Spain => "Spain"
  | PlayitPop_London => "London"
  | PlayitPop_Germany => "Germany"
  | PlayitPop_Poland => "Poland"
  | PlayitPop_Sweden => "Sweden"
  | PlayitPop_IndiaDelhi => "IndiaDelhi"
  | PlayitPop_IndiaMumbai => "IndiaMumbai"
  | PlayitPop_IndiaBangalore => "IndiaBangalore"
  | PlayitPop_Singapore => "Singapore"
  | PlayitPop_Tokyo => "Tokyo"
  | PlayitPop_Sydney => "Sydney"
  | PlayitPop_SantiagoChile => "SantiagoChile"
  | PlayitPop_Israel => "Israel"
  | PlayitPop_Romania => "Romania"
  | PlayitPop_UsNewYork => "USNewYork"
  | PlayitPop_UsDenver => "USDenver"
  | PlayitPop_Staging => "Staging"
  end.

#[global] Instance PlayitPop_serde : Serde PlayitPop :=
  Serde_unit_enum PlayitPop_name
    [(PlayitPop_name PlayitPop_Any, PlayitPop_Any);
     (PlayitPop_name PlayitPop_UsLosAngeles, PlayitPop_UsLosAngeles);
     (PlayitPop_name PlayitPop_UsSeattle, PlayitPop_UsSeattle);
     (PlayitPop_name PlayitPop_UsDallas, PlayitPop_UsDallas);
     (PlayitPop_name PlayitPop_UsMiami, PlayitPop_UsMiami);
     (PlayitPop_name PlayitPop_UsChicago, PlayitPop_UsChicago);
     (PlayitPop_name PlayitPop_UsNewJersey, PlayitPop_UsNewJersey);
     (PlayitPop_name PlayitPop_CanadaToronto, PlayitPop_CanadaToronto);
     (PlayitPop_name PlayitPop_Mexico, PlayitPop_Mexico);
     (PlayitPop_name PlayitPop_BrazilSaoPaulo, PlayitPop_BrazilSaoPaulo);
     (PlayitPop_name PlayitPop_Spain, PlayitPop_Spain);
     (PlayitPop_name PlayitPop_London, PlayitPop_London);
     (PlayitPop_name PlayitPop_Germany, PlayitPop_Germany);
     (PlayitPop_name PlayitPop_Poland, PlayitPop_Poland);
     (PlayitPop_name PlayitPop_Sweden, PlayitPop_Sweden);
     (PlayitPop_name PlayitPop_IndiaDelhi, PlayitPop_IndiaDelhi);
     (PlayitPop_name PlayitPop_IndiaMumbai, PlayitPop_IndiaMumbai);
     (PlayitPop_name PlayitPop_IndiaBangalore, PlayitPop_IndiaBangalore);
     (PlayitPop_name PlayitPop_Singapore, PlayitPop_Singapore);
     (PlayitPop_name PlayitPop_Tokyo, PlayitPop_Tokyo);
     (PlayitPop_name PlayitPop_Sydney, PlayitPop_Sydney);
     (PlayitPop_name PlayitPop_SantiagoChile, PlayitPop_SantiagoChile);
     (PlayitPop_name PlayitPop_Israel, PlayitPop_Israel);
     (PlayitPop_name PlayitPop_Romania, PlayitPop_Romania);
     (PlayitPop_name PlayitPop_UsNewYork, PlayitPop_UsNewYork);
     (PlayitPop_name PlayitPop_UsDenver, PlayitPop_UsDenver);
     (PlayitPop_name PlayitPop_Staging, PlayitPop_Staging)].

#[global] Instance PlayitPop_laws : SerdeLaws PlayitPop (λ _, True).
Proof. apply unit_enum_laws. by intros []. Qed.

Inductive AgentRoutingTarget : Type :=
  | AgentRoutingTarget_Automatic
  | AgentRoutingTarget_Pop (x : PlayitPop)
  | AgentRoutingTarget_Region (x : PlayitNetwork).

#[global] Instance AgentRoutingTarget_serde : Serde AgentRoutingTarget := {|
  to_value x :=
    match x with
    | AgentRoutingTarget_Automatic => adjacent "type" "details" "Automatic" None
    | AgentRoutingTarget_Pop x => adjacent "type" "details" "Pop" (Some (to_value (Serde := PlayitPop_serde) x))
    | AgentRoutingTarget_Region x => adjacent "type" "details" "Region" (Some (to_value (Serde := PlayitNetwork_serde) x))
    end;
  from_value v :=
    '(name, data) ← adjacent_parts "type" "details" v;
    variant ← find_variant name
      [("Automatic", unit_variant AgentRoutingTarget_Automatic);
       ("Pop", newtype_variant PlayitPop_serde AgentRoutingTarget_Pop);
       ("Region", newtype_variant PlayitNetwork_serde AgentRoutingTarget_Region)]%string;
    variant data |}.

#[global] Instance AgentRoutingTarget_laws : SerdeLaws AgentRoutingTarget (λ _, True).
Proof. serde_enum. Qed.

Record ReqAgentsRoutingSet : Type := {
  ReqAgentsRoutingSet_agent_id : Uuid;
  ReqAgentsRoutingSet_routing : AgentRoutingTarget;
  ReqAgentsRoutingSet_disable_ip6 : bool;
}.

#[global] Instance ReqAgentsRoutingSet_serde : Serde ReqAgentsRoutingSet := {|
  to_value x :=
    Object
      [("agent_id"%string, to_value (Serde := (Serde_text uuid_text)) (ReqAgentsRoutingSet_agent_id x));
       ("routing"%string, to_value (Serde := AgentRoutingTarget_serde) (ReqAgentsRoutingSet_routing x));
       ("disable_ip6"%string, to_value (Serde := Serde_bool) (ReqAgentsRoutingSet_disable_ip6 x))];
  from_value v :=
    entries ← entries_of v;
    agent_id' ← field (Serde_text uuid_text) "agent_id" entries;
    routing' ← field AgentRoutingTarget_serde "routing" entries;
    disable_ip6' ← field Serde_bool "disable_ip6" entries;
    Some {| ReqAgentsRoutingSet_agent_id := agent_id';
            ReqAgentsRoutingSet_routing := routing';
            ReqAgentsRoutingSet_disable_ip6 := disable_ip6' |} |}.

Definition ReqAgentsRoutingSet_wf (x : ReqAgentsRoutingSet) : Prop :=
  (uint 128) (ReqAgentsRoutingSet_agent_id x).

#[global] Instance ReqAgentsRoutingSet_laws : SerdeLaws ReqAgentsRoutingSet ReqAgentsRoutingSet_wf.
Proof. serde_struct. Qed.

Inductive AgentRoutingSetError : Set :=
  | AgentRoutingSetError_RequiresPremium
  | AgentRoutingSetError_AgentNotFound
  | AgentRoutingSetError_InvalidAgentId.

Definition AgentRoutingSetError_name (x : AgentRoutingSetError) : string :=
  match x with
  | AgentRoutingSetError_RequiresPremium => "RequiresPremium"
  | AgentRoutingSetError_AgentNotFound => "AgentNotFound"
  | AgentRoutingSetError_InvalidAgentId => "InvalidAgentId"
  end.

#[global] Instance AgentRoutingSetError_serde : Serde AgentRoutingSetError :=
  Serde_unit_enum AgentRoutingSetError_name
    [(AgentRoutingSetError_name AgentRoutingSetError_RequiresPremium, AgentRoutingSetError_RequiresPremium);
     (AgentRoutingSetError_name AgentRoutingSetError_AgentNotFound, AgentRoutingSetError_AgentNotFound);
     (AgentRoutingSetError_name AgentRoutingSetError_InvalidAgentId, AgentRoutingSetError_InvalidAgentId)].

#[global] Instance AgentRoutingSetError_laws : SerdeLaws AgentRoutingSetError (λ _, True).
Proof. apply unit_enum_laws. by intros []. Qed.

Record ReqAgentsRoutingGet : Type := {
  ReqAgentsRoutingGet_agent_id : option Uuid;
}.

#[global] Instance ReqAgentsRoutingGet_serde : Serde ReqAgentsRoutingGet := {|
  to_value x :=
    Object
      [("agent_id"%string, to_value (Serde := (@Serde_option _ (Serde_text uuid_text))) (ReqAgentsRoutingGet_agent_id x))];
  from_value v :=
    entries ← entries_of v;
    agent_id' ← field_or (@Serde_option _ (Serde_text uuid_text)) None "agent_id" entries;
    Some {| ReqAgentsRoutingGet_agent_id := agent_id' |} |}.

Definition ReqAgentsRoutingGet_wf (x : ReqAgentsRoutingGet) : Prop :=
  (from_option (uint 128) True) (ReqAgentsRoutingGet_agent_id x).

#[global] Instance ReqAgentsRoutingGet_laws : SerdeLaws ReqAgentsRoutingGet ReqAgentsRoutingGet_wf.
Proof. serde_struct. Qed.

Record AgentRouting : Type := {
  AgentRouting_agent_id : Uuid;
  AgentRouting_targets4 : list Z;
  AgentRouting_targets6 : list Z;
  AgentRouting_disable_ip6 : bool;
}.

#[global] Instance AgentRouting_serde : Serde AgentRouting := {|
  to_value x :=
    Object
      [("agent_id"%string, to_value (Serde := (Serde_text uuid_text)) (AgentRouting_agent_id x));
       ("targets4"%string, to_value (Serde := (@Serde_list _ (Serde_text ipv4_text))) (AgentRouting_targets4 x));
       ("targets6"%string, to_value (Serde := (@Serde_list _ (Serde_text ipv6_text))) (AgentRouting_targets6 x));
       ("disable_ip6"%string, to_value (Serde := Serde_bool) (AgentRouting_disable_ip6 x))];
  from_value v :=
    entries ← entries_of v;
    agent_id' ← field (Serde_text uuid_text) "agent_id" entries;
    targets4' ← field (@Serde_list _ (Serde_text ipv4_text)) "targets4" entries;
    targets6' ← field (@Serde_list _ (Serde_text ipv6_text)) "targets6" entries;
    disable_ip6' ← field Serde_bool "disable_ip6" entries;
    Some {| AgentRouting_agent_id := agent_id';
            AgentRouting_targets4 := targets4';
            AgentRouting_targets6 := targets6';
            AgentRouting_disable_ip6 := disable_ip6' |} |}.

Definition AgentRouting_wf (x : AgentRouting) : Prop :=
  (uint 128) (AgentRouting_agent_id x) ∧
  (Forall (uint 32)) (AgentRouting_targets4 x) ∧
  (Forall (uint 128)) (AgentRouting_targets6 x).

#[global] Instance AgentRouting_laws : SerdeLaws AgentRouting AgentRouting_wf.
Proof. serde_struct. Qed.

Inductive AgentRoutingGetError : Set :=
  | AgentRoutingGetError_MissingAgentId
  | AgentRoutingGetError_InvalidAgentId.

Definition AgentRoutingGetError_name (x : AgentRoutingGetError) : string :=
  match x with
  | AgentRoutingGetError_MissingAgentId => "MissingAgentId"
  | AgentRoutingGetError_InvalidAgentId => "InvalidAgentId"
  end.

#[global] Instance AgentRoutingGetError_serde : Serde AgentRoutingGetError :=
  Serde_unit_enum AgentRoutingGetError_name
    [(AgentRoutingGetError_name AgentRoutingGetError_MissingAgentId, AgentRoutingGetError_MissingAgentId);
     (AgentRoutingGetError_name AgentRoutingGetError_InvalidAgentId, AgentRoutingGetError_InvalidAgentId)].

#[global] Instance AgentRoutingGetError_laws : SerdeLaws AgentRoutingGetError (λ _, True).
Proof. apply unit_enum_laws. by intros []. Qed.

Record ReqAgentsRundata : Set := ReqAgentsRundata_new {}.

#[global] Instance ReqAgentsRundata_serde : Serde ReqAgentsRundata := {|
  to_value _ := Object [];
  from_value v := _ ← entries_of v; Some ReqAgentsRundata_new |}.

#[global] Instance ReqAgentsRundata_laws : SerdeLaws ReqAgentsRundata (λ _, True).
Proof. by split; [intros []|]. Qed.

Inductive AgentType : Set :=
  | AgentType_Default
  | AgentType_Assignable
  | AgentType_SelfManaged.

Definition AgentType_name (x : AgentType) : string :=
  match x with
  | AgentType_Default => "default"
  | AgentType_Assignable => "assignable"
  | AgentType_SelfManaged => "self-managed"
  end.

#[global] Instance AgentType_serde : Serde AgentType :=
  Serde_unit_enum AgentType_name
    [(AgentType_name AgentType_Default, AgentType_Default);
     (AgentType_name AgentType_Assignable, AgentType_Assignable);
     (AgentType_name AgentType_SelfManaged, AgentType_SelfManaged)].

#[global] Instance AgentType_laws : SerdeLaws AgentType (λ _, True).
Proof. apply unit_enum_laws. by intros []. Qed.

Inductive AgentAccountStatus : Set :=
  | AgentAccountStatus_AccountDeleteScheduled
  | AgentAccountStatus_Banned
  | AgentAccountStatus_HasMessage
  | AgentAccountStatus_EmailNotVerified
  | AgentAccountStatus_Guest
  | AgentAccountStatus_Ready
  | AgentAccountStatus_AgentOverLimit
  | AgentAccountStatus_AgentDisabled.

Definition AgentAccountStatus_name (x : AgentAccountStatus) : string :=
  match x with
  | AgentAccountStatus_AccountDeleteScheduled => "account-delete-scheduled"
  | AgentAccountStatus_Banned => "banned"
  | AgentAccountStatus_HasMessage => "has-message"
  | AgentAccountStatus_EmailNotVerified => "email-not-verified"
  | AgentAccountStatus_Guest => "guest"
  | AgentAccountStatus_Ready => "ready"
  | AgentAccountStatus_AgentOverLimit => "agent-over-limit"
  | AgentAccountStatus_AgentDisabled => "agent-disabled"
  end.

#[global] Instance AgentAccountStatus_serde : Serde AgentAccountStatus :=
  Serde_unit_enum AgentAccountStatus_name
    [(AgentAccountStatus_name AgentAccountStatus_AccountDeleteScheduled, AgentAccountStatus_AccountDeleteScheduled);
     (AgentAccountStatus_name AgentAccountStatus_Banned, AgentAccountStatus_Banned);
     (AgentAccountStatus_name AgentAccountStatus_HasMessage, AgentAccountStatus_HasMessage);
     (AgentAccountStatus_name AgentAccountStatus_EmailNotVerified, AgentAccountStatus_EmailNotVerified);
     (AgentAccountStatus_name AgentAccountStatus_Guest, AgentAccountStatus_Guest);
     (AgentAccountStatus_name AgentAccountStatus_Ready, AgentAccountStatus_Ready);
     (AgentAccountStatus_name AgentAccountStatus_AgentOverLimit, AgentAccountStatus_AgentOverLimit);
     (AgentAccountStatus_name AgentAccountStatus_AgentDisabled, AgentAccountStatus_AgentDisabled)].

#[global] Instance AgentAccountStatus_laws : SerdeLaws AgentAccountStatus (λ _, True).
Proof. apply unit_enum_laws. by intros []. Qed.

Record ApiPortRange : Type := {
  ApiPortRange_from : Z;
  ApiPortRange_to : Z;
}.

#[global] Instance ApiPortRange_serde : Serde ApiPortRange := {|
  to_value x :=
    Object
      [("from"%string, to_value (Serde := (Serde_uint 16)) (ApiPortRange_from x));
       ("to"%string, to_value (Serde := (Serde_uint 16)) (ApiPortRange_to x))];
  from_value v :=
    entries ← entries_of v;
    from' ← field (Serde_uint 16) "from" entries;
    to' ← field (Serde_uint 16) "to" entries;
    Some {| ApiPortRange_from := from';
            ApiPortRange_to := to' |} |}.

Definition ApiPortRange_wf (x : ApiPortRange) : Prop :=
  (uint 16) (ApiPortRange_from x) ∧
  (uint 16) (ApiPortRange_to x).

#[global] Instance ApiPortRange_laws : SerdeLaws ApiPortRange ApiPortRange_wf.
Proof. serde_struct. Qed.

Inductive AgentTunnelDisabled : Set :=
  | AgentTunnelDisabled_ByUser
  | AgentTunnelDisabled_BySystem.

Definition AgentTunnelDisabled_name (x : AgentTunnelDisabled) : string :=
  match x with
  | AgentTunnelDisabled_ByUser => "ByUser"
  | AgentTunnelDisabled_BySystem => "BySystem"
  end.

#[global] Instance AgentTunnelDisabled_serde : Serde AgentTunnelDisabled :=
  Serde_unit_enum AgentTunnelDisabled_name
    [(AgentTunnelDisabled_name AgentTunnelDisabled_ByUser, AgentTunnelDisabled_ByUser);
     (AgentTunnelDisabled_name AgentTunnelDisabled_BySystem, AgentTunnelDisabled_BySystem)].

#[global] Instance AgentTunnelDisabled_laws : SerdeLaws AgentTunnelDisabled (λ _, True).
Proof. apply unit_enum_laws. by intros []. Qed.

Record AgentTunnel : Type := {
  AgentTunnel_id : Uuid;
  AgentTunnel_internal_id : Z;
  AgentTunnel_name : option string;
  AgentTunnel_ip_num : Z;
  AgentTunnel_region_num : Z;
  AgentTunnel_port : ApiPortRange;
  AgentTunnel_proto : PortType;
  AgentTunnel_local_ip : IpAddr;
  AgentTunnel_local_port : Z;
  AgentTunnel_tunnel_type : option string;
  AgentTunnel_assigned_domain : string;
  AgentTunnel_custom_domain : option string;
  AgentTunnel_disabled : option AgentTunnelDisabled;
  AgentTunnel_proxy_protocol : option ProxyProtocol;
  AgentTunnel_agent_config : AgentTunnelConfig;
}.

#[global] Instance AgentTunnel_serde : Serde AgentTunnel := {|
  to_value x :=
    Object
      [("id"%string, to_value (Serde := (Serde_text uuid_text)) (AgentTunnel_id x));
       ("internal_id"%string, to_value (Serde := (Serde_uint 64)) (AgentTunnel_internal_id x));
       ("name"%string, to_value (Serde := (@Serde_option _ Serde_string)) (AgentTunnel_name x));
       ("ip_num"%string, to_value (Serde := (Serde_uint 64)) (AgentTunnel_ip_num x));
       ("region_num"%string, to_value (Serde := (Serde_uint 16)) (AgentTunnel_region_num x));
       ("port"%string, to_value (Serde := ApiPortRange_serde) (AgentTunnel_port x));
       ("proto"%string, to_value (Serde := PortType_serde) (AgentTunnel_proto x));
       ("local_ip"%string, to_value (Serde := (Serde_text ip_text)) (AgentTunnel_local_ip x));
       ("local_port"%string, to_value (Serde := (Serde_uint 16)) (AgentTunnel_local_port x));
       ("tunnel_type"%string, to_value (Serde := (@Serde_option _ Serde_string)) (AgentTunnel_tunnel_type x));
       ("assigned_domain"%string, to_value (Serde := Serde_string) (AgentTunnel_assigned_domain x));
       ("custom_domain"%string, to_value (Serde := (@Serde_option _ Serde_string)) (AgentTunnel_custom_domain x));
       ("disabled"%string, to_value (Serde := (@Serde_option _ AgentTunnelDisabled_serde)) (AgentTunnel_disabled x));
       ("proxy_protocol"%string, to_value (Serde := (@Serde_option _ ProxyProtocol_serde)) (AgentTunnel_proxy_protocol x));
       ("agent_config"%string, to_value (Serde := AgentTunnelConfig_serde) (AgentTunnel_agent_config x))];
  from_value v :=
    entries ← entries_of v;
    id' ← field (Serde_text uuid_text) "id" entries;
    internal_id' ← field (Serde_uint 64) "internal_id" entries;
    name' ← field_or (@Serde_option _ Serde_string) None "name" entries;
    ip_num' ← field (Serde_uint 64) "ip_num" entries;
    region_num' ← field (Serde_uint 16) "region_num" entries;
    port' ← field ApiPortRange_serde "port" entries;
    proto' ← field PortType_serde "proto" entries;
    local_ip' ← field (Serde_text ip_text) "local_ip" entries;
    local_port' ← field (Serde_uint 16) "local_port" entries;
    tunnel_type' ← field_or (@Serde_option _ Serde_string) None "tunnel_type" entries;
    assigned_domain' ← field Serde_string "assigned_domain" entries;
    custom_domain' ← field_or (@Serde_option _ Serde_string) None "custom_domain" entries;
    disabled' ← field_or (@Serde_option _ AgentTunnelDisabled_serde) None "disabled" entries;
    proxy_protocol' ← field_or (@Serde_option _ ProxyProtocol_serde) None "proxy_protocol" entries;
    agent_config' ← field AgentTunnelConfig_serde "agent_config" entries;
    Some {| AgentTunnel_id := id';
            AgentTunnel_internal_id := internal_id';
            AgentTunnel_name := name';
            AgentTunnel_ip_num := ip_num';
            AgentTunnel_region_num := region_num';
            AgentTunnel_port := port';
            AgentTunnel_proto := proto';
            AgentTunnel_local_ip := local_ip';
            AgentTunnel_local_port := local_port';
            AgentTunnel_tunnel_type := tunnel_type';
            AgentTunnel_assigned_domain := assigned_domain';
            AgentTunnel_custom_domain := custom_domain';
            AgentTunnel_disabled := disabled';
            AgentTunnel_proxy_protocol := proxy_protocol';
            AgentTunnel_agent_config := agent_config' |} |}.

Definition AgentTunnel_wf (x : AgentTunnel) : Prop :=
  (uint 128) (AgentTunnel_id x) ∧
  (uint 64) (AgentTunnel_internal_id x) ∧
  (uint 64) (AgentTunnel_ip_num x) ∧
  (uint 16) (AgentTunnel_region_num x) ∧
  ApiPortRange_wf (AgentTunnel_port x) ∧
  IpAddr_wf (AgentTunnel_local_ip x) ∧
  (uint 16) (AgentTunnel_local_port x).

#[global] Instance AgentTunnel_laws : SerdeLaws AgentTunnel AgentTunnel_wf.
Proof. serde_struct. Qed.

Record AgentPendingTunnel : Type := {
  AgentPendingTunnel_id : Uuid;
  AgentPendingTunnel_name : option string;
  AgentPendingTunnel_proto : PortType;
  AgentPendingTunnel_port_count : Z;
  AgentPendingTunnel_tunnel_type : option string;
  AgentPendingTunnel_is_disabled : bool;
  AgentPendingTunnel_region_num : Z;
}.

#[global] Instance AgentPendingTunnel_serde : Serde AgentPendingTunnel := {|
  to_value x :=
    Object
      [("id"%string, to_value (Serde := (Serde_text uuid_text)) (AgentPendingTunnel_id x));
       ("name"%string, to_value (Serde := (@Serde_option _ Serde_string)) (AgentPendingTunnel_name x));
       ("proto"%string, to_value (Serde := PortType_serde) (AgentPendingTunnel_proto x));
       ("port_count"%string, to_value (Serde := (Serde_uint 16)) (AgentPendingTunnel_port_count x));
       ("tunnel_type"%string, to_value (Serde := (@Serde_option _ Serde_string)) (AgentPendingTunnel_tunnel_type x));
       ("is_disabled"%string, to_value (Serde := Serde_bool) (AgentPendingTunnel_is_disabled x));
       ("region_num"%string, to_value (Serde := (Serde_uint 16)) (AgentPendingTunnel_region_num x))];
  from_value v :=
    entries ← entries_of v;
    id' ← field (Serde_text uuid_text) "id" entries;
    name' ← field_or (@Serde_option _ Serde_string) None "name" entries;
    proto' ← field PortType_serde "proto" entries;
    port_count' ← field (Serde_uint 16) "port_count" entries;
    tunnel_type' ← field_or (@Serde_option _ Serde_string) None "tunnel_type" entries;
    is_disabled' ← field Serde_bool "is_disabled" entries;
    region_num' ← field (Serde_uint 16) "region_num" entries;
    Some {| AgentPendingTunnel_id := id';
            AgentPendingTunnel_name := name';
            AgentPendingTunnel_proto := proto';
            AgentPendingTunnel_port_count := port_count';
            AgentPendingTunnel_tunnel_type := tunnel_type';
            AgentPendingTunnel_is_disabled := is_disabled';
            AgentPendingTunnel_region_num := region_num' |} |}.

Definition AgentPendingTunnel_wf (x : AgentPendingTunnel) : Prop :=
  (uint 128) (AgentPendingTunnel_id x) ∧
  (uint 16) (AgentPendingTunnel_port_count x) ∧
  (uint 16) (AgentPendingTunnel_region_num x).

#[global] Instance AgentPendingTunnel_laws : SerdeLaws AgentPendingTunnel AgentPendingTunnel_wf.
Proof. serde_struct. Qed.

Record AccountFeatures : Type := {
  AccountFeatures_regional_tunnels : bool;
}.

#[global] Instance AccountFeatures_serde : Serde AccountFeatures := {|
  to_value x :=
    Object
      [("regional_tunnels"%string, to_value (Serde := Serde_bool) (AccountFeatures_regional_tunnels x))];
  from_value v :=
    entries ← entries_of v;
    regional_tunnels' ← field Serde_bool "regional_tunnels" entries;
    Some {| AccountFeatures_regional_tunnels := regional_tunnels' |} |}.

#[global] Instance AccountFeatures_laws : SerdeLaws AccountFeatures (λ _, True).
Proof. serde_struct. Qed.

Record AgentRunData : Type := {
  AgentRunData_agent_id : Uuid;
  AgentRunData_agent_type : AgentType;
  AgentRunData_account_status : AgentAccountStatus;
  AgentRunData_tunnels : list AgentTunnel;
  AgentRunData_pending : list AgentPendingTunnel;
  AgentRunData_account_features : AccountFeatures;
}.

#[global] Instance AgentRunData_serde : Serde AgentRunData := {|
  to_value x :=
    Object
      [("agent_id"%string, to_value (Serde := (Serde_text uuid_text)) (AgentRunData_agent_id x));
       ("agent_type"%string, to_value (Serde := AgentType_serde) (AgentRunData_agent_type x));
       ("account_status"%string, to_value (Serde := AgentAccountStatus_serde) (AgentRunData_account_status x));
       ("tunnels"%string, to_value (Serde := (@Serde_list _ AgentTunnel_serde)) (AgentRunData_tunnels x));
       ("pending"%string, to_value (Serde := (@Serde_list _ AgentPendingTunnel_serde)) (AgentRunData_pending x));
       ("account_features"%string, to_value (Serde := AccountFeatures_serde) (AgentRunData_account_features x))];
  from_value v :=
    entries ← entries_of v;
    agent_id' ← field (Serde_text uuid_text) "agent_id" entries;
    agent_type' ← field AgentType_serde "agent_type" entries;
    account_status' ← field AgentAccountStatus_serde "account_status" entries;
    tunnels' ← field (@Serde_list _ AgentTunnel_serde) "tunnels" entries;
    pending' ← field (@Serde_list _ AgentPendingTunnel_serde) "pending" entries;
    account_features' ← field AccountFeatures_serde "account_features" entries;
    Some {| AgentRunData_agent_id := agent_id';
            AgentRunData_agent_type := agent_type';
            AgentRunData_account_status := account_status';
            AgentRunData_tunnels := tunnels';
            AgentRunData_pending := pending';
            AgentRunData_account_features := account_features' |} |}.

Definition AgentRunData_wf (x : AgentRunData) : Prop :=
  (uint 128) (AgentRunData_agent_id x) ∧
  (Forall AgentTunnel_wf) (AgentRunData_tunnels x) ∧
  (Forall AgentPendingTunnel_wf) (AgentRunData_pending x).

#[global] Instance AgentRunData_laws : SerdeLaws AgentRunData AgentRunData_wf.
Proof. serde_struct. Qed.

End api.
