(* ===== verification/ApiAccount.v ===== *)
(** * Documents of the account calls (api_client/src/api.rs)

    Requests, answers and failures of login, claims, registration, domains and
    purchases, as serde derives their documents. *)

From S2P Require Import Prelude Net Json OriginLookup Api ApiTunnels.
#[local] Open Scope string_scope.
#[local] Open Scope list_scope.
#[local] Open Scope Z_scope.

Section api.
Context {FM : Formats} {FL : FormatsLaws FM}.

Record ReqInfoPops : Set := ReqInfoPops_new {}.

#[global] Instance ReqInfoPops_serde : Serde ReqInfoPops := {|
  to_value _ := Object [];
  from_value v := _ ← entries_of v; Some ReqInfoPops_new |}.

#[global] Instance ReqInfoPops_laws : SerdeLaws ReqInfoPops (λ _, True).
Proof. by split; [intros []|]. Qed.

Record Pop : Type := {
  Pop_pop : PlayitPop;
  Pop_name : string;
  Pop_region : PlayitNetwork;
  Pop_online : bool;
  Pop_ip4_premium : bool;
}.

#[global] Instance Pop_serde : Serde Pop := {|
  to_value x :=
    Object
      [("pop"%string, to_value (Serde := PlayitPop_serde) (Pop_pop x));
       ("name"%string, to_value (Serde := Serde_string) (Pop_name x));
       ("region"%string, to_value (Serde := PlayitNetwork_serde) (Pop_region x));
       ("online"%string, to_value (Serde := Serde_bool) (Pop_online x));
       ("ip4_premium"%string, to_value (Serde := Serde_bool) (Pop_ip4_premium x))];
  from_value v :=
    entries ← entries_of v;
    pop' ← field PlayitPop_serde "pop" entries;
    name' ← field Serde_string "name" entries;
    region' ← field PlayitNetwork_serde "region" entries;
    online' ← field Serde_bool "online" entries;
    ip4_premium' ← field Serde_bool "ip4_premium" entries;
    Some {| Pop_pop := pop';
            Pop_name := name';
            Pop_region := region';
            Pop_online := online';
            Pop_ip4_premium := ip4_premium' |} |}.

#[global] Instance Pop_laws : SerdeLaws Pop (λ _, True).
Proof. serde_struct. Qed.

Record PlayitPops : Type := {
  PlayitPops_pops : list Pop;
  PlayitPops_regions : list PlayitNetwork;
}.

#[global] Instance PlayitPops_serde : Serde PlayitPops := {|
  to_value x :=
    Object
      [("pops"%string, to_value (Serde := (@Serde_list _ Pop_serde)) (PlayitPops_pops x));
       ("regions"%string, to_value (Serde := (@Serde_list _ PlayitNetwork_serde)) (PlayitPops_regions x))];
  from_value v :=
    entries ← entries_of v;
    pops' ← field (@Serde_list _ Pop_serde) "pops" entries;
    regions' ← field (@Serde_list _ PlayitNetwork_serde) "regions" entries;
    Some {| PlayitPops_pops := pops';
            PlayitPops_regions := regions' |} |}.

#[global] Instance PlayitPops_laws : SerdeLaws PlayitPops (λ _, True).
Proof. serde_struct. Qed.

Record SignedEpoch : Type := {
  SignedEpoch_epoch_sec : Z;
}.

#[global] Instance SignedEpoch_serde : Serde SignedEpoch := {|
  to_value x :=
    Object
      [("epoch_sec"%string, to_value (Serde := (Serde_uint 32)) (SignedEpoch_epoch_sec x))];
  from_value v :=
    entries ← entries_of v;
    epoch_sec' ← field (Serde_uint 32) "epoch_sec" entries;
    Some {| SignedEpoch_epoch_sec := epoch_sec' |} |}.

Definition SignedEpoch_wf (x : SignedEpoch) : Prop :=
  (uint 32) (SignedEpoch_epoch_sec x).

#[global] Instance SignedEpoch_laws : SerdeLaws SignedEpoch SignedEpoch_wf.
Proof. serde_struct. Qed.

Inductive TotpStatus : Type :=
  | TotpStatus_Required
  | TotpStatus_NotSetup
  | TotpStatus_Signed (x : SignedEpoch).

#[global] Instance TotpStatus_serde : Serde TotpStatus := {|
  to_value x :=
    match x with
    | TotpStatus_Required => internal "status" "required" []
    | TotpStatus_NotSetup => internal "status" "not-setup" []
    | TotpStatus_Signed x => internal "status" "signed" (fields_of (to_value (Serde := SignedEpoch_serde) x))
    end;
  from_value v :=
    '(name, fields) ← internal_parts "status" v;
    variant ← find_variant name
      [("required", internal_unit TotpStatus_Required);
       ("not-setup", internal_unit TotpStatus_NotSetup);
       ("signed", internal_newtype SignedEpoch_serde TotpStatus_Signed)]%string;
    variant fields |}.

Definition TotpStatus_wf (y : TotpStatus) : Prop :=
  match y with
  | TotpStatus_Signed x => SignedEpoch_wf x
  | _ => True
  end.

#[global] Instance TotpStatus_laws : SerdeLaws TotpStatus TotpStatus_wf.
Proof. split; [|by intros []]. intros [| |[]] Hwf; cbn in *; [done | done |].
  by rewrite decide_True. Qed.

Record WebAuthToken : Type := {
  WebAuthToken_update_version : Z;
  WebAuthToken_account_id : Z;
  WebAuthToken_timestamp : Z;
  WebAuthToken_account_status : ApiAccountStatus;
  WebAuthToken_totp_status : TotpStatus;
  WebAuthToken_admin_id : option Z;
  WebAuthToken_admin_review_id : option Z;
  WebAuthToken_read_only : bool;
  WebAuthToken_show_admin : bool;
}.

#[global] Instance WebAuthToken_serde : Serde WebAuthToken := {|
  to_value x :=
    Object
      [("update_version"%string, to_value (Serde := (Serde_uint 32)) (WebAuthToken_update_version x));
       ("account_id"%string, to_value (Serde := (Serde_uint 64)) (WebAuthToken_account_id x));
       ("timestamp"%string, to_value (Serde := (Serde_uint 64)) (WebAuthToken_timestamp x));
       ("account_status"%string, to_value (Serde := ApiAccountStatus_serde) (WebAuthToken_account_status x));
       ("totp_status"%string, to_value (Serde := TotpStatus_serde) (WebAuthToken_totp_status x));
       ("admin_id"%string, to_value (Serde := (@Serde_option _ Serde_nonzero64)) (WebAuthToken_admin_id x));
       ("admin_review_id"%string, to_value (Serde := (@Serde_option _ Serde_nonzero64)) (WebAuthToken_admin_review_id x));
       ("read_only"%string, to_value (Serde := Serde_bool) (WebAuthToken_read_only x));
       ("show_admin"%string, to_value (Serde := Serde_bool) (WebAuthToken_show_admin x))];
  from_value v :=
    entries ← entries_of v;
    update_version' ← field (Serde_uint 32) "update_version" entries;
    account_id' ← field (Serde_uint 64) "account_id" entries;
    timestamp' ← field (Serde_uint 64) "timestamp" entries;
    account_status' ← field ApiAccountStatus_serde "account_status" entries;
    totp_status' ← field TotpStatus_serde "totp_status" entries;
    admin_id' ← field_or (@Serde_option _ Serde_nonzero64) None "admin_id" entries;
    admin_review_id' ← field_or (@Serde_option _ Serde_nonzero64) None "admin_review_id" entries;
    read_only' ← field Serde_bool "read_only" entries;
    show_admin' ← field Serde_bool "show_admin" entries;
    Some {| WebAuthToken_update_version := update_version';
            WebAuthToken_account_id := account_id';
            WebAuthToken_timestamp := timestamp';
            WebAuthToken_account_status := account_status';
            WebAuthToken_totp_status := totp_status';
            WebAuthToken_admin_id := admin_id';
            WebAuthToken_admin_review_id := admin_review_id';
            WebAuthToken_read_only := read_only';
            WebAuthToken_show_admin := show_admin' |} |}.

Definition WebAuthToken_wf (x : WebAuthToken) : Prop :=
  (uint 32) (WebAuthToken_update_version x) ∧
  (uint 64) (WebAuthToken_account_id x) ∧
  (uint 64) (WebAuthToken_timestamp x) ∧
  TotpStatus_wf (WebAuthToken_totp_status x) ∧
  (from_option nonzero64 True) (WebAuthToken_admin_id x) ∧
  (from_option nonzero64 True) (WebAuthToken_admin_review_id x).

#[global] Instance WebAuthToken_laws : SerdeLaws WebAuthToken WebAuthToken_wf.
Proof. serde_struct. Qed.

Record WebSession : Type := {
  WebSession_session_key : string;
  WebSession_auth : WebAuthToken;
}.

#[global] Instance WebSession_serde : Serde WebSession := {|
  to_value x :=
    Object
      [("session_key"%string, to_value (Serde := Serde_string) (WebSession_session_key x));
       ("auth"%string, to_value (Serde := WebAuthToken_serde) (WebSession_auth x))];
  from_value v :=
    entries ← entries_of v;
    session_key' ← field Serde_string "session_key" entries;
    auth' ← field WebAuthToken_serde "auth" entries;
    Some {| WebSession_session_key := session_key';
            WebSession_auth := auth' |} |}.

Definition WebSession_wf (x : WebSession) : Prop :=
  WebAuthToken_wf (WebSession_auth x).

#[global] Instance WebSession_laws : SerdeLaws WebSession WebSession_wf.
Proof. serde_struct. Qed.

Inductive SigninFail : Set :=
  | SigninFail_IncorrectCredentials
  | SigninFail_AccountBanned.

Definition SigninFail_name (x : SigninFail) : string :=
  match x with
  | SigninFail_IncorrectCredentials => "IncorrectCredentials"
  | SigninFail_AccountBanned => "AccountBanned"
  end.

#[global] Instance SigninFail_serde : Serde SigninFail :=
  Serde_unit_enum SigninFail_name
    [(SigninFail_name SigninFail_IncorrectCredentials, SigninFail_IncorrectCredentials);
     (SigninFail_name SigninFail_AccountBanned, SigninFail_AccountBanned)].

#[global] Instance SigninFail_laws : SerdeLaws SigninFail (λ _, True).
Proof. apply unit_enum_laws. by intros []. Qed.

Record ReqLoginClearcookie : Set := ReqLoginClearcookie_new {}.

#[global] Instance ReqLoginClearcookie_serde : Serde ReqLoginClearcookie := {|
  to_value _ := Object [];
  from_value v := _ ← entries_of v; Some ReqLoginClearcookie_new |}.

#[global] Instance ReqLoginClearcookie_laws : SerdeLaws ReqLoginClearcookie (λ _, True).
Proof. by split; [intros []|]. Qed.

Record ClearWebSession : Set := ClearWebSession_new {}.

#[global] Instance ClearWebSession_serde : Serde ClearWebSession := {|
  to_value _ := Object [];
  from_value v := _ ← entries_of v; Some ClearWebSession_new |}.

#[global] Instance ClearWebSession_laws : SerdeLaws ClearWebSession (λ _, True).
Proof. by split; [intros []|]. Qed.

Record ReqLoginCreateGuest : Set := ReqLoginCreateGuest_new {}.

#[global] Instance ReqLoginCreateGuest_serde : Serde ReqLoginCreateGuest := {|
  to_value _ := Object [];
  from_value v := _ ← entries_of v; Some ReqLoginCreateGuest_new |}.

#[global] Instance ReqLoginCreateGuest_laws : SerdeLaws ReqLoginCreateGuest (λ _, True).
Proof. by split; [intros []|]. Qed.

Inductive LoginCreateGuestError : Set :=
  | LoginCreateGuestError_Blocked.

Definition LoginCreateGuestError_name (x : LoginCreateGuestError) : string :=
  match x with
  | LoginCreateGuestError_Blocked => "Blocked"
  end.

#[global] Instance LoginCreateGuestError_serde : Serde LoginCreateGuestError :=
  Serde_unit_enum LoginCreateGuestError_name
    [(LoginCreateGuestError_name LoginCreateGuestError_Blocked, LoginCreateGuestError_Blocked)].

#[global] Instance LoginCreateGuestError_laws : SerdeLaws LoginCreateGuestError (λ _, True).
Proof. apply unit_enum_laws. by intros []. Qed.

Record ReqLoginGuest : Set := ReqLoginGuest_new {}.

#[global] Instance ReqLoginGuest_serde : Serde ReqLoginGuest := {|
  to_value _ := Object [];
  from_value v := _ ← entries_of v; Some ReqLoginGuest_new |}.

#[global] Instance ReqLoginGuest_laws : SerdeLaws ReqLoginGuest (λ _, True).
Proof. by split; [intros []|]. Qed.

Inductive GuestLoginError : Set :=
  | GuestLoginError_AccountIsNotGuest.

Definition GuestLoginError_name (x : GuestLoginError) : string :=
  match x with
  | GuestLoginError_AccountIsNotGuest => "AccountIsNotGuest"
  end.

#[global] Instance GuestLoginError_serde : Serde GuestLoginError :=
  Serde_unit_enum GuestLoginError_name
    [(GuestLoginError_name GuestLoginError_AccountIsNotGuest, GuestLoginError_AccountIsNotGuest)].

#[global] Instance GuestLoginError_laws : SerdeLaws GuestLoginError (λ _, True).
Proof. apply unit_enum_laws. by intros []. Qed.

Record ReqLoginResetPassword : Type := {
  ReqLoginResetPassword_email : string;
  ReqLoginResetPassword_reset_code : string;
  ReqLoginResetPassword_new_password : string;
}.

#[global] Instance ReqLoginResetPassword_serde : Serde ReqLoginResetPassword := {|
  to_value x :=
    Object
      [("email"%string, to_value (Serde := Serde_string) (ReqLoginResetPassword_email x));
       ("reset_code"%string, to_value (Serde := Serde_string) (ReqLoginResetPassword_reset_code x));
       ("new_password"%string, to_value (Serde := Serde_string) (ReqLoginResetPassword_new_password x))];
  from_value v :=
    entries ← entries_of v;
    email' ← field Serde_string "email" entries;
    reset_code' ← field Serde_string "reset_code" entries;
    new_password' ← field Serde_string "new_password" entries;
    Some {| ReqLoginResetPassword_email := email';
            ReqLoginResetPassword_reset_code := reset_code';
            ReqLoginResetPassword_new_password := new_password' |} |}.

#[global] Instance ReqLoginResetPassword_laws : SerdeLaws ReqLoginResetPassword (λ _, True).
Proof. serde_struct. Qed.

Inductive PasswordResetError : Set :=
  | PasswordResetError_ResetCodeExpired
  | PasswordResetError_InvalidResetCode
  | PasswordResetError_InvalidNewPassword.

Definition PasswordResetError_name (x : PasswordResetError) : string :=
  match x with
  | PasswordResetError_ResetCodeExpired => "ResetCodeExpired"
  | PasswordResetError_InvalidResetCode => "InvalidResetCode"
  | PasswordResetError_InvalidNewPassword => "InvalidNewPassword"
  end.

#[global] Instance PasswordResetError_serde : Serde PasswordResetError :=
  Serde_unit_enum PasswordResetError_name
    [(PasswordResetError_name PasswordResetError_ResetCodeExpired, PasswordResetError_ResetCodeExpired);
     (PasswordResetError_name PasswordResetError_InvalidResetCode, PasswordResetError_InvalidResetCode);
     (PasswordResetError_name PasswordResetError_InvalidNewPassword, PasswordResetError_InvalidNewPassword)].

#[global] Instance PasswordResetError_laws : SerdeLaws PasswordResetError (λ _, True).
Proof. apply unit_enum_laws. by intros []. Qed.

Record ReqLoginResetSend : Type := {
  ReqLoginResetSend_email : string;
}.

#[global] Instance ReqLoginResetSend_serde : Serde ReqLoginResetSend := {|
  to_value x :=
    Object
      [("email"%string, to_value (Serde := Serde_string) (ReqLoginResetSend_email x))];
  from_value v :=
    entries ← entries_of v;
    email' ← field Serde_string "email" entries;
    Some {| ReqLoginResetSend_email := email' |} |}.

#[global] Instance ReqLoginResetSend_laws : SerdeLaws ReqLoginResetSend (λ _, True).
Proof. serde_struct. Qed.

Inductive ClaimAgentType : Set :=
  | ClaimAgentType_Assignable
  | ClaimAgentType_SelfManaged.

Definition ClaimAgentType_name (x : ClaimAgentType) : string :=
  match x with
  | ClaimAgentType_Assignable => "assignable"
  | ClaimAgentType_SelfManaged => "self-managed"
  end.

#[global] Instance ClaimAgentType_serde : Serde ClaimAgentType :=
  Serde_unit_enum ClaimAgentType_name
    [(ClaimAgentType_name ClaimAgentType_Assignable, ClaimAgentType_Assignable);
     (ClaimAgentType_name ClaimAgentType_SelfManaged, ClaimAgentType_SelfManaged)].

#[global] Instance ClaimAgentType_laws : SerdeLaws ClaimAgentType (λ _, True).
Proof. apply unit_enum_laws. by intros []. Qed.

Record ReqClaimSetup : Type := {
  ReqClaimSetup_code : string;
  ReqClaimSetup_agent_type : ClaimAgentType;
  ReqClaimSetup_version : string;
}.

#[global] Instance ReqClaimSetup_serde : Serde ReqClaimSetup := {|
  to_value x :=
    Object
      [("code"%string, to_value (Serde := Serde_string) (ReqClaimSetup_code x));
       ("agent_type"%string, to_value (Serde := ClaimAgentType_serde) (ReqClaimSetup_agent_type x));
       ("version"%string, to_value (Serde := Serde_string) (ReqClaimSetup_version x))];
  from_value v :=
    entries ← entries_of v;
    code' ← field Serde_string "code" entries;
    agent_type' ← field ClaimAgentType_serde "agent_type" entries;
    version' ← field Serde_string "version" entries;
    Some {| ReqClaimSetup_code := code';
            ReqClaimSetup_agent_type := agent_type';
            ReqClaimSetup_version := version' |} |}.

#[global] Instance ReqClaimSetup_laws : SerdeLaws ReqClaimSetup (λ _, True).
Proof. serde_struct. Qed.

Inductive ClaimSetupResponse : Set :=
  | ClaimSetupResponse_WaitingForUserVisit
  | ClaimSetupResponse_WaitingForUser
  | ClaimSetupResponse_UserAccepted
  | ClaimSetupResponse_UserRejected.

Definition ClaimSetupResponse_name (x : ClaimSetupResponse) : string :=
  match x with
  | ClaimSetupResponse_WaitingForUserVisit => "WaitingForUserVisit"
  | ClaimSetupResponse_WaitingForUser => "WaitingForUser"
  | ClaimSetupResponse_UserAccepted => "UserAccepted"
  | ClaimSetupResponse_UserRejected => "UserRejected"
  end.

#[global] Instance ClaimSetupResponse_serde : Serde ClaimSetupResponse :=
  Serde_unit_enum ClaimSetupResponse_name
    [(ClaimSetupResponse_name ClaimSetupResponse_WaitingForUserVisit, ClaimSetupResponse_WaitingForUserVisit);
     (ClaimSetupResponse_name ClaimSetupResponse_WaitingForUser, ClaimSetupResponse_WaitingForUser);
     (ClaimSetupResponse_name ClaimSetupResponse_UserAccepted, ClaimSetupResponse_UserAccepted);
     (ClaimSetupResponse_name ClaimSetupResponse_UserRejected, ClaimSetupResponse_UserRejected)].

#[global] Instance ClaimSetupResponse_laws : SerdeLaws ClaimSetupResponse (λ _, True).
Proof. apply unit_enum_laws. by intros []. Qed.

Inductive ClaimSetupError : Set :=
  | ClaimSetupError_InvalidCode
  | ClaimSetupError_CodeExpired
  | ClaimSetupError_VersionTextTooLong.

Definition ClaimSetupError_name (x : ClaimSetupError) : string :=
  match x with
  | ClaimSetupError_InvalidCode => "InvalidCode"
  | ClaimSetupError_CodeExpired => "CodeExpired"
  | ClaimSetupError_VersionTextTooLong => "VersionTextTooLong"
  end.

#[global] Instance ClaimSetupError_serde : Serde ClaimSetupError :=
  Serde_unit_enum ClaimSetupError_name
    [(ClaimSetupError_name ClaimSetupError_InvalidCode, ClaimSetupError_InvalidCode);
     (ClaimSetupError_name ClaimSetupError_CodeExpired, ClaimSetupError_CodeExpired);
     (ClaimSetupError_name ClaimSetupError_VersionTextTooLong, ClaimSetupError_VersionTextTooLong)].

#[global] Instance ClaimSetupError_laws : SerdeLaws ClaimSetupError (λ _, True).
Proof. apply unit_enum_laws. by intros []. Qed.

Record ReqClaimExchange : Type := {
  ReqClaimExchange_code : string;
}.

#[global] Instance ReqClaimExchange_serde : Serde ReqClaimExchange := {|
  to_value x :=
    Object
      [("code"%string, to_value (Serde := Serde_string) (ReqClaimExchange_code x))];
  from_value v :=
    entries ← entries_of v;
    code' ← field Serde_string "code" entries;
    Some {| ReqClaimExchange_code := code' |} |}.

#[global] Instance ReqClaimExchange_laws : SerdeLaws ReqClaimExchange (λ _, True).
Proof. serde_struct. Qed.

Record AgentSecretKey : Type := {
  AgentSecretKey_secret_key : string;
}.

#[global] Instance AgentSecretKey_serde : Serde AgentSecretKey := {|
  to_value x :=
    Object
      [("secret_key"%string, to_value (Serde := Serde_string) (AgentSecretKey_secret_key x))];
  from_value v :=
    entries ← entries_of v;
    secret_key' ← field Serde_string "secret_key" entries;
    Some {| AgentSecretKey_secret_key := secret_key' |} |}.

#[global] Instance AgentSecretKey_laws : SerdeLaws AgentSecretKey (λ _, True).
Proof. serde_struct. Qed.

Inductive ClaimExchangeError : Set :=
  | ClaimExchangeError_CodeNotFound
  | ClaimExchangeError_CodeExpired
  | ClaimExchangeError_UserRejected
  | ClaimExchangeError_NotAccepted
  | ClaimExchangeError_NotSetup.

Definition ClaimExchangeError_name (x : ClaimExchangeError) : string :=
  match x with
  | ClaimExchangeError_CodeNotFound => "CodeNotFound"
  | ClaimExchangeError_CodeExpired => "CodeExpired"
  | ClaimExchangeError_UserRejected => "UserRejected"
  | ClaimExchangeError_NotAccepted => "NotAccepted"
  | ClaimExchangeError_NotSetup => "NotSetup"
  end.

#[global] Instance ClaimExchangeError_serde : Serde ClaimExchangeError :=
  Serde_unit_enum ClaimExchangeError_name
    [(ClaimExchangeError_name ClaimExchangeError_CodeNotFound, ClaimExchangeError_CodeNotFound);
     (ClaimExchangeError_name ClaimExchangeError_CodeExpired, ClaimExchangeError_CodeExpired);
     (ClaimExchangeError_name ClaimExchangeError_UserRejected, ClaimExchangeError_UserRejected);
     (ClaimExchangeError_name ClaimExchangeError_NotAccepted, ClaimExchangeError_NotAccepted);
     (ClaimExchangeError_name ClaimExchangeError_NotSetup, ClaimExchangeError_NotSetup)].

#[global] Instance ClaimExchangeError_laws : SerdeLaws ClaimExchangeError (λ _, True).
Proof. apply unit_enum_laws. by intros []. Qed.

Record ReqDomainsList : Set := ReqDomainsList_new {}.

#[global] Instance ReqDomainsList_serde : Serde ReqDomainsList := {|
  to_value _ := Object [];
  from_value v := _ ← entries_of v; Some ReqDomainsList_new |}.

#[global] Instance ReqDomainsList_laws : SerdeLaws ReqDomainsList (λ _, True).
Proof. by split; [intros []|]. Qed.

Record DomainTargetIp : Type := {
  DomainTargetIp_ip_address : IpAddr;
}.

#[global] Instance DomainTargetIp_serde : Serde DomainTargetIp := {|
  to_value x :=
    Object
      [("ip_address"%string, to_value (Serde := (Serde_text ip_text)) (DomainTargetIp_ip_address x))];
  from_value v :=
    entries ← entries_of v;
    ip_address' ← field (Serde_text ip_text) "ip_address" entries;
    Some {| DomainTargetIp_ip_address := ip_address' |} |}.

Definition DomainTargetIp_wf (x : DomainTargetIp) : Prop :=
  IpAddr_wf (DomainTargetIp_ip_address x).

#[global] Instance DomainTargetIp_laws : SerdeLaws DomainTargetIp DomainTargetIp_wf.
Proof. serde_struct. Qed.

Record DomainTargetTunnel : Type := {
  DomainTargetTunnel_tunnel_id : Uuid;
}.

#[global] Instance DomainTargetTunnel_serde : Serde DomainTargetTunnel := {|
  to_value x :=
    Object
      [("tunnel_id"%string, to_value (Serde := (Serde_text uuid_text)) (DomainTargetTunnel_tunnel_id x))];
  from_value v :=
    entries ← entries_of v;
    tunnel_id' ← field (Serde_text uuid_text) "tunnel_id" entries;
    Some {| DomainTargetTunnel_tunnel_id := tunnel_id' |} |}.

Definition DomainTargetTunnel_wf (x : DomainTargetTunnel) : Prop :=
  (uint 128) (DomainTargetTunnel_tunnel_id x).

#[global] Instance DomainTargetTunnel_laws : SerdeLaws DomainTargetTunnel DomainTargetTunnel_wf.
Proof. serde_struct. Qed.

Record DomainTargetExternalCName : Type := {
  DomainTargetExternalCName_cname : string;
}.

#[global] Instance DomainTargetExternalCName_serde : Serde DomainTargetExternalCName := {|
  to_value x :=
    Object
      [("cname"%string, to_value (Serde := Serde_string) (DomainTargetExternalCName_cname x))];
  from_value v :=
    entries ← entries_of v;
    cname' ← field Serde_string "cname" entries;
    Some {| DomainTargetExternalCName_cname := cname' |} |}.

#[global] Instance DomainTargetExternalCName_laws : SerdeLaws DomainTargetExternalCName (λ _, True).
Proof. serde_struct. Qed.

Inductive DomainTarget : Type :=
  | DomainTarget_IpAddress (x : DomainTargetIp)
  | DomainTarget_Tunnel (x : DomainTargetTunnel)
  | DomainTarget_ExternalCname (x : DomainTargetExternalCName).

#[global] Instance DomainTarget_serde : Serde DomainTarget := {|
  to_value x :=
    match x with
    | DomainTarget_IpAddress x => adjacent "type" "details" "ip-address" (Some (to_value (Serde := DomainTargetIp_serde) x))
    | DomainTarget_Tunnel x => adjacent "type" "details" "tunnel" (Some (to_value (Serde := DomainTargetTunnel_serde) x))
    | DomainTarget_ExternalCname x => adjacent "type" "details" "external-cname" (Some (to_value (Serde := DomainTargetExternalCName_serde) x))
    end;
  from_value v :=
    '(name, data) ← adjacent_parts "type" "details" v;
    variant ← find_variant name
      [("ip-address", newtype_variant DomainTargetIp_serde DomainTarget_IpAddress);
       ("tunnel", newtype_variant DomainTargetTunnel_serde DomainTarget_Tunnel);
       ("external-cname", newtype_variant DomainTargetExternalCName_serde DomainTarget_ExternalCname)]%string;
    variant data |}.

Definition DomainTarget_wf (y : DomainTarget) : Prop :=
  match y with
  | DomainTarget_IpAddress x => DomainTargetIp_wf x
  | DomainTarget_Tunnel x => DomainTargetTunnel_wf x
  | _ => True
  end.

#[global] Instance DomainTarget_laws : SerdeLaws DomainTarget DomainTarget_wf.
Proof. serde_enum. Qed.

Record Domain : Type := {
  Domain_id : Uuid;
  Domain_name : string;
  Domain_is_external : bool;
  Domain_parent : option Uuid;
  Domain_sub_id : Uuid;
  Domain_target : option DomainTarget;
}.

#[global] Instance Domain_serde : Serde Domain := {|
  to_value x :=
    Object
      [("id"%string, to_value (Serde := (Serde_text uuid_text)) (Domain_id x));
       ("name"%string, to_value (Serde := Serde_string) (Domain_name x));
       ("is_external"%string, to_value (Serde := Serde_bool) (Domain_is_external x));
       ("parent"%string, to_value (Serde := (@Serde_option _ (Serde_text uuid_text))) (Domain_parent x));
       ("sub_id"%string, to_value (Serde := (Serde_text uuid_text)) (Domain_sub_id x));
       ("target"%string, to_value (Serde := (@Serde_option _ DomainTarget_serde)) (Domain_target x))];
  from_value v :=
    entries ← entries_of v;
    id' ← field (Serde_text uuid_text) "id" entries;
    name' ← field Serde_string "name" entries;
    is_external' ← field Serde_bool "is_external" entries;
    parent' ← field_or (@Serde_option _ (Serde_text uuid_text)) None "parent" entries;
    sub_id' ← field (Serde_text uuid_text) "sub_id" entries;
    target' ← field_or (@Serde_option _ DomainTarget_serde) None "target" entries;
    Some {| Domain_id := id';
            Domain_name := name';
            Domain_is_external := is_external';
            Domain_parent := parent';
            Domain_sub_id := sub_id';
            Domain_target := target' |} |}.

Definition Domain_wf (x : Domain) : Prop :=
  (uint 128) (Domain_id x) ∧
  (from_option (uint 128) True) (Domain_parent x) ∧
  (uint 128) (Domain_sub_id x) ∧
  (from_option DomainTarget_wf True) (Domain_target x).

#[global] Instance Domain_laws : SerdeLaws Domain Domain_wf.
Proof. serde_struct. Qed.

Record Domains : Type := {
  Domains_domains : list Domain;
}.

#[global] Instance Domains_serde : Serde Domains := {|
  to_value x :=
    Object
      [("domains"%string, to_value (Serde := (@Serde_list _ Domain_serde)) (Domains_domains x))];
  from_value v :=
    entries ← entries_of v;
    domains' ← field (@Serde_list _ Domain_serde) "domains" entries;
    Some {| Domains_domains := domains' |} |}.

Definition Domains_wf (x : Domains) : Prop :=
  (Forall Domain_wf) (Domains_domains x).

#[global] Instance Domains_laws : SerdeLaws Domains Domains_wf.
Proof. serde_struct. Qed.

Record ReqShopPrices : Set := ReqShopPrices_new {}.

#[global] Instance ReqShopPrices_serde : Serde ReqShopPrices := {|
  to_value _ := Object [];
  from_value v := _ ← entries_of v; Some ReqShopPrices_new |}.

#[global] Instance ReqShopPrices_laws : SerdeLaws ReqShopPrices (λ _, True).
Proof. by split; [intros []|]. Qed.

Record ShopPrice : Type := {
  ShopPrice_monthly : option Z;
  ShopPrice_yearly : option Z;
}.

#[global] Instance ShopPrice_serde : Serde ShopPrice := {|
  to_value x :=
    Object
      [("monthly"%string, to_value (Serde := (@Serde_option _ (Serde_uint 32))) (ShopPrice_monthly x));
       ("yearly"%string, to_value (Serde := (@Serde_option _ (Serde_uint 32))) (ShopPrice_yearly x))];
  from_value v :=
    entries ← entries_of v;
    monthly' ← field_or (@Serde_option _ (Serde_uint 32)) None "monthly" entries;
    yearly' ← field_or (@Serde_option _ (Serde_uint 32)) None "yearly" entries;
    Some {| ShopPrice_monthly := monthly';
            ShopPrice_yearly := yearly' |} |}.

Definition ShopPrice_wf (x : ShopPrice) : Prop :=
  (from_option (uint 32) True) (ShopPrice_monthly x) ∧
  (from_option (uint 32) True) (ShopPrice_yearly x).

#[global] Instance ShopPrice_laws : SerdeLaws ShopPrice ShopPrice_wf.
Proof. serde_struct. Qed.

Record ShopPrices : Type := {
  ShopPrices_custom_domain : ShopPrice;
  ShopPrices_dedicated_ip : gmap PlayitNetwork ShopPrice;
  ShopPrices_playit_premium : ShopPrice;
  ShopPrices_ports_both : ShopPrice;
  ShopPrices_ports_tcp : ShopPrice;
  ShopPrices_ports_udp : ShopPrice;
  ShopPrices_dedicated_port_global : ShopPrice;
  ShopPrices_dedicated_port_regional : ShopPrice;
}.

#[global] Instance ShopPrices_serde : Serde ShopPrices := {|
  to_value x :=
    Object
      [("custom_domain"%string, to_value (Serde := ShopPrice_serde) (ShopPrices_custom_domain x));
       ("dedicated_ip"%string, to_value (Serde := (Serde_map PlayitNetwork_name PlayitNetwork_of_name ShopPrice_serde)) (ShopPrices_dedicated_ip x));
       ("playit_premium"%string, to_value (Serde := ShopPrice_serde) (ShopPrices_playit_premium x));
       ("ports_both"%string, to_value (Serde := ShopPrice_serde) (ShopPrices_ports_both x));
       ("ports_tcp"%string, to_value (Serde := ShopPrice_serde) (ShopPrices_ports_tcp x));
       ("ports_udp"%string, to_value (Serde := ShopPrice_serde) (ShopPrices_ports_udp x));
       ("dedicated_port_global"%string, to_value (Serde := ShopPrice_serde) (ShopPrices_dedicated_port_global x));
       ("dedicated_port_regional"%string, to_value (Serde := ShopPrice_serde) (ShopPrices_dedicated_port_regional x))];
  from_value v :=
    entries ← entries_of v;
    custom_domain' ← field ShopPrice_serde "custom_domain" entries;
    dedicated_ip' ← field (Serde_map PlayitNetwork_name PlayitNetwork_of_name ShopPrice_serde) "dedicated_ip" entries;
    playit_premium' ← field ShopPrice_serde "playit_premium" entries;
    ports_both' ← field ShopPrice_serde "ports_both" entries;
    ports_tcp' ← field ShopPrice_serde "ports_tcp" entries;
    ports_udp' ← field ShopPrice_serde "ports_udp" entries;
    dedicated_port_global' ← field ShopPrice_serde "dedicated_port_global" entries;
    dedicated_port_regional' ← field ShopPrice_serde "dedicated_port_regional" entries;
    Some {| ShopPrices_custom_domain := custom_domain';
            ShopPrices_dedicated_ip := dedicated_ip';
            ShopPrices_playit_premium := playit_premium';
            ShopPrices_ports_both := ports_both';
            ShopPrices_ports_tcp := ports_tcp';
            ShopPrices_ports_udp := ports_udp';
            ShopPrices_dedicated_port_global := dedicated_port_global';
            ShopPrices_dedicated_port_regional := dedicated_port_regional' |} |}.

Definition ShopPrices_wf (x : ShopPrices) : Prop :=
  ShopPrice_wf (ShopPrices_custom_domain x) ∧
  (map_Forall (λ _, ShopPrice_wf)) (ShopPrices_dedicated_ip x) ∧
  ShopPrice_wf (ShopPrices_playit_premium x) ∧
  ShopPrice_wf (ShopPrices_ports_both x) ∧
  ShopPrice_wf (ShopPrices_ports_tcp x) ∧
  ShopPrice_wf (ShopPrices_ports_udp x) ∧
  ShopPrice_wf (ShopPrices_dedicated_port_global x) ∧
  ShopPrice_wf (ShopPrices_dedicated_port_regional x).

#[global] Instance ShopPrices_laws : SerdeLaws ShopPrices ShopPrices_wf.
Proof. serde_struct. Qed.

Record ReqShopAvailabilityCustomDomain : Type := {
  ReqShopAvailabilityCustomDomain_name : string;
}.

#[global] Instance ReqShopAvailabilityCustomDomain_serde : Serde ReqShopAvailabilityCustomDomain := {|
  to_value x :=
    Object
      [("name"%string, to_value (Serde := Serde_string) (ReqShopAvailabilityCustomDomain_name x))];
  from_value v :=
    entries ← entries_of v;
    name' ← field Serde_string "name" entries;
    Some {| ReqShopAvailabilityCustomDomain_name := name' |} |}.

#[global] Instance ReqShopAvailabilityCustomDomain_laws : SerdeLaws ReqShopAvailabilityCustomDomain (λ _, True).
Proof. serde_struct. Qed.

Record IsAvailable : Type := {
  IsAvailable_is_available : bool;
}.

#[global] Instance IsAvailable_serde : Serde IsAvailable := {|
  to_value x :=
    Object
      [("is_available"%string, to_value (Serde := Serde_bool) (IsAvailable_is_available x))];
  from_value v :=
    entries ← entries_of v;
    is_available' ← field Serde_bool "is_available" entries;
    Some {| IsAvailable_is_available := is_available' |} |}.

#[global] Instance IsAvailable_laws : SerdeLaws IsAvailable (λ _, True).
Proof. serde_struct. Qed.

Inductive Platform : Set :=
  | Platform_Linux
  | Platform_Freebsd
  | Platform_Windows
  | Platform_Macos
  | Platform_Android
  | Platform_Ios
  | Platform_Docker
  | Platform_MinecraftPlugin
  | Platform_Unknown.

Definition Platform_name (x : Platform) : string :=
  match x with
  | Platform_Linux => "linux"
  | Platform_Freebsd => "freebsd"
  | Platform_Windows => "windows"
  | Platform_Macos => "macos"
  | Platform_Android => "android"
  | Platform_Ios => "ios"
  | Platform_Docker => "docker"
  | Platform_MinecraftPlugin => "minecraft-plugin"
  | Platform_Unknown => "unknown"
  end.

#[global] Instance Platform_serde : Serde Platform :=
  Serde_unit_enum Platform_name
    [(Platform_name Platform_Linux, Platform_Linux);
     (Platform_name Platform_Freebsd, Platform_Freebsd);
     (Platform_name Platform_Windows, Platform_Windows);
     (Platform_name Platform_Macos, Platform_Macos);
     (Platform_name Platform_Android, Platform_Android);
     (Platform_name Platform_Ios, Platform_Ios);
     (Platform_name Platform_Docker, Platform_Docker);
     (Platform_name Platform_MinecraftPlugin, Platform_MinecraftPlugin);
     (Platform_name Platform_Unknown, Platform_Unknown)].

#[global] Instance Platform_laws : SerdeLaws Platform (λ _, True).
Proof. apply unit_enum_laws. by intros []. Qed.

Record AgentVersionOld : Type := {
  AgentVersionOld_platform : Platform;
  AgentVersionOld_version : string;
  AgentVersionOld_has_expired : bool;
}.

#[global] Instance AgentVersionOld_serde : Serde AgentVersionOld := {|
  to_value x :=
    Object
      [("platform"%string, to_value (Serde := Platform_serde) (AgentVersionOld_platform x));
       ("version"%string, to_value (Serde := Serde_string) (AgentVersionOld_version x));
       ("has_expired"%string, to_value (Serde := Serde_bool) (AgentVersionOld_has_expired x))];
  from_value v :=
    entries ← entries_of v;
    platform' ← field Platform_serde "platform" entries;
    version' ← field Serde_string "version" entries;
    has_expired' ← field Serde_bool "has_expired" entries;
    Some {| AgentVersionOld_platform := platform';
            AgentVersionOld_version := version';
            AgentVersionOld_has_expired := has_expired' |} |}.

#[global] Instance AgentVersionOld_laws : SerdeLaws AgentVersionOld (λ _, True).
Proof. serde_struct. Qed.

Record PlayitAgentVersion : Type := {
  PlayitAgentVersion_version : AgentVersionOld;
  PlayitAgentVersion_proto_version : Z;
}.

#[global] Instance PlayitAgentVersion_serde : Serde PlayitAgentVersion := {|
  to_value x :=
    Object
      [("version"%string, to_value (Serde := AgentVersionOld_serde) (PlayitAgentVersion_version x));
       ("proto_version"%string, to_value (Serde := (Serde_uint 64)) (PlayitAgentVersion_proto_version x))];
  from_value v :=
    entries ← entries_of v;
    version' ← field AgentVersionOld_serde "version" entries;
    proto_version' ← field (Serde_uint 64) "proto_version" entries;
    Some {| PlayitAgentVersion_version := version';
            PlayitAgentVersion_proto_version := proto_version' |} |}.

Definition PlayitAgentVersion_wf (x : PlayitAgentVersion) : Prop :=
  (uint 64) (PlayitAgentVersion_proto_version x).

#[global] Instance PlayitAgentVersion_laws : SerdeLaws PlayitAgentVersion PlayitAgentVersion_wf.
Proof. serde_struct. Qed.

Record AgentVersion : Type := {
  AgentVersion_variant_id : Uuid;
  AgentVersion_version_major : Z;
  AgentVersion_version_minor : Z;
  AgentVersion_version_patch : Z;
}.

#[global] Instance AgentVersion_serde : Serde AgentVersion := {|
  to_value x :=
    Object
      [("variant_id"%string, to_value (Serde := (Serde_text uuid_text)) (AgentVersion_variant_id x));
       ("version_major"%string, to_value (Serde := (Serde_uint 32)) (AgentVersion_version_major x));
       ("version_minor"%string, to_value (Serde := (Serde_uint 32)) (AgentVersion_version_minor x));
       ("version_patch"%string, to_value (Serde := (Serde_uint 32)) (AgentVersion_version_patch x))];
  from_value v :=
    entries ← entries_of v;
    variant_id' ← field (Serde_text uuid_text) "variant_id" entries;
    version_major' ← field (Serde_uint 32) "version_major" entries;
    version_minor' ← field (Serde_uint 32) "version_minor" entries;
    version_patch' ← field (Serde_uint 32) "version_patch" entries;
    Some {| AgentVersion_variant_id := variant_id';
            AgentVersion_version_major := version_major';
            AgentVersion_version_minor := version_minor';
            AgentVersion_version_patch := version_patch' |} |}.

Definition AgentVersion_wf (x : AgentVersion) : Prop :=
  (uint 128) (AgentVersion_variant_id x) ∧
  (uint 32) (AgentVersion_version_major x) ∧
  (uint 32) (AgentVersion_version_minor x) ∧
  (uint 32) (AgentVersion_version_patch x).

#[global] Instance AgentVersion_laws : SerdeLaws AgentVersion AgentVersion_wf.
Proof. serde_struct. Qed.

Record ReqProtoRegister : Type := {
  ReqProtoRegister_agent_version : option PlayitAgentVersion;
  ReqProtoRegister_proto_version : Z;
  ReqProtoRegister_version : AgentVersion;
  ReqProtoRegister_platform : Platform;
  ReqProtoRegister_client_addr : SocketAddr;
  ReqProtoRegister_tunnel_addr : SocketAddr;
}.

#[global] Instance ReqProtoRegister_serde : Serde ReqProtoRegister := {|
  to_value x :=
    Object
      [("agent_version"%string, to_value (Serde := (@Serde_option _ PlayitAgentVersion_serde)) (ReqProtoRegister_agent_version x));
       ("proto_version"%string, to_value (Serde := (Serde_uint 64)) (ReqProtoRegister_proto_version x));
       ("version"%string, to_value (Serde := AgentVersion_serde) (ReqProtoRegister_version x));
       ("platform"%string, to_value (Serde := Platform_serde) (ReqProtoRegister_platform x));
       ("client_addr"%string, to_value (Serde := (Serde_text sock_text)) (ReqProtoRegister_client_addr x));
       ("tunnel_addr"%string, to_value (Serde := (Serde_text sock_text)) (ReqProtoRegister_tunnel_addr x))];
  from_value v :=
    entries ← entries_of v;
    agent_version' ← field_or (@Serde_option _ PlayitAgentVersion_serde) None "agent_version" entries;
    proto_version' ← field (Serde_uint 64) "proto_version" entries;
    version' ← field AgentVersion_serde "version" entries;
    platform' ← field Platform_serde "platform" entries;
    client_addr' ← field (Serde_text sock_text) "client_addr" entries;
    tunnel_addr' ← field (Serde_text sock_text) "tunnel_addr" entries;
    Some {| ReqProtoRegister_agent_version := agent_version';
            ReqProtoRegister_proto_version := proto_version';
            ReqProtoRegister_version := version';
            ReqProtoRegister_platform := platform';
            ReqProtoRegister_client_addr := client_addr';
            ReqProtoRegister_tunnel_addr := tunnel_addr' |} |}.

Definition ReqProtoRegister_wf (x : ReqProtoRegister) : Prop :=
  (from_option PlayitAgentVersion_wf True) (ReqProtoRegister_agent_version x) ∧
  (uint 64) (ReqProtoRegister_proto_version x) ∧
  AgentVersion_wf (ReqProtoRegister_version x) ∧
  SocketAddr_wf (ReqProtoRegister_client_addr x) ∧
  SocketAddr_wf (ReqProtoRegister_tunnel_addr x).

#[global] Instance ReqProtoRegister_laws : SerdeLaws ReqProtoRegister ReqProtoRegister_wf.
Proof. serde_struct. Qed.

Record SignedAgentKey : Type := {
  SignedAgentKey_key : string;
}.

#[global] Instance SignedAgentKey_serde : Serde SignedAgentKey := {|
  to_value x :=
    Object
      [("key"%string, to_value (Serde := Serde_string) (SignedAgentKey_key x))];
  from_value v :=
    entries ← entries_of v;
    key' ← field Serde_string "key" entries;
    Some {| SignedAgentKey_key := key' |} |}.

#[global] Instance SignedAgentKey_laws : SerdeLaws SignedAgentKey (λ _, True).
Proof. serde_struct. Qed.

Inductive ProtoRegisterError : Set :=
  | ProtoRegisterError_UnknownPlayitVersion
  | ProtoRegisterError_DisabledByUser
  | ProtoRegisterError_AgentDisabledOverLimit
  | ProtoRegisterError_AccountBanned.

Definition ProtoRegisterError_name (x : ProtoRegisterError) : string :=
  match x with
  | ProtoRegisterError_UnknownPlayitVersion => "UnknownPlayitVersion"
  | ProtoRegisterError_DisabledByUser => "DisabledByUser"
  | ProtoRegisterError_AgentDisabledOverLimit => "AgentDisabledOverLimit"
  | ProtoRegisterError_AccountBanned => "AccountBanned"
  end.

#[global] Instance ProtoRegisterError_serde : Serde ProtoRegisterError :=
  Serde_unit_enum ProtoRegisterError_name
    [(ProtoRegisterError_name ProtoRegisterError_UnknownPlayitVersion, ProtoRegisterError_UnknownPlayitVersion);
     (ProtoRegisterError_name ProtoRegisterError_DisabledByUser, ProtoRegisterError_DisabledByUser);
     (ProtoRegisterError_name ProtoRegisterError_AgentDisabledOverLimit, ProtoRegisterError_AgentDisabledOverLimit);
     (ProtoRegisterError_name ProtoRegisterError_AccountBanned, ProtoRegisterError_AccountBanned)].

#[global] Instance ProtoRegisterError_laws : SerdeLaws ProtoRegisterError (λ _, True).
Proof. apply unit_enum_laws. by intros []. Qed.

Record ReqChargeGet : Type := {
  ReqChargeGet_reference_code : string;
}.

#[global] Instance ReqChargeGet_serde : Serde ReqChargeGet := {|
  to_value x :=
    Object
      [("reference_code"%string, to_value (Serde := Serde_string) (ReqChargeGet_reference_code x))];
  from_value v :=
    entries ← entries_of v;
    reference_code' ← field Serde_string "reference_code" entries;
    Some {| ReqChargeGet_reference_code := reference_code' |} |}.

#[global] Instance ReqChargeGet_laws : SerdeLaws ReqChargeGet (λ _, True).
Proof. serde_struct. Qed.

Inductive InvoiceType : Set :=
  | InvoiceType_Subscription
  | InvoiceType_StartSubscription
  | InvoiceType_StripeSubscription.

Definition InvoiceType_name (x : InvoiceType) : string :=
  match x with
  | InvoiceType_Subscription => "Subscription"
  | InvoiceType_StartSubscription => "StartSubscription"
  | InvoiceType_StripeSubscription => "StripeSubscription"
  end.

#[global] Instance InvoiceType_serde : Serde InvoiceType :=
  Serde_unit_enum InvoiceType_name
    [(InvoiceType_name InvoiceType_Subscription, InvoiceType_Subscription);
     (InvoiceType_name InvoiceType_StartSubscription, InvoiceType_StartSubscription);
     (InvoiceType_name InvoiceType_StripeSubscription, InvoiceType_StripeSubscription)].

#[global] Instance InvoiceType_laws : SerdeLaws InvoiceType (λ _, True).
Proof. apply unit_enum_laws. by intros []. Qed.

Inductive InvoiceStatus : Set :=
  | InvoiceStatus_Draft
  | InvoiceStatus_Open
  | InvoiceStatus_Paid
  | InvoiceStatus_Void
  | InvoiceStatus_Uncollectible.

Definition InvoiceStatus_name (x : InvoiceStatus) : string :=
  match x with
  | InvoiceStatus_Draft => "draft"
  | InvoiceStatus_Open => "open"
  | InvoiceStatus_Paid => "paid"
  | InvoiceStatus_Void => "void"
  | InvoiceStatus_Uncollectible => "uncollectible"
  end.

#[global] Instance InvoiceStatus_serde : Serde InvoiceStatus :=
  Serde_unit_enum InvoiceStatus_name
    [(InvoiceStatus_name InvoiceStatus_Draft, InvoiceStatus_Draft);
     (InvoiceStatus_name InvoiceStatus_Open, InvoiceStatus_Open);
     (InvoiceStatus_name InvoiceStatus_Paid, InvoiceStatus_Paid);
     (InvoiceStatus_name InvoiceStatus_Void, InvoiceStatus_Void);
     (InvoiceStatus_name InvoiceStatus_Uncollectible, InvoiceStatus_Uncollectible)].

#[global] Instance InvoiceStatus_laws : SerdeLaws InvoiceStatus (λ _, True).
Proof. apply unit_enum_laws. by intros []. Qed.

Inductive SubProductType : Set :=
  | SubProductType_PlayitPremium
  | SubProductType_PlayitPremiumTrial
  | SubProductType_DedicatedIp
  | SubProductType_UdpPorts
  | SubProductType_TcpPorts
  | SubProductType_BothPorts
  | SubProductType_CustomDomain
  | SubProductType_DedicatedPortAlloc.

Definition SubProductType_name (x : SubProductType) : string :=
  match x with
  | SubProductType_PlayitPremium => "playit-premium"
  | SubProductType_PlayitPremiumTrial => "playit-premium-trial"
  | SubProductType_DedicatedIp => "dedicated-ip"
  | SubProductType_UdpPorts => "udp-ports"
  | SubProductType_TcpPorts => "tcp-ports"
  | SubProductType_BothPorts => "both-ports"
  | SubProductType_CustomDomain => "custom-domain"
  | SubProductType_DedicatedPortAlloc => "dedicated-port-alloc"
  end.

#[global] Instance SubProductType_serde : Serde SubProductType :=
  Serde_unit_enum SubProductType_name
    [(SubProductType_name SubProductType_PlayitPremium, SubProductType_PlayitPremium);
     (SubProductType_name SubProductType_PlayitPremiumTrial, SubProductType_PlayitPremiumTrial);
     (SubProductType_name SubProductType_DedicatedIp, SubProductType_DedicatedIp);
     (SubProductType_name SubProductType_UdpPorts, SubProductType_UdpPorts);
     (SubProductType_name SubProductType_TcpPorts, SubProductType_TcpPorts);
     (SubProductType_name SubProductType_BothPorts, SubProductType_BothPorts);
     (SubProductType_name SubProductType_CustomDomain, SubProductType_CustomDomain);
     (SubProductType_name SubProductType_DedicatedPortAlloc, SubProductType_DedicatedPortAlloc)].

#[global] Instance SubProductType_laws : SerdeLaws SubProductType (λ _, True).
Proof. apply unit_enum_laws. by intros []. Qed.

Record ChargeDetailsItem : Type := {
  ChargeDetailsItem_product : SubProductType;
  ChargeDetailsItem_months : Z;
  ChargeDetailsItem_total_cost : string;
}.

#[global] Instance ChargeDetailsItem_serde : Serde ChargeDetailsItem := {|
  to_value x :=
    Object
      [("product"%string, to_value (Serde := SubProductType_serde) (ChargeDetailsItem_product x));
       ("months"%string, to_value (Serde := (Serde_uint 32)) (ChargeDetailsItem_months x));
       ("total_cost"%string, to_value (Serde := Serde_string) (ChargeDetailsItem_total_cost x))];
  from_value v :=
    entries ← entries_of v;
    product' ← field SubProductType_serde "product" entries;
    months' ← field (Serde_uint 32) "months" entries;
    total_cost' ← field Serde_string "total_cost" entries;
    Some {| ChargeDetailsItem_product := product';
            ChargeDetailsItem_months := months';
            ChargeDetailsItem_total_cost := total_cost' |} |}.

Definition ChargeDetailsItem_wf (x : ChargeDetailsItem) : Prop :=
  (uint 32) (ChargeDetailsItem_months x).

#[global] Instance ChargeDetailsItem_laws : SerdeLaws ChargeDetailsItem ChargeDetailsItem_wf.
Proof. serde_struct. Qed.

Inductive RefundRequestReason : Set :=
  | RefundRequestReason_Fraud
  | RefundRequestReason_NotSatisfied
  | RefundRequestReason_IssuerFraudWarning.

Definition RefundRequestReason_name (x : RefundRequestReason) : string :=
  match x with
  | RefundRequestReason_Fraud => "fraud"
  | RefundRequestReason_NotSatisfied => "not-satisfied"
  | RefundRequestReason_IssuerFraudWarning => "issuer-fraud-warning"
  end.

#[global] Instance RefundRequestReason_serde : Serde RefundRequestReason :=
  Serde_unit_enum RefundRequestReason_name
    [(RefundRequestReason_name RefundRequestReason_Fraud, RefundRequestReason_Fraud);
     (RefundRequestReason_name RefundRequestReason_NotSatisfied, RefundRequestReason_NotSatisfied);
     (RefundRequestReason_name RefundRequestReason_IssuerFraudWarning, RefundRequestReason_IssuerFraudWarning)].

#[global] Instance RefundRequestReason_laws : SerdeLaws RefundRequestReason (λ _, True).
Proof. apply unit_enum_laws. by intros []. Qed.

Record PendingRefundRequest : Type := {
  PendingRefundRequest_created_at : DateTime;
  PendingRefundRequest_reason : RefundRequestReason;
}.

#[global] Instance PendingRefundRequest_serde : Serde PendingRefundRequest := {|
  to_value x :=
    Object
      [("created_at"%string, to_value (Serde := (Serde_text datetime_text)) (PendingRefundRequest_created_at x));
       ("reason"%string, to_value (Serde := RefundRequestReason_serde) (PendingRefundRequest_reason x))];
  from_value v :=
    entries ← entries_of v;
    created_at' ← field (Serde_text datetime_text) "created_at" entries;
    reason' ← field RefundRequestReason_serde "reason" entries;
    Some {| PendingRefundRequest_created_at := created_at';
            PendingRefundRequest_reason := reason' |} |}.

Definition PendingRefundRequest_wf (x : PendingRefundRequest) : Prop :=
  DateTime_wf (PendingRefundRequest_created_at x).

#[global] Instance PendingRefundRequest_laws : SerdeLaws PendingRefundRequest PendingRefundRequest_wf.
Proof. serde_struct. Qed.

Record RefundApplied : Type := {
  RefundApplied_created_at : DateTime;
  RefundApplied_refund_amount : string;
}.

#[global] Instance RefundApplied_serde : Serde RefundApplied := {|
  to_value x :=
    Object
      [("created_at"%string, to_value (Serde := (Serde_text datetime_text)) (RefundApplied_created_at x));
       ("refund_amount"%string, to_value (Serde := Serde_string) (RefundApplied_refund_amount x))];
  from_value v :=
    entries ← entries_of v;
    created_at' ← field (Serde_text datetime_text) "created_at" entries;
    refund_amount' ← field Serde_string "refund_amount" entries;
    Some {| RefundApplied_created_at := created_at';
            RefundApplied_refund_amount := refund_amount' |} |}.

Definition RefundApplied_wf (x : RefundApplied) : Prop :=
  DateTime_wf (RefundApplied_created_at x).

#[global] Instance RefundApplied_laws : SerdeLaws RefundApplied RefundApplied_wf.
Proof. serde_struct. Qed.

Record DisputeCreated : Type := {
  DisputeCreated_created_at : DateTime;
}.

#[global] Instance DisputeCreated_serde : Serde DisputeCreated := {|
  to_value x :=
    Object
      [("created_at"%string, to_value (Serde := (Serde_text datetime_text)) (DisputeCreated_created_at x))];
  from_value v :=
    entries ← entries_of v;
    created_at' ← field (Serde_text datetime_text) "created_at" entries;
    Some {| DisputeCreated_created_at := created_at' |} |}.

Definition DisputeCreated_wf (x : DisputeCreated) : Prop :=
  DateTime_wf (DisputeCreated_created_at x).

#[global] Instance DisputeCreated_laws : SerdeLaws DisputeCreated DisputeCreated_wf.
Proof. serde_struct. Qed.

Inductive RefundStatus : Type :=
  | RefundStatus_Pending (x : PendingRefundRequest)
  | RefundStatus_Applied (x : RefundApplied)
  | RefundStatus_DisputeCreated (x : DisputeCreated).

#[global] Instance RefundStatus_serde : Serde RefundStatus := {|
  to_value x :=
    match x with
    | RefundStatus_Pending x => adjacent "type" "details" "Pending" (Some (to_value (Serde := PendingRefundRequest_serde) x))
    | RefundStatus_Applied x => adjacent "type" "details" "Applied" (Some (to_value (Serde := RefundApplied_serde) x))
    | RefundStatus_DisputeCreated x => adjacent "type" "details" "DisputeCreated" (Some (to_value (Serde := DisputeCreated_serde) x))
    end;
  from_value v :=
    '(name, data) ← adjacent_parts "type" "details" v;
    variant ← find_variant name
      [("Pending", newtype_variant PendingRefundRequest_serde RefundStatus_Pending);
       ("Applied", newtype_variant RefundApplied_serde RefundStatus_Applied);
       ("DisputeCreated", newtype_variant DisputeCreated_serde RefundStatus_DisputeCreated)]%string;
    variant data |}.

Definition RefundStatus_wf (y : RefundStatus) : Prop :=
  match y with
  | RefundStatus_Pending x => PendingRefundRequest_wf x
  | RefundStatus_Applied x => RefundApplied_wf x
  | RefundStatus_DisputeCreated x => DisputeCreated_wf x
  end.

#[global] Instance RefundStatus_laws : SerdeLaws RefundStatus RefundStatus_wf.
Proof. serde_enum. Qed.

Record ChargeDetails : Type := {
  ChargeDetails_reference_code : string;
  ChargeDetails_created_at : DateTime;
  ChargeDetails_invoice_type : InvoiceType;
  ChargeDetails_invoice_status : InvoiceStatus;
  ChargeDetails_total_cost : string;
  ChargeDetails_items : list ChargeDetailsItem;
  ChargeDetails_refund : option RefundStatus;
}.

#[global] Instance ChargeDetails_serde : Serde ChargeDetails := {|
  to_value x :=
    Object
      [("reference_code"%string, to_value (Serde := Serde_string) (ChargeDetails_reference_code x));
       ("created_at"%string, to_value (Serde := (Serde_text datetime_text)) (ChargeDetails_created_at x));
       ("invoice_type"%string, to_value (Serde := InvoiceType_serde) (ChargeDetails_invoice_type x));
       ("invoice_status"%string, to_value (Serde := InvoiceStatus_serde) (ChargeDetails_invoice_status x));
       ("total_cost"%string, to_value (Serde := Serde_string) (ChargeDetails_total_cost x));
       ("items"%string, to_value (Serde := (@Serde_list _ ChargeDetailsItem_serde)) (ChargeDetails_items x));
       ("refund"%string, to_value (Serde := (@Serde_option _ RefundStatus_serde)) (ChargeDetails_refund x))];
  from_value v :=
    entries ← entries_of v;
    reference_code' ← field Serde_string "reference_code" entries;
    created_at' ← field (Serde_text datetime_text) "created_at" entries;
    invoice_type' ← field InvoiceType_serde "invoice_type" entries;
    invoice_status' ← field InvoiceStatus_serde "invoice_status" entries;
    total_cost' ← field Serde_string "total_cost" entries;
    items' ← field (@Serde_list _ ChargeDetailsItem_serde) "items" entries;
    refund' ← field_or (@Serde_option _ RefundStatus_serde) None "refund" entries;
    Some {| ChargeDetails_reference_code := reference_code';
            ChargeDetails_created_at := created_at';
            ChargeDetails_invoice_type := invoice_type';
            ChargeDetails_invoice_status := invoice_status';
            ChargeDetails_total_cost := total_cost';
            ChargeDetails_items := items';
            ChargeDetails_refund := refund' |} |}.

Definition ChargeDetails_wf (x : ChargeDetails) : Prop :=
  DateTime_wf (ChargeDetails_created_at x) ∧
  (Forall ChargeDetailsItem_wf) (ChargeDetails_items x) ∧
  (from_option RefundStatus_wf True) (ChargeDetails_refund x).

#[global] Instance ChargeDetails_laws : SerdeLaws ChargeDetails ChargeDetails_wf.
Proof. serde_struct. Qed.

Inductive ChargeGetError : Set :=
  | ChargeGetError_ChargeNotFound.

Definition ChargeGetError_name (x : ChargeGetError) : string :=
  match x with
  | ChargeGetError_ChargeNotFound => "ChargeNotFound"
  end.

#[global] Instance ChargeGetError_serde : Serde ChargeGetError :=
  Serde_unit_enum ChargeGetError_name
    [(ChargeGetError_name ChargeGetError_ChargeNotFound, ChargeGetError_ChargeNotFound)].

#[global] Instance ChargeGetError_laws : SerdeLaws ChargeGetError (λ _, True).
Proof. apply unit_enum_laws. by intros []. Qed.

Record ReqChargeRefund : Type := {
  ReqChargeRefund_reference_code : string;
  ReqChargeRefund_reason : RefundRequestReason;
  ReqChargeRefund_email : option string;
  ReqChargeRefund_refund_message : option string;
}.

#[global] Instance ReqChargeRefund_serde : Serde ReqChargeRefund := {|
  to_value x :=
    Object
      [("reference_code"%string, to_value (Serde := Serde_string) (ReqChargeRefund_reference_code x));
       ("reason"%string, to_value (Serde := RefundRequestReason_serde) (ReqChargeRefund_reason x));
       ("email"%string, to_value (Serde := (@Serde_option _ Serde_string)) (ReqChargeRefund_email x));
       ("refund_message"%string, to_value (Serde := (@Serde_option _ Serde_string)) (ReqChargeRefund_refund_message x))];
  from_value v :=
    entries ← entries_of v;
    reference_code' ← field Serde_string "reference_code" entries;
    reason' ← field RefundRequestReason_serde "reason" entries;
    email' ← field_or (@Serde_option _ Serde_string) None "email" entries;
    refund_message' ← field_or (@Serde_option _ Serde_string) None "refund_message" entries;
    Some {| ReqChargeRefund_reference_code := reference_code';
            ReqChargeRefund_reason := reason';
            ReqChargeRefund_email := email';
            ReqChargeRefund_refund_message := refund_message' |} |}.

#[global] Instance ReqChargeRefund_laws : SerdeLaws ReqChargeRefund (λ _, True).
Proof. serde_struct. Qed.

Inductive ChargeRefundError : Set :=
  | ChargeRefundError_ChargeNotFound
  | ChargeRefundError_MessageTooLarge
  | ChargeRefundError_UnauthorizedReason.

Definition ChargeRefundError_name (x : ChargeRefundError) : string :=
  match x with
  | ChargeRefundError_ChargeNotFound => "ChargeNotFound"
  | ChargeRefundError_MessageTooLarge => "MessageTooLarge"
  | ChargeRefundError_UnauthorizedReason => "UnauthorizedReason"
  end.

#[global] Instance ChargeRefundError_serde : Serde ChargeRefundError :=
  Serde_unit_enum ChargeRefundError_name
    [(ChargeRefundError_name ChargeRefundError_ChargeNotFound, ChargeRefundError_ChargeNotFound);
     (ChargeRefundError_name ChargeRefundError_MessageTooLarge, ChargeRefundError_MessageTooLarge);
     (ChargeRefundError_name ChargeRefundError_UnauthorizedReason, ChargeRefundError_UnauthorizedReason)].

#[global] Instance ChargeRefundError_laws : SerdeLaws ChargeRefundError (λ _, True).
Proof. apply unit_enum_laws. by intros []. Qed.

Record ReqQueryRegion : Type := {
  ReqQueryRegion_limit_region : option PlayitNetwork;
}.

#[global] Instance ReqQueryRegion_serde : Serde ReqQueryRegion := {|
  to_value x :=
    Object
      [("limit_region"%string, to_value (Serde := (@Serde_option _ PlayitNetwork_serde)) (ReqQueryRegion_limit_region x))];
  from_value v :=
    entries ← entries_of v;
    limit_region' ← field_or (@Serde_option _ PlayitNetwork_serde) None "limit_region" entries;
    Some {| ReqQueryRegion_limit_region := limit_region' |} |}.

#[global] Instance ReqQueryRegion_laws : SerdeLaws ReqQueryRegion (λ _, True).
Proof. serde_struct. Qed.

Record QueryRegion : Type := {
  QueryRegion_region : PlayitNetwork;
  QueryRegion_pop : PlayitPop;
}.

#[global] Instance QueryRegion_serde : Serde QueryRegion := {|
  to_value x :=
    Object
      [("region"%string, to_value (Serde := PlayitNetwork_serde) (QueryRegion_region x));
       ("pop"%string, to_value (Serde := PlayitPop_serde) (QueryRegion_pop x))];
  from_value v :=
    entries ← entries_of v;
    region' ← field PlayitNetwork_serde "region" entries;
    pop' ← field PlayitPop_serde "pop" entries;
    Some {| QueryRegion_region := region';
            QueryRegion_pop := pop' |} |}.

#[global] Instance QueryRegion_laws : SerdeLaws QueryRegion (λ _, True).
Proof. serde_struct. Qed.

Inductive QueryRegionError : Set :=
  | QueryRegionError_FailedToDetermineLocation.

Definition QueryRegionError_name (x : QueryRegionError) : string :=
  match x with
  | QueryRegionError_FailedToDetermineLocation => "FailedToDetermineLocation"
  end.

#[global] Instance QueryRegionError_serde : Serde QueryRegionError :=
  Serde_unit_enum QueryRegionError_name
    [(QueryRegionError_name QueryRegionError_FailedToDetermineLocation, QueryRegionError_FailedToDetermineLocation)].

#[global] Instance QueryRegionError_laws : SerdeLaws QueryRegionError (λ _, True).
Proof. apply unit_enum_laws. by intros []. Qed.

Inductive PortAllocationStatus : Set :=
  | PortAllocationStatus_Pending
  | PortAllocationStatus_RanOutOfPorts
  | PortAllocationStatus_PublicPortNotAvailable
  | PortAllocationStatus_NoPortsAvailableOnIp
  | PortAllocationStatus_AccountPortLimitReached
  | PortAllocationStatus_OtherCatchAll.

Definition PortAllocationStatus_name (x : PortAllocationStatus) : string :=
  match x with
  | PortAllocationStatus_Pending => "Pending"
  | PortAllocationStatus_RanOutOfPorts => "RanOutOfPorts"
  | PortAllocationStatus_PublicPortNotAvailable => "PublicPortNotAvailable"
  | PortAllocationStatus_NoPortsAvailableOnIp => "NoPortsAvailableOnIp"
  | PortAllocationStatus_AccountPortLimitReached => "AccountPortLimitReached"
  | PortAllocationStatus_OtherCatchAll => "Other#catch_all"
  end.

#[global] Instance PortAllocationStatus_serde : Serde PortAllocationStatus :=
  Serde_unit_enum PortAllocationStatus_name
    [(PortAllocationStatus_name PortAllocationStatus_Pending, PortAllocationStatus_Pending);
     (PortAllocationStatus_name PortAllocationStatus_RanOutOfPorts, PortAllocationStatus_RanOutOfPorts);
     (PortAllocationStatus_name PortAllocationStatus_PublicPortNotAvailable, PortAllocationStatus_PublicPortNotAvailable);
     (PortAllocationStatus_name PortAllocationStatus_NoPortsAvailableOnIp, PortAllocationStatus_NoPortsAvailableOnIp);
     (PortAllocationStatus_name PortAllocationStatus_AccountPortLimitReached, PortAllocationStatus_AccountPortLimitReached);
     (PortAllocationStatus_name PortAllocationStatus_OtherCatchAll, PortAllocationStatus_OtherCatchAll)].

#[global] Instance PortAllocationStatus_laws : SerdeLaws PortAllocationStatus (λ _, True).
Proof. apply unit_enum_laws. by intros []. Qed.

Record UseHostname : Type := {
  UseHostname_hostname_id : Uuid;
}.

#[global] Instance UseHostname_serde : Serde UseHostname := {|
  to_value x :=
    Object
      [("hostname_id"%string, to_value (Serde := (Serde_text uuid_text)) (UseHostname_hostname_id x))];
  from_value v :=
    entries ← entries_of v;
    hostname_id' ← field (Serde_text uuid_text) "hostname_id" entries;
    Some {| UseHostname_hostname_id := hostname_id' |} |}.

Definition UseHostname_wf (x : UseHostname) : Prop :=
  (uint 128) (UseHostname_hostname_id x).

#[global] Instance UseHostname_laws : SerdeLaws UseHostname UseHostname_wf.
Proof. serde_struct. Qed.

Record LoginCredentials : Type := {
  LoginCredentials_email : string;
  LoginCredentials_password : string;
}.

#[global] Instance LoginCredentials_serde : Serde LoginCredentials := {|
  to_value x :=
    Object
      [("email"%string, to_value (Serde := Serde_string) (LoginCredentials_email x));
       ("password"%string, to_value (Serde := Serde_string) (LoginCredentials_password x))];
  from_value v :=
    entries ← entries_of v;
    email' ← field Serde_string "email" entries;
    password' ← field Serde_string "password" entries;
    Some {| LoginCredentials_email := email';
            LoginCredentials_password := password' |} |}.

#[global] Instance LoginCredentials_laws : SerdeLaws LoginCredentials (λ _, True).
Proof. serde_struct. Qed.

End api.
