(* ===== verification/ApiClient.v ===== *)
(** * The typed API client (api_client/src/api.rs, lib.rs)

    Every call of the API: its path, its data and whether it may be repeated;
    and what the caller gets for the answer. *)

From S2P Require Import Prelude Text Net Json OriginLookup Api ApiTunnels ApiAccount HttpClient.
#[local] Open Scope string_scope.
#[local] Open Scope list_scope.

(** ** Results *)

Inductive ApiError (F C : Type) : Type :=
  | ErrFail (fail : F)
  | ErrApi (e : ApiResponseError)
  | ErrClient (e : C).
Arguments ErrFail {F C} fail.
Arguments ErrApi {F C} e.
Arguments ErrClient {F C} e.

Inductive ApiErrorNoFail (C : Type) : Type :=
  | NoFailUnexpectedFail
  | NoFailApi (e : ApiResponseError)
  | NoFailClient (e : C).
Arguments NoFailUnexpectedFail {C}.
Arguments NoFailApi {C} e.
Arguments NoFailClient {C} e.

Definition unwrap {A F C} (res : C + ApiResult A F) : ApiError F C + A :=
  match res with
  | inr (ApiSuccess v) => inr v
  | inr (ApiFailed fail) => inl (ErrFail fail)
  | inr (ApiErrored e) => inl (ErrApi e)
  | inl e => inl (ErrClient e)
  end.

(** For the calls whose failures are of type unit. *)
Definition unwrap_no_fail {A F C} (res : C + ApiResult A F) : ApiErrorNoFail C + A :=
  match res with
  | inr (ApiSuccess v) => inr v
  | inr (ApiFailed _) => inl NoFailUnexpectedFail
  | inr (ApiErrored e) => inl (NoFailApi e)
  | inl e => inl (NoFailClient e)
  end.

(** ** Building a client (lib.rs) *)

Record PlayitApiBuilder : Type := { pb_api_base : string; pb_auth : AuthState }.

Definition builder_new (api_base : string) : PlayitApiBuilder :=
  {| pb_api_base := api_base; pb_auth := Anonymous |}.

Definition builder_auth (b : PlayitApiBuilder) (auth : AuthState) : PlayitApiBuilder :=
  {| pb_api_base := pb_api_base b; pb_auth := auth |}.

Definition builder_agent_key (b : PlayitApiBuilder) (secret : string) : PlayitApiBuilder :=
  builder_auth b (AuthState_agent_key secret).

Definition builder_bearer (b : PlayitApiBuilder) (token : string) : PlayitApiBuilder :=
  builder_auth b (Bearer token).

Definition builder_build (b : PlayitApiBuilder) : HttpClient :=
  HttpClient_new_with_auth (pb_api_base b) (pb_auth b).

Definition PlayitApi_create (api_base : string) (secret : option string) : HttpClient :=
  match secret with
  | Some secret => builder_build (builder_agent_key (builder_new api_base) secret)
  | None => builder_build (builder_new api_base)
  end.

Definition PlayitApi_from_bearer (api_base token : string) : HttpClient :=
  builder_build (builder_bearer (builder_new api_base) token).

Definition PortType_matches (t port : PortType) : bool :=
  match t, port with
  | PortTypeBoth, _ | PortTypeTcp, PortTypeTcp | PortTypeUdp, PortTypeUdp => true
  | _, _ => false
  end.

Definition PortRange_contains (r : ApiPortRange) (port : Z) : bool :=
  (ApiPortRange_from r <=? port)%Z && (port <? ApiPortRange_to r)%Z.

(** ** Calls *)

(** A call: where it is posted, whether it may be repeated, and its data. A
    call that cannot fail has the failures of type unit. *)
Record Endpoint : Type := {
  ep_path : string;
  ep_policy : RetryPolicy;
  ep_Req : Type;
  ep_Res : Type;
  ep_Fail : Type;
  ep_req : Serde ep_Req;
  ep_res : Serde ep_Res;
  ep_fail : Serde ep_Fail;
  ep_req_wf : ep_Req → Prop;
  ep_res_wf : ep_Res → Prop;
  ep_fail_wf : ep_Fail → Prop;
}.

Section invoke.
Context {FM : Formats} {JT : JsonText} {T : Transport JT}.

(** [self.client.call_with_policy(caller, path, req, policy)], or
    [self.client.call(caller, path, req)] for a call that is not repeated. *)
Definition exchange_call (e : Endpoint) (c : HttpClient) (req : ep_Req e) (t : traffic JT) :
    option (HttpClientError + ApiResult (ep_Res e) (ep_Fail e)) * traffic JT :=
  match ep_policy e with
  | RetryNever => call (ep_req e) (ep_res e) (ep_fail e) c (ep_path e) req t
  | RetryTransient => call_with_policy (ep_req e) (ep_res e) (ep_fail e) c (ep_path e) req RetryTransient t
  end.

Definition invoke (e : Endpoint) (c : HttpClient) (req : ep_Req e) (t : traffic JT) :
    option (ApiError (ep_Fail e) HttpClientError + ep_Res e) * traffic JT :=
  let '(r, t) := exchange_call e c req t in (unwrap <$> r, t).

Definition invoke_no_fail (e : Endpoint) (c : HttpClient) (req : ep_Req e) (t : traffic JT) :
    option (ApiErrorNoFail HttpClientError + ep_Res e) * traffic JT :=
  let '(r, t) := exchange_call e c req t in (unwrap_no_fail <$> r, t).
End invoke.

Section calls.
Context {FM : Formats}.

Definition v1_tunnels_list : Endpoint := {|
  ep_path := "/v1/tunnels/list"; ep_policy := RetryTransient;
  ep_Req := ReqTunnelsListV1; ep_Res := AccountTunnelsV1; ep_Fail := ();
  ep_req := ReqTunnelsListV1_serde; ep_res := AccountTunnelsV1_serde; ep_fail := Serde_unit;
  ep_req_wf := (λ _, True); ep_res_wf := AccountTunnelsV1_wf; ep_fail_wf := (λ _, True) |}.

Definition v1_tunnels_create : Endpoint := {|
  ep_path := "/v1/tunnels/create"; ep_policy := RetryNever;
  ep_Req := ReqTunnelsCreateV1; ep_Res := ObjectId; ep_Fail := TunnelCreateErrorV1;
  ep_req := ReqTunnelsCreateV1_serde; ep_res := ObjectId_serde; ep_fail := TunnelCreateErrorV1_serde;
  ep_req_wf := ReqTunnelsCreateV1_wf; ep_res_wf := ObjectId_wf; ep_fail_wf := (λ _, True) |}.

Definition v1_schemas_get : Endpoint := {|
  ep_path := "/v1/schemas/get"; ep_policy := RetryTransient;
  ep_Req := ReqSchemasGetV1; ep_Res := SchemaData; ep_Fail := SchemaGetError;
  ep_req := ReqSchemasGetV1_serde; ep_res := SchemaData_serde; ep_fail := SchemaGetError_serde;
  ep_req_wf := ReqSchemasGetV1_wf; ep_res_wf := SchemaData_wf; ep_fail_wf := (λ _, True) |}.

Definition v1_tunnels_config : Endpoint := {|
  ep_path := "/v1/tunnels/config"; ep_policy := RetryNever;
  ep_Req := ReqTunnelsConfigV1; ep_Res := (); ep_Fail := TunnelConfigError;
  ep_req := ReqTunnelsConfigV1_serde; ep_res := Serde_unit; ep_fail := TunnelConfigError_serde;
  ep_req_wf := ReqTunnelsConfigV1_wf; ep_res_wf := (λ _, True); ep_fail_wf := TunnelConfigError_wf |}.

Definition v1_tunnels_propset : Endpoint := {|
  ep_path := "/v1/tunnels/propset"; ep_policy := RetryNever;
  ep_Req := ReqTunnelsPropset; ep_Res := (); ep_Fail := TunnelProxyPropSetError;
  ep_req := ReqTunnelsPropset_serde; ep_res := Serde_unit; ep_fail := TunnelProxyPropSetError_serde;
  ep_req_wf := ReqTunnelsPropset_wf; ep_res_wf := (λ _, True); ep_fail_wf := (λ _, True) |}.

Definition v1_agents_rundata : Endpoint := {|
  ep_path := "/v1/agents/rundata"; ep_policy := RetryTransient;
  ep_Req := ReqAgentsRundataV1; ep_Res := AgentRunDataV1; ep_Fail := ();
  ep_req := ReqAgentsRundataV1_serde; ep_res := AgentRunDataV1_serde; ep_fail := Serde_unit;
  ep_req_wf := (λ _, True); ep_res_wf := AgentRunDataV1_wf; ep_fail_wf := (λ _, True) |}.

Definition info_pops : Endpoint := {|
  ep_path := "/info/pops"; ep_policy := RetryTransient;
  ep_Req := ReqInfoPops; ep_Res := PlayitPops; ep_Fail := ();
  ep_req := ReqInfoPops_serde; ep_res := PlayitPops_serde; ep_fail := Serde_unit;
  ep_req_wf := (λ _, True); ep_res_wf := (λ _, True); ep_fail_wf := (λ _, True) |}.

Definition login_signin : Endpoint := {|
  ep_path := "/login/signin"; ep_policy := RetryNever;
  ep_Req := LoginCredentials; ep_Res := WebSession; ep_Fail := SigninFail;
  ep_req := LoginCredentials_serde; ep_res := WebSession_serde; ep_fail := SigninFail_serde;
  ep_req_wf := (λ _, True); ep_res_wf := WebSession_wf; ep_fail_wf := (λ _, True) |}.

Definition login_clearcookie : Endpoint := {|
  ep_path := "/login/clearcookie"; ep_policy := RetryNever;
  ep_Req := ReqLoginClearcookie; ep_Res := ClearWebSession; ep_Fail := ();
  ep_req := ReqLoginClearcookie_serde; ep_res := ClearWebSession_serde; ep_fail := Serde_unit;
  ep_req_wf := (λ _, True); ep_res_wf := (λ _, True); ep_fail_wf := (λ _, True) |}.

Definition login_create_guest : Endpoint := {|
  ep_path := "/login/create/guest"; ep_policy := RetryNever;
  ep_Req := ReqLoginCreateGuest; ep_Res := WebSession; ep_Fail := LoginCreateGuestError;
  ep_req := ReqLoginCreateGuest_serde; ep_res := WebSession_serde; ep_fail := LoginCreateGuestError_serde;
  ep_req_wf := (λ _, True); ep_res_wf := WebSession_wf; ep_fail_wf := (λ _, True) |}.

Definition login_guest : Endpoint := {|
  ep_path := "/login/guest"; ep_policy := RetryNever;
  ep_Req := ReqLoginGuest; ep_Res := WebSession; ep_Fail := GuestLoginError;
  ep_req := ReqLoginGuest_serde; ep_res := WebSession_serde; ep_fail := GuestLoginError_serde;
  ep_req_wf := (λ _, True); ep_res_wf := WebSession_wf; ep_fail_wf := (λ _, True) |}.

Definition login_reset_password : Endpoint := {|
  ep_path := "/login/reset/password"; ep_policy := RetryNever;
  ep_Req := ReqLoginResetPassword; ep_Res := WebSession; ep_Fail := PasswordResetError;
  ep_req := ReqLoginResetPassword_serde; ep_res := WebSession_serde; ep_fail := PasswordResetError_serde;
  ep_req_wf := (λ _, True); ep_res_wf := WebSession_wf; ep_fail_wf := (λ _, True) |}.

Definition login_reset_send : Endpoint := {|
  ep_path := "/login/reset/send"; ep_policy := RetryNever;
  ep_Req := ReqLoginResetSend; ep_Res := (); ep_Fail := ();
  ep_req := ReqLoginResetSend_serde; ep_res := Serde_unit; ep_fail := Serde_unit;
  ep_req_wf := (λ _, True); ep_res_wf := (λ _, True); ep_fail_wf := (λ _, True) |}.

Definition tunnels_create : Endpoint := {|
  ep_path := "/tunnels/create"; ep_policy := RetryNever;
  ep_Req := ReqTunnelsCreate; ep_Res := ObjectId; ep_Fail := TunnelCreateError;
  ep_req := ReqTunnelsCreate_serde; ep_res := ObjectId_serde; ep_fail := TunnelCreateError_serde;
  ep_req_wf := ReqTunnelsCreate_wf; ep_res_wf := ObjectId_wf; ep_fail_wf := (λ _, True) |}.

Definition tunnels_list : Endpoint := {|
  ep_path := "/tunnels/list"; ep_policy := RetryTransient;
  ep_Req := ReqTunnelsList; ep_Res := AccountTunnels; ep_Fail := ();
  ep_req := ReqTunnelsList_serde; ep_res := AccountTunnels_serde; ep_fail := Serde_unit;
  ep_req_wf := ReqTunnelsList_wf; ep_res_wf := AccountTunnels_wf; ep_fail_wf := (λ _, True) |}.

Definition tunnels_update : Endpoint := {|
  ep_path := "/tunnels/update"; ep_policy := RetryNever;
  ep_Req := ReqTunnelsUpdate; ep_Res := (); ep_Fail := UpdateError;
  ep_req := ReqTunnelsUpdate_serde; ep_res := Serde_unit; ep_fail := UpdateError_serde;
  ep_req_wf := ReqTunnelsUpdate_wf; ep_res_wf := (λ _, True); ep_fail_wf := (λ _, True) |}.

Definition tunnels_delete : Endpoint := {|
  ep_path := "/tunnels/delete"; ep_policy := RetryNever;
  ep_Req := ReqTunnelsDelete; ep_Res := (); ep_Fail := DeleteError;
  ep_req := ReqTunnelsDelete_serde; ep_res := Serde_unit; ep_fail := DeleteError_serde;
  ep_req_wf := ReqTunnelsDelete_wf; ep_res_wf := (λ _, True); ep_fail_wf := (λ _, True) |}.

Definition tunnels_rename : Endpoint := {|
  ep_path := "/tunnels/rename"; ep_policy := RetryNever;
  ep_Req := ReqTunnelsRename; ep_Res := (); ep_Fail := TunnelRenameError;
  ep_req := ReqTunnelsRename_serde; ep_res := Serde_unit; ep_fail := TunnelRenameError_serde;
  ep_req_wf := ReqTunnelsRename_wf; ep_res_wf := (λ _, True); ep_fail_wf := (λ _, True) |}.

Definition tunnels_firewall_assign : Endpoint := {|
  ep_path := "/tunnels/firewall/assign"; ep_policy := RetryNever;
  ep_Req := ReqTunnelsFirewallAssign; ep_Res := (); ep_Fail := TunnelsFirewallAssignError;
  ep_req := ReqTunnelsFirewallAssign_serde; ep_res := Serde_unit; ep_fail := TunnelsFirewallAssignError_serde;
  ep_req_wf := ReqTunnelsFirewallAssign_wf; ep_res_wf := (λ _, True); ep_fail_wf := (λ _, True) |}.

Definition tunnels_ratelimit : Endpoint := {|
  ep_path := "/tunnels/ratelimit"; ep_policy := RetryNever;
  ep_Req := ReqTunnelsRatelimit; ep_Res := (); ep_Fail := TunnelRatelimitError;
  ep_req := ReqTunnelsRatelimit_serde; ep_res := Serde_unit; ep_fail := TunnelRatelimitError_serde;
  ep_req_wf := ReqTunnelsRatelimit_wf; ep_res_wf := (λ _, True); ep_fail_wf := (λ _, True) |}.

Definition tunnels_enable : Endpoint := {|
  ep_path := "/tunnels/enable"; ep_policy := RetryNever;
  ep_Req := ReqTunnelsEnable; ep_Res := (); ep_Fail := TunnelEnableError;
  ep_req := ReqTunnelsEnable_serde; ep_res := Serde_unit; ep_fail := TunnelEnableError_serde;
  ep_req_wf := ReqTunnelsEnable_wf; ep_res_wf := (λ _, True); ep_fail_wf := (λ _, True) |}.

Definition tunnels_proxy_set : Endpoint := {|
  ep_path := "/tunnels/proxy/set"; ep_policy := RetryNever;
  ep_Req := ReqTunnelsProxySet; ep_Res := (); ep_Fail := TunnelProxySetError;
  ep_req := ReqTunnelsProxySet_serde; ep_res := Serde_unit; ep_fail := TunnelProxySetError_serde;
  ep_req_wf := ReqTunnelsProxySet_wf; ep_res_wf := (λ _, True); ep_fail_wf := (λ _, True) |}.

Definition claim_setup : Endpoint := {|
  ep_path := "/claim/setup"; ep_policy := RetryNever;
  ep_Req := ReqClaimSetup; ep_Res := ClaimSetupResponse; ep_Fail := ClaimSetupError;
  ep_req := ReqClaimSetup_serde; ep_res := ClaimSetupResponse_serde; ep_fail := ClaimSetupError_serde;
  ep_req_wf := (λ _, True); ep_res_wf := (λ _, True); ep_fail_wf := (λ _, True) |}.

Definition claim_exchange : Endpoint := {|
  ep_path := "/claim/exchange"; ep_policy := RetryNever;
  ep_Req := ReqClaimExchange; ep_Res := AgentSecretKey; ep_Fail := ClaimExchangeError;
  ep_req := ReqClaimExchange_serde; ep_res := AgentSecretKey_serde; ep_fail := ClaimExchangeError_serde;
  ep_req_wf := (λ _, True); ep_res_wf := (λ _, True); ep_fail_wf := (λ _, True) |}.

Definition agents_rename : Endpoint := {|
  ep_path := "/agents/rename"; ep_policy := RetryNever;
  ep_Req := ReqAgentsRename; ep_Res := (); ep_Fail := AgentRenameError;
  ep_req := ReqAgentsRename_serde; ep_res := Serde_unit; ep_fail := AgentRenameError_serde;
  ep_req_wf := ReqAgentsRename_wf; ep_res_wf := (λ _, True); ep_fail_wf := (λ _, True) |}.

Definition agents_routing_set : Endpoint := {|
  ep_path := "/agents/routing/set"; ep_policy := RetryNever;
  ep_Req := ReqAgentsRoutingSet; ep_Res := (); ep_Fail := AgentRoutingSetError;
  ep_req := ReqAgentsRoutingSet_serde; ep_res := Serde_unit; ep_fail := AgentRoutingSetError_serde;
  ep_req_wf := ReqAgentsRoutingSet_wf; ep_res_wf := (λ _, True); ep_fail_wf := (λ _, True) |}.

Definition agents_routing_get : Endpoint := {|
  ep_path := "/agents/routing/get"; ep_policy := RetryTransient;
  ep_Req := ReqAgentsRoutingGet; ep_Res := AgentRouting; ep_Fail := AgentRoutingGetError;
  ep_req := ReqAgentsRoutingGet_serde; ep_res := AgentRouting_serde; ep_fail := AgentRoutingGetError_serde;
  ep_req_wf := ReqAgentsRoutingGet_wf; ep_res_wf := AgentRouting_wf; ep_fail_wf := (λ _, True) |}.

Definition agents_rundata : Endpoint := {|
  ep_path := "/agents/rundata"; ep_policy := RetryTransient;
  ep_Req := ReqAgentsRundata; ep_Res := AgentRunData; ep_Fail := ();
  ep_req := ReqAgentsRundata_serde; ep_res := AgentRunData_serde; ep_fail := Serde_unit;
  ep_req_wf := (λ _, True); ep_res_wf := AgentRunData_wf; ep_fail_wf := (λ _, True) |}.

Definition domains_list : Endpoint := {|
  ep_path := "/domains/list"; ep_policy := RetryTransient;
  ep_Req := ReqDomainsList; ep_Res := Domains; ep_Fail := ();
  ep_req := ReqDomainsList_serde; ep_res := Domains_serde; ep_fail := Serde_unit;
  ep_req_wf := (λ _, True); ep_res_wf := Domains_wf; ep_fail_wf := (λ _, True) |}.

Definition shop_prices : Endpoint := {|
  ep_path := "/shop/prices"; ep_policy := RetryTransient;
  ep_Req := ReqShopPrices; ep_Res := ShopPrices; ep_Fail := ();
  ep_req := ReqShopPrices_serde; ep_res := ShopPrices_serde; ep_fail := Serde_unit;
  ep_req_wf := (λ _, True); ep_res_wf := ShopPrices_wf; ep_fail_wf := (λ _, True) |}.

Definition shop_availability_custom_domain : Endpoint := {|
  ep_path := "/shop/availability/custom_domain"; ep_policy := RetryTransient;
  ep_Req := ReqShopAvailabilityCustomDomain; ep_Res := IsAvailable; ep_Fail := ();
  ep_req := ReqShopAvailabilityCustomDomain_serde; ep_res := IsAvailable_serde; ep_fail := Serde_unit;
  ep_req_wf := (λ _, True); ep_res_wf := (λ _, True); ep_fail_wf := (λ _, True) |}.

Definition proto_register : Endpoint := {|
  ep_path := "/proto/register"; ep_policy := RetryNever;
  ep_Req := ReqProtoRegister; ep_Res := SignedAgentKey; ep_Fail := ProtoRegisterError;
  ep_req := ReqProtoRegister_serde; ep_res := SignedAgentKey_serde; ep_fail := ProtoRegisterError_serde;
  ep_req_wf := ReqProtoRegister_wf; ep_res_wf := (λ _, True); ep_fail_wf := (λ _, True) |}.

Definition charge_get : Endpoint := {|
  ep_path := "/charge/get"; ep_policy := RetryTransient;
  ep_Req := ReqChargeGet; ep_Res := ChargeDetails; ep_Fail := ChargeGetError;
  ep_req := ReqChargeGet_serde; ep_res := ChargeDetails_serde; ep_fail := ChargeGetError_serde;
  ep_req_wf := (λ _, True); ep_res_wf := ChargeDetails_wf; ep_fail_wf := (λ _, True) |}.

Definition charge_refund : Endpoint := {|
  ep_path := "/charge/refund"; ep_policy := RetryNever;
  ep_Req := ReqChargeRefund; ep_Res := (); ep_Fail := ChargeRefundError;
  ep_req := ReqChargeRefund_serde; ep_res := Serde_unit; ep_fail := ChargeRefundError_serde;
  ep_req_wf := (λ _, True); ep_res_wf := (λ _, True); ep_fail_wf := (λ _, True) |}.

Definition query_region : Endpoint := {|
  ep_path := "/query/region"; ep_policy := RetryTransient;
  ep_Req := ReqQueryRegion; ep_Res := QueryRegion; ep_Fail := QueryRegionError;
  ep_req := ReqQueryRegion_serde; ep_res := QueryRegion_serde; ep_fail := QueryRegionError_serde;
  ep_req_wf := (λ _, True); ep_res_wf := (λ _, True); ep_fail_wf := (λ _, True) |}.

(** All of them. *)
Definition endpoints : list Endpoint :=
  [v1_tunnels_list;
   v1_tunnels_create;
   v1_schemas_get;
   v1_tunnels_config;
   v1_tunnels_propset;
   v1_agents_rundata;
   info_pops;
   login_signin;
   login_clearcookie;
   login_create_guest;
   login_guest;
   login_reset_password;
   login_reset_send;
   tunnels_create;
   tunnels_list;
   tunnels_update;
   tunnels_delete;
   tunnels_rename;
   tunnels_firewall_assign;
   tunnels_ratelimit;
   tunnels_enable;
   tunnels_proxy_set;
   claim_setup;
   claim_exchange;
   agents_rename;
   agents_routing_set;
   agents_routing_get;
   agents_rundata;
   domains_list;
   shop_prices;
   shop_availability_custom_domain;
   proto_register;
   charge_get;
   charge_refund;
   query_region].

End calls.

(** ** The documents of a call are read back *)

Definition codec_ok {A : Type} (S : Serde A) (wf : A → Prop) : Prop :=
  ∀ x, wf x → from_value (to_value x) = Some x.

Class EndpointLaws (e : Endpoint) : Prop := {
  ep_req_ok : codec_ok (ep_req e) (ep_req_wf e);
  ep_res_ok : codec_ok (ep_res e) (ep_res_wf e);
  ep_fail_ok : codec_ok (ep_fail e) (ep_fail_wf e);
}.

Lemma serde_codec_ok {A : Type} (S : Serde A) (wf : A → Prop) : SerdeLaws A wf → codec_ok S wf.
Proof. intros HS x Hx. by apply from_to_value. Qed.

Lemma unit_codec_ok : codec_ok Serde_unit (λ _, True).
Proof. by intros [] _. Qed.

Definition ApiResult_wf {A B : Type} (wa : A → Prop) (wb : B → Prop) (r : ApiResult A B) : Prop :=
  match r with
  | ApiSuccess v => wa v
  | ApiFailed f => wb f
  | ApiErrored _ => True
  end.

Lemma envelope_ok {FM : Formats} {A B : Type} (SA : Serde A) (SB : Serde B) wa wb :
  codec_ok SA wa → codec_ok SB wb → codec_ok (ApiResult_serde SA SB) (ApiResult_wf wa wb).
Proof.
  intros Ha Hb x Hx. destruct x as [v|f|e]; cbn in Hx |- *; unfold newtype_variant; cbn -[from_value to_value].
  - by rewrite Ha.
  - by rewrite Hb.
  - by destruct e as [m|[]|[]|[]].
Qed.

Lemma endpoints_ok {FM : Formats} {FL : FormatsLaws FM} : Forall EndpointLaws endpoints.
Proof.
  repeat (apply Forall_cons; split);
    [split; (apply unit_codec_ok || apply serde_codec_ok, _)..|apply Forall_nil; done].
Qed.

(** ** Retries *)

Section retries.
Context {FM : Formats} {JT : JsonText} {T : Transport JT}.
Context {A B : Type} (SA : Serde A) (SB : Serde B).

(** Whether an answer is one of those that are worth another try. *)
Definition worth_retry (x : exchange) : bool :=
  match x with
  | NoResponse e | BrokenBody _ _ e => is_retryable_request_error e
  | Response status _ _ => (status =? TOO_MANY_REQUESTS)%Z || is_server_error status
  end.

(** What an answer means when it is the last. *)
Definition settled (x : exchange) : HttpClientError + ApiResult A B :=
  match x with
  | NoResponse e | BrokenBody _ _ e => inl (HttpRequestError e)
  | Response status _ body => read_answer SA SB status body
  end.

(** The reference: the first of [k + 1] answers, from the n-th on, that is not
    worth another try, or the last of them. *)
Fixpoint first_settled (req : HttpRequest) (n k : nat) : nat :=
  match k with
  | O => n
  | S k => if worth_retry (answer_to n req) then first_settled req (S n) k else n
  end.

Lemma first_settled_range (req : HttpRequest) (k n : nat) :
  (n ≤ first_settled req n k ≤ n + k)%nat.
Proof.
  revert n. induction k as [|k IH]; intros n; cbn; [lia|].
  case_match; [|lia]. specialize (IH (S n)). lia.
Qed.

Lemma attempt_step_spec (policy : RetryPolicy) (last : bool) (n attempt : nat) (x : exchange) :
  match attempt_step SA SB policy last n attempt x with
  | inl d => retries policy = true ∧ last = false ∧ worth_retry x = true ∧ (0 ≤ d ≤ MAX_RETRY_DELAY)%Z
  | inr r => r = settled x ∧ (retries policy = true → last = false → worth_retry x = false)
  end.
Proof.
  assert (Hd : ∀ h, (0 ≤ http_retry_delay n attempt h ≤ MAX_RETRY_DELAY)%Z).
  { intros h. unfold http_retry_delay. split; [|apply Z.le_min_r].
    apply Z.min_glb; [|by vm_compute].
    destruct (h ≫= parse_retry_after n) as [z|] eqn:Hh; cbn [default from_option id];
      [|unfold RETRY_DELAY; lia].
    destruct h as [v|]; [|done]. cbn in Hh. unfold parse_retry_after in Hh.
    destruct v as [v|]; [|done]. cbn in Hh.
    destruct (uint_from_str 64 (str_trim v)) as [s|] eqn:Hs.
    - injection Hh as <-. assert (uint 64 s) as [? _] by (by apply (uint_from_str_range 64 _ _ Hs)). lia.
    - apply fmap_Some in Hh as (y & _ & ->). lia. }
  destruct policy, last, x as [e|st h e|st h body]; cbn;
    try (destruct (is_retryable_request_error e)); try (destruct (_ || _)); cbn; auto.
Qed.

Lemma attempt_loop_S (policy : RetryPolicy) (req : HttpRequest) (rounds attempt : nat) (t : traffic JT) :
  attempt_loop SA SB policy req (S rounds) attempt t =
    match build_error req with
    | Some e => (Some (inl (HttpRequestError e)), t)
    | None =>
        let n := length (tr_sent t) in
        let t := log_sent req t in
        match attempt_step SA SB policy (negb (attempt + 1 <? max_attempts policy)%nat) n attempt
                (answer_to n req) with
        | inr r => (Some r, t)
        | inl d => attempt_loop SA SB policy req rounds (attempt + 1) (log_slept d t)
        end
    end.
Proof. done. Qed.

(** The loop is the reference: it settles on the answer the reference names,
    and sleeps before every further request. *)
Lemma attempt_loop_spec (policy : RetryPolicy) (req : HttpRequest) (rounds attempt : nat) (t : traffic JT) :
  build_error req = None → (attempt + S rounds = max_attempts policy)%nat →
  let n := length (tr_sent t) in
  let m := first_settled req n rounds in
  ∃ ds, attempt_loop SA SB policy req (S rounds) attempt t =
      (Some (settled (answer_to m req)),
       {| tr_sent := tr_sent t ++ replicate (S (m - n)) req; tr_slept := tr_slept t ++ ds |}) ∧
    length ds = (m - n)%nat ∧ Forall (λ d, 0 ≤ d ≤ MAX_RETRY_DELAY)%Z ds.
Proof.
  intros Hb. revert attempt t. induction rounds as [|rounds IH]; intros attempt t Hmax n m.
  all: rewrite attempt_loop_S, Hb; cbv zeta.
  all: pose proof (attempt_step_spec policy (negb (attempt + 1 <? max_attempts policy)%nat) n attempt
         (answer_to n req)) as Hstep.
  all: fold n; destruct (attempt_step _ _ _ _ _ _ _) as [d|r].
  - destruct Hstep as (_ & Hl & _). apply negb_false_iff, Nat.ltb_lt in Hl. lia.
  - destruct Hstep as [-> _]. exists []. rewrite app_nil_r. subst m. cbn [first_settled].
    rewrite Nat.sub_diag. done.
  - destruct Hstep as (_ & _ & Hw & Hd). subst m. cbn [first_settled]. rewrite Hw.
    destruct (IH (attempt + 1)%nat (log_slept d (log_sent req t)) ltac:(lia)) as (ds & -> & Hlen & Hds).
    cbn [log_slept log_sent tr_sent tr_slept] in *. rewrite length_app in *. cbn [length] in *.
    fold n in Hlen |- *. rewrite Nat.add_1_r in *.
    pose proof (first_settled_range req rounds (S n)).
    exists (d :: ds). rewrite <-!app_assoc. cbn [app length]. split_and!; [|lia|by constructor].
    replace (S (first_settled req (S n) rounds - n)) with (S (S (first_settled req (S n) rounds - S n))) by lia.
    done.
  - destruct Hstep as [-> Hw]. exists []. rewrite app_nil_r. subst m. cbn [first_settled].
    rewrite Hw, Nat.sub_diag; [done | | apply negb_false_iff, Nat.ltb_lt; lia].
    destruct policy; [cbn in Hmax; lia | done].
Qed.

(** A result was read from an answer. *)
Lemma attempt_loop_read (policy : RetryPolicy) (req : HttpRequest) (rounds attempt : nat) (t t' : traffic JT)
    (x : ApiResult A B) :
  attempt_loop SA SB policy req rounds attempt t = (Some (inr x), t') →
  ∃ v, @from_value _ (ApiResult_serde SA SB) v = Some x.
Proof.
  revert attempt t. induction rounds as [|rounds IH]; intros attempt t; [done|].
  rewrite attempt_loop_S. destruct (build_error req); [done|]. cbv zeta.
  pose proof (attempt_step_spec policy (negb (attempt + 1 <? max_attempts policy)%nat) (length (tr_sent t))
    attempt (answer_to (length (tr_sent t)) req)) as Hstep.
  destruct (attempt_step _ _ _ _ _ _ _) as [d|r]; [by apply IH|].
  destruct Hstep as [-> _]. intros [= Hr _]. destruct (answer_to _ req) as [e|st h e|st h body]; [done..|].
  cbn [settled] in Hr. unfold read_answer in Hr. case_decide; [done|].
  destruct (from_text body) as [v|]; [|done]. exists v. cbn in Hr |- *.
  by destruct (adjacent_parts _ _ v ≫= _); simplify_eq.
Qed.
End retries.

(** ** Theorems *)

Section theorems.
Context {FM : Formats} {JT : JsonText} {T : Transport JT}.

(** C13: The retry loop is its reference definition. A call that can be built
    settles on the first answer that is not worth another try, or on the last
    of the allowed ones (one for a call that is not repeated, three
    otherwise), and returns what that answer means; it sent the same request
    once per answer, slept once between two, never longer than five seconds,
    and the [unreachable!] behind the loop is unreachable. *)
Theorem retry_equivalence {Q A B : Type} (SQ : Serde Q) (SA : Serde A) (SB : Serde B) (c : HttpClient)
    (path : string) (req : Q) (policy : RetryPolicy) (t : traffic JT) :
  build_error (http_request c path (to_value req)) = None →
  let r := http_request c path (to_value req) in
  let n := length (tr_sent t) in
  let m := first_settled r n (max_attempts policy - 1) in
  (n ≤ m < n + max_attempts policy)%nat ∧
  ∃ ds, call_with_policy SQ SA SB c path req policy t =
      (Some (settled SA SB (answer_to m r)),
       {| tr_sent := tr_sent t ++ replicate (S (m - n)) r; tr_slept := tr_slept t ++ ds |}) ∧
    length ds = (m - n)%nat ∧ Forall (λ d, 0 ≤ d ≤ MAX_RETRY_DELAY)%Z ds.
Proof.
  intros Hb r n m. pose proof (first_settled_range r (max_attempts policy - 1) n).
  assert (max_attempts policy = S (max_attempts policy - 1)) as Hm by (by destruct policy).
  split; [fold m in H; lia|].
  destruct (attempt_loop_spec SA SB policy r _ 0 t Hb (eq_sym Hm)) as (ds & Heq & Hlen & Hds).
  exists ds. unfold call_with_policy. by rewrite Hm at 1.
Qed.

Lemma exchange_call_policy (e : Endpoint) (c : HttpClient) (req : ep_Req e) (t : traffic JT) :
  exchange_call e c req t =
    call_with_policy (ep_req e) (ep_res e) (ep_fail e) c (ep_path e) req (ep_policy e) t.
Proof. unfold exchange_call, call. by destruct (ep_policy e). Qed.

(** Data that a call returns was read from an answer. *)
Lemma invoke_no_fail_read (e : Endpoint) (c : HttpClient) (req : ep_Req e) (t t' : traffic JT) (x : ep_Res e) :
  invoke_no_fail e c req t = (Some (inr x), t') → ∃ v, @from_value _ (ep_res e) v = Some x.
Proof.
  unfold invoke_no_fail. rewrite exchange_call_policy. unfold call_with_policy.
  destruct (attempt_loop _ _ _ _ _ _ _) as [[r|] t1] eqn:Hl; [|done].
  intros [= Hr _]. destruct r as [|[v|f|er]]; cbn in Hr; [done | | done | done]. injection Hr as ->.
  apply attempt_loop_read in Hl as [v Hv]. cbn [from_value ApiResult_serde] in Hv.
  apply bind_Some in Hv as ([name data] & _ & Hv). apply bind_Some in Hv as (variant & Hfind & Hv).
  unfold find_variant in Hfind.
  repeat (destruct (String.eqb _ name); [injection Hfind as <- | idtac]); [..|done];
    apply bind_Some in Hv as (v' & _ & Hv'); apply fmap_Some in Hv' as (y & Hy & Heq); [|done..].
  injection Heq as ->. by exists v'.
Qed.

(** The calls that only read. *)
Definition reads : list string :=
  ["/v1/tunnels/list"; "/v1/schemas/get"; "/v1/agents/rundata"; "/info/pops"; "/tunnels/list";
   "/agents/routing/get"; "/agents/rundata"; "/domains/list"; "/shop/prices";
   "/shop/availability/custom_domain"; "/charge/get"; "/query/region"].

Lemma exchange_call_sends (e : Endpoint) (c : HttpClient) (req : ep_Req e) (t : traffic JT) :
  ∃ r k t', call_with_policy (ep_req e) (ep_res e) (ep_fail e) c (ep_path e) req (ep_policy e) t = (Some r, t') ∧
    tr_sent t' = tr_sent t ++ replicate k (http_request c (ep_path e) (@to_value _ (ep_req e) req)) ∧
    (k ≤ max_attempts (ep_policy e))%nat.
Proof.
  set (r := http_request c (ep_path e) (@to_value _ (ep_req e) req)).
  assert (max_attempts (ep_policy e) = S (max_attempts (ep_policy e) - 1)) as Hm by (by destruct (ep_policy e)).
  destruct (build_error r) as [x|] eqn:Hb.
  - exists (inl (HttpRequestError x)), 0%nat, t. unfold call_with_policy. rewrite Hm, attempt_loop_S.
    fold r. rewrite Hb. cbn. rewrite app_nil_r. split_and!; [done | done | lia].
  - destruct (attempt_loop_spec (ep_res e) (ep_fail e) (ep_policy e) r _ 0 t Hb (eq_sym Hm)) as (ds & Heq & _ & _).
    pose proof (first_settled_range r (max_attempts (ep_policy e) - 1) (length (tr_sent t))).
    eexists _, _, _. split; [unfold call_with_policy; fold r; rewrite Hm at 1; exact Heq|].
    cbn [tr_sent]. split; [reflexivity | lia].
Qed.

Lemma writes_policy : Forall (λ e, ep_path e ∉ reads → ep_policy e = RetryNever) endpoints.
Proof.
  repeat (apply Forall_cons; split); [..|apply Forall_nil; done];
    (reflexivity || (intros Hn; exfalso; apply Hn; cbn; set_solver)).
Qed.

(** C14: A call that changes something is sent at most once, whatever the
    network answers: only the calls that read are repeated, and those at most
    twice. Every call comes to a result. *)
Theorem writes_sent_once (e : Endpoint) (c : HttpClient) (req : ep_Req e) (t : traffic JT) :
  e ∈ endpoints →
  let '(r, t') := invoke e c req t in
  r ≠ None ∧
  ∃ k, tr_sent t' = tr_sent t ++ replicate k (http_request c (ep_path e) (@to_value _ (ep_req e) req)) ∧
    (k ≤ if decide (ep_path e ∈ reads) then 3 else 1)%nat.
Proof.
  intros He. unfold invoke. rewrite exchange_call_policy.
  destruct (exchange_call_sends e c req t) as (r & k & t' & -> & Ht & Hk).
  split; [done|]. exists k. split; [done|].
  case_decide as Hr; [unfold max_attempts, MAX_REQUEST_ATTEMPTS in Hk; destruct (ep_policy e); lia|].
  assert (ep_policy e = RetryNever) as Hp; [|rewrite Hp in Hk; cbn in Hk; lia].
  apply (proj1 (Forall_forall _ _) writes_policy e He Hr).
Qed.

(** A server that answers every request it can read as [serve] says. *)
Definition served_by (e : Endpoint) (serve : ep_Req e → ApiResult (ep_Res e) (ep_Fail e)) : Prop :=
  ∀ n r q, from_text (hr_body r) ≫= @from_value _ (ep_req e) = Some q →
    answer_to n r =
      Response 200 None (to_text (@to_value _ (ApiResult_serde (ep_res e) (ep_fail e)) (serve q))).

(** C15: Every call of the client is a remote procedure call: against a server
    that answers as [serve] says, the caller gets the server's data, typed
    failure or error for exactly the request it passed, after one exchange.
    (The documents of all requests, answers and failures are read back.) *)
Theorem api_call_faithful {FL : FormatsLaws FM} {JL : JsonTextLaws JT} (e : Endpoint)
    (serve : ep_Req e → ApiResult (ep_Res e) (ep_Fail e)) (c : HttpClient) (req : ep_Req e)
    (t : traffic JT) :
  e ∈ endpoints → served_by e serve →
  (∀ q, ApiResult_wf (ep_res_wf e) (ep_fail_wf e) (serve q)) → ep_req_wf e req →
  build_error (http_request c (ep_path e) (@to_value _ (ep_req e) req)) = None →
  invoke e c req t =
    (Some (unwrap (inr (serve req))),
     log_sent (http_request c (ep_path e) (@to_value _ (ep_req e) req)) t).
Proof.
  intros He Hs Hwf Hreq Hb. pose proof (proj1 (Forall_forall _ _) endpoints_ok e He) as Hl.
  unfold invoke. rewrite exchange_call_policy. unfold call_with_policy.
  set (r := http_request c (ep_path e) (@to_value _ (ep_req e) req)) in *.
  assert (Hans : ∀ n, answer_to n r =
      Response 200 None (to_text (@to_value _ (ApiResult_serde (ep_res e) (ep_fail e)) (serve req)))).
  { intros n. apply Hs. cbn. rewrite from_to_text. cbn. by apply ep_req_ok. }
  assert (Hread : settled (ep_res e) (ep_fail e) (answer_to (length (tr_sent t)) r) = inr (serve req)).
  { rewrite Hans. cbn [settled]. unfold read_answer. rewrite decide_False by done.
    rewrite from_to_text. cbn [mbind option_bind].
    by rewrite (envelope_ok _ _ _ _ ep_res_ok ep_fail_ok). }
  assert (max_attempts (ep_policy e) = S (max_attempts (ep_policy e) - 1)) as Hm by (by destruct (ep_policy e)).
  rewrite Hm at 1. rewrite attempt_loop_S, Hb. cbv zeta.
  pose proof (attempt_step_spec (ep_res e) (ep_fail e) (ep_policy e)
    (negb (0 + 1 <? max_attempts (ep_policy e))%nat) (length (tr_sent t)) 0 (answer_to (length (tr_sent t)) r)) as Hstep.
  destruct (attempt_step _ _ _ _ _ _ _) as [d|x].
  - destruct Hstep as (_ & _ & Hw & _). rewrite Hans in Hw. done.
  - destruct Hstep as [-> _]. by rewrite Hread.
Qed.
End theorems.

(** ** Runs *)

Definition plain_client : HttpClient := PlayitApi_create "https://api.playit.gg" (Some "0aF3").

(** The first two answers are a lost connection and an overload. *)
Definition flaky : Transport value_text := {|
  build_error _ := None;
  answer_to n _ :=
    match n with
    | O => NoResponse {| is_connect := true; is_timeout := false; is_request := false; is_body := false |}
    | 1%nat => Response (JT := value_text) 503 (Some (Some "2")) Null
    | _ => Response (JT := value_text) 200 None
             (@to_value _ (ApiResult_serde AccountTunnelsV1_serde Serde_unit)
               (ApiSuccess {| AccountTunnelsV1_tunnels := [] |}))
    end;
  http_date _ _ := None;
|}.

Definition quiet : traffic value_text := {| tr_sent := []; tr_slept := [] |}.

Lemma retry_equivalence_witness :
  let e := v1_tunnels_list in
  let run := call_with_policy (T := flaky) (ep_req e) (ep_res e) (ep_fail e) plain_client (ep_path e)
               ReqTunnelsListV1_new RetryTransient quiet in
  run.1 = Some (inr (ApiSuccess {| AccountTunnelsV1_tunnels := [] |})) ∧
  tr_slept run.2 = [250000000; 2000000000]%Z ∧
  (∃ ds, length ds = 2%nat ∧ Forall (λ d, 0 ≤ d ≤ MAX_RETRY_DELAY)%Z ds ∧ tr_slept run.2 = ds).
Proof.
  intros e run. split; [by vm_compute|]. split; [by vm_compute|].
  destruct (retry_equivalence (T := flaky) (ep_req e) (ep_res e) (ep_fail e) plain_client (ep_path e)
    ReqTunnelsListV1_new RetryTransient quiet eq_refl) as (_ & ds & Hrun & Hlen & Hds).
  exists ds. split; [exact Hlen|]. split; [exact Hds|].
  exact (f_equal (λ x, tr_slept x.2) Hrun).
Defined.

Lemma tunnels_delete_listed : tunnels_delete ∈ endpoints.
Proof. unfold endpoints. set_solver. Qed.

Lemma writes_sent_once_witness :
  let e := tunnels_delete in
  ∃ k, tr_sent (invoke (T := flaky) e plain_client {| ReqTunnelsDelete_tunnel_id := 7 |} quiet).2 =
      replicate k (http_request plain_client (ep_path e)
        (@to_value _ (ep_req e) {| ReqTunnelsDelete_tunnel_id := 7 |})) ∧ (k ≤ 1)%nat.
Proof.
  pose proof (writes_sent_once (T := flaky) tunnels_delete plain_client
    {| ReqTunnelsDelete_tunnel_id := 7 |} quiet
    tunnels_delete_listed) as Hw.
  revert Hw. cbv zeta. destruct (invoke _ _ _ _) as [r t']. intros [_ (k & Hk & Hle)].
  exists k. split; [exact Hk | exact Hle].
Defined.

(** A server that knows one tunnel. *)
Definition delete_one (q : ReqTunnelsDelete) : ApiResult () DeleteError :=
  if decide (ReqTunnelsDelete_tunnel_id q = 7%Z) then ApiSuccess ()
  else ApiFailed DeleteError_TunnelNotFound.

Definition one_tunnel : Transport value_text := {|
  build_error _ := None;
  answer_to _ r :=
    match @from_value _ ReqTunnelsDelete_serde (hr_body (JT := value_text) r) with
    | Some q => Response (JT := value_text) 200 None
        (@to_value _ (ApiResult_serde Serde_unit DeleteError_serde) (delete_one q))
    | None => Response (JT := value_text) 400 None Null
    end;
  http_date _ _ := None;
|}.

Lemma api_call_faithful_witness :
  (invoke (T := one_tunnel) tunnels_delete plain_client {| ReqTunnelsDelete_tunnel_id := 8 |} quiet).1 =
    Some (inl (ErrFail DeleteError_TunnelNotFound)).
Proof.
  rewrite (api_call_faithful (T := one_tunnel) (JL := value_text_laws) tunnels_delete delete_one plain_client
    {| ReqTunnelsDelete_tunnel_id := 8 |} quiet).
  - reflexivity.
  - exact tunnels_delete_listed.
  - intros n r q Hq. cbn in Hq |- *. by rewrite Hq.
  - intros q. unfold delete_one. by case_decide.
  - split; [done | by vm_compute].
  - done.
Defined.
