(* ===== verification/WebApi.v ===== *)
(** * Account sessions over the web API (api_client/src/auth.rs, web_api.rs)

    Signing in, the second factor, and the calls an account makes: which
    client they go through, what they send, and what their answers become. *)

From S2P Require Import Prelude Net Json Text OriginLookup Api ApiTunnels ApiAccount HttpClient ApiClient.
#[local] Open Scope string_scope.
#[local] Open Scope list_scope.
#[local] Open Scope Z_scope.

(** ** Documents *)

Section documents.
Context {FM : Formats} {FL : FormatsLaws FM}.

Record ReqLoginTotp : Type := {
  ReqLoginTotp_code : string;
}.

#[global] Instance ReqLoginTotp_serde : Serde ReqLoginTotp := {|
  to_value x :=
    Object
      [("code"%string, to_value (Serde := Serde_string) (ReqLoginTotp_code x))];
  from_value v :=
    entries ← entries_of v;
    code' ← field Serde_string "code" entries;
    Some {| ReqLoginTotp_code := code' |} |}.

#[global] Instance ReqLoginTotp_laws : SerdeLaws ReqLoginTotp (λ _, True).
Proof. serde_struct. Qed.

Inductive TotpSubmitFail : Set :=
  | TotpSubmitFail_InvalidCode
  | TotpSubmitFail_TotpNotSetup
  | TotpSubmitFail_Other.

Definition TotpSubmitFail_name (x : TotpSubmitFail) : string :=
  match x with
  | TotpSubmitFail_InvalidCode => "InvalidCode"
  | TotpSubmitFail_TotpNotSetup => "TotpNotSetup"
  | TotpSubmitFail_Other => "Other"
  end.

#[global] Instance TotpSubmitFail_serde : Serde TotpSubmitFail :=
  Serde_other_enum TotpSubmitFail_name TotpSubmitFail_Other
    [(TotpSubmitFail_name TotpSubmitFail_InvalidCode, TotpSubmitFail_InvalidCode);
     (TotpSubmitFail_name TotpSubmitFail_TotpNotSetup, TotpSubmitFail_TotpNotSetup);
     (TotpSubmitFail_name TotpSubmitFail_Other, TotpSubmitFail_Other)].

#[global] Instance TotpSubmitFail_laws : SerdeLaws TotpSubmitFail (λ _, True).
Proof. apply other_enum_laws. by intros []. Qed.

Record ReqClaimDetails : Type := {
  ReqClaimDetails_code : string;
}.

#[global] Instance ReqClaimDetails_serde : Serde ReqClaimDetails := {|
  to_value x :=
    Object
      [("code"%string, to_value (Serde := Serde_string) (ReqClaimDetails_code x))];
  from_value v :=
    entries ← entries_of v;
    code' ← field Serde_string "code" entries;
    Some {| ReqClaimDetails_code := code' |} |}.

#[global] Instance ReqClaimDetails_laws : SerdeLaws ReqClaimDetails (λ _, True).
Proof. serde_struct. Qed.

Record ClaimDetails : Type := {
  ClaimDetails_agent_type : ClaimAgentType;
  ClaimDetails_name : string;
  ClaimDetails_remote_ip : string;
  ClaimDetails_version : string;
}.

#[global] Instance ClaimDetails_serde : Serde ClaimDetails := {|
  to_value x :=
    Object
      [("agent_type"%string, to_value (Serde := ClaimAgentType_serde) (ClaimDetails_agent_type x));
       ("name"%string, to_value (Serde := Serde_string) (ClaimDetails_name x));
       ("remote_ip"%string, to_value (Serde := Serde_string) (ClaimDetails_remote_ip x));
       ("version"%string, to_value (Serde := Serde_string) (ClaimDetails_version x))];
  from_value v :=
    entries ← entries_of v;
    agent_type' ← field ClaimAgentType_serde "agent_type" entries;
    name' ← field Serde_string "name" entries;
    remote_ip' ← field Serde_string "remote_ip" entries;
    version' ← field Serde_string "version" entries;
    Some {| ClaimDetails_agent_type := agent_type';
            ClaimDetails_name := name';
            ClaimDetails_remote_ip := remote_ip';
            ClaimDetails_version := version' |} |}.

#[global] Instance ClaimDetails_laws : SerdeLaws ClaimDetails (λ _, True).
Proof. serde_struct. Qed.

Inductive ClaimDetailsFail : Set :=
  | ClaimDetailsFail_AlreadyClaimed
  | ClaimDetailsFail_AlreadyRejected
  | ClaimDetailsFail_ClaimExpired
  | ClaimDetailsFail_DifferentOwner
  | ClaimDetailsFail_WaitingForAgent
  | ClaimDetailsFail_InvalidCode
  | ClaimDetailsFail_Other.

Definition ClaimDetailsFail_name (x : ClaimDetailsFail) : string :=
  match x with
  | ClaimDetailsFail_AlreadyClaimed => "AlreadyClaimed"
  | ClaimDetailsFail_AlreadyRejected => "AlreadyRejected"
  | ClaimDetailsFail_ClaimExpired => "ClaimExpired"
  | ClaimDetailsFail_DifferentOwner => "DifferentOwner"
  | ClaimDetailsFail_WaitingForAgent => "WaitingForAgent"
  | ClaimDetailsFail_InvalidCode => "InvalidCode"
  | ClaimDetailsFail_Other => "Other"
  end.

#[global] Instance ClaimDetailsFail_serde : Serde ClaimDetailsFail :=
  Serde_other_enum ClaimDetailsFail_name ClaimDetailsFail_Other
    [(ClaimDetailsFail_name ClaimDetailsFail_AlreadyClaimed, ClaimDetailsFail_AlreadyClaimed);
     (ClaimDetailsFail_name ClaimDetailsFail_AlreadyRejected, ClaimDetailsFail_AlreadyRejected);
     (ClaimDetailsFail_name ClaimDetailsFail_ClaimExpired, ClaimDetailsFail_ClaimExpired);
     (ClaimDetailsFail_name ClaimDetailsFail_DifferentOwner, ClaimDetailsFail_DifferentOwner);
     (ClaimDetailsFail_name ClaimDetailsFail_WaitingForAgent, ClaimDetailsFail_WaitingForAgent);
     (ClaimDetailsFail_name ClaimDetailsFail_InvalidCode, ClaimDetailsFail_InvalidCode);
     (ClaimDetailsFail_name ClaimDetailsFail_Other, ClaimDetailsFail_Other)].

#[global] Instance ClaimDetailsFail_laws : SerdeLaws ClaimDetailsFail (λ _, True).
Proof. apply other_enum_laws. by intros []. Qed.

Record ReqClaimAccept : Type := {
  ReqClaimAccept_code : string;
  ReqClaimAccept_name : string;
  ReqClaimAccept_agent_type : ClaimAgentType;
}.

#[global] Instance ReqClaimAccept_serde : Serde ReqClaimAccept := {|
  to_value x :=
    Object
      [("code"%string, to_value (Serde := Serde_string) (ReqClaimAccept_code x));
       ("name"%string, to_value (Serde := Serde_string) (ReqClaimAccept_name x));
       ("agent_type"%string, to_value (Serde := ClaimAgentType_serde) (ReqClaimAccept_agent_type x))];
  from_value v :=
    entries ← entries_of v;
    code' ← field Serde_string "code" entries;
    name' ← field Serde_string "name" entries;
    agent_type' ← field ClaimAgentType_serde "agent_type" entries;
    Some {| ReqClaimAccept_code := code';
            ReqClaimAccept_name := name';
            ReqClaimAccept_agent_type := agent_type' |} |}.

#[global] Instance ReqClaimAccept_laws : SerdeLaws ReqClaimAccept (λ _, True).
Proof. serde_struct. Qed.

Record ClaimAccepted : Type := {
  ClaimAccepted_agent_id : Uuid;
}.

#[global] Instance ClaimAccepted_serde : Serde ClaimAccepted := {|
  to_value x :=
    Object
      [("agent_id"%string, to_value (Serde := (Serde_text uuid_text)) (ClaimAccepted_agent_id x))];
  from_value v :=
    entries ← entries_of v;
    agent_id' ← field (Serde_text uuid_text) "agent_id" entries;
    Some {| ClaimAccepted_agent_id := agent_id' |} |}.

Definition ClaimAccepted_wf (x : ClaimAccepted) : Prop :=
  uint 128 (ClaimAccepted_agent_id x).

#[global] Instance ClaimAccepted_laws : SerdeLaws ClaimAccepted ClaimAccepted_wf.
Proof. serde_struct. Qed.

Inductive ClaimAcceptFail : Set :=
  | ClaimAcceptFail_InvalidCode
  | ClaimAcceptFail_AgentNotReady
  | ClaimAcceptFail_CodeNotFound
  | ClaimAcceptFail_InvalidAgentType
  | ClaimAcceptFail_ClaimAlreadyAccepted
  | ClaimAcceptFail_ClaimRejected
  | ClaimAcceptFail_CodeExpired
  | ClaimAcceptFail_InvalidName
  | ClaimAcceptFail_Other.

Definition ClaimAcceptFail_name (x : ClaimAcceptFail) : string :=
  match x with
  | ClaimAcceptFail_InvalidCode => "InvalidCode"
  | ClaimAcceptFail_AgentNotReady => "AgentNotReady"
  | ClaimAcceptFail_CodeNotFound => "CodeNotFound"
  | ClaimAcceptFail_InvalidAgentType => "InvalidAgentType"
  | ClaimAcceptFail_ClaimAlreadyAccepted => "ClaimAlreadyAccepted"
  | ClaimAcceptFail_ClaimRejected => "ClaimRejected"
  | ClaimAcceptFail_CodeExpired => "CodeExpired"
  | ClaimAcceptFail_InvalidName => "InvalidName"
  | ClaimAcceptFail_Other => "Other"
  end.

#[global] Instance ClaimAcceptFail_serde : Serde ClaimAcceptFail :=
  Serde_other_enum ClaimAcceptFail_name ClaimAcceptFail_Other
    [(ClaimAcceptFail_name ClaimAcceptFail_InvalidCode, ClaimAcceptFail_InvalidCode);
     (ClaimAcceptFail_name ClaimAcceptFail_AgentNotReady, ClaimAcceptFail_AgentNotReady);
     (ClaimAcceptFail_name ClaimAcceptFail_CodeNotFound, ClaimAcceptFail_CodeNotFound);
     (ClaimAcceptFail_name ClaimAcceptFail_InvalidAgentType, ClaimAcceptFail_InvalidAgentType);
     (ClaimAcceptFail_name ClaimAcceptFail_ClaimAlreadyAccepted, ClaimAcceptFail_ClaimAlreadyAccepted);
     (ClaimAcceptFail_name ClaimAcceptFail_ClaimRejected, ClaimAcceptFail_ClaimRejected);
     (ClaimAcceptFail_name ClaimAcceptFail_CodeExpired, ClaimAcceptFail_CodeExpired);
     (ClaimAcceptFail_name ClaimAcceptFail_InvalidName, ClaimAcceptFail_InvalidName);
     (ClaimAcceptFail_name ClaimAcceptFail_Other, ClaimAcceptFail_Other)].

#[global] Instance ClaimAcceptFail_laws : SerdeLaws ClaimAcceptFail (λ _, True).
Proof. apply other_enum_laws. by intros []. Qed.

Record ReqClaimReject : Type := {
  ReqClaimReject_code : string;
}.

#[global] Instance ReqClaimReject_serde : Serde ReqClaimReject := {|
  to_value x :=
    Object
      [("code"%string, to_value (Serde := Serde_string) (ReqClaimReject_code x))];
  from_value v :=
    entries ← entries_of v;
    code' ← field Serde_string "code" entries;
    Some {| ReqClaimReject_code := code' |} |}.

#[global] Instance ReqClaimReject_laws : SerdeLaws ReqClaimReject (λ _, True).
Proof. serde_struct. Qed.

Inductive ClaimRejectFail : Set :=
  | ClaimRejectFail_InvalidCode
  | ClaimRejectFail_CodeNotFound
  | ClaimRejectFail_ClaimAccepted
  | ClaimRejectFail_ClaimAlreadyRejected
  | ClaimRejectFail_Other.

Definition ClaimRejectFail_name (x : ClaimRejectFail) : string :=
  match x with
  | ClaimRejectFail_InvalidCode => "InvalidCode"
  | ClaimRejectFail_CodeNotFound => "CodeNotFound"
  | ClaimRejectFail_ClaimAccepted => "ClaimAccepted"
  | ClaimRejectFail_ClaimAlreadyRejected => "ClaimAlreadyRejected"
  | ClaimRejectFail_Other => "Other"
  end.

#[global] Instance ClaimRejectFail_serde : Serde ClaimRejectFail :=
  Serde_other_enum ClaimRejectFail_name ClaimRejectFail_Other
    [(ClaimRejectFail_name ClaimRejectFail_InvalidCode, ClaimRejectFail_InvalidCode);
     (ClaimRejectFail_name ClaimRejectFail_CodeNotFound, ClaimRejectFail_CodeNotFound);
     (ClaimRejectFail_name ClaimRejectFail_ClaimAccepted, ClaimRejectFail_ClaimAccepted);
     (ClaimRejectFail_name ClaimRejectFail_ClaimAlreadyRejected, ClaimRejectFail_ClaimAlreadyRejected);
     (ClaimRejectFail_name ClaimRejectFail_Other, ClaimRejectFail_Other)].

#[global] Instance ClaimRejectFail_laws : SerdeLaws ClaimRejectFail (λ _, True).
Proof. apply other_enum_laws. by intros []. Qed.

Record AgentListEntry : Type := {
  AgentListEntry_id : Uuid;
  AgentListEntry_name : string;
}.

#[global] Instance AgentListEntry_serde : Serde AgentListEntry := {|
  to_value x :=
    Object
      [("id"%string, to_value (Serde := (Serde_text uuid_text)) (AgentListEntry_id x));
       ("name"%string, to_value (Serde := Serde_string) (AgentListEntry_name x))];
  from_value v :=
    entries ← entries_of v;
    id' ← field (Serde_text uuid_text) "id" entries;
    name' ← field Serde_string "name" entries;
    Some {| AgentListEntry_id := id';
            AgentListEntry_name := name' |} |}.

Definition AgentListEntry_wf (x : AgentListEntry) : Prop :=
  uint 128 (AgentListEntry_id x).

#[global] Instance AgentListEntry_laws : SerdeLaws AgentListEntry AgentListEntry_wf.
Proof. serde_struct. Qed.

Record AgentsList : Type := {
  AgentsList_agents : list AgentListEntry;
}.

#[global] Instance AgentsList_serde : Serde AgentsList := {|
  to_value x :=
    Object
      [("agents"%string, to_value (Serde := (@Serde_list _ AgentListEntry_serde)) (AgentsList_agents x))];
  from_value v :=
    entries ← entries_of v;
    agents' ← field (@Serde_list _ AgentListEntry_serde) "agents" entries;
    Some {| AgentsList_agents := agents' |} |}.

Definition AgentsList_wf (x : AgentsList) : Prop :=
  Forall AgentListEntry_wf (AgentsList_agents x).

#[global] Instance AgentsList_laws : SerdeLaws AgentsList AgentsList_wf.
Proof. serde_struct. Qed.

Record AgentDeleteMoveDetails : Type := {
  AgentDeleteMoveDetails_agent_id : option Uuid;
  AgentDeleteMoveDetails_disable_tunnels : bool;
}.

#[global] Instance AgentDeleteMoveDetails_serde : Serde AgentDeleteMoveDetails := {|
  to_value x :=
    Object
      [("agent_id"%string, to_value (Serde := (@Serde_option _ (Serde_text uuid_text))) (AgentDeleteMoveDetails_agent_id x));
       ("disable_tunnels"%string, to_value (Serde := Serde_bool) (AgentDeleteMoveDetails_disable_tunnels x))];
  from_value v :=
    entries ← entries_of v;
    agent_id' ← field_or (@Serde_option _ (Serde_text uuid_text)) None "agent_id" entries;
    disable_tunnels' ← field Serde_bool "disable_tunnels" entries;
    Some {| AgentDeleteMoveDetails_agent_id := agent_id';
            AgentDeleteMoveDetails_disable_tunnels := disable_tunnels' |} |}.

Definition AgentDeleteMoveDetails_wf (x : AgentDeleteMoveDetails) : Prop :=
  from_option (uint 128) True (AgentDeleteMoveDetails_agent_id x).

#[global] Instance AgentDeleteMoveDetails_laws : SerdeLaws AgentDeleteMoveDetails AgentDeleteMoveDetails_wf.
Proof. serde_struct. Qed.

Inductive TunnelsStrategy : Type :=
  | MoveToAgent (details : AgentDeleteMoveDetails).

#[global] Instance TunnelsStrategy_serde : Serde TunnelsStrategy := {|
  to_value x :=
    match x with
    | MoveToAgent d =>
        adjacent "type" "details" "move_to_agent" (Some (to_value (Serde := AgentDeleteMoveDetails_serde) d))
    end;
  from_value v :=
    '(name, data) ← adjacent_parts "type" "details" v;
    variant ← find_variant name [("move_to_agent", newtype_variant AgentDeleteMoveDetails_serde MoveToAgent)]%string;
    variant data |}.

Definition TunnelsStrategy_wf (x : TunnelsStrategy) : Prop :=
  match x with MoveToAgent d => AgentDeleteMoveDetails_wf d end.

#[global] Instance TunnelsStrategy_laws : SerdeLaws TunnelsStrategy TunnelsStrategy_wf.
Proof. serde_enum. Qed.

Record ReqAgentsDelete : Type := {
  ReqAgentsDelete_agent_id : Uuid;
  ReqAgentsDelete_tunnels_strategy : TunnelsStrategy;
}.

#[global] Instance ReqAgentsDelete_serde : Serde ReqAgentsDelete := {|
  to_value x :=
    Object
      [("agent_id"%string, to_value (Serde := (Serde_text uuid_text)) (ReqAgentsDelete_agent_id x));
       ("tunnels_strategy"%string, to_value (Serde := TunnelsStrategy_serde) (ReqAgentsDelete_tunnels_strategy x))];
  from_value v :=
    entries ← entries_of v;
    agent_id' ← field (Serde_text uuid_text) "agent_id" entries;
    tunnels_strategy' ← field TunnelsStrategy_serde "tunnels_strategy" entries;
    Some {| ReqAgentsDelete_agent_id := agent_id';
            ReqAgentsDelete_tunnels_strategy := tunnels_strategy' |} |}.

Definition ReqAgentsDelete_wf (x : ReqAgentsDelete) : Prop :=
  uint 128 (ReqAgentsDelete_agent_id x) ∧
  TunnelsStrategy_wf (ReqAgentsDelete_tunnels_strategy x).

#[global] Instance ReqAgentsDelete_laws : SerdeLaws ReqAgentsDelete ReqAgentsDelete_wf.
Proof. serde_struct. Qed.

End documents.

(** ** Sessions *)

(** [created_at] is an instant of the monotonic clock, in nanoseconds. *)
Record AccountSession : Type := {
  se_session : WebSession;
  se_api_base : string;
  se_created_at : Z;
}.

Definition AccountSession_new (api_base : string) (session : WebSession) (now : Z) : AccountSession :=
  {| se_session := session; se_api_base := api_base; se_created_at := now |}.

(** [elapsed] saturates. *)
Definition AccountSession_age (s : AccountSession) (now : Z) : Z := saturating_sub now (se_created_at s).

Definition session_key (s : AccountSession) : string := WebSession_session_key (se_session s).

Definition AccountSession_account_id (s : AccountSession) : Z :=
  WebAuthToken_account_id (WebSession_auth (se_session s)).

Definition requires_totp (s : AccountSession) : bool :=
  match WebAuthToken_totp_status (WebSession_auth (se_session s)) with
  | TotpStatus_Required => true
  | _ => false
  end.

Definition is_read_only (s : AccountSession) : bool :=
  WebAuthToken_read_only (WebSession_auth (se_session s)).

Definition auth_state (s : AccountSession) : AuthState := Bearer (session_key s).

Definition account_client (s : AccountSession) : HttpClient :=
  PlayitApi_from_bearer (se_api_base s) (session_key s).

(** ** Errors *)

Inductive SigninError : Type :=
  | EmptyCredentials
  | IncorrectCredentials
  | AccountBanned
  | SigninApi (e : string)
  | SigninTransport (e : string).

Inductive TotpError : Type :=
  | TotpNotSupported
  | TotpInvalidCode
  | TotpSessionExpired
  | TotpFailed (e : string).

Inductive WebApiError : Type :=
  | WebSessionExpired
  | WebApi (e : string)
  | WebTransport (e : string).

(** The errors of the API that mean that a session is not accepted. *)
Definition session_refused (e : ApiResponseError) : bool :=
  match e with
  | ApiResponseError_Auth AuthError_SessionExpired
  | ApiResponseError_Auth AuthError_AuthRequired
  | ApiResponseError_Auth AuthError_NoLongerValid
  | ApiResponseError_Auth AuthError_InvalidToken => true
  | _ => false
  end.

(** ** Calls *)

Section endpoints.
Context {FM : Formats}.

Definition login_totp : Endpoint := {|
  ep_path := "/login/totp"; ep_policy := RetryNever;
  ep_Req := ReqLoginTotp; ep_Res := WebSession; ep_Fail := TotpSubmitFail;
  ep_req := ReqLoginTotp_serde; ep_res := WebSession_serde; ep_fail := TotpSubmitFail_serde;
  ep_req_wf := (λ _, True); ep_res_wf := WebSession_wf; ep_fail_wf := (λ _, True) |}.

Definition web_claim_details : Endpoint := {|
  ep_path := "/claim/details"; ep_policy := RetryNever;
  ep_Req := ReqClaimDetails; ep_Res := ClaimDetails; ep_Fail := ClaimDetailsFail;
  ep_req := ReqClaimDetails_serde; ep_res := ClaimDetails_serde; ep_fail := ClaimDetailsFail_serde;
  ep_req_wf := (λ _, True); ep_res_wf := (λ _, True); ep_fail_wf := (λ _, True) |}.

Definition web_claim_accept : Endpoint := {|
  ep_path := "/claim/accept"; ep_policy := RetryNever;
  ep_Req := ReqClaimAccept; ep_Res := ClaimAccepted; ep_Fail := ClaimAcceptFail;
  ep_req := ReqClaimAccept_serde; ep_res := ClaimAccepted_serde; ep_fail := ClaimAcceptFail_serde;
  ep_req_wf := (λ _, True); ep_res_wf := ClaimAccepted_wf; ep_fail_wf := (λ _, True) |}.

Definition web_claim_reject : Endpoint := {|
  ep_path := "/claim/reject"; ep_policy := RetryNever;
  ep_Req := ReqClaimReject; ep_Res := (); ep_Fail := ClaimRejectFail;
  ep_req := ReqClaimReject_serde; ep_res := Serde_unit; ep_fail := ClaimRejectFail_serde;
  ep_req_wf := (λ _, True); ep_res_wf := (λ _, True); ep_fail_wf := (λ _, True) |}.

Definition web_agents_list : Endpoint := {|
  ep_path := "/agents/list"; ep_policy := RetryNever;
  ep_Req := value; ep_Res := AgentsList; ep_Fail := value;
  ep_req := Serde_value; ep_res := AgentsList_serde; ep_fail := Serde_value;
  ep_req_wf := (λ v, v ≠ Null); ep_res_wf := AgentsList_wf; ep_fail_wf := (λ v, v ≠ Null) |}.

Definition web_agents_delete : Endpoint := {|
  ep_path := "/agents/delete"; ep_policy := RetryNever;
  ep_Req := ReqAgentsDelete; ep_Res := (); ep_Fail := value;
  ep_req := ReqAgentsDelete_serde; ep_res := Serde_unit; ep_fail := Serde_value;
  ep_req_wf := ReqAgentsDelete_wf; ep_res_wf := (λ _, True); ep_fail_wf := (λ v, v ≠ Null) |}.

(** The calls that are made past the generated client, one at a time. *)
Definition web_endpoints : list Endpoint :=
  [login_totp; web_claim_details; web_claim_accept; web_claim_reject; web_agents_list; web_agents_delete;
   tunnels_create; tunnels_delete].
End endpoints.

Section account.
Context {FM : Formats} {JT : JsonText} {T : Transport JT}.
(** [Display] and [Debug] of the errors. *)
Context (display_api_error debug_api_error : ApiResponseError → string).
Context (display_client_error debug_client_error : HttpClientError → string).

(** *** Signing in (auth.rs) *)

Definition sign_in_result (api_base : string) (now : Z)
    (r : ApiError SigninFail HttpClientError + WebSession) : SigninError + AccountSession :=
  match r with
  | inr session => inr (AccountSession_new api_base session now)
  | inl (ErrFail SigninFail_IncorrectCredentials) => inl IncorrectCredentials
  | inl (ErrFail SigninFail_AccountBanned) => inl AccountBanned
  | inl (ErrApi e) => inl (SigninApi (display_api_error e))
  | inl (ErrClient e) => inl (SigninTransport (display_client_error e))
  end.

Definition credentials (email password : string) : LoginCredentials :=
  {| LoginCredentials_email := email; LoginCredentials_password := password |}.

(** [email.trim().is_empty() || password.is_empty()]. *)
Definition blank (email password : string) : bool :=
  bool_decide (str_trim email = EmptyString) || bool_decide (password = EmptyString).

Definition sign_in (api_base email password : string) (now : Z) (t : traffic JT) :
    option (SigninError + AccountSession) * traffic JT :=
  if blank email password then (Some (inl EmptyCredentials), t)
  else
    let '(r, t) := invoke login_signin (PlayitApi_create api_base None) (credentials email password) t in
    (sign_in_result api_base now <$> r, t).

Definition totp_result (s : AccountSession) (now : Z)
    (r : HttpClientError + ApiResult WebSession TotpSubmitFail) : TotpError + AccountSession :=
  match r with
  | inl e => inl (TotpFailed (debug_client_error e))
  | inr (ApiSuccess web_session) => inr (AccountSession_new (se_api_base s) web_session now)
  | inr (ApiFailed TotpSubmitFail_InvalidCode) => inl TotpInvalidCode
  | inr (ApiFailed other) => inl (TotpFailed (TotpSubmitFail_name other))
  | inr (ApiErrored e) =>
      inl (if session_refused e then TotpSessionExpired else TotpFailed (debug_api_error e))
  end.

Definition complete_totp (s : AccountSession) (code : string) (now : Z) (t : traffic JT) :
    option (TotpError + AccountSession) * traffic JT :=
  let '(r, t) :=
    call (ep_req login_totp) (ep_res login_totp) (ep_fail login_totp) (account_client s) "/login/totp"
      {| ReqLoginTotp_code := code |} t in
  (totp_result s now <$> r, t).

(** *** Account calls (web_api.rs) *)

Definition post (e : Endpoint) (api : HttpClient) (req : ep_Req e) (t : traffic JT) :
    option (WebApiError + ApiResult (ep_Res e) (ep_Fail e)) * traffic JT :=
  let '(r, t) := call (ep_req e) (ep_res e) (ep_fail e) api (ep_path e) req t in
  ((λ r, match r with inl e => inl (WebTransport (debug_client_error e)) | inr x => inr x end) <$> r, t).

Definition map_no_fail (e : ApiErrorNoFail HttpClientError) : WebApiError :=
  match e with
  | NoFailUnexpectedFail => WebApi "unexpected fail response"
  | NoFailApi e => if session_refused e then WebSessionExpired else WebApi (debug_api_error e)
  | NoFailClient e => WebTransport (debug_client_error e)
  end.

(** [.map_err(map_no_fail)]. *)
Definition account_read {A : Type} (m : option (ApiErrorNoFail HttpClientError + A) * traffic JT) :
    option (WebApiError + A) * traffic JT :=
  let '(r, t) := m in
  ((λ r, match r with inl e => inl (map_no_fail e) | inr x => inr x end) <$> r, t).

Definition all_tunnels : ReqTunnelsList :=
  {| ReqTunnelsList_tunnel_id := None; ReqTunnelsList_agent_id := None |}.

Definition check_account_read (api : HttpClient) (t : traffic JT) : option (WebApiError + ()) * traffic JT :=
  let '(r, t) := account_read (invoke_no_fail tunnels_list api all_tunnels t) in
  ((λ r, match r with inl e => inl e | inr _ => inr () end) <$> r, t).

Definition validate_session (s : AccountSession) (t : traffic JT) : option (WebApiError + ()) * traffic JT :=
  check_account_read (account_client s) t.

Definition validate_with_key (api_base key : string) (t : traffic JT) : option (WebApiError + ()) * traffic JT :=
  check_account_read (builder_build (builder_bearer (builder_new api_base) key)) t.

Definition web_list_tunnels (s : AccountSession) (t : traffic JT) :
    option (WebApiError + AccountTunnels) * traffic JT :=
  account_read (invoke_no_fail tunnels_list (account_client s) all_tunnels t).

Definition web_list_domains (s : AccountSession) (t : traffic JT) :
    option (WebApiError + Domains) * traffic JT :=
  account_read (invoke_no_fail domains_list (account_client s) ReqDomainsList_new t).

Definition claim_details (api : HttpClient) (code : string) := post web_claim_details api {| ReqClaimDetails_code := code |}.

Definition accept_claim (api : HttpClient) (code name : string) (agent_type : ClaimAgentType) :=
  post web_claim_accept api
    {| ReqClaimAccept_code := code; ReqClaimAccept_name := name; ReqClaimAccept_agent_type := agent_type |}.

Definition reject_claim (api : HttpClient) (code : string) := post web_claim_reject api {| ReqClaimReject_code := code |}.

Definition list_agents (api : HttpClient) := post web_agents_list api (Object []).

Definition delete_agent (api : HttpClient) (req : ReqAgentsDelete) := post web_agents_delete api req.

Definition web_create_tunnel (api : HttpClient) (req : ReqTunnelsCreate) := post tunnels_create api req.

Definition web_delete_tunnel (api : HttpClient) (tunnel_id : Uuid) :=
  post tunnels_delete api {| ReqTunnelsDelete_tunnel_id := tunnel_id |}.
End account.

(** ** Theorems *)

(** The documents of these calls are read back. *)
Lemma web_endpoints_ok {FM : Formats} {FL : FormatsLaws FM} : Forall EndpointLaws web_endpoints.
Proof.
  repeat (apply Forall_cons; split);
    [split; (apply unit_codec_ok || apply serde_codec_ok, _)..|apply Forall_nil; done].
Qed.

Section sends.
Context {FM : Formats} {JT : JsonText} {T : Transport JT}.
Context (display_api_error debug_api_error : ApiResponseError → string).
Context (display_client_error debug_client_error : HttpClientError → string).

(** What an account does with its session. *)
Inductive account_op : Type :=
  | AoValidate
  | AoListTunnels
  | AoListDomains
  | AoTotp (code : string)
  | AoClaimDetails (code : string)
  | AoAcceptClaim (code name : string) (agent_type : ClaimAgentType)
  | AoRejectClaim (code : string)
  | AoListAgents
  | AoDeleteAgent (req : ReqAgentsDelete)
  | AoCreateTunnel (req : ReqTunnelsCreate)
  | AoDeleteTunnel (tunnel_id : Uuid).

(** Its traffic. *)
Definition account_run (s : AccountSession) (o : account_op) (t : traffic JT) : traffic JT :=
  let api := account_client s in
  match o with
  | AoValidate => (validate_session debug_api_error debug_client_error s t).2
  | AoListTunnels => (web_list_tunnels debug_api_error debug_client_error s t).2
  | AoListDomains => (web_list_domains debug_api_error debug_client_error s t).2
  | AoTotp code => (complete_totp debug_api_error debug_client_error s code 0 t).2
  | AoClaimDetails code => (claim_details debug_client_error api code t).2
  | AoAcceptClaim code name ty => (accept_claim debug_client_error api code name ty t).2
  | AoRejectClaim code => (reject_claim debug_client_error api code t).2
  | AoListAgents => (list_agents debug_client_error api t).2
  | AoDeleteAgent req => (delete_agent debug_client_error api req t).2
  | AoCreateTunnel req => (web_create_tunnel debug_client_error api req t).2
  | AoDeleteTunnel id => (web_delete_tunnel debug_client_error api id t).2
  end.

(** Where it is posted, and what. *)
Definition op_path (o : account_op) : string :=
  match o with
  | AoValidate | AoListTunnels => "/tunnels/list"
  | AoListDomains => "/domains/list"
  | AoTotp _ => "/login/totp"
  | AoClaimDetails _ => "/claim/details"
  | AoAcceptClaim _ _ _ => "/claim/accept"
  | AoRejectClaim _ => "/claim/reject"
  | AoListAgents => "/agents/list"
  | AoDeleteAgent _ => "/agents/delete"
  | AoCreateTunnel _ => "/tunnels/create"
  | AoDeleteTunnel _ => "/tunnels/delete"
  end.

Definition op_body (o : account_op) : value :=
  match o with
  | AoValidate | AoListTunnels => to_value (Serde := ReqTunnelsList_serde) all_tunnels
  | AoListDomains => Object []
  | AoTotp code | AoClaimDetails code | AoRejectClaim code => Object [("code", Str code)]
  | AoAcceptClaim code name ty =>
      Object [("code", Str code); ("name", Str name);
              ("agent_type", to_value (Serde := ClaimAgentType_serde) ty)]
  | AoListAgents => Object []
  | AoDeleteAgent req => to_value (Serde := ReqAgentsDelete_serde) req
  | AoCreateTunnel req => to_value (Serde := ReqTunnelsCreate_serde) req
  | AoDeleteTunnel id => to_value (Serde := ReqTunnelsDelete_serde) {| ReqTunnelsDelete_tunnel_id := id |}
  end.

(** Only these may be repeated. *)
Definition op_reads (o : account_op) : bool :=
  match o with AoValidate | AoListTunnels | AoListDomains => true | _ => false end.

(** [t'] is [t] after at most [n] times the request [r]. *)
Definition sent_more (n : nat) (r : HttpRequest) (t t' : traffic JT) : Prop :=
  ∃ k, tr_sent t' = tr_sent t ++ replicate k r ∧ (k ≤ n)%nat.

Lemma call_sends (e : Endpoint) (c : HttpClient) (req : ep_Req e) (t : traffic JT) :
  ep_policy e = RetryNever →
  ∃ r t', call (ep_req e) (ep_res e) (ep_fail e) c (ep_path e) req t = (Some r, t') ∧
    sent_more 1 (http_request c (ep_path e) (@to_value _ (ep_req e) req)) t t'.
Proof.
  intros Hp. destruct (exchange_call_sends e c req t) as (r & k & t' & Hr & Ht & Hk). rewrite Hp in Hr, Hk.
  exists r, t'. split; [exact Hr|]. by exists k.
Qed.

Lemma post_sends (e : Endpoint) (c : HttpClient) (req : ep_Req e) (t : traffic JT) :
  ep_policy e = RetryNever →
  sent_more 1 (http_request c (ep_path e) (@to_value _ (ep_req e) req)) t (post debug_client_error e c req t).2.
Proof. intros Hp. unfold post. by destruct (call_sends e c req t Hp) as (r & t' & -> & Hs). Qed.

Lemma invoke_no_fail_sends (e : Endpoint) (c : HttpClient) (req : ep_Req e) (t : traffic JT) :
  ep_policy e = RetryTransient →
  sent_more 3 (http_request c (ep_path e) (@to_value _ (ep_req e) req)) t (invoke_no_fail e c req t).2.
Proof.
  intros Hp. unfold invoke_no_fail. rewrite exchange_call_policy.
  destruct (exchange_call_sends e c req t) as (r & k & t' & -> & Ht & Hk). rewrite Hp in Hk. by exists k.
Qed.

Lemma account_read_traffic {A : Type} (m : option (ApiErrorNoFail HttpClientError + A) * traffic JT) :
  (account_read debug_api_error debug_client_error m).2 = m.2.
Proof. by destruct m. Qed.

(** Every operation of a session sends its one request, with its key. *)
Lemma account_run_sends (s : AccountSession) (o : account_op) (t : traffic JT) :
  sent_more (if op_reads o then 3 else 1)
    {| hr_url := se_api_base s +:+ op_path o; hr_auth := Some ("Bearer " +:+ session_key s);
       hr_body := to_text (op_body o) |} t (account_run s o t).
Proof.
  assert (∀ e c (req : ep_Req e), ep_policy e = RetryTransient →
    sent_more 3 (http_request c (ep_path e) (@to_value _ (ep_req e) req)) t
      (account_read debug_api_error debug_client_error (invoke_no_fail e c req t)).2) as Hr.
  { intros e c req Hp. rewrite account_read_traffic. by apply invoke_no_fail_sends. }
  destruct o; cbn [account_run op_reads op_path op_body].
  - unfold validate_session, check_account_read. pose proof (Hr tunnels_list (account_client s) all_tunnels eq_refl) as H.
    by destruct (account_read _ _ _).
  - unfold web_list_tunnels. exact (Hr tunnels_list (account_client s) all_tunnels eq_refl).
  - unfold web_list_domains. exact (Hr domains_list (account_client s) ReqDomainsList_new eq_refl).
  - unfold complete_totp.
    destruct (call_sends login_totp (account_client s) {| ReqLoginTotp_code := code |} t eq_refl) as (r & t' & Hc & Hs).
    cbn [ep_path login_totp] in Hc. by rewrite Hc.
  - exact (post_sends web_claim_details (account_client s) _ t eq_refl).
  - exact (post_sends web_claim_accept (account_client s) _ t eq_refl).
  - exact (post_sends web_claim_reject (account_client s) _ t eq_refl).
  - exact (post_sends web_agents_list (account_client s) (Object []) t eq_refl).
  - exact (post_sends web_agents_delete (account_client s) req t eq_refl).
  - exact (post_sends tunnels_create (account_client s) req t eq_refl).
  - exact (post_sends tunnels_delete (account_client s) _ t eq_refl).
Qed.

(** Credentials go where they belong. Signing in with a blank email or
    password sends nothing; otherwise it posts the credentials, once and with
    no credential of another account in its header. From the session it
    returns, every operation of the account goes to the address the user
    signed in at, under the session's own key, as one request: what changes
    something is sent at most once, and only the three reads of tunnels and
    domains are repeated, at most twice. Every call comes to a result. *)
Theorem account_calls_authorized (api_base email password : string) (now : Z) (t : traffic JT) :
  let '(r, t1) := sign_in display_api_error display_client_error api_base email password now t in
  r ≠ None ∧
  sent_more (if blank email password then 0 else 1)
    {| hr_url := api_base +:+ "/login/signin"; hr_auth := None;
       hr_body := to_text (to_value (Serde := LoginCredentials_serde) (credentials email password)) |} t t1 ∧
  (blank email password = true → r = Some (inl EmptyCredentials)) ∧
  ∀ s o, r = Some (inr s) →
    sent_more (if op_reads o then 3 else 1)
      {| hr_url := api_base +:+ op_path o; hr_auth := Some ("Bearer " +:+ session_key s);
         hr_body := to_text (op_body o) |} t1 (account_run s o t1).
Proof.
  unfold sign_in. destruct (blank email password) eqn:Hb.
  - split_and!; [done | by exists 0%nat; rewrite app_nil_r | done | done].
  - unfold invoke. rewrite exchange_call_policy.
    destruct (exchange_call_sends login_signin (PlayitApi_create api_base None) (credentials email password) t)
      as (r & k & t' & -> & Ht & Hk).
    split_and!; [done | by exists k | done |]. intros s o Hs.
    assert (se_api_base s = api_base) as <-; [|apply account_run_sends].
    destruct r as [e|[v|[]|e]]; cbn in Hs; try done. by injection Hs as <-.
Qed.

(** What tells that a session is over: the API refused it, in one of four ways,
    and nothing else does. *)
Lemma validate_expired (s : AccountSession) (t : traffic JT) :
  (validate_session debug_api_error debug_client_error s t).1 = Some (inl WebSessionExpired) ↔
  ∃ e, (invoke_no_fail tunnels_list (account_client s) all_tunnels t).1 = Some (inl (NoFailApi e)) ∧
    session_refused e = true.
Proof.
  unfold validate_session, check_account_read, account_read.
  destruct (invoke_no_fail _ _ _ t) as [[[[|e|e]|x]|] t']; cbn; try (split; [done | by intros (? & [=] & _)]).
  destruct (session_refused e) eqn:He; split; try done; [by eexists | by intros (? & [= ->] & ?); congruence].
Qed.
End sends.

(** ** Runs *)

Definition verified_session : WebSession := {|
  WebSession_session_key := "key";
  WebSession_auth := {|
    WebAuthToken_update_version := 1; WebAuthToken_account_id := 123; WebAuthToken_timestamp := 456;
    WebAuthToken_account_status := ApiAccountStatus_Verified; WebAuthToken_totp_status := TotpStatus_NotSetup;
    WebAuthToken_admin_id := None; WebAuthToken_admin_review_id := None;
    WebAuthToken_read_only := false; WebAuthToken_show_admin := false |} |}.

(** An API that lets everybody in. *)
Definition welcoming : Transport value_text := {|
  build_error _ := None;
  answer_to _ _ := Response (JT := value_text) 200 None
    (@to_value _ (ApiResult_serde WebSession_serde SigninFail_serde) (ApiSuccess verified_session));
  http_date _ _ := None;
|}.

Lemma account_calls_authorized_witness :
  let run := sign_in (T := welcoming) (λ _, "rejected") (λ _, "failed") "https://api.playit.gg" "me@example.com" "pw" 0 quiet in
  run.1 = Some (inr (AccountSession_new "https://api.playit.gg" verified_session 0)) ∧
  sent_more 1
    {| hr_url := "https://api.playit.gg/claim/reject"; hr_auth := Some "Bearer key";
       hr_body := Object [("code", Str "c0de")] : @text value_text |} run.2
    (account_run (T := welcoming) (λ _, "rejected") (λ _, "failed")
      (AccountSession_new "https://api.playit.gg" verified_session 0) (AoRejectClaim "c0de") run.2).
Proof.
  intros run.
  pose proof (account_calls_authorized (T := welcoming) (λ _, "rejected") (λ _, "rejected") (λ _, "failed") (λ _, "failed")
    "https://api.playit.gg" "me@example.com" "pw" 0 quiet) as Hc.
  assert (Hr : run.1 = Some (inr (AccountSession_new "https://api.playit.gg" verified_session 0))) by (by vm_compute).
  split; [exact Hr|]. fold run in Hc. destruct run as [r t1]. cbn [fst snd] in *. destruct Hc as (_ & _ & _ & Hs).
  exact (Hs _ (AoRejectClaim "c0de") Hr).
Defined.
