(* ===== verification/IpResource.v ===== *)
(** * Regions of tunnel addresses (api_client/src/ip_resource.rs)

    The region and the number that a tunnel's address encodes, and the
    address of a region and a number. *)

From S2P Require Import Prelude Bytes Net.

(** The discriminants are those of the enum. *)
Inductive PlayitRegion : Set :=
  | Anycast
  | Global
  | NorthAmerica
  | Europe
  | Asia
  | India
  | SouthAmerica.

Definition region_number (r : PlayitRegion) : Z :=
  match r with
  | Anycast => 0
  | Global => 1
  | NorthAmerica => 2
  | Europe => 3
  | Asia => 4
  | India => 5
  | SouthAmerica => 6
  end.

Definition region_of_number (n : Z) : option PlayitRegion :=
  match n with
  | 0 => Some Anycast
  | 1 => Some Global
  | 2 => Some NorthAmerica
  | 3 => Some Europe
  | 4 => Some Asia
  | 5 => Some India
  | 6 => Some SouthAmerica
  | _ => None
  end.

(** The networks of the regions. *)
Definition region_of_net (a b c : Z) : option PlayitRegion :=
  match a, b, c with
  | 0, 0, 0 => Some Anycast
  | 209, 25, 140 => Some NorthAmerica
  | 209, 25, 141 => Some Europe
  | 209, 25, 142 => Some Asia
  | 209, 25, 143 => Some India
  | 23, 133, 216 => Some SouthAmerica
  | 198, 22, 204 => Some SouthAmerica
  | 147, 185, 221 => Some Global
  | _, _, _ => None
  end.

Section regions.
Context {BO : ByteOrder}.
(** [BigEndian::write_uN(&mut buf, v)], [N] in bytes. *)
Context (put : nat → Z → list byte → outcome io_error (list byte)).

Definition octet (l : list byte) (i : nat) : outcome io_error Z :=
  match l !! i with Some b => Ok (be_val [b]) | None => Panic end.

Definition from_ip4 (ip : Z) : outcome io_error (option PlayitRegion * Z) :=
  let octs := Ipv4_octets ip in
  a ← octet octs 0; b ← octet octs 1; c ← octet octs 2; d ← octet octs 3;
  Ok (region_of_net a b c, d).

Definition from_ip6 (ip : Z) : outcome io_error (option PlayitRegion * Z) :=
  let parts := Ipv6_octets ip in
  t ← slice_to 8 parts; t ← slice_from 6 t;
  number ← bo_slice 2 t;
  t ← slice_from 8 parts;
  ip_number ← bo_slice 8 t;
  Ok (region_of_number number, ip_number).

Definition region_from_ip (ip : IpAddr) : outcome io_error (option PlayitRegion * Z) :=
  match ip with IpV4 ip => from_ip4 ip | IpV6 ip => from_ip6 ip end.

(** [&mut octs\[a..b\]] is written in place. *)
Definition put_at (n : nat) (v : Z) (a b : nat) (l : list byte) : outcome io_error (list byte) :=
  t ← slice_to b l; t ← slice_from a t;
  t ← put n v t;
  Ok (take a l ++ t ++ drop b l).

Definition tunnel_address (r : PlayitRegion) (ip_number : Z) : outcome io_error Z :=
  let octs := be_bytes 4 0x2602fbaf ++ be_bytes 12 0 in
  octs ← put_at 2 (region_number r) 6 8 octs;
  octs ← put_at 8 ip_number 8 16 octs;
  Ok (be_val octs).

Record IpResource : Type := { ir_ip_num : Z; ir_region : PlayitRegion }.

Definition IpResource_from_ip (ip : IpAddr) : outcome io_error IpResource :=
  '(region, ip_num) ← region_from_ip ip;
  let is_region_ip := bool_decide (64 ≤ ip_num < 128) in
  Ok {| ir_ip_num := ip_num;
        ir_region := match is_region_ip, region with true, Some region => region | _, _ => Anycast end |}.

Definition to_tunnel_ip (r : IpResource) : outcome io_error Z := tunnel_address (ir_region r) (ir_ip_num r).

(** ** Addresses are read back *)

Context {BOL : ByteOrderLaws BO}.
Context (put_spec : ∀ n v l, (n ≤ length l)%nat → uint (8 * Z.of_nat n) v → put n v l = Ok (be_bytes n v ++ drop n l)).

Lemma region_of_number_inv r : region_of_number (region_number r) = Some r.
Proof. by destruct r. Qed.

Lemma region_number_u16 r : uint 16 (region_number r).
Proof. split; destruct r; cbn; lia. Qed.

Lemma slice_middle {A : Type} (pre mid post : list A) :
  (t ← slice_to (length pre + length mid) (pre ++ mid ++ post); slice_from (length pre) t) =
    Ok mid :> outcome io_error (list A).
Proof.
  unfold slice_to, slice_from. rewrite decide_True by (rewrite !length_app; lia). cbn [mbind outcome_bind].
  rewrite app_assoc, take_app_length' by (by rewrite length_app). rewrite decide_True by (rewrite length_app; lia).
  by rewrite drop_app_length.
Qed.

Lemma put_at_app n v pre old post :
  length old = n → uint (8 * Z.of_nat n) v →
  put_at n v (length pre) (length pre + n) (pre ++ old ++ post) = Ok (pre ++ be_bytes n v ++ post).
Proof.
  intros Hl Hv. unfold put_at. pose proof (slice_middle pre old post) as Hs. rewrite Hl in Hs.
  destruct (slice_to (E := io_error) (length pre + n) (pre ++ old ++ post)) as [t|e|]; [|done..].
  cbn [mbind outcome_bind] in Hs |- *. rewrite Hs. cbn [mbind outcome_bind].
  rewrite put_spec by (done || lia). cbn [mbind outcome_bind]. rewrite (drop_ge old n) by lia.
  rewrite take_app_length, app_nil_r, (app_assoc pre old post), drop_app_length' by (by rewrite length_app, Hl). done.
Qed.

Lemma tunnel_address_bytes r n :
  uint 64 n →
  tunnel_address r n =
    Ok (be_val ((be_bytes 4 0x2602fbaf ++ be_bytes 2 0) ++ be_bytes 2 (region_number r) ++ be_bytes 8 n)).
Proof.
  intros Hn. unfold tunnel_address.
  change (be_bytes 4 0x2602fbaf ++ be_bytes 12 0)
    with ((be_bytes 4 0x2602fbaf ++ be_bytes 2 0) ++ be_bytes 2 0 ++ be_bytes 8 0).
  set (pre := be_bytes 4 0x2602fbaf ++ be_bytes 2 0).
  rewrite (put_at_app 2 (region_number r) pre (be_bytes 2 0) (be_bytes 8 0) eq_refl (region_number_u16 r)
    : put_at 2 (region_number r) 6 8 _ = _).
  cbn [mbind outcome_bind].
  pose proof (put_at_app 8 n (pre ++ be_bytes 2 (region_number r)) (be_bytes 8 0) [] eq_refl Hn) as Hp.
  rewrite length_app, length_be_bytes, !app_nil_r, <-!app_assoc in Hp. change (length pre + 2)%nat with 8%nat in Hp.
  change (8 + 8)%nat with 16%nat in Hp. rewrite Hp. done.
Qed.

(** The region and the number of a tunnel's address are those it was made
    of. *)
Theorem region_round_trip r n :
  uint 64 n → ∃ ip, tunnel_address r n = Ok ip ∧ from_ip6 ip = Ok (Some r, n).
Proof.
  intros Hn. eexists. split; [by apply tunnel_address_bytes|]. unfold from_ip6, Ipv6_octets.
  set (pre := be_bytes 4 0x2602fbaf ++ be_bytes 2 0).
  assert (length (pre ++ be_bytes 2 (region_number r) ++ be_bytes 8 n) = 16%nat) as <-
    by (rewrite !length_app, !length_be_bytes; done).
  rewrite be_bytes_be_val.
  pose proof (slice_middle pre (be_bytes 2 (region_number r)) (be_bytes 8 n)) as Hs.
  rewrite length_be_bytes in Hs. change (length pre + 2)%nat with 8%nat in Hs. change (length pre) with 6%nat in Hs.
  destruct (slice_to (E := io_error) 8 _) as [t|e|]; [|done..]. cbn [mbind outcome_bind] in Hs |- *. rewrite Hs.
  cbn [mbind outcome_bind]. rewrite bo_slice_spec by (by rewrite length_be_bytes).
  rewrite take_ge by (by rewrite length_be_bytes). rewrite be_val_be_bytes by apply region_number_u16.
  cbn [mbind outcome_bind]. unfold slice_from. rewrite decide_True by (rewrite !length_app, !length_be_bytes; cbn; lia).
  cbn [mbind outcome_bind]. rewrite app_assoc, drop_app_length' by (rewrite length_app, length_be_bytes; done).
  rewrite bo_slice_spec, take_ge, be_val_be_bytes by (done || by rewrite length_be_bytes).
  by rewrite region_of_number_inv.
Qed.

(** The resource behind a tunnel's address: the number, and the region when
    the number is one of a region's. *)
Corollary resource_round_trip r :
  uint 64 (ir_ip_num r) → ∃ ip, to_tunnel_ip r = Ok ip ∧
    IpResource_from_ip (IpV6 ip) =
      Ok {| ir_ip_num := ir_ip_num r;
            ir_region := if decide (64 ≤ ir_ip_num r < 128) then ir_region r else Anycast |}.
Proof.
  intros Hn. destruct (region_round_trip (ir_region r) (ir_ip_num r) Hn) as (ip & Ha & Hf). exists ip.
  split; [done|]. unfold IpResource_from_ip, region_from_ip. rewrite Hf. cbn [mbind outcome_bind].
  destruct (decide (64 ≤ ir_ip_num r < 128)); [by rewrite bool_decide_true | by rewrite bool_decide_false].
Qed.
End regions.
