(* ===== verification/SessionStore.v ===== *)
(** * Stored account sessions (api_client/src/session.rs)

    What is kept of a session, and the two places it is kept in, behind one
    interface: memory, and a file. Both are a cell for at most one session. *)

From S2P Require Import Prelude Net Json Text OriginLookup FileSystem Api ApiTunnels ApiAccount HttpClient ApiClient WebApi.
From Stdlib Require Import Ascii.
#[local] Open Scope string_scope.
#[local] Open Scope list_scope.
#[local] Open Scope Z_scope.

(** ** Sessions at rest *)

Definition SESSION_FORMAT_VERSION : Z := 1.

Record PersistedSession : Type := {
  PersistedSession_version : Z;
  PersistedSession_api_base : string;
  PersistedSession_session_key : string;
  PersistedSession_account_id : Z;
  PersistedSession_saved_at_unix : Z;
}.

#[global] Instance PersistedSession_serde : Serde PersistedSession := {|
  to_value x :=
    Object
      [("version"%string, to_value (Serde := (Serde_uint 32)) (PersistedSession_version x));
       ("api_base"%string, to_value (Serde := Serde_string) (PersistedSession_api_base x));
       ("session_key"%string, to_value (Serde := Serde_string) (PersistedSession_session_key x));
       ("account_id"%string, to_value (Serde := (Serde_uint 64)) (PersistedSession_account_id x));
       ("saved_at_unix"%string, to_value (Serde := (Serde_uint 64)) (PersistedSession_saved_at_unix x))];
  from_value v :=
    entries ← entries_of v;
    version' ← field (Serde_uint 32) "version" entries;
    api_base' ← field Serde_string "api_base" entries;
    session_key' ← field Serde_string "session_key" entries;
    account_id' ← field (Serde_uint 64) "account_id" entries;
    saved_at_unix' ← field (Serde_uint 64) "saved_at_unix" entries;
    Some {| PersistedSession_version := version';
            PersistedSession_api_base := api_base';
            PersistedSession_session_key := session_key';
            PersistedSession_account_id := account_id';
            PersistedSession_saved_at_unix := saved_at_unix' |} |}.

Definition PersistedSession_wf (x : PersistedSession) : Prop :=
  uint 32 (PersistedSession_version x) ∧
  uint 64 (PersistedSession_account_id x) ∧
  uint 64 (PersistedSession_saved_at_unix x).

#[global] Instance PersistedSession_laws : SerdeLaws PersistedSession PersistedSession_wf.
Proof. serde_struct. Qed.

(** [now] is the system time in seconds since 1970; before that the code
    takes 0. *)
Definition from_account_session (s : AccountSession) (now : Z) : PersistedSession :=
  {| PersistedSession_version := SESSION_FORMAT_VERSION;
     PersistedSession_api_base := se_api_base s;
     PersistedSession_session_key := session_key s;
     PersistedSession_account_id := AccountSession_account_id s;
     PersistedSession_saved_at_unix := Z.max 0 now |}.

(** ** The interface *)

Inductive SessionStoreError : Type := Unavailable (e : string).

Class SessionStore (S : Type) : Type := {
  save : PersistedSession → S → (SessionStoreError + ()) * S;
  load : S → (SessionStoreError + option PersistedSession) * S;
  clear : S → (SessionStoreError + ()) * S;
}.

(** *** Memory *)

Record MemorySessionStore : Type := { ms_inner : option PersistedSession }.

#[global] Instance memory_store : SessionStore MemorySessionStore := {|
  save session _ := (inr (), {| ms_inner := Some session |});
  load s := (inr (ms_inner s), s);
  clear _ := (inr (), {| ms_inner := None |});
|}.

(** *** A file *)

(** [serde_json::to_string_pretty] and [serde_json::from_slice]. *)
Class JsonFile : Type := {
  to_string_pretty : value → string;
  from_slice : string → option value;
}.

Definition blank_text (s : string) : bool := forallb is_ascii_whitespace (String.list_ascii_of_string s).

(** Documented: a document is read back; a text that is a document is not
    blank; the text of an object ends with its closing brace, so that a text
    cut short is none. *)
Class JsonFileLaws (JF : JsonFile) : Prop := {
  from_slice_pretty : ∀ x : PersistedSession,
    PersistedSession_wf x → from_slice (to_string_pretty (to_value x)) = Some (to_value x);
  from_slice_blank : ∀ s v, from_slice s = Some v → blank_text s = false;
  from_slice_cut : ∀ (x : PersistedSession) k,
    PersistedSession_wf x → (k < String.length (to_string_pretty (to_value x)))%nat →
    from_slice (string_take k (to_string_pretty (to_value x))) = None;
}.

Section file.
Context {JF : JsonFile}.
(** Where the file is; the modes the process's mask leaves of the defaults of
    a directory and of a file; what serde_json says of a text that is none. *)
Context (p : path) (dir_mode file_mode : Z) (parse_error : string → string).

Definition io_unavailable (e : io_error) : SessionStoreError := Unavailable (err_msg e).

Definition restrict_to_owner : FS SessionStoreError () :=
  fs_map_err io_unavailable (set_permissions p 384).

(** [create_dir_all] has nothing to do for the empty path. *)
Definition make_parent : FS SessionStoreError () :=
  match parent p with
  | Some [] | None => mret ()
  | Some dir => fs_map_err io_unavailable (create_dir_all dir_mode dir)
  end.

(** [tokio::fs::write] creates the file, or empties it, and writes. *)
Definition file_save (session : PersistedSession) : FS SessionStoreError () :=
  let body := to_string_pretty (to_value session) in
  make_parent;;
  fs_map_err io_unavailable (create_truncated p file_mode);;
  fs_map_err io_unavailable (write_all p body);;
  restrict_to_owner.

Definition file_load : FS SessionStoreError (option PersistedSession) :=
  r ← fs_try (read_to_string p);
  match r with
  | inl e => if decide (err_kind e = NotFound) then mret None else fs_err (io_unavailable e)
  | inr body =>
      if blank_text body then mret None
      else
        match from_slice body ≫= from_value with
        | Some session => mret (Some session)
        | None => fs_err (Unavailable (parse_error body))
        end
  end.

Definition file_clear : FS SessionStoreError () :=
  r ← fs_try (remove_file p);
  match r with
  | inr () => mret ()
  | inl e => if decide (err_kind e = NotFound) then mret () else fs_err (io_unavailable e)
  end.

Definition file_store : SessionStore fs := {| save := file_save; load := file_load; clear := file_clear |}.
End file.
