(* ===== verification/SessionTheorems.v ===== *)
(** * Session stores keep what they promise

    Both stores are a cell for one session, as long as the file system does
    what it is asked; and whatever it does, a session that is loaded is one
    that was saved. *)

From S2P Require Import Prelude Net Json Text OriginLookup FileSystem Api ApiTunnels ApiAccount HttpClient ApiClient WebApi SessionStore.
From Stdlib Require Import Ascii.
#[local] Open Scope Z_scope.

(** ** Sequences of operations *)

Inductive store_op : Type :=
  | StSave (x : PersistedSession)
  | StLoad
  | StClear.

Definition store_op_wf (o : store_op) : Prop :=
  match o with StSave x => PersistedSession_wf x | _ => True end.

Inductive store_answer : Type :=
  | AnsDone
  | AnsLoaded (o : option PersistedSession)
  | AnsFailed (e : SessionStoreError).

Section run.
Context {S : Type} {ST : SessionStore S}.

Definition answered {A : Type} (f : A → store_answer) (r : (SessionStoreError + A) * S) : store_answer * S :=
  (match r.1 with inl e => AnsFailed e | inr a => f a end, r.2).

Definition store_step (o : store_op) (s : S) : store_answer * S :=
  match o with
  | StSave x => answered (λ _, AnsDone) (save x s)
  | StLoad => answered AnsLoaded (load s)
  | StClear => answered (λ _, AnsDone) (clear s)
  end.

Fixpoint store_run (l : list store_op) (s : S) : list store_answer * S :=
  match l with
  | [] => ([], s)
  | o :: l =>
      let '(a, s) := store_step o s in
      let '(answers, s) := store_run l s in
      (a :: answers, s)
  end.
End run.

(** ** The specification: a cell *)

Notation cell := (option PersistedSession).

Definition cell_step (o : store_op) (c : cell) : store_answer * cell :=
  match o with
  | StSave x => (AnsDone, Some x)
  | StLoad => (AnsLoaded c, c)
  | StClear => (AnsDone, None)
  end.

Fixpoint cell_run (l : list store_op) (c : cell) : list store_answer * cell :=
  match l with
  | [] => ([], c)
  | o :: l =>
      let '(a, c) := cell_step o c in
      let '(answers, c) := cell_run l c in
      (a :: answers, c)
  end.

(** What a store promises: [R] relates it to the cell it stands for. *)
Class StoreLaws (S : Type) (ST : SessionStore S) (R : cell → S → Prop) : Prop := {
  save_ok : ∀ c s x, R c s → PersistedSession_wf x → (save x s).1 = inr () ∧ R (Some x) (save x s).2;
  load_ok : ∀ c s, R c s → (load s).1 = inr c ∧ R c (load s).2;
  clear_ok : ∀ c s, R c s → (clear s).1 = inr () ∧ R None (clear s).2;
}.

Section refinement.
Context {S : Type} {ST : SessionStore S} {R : cell → S → Prop} {L : StoreLaws S ST R}.

Lemma store_step_refines o c s :
  R c s → store_op_wf o → (store_step o s).1 = (cell_step o c).1 ∧ R (cell_step o c).2 (store_step o s).2.
Proof.
  intros HR Hwf. destruct o as [x| |]; cbn.
  - destruct (save_ok c s x HR Hwf) as [-> Hs]. done.
  - destruct (load_ok c s HR) as [-> Hs]. done.
  - destruct (clear_ok c s HR) as [-> Hs]. done.
Qed.

Lemma store_run_refines l c s :
  R c s → Forall store_op_wf l → (store_run l s).1 = (cell_run l c).1 ∧ R (cell_run l c).2 (store_run l s).2.
Proof.
  intros HR Hl. revert c s HR. induction Hl as [|o l Ho _ IH]; intros c s HR; [done|]. cbn.
  destruct (store_step_refines o c s HR Ho) as [Ha Hs].
  destruct (store_step o s) as [a s1], (cell_step o c) as [a' c1]. cbn in Ha, Hs. subst a'.
  destruct (IH c1 s1 Hs) as [Hr Hl']. destruct (store_run l s1), (cell_run l c1). cbn in *. by rewrite Hr.
Qed.
End refinement.

#[global] Instance memory_laws : StoreLaws MemorySessionStore memory_store (λ c s, ms_inner s = c).
Proof. by split; intros; cbn; subst. Qed.

(** ** The file *)

(** The directories above [dn ++ rest] can be made: none of them is a file. *)
Definition no_file_above (dn rest : path) (n : nodes) : Prop :=
  ∀ k c m, (0 < k ≤ length rest)%nat → n !! (dn ++ take k rest) ≠ Some (File c m).

Lemma make_dirs_ok mode rest dn n :
  no_file_above dn rest n →
  ∃ n', make_dirs mode dn rest n = (inr (), n') ∧
    (∀ k, (0 < k ≤ length rest)%nat → ∃ m, n' !! (dn ++ take k rest) = Some (Dir m)) ∧
    (∀ q, (length q ≤ length dn ∨ length dn + length rest < length q)%nat → n' !! q = n !! q).
Proof.
  revert dn n. induction rest as [|c rest IH]; intros dn n Hn; cbn [make_dirs].
  { exists n. split_and!; [done | cbn; lia | done]. }
  assert (Hsnoc : ∀ k, dn ++ take (Datatypes.S k) (c :: rest) = (dn ++ [c]) ++ take k rest) by (intros k; by rewrite <-app_assoc).
  assert (Hc : ∀ x m, n !! (dn ++ [c]) ≠ Some (File x m)) by (intros x m; apply (Hn 1%nat); cbn; lia).
  assert (∃ n1, (match n !! (dn ++ [c]) with
      | Some (Dir _) => make_dirs mode (dn ++ [c]) rest n
      | Some (File _ _) => (inl not_a_directory, n)
      | None => make_dirs mode (dn ++ [c]) rest (<[dn ++ [c] := Dir mode]> n)
      end) = make_dirs mode (dn ++ [c]) rest n1 ∧ (∃ m, n1 !! (dn ++ [c]) = Some (Dir m)) ∧
      ∀ q, q ≠ dn ++ [c] → n1 !! q = n !! q) as (n1 & -> & [m Hd] & Hsame).
  { destruct (n !! (dn ++ [c])) as [[m|x m]|] eqn:Hl; [by exists n; eauto | by destruct (Hc x m) |].
    eexists. split; [done|]. split; [exists mode; by rewrite lookup_insert_eq | intros q Hq; by rewrite lookup_insert_ne]. }
  assert (Hlen : length (dn ++ [c]) = Datatypes.S (length dn)) by (rewrite length_app; cbn; lia).
  destruct (IH (dn ++ [c]) n1) as (n' & Hm & Hdirs & Hother).
  { intros k x m' Hk. rewrite Hsame; [rewrite <-Hsnoc; apply Hn; cbn; lia|].
    intros Heq. apply (f_equal length) in Heq. rewrite !length_app, length_take in Heq. cbn in Heq. lia. }
  exists n'. split; [done|]. split.
  - intros [|k] Hk; [lia|]. rewrite Hsnoc. destruct k as [|k]; [|apply Hdirs; cbn in Hk; lia].
    rewrite app_nil_r. exists m. rewrite Hother by lia. done.
  - intros q Hq. cbn in Hq. rewrite Hother by lia. apply Hsame. intros ->. lia.
Qed.

Section file.
Context {JF : JsonFile} {JL : JsonFileLaws JF}.
Context (p dir : path) (dir_mode file_mode : Z) (parse_error : string → string).
(** The path names a file in a directory. *)
Context (Hparent : parent p = Some dir).

#[local] Notation store := (file_store p dir_mode file_mode parse_error).

Definition body (x : PersistedSession) : string := to_string_pretty (to_value x).

(** The file is what the cell holds, and the file system works. *)
Definition file_cell (c : cell) (s : fs) : Prop :=
  fs_faults s = [] ∧ no_file_above [] dir (fs_nodes s) ∧
  match c with
  | None => fs_nodes s !! p = None
  | Some x => PersistedSession_wf x ∧ ∃ m, fs_nodes s !! p = Some (File (body x) m)
  end.

Lemma no_file_above_other n n' :
  (∀ q, (length q < length p)%nat → n' !! q = n !! q) → no_file_above [] dir n → no_file_above [] dir n'.
Proof.
  intros Hq Hn k c m Hk. pose proof (parent_shorter _ _ Hparent). rewrite Hq; [by apply Hn|].
  rewrite app_nil_l, length_take. lia.
Qed.

(** A call that does not fail. *)
Lemma sys_works {A : Type} (op : nodes → (io_error + A) * nodes) torn s :
  fs_faults s = [] →
  ∃ s', sys op torn s = ((op (fs_nodes s)).1, s') ∧ fs_nodes s' = (op (fs_nodes s)).2 ∧ fs_faults s' = [].
Proof.
  intros Hf. unfold sys. rewrite Hf. destruct (op (fs_nodes s)) as [r n]. by eexists.
Qed.

Lemma body_read x : PersistedSession_wf x → blank_text (body x) = false ∧ from_slice (body x) ≫= from_value = Some x.
Proof.
  intros Hx. pose proof (from_slice_pretty x Hx) as Hp. split; [by eapply from_slice_blank|].
  unfold body. rewrite Hp. cbn -[from_value to_value]. by apply from_to_value.
Qed.

Lemma make_parent_works s :
  fs_faults s = [] → no_file_above [] dir (fs_nodes s) →
  ∃ s', make_parent p dir_mode s = (inr (), s') ∧ fs_faults s' = [] ∧ no_file_above [] dir (fs_nodes s') ∧
    has_parent (fs_nodes s') p = true ∧ fs_nodes s' !! p = fs_nodes s !! p.
Proof.
  intros Hf Hn. pose proof (parent_shorter _ _ Hparent) as Hlen. unfold make_parent, has_parent. rewrite Hparent.
  destruct (decide (dir = [])) as [->|Hne]; [by exists s|].
  destruct (make_dirs_ok dir_mode dir [] (fs_nodes s) Hn) as (n' & Hm & Hdirs & Hother).
  destruct (sys_works (make_dirs dir_mode [] dir) keep s Hf) as (s' & Hs & Hn' & Hf').
  rewrite Hm in Hs, Hn'. cbn in Hs, Hn'.
  assert (∃ m, n' !! dir = Some (Dir m)) as [m Hd].
  { rewrite <-(take_ge dir (length dir)) by lia. apply (Hdirs (length dir)). destruct dir; cbn; [done | lia]. }
  exists s'. unfold create_dir_all, fs_map_err. rewrite Hn'. split_and!; [by destruct dir; [|rewrite Hs] | done | | |].
  - intros k c m' Hk Hl. destruct (Hdirs k Hk) as [m'' Hd']. cbn in Hl, Hd'. congruence.
  - rewrite Hd. by destruct dir.
  - apply Hother. cbn. lia.
Qed.

(** The three calls behind the directories, when they work. *)
Lemma write_file_works x s :
  fs_faults s = [] → has_parent (fs_nodes s) p = true → (∀ m, fs_nodes s !! p ≠ Some (Dir m)) →
  ∃ s', (fs_map_err io_unavailable (create_truncated p file_mode);;
         fs_map_err io_unavailable (write_all p (body x));; restrict_to_owner p) s = (inr (), s') ∧
    fs_faults s' = [] ∧ fs_nodes s' = <[p := File (body x) 384]> (fs_nodes s).
Proof.
  intros Hf Hp Hd. unfold create_truncated, write_all, restrict_to_owner, set_permissions, mbind, FS_bind, fs_map_err.
  match goal with |- context [sys ?op ?torn s] => destruct (sys_works op torn s Hf) as (s1 & -> & Hn1 & Hf1) end.
  assert (∃ m, fs_nodes s1 = <[p := File EmptyString m]> (fs_nodes s) ∧
    (match fs_nodes s !! p with
     | Some (Dir _) => (inl is_a_directory, fs_nodes s)
     | Some (File _ mode) => (inr (), <[p:=File EmptyString mode]> (fs_nodes s))
     | None => if has_parent (fs_nodes s) p then (inr (), <[p:=File EmptyString file_mode]> (fs_nodes s))
               else (inl not_found, fs_nodes s)
     end).1 = inr ()) as (m & Hn & ->).
  { rewrite Hn1. destruct (fs_nodes s !! p) as [[m|c m]|]; [by destruct (Hd m) | by eexists | rewrite Hp; by eexists]. }
  match goal with |- context [sys ?op ?torn s1] => destruct (sys_works op torn s1 Hf1) as (s2 & -> & Hn2 & Hf2) end.
  cbn [fst snd] in Hn2 |- *. unfold set_content in Hn2. rewrite Hn, lookup_insert_eq, insert_insert_eq in Hn2.
  match goal with |- context [sys ?op ?torn s2] => destruct (sys_works op torn s2 Hf2) as (s3 & -> & Hn3 & Hf3) end.
  rewrite Hn2, lookup_insert_eq in Hn3 |- *. cbn [fst snd] in Hn3 |- *. exists s3. by rewrite Hn3, insert_insert_eq.
Qed.

(** The answers, from those of the file system. *)
Definition loaded_from (r : io_error + string) : SessionStoreError + cell :=
  match r with
  | inl e => if decide (err_kind e = NotFound) then inr None else inl (io_unavailable e)
  | inr body =>
      if blank_text body then inr None
      else match from_slice body ≫= from_value with
           | Some session => inr (Some session)
           | None => inl (Unavailable (parse_error body))
           end
  end.

Lemma file_load_from s r s1 : read_to_string p s = (r, s1) → file_load p parse_error s = (loaded_from r, s1).
Proof.
  intros Hr. unfold file_load, fs_try, mbind, FS_bind, loaded_from. rewrite Hr.
  destruct r as [e|b]; [by case_decide|]. destruct (blank_text b); [done|].
  destruct (from_slice b) as [v|]; [|done]. cbn [mbind option_bind]. by destruct (from_value v).
Qed.

Lemma file_clear_from s r s1 :
  remove_file p s = (r, s1) →
  file_clear p s = (match r with
                    | inr () => inr ()
                    | inl e => if decide (err_kind e = NotFound) then inr () else inl (io_unavailable e)
                    end, s1).
Proof.
  intros Hr. unfold file_clear, fs_try, mbind, FS_bind. rewrite Hr. destruct r as [e|[]]; [by case_decide | done].
Qed.

#[local] Instance file_laws : StoreLaws fs store file_cell.
Proof.
  split.
  - intros c s x (Hf & Hn & Hc) Hx. destruct (make_parent_works s Hf Hn) as (s1 & Hm & Hf1 & Hn1 & Hp1 & Hsame).
    destruct (write_file_works x s1 Hf1 Hp1) as (s2 & Hw & Hf2 & Hn2).
    { intros m. rewrite Hsame. destruct c as [y|]; [destruct Hc as (_ & m' & ->); done | by rewrite Hc]. }
    assert (file_save p dir_mode file_mode x s = (inr (), s2)) as Hsave.
    { unfold file_save. unfold mbind at 1, FS_bind at 1. by rewrite Hm. }
    cbn [save file_store]. rewrite Hsave. cbn. split; [done|]. split; [done|]. rewrite Hn2. split.
    + eapply no_file_above_other; [|exact Hn1]. intros q Hq. rewrite lookup_insert_ne; [done | intros ->; lia].
    + split; [done|]. exists 384. by rewrite lookup_insert_eq.
  - intros c s (Hf & Hn & Hc). cbn [load file_store].
    destruct (sys_works (λ n, (read_result (n !! p), n)) keep s Hf) as (s1 & Hr & Hn1 & Hf1). cbn [fst snd] in Hr, Hn1.
    rewrite (file_load_from s _ s1 Hr). assert (file_cell c s1) by (by split_and!; rewrite ?Hn1).
    destruct c as [x|]; [|by rewrite Hc]. destruct Hc as (Hx & m & ->). unfold loaded_from. cbn [read_result].
    by destruct (body_read x Hx) as [-> ->].
  - intros c s (Hf & Hn & Hc). cbn [clear file_store].
    destruct (sys_works (remove_op p) keep s Hf) as (s1 & Hr & Hn1 & Hf1). rewrite (file_clear_from s _ s1 Hr).
    unfold remove_op in *. destruct c as [x|]; [destruct Hc as (Hx & m & Hc)|]; rewrite Hc in Hn1 |- *; cbn in Hn1 |- *;
      (split; [done|]); (split; [done|]); rewrite Hn1; (split; [|by rewrite ?lookup_delete_eq]); [|done].
    eapply no_file_above_other; [|exact Hn]. intros q Hq. rewrite lookup_delete_ne; [done | intros ->; lia].
Qed.

(** ** When the file system fails *)

(** What is in the file is the text of a session that was saved, or the
    beginning of one. *)
Definition honest (saved : list PersistedSession) (n : nodes) : Prop :=
  ∀ c m, n !! p = Some (File c m) → ∃ x k, x ∈ saved ∧ PersistedSession_wf x ∧ c = string_take k (body x).

Lemma honest_other saved n n' : n' !! p = n !! p → honest saved n → honest saved n'.
Proof. intros Hp Hn c m. rewrite Hp. apply Hn. Qed.

Lemma honest_write saved n x k m :
  x ∈ saved → PersistedSession_wf x → honest saved (<[p := File (string_take k (body x)) m]> n).
Proof. intros Hx Hwf c m'. rewrite lookup_insert_eq. intros [= <- _]. eauto. Qed.

Lemma make_dirs_other mode rest dn n q :
  (length dn + length rest < length q)%nat → (make_dirs mode dn rest n).2 !! q = n !! q.
Proof.
  revert dn n. induction rest as [|c rest IH]; intros dn n Hq; cbn; [done|]. cbn in Hq.
  assert (length (dn ++ [c]) = Datatypes.S (length dn)) as Hd by (rewrite length_app; cbn; lia).
  destruct (n !! (dn ++ [c])) as [[]|]; [apply IH; lia | done |].
  rewrite IH by lia. rewrite lookup_insert_ne; [done | intros <-; lia].
Qed.

Lemma string_take_long k (b : string) : (String.length b ≤ k)%nat → string_take k b = b.
Proof.
  unfold string_take. revert k. induction b as [|c b IH]; intros [|k] Hk; cbn in *; try done; [lia|].
  by rewrite IH by lia.
Qed.

Lemma honest_empty saved n x m : x ∈ saved → PersistedSession_wf x → honest saved (<[p := File EmptyString m]> n).
Proof.
  intros Hx Hwf. replace EmptyString with (string_take 0 (body x)) by (by destruct (body x)). by apply honest_write.
Qed.

Lemma honest_full saved n x m : x ∈ saved → PersistedSession_wf x → honest saved (<[p := File (body x) m]> n).
Proof. intros Hx Hwf. rewrite <-(string_take_long (String.length (body x)) (body x)) by lia. by apply honest_write. Qed.

Lemma set_content_honest saved n x k :
  x ∈ saved → PersistedSession_wf x → honest saved n → honest saved (set_content p (string_take k (body x)) n).
Proof.
  intros Hx Hwf Hn. unfold set_content. destruct (n !! p) as [[]|]; [done | by apply honest_write | done].
Qed.

(** Whatever happens while a session is saved, the file stays honest; and a
    save that succeeds has stored it, for the owner alone. *)
Lemma file_save_triple saved x :
  x ∈ saved → PersistedSession_wf x →
  triple (honest saved) (honest saved) (file_save p dir_mode file_mode x)
    (λ r n, honest saved n ∧ (r = inr () → n !! p = Some (File (body x) 384))).
Proof.
  intros Hx Hwf. pose proof (parent_shorter _ _ Hparent) as Hlen. unfold file_save.
  eapply (triple_bind _ _ _ _ (λ _ n, honest saved n)).
  - unfold make_parent. rewrite Hparent. destruct dir as [|c q]; [by apply fs_triple_ret|].
    eapply (triple_map_err _ _ _ _ _ (λ _ n, honest saved n)); [|done..].
    apply triple_sys; [|done]. intros n Hn.
    assert (honest saved (make_dirs dir_mode [] (c :: q) n).2) by (by eapply honest_other; [apply make_dirs_other; cbn in *; lia|]).
    done.
  - intros []. change (to_string_pretty (to_value x)) with (body x).
    eapply (triple_call _ _ (λ n, honest saved n ∧ ∃ m, n !! p = Some (File EmptyString m))); [|done|done|].
    + intros n Hn. destruct (n !! p) as [[m|c m]|]; [done | |destruct (has_parent n p); [|done]];
        (split; [by apply (honest_empty _ _ x)|]; intros _; split; [by apply (honest_empty _ _ x)|]);
        cbn; rewrite lookup_insert_eq; eauto.
    + eapply (triple_call _ _ (λ n, honest saved n ∧ ∃ m, n !! p = Some (File (body x) m))).
      * intros n [Hn [m Hm]]. cbn. unfold set_content. rewrite Hm, lookup_insert_eq.
        assert (honest saved (<[p := File (body x) m]> n)) by (by apply honest_full).
        eauto.
      * intros n j [Hn _]. by apply set_content_honest.
      * done.
      * unfold restrict_to_owner, set_permissions.
        eapply (triple_map_err _ _ _ _ _ (λ r n, honest saved n ∧ (r = inr () → n !! p = Some (File (body x) 384)))); [|naive_solver..].
        apply triple_sys; [|naive_solver]. intros n [Hn [m Hm]]. rewrite Hm. cbn. rewrite lookup_insert_eq.
        assert (honest saved (<[p := File (body x) 384]> n)) by (by apply honest_full).
        naive_solver.
  - naive_solver.
Qed.

(** What is loaded was saved. *)
Lemma loaded_honest saved n x : honest saved n → loaded_from (read_result (n !! p)) = inr (Some x) → x ∈ saved.
Proof.
  intros Hn. unfold loaded_from. destruct (n !! p) as [[m|c m]|] eqn:Hp; cbn [read_result]; [by case_decide | | by case_decide].
  destruct (Hn c m Hp) as (y & k & Hy & Hwf & ->). destruct (blank_text _); [done|].
  destruct (decide (k < String.length (body y))%nat) as [Hk|Hk].
  - unfold body in *. by rewrite (from_slice_cut y k Hwf Hk).
  - rewrite string_take_long by lia. destruct (body_read y Hwf) as [_ ->]. by intros [= ->].
Qed.

(** What was given to be saved, after an operation. *)
Definition given (o : store_op) (saved : list PersistedSession) : list PersistedSession :=
  match o with StSave x => x :: saved | _ => saved end.

Lemma triple_run {E A : Type} (I P : nodes → Prop) (m : FS E A) Q s : triple I P m Q → P (fs_nodes s) → Q (m s).1 (fs_nodes (m s).2).
Proof. intros Hm HP. by destruct (Hm s _ _ (surjective_pairing _) HP) as (_ & _ & _ & HQ). Qed.

Lemma file_save_run saved x s :
  PersistedSession_wf x → honest saved (fs_nodes s) →
  honest (x :: saved) (fs_nodes (file_save p dir_mode file_mode x s).2) ∧
  ((file_save p dir_mode file_mode x s).1 = inr () →
   fs_nodes (file_save p dir_mode file_mode x s).2 !! p = Some (File (body x) 384)).
Proof.
  intros Hwf Hs. apply (triple_run _ _ _ _ s (file_save_triple (x :: saved) x ltac:(by left) Hwf)).
  intros c m Hc. destruct (Hs c m Hc) as (y & k & Hy & ?). exists y, k. split; [by right | done].
Qed.

Lemma store_step_honest saved o s :
  store_op_wf o → honest saved (fs_nodes s) →
  honest (given o saved) (fs_nodes (store_step (ST := store) o s).2) ∧
  ∀ x, (store_step (ST := store) o s).1 = AnsLoaded (Some x) → x ∈ saved.
Proof.
  intros Hwf Hs. destruct o as [x| |]; cbn [store_step answered given save load clear file_store fst snd].
  - split; [by apply file_save_run|]. intros y. by destruct (file_save _ _ _ _ _) as [[|[]] ?].
  - assert (∃ r s1, read_to_string p s = (r, s1) ∧ fs_nodes s1 = fs_nodes s ∧
      (r = read_result (fs_nodes s !! p) ∨ ∃ e, r = inl e)) as (r & s1 & Hr & Hn & Hor).
    { unfold read_to_string, sys. destruct (fs_faults s) as [|[[e k]|] f]; eexists _, _; eauto. }
    rewrite (file_load_from s r s1 Hr). cbn [fst snd]. rewrite Hn. split; [done|]. intros x.
    destruct Hor as [->|[e ->]]; [|cbn; by case_decide].
    destruct (loaded_from _) as [e|[y|]] eqn:Hl; try done. intros [= <-]. by eapply loaded_honest.
  - split; [|by destruct (file_clear p s) as [[|[]] ?]].
    assert (∃ r s1, remove_file p s = (r, s1) ∧ (fs_nodes s1 = fs_nodes s ∨ fs_nodes s1 = delete p (fs_nodes s)))
      as (r & s1 & Hr & Hor).
    { unfold remove_file, remove_op, sys. destruct (fs_faults s) as [|[[e k]|] f]; [|by eexists _, _; eauto|];
        destruct (fs_nodes s !! p) as [[]|]; eexists _, _; eauto. }
    rewrite (file_clear_from s r s1 Hr). cbn [snd]. destruct Hor as [->| ->]; [done|].
    intros c m. by rewrite lookup_delete_eq.
Qed.

Lemma store_run_honest l saved s i x :
  Forall store_op_wf l → honest saved (fs_nodes s) →
  (store_run (ST := store) l s).1 !! i = Some (AnsLoaded (Some x)) →
  x ∈ saved ∨ ∃ j, (j < i)%nat ∧ l !! j = Some (StSave x).
Proof.
  intros Hl. revert saved s i. induction Hl as [|o l Ho _ IH]; intros saved s i Hs; cbn; [done|].
  destruct (store_step_honest saved o s Ho Hs) as [Hs1 Ha].
  destruct (store_step o s) as [a s1]. destruct (store_run l s1) as [answers s2] eqn:Hr.
  destruct i as [|i]; cbn; [intros [= ->]; left; by apply Ha|]. intros Hi.
  destruct (IH (given o saved) s1 i Hs1) as [Hx|(j & Hj & Hx)]; [by rewrite Hr | |right; exists (Datatypes.S j); split; [lia | done]].
  destruct o as [y| |]; [|by left..]. apply elem_of_cons in Hx as [->|Hx]; [right; exists 0%nat; split; [lia | done] | by left].
Qed.

Lemma store_run_saved l saved s i x :
  Forall store_op_wf l → honest saved (fs_nodes s) → l !! i = Some (StSave x) →
  (store_run (ST := store) l s).1 !! i = Some AnsDone →
  fs_nodes (store_run (ST := store) (take (Datatypes.S i) l) s).2 !! p = Some (File (body x) 384).
Proof.
  intros Hl. revert saved s i. induction Hl as [|o l Ho _ IH]; intros saved s i Hs; [done|]. destruct i as [|i]; cbn.
  - intros [= ->]. cbn. destruct (file_save_run saved x s Ho Hs) as [_ Hx].
    destruct (file_save p dir_mode file_mode x s) as [[e|[]] s1]; cbn in *; destruct (store_run l s1); [done|].
    intros _. by apply Hx.
  - destruct (store_step_honest saved o s Ho Hs) as [Hs1 _]. intros Hi. destruct (store_step o s) as [a s1].
    specialize (IH (given o saved) s1 i Hs1 Hi). destruct (store_run l s1) as [answers s2]. cbn [fst snd] in *.
    intros Ha. specialize (IH Ha). cbn [take]. by destruct (store_run _ s1).
Qed.

(** C29: Both session stores are a cell for one session. For every sequence
    of saves, loads and clears, the store in memory and, as long as the file
    system does what it is asked, the store in a file answer exactly as a cell
    that holds at most one session: a load returns the session saved last,
    unchanged, or none when there is none or it was cleared. *)
Theorem session_stores_refine (l : list store_op) (c : cell) (s : fs) :
  Forall store_op_wf l → file_cell c s →
  (store_run l {| ms_inner := c |}).1 = (cell_run l c).1 ∧
  (store_run (ST := store) l s).1 = (cell_run l c).1 ∧ file_cell (cell_run l c).2 (store_run (ST := store) l s).2.
Proof.
  intros Hl Hc. split.
  - by apply (store_run_refines (ST := memory_store) (R := λ c s, ms_inner s = c) l c {| ms_inner := c |} eq_refl).
  - by apply store_run_refines.
Qed.

End file.

(** ** Runs *)

(** A text form for sessions: a brace, the bits of the session's number, a
    brace. *)
Fixpoint bits_of (n : positive) : string :=
  match n with
  | xH => String "}" EmptyString
  | xO n => String "0" (bits_of n)
  | xI n => String "1" (bits_of n)
  end.

Fixpoint read_bits (s : string) : option positive :=
  match s with
  | EmptyString => None
  | String c s =>
      if Ascii.eqb c "}" then match s with EmptyString => Some xH | _ => None end
      else if Ascii.eqb c "0" then xO <$> read_bits s
      else if Ascii.eqb c "1" then xI <$> read_bits s
      else None
  end.

Definition session_fields (x : PersistedSession) : Z * string * string * Z * Z :=
  (PersistedSession_version x, PersistedSession_api_base x, PersistedSession_session_key x,
   PersistedSession_account_id x, PersistedSession_saved_at_unix x).

Definition of_fields (t : Z * string * string * Z * Z) : PersistedSession :=
  let '(version, api_base, key, account_id, saved) := t in
  {| PersistedSession_version := version; PersistedSession_api_base := api_base;
     PersistedSession_session_key := key; PersistedSession_account_id := account_id;
     PersistedSession_saved_at_unix := saved |}.

Definition bit_file : JsonFile := {|
  to_string_pretty v :=
    match from_value v with
    | Some x => String "{" (bits_of (encode (session_fields x)))
    | None => "null"
    end;
  from_slice s :=
    match s with
    | String c s => if Ascii.eqb c "{" then n ← read_bits s; t ← decode n; Some (to_value (of_fields t)) else None
    | EmptyString => None
    end;
|}.

Lemma read_bits_of n : read_bits (bits_of n) = Some n.
Proof. induction n as [n IH|n IH|]; cbn; by rewrite ?IH. Qed.

Lemma read_bits_cut n k : (k < String.length (bits_of n))%nat → read_bits (string_take k (bits_of n)) = None.
Proof.
  unfold string_take. revert k. induction n as [n IH|n IH|]; intros [|k] Hk; cbn in *; try done; [..|lia];
    by rewrite IH by lia.
Qed.

Lemma bit_file_laws : JsonFileLaws bit_file.
Proof.
  assert (Hp : ∀ x, PersistedSession_wf x →
    @to_string_pretty bit_file (to_value x) = String "{" (bits_of (encode (session_fields x)))).
  { intros x Hx. unfold to_string_pretty, bit_file. by rewrite from_to_value. }
  split.
  - intros x Hx. rewrite Hp by done. cbn -[to_value]. rewrite read_bits_of. cbn -[to_value]. rewrite decode_encode.
    by destruct x.
  - intros [|c s] v; [done|]. cbn -[to_value]. destruct (Ascii.eqb_spec c "{") as [->|]; [done | done].
  - intros x k Hx. rewrite Hp by done. destruct k as [|k]; [done|]. intros Hk. cbn in Hk.
    unfold string_take. cbn -[to_value]. change (String.substring 0 k ?b) with (string_take k b).
    by rewrite read_bits_cut by lia.
Qed.

Definition session_path : path := [root; "home"; "session.json"]%string.

Definition home : nodes := {[ [root] := Dir 493; [root; "home"%string] := Dir 493 ]}.

Definition saved_session : PersistedSession :=
  from_account_session (AccountSession_new "https://api.playit.gg" verified_session 0) 1700000000.

Definition home_store : SessionStore fs := file_store (JF := bit_file) session_path 493 420 (λ _, "not a session"%string).

Lemma home_cell : file_cell (JF := bit_file) session_path [root; "home"%string] None (no_faults home).
Proof.
  split; [done|]. split; [|done]. intros k c m Hk. cbn in Hk.
  destruct k as [|[|[|k]]]; [lia | done | done | lia].
Qed.

Lemma session_stores_refine_witness :
  let l := [StLoad; StSave saved_session; StLoad; StClear; StLoad] in
  (store_run (ST := home_store) l (no_faults home)).1 =
    [AnsLoaded None; AnsDone; AnsLoaded (Some saved_session); AnsDone; AnsLoaded None].
Proof.
  intros l. apply (session_stores_refine (JL := bit_file_laws) session_path [root; "home"%string] 493 420
    (λ _, "not a session"%string) eq_refl l None (no_faults home)).
  - subst l. repeat constructor; by vm_compute.
  - exact home_cell.
Defined.

(** The disk is full after three bytes. *)
Definition full_home : fs := {|
  fs_nodes := home;
  fs_faults := [None; None; Some (IoError Other "No space left on device", 3%nat)];
  fs_seen := [];
|}.


(** While a session is saved for the first time, the whole of it is in a file
    that others may read, until its mode is changed. *)
Example session_file_exposed :
  (λ n, n !! session_path) <$> fs_seen (file_save (JF := bit_file) session_path 493 420 saved_session (no_faults home)).2 =
    [None; Some (File EmptyString 420); Some (File (body (JF := bit_file) saved_session) 420);
     Some (File (body (JF := bit_file) saved_session) 384)].
Proof. vm_compute. reflexivity. Qed.
