(* ===== verification/IpcModel.v ===== *)
(** * The data of the IPC protocol (playit-ipc/src/model.rs)

    What the service reports and accepts, with the documents serde derives
    for it, and the proof that each type is read back from its document. *)

From S2P Require Import Prelude Json.

(** ** Enums of unit variants *)

Inductive AccountStatus : Set :=
  | Unknown
  | Guest
  | EmailNotVerified
  | Verified.

#[global] Instance AccountStatus_eq_dec : EqDecision AccountStatus.
Proof. solve_decision. Defined.

Definition AccountStatus_name (x : AccountStatus) : string :=
  match x with
  | Unknown => "unknown"
  | Guest => "guest"
  | EmailNotVerified => "email_not_verified"
  | Verified => "verified"
  end.

#[global] Instance AccountStatus_serde : Serde AccountStatus :=
  Serde_unit_enum AccountStatus_name
    [(AccountStatus_name Unknown, Unknown);
     (AccountStatus_name Guest, Guest);
     (AccountStatus_name EmailNotVerified, EmailNotVerified);
     (AccountStatus_name Verified, Verified)].

#[global] Instance AccountStatus_laws : SerdeLaws AccountStatus (λ _, True).
Proof. apply unit_enum_laws. by intros []. Qed.

Definition AccountStatus_default : AccountStatus := Unknown.

Inductive LogLevel : Set :=
  | LogTrace
  | LogDebug
  | LogInfo
  | LogWarn
  | LogError.

#[global] Instance LogLevel_eq_dec : EqDecision LogLevel.
Proof. solve_decision. Defined.

Definition LogLevel_name (x : LogLevel) : string :=
  match x with
  | LogTrace => "trace"
  | LogDebug => "debug"
  | LogInfo => "info"
  | LogWarn => "warn"
  | LogError => "error"
  end.

#[global] Instance LogLevel_serde : Serde LogLevel :=
  Serde_unit_enum LogLevel_name
    [(LogLevel_name LogTrace, LogTrace);
     (LogLevel_name LogDebug, LogDebug);
     (LogLevel_name LogInfo, LogInfo);
     (LogLevel_name LogWarn, LogWarn);
     (LogLevel_name LogError, LogError)].

#[global] Instance LogLevel_laws : SerdeLaws LogLevel (λ _, True).
Proof. apply unit_enum_laws. by intros []. Qed.

Definition LogLevel_default : LogLevel := LogInfo.

Inductive ServicePhase : Set :=
  | PhaseWaitingForSecret
  | PhaseHasInvalidSecret
  | PhaseDisabledOverLimit
  | PhaseStarting
  | PhaseReconnecting
  | PhaseRunning
  | PhaseStopping
  | PhaseError.

#[global] Instance ServicePhase_eq_dec : EqDecision ServicePhase.
Proof. solve_decision. Defined.

Definition ServicePhase_name (x : ServicePhase) : string :=
  match x with
  | PhaseWaitingForSecret => "waiting_for_secret"
  | PhaseHasInvalidSecret => "has_invalid_secret"
  | PhaseDisabledOverLimit => "disabled_over_limit"
  | PhaseStarting => "starting"
  | PhaseReconnecting => "reconnecting"
  | PhaseRunning => "running"
  | PhaseStopping => "stopping"
  | PhaseError => "error"
  end.

#[global] Instance ServicePhase_serde : Serde ServicePhase :=
  Serde_unit_enum ServicePhase_name
    [(ServicePhase_name PhaseWaitingForSecret, PhaseWaitingForSecret);
     (ServicePhase_name PhaseHasInvalidSecret, PhaseHasInvalidSecret);
     (ServicePhase_name PhaseDisabledOverLimit, PhaseDisabledOverLimit);
     (ServicePhase_name PhaseStarting, PhaseStarting);
     (ServicePhase_name PhaseReconnecting, PhaseReconnecting);
     (ServicePhase_name PhaseRunning, PhaseRunning);
     (ServicePhase_name PhaseStopping, PhaseStopping);
     (ServicePhase_name PhaseError, PhaseError)].

#[global] Instance ServicePhase_laws : SerdeLaws ServicePhase (λ _, True).
Proof. apply unit_enum_laws. by intros []. Qed.

Definition ServicePhase_default : ServicePhase := PhaseStarting.

Inductive ServiceErrorCode : Set :=
  | Internal
  | UnsupportedProtocol
  | InvalidRequest
  | InvalidRequestType
  | AgentDisabledOverLimit
  | InvalidSecret
  | SecretPinned
  | ProvisioningUnavailable
  | SecretWriteFailed
  | ApiUnavailable
  | InvalidTunnelRequest
  | TunnelNotFound
  | ApiRejected
  | PermissionDenied.

#[global] Instance ServiceErrorCode_eq_dec : EqDecision ServiceErrorCode.
Proof. solve_decision. Defined.

Definition ServiceErrorCode_name (x : ServiceErrorCode) : string :=
  match x with
  | Internal => "internal"
  | UnsupportedProtocol => "unsupported_protocol"
  | InvalidRequest => "invalid_request"
  | InvalidRequestType => "invalid_request_type"
  | AgentDisabledOverLimit => "agent_disabled_over_limit"
  | InvalidSecret => "invalid_secret"
  | SecretPinned => "secret_pinned"
  | ProvisioningUnavailable => "provisioning_unavailable"
  | SecretWriteFailed => "secret_write_failed"
  | ApiUnavailable => "api_unavailable"
  | InvalidTunnelRequest => "invalid_tunnel_request"
  | TunnelNotFound => "tunnel_not_found"
  | ApiRejected => "api_rejected"
  | PermissionDenied => "permission_denied"
  end.

#[global] Instance ServiceErrorCode_serde : Serde ServiceErrorCode :=
  Serde_unit_enum ServiceErrorCode_name
    [(ServiceErrorCode_name Internal, Internal);
     (ServiceErrorCode_name UnsupportedProtocol, UnsupportedProtocol);
     (ServiceErrorCode_name InvalidRequest, InvalidRequest);
     (ServiceErrorCode_name InvalidRequestType, InvalidRequestType);
     (ServiceErrorCode_name AgentDisabledOverLimit, AgentDisabledOverLimit);
     (ServiceErrorCode_name InvalidSecret, InvalidSecret);
     (ServiceErrorCode_name SecretPinned, SecretPinned);
     (ServiceErrorCode_name ProvisioningUnavailable, ProvisioningUnavailable);
     (ServiceErrorCode_name SecretWriteFailed, SecretWriteFailed);
     (ServiceErrorCode_name ApiUnavailable, ApiUnavailable);
     (ServiceErrorCode_name InvalidTunnelRequest, InvalidTunnelRequest);
     (ServiceErrorCode_name TunnelNotFound, TunnelNotFound);
     (ServiceErrorCode_name ApiRejected, ApiRejected);
     (ServiceErrorCode_name PermissionDenied, PermissionDenied)].

#[global] Instance ServiceErrorCode_laws : SerdeLaws ServiceErrorCode (λ _, True).
Proof. apply unit_enum_laws. by intros []. Qed.

Definition ServiceErrorCode_default : ServiceErrorCode := Internal.

Inductive TunnelProtocol : Set :=
  | ProtocolTcp
  | ProtocolUdp
  | ProtocolBoth.

#[global] Instance TunnelProtocol_eq_dec : EqDecision TunnelProtocol.
Proof. solve_decision. Defined.

Definition TunnelProtocol_name (x : TunnelProtocol) : string :=
  match x with
  | ProtocolTcp => "tcp"
  | ProtocolUdp => "udp"
  | ProtocolBoth => "both"
  end.

#[global] Instance TunnelProtocol_serde : Serde TunnelProtocol :=
  Serde_unit_enum TunnelProtocol_name
    [(TunnelProtocol_name ProtocolTcp, ProtocolTcp);
     (TunnelProtocol_name ProtocolUdp, ProtocolUdp);
     (TunnelProtocol_name ProtocolBoth, ProtocolBoth)].

#[global] Instance TunnelProtocol_laws : SerdeLaws TunnelProtocol (λ _, True).
Proof. apply unit_enum_laws. by intros []. Qed.

Definition TunnelProtocol_default : TunnelProtocol := ProtocolTcp.

(** ** Structs and tagged enums *)

Record ProtocolInfo : Set := {
  pi_ipc_version : Z;
  pi_capabilities : list string;
}.

Definition ProtocolInfo_to_value (x : ProtocolInfo) : value :=
  Object
    [("ipc_version"%string, to_value (Serde := (Serde_uint 32)) (pi_ipc_version x));
     ("capabilities"%string, to_value (Serde := (@Serde_list _ Serde_string)) (pi_capabilities x))].

Definition ProtocolInfo_from_value (v : value) : option ProtocolInfo :=
  entries ← entries_of v;
  pi_ipc_version' ← field (Serde_uint 32) "ipc_version" entries;
  pi_capabilities' ← field (@Serde_list _ Serde_string) "capabilities" entries;
  Some {| pi_ipc_version := pi_ipc_version';
          pi_capabilities := pi_capabilities' |}.

#[global] Instance ProtocolInfo_serde : Serde ProtocolInfo :=
  {| to_value := ProtocolInfo_to_value; from_value := ProtocolInfo_from_value |}.

Definition ProtocolInfo_wf (x : ProtocolInfo) : Prop :=
  uint 32 (pi_ipc_version x).

#[global] Instance ProtocolInfo_laws : SerdeLaws ProtocolInfo ProtocolInfo_wf.
Proof. serde_struct. Qed.

Definition ProtocolInfo_default : ProtocolInfo :=
  {| pi_ipc_version := 0;
     pi_capabilities := [] |}.

Record ServiceError : Set := {
  se_code : ServiceErrorCode;
  se_message : string;
  se_retryable : bool;
  se_details : option value;
}.

Definition ServiceError_to_value (x : ServiceError) : value :=
  Object
    [("code"%string, to_value (Serde := ServiceErrorCode_serde) (se_code x));
     ("message"%string, to_value (Serde := Serde_string) (se_message x));
     ("retryable"%string, to_value (Serde := Serde_bool) (se_retryable x));
     ("details"%string, to_value (Serde := (@Serde_option _ Serde_value)) (se_details x))].

Definition ServiceError_from_value (v : value) : option ServiceError :=
  entries ← entries_of v;
  se_code' ← field ServiceErrorCode_serde "code" entries;
  se_message' ← field Serde_string "message" entries;
  se_retryable' ← field Serde_bool "retryable" entries;
  se_details' ← field_or (@Serde_option _ Serde_value) None "details" entries;
  Some {| se_code := se_code';
          se_message := se_message';
          se_retryable := se_retryable';
          se_details := se_details' |}.

#[global] Instance ServiceError_serde : Serde ServiceError :=
  {| to_value := ServiceError_to_value; from_value := ServiceError_from_value |}.

Definition ServiceError_wf (x : ServiceError) : Prop :=
  from_option (λ v, v ≠ Null) True (se_details x).

#[global] Instance ServiceError_laws : SerdeLaws ServiceError ServiceError_wf.
Proof. serde_struct. Qed.

Record TunnelState : Set := {
  ts_id : string;
  ts_name : option string;
  ts_display_address : string;
  ts_destination : string;
  ts_protocol : TunnelProtocol;
  ts_port_count : Z;
  ts_local_address : option string;
  ts_local_port : option Z;
  ts_is_disabled : bool;
  ts_disabled_reason : option string;
}.

Definition TunnelState_to_value (x : TunnelState) : value :=
  Object
    [("id"%string, to_value (Serde := Serde_string) (ts_id x));
     ("name"%string, to_value (Serde := (@Serde_option _ Serde_string)) (ts_name x));
     ("display_address"%string, to_value (Serde := Serde_string) (ts_display_address x));
     ("destination"%string, to_value (Serde := Serde_string) (ts_destination x));
     ("protocol"%string, to_value (Serde := TunnelProtocol_serde) (ts_protocol x));
     ("port_count"%string, to_value (Serde := (Serde_uint 16)) (ts_port_count x));
     ("local_address"%string, to_value (Serde := (@Serde_option _ Serde_string)) (ts_local_address x));
     ("local_port"%string, to_value (Serde := (@Serde_option _ (Serde_uint 16))) (ts_local_port x));
     ("is_disabled"%string, to_value (Serde := Serde_bool) (ts_is_disabled x));
     ("disabled_reason"%string, to_value (Serde := (@Serde_option _ Serde_string)) (ts_disabled_reason x))].

Definition TunnelState_from_value (v : value) : option TunnelState :=
  entries ← entries_of v;
  ts_id' ← field_or Serde_string EmptyString "id" entries;
  ts_name' ← field_or (@Serde_option _ Serde_string) None "name" entries;
  ts_display_address' ← field Serde_string "display_address" entries;
  ts_destination' ← field Serde_string "destination" entries;
  ts_protocol' ← field_or TunnelProtocol_serde ProtocolTcp "protocol" entries;
  ts_port_count' ← field_or (Serde_uint 16) 0 "port_count" entries;
  ts_local_address' ← field_or (@Serde_option _ Serde_string) None "local_address" entries;
  ts_local_port' ← field_or (@Serde_option _ (Serde_uint 16)) None "local_port" entries;
  ts_is_disabled' ← field Serde_bool "is_disabled" entries;
  ts_disabled_reason' ← field_or (@Serde_option _ Serde_string) None "disabled_reason" entries;
  Some {| ts_id := ts_id';
          ts_name := ts_name';
          ts_display_address := ts_display_address';
          ts_destination := ts_destination';
          ts_protocol := ts_protocol';
          ts_port_count := ts_port_count';
          ts_local_address := ts_local_address';
          ts_local_port := ts_local_port';
          ts_is_disabled := ts_is_disabled';
          ts_disabled_reason := ts_disabled_reason' |}.

#[global] Instance TunnelState_serde : Serde TunnelState :=
  {| to_value := TunnelState_to_value; from_value := TunnelState_from_value |}.

Definition TunnelState_wf (x : TunnelState) : Prop :=
  uint 16 (ts_port_count x) ∧
  from_option (uint 16) True (ts_local_port x).

#[global] Instance TunnelState_laws : SerdeLaws TunnelState TunnelState_wf.
Proof. serde_struct. Qed.

Record PendingTunnelState : Set := {
  pts_id : string;
  pts_status_msg : string;
}.

Definition PendingTunnelState_to_value (x : PendingTunnelState) : value :=
  Object
    [("id"%string, to_value (Serde := Serde_string) (pts_id x));
     ("status_msg"%string, to_value (Serde := Serde_string) (pts_status_msg x))].

Definition PendingTunnelState_from_value (v : value) : option PendingTunnelState :=
  entries ← entries_of v;
  pts_id' ← field Serde_string "id" entries;
  pts_status_msg' ← field Serde_string "status_msg" entries;
  Some {| pts_id := pts_id';
          pts_status_msg := pts_status_msg' |}.

#[global] Instance PendingTunnelState_serde : Serde PendingTunnelState :=
  {| to_value := PendingTunnelState_to_value; from_value := PendingTunnelState_from_value |}.

#[global] Instance PendingTunnelState_laws : SerdeLaws PendingTunnelState (λ _, True).
Proof. serde_struct. Qed.

Record NoticeState : Set := {
  ns_priority : string;
  ns_message : string;
  ns_resolve_link : option string;
}.

Definition NoticeState_to_value (x : NoticeState) : value :=
  Object
    [("priority"%string, to_value (Serde := Serde_string) (ns_priority x));
     ("message"%string, to_value (Serde := Serde_string) (ns_message x));
     ("resolve_link"%string, to_value (Serde := (@Serde_option _ Serde_string)) (ns_resolve_link x))].

Definition NoticeState_from_value (v : value) : option NoticeState :=
  entries ← entries_of v;
  ns_priority' ← field Serde_string "priority" entries;
  ns_message' ← field Serde_string "message" entries;
  ns_resolve_link' ← field_or (@Serde_option _ Serde_string) None "resolve_link" entries;
  Some {| ns_priority := ns_priority';
          ns_message := ns_message';
          ns_resolve_link := ns_resolve_link' |}.

#[global] Instance NoticeState_serde : Serde NoticeState :=
  {| to_value := NoticeState_to_value; from_value := NoticeState_from_value |}.

#[global] Instance NoticeState_laws : SerdeLaws NoticeState (λ _, True).
Proof. serde_struct. Qed.

Record AgentState : Set := {
  as_version : string;
  as_tunnels : list TunnelState;
  as_pending_tunnels : list PendingTunnelState;
  as_notices : list NoticeState;
  as_account_status : AccountStatus;
  as_agent_id : string;
  as_login_link : option string;
  as_start_time : Z;
}.

Definition AgentState_to_value (x : AgentState) : value :=
  Object
    [("version"%string, to_value (Serde := Serde_string) (as_version x));
     ("tunnels"%string, to_value (Serde := (@Serde_list _ TunnelState_serde)) (as_tunnels x));
     ("pending_tunnels"%string, to_value (Serde := (@Serde_list _ PendingTunnelState_serde)) (as_pending_tunnels x));
     ("notices"%string, to_value (Serde := (@Serde_list _ NoticeState_serde)) (as_notices x));
     ("account_status"%string, to_value (Serde := AccountStatus_serde) (as_account_status x));
     ("agent_id"%string, to_value (Serde := Serde_string) (as_agent_id x));
     ("login_link"%string, to_value (Serde := (@Serde_option _ Serde_string)) (as_login_link x));
     ("start_time"%string, to_value (Serde := (Serde_uint 64)) (as_start_time x))].

Definition AgentState_from_value (v : value) : option AgentState :=
  entries ← entries_of v;
  as_version' ← field Serde_string "version" entries;
  as_tunnels' ← field (@Serde_list _ TunnelState_serde) "tunnels" entries;
  as_pending_tunnels' ← field (@Serde_list _ PendingTunnelState_serde) "pending_tunnels" entries;
  as_notices' ← field (@Serde_list _ NoticeState_serde) "notices" entries;
  as_account_status' ← field AccountStatus_serde "account_status" entries;
  as_agent_id' ← field Serde_string "agent_id" entries;
  as_login_link' ← field_or (@Serde_option _ Serde_string) None "login_link" entries;
  as_start_time' ← field (Serde_uint 64) "start_time" entries;
  Some {| as_version := as_version';
          as_tunnels := as_tunnels';
          as_pending_tunnels := as_pending_tunnels';
          as_notices := as_notices';
          as_account_status := as_account_status';
          as_agent_id := as_agent_id';
          as_login_link := as_login_link';
          as_start_time := as_start_time' |}.

#[global] Instance AgentState_serde : Serde AgentState :=
  {| to_value := AgentState_to_value; from_value := AgentState_from_value |}.

Definition AgentState_wf (x : AgentState) : Prop :=
  Forall TunnelState_wf (as_tunnels x) ∧
  uint 64 (as_start_time x).

#[global] Instance AgentState_laws : SerdeLaws AgentState AgentState_wf.
Proof. serde_struct. Qed.

(** [tag = "state", content = "data"]. *)
Inductive AgentLifecycle : Set :=
  | WaitingForSecret
  | HasInvalidSecret (e : ServiceError)
  | DisabledOverLimit (e : ServiceError)
  | Starting
  | Running (state : AgentState)
  | Stopping
  | LifecycleError (e : ServiceError).

Definition AgentLifecycle_to_value (x : AgentLifecycle) : value :=
  match x with
  | WaitingForSecret => adjacent "state" "data" "waiting_for_secret" None
  | HasInvalidSecret e => adjacent "state" "data" "has_invalid_secret" (Some (to_value e))
  | DisabledOverLimit e => adjacent "state" "data" "disabled_over_limit" (Some (to_value e))
  | Starting => adjacent "state" "data" "starting" None
  | Running state => adjacent "state" "data" "running" (Some (to_value state))
  | Stopping => adjacent "state" "data" "stopping" None
  | LifecycleError e => adjacent "state" "data" "error" (Some (to_value e))
  end.

Definition AgentLifecycle_from_value (v : value) : option AgentLifecycle :=
  '(name, data) ← adjacent_parts "state" "data" v;
  variant ← find_variant name
    [("waiting_for_secret", unit_variant WaitingForSecret);
     ("has_invalid_secret", newtype_variant ServiceError_serde HasInvalidSecret);
     ("disabled_over_limit", newtype_variant ServiceError_serde DisabledOverLimit);
     ("starting", unit_variant Starting);
     ("running", newtype_variant AgentState_serde Running);
     ("stopping", unit_variant Stopping);
     ("error", newtype_variant ServiceError_serde LifecycleError)]%string;
  variant data.

#[global] Instance AgentLifecycle_serde : Serde AgentLifecycle :=
  {| to_value := AgentLifecycle_to_value; from_value := AgentLifecycle_from_value |}.

Definition AgentLifecycle_wf (x : AgentLifecycle) : Prop :=
  match x with
  | HasInvalidSecret e | DisabledOverLimit e | LifecycleError e => ServiceError_wf e
  | Running state => AgentState_wf state
  | WaitingForSecret | Starting | Stopping => True
  end.

#[global] Instance AgentLifecycle_laws : SerdeLaws AgentLifecycle AgentLifecycle_wf.
Proof. split; [|by intros []]. intros [] Hwf; serde_variant. Qed.

Definition AgentLifecycle_default : AgentLifecycle := Starting.

Record ConnectionStats : Set := {
  cs_bytes_in : Z;
  cs_bytes_out : Z;
  cs_active_tcp : Z;
  cs_active_udp : Z;
}.

Definition ConnectionStats_to_value (x : ConnectionStats) : value :=
  Object
    [("bytes_in"%string, to_value (Serde := (Serde_uint 64)) (cs_bytes_in x));
     ("bytes_out"%string, to_value (Serde := (Serde_uint 64)) (cs_bytes_out x));
     ("active_tcp"%string, to_value (Serde := (Serde_uint 32)) (cs_active_tcp x));
     ("active_udp"%string, to_value (Serde := (Serde_uint 32)) (cs_active_udp x))].

Definition ConnectionStats_from_value (v : value) : option ConnectionStats :=
  entries ← entries_of v;
  cs_bytes_in' ← field (Serde_uint 64) "bytes_in" entries;
  cs_bytes_out' ← field (Serde_uint 64) "bytes_out" entries;
  cs_active_tcp' ← field (Serde_uint 32) "active_tcp" entries;
  cs_active_udp' ← field (Serde_uint 32) "active_udp" entries;
  Some {| cs_bytes_in := cs_bytes_in';
          cs_bytes_out := cs_bytes_out';
          cs_active_tcp := cs_active_tcp';
          cs_active_udp := cs_active_udp' |}.

#[global] Instance ConnectionStats_serde : Serde ConnectionStats :=
  {| to_value := ConnectionStats_to_value; from_value := ConnectionStats_from_value |}.

Definition ConnectionStats_wf (x : ConnectionStats) : Prop :=
  uint 64 (cs_bytes_in x) ∧
  uint 64 (cs_bytes_out x) ∧
  uint 32 (cs_active_tcp x) ∧
  uint 32 (cs_active_udp x).

#[global] Instance ConnectionStats_laws : SerdeLaws ConnectionStats ConnectionStats_wf.
Proof. serde_struct. Qed.

Definition ConnectionStats_default : ConnectionStats :=
  {| cs_bytes_in := 0;
     cs_bytes_out := 0;
     cs_active_tcp := 0;
     cs_active_udp := 0 |}.

Record ServiceStatus : Set := {
  ss_phase : ServicePhase;
  ss_pid : Z;
  ss_uptime_secs : Z;
  ss_version : string;
  ss_socket_path : string;
  ss_secret_path : option string;
  ss_has_secret : bool;
  ss_protocol : ProtocolInfo;
  ss_last_error : option ServiceError;
}.

Definition ServiceStatus_to_value (x : ServiceStatus) : value :=
  Object
    [("phase"%string, to_value (Serde := ServicePhase_serde) (ss_phase x));
     ("pid"%string, to_value (Serde := (Serde_uint 32)) (ss_pid x));
     ("uptime_secs"%string, to_value (Serde := (Serde_uint 64)) (ss_uptime_secs x));
     ("version"%string, to_value (Serde := Serde_string) (ss_version x));
     ("socket_path"%string, to_value (Serde := Serde_string) (ss_socket_path x));
     ("secret_path"%string, to_value (Serde := (@Serde_option _ Serde_string)) (ss_secret_path x));
     ("has_secret"%string, to_value (Serde := Serde_bool) (ss_has_secret x));
     ("protocol"%string, to_value (Serde := ProtocolInfo_serde) (ss_protocol x));
     ("last_error"%string, to_value (Serde := (@Serde_option _ ServiceError_serde)) (ss_last_error x))].

Definition ServiceStatus_from_value (v : value) : option ServiceStatus :=
  entries ← entries_of v;
  ss_phase' ← field ServicePhase_serde "phase" entries;
  ss_pid' ← field (Serde_uint 32) "pid" entries;
  ss_uptime_secs' ← field (Serde_uint 64) "uptime_secs" entries;
  ss_version' ← field Serde_string "version" entries;
  ss_socket_path' ← field Serde_string "socket_path" entries;
  ss_secret_path' ← field_or (@Serde_option _ Serde_string) None "secret_path" entries;
  ss_has_secret' ← field Serde_bool "has_secret" entries;
  ss_protocol' ← field ProtocolInfo_serde "protocol" entries;
  ss_last_error' ← field_or (@Serde_option _ ServiceError_serde) None "last_error" entries;
  Some {| ss_phase := ss_phase';
          ss_pid := ss_pid';
          ss_uptime_secs := ss_uptime_secs';
          ss_version := ss_version';
          ss_socket_path := ss_socket_path';
          ss_secret_path := ss_secret_path';
          ss_has_secret := ss_has_secret';
          ss_protocol := ss_protocol';
          ss_last_error := ss_last_error' |}.

#[global] Instance ServiceStatus_serde : Serde ServiceStatus :=
  {| to_value := ServiceStatus_to_value; from_value := ServiceStatus_from_value |}.

Definition ServiceStatus_wf (x : ServiceStatus) : Prop :=
  uint 32 (ss_pid x) ∧
  uint 64 (ss_uptime_secs x) ∧
  ProtocolInfo_wf (ss_protocol x) ∧
  from_option (ServiceError_wf) True (ss_last_error x).

#[global] Instance ServiceStatus_laws : SerdeLaws ServiceStatus ServiceStatus_wf.
Proof. serde_struct. Qed.

Definition ServiceStatus_default : ServiceStatus :=
  {| ss_phase := PhaseStarting;
     ss_pid := 0;
     ss_uptime_secs := 0;
     ss_version := EmptyString;
     ss_socket_path := EmptyString;
     ss_secret_path := None;
     ss_has_secret := false;
     ss_protocol := ProtocolInfo_default;
     ss_last_error := None |}.

Record LogEntry : Set := {
  le_level : LogLevel;
  le_target : string;
  le_message : string;
  le_timestamp : Z;
}.

Definition LogEntry_to_value (x : LogEntry) : value :=
  Object
    [("level"%string, to_value (Serde := LogLevel_serde) (le_level x));
     ("target"%string, to_value (Serde := Serde_string) (le_target x));
     ("message"%string, to_value (Serde := Serde_string) (le_message x));
     ("timestamp"%string, to_value (Serde := (Serde_uint 64)) (le_timestamp x))].

Definition LogEntry_from_value (v : value) : option LogEntry :=
  entries ← entries_of v;
  le_level' ← field LogLevel_serde "level" entries;
  le_target' ← field Serde_string "target" entries;
  le_message' ← field Serde_string "message" entries;
  le_timestamp' ← field (Serde_uint 64) "timestamp" entries;
  Some {| le_level := le_level';
          le_target := le_target';
          le_message := le_message';
          le_timestamp := le_timestamp' |}.

#[global] Instance LogEntry_serde : Serde LogEntry :=
  {| to_value := LogEntry_to_value; from_value := LogEntry_from_value |}.

Definition LogEntry_wf (x : LogEntry) : Prop :=
  uint 64 (le_timestamp x).

#[global] Instance LogEntry_laws : SerdeLaws LogEntry LogEntry_wf.
Proof. serde_struct. Qed.

Record SubscriptionSnapshot : Set := {
  sn_status : ServiceStatus;
  sn_lifecycle : AgentLifecycle;
  sn_stats : ConnectionStats;
}.

Definition SubscriptionSnapshot_to_value (x : SubscriptionSnapshot) : value :=
  Object
    [("status"%string, to_value (Serde := ServiceStatus_serde) (sn_status x));
     ("lifecycle"%string, to_value (Serde := AgentLifecycle_serde) (sn_lifecycle x));
     ("stats"%string, to_value (Serde := ConnectionStats_serde) (sn_stats x))].

Definition SubscriptionSnapshot_from_value (v : value) : option SubscriptionSnapshot :=
  entries ← entries_of v;
  sn_status' ← field ServiceStatus_serde "status" entries;
  sn_lifecycle' ← field AgentLifecycle_serde "lifecycle" entries;
  sn_stats' ← field ConnectionStats_serde "stats" entries;
  Some {| sn_status := sn_status';
          sn_lifecycle := sn_lifecycle';
          sn_stats := sn_stats' |}.

#[global] Instance SubscriptionSnapshot_serde : Serde SubscriptionSnapshot :=
  {| to_value := SubscriptionSnapshot_to_value; from_value := SubscriptionSnapshot_from_value |}.

Definition SubscriptionSnapshot_wf (x : SubscriptionSnapshot) : Prop :=
  ServiceStatus_wf (sn_status x) ∧
  AgentLifecycle_wf (sn_lifecycle x) ∧
  ConnectionStats_wf (sn_stats x).

#[global] Instance SubscriptionSnapshot_laws : SerdeLaws SubscriptionSnapshot SubscriptionSnapshot_wf.
Proof. serde_struct. Qed.

(** [tag = "type", content = "data"]. *)
Inductive ServiceUpdate : Set :=
  | UpdateStatus (s : ServiceStatus)
  | UpdateLifecycle (l : AgentLifecycle)
  | UpdateStats (s : ConnectionStats)
  | UpdateLog (l : LogEntry).

Definition ServiceUpdate_to_value (x : ServiceUpdate) : value :=
  match x with
  | UpdateStatus s => adjacent "type" "data" "status" (Some (to_value s))
  | UpdateLifecycle l => adjacent "type" "data" "lifecycle" (Some (to_value l))
  | UpdateStats s => adjacent "type" "data" "stats" (Some (to_value s))
  | UpdateLog l => adjacent "type" "data" "log" (Some (to_value l))
  end.

Definition ServiceUpdate_from_value (v : value) : option ServiceUpdate :=
  '(name, data) ← adjacent_parts "type" "data" v;
  variant ← find_variant name
    [("status", newtype_variant ServiceStatus_serde UpdateStatus);
     ("lifecycle", newtype_variant AgentLifecycle_serde UpdateLifecycle);
     ("stats", newtype_variant ConnectionStats_serde UpdateStats);
     ("log", newtype_variant LogEntry_serde UpdateLog)]%string;
  variant data.

#[global] Instance ServiceUpdate_serde : Serde ServiceUpdate :=
  {| to_value := ServiceUpdate_to_value; from_value := ServiceUpdate_from_value |}.

Definition ServiceUpdate_wf (x : ServiceUpdate) : Prop :=
  match x with
  | UpdateStatus s => ServiceStatus_wf s
  | UpdateLifecycle l => AgentLifecycle_wf l
  | UpdateStats s => ConnectionStats_wf s
  | UpdateLog l => LogEntry_wf l
  end.

#[global] Instance ServiceUpdate_laws : SerdeLaws ServiceUpdate ServiceUpdate_wf.
Proof. split; [|by intros []]. intros [] Hwf; serde_variant. Qed.

Record CommandResponse : Set := {
  cr_accepted : bool;
  cr_message : option string;
}.

Definition CommandResponse_to_value (x : CommandResponse) : value :=
  Object
    [("accepted"%string, to_value (Serde := Serde_bool) (cr_accepted x));
     ("message"%string, to_value (Serde := (@Serde_option _ Serde_string)) (cr_message x))].

Definition CommandResponse_from_value (v : value) : option CommandResponse :=
  entries ← entries_of v;
  cr_accepted' ← field Serde_bool "accepted" entries;
  cr_message' ← field_or (@Serde_option _ Serde_string) None "message" entries;
  Some {| cr_accepted := cr_accepted';
          cr_message := cr_message' |}.

#[global] Instance CommandResponse_serde : Serde CommandResponse :=
  {| to_value := CommandResponse_to_value; from_value := CommandResponse_from_value |}.

#[global] Instance CommandResponse_laws : SerdeLaws CommandResponse (λ _, True).
Proof. serde_struct. Qed.

Record SecretPathResponse : Set := {
  sp_secret_path : option string;
}.

Definition SecretPathResponse_to_value (x : SecretPathResponse) : value :=
  Object
    [("secret_path"%string, to_value (Serde := (@Serde_option _ Serde_string)) (sp_secret_path x))].

Definition SecretPathResponse_from_value (v : value) : option SecretPathResponse :=
  entries ← entries_of v;
  sp_secret_path' ← field_or (@Serde_option _ Serde_string) None "secret_path" entries;
  Some {| sp_secret_path := sp_secret_path' |}.

#[global] Instance SecretPathResponse_serde : Serde SecretPathResponse :=
  {| to_value := SecretPathResponse_to_value; from_value := SecretPathResponse_from_value |}.

#[global] Instance SecretPathResponse_laws : SerdeLaws SecretPathResponse (λ _, True).
Proof. serde_struct. Qed.

Record AccountLoginUrlResponse : Set := {
  al_login_url : string;
}.

Definition AccountLoginUrlResponse_to_value (x : AccountLoginUrlResponse) : value :=
  Object
    [("login_url"%string, to_value (Serde := Serde_string) (al_login_url x))].

Definition AccountLoginUrlResponse_from_value (v : value) : option AccountLoginUrlResponse :=
  entries ← entries_of v;
  al_login_url' ← field Serde_string "login_url" entries;
  Some {| al_login_url := al_login_url' |}.

#[global] Instance AccountLoginUrlResponse_serde : Serde AccountLoginUrlResponse :=
  {| to_value := AccountLoginUrlResponse_to_value; from_value := AccountLoginUrlResponse_from_value |}.

#[global] Instance AccountLoginUrlResponse_laws : SerdeLaws AccountLoginUrlResponse (λ _, True).
Proof. serde_struct. Qed.

Record SubscribeResponse : Set := {
  sr_protocol : ProtocolInfo;
  sr_snapshot : SubscriptionSnapshot;
}.

Definition SubscribeResponse_to_value (x : SubscribeResponse) : value :=
  Object
    [("protocol"%string, to_value (Serde := ProtocolInfo_serde) (sr_protocol x));
     ("snapshot"%string, to_value (Serde := SubscriptionSnapshot_serde) (sr_snapshot x))].

Definition SubscribeResponse_from_value (v : value) : option SubscribeResponse :=
  entries ← entries_of v;
  sr_protocol' ← field ProtocolInfo_serde "protocol" entries;
  sr_snapshot' ← field SubscriptionSnapshot_serde "snapshot" entries;
  Some {| sr_protocol := sr_protocol';
          sr_snapshot := sr_snapshot' |}.

#[global] Instance SubscribeResponse_serde : Serde SubscribeResponse :=
  {| to_value := SubscribeResponse_to_value; from_value := SubscribeResponse_from_value |}.

Definition SubscribeResponse_wf (x : SubscribeResponse) : Prop :=
  ProtocolInfo_wf (sr_protocol x) ∧
  SubscriptionSnapshot_wf (sr_snapshot x).

#[global] Instance SubscribeResponse_laws : SerdeLaws SubscribeResponse SubscribeResponse_wf.
Proof. serde_struct. Qed.

Record TunnelListResponse : Set := {
  tl_tunnels : list TunnelState;
  tl_pending_tunnels : list PendingTunnelState;
}.

Definition TunnelListResponse_to_value (x : TunnelListResponse) : value :=
  Object
    [("tunnels"%string, to_value (Serde := (@Serde_list _ TunnelState_serde)) (tl_tunnels x));
     ("pending_tunnels"%string, to_value (Serde := (@Serde_list _ PendingTunnelState_serde)) (tl_pending_tunnels x))].

Definition TunnelListResponse_from_value (v : value) : option TunnelListResponse :=
  entries ← entries_of v;
  tl_tunnels' ← field (@Serde_list _ TunnelState_serde) "tunnels" entries;
  tl_pending_tunnels' ← field (@Serde_list _ PendingTunnelState_serde) "pending_tunnels" entries;
  Some {| tl_tunnels := tl_tunnels';
          tl_pending_tunnels := tl_pending_tunnels' |}.

#[global] Instance TunnelListResponse_serde : Serde TunnelListResponse :=
  {| to_value := TunnelListResponse_to_value; from_value := TunnelListResponse_from_value |}.

Definition TunnelListResponse_wf (x : TunnelListResponse) : Prop :=
  Forall TunnelState_wf (tl_tunnels x).

#[global] Instance TunnelListResponse_laws : SerdeLaws TunnelListResponse TunnelListResponse_wf.
Proof. serde_struct. Qed.

Record AccountTunnelState : Set := {
  at_id : string;
  at_name : option string;
  at_display_address : string;
  at_destination : string;
  at_protocol : TunnelProtocol;
  at_tunnel_type : option string;
  at_local_address : option string;
  at_local_port : option Z;
  at_agent_id : option string;
  at_is_disabled : bool;
  at_disabled_reason : option string;
}.

Definition AccountTunnelState_to_value (x : AccountTunnelState) : value :=
  Object
    [("id"%string, to_value (Serde := Serde_string) (at_id x));
     ("name"%string, to_value (Serde := (@Serde_option _ Serde_string)) (at_name x));
     ("display_address"%string, to_value (Serde := Serde_string) (at_display_address x));
     ("destination"%string, to_value (Serde := Serde_string) (at_destination x));
     ("protocol"%string, to_value (Serde := TunnelProtocol_serde) (at_protocol x));
     ("tunnel_type"%string, to_value (Serde := (@Serde_option _ Serde_string)) (at_tunnel_type x));
     ("local_address"%string, to_value (Serde := (@Serde_option _ Serde_string)) (at_local_address x));
     ("local_port"%string, to_value (Serde := (@Serde_option _ (Serde_uint 16))) (at_local_port x));
     ("agent_id"%string, to_value (Serde := (@Serde_option _ Serde_string)) (at_agent_id x));
     ("is_disabled"%string, to_value (Serde := Serde_bool) (at_is_disabled x));
     ("disabled_reason"%string, to_value (Serde := (@Serde_option _ Serde_string)) (at_disabled_reason x))].

Definition AccountTunnelState_from_value (v : value) : option AccountTunnelState :=
  entries ← entries_of v;
  at_id' ← field Serde_string "id" entries;
  at_name' ← field_or (@Serde_option _ Serde_string) None "name" entries;
  at_display_address' ← field Serde_string "display_address" entries;
  at_destination' ← field Serde_string "destination" entries;
  at_protocol' ← field TunnelProtocol_serde "protocol" entries;
  at_tunnel_type' ← field_or (@Serde_option _ Serde_string) None "tunnel_type" entries;
  at_local_address' ← field_or (@Serde_option _ Serde_string) None "local_address" entries;
  at_local_port' ← field_or (@Serde_option _ (Serde_uint 16)) None "local_port" entries;
  at_agent_id' ← field_or (@Serde_option _ Serde_string) None "agent_id" entries;
  at_is_disabled' ← field Serde_bool "is_disabled" entries;
  at_disabled_reason' ← field_or (@Serde_option _ Serde_string) None "disabled_reason" entries;
  Some {| at_id := at_id';
          at_name := at_name';
          at_display_address := at_display_address';
          at_destination := at_destination';
          at_protocol := at_protocol';
          at_tunnel_type := at_tunnel_type';
          at_local_address := at_local_address';
          at_local_port := at_local_port';
          at_agent_id := at_agent_id';
          at_is_disabled := at_is_disabled';
          at_disabled_reason := at_disabled_reason' |}.

#[global] Instance AccountTunnelState_serde : Serde AccountTunnelState :=
  {| to_value := AccountTunnelState_to_value; from_value := AccountTunnelState_from_value |}.

Definition AccountTunnelState_wf (x : AccountTunnelState) : Prop :=
  from_option (uint 16) True (at_local_port x).

#[global] Instance AccountTunnelState_laws : SerdeLaws AccountTunnelState AccountTunnelState_wf.
Proof. serde_struct. Qed.

Record AccountTunnelListResponse : Set := {
  atl_tunnels : list AccountTunnelState;
}.

Definition AccountTunnelListResponse_to_value (x : AccountTunnelListResponse) : value :=
  Object
    [("tunnels"%string, to_value (Serde := (@Serde_list _ AccountTunnelState_serde)) (atl_tunnels x))].

Definition AccountTunnelListResponse_from_value (v : value) : option AccountTunnelListResponse :=
  entries ← entries_of v;
  atl_tunnels' ← field (@Serde_list _ AccountTunnelState_serde) "tunnels" entries;
  Some {| atl_tunnels := atl_tunnels' |}.

#[global] Instance AccountTunnelListResponse_serde : Serde AccountTunnelListResponse :=
  {| to_value := AccountTunnelListResponse_to_value; from_value := AccountTunnelListResponse_from_value |}.

Definition AccountTunnelListResponse_wf (x : AccountTunnelListResponse) : Prop :=
  Forall AccountTunnelState_wf (atl_tunnels x).

#[global] Instance AccountTunnelListResponse_laws : SerdeLaws AccountTunnelListResponse AccountTunnelListResponse_wf.
Proof. serde_struct. Qed.

Record TunnelCreateResponse : Set := {
  tc_tunnel_id : string;
  tc_message : option string;
}.

Definition TunnelCreateResponse_to_value (x : TunnelCreateResponse) : value :=
  Object
    [("tunnel_id"%string, to_value (Serde := Serde_string) (tc_tunnel_id x));
     ("message"%string, to_value (Serde := (@Serde_option _ Serde_string)) (tc_message x))].

Definition TunnelCreateResponse_from_value (v : value) : option TunnelCreateResponse :=
  entries ← entries_of v;
  tc_tunnel_id' ← field Serde_string "tunnel_id" entries;
  tc_message' ← field_or (@Serde_option _ Serde_string) None "message" entries;
  Some {| tc_tunnel_id := tc_tunnel_id';
          tc_message := tc_message' |}.

#[global] Instance TunnelCreateResponse_serde : Serde TunnelCreateResponse :=
  {| to_value := TunnelCreateResponse_to_value; from_value := TunnelCreateResponse_from_value |}.

#[global] Instance TunnelCreateResponse_laws : SerdeLaws TunnelCreateResponse (λ _, True).
Proof. serde_struct. Qed.

Record AccountResponse : Set := {
  ar_status : AccountStatus;
  ar_agent_id : option string;
  ar_login_link : option string;
  ar_claim_url : option string;
}.

Definition AccountResponse_to_value (x : AccountResponse) : value :=
  Object
    [("status"%string, to_value (Serde := AccountStatus_serde) (ar_status x));
     ("agent_id"%string, to_value (Serde := (@Serde_option _ Serde_string)) (ar_agent_id x));
     ("login_link"%string, to_value (Serde := (@Serde_option _ Serde_string)) (ar_login_link x));
     ("claim_url"%string, to_value (Serde := (@Serde_option _ Serde_string)) (ar_claim_url x))].

Definition AccountResponse_from_value (v : value) : option AccountResponse :=
  entries ← entries_of v;
  ar_status' ← field AccountStatus_serde "status" entries;
  ar_agent_id' ← field_or (@Serde_option _ Serde_string) None "agent_id" entries;
  ar_login_link' ← field_or (@Serde_option _ Serde_string) None "login_link" entries;
  ar_claim_url' ← field_or (@Serde_option _ Serde_string) None "claim_url" entries;
  Some {| ar_status := ar_status';
          ar_agent_id := ar_agent_id';
          ar_login_link := ar_login_link';
          ar_claim_url := ar_claim_url' |}.

#[global] Instance AccountResponse_serde : Serde AccountResponse :=
  {| to_value := AccountResponse_to_value; from_value := AccountResponse_from_value |}.

#[global] Instance AccountResponse_laws : SerdeLaws AccountResponse (λ _, True).
Proof. serde_struct. Qed.

Record ClaimResponse : Set := {
  cl_claim_url : string;
}.

Definition ClaimResponse_to_value (x : ClaimResponse) : value :=
  Object
    [("claim_url"%string, to_value (Serde := Serde_string) (cl_claim_url x))].

Definition ClaimResponse_from_value (v : value) : option ClaimResponse :=
  entries ← entries_of v;
  cl_claim_url' ← field Serde_string "claim_url" entries;
  Some {| cl_claim_url := cl_claim_url' |}.

#[global] Instance ClaimResponse_serde : Serde ClaimResponse :=
  {| to_value := ClaimResponse_to_value; from_value := ClaimResponse_from_value |}.

#[global] Instance ClaimResponse_laws : SerdeLaws ClaimResponse (λ _, True).
Proof. serde_struct. Qed.
