(* ===== verification/Ipc.v ===== *)
(** * The IPC protocol and its client (playit-ipc/src/ipc.rs, endpoint.rs)

    Requests, responses and events as JSON documents, one per line; the
    client that sends a request, waits for its answer and checks that the
    answer belongs to it. *)

From S2P Require Import Prelude Json IpcModel.
From stdpp Require Import pretty.
From Stdlib Require Import Ascii.
#[local] Open Scope Z_scope.

(** ** Endpoints (endpoint.rs) *)

Inductive IpcEndpoint : Set :=
  | Filesystem (path : string)
  | Namespaced (name : string).

Definition IpcEndpoint_parse (value : string) : IpcEndpoint :=
  match value with
  | String "@"%char name => Namespaced name
  | _ => Filesystem value
  end.

Definition as_display_path (e : IpcEndpoint) : string :=
  match e with
  | Filesystem path => path
  | Namespaced name => ("@" +:+ name)%string
  end.

Definition is_filesystem (e : IpcEndpoint) : bool :=
  match e with Filesystem _ => true | Namespaced _ => false end.

Definition is_windows_named_pipe (e : IpcEndpoint) : bool :=
  match e with
  | Filesystem path => String.prefix "\\.\pipe\" path
  | Namespaced _ => false
  end.

Definition filesystem_path (e : IpcEndpoint) : option string :=
  match e with Filesystem path => Some path | Namespaced _ => None end.

(** ** Errors *)

Inductive IpcError : Type :=
  | AlreadyRunning
  | BindFailed (e : io_error)
  | ConnectionFailed (e : io_error)
  | IpcIoError (e : io_error)
  | JsonError
  | NotRunning
  | ProtocolMismatch (expected actual : Z)
  | ProtocolError (message : string)
  | Service (e : ServiceError).

Definition is_connection_closed_error (e : io_error) : bool :=
  match err_kind e with
  | UnexpectedEof | BrokenPipe | ConnectionAborted | ConnectionReset | NotConnected => true
  | _ => false
  end.

Definition is_connection_closed (e : IpcError) : bool :=
  match e with
  | IpcIoError e => is_connection_closed_error e
  | _ => false
  end.

(** ** Requests

    [tag = "type"]: the name among the fields. *)

Definition IPC_VERSION : Z := 3.

Inductive ServiceRequest : Set :=
  | Subscribe
  | GetStatus
  | GetState
  | GetTunnels
  | GetAccountTunnels
  | CreateTunnel (local_port : Z) (protocol : TunnelProtocol) (local_address : option string) (name : option string)
  | CreateMinecraftJavaTunnel (local_port : Z) (local_address : option string) (name : option string)
  | DeleteTunnel (tunnel_id : string)
  | ReassignTunnel (tunnel_id : string) (local_port : Z) (local_address : option string)
  | GetAccount
  | StartClaim
  | Stop
  | SetSecret (secret : string)
  | ResetSecret
  | GetSecretPath
  | GetAccountLoginUrl.

Definition ServiceRequest_to_value (x : ServiceRequest) : value :=
  match x with
  | Subscribe => internal "type" "subscribe" []
  | GetStatus => internal "type" "get_status" []
  | GetState => internal "type" "get_state" []
  | GetTunnels => internal "type" "get_tunnels" []
  | GetAccountTunnels => internal "type" "get_account_tunnels" []
  | CreateTunnel local_port protocol local_address name => internal "type" "create_tunnel"
      [("local_port"%string, to_value (Serde := (Serde_uint 16)) local_port);
       ("protocol"%string, to_value (Serde := TunnelProtocol_serde) protocol);
       ("local_address"%string, to_value (Serde := (@Serde_option _ Serde_string)) local_address);
       ("name"%string, to_value (Serde := (@Serde_option _ Serde_string)) name)]
  | CreateMinecraftJavaTunnel local_port local_address name => internal "type" "create_minecraft_java_tunnel"
      [("local_port"%string, to_value (Serde := (Serde_uint 16)) local_port);
       ("local_address"%string, to_value (Serde := (@Serde_option _ Serde_string)) local_address);
       ("name"%string, to_value (Serde := (@Serde_option _ Serde_string)) name)]
  | DeleteTunnel tunnel_id => internal "type" "delete_tunnel"
      [("tunnel_id"%string, to_value (Serde := Serde_string) tunnel_id)]
  | ReassignTunnel tunnel_id local_port local_address => internal "type" "reassign_tunnel"
      [("tunnel_id"%string, to_value (Serde := Serde_string) tunnel_id);
       ("local_port"%string, to_value (Serde := (Serde_uint 16)) local_port);
       ("local_address"%string, to_value (Serde := (@Serde_option _ Serde_string)) local_address)]
  | GetAccount => internal "type" "get_account" []
  | StartClaim => internal "type" "start_claim" []
  | Stop => internal "type" "stop" []
  | SetSecret secret => internal "type" "set_secret"
      [("secret"%string, to_value (Serde := Serde_string) secret)]
  | ResetSecret => internal "type" "reset_secret" []
  | GetSecretPath => internal "type" "get_secret_path" []
  | GetAccountLoginUrl => internal "type" "get_account_login_url" []
  end.

Definition CreateTunnel_from_fields (entries : list (string * value)) : option ServiceRequest :=
  local_port ← field (Serde_uint 16) "local_port" entries;
  protocol ← field_or TunnelProtocol_serde TunnelProtocol_default "protocol" entries;
  local_address ← field_or (@Serde_option _ Serde_string) None "local_address" entries;
  name ← field_or (@Serde_option _ Serde_string) None "name" entries;
  Some (CreateTunnel local_port protocol local_address name).

Definition CreateMinecraftJavaTunnel_from_fields (entries : list (string * value)) : option ServiceRequest :=
  local_port ← field (Serde_uint 16) "local_port" entries;
  local_address ← field_or (@Serde_option _ Serde_string) None "local_address" entries;
  name ← field_or (@Serde_option _ Serde_string) None "name" entries;
  Some (CreateMinecraftJavaTunnel local_port local_address name).

Definition DeleteTunnel_from_fields (entries : list (string * value)) : option ServiceRequest :=
  tunnel_id ← field Serde_string "tunnel_id" entries;
  Some (DeleteTunnel tunnel_id).

Definition ReassignTunnel_from_fields (entries : list (string * value)) : option ServiceRequest :=
  tunnel_id ← field Serde_string "tunnel_id" entries;
  local_port ← field (Serde_uint 16) "local_port" entries;
  local_address ← field_or (@Serde_option _ Serde_string) None "local_address" entries;
  Some (ReassignTunnel tunnel_id local_port local_address).

Definition SetSecret_from_fields (entries : list (string * value)) : option ServiceRequest :=
  secret ← field Serde_string "secret" entries;
  Some (SetSecret secret).

(** The reader of objects whose [type] is a text, which is what is written; the
    rest of a unit variant is ignored. (The derived reader also takes a sequence
    for an object, and a variant's number for its name; [None] stands for both.) *)
Definition ServiceRequest_from_value (v : value) : option ServiceRequest :=
  '(name, entries) ← internal_parts "type" v;
  variant ← find_variant (T := list (string * value) → option ServiceRequest) name
    [("subscribe", λ _, Some Subscribe);
     ("get_status", λ _, Some GetStatus);
     ("get_state", λ _, Some GetState);
     ("get_tunnels", λ _, Some GetTunnels);
     ("get_account_tunnels", λ _, Some GetAccountTunnels);
     ("create_tunnel", CreateTunnel_from_fields);
     ("create_minecraft_java_tunnel", CreateMinecraftJavaTunnel_from_fields);
     ("delete_tunnel", DeleteTunnel_from_fields);
     ("reassign_tunnel", ReassignTunnel_from_fields);
     ("get_account", λ _, Some GetAccount);
     ("start_claim", λ _, Some StartClaim);
     ("stop", λ _, Some Stop);
     ("set_secret", SetSecret_from_fields);
     ("reset_secret", λ _, Some ResetSecret);
     ("get_secret_path", λ _, Some GetSecretPath);
     ("get_account_login_url", λ _, Some GetAccountLoginUrl)]%string;
  variant entries.

#[global] Instance ServiceRequest_serde : Serde ServiceRequest :=
  {| to_value := ServiceRequest_to_value; from_value := ServiceRequest_from_value |}.

Record RequestEnvelope : Set := {
  rq_ipc_version : Z;
  rq_request_id : Z;
  rq_request : ServiceRequest;
}.

(** The server also reads requests it does not know. *)
Record UnknownTaggedMessage : Set := {
  um_type_name : string;
  um_rest : list (string * value);
}.

Inductive ServiceRequestOrUnknown : Set :=
  | KnownRequest (request : ServiceRequest)
  | UnknownRequest (message : UnknownTaggedMessage).

Record IncomingRequestEnvelope : Set := {
  ir_ipc_version : Z;
  ir_request_id : Z;
  ir_request : ServiceRequestOrUnknown;
}.

Definition RequestEnvelope_to_value (x : RequestEnvelope) : value :=
  Object
    [("ipc_version"%string, to_value (Serde := Serde_uint 32) (rq_ipc_version x));
     ("request_id"%string, to_value (Serde := Serde_uint 64) (rq_request_id x));
     ("request"%string, to_value (rq_request x))].

Definition UnknownTaggedMessage_from_value (v : value) : option UnknownTaggedMessage :=
  '(name, rest) ← internal_parts "type" v;
  Some {| um_type_name := name; um_rest := rest |}.

(** [untagged]. *)
Definition ServiceRequestOrUnknown_from_value (v : value) : option ServiceRequestOrUnknown :=
  untagged (KnownRequest <$> from_value v)
           (UnknownRequest <$> UnknownTaggedMessage_from_value v).

Definition IncomingRequestEnvelope_from_value (v : value) : option IncomingRequestEnvelope :=
  entries ← entries_of v;
  version ← field (Serde_uint 32) "ipc_version" entries;
  request_id ← field (Serde_uint 64) "request_id" entries;
  o ← lookup_field "request" entries;
  request ← o ≫= ServiceRequestOrUnknown_from_value;
  Some {| ir_ipc_version := version; ir_request_id := request_id; ir_request := request |}.

Definition is_known_request_type (type_name : string) : bool :=
  existsb (String.eqb type_name)
    ["subscribe";
     "get_status";
     "get_state";
     "get_tunnels";
     "get_account_tunnels";
     "create_tunnel";
     "create_minecraft_java_tunnel";
     "delete_tunnel";
     "reassign_tunnel";
     "get_account";
     "start_claim";
     "stop";
     "set_secret";
     "reset_secret";
     "get_secret_path";
     "get_account_login_url"]%string.

(** ** Responses and events *)

(** [tag = "type", content = "data"]. *)
Inductive ServiceResponse : Set :=
  | RespSubscribe (response : SubscribeResponse)
  | RespStatus (response : ServiceStatus)
  | RespState (response : AgentLifecycle)
  | RespTunnels (response : TunnelListResponse)
  | RespAccountTunnels (response : AccountTunnelListResponse)
  | RespCreateTunnel (response : TunnelCreateResponse)
  | RespDeleteTunnel (response : CommandResponse)
  | RespReassignTunnel (response : CommandResponse)
  | RespAccount (response : AccountResponse)
  | RespClaim (response : ClaimResponse)
  | RespStop (response : CommandResponse)
  | RespSetSecret (response : CommandResponse)
  | RespResetSecret (response : CommandResponse)
  | RespSecretPath (response : SecretPathResponse)
  | RespAccountLoginUrl (response : AccountLoginUrlResponse)
  | RespError (response : ServiceError).

Definition service_response_name (response : ServiceResponse) : string :=
  match response with
  | RespSubscribe _ => "subscribe"
  | RespStatus _ => "status"
  | RespState _ => "state"
  | RespTunnels _ => "tunnels"
  | RespAccountTunnels _ => "account_tunnels"
  | RespCreateTunnel _ => "create_tunnel"
  | RespDeleteTunnel _ => "delete_tunnel"
  | RespReassignTunnel _ => "reassign_tunnel"
  | RespAccount _ => "account"
  | RespClaim _ => "claim"
  | RespStop _ => "stop"
  | RespSetSecret _ => "set_secret"
  | RespResetSecret _ => "reset_secret"
  | RespSecretPath _ => "secret_path"
  | RespAccountLoginUrl _ => "account_login_url"
  | RespError _ => "error"
  end.

Definition ServiceResponse_to_value (x : ServiceResponse) : value :=
  match x with
  | RespSubscribe r => adjacent "type" "data" "subscribe" (Some (to_value r))
  | RespStatus r => adjacent "type" "data" "status" (Some (to_value r))
  | RespState r => adjacent "type" "data" "state" (Some (to_value r))
  | RespTunnels r => adjacent "type" "data" "tunnels" (Some (to_value r))
  | RespAccountTunnels r => adjacent "type" "data" "account_tunnels" (Some (to_value r))
  | RespCreateTunnel r => adjacent "type" "data" "create_tunnel" (Some (to_value r))
  | RespDeleteTunnel r => adjacent "type" "data" "delete_tunnel" (Some (to_value r))
  | RespReassignTunnel r => adjacent "type" "data" "reassign_tunnel" (Some (to_value r))
  | RespAccount r => adjacent "type" "data" "account" (Some (to_value r))
  | RespClaim r => adjacent "type" "data" "claim" (Some (to_value r))
  | RespStop r => adjacent "type" "data" "stop" (Some (to_value r))
  | RespSetSecret r => adjacent "type" "data" "set_secret" (Some (to_value r))
  | RespResetSecret r => adjacent "type" "data" "reset_secret" (Some (to_value r))
  | RespSecretPath r => adjacent "type" "data" "secret_path" (Some (to_value r))
  | RespAccountLoginUrl r => adjacent "type" "data" "account_login_url" (Some (to_value r))
  | RespError r => adjacent "type" "data" "error" (Some (to_value r))
  end.

Definition ServiceResponse_from_value (v : value) : option ServiceResponse :=
  '(name, data) ← adjacent_parts "type" "data" v;
  variant ← find_variant name
    [("subscribe", newtype_variant SubscribeResponse_serde RespSubscribe);
     ("status", newtype_variant ServiceStatus_serde RespStatus);
     ("state", newtype_variant AgentLifecycle_serde RespState);
     ("tunnels", newtype_variant TunnelListResponse_serde RespTunnels);
     ("account_tunnels", newtype_variant AccountTunnelListResponse_serde RespAccountTunnels);
     ("create_tunnel", newtype_variant TunnelCreateResponse_serde RespCreateTunnel);
     ("delete_tunnel", newtype_variant CommandResponse_serde RespDeleteTunnel);
     ("reassign_tunnel", newtype_variant CommandResponse_serde RespReassignTunnel);
     ("account", newtype_variant AccountResponse_serde RespAccount);
     ("claim", newtype_variant ClaimResponse_serde RespClaim);
     ("stop", newtype_variant CommandResponse_serde RespStop);
     ("set_secret", newtype_variant CommandResponse_serde RespSetSecret);
     ("reset_secret", newtype_variant CommandResponse_serde RespResetSecret);
     ("secret_path", newtype_variant SecretPathResponse_serde RespSecretPath);
     ("account_login_url", newtype_variant AccountLoginUrlResponse_serde RespAccountLoginUrl);
     ("error", newtype_variant ServiceError_serde RespError)]%string;
  variant data.

#[global] Instance ServiceResponse_serde : Serde ServiceResponse :=
  {| to_value := ServiceResponse_to_value; from_value := ServiceResponse_from_value |}.

Definition ServiceResponse_wf (x : ServiceResponse) : Prop :=
  match x with
  | RespSubscribe r => SubscribeResponse_wf r
  | RespStatus r => ServiceStatus_wf r
  | RespState r => AgentLifecycle_wf r
  | RespTunnels r => TunnelListResponse_wf r
  | RespAccountTunnels r => AccountTunnelListResponse_wf r
  | RespError r => ServiceError_wf r
  | _ => True
  end.

Record ResponseEnvelope : Set := {
  re_ipc_version : Z;
  re_request_id : Z;
  re_response : ServiceResponse;
}.

Record EventEnvelope : Set := {
  ev_ipc_version : Z;
  ev_event : ServiceUpdate;
}.

Record HelloEnvelope : Set := { he_protocol : ProtocolInfo }.

Inductive ServerEnvelope : Set :=
  | EnvHello (hello : HelloEnvelope)
  | EnvResponse (response : ResponseEnvelope)
  | EnvEvent (event : EventEnvelope).

Definition HelloEnvelope_to_value (x : HelloEnvelope) : value :=
  Object [("protocol"%string, to_value (he_protocol x))].

Definition HelloEnvelope_from_value (v : value) : option HelloEnvelope :=
  entries ← entries_of v;
  protocol ← field ProtocolInfo_serde "protocol" entries;
  Some {| he_protocol := protocol |}.

#[global] Instance HelloEnvelope_serde : Serde HelloEnvelope :=
  {| to_value := HelloEnvelope_to_value; from_value := HelloEnvelope_from_value |}.

Definition ResponseEnvelope_to_value (x : ResponseEnvelope) : value :=
  Object
    [("ipc_version"%string, to_value (Serde := Serde_uint 32) (re_ipc_version x));
     ("request_id"%string, to_value (Serde := Serde_uint 64) (re_request_id x));
     ("response"%string, to_value (re_response x))].

Definition ResponseEnvelope_from_value (v : value) : option ResponseEnvelope :=
  entries ← entries_of v;
  version ← field (Serde_uint 32) "ipc_version" entries;
  request_id ← field (Serde_uint 64) "request_id" entries;
  response ← field ServiceResponse_serde "response" entries;
  Some {| re_ipc_version := version; re_request_id := request_id; re_response := response |}.

#[global] Instance ResponseEnvelope_serde : Serde ResponseEnvelope :=
  {| to_value := ResponseEnvelope_to_value; from_value := ResponseEnvelope_from_value |}.

Definition EventEnvelope_to_value (x : EventEnvelope) : value :=
  Object
    [("ipc_version"%string, to_value (Serde := Serde_uint 32) (ev_ipc_version x));
     ("event"%string, to_value (ev_event x))].

Definition EventEnvelope_from_value (v : value) : option EventEnvelope :=
  entries ← entries_of v;
  version ← field (Serde_uint 32) "ipc_version" entries;
  event ← field ServiceUpdate_serde "event" entries;
  Some {| ev_ipc_version := version; ev_event := event |}.

#[global] Instance EventEnvelope_serde : Serde EventEnvelope :=
  {| to_value := EventEnvelope_to_value; from_value := EventEnvelope_from_value |}.

(** [tag = "message_kind", content = "data"]. *)
Definition ServerEnvelope_to_value (x : ServerEnvelope) : value :=
  match x with
  | EnvHello hello => adjacent "message_kind" "data" "hello" (Some (to_value hello))
  | EnvResponse response => adjacent "message_kind" "data" "response" (Some (to_value response))
  | EnvEvent event => adjacent "message_kind" "data" "event" (Some (to_value event))
  end.

Definition ServerEnvelope_from_value (v : value) : option ServerEnvelope :=
  '(name, data) ← adjacent_parts "message_kind" "data" v;
  variant ← find_variant name
    [("hello", newtype_variant HelloEnvelope_serde EnvHello);
     ("response", newtype_variant ResponseEnvelope_serde EnvResponse);
     ("event", newtype_variant EventEnvelope_serde EnvEvent)]%string;
  variant data.

#[global] Instance ServerEnvelope_serde : Serde ServerEnvelope :=
  {| to_value := ServerEnvelope_to_value; from_value := ServerEnvelope_from_value |}.

(** The client also reads events it does not know. *)
Record UnknownTaggedEvent : Set := {
  ue_type_name : string;
  ue_data : option value;
}.

Inductive ServiceUpdateOrUnknown : Set :=
  | KnownUpdate (update : ServiceUpdate)
  | UnknownUpdate (event : UnknownTaggedEvent).

Record IncomingEventEnvelope : Set := {
  ie_ipc_version : Z;
  ie_event : ServiceUpdateOrUnknown;
}.

Inductive IncomingServerEnvelope : Set :=
  | InHello (hello : HelloEnvelope)
  | InResponse (response : ResponseEnvelope)
  | InEvent (event : IncomingEventEnvelope).

Definition UnknownTaggedEvent_from_value (v : value) : option UnknownTaggedEvent :=
  entries ← entries_of v;
  name ← field Serde_string "type" entries;
  data ← field_or (@Serde_option _ Serde_value) None "data" entries;
  Some {| ue_type_name := name; ue_data := data |}.

Definition ServiceUpdateOrUnknown_from_value (v : value) : option ServiceUpdateOrUnknown :=
  untagged (KnownUpdate <$> from_value v) (UnknownUpdate <$> UnknownTaggedEvent_from_value v).

Definition IncomingEventEnvelope_from_value (v : value) : option IncomingEventEnvelope :=
  entries ← entries_of v;
  version ← field (Serde_uint 32) "ipc_version" entries;
  o ← lookup_field "event" entries;
  event ← o ≫= ServiceUpdateOrUnknown_from_value;
  Some {| ie_ipc_version := version; ie_event := event |}.

Definition IncomingServerEnvelope_from_value (v : value) : option IncomingServerEnvelope :=
  '(name, data) ← adjacent_parts "message_kind" "data" v;
  variant ← find_variant name
    [("hello", newtype_variant HelloEnvelope_serde InHello);
     ("response", newtype_variant ResponseEnvelope_serde InResponse);
     ("event", λ data, v ← data; InEvent <$> IncomingEventEnvelope_from_value v)]%string;
  variant data.

Definition UPDATE_STATUS : string := "status".
Definition UPDATE_LIFECYCLE : string := "lifecycle".
Definition UPDATE_STATS : string := "stats".
Definition UPDATE_LOG : string := "log".

Definition service_update_name (update : ServiceUpdate) : string :=
  match update with
  | UpdateStatus _ => UPDATE_STATUS
  | UpdateLifecycle _ => UPDATE_LIFECYCLE
  | UpdateStats _ => UPDATE_STATS
  | UpdateLog _ => UPDATE_LOG
  end.

Definition is_known_update_type (event_type : string) : bool :=
  existsb (String.eqb event_type) [UPDATE_STATUS; UPDATE_LIFECYCLE; UPDATE_STATS; UPDATE_LOG].

(** An event of a known type that could not be read is an error, not an
    unknown event. *)
Definition validate_incoming_server_envelope (envelope : IncomingServerEnvelope) :
    outcome IpcError () :=
  match envelope with
  | InEvent event =>
      match ie_event event with
      | UnknownUpdate unknown =>
          if is_known_update_type (ue_type_name unknown)
          then Err (ProtocolError ("invalid IPC event payload for " +:+ ue_type_name unknown))
          else Ok ()
      | KnownUpdate _ => Ok ()
      end
  | InHello _ | InResponse _ => Ok ()
  end.

Definition protocol_info : ProtocolInfo := {|
  pi_ipc_version := IPC_VERSION;
  pi_capabilities :=
    ["structured_responses"; "stream_events"; "lifecycle_state"; "rich_status";
     "secret_provisioning"; "tunnel_management"; "account_tunnel_management";
     "semantic_tunnel_types"; "account_state"; "control_reconnect_state";
     "claim_provisioning"; "direct_account_auth"]%string |}.

(** ** Frames *)

Inductive LinesCodecError : Type :=
  | MaxLineLengthExceeded
  | CodecIo (e : io_error).

Definition line_codec_error (error : LinesCodecError) : IpcError :=
  match error with
  | CodecIo e => IpcIoError e
  | MaxLineLengthExceeded => ProtocolError "IPC frame exceeded maximum line length"
  end.

(** What the framed reader yields: a line, an error, or the end. *)
Inductive line_read (L : Type) : Type :=
  | Line (line : L)
  | LineError (e : LinesCodecError)
  | LineEnd.
Arguments Line {L} line.
Arguments LineError {L} e.
Arguments LineEnd {L}.

Definition read_line {L} (r : line_read L) : outcome IpcError L :=
  match r with
  | Line line => Ok line
  | LineError e => Err (line_codec_error e)
  | LineEnd => Err (IpcIoError (IoError UnexpectedEof "Connection closed"))
  end.

Section frames.
Context {JT : JsonText}.

Definition read_json {T} (decode : value → option T) (r : line_read text) : outcome IpcError T :=
  line ← read_line r;
  ok_or JsonError (from_text line ≫= decode).

(** ** The client

    The other end of the connection is a state [P] with the two operations of
    a framed stream. *)

Context {P : Type}.
Context (peer_send : text → P → option LinesCodecError * P).
Context (peer_next : P → line_read text * P).
Context (overflow_checks : bool).

Record IpcClient : Type := {
  next_request_id : Z;
  server_protocol : ProtocolInfo;
}.

(** A method of the client: it changes the client and the connection. *)
Definition C (A : Type) : Type := IpcClient → P → outcome IpcError A * IpcClient * P.

#[global] Instance C_ret : MRet C := λ A a c p, (Ok a, c, p).

#[global] Instance C_bind : MBind C := λ A B f m c p,
  match m c p with
  | (Ok a, c, p) => f a c p
  | (Err e, c, p) => (Err e, c, p)
  | (Panic, c, p) => (Panic, c, p)
  end.

Definition c_lift {A} (o : outcome IpcError A) : C A := λ c p, (o, c, p).

Definition c_write (v : value) : C () := λ c p,
  match peer_send (to_text v) p with
  | (None, p) => (Ok (), c, p)
  | (Some e, p) => (Err (line_codec_error e), c, p)
  end.

Definition c_read {T} (decode : value → option T) : C T := λ c p,
  let '(r, p) := peer_next p in (read_json decode r, c, p).

Definition ensure_ipc_version (actual : Z) : outcome IpcError () :=
  if decide (actual = IPC_VERSION) then Ok ()
  else Err (ProtocolMismatch IPC_VERSION actual).

Definition recv_server_envelope : C ServerEnvelope := c_read from_value.

Definition recv_incoming_server_envelope : C IncomingServerEnvelope :=
  envelope ← c_read IncomingServerEnvelope_from_value;
  c_lift (validate_incoming_server_envelope envelope);;
  mret envelope.

Definition recv_hello : C HelloEnvelope :=
  envelope ← recv_server_envelope;
  c_lift
    match envelope with
    | EnvHello hello => Ok hello
    | EnvResponse response =>
        Err (ProtocolError ("expected hello frame, got " +:+
               service_response_name (re_response response) +:+ " RPC response"))
    | EnvEvent event =>
        Err (ProtocolError ("expected hello frame, got " +:+
               service_update_name (ev_event event) +:+ " stream event"))
    end.

Definition recv_response : C ResponseEnvelope :=
  envelope ← recv_server_envelope;
  c_lift
    match envelope with
    | EnvResponse response => Ok response
    | EnvEvent event =>
        Err (ProtocolError ("received " +:+ service_update_name (ev_event event) +:+
               " stream event while waiting for RPC response"))
    | EnvHello _ => Err (ProtocolError "received duplicate hello while waiting for RPC response")
    end.

(** [connect_with_path], after the socket is open. *)
Definition connect (p : P) : outcome IpcError IpcClient * P :=
  let client := {| next_request_id := 1; server_protocol := ProtocolInfo_default |} in
  match recv_hello client p with
  | (Ok hello, client, p) =>
      (ensure_ipc_version (pi_ipc_version (he_protocol hello));;
       Ok {| next_request_id := next_request_id client; server_protocol := he_protocol hello |}, p)
  | (Err e, _, p) => (Err e, p)
  | (Panic, _, p) => (Panic, p)
  end.

(** The id is taken before the write, which may fail. *)
Definition send_request (request : ServiceRequest) : C Z := λ c p,
  let request_id := next_request_id c in
  match u_add overflow_checks 64 request_id 1 with
  | Ok next =>
      (c_write (RequestEnvelope_to_value
        {| rq_ipc_version := IPC_VERSION; rq_request_id := request_id; rq_request := request |});;
       mret request_id) {| next_request_id := next; server_protocol := server_protocol c |} p
  | Err e => (Err e, c, p)
  | Panic => (Panic, c, p)
  end.

Definition request (request : ServiceRequest) : C ServiceResponse :=
  request_id ← send_request request;
  response ← recv_response;
  c_lift (ensure_ipc_version (re_ipc_version response));;
  if decide (re_request_id response = request_id) then mret (re_response response)
  else c_lift (Err (ProtocolError ("mismatched response id: expected " +:+ pretty request_id +:+
                                   ", got " +:+ pretty (re_request_id response)))).

(** [recv_update]: one round of the loop, and the first [n] rounds ([None]
    when they all brought unknown events). *)
Definition recv_update_step : C (option ServiceUpdate) :=
  envelope ← recv_incoming_server_envelope;
  match envelope with
  | InEvent event =>
      c_lift (ensure_ipc_version (ie_ipc_version event));;
      match ie_event event with
      | KnownUpdate update => mret (Some update)
      | UnknownUpdate _ => mret None
      end
  | InResponse response =>
      c_lift (Err (ProtocolError ("received " +:+ service_response_name (re_response response) +:+
                                  " RPC response while waiting for stream event")))
  | InHello _ =>
      c_lift (Err (ProtocolError "received duplicate hello while waiting for stream event"))
  end.

Fixpoint recv_update (n : nat) : C (option ServiceUpdate) :=
  match n with
  | O => mret None
  | S n =>
      update ← recv_update_step;
      match update with
      | Some update => mret (Some update)
      | None => recv_update n
      end
  end.

Definition expect_response {T} (response : ServiceResponse) (expected : string)
    (extract : ServiceResponse → option T) : outcome IpcError T :=
  match response with
  | RespError error => Err (Service error)
  | _ => ok_or (ProtocolError ("expected " +:+ expected +:+ ", got " +:+
                               service_response_name response)) (extract response)
  end.

Definition client_subscribe : C SubscribeResponse :=
  response ← request Subscribe;
  c_lift (expect_response response "subscribe response"
            (λ r, match r with RespSubscribe x => Some x | _ => None end)).

Definition client_status : C ServiceStatus :=
  response ← request GetStatus;
  c_lift (expect_response response "status response"
            (λ r, match r with RespStatus x => Some x | _ => None end)).

Definition client_lifecycle : C AgentLifecycle :=
  response ← request GetState;
  c_lift (expect_response response "lifecycle response"
            (λ r, match r with RespState x => Some x | _ => None end)).

Definition client_list_tunnels : C TunnelListResponse :=
  response ← request GetTunnels;
  c_lift (expect_response response "tunnel list response"
            (λ r, match r with RespTunnels x => Some x | _ => None end)).

Definition client_list_account_tunnels : C AccountTunnelListResponse :=
  response ← request GetAccountTunnels;
  c_lift (expect_response response "account tunnel list response"
            (λ r, match r with RespAccountTunnels x => Some x | _ => None end)).

Definition client_create_tunnel (local_port : Z) (protocol : TunnelProtocol) (local_address name : option string) : C TunnelCreateResponse :=
  response ← request (CreateTunnel local_port protocol local_address name);
  c_lift (expect_response response "tunnel create response"
            (λ r, match r with RespCreateTunnel x => Some x | _ => None end)).

Definition client_create_minecraft_java_tunnel (local_port : Z) (local_address name : option string) : C TunnelCreateResponse :=
  response ← request (CreateMinecraftJavaTunnel local_port local_address name);
  c_lift (expect_response response "Minecraft Java tunnel create response"
            (λ r, match r with RespCreateTunnel x => Some x | _ => None end)).

Definition client_delete_tunnel (tunnel_id : string) : C CommandResponse :=
  response ← request (DeleteTunnel tunnel_id);
  c_lift (expect_response response "tunnel delete response"
            (λ r, match r with RespDeleteTunnel x => Some x | _ => None end)).

Definition client_reassign_tunnel (tunnel_id : string) (local_port : Z) (local_address : option string) : C CommandResponse :=
  response ← request (ReassignTunnel tunnel_id local_port local_address);
  c_lift (expect_response response "tunnel reassignment response"
            (λ r, match r with RespReassignTunnel x => Some x | _ => None end)).

Definition client_account : C AccountResponse :=
  response ← request GetAccount;
  c_lift (expect_response response "account response"
            (λ r, match r with RespAccount x => Some x | _ => None end)).

Definition client_start_claim : C ClaimResponse :=
  response ← request StartClaim;
  c_lift (expect_response response "claim response"
            (λ r, match r with RespClaim x => Some x | _ => None end)).

Definition client_stop : C CommandResponse :=
  response ← request Stop;
  c_lift (expect_response response "stop response"
            (λ r, match r with RespStop x => Some x | _ => None end)).

Definition client_set_secret (secret : string) : C CommandResponse :=
  response ← request (SetSecret secret);
  c_lift (expect_response response "secret provisioning response"
            (λ r, match r with RespSetSecret x => Some x | _ => None end)).

Definition client_reset_secret : C CommandResponse :=
  response ← request ResetSecret;
  c_lift (expect_response response "reset secret response"
            (λ r, match r with RespResetSecret x => Some x | _ => None end)).

Definition client_get_secret_path : C SecretPathResponse :=
  response ← request GetSecretPath;
  c_lift (expect_response response "secret path response"
            (λ r, match r with RespSecretPath x => Some x | _ => None end)).

Definition client_get_account_login_url : C AccountLoginUrlResponse :=
  response ← request GetAccountLoginUrl;
  c_lift (expect_response response "account login URL response"
            (λ r, match r with RespAccountLoginUrl x => Some x | _ => None end)).
End frames.

Arguments C {P} A : assert.
