(* ===== verification/IpcCodec.v ===== *)
(** * Faithfulness of the IPC encodings

    Every request of the client is read by the server as the request it is,
    every message of the server by the client, and what only looks like a
    known message is told apart from an unknown one. *)

From S2P Require Import Prelude Json IpcModel Ipc.

(** ** Requests *)

Definition ServiceRequest_wf (x : ServiceRequest) : Prop :=
  match x with
  | CreateTunnel local_port _ _ _ | CreateMinecraftJavaTunnel local_port _ _
  | ReassignTunnel _ local_port _ => uint 16 local_port
  | _ => True
  end.

Definition RequestEnvelope_wf (x : RequestEnvelope) : Prop :=
  uint 32 (rq_ipc_version x) ∧ uint 64 (rq_request_id x) ∧ ServiceRequest_wf (rq_request x).

Ltac serde_internal :=
  serde_unfold; unfold internal_parts, internal;
  serde_fields;
  cbn [from_value to_value Serde_string find_variant String.eqb Ascii.eqb Bool.eqb mbind option_bind
       List.filter fst negb];
  try reflexivity;
  unfold CreateTunnel_from_fields, CreateMinecraftJavaTunnel_from_fields,
    DeleteTunnel_from_fields, ReassignTunnel_from_fields, SetSecret_from_fields;
  serde_fields; reflexivity.

#[global] Instance ServiceRequest_laws : SerdeLaws ServiceRequest ServiceRequest_wf.
Proof. split; [|by intros []]. intros [] Hwf; cbn in Hwf; serde_internal. Qed.

#[global] Instance ServiceResponse_laws : SerdeLaws ServiceResponse ServiceResponse_wf.
Proof. split; [|by intros []]. intros [] Hwf; cbn in Hwf; serde_variant. Qed.

Lemma request_read (x : RequestEnvelope) :
  RequestEnvelope_wf x →
  IncomingRequestEnvelope_from_value (RequestEnvelope_to_value x) =
  Some {| ir_ipc_version := rq_ipc_version x; ir_request_id := rq_request_id x;
          ir_request := KnownRequest (rq_request x) |}.
Proof.
  intros (Hv & Hid & Hreq).
  unfold IncomingRequestEnvelope_from_value, RequestEnvelope_to_value. serde_fields.
  unfold ServiceRequestOrUnknown_from_value. by rewrite from_to_value.
Qed.

(** ** Messages of the server *)

#[global] Instance HelloEnvelope_laws :
  SerdeLaws HelloEnvelope (λ x, ProtocolInfo_wf (he_protocol x)).
Proof. serde_struct. Qed.

Definition ResponseEnvelope_wf (x : ResponseEnvelope) : Prop :=
  uint 32 (re_ipc_version x) ∧ uint 64 (re_request_id x) ∧ ServiceResponse_wf (re_response x).

#[global] Instance ResponseEnvelope_laws : SerdeLaws ResponseEnvelope ResponseEnvelope_wf.
Proof. serde_struct. Qed.

Definition EventEnvelope_wf (x : EventEnvelope) : Prop :=
  uint 32 (ev_ipc_version x) ∧ ServiceUpdate_wf (ev_event x).

#[global] Instance EventEnvelope_laws : SerdeLaws EventEnvelope EventEnvelope_wf.
Proof. serde_struct. Qed.

Definition ServerEnvelope_wf (x : ServerEnvelope) : Prop :=
  match x with
  | EnvHello hello => ProtocolInfo_wf (he_protocol hello)
  | EnvResponse response => ResponseEnvelope_wf response
  | EnvEvent event => EventEnvelope_wf event
  end.

#[global] Instance ServerEnvelope_laws : SerdeLaws ServerEnvelope ServerEnvelope_wf.
Proof. split; [|by intros []]. intros [] Hwf; cbn in Hwf; serde_variant. Qed.

(** What the reader that tolerates unknown events makes of a message. *)
Definition incoming (x : ServerEnvelope) : IncomingServerEnvelope :=
  match x with
  | EnvHello hello => InHello hello
  | EnvResponse response => InResponse response
  | EnvEvent event => InEvent {| ie_ipc_version := ev_ipc_version event;
                                 ie_event := KnownUpdate (ev_event event) |}
  end.

Lemma incoming_read (x : ServerEnvelope) :
  ServerEnvelope_wf x → IncomingServerEnvelope_from_value (to_value x) = Some (incoming x).
Proof.
  intros Hwf. destruct x as [hello|response|event]; cbn in Hwf;
    unfold IncomingServerEnvelope_from_value; cbn [to_value ServerEnvelope_serde];
    unfold ServerEnvelope_to_value, adjacent_parts, adjacent, newtype_variant;
    serde_fields;
    cbn [from_value to_value Serde_string find_variant String.eqb Ascii.eqb Bool.eqb mbind option_bind];
    serde_fields; try reflexivity.
  destruct Hwf as [Hv Hu]. cbn [to_value EventEnvelope_serde].
  unfold IncomingEventEnvelope_from_value, EventEnvelope_to_value. serde_fields.
  unfold ServiceUpdateOrUnknown_from_value. by rewrite from_to_value.
Qed.

(** ** What is not a known request *)

(** The name under which a request is written. *)
Definition request_name (x : ServiceRequest) : string :=
  match ServiceRequest_to_value x with
  | Object ((_, Str name) :: _) => name
  | _ => EmptyString
  end.

(** The server reads a tagged object as a request only under the name of a
    request, and otherwise keeps its name. *)
Lemma tagged_read (name : string) (entries : list (string * value)) (v : value) :
  internal_parts "type" v = Some (name, entries) →
  match ServiceRequestOrUnknown_from_value v with
  | Some (KnownRequest request) => request_name request = name
  | Some (UnknownRequest message) => um_type_name message = name
  | None => False
  end.
Proof.
  intros Hp. unfold ServiceRequestOrUnknown_from_value, UnknownTaggedMessage_from_value.
  cbn [from_value ServiceRequest_serde]. unfold ServiceRequest_from_value. rewrite Hp.
  cbn [mbind option_bind find_variant]. clear Hp.
  repeat match goal with
  | |- context [String.eqb ?k name] =>
      destruct (String.eqb_spec k name) as [<-|_]; cbn [mbind option_bind]; [try done|]
  end; try done;
  lazymatch goal with
  | |- context [KnownRequest <$> ?f entries] =>
      destruct (f entries) as [req|] eqn:Hreq; [|done]; unfold f in Hreq;
      simplify_option_eq; done
  end.
Qed.

Lemma known_request_name (x : ServiceRequest) : is_known_request_type (request_name x) = true.
Proof. by destruct x. Qed.

Lemma unknown_type_unread (name : string) (entries : list (string * value)) (v : value) :
  internal_parts "type" v = Some (name, entries) → is_known_request_type name = false →
  ServiceRequestOrUnknown_from_value v =
  Some (UnknownRequest {| um_type_name := name; um_rest := entries |}).
Proof.
  intros Hp Hk. pose proof (tagged_read _ _ _ Hp) as Hr.
  unfold ServiceRequestOrUnknown_from_value in *.
  destruct (from_value v) as [req|] eqn:Hv; cbn in Hr.
  - rewrite <-Hr, known_request_name in Hk. done.
  - unfold UnknownTaggedMessage_from_value. by rewrite Hp.
Qed.
