(* ===== verification/RuntimeError.v ===== *)
(** * Errors of the runtime (playit-runtime/src/error.rs) *)

From S2P Require Import Prelude Json IpcModel.

Inductive RuntimeError : Type :=
  | SecretError (code : ServiceErrorCode) (message : string) (retryable : bool) (details : option value)
  | RuntimeSetup (code : ServiceErrorCode) (message : string) (retryable : bool) (details : option value)
  | RuntimeApi (code : ServiceErrorCode) (message : string) (retryable : bool) (details : option value)
  | InvalidState (code : ServiceErrorCode) (message : string) (retryable : bool) (details : option value)
  | RuntimeIo (e : io_error)
  | RuntimeStopped.

Definition RuntimeError_secret (code : ServiceErrorCode) (message : string) (retryable : bool) :
    RuntimeError := SecretError code message retryable None.

Definition setup_with_code (code : ServiceErrorCode) (message : string) (retryable : bool) :
    RuntimeError := RuntimeSetup code message retryable None.

Definition RuntimeError_setup (message : string) (retryable : bool) : RuntimeError :=
  setup_with_code Internal message retryable.

Definition RuntimeError_api (code : ServiceErrorCode) (message : string) (retryable : bool) :
    RuntimeError := RuntimeApi code message retryable None.

Definition RuntimeError_invalid (code : ServiceErrorCode) (message : string) (retryable : bool) :
    RuntimeError := InvalidState code message retryable None.

Definition as_service_error (e : RuntimeError) : ServiceError :=
  match e with
  | SecretError code message retryable details
  | RuntimeSetup code message retryable details
  | RuntimeApi code message retryable details
  | InvalidState code message retryable details =>
      {| se_code := code; se_message := message; se_retryable := retryable; se_details := details |}
  | RuntimeIo e =>
      {| se_code := Internal; se_message := err_msg e; se_retryable := true; se_details := None |}
  | RuntimeStopped =>
      {| se_code := ApiUnavailable; se_message := "The Playit runtime has stopped.";
         se_retryable := true; se_details := None |}
  end.

(** [Display], derived by thiserror. *)
Definition RuntimeError_display (e : RuntimeError) : string :=
  match e with
  | SecretError _ message _ _ => "secret error: " +:+ message
  | RuntimeSetup _ message _ _ => "runtime setup error: " +:+ message
  | RuntimeApi _ message _ _ => "Playit API error: " +:+ message
  | InvalidState _ message _ _ => "invalid runtime state: " +:+ message
  | RuntimeIo e => "runtime I/O error: " +:+ err_msg e
  | RuntimeStopped => "the Playit runtime has stopped"
  end.
