(* ===== verification/SecretStore.v ===== *)
(** * The agent's secret on disk (playit-runtime/src/secret.rs)

    Validation, loading, and the replacement of the secret file: a private
    temporary file beside it is written and moved over it. The Unix build is
    modelled here, the file of the Windows build in WindowsSetup. *)

From S2P Require Import Prelude Text Json IpcModel RuntimeError OriginLookup FileSystem.
From Stdlib Require Import Ascii.
#[local] Open Scope string_scope.
#[local] Open Scope list_scope.
#[local] Open Scope Z_scope.

(** ** Crates: hex and toml *)

Class SecretLib : Type := {
  hex_decode : string → option (list Byte.byte);
  (** [toml::to_string(&SecretConfig { secret_key })] *)
  toml_print : string → string;
  (** [toml::from_str::<SecretConfig>], its [secret_key] *)
  toml_parse : string → option string;
}.

(** Documented: hex text consists of digits; a struct with a string field is
    printed as [name = value], and read back. *)
Class SecretLibLaws (SL : SecretLib) : Prop := {
  hex_decode_digits : ∀ s b, hex_decode s = Some b → all_hex s = true;
  toml_print_assigns : ∀ k, ∃ rest, toml_print k = "secret_key = " +:+ rest;
  toml_parse_print : ∀ k, all_hex k = true → toml_parse (toml_print k) = Some k;
}.

(** ** Secrets *)

Inductive SecretSource : Type :=
  | InlineSecret (secret : string)
  | SecretFile (p : path).

Inductive LoadedSecret : Type :=
  | Ready (secret : string)
  | Missing
  | Invalid (message : string).

Section secret.
Context {SL : SecretLib}.

Definition validate_secret (secret : string) : string + string :=
  if decide (secret = EmptyString) then
    inl "The secret is empty. It should be the key generated by playit setup."
  else
    match hex_decode secret with
    | Some _ => inr secret
    | None => inl "The secret is not valid. It should be the key generated by playit setup."
    end.

(** The file holds the bare secret or a TOML document. *)
Definition parse_secret_file (content : string) : option string :=
  match validate_secret (str_trim content) with
  | inr secret => Some secret
  | inl _ =>
      key ← toml_parse content;
      match validate_secret (str_trim key) with
      | inr secret => Some secret
      | inl _ => None
      end
  end.

Definition load_secret_from_path {E} (p : path) : FS E LoadedSecret :=
  r ← fs_try (read_to_string p);
  mret match r with
  | inr content =>
      match parse_secret_file content with
      | Some secret => Ready secret
      | None => Invalid ("Invalid secret file at " +:+ display p +:+
                         ". Remove or replace it with a valid secret.")
      end
  | inl e =>
      if decide (err_kind e = NotFound) then Missing
      else Invalid ("Failed to read secret file " +:+ display p +:+ ": " +:+ err_msg e)
  end.

Definition SecretSource_load {E} (source : SecretSource) : FS E LoadedSecret :=
  match source with
  | InlineSecret secret =>
      mret match validate_secret (str_trim secret) with
      | inr secret => Ready secret
      | inl e => Invalid ("Invalid secret passed via inline configuration: " +:+ e)
      end
  | SecretFile p => load_secret_from_path p
  end.

Definition secret_path (source : SecretSource) : option path :=
  match source with InlineSecret _ => None | SecretFile p => Some p end.

Definition allows_provisioning (source : SecretSource) : bool :=
  match source with InlineSecret _ => false | SecretFile _ => true end.

Definition provisioning_error (source : SecretSource) : RuntimeError :=
  match source with
  | InlineSecret _ =>
      RuntimeError_secret SecretPinned
        "Secret provisioning is unavailable because the runtime was started with an inline secret."
        false
  | SecretFile _ =>
      RuntimeError_secret ProvisioningUnavailable "Secret provisioning is unavailable." true
  end.

Definition reset_error (source : SecretSource) : RuntimeError :=
  match source with
  | InlineSecret _ =>
      RuntimeError_secret SecretPinned
        "Secret reset is unavailable because the runtime was started with an inline secret." false
  | SecretFile p =>
      RuntimeError_secret SecretWriteFailed ("Failed to access secret file " +:+ display p) true
  end.

Definition write_failed (message : string) (e : io_error) : RuntimeError :=
  RuntimeError_secret SecretWriteFailed (message +:+ ": " +:+ err_msg e) true.

(** ** The directory of the secret *)

(** The loop that collects the missing directories, from the innermost. The
    path gets shorter in every round. *)
Fixpoint missing_dirs (fuel : nat) (current : path) : FS RuntimeError (list path) :=
  match fuel with
  | O => mret []
  | S fuel =>
      r ← fs_try (metadata current);
      match r with
      | inr true => mret []
      | inr false =>
          fs_err (RuntimeError_secret SecretWriteFailed
            ("Secret path parent " +:+ display current +:+ " is not a directory") true)
      | inl e =>
          if decide (err_kind e = NotFound) then
            match parent current with
            | None => mret [current]
            | Some next =>
                if decide (next = current) then mret [current]
                else rest ← missing_dirs fuel next; mret (current :: rest)
            end
          else fs_err (write_failed ("Failed to inspect secret directory " +:+ display current) e)
      end
  end.

Fixpoint secure_dirs (dirs : list path) : FS RuntimeError () :=
  match dirs with
  | [] => mret ()
  | d :: dirs =>
      fs_map_err (write_failed ("Failed to secure secret directory " +:+ display d))
        (set_permissions d 448);;
      secure_dirs dirs
  end.

Definition ensure_secret_parent (mode : Z) (p : path) : FS RuntimeError () :=
  match parent p with
  | None | Some [] => mret ()
  | Some dir =>
      new_directories ← missing_dirs (S (length dir)) dir;
      fs_map_err (write_failed ("Failed to create secret directory " +:+ display dir))
        (create_dir_all mode dir);;
      secure_dirs new_directories
  end.

(** ** Replacing the file *)

(** [unique] is the process id, the variant and the random suffix. *)
Definition tmp_path (p : path) (unique : string) : path :=
  default [] (parent p) ++ ["." +:+ default "playit.toml" (file_name p) +:+ ".tmp-" +:+ unique].

Definition write_steps (p tmp : path) (content : string) : FS RuntimeError () :=
  fs_map_err (write_failed ("Failed to create temporary secret file " +:+ display tmp))
    (create_new tmp 384);;
  fs_map_err (write_failed ("Failed to write temporary secret file " +:+ display tmp))
    (write_all tmp content);;
  fs_map_err (write_failed ("Failed to sync temporary secret file " +:+ display tmp)) sync_all;;
  fs_map_err (write_failed ("Failed to replace secret file " +:+ display p +:+ " with " +:+ display tmp))
    (rename tmp p);;
  fs_map_err (write_failed ("Failed to set secret file permissions on " +:+ display p))
    (set_permissions p 384).

Definition secure_write_secret_file_blocking (p : path) (unique content : string) :
    FS RuntimeError () :=
  let tmp := tmp_path p unique in
  result ← fs_try (write_steps p tmp content);
  match result with
  | inr () => mret ()
  | inl e => fs_try (E := io_error) (remove_file tmp);; fs_err e
  end.

Definition persist_secret_file (mode : Z) (unique : string) (p : path) (secret : string) :
    FS RuntimeError string :=
  match validate_secret (str_trim secret) with
  | inl e => fs_err (RuntimeError_secret InvalidSecret e false)
  | inr secret =>
      ensure_secret_parent mode p;;
      secure_write_secret_file_blocking p unique
        (if decide (extension p = Some "toml"%string) then toml_print secret else secret);;
      mret secret
  end.

Definition reset_secret_file (p : path) : FS RuntimeError string :=
  r ← fs_try (remove_file p);
  match r with
  | inr () =>
      mret ("Deleted secret file at " +:+ display p +:+
            ". Start the runtime again to reprovision a new secret.")
  | inl e =>
      if decide (err_kind e = NotFound)
      then mret ("Secret file was already absent at " +:+ display p +:+ ".")
      else fs_err (write_failed ("Failed to delete secret file " +:+ display p) e)
  end.
End secret.
