(* ===== verification/SecretTheorems.v ===== *)
(** * The secret file is replaced atomically and privately

    The states that others can see while the secret is replaced, by the logic
    of FileSystem, and that a stored secret is found again. *)

From S2P Require Import Prelude Text Json IpcModel RuntimeError FileSystem SecretStore.
From Stdlib Require Import Ascii.

(** ** Paths of the secret *)

Lemma string_app_length a b : String.length (a +:+ b) = (String.length a + String.length b)%nat.
Proof. induction a as [|c a IH]; [done|]. change (S (String.length (a +:+ b)) = S (String.length a + String.length b))%nat. by rewrite IH. Qed.

Lemma tmp_path_ne p unique : tmp_path p unique ≠ p.
Proof.
  unfold tmp_path. destruct (parent p) as [q|] eqn:Hp.
  - destruct (parent_snoc _ _ Hp) as [c Hc].
    unfold parent, file_name in *. rewrite Hc in *. rewrite reverse_snoc in *.
    intros Heq. cbn [default] in Heq. apply app_inj_tail in Heq as [_ Heq].
    apply (f_equal String.length) in Heq. revert Heq. rewrite !string_app_length.
    change (String.length ".") with 1%nat.
    clear Hp. case_decide as Hd; cbn [from_option id]; [|lia].
    destruct Hd as [->| ->]; [change (String.length root) with 1%nat | change (String.length "..") with 2%nat];
      change (String.length "playit.toml") with 11%nat; lia.
  - unfold parent in Hp. intros Heq. cbn [default app] in Heq. rewrite <-Heq in Hp.
    cbn in Hp. case_decide as Hd; [|done]. apply (f_equal String.length) in Hd.
    revert Hd. rewrite !string_app_length. change (String.length ".") with 1%nat.
    change (String.length ".tmp-") with 5%nat. change (String.length root) with 1%nat. lia.
Qed.

(** ** The invariant *)

Section atomic.
Context {SL : SecretLib}.
Context (n0 : nodes) (p : path) (content : string).

(** Only the owner may use the file. *)
Definition private (mode : Z) : Prop := Z.land mode 63 = 0.

(** The secret is the old or the new one, and no file has become readable by
    others. *)
Definition secret_inv (n : nodes) : Prop :=
  (n !! p = n0 !! p ∨ n !! p = Some (File content 384)) ∧
  (∀ q c mode, n !! q = Some (File c mode) → n0 !! q = Some (File c mode) ∨ private mode).

Lemma secret_inv_insert_other (n : nodes) (q : path) (x : node) :
  q ≠ p → (∀ c mode, x = File c mode → private mode) → secret_inv n → secret_inv (<[q := x]> n).
Proof.
  intros Hq Hx [Hp Hf]. split; [by rewrite lookup_insert_ne|].
  intros q' c mode [[-> Hn]|[? Hn]]%lookup_insert_Some; [|by apply Hf]. right. by eapply Hx.
Qed.

Lemma secret_inv_delete (n : nodes) (q : path) : q ≠ p → secret_inv n → secret_inv (delete q n).
Proof.
  intros Hq [Hp Hf]. split; [by rewrite lookup_delete_ne|].
  intros q' c mode [_ Hn]%lookup_delete_Some. by apply Hf.
Qed.

Lemma secret_inv_moved (n : nodes) (q : path) :
  secret_inv n → secret_inv (<[p := File content 384]> (delete q n)).
Proof.
  intros [Hp Hf]. split; [right; by rewrite lookup_insert_eq|].
  intros q' c mode [[_ [= <- <-]]|[_ [_ Hn]%lookup_delete_Some]]%lookup_insert_Some; [by right | by apply Hf].
Qed.

Lemma secret_inv_set_content (n : nodes) (q : path) (c : string) :
  q ≠ p → (∀ c' mode, n !! q = Some (File c' mode) → private mode) →
  secret_inv n → secret_inv (set_content q c n).
Proof.
  intros Hq Hm Hi. unfold set_content. destruct (n !! q) as [[|c' mode]|] eqn:Hn; [done| |done].
  apply secret_inv_insert_other; [done | | done]. intros ? ? [= <- <-]. by eapply Hm.
Qed.

Lemma remove_file_inv (q : path) :
  q ≠ p → triple secret_inv secret_inv (remove_file q) (λ _ n, secret_inv n).
Proof.
  intros Hq. apply triple_sys; [|done]. intros n Hn. unfold remove_op.
  destruct (n !! q) as [[]|] eqn:Hl; cbn; [done | | done]. by split; apply secret_inv_delete.
Qed.

(** The file is complete in the temporary place before it is moved. *)
Lemma write_steps_triple (tmp : path) :
  tmp ≠ p →
  triple secret_inv secret_inv (write_steps p tmp content)
    (λ r n, secret_inv n ∧ (r = inr () → n !! p = Some (File content 384) ∧ n !! tmp = None)).
Proof.
  intros Htmp. unfold write_steps.
  apply triple_call with (λ n, secret_inv n ∧ n !! tmp = Some (File EmptyString 384));
    [|done|naive_solver|].
  { intros n Hn. destruct (n !! tmp); [done|]. destruct (has_parent n tmp); [|done]. cbn.
    rewrite lookup_insert_eq. split; [|split]; [by apply secret_inv_insert_other; [|naive_solver|]..|done]. }
  apply triple_call with (λ n, secret_inv n ∧ n !! tmp = Some (File content 384));
    [| |naive_solver|].
  { intros n [Hn Ht]. cbn. unfold set_content. rewrite Ht, lookup_insert_eq.
    split; [|split]; [by apply secret_inv_insert_other; [|naive_solver|]..|done]. }
  { intros n j [Hn Ht]. apply secret_inv_set_content; [done | | done]. intros c m. by rewrite Ht; intros [= <- <-]. }
  apply triple_call with (λ n, secret_inv n ∧ n !! tmp = Some (File content 384)); [naive_solver..|].
  apply triple_call with (λ n, secret_inv n ∧ n !! p = Some (File content 384) ∧ n !! tmp = None);
    [|naive_solver..|].
  { intros n [Hn Ht]. cbn. rewrite Ht.
    assert (Hmoved : secret_inv (<[p := File content 384]> (delete tmp n))) by by apply secret_inv_moved.
    assert (Hp : <[p := File content 384]> (delete tmp n) !! p = Some (File content 384))
      by by rewrite lookup_insert_eq.
    assert (Hno : <[p := File content 384]> (delete tmp n) !! tmp = None)
      by by rewrite lookup_insert_ne, lookup_delete_eq.
    by destruct (n !! p) as [[]|]; cbn. }
  eapply (triple_map_err _ _ _ _ _ (λ r n, secret_inv n ∧ (r = inr () → n !! p = Some (File content 384) ∧ n !! tmp = None)));
    [|naive_solver..].
  apply triple_sys; [|naive_solver]. intros n (Hn & Hp & Ht). rewrite Hp. cbn.
  by rewrite insert_id by done.
Qed.

Lemma secure_write_triple (unique : string) :
  triple secret_inv secret_inv (secure_write_secret_file_blocking p unique content)
    (λ r n, secret_inv n ∧ (r = inr () → n !! p = Some (File content 384))).
Proof.
  unfold secure_write_secret_file_blocking.
  eapply (triple_bind _ _ _ _ (λ r n, secret_inv n ∧ (r = inr (inr ()) → n !! p = Some (File content 384)))).
  - eapply triple_try; [apply write_steps_triple, tmp_path_ne | naive_solver].
  - intros [e|[]].
    + eapply (triple_bind _ _ _ _ (λ _ n, secret_inv n)); [| |naive_solver].
      * apply (triple_try _ _ _ (λ _ n, secret_inv n)); [|done].
        eapply fs_triple_weaken; [apply remove_file_inv, (tmp_path_ne p unique) | naive_solver | done].
      * intros r. apply triple_err. naive_solver.
    + apply fs_triple_ret. naive_solver.
  - naive_solver.
Qed.

(** ** The directories *)

Lemma metadata_inv (q : path) :
  triple secret_inv secret_inv (metadata q) (λ _ n, secret_inv n).
Proof. by apply triple_sys. Qed.

Lemma missing_dirs_triple (fuel : nat) (dir : path) :
  (length dir < length p)%nat →
  triple secret_inv secret_inv (missing_dirs fuel dir)
    (λ r n, secret_inv n ∧ ∀ dirs, r = inr dirs → Forall (λ d, length d < length p)%nat dirs).
Proof.
  revert dir. induction fuel as [|fuel IH]; intros dir Hlen; cbn.
  { apply fs_triple_ret. intros n Hn. split; [done|]. by intros ? [= <-]. }
  eapply (triple_bind _ _ _ _ (λ _ n, secret_inv n)); [eapply triple_try; [apply metadata_inv | done] | | naive_solver].
  assert (Hone : triple secret_inv secret_inv (mret [dir]) (λ (r : RuntimeError + list path) n,
    secret_inv n ∧ ∀ dirs, r = inr dirs → Forall (λ d, length d < length p)%nat dirs)).
  { apply fs_triple_ret. intros n Hn. split; [done|]. intros ? [= <-]. by constructor. }
  intros [e|[|]].
  - case_decide; [|apply triple_err; naive_solver].
    destruct (parent dir) as [next|] eqn:Hnext; [|done]. case_decide; [done|].
    apply parent_shorter in Hnext.
    eapply (triple_bind _ _ _ _ _ _ (IH next ltac:(lia))); [|naive_solver].
    intros rest. apply fs_triple_ret. intros n [Hn Hr]. split; [done|]. intros ? [= <-].
    constructor; [done | by apply Hr].
  - apply fs_triple_ret. intros n Hn. split; [done|]. intros ? [= <-]. constructor.
  - apply triple_err. naive_solver.
Qed.

Lemma make_dirs_inv (mode : Z) (rest done : path) (n : nodes) :
  (length done + length rest < length p)%nat → secret_inv n → secret_inv (make_dirs mode done rest n).2.
Proof.
  revert done n. induction rest as [|c rest IH]; intros dn n Hlen Hn; cbn; [done|]. cbn in Hlen.
  assert (length (dn ++ [c]) = S (length dn)) as Hd by (rewrite length_app; cbn; lia).
  destruct (n !! (dn ++ [c])) as [[]|]; [apply IH; [lia | done] | done | apply IH; [lia|]].
  apply secret_inv_insert_other; [intros Heq; rewrite Heq in Hd; lia | done | done].
Qed.

Lemma set_permissions_inv (q : path) :
  q ≠ p → triple secret_inv secret_inv (set_permissions q 448) (λ _ n, secret_inv n).
Proof.
  intros Hq. apply triple_sys; [|done]. intros n Hn.
  destruct (n !! q) as [[]|] eqn:Hl; cbn; [| |done];
    split; (apply secret_inv_insert_other; [done | naive_solver | done]).
Qed.

Lemma secure_dirs_triple (dirs : list path) :
  Forall (λ d, length d < length p)%nat dirs →
  triple secret_inv secret_inv (secure_dirs dirs) (λ _ n, secret_inv n).
Proof.
  induction 1 as [|d dirs Hd _ IH]; cbn; [by apply fs_triple_ret|].
  eapply (triple_bind _ _ _ _ (λ _ n, secret_inv n)); [| done | done].
  eapply triple_map_err; [apply set_permissions_inv | done | done]. intros ->. lia.
Qed.

Lemma ensure_parent_triple (mode : Z) :
  triple secret_inv secret_inv (ensure_secret_parent mode p) (λ _ n, secret_inv n).
Proof.
  unfold ensure_secret_parent. destruct (parent p) as [[|c q]|] eqn:Hp; [by apply fs_triple_ret | | by apply fs_triple_ret].
  apply parent_shorter in Hp.
  eapply (triple_bind _ _ _ _ _ _ (missing_dirs_triple _ _ Hp)); [|naive_solver].
  intros dirs s r s' Hrun [Hn Hdirs]. specialize (Hdirs _ eq_refl). revert s r s' Hrun Hn.
  change (triple secret_inv secret_inv (fs_map_err (write_failed ("Failed to create secret directory " +:+ display (c :: q)))
    (create_dir_all mode (c :: q));; secure_dirs dirs) (λ _ n, secret_inv n)).
  apply triple_call with secret_inv; [|done|done|by apply secure_dirs_triple].
  intros n Hn. assert (secret_inv (make_dirs mode [] (c :: q) n).2) by (by apply make_dirs_inv). done.
Qed.
End atomic.

(** ** Loading what was written *)

Section roundtrip.
Context {SL : SecretLib} {L : SecretLibLaws SL}.

(** What the file holds. *)
Definition stored (p : path) (secret : string) : string :=
  if decide (extension p = Some "toml"%string) then toml_print secret else secret.

Lemma validate_hex (secret secret' : string) :
  validate_secret secret = inr secret' → secret' = secret ∧ all_hex secret = true.
Proof.
  unfold validate_secret. case_decide; [done|]. destruct (hex_decode secret) as [b|] eqn:Hd; [|done].
  intros [= <-]. split; [done | by eapply hex_decode_digits].
Qed.

Lemma parse_stored (p : path) (secret : string) :
  validate_secret secret = inr secret → parse_secret_file (stored p secret) = Some secret.
Proof.
  intros Hv. destruct (validate_hex _ _ Hv) as [_ Hhex]. unfold stored, parse_secret_file.
  case_decide; [|by rewrite str_trim_hex, Hv].
  destruct (validate_secret (str_trim (toml_print secret))) as [e|k] eqn:Htoml.
  - rewrite toml_parse_print by done. cbn. by rewrite str_trim_hex, Hv.
  - apply validate_hex in Htoml as [_ Htoml]. destruct (toml_print_assigns secret) as [rest Hrest].
    rewrite Hrest in Htoml. change ("secret_key = " +:+ rest) with (String.String "s"%char ("ecret_key = " +:+ rest)) in Htoml.
    rewrite str_trim_not_hex in Htoml; [done | by apply (bool_decide_unpack _); vm_compute | done].
Qed.

Lemma load_stored {E : Type} (p : path) (secret : string) (mode : Z) (s : fs) :
  validate_secret secret = inr secret →
  fs_nodes s !! p = Some (File (stored p secret) mode) → head (fs_faults s) ∈ [None; Some None] →
  (load_secret_from_path (E := E) p s).1 = inr (Ready secret).
Proof.
  intros Hv Hp Hf. unfold load_secret_from_path, fs_try, read_to_string, sys, mbind, FS_bind.
  destruct (fs_faults s) as [|[[e k]|] faults]; [| cbn in Hf; set_solver |];
    rewrite Hp; cbn; by rewrite parse_stored.
Qed.
End roundtrip.

(** ** The store as a whole *)

Section store.
Context {SL : SecretLib} {L : SecretLibLaws SL}.

(** What provisioning shows and leaves: [s] before, [s'] after, [content] the
    new file. *)
Definition replaced (s s' : fs) (p : path) (content : string) (r : RuntimeError + string) : Prop :=
  ∃ seen, fs_seen s' = fs_seen s ++ seen ∧
    Forall (secret_inv (fs_nodes s) p content) seen ∧
    secret_inv (fs_nodes s) p content (fs_nodes s') ∧
    (∀ k, r = inr k → fs_nodes s' !! p = Some (File content 384)).

Lemma secret_inv_start (n : nodes) (p : path) (content : string) : secret_inv n p content n.
Proof. split; [by left | by left]. Qed.

Lemma persist_replaced (s s' : fs) (mode : Z) (p : path) (unique secret : string) (r : RuntimeError + string) :
  persist_secret_file mode unique p secret s = (r, s') →
  replaced s s' p (stored p (str_trim secret)) r ∧
  (∀ k, r = inr k → k = str_trim secret ∧ validate_secret k = inr k).
Proof.
  unfold persist_secret_file. intros Hrun.
  destruct (validate_secret (str_trim secret)) as [e|k] eqn:Hv.
  { injection Hrun as <- <-. split; [|done]. exists []. rewrite app_nil_r.
    split_and!; [done.. | apply secret_inv_start | done]. }
  destruct (validate_hex _ _ Hv) as [-> _].
  assert (Ht : triple (secret_inv (fs_nodes s) p (stored p (str_trim secret)))
    (secret_inv (fs_nodes s) p (stored p (str_trim secret)))
    (ensure_secret_parent mode p;;
     secure_write_secret_file_blocking p unique (stored p (str_trim secret));; mret (str_trim secret))
    (λ r n, secret_inv (fs_nodes s) p (stored p (str_trim secret)) n ∧
      ∀ k, r = inr k → n !! p = Some (File (stored p (str_trim secret)) 384) ∧ k = str_trim secret)).
  { eapply triple_bind; [apply ensure_parent_triple | | naive_solver]. intros [].
    eapply triple_bind; [apply secure_write_triple | | naive_solver]. intros [].
    apply fs_triple_ret. naive_solver. }
  destruct (Ht _ _ _ Hrun (secret_inv_start _ _ _)) as (seen & Hseen & Hinv & Hend & Hok).
  split; [exists seen; split_and!; [done.. | intros k Hk; by apply Hok in Hk as [? _]]|]. intros k Hk. destruct (Hok _ Hk) as [_ ->]. done.
Qed.

(** C10: Storing a secret is atomic and private, whatever fails on the way. In
    every state of the file system that another process can see, and in the
    last one, the secret file is untouched or is the whole new file with mode
    0600, and no file has come to be readable by anyone but its owner; when
    the call succeeds the new file is in place, and when it fails its error
    left one of the two. *)
Theorem secret_replacement_atomic (s s' : fs) (mode : Z) (p : path) (unique secret : string)
    (r : RuntimeError + string) :
  persist_secret_file mode unique p secret s = (r, s') →
  replaced s s' p (stored p (str_trim secret)) r.
Proof. intros Hrun. by apply persist_replaced in Hrun as [? _]. Qed.

(** A stored secret is read back: after a successful store, in the TOML
    form or the bare one, a load that can read the file finds exactly the
    trimmed secret; and after a reset that succeeds, it finds none. *)
Theorem secret_round_trip (s s' : fs) (mode : Z) (p : path) (unique secret k : string) :
  persist_secret_file mode unique p secret s = (inr k, s') →
  fs_faults s' = [] →
  k = str_trim secret ∧
  (load_secret_from_path (E := ()) p s').1 = inr (Ready k) ∧
  (∃ msg s2, reset_secret_file p s' = (inr msg, s2) ∧
    (load_secret_from_path (E := ()) p s2).1 = inr Missing).
Proof.
  intros Hrun Hf. destruct (persist_replaced _ _ _ _ _ _ _ Hrun) as [(_ & _ & _ & _ & Hp) Hk].
  destruct (Hk k eq_refl) as [-> Hv]. specialize (Hp _ eq_refl).
  split_and!; [done | eapply load_stored; [done | done | rewrite Hf; set_solver]|].
  unfold reset_secret_file, fs_try, remove_file, remove_op, sys, mbind, FS_bind. rewrite Hf, Hp. cbn.
  eexists _, _. split; [done|].
  unfold load_secret_from_path, fs_try, read_to_string, sys, mbind, FS_bind. cbn.
  by rewrite lookup_delete_eq.
Qed.

End store.

(** ** A concrete library, and runs of the store *)

Definition hex_value (c : ascii) : option nat :=
  let n := nat_of_ascii c in
  if is_ascii_hexdigit c then Some (if n <=? 57 then n - 48 else n mod 32 + 9)%nat else None.

Fixpoint hex_bytes (l : list ascii) : option (list Byte.byte) :=
  match l with
  | [] => Some []
  | [_] => None
  | a :: b :: l =>
      x ← hex_value a; y ← hex_value b; byte ← Byte.of_nat (16 * x + y); rest ← hex_bytes l;
      Some (byte :: rest)
  end.

(** The secret between single quotes. *)
Definition toml_line (k : string) : string := "secret_key = " +:+ "'" +:+ k +:+ "'".

Definition toml_unline (s : string) : option string :=
  if String.prefix "secret_key = '" s
  then Some (String.string_of_list_ascii (removelast (drop 14 (String.list_ascii_of_string s))))
  else None.

#[export] Instance plain_lib : SecretLib := {|
  hex_decode s := hex_bytes (String.list_ascii_of_string s);
  toml_print := toml_line;
  toml_parse := toml_unline;
|}.

Lemma hex_bytes_digits (l : list ascii) (b : list Byte.byte) :
  hex_bytes l = Some b → forallb is_ascii_hexdigit l = true.
Proof.
  revert b. induction l as [l IH] using (induction_ltof1 _ length). unfold ltof in IH.
  destruct l as [|x [|y l]]; intros b; [done | done |]. cbn.
  unfold hex_value at 1 2. destruct (is_ascii_hexdigit x); [|done]. cbn.
  destruct (is_ascii_hexdigit y); [|done]. cbn.
  destruct (Byte.of_nat _); [|done]. cbn. destruct (hex_bytes l) as [r|] eqn:Hr; [|done].
  intros _. eapply IH; [|done]. cbn. lia.
Qed.

Lemma prefix_app (a b : string) : String.prefix a (a +:+ b) = true.
Proof.
  induction a as [|c a IH]; [by destruct b|].
  change ((if ascii_dec c c then String.prefix a (a +:+ b) else false) = true).
  by destruct (ascii_dec c c).
Qed.

Lemma list_ascii_app (a b : string) :
  String.list_ascii_of_string (a +:+ b) =
    String.list_ascii_of_string a ++ String.list_ascii_of_string b.
Proof. induction a as [|c a IH]; [done|]. exact (f_equal (cons c) IH). Qed.

#[export] Instance plain_lib_laws : SecretLibLaws plain_lib.
Proof.
  split.
  - intros s b. apply hex_bytes_digits.
  - intros k. by eexists.
  - intros k _. cbn [toml_parse toml_print plain_lib]. unfold toml_unline, toml_line.
    change ("secret_key = " +:+ "'" +:+ k +:+ "'") with ("secret_key = '" +:+ (k +:+ "'")).
    rewrite prefix_app, !list_ascii_app. cbn [String.list_ascii_of_string app drop].
    by rewrite drop_0, removelast_last, String.string_of_list_ascii_of_string.
Qed.


Definition etc_secret : path := [root; "etc"; "playit"; "playit.toml"]%string.

(** The root and [/etc] exist. *)
Definition disk : nodes := {[ [root] := Dir 493; [root; "etc"%string] := Dir 493 ]}.

Lemma run_eq {A B : Type} (x : A * B) (a : A) : x.1 = a → x = (a, x.2).
Proof. by destruct x; cbn; intros ->. Qed.

Lemma secret_round_trip_witness :
  (load_secret_from_path (E := ()) etc_secret
    (persist_secret_file 493 "7" etc_secret " 0aF3 " (no_faults disk)).2).1 = inr (Ready "0aF3").
Proof.
  apply (secret_round_trip (no_faults disk) _ 493 etc_secret "7" " 0aF3 " "0aF3").
  - apply run_eq. vm_compute. reflexivity.
  - vm_compute. reflexivity.
Defined.

(** The call that writes the temporary file fails after two bytes. *)
Definition full_disk : fs :=
  {| fs_nodes := <[[root; "etc"; "playit"]%string := Dir 448]> disk;
     fs_faults := [None; None; None; Some (IoError Other "No space left on device", 2%nat)];
     fs_seen := [] |}.

Lemma secret_replacement_atomic_witness :
  let run := persist_secret_file 493 "7" etc_secret "0aF3" full_disk in
  match run.1 with inl _ => True | inr _ => False end ∧
  replaced full_disk run.2 etc_secret (stored etc_secret "0aF3") run.1.
Proof.
  split; [vm_compute; exact I|].
  apply (secret_replacement_atomic _ _ 493 _ "7" "0aF3"). apply surjective_pairing.
Defined.

(** A relative path whose directory is missing: the empty path is taken for a
    missing directory too, and cannot be given a mode, so nothing is stored. *)
Example relative_directory_fails :
  let run := persist_secret_file 493 "7" ["playit"; "playit.toml"]%string "0aF3" (no_faults ∅) in
  run.1 = inl (write_failed "Failed to secure secret directory " not_found) ∧
  fs_nodes run.2 !! ["playit"; "playit.toml"]%string = None.
Proof. split; vm_compute; reflexivity. Qed.
