(* ===== verification/RuntimeOptions.v ===== *)
(** * Options of the runtime (playit-runtime/src/options.rs)

    The version the agent reports, read from a version text, and the options a
    host starts the runtime with. *)

From S2P Require Import Prelude Text Json OriginLookup Api ApiTunnels ApiAccount IpcModel RuntimeError FileSystem SecretStore.
From stdpp Require Import pretty.
From Stdlib Require Import Ascii.
#[local] Open Scope string_scope.
#[local] Open Scope list_scope.
#[local] Open Scope Z_scope.

Definition DEFAULT_VARIANT_ID : string := "308943e8-faef-4835-a2ba-270351f72aa3".

Record VersionDetails : Type := {
  vd_variant_id : string;
  vd_major : Z;
  vd_minor : Z;
  vd_patch : Z;
}.

(** [s.split(c)]: the parts between the occurrences of [c]. *)
Fixpoint split_on (c : ascii) (s : string) : list string :=
  match s with
  | EmptyString => [EmptyString]
  | String a s =>
      if decide (a = c) then EmptyString :: split_on c s
      else match split_on c s with
           | p :: ps => String a p :: ps
           | [] => [String a EmptyString]
           end
  end.

Section parse.
(** [Display] of [ParseIntError] for a part that is no number. *)
Context (parse_int_error : string → string).

Definition parse_version_part (part : string) : string + Z :=
  match uint_from_str 32 part with
  | Some n => inr n
  | None => inl ("Invalid version component " +:+ part +:+ ": " +:+ parse_int_error part)
  end.

(** [parts.next().ok_or_else(..).and_then(parse_version_part)]. *)
Definition next_part (what version : string) (parts : list string) : string + Z :=
  match parts with
  | [] => inl ("missing " +:+ what +:+ " version in " +:+ version)
  | part :: _ => parse_version_part part
  end.

Definition from_version_string (version variant_id : string) : string + VersionDetails :=
  let parts := split_on "." (default version (head (split_on "-" version))) in
  match next_part "major" version parts with
  | inl e => inl e
  | inr major =>
      match next_part "minor" version (drop 1 parts) with
      | inl e => inl e
      | inr minor =>
          match next_part "patch" version (drop 2 parts) with
          | inl e => inl e
          | inr patch =>
              inr {| vd_variant_id := variant_id; vd_major := major; vd_minor := minor; vd_patch := patch |}
          end
      end
  end.
End parse.

Definition version_string (v : VersionDetails) : string :=
  pretty (vd_major v) +:+ "." +:+ pretty (vd_minor v) +:+ "." +:+ pretty (vd_patch v).

Record VersionOverrideFile : Type := {
  vo_variant_id : option string;
  vo_major : option Z;
  vo_minor : option Z;
  vo_patch : option Z;
}.

Definition apply_overrides (v : VersionDetails) (o : VersionOverrideFile) : VersionDetails :=
  {| vd_variant_id := default (vd_variant_id v) (vo_variant_id o);
     vd_major := default (vd_major v) (vo_major o);
     vd_minor := default (vd_minor v) (vo_minor o);
     vd_patch := default (vd_patch v) (vo_patch o) |}.

Section options.
Context {FM : Formats}.
(** [Display] of the error of uuid's [FromStr]. *)
Context (uuid_error : string → string).

Definition agent_version (v : VersionDetails) : string + AgentVersion :=
  match read uuid_text (vd_variant_id v) with
  | Some variant_id =>
      inr {| AgentVersion_variant_id := variant_id;
             AgentVersion_version_major := vd_major v;
             AgentVersion_version_minor := vd_minor v;
             AgentVersion_version_patch := vd_patch v |}
  | None => inl ("invalid variant ID " +:+ vd_variant_id v +:+ ": " +:+ uuid_error (vd_variant_id v))
  end.
End options.

Record RuntimeOptions : Type := {
  ro_secret_path : path;
  ro_secret : option string;
  ro_version : VersionDetails;
  ro_platform_docker : bool;
  ro_api_base : string;
}.

(** [current_platform] depends on the target of the build. *)
Definition platform_for_options (current_platform : Platform) (o : RuntimeOptions) : Platform :=
  if ro_platform_docker o then Platform_Docker else current_platform.

(** [SecretSource::from_options] (secret.rs). *)
Definition SecretSource_from_options (o : RuntimeOptions) : SecretSource :=
  match ro_secret o with
  | Some secret => InlineSecret secret
  | None => SecretFile (ro_secret_path o)
  end.

(** [validate_options] (runtime.rs). *)
Definition validate_options (o : RuntimeOptions) : RuntimeError + () :=
  if decide (ro_secret_path o = []) then
    inl (RuntimeError_setup "RuntimeOptions.secret_path must not be empty" false)
  else if decide (str_trim (ro_api_base o) = EmptyString) then
    inl (RuntimeError_setup "RuntimeOptions.api_base must not be empty" false)
  else inr ().
