(* ===== verification/RuntimeTunnels.v ===== *)
(** * Tunnel operations of the runtime (playit-runtime/src/tunnels.rs)

    Requests to the API built from the runtime's state, its answers as the
    service reports them, and every failure as a service error. *)

From S2P Require Import Prelude Net Json Text OriginLookup Api ApiTunnels ApiAccount HttpClient ApiClient IpcModel RuntimeError.
From stdpp Require Import pretty.
From Stdlib Require Import Ascii.
#[local] Open Scope string_scope.
#[local] Open Scope list_scope.
#[local] Open Scope Z_scope.

(** ** Service not ready *)

Definition lifecycle_name (l : AgentLifecycle) : string :=
  match l with
  | WaitingForSecret => "waiting_for_secret"
  | HasInvalidSecret _ => "has_invalid_secret"
  | DisabledOverLimit _ => "disabled_over_limit"
  | Starting => "starting"
  | Running _ => "running"
  | Stopping => "stopping"
  | LifecycleError _ => "error"
  end.

Definition service_not_ready_error (operation : string) (l : AgentLifecycle) : RuntimeError :=
  match l with
  | WaitingForSecret =>
      RuntimeError_invalid ProvisioningUnavailable
        ("Cannot " +:+ operation +:+ " while the service is waiting for an agent secret.") true
  | HasInvalidSecret e =>
      RuntimeError_invalid InvalidSecret ("Cannot " +:+ operation +:+ ": " +:+ se_message e) false
  | DisabledOverLimit e =>
      RuntimeError_invalid AgentDisabledOverLimit ("Cannot " +:+ operation +:+ ": " +:+ se_message e) false
  | Starting | Stopping =>
      RuntimeError_invalid ApiUnavailable
        ("Cannot " +:+ operation +:+ " while the service is " +:+ lifecycle_name l +:+ ".") true
  | LifecycleError e =>
      RuntimeError_invalid (se_code e) ("Cannot " +:+ operation +:+ ": " +:+ se_message e) (se_retryable e)
  | Running _ =>
      RuntimeError_invalid Internal
        ("Cannot " +:+ operation +:+ " because the running state changed unexpectedly.") false
  end.

Definition newline : string := String (ascii_of_nat 10) EmptyString.

Definition over_limit_guidance : string :=
  "Delete unused agents: https://playit.gg/account/agents" +:+ newline +:+
  "Increase your agent limit: https://playit.gg/account/upgrade".

Definition secret_provisioning_state_error (l : AgentLifecycle) : RuntimeError :=
  match l with
  | WaitingForSecret =>
      RuntimeError_invalid ProvisioningUnavailable
        "The Playit service is not ready to save a secret yet. Try setup again in a few seconds." true
  | HasInvalidSecret e =>
      RuntimeError_invalid ProvisioningUnavailable
        ("The Playit service is not waiting for a new secret because its current secret is invalid: "
         +:+ se_message e) false
  | DisabledOverLimit e =>
      RuntimeError_invalid ProvisioningUnavailable
        ("Setup is unavailable because this account is over the agent limit." +:+ newline +:+
         over_limit_guidance +:+ newline +:+ "Reason: " +:+ se_message e) false
  | Starting =>
      RuntimeError_invalid ProvisioningUnavailable
        "The Playit service is still starting. Try setup again in a few seconds." true
  | Running _ =>
      RuntimeError_invalid ProvisioningUnavailable
        "The Playit service already has a configured secret. Run playit reset before provisioning a new one."
        false
  | Stopping =>
      RuntimeError_invalid ProvisioningUnavailable
        "The Playit service is stopping and cannot accept setup right now." true
  | LifecycleError e =>
      RuntimeError_invalid ProvisioningUnavailable
        ("The Playit service reported an error and cannot accept setup right now: " +:+ se_message e) true
  end.

Definition tunnel_list (l : AgentLifecycle) : RuntimeError + TunnelListResponse :=
  match l with
  | Running state =>
      inr {| tl_tunnels := as_tunnels state; tl_pending_tunnels := as_pending_tunnels state |}
  | l => inl (service_not_ready_error "list tunnels" l)
  end.

(** ** Failures of the API *)

(** A byte that begins a character of UTF-8. *)
Definition starts_char (c : ascii) : bool :=
  negb ((128 <=? nat_of_ascii c)%nat && (nat_of_ascii c <? 192)%nat).

(** The first [k] characters, and the rest. *)
Fixpoint split_chars (k : nat) (l : list ascii) : list ascii * list ascii :=
  match l with
  | [] => ([], [])
  | c :: l' =>
      if starts_char c then
        match k with
        | O => ([], l)
        | S k => let '(a, b) := split_chars k l' in (c :: a, b)
        end
      else let '(a, b) := split_chars k l' in (c :: a, b)
  end.

Definition MAX_MESSAGE_CHARS : nat := 512.

Definition bounded_message (message : string) : string :=
  let '(bounded, rest) :=
    split_chars MAX_MESSAGE_CHARS (String.list_ascii_of_string (str_trim message)) in
  let bounded := String.string_of_list_ascii bounded in
  match rest with
  | _ :: _ => bounded +:+ "…"
  | [] => if decide (bounded = EmptyString) then "no additional details" else bounded
  end.

Definition map_api_response_error (operation : string) (e : ApiResponseError)
    (validation_code : ServiceErrorCode) : RuntimeError :=
  match e with
  | ApiResponseError_Validation message =>
      RuntimeError_invalid validation_code
        ("The playit API rejected " +:+ operation +:+ ": " +:+ bounded_message message +:+ ".") false
  | ApiResponseError_PathNotFound _ =>
      RuntimeError_api ApiRejected ("The playit API does not support " +:+ operation +:+ ".") false
  | ApiResponseError_Auth _ =>
      RuntimeError_api PermissionDenied ("The playit API did not authorize " +:+ operation +:+ ".") false
  | ApiResponseError_Internal internal =>
      RuntimeError_api ApiUnavailable
        ("The playit API reported a temporary internal error while performing " +:+ operation +:+
         " (reference " +:+ bounded_message (ApiInternalError_trace_id internal) +:+ ").") true
  end.

Section errors.
(** [Display] of a status code: its number and the reason http knows for it. *)
Context (status_text : Z → string).

Definition map_http_client_error (operation : string) (e : HttpClientError) : RuntimeError :=
  let retryable := is_transient e in
  let '(code, message) :=
    match e with
    | TooManyRequests =>
        (ApiUnavailable, "The playit API is rate limiting " +:+ operation +:+ "; try again later.")
    | HttpRequestError _ =>
        if retryable then
          (ApiUnavailable, "Could not reach the playit API while performing " +:+ operation +:+ ".")
        else (Internal, "The playit API request for " +:+ operation +:+ " could not be sent.")
    | ParseError status =>
        (if retryable then ApiUnavailable else ApiRejected,
         "The playit API returned an invalid response for " +:+ operation +:+ " (" +:+
         status_text status +:+ ").")
    | SerializeError =>
        (Internal, "Could not prepare the playit API request for " +:+ operation +:+ ".")
    end in
  RuntimeError_api code message retryable.

Definition map_generic_api_error {F} (operation : string) (e : ApiError F HttpClientError) : RuntimeError :=
  match e with
  | ErrFail _ => RuntimeError_api ApiRejected ("The playit API rejected " +:+ operation +:+ ".") false
  | ErrApi e => map_api_response_error operation e ApiRejected
  | ErrClient e => map_http_client_error operation e
  end.

Definition map_tunnel_create_failure (failure : TunnelCreateErrorV1) : RuntimeError :=
  let '(code, reason) :=
  match failure with
  | TunnelCreateErrorV1_AgentNotFound => (ApiRejected, "the agent was not found")
  | TunnelCreateErrorV1_InvalidAgentId => (InvalidTunnelRequest, "the agent ID is invalid")
  | TunnelCreateErrorV1_AgentVersionTooOld => (ApiRejected, "the agent version is too old for this tunnel")
  | TunnelCreateErrorV1_DedicatedIpNotFound => (ApiRejected, "the requested dedicated IP was not found")
  | TunnelCreateErrorV1_PortAllocNotFound => (ApiRejected, "the requested port allocation was not found")
  | TunnelCreateErrorV1_InvalidIpHostname => (InvalidTunnelRequest, "the local IP or hostname is invalid")
  | TunnelCreateErrorV1_InvalidPortCount => (InvalidTunnelRequest, "the requested port count is invalid")
  | TunnelCreateErrorV1_RequiresVerifiedAccount => (PermissionDenied, "a verified account is required")
  | TunnelCreateErrorV1_RegionNotSupported => (ApiRejected, "the requested region is not supported")
  | TunnelCreateErrorV1_InvalidTunnelConfig => (InvalidTunnelRequest, "the tunnel configuration is invalid")
  | TunnelCreateErrorV1_FirewallNotFound => (ApiRejected, "the requested firewall was not found")
  | TunnelCreateErrorV1_TunnelNameIsNotAscii => (InvalidTunnelRequest, "the tunnel name must contain only ASCII characters")
  | TunnelCreateErrorV1_TunnelNameTooLong => (InvalidTunnelRequest, "the tunnel name is too long")
  | TunnelCreateErrorV1_PortAllocDoesNotMatchPortDetails => (InvalidTunnelRequest, "the port allocation does not match the requested tunnel")
  | TunnelCreateErrorV1_RegionRequiresPlayitPremium => (PermissionDenied, "the requested region requires Playit Premium")
  | TunnelCreateErrorV1_PortAllocCurrentlyAssigned => (ApiRejected, "the requested port allocation is already assigned")
  | TunnelCreateErrorV1_PublicPortRequiresPlayitPremium => (PermissionDenied, "the requested public port requires Playit Premium")
  | TunnelCreateErrorV1_RequiresPlayitPremium => (PermissionDenied, "a Playit Premium account is required")
  | TunnelCreateErrorV1_AllocRequestNotSupportedByPorts => (InvalidTunnelRequest, "the allocation request is not supported by the requested ports")
  | TunnelCreateErrorV1_InvalidHostnameId => (InvalidTunnelRequest, "the hostname ID is invalid")
  | TunnelCreateErrorV1_HostnameHasTunnelTypeTarget => (InvalidTunnelRequest, "the hostname is already configured for a tunnel type")
  | TunnelCreateErrorV1_EndpointDoesNotSupportProtocol => (InvalidTunnelRequest, "the endpoint does not support the requested protocol")
  | TunnelCreateErrorV1_InvalidGatewayId => (InvalidTunnelRequest, "the gateway ID is invalid")
  | TunnelCreateErrorV1_GatewayAlreadyHasTunnelType => (ApiRejected, "the gateway already has a tunnel type")
  | TunnelCreateErrorV1_GatewayDoesNotSupportTunnelType => (ApiRejected, "the gateway does not support the requested tunnel type")
  | TunnelCreateErrorV1_TunnelTypeBlockedOnRegion => (ApiRejected, "the requested tunnel type is blocked in this region")
  | TunnelCreateErrorV1_InvalidSoftwareDescription => (InvalidTunnelRequest, "the software description is invalid")
  | TunnelCreateErrorV1_Other => (ApiRejected, "the API rejected the request")
  end in
  RuntimeError_api code ("The playit API rejected tunnel creation: " +:+ reason +:+ ".") false.

Definition map_tunnel_create_error (e : ApiError TunnelCreateErrorV1 HttpClientError) : RuntimeError :=
  match e with
  | ErrFail failure => map_tunnel_create_failure failure
  | ErrApi e => map_api_response_error "tunnel creation" e InvalidTunnelRequest
  | ErrClient e => map_http_client_error "tunnel creation" e
  end.

Definition map_tunnel_delete_error (e : ApiError DeleteError HttpClientError) : RuntimeError :=
  match e with
  | ErrFail DeleteError_TunnelNotFound =>
      RuntimeError_api TunnelNotFound "The requested tunnel does not exist." false
  | ErrApi e => map_api_response_error "tunnel deletion" e InvalidTunnelRequest
  | ErrClient e => map_http_client_error "tunnel deletion" e
  end.

Definition map_account_tunnel_list_error (e : ApiErrorNoFail HttpClientError) : RuntimeError :=
  match e with
  | NoFailUnexpectedFail =>
      RuntimeError_api ApiRejected "The playit API rejected account tunnel listing." false
  | NoFailApi e => map_api_response_error "account tunnel listing" e ApiRejected
  | NoFailClient e => map_http_client_error "account tunnel listing" e
  end.

Definition tunnel_config_failure (failure : TunnelConfigError) : ServiceErrorCode * string :=
  match failure with
  | TunnelConfigError_TunnelNotFound => (TunnelNotFound, "The requested tunnel does not exist.")
  | TunnelConfigError_AgentNotFound => (ApiRejected, "The target Playit agent does not exist.")
  | TunnelConfigError_AgentVersionUnknown => (ApiRejected, "The target Playit agent version is unknown.")
  | TunnelConfigError_CannotConfigTunnelWithoutAgent => (InvalidTunnelRequest, "The tunnel has no agent origin and cannot be configured.")
  | TunnelConfigError_SelfManagedAgentCannotReassignTunnel => (PermissionDenied, "Playit does not allow this tunnel to be reassigned to the self-managed agent.")
  | TunnelConfigError_InvalidConfig _ => (InvalidTunnelRequest, "The tunnel configuration is invalid.")
  | TunnelConfigError_ConfigNotCompatibleWithAgent => (InvalidTunnelRequest, "The tunnel configuration is not compatible with the target agent.")
  | TunnelConfigError_NothingToUpdate => (ApiRejected, "The Playit tunnel configuration did not change.")
  end.

Definition map_tunnel_config_error (e : ApiError TunnelConfigError HttpClientError) : RuntimeError :=
  match e with
  | ErrFail failure =>
      let '(code, message) := tunnel_config_failure failure in RuntimeError_api code message false
  | ErrApi e => map_api_response_error "tunnel reassignment" e ApiRejected
  | ErrClient e => map_http_client_error "tunnel reassignment" e
  end.
End errors.

(** ** Requests *)

Definition normalize_tunnel_name (name : option string) : string :=
  default "playit-tunnel"
    (value ← name;
     let trimmed := str_trim value in
     if decide (trimmed = EmptyString) then None else Some trimmed).

Definition invalid_port_error : RuntimeError :=
  RuntimeError_invalid InvalidTunnelRequest "local_port must be between 1 and 65535" false.

Section requests.
Context {FM : Formats}.

Definition parse_tunnel_id (tunnel_id : string) : RuntimeError + Uuid :=
  match read uuid_text (str_trim tunnel_id) with
  | Some id => inr id
  | None => inl (RuntimeError_invalid InvalidTunnelRequest "tunnel_id must be a valid UUID" false)
  end.

Definition parse_local_address (local_address : option string) : RuntimeError + IpAddr :=
  let local_address := default "127.0.0.1" local_address in
  match read ip_text (str_trim local_address) with
  | Some ip => inr ip
  | None => inl (RuntimeError_invalid InvalidTunnelRequest
                   ("local_address is not a valid IP address: " +:+ local_address) false)
  end.

Definition running_agent_id (operation : string) (l : AgentLifecycle) : RuntimeError + Uuid :=
  match l with
  | Running state =>
      match read uuid_text (as_agent_id state) with
      | Some id => inr id
      | None => inl (RuntimeError_api ApiUnavailable
                       "The running agent has not reported a valid agent ID yet" true)
      end
  | l => inl (service_not_ready_error operation l)
  end.

Definition local_config (local_ip : IpAddr) (local_port : Z) : AgentTunnelConfig :=
  {| AgentTunnelConfig_fields :=
       [{| attr_name := "local_ip"; attr_value := show ip_text local_ip |};
        {| attr_name := "local_port"; attr_value := pretty local_port |}] |}.

Definition create_request_with_protocol (l : AgentLifecycle) (local_port : Z)
    (local_address name : option string) (protocol : TunnelProtocolV1) :
    RuntimeError + ReqTunnelsCreateV1 :=
  if decide (local_port = 0) then inl invalid_port_error
  else
    match parse_local_address local_address with
    | inl e => inl e
    | inr local_ip =>
        match running_agent_id "create a tunnel" l with
        | inl e => inl e
        | inr agent_id =>
            inr {| ReqTunnelsCreateV1_name := normalize_tunnel_name name;
                   ReqTunnelsCreateV1_protocol := protocol;
                   ReqTunnelsCreateV1_origin :=
                     AccountTunnelOriginCreate_Agent
                       {| AgentOrigin_agent_id := Some agent_id;
                          AgentOrigin_config := Some (local_config local_ip local_port) |};
                   ReqTunnelsCreateV1_endpoint :=
                     CreateTunnelEndpoint_Region
                       {| UseAllocRegion_region := PlayitNetwork_Global; UseAllocRegion_port := None |};
                   ReqTunnelsCreateV1_enabled := true;
                   ReqTunnelsCreateV1_firewall_id := None |}
        end
    end.

Definition create_request (l : AgentLifecycle) (local_port : Z) (protocol : TunnelProtocol)
    (local_address name : option string) : RuntimeError + ReqTunnelsCreateV1 :=
  let '(port_type, software_description) :=
    match protocol with
    | ProtocolTcp => (PortTypeTcp, "custom TCP tunnel")
    | ProtocolUdp => (PortTypeUdp, "custom UDP tunnel")
    | ProtocolBoth => (PortTypeBoth, "custom TCP and UDP tunnel")
    end in
  create_request_with_protocol l local_port local_address name
    (TunnelProtocolV1_RawPorts
       {| TunnelProtocolRawPorts_port_type := port_type;
          TunnelProtocolRawPorts_port_count := 1;
          TunnelProtocolRawPorts_software_description := software_description |}).

Definition create_minecraft_request (l : AgentLifecycle) (local_port : Z)
    (local_address name : option string) : RuntimeError + ReqTunnelsCreateV1 :=
  create_request_with_protocol l local_port local_address name (TunnelProtocolV1_TunnelType MinecraftJava).

Definition reassign_request (l : AgentLifecycle) (tunnel_id : string) (local_port : Z)
    (local_address : option string) : RuntimeError + ReqTunnelsConfigV1 :=
  if decide (local_port = 0) then inl invalid_port_error
  else
    match parse_local_address local_address with
    | inl e => inl e
    | inr local_ip =>
        match running_agent_id "reassign a tunnel" l with
        | inl e => inl e
        | inr agent_id =>
            match parse_tunnel_id tunnel_id with
            | inl e => inl e
            | inr tunnel_id =>
                inr {| ReqTunnelsConfigV1_tunnel_id := tunnel_id;
                       ReqTunnelsConfigV1_new_agent_id := Some agent_id;
                       ReqTunnelsConfigV1_new_config := Some (local_config local_ip local_port) |}
            end
        end
    end.

(** ** The account's tunnels *)

Definition tunnel_destination (local_address : option string) (local_port : option Z) : string :=
  match local_address, local_port with
  | Some address, Some port => address +:+ ":" +:+ pretty port
  | Some address, None => address
  | None, Some port => ":" +:+ pretty port
  | None, None => EmptyString
  end.

Definition connect_address_text (a : ConnectAddress) : option string :=
  match a with
  | ConnectAddress_Addr4 a => Some (show sock4_text (ConnectAddr4_address a))
  | ConnectAddress_Addr6 a => Some (show sock6_text (ConnectAddr6_address a))
  | ConnectAddress_Ip4 a =>
      Some (show ipv4_text (ConnectIp4_address a) +:+ ":" +:+ pretty (ConnectIp4_default_port a))
  | ConnectAddress_Ip6 a =>
      Some ("[" +:+ show ipv6_text (ConnectIp6_address a) +:+ "]:" +:+ pretty (ConnectIp6_default_port a))
  | ConnectAddress_Auto a => Some (ConnectAutoName_address a)
  | ConnectAddress_Domain a =>
      Some (if decide (ConnectDomain_address a = EmptyString) then ConnectDomain_domain a
            else ConnectDomain_address a)
  end.

Definition tunnel_type_name (t : TunnelType) : string :=
  match t with
  | MinecraftJava => "minecraft-java"
  | MinecraftBedrock => "minecraft-bedrock"
  | Valheim => "valheim"
  | Terraria => "terraria"
  | Starbound => "starbound"
  | Rust => "rust"
  | Num7days => "7days"
  | Unturned => "unturned"
  | Https => "https"
  | Hytale => "hytale"
  | ProjectZomboid => "project-zomboid"
  | VintageStory => "vintage-story"
  end.

Definition account_tunnel_offline_reason (r : AccountTunnelOfflineReason) : string :=
  match r with
  | AccountTunnelOfflineReason_OriginNotSet => "origin not set"
  | AccountTunnelOfflineReason_AgentDisabled => "agent disabled"
  | AccountTunnelOfflineReason_AgentOverLimit => "agent over limit"
  | AccountTunnelOfflineReason_TunnelDisabled => "tunnel disabled"
  | AccountTunnelOfflineReason_PublicAllocationMissing => "public allocation missing"
  | AccountTunnelOfflineReason_PublicAllocationPending => "public allocation pending"
  end.

(** [fields.iter().find(|field| field.name == name)]. *)
Definition config_field (config : option AgentTunnelConfig) (name : string) : option AgentTunnelAttr :=
  config ← config;
  List.find (λ f, String.eqb (attr_name f) name) (AgentTunnelConfig_fields config).

Definition protocol_of (t : PortType) : TunnelProtocol :=
  match t with
  | PortTypeTcp => ProtocolTcp
  | PortTypeUdp => ProtocolUdp
  | PortTypeBoth => ProtocolBoth
  end.

Fixpoint find_map {A B} (f : A → option B) (l : list A) : option B :=
  match l with
  | [] => None
  | x :: l => match f x with Some y => Some y | None => find_map f l end
  end.

Definition account_tunnel_view (tunnel : AccountTunnelV1) : AccountTunnelState :=
  let agent_id :=
    match AccountTunnelV1_origin tunnel with
    | AccountTunnelOrigin_Agent origin => Some (show uuid_text (TunnelToAgent_agent_id origin))
    | AccountTunnelOrigin_NotSet _ => None
    end in
  let config :=
    match AccountTunnelV1_origin tunnel with
    | AccountTunnelOrigin_Agent origin => Some (TunnelToAgent_config_data origin)
    | AccountTunnelOrigin_NotSet origin => HasAgentConfig_config_data <$> TunnelOriginNotSet_agent_config origin
    end in
  let local_address := attr_value <$> config_field config "local_ip" in
  let local_port := f ← config_field config "local_port"; uint_from_str 16 (attr_value f) in
  let reasons := default [] (AccountTunnelV1_offline_reasons tunnel) in
  let is_disabled := negb (AccountTunnelV1_user_enabled tunnel) || negb (bool_decide (reasons = [])) in
  let disabled_reason :=
    if negb (AccountTunnelV1_user_enabled tunnel) then Some "disabled by user"
    else match reasons with
         | [] => None
         | _ => Some (String.concat ", " (account_tunnel_offline_reason <$> reasons))
         end in
  {| at_id := show uuid_text (AccountTunnelV1_id tunnel);
     at_name := AccountTunnelV1_name tunnel;
     at_display_address :=
       default EmptyString (find_map connect_address_text (AccountTunnelV1_connect_addresses tunnel));
     at_destination := tunnel_destination local_address local_port;
     at_protocol := protocol_of (AccountTunnelV1_port_type tunnel);
     at_tunnel_type := tunnel_type_name <$> AccountTunnelV1_tunnel_type tunnel;
     at_local_address := local_address;
     at_local_port := local_port;
     at_agent_id := agent_id;
     at_is_disabled := is_disabled;
     at_disabled_reason := disabled_reason |}.

Definition account_tunnel_list (response : AccountTunnelsV1) : AccountTunnelListResponse :=
  {| atl_tunnels := account_tunnel_view <$> AccountTunnelsV1_tunnels response |}.
End requests.
