(* ===== verification/RuntimeState.v ===== *)
(** * The runtime's shared state (playit-runtime/src/state.rs, handle.rs)

    The state cache, the events published, the polling of the account, and
    the guest login link; with what the runtime uses of its host: the clock,
    the HTTP transport, the file system. *)

From S2P Require Import Prelude Net Json Text OriginLookup Api ApiTunnels ApiAccount HttpClient ApiClient IpcModel Ipc RuntimeError FileSystem SecretStore RuntimeOptions RuntimeTunnels Utils.
From stdpp Require Import pretty.
#[local] Open Scope string_scope.
#[local] Open Scope list_scope.
#[local] Open Scope Z_scope.

(** ** The host *)

(** What the runtime asks of its host; the n-th question of a run has its own
    answer. *)
Class Host : Type := {
  host_now : nat → Z;
  host_pid : Z;
  (** [Display] of a status code, for error messages *)
  host_status_text : Z → string;
  (** [hex::encode] of five random bytes *)
  host_claim_code : nat → string;
  (** a random suffix for a temporary file *)
  host_unique : nat → string;
  (** the mode the process gives new directories *)
  host_dir_mode : Z;
}.

Class HostLaws (HO : Host) : Prop := {
  host_now_u64 : ∀ n, uint 64 (host_now n);
  host_pid_u32 : uint 32 host_pid;
}.

(** ** The cache *)

Record StateCache : Type := {
  sc_lifecycle : AgentLifecycle;
  sc_status : ServiceStatus;
  sc_stats : ConnectionStats;
}.

Definition StateCache_default : StateCache :=
  {| sc_lifecycle := AgentLifecycle_default; sc_status := ServiceStatus_default;
     sc_stats := ConnectionStats_default |}.

Definition set_lifecycle (l : AgentLifecycle) (c : StateCache) : StateCache :=
  {| sc_lifecycle := l; sc_status := sc_status c; sc_stats := sc_stats c |}.

Definition set_status (s : ServiceStatus) (c : StateCache) : StateCache :=
  {| sc_lifecycle := sc_lifecycle c; sc_status := s; sc_stats := sc_stats c |}.

Definition set_stats (s : ConnectionStats) (c : StateCache) : StateCache :=
  {| sc_lifecycle := sc_lifecycle c; sc_status := sc_status c; sc_stats := s |}.

Definition cache_snapshot (c : StateCache) : SubscriptionSnapshot :=
  {| sn_status := sc_status c; sn_lifecycle := sc_lifecycle c; sn_stats := sc_stats c |}.

Record StatusContext : Type := {
  cx_secret_path : option string;
  cx_version : string;
  cx_start_time : Z;
}.

(** ** The runtime *)

(** Where the task of a claim flow (claim.rs) waits: at the head of its loop,
    for the answer to a request, for a delay in milliseconds, for room in the
    channel, for the acknowledgement; or nowhere, since it ended. *)
Inductive claim_pc : Type :=
  | ClaimHead
  | ClaimSetup
  | ClaimPause (delay : Z)
  | ClaimExchanging
  | ClaimSending (secret : string)
  | ClaimAwaiting
  | ClaimDone.

Record claim_task : Type := { ct_code : string; ct_pc : claim_pc }.

(** [is_finished]. *)
Definition ct_finished (t : claim_task) : bool :=
  match ct_pc t with ClaimDone => true | _ => false end.

Record RuntimeInner : Type := {
  ri_cache : StateCache;
  (** what was sent to the broadcast channel, oldest first; what a receiver
      gets of it is not modelled *)
  ri_events : list ServiceUpdate;
  ri_cancelled : bool;
  ri_status_context : StatusContext;
  ri_secret_source : SecretSource;
  (** whether there is a channel for new secrets *)
  ri_provisioning : bool;
  ri_api : option HttpClient;
  ri_guest_login : option (string * Z);
  ri_claim_code : option string;
  ri_claim_tasks : list claim_task;
  (** the agent's token: [Some b] when there is one, cancelled or not *)
  ri_agent_cancel : option bool;
  ri_api_base : string;
  ri_version : VersionDetails;
  ri_agent_version : AgentVersion;
  ri_platform : Platform;
}.

Section runtime.
Context {FM : Formats} {JT : JsonText} {T : Transport JT} {HO : Host}.

(** The runtime in its world. *)
Record rt : Type := {
  rt_inner : RuntimeInner;
  rt_traffic : traffic JT;
  rt_fs : fs;
  rt_lookup : OriginLookup;
  rt_asked : nat;
}.

Definition RT (A : Type) : Type := rt → A * rt.

#[global] Instance RT_ret : MRet RT := λ A a s, (a, s).
#[global] Instance RT_bind : MBind RT := λ A B f m s, let '(a, s) := m s in f a s.

(** [m?]. *)
Definition rt_try {E A B : Type} (m : RT (E + A)) (f : A → RT (E + B)) : RT (E + B) :=
  m ≫= λ r, match r with inl e => mret (inl e) | inr a => f a end.

Definition rt_get : RT RuntimeInner := λ s, (rt_inner s, s).

Definition with_inner (f : RuntimeInner → RuntimeInner) (s : rt) : rt :=
  {| rt_inner := f (rt_inner s); rt_traffic := rt_traffic s; rt_fs := rt_fs s;
     rt_lookup := rt_lookup s; rt_asked := rt_asked s |}.

Definition rt_modify (f : RuntimeInner → RuntimeInner) : RT () := λ s, ((), with_inner f s).

(** Ask the host. *)
Definition rt_ask {A : Type} (f : nat → A) : RT A := λ s,
  (f (rt_asked s),
   {| rt_inner := rt_inner s; rt_traffic := rt_traffic s; rt_fs := rt_fs s;
      rt_lookup := rt_lookup s; rt_asked := S (rt_asked s) |}).

Definition rt_now : RT Z := rt_ask host_now.

Definition rt_update_lookup (f : OriginLookup → OriginLookup) : RT () := λ s,
  ((), {| rt_inner := rt_inner s; rt_traffic := rt_traffic s; rt_fs := rt_fs s;
          rt_lookup := f (rt_lookup s); rt_asked := rt_asked s |}).

Definition rt_disk {E A : Type} (m : FS E A) : RT (E + A) := λ s,
  let '(r, disk) := m (rt_fs s) in
  (r, {| rt_inner := rt_inner s; rt_traffic := rt_traffic s; rt_fs := disk;
         rt_lookup := rt_lookup s; rt_asked := rt_asked s |}).

(** A call of the API. The client always comes to a result; the default is
    never used. *)
Definition rt_http {E A : Type} (m : traffic JT → option (E + A) * traffic JT) (unreachable : E) :
    RT (E + A) := λ s,
  let '(r, t) := m (rt_traffic s) in
  (default (inl unreachable) r,
   {| rt_inner := rt_inner s; rt_traffic := t; rt_fs := rt_fs s;
      rt_lookup := rt_lookup s; rt_asked := rt_asked s |}).

Definition rt_invoke (e : Endpoint) (c : HttpClient) (req : ep_Req e) :
    RT (ApiError (ep_Fail e) HttpClientError + ep_Res e) :=
  rt_http (invoke e c req) (ErrClient SerializeError).

Definition rt_invoke_no_fail (e : Endpoint) (c : HttpClient) (req : ep_Req e) :
    RT (ApiErrorNoFail HttpClientError + ep_Res e) :=
  rt_http (invoke_no_fail e c req) (NoFailClient SerializeError).

(** ** Fields of the runtime *)

Definition ri_set_cache (f : StateCache → StateCache) (i : RuntimeInner) : RuntimeInner :=
  {| ri_cache := f (ri_cache i); ri_events := ri_events i; ri_cancelled := ri_cancelled i;
     ri_status_context := ri_status_context i; ri_secret_source := ri_secret_source i;
     ri_provisioning := ri_provisioning i; ri_api := ri_api i; ri_guest_login := ri_guest_login i;
     ri_claim_code := ri_claim_code i; ri_claim_tasks := ri_claim_tasks i;
     ri_agent_cancel := ri_agent_cancel i; ri_api_base := ri_api_base i; ri_version := ri_version i;
     ri_agent_version := ri_agent_version i; ri_platform := ri_platform i |}.

Definition ri_send (e : ServiceUpdate) (i : RuntimeInner) : RuntimeInner :=
  {| ri_cache := ri_cache i; ri_events := ri_events i ++ [e]; ri_cancelled := ri_cancelled i;
     ri_status_context := ri_status_context i; ri_secret_source := ri_secret_source i;
     ri_provisioning := ri_provisioning i; ri_api := ri_api i; ri_guest_login := ri_guest_login i;
     ri_claim_code := ri_claim_code i; ri_claim_tasks := ri_claim_tasks i;
     ri_agent_cancel := ri_agent_cancel i; ri_api_base := ri_api_base i; ri_version := ri_version i;
     ri_agent_version := ri_agent_version i; ri_platform := ri_platform i |}.

Definition ri_set_api (api : option HttpClient) (i : RuntimeInner) : RuntimeInner :=
  {| ri_cache := ri_cache i; ri_events := ri_events i; ri_cancelled := ri_cancelled i;
     ri_status_context := ri_status_context i; ri_secret_source := ri_secret_source i;
     ri_provisioning := ri_provisioning i; ri_api := api; ri_guest_login := ri_guest_login i;
     ri_claim_code := ri_claim_code i; ri_claim_tasks := ri_claim_tasks i;
     ri_agent_cancel := ri_agent_cancel i; ri_api_base := ri_api_base i; ri_version := ri_version i;
     ri_agent_version := ri_agent_version i; ri_platform := ri_platform i |}.

Definition ri_set_guest_login (g : option (string * Z)) (i : RuntimeInner) : RuntimeInner :=
  {| ri_cache := ri_cache i; ri_events := ri_events i; ri_cancelled := ri_cancelled i;
     ri_status_context := ri_status_context i; ri_secret_source := ri_secret_source i;
     ri_provisioning := ri_provisioning i; ri_api := ri_api i; ri_guest_login := g;
     ri_claim_code := ri_claim_code i; ri_claim_tasks := ri_claim_tasks i;
     ri_agent_cancel := ri_agent_cancel i; ri_api_base := ri_api_base i; ri_version := ri_version i;
     ri_agent_version := ri_agent_version i; ri_platform := ri_platform i |}.

Definition ri_set_claim (code : option string) (tasks : list claim_task) (i : RuntimeInner) :
    RuntimeInner :=
  {| ri_cache := ri_cache i; ri_events := ri_events i; ri_cancelled := ri_cancelled i;
     ri_status_context := ri_status_context i; ri_secret_source := ri_secret_source i;
     ri_provisioning := ri_provisioning i; ri_api := ri_api i; ri_guest_login := ri_guest_login i;
     ri_claim_code := code; ri_claim_tasks := tasks;
     ri_agent_cancel := ri_agent_cancel i; ri_api_base := ri_api_base i; ri_version := ri_version i;
     ri_agent_version := ri_agent_version i; ri_platform := ri_platform i |}.

Definition ri_set_cancel (cancelled : bool) (agent : option bool) (i : RuntimeInner) : RuntimeInner :=
  {| ri_cache := ri_cache i; ri_events := ri_events i; ri_cancelled := cancelled;
     ri_status_context := ri_status_context i; ri_secret_source := ri_secret_source i;
     ri_provisioning := ri_provisioning i; ri_api := ri_api i; ri_guest_login := ri_guest_login i;
     ri_claim_code := ri_claim_code i; ri_claim_tasks := ri_claim_tasks i;
     ri_agent_cancel := agent; ri_api_base := ri_api_base i; ri_version := ri_version i;
     ri_agent_version := ri_agent_version i; ri_platform := ri_platform i |}.

(** ** Publishing (handle.rs) *)

Definition request_shutdown : RT () :=
  rt_modify (λ i, ri_set_cancel true ((λ _, true) <$> ri_agent_cancel i) i).

Definition set_agent_cancel (token : option bool) : RT () :=
  rt_modify (λ i, ri_set_cancel (ri_cancelled i) token i).

Definition set_api (api : option HttpClient) : RT () := rt_modify (ri_set_api api).

(** The cache is set, then the updates are sent; here in one step. *)
Definition publish_state (status : ServiceStatus) (l : AgentLifecycle) : RT () :=
  rt_modify (λ i, ri_send (UpdateLifecycle l) (ri_send (UpdateStatus status)
    (ri_set_cache (λ c, set_lifecycle l (set_status status c)) i))).

Definition publish_status (status : ServiceStatus) : RT () :=
  rt_modify (λ i, ri_send (UpdateStatus status) (ri_set_cache (set_status status) i)).

(** [StatusContext::status], with the clock read once. *)
Definition context_status (cx : StatusContext) (now : Z) (phase : ServicePhase) (has_secret : bool)
    (last_error : option ServiceError) : ServiceStatus :=
  {| ss_phase := phase; ss_pid := host_pid;
     ss_uptime_secs := saturating_sub now (cx_start_time cx) / 1000;
     ss_version := cx_version cx; ss_socket_path := EmptyString;
     ss_secret_path := cx_secret_path cx; ss_has_secret := has_secret;
     ss_protocol := protocol_info; ss_last_error := last_error |}.

Definition inner_status (phase : ServicePhase) (has_secret : bool) (last_error : option ServiceError) :
    RT ServiceStatus :=
  i ← rt_get;
  now ← rt_now;
  mret (context_status (ri_status_context i) now phase has_secret last_error).

(** ** Polling *)

(** One tick of [broadcast_stats]. *)
Definition stats_tick (stats : AgentStats) : RT () :=
  let snapshot := AgentStats_snapshot stats in
  let stats := {| cs_bytes_in := snap_bytes_in snapshot; cs_bytes_out := snap_bytes_out snapshot;
                  cs_active_tcp := snap_active_tcp snapshot; cs_active_udp := snap_active_udp snapshot |} in
  rt_modify (λ i, ri_send (UpdateStats stats) (ri_set_cache (set_stats stats) i)).

Definition GUEST_LINK : string := "https://playit.gg/login/guest-account/".

Definition get_cached_guest_login_link (api : HttpClient) : RT (option string) :=
  now ← rt_now;
  i ← rt_get;
  let fetch :=
    r ← rt_invoke login_guest api ReqLoginGuest_new;
    match r with
    | inr session =>
        let link := GUEST_LINK +:+ WebSession_session_key session in
        rt_modify (ri_set_guest_login (Some (link, now)));;
        mret (Some link)
    | inl _ => mret None
    end in
  match ri_guest_login i with
  | Some (link, ts) => if decide (saturating_sub now ts < 15000) then mret (Some link) else fetch
  | None => fetch
  end.

(** What the origin table reads of a tunnel. *)
Definition run_tunnel (t : ApiAgentTunnelV1) : AgentTunnelV1 :=
  {| tunn_internal_id := ApiAgentTunnelV1_internal_id t;
     tunn_display_address := ApiAgentTunnelV1_display_address t;
     tunn_port_type := ApiAgentTunnelV1_port_type t;
     tunn_port_count := ApiAgentTunnelV1_port_count t;
     tunn_tunnel_type := ApiAgentTunnelV1_tunnel_type t;
     tunn_fields := AgentTunnelConfig_fields (ApiAgentTunnelV1_agent_config t) |}.

Definition OriginIp_display (o : OriginIp) : string :=
  match o with IpAddress ip => show ip_text ip | Hostname host => host end.

Definition target_display (t : OriginTarget) : string :=
  match t with
  | TargetHttps ip http_port https_port =>
      OriginIp_display ip +:+ " (http: " +:+ pretty http_port +:+ ", https: " +:+ pretty https_port +:+ ")"
  | TargetPort ip port => OriginIp_display ip +:+ ":" +:+ pretty port
  end.

Definition tunnel_state (t : ApiAgentTunnelV1) : option TunnelState :=
  origin ← from_agent_tunnel str_trim (read ip_text) (run_tunnel t);
  Some {| ts_id := show uuid_text (ApiAgentTunnelV1_id t);
          ts_name := if decide (str_trim (ApiAgentTunnelV1_name t) = EmptyString) then None
                     else Some (ApiAgentTunnelV1_name t);
          ts_display_address := ApiAgentTunnelV1_display_address t;
          ts_destination := target_display (or_target origin);
          ts_protocol := protocol_of (ApiAgentTunnelV1_port_type t);
          ts_port_count := ApiAgentTunnelV1_port_count t;
          ts_local_address := Some (OriginIp_display (target_ip (or_target origin)));
          ts_local_port :=
            match or_target origin with TargetHttps _ _ _ => None | TargetPort _ port => Some port end;
          ts_is_disabled := bool_decide (is_Some (ApiAgentTunnelV1_disabled_reason t));
          ts_disabled_reason := ApiAgentTunnelV1_disabled_reason t |}.

(** The derived order of priorities. *)
Definition priority_rank (p : AgentNoticePriority) : Z :=
  match p with
  | AgentNoticePriority_Critical => 0
  | AgentNoticePriority_High => 1
  | AgentNoticePriority_Low => 2
  end.

(** [sort_by_key], a stable sort. *)
Fixpoint insert_notice (n : AgentNotice) (l : list AgentNotice) : list AgentNotice :=
  match l with
  | [] => [n]
  | m :: l' =>
      if decide (priority_rank (AgentNotice_priority n) ≤ priority_rank (AgentNotice_priority m))
      then n :: l else m :: insert_notice n l'
  end.

Definition sort_notices (l : list AgentNotice) : list AgentNotice := foldr insert_notice [] l.

Definition notice_state (n : AgentNotice) : NoticeState :=
  {| ns_priority := AgentNoticePriority_name (AgentNotice_priority n);
     ns_message := AgentNotice_message n;
     ns_resolve_link := AgentNotice_resolve_link n |}.

Definition account_status_of (s : ApiAccountStatus) : AccountStatus :=
  match s with
  | ApiAccountStatus_Guest => Guest
  | ApiAccountStatus_EmailNotVerified => EmailNotVerified
  | ApiAccountStatus_Verified => Verified
  end.

Definition agent_state (cx : StatusContext) (data : AgentRunDataV1) (login_link : option string) :
    AgentState :=
  {| as_version := cx_version cx;
     as_tunnels := omap tunnel_state (AgentRunDataV1_tunnels data);
     as_pending_tunnels :=
       (λ p, {| pts_id := show uuid_text (AgentPendingTunnelV1_id p);
                pts_status_msg := AgentPendingTunnelV1_status_msg p |}) <$> AgentRunDataV1_pending data;
     as_notices := notice_state <$> sort_notices (AgentRunDataV1_notices data);
     as_account_status := account_status_of (AgentPermissions_account_status (AgentRunDataV1_permissions data));
     as_agent_id := show uuid_text (AgentRunDataV1_agent_id data);
     as_login_link := login_link;
     as_start_time := cx_start_time cx |}.

(** What is logged when it changes. *)
Record RunningSummary : Type := {
  rs_tunnel_count : nat;
  rs_pending_tunnel_count : nat;
  rs_disabled_tunnel_count : nat;
  rs_account_status : string;
}.

Definition service_account_status_label (s : AccountStatus) : string :=
  match s with
  | Unknown => "unknown"
  | Guest => "guest"
  | EmailNotVerified => "email_not_verified"
  | Verified => "verified"
  end.

Definition RunningSummary_from_state (s : AgentState) : RunningSummary :=
  {| rs_tunnel_count := length (as_tunnels s);
     rs_pending_tunnel_count := length (as_pending_tunnels s);
     rs_disabled_tunnel_count := length (List.filter ts_is_disabled (as_tunnels s));
     rs_account_status := service_account_status_label (as_account_status s) |}.

(** The local variables of [broadcast_agent_state]. *)
Record poll_state : Type := {
  ps_last_running_summary : option RunningSummary;
  ps_api_available : bool;
}.

(** One tick of it. The summary is replaced when it changes, which only
    affects what is logged. *)
Definition account_tick (api : HttpClient) (ps : poll_state) : RT poll_state :=
  r ← rt_invoke_no_fail v1_agents_rundata api ReqAgentsRundataV1_new;
  match r with
  | inl _ =>
      mret {| ps_last_running_summary := ps_last_running_summary ps; ps_api_available := false |}
  | inr data =>
      rt_update_lookup (λ l, update_from_run_data str_trim (read ip_text) l
                               (run_tunnel <$> AgentRunDataV1_tunnels data));;
      login_link ← match AgentPermissions_account_status (AgentRunDataV1_permissions data) with
                   | ApiAccountStatus_Guest => get_cached_guest_login_link api
                   | _ => mret None
                   end;
      i ← rt_get;
      let state := agent_state (ri_status_context i) data login_link in
      let l := Running state in
      rt_modify (λ i, ri_send (UpdateLifecycle l) (ri_set_cache (set_lifecycle l) i));;
      mret {| ps_last_running_summary := Some (RunningSummary_from_state state);
              ps_api_available := true |}
  end.
End runtime.

Notation "x ←? m ; k" := (rt_try m (λ x, k))
  (at level 20, m at level 100, k at level 200, only parsing).
