(* ===== verification/RuntimeHandle.v ===== *)
(** * The runtime's handle (playit-runtime/src/handle.rs, claim.rs)

    Every operation a host or the IPC server may ask of a running runtime, on
    the state the runtime shares with its tasks; and the tasks of claims. *)

From S2P Require Import Prelude Net OriginLookup Json Text FileSystem Api HttpClient ApiTunnels ApiAccount ApiClient IpcModel Ipc RuntimeError SecretStore RuntimeOptions RuntimeTunnels RuntimeState.
#[local] Open Scope string_scope.
#[local] Open Scope list_scope.
#[local] Open Scope Z_scope.

(** [claim_url] (claim.rs). *)
Definition claim_url (code : string) : string := "https://playit.gg/claim/" +:+ code.

Section handle.
Context {FM : Formats} {JT : JsonText} {T : Transport JT} {HO : Host} {SL : SecretLib}.

Definition ensure_running : RT (RuntimeError + ()) :=
  i ← rt_get;
  mret (if ri_cancelled i then inl RuntimeStopped else inr ()).

(** ** Reading the state *)

Definition handle_status : RT ServiceStatus :=
  i ← rt_get;
  now ← rt_now;
  let s := sc_status (ri_cache i) in
  mret {| ss_phase := ss_phase s; ss_pid := ss_pid s;
          ss_uptime_secs := saturating_sub now (cx_start_time (ri_status_context i)) / 1000;
          ss_version := ss_version s; ss_socket_path := ss_socket_path s;
          ss_secret_path := ss_secret_path s; ss_has_secret := ss_has_secret s;
          ss_protocol := ss_protocol s; ss_last_error := ss_last_error s |}.

Definition handle_lifecycle : RT AgentLifecycle :=
  i ← rt_get;
  mret (sc_lifecycle (ri_cache i)).

Definition handle_stats : RT ConnectionStats :=
  i ← rt_get;
  mret (sc_stats (ri_cache i)).

Definition handle_subscription_snapshot : RT SubscribeResponse :=
  i ← rt_get;
  let snapshot := cache_snapshot (ri_cache i) in
  status ← handle_status;
  mret {| sr_protocol := protocol_info;
          sr_snapshot := {| sn_status := status; sn_lifecycle := sn_lifecycle snapshot;
                            sn_stats := sn_stats snapshot |} |}.

Definition handle_secret_path (s : rt) : option path := secret_path (ri_secret_source (rt_inner s)).

(** ** The account *)

Definition handle_claim_url : RT (option string) :=
  i ← rt_get;
  mret (claim_url <$> ri_claim_code i).

Definition handle_account : RT (RuntimeError + AccountResponse) :=
  _ ←? ensure_running;
  url ← handle_claim_url;
  l ← handle_lifecycle;
  mret (inr
    match l with
    | Running state =>
        {| ar_status := as_account_status state;
           ar_agent_id := if decide (as_agent_id state = EmptyString) then None else Some (as_agent_id state);
           ar_login_link := as_login_link state;
           ar_claim_url := url |}
    | _ => {| ar_status := Unknown; ar_agent_id := None; ar_login_link := None; ar_claim_url := url |}
    end).

Definition api_not_ready : RuntimeError :=
  RuntimeError_api ApiUnavailable "The Playit API is not ready yet." true.

(** [self.inner.api.read().await.clone().ok_or_else(..)]. *)
Definition handle_api : RT (RuntimeError + HttpClient) :=
  i ← rt_get;
  mret match ri_api i with Some api => inr api | None => inl api_not_ready end.

(** [.map_err(f)?] on the result of a call. *)
Definition map_err {E A : Type} (f : E → RuntimeError) (m : RT (E + A)) : RT (RuntimeError + A) :=
  r ← m;
  mret match r with inl e => inl (f e) | inr a => inr a end.

Definition fetch_login_url : RT (RuntimeError + AccountLoginUrlResponse) :=
  api ←? handle_api;
  session ←? map_err (map_generic_api_error host_status_text "guest login")
               (rt_invoke login_guest api ReqLoginGuest_new);
  let link := GUEST_LINK +:+ WebSession_session_key session in
  now ← rt_now;
  rt_modify (ri_set_guest_login (Some (link, now)));;
  mret (inr {| al_login_url := link |}).

Definition handle_account_login_url : RT (RuntimeError + AccountLoginUrlResponse) :=
  _ ←? ensure_running;
  i ← rt_get;
  match ri_guest_login i with
  | Some (link, timestamp) =>
      now ← rt_now;
      if decide (saturating_sub now timestamp < 15000) then mret (inr {| al_login_url := link |})
      else fetch_login_url
  | None => fetch_login_url
  end.

(** ** Claiming *)

(** Finished tasks are dropped when a new one is added. *)
Definition track_claim_task (task : claim_task) : RT () :=
  rt_modify (λ i, ri_set_claim (ri_claim_code i)
    (List.filter (λ t, negb (ct_finished t)) (ri_claim_tasks i) ++ [task]) i).

Definition join_claim_tasks : RT () :=
  rt_modify (λ i, ri_set_claim (ri_claim_code i) [] i).

Definition handle_start_claim : RT (RuntimeError + ClaimResponse) :=
  _ ←? ensure_running;
  l ← handle_lifecycle;
  i ← rt_get;
  match l with
  | WaitingForSecret =>
      if ri_provisioning i then
        match ri_claim_code i with
        | Some code => mret (inr {| cl_claim_url := claim_url code |})
        | None =>
            code ← rt_ask host_claim_code;
            rt_modify (λ i, ri_set_claim (Some code) (ri_claim_tasks i) i);;
            track_claim_task {| ct_code := code; ct_pc := ClaimHead |};;
            mret (inr {| cl_claim_url := claim_url code |})
        end
      else mret (inl (provisioning_error (ri_secret_source i)))
  | l => mret (inl (secret_provisioning_state_error l))
  end.

(** ** Tunnels *)

Definition handle_list_tunnels : RT (RuntimeError + TunnelListResponse) :=
  _ ←? ensure_running;
  l ← handle_lifecycle;
  mret (tunnel_list l).

Definition handle_list_account_tunnels : RT (RuntimeError + AccountTunnelListResponse) :=
  _ ←? ensure_running;
  api ←? handle_api;
  response ←? map_err (map_account_tunnel_list_error host_status_text)
                (rt_invoke_no_fail v1_tunnels_list api ReqTunnelsListV1_new);
  mret (inr (account_tunnel_list response)).

Definition create_v1_tunnel (request : ReqTunnelsCreateV1) : RT (RuntimeError + TunnelCreateResponse) :=
  api ←? handle_api;
  tunnel_id ←? map_err (map_tunnel_create_error host_status_text)
                 (rt_invoke v1_tunnels_create api request);
  mret (inr {| tc_tunnel_id := show uuid_text (ObjectId_id tunnel_id);
               tc_message := Some "Tunnel creation accepted" |}).

Definition handle_create_tunnel (local_port : Z) (protocol : TunnelProtocol)
    (local_address name : option string) : RT (RuntimeError + TunnelCreateResponse) :=
  _ ←? ensure_running;
  l ← handle_lifecycle;
  request ←? mret (create_request l local_port protocol local_address name);
  create_v1_tunnel request.

Definition handle_create_minecraft_java_tunnel (local_port : Z) (local_address name : option string) :
    RT (RuntimeError + TunnelCreateResponse) :=
  _ ←? ensure_running;
  l ← handle_lifecycle;
  request ←? mret (create_minecraft_request l local_port local_address name);
  create_v1_tunnel request.

Definition accepted (message : string) : CommandResponse :=
  {| cr_accepted := true; cr_message := Some message |}.

Definition handle_delete_tunnel (tunnel_id : string) : RT (RuntimeError + CommandResponse) :=
  _ ←? ensure_running;
  id ←? mret (parse_tunnel_id tunnel_id);
  api ←? handle_api;
  _ ←? map_err (map_tunnel_delete_error host_status_text)
         (rt_invoke tunnels_delete api {| ReqTunnelsDelete_tunnel_id := id |});
  mret (inr (accepted "Tunnel deletion accepted")).

Definition handle_reassign_tunnel (tunnel_id : string) (local_port : Z) (local_address : option string) :
    RT (RuntimeError + CommandResponse) :=
  _ ←? ensure_running;
  l ← handle_lifecycle;
  request ←? mret (reassign_request l tunnel_id local_port local_address);
  api ←? handle_api;
  _ ←? map_err (map_tunnel_config_error host_status_text) (rt_invoke v1_tunnels_config api request);
  mret (inr (accepted "Tunnel reassignment accepted")).

(** ** The secret *)

(** What became of a request on the provisioning channel: it could not be
    sent, or the runtime was cancelled ([None]); or the supervisor's answer. *)
Definition provision_answer : Type := option (string + ()).

(** [set_secret] up to the sending of the request. *)
Definition set_secret_ready : RT (RuntimeError + ()) :=
  _ ←? ensure_running;
  l ← handle_lifecycle;
  i ← rt_get;
  mret match l with
  | WaitingForSecret =>
      if ri_provisioning i then inr () else inl (provisioning_error (ri_secret_source i))
  | l => inl (secret_provisioning_state_error l)
  end.

(** [set_secret] from the answer on. *)
Definition set_secret_done (answer : provision_answer) : RuntimeError + CommandResponse :=
  match answer with
  | Some (inr ()) => inr (accepted "secret provisioned")
  | Some (inl message) => inl (RuntimeError_secret SecretWriteFailed message true)
  | None => inl RuntimeStopped
  end.

(** The supervisor's side: the request is carried out and acknowledged
    ([wait_for_provisioned_secret], secret.rs). *)
Definition provision (p : path) (secret : string) : RT (RuntimeError + string) :=
  unique ← rt_ask host_unique;
  rt_disk (persist_secret_file host_dir_mode unique p secret).

Definition acknowledgement (r : RuntimeError + string) : string + () :=
  match r with inl e => inl (RuntimeError_display e) | inr _ => inr () end.

Definition handle_reset_secret : RT (RuntimeError + CommandResponse) :=
  _ ←? ensure_running;
  i ← rt_get;
  match secret_path (ri_secret_source i) with
  | None => mret (inl (reset_error (ri_secret_source i)))
  | Some p =>
      message ←? rt_disk (reset_secret_file p);
      request_shutdown;;
      mret (inr (accepted message))
  end.

(** ** Construction *)

Definition make_inner (uuid_error : string → string) (current_platform : Platform)
    (options : RuntimeOptions) (source : SecretSource) (cx : StatusContext) (provisioning : bool) :
    RuntimeError + RuntimeInner :=
  match agent_version uuid_error (ro_version options) with
  | inl e => inl (RuntimeError_setup e false)
  | inr version =>
      inr {| ri_cache := StateCache_default; ri_events := []; ri_cancelled := false;
             ri_status_context := cx; ri_secret_source := source; ri_provisioning := provisioning;
             ri_api := None; ri_guest_login := None; ri_claim_code := None; ri_claim_tasks := [];
             ri_agent_cancel := None; ri_api_base := ro_api_base options; ri_version := ro_version options;
             ri_agent_version := version;
             ri_platform := platform_for_options current_platform options |}
  end.
End handle.

(** ** The claim flow (playit-runtime/src/claim.rs)

    The task that [start_claim] spawns: it asks the API until the user has
    accepted the claim in the browser, exchanges the claim code for the agent's
    secret, and hands the secret to the supervisor. It is a machine over the
    shared state, moved by what it waits for. *)

(** ** Answers *)

Definition after_setup (r : ApiError ClaimSetupError HttpClientError + ClaimSetupResponse) : claim_pc :=
  match r with
  | inr ClaimSetupResponse_WaitingForUserVisit | inr ClaimSetupResponse_WaitingForUser => ClaimPause 250
  | inr ClaimSetupResponse_UserRejected => ClaimDone
  | inr ClaimSetupResponse_UserAccepted => ClaimExchanging
  | inl _ => ClaimDone
  end.

Definition after_exchange (r : ApiError ClaimExchangeError HttpClientError + AgentSecretKey) : claim_pc :=
  match r with
  | inr secret => ClaimSending (AgentSecretKey_secret_key secret)
  | inl (ErrFail ClaimExchangeError_NotAccepted) => ClaimPause 1000
  | inl _ => ClaimDone
  end.

(** ** Steps *)

(** What the task is woken by. A request that is given up may have been sent. *)
Inductive claim_event : Type :=
  | CeCheck
  | CeAnswer
  | CeElapsed
  | CeTimeout (sent : bool)
  | CeReply (accepted : bool)
  | CeCancelled (sent : bool)
  | CeFlowTimeout (sent : bool).

Section claim.
Context {FM : Formats} {JT : JsonText} {T : Transport JT} {HO : Host} {SL : SecretLib}.

(** [PlayitApi::create(api_base, None)]. *)
Definition claim_api (i : RuntimeInner) : HttpClient := PlayitApi_create (ri_api_base i) None.

Definition claim_setup_request (i : RuntimeInner) (code : string) : ReqClaimSetup :=
  {| ReqClaimSetup_code := code; ReqClaimSetup_agent_type := ClaimAgentType_SelfManaged;
     ReqClaimSetup_version := "playit " +:+ version_string (ri_version i) |}.

Definition ask_setup (code : string) : RT claim_pc :=
  i ← rt_get;
  r ← rt_invoke claim_setup (claim_api i) (claim_setup_request i code);
  mret (after_setup r).

Definition ask_exchange (code : string) : RT claim_pc :=
  i ← rt_get;
  r ← rt_invoke claim_exchange (claim_api i) {| ReqClaimExchange_code := code |};
  mret (after_exchange r).

(** The task gives up what it waits for; a request that went out is answered
    too late. *)
Definition abandon (sent : bool) (t : claim_task) : RT claim_pc :=
  if sent then
    match ct_pc t with
    | ClaimSetup => ask_setup (ct_code t);; mret ClaimDone
    | ClaimExchanging => ask_exchange (ct_code t);; mret ClaimDone
    | _ => mret ClaimDone
    end
  else mret ClaimDone.

(** [run_claim_flow_inner], and the deadline around it; [None] when the task
    does not wait for the event. *)
Definition claim_move (e : claim_event) (t : claim_task) (s : rt) : option (RT claim_pc) :=
  let cancelled := ri_cancelled (rt_inner s) in
  match ct_pc t, e with
  | ClaimDone, _ => None
  | _, CeFlowTimeout sent => Some (abandon sent t)
  | ClaimHead, CeCheck => Some (mret (if cancelled then ClaimDone else ClaimSetup))
  | ClaimHead, _ => None
  | _, CeCancelled sent => if cancelled then Some (abandon sent t) else None
  | ClaimPause _, CeElapsed => Some (mret ClaimHead)
  | ClaimPause _, _ => None
  | _, CeTimeout sent => Some (abandon sent t)
  | ClaimSetup, CeAnswer => Some (ask_setup (ct_code t))
  | ClaimExchanging, CeAnswer => Some (ask_exchange (ct_code t))
  | ClaimAwaiting, CeReply _ => Some (mret ClaimDone)
  | _, _ => None
  end.

(** The end of [run_claim_flow_with_api]: the code is given up, if it is still
    this flow's. *)
Definition release_code (code : string) : RT () :=
  rt_modify (λ i, ri_set_claim
    (if decide (ri_claim_code i = Some code) then None else ri_claim_code i) (ri_claim_tasks i) i).

Definition settle (code : string) (p : claim_pc) : RT () :=
  match p with ClaimDone => release_code code | _ => mret () end.

(** The task waits somewhere else. *)
Definition move_task (n : nat) (p : claim_pc) : RT () :=
  rt_modify (λ i, ri_set_claim (ri_claim_code i)
    (alter (λ t, {| ct_code := ct_code t; ct_pc := p |}) n (ri_claim_tasks i)) i).

(** A step of the [n]th task. *)
Definition claim_step (n : nat) (e : claim_event) (s : rt) : option rt :=
  t ← ri_claim_tasks (rt_inner s) !! n;
  m ← claim_move e t s;
  Some ((p ← m; settle (ct_code t) p;; move_task n p) s).2.

(** The [n]th task hands its secret over. *)
Definition claim_send (n : nat) (s : rt) : option (string * rt) :=
  t ← ri_claim_tasks (rt_inner s) !! n;
  match ct_pc t with
  | ClaimSending secret => Some (secret, (move_task n ClaimAwaiting s).2)
  | _ => None
  end.
End claim.
