(* ===== verification/Supervisor.v ===== *)
(** * The runtime's supervisor (playit-runtime/src/runtime.rs)

    The task that owns the agent: it loads the secret or waits for one, builds
    the agent, runs it with its polling tasks, and retries. It is a machine
    whose states are the places where the task waits; what it waits for
    (cancellation, a secret, the agent, a timer) moves it, and other tasks
    move the shared state in between. *)

From S2P Require Import Prelude Net Json Text OriginLookup Api ApiTunnels ApiAccount HttpClient ApiClient IpcModel Ipc RuntimeError FileSystem SecretStore RuntimeOptions RuntimeTunnels RuntimeState RuntimeHandle Utils.
From S2P Require Import ControlIo MaintainedControl.
#[local] Open Scope string_scope.
#[local] Open Scope list_scope.
#[local] Open Scope Z_scope.

(** ** Setup errors *)

Definition AGENT_LIMIT_RETRY_INTERVAL : Z := 30.

Definition TRANSIENT_RETRY_DELAYS : list Z := [1; 2; 4; 8; 15; 30].

(** [TRANSIENT_RETRY_DELAYS[min(attempt, len - 1)]], in seconds; [None] would
    be a panic. *)
Definition retry_delay (attempt : Z) : option Z :=
  TRANSIENT_RETRY_DELAYS !! Z.to_nat (Z.min attempt (Z.of_nat (length TRANSIENT_RETRY_DELAYS) - 1)).

Definition is_transient_setup_error (e : SetupError) : bool :=
  match e with
  | FailedToConnect | RequestError _ | SetupTimeout | SetupIoError _ | AttemptingToAuthWithOldFlow
  | NoResponseFromAuthenticate | RegisterUnauthorized
  | ControlIo.ApiError (ApiResponseError_Internal _)
  | ControlIo.ApiError (ApiResponseError_Auth AuthError_SessionExpired) => true
  | _ => false
  end.

Definition is_invalid_agent_secret_error (e : SetupError) : bool :=
  match e with
  | ControlIo.ApiError (ApiResponseError_Auth AuthError_InvalidAgentKey)
  | ControlIo.ApiError (ApiResponseError_Auth AuthError_NoLongerValid) => true
  | _ => false
  end.

Definition agent_disabled_over_limit_message : string :=
  "This account is over the agent limit. Delete an unused agent or upgrade the account, then the service will retry.".

Definition secret_no_longer_valid : string :=
  "The configured playit secret is no longer valid. Run playit setup to provision a new secret.".

Section messages.
(** [serde_json::from_str] of a failure's text, and [Display] of errors. *)
Context (json_of_string : string → option value).
Context (display_api_error : ApiResponseError → string) (display_setup_error : SetupError → string).

Definition parse_proto_register_error (e : SetupError) : option ProtoRegisterError :=
  match e with
  | ApiFail payload => json_of_string payload ≫= from_value
  | _ => None
  end.

Definition is_agent_disabled_over_limit_error (e : SetupError) : bool :=
  match parse_proto_register_error e with
  | Some ProtoRegisterError_AgentDisabledOverLimit => true
  | _ => false
  end.

Definition setup_error_user_message (e : SetupError) : string :=
  match e with
  | FailedToConnect =>
      "Could not connect to Playit tunnel servers. The service will retry automatically; check your internet connection, firewall, VPN, or DNS settings."
  | RequestError _ =>
      "Could not reach the Playit API. The service will retry automatically; check your internet connection or try again later."
  | ControlIo.ApiError (ApiResponseError_Auth AuthError_InvalidAgentKey)
  | ControlIo.ApiError (ApiResponseError_Auth AuthError_NoLongerValid) => secret_no_longer_valid
  | ControlIo.ApiError e =>
      "The playit API rejected the agent startup request: " +:+ display_api_error e
  | ApiFail _ =>
      if is_agent_disabled_over_limit_error e then agent_disabled_over_limit_message
      else "The playit API rejected the agent registration request. Check your account and tunnel configuration, then try again."
  | SetupTimeout =>
      "Timed out while connecting to Playit. The service will retry automatically; check your network or firewall."
  | SetupIoError error =>
      "Could not open a required network socket: " +:+ err_msg error +:+ ". The service will retry automatically."
  | e => "Failed to start the playit agent: " +:+ display_setup_error e
  end.
End messages.

(** ** The machine *)

(** The local state of the tasks that poll for a running agent. *)
Record agent_tasks : Type := {
  ag_api : HttpClient;
  ag_poll : poll_state;
  ag_control : option ControlConnectionState;
}.

Inductive pc : Type :=
  | PcStart
  (** waiting for a secret *)
  | PcWait (attempt : Z)
  (** at the head of the loop *)
  | PcBuild (secret : string) (attempt : Z)
  (** the run data was asked for *)
  | PcData (secret : string) (attempt : Z) (api : HttpClient)
  (** the agent is being set up *)
  | PcSetup (secret : string) (attempt : Z) (api : HttpClient)
  (** the agent and its tasks are running *)
  | PcRun (secret : string) (attempt : Z) (tasks : agent_tasks)
  (** the agent was asked to stop; a poll may still be under way *)
  | PcStop (tasks : agent_tasks) (account_due control_due : bool)
  | PcRetry (secret : string) (attempt : Z)
  | PcLimit (secret : string) (attempt : Z)
  (** the supervisor ended; the claim tasks are joined *)
  | PcJoin (result : RuntimeError + ())
  | PcDone (result : RuntimeError + ()).

Section supervisor.
Context {FM : Formats} {JT : JsonText} {T : Transport JT} {HO : Host} {SL : SecretLib}.
Context (json_of_string : string → option value).
Context (display_api_error : ApiResponseError → string) (display_setup_error : SetupError → string).

(** *** Publishing *)

Definition publish_starting (has_secret : bool) : RT () :=
  status ← inner_status PhaseStarting has_secret None;
  publish_state status Starting.

Definition publish_reconnecting (has_secret : bool) (last_error : option ServiceError) : RT () :=
  status ← inner_status PhaseReconnecting has_secret last_error;
  publish_state status Starting.

Definition publish_stopping (has_secret : bool) : RT () :=
  status ← inner_status PhaseStopping has_secret None;
  publish_state status Stopping.

(** [supervise]: what follows the end of [run_supervisor]. *)
Definition finish (r : RuntimeError + ()) : RT pc :=
  request_shutdown;;
  mret (PcJoin r).

Definition claims_joined (r : RuntimeError + ()) : RT pc :=
  join_claim_tasks;;
  mret (PcDone r).

Definition stop (has_secret : bool) : RT pc :=
  publish_stopping has_secret;;
  finish (inr ()).

(** *** The secret *)

Definition wait_for_secret (attempt : Z) (last_error : option ServiceError) : RT pc :=
  i ← rt_get;
  match secret_path (ri_secret_source i) with
  | None =>
      finish (inl (RuntimeError_secret ProvisioningUnavailable
        "No file-backed secret source is available for provisioning." false))
  | Some _ =>
      if ri_provisioning i then
        status ← inner_status PhaseWaitingForSecret false last_error;
        publish_state status WaitingForSecret;;
        mret (PcWait attempt)
      else finish (inl (provisioning_error (ri_secret_source i)))
  end.

Definition run_supervisor : RT pc :=
  i ← rt_get;
  loaded ← rt_disk (SecretSource_load (E := Empty_set) (ri_secret_source i));
  match loaded with
  | inl e => match e : Empty_set with end
  | inr (Ready secret) =>
      publish_starting true;;
      mret (PcBuild secret 0)
  | inr Missing => wait_for_secret 0 None
  | inr (Invalid message) =>
      let error := RuntimeError_secret InvalidSecret message (allows_provisioning (ri_secret_source i)) in
      let service_error := as_service_error error in
      status ← inner_status PhaseHasInvalidSecret false (Some service_error);
      publish_state status (HasInvalidSecret service_error);;
      if allows_provisioning (ri_secret_source i) then wait_for_secret 0 (Some service_error)
      else finish (inl error)
  end.

(** A request taken from the channel while waiting, persisted, and its
    acknowledgement, in one step. *)
Definition on_provision_request (attempt : Z) (secret : string) : RT (pc * (string + ())) :=
  i ← rt_get;
  match secret_path (ri_secret_source i) with
  | None => mret (PcWait attempt, inr ())
  | Some p =>
      r ← provision p secret;
      match r with
      | inr secret =>
          publish_starting true;;
          mret (PcBuild secret attempt, acknowledgement r)
      | inl _ => mret (PcWait attempt, acknowledgement r)
      end
  end.

(** *** The agent *)

(** The head of the loop: where a shutdown is looked for. *)
Definition loop_head (secret : string) (attempt : Z) : RT pc :=
  i ← rt_get;
  if ri_cancelled i then stop true
  else
    let api := PlayitApi_create (ri_api_base i) (Some secret) in
    set_api (Some api);;
    mret (PcData secret attempt api).

(** The run data arrives, or does not; a shutdown is not looked for. *)
Definition load_run_data (secret : string) (attempt : Z) (api : HttpClient) : RT pc :=
  data ← rt_invoke_no_fail v1_agents_rundata api ReqAgentsRundataV1_new;
  match data with
  | inr data => rt_update_lookup (λ l, update_from_run_data str_trim (read ip_text) l
                                         (run_tunnel <$> AgentRunDataV1_tunnels data))
  | inl _ => mret ()
  end;;
  publish_starting true;;
  mret (PcSetup secret attempt api).

(** [PlayitAgent::new_with_identity] returned; nor is it here. *)
Definition build_agent (secret : string) (attempt : Z) (api : HttpClient) (built : SetupError + ()) : RT pc :=
  i ← rt_get;
  match built with
  | inr () =>
      status ← inner_status PhaseRunning true None;
      publish_state status Starting;;
      set_agent_cancel (Some false);;
      mret (PcRun secret attempt
        {| ag_api := api; ag_poll := {| ps_last_running_summary := None; ps_api_available := false |};
           ag_control := None |})
  | inl e =>
      if allows_provisioning (ri_secret_source i) && is_invalid_agent_secret_error e then
        set_api None;;
        wait_for_secret attempt
          (Some (as_service_error (RuntimeError_secret InvalidSecret secret_no_longer_valid true)))
      else if is_agent_disabled_over_limit_error json_of_string e then
        let service_error := as_service_error
          (setup_with_code AgentDisabledOverLimit agent_disabled_over_limit_message true) in
        status ← inner_status PhaseDisabledOverLimit true (Some service_error);
        publish_state status (DisabledOverLimit service_error);;
        mret (PcLimit secret attempt)
      else
        let message := setup_error_user_message json_of_string display_api_error display_setup_error e in
        if is_transient_setup_error e then
          publish_reconnecting true (Some (as_service_error (RuntimeError_setup message true)));;
          mret (PcRetry secret attempt)
        else
          let service_error := as_service_error (RuntimeError_setup message true) in
          status ← inner_status PhaseError true (Some service_error);
          publish_state status (LifecycleError service_error);;
          finish (inl (RuntimeError_setup message true))
  end.

Inductive AgentStop : Type :=
  | StopRequested
  | StopUnexpected (result : string + ()).

Definition classify_agent_completion (runtime_cancelled : bool) (result : string + ()) : AgentStop :=
  if runtime_cancelled then StopRequested else StopUnexpected result.

(** The agent is cancelled and, when that was asked for, the stop published;
    its tasks are joined, and a requested stop may find polls under way. *)
Definition stop_agent (tasks : agent_tasks) (account_due control_due : bool) : RT pc :=
  rt_modify (λ i, ri_set_cancel (ri_cancelled i) ((λ _, true) <$> ri_agent_cancel i) i);;
  publish_stopping true;;
  mret (PcStop tasks account_due control_due).

Definition agent_stopped_error (result : string + ()) : RuntimeError :=
  match result with
  | inr () => RuntimeError_setup "playit agent task stopped unexpectedly" true
  | inl e => RuntimeError_setup ("playit agent task failed: " +:+ e) true
  end.

(** The agent's task ended. *)
Definition on_agent_ended (secret : string) (attempt : Z) (tasks : agent_tasks) (account_due control_due : bool)
    (result : string + ()) : RT pc :=
  i ← rt_get;
  match classify_agent_completion (ri_cancelled i) result with
  | StopRequested => stop_agent tasks account_due control_due
  | StopUnexpected result =>
      set_agent_cancel None;;
      let message := RuntimeError_display (agent_stopped_error result) in
      publish_reconnecting true (Some (as_service_error (RuntimeError_setup message true)));;
      mret (PcRetry secret attempt)
  end.

(** The tasks are joined. *)
Definition stop_joined : RT pc :=
  set_agent_cancel None;;
  finish (inr ()).

(** One round of [broadcast_control_state]. *)
Definition control_tick (state : ControlConnectionState) (last : option ControlConnectionState) :
    RT (option ControlConnectionState) :=
  if decide (last = Some state) then mret last
  else
    i ← rt_get;
    let phase := match state with Connected => PhaseRunning | Reconnecting => PhaseReconnecting end in
    status ← inner_status phase (ss_has_secret (sc_status (ri_cache i))) None;
    publish_status status;;
    mret (Some state).

(** *** The next attempt *)

Definition next_attempt (attempt : Z) : Z := Z.min (attempt + 1) (2 ^ 32 - 1).

(** ** Steps *)

(** The machine, the runtime, the requests in the channel, and those of the
    callers that were let through and have not sent theirs yet. *)
Record sup : Type := { su_pc : pc; su_rt : rt; su_queue : list string; su_callers : list string }.

Definition with_rt (r : rt) (s : sup) : sup :=
  {| su_pc := su_pc s; su_rt := r; su_queue := su_queue s; su_callers := su_callers s |}.

Definition with_requests (queue callers : list string) (s : sup) : sup :=
  {| su_pc := su_pc s; su_rt := su_rt s; su_queue := queue; su_callers := callers |}.

(** What other tasks do through the handle. *)
Inductive handle_op : Type :=
  | OpAccountLoginUrl
  | OpStartClaim
  | OpListAccountTunnels
  | OpCreateTunnel (local_port : Z) (protocol : TunnelProtocol) (local_address name : option string)
  | OpCreateMinecraftJavaTunnel (local_port : Z) (local_address name : option string)
  | OpDeleteTunnel (tunnel_id : string)
  | OpReassignTunnel (tunnel_id : string) (local_port : Z) (local_address : option string)
  | OpResetSecret
  | OpShutdown.

Definition run_op (o : handle_op) : RT () :=
  match o with
  | OpAccountLoginUrl => handle_account_login_url;; mret ()
  | OpStartClaim => handle_start_claim;; mret ()
  | OpListAccountTunnels => handle_list_account_tunnels;; mret ()
  | OpCreateTunnel port protocol address name => handle_create_tunnel port protocol address name;; mret ()
  | OpCreateMinecraftJavaTunnel port address name =>
      handle_create_minecraft_java_tunnel port address name;; mret ()
  | OpDeleteTunnel id => handle_delete_tunnel id;; mret ()
  | OpReassignTunnel id port address => handle_reassign_tunnel id port address;; mret ()
  | OpResetSecret => handle_reset_secret;; mret ()
  | OpShutdown => request_shutdown
  end.

(** What the supervisor is woken by, or a task of the running agent does. *)
Inductive sup_event : Type :=
  | EvStart
  | EvRequest
  | EvCancelled
  | EvHead
  | EvRunData
  | EvBuilt (built : SetupError + ())
  | EvAgentEnded (result : string + ()) (account_due control_due : bool)
  | EvTimer
  | EvStatsTick (stats : AgentStats)
  | EvAccountTick
  | EvControl (state : ControlConnectionState)
  | EvJoined
  | EvClaimsJoined.

Definition at_pc (s : sup) (m : RT pc) : option sup :=
  let '(p, r) := m (su_rt s) in
  Some {| su_pc := p; su_rt := r; su_queue := su_queue s; su_callers := su_callers s |}.

Definition cancelled (s : sup) : bool := ri_cancelled (rt_inner (su_rt s)).

(** The supervisor's reaction; [None] when it does not wait for the event. *)
Definition sup_step (e : sup_event) (s : sup) : option sup :=
  match su_pc s, e with
  | PcStart, EvStart => at_pc s run_supervisor
  | PcWait attempt, EvRequest =>
      match su_queue s with
      | [] => None
      | secret :: queue =>
          let '(p, _, r) := on_provision_request attempt secret (su_rt s) in
          Some {| su_pc := p; su_rt := r; su_queue := queue; su_callers := su_callers s |}
      end
  | PcWait _, EvCancelled => if cancelled s then at_pc s (stop false) else None
  | PcBuild secret attempt, EvHead => at_pc s (loop_head secret attempt)
  | PcData secret attempt api, EvRunData => at_pc s (load_run_data secret attempt api)
  | PcSetup secret attempt api, EvBuilt built => at_pc s (build_agent secret attempt api built)
  | PcRun secret attempt tasks, EvAgentEnded result account_due control_due =>
      at_pc s (on_agent_ended secret attempt tasks account_due control_due result)
  | PcRun secret attempt tasks, EvCancelled =>
      if cancelled s then at_pc s (stop_agent tasks true true) else None
  | PcRun secret attempt tasks, EvStatsTick stats =>
      at_pc s (stats_tick stats;; mret (PcRun secret attempt tasks))
  | PcRun secret attempt tasks, EvAccountTick =>
      at_pc s (poll ← account_tick (ag_api tasks) (ag_poll tasks);
               mret (PcRun secret attempt
                 {| ag_api := ag_api tasks; ag_poll := poll; ag_control := ag_control tasks |}))
  | PcRun secret attempt tasks, EvControl state =>
      at_pc s (last ← control_tick state (ag_control tasks);
               mret (PcRun secret attempt
                 {| ag_api := ag_api tasks; ag_poll := ag_poll tasks; ag_control := last |}))
  | PcStop tasks true control_due, EvAccountTick =>
      at_pc s (poll ← account_tick (ag_api tasks) (ag_poll tasks);
               mret (PcStop {| ag_api := ag_api tasks; ag_poll := poll; ag_control := ag_control tasks |}
                       false control_due))
  | PcStop tasks account_due true, EvControl state =>
      at_pc s (last ← control_tick state (ag_control tasks);
               mret (PcStop {| ag_api := ag_api tasks; ag_poll := ag_poll tasks; ag_control := last |}
                       account_due false))
  | PcStop _ _ _, EvJoined => at_pc s stop_joined
  | PcRetry secret attempt, EvTimer => at_pc s (mret (PcBuild secret (next_attempt attempt)))
  | PcRetry _ _, EvCancelled => if cancelled s then at_pc s (stop true) else None
  | PcLimit secret attempt, EvTimer => at_pc s (mret (PcBuild secret attempt))
  | PcLimit _ _, EvCancelled => if cancelled s then at_pc s (stop true) else None
  | PcJoin r, EvClaimsJoined =>
      if forallb ct_finished (ri_claim_tasks (rt_inner (su_rt s))) then at_pc s (claims_joined r) else None
  | _, _ => None
  end.

(** The capacity of the channel. *)
Definition PROVISION_CAPACITY : nat := 8.

(** The counters are machine integers. *)
Definition event_wf (e : sup_event) : Prop :=
  match e with
  | EvStatsTick stats =>
      uint 64 (bytes_in stats) ∧ uint 64 (bytes_out stats) ∧
      uint 32 (active_tcp stats) ∧ uint 32 (active_udp stats)
  | _ => True
  end.

(** The receiver is dropped when [run_supervisor] returns. *)
Definition channel_open (p : pc) : bool :=
  match p with PcJoin _ | PcDone _ => false | _ => true end.

Definition can_send (s : sup) : Prop :=
  channel_open (su_pc s) = true ∧ (length (su_queue s) < PROVISION_CAPACITY)%nat.

(** A step of the whole: the supervisor's; another task's through the handle;
    one of [set_secret]'s, which is let through, then sends its secret when
    the channel has room or gives up when the runtime is cancelled; or a claim
    task's, which may hand a secret over. *)
Inductive step : sup → sup → Prop :=
  | step_sup e s s' : event_wf e → sup_step e s = Some s' → step s s'
  | step_op o s : step s (with_rt (run_op o (su_rt s)).2 s)
  | step_call secret s :
      (set_secret_ready (su_rt s)).1 = inr () →
      step s (with_requests (su_queue s) (su_callers s ++ [secret]) (with_rt (set_secret_ready (su_rt s)).2 s))
  | step_send before secret after s :
      su_callers s = before ++ secret :: after → can_send s →
      step s (with_requests (su_queue s ++ [secret]) (before ++ after) s)
  | step_give_up before secret after s :
      su_callers s = before ++ secret :: after → cancelled s = true →
      step s (with_requests (su_queue s) (before ++ after) s)
  | step_claim n e r s :
      claim_step n e (su_rt s) = Some r → step s (with_rt r s)
  | step_claim_send n secret r s :
      claim_send n (su_rt s) = Some (secret, r) → can_send s →
      step s (with_requests (su_queue s ++ [secret]) (su_callers s) (with_rt r s)).

(** *** A caller of [set_secret] *)

(** What may happen to a caller that was let through, from there to its answer:
    its secret goes into the channel, the supervisor takes it out, stores it
    and answers, with any steps before and after; or the runtime is cancelled
    while the caller waits to send or for the answer. *)
Inductive provisioned (secret : string) (s : sup) : provision_answer → sup → Prop :=
  | provisioned_answer s1 a queue p ack r s' :
      rtc step s s1 → su_pc s1 = PcWait a → su_queue s1 = secret :: queue →
      on_provision_request a secret (su_rt s1) = ((p, ack), r) →
      rtc step {| su_pc := p; su_rt := r; su_queue := queue; su_callers := su_callers s1 |} s' →
      provisioned secret s (Some ack) s'
  | provisioned_stopped s' :
      rtc step s s' → cancelled s' = true → provisioned secret s None s'.

(** What the runtime's tasks do while the server is busy with a client: before
    an operation, and between a caller of [set_secret] and its answer. *)
Class Schedule : Type := {
  elapse : sup → sup;
  await_answer : string → sup → provision_answer * sup;
  elapse_steps : ∀ s, rtc step s (elapse s);
  await_answer_provisioned : ∀ secret s, provisioned secret s (await_answer secret s).1 (await_answer secret s).2;
}.

Definition handle_set_secret {SC : Schedule} (secret : string) (s : sup) : (RuntimeError + CommandResponse) * sup :=
  let '(ready, r) := set_secret_ready (su_rt s) in
  match ready with
  | inl e => (inl e, with_rt r s)
  | inr () =>
      let '(answer, s') :=
        await_answer secret (with_requests (su_queue s) (su_callers s ++ [secret]) (with_rt r s)) in
      (set_secret_done answer, s')
  end.

(** [PlayitRuntime::start]: the runtime just before its supervisor runs. *)
Definition start_runtime (uuid_error : string → string) (current_platform : Platform)
    (options : RuntimeOptions) (traffic : traffic JT) (disk : fs) (asked : nat) : RuntimeError + sup :=
  match validate_options options with
  | inl e => inl e
  | inr () =>
      let source := SecretSource_from_options options in
      match (match ro_secret options with
             | Some secret => validate_secret (str_trim secret)
             | None => inr EmptyString
             end) with
      | inl e => inl (RuntimeError_secret InvalidSecret e false)
      | inr _ =>
          let cx := {| cx_secret_path := display <$> secret_path source;
                       cx_version := version_string (ro_version options);
                       cx_start_time := host_now asked |} in
          match make_inner uuid_error current_platform options source cx (allows_provisioning source) with
          | inl e => inl e
          | inr inner =>
              let '(_, r) :=
                publish_starting false
                  {| rt_inner := inner; rt_traffic := traffic; rt_fs := disk;
                     rt_lookup := OriginLookup_default; rt_asked := S asked |} in
              inr {| su_pc := PcStart; su_rt := r; su_queue := []; su_callers := [] |}
          end
      end
  end.
End supervisor.

Arguments elapse {_ _ _ _ _ _ _ _ _} _.
Arguments await_answer {_ _ _ _ _ _ _ _ _} _ _.
Arguments elapse_steps {_ _ _ _ _ _ _ _ _} _.
Arguments await_answer_provisioned {_ _ _ _ _ _ _ _ _} _ _.
Arguments handle_set_secret {_ _ _ _ _ _ _ _ _} _ _.
