(* ===== verification/IpcServer.v ===== *)
(** * The IPC server (playitd/src/ipc_server.rs)

    One task per connection: greet, then answer every request with one
    response, and, once the client subscribed, pass on the runtime's events.
    The runtime is used through the operations of its handle. *)

From S2P Require Import Prelude Json IpcModel Ipc IpcCodec RuntimeError.
From stdpp Require Import pretty.
#[local] Open Scope Z_scope.

(** ** The runtime's handle, as the server uses it *)

Class Handle : Type := {
  runtime : Type;
  h_subscription_snapshot : runtime → SubscribeResponse * runtime;
  h_status : runtime → ServiceStatus * runtime;
  h_lifecycle : runtime → AgentLifecycle * runtime;
  h_list_tunnels : runtime → (RuntimeError + TunnelListResponse) * runtime;
  h_list_account_tunnels : runtime → (RuntimeError + AccountTunnelListResponse) * runtime;
  h_create_tunnel : Z → TunnelProtocol → option string → option string →
    runtime → (RuntimeError + TunnelCreateResponse) * runtime;
  h_create_minecraft_java_tunnel : Z → option string → option string →
    runtime → (RuntimeError + TunnelCreateResponse) * runtime;
  h_delete_tunnel : string → runtime → (RuntimeError + CommandResponse) * runtime;
  h_reassign_tunnel : string → Z → option string →
    runtime → (RuntimeError + CommandResponse) * runtime;
  h_account : runtime → (RuntimeError + AccountResponse) * runtime;
  h_start_claim : runtime → (RuntimeError + ClaimResponse) * runtime;
  h_set_secret : string → runtime → (RuntimeError + CommandResponse) * runtime;
  h_reset_secret : runtime → (RuntimeError + CommandResponse) * runtime;
  h_secret_path : runtime → option string;
  h_account_login_url : runtime → (RuntimeError + AccountLoginUrlResponse) * runtime;
}.

Definition result_wf {A} (wf : A → Prop) (r : RuntimeError + A) : Prop :=
  match r with
  | inl e => ServiceError_wf (as_service_error e)
  | inr x => wf x
  end.

(** An operation that keeps [inv] and returns a value of its type. *)
Definition op_wf {R A : Type} (inv : R → Prop) (wf : A → Prop) (op : R → (RuntimeError + A) * R) : Prop :=
  ∀ r, inv r → result_wf wf (op r).1 ∧ inv (op r).2.

(** What the server relies on: the values it passes on are values of their
    types (machine integers in range), as long as the runtime is used through
    its operations. *)
Class HandleWf (H : Handle) : Type := {
  handle_inv : runtime → Prop;
  wf_subscription_snapshot : ∀ r, handle_inv r →
    SubscribeResponse_wf (h_subscription_snapshot r).1 ∧ handle_inv (h_subscription_snapshot r).2;
  wf_status : ∀ r, handle_inv r → ServiceStatus_wf (h_status r).1 ∧ handle_inv (h_status r).2;
  wf_lifecycle : ∀ r, handle_inv r → AgentLifecycle_wf (h_lifecycle r).1 ∧ handle_inv (h_lifecycle r).2;
  wf_list_tunnels : op_wf handle_inv TunnelListResponse_wf h_list_tunnels;
  wf_list_account_tunnels : op_wf handle_inv AccountTunnelListResponse_wf h_list_account_tunnels;
  wf_create_tunnel : ∀ p q a n, op_wf handle_inv (λ _, True) (h_create_tunnel p q a n);
  wf_create_minecraft : ∀ p a n, op_wf handle_inv (λ _, True) (h_create_minecraft_java_tunnel p a n);
  wf_delete_tunnel : ∀ i, op_wf handle_inv (λ _, True) (h_delete_tunnel i);
  wf_reassign_tunnel : ∀ i p a, op_wf handle_inv (λ _, True) (h_reassign_tunnel i p a);
  wf_account : op_wf handle_inv (λ _, True) h_account;
  wf_start_claim : op_wf handle_inv (λ _, True) h_start_claim;
  wf_set_secret : ∀ s, op_wf handle_inv (λ _, True) (h_set_secret s);
  wf_reset_secret : op_wf handle_inv (λ _, True) h_reset_secret;
  wf_account_login_url : op_wf handle_inv (λ _, True) h_account_login_url;
}.

(** ** Errors of the protocol *)

Definition protocol_error (code : ServiceErrorCode) (message : string) (retryable : bool) :
    ServiceError :=
  {| se_code := code; se_message := message; se_retryable := retryable; se_details := None |}.

Definition invalid_request_type_error (request_type : string) : ServiceError :=
  {| se_code := InvalidRequestType;
     se_message := "unknown IPC request type: " +:+ request_type;
     se_retryable := false;
     se_details := Some (Object [("request_type"%string, Str request_type)]) |}.

Definition validate_request_envelope (envelope : IncomingRequestEnvelope) :
    ServiceResponse + ServiceRequest :=
  if decide (ir_ipc_version envelope ≠ IPC_VERSION) then
    inl (RespError (protocol_error UnsupportedProtocol
      ("unsupported IPC version " +:+ pretty (ir_ipc_version envelope) +:+
       " (expected " +:+ pretty IPC_VERSION +:+ ")") false))
  else
    match ir_request envelope with
    | KnownRequest request => inr request
    | UnknownRequest unknown =>
        if is_known_request_type (um_type_name unknown) then
          inl (RespError (protocol_error InvalidRequest
            ("invalid IPC request payload for " +:+ um_type_name unknown) false))
        else inl (RespError (invalid_request_type_error (um_type_name unknown)))
    end.

Section server.
Context {H : Handle} {JT : JsonText}.

(** ** State *)

(** The server, with what all connections share: the runtime and the host's
    cancellation token. *)
Record IpcServer : Type := {
  sv_runtime : runtime;
  sv_socket_path : string;
  sv_host_shutdown : bool;
}.

Definition set_runtime (s : IpcServer) (r : runtime) : IpcServer :=
  {| sv_runtime := r; sv_socket_path := sv_socket_path s; sv_host_shutdown := sv_host_shutdown s |}.

Definition cancel_host (s : IpcServer) : IpcServer :=
  {| sv_runtime := sv_runtime s; sv_socket_path := sv_socket_path s; sv_host_shutdown := true |}.

Record RequestOutcome : Type := { out_response : ServiceResponse; out_subscribed : bool }.

Definition respond (response : ServiceResponse) : RequestOutcome :=
  {| out_response := response; out_subscribed := false |}.

(** ** Requests *)

Definition runtime_error_response (e : RuntimeError) : ServiceResponse :=
  RespError (as_service_error e).

(** [operation.await.map(f).unwrap_or_else(runtime_error_response)]. *)
Definition delegate {A} (op : runtime → (RuntimeError + A) * runtime) (f : A → ServiceResponse)
    (s : IpcServer) : RequestOutcome * IpcServer :=
  let '(r, rt) := op (sv_runtime s) in
  (respond match r with inl e => runtime_error_response e | inr x => f x end, set_runtime s rt).

Definition with_socket_path (path : string) (st : ServiceStatus) : ServiceStatus :=
  {| ss_phase := ss_phase st; ss_pid := ss_pid st; ss_uptime_secs := ss_uptime_secs st;
     ss_version := ss_version st; ss_socket_path := path; ss_secret_path := ss_secret_path st;
     ss_has_secret := ss_has_secret st; ss_protocol := ss_protocol st;
     ss_last_error := ss_last_error st |}.

Definition subscribe_response (s : IpcServer) : SubscribeResponse * IpcServer :=
  let '(r, rt) := h_subscription_snapshot (sv_runtime s) in
  ({| sr_protocol := sr_protocol r;
      sr_snapshot :=
        {| sn_status := with_socket_path (sv_socket_path s) (sn_status (sr_snapshot r));
           sn_lifecycle := sn_lifecycle (sr_snapshot r);
           sn_stats := sn_stats (sr_snapshot r) |} |}, set_runtime s rt).

Definition status_response (s : IpcServer) : ServiceStatus * IpcServer :=
  let '(st, rt) := h_status (sv_runtime s) in
  (with_socket_path (sv_socket_path s) st, set_runtime s rt).

Definition handle_service_request (request : ServiceRequest) (s : IpcServer) :
    RequestOutcome * IpcServer :=
  match request with
  | Subscribe =>
      let '(r, s) := subscribe_response s in
      ({| out_response := RespSubscribe r; out_subscribed := true |}, s)
  | GetStatus => let '(st, s) := status_response s in (respond (RespStatus st), s)
  | GetState =>
      let '(l, rt) := h_lifecycle (sv_runtime s) in (respond (RespState l), set_runtime s rt)
  | GetTunnels => delegate h_list_tunnels RespTunnels s
  | GetAccountTunnels => delegate h_list_account_tunnels RespAccountTunnels s
  | CreateTunnel local_port protocol local_address name =>
      delegate (h_create_tunnel local_port protocol local_address name) RespCreateTunnel s
  | CreateMinecraftJavaTunnel local_port local_address name =>
      delegate (h_create_minecraft_java_tunnel local_port local_address name) RespCreateTunnel s
  | DeleteTunnel tunnel_id => delegate (h_delete_tunnel tunnel_id) RespDeleteTunnel s
  | ReassignTunnel tunnel_id local_port local_address =>
      delegate (h_reassign_tunnel tunnel_id local_port local_address) RespReassignTunnel s
  | GetAccount => delegate h_account RespAccount s
  | StartClaim => delegate h_start_claim RespClaim s
  | Stop =>
      (respond (RespStop {| cr_accepted := true; cr_message := Some "shutdown requested"%string |}),
       cancel_host s)
  | SetSecret secret => delegate (h_set_secret secret) RespSetSecret s
  | ResetSecret => delegate h_reset_secret RespResetSecret s
  | GetSecretPath =>
      (respond (RespSecretPath {| sp_secret_path := h_secret_path (sv_runtime s) |}), s)
  | GetAccountLoginUrl => delegate h_account_login_url RespAccountLoginUrl s
  end.

Definition handle_request_envelope (envelope : IncomingRequestEnvelope) (s : IpcServer) :
    RequestOutcome * IpcServer :=
  match validate_request_envelope envelope with
  | inr request => handle_service_request request s
  | inl response => (respond response, s)
  end.

(** ** A connection

    The frames written so far, the events received from the runtime and not
    yet passed on, and whether the client has subscribed. *)

Record connection : Type := {
  cn_subscribed : bool;
  cn_events : list ServiceUpdate;
  cn_written : list text;
}.

Inductive conn_status : Type :=
  | Serving
  | Ended (result : outcome IpcError ()).

(** [writer.write_json(..).await?]: [write] is what became of it. *)
Definition conn_write (write : option LinesCodecError) (envelope : ServerEnvelope) (c : connection) :
    conn_status * connection :=
  match write with
  | None => (Serving, {| cn_subscribed := cn_subscribed c; cn_events := cn_events c;
                         cn_written := cn_written c ++ [to_text (to_value envelope)] |})
  | Some e => (Ended (Err (line_codec_error e)), c)
  end.

Definition send_hello (write : option LinesCodecError) (c : connection) : conn_status * connection :=
  conn_write write (EnvHello {| he_protocol := protocol_info |}) c.

Definition send_response (write : option LinesCodecError) (request_id : Z)
    (response : ServiceResponse) (c : connection) : conn_status * connection :=
  conn_write write
    (EnvResponse {| re_ipc_version := IPC_VERSION; re_request_id := request_id;
                    re_response := response |}) c.

Definition transport_event (s : IpcServer) (event : ServiceUpdate) : ServiceUpdate :=
  match event with
  | UpdateStatus st => UpdateStatus (with_socket_path (sv_socket_path s) st)
  | event => event
  end.

Definition send_event (write : option LinesCodecError) (s : IpcServer) (event : ServiceUpdate)
    (c : connection) : conn_status * connection :=
  conn_write write
    (EnvEvent {| ev_ipc_version := IPC_VERSION; ev_event := transport_event s event |}) c.

Definition set_subscribed (b : bool) (c : connection) : connection :=
  {| cn_subscribed := b || cn_subscribed c; cn_events := cn_events c; cn_written := cn_written c |}.

(** The branch of the loop that reads a request. *)
Definition on_request (r : line_read text) (write : option LinesCodecError) (c : connection)
    (s : IpcServer) : conn_status * connection * IpcServer :=
  match read_json IncomingRequestEnvelope_from_value r with
  | Ok envelope =>
      let '(out, s) := handle_request_envelope envelope s in
      let c := set_subscribed (out_subscribed out) c in
      (send_response write (ir_request_id envelope) (out_response out) c, s)
  | Err e => (Ended (Err e), c, s)
  | Panic => (Ended Panic, c, s)
  end.

(** What the event stream yields: the oldest pending event, a lag (events were
    dropped), or its end. *)
Inductive event_read : Type := EventNext | EventLagged | EventClosed.

(** The branch that passes an event on, enabled once subscribed. *)
Definition on_event (r : event_read) (write : option LinesCodecError) (c : connection)
    (s : IpcServer) : conn_status * connection :=
  match r with
  | EventNext =>
      match cn_events c with
      | event :: events =>
          send_event write s event {| cn_subscribed := cn_subscribed c; cn_events := events;
                                      cn_written := cn_written c |}
      | [] => (Serving, c)
      end
  | EventLagged => (Serving, c)
  | EventClosed => (Ended (Ok ()), c)
  end.
End server.
