(* ===== verification/IpcTheorems.v ===== *)
(** * The IPC service: connections, protocol errors, and remote calls

    What a connection writes, how the server answers documents that are not
    requests, and that calling the runtime through client, connection and
    server is calling it directly. *)

From S2P Require Import Prelude Json IpcModel Ipc IpcCodec RuntimeError IpcServer.
From stdpp Require Import pretty.
#[local] Open Scope Z_scope.

(** ** A connection among other tasks *)

Section connection.
Context {H : Handle} {JT : JsonText}.

(** What a connection did: answered a request, or passed an event on. *)
Inductive conn_log : Type :=
  | Answered (envelope : IncomingRequestEnvelope) (out : RequestOutcome)
  | Passed (event : ServiceUpdate).

Definition hello_frame : text := to_text (to_value (EnvHello {| he_protocol := protocol_info |})).

Definition log_frame (s : IpcServer) (l : conn_log) : text :=
  to_text (to_value
    match l with
    | Answered envelope out =>
        EnvResponse {| re_ipc_version := IPC_VERSION; re_request_id := ir_request_id envelope;
                       re_response := out_response out |}
    | Passed event => EnvEvent {| ev_ipc_version := IPC_VERSION; ev_event := transport_event s event |}
    end).

Definition log_event (l : conn_log) : option ServiceUpdate :=
  match l with Passed event => Some event | Answered _ _ => None end.

(** A connection that was greeted, with the events published since it was
    accepted and its log. Meanwhile other tasks use the runtime; an event that
    is published may push older ones out of the receiver's buffer. *)
Inductive conn_run (path : string) : list ServiceUpdate → list conn_log → connection → IpcServer → Prop :=
  | run_accept s :
      sv_socket_path s = path →
      conn_run path [] []
        {| cn_subscribed := false; cn_events := []; cn_written := [hello_frame] |} s
  | run_others published l c s s' :
      conn_run path published l c s → sv_socket_path s' = path →
      conn_run path published l c s'
  | run_publish published l c s event dropped kept :
      conn_run path published l c s →
      cn_events c ++ [event] = dropped ++ kept →
      conn_run path (published ++ [event]) l
        {| cn_subscribed := cn_subscribed c; cn_events := kept; cn_written := cn_written c |} s
  | run_request published l c s line envelope c' s' :
      conn_run path published l c s →
      read_json IncomingRequestEnvelope_from_value line = Ok envelope →
      on_request line None c s = (Serving, c', s') →
      conn_run path published (l ++ [Answered envelope (handle_request_envelope envelope s).1]) c' s'
  | run_event published l c s event events c' :
      conn_run path published l c s →
      cn_subscribed c = true → cn_events c = event :: events →
      on_event EventNext None c s = (Serving, c') →
      conn_run path published (l ++ [Passed event]) c' s.

Lemma handle_request_path envelope s :
  sv_socket_path (handle_request_envelope envelope s).2 = sv_socket_path s.
Proof.
  unfold handle_request_envelope. destruct (validate_request_envelope envelope) as [|req]; [done|].
  destruct req; unfold handle_service_request, delegate, subscribe_response, status_response;
    repeat case_match; by simplify_eq.
Qed.

Lemma on_request_answers line c s c' s' envelope :
  read_json IncomingRequestEnvelope_from_value line = Ok envelope →
  on_request line None c s = (Serving, c', s') →
  c' = {| cn_subscribed := out_subscribed (handle_request_envelope envelope s).1 || cn_subscribed c;
          cn_events := cn_events c;
          cn_written := cn_written c ++
            [log_frame s (Answered envelope (handle_request_envelope envelope s).1)] |} ∧
  s' = (handle_request_envelope envelope s).2.
Proof.
  intros Hr. unfold on_request. rewrite Hr. destruct (handle_request_envelope envelope s) as [out s1].
  by intros [= <- <-].
Qed.

Lemma log_frame_path s s' l :
  sv_socket_path s = sv_socket_path s' → log_frame s l = log_frame s' l.
Proof. intros Hp. unfold log_frame, transport_event. by rewrite Hp. Qed.

Lemma log_frames_path s s' (l : list conn_log) :
  sv_socket_path s = sv_socket_path s' → log_frame s <$> l = log_frame s' <$> l.
Proof. intros. apply list_fmap_ext. intros i x _. by apply log_frame_path. Qed.

(** A request to be told of events. *)
Definition subscribes (l : conn_log) : Prop :=
  match l with
  | Answered envelope _ =>
      ir_ipc_version envelope = IPC_VERSION ∧ ir_request envelope = KnownRequest Subscribe
  | Passed _ => False
  end.

Lemma subscribed_by envelope s :
  out_subscribed (handle_request_envelope envelope s).1 = true ↔
  subscribes (Answered envelope (handle_request_envelope envelope s).1).
Proof.
  unfold handle_request_envelope, validate_request_envelope, subscribes.
  case_decide as Hv; [split; [done | naive_solver]|].
  destruct (ir_request envelope) as [req|unknown]; 
    [|destruct (is_known_request_type _); (split; [done | naive_solver])].
  destruct req; unfold handle_service_request, delegate, subscribe_response, status_response;
    repeat case_match; simplify_eq/=; naive_solver.
Qed.

Lemma run_path path published l c s : conn_run path published l c s → sv_socket_path s = path.
Proof.
  induction 1 as [| |? ? ? ? ? ? ? ? IH|? ? ? ? ? ? ? ? Hrun IH Hr Hreq|]; try done.
  destruct (on_request_answers _ _ _ _ _ _ Hr Hreq) as [_ ->]. by rewrite handle_request_path.
Qed.

Lemma elem_snoc {A} (P : A → Prop) (l : list A) (x : A) :
  (∃ y, y ∈ l ++ [x] ∧ P y) ↔ (∃ y, y ∈ l ∧ P y) ∨ P x.
Proof. setoid_rewrite elem_of_app. setoid_rewrite list_elem_of_singleton. naive_solver. Qed.

Lemma run_subscribed path published l c s :
  conn_run path published l c s →
  (cn_subscribed c = true ↔ ∃ a, a ∈ l ∧ subscribes a).
Proof.
  induction 1 as [| | |? ? ? ? ? ? ? ? Hrun IH Hr Hreq|? ? ? ? ? ? ? Hrun IH Hsub Hev Hstep].
  - split; [done|]. intros (a & Ha & _). by apply not_elem_of_nil in Ha.
  - done.
  - done.
  - destruct (on_request_answers _ _ _ _ _ _ Hr Hreq) as [-> _]. cbn [cn_subscribed].
    rewrite elem_snoc, orb_true_iff, IH, subscribed_by. tauto.
  - unfold on_event in Hstep. rewrite Hev in Hstep. injection Hstep as <-. cbn [cn_subscribed].
    rewrite elem_snoc, IH. cbn. tauto.
Qed.

(** C12: What a client reads from its connection. However the runtime is used
    and events are published meanwhile, the frames written are the greeting,
    then one frame for each request in the order the requests came, carrying
    the request's id, and the events passed on in between; the events passed on
    are published ones, in order, each at most once; and none is passed on
    before the client has subscribed. *)
Theorem connection_order path published l c s :
  conn_run path published l c s →
  cn_written c = hello_frame :: (log_frame s <$> l) ∧
  sublist (omap log_event l ++ cn_events c) published ∧
  (∀ before event after, l = before ++ Passed event :: after → ∃ a, a ∈ before ∧ subscribes a).
Proof.
  intros Hrun. pose proof (run_path _ _ _ _ _ Hrun) as Hpath.
  induction Hrun as [|? ? ? ? ? Hrun IH|? ? ? ? ? ? ? Hrun IH Happ
                    |? ? ? ? ? ? ? ? Hrun IH Hr Hreq|? ? ? ? ? ? ? Hrun IH Hsub Hev Hstep].
  - split_and!; [done | done |]. by intros [] ? ? ?.
  - destruct IH as (Hw & Hrest); [by eapply run_path|]. split; [|done].
    rewrite Hw. f_equal. apply log_frames_path. by rewrite Hpath, (run_path _ _ _ _ _ Hrun).
  - destruct IH as (Hw & Hs & Hsub); [done|]. split_and!; [done | | done]. cbn [cn_events].
    transitivity (omap log_event l ++ cn_events c ++ [event]).
    + apply sublist_app; [done|]. rewrite Happ. by apply sublist_inserts_l.
    + rewrite app_assoc. by apply sublist_app.
  - destruct (on_request_answers _ _ _ _ _ _ Hr Hreq) as [-> ->].
    rewrite handle_request_path in Hpath. destruct IH as (Hw & Hs & Hsub); [done|].
    split_and!; cbn [cn_written cn_events].
    + rewrite Hw, (log_frames_path (handle_request_envelope envelope s).2 s)
        by apply handle_request_path. by rewrite fmap_app.
    + rewrite omap_app. cbn. by rewrite app_nil_r.
    + intros before event after Heq. destruct after as [|y after _] using rev_ind.
      * by apply app_inj_tail in Heq as [_ ?].
      * rewrite app_comm_cons, app_assoc in Heq. apply app_inj_tail in Heq as [-> _]. by eapply Hsub.
  - unfold on_event in Hstep. rewrite Hev in Hstep. injection Hstep as <-.
    destruct IH as (Hw & Hs & Hord); [done|]. split_and!; cbn [cn_written cn_events].
    + rewrite Hw, fmap_app. done.
    + rewrite omap_app. cbn. rewrite Hev in Hs. by rewrite <-app_assoc.
    + intros before e after Heq. destruct after as [|y after _] using rev_ind.
      * apply app_inj_tail in Heq as [-> _]. by apply (run_subscribed _ _ _ _ _ Hrun).
      * rewrite app_comm_cons, app_assoc in Heq. apply app_inj_tail in Heq as [-> _]. by eapply Hord.
Qed.
End connection.

(** ** Documents that are no requests *)

#[local] Arguments is_known_request_type : simpl never.

Section dispatch.
Context {H : Handle} {JT : JsonText} {JTL : JsonTextLaws JT}.

(** An envelope around any document in the place of the request. *)
Definition request_document (version request_id : Z) (request : value) : value :=
  Object [("ipc_version"%string, to_value (Serde := Serde_uint 32) version);
          ("request_id"%string, to_value (Serde := Serde_uint 64) request_id);
          ("request"%string, request)].

Lemma read_request_document version request_id request :
  uint 32 version → uint 64 request_id →
  read_json IncomingRequestEnvelope_from_value
    (Line (to_text (request_document version request_id request))) =
  ok_or JsonError
    (r ← ServiceRequestOrUnknown_from_value request;
     Some {| ir_ipc_version := version; ir_request_id := request_id; ir_request := r |}).
Proof.
  intros Hv Hid. unfold read_json. cbn [read_line mbind outcome_bind].
  rewrite from_to_text. cbn [mbind option_bind]. f_equal.
  unfold IncomingRequestEnvelope_from_value, request_document. by serde_fields.
Qed.

(** An object without a type is not even an unknown request. *)
Lemma untagged_unread entries :
  lookup_field "type" entries = Some None → ServiceRequestOrUnknown_from_value (Object entries) = None.
Proof.
  intros Hp. assert (internal_parts "type" (Object entries) = None) as Hn
    by (unfold internal_parts, field; cbn; by rewrite Hp).
  unfold ServiceRequestOrUnknown_from_value, UnknownTaggedMessage_from_value.
  cbn [from_value ServiceRequest_serde]. unfold ServiceRequest_from_value. by rewrite Hn.
Qed.

(** The connection after one answer. *)
Definition answered (c : connection) (request_id : Z) (out : RequestOutcome) : connection :=
  {| cn_subscribed := out_subscribed out || cn_subscribed c; cn_events := cn_events c;
     cn_written := cn_written c ++
       [to_text (to_value (EnvResponse {| re_ipc_version := IPC_VERSION; re_request_id := request_id;
                                          re_response := out_response out |}))] |}.

Definition error_response (code : ServiceErrorCode) (response : ServiceResponse) : Prop :=
  ∃ e, response = RespError e ∧ se_code e = code ∧ se_retryable e = false.

(** C16: How an object sent as a request is answered, when its type is a text or
    is missing. Without a type it ends the connection; a known request of the
    right version is carried out and answered once under its id; another
    version, a malformed payload of a known request and an unknown request are
    refused with their error codes, not retryable, with the server's state
    unchanged and the connection serving on. (What the derived reader also
    takes, a sequence or a number as the type, is not covered.) *)
Theorem request_dispatch (c : connection) (s : IpcServer) (version request_id : Z)
    (entries : list (string * value)) :
  uint 32 version → uint 64 request_id →
  let request := Object entries in
  let result := on_request (Line (to_text (request_document version request_id request))) None c s in
  (lookup_field "type" entries = Some None → result = (Ended (Err JsonError), c, s)) ∧
  ∀ name, lookup_field "type" entries = Some (Some (Str name)) →
    match from_value request with
    | Some r =>
        if decide (version = IPC_VERSION) then
          result = (Serving, answered c request_id (handle_service_request r s).1,
                    (handle_service_request r s).2)
        else ∃ response, result = (Serving, answered c request_id (respond response), s) ∧
               error_response UnsupportedProtocol response
    | None =>
        ∃ response, result = (Serving, answered c request_id (respond response), s) ∧
          error_response
            (if decide (version ≠ IPC_VERSION) then UnsupportedProtocol
             else if is_known_request_type name then InvalidRequest
             else InvalidRequestType) response
    end.
Proof.
  intros Hv Hid request result. subst result. unfold on_request.
  rewrite read_request_document by done. split; [intros Hn; subst request; by rewrite (untagged_unread _ Hn)|].
  intros name Hname.
  assert (∃ rest, internal_parts "type" request = Some (name, rest)) as [rest Hp]
    by (unfold internal_parts, field; cbn; rewrite Hname; by eexists).
  clearbody request. pose proof (tagged_read _ _ _ Hp) as Ht.
  unfold ServiceRequestOrUnknown_from_value in *.
  destruct (from_value request) as [r|].
  - cbn. unfold handle_request_envelope, validate_request_envelope. cbn [ir_ipc_version ir_request].
    destruct (decide (version = IPC_VERSION)) as [->|Hne].
    + rewrite decide_False by (by intros []). by destruct (handle_service_request r s).
    + rewrite decide_True by done. by repeat eexists.
  - cbn in Ht |- *. unfold UnknownTaggedMessage_from_value in *. rewrite Hp in Ht |- *. cbn.
    unfold handle_request_envelope, validate_request_envelope.
    cbn [ir_ipc_version ir_request um_type_name].
    case_decide; [by repeat eexists|]. by destruct (is_known_request_type name); repeat eexists.
Qed.
End dispatch.

(** ** Remote calls *)

Section remote.
Context {H : Handle} {HW : HandleWf H} {JT : JsonText} {JTL : JsonTextLaws JT}.
Context (overflow_checks : bool).

(** The events that are passed on before a request is read, if the client has
    subscribed; they depend on when the connection's task runs. *)
Context (events_due : connection → list ServiceUpdate).

(** A client's end of a connection: the connection's task runs on the frames
    it is sent, and its frames are read in order. *)
Record link : Type := {
  ln_conn : connection;
  ln_server : IpcServer;
  ln_status : conn_status;
  ln_queue : list text;
}.

Definition pass_events (c : connection) (s : IpcServer) : connection :=
  if cn_subscribed c then
    {| cn_subscribed := true; cn_events := [];
       cn_written := cn_written c ++ ((λ e, log_frame s (Passed e)) <$> events_due c) |}
  else c.

Definition link_send (frame : text) (p : link) : option LinesCodecError * link :=
  match ln_status p with
  | Serving =>
      let c0 := pass_events (ln_conn p) (ln_server p) in
      let '(st, c, s) := on_request (Line frame) None c0 (ln_server p) in
      (None, {| ln_conn := c; ln_server := s; ln_status := st;
                ln_queue := ln_queue p ++ drop (length (cn_written (ln_conn p))) (cn_written c) |})
  | Ended _ => (Some (CodecIo (IoError BrokenPipe "connection closed")), p)
  end.

Definition link_next (p : link) : line_read text * link :=
  match ln_queue p with
  | frame :: queue =>
      (Line frame, {| ln_conn := ln_conn p; ln_server := ln_server p; ln_status := ln_status p;
                      ln_queue := queue |})
  | [] => (LineEnd, p)
  end.

(** A connection just accepted. *)
Definition link_accept (s : IpcServer) : link :=
  {| ln_conn := {| cn_subscribed := false; cn_events := []; cn_written := [hello_frame] |};
     ln_server := s; ln_status := Serving; ln_queue := [hello_frame] |}.

(** Idle, with the server in the state [s]. *)
Definition linked (p : link) (s : IpcServer) : Prop :=
  handle_inv (sv_runtime s) ∧ ln_server p = s ∧ ln_status p = Serving ∧ ln_queue p = [] ∧ cn_subscribed (ln_conn p) = false.

(** *** The service's methods, and a direct call of each *)

Inductive method : Type → Type :=
  | MSubscribe : method SubscribeResponse
  | MStatus : method ServiceStatus
  | MLifecycle : method AgentLifecycle
  | MListTunnels : method TunnelListResponse
  | MListAccountTunnels : method AccountTunnelListResponse
  | MCreateTunnel (local_port : Z) (protocol : TunnelProtocol) (local_address name : option string) :
      method TunnelCreateResponse
  | MCreateMinecraftJavaTunnel (local_port : Z) (local_address name : option string) :
      method TunnelCreateResponse
  | MDeleteTunnel (tunnel_id : string) : method CommandResponse
  | MReassignTunnel (tunnel_id : string) (local_port : Z) (local_address : option string) :
      method CommandResponse
  | MAccount : method AccountResponse
  | MStartClaim : method ClaimResponse
  | MStop : method CommandResponse
  | MSetSecret (secret : string) : method CommandResponse
  | MResetSecret : method CommandResponse
  | MSecretPath : method SecretPathResponse
  | MAccountLoginUrl : method AccountLoginUrlResponse.

(** A port is a [u16]. *)
Definition method_wf {A} (m : method A) : Prop :=
  match m with
  | MCreateTunnel local_port _ _ _ | MCreateMinecraftJavaTunnel local_port _ _
  | MReassignTunnel _ local_port _ => uint 16 local_port
  | _ => True
  end.

Definition on_runtime {A} (op : runtime → (RuntimeError + A) * runtime) (s : IpcServer) :
    (RuntimeError + A) * IpcServer :=
  let '(r, rt) := op (sv_runtime s) in (r, set_runtime s rt).

Definition total {A} (r : A * IpcServer) : (RuntimeError + A) * IpcServer := (inr r.1, r.2).

(** The call on the runtime's handle. A status names the socket of the
    service, and stopping is the host's affair. *)
Definition direct {A} (m : method A) : IpcServer → (RuntimeError + A) * IpcServer :=
  match m with
  | MSubscribe => λ s, total (subscribe_response s)
  | MStatus => λ s, total (status_response s)
  | MLifecycle => on_runtime (λ rt, let '(l, rt) := h_lifecycle rt in (inr l, rt))
  | MListTunnels => on_runtime h_list_tunnels
  | MListAccountTunnels => on_runtime h_list_account_tunnels
  | MCreateTunnel port protocol address name =>
      on_runtime (h_create_tunnel port protocol address name)
  | MCreateMinecraftJavaTunnel port address name =>
      on_runtime (h_create_minecraft_java_tunnel port address name)
  | MDeleteTunnel id => on_runtime (h_delete_tunnel id)
  | MReassignTunnel id port address => on_runtime (h_reassign_tunnel id port address)
  | MAccount => on_runtime h_account
  | MStartClaim => on_runtime h_start_claim
  | MStop => λ s, (inr {| cr_accepted := true; cr_message := Some "shutdown requested"%string |},
                   cancel_host s)
  | MSetSecret secret => on_runtime (h_set_secret secret)
  | MResetSecret => on_runtime h_reset_secret
  | MSecretPath => λ s, (inr {| sp_secret_path := h_secret_path (sv_runtime s) |}, s)
  | MAccountLoginUrl => on_runtime h_account_login_url
  end.

(** The same call through the client. *)
Definition remote {A} (m : method A) : C (P := link) A :=
  match m with
  | MSubscribe => client_subscribe link_send link_next overflow_checks
  | MStatus => client_status link_send link_next overflow_checks
  | MLifecycle => client_lifecycle link_send link_next overflow_checks
  | MListTunnels => client_list_tunnels link_send link_next overflow_checks
  | MListAccountTunnels => client_list_account_tunnels link_send link_next overflow_checks
  | MCreateTunnel port protocol address name =>
      client_create_tunnel link_send link_next overflow_checks port protocol address name
  | MCreateMinecraftJavaTunnel port address name =>
      client_create_minecraft_java_tunnel link_send link_next overflow_checks port address name
  | MDeleteTunnel id => client_delete_tunnel link_send link_next overflow_checks id
  | MReassignTunnel id port address =>
      client_reassign_tunnel link_send link_next overflow_checks id port address
  | MAccount => client_account link_send link_next overflow_checks
  | MStartClaim => client_start_claim link_send link_next overflow_checks
  | MStop => client_stop link_send link_next overflow_checks
  | MSetSecret secret => client_set_secret link_send link_next overflow_checks secret
  | MResetSecret => client_reset_secret link_send link_next overflow_checks
  | MSecretPath => client_get_secret_path link_send link_next overflow_checks
  | MAccountLoginUrl => client_get_account_login_url link_send link_next overflow_checks
  end.

(** An error of the runtime arrives as the service error it stands for. *)
Definition remote_result {A} (r : RuntimeError + A) : outcome IpcError A :=
  match r with
  | inl e => Err (Service (as_service_error e))
  | inr x => Ok x
  end.

(** *** One exchange *)

Lemma delegate_wf {A} (op : runtime → (RuntimeError + A) * runtime) f (wf : A → Prop) s :
  op_wf handle_inv wf op → (∀ x, wf x → ServiceResponse_wf (f x)) → handle_inv (sv_runtime s) →
  ServiceResponse_wf (out_response (delegate op f s).1) ∧ handle_inv (sv_runtime (delegate op f s).2).
Proof.
  intros Hop Hf Hinv. destruct (Hop _ Hinv) as [Hr Hi]. unfold delegate.
  destruct (op _) as [[e|x] rt]; cbn in *; auto.
Qed.

Lemma handle_service_request_wf req s :
  handle_inv (sv_runtime s) →
  ServiceResponse_wf (out_response (handle_service_request req s).1) ∧
  handle_inv (sv_runtime (handle_service_request req s).2).
Proof.
  intros Hinv. destruct req; cbn [handle_service_request];
    try (eapply delegate_wf; [eauto using wf_list_tunnels, wf_list_account_tunnels, wf_create_tunnel,
      wf_create_minecraft, wf_delete_tunnel, wf_reassign_tunnel, wf_account, wf_start_claim,
      wf_set_secret, wf_reset_secret, wf_account_login_url | done | done]); try done.
  - destruct (wf_subscription_snapshot (sv_runtime s) Hinv) as [Hwf Hi]. unfold subscribe_response.
    by destruct (h_subscription_snapshot _).
  - destruct (wf_status (sv_runtime s) Hinv) as [Hwf Hi]. unfold status_response.
    by destruct (h_status _).
  - destruct (wf_lifecycle (sv_runtime s) Hinv) as [Hwf Hi]. by destruct (h_lifecycle _).
Qed.

Lemma IPC_VERSION_uint : uint 32 IPC_VERSION.
Proof. by split. Qed.

Lemma C_bind_Ok {A B} (m : C (P := link) A) (f : A → C B) c p a c' p' :
  m c p = (Ok a, c', p') → (m ≫= f) c p = f a c' p'.
Proof. intros Hm. unfold mbind, C_bind. by rewrite Hm. Qed.

(** The server's frame is waiting once the request is sent. *)
Lemma send_request_served req c p s :
  linked p s → ServiceRequest_wf req → uint 64 (next_request_id c + 1) → 0 ≤ next_request_id c →
  ∃ c' p', send_request link_send overflow_checks req c p = (Ok (next_request_id c), c', p') ∧
    next_request_id c' = next_request_id c + 1 ∧
    ln_server p' = (handle_service_request req s).2 ∧ ln_status p' = Serving ∧
    cn_subscribed (ln_conn p') = out_subscribed (handle_service_request req s).1 ∧
    ln_queue p' = [to_text (to_value (EnvResponse {|
      re_ipc_version := IPC_VERSION; re_request_id := next_request_id c;
      re_response := out_response (handle_service_request req s).1 |}))].
Proof.
  intros (_ & Hs & Hst & Hq & Hsub) Hreq [_ Hid] Hpos. unfold send_request. rewrite u_add_fits by done.
  unfold mbind, C_bind, c_write, link_send, pass_events, on_request. rewrite Hst, Hsub.
  unfold read_json. cbn [mbind outcome_bind read_line]. rewrite from_to_text. cbn [mbind option_bind].
  rewrite request_read by (split_and!; [exact IPC_VERSION_uint | split; cbn; lia | done]).
  cbn [ok_or ir_request_id rq_request_id rq_ipc_version rq_request].
  unfold handle_request_envelope, validate_request_envelope. cbn [ir_ipc_version ir_request].
  rewrite decide_False by (by intros []). rewrite Hs.
  destruct (handle_service_request req s) as [out s']. cbn [fst snd].
  unfold send_response, conn_write. cbn [cn_written set_subscribed].
  eexists _, _. split_and!; [done..| |]; cbn [ln_queue ln_conn cn_subscribed].
  - unfold set_subscribed. cbn [cn_subscribed]. by rewrite Hsub, orb_false_r.
  - by rewrite drop_app_length, Hq.
Qed.

Lemma request_call req c p s :
  linked p s → ServiceRequest_wf req → uint 64 (next_request_id c + 1) → 0 ≤ next_request_id c →
  out_subscribed (handle_service_request req s).1 = false →
  ∃ c' p', request link_send link_next overflow_checks req c p =
      (Ok (out_response (handle_service_request req s).1), c', p') ∧
    next_request_id c' = next_request_id c + 1 ∧ linked p' (handle_service_request req s).2.
Proof.
  intros Hl Hreq Hid Hpos Hout.
  destruct (send_request_served req c p s) as (c' & p1 & Hsend & Hnext & Hs & Hst & Hsub & Hq);
    [done..|].
  destruct (handle_service_request_wf req s) as [Hwf Hinv]; [apply Hl|].
  assert (uint 64 (next_request_id c)) as Hid0 by (destruct Hid; split; lia).
  unfold request. rewrite (C_bind_Ok _ _ _ _ _ _ _ Hsend).
  unfold recv_response, recv_server_envelope, c_read, c_lift, link_next.
  unfold mbind, C_bind. rewrite Hq. unfold read_json. cbn [read_line mbind outcome_bind].
  rewrite from_to_text. cbn [mbind option_bind].
  rewrite from_to_value by (cbn; split_and!; [exact IPC_VERSION_uint | exact Hid0 | done]).
  cbn [ok_or re_ipc_version re_request_id re_response].
  unfold ensure_ipc_version. rewrite !decide_True by done.
  eexists _, _. split_and!; [done | done |]. by rewrite Hout in Hsub.
Qed.

(** The request behind a method. *)
Definition method_request {A} (m : method A) : ServiceRequest :=
  match m with
  | MSubscribe => Subscribe
  | MStatus => GetStatus
  | MLifecycle => GetState
  | MListTunnels => GetTunnels
  | MListAccountTunnels => GetAccountTunnels
  | MCreateTunnel port protocol address name => CreateTunnel port protocol address name
  | MCreateMinecraftJavaTunnel port address name => CreateMinecraftJavaTunnel port address name
  | MDeleteTunnel id => DeleteTunnel id
  | MReassignTunnel id port address => ReassignTunnel id port address
  | MAccount => GetAccount
  | MStartClaim => StartClaim
  | MStop => Stop
  | MSetSecret secret => SetSecret secret
  | MResetSecret => ResetSecret
  | MSecretPath => GetSecretPath
  | MAccountLoginUrl => GetAccountLoginUrl
  end.

(** Events only follow a subscription, which ends the session. *)
Definition is_subscribe {A} (m : method A) : bool :=
  match m with MSubscribe => true | _ => false end.

Lemma method_unsubscribed {A} (m : method A) s :
  is_subscribe m = false → out_subscribed (handle_service_request (method_request m) s).1 = false.
Proof.
  destruct m; [done|..]; intros _; cbn [method_request handle_service_request];
    unfold delegate, status_response; by repeat case_match.
Qed.

Lemma remote_call {A} (m : method A) c p s :
  linked p s → method_wf m → is_subscribe m = false → uint 64 (next_request_id c + 1) → 0 ≤ next_request_id c →
  ∃ c' p', remote m c p = (remote_result (direct m s).1, c', p') ∧
    next_request_id c' = next_request_id c + 1 ∧ linked p' (direct m s).2.
Proof.
  intros Hl Hm Hsub Hid Hpos.
  destruct (request_call (method_request m) c p s) as (c' & p' & Hreq & Hnext & Hl');
    [done | by destruct m | done | done | by apply method_unsubscribed |].
  destruct m; cbn [method_request] in Hreq; cbn [remote];
    unfold client_subscribe, client_status, client_lifecycle, client_list_tunnels,
      client_list_account_tunnels, client_create_tunnel, client_create_minecraft_java_tunnel,
      client_delete_tunnel, client_reassign_tunnel, client_account, client_start_claim, client_stop,
      client_set_secret, client_reset_secret, client_get_secret_path, client_get_account_login_url;
    rewrite (C_bind_Ok _ _ _ _ _ _ _ Hreq); exists c', p';
    (split_and!; [|done|]); revert Hl'; cbn [direct method_request handle_service_request];
    unfold delegate, on_runtime, total;
    repeat match goal with
    | |- context [let '(_, _) := ?x in _] => destruct x as [[?|?] ?] || destruct x as [? ?]
    end; done.
Qed.

(** *** A session of calls *)

Definition call : Type := sigT method.

Definition call_wf (x : call) : Prop := method_wf (projT2 x) ∧ is_subscribe (projT2 x) = false.

Fixpoint direct_calls (l : list call) (s : IpcServer) :
    list (sigT (λ A, RuntimeError + A))%type * IpcServer :=
  match l with
  | [] => ([], s)
  | existT A m :: l =>
      let '(r, s) := direct m s in
      let '(rs, s) := direct_calls l s in
      (existT A r :: rs, s)
  end.

Fixpoint remote_calls (l : list call) (c : IpcClient) (p : link) :
    list (sigT (outcome IpcError)) * IpcClient * link :=
  match l with
  | [] => ([], c, p)
  | existT A m :: l =>
      let '(r, c, p) := remote m c p in
      let '(rs, c, p) := remote_calls l c p in
      (existT A r :: rs, c, p)
  end.

Definition as_remote (r : sigT (λ A, RuntimeError + A)%type) : sigT (outcome IpcError) :=
  existT (projT1 r) (remote_result (projT2 r)).

Lemma remote_calls_simulate l c p s :
  linked p s → Forall call_wf l → 0 ≤ next_request_id c →
  next_request_id c + Z.of_nat (length l) < 2 ^ 64 →
  ∃ c' p', remote_calls l c p = (map as_remote (direct_calls l s).1, c', p') ∧
    linked p' (direct_calls l s).2.
Proof.
  intros Hl Hwf. revert c p s Hl. induction Hwf as [|[A m] l [Hm Hsub] Hwf IH]; intros c p s Hl Hpos Hlen.
  - by exists c, p.
  - cbn [length] in Hlen. destruct (remote_call m c p s) as (c1 & p1 & Hcall & Hid & Hl1);
      [done | done | done | split; lia | done |].
    cbn [remote_calls direct_calls]. rewrite Hcall. destruct (direct m s) as [r s1].
    destruct (IH c1 p1 s1) as (c2 & p2 & Hcalls & Hl2); [done | lia | lia |].
    cbn [fst snd] in *. rewrite Hcalls. destruct (direct_calls l s1) as [rs s2]. by exists c2, p2.
Qed.

Lemma connect_accepted s :
  handle_inv (sv_runtime s) →
  ∃ client p, connect link_next (link_accept s) = (Ok client, p) ∧ linked p s ∧
    next_request_id client = 1 ∧ server_protocol client = protocol_info.
Proof.
  intros Hinv. unfold connect, recv_hello, recv_server_envelope, c_read, c_lift, link_next, link_accept, hello_frame.
  unfold mbind, C_bind. cbn [ln_queue]. unfold read_json. cbn [read_line mbind outcome_bind].
  rewrite from_to_text. cbn [mbind option_bind]. rewrite from_to_value by exact IPC_VERSION_uint.
  cbn [ok_or he_protocol]. eexists _, _. split_and!; done.
Qed.

(** A client's session on a fresh connection is the sequence of direct calls. *)
Lemma session_refines (s : IpcServer) (calls : list call) :
  handle_inv (sv_runtime s) → Forall call_wf calls →
  Z.of_nat (length calls) < 2 ^ 64 - 1 →
  ∃ client p client' p',
    connect link_next (link_accept s) = (Ok client, p) ∧ server_protocol client = protocol_info ∧
    remote_calls calls client p = (map as_remote (direct_calls calls s).1, client', p') ∧
    linked p' (direct_calls calls s).2.
Proof.
  intros Hinv Hwf Hlen. destruct (connect_accepted s Hinv) as (client & p & Hc & Hl & Hid & Hp).
  destruct (remote_calls_simulate calls client p s) as (c' & p' & Hr & Hl'); [done | done | lia | lia |].
  by exists client, p, c', p'.
Qed.
End remote.

(** ** Runs *)

(** A runtime that does nothing. *)
Definition stopped_op {A : Type} (_ : ()) : (RuntimeError + A) * () := (inl RuntimeStopped, ()).

Definition idle_handle : Handle := {|
  runtime := ();
  h_subscription_snapshot r :=
    ({| sr_protocol := protocol_info;
        sr_snapshot := {| sn_status := ServiceStatus_default; sn_lifecycle := AgentLifecycle_default;
                          sn_stats := ConnectionStats_default |} |}, r);
  h_status r := (ServiceStatus_default, r);
  h_lifecycle r := (AgentLifecycle_default, r);
  h_list_tunnels := stopped_op;
  h_list_account_tunnels := stopped_op;
  h_create_tunnel _ _ _ _ := stopped_op;
  h_create_minecraft_java_tunnel _ _ _ := stopped_op;
  h_delete_tunnel _ := stopped_op;
  h_reassign_tunnel _ _ _ := stopped_op;
  h_account := stopped_op;
  h_start_claim := stopped_op;
  h_set_secret _ := stopped_op;
  h_reset_secret := stopped_op;
  h_secret_path _ := None;
  h_account_login_url := stopped_op;
|}.

Section idle.
#[local] Existing Instance idle_handle.
#[local] Existing Instance value_text.
#[local] Existing Instance value_text_laws.

Definition idle_server : IpcServer :=
  {| sv_runtime := (); sv_socket_path := "/run/playit.sock"; sv_host_shutdown := false |}.

Definition subscribe_line : line_read text :=
  Line (request_document IPC_VERSION 1 (to_value Subscribe)).

Definition subscribe_envelope : IncomingRequestEnvelope :=
  {| ir_ipc_version := IPC_VERSION; ir_request_id := 1; ir_request := KnownRequest Subscribe |}.

Definition greeted : connection := {| cn_subscribed := false; cn_events := []; cn_written := [hello_frame] |}.

Lemma connection_order_witness :
  let update := UpdateLifecycle Stopping in
  ∃ c, cn_written c = hello_frame ::
         (log_frame idle_server <$> [Answered subscribe_envelope
            (handle_request_envelope subscribe_envelope idle_server).1; Passed update]) ∧
       sublist ([update] ++ cn_events c) [update].
Proof.
  intros update.
  assert (conn_run "/run/playit.sock" [] [] greeted idle_server) as H0 by by apply run_accept.
  destruct (on_request subscribe_line None greeted idle_server) as [[st c1] s1] eqn:H1.
  assert (st = Serving ∧ s1 = idle_server ∧ cn_subscribed c1 = true ∧ cn_events c1 = []) as (-> & -> & Hsub & Hev).
  { vm_compute in H1. injection H1 as <- <- <-. done. }
  pose proof (run_request _ _ _ _ _ subscribe_line subscribe_envelope _ _ H0 ltac:(vm_compute; reflexivity) H1) as H2.
  pose proof (run_publish _ _ _ _ _ update [] [update] H2 ltac:(by rewrite Hev)) as H3.
  pose proof (run_event _ _ _ _ _ update [] _ H3 Hsub eq_refl eq_refl) as H4.
  eexists. destruct (connection_order _ _ _ _ _ H4) as (Hw & Hs & _). split; [exact Hw | exact Hs].
Defined.

(** A request of another version. *)
Lemma request_dispatch_witness :
  let request := Object [("type"%string, Str "stop")] in
  let result := on_request (Line (request_document 2 5 request)) None greeted idle_server in
  ∃ response, result = (Serving, answered greeted 5 (respond response), idle_server) ∧
    error_response UnsupportedProtocol response.
Proof.
  destruct (request_dispatch greeted idle_server 2 5 [("type"%string, Str "stop")]) as [_ Hd]; [by split..|].
  exact (Hd "stop"%string eq_refl).
Defined.
End idle.
