(* ===== verification/RuntimeTheory.v ===== *)
(** * The handle as the IPC server's runtime

    A small program logic for the runtime's computations; what every operation
    of the handle leaves alone; and the proof that the handle keeps what the
    IPC server relies on, so that a client of the service is a client of the
    runtime. *)

From S2P Require Import Prelude Net Json Text OriginLookup Api ApiTunnels ApiAccount HttpClient ApiClient IpcModel Ipc RuntimeError FileSystem SecretStore RuntimeOptions RuntimeTunnels RuntimeState RuntimeHandle IpcServer IpcTheorems.
#[local] Open Scope Z_scope.

(** ** Triples *)

Section logic.
Context {JT : JsonText}.

(** Started where [P] holds, [m] returns a result and a state in [Q]. *)
Definition rt_spec {A : Type} (P : rt → Prop) (m : RT A) (Q : A → rt → Prop) : Prop :=
  ∀ s, P s → Q (m s).1 (m s).2.

(** [m] keeps [I]. *)
Definition keeps {A : Type} (I : rt → Prop) (m : RT A) : Prop := rt_spec I m (λ _, I).

Lemma spec_ret {A : Type} (P : rt → Prop) (a : A) (Q : A → rt → Prop) :
  (∀ s, P s → Q a s) → rt_spec P (mret a) Q.
Proof. intros HQ s Hs. by apply HQ. Qed.

Lemma spec_bind {A B : Type} (P : rt → Prop) (m : RT A) (f : A → RT B) (R : A → rt → Prop)
    (Q : B → rt → Prop) :
  rt_spec P m R → (∀ a, rt_spec (R a) (f a) Q) → rt_spec P (m ≫= f) Q.
Proof.
  intros Hm Hf s Hs. specialize (Hm s Hs). unfold mbind, RT_bind.
  destruct (m s) as [a s1]. by apply Hf.
Qed.

Lemma spec_weaken {A : Type} (P P' : rt → Prop) (m : RT A) (Q Q' : A → rt → Prop) :
  rt_spec P m Q → (∀ s, P' s → P s) → (∀ a s, Q a s → Q' a s) → rt_spec P' m Q'.
Proof. intros Hm HP HQ s Hs. by apply HQ, Hm, HP. Qed.

Lemma spec_try {E A B : Type} (P : rt → Prop) (m : RT (E + A)) (f : A → RT (E + B))
    (R : E + A → rt → Prop) (Q : E + B → rt → Prop) :
  rt_spec P m R → (∀ a, rt_spec (R (inr a)) (f a) Q) → (∀ e s, R (inl e) s → Q (inl e) s) →
  rt_spec P (rt_try m f) Q.
Proof.
  intros Hm Hf He. eapply spec_bind; [done|]. intros [e|a]; [|done]. apply spec_ret. auto.
Qed.

Lemma keeps_ret {A : Type} (I : rt → Prop) (a : A) : keeps I (mret a).
Proof. by apply spec_ret. Qed.

Lemma keeps_bind {A B : Type} (I : rt → Prop) (m : RT A) (f : A → RT B) :
  keeps I m → (∀ a, keeps I (f a)) → keeps I (m ≫= f).
Proof. intros Hm Hf. eapply spec_bind; [exact Hm | exact Hf]. Qed.

Lemma keeps_try {E A B : Type} (I : rt → Prop) (m : RT (E + A)) (f : A → RT (E + B)) :
  keeps I m → (∀ a, keeps I (f a)) → keeps I (rt_try m f).
Proof. intros Hm Hf. eapply spec_try; [exact Hm | exact Hf | done]. Qed.

(** What the runtime publishes, and what never changes. *)
Definition published (s : rt) : StateCache * list ServiceUpdate * StatusContext * SecretSource * bool :=
  let i := rt_inner s in
  (ri_cache i, ri_events i, ri_status_context i, ri_secret_source i, ri_provisioning i).

(** A property of those alone, and of whether a shutdown was requested, which
    is never taken back. *)
Definition stable (I : rt → Prop) : Prop := ∀ s s',
  published s' = published s →
  (ri_cancelled (rt_inner s) = true → ri_cancelled (rt_inner s') = true) → I s → I s'.

Section stable.
Context (I : rt → Prop) (HI : stable I).

Lemma keeps_get : keeps I rt_get.
Proof. by intros s Hs. Qed.

Lemma keeps_ask {A : Type} (f : nat → A) : keeps I (rt_ask f).
Proof. intros s Hs. by apply (HI s). Qed.

Lemma keeps_disk {E A : Type} (m : FS E A) : keeps I (rt_disk m).
Proof. intros s Hs. unfold rt_disk. destruct (m (rt_fs s)). by apply (HI s). Qed.

Lemma keeps_http {E A : Type} (m : traffic JT → option (E + A) * traffic JT) (e : E) :
  keeps I (rt_http m e).
Proof. intros s Hs. unfold rt_http. destruct (m (rt_traffic s)). by apply (HI s). Qed.

Lemma keeps_update_lookup f : keeps I (rt_update_lookup f).
Proof. intros s Hs. by apply (HI s). Qed.

Lemma keeps_guest g : keeps I (rt_modify (ri_set_guest_login g)).
Proof. intros s Hs. by apply (HI s). Qed.

Lemma keeps_claim f g : keeps I (rt_modify (λ i, ri_set_claim (f i) (g i) i)).
Proof. intros s Hs. by apply (HI s). Qed.

Lemma keeps_shutdown : keeps I request_shutdown.
Proof. intros s Hs. by apply (HI s). Qed.

Lemma keeps_agent_cancel g : keeps I (rt_modify (λ i, ri_set_cancel (ri_cancelled i) (g i) i)).
Proof. intros s Hs. by apply (HI s). Qed.

Lemma keeps_api api : keeps I (set_api api).
Proof. intros s Hs. by apply (HI s). Qed.
End stable.
End logic.

Create HintDb keeps discriminated.
#[export] Hint Resolve keeps_ret keeps_get keeps_ask keeps_disk keeps_http keeps_update_lookup keeps_guest
  keeps_claim keeps_shutdown keeps_agent_cancel keeps_api : keeps.

(** Walk through a computation. *)
Ltac keeps_step :=
  match goal with
  | |- keeps _ (rt_try _ _) => apply keeps_try; [|intros ?]
  | |- keeps _ (_ ≫= _) => apply keeps_bind; [|intros ?]
  | |- keeps _ (match ?x with _ => _ end) => destruct x
  | |- keeps _ (let '(_, _) := ?x in _) => destruct x
  end.

Ltac keeps_all := repeat (cbv zeta; keeps_step); eauto with keeps.

(** ** The operations of the handle *)

Section ops.
Context {FM : Formats} {JT : JsonText} {T : Transport JT} {HO : Host} {SL : SecretLib}.
Context (I : rt → Prop) (HI : stable I).

Lemma ensure_running_keeps : keeps I ensure_running.
Proof. unfold ensure_running. keeps_all. Qed.

Lemma handle_api_keeps : keeps I handle_api.
Proof. unfold handle_api. keeps_all. Qed.

Lemma map_err_keeps {E A : Type} (f : E → RuntimeError) (m : RT (E + A)) : keeps I m → keeps I (map_err f m).
Proof. intros Hm. unfold map_err. keeps_all. Qed.

Lemma invoke_keeps e c req : keeps I (rt_invoke e c req).
Proof. unfold rt_invoke. keeps_all. Qed.

Lemma invoke_no_fail_keeps e c req : keeps I (rt_invoke_no_fail e c req).
Proof. unfold rt_invoke_no_fail. keeps_all. Qed.
End ops.

#[export] Hint Resolve ensure_running_keeps handle_api_keeps map_err_keeps invoke_keeps
  invoke_no_fail_keeps : keeps.

Section handle_keeps.
Context {FM : Formats} {JT : JsonText} {T : Transport JT} {HO : Host} {SL : SecretLib}.
Context (I : rt → Prop) (HI : stable I).

Ltac go := unfold handle_subscription_snapshot, handle_account, handle_account_login_url,
  fetch_login_url, handle_start_claim, track_claim_task, handle_list_tunnels,
  handle_list_account_tunnels, handle_create_tunnel, handle_create_minecraft_java_tunnel,
  create_v1_tunnel, handle_delete_tunnel, handle_reassign_tunnel,
  set_secret_ready, provision, handle_reset_secret, handle_status,
  handle_lifecycle, handle_claim_url, rt_now in *; keeps_all.

Lemma handle_status_keeps : keeps I handle_status.
Proof. go. Qed.
Lemma handle_snapshot_keeps : keeps I handle_subscription_snapshot.
Proof. go. Qed.
Lemma handle_lifecycle_keeps : keeps I handle_lifecycle.
Proof. go. Qed.
Lemma handle_account_keeps : keeps I handle_account.
Proof. go. Qed.
Lemma handle_account_login_url_keeps : keeps I handle_account_login_url.
Proof. go. Qed.
Lemma handle_start_claim_keeps : keeps I handle_start_claim.
Proof. go. Qed.
Lemma handle_list_tunnels_keeps : keeps I handle_list_tunnels.
Proof. go. Qed.
Lemma handle_list_account_tunnels_keeps : keeps I handle_list_account_tunnels.
Proof. go. Qed.
Lemma handle_create_tunnel_keeps p q a n : keeps I (handle_create_tunnel p q a n).
Proof. go. Qed.
Lemma handle_create_minecraft_keeps p a n : keeps I (handle_create_minecraft_java_tunnel p a n).
Proof. go. Qed.
Lemma handle_delete_tunnel_keeps i : keeps I (handle_delete_tunnel i).
Proof. go. Qed.
Lemma handle_reassign_tunnel_keeps i p a : keeps I (handle_reassign_tunnel i p a).
Proof. go. Qed.
Lemma set_secret_ready_keeps : keeps I set_secret_ready.
Proof. go. Qed.
Lemma provision_keeps p secret : keeps I (provision p secret).
Proof. go. Qed.
Lemma handle_reset_secret_keeps : keeps I handle_reset_secret.
Proof. go. Qed.
End handle_keeps.

#[export] Hint Resolve handle_status_keeps handle_snapshot_keeps handle_lifecycle_keeps handle_account_keeps
  handle_account_login_url_keeps handle_start_claim_keeps handle_list_tunnels_keeps
  handle_list_account_tunnels_keeps handle_create_tunnel_keeps handle_create_minecraft_keeps
  handle_delete_tunnel_keeps handle_reassign_tunnel_keeps set_secret_ready_keeps provision_keeps
  handle_reset_secret_keeps : keeps.

(** ** Values in range *)

Definition cache_wf (c : StateCache) : Prop :=
  ServiceStatus_wf (sc_status c) ∧ AgentLifecycle_wf (sc_lifecycle c) ∧ ConnectionStats_wf (sc_stats c).

Section wf.
Context {FM : Formats} {JT : JsonText} {T : Transport JT} {HO : Host} {HL : HostLaws HO} {SL : SecretLib}.

Definition rt_wf (s : rt) : Prop :=
  cache_wf (ri_cache (rt_inner s)) ∧ uint 64 (cx_start_time (ri_status_context (rt_inner s))).

Lemma rt_wf_stable : stable rt_wf.
Proof. intros s s' Hp _. injection Hp as Hc _ Hx _ _. unfold rt_wf. by rewrite Hc, Hx. Qed.

Lemma uptime_u64 now start : uint 64 now → uint 64 start → uint 64 (saturating_sub now start / 1000).
Proof.
  unfold uint, saturating_sub. intros [? ?] [? ?]. split; [apply Z.div_pos; lia|].
  apply Z.div_lt_upper_bound; lia.
Qed.

Lemma sound_try {A B : Type} (wf : B → Prop) (m : RT (RuntimeError + A)) (f : A → RT (RuntimeError + B)) :
  op_wf rt_wf (λ _, True) m → (∀ a, op_wf rt_wf wf (f a)) → op_wf rt_wf wf (rt_try m f).
Proof.
  intros Hm Hf. change (rt_spec rt_wf (rt_try m f) (λ r s, result_wf wf r ∧ rt_wf s)).
  apply (spec_try _ _ _ (λ r s, result_wf (λ _, True) r ∧ rt_wf s)); [exact Hm | | done].
  intros a s [_ Hs]. exact (Hf a s Hs).
Qed.

Lemma sound_keeps {A : Type} (wf : A → Prop) (m : RT (RuntimeError + A)) :
  keeps rt_wf m → (∀ s, result_wf wf (m s).1) → op_wf rt_wf wf m.
Proof. intros Hk Hr s Hs. split; [apply Hr | by apply Hk]. Qed.

Lemma sound_bind {A B : Type} (wf : B → Prop) (m : RT A) (f : A → RT (RuntimeError + B)) :
  keeps rt_wf m → (∀ a, op_wf rt_wf wf (f a)) → op_wf rt_wf wf (m ≫= f).
Proof.
  intros Hm Hf. change (rt_spec rt_wf (m ≫= f) (λ r s, result_wf wf r ∧ rt_wf s)).
  eapply (spec_bind _ _ _ (λ _, rt_wf)); [exact Hm | exact Hf].
Qed.

Lemma sound_ret {A : Type} (wf : A → Prop) (r : RuntimeError + A) :
  result_wf wf r → op_wf rt_wf wf (mret (M := RT) r).
Proof. intros Hr s Hs. by split. Qed.

Lemma sound_map_err {E A : Type} (f : E → RuntimeError) (m : RT (E + A)) :
  keeps rt_wf m → (∀ e, ServiceError_wf (as_service_error (f e))) →
  op_wf rt_wf (λ _, True) (map_err f m).
Proof.
  intros Hm Hf. unfold map_err. apply sound_bind; [done|]. intros [e|a]; apply sound_ret; [apply Hf | done].
Qed.

Lemma ensure_running_sound : op_wf rt_wf (λ _, True) ensure_running.
Proof.
  apply sound_keeps; [by apply ensure_running_keeps|].
  intros s. unfold ensure_running, mbind, RT_bind. cbn. by destruct (ri_cancelled _).
Qed.

Lemma handle_api_sound : op_wf rt_wf (λ _, True) handle_api.
Proof.
  apply sound_keeps; [by apply handle_api_keeps|].
  intros s. unfold handle_api, mbind, RT_bind. cbn. by destruct (ri_api _).
Qed.

(** No error of the runtime carries details. *)
Lemma api_response_error_wf op e code : ServiceError_wf (as_service_error (map_api_response_error op e code)).
Proof. by destruct e. Qed.

Lemma http_client_error_wf txt op e : ServiceError_wf (as_service_error (map_http_client_error txt op e)).
Proof. destruct e; unfold map_http_client_error; cbn; by try case_match. Qed.

Lemma not_ready_wf op l : ServiceError_wf (as_service_error (service_not_ready_error op l)).
Proof. by destruct l. Qed.

Lemma provisioning_state_wf l : ServiceError_wf (as_service_error (secret_provisioning_state_error l)).
Proof. by destruct l. Qed.

Lemma provisioning_error_wf src : ServiceError_wf (as_service_error (provisioning_error src)).
Proof. by destruct src. Qed.

Lemma reset_error_wf src : ServiceError_wf (as_service_error (reset_error src)).
Proof. by destruct src. Qed.

Lemma list_error_wf txt e : ServiceError_wf (as_service_error (map_account_tunnel_list_error txt e)).
Proof. destruct e; [done | apply api_response_error_wf | apply http_client_error_wf]. Qed.

Lemma generic_error_wf {F : Type} txt op (e : ApiError F HttpClientError) :
  ServiceError_wf (as_service_error (map_generic_api_error txt op e)).
Proof. destruct e; [done | apply api_response_error_wf | apply http_client_error_wf]. Qed.

Lemma create_error_wf txt e : ServiceError_wf (as_service_error (map_tunnel_create_error txt e)).
Proof. destruct e as [[]| |]; [done.. | apply api_response_error_wf | apply http_client_error_wf]. Qed.

Lemma delete_error_wf txt e : ServiceError_wf (as_service_error (map_tunnel_delete_error txt e)).
Proof. destruct e as [[]| |]; [done | apply api_response_error_wf | apply http_client_error_wf]. Qed.

Lemma config_error_wf txt e : ServiceError_wf (as_service_error (map_tunnel_config_error txt e)).
Proof. destruct e as [[]| |]; [done.. | apply api_response_error_wf | apply http_client_error_wf]. Qed.

Lemma parse_local_address_wf a : result_wf (λ _, True) (parse_local_address a).
Proof. unfold parse_local_address. by case_match. Qed.

Lemma running_agent_id_wf op l : result_wf (λ _, True) (running_agent_id op l).
Proof. destruct l; try apply not_ready_wf. cbn. by case_match. Qed.

Lemma create_with_protocol_wf l p a n q : result_wf (λ _, True) (create_request_with_protocol l p a n q).
Proof.
  unfold create_request_with_protocol. case_decide; [done|].
  pose proof (parse_local_address_wf a). destruct (parse_local_address a); [done|].
  pose proof (running_agent_id_wf "create a tunnel" l). by destruct (running_agent_id _ l).
Qed.

Lemma create_request_wf l p q a n : result_wf (λ _, True) (create_request l p q a n).
Proof. unfold create_request. destruct q; apply create_with_protocol_wf. Qed.

Lemma parse_tunnel_id_wf i : result_wf (λ _, True) (parse_tunnel_id i).
Proof. unfold parse_tunnel_id. by case_match. Qed.

Lemma reassign_request_wf l i p a : result_wf (λ _, True) (reassign_request l i p a).
Proof.
  unfold reassign_request. case_decide; [done|].
  pose proof (parse_local_address_wf a). destruct (parse_local_address a); [done|].
  pose proof (running_agent_id_wf "reassign a tunnel" l). destruct (running_agent_id _ l); [done|].
  pose proof (parse_tunnel_id_wf i). by destruct (parse_tunnel_id i).
Qed.

Lemma account_tunnel_list_wf r : AccountTunnelListResponse_wf (account_tunnel_list r).
Proof.
  apply Forall_fmap, Forall_true. intros t. unfold AccountTunnelState_wf. cbn.
  destruct (_ ≫= _) as [p|] eqn:Hp; [|done]. cbn.
  apply bind_Some in Hp as (f & _ & Hf). by eapply uint_from_str_range.
Qed.
End wf.

Create HintDb sound discriminated.
#[export] Hint Resolve rt_wf_stable : keeps.
#[export] Hint Resolve ensure_running_sound handle_api_sound list_error_wf generic_error_wf create_error_wf
  delete_error_wf config_error_wf create_request_wf create_with_protocol_wf parse_tunnel_id_wf
  reassign_request_wf not_ready_wf provisioning_state_wf provisioning_error_wf reset_error_wf
  account_tunnel_list_wf : sound.

Ltac sound_step :=
  match goal with
  | |- op_wf _ _ (rt_try _ _) => apply sound_try; [|intros ?]
  | |- op_wf _ _ (map_err _ _) => apply sound_map_err; [|intros ?]
  | |- op_wf _ _ (_ ≫= _) => apply sound_bind; [|intros ?]
  | |- op_wf _ _ (mret _) => apply sound_ret; cbn [result_wf]
  | |- op_wf _ _ (match ?x with _ => _ end) => destruct x
  end.

Ltac sound_all := repeat (cbv zeta; sound_step); eauto with sound keeps.

(** ** What the handle's operations return *)

Section returned.
Context {FM : Formats} {JT : JsonText} {T : Transport JT} {HO : Host} {SL : SecretLib}.

Context {HL : HostLaws HO}.

Lemma status_sound r : rt_wf r → ServiceStatus_wf (handle_status r).1 ∧ rt_wf (handle_status r).2.
Proof.
  intros Hr. split; [|by apply handle_status_keeps; [apply rt_wf_stable|]].
  destruct Hr as ((Hs & _ & _) & Hstart). unfold handle_status, mbind, RT_bind. cbn.
  destruct Hs as (Hpid & _ & Hproto & Herr). split_and!; [done | | done | done].
  apply uptime_u64; [apply host_now_u64 | done].
Qed.

Lemma snapshot_sound r :
  rt_wf r →
  SubscribeResponse_wf (handle_subscription_snapshot r).1 ∧ rt_wf (handle_subscription_snapshot r).2.
Proof.
  intros Hr. split; [|by apply handle_snapshot_keeps; [apply rt_wf_stable|]].
  pose proof (status_sound r Hr) as [Hst _]. destruct Hr as ((_ & Hl & Hc) & _).
  unfold handle_subscription_snapshot. unfold mbind at 1, RT_bind. cbn [rt_get].
  unfold mbind, RT_bind. destruct (handle_status r) as [st s'] eqn:Heq. cbn in *.
  split; [split; cbn; done | split_and!; done].
Qed.

Lemma lifecycle_sound r : rt_wf r → AgentLifecycle_wf (handle_lifecycle r).1 ∧ rt_wf (handle_lifecycle r).2.
Proof. intros Hr. split; [apply Hr | done]. Qed.

Lemma list_tunnels_sound : op_wf rt_wf TunnelListResponse_wf handle_list_tunnels.
Proof.
  intros r Hr. split; [|by apply handle_list_tunnels_keeps].
  destruct Hr as ((_ & Hl & _) & _).
  unfold handle_list_tunnels, rt_try, ensure_running, handle_lifecycle, mbind, RT_bind. cbn.
  destruct (ri_cancelled (rt_inner r)); [done|]. cbn.
  destruct (sc_lifecycle (ri_cache (rt_inner r))); try apply not_ready_wf. cbn. apply Hl.
Qed.

Lemma set_secret_ready_sound : op_wf rt_wf (λ _, True) set_secret_ready.
Proof.
  unfold set_secret_ready. sound_all.
  all: repeat match goal with |- result_wf _ (match ?x with _ => _ end) => destruct x end;
    eauto with sound; try done.
  apply provisioning_error_wf.
Qed.

Ltac go := unfold handle_list_account_tunnels, handle_create_tunnel, handle_create_minecraft_java_tunnel,
  create_v1_tunnel, handle_delete_tunnel, handle_reassign_tunnel, handle_account, handle_start_claim,
  track_claim_task, handle_account_login_url, fetch_login_url, handle_claim_url, rt_now; sound_all; try done.

Lemma list_account_tunnels_sound : op_wf rt_wf AccountTunnelListResponse_wf handle_list_account_tunnels.
Proof. go. Qed.
Lemma create_tunnel_sound p q a n : op_wf rt_wf (λ _, True) (handle_create_tunnel p q a n).
Proof. go. Qed.
Lemma create_minecraft_sound p a n : op_wf rt_wf (λ _, True) (handle_create_minecraft_java_tunnel p a n).
Proof. go. Qed.
Lemma delete_tunnel_sound i : op_wf rt_wf (λ _, True) (handle_delete_tunnel i).
Proof. go. Qed.
Lemma reassign_tunnel_sound i p a : op_wf rt_wf (λ _, True) (handle_reassign_tunnel i p a).
Proof. go. Qed.
Lemma account_sound : op_wf rt_wf (λ _, True) handle_account.
Proof. go. Qed.
Lemma start_claim_sound : op_wf rt_wf (λ _, True) handle_start_claim.
Proof. go. Qed.
Lemma account_login_url_sound : op_wf rt_wf (λ _, True) handle_account_login_url.
Proof. go. Qed.

Lemma reset_secret_sound : op_wf rt_wf (λ _, True) handle_reset_secret.
Proof.
  unfold handle_reset_secret. apply sound_try; [apply ensure_running_sound | intros _].
  apply sound_bind; [by apply keeps_get|]. intros i.
  destruct (secret_path _) as [p|]; [|apply sound_ret, reset_error_wf].
  apply sound_try.
  - apply sound_keeps; [eauto with keeps|]. intros s. unfold rt_disk, reset_secret_file, fs_try.
    unfold mbind, FS_bind. destruct (remove_file p (rt_fs s)) as [[e|[]] s']; cbn; [|done].
    by case_decide.
  - intros message. apply sound_bind; [eauto with keeps|]. intros _. by apply sound_ret.
Qed.

End returned.
