(* ===== verification/TunnelTheorems.v ===== *)
(** * Tunnels, from the request to the origin

    A tunnel created or moved through the runtime leads where its user asked;
    failures say truthfully whether to try again; and a runtime that was asked
    to stop does nothing more. *)

From S2P Require Import Prelude Net Json Text OriginLookup Api ApiTunnels ApiAccount HttpClient ApiClient IpcModel Ipc RuntimeError FileSystem SecretStore SecretTheorems RuntimeOptions RuntimeTunnels RuntimeState RuntimeHandle Utils.
From S2P Require Import ControlIo MaintainedControl Supervisor.
From stdpp Require Import pretty.
From Stdlib Require Import Ascii.
#[local] Open Scope Z_scope.

(** ** The way back from the API *)

(** Documented of [IpAddr]'s text: it has no white space around it, the empty
    text is no address, and what is read is an address. *)
Class IpTextLaws (FM : Formats) : Prop := {
  ip_text_trimmed : ∀ ip, str_trim (show ip_text ip) = show ip_text ip;
  ip_text_empty : read ip_text EmptyString = None;
  ip_text_wf : ∀ s ip, read ip_text s = Some ip → IpAddr_wf ip;
}.

Section origin.
Context {FM : Formats} {FL : FormatsLaws FM} {IL : IpTextLaws FM}.

(** The configuration a request asks for. *)
Definition requested_config (r : ReqTunnelsCreateV1) : option AgentTunnelConfig :=
  match ReqTunnelsCreateV1_origin r with
  | AccountTunnelOriginCreate_Agent o => AgentOrigin_config o
  end.

(** The runtime's requests that ask for a configuration. *)
Inductive asks_for (l : AgentLifecycle) (port : Z) (address : option string) : AgentTunnelConfig → Prop :=
  | asks_create protocol name r c :
      create_request l port protocol address name = inr r → requested_config r = Some c →
      asks_for l port address c
  | asks_minecraft name r c :
      create_minecraft_request l port address name = inr r → requested_config r = Some c →
      asks_for l port address c
  | asks_reassign id r c :
      reassign_request l id port address = inr r → ReqTunnelsConfigV1_new_config r = Some c →
      asks_for l port address c.

(** The address a user means, by default the local host. *)
Definition meant_address (local_address : option string) : option IpAddr :=
  read ip_text (str_trim (default "127.0.0.1"%string local_address)).

(** The origin of a tunnel that is configured so. *)
Lemma local_config_origin t ip port :
  IpAddr_wf ip → uint 16 port →
  ApiAgentTunnelV1_agent_config t = local_config ip port →
  ApiAgentTunnelV1_tunnel_type t ≫= TunnelType_from_value ≠ Some Https →
  ∃ o, from_agent_tunnel str_trim (read ip_text) (run_tunnel t) = Some o ∧
    or_target o = TargetPort (IpAddress ip) port ∧ or_port_count o = ApiAgentTunnelV1_port_count t ∧
    or_tunnel_id o = ApiAgentTunnelV1_internal_id t.
Proof.
  intros Hip Hport Hcfg Htype. unfold from_agent_tunnel.
  assert (Hf : tunn_fields (run_tunnel t) = AgentTunnelConfig_fields (local_config ip port)) by (cbn; by rewrite Hcfg).
  assert (Hp : port_field (run_tunnel t) "local_port" = Some port).
  { unfold port_field, find_field. rewrite Hf. cbn. by apply u16_from_str_pretty. }
  assert (Ho : parse_origin_ip str_trim (read ip_text) (run_tunnel t) = IpAddress ip).
  { assert (Hl : find_field (run_tunnel t) "local_ip" =
      Some {| attr_name := "local_ip"; attr_value := show ip_text ip |}) by (unfold find_field; by rewrite Hf).
    unfold parse_origin_ip. rewrite Hl. cbv zeta. cbn [attr_value]. rewrite ip_text_trimmed.
    pose proof (ip_reads_back ip Hip) as Hr. destruct (decide _) as [He|_]; [|by rewrite Hr].
    by rewrite He, ip_text_empty in Hr. }
  unfold tunnel_target. cbn [tunn_tunnel_type run_tunnel]. rewrite Hp, Ho.
  destruct (ApiAgentTunnelV1_tunnel_type t ≫= TunnelType_from_value) as [[]|]; try done; by eexists.
Qed.

Lemma parsed_address a ip : parse_local_address a = inr ip → meant_address a = Some ip.
Proof. unfold parse_local_address, meant_address. intros Ha. destruct (read ip_text _); by simplify_eq. Qed.

Lemma create_asks l port address name protocol r c :
  create_request_with_protocol l port address name protocol = inr r → requested_config r = Some c →
  port ≠ 0 ∧ ∃ ip, meant_address address = Some ip ∧ c = local_config ip port.
Proof.
  unfold create_request_with_protocol. case_decide; [done|].
  destruct (parse_local_address address) as [|ip] eqn:Ha; [done|].
  destruct (running_agent_id _ l); [done|]. intros [= <-] [= <-].
  split; [done|]. exists ip. split; [by apply parsed_address | done].
Qed.

Lemma asked_config l port address c :
  asks_for l port address c → port ≠ 0 ∧ ∃ ip, meant_address address = Some ip ∧ c = local_config ip port.
Proof.
  destruct 1 as [protocol name r c Hr Hc|name r c Hr Hc|id r c Hr Hc].
  - unfold create_request in Hr. destruct protocol; by eapply create_asks.
  - by eapply create_asks.
  - revert Hr. unfold reassign_request. case_decide; [done|].
    destruct (parse_local_address address) as [|ip] eqn:Ha; [done|].
    destruct (running_agent_id _ l); [done|]. destruct (parse_tunnel_id id); [done|].
    intros [= <-]. injection Hc as <-. split; [done|]. exists ip. split; [by apply parsed_address | done].
Qed.

Lemma local_origin_shown t ip port :
  IpAddr_wf ip → uint 16 port →
  ApiAgentTunnelV1_agent_config t = local_config ip port →
  ApiAgentTunnelV1_tunnel_type t ≫= TunnelType_from_value ≠ Some Https →
  ∃ st, tunnel_state t = Some st ∧ ts_local_address st = Some (show ip_text ip) ∧ ts_local_port st = Some port.
Proof.
  intros Hip Hport Hcfg Htype. destruct (local_config_origin t ip port) as (o & Ho & Ht & _); [done..|].
  unfold tunnel_state. rewrite Ho. eexists. split; [done|]. cbn. by rewrite Ht.
Qed.

(** C32: A tunnel leads where its user asked. When the runtime accepted to
    create a tunnel, or to move one, to a local port and address, the port is
    not zero and the address is an IP address, by default the local host; and
    a tunnel the API then reports with that configuration, if it is not an
    HTTPS one, is given that address and port as its origin: its first port is
    forwarded there, and the state shown to users names both. *)
Theorem tunnel_origin_round_trip (l : AgentLifecycle) (port : Z) (address : option string)
    (c : AgentTunnelConfig) (t : ApiAgentTunnelV1)
    (lookup_host : string → Z → option (list SocketAddr)) :
  uint 16 port → asks_for l port address c → ApiAgentTunnelV1_agent_config t = c →
  ApiAgentTunnelV1_tunnel_type t ≫= TunnelType_from_value ≠ Some Https →
  port ≠ 0 ∧ ∃ ip o st, meant_address address = Some ip ∧
    from_agent_tunnel str_trim (read ip_text) (run_tunnel t) = Some o ∧
    or_target o = TargetPort (IpAddress ip) port ∧
    (0 < ApiAgentTunnelV1_port_count t → resolve_local lookup_host o 0 = Some (SocketAddr_new ip port)) ∧
    tunnel_state t = Some st ∧ ts_local_address st = Some (show ip_text ip) ∧ ts_local_port st = Some port.
Proof.
  intros Hport Hasks Hcfg Htype. destruct (asked_config _ _ _ _ Hasks) as (Hnz & ip & Hip & ->).
  assert (IpAddr_wf ip) as Hwf by (by eapply ip_text_wf).
  destruct (local_config_origin t ip port) as (o & Ho & Ht & Hc & _); [done..|].
  destruct (local_origin_shown t ip port) as (st & Hst & Ha & Hp); [done..|].
  split; [done|]. exists ip, o, st. split_and!; try done. intros Hcount. unfold resolve_local. rewrite Ht, Hc.
  rewrite !decide_False by lia. unfold checked_add. rewrite decide_True by (unfold uint in *; lia).
  cbn. by rewrite Z.add_0_r.
Qed.
End origin.

(** ** Failures *)

(** The API's servers failed, or were not reached. *)
Definition transient_failure {F : Type} (e : ApiClient.ApiError F HttpClientError) : bool :=
  match e with
  | ErrApi (ApiResponseError_Internal _) => true
  | ErrClient e => is_transient e
  | _ => false
  end.

Lemma api_response_retryable op e code :
  se_retryable (as_service_error (map_api_response_error op e code)) =
    match e with ApiResponseError_Internal _ => true | _ => false end.
Proof. by destruct e. Qed.

Lemma http_client_retryable txt op e :
  se_retryable (as_service_error (map_http_client_error txt op e)) = is_transient e.
Proof.
  destruct e; [done | done | | done]. unfold map_http_client_error. cbv zeta. by destruct (is_transient _).
Qed.

(** Failures say truthfully whether to try again. Whatever call to the
    API failed behind a tunnel operation, and however, the service error that
    is reported is marked retryable exactly when the failure is transient: the
    API reported an internal error, limits the rate, answered with a server
    error, or was not reached. *)
Theorem tunnel_errors_retryable (txt : Z → string) :
  (∀ e, se_retryable (as_service_error (map_tunnel_create_error txt e)) = transient_failure e) ∧
  (∀ e, se_retryable (as_service_error (map_tunnel_delete_error txt e)) = transient_failure e) ∧
  (∀ e, se_retryable (as_service_error (map_tunnel_config_error txt e)) = transient_failure e) ∧
  (∀ F op (e : ApiClient.ApiError F HttpClientError),
    se_retryable (as_service_error (map_generic_api_error txt op e)) = transient_failure e) ∧
  (∀ e, se_retryable (as_service_error (map_account_tunnel_list_error txt e)) =
    match e with
    | NoFailUnexpectedFail => false
    | NoFailApi e => transient_failure (F := ()) (ErrApi e)
    | NoFailClient e => is_transient e
    end).
Proof.
  split_and!; intros; destruct e; cbn [map_tunnel_create_error map_tunnel_delete_error map_tunnel_config_error
    map_generic_api_error map_account_tunnel_list_error transient_failure];
    rewrite ?api_response_retryable, ?http_client_retryable; try done;
    match goal with f : _ |- _ => by destruct f end.
Qed.

(** ** After a shutdown *)

Section stopped.
Context {FM : Formats} {JT : JsonText} {T : Transport JT} {HO : Host} {SL : SecretLib}.

(** The operation is refused, and touches nothing. *)
Definition refused {A : Type} (m : RT (RuntimeError + A)) (s : rt) : Prop := m s = (inl RuntimeStopped, s).

Lemma guarded {A : Type} (m : () → RT (RuntimeError + A)) s :
  ri_cancelled (rt_inner s) = true → refused (rt_try ensure_running m) s.
Proof. intros Hc. unfold refused, rt_try, ensure_running, mbind, RT_bind. cbn. by rewrite Hc. Qed.

Lemma refused_try {A B : Type} (m : RT (RuntimeError + A)) (k : A → RT (RuntimeError + B)) s :
  refused m s → refused (rt_try m k) s.
Proof. intros Hm. unfold refused, rt_try, mbind, RT_bind in *. by rewrite Hm. Qed.

(** A runtime that was asked to stop does nothing more for its callers.
    Every operation of its handle, reading the cached state apart, is refused
    as stopped, and neither sends a request to the API nor touches the disk or
    the shared state. *)
Theorem stopped_handle_inert (s : rt) :
  ri_cancelled (rt_inner s) = true →
  refused handle_account s ∧ refused handle_account_login_url s ∧ refused handle_start_claim s ∧
  refused handle_list_tunnels s ∧ refused handle_list_account_tunnels s ∧
  (∀ port protocol address name, refused (handle_create_tunnel port protocol address name) s) ∧
  (∀ port address name, refused (handle_create_minecraft_java_tunnel port address name) s) ∧
  (∀ id, refused (handle_delete_tunnel id) s) ∧
  (∀ id port address, refused (handle_reassign_tunnel id port address) s) ∧
  refused set_secret_ready s ∧ refused handle_reset_secret s.
Proof.
  intros Hc. split_and!; intros; by apply guarded.
Qed.
End stopped.

(** ** Runs *)

(** Addresses as text that starts with a letter, read when they are addresses. *)
Definition strict_ip : text_format IpAddr := {|
  show ip := String "a"%char (show (ip_text (Formats := plain_formats)) ip);
  read s :=
    match s with
    | String "a"%char s =>
        ip ← read (ip_text (Formats := plain_formats)) s;
        if decide (IpAddr_wf ip) then Some ip else None
    | _ => None
    end;
|}.

Definition strict_formats : Formats := {|
  uuid_text := uuid_text; datetime_text := datetime_text; ip_text := strict_ip;
  ipv4_text := ipv4_text; ipv6_text := ipv6_text; sock_text := sock_text;
  sock4_text := sock4_text; sock6_text := sock6_text;
|}.

Lemma strict_formats_laws : FormatsLaws strict_formats.
Proof.
  destruct plain_formats_laws as [H1 H2 H3 H4 H5 H6 H7 H8]. split; try done.
  intros ip Hip. cbn [strict_formats ip_text strict_ip show read].
  rewrite H3 by done. cbn. by rewrite decide_True.
Qed.

Lemma bits_text_hex p : all_hex (bits_text p) = true.
Proof. unfold all_hex. induction p as [p IH|p IH|]; cbn [bits_text String.list_ascii_of_string]; done. Qed.

Lemma strict_ip_laws : IpTextLaws strict_formats.
Proof.
  split; [| done |].
  - intros ip. apply str_trim_hex. exact (bits_text_hex (encode (SocketAddr_new ip 0))).
  - intros s ip. cbn [strict_formats ip_text strict_ip read].
    destruct s as [|[[] [] [] [] [] [] [] []] s]; try done.
    destruct (read _ s) as [ip'|]; [|done]. cbn. case_decide; [by intros [= ->] | done].
Qed.

(** An agent that runs, a request of its user, and the tunnel the API made. *)
Definition running_seven : AgentLifecycle :=
  Running {| as_version := "1.0.10"; as_tunnels := []; as_pending_tunnels := []; as_notices := [];
             as_account_status := Verified; as_agent_id := show (uuid_text (Formats := strict_formats)) 7;
             as_login_link := None; as_start_time := 0 |}.

Definition home : string := show strict_ip (IpV4 0xC0A80005).

Definition game_tunnel : ApiAgentTunnelV1 := {|
  ApiAgentTunnelV1_id := 1; ApiAgentTunnelV1_internal_id := 5; ApiAgentTunnelV1_name := "game";
  ApiAgentTunnelV1_display_address := "game.playit.gg:4000"; ApiAgentTunnelV1_port_type := PortTypeTcp;
  ApiAgentTunnelV1_port_count := 1; ApiAgentTunnelV1_tunnel_type := None;
  ApiAgentTunnelV1_tunnel_type_display := "TCP";
  ApiAgentTunnelV1_agent_config := local_config (FM := strict_formats) (IpV4 0xC0A80005) 25565;
  ApiAgentTunnelV1_disabled_reason := None;
|}.

Lemma tunnel_origin_round_trip_witness :
  ∃ o, from_agent_tunnel str_trim (read strict_ip) (run_tunnel game_tunnel) = Some o ∧
    or_target o = TargetPort (IpAddress (IpV4 0xC0A80005)) 25565 ∧
    resolve_local (λ _ _, None) o 0 = Some (SocketAddr_new (IpV4 0xC0A80005) 25565).
Proof.
  destruct (tunnel_origin_round_trip (FL := strict_formats_laws) (IL := strict_ip_laws)
    running_seven 25565 (Some home) (ApiAgentTunnelV1_agent_config game_tunnel) game_tunnel (λ _ _, None)) as (_ & ip & o & st & Hip & Ho & Ht & Hr & _).
  - by split.
  - eapply (asks_create _ _ _ ProtocolTcp None); vm_compute; reflexivity.
  - reflexivity.
  - done.
  - assert (ip = IpV4 0xC0A80005) as -> by (vm_compute in Hip; by injection Hip as <-).
    exists o. split; [exact Ho|]. split; [exact Ht|]. apply Hr. done.
Defined.
