(* ===== verification/SupervisorTheorems.v ===== *)
(** * The supervisor and what it shows

    What holds in every state the runtime reaches, whatever the network, the
    disk and other tasks do: the published state is that of the machine, and
    its values are representable. *)

From S2P Require Import Prelude Net Json Text OriginLookup Api ApiTunnels ApiAccount HttpClient ApiClient IpcModel Ipc RuntimeError FileSystem SecretStore SecretTheorems RuntimeOptions RuntimeTunnels RuntimeState RuntimeHandle IpcServer RuntimeTheory TunnelTheorems Utils.
From S2P Require Import ControlIo MaintainedControl Supervisor.
#[local] Open Scope Z_scope.

(** ** Retries *)

(** The delay before an attempt exists for every attempt (the table is never
    indexed out of its bounds), is between one second and half a minute, and
    never decreases. *)
Lemma retry_delay_bounds a b :
  0 ≤ a ≤ b → ∃ d e, retry_delay a = Some d ∧ retry_delay b = Some e ∧ 1 ≤ d ≤ e ∧ e ≤ 30.
Proof.
  intros [Ha Hab]. unfold retry_delay. cbn [length TRANSIENT_RETRY_DELAYS].
  set (x := Z.min a _). set (y := Z.min b _). assert (0 ≤ x ≤ y ∧ y ≤ 5) as [[Hx Hxy] Hy] by lia. clearbody x y.
  assert (x = 0 ∨ x = 1 ∨ x = 2 ∨ x = 3 ∨ x = 4 ∨ x = 5) as Hxs by lia.
  assert (y = 0 ∨ y = 1 ∨ y = 2 ∨ y = 3 ∨ y = 4 ∨ y = 5) as Hys by lia.
  naive_solver (cbn; lia).
Qed.

(** ** Steps keep what their computations keep *)

Section steps.
Context {FM : Formats} {JT : JsonText} {T : Transport JT} {HO : Host} {SL : SecretLib}.
Context (json_of_string : string → option value).
Context (display_api_error : ApiResponseError → string) (display_setup_error : SetupError → string).
#[local] Notation sup_step := (sup_step json_of_string display_api_error display_setup_error).
#[local] Notation step := (step json_of_string display_api_error display_setup_error).
#[local] Notation build_agent := (build_agent json_of_string display_api_error display_setup_error).

Lemma at_pc_keeps (I : rt → Prop) s m s' :
  keeps I m → at_pc s m = Some s' → I (su_rt s) → I (su_rt s').
Proof.
  intros Hm. unfold at_pc. destruct (m (su_rt s)) as [p r] eqn:Hr. intros [= <-] Hs.
  specialize (Hm _ Hs). by rewrite Hr in Hm.
Qed.

Lemma run_op_keeps (I : rt → Prop) o : stable I → keeps I (run_op o).
Proof. intros HI. destruct o; unfold run_op; keeps_all. Qed.

(** A claim task leaves alone what is published. *)
Lemma claim_move_keeps (I : rt → Prop) e tk s m : stable I → claim_move e tk s = Some m → keeps I m.
Proof.
  intros HI. unfold claim_move. destruct (ct_pc tk), e; try done; try case_match; intros [= <-];
    unfold abandon, ask_setup, ask_exchange; repeat case_match; keeps_all.
Qed.

Lemma claim_step_keeps (I : rt → Prop) n e s r : stable I → claim_step n e s = Some r → I s → I r.
Proof.
  intros HI Hc. unfold claim_step in Hc. apply bind_Some in Hc as (tk & _ & Hc).
  apply bind_Some in Hc as (m & Hm & [= <-]). revert s Hm. intros s Hm.
  assert (keeps I (p ← m; settle (ct_code tk) p;; move_task n p)) as Hk; [|exact (Hk s)].
  apply keeps_bind; [by eapply claim_move_keeps|]. intros p. unfold settle, release_code, move_task.
  apply keeps_bind; [|intros _; by apply (keeps_claim I HI)].
  destruct p; eauto with keeps.
Qed.

Lemma claim_send_keeps (I : rt → Prop) n s secret r : stable I → claim_send n s = Some (secret, r) → I s → I r.
Proof.
  intros HI Hc. unfold claim_send in Hc. apply bind_Some in Hc as (tk & _ & Hc).
  destruct (ct_pc tk); try done. injection Hc as _ <-. unfold move_task. by apply (keeps_claim I HI).
Qed.

(** The claim tasks are joined when they have ended. *)
Definition all_claims_finished (s : rt) : Prop := forallb ct_finished (ri_claim_tasks (rt_inner s)) = true.

Lemma keeps_joined (I : rt → Prop) r :
  keeps I (claims_joined r) → rt_spec (λ s, all_claims_finished s ∧ I s) (claims_joined r) (λ _, I).
Proof. intros Hk s [_ Hs]. by apply Hk. Qed.

(** The supervisor's computations keep [I]. *)
Definition sup_keeps (I : rt → Prop) : Prop :=
  keeps I run_supervisor ∧ (∀ a secret, keeps I (on_provision_request a secret)) ∧
  (∀ b, keeps I (stop b)) ∧ (∀ secret a, keeps I (loop_head secret a)) ∧
  (∀ secret a api, keeps I (load_run_data secret a api)) ∧
  (∀ secret a api built, keeps I (build_agent secret a api built)) ∧
  (∀ secret a tasks ad cd r, keeps I (on_agent_ended secret a tasks ad cd r)) ∧
  (∀ tasks ad cd, keeps I (stop_agent tasks ad cd)) ∧ keeps I stop_joined ∧
  (∀ r, rt_spec (λ s, all_claims_finished s ∧ I s) (claims_joined r) (λ _, I)) ∧
  (∀ stats, event_wf (EvStatsTick stats) → keeps I (stats_tick stats)) ∧ (∀ api ps, keeps I (account_tick api ps)) ∧
  (∀ st last, keeps I (control_tick st last)).

Lemma sup_step_keeps (I : rt → Prop) e s s' :
  sup_keeps I → event_wf e → sup_step e s = Some s' → I (su_rt s) → I (su_rt s').
Proof.
  intros (Hrun & Hprov & Hstop & Hhead & Hdata & Hbuild & Hend & Hsa & Hj & Hcj & Hst & Hac & Hct) Hwf He HIs.
  unfold Supervisor.sup_step in He.
  destruct (su_pc s) as [|a|secret a|secret a api|secret a api|secret a tasks|tasks ad cd|secret a|secret a|res|res], e;
    try done; repeat case_match; try done;
    try (eapply at_pc_keeps; [|exact He|done]; keeps_all; fail).
  - injection He as <-. cbn [su_rt].
    match goal with Hr : on_provision_request ?a ?x _ = _ |- _ =>
      pose proof (Hprov a x (su_rt s) HIs) as Hp; by rewrite Hr in Hp end.
  - injection He as <-. by apply (Hcj res (su_rt s)).
Qed.

(** What they keep, every step keeps. *)
Lemma step_keeps (I : rt → Prop) s s' :
  stable I → sup_keeps I → step s s' → I (su_rt s) → I (su_rt s').
Proof.
  intros HI Hk Hs HIs.
  destruct Hs as [e s s' Hwf He|o s|secret s Hr| | |n e r s Hc|n x r s Hc _];
    [by eapply sup_step_keeps | by apply run_op_keeps | by apply set_secret_ready_keeps | done | done
     | by eapply claim_step_keeps | by eapply claim_send_keeps].
Qed.
End steps.

(** ** Values in range *)

Section ranges.
Context {FM : Formats} {JT : JsonText} {T : Transport JT} {HO : Host} {HL : HostLaws HO} {SL : SecretLib}.
Context (json_of_string : string → option value).
Context (display_api_error : ApiResponseError → string) (display_setup_error : SetupError → string).

Lemma publish_state_wf st l :
  ServiceStatus_wf st → AgentLifecycle_wf l → keeps rt_wf (publish_state st l).
Proof. intros Hst Hl s ((_ & _ & Hc) & Hx). by split_and!. Qed.

Lemma publish_status_wf st : ServiceStatus_wf st → keeps rt_wf (publish_status st).
Proof. intros Hst s ((_ & Hl & Hc) & Hx). by split_and!. Qed.

Lemma inner_status_wf ph b e :
  from_option ServiceError_wf True e →
  rt_spec rt_wf (inner_status ph b e) (λ st s, ServiceStatus_wf st ∧ rt_wf s).
Proof.
  intros He s Hs. split; [|by apply (rt_wf_stable s)]. split_and!; cbn;
    [apply host_pid_u32 | apply uptime_u64; [apply host_now_u64 | apply Hs] | by split | done].
Qed.

(** Announce a phase, then go on. *)
Lemma announce_wf {A : Type} ph b e l (k : RT A) :
  from_option ServiceError_wf True e → AgentLifecycle_wf l → keeps rt_wf k →
  keeps rt_wf (st ← inner_status ph b e; publish_state st l;; k).
Proof.
  intros He Hl Hk. eapply spec_bind; [by apply inner_status_wf|]. intros st s [Hst Hs].
  exact (keeps_bind rt_wf _ (λ _, k) (publish_state_wf st l Hst Hl) (λ _, Hk) s Hs).
Qed.

Lemma announce_wf_end ph b e l :
  from_option ServiceError_wf True e → AgentLifecycle_wf l →
  keeps rt_wf (st ← inner_status ph b e; publish_state st l).
Proof.
  intros He Hl. eapply spec_bind; [by apply inner_status_wf|]. intros st s [Hst Hs].
  by apply publish_state_wf.
Qed.

Lemma publish_starting_wf b : keeps rt_wf (publish_starting b).
Proof. by apply announce_wf_end. Qed.

Lemma publish_stopping_wf b : keeps rt_wf (publish_stopping b).
Proof. by apply announce_wf_end. Qed.

Lemma publish_reconnecting_wf b e : from_option ServiceError_wf True e → keeps rt_wf (publish_reconnecting b e).
Proof. intros He. by apply announce_wf_end. Qed.

Lemma wait_for_secret_wf a e : from_option ServiceError_wf True e → keeps rt_wf (wait_for_secret a e).
Proof.
  intros He. unfold wait_for_secret, finish, join_claim_tasks. keeps_step; [eauto with keeps|].
  destruct (secret_path _); [|keeps_all]. destruct (ri_provisioning _); [|keeps_all].
  apply announce_wf; [done | done | keeps_all].
Qed.

#[local] Hint Resolve publish_starting_wf publish_stopping_wf wait_for_secret_wf : keeps.
#[local] Hint Extern 1 (keeps rt_wf (publish_reconnecting _ _)) => by apply publish_reconnecting_wf : keeps.
#[local] Hint Extern 1 (keeps rt_wf (wait_for_secret _ _)) => by apply wait_for_secret_wf : keeps.

Ltac announce := match goal with
  | |- keeps rt_wf (inner_status _ _ _ ≫= _) => apply announce_wf; [done | done |]
  end.

Ltac go := unfold on_agent_ended, loop_head, load_run_data, build_agent, on_provision_request, run_supervisor, stop, stop_joined, claims_joined,
  stop_agent, finish, join_claim_tasks, set_agent_cancel;
  repeat (cbv zeta; first [announce | keeps_step]); eauto with keeps.

Lemma stop_wf b : keeps rt_wf (stop b).
Proof. go. Qed.

Lemma run_supervisor_wf : keeps rt_wf run_supervisor.
Proof. go. Qed.

Lemma on_provision_request_wf a secret : keeps rt_wf (on_provision_request a secret).
Proof. go. Qed.

Lemma loop_head_wf secret a : keeps rt_wf (loop_head secret a).
Proof. go. Qed.

Lemma load_run_data_wf secret a api : keeps rt_wf (load_run_data secret a api).
Proof. go. Qed.

Lemma build_agent_wf secret a api built :
  keeps rt_wf (build_agent json_of_string display_api_error display_setup_error secret a api built).
Proof. go. Qed.

Lemma on_agent_ended_wf secret a tasks ad cd r : keeps rt_wf (on_agent_ended secret a tasks ad cd r).
Proof. go. Qed.

Lemma stop_agent_wf tasks ad cd : keeps rt_wf (stop_agent tasks ad cd).
Proof. go. Qed.

Lemma stop_joined_wf : keeps rt_wf stop_joined.
Proof. go. Qed.

Lemma claims_joined_wf r : keeps rt_wf (claims_joined r).
Proof. go. Qed.

Lemma control_tick_wf st last : keeps rt_wf (control_tick st last).
Proof.
  unfold control_tick. case_decide; [apply keeps_ret|]. keeps_step; [eauto with keeps|]. cbv zeta.
  eapply spec_bind; [by apply inner_status_wf|]. intros status s [Hst Hs].
  exact (keeps_bind rt_wf _ _ (publish_status_wf status Hst) (λ _, keeps_ret _ _) s Hs).
Qed.

Lemma stats_tick_wf stats : event_wf (EvStatsTick stats) → keeps rt_wf (stats_tick stats).
Proof. intros Hst s ((Hs & Hl & _) & Hx). by split_and!. Qed.

(** The port counts the API reports were read as 16-bit integers. *)
Lemma tunnel_port_count v t : from_value v = Some t → uint 16 (ApiAgentTunnelV1_port_count t).
Proof.
  intros Hv. cbn [from_value ApiAgentTunnelV1_serde] in Hv.
  repeat match type of Hv with (_ ≫= _) = Some _ =>
    let y := fresh "y" in let Hy := fresh "Hy" in apply bind_Some in Hv as (y & Hy & Hv) end.
  injection Hv as <-. cbn [ApiAgentTunnelV1_port_count].
  match goal with Hf : field (Serde_uint 16) _ _ = Some ?n |- uint 16 ?n => unfold field in Hf;
    apply bind_Some in Hf as (o & _ & Hf); apply bind_Some in Hf as (w & _ & Hf); cbn in Hf end.
  repeat case_match; by simplify_eq.
Qed.

Lemma rundata_ports v (data : AgentRunDataV1) :
  from_value v = Some data →
  Forall (λ t, uint 16 (ApiAgentTunnelV1_port_count t)) (AgentRunDataV1_tunnels data).
Proof.
  intros Hv. cbn [from_value AgentRunDataV1_serde] in Hv.
  repeat match type of Hv with (_ ≫= _) = Some _ =>
    let y := fresh "y" in let Hy := fresh "Hy" in apply bind_Some in Hv as (y & Hy & Hv) end.
  injection Hv as <-. cbn [AgentRunDataV1_tunnels].
  match goal with Hf : field (@Serde_list _ ApiAgentTunnelV1_serde) _ _ = Some ?l |- Forall _ ?l =>
    unfold field in Hf; apply bind_Some in Hf as (o & _ & Hf); apply bind_Some in Hf as (w & _ & Hf);
    rename Hf into Hlist end.
  destruct w as [| | | |elems|]; try done. cbn [from_value Serde_list] in Hlist.
  apply mapM_Some in Hlist. eapply Forall2_Forall_r; [exact Hlist|].
  apply Forall_forall. intros v' _ t. apply tunnel_port_count.
Qed.

Lemma agent_state_wf cx data link :
  uint 64 (cx_start_time cx) →
  Forall (λ t, uint 16 (ApiAgentTunnelV1_port_count t)) (AgentRunDataV1_tunnels data) →
  AgentState_wf (agent_state cx data link).
Proof.
  intros Hstart Hports. split; [|done]. cbn [agent_state as_tunnels].
  apply Forall_forall. intros ts (t & Ht & Hts)%list_elem_of_omap.
  rewrite Forall_forall in Hports. unfold tunnel_state in Hts.
  apply bind_Some in Hts as (o & Ho & [= <-]). split; [by apply Hports|]. cbn.
  unfold from_agent_tunnel in Ho. apply bind_Some in Ho as (tg & Htg & [= <-]). cbn.
  apply tunnel_target_wf in Htg. by destruct tg.
Qed.

Lemma guest_link_keeps (I : rt → Prop) api : stable I → keeps I (get_cached_guest_login_link api).
Proof. intros HI. unfold get_cached_guest_login_link, rt_now. keeps_all. Qed.

Lemma account_tick_wf api ps : keeps rt_wf (account_tick api ps).
Proof.
  unfold account_tick.
  eapply (spec_bind _ _ _ (λ r s, rt_wf s ∧ ∀ data, r = inr data →
    Forall (λ t, uint 16 (ApiAgentTunnelV1_port_count t)) (AgentRunDataV1_tunnels data))).
  { intros s Hs. split; [exact (invoke_no_fail_keeps rt_wf rt_wf_stable _ _ _ s Hs)|].
    intros data. unfold rt_invoke_no_fail, rt_http.
    destruct (invoke_no_fail _ _ _ _) as [[[e|x]|] t] eqn:Hi; cbn; [done | | done].
    intros [= ->]. apply invoke_no_fail_read in Hi as [v Hv]. by eapply rundata_ports. }
  intros [e|data] s [Hs Hp]; [exact Hs|]. specialize (Hp data eq_refl). revert s Hs.
  change (keeps rt_wf (rt_update_lookup (λ l, update_from_run_data str_trim (read ip_text) l
                               (run_tunnel <$> AgentRunDataV1_tunnels data));;
      login_link ← match AgentPermissions_account_status (AgentRunDataV1_permissions data) with
                   | ApiAccountStatus_Guest => get_cached_guest_login_link api
                   | _ => mret None
                   end;
      i ← rt_get;
      let state := agent_state (ri_status_context i) data login_link in
      let l := Running state in
      rt_modify (λ i, ri_send (UpdateLifecycle l) (ri_set_cache (set_lifecycle l) i));;
      mret {| ps_last_running_summary := Some (RunningSummary_from_state state);
              ps_api_available := true |})).
  apply keeps_bind; [eauto with keeps|]. intros _.
  apply keeps_bind; [destruct (AgentPermissions_account_status _); eauto using guest_link_keeps with keeps|].
  intros link s ((Hst & Hl & Hc) & Hx). unfold mbind, RT_bind. cbn.
  split; [split; [exact Hst | split; [|exact Hc]] | exact Hx]. by apply agent_state_wf.
Qed.

(** Every step keeps it. *)
Lemma steps_wf s s' :
  rtc (step json_of_string display_api_error display_setup_error) s s' → rt_wf (su_rt s) → rt_wf (su_rt s').
Proof.
  induction 1 as [|s1 s2 s3 Hstep _ IH]; [done|]. intros Hwf. apply IH.
  eapply (step_keeps json_of_string display_api_error display_setup_error rt_wf);
    [apply rt_wf_stable | | exact Hstep | exact Hwf].
  unfold sup_keeps. split_and!; eauto using keeps_joined, run_supervisor_wf, on_provision_request_wf, stop_wf,
      loop_head_wf, load_run_data_wf, build_agent_wf, on_agent_ended_wf, stop_agent_wf, stop_joined_wf,
      claims_joined_wf, stats_tick_wf, account_tick_wf, control_tick_wf.
Qed.

(** What holds at the start holds in every state that is reached. *)
Lemma reachable_wf (uuid_error : string → string) (current_platform : Platform)
    (options : RuntimeOptions) (tr : traffic JT) (disk : fs) (asked : nat) (s s' : sup) :
  start_runtime uuid_error current_platform options tr disk asked = inr s →
  rtc (step json_of_string display_api_error display_setup_error) s s' → rt_wf (su_rt s').
Proof.
  intros Hstart Hrun. eapply steps_wf; [exact Hrun|]. clear Hrun.
  unfold start_runtime in Hstart. destruct (validate_options options) as [|[]]; [done|].
  cbv zeta in Hstart. destruct (match ro_secret options with Some _ => _ | None => _ end); [done|].
  unfold make_inner in Hstart. destruct (agent_version _ _); [done|].
  destruct (publish_starting false _) as [u r] eqn:Hp. injection Hstart as <-. cbn [su_rt].
  pose proof (publish_starting_wf false) as Hk. unfold keeps, rt_spec in Hk.
  match type of Hp with publish_starting false ?s0 = _ => specialize (Hk s0) end.
  rewrite Hp in Hk. apply Hk. split; [|apply host_now_u64]. repeat split; cbn; lia.
Qed.

(** A caller's way to its answer is made of steps. *)
Lemma provisioned_steps secret s answer s' :
  provisioned json_of_string display_api_error display_setup_error secret s answer s' →
  rtc (step json_of_string display_api_error display_setup_error) s s'.
Proof.
  intros [s1 a queue p ack r s2 H1 Hpc Hq Hr H2|s2 H1 _]; [|done].
  etrans; [exact H1|]. eapply rtc_l; [|exact H2]. apply (step_sup _ _ _ EvRequest); [done|].
  unfold sup_step. by rewrite Hpc, Hq, Hr.
Qed.
End ranges.

(** ** The published state is the machine's *)

(** What is shown in each state of the machine. *)
Definition coherent {JT : JsonText} (p : pc) (s : rt) : Prop :=
  let i := rt_inner s in
  let l := sc_lifecycle (ri_cache i) in
  let phase := ss_phase (sc_status (ri_cache i)) in
  let has_secret := ss_has_secret (sc_status (ri_cache i)) in
  ri_provisioning i = allows_provisioning (ri_secret_source i) ∧
  match p with
  | PcStart => l = Starting
  | PcWait a =>
      l = WaitingForSecret ∧ phase = PhaseWaitingForSecret ∧ has_secret = false ∧
      ri_provisioning i = true ∧ uint 32 a
  | PcBuild _ a | PcData _ a _ => (l = Starting ∨ ∃ e, l = DisabledOverLimit e) ∧ has_secret = true ∧ uint 32 a
  | PcSetup _ a _ => l = Starting ∧ phase = PhaseStarting ∧ has_secret = true ∧ uint 32 a
  | PcRun _ a _ =>
      (l = Starting ∨ ∃ st, l = Running st) ∧ (phase = PhaseRunning ∨ phase = PhaseReconnecting) ∧
      has_secret = true ∧ uint 32 a
  | PcStop _ account_due control_due =>
      (l = Stopping ∨ account_due = false ∧ ∃ st, l = Running st) ∧
      (phase = PhaseStopping ∨ control_due = false) ∧ ri_cancelled i = true
  | PcRetry _ a => l = Starting ∧ phase = PhaseReconnecting ∧ has_secret = true ∧ uint 32 a
  | PcLimit _ a => (∃ e, l = DisabledOverLimit e) ∧ phase = PhaseDisabledOverLimit ∧ has_secret = true ∧ uint 32 a
  | PcJoin _ | PcDone _ => l ≠ WaitingForSecret ∧ ri_cancelled i = true
  end.

Section coherence.
Context {FM : Formats} {JT : JsonText} {T : Transport JT} {HO : Host} {SL : SecretLib}.
Context (json_of_string : string → option value).
Context (display_api_error : ApiResponseError → string) (display_setup_error : SetupError → string).
#[local] Notation sup_step := (sup_step json_of_string display_api_error display_setup_error).
#[local] Notation step := (step json_of_string display_api_error display_setup_error).
#[local] Notation build_agent := (build_agent json_of_string display_api_error display_setup_error).

Lemma coherent_stable p : stable (coherent p).
Proof.
  intros s s' Hp Hc. injection Hp as H1 _ _ H4 H5. unfold coherent. rewrite H1, H4, H5.
  destruct p; naive_solver.
Qed.

(** The channel is that of the source; a shutdown was requested, if [c]. *)
Definition based (c : bool) (s : rt) : Prop :=
  ri_provisioning (rt_inner s) = allows_provisioning (ri_secret_source (rt_inner s)) ∧
  (c = true → ri_cancelled (rt_inner s) = true).

(** What was last announced. *)
Definition shows (ph : ServicePhase) (b : bool) (l : AgentLifecycle) (s : rt) : Prop :=
  sc_lifecycle (ri_cache (rt_inner s)) = l ∧ ss_phase (sc_status (ri_cache (rt_inner s))) = ph ∧
  ss_has_secret (sc_status (ri_cache (rt_inner s))) = b.

(** The lifecycle is not the one that lets callers send a secret. *)
Definition not_waiting (s : rt) : Prop :=
  based false s ∧ sc_lifecycle (ri_cache (rt_inner s)) ≠ WaitingForSecret.

Lemma based_stable c : stable (based c).
Proof. intros s s' Hp Hc. injection Hp as H1 _ _ H4 H5. unfold based. rewrite H4, H5. naive_solver. Qed.

Lemma shows_stable c ph b l : stable (λ s, based c s ∧ shows ph b l s).
Proof.
  intros s s' Hp Hc. injection Hp as H1 _ _ H4 H5. unfold based, shows. rewrite H1, H4, H5. naive_solver.
Qed.

Lemma not_waiting_stable : stable not_waiting.
Proof. intros s s' Hp Hc. injection Hp as H1 _ _ H4 H5. unfold not_waiting, based. rewrite H1, H4, H5. naive_solver. Qed.

Lemma announced c ph b e l :
  rt_spec (based c) (st ← inner_status ph b e; publish_state st l) (λ _ s, based c s ∧ shows ph b l s).
Proof. intros s Hs. done. Qed.

Lemma announced_then {A : Type} c ph b e l (k : RT A) Q :
  rt_spec (λ s, based c s ∧ shows ph b l s) k Q →
  rt_spec (based c) (st ← inner_status ph b e; publish_state st l;; k) Q.
Proof. intros Hk s Hs. apply Hk. done. Qed.

Lemma published_then {A : Type} c ph b e l (k : RT A) Q (m : RT ()) :
  m = (st ← inner_status ph b e; publish_state st l) →
  rt_spec (λ s, based c s ∧ shows ph b l s) k Q → rt_spec (based c) (m;; k) Q.
Proof. intros ->. apply announced_then. Qed.

Lemma kept_then {A B : Type} (I : rt → Prop) (m : RT A) (k : A → RT B) Q :
  keeps I m → (∀ a, rt_spec I (k a) Q) → rt_spec I (m ≫= k) Q.
Proof. intros Hm Hk. by eapply spec_bind. Qed.

Lemma spec_get_bind {A : Type} (P : rt → Prop) (f : RuntimeInner → RT A) Q :
  (∀ i, rt_spec (λ s, P s ∧ rt_inner s = i) (f i) Q) → rt_spec P (rt_get ≫= f) Q.
Proof. intros Hf s Hs. by apply Hf. Qed.

Lemma finish_coherent r : rt_spec not_waiting (finish r) coherent.
Proof. intros s [[Hs _] Hl]. by split. Qed.

Lemma shown_finish c ph b l r :
  l ≠ WaitingForSecret → rt_spec (λ s, based c s ∧ shows ph b l s) (finish r) coherent.
Proof. intros Hl s [[Hs _] [Hl' _]]. apply finish_coherent. split; [by split | by rewrite Hl']. Qed.

Lemma stop_coherent b : rt_spec (based false) (stop b) coherent.
Proof. eapply (published_then false PhaseStopping); [reflexivity|]. by apply shown_finish. Qed.

Lemma shown_ret c ph b l p :
  (∀ s, based c s → shows ph b l s → coherent p s) →
  rt_spec (λ s, based c s ∧ shows ph b l s) (mret p) coherent.
Proof. intros Hp. apply spec_ret. naive_solver. Qed.

Lemma wait_for_secret_coherent a e : uint 32 a → rt_spec not_waiting (wait_for_secret a e) coherent.
Proof.
  intros Ha s Hs. unfold wait_for_secret, inner_status, mbind, RT_bind. cbn [rt_get].
  destruct (secret_path _); [|by apply finish_coherent].
  destruct (ri_provisioning (rt_inner s)) eqn:Hp; [|by apply finish_coherent].
  destruct Hs as [[Hs _] _]. unfold coherent. cbn. rewrite Hp in Hs |- *. done.
Qed.

Lemma waiting_coherent c ph b l a e :
  uint 32 a → l ≠ WaitingForSecret →
  rt_spec (λ s, based c s ∧ shows ph b l s) (wait_for_secret a e) coherent.
Proof.
  intros Ha Hl s [[Hs _] [Hl' _]]. apply wait_for_secret_coherent; [done|]. split; [by split | by rewrite Hl'].
Qed.

Lemma from_based {A : Type} (P : rt → Prop) (m : RT A) Q :
  (∀ s, P s → based false s) → rt_spec (based false) m Q → rt_spec P m Q.
Proof. intros HP Hm s Hs. by apply Hm, HP. Qed.

Lemma not_waiting_based s : not_waiting s → based false s.
Proof. by intros [? _]. Qed.

Lemma shown_based c ph b l s : based c s ∧ shows ph b l s → based false s.
Proof. by intros [[? _] _]. Qed.

Lemma coherent_based p s : coherent p s → based false s.
Proof. by intros [Hs _]; split. Qed.

Lemma run_supervisor_coherent : rt_spec not_waiting run_supervisor coherent.
Proof.
  unfold run_supervisor. apply kept_then; [apply keeps_get | intros i].
  apply kept_then; [apply keeps_disk, not_waiting_stable | intros [[]|[secret| |message]]].
  - apply (from_based _ _ _ not_waiting_based).
    eapply (published_then false PhaseStarting); [reflexivity|]. apply shown_ret.
    intros s [Hs _] (Hl & _ & Hb). split; [done|]. split; [by left | by split_and!].
  - by apply wait_for_secret_coherent.
  - apply (from_based _ _ _ not_waiting_based), announced_then.
    destruct (allows_provisioning (ri_secret_source i)); [by apply waiting_coherent | by apply shown_finish].
Qed.

Lemma on_provision_coherent a secret :
  uint 32 a → rt_spec (coherent (PcWait a)) (on_provision_request a secret) (λ r s, coherent r.1 s).
Proof.
  intros Ha. unfold on_provision_request. apply kept_then; [apply keeps_get | intros i].
  destruct (secret_path _) as [p|]; [|by apply spec_ret].
  apply kept_then; [apply provision_keeps, coherent_stable | intros [e|k]]; [by apply spec_ret|].
  apply from_based; [by intros s [Hs _]; split|].
  eapply (published_then false PhaseStarting); [reflexivity|]. apply spec_ret.
  intros s [[Hs _] (Hl & _ & Hb)]. split; [done|]. split; [by left | by split].
Qed.

Lemma loop_head_coherent secret a :
  rt_spec (coherent (PcBuild secret a)) (loop_head secret a) coherent.
Proof.
  unfold loop_head. apply kept_then; [apply keeps_get | intros i].
  destruct (ri_cancelled i); [apply from_based; [apply coherent_based | apply stop_coherent]|]. cbv zeta.
  apply kept_then; [apply keeps_api, coherent_stable | intros _]. by apply spec_ret.
Qed.

Lemma load_run_data_coherent secret a api :
  uint 32 a → rt_spec (based false) (load_run_data secret a api) coherent.
Proof.
  intros Ha. unfold load_run_data.
  apply kept_then; [exact (invoke_no_fail_keeps _ (based_stable _) _ _ _) | intros data].
  apply kept_then; [destruct data; [apply keeps_ret | apply keeps_update_lookup, based_stable] | intros _].
  eapply (published_then false PhaseStarting); [reflexivity|]. apply shown_ret.
  by intros s [Hs _] (Hl & Hp & Hb).
Qed.

Lemma build_agent_coherent secret a api built :
  uint 32 a → rt_spec (λ s, based false s ∧ shows PhaseStarting true Starting s) (build_agent secret a api built) coherent.
Proof.
  intros Ha. unfold Supervisor.build_agent. apply kept_then; [apply keeps_get | intros i].
  destruct built as [e|[]].
  - destruct (_ && _).
    + apply kept_then; [apply keeps_api, shows_stable | intros _]. by apply waiting_coherent.
    + apply (from_based _ _ _ (shown_based _ _ _ _)). destruct (is_agent_disabled_over_limit_error _ _).
      * apply announced_then, shown_ret. intros s [Hs _] (Hl & Hp & Hb).
        split; [done|]. split; [by eexists | done].
      * destruct (is_transient_setup_error e).
        -- eapply (published_then false PhaseReconnecting); [reflexivity|]. apply shown_ret.
           by intros s [Hs _] (Hl & Hp & Hb).
        -- apply announced_then. by apply shown_finish.
  - apply (from_based _ _ _ (shown_based _ _ _ _)). apply announced_then.
    apply kept_then; [apply keeps_agent_cancel, shows_stable | intros _]. apply shown_ret.
    intros s [Hs _] (Hl & Hp & Hb). split; [done|]. split; [by left|]. split; [by left | done].
Qed.

Lemma stop_agent_coherent tasks ad cd : rt_spec (based true) (stop_agent tasks ad cd) coherent.
Proof.
  unfold stop_agent. apply kept_then; [apply keeps_agent_cancel, based_stable | intros _].
  eapply (published_then true PhaseStopping); [reflexivity|]. apply shown_ret.
  intros s [Hs Hc] (Hl & Hp & Hb). split; [done|]. split; [by left|]. split; [by left | by apply Hc].
Qed.

Lemma on_agent_ended_coherent secret a tasks ad cd r :
  uint 32 a → rt_spec (based false) (on_agent_ended secret a tasks ad cd r) coherent.
Proof.
  intros Ha. unfold on_agent_ended. apply spec_get_bind. intros i. unfold classify_agent_completion.
  destruct (ri_cancelled i) eqn:Hc.
  - intros s [[Hs _] <-]. apply stop_agent_coherent. by split.
  - apply from_based; [by intros s [[Hs _] _]|].
    apply kept_then; [apply keeps_agent_cancel, based_stable | intros _]. cbv zeta.
    eapply (published_then false PhaseReconnecting); [reflexivity|]. apply shown_ret.
    by intros s [Hs _] (Hl & Hp & Hb).
Qed.

Lemma stop_joined_coherent tasks ad cd : rt_spec (coherent (PcStop tasks ad cd)) stop_joined coherent.
Proof.
  unfold stop_joined. apply kept_then; [apply keeps_agent_cancel, coherent_stable | intros _].
  intros s (Hs & Hl & _). apply finish_coherent. split; [by split|].
  destruct Hl as [->|(_ & st & ->)]; done.
Qed.

(** The polls of a running agent. *)
Lemma stats_tick_coherent p stats : keeps (coherent p) (stats_tick stats).
Proof. intros s Hs. by destruct p. Qed.

Lemma account_tick_run secret a tasks api ps :
  keeps (coherent (PcRun secret a tasks)) (account_tick api ps).
Proof.
  unfold account_tick. apply kept_then; [exact (invoke_no_fail_keeps _ (coherent_stable _) _ _ _) | intros [e|data]];
    [apply keeps_ret|].
  apply kept_then; [apply keeps_update_lookup, coherent_stable | intros _].
  apply kept_then.
  { destruct (AgentPermissions_account_status _); [apply guest_link_keeps, coherent_stable|apply keeps_ret..]. }
  intros link s (Hs & _ & Hrest). split; [done|]. split; [right; by eexists | done].
Qed.

Lemma account_tick_stop tasks cd api ps :
  rt_spec (coherent (PcStop tasks true cd)) (account_tick api ps) (λ _, coherent (PcStop tasks false cd)).
Proof.
  unfold account_tick. apply kept_then; [exact (invoke_no_fail_keeps _ (coherent_stable _) _ _ _) | intros [e|data]].
  { apply spec_ret. intros s (Hs & [Hl|[? _]] & Hrest); [|done]. by split; [|split; [left|]]. }
  apply kept_then; [apply keeps_update_lookup, coherent_stable | intros _].
  apply kept_then.
  { destruct (AgentPermissions_account_status _); [apply guest_link_keeps, coherent_stable|apply keeps_ret..]. }
  intros link s (Hs & _ & Hrest). split; [done|]. split; [right; split; [done | by eexists] | done].
Qed.

Lemma control_tick_run secret a tasks st last :
  keeps (coherent (PcRun secret a tasks)) (control_tick st last).
Proof.
  unfold control_tick. case_decide; [apply keeps_ret|]. intros s (Hs & Hl & _ & Hb & Ha).
  split; [done|]. split; [done|]. split; [by destruct st; [left | right] | done].
Qed.

Lemma control_tick_stop tasks ad st last :
  rt_spec (coherent (PcStop tasks ad true)) (control_tick st last) (λ _, coherent (PcStop tasks ad false)).
Proof.
  unfold control_tick. case_decide; [apply spec_ret|]; intros s (Hs & Hl & _ & Hc);
    (split; [done|]; split; [done|]; split; [by right | done]).
Qed.

Lemma next_attempt_u32 a : uint 32 a → uint 32 (next_attempt a).
Proof. unfold uint, next_attempt. lia. Qed.

Lemma at_pc_spec (P : rt → Prop) s m s' :
  rt_spec P m coherent → at_pc s m = Some s' → P (su_rt s) → coherent (su_pc s') (su_rt s').
Proof.
  intros Hm. unfold at_pc. destruct (m (su_rt s)) as [p r] eqn:Hr. intros [= <-] Hs.
  specialize (Hm _ Hs). by rewrite Hr in Hm.
Qed.

Lemma tick_then {A : Type} (P : rt → Prop) (m : RT A) (k : A → pc) :
  (∀ a, rt_spec P m (λ _, coherent (k a))) → rt_spec P (m ≫= λ a, mret (k a)) coherent.
Proof. intros Hm s Hs. unfold mbind, RT_bind. specialize (Hm (m s).1 s Hs). by destruct (m s). Qed.

Lemma sup_step_coherent e s s' :
  sup_step e s = Some s' → coherent (su_pc s) (su_rt s) → coherent (su_pc s') (su_rt s').
Proof.
  unfold Supervisor.sup_step, cancelled. intros He Hc. pose proof (coherent_based _ _ Hc) as Hb.
  destruct (su_pc s) as [|a|secret a|secret a api|secret a api|secret a tasks|tasks [] []|secret a|secret a|res|res], e; try done;
    try (eapply (at_pc_spec (coherent (PcStop _ _ _))); [|exact He|exact Hc];
         first [ apply stop_joined_coherent
               | apply tick_then; intros poll; exact (account_tick_stop tasks _ _ _)
               | apply tick_then; intros last; exact (control_tick_stop tasks _ _ _) ]; fail).
  - eapply at_pc_spec; [exact run_supervisor_coherent | exact He|]. split; [done|]. by destruct Hc as [_ ->].
  - destruct (su_queue s) as [|x q]; [done|].
    pose proof (on_provision_coherent a x ltac:(apply Hc) _ Hc) as Hp.
    destruct (on_provision_request a x (su_rt s)) as [[p ack] r]. by injection He as <-.
  - destruct (ri_cancelled _); [|done]. eapply at_pc_spec; [apply stop_coherent | exact He | done].
  - eapply at_pc_spec; [apply loop_head_coherent | exact He | exact Hc].
  - eapply at_pc_spec; [apply load_run_data_coherent, Hc | exact He | done].
  - eapply at_pc_spec; [apply build_agent_coherent, Hc | exact He|]. by destruct Hc as (_ & ? & ? & ? & _).
  - destruct (ri_cancelled (rt_inner (su_rt s))) eqn:Hcan; [|done].
    eapply at_pc_spec; [apply stop_agent_coherent | exact He|]. by destruct Hb as [Hb _]; split.
  - eapply at_pc_spec; [apply on_agent_ended_coherent, Hc | exact He | done].
  - eapply (at_pc_spec (coherent _)); [|exact He|exact Hc]; apply tick_then; intros _; apply stats_tick_coherent.
  - eapply (at_pc_spec (coherent _)); [|exact He|exact Hc]; apply tick_then; intros poll; exact (account_tick_run secret a tasks _ _).
  - eapply (at_pc_spec (coherent _)); [|exact He|exact Hc]; apply tick_then; intros last; exact (control_tick_run secret a tasks _ _).
  - destruct (ri_cancelled _); [|done]. eapply at_pc_spec; [apply stop_coherent | exact He | done].
  - injection He as <-. destruct Hc as (Hs & Hl & _ & Hsec & Ha).
    split; [done|]. split; [by left | split; [done | by apply next_attempt_u32]].
  - destruct (ri_cancelled _); [|done]. eapply at_pc_spec; [apply stop_coherent | exact He | done].
  - injection He as <-. destruct Hc as (Hs & Hl & _ & Hsec & Ha).
    split; [done|]. split; [by right | done].
  - destruct (forallb _ _); [|done]. by injection He as <-.
Qed.

Lemma step_coherent s s' : step s s' → coherent (su_pc s) (su_rt s) → coherent (su_pc s') (su_rt s').
Proof.
  intros Hs Hc. destruct Hs as [e s s' _ He|o s|secret s _| | |n e r s He|n x r s He _];
    cbn [su_pc su_rt with_rt with_requests]; try done.
  - by eapply sup_step_coherent.
  - exact (run_op_keeps (coherent (su_pc s)) o (coherent_stable _) _ Hc).
  - exact (set_secret_ready_keeps (coherent (su_pc s)) _ Hc).
  - exact (claim_step_keeps (coherent (su_pc s)) _ _ _ _ (coherent_stable _) He Hc).
  - exact (claim_send_keeps (coherent (su_pc s)) _ _ _ _ (coherent_stable _) He Hc).
Qed.

Lemma start_coherent uuid_error platform options tr disk asked s :
  start_runtime uuid_error platform options tr disk asked = inr s → coherent (su_pc s) (su_rt s).
Proof.
  unfold start_runtime. destruct (validate_options options) as [|[]]; [done|]. cbv zeta.
  destruct (match ro_secret options with Some _ => _ | None => _ end); [done|].
  unfold make_inner. destruct (agent_version _ _); [done|].
  destruct (publish_starting false _) as [u r] eqn:Hp. intros [= <-]. cbn [su_pc su_rt].
  injection Hp as _ <-. by split.
Qed.

Lemma ready_waits s :
  coherent (su_pc s) (su_rt s) → (set_secret_ready (su_rt s)).1 = inr () → ∃ a, su_pc s = PcWait a.
Proof.
  intros Hc Hr. unfold set_secret_ready, rt_try, ensure_running, handle_lifecycle, mbind, RT_bind in Hr.
  cbn in Hr. destruct (ri_cancelled (rt_inner (su_rt s))) eqn:Hcan; [done|]. cbn in Hr.
  destruct (sc_lifecycle (ri_cache (rt_inner (su_rt s)))) eqn:Hl; try done.
  destruct (su_pc s); try (by eexists); unfold coherent in Hc; rewrite ?Hl, ?Hcan in Hc; naive_solver.
Qed.

(** C9: What the runtime shows is where its supervisor is. In every state a
    started runtime reaches, under any interleaving with callers and polls,
    the published phase, lifecycle and has_secret flag are those of the
    supervisor's state: it shows that it waits for a secret exactly while it
    does, a retry as reconnecting, the agent limit as such, a running agent as
    starting or running; and a caller is only let through to send a secret
    while the supervisor is waiting for one. *)
Theorem supervisor_coherent (uuid_error : string → string) (platform : Platform) (options : RuntimeOptions)
    (tr : traffic JT) (disk : fs) (asked : nat) (s s' : sup) :
  start_runtime uuid_error platform options tr disk asked = inr s → rtc step s s' →
  coherent (su_pc s') (su_rt s') ∧
  ((set_secret_ready (su_rt s')).1 = inr () → ∃ a, su_pc s' = PcWait a).
Proof.
  intros Hs Hrun. assert (coherent (su_pc s') (su_rt s')) as Hc; [|by split; [|apply ready_waits]].
  apply start_coherent in Hs. revert Hs. induction Hrun as [|s1 s2 s3 Hstep _ IH]; [done|].
  intros Hs. by eapply IH, step_coherent.
Qed.
End coherence.
