(* ===== verification/ClaimTheory.v ===== *)
(** * Claims among the runtime's tasks

    Which of the runtime's computations touch the claim code and the claim
    tasks, that a claim URL is only shown while a task works on it, and what a
    claim task asks of the API. *)

From S2P Require Import Prelude Net Json Text OriginLookup Api ApiTunnels ApiAccount HttpClient ApiClient IpcModel Ipc RuntimeError FileSystem SecretStore RuntimeOptions RuntimeTunnels RuntimeState RuntimeHandle IpcServer RuntimeTheory Utils.
From S2P Require Import ControlIo MaintainedControl Supervisor SupervisorTheorems.
#[local] Open Scope Z_scope.

Section claims.
Context {FM : Formats} {JT : JsonText} {T : Transport JT} {HO : Host} {SL : SecretLib}.
Context (json_of_string : string → option value).
Context (display_api_error : ApiResponseError → string) (display_setup_error : SetupError → string).

(** What claims are about. *)
Definition claim_fields (s : rt) : option string * list claim_task :=
  (ri_claim_code (rt_inner s), ri_claim_tasks (rt_inner s)).

Definition claims_stable (I : rt → Prop) : Prop := ∀ s s', claim_fields s' = claim_fields s → I s → I s'.

Section stable.
Context (I : rt → Prop) (HI : claims_stable I).

Lemma claims_disk {E A : Type} (m : FS E A) : keeps I (rt_disk m).
Proof. intros s Hs. unfold rt_disk. destruct (m (rt_fs s)). by apply (HI s). Qed.

Lemma claims_http {E A : Type} (m : traffic JT → option (E + A) * traffic JT) (e : E) : keeps I (rt_http m e).
Proof. intros s Hs. unfold rt_http. destruct (m (rt_traffic s)). by apply (HI s). Qed.

Lemma claims_invoke e c req : keeps I (rt_invoke e c req).
Proof. apply claims_http. Qed.

Lemma claims_invoke_no_fail e c req : keeps I (rt_invoke_no_fail e c req).
Proof. apply claims_http. Qed.

Lemma claims_ask {A : Type} (f : nat → A) : keeps I (rt_ask f).
Proof. intros s Hs. by apply (HI s). Qed.

Lemma claims_lookup f : keeps I (rt_update_lookup f).
Proof. intros s Hs. by apply (HI s). Qed.

Lemma claims_modify f :
  (∀ i, ri_claim_code (f i) = ri_claim_code i ∧ ri_claim_tasks (f i) = ri_claim_tasks i) → keeps I (rt_modify f).
Proof. intros Hf s Hs. apply (HI s); [|done]. destruct (Hf (rt_inner s)) as [Hc Ht]. unfold claim_fields. cbn. by rewrite Hc, Ht. Qed.

Lemma claims_map_err {E A : Type} (f : E → RuntimeError) (m : RT (E + A)) : keeps I m → keeps I (map_err f m).
Proof. intros Hm. unfold map_err. keeps_all. Qed.

#[local] Hint Resolve claims_disk claims_ask claims_lookup claims_map_err : keeps.
#[local] Hint Extern 1 (keeps _ (rt_modify _)) => by apply claims_modify : keeps.
#[local] Hint Extern 1 (keeps _ (rt_invoke ?e ?c ?r)) => exact (claims_invoke e c r) : keeps.
#[local] Hint Extern 1 (keeps _ (rt_invoke_no_fail ?e ?c ?r)) => exact (claims_invoke_no_fail e c r) : keeps.

Lemma claims_inner_status ph b e : keeps I (inner_status ph b e).
Proof. unfold inner_status, rt_now. keeps_all. Qed.

Lemma claims_shutdown : keeps I request_shutdown.
Proof. by apply claims_modify. Qed.

#[local] Hint Resolve claims_inner_status claims_shutdown : keeps.

Ltac go := unfold on_agent_ended, loop_head, load_run_data, Supervisor.build_agent, on_provision_request, run_supervisor, stop, stop_joined,
  stop_agent, wait_for_secret, finish, publish_starting, publish_reconnecting, publish_stopping,
  set_agent_cancel, inner_status, account_tick, get_cached_guest_login_link, control_tick, stats_tick, rt_now,
  publish_state, publish_status, set_api, request_shutdown, provision,
  handle_account_login_url, fetch_login_url, handle_list_account_tunnels, handle_create_tunnel,
  handle_create_minecraft_java_tunnel, create_v1_tunnel, handle_delete_tunnel, handle_reassign_tunnel,
  handle_reset_secret, handle_api, ensure_running, handle_lifecycle; keeps_all.

(** The supervisor leaves claims alone until it joins them. *)
Lemma sup_keeps_claims :
  (∀ r, rt_spec (λ s, all_claims_finished s ∧ I s) (claims_joined r) (λ _, I)) →
  sup_keeps json_of_string display_api_error display_setup_error I.
Proof.
  intros Hj. unfold sup_keeps. split_and!; intros; try apply Hj; go.
Qed.

(** So does the handle, but when it starts one. *)
Lemma run_op_claims o : o ≠ OpStartClaim → keeps I (run_op o).
Proof.
  intros Ho. destruct o; [|done|..]; unfold run_op; go.
Qed.

Lemma set_secret_ready_claims : keeps I set_secret_ready.
Proof. unfold set_secret_ready; go. Qed.
End stable.

(** ** One claim at a time *)

(** The codes of the claims under way. *)
Definition claims_under_way (l : list claim_task) : list string :=
  ct_code <$> List.filter (λ t, negb (ct_finished t)) l.

(** They are the code shown, if any. *)
Definition one_claim (s : rt) : Prop :=
  claims_under_way (ri_claim_tasks (rt_inner s)) = option_list (ri_claim_code (rt_inner s)).

Lemma one_claim_stable : claims_stable one_claim.
Proof. intros s s' Hf. injection Hf as Hc Ht. unfold one_claim. by rewrite Hc, Ht. Qed.

Lemma under_way_app l k : claims_under_way (l ++ k) = claims_under_way l ++ claims_under_way k.
Proof. unfold claims_under_way. by rewrite List.filter_app, fmap_app. Qed.

Lemma under_way_filter l : claims_under_way (List.filter (λ t, negb (ct_finished t)) l) = claims_under_way l.
Proof.
  unfold claims_under_way. f_equal. induction l as [|t l IH]; [done|]. cbn.
  destruct (ct_finished t) eqn:Ht; cbn; [done|]. rewrite Ht. cbn. by rewrite IH.
Qed.

Lemma under_way_finished l : forallb ct_finished l = true → claims_under_way l = [].
Proof.
  unfold claims_under_way. induction l as [|t l IH]; [done|]. cbn. intros [Ht Hl]%andb_prop. rewrite Ht. by apply IH.
Qed.

(** A task's move, seen among the claims under way. *)
Lemma under_way_alter n p t l :
  l !! n = Some t → ct_finished t = false →
  ∃ before after, claims_under_way l = before ++ ct_code t :: after ∧
    claims_under_way (alter (λ t, {| ct_code := ct_code t; ct_pc := p |}) n l) =
      before ++ (if ct_finished {| ct_code := ct_code t; ct_pc := p |} then [] else [ct_code t]) ++ after.
Proof.
  intros Hn Ht. apply list_elem_of_split_length in Hn as (a & b & -> & ->).
  exists (claims_under_way a), (claims_under_way b). rewrite alter_app_r_alt by lia. rewrite Nat.sub_diag, !under_way_app.
  split; [unfold claims_under_way at 2; cbn; by rewrite Ht|]. f_equal.
  unfold claims_under_way at 1. cbn. by destruct p.
Qed.

Lemma start_claim_one : keeps one_claim handle_start_claim.
Proof.
  intros s Hs. unfold handle_start_claim, rt_try, ensure_running, handle_lifecycle, mbind, RT_bind. cbn.
  destruct (ri_cancelled (rt_inner s)); [done|]. cbn.
  destruct (sc_lifecycle (ri_cache (rt_inner s))); try done.
  destruct (ri_provisioning (rt_inner s)); [|done].
  destruct (ri_claim_code (rt_inner s)) as [code|] eqn:Hcode; [done|].
  unfold one_claim in *. cbn -[claims_under_way]. rewrite Hcode in Hs. by rewrite under_way_app, under_way_filter, Hs.
Qed.

Lemma claims_joined_one r : rt_spec (λ s, all_claims_finished s ∧ one_claim s) (claims_joined r) (λ _, one_claim).
Proof.
  intros s [Hf Hs]. unfold one_claim in *. rewrite under_way_finished in Hs by done.
  exact Hs.
Qed.

Lemma ask_fields code s :
  claim_fields (ask_setup code s).2 = claim_fields s ∧ claim_fields (ask_exchange code s).2 = claim_fields s.
Proof.
  unfold ask_setup, ask_exchange, rt_invoke, rt_http, mbind, RT_bind. cbn [rt_get].
  by split; destruct (invoke _ _ _ _).
Qed.

(** A task that gives up ends, and has touched no claim. *)
Lemma abandon_spec sent t s : (abandon sent t s).1 = ClaimDone ∧ claim_fields (abandon sent t s).2 = claim_fields s.
Proof.
  destruct (ask_fields (ct_code t) s) as [Hs He]. unfold abandon, mbind, RT_bind.
  destruct sent; [|done]. destruct (ct_pc t); try done; [by destruct (ask_setup _ _) | by destruct (ask_exchange _ _)].
Qed.

Lemma claim_move_fields e t s m : claim_move e t s = Some m → claim_fields (m s).2 = claim_fields s.
Proof.
  unfold claim_move. destruct (ct_pc t), e; try done; try (destruct (ri_cancelled _)); intros [= <-];
    first [done | apply abandon_spec | apply ask_fields].
Qed.

Lemma claim_move_unfinished e t s m : claim_move e t s = Some m → ct_finished t = false.
Proof. unfold claim_move, ct_finished. by destruct (ct_pc t). Qed.

(** Where a task's move leaves the claims: it is alone, and the code goes with it. *)
Lemma settled_one n t p s :
  ri_claim_tasks (rt_inner s) !! n = Some t → ct_finished t = false → one_claim s →
  one_claim ((settle (ct_code t) p;; move_task n p) s).2.
Proof.
  intros Hn Ht Hs. destruct (under_way_alter n p t _ Hn Ht) as (before & after & Hb & Ha).
  unfold one_claim in Hs. rewrite Hb in Hs.
  assert (before = [] ∧ after = [] ∧ ri_claim_code (rt_inner s) = Some (ct_code t)) as (-> & -> & Hc).
  { destruct (ri_claim_code _), before as [|? []]; try done. by injection Hs as <- ->. }
  unfold one_claim. destruct p; (etrans; [exact Ha|]); unfold mbind, RT_bind; cbn; rewrite Hc; try done.
  by rewrite decide_True.
Qed.

Lemma claim_step_one n e s r : claim_step n e s = Some r → one_claim s → one_claim r.
Proof.
  unfold claim_step. intros (t & Hn & (m & Hm & [= <-])%bind_Some)%bind_Some Hs.
  pose proof (claim_move_fields _ _ _ _ Hm) as Hf. apply claim_move_unfinished in Hm.
  unfold mbind, RT_bind. destruct (m s) as [p s1]. cbn [snd] in Hf.
  apply (settled_one n t p s1); [injection Hf as _ ->; done | done | by apply (one_claim_stable s)].
Qed.

Lemma claim_send_one n s secret r : claim_send n s = Some (secret, r) → one_claim s → one_claim r.
Proof.
  unfold claim_send. intros (t & Hn & Hs)%bind_Some. destruct (ct_pc t) eqn:Hp; try done. injection Hs as _ <-.
  intros Hs. apply (settled_one n t ClaimAwaiting s); [done | unfold ct_finished; by rewrite Hp | done].
Qed.

Lemma run_op_one o : keeps one_claim (run_op o).
Proof.
  destruct o; try (apply run_op_claims; [apply one_claim_stable | done]).
  apply keeps_bind; [apply start_claim_one | by intros _ s Hs].
Qed.

#[local] Notation step := (step json_of_string display_api_error display_setup_error).

Lemma step_one s s' : step s s' → one_claim (su_rt s) → one_claim (su_rt s').
Proof.
  intros Hs H1. destruct Hs as [e s s' Hwf He|o s|secret s Hr| | |n e r s Hc|n x r s Hc _]; try done.
  - refine (sup_step_keeps _ _ _ _ e s s' (sup_keeps_claims _ one_claim_stable claims_joined_one) Hwf He H1).
  - by apply run_op_one.
  - apply (set_secret_ready_claims _ (su_rt s) H1).
  - by eapply claim_step_one.
  - by eapply claim_send_one.
Qed.

Lemma start_one uuid_error platform options tr disk asked s :
  start_runtime uuid_error platform options tr disk asked = inr s → one_claim (su_rt s).
Proof.
  unfold start_runtime. destruct (validate_options options) as [|[]]; [done|]. cbv zeta.
  destruct (match ro_secret options with Some _ => _ | None => _ end); [done|].
  unfold make_inner. destruct (agent_version _ _); [done|].
  destruct (publish_starting false _) as [u r] eqn:Hp. intros [= <-]. cbn [su_rt].
  by injection Hp as _ <-.
Qed.

(** What [start_claim] answers when there is at most one claim. *)
Lemma start_claim_answer s resp s' :
  one_claim s → handle_start_claim s = (inr resp, s') →
  ∃ code, resp = {| cl_claim_url := claim_url code |} ∧ ri_claim_code (rt_inner s') = Some code ∧
    (ri_claim_code (rt_inner s) = Some code ∧ s' = s ∨ ri_claim_code (rt_inner s) = None).
Proof.
  intros Hs. unfold handle_start_claim, rt_try, ensure_running, handle_lifecycle, mbind, RT_bind. cbn.
  destruct (ri_cancelled (rt_inner s)); [done|]. cbn.
  destruct (sc_lifecycle (ri_cache (rt_inner s))); try done.
  destruct (ri_provisioning (rt_inner s)); [|done].
  destruct (ri_claim_code (rt_inner s)) as [code|] eqn:Hcode; intros [= <- <-]; eexists; eauto.
Qed.

(** C28: There is one claim at a time, and the user is shown that one. In
    every state a started runtime reaches, whatever its tasks and callers do,
    the claims under way are those of the code on display: one when there is
    a code, none when there is none, so that a page is never shown for a claim
    nobody waits on. A call of start_claim that succeeds answers with the page
    of the only claim then under way; when one was already, it starts nothing
    and changes nothing. *)
Theorem one_claim_at_a_time uuid_error platform options tr disk asked s s' :
  start_runtime uuid_error platform options tr disk asked = inr s → rtc step s s' →
  claims_under_way (ri_claim_tasks (rt_inner (su_rt s'))) = option_list (ri_claim_code (rt_inner (su_rt s'))) ∧
  ∀ resp r, handle_start_claim (su_rt s') = (inr resp, r) →
    ∃ code, resp = {| cl_claim_url := claim_url code |} ∧ claims_under_way (ri_claim_tasks (rt_inner r)) = [code] ∧
      (ri_claim_code (rt_inner (su_rt s')) = Some code ∧ r = su_rt s' ∨ ri_claim_code (rt_inner (su_rt s')) = None).
Proof.
  intros Hstart Hrun. assert (one_claim (su_rt s')) as H1.
  { apply start_one in Hstart. induction Hrun as [|s1 s2 s3 Hstep _ IH]; [done|]. by apply IH, (step_one s1). }
  split; [done|]. intros resp r Hr. destruct (start_claim_answer _ _ _ H1 Hr) as (code & -> & Hc & Hor).
  exists code. split; [done|]. split; [|done]. pose proof (start_claim_one _ H1) as Hk. rewrite Hr in Hk.
  unfold one_claim in Hk. cbn [snd] in Hk. by rewrite Hk, Hc.
Qed.
End claims.
