(* ===== verification/Shutdown.v ===== *)
(** * Shutting down

    Once a shutdown was requested, the runtime ends: the supervisor's machine
    comes closer to its end with every reaction, whatever the polls, the
    callers and the claim tasks still do. *)

From S2P Require Import Prelude Net Json Text OriginLookup Api ApiTunnels ApiAccount HttpClient ApiClient IpcModel Ipc RuntimeError FileSystem SecretStore RuntimeOptions RuntimeTunnels RuntimeState RuntimeHandle IpcServer RuntimeTheory TunnelTheorems Utils.
From S2P Require Import ControlIo MaintainedControl Supervisor SupervisorTheorems ClaimTheory.
#[local] Open Scope Z_scope.

(** How far the machine is from its end once a shutdown was requested. *)
Definition rank (p : pc) : nat :=
  match p with
  | PcDone _ => 0
  | PcJoin _ => 1
  | PcBuild _ _ => 2
  | PcStop _ account_due control_due => 2 + Nat.b2n account_due + Nat.b2n control_due
  | PcRetry _ _ | PcLimit _ _ | PcWait _ => 3
  | PcStart => 4
  | PcRun _ _ _ => 5
  | PcSetup _ _ _ => 6
  | PcData _ _ _ => 7
  end.

(** How far a claim task is from its end, and all of them together. *)
Definition claim_rank (p : claim_pc) : nat :=
  match p with
  | ClaimDone => 0
  | ClaimHead | ClaimAwaiting => 1
  | ClaimPause _ => 2
  | ClaimSending _ => 3
  | ClaimExchanging => 4
  | ClaimSetup => 5
  end.

Definition claim_work (l : list claim_task) : nat := sum_list_with (λ t, claim_rank (ct_pc t)) l.

Section shutdown.
Context {FM : Formats} {JT : JsonText} {T : Transport JT} {HO : Host} {SL : SecretLib}.
Context (json_of_string : string → option value).
Context (display_api_error : ApiResponseError → string) (display_setup_error : SetupError → string).
#[local] Notation sup_step := (sup_step json_of_string display_api_error display_setup_error).
#[local] Notation build_agent := (build_agent json_of_string display_api_error display_setup_error).

(** What is left to do: the machine's way to its end, the secrets in the channel
    and on their way into it, and the claim tasks. *)
Definition distance (s : sup) : nat :=
  rank (su_pc s) + length (su_queue s) + length (su_callers s) +
  claim_work (ri_claim_tasks (rt_inner (su_rt s))).

(** A poll of a running agent, which leaves the machine where it is. *)
Definition is_poll (e : sup_event) (s : sup) : bool :=
  match su_pc s, e with
  | PcRun _ _ _, EvStatsTick _ | PcRun _ _ _, EvAccountTick | PcRun _ _ _, EvControl _ => true
  | _, _ => false
  end.

(** The results a computation may have. *)
Definition yields (P : rt → Prop) (m : RT pc) (Q : pc → Prop) : Prop := rt_spec P m (λ p _, Q p).

Definition ended (p : pc) : Prop := ∃ r, p = PcJoin r.

Lemma yields_bind {A : Type} (P : rt → Prop) (m : RT A) (f : A → RT pc) Q :
  (∀ a, yields (λ _, True) (f a) Q) → yields P (m ≫= f) Q.
Proof. intros Hf s _. unfold mbind, RT_bind. destruct (m s) as [a s1]. by apply Hf. Qed.

Lemma yields_ret (P : rt → Prop) p (Q : pc → Prop) : Q p → yields P (mret p) Q.
Proof. by intros HQ s _. Qed.

Lemma finish_yields P r : yields P (finish r) ended.
Proof. unfold finish. apply yields_bind. intros _. apply yields_ret. by eexists. Qed.

Lemma stop_yields P b : yields P (stop b) ended.
Proof. unfold stop. apply yields_bind. intros _. apply finish_yields. Qed.

Lemma finish_rank P r : yields P (finish r) (λ p, (rank p ≤ 3)%nat).
Proof. intros s Hs. destruct (finish_yields P r s Hs) as [x ->]. cbn. lia. Qed.

Lemma wait_yields P a e : yields P (wait_for_secret a e) (λ p, (rank p ≤ 3)%nat).
Proof.
  unfold wait_for_secret. apply yields_bind. intros i.
  destruct (secret_path _); [|apply finish_rank]. destruct (ri_provisioning i); [|apply finish_rank].
  do 2 (apply yields_bind; intros ?). apply yields_ret. cbn. lia.
Qed.

Lemma run_supervisor_yields P : yields P run_supervisor (λ p, (rank p ≤ 3)%nat).
Proof.
  unfold run_supervisor. do 2 (apply yields_bind; intros ?).
  destruct a0 as [[]|[secret| |message]].
  - apply yields_bind. intros _. apply yields_ret. cbn. lia.
  - apply wait_yields.
  - cbv zeta. do 2 (apply yields_bind; intros ?). destruct (allows_provisioning _); [apply wait_yields | apply finish_rank].
Qed.

(** [stop_agent] keeps the polls that are due. *)
Lemma stop_agent_yields P tasks ad cd :
  yields P (stop_agent tasks ad cd) (λ p, p = PcStop tasks ad cd).
Proof. unfold stop_agent. do 2 (apply yields_bind; intros ?). by apply yields_ret. Qed.

Lemma at_pc_yields s m s' Q :
  yields (λ r, r = su_rt s) m Q → at_pc s m = Some s' →
  Q (su_pc s') ∧ su_queue s' = su_queue s ∧ su_callers s' = su_callers s.
Proof.
  intros Hm. unfold at_pc. destruct (m (su_rt s)) as [p r] eqn:Hr. intros [= <-].
  specialize (Hm _ eq_refl). by rewrite Hr in Hm.
Qed.

Lemma loop_head_cancelled s secret a :
  cancelled s = true → yields (λ r, r = su_rt s) (loop_head secret a) ended.
Proof.
  intros Hc r ->. unfold loop_head, cancelled in *. unfold mbind at 1, RT_bind. cbn [rt_get].
  rewrite Hc. by apply (stop_yields (λ r, r = su_rt s)).
Qed.

(** A shutdown requested while the agent is built is not looked for there. *)
Lemma load_run_data_yields P secret a api :
  yields P (load_run_data secret a api) (λ p, p = PcSetup secret a api).
Proof. unfold load_run_data. do 3 (apply yields_bind; intros ?). by apply yields_ret. Qed.

Lemma build_agent_yields P secret a api built :
  yields P (build_agent secret a api built) (λ p, (rank p ≤ 5)%nat).
Proof.
  assert (Hw : ∀ Q m, yields Q m (λ p, (rank p ≤ 3)%nat) → yields Q m (λ p, (rank p ≤ 5)%nat)).
  { intros Q m Hm s Hs. specialize (Hm s Hs). cbn in Hm. lia. }
  unfold Supervisor.build_agent. apply yields_bind. intros i. destruct built as [e|[]].
  - destruct (_ && _); [apply yields_bind; intros _; apply Hw, wait_yields|].
    destruct (is_agent_disabled_over_limit_error _ _); cbv zeta.
    { do 2 (apply yields_bind; intros ?). apply yields_ret. cbn. lia. }
    destruct (is_transient_setup_error e); [apply yields_bind; intros _; apply yields_ret; cbn; lia|].
    do 2 (apply yields_bind; intros ?). apply Hw, finish_rank.
  - do 3 (apply yields_bind; intros ?). apply yields_ret. cbn. lia.
Qed.

Lemma agent_ended_cancelled s secret a tasks ad cd r :
  cancelled s = true →
  yields (λ r, r = su_rt s) (on_agent_ended secret a tasks ad cd r) (λ p, p = PcStop tasks ad cd).
Proof.
  intros Hc r' ->. unfold on_agent_ended, cancelled in *. unfold mbind at 1, RT_bind. cbn [rt_get].
  rewrite Hc. by apply (stop_agent_yields (λ r, r = su_rt s)).
Qed.

Lemma stop_joined_yields P : yields P stop_joined ended.
Proof. unfold stop_joined. apply yields_bind. intros _. apply finish_yields. Qed.

(** An event that ends the machine. *)
Lemma ended_closer p s m s' :
  yields (λ r, r = su_rt s) m ended → (1 < rank p)%nat → at_pc s m = Some s' →
  (rank (su_pc s') < rank p)%nat ∧ su_queue s' = su_queue s ∧ su_callers s' = su_callers s.
Proof. intros Hm Hp Hs. destruct (at_pc_yields _ _ _ _ Hm Hs) as [[x ->] Hq]. done. Qed.

(** A poll. *)
Lemma tick_step {A : Type} s (m : RT A) (k : A → pc) s' n :
  at_pc s (m ≫= λ a, mret (k a)) = Some s' → (∀ a, rank (k a) = n) →
  rank (su_pc s') = n ∧ su_queue s' = su_queue s ∧ su_callers s' = su_callers s.
Proof.
  intros Hs Hk. unfold at_pc, mbind, RT_bind in Hs. destruct (m (su_rt s)) as [a r].
  injection Hs as <-. split; [apply Hk | done].
Qed.

(** A request leaves the machine waiting or building. *)
Lemma provision_yields a secret s p ack s' :
  on_provision_request a secret s = ((p, ack), s') → (rank p ≤ 3)%nat.
Proof.
  unfold on_provision_request, mbind, RT_bind. cbn [rt_get].
  destruct (secret_path _); [|by intros [= <- _ _]; cbn; lia].
  destruct (provision _ _ _) as [[e|k] s1]; [by intros [= <- _ _]; cbn; lia|].
  destruct (publish_starting _ _) as [u s2]. intros [= <- _ _]. cbn. lia.
Qed.

(** Once a shutdown was requested, every reaction but a poll brings the machine
    closer to its end, or empties its channel. *)
Lemma reaction_closer e s s' :
  cancelled s = true → sup_step e s = Some s' →
  su_callers s' = su_callers s ∧
  if is_poll e s then rank (su_pc s') = rank (su_pc s) ∧ su_queue s' = su_queue s
  else (rank (su_pc s') + length (su_queue s') < rank (su_pc s) + length (su_queue s))%nat.
Proof.
  intros Hc He. unfold Supervisor.sup_step, is_poll in *. rewrite ?Hc in He.
  assert (Hend : ∀ p m, yields (λ r, r = su_rt s) m ended → at_pc s m = Some s' → (1 < rank p)%nat →
    su_callers s' = su_callers s ∧ (rank (su_pc s') + length (su_queue s') < rank p + length (su_queue s))%nat).
  { intros p m Hm Hs Hp. destruct (ended_closer p s m s' Hm Hp Hs) as (Hr & -> & ->). split; [done | lia]. }
  destruct (su_pc s) as [|a|secret a|secret a api|secret a api|secret a tasks|tasks [] []|secret a|secret a|r|r], e; try done;
    try (apply (Hend (PcStop tasks _ _) _ (stop_joined_yields _) He); cbn; lia);
    try (destruct (tick_step _ _ _ _ _ He (λ _, eq_refl)) as [-> [-> ->]]; split; [done | cbn; (done || lia)]).
  - destruct (at_pc_yields _ _ _ _ (run_supervisor_yields _) He) as [Hr [-> ->]]. split; [done | cbn; lia].
  - destruct (su_queue s) as [|x q]; [done|].
    destruct (on_provision_request a x (su_rt s)) as [[p ack] r] eqn:Hp. injection He as <-.
    apply provision_yields in Hp. split; [done | cbn; lia].
  - apply (Hend (PcWait a) _ (stop_yields _ false) He). cbn. lia.
  - apply (Hend (PcBuild secret a) _ (loop_head_cancelled s secret a Hc) He). cbn. lia.
  - destruct (at_pc_yields _ _ _ _ (load_run_data_yields _ _ _ _) He) as [-> [-> ->]]. split; [done | cbn; lia].
  - destruct (at_pc_yields _ _ _ _ (build_agent_yields _ _ _ _ _) He) as [Hr [-> ->]]. split; [done | cbn; lia].
  - destruct (at_pc_yields _ _ _ _ (stop_agent_yields _ _ _ _) He) as [-> [-> ->]]. split; [done | cbn; lia].
  - destruct (at_pc_yields _ _ _ _ (agent_ended_cancelled _ _ _ _ _ _ _ Hc) He) as [-> [-> ->]].
    split; [done|]. destruct account_due, control_due; cbn; lia.
  - apply (Hend (PcRetry secret a) _ (stop_yields _ true) He). cbn. lia.
  - injection He as <-. split; [done | cbn; lia].
  - apply (Hend (PcLimit secret a) _ (stop_yields _ true) He). cbn. lia.
  - injection He as <-. split; [done | cbn; lia].
  - destruct (forallb _ _); [|done]. injection He as <-. split; [done | cbn; lia].
Qed.

#[local] Notation step := (step json_of_string display_api_error display_setup_error).

(** A run in which the supervisor and the claim tasks make [n] steps, polls of
    the agent and callers' steps apart. *)
Inductive reacts : nat → sup → sup → Prop :=
  | reacts_none s : reacts 0 s s
  | reacts_other n s s1 s2 : step s s1 → reacts n s1 s2 → reacts n s s2
  | reacts_sup n e s s1 s2 :
      event_wf e → is_poll e s = false → sup_step e s = Some s1 → reacts n s1 s2 → reacts (S n) s s2
  | reacts_claim n i e r s s2 :
      claim_step i e (su_rt s) = Some r → reacts n (with_rt r s) s2 → reacts (S n) s s2
  | reacts_claim_send n i secret r s s2 :
      claim_send i (su_rt s) = Some (secret, r) → can_send s →
      reacts n (with_requests (su_queue s ++ [secret]) (su_callers s) (with_rt r s)) s2 → reacts (S n) s s2.

(** A shutdown is never taken back. *)
Definition asked_to_stop (r : rt) : Prop := ri_cancelled (rt_inner r) = true.

Lemma asked_stable : stable asked_to_stop.
Proof. intros s s' _ Hc. exact Hc. Qed.

Lemma asked_publish_state st l : keeps asked_to_stop (publish_state st l).
Proof. by intros s Hs. Qed.

Lemma asked_publish_status st : keeps asked_to_stop (publish_status st).
Proof. by intros s Hs. Qed.

Lemma asked_send u f : keeps asked_to_stop (rt_modify (λ i, ri_send u (ri_set_cache f i))).
Proof. by intros s Hs. Qed.

#[local] Hint Resolve asked_stable asked_publish_state asked_publish_status asked_send : keeps.

Ltac go := unfold on_agent_ended, loop_head, load_run_data, Supervisor.build_agent, on_provision_request, run_supervisor, stop, stop_joined, claims_joined,
  stop_agent, wait_for_secret, finish, publish_starting, publish_reconnecting, publish_stopping,
  join_claim_tasks, set_agent_cancel, inner_status, account_tick, get_cached_guest_login_link,
  control_tick, stats_tick, rt_now; keeps_all.

Lemma asked_step s s' : step s s' → asked_to_stop (su_rt s) → asked_to_stop (su_rt s').
Proof.
  apply (step_keeps json_of_string display_api_error display_setup_error asked_to_stop);
    [apply asked_stable|]. unfold sup_keeps. split_and!; intros; try apply keeps_joined; go.
Qed.

(** Nobody is let through to send a secret any more. *)
Lemma stopping_refuses s : cancelled s = true → (set_secret_ready (su_rt s)).1 ≠ inr ().
Proof.
  intros Hc Hr. unfold set_secret_ready, rt_try, ensure_running, mbind, RT_bind in Hr.
  cbn in Hr. unfold cancelled in Hc. by rewrite Hc in Hr.
Qed.

(** The claim tasks are those there were. *)
Definition claims_within (k : nat) (r : rt) : Prop := (claim_work (ri_claim_tasks (rt_inner r)) ≤ k)%nat.

Lemma claims_within_stable k : claims_stable (claims_within k).
Proof. intros s s' Hf. injection Hf as _ Ht. unfold claims_within. by rewrite Ht. Qed.

Lemma sup_keeps_within k : sup_keeps json_of_string display_api_error display_setup_error (claims_within k).
Proof.
  apply sup_keeps_claims; [apply claims_within_stable|]. intros r. apply keeps_joined. intros s _. apply Nat.le_0_l.
Qed.

Lemma claim_work_alter n t p l :
  l !! n = Some t →
  (claim_work (alter (λ t, {| ct_code := ct_code t; ct_pc := p |}) n l) + claim_rank (ct_pc t) =
    claim_work l + claim_rank p)%nat.
Proof.
  revert n. induction l as [|x l IH]; intros [|n]; cbn; try done.
  - intros [= ->]. cbn. lia.
  - intros Hn. specialize (IH n Hn). unfold claim_work in IH. cbn in IH. lia.
Qed.

Lemma ask_setup_rank code s : (claim_rank (ask_setup code s).1 < 5)%nat.
Proof.
  unfold ask_setup, mbind, RT_bind. cbn [rt_get].
  destruct (rt_invoke claim_setup (claim_api (rt_inner s)) (claim_setup_request (rt_inner s) code) s) as [x ?].
  cbn. destruct x as [|[]]; cbn; lia.
Qed.

Lemma ask_exchange_rank code s : (claim_rank (ask_exchange code s).1 < 4)%nat.
Proof.
  unfold ask_exchange, mbind, RT_bind. cbn [rt_get].
  destruct (rt_invoke claim_exchange (claim_api (rt_inner s)) {| ReqClaimExchange_code := code |} s) as [x ?].
  cbn. destruct x as [[[]| |]|]; cbn; lia.
Qed.

(** A move changes no task, and once a shutdown was requested leads closer to
    the task's end. *)
Lemma claim_move_closer e t s m :
  ri_cancelled (rt_inner s) = true → claim_move e t s = Some m →
  ri_claim_tasks (rt_inner (m s).2) = ri_claim_tasks (rt_inner s) ∧
  (claim_rank (m s).1 < claim_rank (ct_pc t))%nat.
Proof.
  intros Hc Hm. split; [by apply claim_move_fields in Hm as [= _ ->]|]. revert Hm. unfold claim_move. rewrite Hc.
  destruct (ct_pc t), e; try done; intros [= <-];
    first [apply ask_setup_rank | apply ask_exchange_rank | rewrite (proj1 (abandon_spec _ t s)) | idtac];
    by apply Nat.ltb_lt.
Qed.

Lemma claim_step_closer n e s r :
  ri_cancelled (rt_inner s) = true → claim_step n e s = Some r →
  (claim_work (ri_claim_tasks (rt_inner r)) < claim_work (ri_claim_tasks (rt_inner s)))%nat.
Proof.
  intros Hc. unfold claim_step. intros (t & Ht & (m & Hm & [= <-])%bind_Some)%bind_Some.
  apply claim_move_closer in Hm as [Htasks Hlt]; [|done].
  unfold mbind, RT_bind. destruct (m s) as [p s1]. cbn [fst snd] in *.
  assert (Hrel : ri_claim_tasks (rt_inner (settle (ct_code t) p s1).2) = ri_claim_tasks (rt_inner s))
    by (rewrite <-Htasks; by destruct p).
  destruct (settle _ _ _) as [u s2]. cbn [snd] in Hrel.
  unfold move_task. cbn [rt_modify with_inner rt_inner snd ri_set_claim ri_claim_tasks]. rewrite Hrel.
  pose proof (claim_work_alter n t p _ Ht). lia.
Qed.

Lemma claim_send_closer n s secret r :
  claim_send n s = Some (secret, r) →
  (claim_work (ri_claim_tasks (rt_inner r)) + 2 = claim_work (ri_claim_tasks (rt_inner s)))%nat.
Proof.
  unfold claim_send. intros (t & Ht & Hs)%bind_Some. destruct (ct_pc t) eqn:Hp; try done. injection Hs as <- <-.
  unfold move_task. cbn [rt_modify with_inner rt_inner snd ri_set_claim ri_claim_tasks].
  pose proof (claim_work_alter n t ClaimAwaiting _ Ht) as Ha. rewrite Hp in Ha. cbn in Ha. lia.
Qed.

(** The handle starts no claim any more. *)
Lemma run_op_stopped o s :
  ri_cancelled (rt_inner s) = true → ri_claim_tasks (rt_inner (run_op o s).2) = ri_claim_tasks (rt_inner s).
Proof.
  intros Hc. assert (Hr : ∀ A (m : RT (RuntimeError + A)), refused m s → (m;; mret ()) s = ((), s)).
  { intros A m Hm. unfold mbind, RT_bind, refused in *. by rewrite Hm. }
  destruct o; cbn [run_op]; try (rewrite Hr by (by apply guarded); done). done.
Qed.
(** The machine is never stuck: before its end it can react, or it waits for a
    claim task that can end. *)
Definition can_go_on (s : sup) : Prop :=
  (∃ e s', event_wf e ∧ is_poll e s = false ∧ sup_step e s = Some s') ∨
  (∃ r i t e rt', su_pc s = PcJoin r ∧ ri_claim_tasks (rt_inner (su_rt s)) !! i = Some t ∧
     claim_step i e (su_rt s) = Some rt' ∧
     (∀ t', ri_claim_tasks (rt_inner rt') !! i = Some t' → ct_finished t' = true)).

Lemma unfinished_ends s i t :
  ri_cancelled (rt_inner s) = true → ri_claim_tasks (rt_inner s) !! i = Some t → ct_finished t = false →
  ∃ e r, claim_step i e s = Some r ∧
    (∀ t', ri_claim_tasks (rt_inner r) !! i = Some t' → ct_finished t' = true).
Proof.
  intros Hc Ht Hf. exists (CeFlowTimeout false). unfold claim_step. rewrite Ht. cbn [mbind option_bind].
  assert (claim_move (CeFlowTimeout false) t s = Some (mret ClaimDone)) as -> by (unfold claim_move, ct_finished in *; by destruct (ct_pc t)).
  cbn [mbind option_bind]. eexists. split; [done|]. intros t' Ht'.
  assert (alter (λ t, {| ct_code := ct_code t; ct_pc := ClaimDone |}) i (ri_claim_tasks (rt_inner s)) !! i = Some t')
    as Ha by exact Ht'.
  rewrite list_lookup_alter_eq, Ht in Ha. by injection Ha as <-.
Qed.

Lemma can_react s : cancelled s = true → (∃ r, su_pc s = PcDone r) ∨ can_go_on s.
Proof.
  intros Hc. unfold can_go_on, Supervisor.sup_step, is_poll.
  assert (Hat : ∀ m, ∃ s', at_pc s m = Some s').
  { intros m. unfold at_pc. destruct (m (su_rt s)). by eexists. }
  destruct (su_pc s) as [|a|secret a|secret a api|secret a api|secret a tasks|tasks ad cd|secret a|secret a|r|r].
  - right; left. exists EvStart. destruct (Hat run_supervisor) as [s' Hs]. by exists s'.
  - right; left. exists EvCancelled. rewrite Hc. destruct (Hat (stop false)) as [s' Hs]. by exists s'.
  - right; left. exists EvHead. destruct (Hat (loop_head secret a)) as [s' Hs]. by exists s'.
  - right; left. exists EvRunData. destruct (Hat (load_run_data secret a api)) as [s' Hs]. by exists s'.
  - right; left. exists (EvBuilt (inr ())). destruct (Hat (build_agent secret a api (inr ()))) as [s' Hs]. by exists s'.
  - right; left. exists EvCancelled. rewrite Hc. destruct (Hat (stop_agent tasks true true)) as [s' Hs]. by exists s'.
  - right; left. exists EvJoined. destruct (Hat stop_joined) as [s' Hs]. exists s'. by destruct ad, cd.
  - right; left. exists EvCancelled. rewrite Hc. destruct (Hat (stop true)) as [s' Hs]. by exists s'.
  - right; left. exists EvCancelled. rewrite Hc. destruct (Hat (stop true)) as [s' Hs]. by exists s'.
  - right. destruct (forallb ct_finished (ri_claim_tasks (rt_inner (su_rt s)))) eqn:Hf.
    + left. exists EvClaimsJoined. destruct (Hat (claims_joined r)) as [s' Hs]. by exists s'.
    + right. assert (∃ i t, ri_claim_tasks (rt_inner (su_rt s)) !! i = Some t ∧ ct_finished t = false) as (i & t & Ht & Hu).
      { clear -Hf. induction (ri_claim_tasks (rt_inner (su_rt s))) as [|t l IH]; [done|]. cbn in Hf.
        destruct (ct_finished t) eqn:Ht; [|by exists 0%nat, t]. destruct (IH Hf) as (i & t' & Hi & Hu).
        by exists (S i), t'. }
      destruct (unfinished_ends (su_rt s) i t Hc Ht Hu) as (e & r' & He & Hr). by exists r, i, t, e, r'.
  - left. by exists r.
Qed.

(** Nothing that happens leads away from the end. *)
Lemma step_distance s s' :
  cancelled s = true → step s s' → cancelled s' = true ∧ (distance s' ≤ distance s)%nat.
Proof.
  intros Hc Hs. split; [exact (asked_step _ _ Hs Hc)|]. unfold distance.
  destruct Hs as [e s s' Hwf He|o s|secret s Hr|b x a s Hq _|b x a s Hq _|n e r s He|n x r s He _];
    cbn [su_pc su_rt su_queue su_callers with_rt with_requests].
  - pose proof (sup_step_keeps _ _ _ _ e s s' (sup_keeps_within _) Hwf He (le_n _)) as Hw. unfold claims_within in Hw.
    destruct (reaction_closer _ _ _ Hc He) as [-> Hd]. destruct (is_poll e s); [destruct Hd as [-> ->]|]; lia.
  - by rewrite run_op_stopped.
  - by apply stopping_refuses in Hr.
  - rewrite Hq, !length_app. cbn. lia.
  - rewrite Hq, !length_app. cbn. lia.
  - apply claim_step_closer in He; [lia | done].
  - apply claim_send_closer in He. rewrite length_app. cbn. lia.
Qed.

Lemma reacts_bounded n s s' :
  reacts n s s' → cancelled s = true → cancelled s' = true ∧ (n ≤ distance s)%nat.
Proof.
  induction 1 as [s|n s s1 s2 Hs _ IH|n e s s1 s2 Hwf Hp He _ IH|n i e r s s2 He _ IH|n i x r s s2 He Hroom _ IH];
    intros Hc; [split; [done | lia]|..].
  - destruct (step_distance _ _ Hc Hs) as [Hc1 Hd]. destruct (IH Hc1). split; [done | lia].
  - destruct (step_distance s s1 Hc) as [Hc1 _]; [by eapply step_sup|]. destruct (IH Hc1) as [? Hn]. split; [done|].
    pose proof (sup_step_keeps _ _ _ _ e s s1 (sup_keeps_within _) Hwf He (le_n _)) as Hw. unfold claims_within in Hw.
    destruct (reaction_closer _ _ _ Hc He) as [Hcal Hd]. rewrite Hp in Hd. unfold distance in *. rewrite Hcal in Hn. lia.
  - destruct (step_distance s (with_rt r s) Hc) as [Hc1 _]; [by eapply step_claim|]. destruct (IH Hc1) as [? Hn].
    split; [done|]. apply claim_step_closer in He; [|done]. unfold distance in *. cbn in Hn. lia.
  - destruct (step_distance s (with_requests (su_queue s ++ [x]) (su_callers s) (with_rt r s)) Hc) as [Hc1 _];
      [by eapply step_claim_send|]. destruct (IH Hc1) as [? Hn].
    split; [done|]. apply claim_send_closer in He. unfold distance in *. cbn in Hn. rewrite length_app in Hn. cbn in Hn. lia.
Qed.

Lemma rank_bound p : (rank p ≤ 7)%nat.
Proof. destruct p as [| | | | | |? [] []| | | |]; cbn; lia. Qed.

Lemma claim_work_bound l : (claim_work l ≤ 5 * length l)%nat.
Proof. unfold claim_work. induction l as [|t l IH]; cbn; [lia|]. destruct (ct_pc t); cbn; lia. Qed.

End shutdown.
