(* ===== verification/ServiceTheorems.v ===== *)
(** * The service as a whole

    The runtime behind the IPC server, from its start: a remote session is a
    session on the runtime itself, and a secret that was provisioned is found
    by the next start. Concrete runs show what the theorems are about. *)

From S2P Require Import Prelude Net Json Text OriginLookup Api ApiTunnels ApiAccount HttpClient ApiClient IpcModel Ipc IpcCodec RuntimeError FileSystem SecretStore SecretTheorems RuntimeOptions RuntimeTunnels RuntimeState RuntimeHandle IpcServer IpcTheorems RuntimeTheory Utils.
From S2P Require Import ControlIo MaintainedControl TunnelTheorems Supervisor SupervisorTheorems ClaimTheory Shutdown.
From stdpp Require Import pretty.
#[local] Open Scope Z_scope.

Section service.
Context {FM : Formats} {JT : JsonText} {JTL : JsonTextLaws JT} {T : Transport JT}.
Context {HO : Host} {HL : HostLaws HO} {SL : SecretLib}.
Context (json_of_string : string → option value).
Context (display_api_error : ApiResponseError → string) (display_setup_error : SetupError → string).
Context {SC : Schedule json_of_string display_api_error display_setup_error}.

(** An operation on the shared state, after whatever the other tasks did. *)
Definition operation {A : Type} (m : RT A) (s : sup) : A * sup :=
  let s := elapse s in let '(a, r) := m (su_rt s) in (a, with_rt r s).

(** The runtime's handle, as the IPC server is given it. *)
Definition playit_handle : Handle := {|
  runtime := sup;
  h_subscription_snapshot := operation handle_subscription_snapshot;
  h_status := operation handle_status;
  h_lifecycle := operation handle_lifecycle;
  h_list_tunnels := operation handle_list_tunnels;
  h_list_account_tunnels := operation handle_list_account_tunnels;
  h_create_tunnel port protocol address name := operation (handle_create_tunnel port protocol address name);
  h_create_minecraft_java_tunnel port address name :=
    operation (handle_create_minecraft_java_tunnel port address name);
  h_delete_tunnel id := operation (handle_delete_tunnel id);
  h_reassign_tunnel id port address := operation (handle_reassign_tunnel id port address);
  h_account := operation handle_account;
  h_start_claim := operation handle_start_claim;
  h_set_secret secret s := handle_set_secret secret (elapse s);
  h_reset_secret := operation handle_reset_secret;
  h_secret_path s := display <$> handle_secret_path (su_rt s);
  h_account_login_url := operation handle_account_login_url;
|}.

#[local] Notation sup_wf := (λ s : sup, rt_wf (su_rt s)).

Lemma elapse_wf s : rt_wf (su_rt s) → rt_wf (su_rt (elapse s)).
Proof. eapply steps_wf, elapse_steps. Qed.

Lemma operation_value {A : Type} (m : RT A) (wf : A → Prop) s :
  (∀ r, rt_wf r → wf (m r).1 ∧ rt_wf (m r).2) → rt_wf (su_rt s) →
  wf (operation m s).1 ∧ rt_wf (su_rt (operation m s).2).
Proof.
  intros Hm Hs. specialize (Hm _ (elapse_wf _ Hs)). unfold operation. by destruct (m (su_rt (elapse s))).
Qed.

Lemma operation_sound {A : Type} (m : RT (RuntimeError + A)) (wf : A → Prop) :
  op_wf rt_wf wf m → op_wf sup_wf wf (operation m).
Proof. intros Hm s Hs. by apply operation_value. Qed.

Lemma set_secret_sound secret :
  op_wf sup_wf (λ _, True)
    (λ s, handle_set_secret secret (elapse s)).
Proof.
  intros s Hs%elapse_wf. pose proof (set_secret_ready_sound _ Hs) as [He Hr]. unfold handle_set_secret.
  destruct (set_secret_ready _) as [[e|[]] r]; [done|]. cbn [fst snd] in *.
  match goal with |- context [await_answer ?x ?y] =>
    pose proof (provisioned_steps _ _ _ _ _ _ _ (await_answer_provisioned x y)) as Hst;
    destruct (await_answer x y) as [answer s'] end.
  split; [|by eapply steps_wf]. by destruct answer as [[m|[]]|].
Qed.

(** It keeps what the server relies on. *)
Definition playit_handle_wf : HandleWf playit_handle := {|
  handle_inv := sup_wf : runtime (Handle := playit_handle) → Prop;
  wf_subscription_snapshot s := operation_value _ _ s snapshot_sound;
  wf_status s := operation_value _ _ s status_sound;
  wf_lifecycle s := operation_value _ _ s lifecycle_sound;
  wf_list_tunnels := operation_sound _ _ list_tunnels_sound;
  wf_list_account_tunnels := operation_sound _ _ list_account_tunnels_sound;
  wf_create_tunnel p q a n := operation_sound _ _ (create_tunnel_sound p q a n);
  wf_create_minecraft p a n := operation_sound _ _ (create_minecraft_sound p a n);
  wf_delete_tunnel i := operation_sound _ _ (delete_tunnel_sound i);
  wf_reassign_tunnel i p a := operation_sound _ _ (reassign_tunnel_sound i p a);
  wf_account := operation_sound _ _ account_sound;
  wf_start_claim := operation_sound _ _ start_claim_sound;
  wf_set_secret := set_secret_sound;
  wf_reset_secret := operation_sound _ _ reset_secret_sound;
  wf_account_login_url := operation_sound _ _ account_login_url_sound;
|}.

#[local] Existing Instance playit_handle.
#[local] Existing Instance playit_handle_wf.

(** The server on a runtime. *)
Definition serve (socket_path : string) (s : sup) : IpcServer :=
  {| sv_runtime := s; sv_socket_path := socket_path; sv_host_shutdown := false |}.

(** C8: A client of the service is a client of the runtime. In every state a
    started runtime reaches, a client that connects and makes any sequence of
    calls, subscribing apart (which turns the connection into a stream of
    events), gets, call for call, the results the runtime's handle gives when
    the same operations are called on it directly, an error of the runtime
    arriving as the service error it stands for, and the runtime ends in the
    same state. This holds whatever the runtime's tasks do before each call,
    and however a secret that is set goes through the provisioning channel:
    taken, stored and answered by the supervisor among any other steps, or
    given up because the runtime is stopped. *)
Theorem service_refines (overflow_checks : bool) (events_due : connection → list ServiceUpdate)
    (uuid_error : string → string) (platform : Platform) (options : RuntimeOptions)
    (tr : traffic JT) (disk : fs) (asked : nat) (socket_path : string) (s0 s : sup) (calls : list call) :
  start_runtime uuid_error platform options tr disk asked = inr s0 →
  rtc (step json_of_string display_api_error display_setup_error) s0 s →
  Forall call_wf calls → Z.of_nat (length calls) < 2 ^ 64 - 1 →
  let server := serve socket_path s in
  ∃ client p client' p',
    connect link_next (link_accept server) = (Ok client, p) ∧ server_protocol client = protocol_info ∧
    remote_calls overflow_checks events_due calls client p =
      (map as_remote (direct_calls calls server).1, client', p') ∧
    linked p' (direct_calls calls server).2.
Proof.
  intros Hstart Hrun Hwf Hlen server. apply session_refines; [|done..].
  by eapply reachable_wf.
Qed.
End service.

(** ** A provisioned secret is kept *)

Section provisioned.
Context {FM : Formats} {JT : JsonText} {T : Transport JT} {HO : Host} {SL : SecretLib} {LL : SecretLibLaws SL}.
Context (json_of_string : string → option value).
Context (display_api_error : ApiResponseError → string) (display_setup_error : SetupError → string).
#[local] Notation sup_step := (sup_step json_of_string display_api_error display_setup_error).

(** A started runtime has the disk it was started on, and the source its
    options name. *)
Lemma start_disk uuid_error platform options tr disk asked r :
  start_runtime uuid_error platform options tr disk asked = inr r →
  su_pc r = PcStart ∧ rt_fs (su_rt r) = disk ∧
  ri_secret_source (rt_inner (su_rt r)) = SecretSource_from_options options.
Proof.
  unfold start_runtime. destruct (validate_options options) as [|[]]; [done|]. cbv zeta.
  destruct (match ro_secret options with Some _ => _ | None => _ end); [done|].
  unfold make_inner. destruct (agent_version _ _); [done|].
  destruct (publish_starting false _) as [u r'] eqn:Hp. intros [= <-]. cbn [su_pc su_rt].
  by injection Hp as _ <-.
Qed.

(** The supervisor starts to build with a secret it can load. *)
Lemma run_supervisor_ready s secret :
  (SecretSource_load (E := Empty_set) (ri_secret_source (rt_inner s)) (rt_fs s)).1 = inr (Ready secret) →
  (run_supervisor s).1 = PcBuild secret 0.
Proof.
  intros Hl. unfold run_supervisor. unfold mbind at 1, RT_bind. cbn [rt_get].
  unfold mbind at 1, RT_bind, rt_disk. revert Hl.
  by destruct (SecretSource_load _ _) as [[[]|ld] fs']; cbn; intros [= ->].
Qed.

(** An accepted request left the secret on the disk. *)
Lemma accepted_stored a secret s k a' ack s' p :
  on_provision_request a secret s = ((PcBuild k a', ack), s') →
  secret_path (ri_secret_source (rt_inner s)) = Some p →
  k = str_trim secret ∧ a' = a ∧ ack = inr () ∧ validate_secret k = inr k ∧
  ∃ mode, fs_nodes (rt_fs s') !! p = Some (File (stored p k) mode).
Proof.
  intros Hr Hp. unfold on_provision_request, provision, mbind, RT_bind in Hr. cbn [rt_get rt_ask] in Hr.
  rewrite Hp in Hr. unfold rt_disk in Hr. cbn [rt_fs] in Hr.
  destruct (persist_secret_file _ _ _ _ _) as [[e|k'] d] eqn:Hd; cbn in Hr; [done|].
  injection Hr as <- <- <- <-. destruct (persist_replaced _ _ _ _ _ _ _ Hd) as [(_ & _ & _ & _ & Hs) Hk].
  destruct (Hk _ eq_refl) as [-> Hv]. split_and!; [done..|]. eexists. by apply (Hs _ eq_refl).
Qed.

(** C27: A secret the runtime accepted is not lost. When the supervisor took a
    secret from its channel and went on to build the agent with it, it is the
    trimmed secret that was sent, its sender is told so, and a runtime started
    later on the same disk and path, if it can read it, loads it and goes
    straight to building the agent with it. *)
Theorem provisioned_secret_survives (uuid_error : string → string) (platform : Platform)
    (options : RuntimeOptions) (tr : traffic JT) (asked : nat) (s r : sup) (a a' : Z)
    (secret k : string) (ack : string + ()) (rt' : rt) :
  on_provision_request a secret (su_rt s) = ((PcBuild k a', ack), rt') →
  SecretSource_from_options options = ri_secret_source (rt_inner (su_rt s)) →
  ro_secret options = None → fs_faults (rt_fs rt') = [] →
  start_runtime uuid_error platform options tr (rt_fs rt') asked = inr r →
  k = str_trim secret ∧ ack = inr () ∧
  ∃ r', sup_step EvStart r = Some r' ∧ su_pc r' = PcBuild k 0.
Proof.
  intros Hreq Hsrc Hnone Hf Hstart. unfold SecretSource_from_options in Hsrc. rewrite Hnone in Hsrc.
  destruct (accepted_stored _ _ _ _ _ _ _ (ro_secret_path options) Hreq) as (-> & _ & -> & Hv & mode & Hdisk);
    [by rewrite <-Hsrc|].
  split; [done|]. split; [done|]. destruct (start_disk _ _ _ _ _ _ _ Hstart) as (Hpc & Hfs & Hs).
  unfold Supervisor.sup_step. rewrite Hpc. unfold at_pc.
  pose proof (run_supervisor_ready (su_rt r) (str_trim secret)) as Hrun.
  destruct (run_supervisor (su_rt r)) as [p x]. eexists. split; [done|]. apply Hrun.
  rewrite Hs, Hfs. unfold SecretSource_from_options. rewrite Hnone. eapply load_stored; [done..|].
  rewrite Hf. set_solver.
Qed.
End provisioned.

(** ** Runs *)

Section runs.
Context {FM : Formats} {JT : JsonText} {T : Transport JT} {HO : Host} {SL : SecretLib}.
Context (json_of_string : string → option value).
Context (display_api_error : ApiResponseError → string) (display_setup_error : SetupError → string).
#[local] Notation sup_step := (sup_step json_of_string display_api_error display_setup_error).
#[local] Notation step := (step json_of_string display_api_error display_setup_error).

(** What happens in a run: an event, another task's operation, a caller that is
    let through with a secret, the first such caller's sending, or a step of a
    claim task. *)
Inductive happening : Type :=
  | Event (e : sup_event)
  | Op (o : handle_op)
  | Call (secret : string)
  | Send
  | ClaimEvent (n : nat) (e : claim_event)
  | ClaimHandsOver (n : nat).

Definition room (s : sup) : bool := channel_open (su_pc s) && (length (su_queue s) <? PROVISION_CAPACITY)%nat.

Definition happens (h : happening) (s : sup) : option sup :=
  match h with
  | Event e => match e with EvStatsTick _ => None | _ => sup_step e s end
  | Op o => Some (with_rt (run_op o (su_rt s)).2 s)
  | Call secret =>
      match (set_secret_ready (su_rt s)).1 with
      | inr () => Some (with_requests (su_queue s) (su_callers s ++ [secret])
                          (with_rt (set_secret_ready (su_rt s)).2 s))
      | inl _ => None
      end
  | Send =>
      match su_callers s with
      | secret :: callers =>
          if room s
          then Some (with_requests (su_queue s ++ [secret]) callers s) else None
      | [] => None
      end
  | ClaimEvent n e => r ← claim_step n e (su_rt s); Some (with_rt r s)
  | ClaimHandsOver n =>
      '(secret, r) ← claim_send n (su_rt s);
      if room s then Some (with_requests (su_queue s ++ [secret]) (su_callers s) (with_rt r s)) else None
  end.

Lemma room_sends s : room s = true → can_send s.
Proof. unfold room, can_send. intros [? ?%Nat.ltb_lt]%andb_prop. done. Qed.

Fixpoint exec (l : list happening) (s : sup) : option sup :=
  match l with
  | [] => Some s
  | h :: l => s1 ← happens h s; exec l s1
  end.

Lemma happens_step h s s' : happens h s = Some s' → step s s'.
Proof.
  destruct h as [e|o|secret| |n e|n]; unfold happens.
  - intros He. apply (step_sup _ _ _ e); by destruct e.
  - intros [= <-]. apply step_op.
  - destruct (set_secret_ready (su_rt s)).1 as [|[]] eqn:Hr; [done|]. intros [= <-]. by apply step_call.
  - destruct (su_callers s) as [|secret callers] eqn:Hc; [done|].
    destruct (room s) eqn:Hroom; [|done].
    intros [= <-]. apply (step_send _ _ _ [] secret callers); [done | by apply room_sends].
  - intros (r & Hr & [= <-])%bind_Some. by eapply step_claim.
  - intros ([secret r] & Hr & Hs)%bind_Some. destruct (room s) eqn:Hroom; [|done].
    injection Hs as <-. eapply step_claim_send; [exact Hr | by apply room_sends].
Qed.

Lemma exec_steps l s s' : exec l s = Some s' → rtc step s s'.
Proof.
  revert s. induction l as [|h l IH]; intros s; cbn; [by intros [= ->]|].
  intros (s1 & Hh & Hl)%bind_Some. eapply rtc_l; [by eapply happens_step | by apply IH].
Qed.
End runs.

(** The result of a computation that succeeds. *)
Lemma computed {A : Type} (x : option A) : (if x then true else false) = true → {a | x = Some a}.
Proof. destruct x as [a|]; [|done]. intros _. by exists a. Defined.

(** A host, options, and an API that cannot be reached. *)
#[export] Instance plain_host : Host := {|
  host_now n := Z.of_nat n mod 2 ^ 64;
  host_pid := 7;
  host_status_text := pretty;
  host_claim_code n := "0123456789";
  host_unique n := pretty n;
  host_dir_mode := 493;
|}.

#[export] Instance plain_host_laws : HostLaws plain_host.
Proof. split; [intros n; cbn; apply Z.mod_pos_bound; done | done]. Qed.

Definition offline : Transport value_text := {|
  build_error _ := None;
  answer_to _ _ := NoResponse {| is_connect := true; is_timeout := false; is_request := false; is_body := false |};
  http_date _ _ := None;
|}.

Definition plain_options : RuntimeOptions := {|
  ro_secret_path := etc_secret;
  ro_secret := None;
  ro_version := {| vd_variant_id := show uuid_text 7; vd_major := 1; vd_minor := 0; vd_patch := 10 |};
  ro_platform_docker := false;
  ro_api_base := "https://api.playit.gg";
|}.

Section examples.
Context {T : Transport value_text}.
#[local] Existing Instance value_text.

Definition started : RuntimeError + sup :=
  start_runtime (λ _, "invalid"%string) Platform_Linux plain_options quiet (no_faults disk) 0.

Definition runs (l : list happening) (s : sup) : option sup :=
  exec (λ _, None) (λ _, "rejected"%string) (λ _, "failed"%string) l s.

Definition run_from_start (l : list happening) : option sup :=
  match started with inr s => runs l s | inl _ => None end.

Lemma run_from_start_steps l s' :
  run_from_start l = Some s' →
  ∃ s, started = inr s ∧ rtc (step (λ _, None) (λ _, "rejected"%string) (λ _, "failed"%string)) s s'.
Proof.
  unfold run_from_start. destruct started as [|s]; [done|]. intros Hl. exists s. split; [done|].
  by eapply exec_steps.
Qed.
End examples.

(** The secret is not valid any more. *)
Definition key_rejected : SetupError := ControlIo.ApiError (ApiResponseError_Auth AuthError_InvalidAgentKey).

Definition summary {JT : JsonText} (s : option sup) : option (pc * list string * AgentLifecycle) :=
  s ← s; Some (su_pc s, su_queue s, sc_lifecycle (ri_cache (rt_inner (su_rt s)))).

(** A second secret that is sent while the supervisor waits stays in the
    channel once the first was accepted; it is taken, and stored over the
    first, when the supervisor next waits. *)
Example stale_request_taken :
  let before := [Event EvStart; Call "aa"; Call "bb"; Send; Send; Event EvRequest]%string in
  summary (run_from_start (T := offline) before) = Some (PcBuild "aa" 0, ["bb"]%string, Starting) ∧
  summary (run_from_start (T := offline) (before ++ [Event EvHead; Event EvRunData;
      Event (EvBuilt (inl key_rejected)); Event EvRequest])) =
    Some (PcBuild "bb" 0, [], Starting).
Proof. split; vm_compute; reflexivity. Qed.

(** A secret that is refused because it is not hexadecimal is reported as a
    failed write that may be retried. *)
Example invalid_secret_reported :
  match run_from_start (T := offline) [Event EvStart; Call "not hex"; Send]%string with
  | Some s => set_secret_done (Some (on_provision_request 0 "not hex" (su_rt s)).1.2)
  | None => inl RuntimeStopped
  end = inl (RuntimeError_secret SecretWriteFailed
    "secret error: The secret is not valid. It should be the key generated by playit setup." true).
Proof. vm_compute. reflexivity. Qed.

(** An API that answers every request with the data of an agent with no
    tunnels. *)
Definition no_tunnels : AgentRunDataV1 := {|
  AgentRunDataV1_agent_id := 7; AgentRunDataV1_tunnels := []; AgentRunDataV1_pending := [];
  AgentRunDataV1_notices := [];
  AgentRunDataV1_permissions := {| AgentPermissions_is_self_managed := true; AgentPermissions_has_premium := false;
                                   AgentPermissions_account_status := ApiAccountStatus_Verified |};
|}.

Definition online : Transport value_text := {|
  build_error _ := None;
  answer_to _ _ := Response (JT := value_text) 200 None
    (@to_value _ (ApiResult_serde AgentRunDataV1_serde Serde_unit) (ApiSuccess no_tunnels));
  http_date _ _ := None;
|}.

(** Where a run leaves the supervisor, and what the runtime then shows. *)
Definition shown {JT : JsonText} (s : option sup) : option (bool * bool * ServicePhase) :=
  s ← s;
  Some (match su_pc s with PcDone _ => true | _ => false end,
        match sc_lifecycle (ri_cache (rt_inner (su_rt s))) with Running _ => true | _ => false end,
        ss_phase (sc_status (ri_cache (rt_inner (su_rt s))))).

(** A poll of the account that is under way when the runtime is shut down
    publishes its answer after the stop: the runtime ends with the lifecycle of
    a running agent. *)
Definition stopped_run : list happening :=
  [Event EvStart; Call "aa"%string; Send; Event EvRequest; Event EvHead; Event EvRunData;
   Event (EvBuilt (inr ())); Op OpShutdown;
   Event EvCancelled; Event EvAccountTick; Event EvJoined; Event EvClaimsJoined].

Example running_after_stop :
  shown (run_from_start (T := online) stopped_run) = Some (true, true, PhaseStopping).
Proof. vm_compute. reflexivity. Qed.

(** ** Witnesses *)

Lemma supervisor_coherent_witness :
  ∃ s' a, run_from_start (T := offline) [Event EvStart] = Some s' ∧
    (set_secret_ready (su_rt s')).1 = inr () ∧ su_pc s' = PcWait a.
Proof.
  destruct (computed (run_from_start (T := offline) [Event EvStart; Call "aa"%string])) as [s1 Hs1];
    [vm_compute; reflexivity|].
  destruct (computed (run_from_start (T := offline) [Event EvStart])) as [s' Hs']; [vm_compute; reflexivity|].
  exists s'. destruct (run_from_start_steps _ _ Hs') as (s & Hs & Hrun).
  destruct (supervisor_coherent _ _ _ _ _ _ _ _ _ _ _ Hs Hrun) as [_ Hw].
  assert (Hready : (set_secret_ready (su_rt s')).1 = inr ()).
  { unfold run_from_start in Hs', Hs1. destruct started as [|s0]; [done|]. cbn [runs exec] in Hs', Hs1.
    destruct (happens _ _ _ _ _) as [x|]; [|done]. cbn in Hs'. injection Hs' as ->.
    unfold mbind, option_bind in Hs1. cbn in Hs1.
    unfold happens in Hs1. by destruct ((set_secret_ready (su_rt s')).1) as [|[]]. }
  destruct (Hw Hready) as [a Ha]. by exists a.
Defined.

(** A schedule: nothing happens between the calls, and a secret that is alone is
    taken at once; otherwise the runtime is shut down. *)
Section prompt.
Context {FM : Formats} {JT : JsonText} {T : Transport JT} {HO : Host} {SL : SecretLib}.
Context (json_of_string : string → option value).
Context (display_api_error : ApiResponseError → string) (display_setup_error : SetupError → string).

Definition prompt_answer (secret : string) (s : sup) : provision_answer * sup :=
  match su_pc s, su_queue s, su_callers s with
  | PcWait a, [], [x] =>
      if decide (x = secret) then
        let '(p, ack, r) := on_provision_request a secret (su_rt s) in
        (Some ack, {| su_pc := p; su_rt := r; su_queue := []; su_callers := [] |})
      else (None, with_rt (run_op OpShutdown (su_rt s)).2 s)
  | _, _, _ => (None, with_rt (run_op OpShutdown (su_rt s)).2 s)
  end.

Lemma prompt_answer_provisioned secret s :
  provisioned json_of_string display_api_error display_setup_error secret s
    (prompt_answer secret s).1 (prompt_answer secret s).2.
Proof.
  assert (Hstop : provisioned json_of_string display_api_error display_setup_error secret s
    None (with_rt (run_op OpShutdown (su_rt s)).2 s)).
  { apply provisioned_stopped; [|done]. apply rtc_once, step_op. }
  unfold prompt_answer. destruct (su_pc s) as [|a| | | | | | | | |] eqn:Hpc; try exact Hstop.
  destruct (su_queue s) eqn:Hq; [|exact Hstop]. destruct (su_callers s) as [|x [|y l]] eqn:Hc; try exact Hstop.
  case_decide as Hx; [subst x | exact Hstop].
  destruct (on_provision_request a secret (su_rt s)) as [[p ack] r] eqn:Hr.
  apply (provisioned_answer _ _ _ secret s (with_requests [secret] [] s) a [] p ack r); [|done|done|exact Hr|done].
  apply rtc_once. pose proof (step_send json_of_string display_api_error display_setup_error [] secret [] s Hc) as Hs.
  rewrite Hq in Hs. apply Hs. unfold can_send. rewrite Hpc, Hq. cbn. unfold PROVISION_CAPACITY. split; [done | lia].
Qed.

Definition prompt : Schedule json_of_string display_api_error display_setup_error := {|
  elapse s := s;
  await_answer := prompt_answer;
  elapse_steps s := rtc_refl _ s;
  await_answer_provisioned := prompt_answer_provisioned;
|}.
End prompt.

(** Asking for the status, provisioning a secret, and asking again. *)
Definition session : list call :=
  [existT (P := method) ServiceStatus MStatus; existT (P := method) CommandResponse (MSetSecret "aa");
   existT (P := method) AgentLifecycle MLifecycle].

Definition offline_prompt := prompt (T := offline) (λ _, None) (λ _, "rejected"%string) (λ _, "failed"%string).

(** The secret is accepted, and the last call finds the agent being built. *)
Lemma service_refines_witness :
  ∃ s', run_from_start (T := offline) [Event EvStart] = Some s' ∧
  let server := serve (T := offline) _ _ _ (SC := offline_prompt) "/run/playit.sock" s' in
  ∃ client p client' p',
    connect link_next (link_accept server) = (Ok client, p) ∧
    remote_calls (JT := value_text) (H := playit_handle (T := offline) _ _ _ (SC := offline_prompt)) true (λ _, [])
        session client p =
      (map as_remote (direct_calls session server).1, client', p') ∧
    (direct_calls session server).1 !! 1%nat =
      Some (existT (P := λ A, RuntimeError + A)%type CommandResponse (inr (accepted "secret provisioned"))) ∧
    (direct_calls session server).1 !! 2%nat =
      Some (existT (P := λ A, RuntimeError + A)%type AgentLifecycle (inr Starting)).
Proof.
  destruct (computed (run_from_start (T := offline) [Event EvStart])) as [s' Hs']; [vm_compute; reflexivity|].
  exists s'. split; [done|]. destruct (run_from_start_steps _ _ Hs') as (s & Hs & Hrun).
  destruct (service_refines (JTL := value_text_laws) (SC := offline_prompt) _ _ _ true (λ _, []) _ _ _ _ _ _
    "/run/playit.sock"%string _ _ session Hs Hrun) as (client & p & client' & p' & Hc & _ & Hr & _).
  - repeat constructor.
  - done.
  - exists client, p, client', p'. split_and!; [done | done | |];
      vm_compute in Hs'; injection Hs' as <-; vm_compute; reflexivity.
Defined.

(** The state a request is taken in, and the request. *)
Lemma provisioned_secret_survives_witness :
  ∃ s r r', run_from_start (T := offline) [Event EvStart] = Some s ∧
    start_runtime (λ _, "invalid"%string) Platform_Linux plain_options quiet
      (rt_fs (on_provision_request 0 " aa " (su_rt s)).2) 0 = inr r ∧
    runs (T := offline) [Event EvStart] r = Some r' ∧ su_pc r' = PcBuild "aa" 0.
Proof.
  destruct (computed (run_from_start (T := offline) [Event EvStart])) as [s Hs]; [vm_compute; reflexivity|].
  assert (Hok : match run_from_start (T := offline) [Event EvStart] with
    | Some s => let x := on_provision_request 0 " aa " (su_rt s) in
        (x.1, fs_faults (rt_fs x.2), ri_secret_source (rt_inner (su_rt s)),
         match start_runtime (λ _, "invalid"%string) Platform_Linux plain_options quiet (rt_fs x.2) 0 with
         | inr _ => true | inl _ => false end)
    | None => ((PcStart, inr ()), [], InlineSecret EmptyString, false)
    end = ((PcBuild "aa" 0, inr ()), [], SecretFile etc_secret, true)) by (vm_compute; reflexivity).
  rewrite Hs in Hok. cbv zeta in Hok. apply pair_equal_spec in Hok as [Hok Hstart]. apply pair_equal_spec in Hok as [Hok Hsrc].
  apply pair_equal_spec in Hok as [Hx Hf].
  destruct (start_runtime _ _ _ _ _ _) as [|r] eqn:Hr; [done|].
  destruct (provisioned_secret_survives (T := offline) (λ _, None) (λ _, "rejected"%string) (λ _, "failed"%string)
    (λ _, "invalid"%string) Platform_Linux plain_options quiet 0 s r 0 0 " aa " "aa" (inr ()) (on_provision_request 0 " aa " (su_rt s)).2)
    as (_ & _ & r' & Hr' & Hpc); [| done | done | done | exact Hr |].
  { rewrite <-Hx. apply surjective_pairing. }
  exists s, r, r'. split; [done|]. split; [done|]. split; [|done].
  unfold runs, exec, happens. by rewrite Hr'.
Defined.

(** A claim is started, and asks the API once. *)
Lemma one_claim_at_a_time_witness :
  ∃ s, run_from_start (T := offline) [Event EvStart; Op OpStartClaim; ClaimEvent 0 CeCheck] = Some s ∧
    claims_under_way (ri_claim_tasks (rt_inner (su_rt s))) = option_list (ri_claim_code (rt_inner (su_rt s))) ∧
    is_Some (ri_claim_code (rt_inner (su_rt s))).
Proof.
  destruct (computed (run_from_start (T := offline) [Event EvStart; Op OpStartClaim; ClaimEvent 0 CeCheck]))
    as [s' Hs']; [vm_compute; reflexivity|].
  exists s'. split; [done|]. destruct (run_from_start_steps _ _ Hs') as (s & Hs & Hrun).
  destruct (one_claim_at_a_time _ _ _ _ _ _ _ _ _ _ _ Hs Hrun) as [H1 _]. split; [done|].
  assert (Hc : (s ← run_from_start (T := offline) [Event EvStart; Op OpStartClaim; ClaimEvent 0 CeCheck];
                ri_claim_code (rt_inner (su_rt s))) = Some (host_claim_code 2)) by (vm_compute; reflexivity).
  rewrite Hs' in Hc. cbn in Hc. rewrite Hc. by eexists.
Defined.


Lemma stopped_handle_inert_witness :
  ∃ s, run_from_start (T := offline) [Event EvStart; Op OpShutdown] = Some s ∧
    refused set_secret_ready (su_rt s) ∧ refused (handle_reset_secret) (su_rt s).
Proof.
  destruct (computed (run_from_start (T := offline) [Event EvStart; Op OpShutdown])) as [s Hs];
    [vm_compute; reflexivity|].
  assert (Hc : (cancelled <$> run_from_start (T := offline) [Event EvStart; Op OpShutdown]) = Some true)
    by (vm_compute; reflexivity).
  rewrite Hs in Hc. injection Hc as Hc. exists s. split; [done|].
  destruct (stopped_handle_inert (T := offline) (su_rt s) Hc) as (_ & _ & _ & _ & _ & _ & _ & _ & _ & H1 & H2).
  by split.
Defined.
