(* ===== verification/Program.v ===== *)
(** * Interactive programs

    A program that talks to its surroundings, as a tree: it returns, or makes
    a call and continues with the answer, or loops. What it does is the set of
    its traces, the calls with the answers they got; every answer is possible,
    so what holds of every trace holds whatever the surroundings do. A program
    logic for traces: a protocol says which call may follow which history, and
    a triple relates the history before a program to the history and the result
    after it. Histories are often summed up in a state, which each call
    advances; programs of one kind of calls are part of programs of another.
    And an interpreter, which runs a program with given surroundings. *)

From S2P Require Import Prelude.
#[local] Open Scope list_scope.

(** ** Programs *)

Section programs.
Context {E : Type → Type}.

Inductive prog : Type → Type :=
  | Ret {A} (a : A) : prog A
  | Vis {X A} (e : E X) (k : X → prog A) : prog A
  | Iter {I R A} (body : I → prog (I + R)) (i : I) (k : R → prog A) : prog A.

Fixpoint prog_then {A B} (m : prog A) : (A → prog B) → prog B :=
  match m in prog A return (A → prog B) → prog B with
  | Ret a => λ k, k a
  | Vis e k' => λ k, Vis e (λ x, prog_then (k' x) k)
  | Iter body i k' => λ k, Iter body i (λ r, prog_then (k' r) k)
  end.

(** One call, and [loop] (the state of the loop, or what it ends with). *)
Definition perform {X} (e : E X) : prog X := Vis e Ret.
Definition iterate {I R} (body : I → prog (I + R)) (i : I) : prog R := Iter body i Ret.

(** ** Traces *)

Record event : Type := Event { ev_type : Type; ev_call : E ev_type; ev_answer : ev_type }.

(** The traces of a loop, from those of its body and of what follows it. *)
Inductive looping {I R A} (B : I → list event → option (I + R) → Prop)
    (K : R → list event → option A → Prop) : I → list event → option A → Prop :=
  | loop_inside i t : B i t None → looping B K i t None
  | loop_again i i' t1 t2 o :
      B i t1 (Some (inl i')) → looping B K i' t2 o → looping B K i (t1 ++ t2) o
  | loop_left i r t1 t2 o :
      B i t1 (Some (inr r)) → K r t2 o → looping B K i (t1 ++ t2) o.

(** [exec m t o]: [m] can have made the calls [t] and then have returned
    ([o = Some a]) or not yet ([o = None]). *)
Fixpoint exec {A} (m : prog A) : list event → option A → Prop :=
  match m with
  | Ret a => λ t o, t = [] ∧ (o = None ∨ o = Some a)
  | Vis e k => λ t o,
      (t = [] ∧ o = None) ∨ ∃ x t', t = Event _ e x :: t' ∧ exec (k x) t' o
  | Iter body i k => looping (λ i, exec (body i)) (λ r, exec (k r)) i
  end.

(** ** The traces of a sequence *)


Lemma exec_then {A B} (m : prog A) (k : A → prog B) t o :
  exec (prog_then m k) t o →
  (o = None ∧ exec m t None) ∨
  ∃ a t1 t2, t = t1 ++ t2 ∧ exec m t1 (Some a) ∧ exec (k a) t2 o.
Proof.
  revert k t o. induction m as [A a|X A e k' IH|I R A body IHb i k' IH]; intros k t o; cbn.
  - intros Hk. right. exists a, [], t. split_and!; auto.
  - intros [[-> ->]|(x & t' & -> & Hk)]; [left; eauto|].
    apply IH in Hk as [[-> Hk]|(a & t1 & t2 & -> & H1 & H2)].
    + left. split; [done|]. right. eauto.
    + right. exists a, (Event _ e x :: t1), t2. split_and!; eauto.
  - intros Hl. induction Hl as [i t Hb|i i' t1 t2 o Hb Hl IHl|i r t1 t2 o Hb Hk].
    + left. split; [done|]. by constructor.
    + destruct IHl as [[-> Hn]|(a & u1 & u2 & -> & H1 & H2)].
      * left. split; [done|]. eapply loop_again; eauto.
      * right. exists a, (t1 ++ u1), u2. rewrite (assoc_L (++)). split_and!; [done| |done].
        eapply loop_again; eauto.
    + apply IH in Hk as [[-> Hk]|(a & u1 & u2 & -> & H1 & H2)].
      * left. split; [done|]. eapply loop_left; eauto.
      * right. exists a, (t1 ++ u1), u2. rewrite (assoc_L (++)). split_and!; [done| |done].
        eapply loop_left; eauto.
Qed.

Lemma exec_nil {A} (m : prog A) : exec m [] None.
Proof.
  induction m as [A a|X A e k' IH|I R A body IHb i k' IH]; cbn; eauto.
  constructor. apply IHb.
Qed.

(** ** A logic of traces *)

Section logic.
Context (ok : list event → event → Prop).

(** Every call of [t] is one the protocol allows after [h] and those before it. *)
Definition obeys (h t : list event) : Prop :=
  ∀ t1 e t2, t = t1 ++ e :: t2 → ok (h ++ t1) e.

Definition triple {A} (P : list event → Prop) (m : prog A) (Q : A → list event → Prop) : Prop :=
  ∀ h t o, P h → exec m t o → obeys h t ∧ ∀ a, o = Some a → Q a (h ++ t).

Lemma obeys_nil h : obeys h [].
Proof. intros [] ? ? ?; done. Qed.

Lemma obeys_app h t1 t2 : obeys h t1 → obeys (h ++ t1) t2 → obeys h (t1 ++ t2).
Proof.
  intros H1 H2 u1 e u2 Heq.
  apply app_eq_app in Heq as [l [[-> Hl]|[-> Hl]]].
  - destruct l as [|e' l]; cbn in Hl.
    + rewrite (right_id_L [] (++)) in H2. rewrite <- (right_id_L [] (++) (h ++ u1)).
      by apply (H2 [] e u2).
    + injection Hl as <- ->. by apply (H1 u1 e l).
  - rewrite (assoc_L (++)). by apply (H2 l e u2).
Qed.

Lemma obeys_cons h e t : ok h e → obeys (h ++ [e]) t → obeys h (e :: t).
Proof.
  intros He Ht. apply (obeys_app h [e] t); [|done].
  intros [|e' u1] e'' u2 Heq; cbn in Heq; [|by destruct u1].
  injection Heq as <- _. by rewrite (right_id_L [] (++)).
Qed.

Lemma triple_ret {A} (P : list event → Prop) (a : A) (Q : A → list event → Prop) :
  (∀ h, P h → Q a h) → triple P (Ret a) Q.
Proof.
  intros HQ h t o HP [-> [->| ->]]; (split; [apply obeys_nil|]); [done|].
  intros ? [= <-]. rewrite (right_id_L [] (++)). auto.
Qed.

Lemma triple_then {A B} P (m : prog A) R (k : A → prog B) Q :
  triple P m R → (∀ a, triple (R a) (k a) Q) → triple P (prog_then m k) Q.
Proof.
  intros Hm Hk h t o HP Ht.
  apply exec_then in Ht as [[-> Ht]|(a & t1 & t2 & -> & H1 & H2)].
  - split; [|done]. by apply (Hm h t None).
  - destruct (Hm h t1 (Some a) HP H1) as [Ho HR].
    destruct (Hk a (h ++ t1) t2 o (HR a eq_refl) H2) as [Ho' HQ].
    split; [by apply obeys_app|]. by rewrite (assoc_L (++)).
Qed.

Lemma triple_vis {X A} (P : list event → Prop) (e : E X) (k : X → prog A) Q :
  (∀ h x, P h → ok h (Event _ e x)) →
  (∀ x, triple (λ h', ∃ h, h' = h ++ [Event _ e x] ∧ P h) (k x) Q) →
  triple P (Vis e k) Q.
Proof.
  intros Hok Hk h t o HP [[-> ->]|(x & t' & -> & Ht)].
  - split; [apply obeys_nil|done].
  - destruct (Hk x (h ++ [Event _ e x]) t' o) as [Ho HQ]; [by eauto|done|].
    split; [by apply obeys_cons; auto|]. intros a ->.
    change (Event X e x :: t') with ([Event X e x] ++ t'). rewrite (assoc_L (++)). by apply HQ.
Qed.

Lemma triple_iter {I R A} (Inv : I → list event → Prop) (body : I → prog (I + R)) i
    (k : R → prog A) (S : R → list event → Prop) Q :
  (∀ i, triple (Inv i) (body i) (λ ir h, match ir with inl i' => Inv i' h | inr r => S r h end)) →
  (∀ r, triple (S r) (k r) Q) →
  triple (Inv i) (Iter body i k) Q.
Proof.
  intros Hb Hk h t o HP Hl. cbn in Hl. revert h HP.
  induction Hl as [i t Ht|i i' t1 t2 o Ht Hl IHl|i r t1 t2 o Ht Hr]; intros h HP.
  - split; [|done]. by apply (Hb i h t None).
  - destruct (Hb i h t1 _ HP Ht) as [Ho Hi]. specialize (Hi _ eq_refl). cbn in Hi.
    destruct (IHl _ Hi) as [Ho' HQ]. split; [by apply obeys_app|]. by rewrite (assoc_L (++)).
  - destruct (Hb i h t1 _ HP Ht) as [Ho Hi]. specialize (Hi _ eq_refl). cbn in Hi.
    destruct (Hk r _ _ _ Hi Hr) as [Ho' HQ]. split; [by apply obeys_app|]. by rewrite (assoc_L (++)).
Qed.

Lemma triple_conseq {A} (P P' : list event → Prop) (m : prog A) (Q Q' : A → list event → Prop) :
  triple P' m Q' → (∀ h, P h → P' h) → (∀ a h, Q' a h → Q a h) → triple P m Q.
Proof. intros Hm HP HQ h t o Hh Ht. destruct (Hm h t o) as [??]; auto. Qed.

Lemma triple_post {A} P (m : prog A) (Q Q' : A → list event → Prop) :
  triple P m Q' → (∀ a h, Q' a h → Q a h) → triple P m Q.
Proof. intros Hm HQ. by eapply triple_conseq; [exact Hm| |]. Qed.

Lemma triple_given {A} (F : Prop) P (m : prog A) Q : (F → triple P m Q) → triple (λ h, F ∧ P h) m Q.
Proof. intros Hm h t o [HF HP]. by apply Hm. Qed.

Lemma triple_perform {X} (P : list event → Prop) (e : E X) (Q : X → list event → Prop) :
  (∀ h x, P h → ok h (Event _ e x) ∧ Q x (h ++ [Event _ e x])) → triple P (perform e) Q.
Proof.
  intros H. apply triple_vis; [intros h x Hh; by apply H|].
  intros x. apply triple_ret. intros h' (h & -> & Hh). by apply H.
Qed.

End logic.

(** What was true stays true: facts about what has happened. *)
Definition lasting (F : list event → Prop) : Prop := ∀ h t, F h → F (h ++ t).

Lemma lasting_in (e : event) : lasting (λ h, e ∈ h).
Proof. intros h t He. apply elem_of_app. auto. Qed.

Lemma lasting_and F G : lasting F → lasting G → lasting (λ h, F h ∧ G h).
Proof. intros HF HG h t []. split; auto. Qed.

Lemma lasting_ex {A} (F : A → list event → Prop) : (∀ a, lasting (F a)) → lasting (λ h, ∃ a, F a h).
Proof. intros HF h t [a Ha]. exists a. by apply HF. Qed.

Lemma lasting_pure (P : Prop) : lasting (λ _, P).
Proof. by intros h t. Qed.

Lemma triple_frame ok {A} P (m : prog A) Q F :
  lasting F → triple ok P m Q → triple ok (λ h, P h ∧ F h) m (λ a h, Q a h ∧ F h).
Proof.
  intros HF Hm h t o [HP Hf] Ht. destruct (Hm h t o HP Ht) as [Ho HQ]. split; [done|].
  intros a ->. split; auto.
Qed.

(** A program that only makes calls that are always allowed. *)
Lemma triple_weaken (ok ok' : list event → event → Prop) {A} P (m : prog A) Q :
  triple ok P m Q → (∀ h e, ok h e → ok' h e) → triple ok' P m Q.
Proof.
  intros Hm Hok h t o HP Ht. destruct (Hm h t o HP Ht) as [Ho HQ]. split; [|done].
  intros t1 e t2 Heq. by apply Hok, (Ho t1 e t2).
Qed.

End programs.

Arguments prog : clear implicits.
Arguments event : clear implicits.
Arguments Event {E ev_type} ev_call ev_answer.

#[global] Instance prog_ret {E} : MRet (prog E) := λ A a, Ret a.
#[global] Instance prog_bind {E} : MBind (prog E) := λ A B k m, prog_then m k.

(** [?] and [map_err] on what a program returns. *)
Definition prog_try {E X A B} (m : prog E (X + A)) (k : A → prog E (X + B)) : prog E (X + B) :=
  r ← m; match r with inl e => mret (inl e) | inr a => k a end.

Notation "x ←! m ; k" := (prog_try m (λ x, k)) (at level 100, m at next level, right associativity).

Definition prog_map_err {E X Y A} (f : X → Y) (m : prog E (X + A)) : prog E (Y + A) :=
  r ← m; mret (match r with inl e => inl (f e) | inr a => inr a end).

(** ** Following a program with a state

    What has happened, summed up as a state that each call advances. *)

Section tracked.
Context {E : Type → Type} {S : Type} (advance : S → event E → S) (start : S).
Context (allowed : S → event E → Prop).

Definition summary (h : list (event E)) : S := foldl advance start h.

Notation ok := (λ h ev, allowed (summary h) ev).
Notation at_state s := (λ h, summary h = s).

Lemma track_vis {X A} s (e : E X) (k : X → prog E A) Q :
  (∀ x, allowed s (Event e x)) →
  (∀ x, triple ok (at_state (advance s (Event e x))) (k x) Q) →
  triple ok (at_state s) (Vis e k) Q.
Proof.
  intros He Hk. apply triple_vis; [by intros h x ->|]. intros x.
  eapply triple_conseq; [apply Hk| |done]. intros h' (h & -> & <-).
  unfold summary. by rewrite foldl_app.
Qed.

Lemma track_then {A B} s (m : prog E A) (R : A → S → Prop) (k : A → prog E B) Q :
  triple ok (at_state s) m (λ a h, R a (summary h)) →
  (∀ a s', R a s' → triple ok (at_state s') (k a) Q) →
  triple ok (at_state s) (m ≫= k) Q.
Proof.
  intros Hm Hk. eapply triple_then; [exact Hm|]. intros a h t o HR. exact (Hk a _ HR h t o eq_refl).
Qed.

(** A loop, from what its rounds keep. *)
Lemma track_iter {I R} (Inv : I → S → Prop) (Out : R → S → Prop) (body : I → prog E (I + R)) i s :
  Inv i s →
  (∀ i s, Inv i s → triple ok (at_state s) (body i)
     (λ ir h, match ir with inl i' => Inv i' (summary h) | inr r => Out r (summary h) end)) →
  triple ok (at_state s) (iterate body i) (λ r h, Out r (summary h)).
Proof.
  intros Hi Hb. apply (triple_conseq _ _ (λ h, Inv i (summary h)) _ _ (λ r h, Out r (summary h))); [|by intros h ->|done].
  apply (triple_iter ok (λ i h, Inv i (summary h)) body i Ret (λ r h, Out r (summary h))).
  - intros j h t o HI. exact (Hb j _ HI h t o eq_refl).
  - intros r. by apply triple_ret.
Qed.
End tracked.

(** ** Running a program

    The surroundings have a state; they answer a call, or the program ends
    there. A run that is not over after [n] rounds of a loop is cut. *)

Inductive ran (S A : Type) : Type :=
  | Returned (a : A) (s : S)
  | Ended (s : S)
  | Cut.
Arguments Returned {S A} a s.
Arguments Ended {S A} s.
Arguments Cut {S A}.

Section running.
Context {E : Type → Type} {S : Type}.
Context (handle : ∀ X, E X → S → option X * S).

Fixpoint run_loop {I R} (body : I → S → ran S (I + R)) (n : nat) (i : I) (s : S) : ran S R :=
  match n with
  | O => Cut
  | Datatypes.S n =>
      match body i s with
      | Returned (inl i) s => run_loop body n i s
      | Returned (inr r) s => Returned r s
      | Ended s => Ended s
      | Cut => Cut
      end
  end.

Fixpoint run (n : nat) {A} (m : prog E A) (s : S) : ran S A :=
  match m in prog _ A return ran S A with
  | Ret a => Returned a s
  | Vis e k =>
      match handle _ e s with
      | (Some x, s) => run n (k x) s
      | (None, s) => Ended s
      end
  | Iter body i k =>
      match run_loop (λ i s, run n (body i) s) n i s with
      | Returned r s => run n (k r) s
      | Ended s => Ended s
      | Cut => Cut
      end
  end.
End running.

(** Surroundings that keep a record of the calls. *)
Definition recorded {E : Type → Type} {S : Type} (handle : ∀ X, E X → S → option X * S) X (e : E X)
    (s : list (event E) * S) : option X * (list (event E) * S) :=
  let '(h, s) := s in
  match handle X e s with
  | (Some x, s) => (Some x, (h ++ [Event e x], s))
  | (None, s) => (None, (h, s))
  end.

(** What a run recorded is a trace of the program. *)
Definition traced {E S A} (m : prog E A) (h : list (event E)) (r : ran (list (event E) * S) A) : Prop :=
  match r with
  | Returned a (h', _) => ∃ t, h' = h ++ t ∧ exec m t (Some a)
  | Ended (h', _) => ∃ t, h' = h ++ t ∧ exec m t None
  | Cut => True
  end.

Lemma run_loop_traced {E S I R} (body : I → prog E (I + R))
    (f : I → list (event E) * S → ran (list (event E) * S) (I + R)) n i h s :
  (∀ i h s, traced (body i) h (f i (h, s))) → traced (iterate body i) h (run_loop f n i (h, s)).
Proof.
  intros Hf. revert i h s. induction n as [|n IH]; intros i h s; [done|]. cbn [run_loop].
  pose proof (Hf i h s) as Hi.
  destruct (f i (h, s)) as [[i'|r] [h' s']|[h' s']|]; cbn in Hi; [| | |done].
  - destruct Hi as (t & -> & Ht). specialize (IH i' (h ++ t) s').
    destruct (run_loop f n i' (h ++ t, s')) as [a [h'' s'']|[h'' s'']|]; [| |done];
      destruct IH as (t' & -> & Ht'); exists (t ++ t'); (split; [by rewrite (assoc_L (++))|]);
      by eapply loop_again.
  - destruct Hi as (t & -> & Ht). exists t. split; [done|].
    rewrite <- (right_id_L [] (++) t). eapply loop_left; [done|]. cbn. auto.
  - destruct Hi as (t & -> & Ht). exists t. split; [done|]. by apply loop_inside.
Qed.

Lemma looping_then {E I R A} (body : I → prog E (I + R)) (k : R → prog E A) i t1 r t2 o :
  exec (iterate body i) t1 (Some r) → exec (k r) t2 o → exec (Iter body i k) (t1 ++ t2) o.
Proof.
  cbn. remember (Some r) as o' eqn:Ho'. intros Hl Hk.
  induction Hl as [i t Hb|i i' u1 u2 o1 Hb Hl IHl|i r' u1 u2 o1 Hb Hr]; subst; [done| |].
  - rewrite <- (assoc_L (++)). eapply loop_again; eauto.
  - destruct Hr as [-> [?|[= <-]]]; [done|]. rewrite (right_id_L [] (++)). eapply loop_left; eauto.
Qed.

Lemma looping_pause {E I R A} (body : I → prog E (I + R)) (k : R → prog E A) i t :
  exec (iterate body i) t None → exec (Iter body i k) t None.
Proof.
  cbn. remember None as o' eqn:Ho'. intros Hl.
  induction Hl as [i t Hb|i i' u1 u2 o1 Hb Hl IHl|i r' u1 u2 o1 Hb Hr]; subst.
  - by constructor.
  - eapply loop_again; eauto.
  - destruct Hr as [-> _]. eapply loop_left; [done|]. apply exec_nil.
Qed.

Lemma run_traced {E S} (handle : ∀ X, E X → S → option X * S) n {A} (m : prog E A) h s :
  traced m h (run (recorded handle) n m (h, s)).
Proof.
  revert h s. induction m as [A a|X A e k IH|I R A body IHb i k IH]; intros h s; cbn [run].
  - exists []. rewrite (right_id_L [] (++)). cbn. auto.
  - unfold recorded at 1. destruct (handle X e s) as [[x|] s'].
    + specialize (IH x (h ++ [Event e x]) s').
      destruct (run _ n (k x) _) as [a [h' s'']|[h' s'']|]; [| |done]; cbn in IH |- *;
        destruct IH as (t & -> & Ht); exists (Event e x :: t);
        (split; [by rewrite <- (assoc_L (++))|]); eauto.
    + exists []. rewrite (right_id_L [] (++)). cbn. auto.
  - pose proof (run_loop_traced body (λ i s, run (recorded handle) n (body i) s) n i h s IHb) as Hl.
    destruct (run_loop _ n i (h, s)) as [r [h' s']|[h' s']|]; [| |done].
    + destruct Hl as (t & -> & Ht). specialize (IH r (h ++ t) s').
      destruct (run _ n (k r) _) as [a [h'' s'']|[h'' s'']|]; [| |done];
        destruct IH as (t' & -> & Ht'); exists (t ++ t'); (split; [by rewrite (assoc_L (++))|]);
        by eapply looping_then.
    + destruct Hl as (t & -> & Ht). exists t. split; [done|]. by apply looping_pause.
Qed.

(** A run from nothing, as its trace. *)
Definition traced_run {E S A} (handle : ∀ X, E X → S → option X * S) (n : nat) (m : prog E A) (s : S) :
    list (event E) * option A :=
  match run (recorded handle) n m ([], s) with
  | Returned a (h, _) => (h, Some a)
  | Ended (h, _) => (h, None)
  | Cut => ([], None)
  end.

Lemma traced_run_exec {E S A} (handle : ∀ X, E X → S → option X * S) n (m : prog E A) s :
  exec m (traced_run handle n m s).1 (traced_run handle n m s).2.
Proof.
  unfold traced_run. pose proof (run_traced handle n m [] s) as H.
  destruct (run _ n m _) as [a [h s']|[h s']|]; cbn in *; [| |apply exec_nil]; destruct H as (t & -> & Ht); done.
Qed.

(** ** Programs inside programs

    A program of calls [E] as a program of calls [F] that include them. *)

Fixpoint lift {E F : Type → Type} (f : ∀ X, E X → F X) {A} (m : prog E A) : prog F A :=
  match m with
  | Ret a => Ret a
  | Vis e k => Vis (f _ e) (λ x, lift f (k x))
  | Iter body i k => Iter (λ i, lift f (body i)) i (λ r, lift f (k r))
  end.

(** What the embedded calls neither break nor need to be allowed. *)
Lemma triple_lift {E F : Type → Type} (f : ∀ X, E X → F X) ok P {A} (m : prog E A) :
  (∀ X (e : E X) x h, ok h (Event (f X e) x)) →
  (∀ X (e : E X) x h, P h → P (h ++ [Event (f X e) x])) →
  triple ok P (lift f m) (λ _, P).
Proof.
  intros Hok HP. induction m as [A a|X A e k IH|I R A body IHb i k IH]; cbn [lift].
  - by apply triple_ret.
  - apply triple_vis; [auto|]. intros x. eapply triple_conseq; [apply IH| |done].
    intros h' (h & -> & Hh). auto.
  - apply (triple_iter ok (λ _, P) _ _ _ (λ _, P)); [|auto].
    intros j. eapply triple_conseq; [apply IHb|done|]. by intros [] h.
Qed.

(** ** Programs step by step

    [steps m h m']: after the calls [h], [m'] is what is left of [m]. *)

Definition unroll {E I R A} (body : I → prog E (I + R)) (i : I) (k : R → prog E A) : prog E A :=
  prog_then (body i) (λ ir, match ir with inl i' => Iter body i' k | inr r => k r end).

Inductive steps {E} {A} (m : prog E A) : list (event E) → prog E A → Prop :=
  | steps_start : steps m [] m
  | steps_call {X} h (e : E X) (k : X → prog E A) x : steps m h (Vis e k) → steps m (h ++ [Event e x]) (k x)
  | steps_round {I R} h (body : I → prog E (I + R)) i (k : R → prog E A) :
      steps m h (Iter body i k) → steps m h (unroll body i k).

Lemma exec_unroll {E I R A} (body : I → prog E (I + R)) i (k : R → prog E A) t o :
  exec (unroll body i k) t o → exec (Iter body i k) t o.
Proof.
  unfold unroll. intros Ht. apply exec_then in Ht as [[-> Ht]|([i'|r] & t1 & t2 & -> & H1 & H2)].
  - by apply loop_inside.
  - by eapply loop_again.
  - by eapply loop_left.
Qed.

(** The traces of what is left continue those that led there. *)
Lemma steps_exec {E A} (m : prog E A) h m' :
  steps m h m' → ∀ t o, exec m' t o → exec m (h ++ t) o.
Proof.
  induction 1 as [|X h e k x Hs IH|I R h body i k Hs IH]; intros t o Ht; [done| |].
  - rewrite <- (assoc_L (++)). apply IH. right. cbn. eauto.
  - apply IH. by apply exec_unroll.
Qed.
