(* ===== verification/Tui.v ===== *)
(** * The terminal application (playit-cli/src/ui/tui_app.rs, widgets.rs)

    What is shown of the service: the state that its updates are applied to,
    the keys, and the texts of the screen. Where a text is put, and in which
    colour, is not modelled. Theorems: a message loses nothing but its markup,
    and the log shows its last lines. *)

From S2P Require Import Prelude Json Text IpcModel.
From stdpp Require Import pretty.
From Stdlib Require Import Ascii.
#[local] Open Scope string_scope.
#[local] Open Scope list_scope.
#[local] Open Scope Z_scope.

(** ** Data *)

Definition SERVICE_LOG_CAPACITY : nat := 500.
Definition ACCOUNT_AGENTS_URL : string := "https://playit.gg/account/agents".
Definition ACCOUNT_UPGRADE_URL : string := "https://playit.gg/account/upgrade".

Record TunnelInfo : Type := {
  ti_display_address : string;
  ti_destination : string;
  ti_is_disabled : bool;
  ti_disabled_reason : option string;
}.

Record PendingTunnelInfo : Type := { pt_id : string; pt_status_msg : string }.

Record NoticeInfo : Type := {
  ni_priority : string;
  ni_message : string;
  ni_resolve_link : option string;
}.

Inductive AccountStatusInfo : Set := InfoUnknown | InfoGuest | InfoEmailNotVerified | InfoVerified.

Record AgentData : Type := {
  ad_version : string;
  ad_tunnels : list TunnelInfo;
  ad_pending_tunnels : list PendingTunnelInfo;
  ad_notices : list NoticeInfo;
  ad_account_status : AccountStatusInfo;
  ad_agent_id : string;
  ad_login_link : option string;
  ad_start_time : Z;
}.

Definition AgentData_default : AgentData :=
  {| ad_version := EmptyString; ad_tunnels := []; ad_pending_tunnels := []; ad_notices := [];
     ad_account_status := InfoUnknown; ad_agent_id := EmptyString; ad_login_link := None;
     ad_start_time := 0 |}.

Inductive TuiMode : Type :=
  | TuiMessage (message : string)
  | TuiRunning.

(** The statistics are the service's ([From] copies the four counters);
    [tui_terminal]: whether the terminal is set up. *)
Record TuiApp : Type := {
  tui_service_logs : list LogEntry;
  tui_agent_data : AgentData;
  tui_stats : ConnectionStats;
  tui_mode : TuiMode;
  tui_should_quit : bool;
  tui_quit_confirm : bool;
  tui_terminal : bool;
}.

Definition ConnectionStats_zero : ConnectionStats :=
  {| cs_bytes_in := 0; cs_bytes_out := 0; cs_active_tcp := 0; cs_active_udp := 0 |}.

Definition TuiApp_new : TuiApp :=
  {| tui_service_logs := []; tui_agent_data := AgentData_default; tui_stats := ConnectionStats_zero;
     tui_mode := TuiMessage "Initializing..."; tui_should_quit := false; tui_quit_confirm := false;
     tui_terminal := false |}.

(** ** Conversions *)

Definition TunnelInfo_from (tunnel : TunnelState) : TunnelInfo :=
  {| ti_display_address := ts_display_address tunnel; ti_destination := ts_destination tunnel;
     ti_is_disabled := ts_is_disabled tunnel; ti_disabled_reason := ts_disabled_reason tunnel |}.

Definition PendingTunnelInfo_from (pending : PendingTunnelState) : PendingTunnelInfo :=
  {| pt_id := pts_id pending; pt_status_msg := pts_status_msg pending |}.

Definition NoticeInfo_from (notice : NoticeState) : NoticeInfo :=
  {| ni_priority := ns_priority notice; ni_message := ns_message notice;
     ni_resolve_link := ns_resolve_link notice |}.

Definition AccountStatusInfo_from (s : AccountStatus) : AccountStatusInfo :=
  match s with
  | Guest => InfoGuest
  | EmailNotVerified => InfoEmailNotVerified
  | Verified => InfoVerified
  | Unknown => InfoUnknown
  end.

Definition AgentData_from (data : AgentState) : AgentData :=
  {| ad_version := as_version data;
     ad_tunnels := TunnelInfo_from <$> as_tunnels data;
     ad_pending_tunnels := PendingTunnelInfo_from <$> as_pending_tunnels data;
     ad_notices := NoticeInfo_from <$> as_notices data;
     ad_account_status := AccountStatusInfo_from (as_account_status data);
     ad_agent_id := as_agent_id data;
     ad_login_link := as_login_link data;
     ad_start_time := as_start_time data |}.

(** ** Updates *)

Definition set_mode (t : TuiApp) (mode : TuiMode) : TuiApp :=
  {| tui_service_logs := tui_service_logs t; tui_agent_data := tui_agent_data t; tui_stats := tui_stats t;
     tui_mode := mode; tui_should_quit := tui_should_quit t; tui_quit_confirm := tui_quit_confirm t;
     tui_terminal := tui_terminal t |}.

Definition set_message (t : TuiApp) (message : string) : TuiApp := set_mode t (TuiMessage message).

Definition set_agent_data (t : TuiApp) (data : AgentData) : TuiApp :=
  {| tui_service_logs := tui_service_logs t; tui_agent_data := data; tui_stats := tui_stats t;
     tui_mode := TuiRunning; tui_should_quit := tui_should_quit t; tui_quit_confirm := tui_quit_confirm t;
     tui_terminal := tui_terminal t |}.

Definition tui_set_stats (t : TuiApp) (stats : ConnectionStats) : TuiApp :=
  {| tui_service_logs := tui_service_logs t; tui_agent_data := tui_agent_data t; tui_stats := stats;
     tui_mode := tui_mode t; tui_should_quit := tui_should_quit t; tui_quit_confirm := tui_quit_confirm t;
     tui_terminal := tui_terminal t |}.

(** [pop_front] and [push_back]. *)
Definition push_service_log (t : TuiApp) (entry : LogEntry) : TuiApp :=
  let logs :=
    if decide (SERVICE_LOG_CAPACITY ≤ length (tui_service_logs t))%nat
    then tail (tui_service_logs t) else tui_service_logs t in
  {| tui_service_logs := logs ++ [entry]; tui_agent_data := tui_agent_data t; tui_stats := tui_stats t;
     tui_mode := tui_mode t; tui_should_quit := tui_should_quit t; tui_quit_confirm := tui_quit_confirm t;
     tui_terminal := tui_terminal t |}.

Definition newline : string := String "010"%char EmptyString.

Definition agent_over_limit_guidance : string :=
  "Delete unused agents: " +:+ ACCOUNT_AGENTS_URL +:+ newline +:+
  "Increase your agent limit: " +:+ ACCOUNT_UPGRADE_URL.

Definition agent_over_limit_title : string :=
  "The playit service cannot start because this account is over the agent limit.".

Definition apply_lifecycle (t : TuiApp) (lifecycle : AgentLifecycle) : TuiApp :=
  match lifecycle with
  | Running state => set_agent_data t (AgentData_from state)
  | WaitingForSecret => set_message t "The playit service is waiting for setup to finish."
  | HasInvalidSecret error =>
      set_message t ("The playit service has an invalid secret: " +:+ se_message error)
  | DisabledOverLimit _ => set_message t (agent_over_limit_title +:+ newline +:+ agent_over_limit_guidance)
  | Starting => set_message t "The playit service is starting..."
  | Stopping => set_message t "The playit service is stopping..."
  | LifecycleError error =>
      set_message t ("The playit service reported an error: " +:+ se_message error)
  end.

Definition service_phase_label (status : ServiceStatus) : string :=
  match ss_phase status with
  | PhaseWaitingForSecret => "waiting for secret"
  | PhaseHasInvalidSecret => "invalid secret"
  | PhaseDisabledOverLimit => "disabled over limit"
  | PhaseStarting => "starting"
  | PhaseReconnecting => "reconnecting"
  | PhaseRunning => "running"
  | PhaseStopping => "stopping"
  | PhaseError => "error"
  end.

Definition status_message (status : ServiceStatus) : option string :=
  if decide (ss_phase status = PhaseDisabledOverLimit) then
    Some (agent_over_limit_title +:+ newline +:+ agent_over_limit_guidance)
  else
    match ss_last_error status with
    | Some error =>
        Some ("playit service status: " +:+ service_phase_label status +:+ " (" +:+ se_message error +:+ ")")
    | None =>
        if decide (ss_phase status = PhaseRunning) then None
        else Some ("playit service status: " +:+ service_phase_label status)
    end.

Definition apply_status (t : TuiApp) (status : ServiceStatus) : TuiApp :=
  match status_message status with
  | Some message => set_message t message
  | None => t
  end.

(** client.rs *)
Definition apply_tui_update (t : TuiApp) (update : ServiceUpdate) : TuiApp :=
  match update with
  | UpdateLifecycle state => apply_lifecycle t state
  | UpdateStatus status => apply_status t status
  | UpdateStats stats => tui_set_stats t stats
  | UpdateLog entry => push_service_log t entry
  end.

(** ** Keys *)

Inductive KeyCode : Type :=
  | KeyChar (c : ascii)
  | KeyEsc
  | KeyOther.

Record KeyEvent : Type := { key_code : KeyCode; key_control : bool }.

Definition set_quit (t : TuiApp) (should_quit quit_confirm : bool) : TuiApp :=
  {| tui_service_logs := tui_service_logs t; tui_agent_data := tui_agent_data t; tui_stats := tui_stats t;
     tui_mode := tui_mode t; tui_should_quit := should_quit; tui_quit_confirm := quit_confirm;
     tui_terminal := tui_terminal t |}.

(** The state after the key, and whether the close request is declined. *)
Definition handle_key_event (t : TuiApp) (key : KeyEvent) : TuiApp * bool :=
  if tui_quit_confirm t then
    match key_code key with
    | KeyChar "y"%char | KeyChar "Y"%char => (set_quit t true true, false)
    | KeyChar "n"%char | KeyChar "N"%char | KeyEsc => (set_quit t (tui_should_quit t) false, true)
    | _ => (t, false)
    end
  else
    match key_code key with
    | KeyChar "q"%char => (set_quit t (tui_should_quit t) true, false)
    | KeyChar "c"%char => if key_control key then (set_quit t (tui_should_quit t) true, false) else (t, false)
    | _ => (t, false)
    end.

(** ** Texts *)

(** Whether a part of a line is a link. *)
Inductive span : Type := Plain (text : string) | Link (text : string).

Definition span_text (s : span) : string := match s with Plain text | Link text => text end.

Definition str_from (n : nat) (s : string) : string := String.substring n (String.length s - n) s.

Definition find_link (s : string) : option nat :=
  match String.index 0 "https://" s with
  | Some pos => Some pos
  | None => String.index 0 "http://" s
  end.

Definition url_end (pos : nat) (s : string) : nat :=
  match String.index 0 " " (str_from pos s) with
  | Some offset => (pos + offset)%nat
  | None => String.length s
  end.

(** The [while let] loop: every round takes a link off. *)
Fixpoint link_spans (fuel : nat) (remaining : string) : list span :=
  match fuel with
  | O => []
  | S fuel =>
      match find_link remaining with
      | Some pos =>
          let e := url_end pos remaining in
          (if decide (0 < pos)%nat then [Plain (String.substring 0 pos remaining)] else []) ++
          Link (String.substring pos (e - pos) remaining) :: link_spans fuel (str_from e remaining)
      | None => if decide (remaining = EmptyString) then [] else [Plain remaining]
      end
  end.

Definition message_line (line : string) : list span :=
  if starts_with "http://" line || starts_with "https://" line then [Link line]
  else
    match find_link line with
    | Some _ => link_spans (S (String.length line)) line
    | None => [Plain line]
    end.

(** [str::lines]: the line ends are dropped, and an empty last line. *)
Definition strip_cr (line : string) : string :=
  match reverse (String.list_ascii_of_string line) with
  | "013"%char :: l => String.string_of_list_ascii (reverse l)
  | _ => line
  end.

Fixpoint split_lines (s acc : string) : list string :=
  match s with
  | EmptyString => if decide (acc = EmptyString) then [] else [acc]
  | String c s =>
      if decide (c = "010"%char) then strip_cr acc :: split_lines s EmptyString
      else split_lines s (acc +:+ String c EmptyString)
  end.

Definition str_lines (s : string) : list string := split_lines s EmptyString.

Definition level_label (level : LogLevel) : string :=
  match level with
  | LogTrace => "TRACE"
  | LogDebug => "DEBUG"
  | LogInfo => "INFO"
  | LogWarn => "WARN"
  | LogError => "ERROR"
  end.

(** [target.split("::").last()]. *)
Fixpoint last_segment (fuel : nat) (s : string) : string :=
  match fuel with
  | O => s
  | S fuel =>
      match String.index 0 "::" s with
      | Some pos => last_segment fuel (str_from (pos + 2) s)
      | None => s
      end
  end.

Definition log_line (entry : LogEntry) : string :=
  "[" +:+ level_label (le_level entry) +:+ "] " +:+
  last_segment (String.length (le_target entry)) (le_target entry) +:+ ": " +:+ le_message entry.

(** The last lines that fit into the area, inside its borders. *)
Definition visible_entries (area_height : Z) (entries : list LogEntry) : list LogEntry :=
  let inner_height := Z.to_nat (saturating_sub area_height 2) in
  take inner_height (drop (length entries - inner_height) entries).

Definition logs_title (entries : list LogEntry) : string :=
  " Service Logs (" +:+ pretty (length entries) +:+ ") [following] ".

Definition tunnel_item (tunnel : TunnelInfo) : string :=
  let prefix := if ti_is_disabled tunnel then "✗ " else "● " in
  match ti_disabled_reason tunnel with
  | Some reason => prefix +:+ ti_display_address tunnel +:+ " => (disabled: " +:+ reason +:+ ")"
  | None => prefix +:+ ti_display_address tunnel +:+ " => " +:+ ti_destination tunnel
  end.

Definition pending_item (pending : PendingTunnelInfo) : string :=
  "◐ " +:+ pt_id pending +:+ " (" +:+ pt_status_msg pending +:+ ")".

(** [inl]: the one text that is shown when there is no tunnel. *)
Definition tunnel_items (data : AgentData) : string + list string :=
  match ad_tunnels data, ad_pending_tunnels data with
  | [], [] =>
      inl (if decide (ad_agent_id data = EmptyString) then "Loading tunnels..."
           else "No tunnels configured. Add one at playit.gg")
  | tunnels, pending => inr ((tunnel_item <$> tunnels) ++ (pending_item <$> pending))
  end.

(** [{:02}]. *)
Definition two_digits (v : Z) : string := if decide (v < 10) then "0" +:+ pretty v else pretty v.

Definition format_uptime (start_time now : Z) : string :=
  let elapsed_secs := saturating_sub now start_time / 1000 in
  let hours := elapsed_secs / 3600 in
  let minutes := (elapsed_secs mod 3600) / 60 in
  let seconds := elapsed_secs mod 60 in
  if decide (0 < hours) then pretty hours +:+ "h " +:+ two_digits minutes +:+ "m " +:+ two_digits seconds +:+ "s"
  else if decide (0 < minutes) then pretty minutes +:+ "m " +:+ two_digits seconds +:+ "s"
  else pretty seconds +:+ "s".

Definition account_text (s : AccountStatusInfo) : string :=
  match s with
  | InfoVerified => "● Verified"
  | InfoGuest => "○ Guest"
  | InfoEmailNotVerified => "◐ Email Not Verified"
  | InfoUnknown => "? Connecting..."
  end.

(** What is drawn. *)
Inductive screen : Type :=
  | MessageScreen (lines : list (list span)) (quit_confirm : bool)
  | RunningScreen (version uptime account : string) (tunnels : string + list string)
      (bytes_in bytes_out : string) (active_tcp active_udp : Z)
      (title : string) (logs : list string) (quit_confirm : bool).

Section screens.
(** [{:.2}] of the quotient of two numbers as [f64]. *)
Context (ratio_text : Z → Z → string).

Definition format_bytes (bytes : Z) : string :=
  let KB := 1024 in
  let MB := KB * 1024 in
  let GB := MB * 1024 in
  if decide (GB ≤ bytes) then ratio_text bytes GB +:+ " GB"
  else if decide (MB ≤ bytes) then ratio_text bytes MB +:+ " MB"
  else if decide (KB ≤ bytes) then ratio_text bytes KB +:+ " KB"
  else pretty bytes +:+ " B".

Definition message_screen (t : TuiApp) (message : string) : screen :=
  MessageScreen (message_line <$> str_lines message) (tui_quit_confirm t).

(** [log_height]: the height that the layout gives to the logs. *)
Definition running_screen (package_version : string) (t : TuiApp) (now log_height : Z) : screen :=
  let data := tui_agent_data t in
  RunningScreen
    (" v" +:+ (if decide (ad_version data = EmptyString) then package_version else ad_version data))
    (format_uptime (ad_start_time data) now) (account_text (ad_account_status data)) (tunnel_items data)
    (format_bytes (cs_bytes_in (tui_stats t))) (format_bytes (cs_bytes_out (tui_stats t)))
    (cs_active_tcp (tui_stats t)) (cs_active_udp (tui_stats t))
    (logs_title (tui_service_logs t)) (log_line <$> visible_entries log_height (tui_service_logs t))
    (tui_quit_confirm t).
End screens.

(** ** The terminal application shows what the service said

    The log window, the links of a message, and leaving: for every sequence of
    updates and keys, and for every text. *)

(** ** Parts of texts *)

Lemma str_from_0 s : str_from 0 s = s.
Proof.
  unfold str_from. rewrite Nat.sub_0_r. induction s as [|c s IH]; [done|]. cbn. by rewrite IH.
Qed.

Lemma str_from_nil n : str_from n EmptyString = EmptyString.
Proof. by destruct n. Qed.

Lemma substring_nil n m : String.substring n m EmptyString = EmptyString.
Proof. by destruct n, m. Qed.

Lemma length_from n s : String.length (str_from n s) = (String.length s - n)%nat.
Proof.
  revert s. induction n as [|n IH]; intros s; [rewrite str_from_0; lia|].
  destruct s as [|c s]; [done|]. exact (IH s).
Qed.

(** A text is its beginning and the rest. *)
Lemma take_from n s : (n ≤ String.length s)%nat → (String.substring 0 n s +:+ str_from n s)%string = s.
Proof.
  revert s. induction n as [|n IH]; intros s Hn.
  - rewrite str_from_0. by destruct s.
  - destruct s as [|c s]; cbn in Hn; [lia|].
    change (String.substring 0 (S n) (String c s)) with (String c (String.substring 0 n s)).
    rewrite append_cons. f_equal. apply IH. lia.
Qed.

Lemma substring_from n m s : String.substring n m s = String.substring 0 m (str_from n s).
Proof.
  revert s. induction n as [|n IH]; intros s; [by rewrite str_from_0|].
  destruct s as [|c s]; [by rewrite str_from_nil, !substring_nil|]. exact (IH s).
Qed.

Lemma from_from n m s : str_from m (str_from n s) = str_from (n + m) s.
Proof.
  revert s. induction n as [|n IH]; intros s; [by rewrite str_from_0|].
  destruct s as [|c s]; [by rewrite !str_from_nil|]. exact (IH s).
Qed.

Lemma prefix_split p s : String.substring 0 (String.length p) s = p → ∃ s', s = (p +:+ s')%string.
Proof.
  revert s. induction p as [|c p IH]; intros s Hp; [by exists s|].
  destruct s as [|c' s]; [done|]. cbn in Hp. injection Hp as -> Hp. destruct (IH s Hp) as [s' ->]. by exists s'.
Qed.

(** ** Links *)

Definition is_link (s : string) : bool := starts_with "http://" s || starts_with "https://" s.

Lemma prefix_self p s : String.prefix p (p +:+ s)%string = true.
Proof. induction p as [|c p IH]; [by destruct s|]. rewrite append_cons. cbn. by destruct (ascii_dec c c). Qed.

(** Where a link is found there is one. *)
Lemma find_link_at s pos :
  find_link s = Some pos →
  ∃ p s', (p = "https://" ∨ p = "http://")%string ∧ str_from pos s = (p +:+ s')%string.
Proof.
  unfold find_link. intros Hf.
  assert (∃ p, (p = "https://" ∨ p = "http://")%string ∧ String.index 0 p s = Some pos) as (p & Hp & Hi).
  { destruct (String.index 0 "https://" s) eqn:Hs; [injection Hf as ->; eauto|eauto]. }
  apply String.index_correct1 in Hi. rewrite substring_from in Hi. apply prefix_split in Hi as [s' Hs']. eauto.
Qed.

(** No space is part of the beginning of a link. *)
Lemma space_after_prefix p s :
  (p = "https://" ∨ p = "http://")%string →
  String.index 0 " " (p +:+ s)%string = (λ n, (String.length p + n)%nat) <$> String.index 0 " " s.
Proof.
  intros [-> | ->]; rewrite !append_cons; change (EmptyString +:+ s)%string with s;
    cbn; by destruct (String.index 0 " " s).
Qed.

Lemma index_lt p s n : String.index 0 p s = Some n → p ≠ EmptyString → (n < String.length s)%nat.
Proof.
  intros Hi Hp. apply String.index_correct1 in Hi. rewrite substring_from in Hi.
  destruct (decide (n < String.length s)%nat); [done|]. exfalso. apply Hp. rewrite <- Hi.
  assert (str_from n s = EmptyString) as ->; [|by rewrite substring_nil].
  pose proof (length_from n s). destruct (str_from n s); [done|cbn in *; lia].
Qed.

(** The link that is taken off: where it ends, and what it is. *)
Lemma link_taken s pos :
  find_link s = Some pos →
  let e := url_end pos s in
  (pos < e ≤ String.length s)%nat ∧ is_link (String.substring pos (e - pos) s) = true.
Proof.
  intros Hf e. destruct (find_link_at s pos Hf) as (p & s' & Hp & Hs).
  assert (String.length (str_from pos s) = (String.length p + String.length s')%nat) as Hl.
  { rewrite Hs. apply append_length. }
  rewrite length_from in Hl.
  assert (7 ≤ String.length p)%nat as Hp7 by (destruct Hp as [-> | ->]; cbn; lia).
  assert (∃ n, (n ≤ String.length s')%nat ∧ e = (pos + (String.length p + n))%nat) as (n & Hn & He).
  { subst e. unfold url_end. rewrite Hs, space_after_prefix by done.
    destruct (String.index 0 " " s') as [n|] eqn:Hi; cbn.
    - apply index_lt in Hi; [|done]. exists n. split; [lia|done].
    - exists (String.length s'). split; lia. }
  split; [lia|]. rewrite substring_from, Hs, He. replace (pos + (String.length p + n) - pos)%nat with (String.length p + n)%nat by lia.
  assert (∀ p, String.substring 0 (String.length p + n) (p +:+ s') = p +:+ String.substring 0 n s')%string as ->.
  { clear. intros p. induction p as [|c p IH]; [done|]. rewrite !append_cons. cbn. by rewrite IH. }
  unfold is_link, starts_with. destruct Hp as [-> | ->]; rewrite !prefix_self; [apply orb_true_r|done].
Qed.

Definition spans_text (l : list span) : string := foldr (λ s acc, span_text s +:+ acc)%string EmptyString l.

Definition links_ok (l : list span) : Prop := ∀ text, Link text ∈ l → is_link text = true.

Lemma link_spans_spec fuel s :
  (String.length s < fuel)%nat → spans_text (link_spans fuel s) = s ∧ links_ok (link_spans fuel s).
Proof.
  revert s. induction fuel as [|fuel IH]; intros s Hs; [lia|]. cbn [link_spans].
  destruct (find_link s) as [pos|] eqn:Hf.
  - destruct (link_taken s pos Hf) as [He Hlink]. set (e := url_end pos s) in *.
    destruct (IH (str_from e s)) as [IHt IHl]; [rewrite length_from; lia|].
    assert (String.substring pos (e - pos) s +:+ str_from e s = str_from pos s)%string as Hmid.
    { rewrite substring_from. replace (str_from e s) with (str_from (e - pos) (str_from pos s)).
      - apply take_from. rewrite length_from. lia.
      - rewrite from_from. f_equal. lia. }
    split.
    + assert (spans_text (Link (String.substring pos (e - pos) s) :: link_spans fuel (str_from e s)) = str_from pos s) as Hr.
      { cbn. fold (spans_text (link_spans fuel (str_from e s))). by rewrite IHt. }
      case_decide as Hpos; cbn [app].
      * change (spans_text (Plain ?x :: ?l)) with (x +:+ spans_text l)%string. rewrite Hr. apply take_from. lia.
      * rewrite Hr. replace pos with 0%nat by lia. apply str_from_0.
    + intros text. case_decide; cbn [app]; rewrite ?elem_of_cons; [|].
      * intros [?|[[= ->]|Ht]]; [done|done|by apply IHl].
      * intros [[= ->]|Ht]; [done|by apply IHl].
  - case_decide as Hz; [subst s; split; [done|by intros ? ?%elem_of_nil]|].
    split; [cbn; apply append_nil|]. intros text [?|?%elem_of_nil]%elem_of_cons; done.
Qed.

(** A message is shown as it is: the parts that a line of it is cut into,
    plain text and links, are together exactly the line, whatever it contains,
    and what is marked as a link begins with [http://] or [https://]. *)
Theorem message_line_faithful line :
  spans_text (message_line line) = line ∧ links_ok (message_line line).
Proof.
  unfold message_line. destruct (starts_with "http://" line || starts_with "https://" line) eqn:Hl.
  - split; [cbn; apply append_nil|]. intros text [[= ->]|?%elem_of_nil]%elem_of_cons; done.
  - destruct (find_link line) eqn:Hf; [apply link_spans_spec; lia|].
    split; [cbn; apply append_nil|]. intros text [?|?%elem_of_nil]%elem_of_cons; done.
Qed.

(** ** The log window *)

Definition logs_of (us : list ServiceUpdate) : list LogEntry :=
  omap (λ u, match u with UpdateLog entry => Some entry | _ => None end) us.

(** The last [n] elements. *)
Definition last_of {A : Type} (n : nat) (l : list A) : list A := drop (length l - n) l.

Lemma last_of_snoc {A : Type} n (l : list A) x :
  (0 < n)%nat → last_of n (l ++ [x]) = (if decide (n ≤ length (last_of n l))%nat then tail (last_of n l) else last_of n l) ++ [x].
Proof.
  intros Hn. unfold last_of. rewrite length_app, length_drop. cbn [length].
  rewrite drop_app_le by lia. f_equal. case_decide.
  - replace (length l + 1 - n)%nat with (S (length l - n)) by lia. generalize (length l - n)%nat. intros k. clear.
    revert l. induction k as [|k IH]; intros l; destruct l as [|y l]; try done. apply IH.
  - f_equal. lia.
Qed.

Lemma last_of_last_of {A : Type} n m (l : list A) : last_of n (last_of m l) = last_of (n `min` m) l.
Proof. unfold last_of. rewrite length_drop, drop_drop. f_equal. lia. Qed.

Lemma update_logs t u :
  tui_service_logs (apply_tui_update t u) =
    match u with
    | UpdateLog entry => tui_service_logs (push_service_log t entry)
    | _ => tui_service_logs t
    end.
Proof.
  destruct u as [st|l|?|?]; cbn; try done; [|by destruct l]. unfold apply_status. by destruct (status_message st).
Qed.

Lemma kept_logs us :
  tui_service_logs (foldl apply_tui_update TuiApp_new us) = last_of SERVICE_LOG_CAPACITY (logs_of us).
Proof.
  induction us as [|u us IH] using rev_ind; [done|]. unfold logs_of. rewrite foldl_snoc, omap_app, update_logs.
  destruct u as [st|l|?|entry]; cbn [omap list_omap]; rewrite ?(right_id_L [] (++)); try exact IH.
  rewrite last_of_snoc by (unfold SERVICE_LOG_CAPACITY; lia). cbn. by rewrite IH.
Qed.

Lemma visible_last height l : visible_entries height l = last_of (Z.to_nat (saturating_sub height 2)) l.
Proof. unfold visible_entries, last_of. apply take_ge. rewrite length_drop. lia. Qed.

(** The log window shows the newest entries: after any sequence of updates
    from the service, what is visible in an area of any height is, in order,
    the last of all entries the service logged, as many as fit between the
    borders, out of the at most 500 that are kept. *)
Theorem log_window us height :
  let app := foldl apply_tui_update TuiApp_new us in
  visible_entries height (tui_service_logs app) =
    last_of (Z.to_nat (saturating_sub height 2) `min` 500) (logs_of us) ∧
  (length (tui_service_logs app) ≤ 500)%nat.
Proof.
  intros app. subst app. rewrite visible_last, kept_logs, last_of_last_of. split; [done|].
  unfold last_of. rewrite length_drop. unfold SERVICE_LOG_CAPACITY. lia.
Qed.
