(* ===== verification/CliModel.v ===== *)
(** * What the command line talks to (playit-cli)

    The calls that the commands make on their surroundings: the terminal, the
    clock, the signal handler, the background service over IPC, the API, the
    session file and the operating system. A command is a program
    ([Program.prog]) of these calls that carries the console's state and may
    end with an error. The console (ui/mod.rs) and the signal handler
    (signal_handle.rs) are the first of them. *)

From S2P Require Import Prelude Net OriginLookup Json Text Api HttpClient ControlIo ApiTunnels ApiAccount ApiClient WebApi SessionStore IpcModel Ipc FileSystem Program Tui.
From stdpp Require Import pretty.
From Stdlib Require Import Ascii.
#[local] Open Scope string_scope.
#[local] Open Scope list_scope.
#[local] Open Scope Z_scope.

Declare Scope cli_scope.

(** ** Errors (main.rs) *)

Inductive CliError : Type :=
  | CliError_InvalidClaimCode
  | CliError_NotImplemented
  | CliError_MissingSecret
  | CliError_MalformedSecret
  | CliError_InvalidSecret
  | CliError_RenderError (e : io_error)
  | CliError_SecretFileLoadError
  | CliError_SecretFileWriteError (e : io_error)
  | CliError_SecretFilePathMissing
  | CliError_InvalidPortType
  | CliError_InvalidPortCount
  | CliError_InvalidMappingOverride
  | CliError_AgentClaimRejected
  | CliError_InvalidConfigFile
  | CliError_TunnelNotFound (id : Uuid)
  | CliError_TimedOut
  | CliError_AnswerNotProvided
  | CliError_SessionError (message : string)
  | CliError_TunnelOverwrittenAlready (id : Uuid)
  | CliError_ResourceNotFoundAfterCreate (id : Uuid)
  | CliError_RequestError (e : HttpClientError)
  | CliError_ApiError (e : ApiResponseError)
  | CliError_ApiFail (message : string)
  | CliError_TunnelSetupError (e : SetupError)
  | CliError_ServiceError (message : string)
  | CliError_IpcError (message : string).

(** ** The build

    The texts that other crates give to values, the [hex] crate, and what the
    build sets: the version, the API's address ([API_BASE] of the
    environment, if it is set) and whether overflow is checked. *)
Class CliBuild : Type := {
  debug_str : string → string;
  debug_cli_error : CliError → string;
  debug_api_error : ApiResponseError → string;
  display_client_error : HttpClientError → string;
  debug_client_error : HttpClientError → string;
  debug_setup_error : ApiError ClaimSetupError HttpClientError → string;
  debug_service_error_code : ServiceErrorCode → string;
  display_json_error : string;
  display_exit_status : option Z → string;
  json_string : value → string;
  hex_encode : list Z → string;
  hex_decode : string → option (list Z);
  ratio_text : Z → Z → string;
  cargo_pkg_version : string;
  api_base_var : option string;
  overflow_checks : bool;
}.

(** The [hex] crate: what is encoded is decoded; a code of some bytes has two
    digits for each. *)
Class CliBuildLaws (CB : CliBuild) : Prop := {
  hex_round_trip : ∀ bytes, Forall (uint 8) bytes → hex_decode (hex_encode bytes) = Some bytes;
  hex_length : ∀ bytes, String.length (hex_encode bytes) = (2 * length bytes)%nat;
}.

Definition nl : string := String "010"%char EmptyString.
Definition dq : string := String "034"%char EmptyString.

(** ** Calls *)

(** [std::process::Output], its texts decoded ([from_utf8_lossy]). *)
Record Output : Type := {
  out_status : option Z;
  out_stdout : string;
  out_stderr : string;
}.

(** [fs::Metadata] as far as the socket's is read. *)
Record Metadata : Type := {
  md_is_socket : bool;
  md_uid : Z;
  md_gid : Z;
  md_mode : Z;
}.

(** What is known of a user and of a group (unix_account.rs). *)
Record UnixUserAccount : Type := { ua_username : string; ua_primary_gid : Z }.

Record UnixGroupInfo : Type := { gi_name : string; gi_gid : Z; gi_members : list string }.

Inductive call : Type → Type :=
  (** the terminal *)
  | Println (line : string) : call ()
  | Print (text : string) : call ()
  | Eprintln (line : string) : call ()
  | Flush : call (io_error + ())
  | ReadLine : call (io_error + string)
  (** whether a blocking task ran to its end *)
  | Join : call bool
  | EnvVar (name : string) : call (option string)
  (** the process: its identity (version.rs) and its log output *)
  | RegisterPlatform (platform : Platform) : call ()
  | RegisterVersion (v_str variant_id : string) : call AgentVersion
  | InitStdoutTracing : call ()
  (** time, chance and the end *)
  | NowMilli : call Z
  | NowUnix : call Z
  | InstantNow : call Z
  | Sleep (millis : Z) : call ()
  | RandomBytes (n : nat) : call (list Z)
  | Exit (code : Z) : call Empty_set
  | PanicExit : call Empty_set
  (** the signal handler *)
  | IsConfirmingClose : call bool
  | DeclineClose : call ()
  | CloseGuard : call ()
  | DropCloseGuard : call ()
  (** the service; a client is known by the number of its connection *)
  | IsRunning (socket_path : string) : call bool
  | Connect (socket_path : string) : call (IpcError + nat)
  | Request (client : nat) (request : ServiceRequest) : call (IpcError + ServiceResponse)
  (** [select!] of the next update with a timer, or with Ctrl-C *)
  | UpdateOrTick (client : nat) (millis : Z) : call (IpcError + ServiceUpdate + ())
  | UpdateOrCtrlC (client : nat) : call (IpcError + ServiceUpdate + ())
  (** the terminal as a screen; an event that is not a key is [None] *)
  | EnableRawMode : call (io_error + ())
  | EnterAlternateScreen : call (io_error + ())
  | NewTerminal : call (io_error + ())
  | DisableRawMode : call (io_error + ())
  | LeaveAlternateScreen : call (io_error + ())
  | ShowCursor : call (io_error + ())
  | LogAreaHeight : call Z
  | Draw (s : screen) : call (io_error + ())
  | PollEvent (millis : Z) : call (io_error + bool)
  | ReadEvent : call (io_error + option KeyEvent)
  (** the API *)
  | Api (e : Endpoint) (client : HttpClient) (req : ep_Req e) :
      call (HttpClientError + ApiResult (ep_Res e) (ep_Fail e))
  (** the session file *)
  | ConfigDir : call (option path)
  | SessionSave (p : path) (session : PersistedSession) : call (SessionStoreError + ())
  | SessionLoad (p : path) : call (SessionStoreError + option PersistedSession)
  | SessionClear (p : path) : call (SessionStoreError + ())
  (** the operating system *)
  | Command (program : string) (args : list string) : call (io_error + Output)
  | ReadMetadata (p : string) : call (io_error + Metadata)
  | EffectiveUid : call Z
  | EffectiveGid : call Z
  | GroupAccessList : call (option (list Z))
  | GroupByGid (gid : Z) : call (option UnixGroupInfo)
  | UserByUid (uid : Z) : call (option UnixUserAccount).

(** ** Commands *)

Record ConsoleUi : Type := {
  auto_answer : option bool;
  last_display : option (Z * string);
}.

(** [async fn .. -> Result<A, CliError>] with the console it is given. *)
Definition Cli (A : Type) : Type := ConsoleUi → prog call (ConsoleUi * (CliError + A)).

#[global] Instance Cli_ret : MRet Cli := λ A a ui, Ret (ui, inr a).

#[global] Instance Cli_bind : MBind Cli := λ A B k m ui,
  prog_then (m ui) (λ r,
    match r with
    | (ui, inr a) => k a ui
    | (ui, inl e) => Ret (ui, inl e)
    end).

Definition ask {X} (e : call X) : Cli X := λ ui, Vis e (λ x, Ret (ui, inr x)).

(** [Err(e)]. *)
Definition throw {A} (e : CliError) : Cli A := λ ui, Ret (ui, inl e).

(** A result that is looked at and not passed on. *)
Definition attempt {A} (m : Cli A) : Cli (CliError + A) := λ ui,
  prog_then (m ui) (λ r, let '(ui, r) := r in Ret (ui, inr r)).

(** [.map_err(f)?] of what a call returned. *)
Definition or_throw {F A} (f : F → CliError) (r : F + A) : Cli A :=
  match r with inr a => mret a | inl e => throw (f e) end.

(** [?] of a result with another error type. *)
Definition and_then {F A B} (m : Cli (F + A)) (k : A → Cli (F + B)) : Cli (F + B) :=
  r ← m;
  match r with inl e => mret (inl e) | inr a => k a end.

(** [.map_err(f)]. *)
Definition err_map {F G A} (f : F → G) (m : Cli (F + A)) : Cli (G + A) :=
  r ← m;
  mret (match r with inl e => inl (f e) | inr a => inr a end).

(** [loop], its state, and the console that goes through it. *)
Definition cli_loop {I R} (body : I → Cli (I + R)) (i : I) : Cli R := λ ui,
  Iter (λ s : ConsoleUi * I,
      prog_then (body (snd s) (fst s)) (λ r,
        match r with
        | (ui, inr (inl i)) => Ret (inl (ui, i))
        | (ui, inr (inr r)) => Ret (inr (ui, inr r))
        | (ui, inl e) => Ret (inr (ui, inl e))
        end))
    (ui, i) Ret.

Definition exit {A} (code : Z) : Cli A := λ ui, Vis (Exit code) (λ x : Empty_set, match x with end).

(** What an arithmetic operation of the build comes to. *)
Definition checked {A} (o : outcome Empty_set A) : Cli A :=
  match o with
  | Ok a => mret a
  | Err e => match e with end
  | Panic => λ ui, Vis PanicExit (λ x : Empty_set, match x with end)
  end.

Definition get_ui : Cli ConsoleUi := λ ui, Ret (ui, inr ui).
Definition put_ui (ui : ConsoleUi) : Cli () := λ _, Ret (ui, inr ()).

Notation "x ←? m ; k" := (and_then m (λ x, k))
  (at level 100, m at next level, right associativity) : cli_scope.
#[global] Open Scope cli_scope.

(** ** Texts of the program's own errors *)

Section texts.
Context {CB : CliBuild}.

Definition display_cli_error (e : CliError) : string :=
  match e with
  | CliError_ServiceError message | CliError_IpcError message
  | CliError_ApiFail message | CliError_SessionError message => message
  | _ => debug_cli_error e
  end.

Definition display_service_error (e : ServiceError) : string :=
  debug_service_error_code (se_code e) +:+ ": " +:+ se_message e.

Definition display_ipc_error (e : IpcError) : string :=
  match e with
  | AlreadyRunning => "Another instance is already running"
  | BindFailed e => "Failed to bind to socket: " +:+ err_msg e
  | ConnectionFailed e => "Failed to connect to socket: " +:+ err_msg e
  | IpcIoError e => "IO error: " +:+ err_msg e
  | JsonError => "JSON error: " +:+ display_json_error
  | NotRunning => "Service is not running"
  | ProtocolMismatch expected actual =>
      "IPC protocol mismatch: expected version " +:+ pretty expected +:+ ", got " +:+ pretty actual
  | ProtocolError msg => msg
  | Service error => display_service_error error
  end.

Definition display_signin_error (e : SigninError) : string :=
  match e with
  | EmptyCredentials => "email and password must not be empty"
  | IncorrectCredentials => "incorrect email or password"
  | AccountBanned => "playit.gg account is banned"
  | SigninApi error => "playit.gg API error: " +:+ error
  | SigninTransport error => "playit.gg request failed: " +:+ error
  end.

Definition display_totp_error (e : TotpError) : string :=
  match e with
  | TotpNotSupported =>
      "TOTP completion is not available in this build; run `playit account login` again"
  | TotpInvalidCode => "the TOTP code was rejected"
  | TotpSessionExpired => "account session expired; run `playit account login` again"
  | TotpFailed error => "playit.gg request failed: " +:+ error
  end.

Definition display_web_error (e : WebApiError) : string :=
  match e with
  | WebSessionExpired => "account session expired; run `playit account login` again"
  | WebApi error => "playit.gg API error: " +:+ error
  | WebTransport error => "playit.gg request failed: " +:+ error
  end.

Definition display_store_error (e : SessionStoreError) : string :=
  let 'Unavailable error := e in "session store unavailable: " +:+ error.

(** ** Conversions (main.rs) *)

(** The failures of a call as JSON. *)
Definition from_api_error {F} (fail_value : F → value) (e : ApiError F HttpClientError) : CliError :=
  match e with
  | ErrApi e => CliError_ApiError e
  | ErrClient e => CliError_RequestError e
  | ErrFail fail => CliError_ApiFail (json_string (fail_value fail))
  end.

Definition from_api_error_no_fail (e : ApiErrorNoFail HttpClientError) : CliError :=
  match e with
  | NoFailUnexpectedFail => CliError_ApiFail "unexpected API fail response"
  | NoFailApi e => CliError_ApiError e
  | NoFailClient e => CliError_RequestError e
  end.

Definition from_setup_error (e : SetupError) : CliError := CliError_TunnelSetupError e.

Definition API_BASE : string := default "https://api.playit.gg" api_base_var.
End texts.

(** ** The service's client (playit-ipc/src/ipc.rs) *)

(** [expect_response], which does not panic. *)
Definition expect {T} (response : ServiceResponse) (expected : string)
    (extract : ServiceResponse → option T) : IpcError + T :=
  match expect_response response expected extract with
  | Ok x => inr x
  | Err e => inl e
  | Panic => inl JsonError
  end.

Lemma expect_spec {T} response expected (extract : ServiceResponse → option T) :
  expect_response response expected extract =
    match expect response expected extract with inr x => Ok x | inl e => Err e end.
Proof.
  unfold expect, expect_response, ok_or. destruct response; try done; by destruct (extract _).
Qed.

Definition client_call {T} (client : nat) (request : ServiceRequest) (expected : string)
    (extract : ServiceResponse → option T) : Cli (IpcError + T) :=
  r ← ask (Request client request);
  mret (match r with inl e => inl e | inr response => expect response expected extract end).

Definition subscribe_call (client : nat) : Cli (IpcError + SubscribeResponse) :=
  client_call client Subscribe "subscribe response"
    (λ r, match r with RespSubscribe x => Some x | _ => None end).

Definition status_call (client : nat) : Cli (IpcError + ServiceStatus) :=
  client_call client GetStatus "status response"
    (λ r, match r with RespStatus x => Some x | _ => None end).

Definition lifecycle_call (client : nat) : Cli (IpcError + AgentLifecycle) :=
  client_call client GetState "lifecycle response"
    (λ r, match r with RespState x => Some x | _ => None end).

Definition stop_call (client : nat) : Cli (IpcError + CommandResponse) :=
  client_call client Stop "stop response"
    (λ r, match r with RespStop x => Some x | _ => None end).

Definition set_secret_call (client : nat) (secret : string) : Cli (IpcError + CommandResponse) :=
  client_call client (SetSecret secret) "secret provisioning response"
    (λ r, match r with RespSetSecret x => Some x | _ => None end).

Definition reset_secret_call (client : nat) : Cli (IpcError + CommandResponse) :=
  client_call client ResetSecret "reset secret response"
    (λ r, match r with RespResetSecret x => Some x | _ => None end).

Definition get_secret_path_call (client : nat) : Cli (IpcError + SecretPathResponse) :=
  client_call client GetSecretPath "secret path response"
    (λ r, match r with RespSecretPath x => Some x | _ => None end).

Definition get_account_login_url_call (client : nat) : Cli (IpcError + AccountLoginUrlResponse) :=
  client_call client GetAccountLoginUrl "account login URL response"
    (λ r, match r with RespAccountLoginUrl x => Some x | _ => None end).

(** ** The API's client (api_client) *)

Section api.
Context {FM : Formats} {CB : CliBuild}.

Definition api_invoke (e : Endpoint) (c : HttpClient) (req : ep_Req e) :
    Cli (ApiError (ep_Fail e) HttpClientError + ep_Res e) :=
  r ← ask (Api e c req); mret (unwrap r).

Definition api_invoke_no_fail (e : Endpoint) (c : HttpClient) (req : ep_Req e) :
    Cli (ApiErrorNoFail HttpClientError + ep_Res e) :=
  r ← ask (Api e c req); mret (unwrap_no_fail r).

(** The account calls of web_api.rs. *)
Definition web_call (e : Endpoint) (c : HttpClient) (req : ep_Req e) :
    Cli (WebApiError + ApiResult (ep_Res e) (ep_Fail e)) :=
  r ← ask (Api e c req);
  mret (match r with inl e => inl (WebTransport (debug_client_error e)) | inr x => inr x end).

Definition validate_with_key_call (api_base key : string) : Cli (WebApiError + ()) :=
  r ← api_invoke_no_fail tunnels_list (builder_build (builder_bearer (builder_new api_base) key)) all_tunnels;
  mret (match r with inl e => inl (map_no_fail debug_api_error debug_client_error e) | inr _ => inr () end).

Definition sign_in_call (api_base email password : string) : Cli (SigninError + AccountSession) :=
  if blank email password then mret (inl EmptyCredentials)
  else
    r ← api_invoke login_signin (PlayitApi_create api_base None) (credentials email password);
    now ← ask InstantNow;
    mret (sign_in_result debug_api_error display_client_error api_base now r).

Definition complete_totp_call (s : AccountSession) (code : string) : Cli (TotpError + AccountSession) :=
  r ← ask (Api login_totp (account_client s) {| ReqLoginTotp_code := code |});
  now ← ask InstantNow;
  mret (totp_result debug_api_error debug_client_error s now r).
End api.

(** ** The terminal and Ctrl-C (playit-cli/src/ui/mod.rs, signal_handle.rs)

    What the commands write, the questions they ask, and the signal handler
    that turns Ctrl-C into a question while a guard is held. *)

(** ** Signals (signal_handle.rs) *)

Record Inner : Type := {
  confirm_close : Z;
  close_requested : bool;
}.

(** The atomic operations of a handle and of a guard; the counter wraps. *)
Definition is_confirming_close (s : Inner) : bool := close_requested s.

Definition decline_close (s : Inner) : Inner :=
  {| confirm_close := confirm_close s; close_requested := false |}.

Definition close_guard (s : Inner) : Inner :=
  {| confirm_close := wrap 32 (confirm_close s + 1); close_requested := close_requested s |}.

Definition guard_drop (s : Inner) : Inner :=
  {| confirm_close := wrap 32 (confirm_close s - 1); close_requested := close_requested s |}.

Definition setup : Inner := {| confirm_close := 0; close_requested := false |}.

(** One round of the handler's task after Ctrl-C; [None]: the process exits. *)
Definition on_ctrl_c (s : Inner) : option Inner :=
  if decide (confirm_close s = 0) then None
  else if close_requested s then None
  else Some {| confirm_close := confirm_close s; close_requested := true |}.

(** What happens to the handler over time. *)
Inductive signal_op : Set := OpGuard | OpDrop | OpDecline | OpCtrlC.

Definition signal_step (s : Inner) (o : signal_op) : option Inner :=
  match o with
  | OpGuard => Some (close_guard s)
  | OpDrop => Some (guard_drop s)
  | OpDecline => Some (decline_close s)
  | OpCtrlC => on_ctrl_c s
  end.

Fixpoint signal_run (s : Inner) (ops : list signal_op) : option Inner :=
  match ops with
  | [] => Some s
  | o :: ops => s ← signal_step s o; signal_run s ops
  end.

(** The guards that are held after [ops], and whether Ctrl-C came since the
    last time the question was declined. *)
Definition guards_held (ops : list signal_op) : Z :=
  foldl (λ n o, match o with OpGuard => n + 1 | OpDrop => n - 1 | _ => n end) 0 ops.

Fixpoint asked_after (asked : bool) (ops : list signal_op) : bool :=
  match ops with
  | [] => asked
  | OpCtrlC :: ops => asked_after true ops
  | OpDecline :: ops => asked_after false ops
  | _ :: ops => asked_after asked ops
  end.

(** Every guard is dropped once, after it was made, and fewer than [2^32] are
    held at a time. *)
Definition guards_ok (ops : list signal_op) : Prop :=
  ∀ l1 l2, ops = l1 ++ l2 → 0 ≤ guards_held l1 < 2 ^ 32.

(** ** The console (ui/mod.rs) *)

Definition ascii_lower (c : ascii) : ascii :=
  let n := nat_of_ascii c in
  if decide (65 ≤ n ≤ 90)%nat then ascii_of_nat (n + 32) else c.

(** [to_lowercase], up to the letters that are not ASCII: none of them becomes
    a letter of the words it is compared with, and none is dropped. *)
Definition to_lowercase (s : string) : string :=
  String.string_of_list_ascii (ascii_lower <$> String.list_ascii_of_string s).

Definition UISettings : Type := option bool.

Definition ConsoleUi_new (settings : UISettings) : ConsoleUi :=
  {| auto_answer := settings; last_display := None |}.

(** What a line answers. *)
Definition answer_of (default_yes : option bool) (line : string) : option bool :=
  let input := to_lowercase (str_trim line) in
  match default_yes with
  | Some default =>
      if decide (input = EmptyString) then Some default
      else if decide (input = "y" ∨ input = "yes") then Some true
      else if decide (input = "n" ∨ input = "no") then Some false
      else None
  | None =>
      if decide (input = "y" ∨ input = "yes") then Some true
      else if decide (input = "n" ∨ input = "no") then Some false
      else None
  end.

Definition prompt_suffix (default_yes : option bool) : string :=
  match default_yes with
  | Some true => "Y/n"
  | Some false => "y/N"
  | None => "y/n"
  end.

(** The task that asks until it gets an answer; [inl] an error of the
    terminal. *)
Definition yn_round (prompt : string) (default_yes : option bool) (_ : ()) : Cli (() + bool) :=
  ask (Print (prompt +:+ " (" +:+ prompt_suffix default_yes +:+ ")? "));;
  f ← ask Flush;
  or_throw CliError_RenderError f;;
  l ← ask ReadLine;
  line ← or_throw CliError_RenderError l;
  match answer_of default_yes line with
  | Some b => mret (inr b)
  | None => ask (Println "Please answer y or n.");; mret (inl ())
  end.

(** [spawn_blocking(..).await.map_err(..)?]. *)
Definition blocking {A} (m : Cli A) : Cli A :=
  r ← attempt m;
  joined ← ask Join;
  if (joined : bool) then or_throw id r else throw CliError_AnswerNotProvided.

Definition yn_question (question : string) (default_yes : option bool) : Cli bool :=
  ui ← get_ui;
  match auto_answer ui with
  | Some auto => mret auto
  | None => blocking (cli_loop (yn_round question default_yes) ())
  end.

Section console.
Context {CB : CliBuild}.

Definition shown_recently (ts : Z) (last content : string) : Cli bool :=
  now ← ask NowMilli;
  d ← checked (u_sub overflow_checks 64 now ts);
  mret (bool_decide (d < 10000) && bool_decide (content = last)).

Definition write_screen_inner (content : string) : Cli () :=
  ui ← get_ui;
  dup ← (match last_display ui with
         | Some (ts, last_render) => shown_recently ts last_render content
         | None => mret false
         end);
  if (dup : bool) then mret ()
  else
    ask (Println content);;
    now ← ask NowMilli;
    put_ui {| auto_answer := auto_answer ui; last_display := Some (now, content) |}.

Definition write_screen (content : string) : Cli () :=
  confirming ← ask IsConfirmingClose;
  if (confirming : bool) then
    r ← attempt (yn_question (content +:+ nl +:+ "Close requested, close program?") (Some true));
    match r with
    | inr true => exit 0
    | inr false => ask DeclineClose
    | inl error => ask (Eprintln ("failed to ask close signal question: " +:+ display_cli_error error))
    end
  else write_screen_inner content.

(** [error] is the error's [Debug] text. *)
Definition write_error (msg error : string) : Cli () :=
  write_screen ("Got Error" +:+ nl +:+ "MSG: " +:+ msg +:+ nl +:+ "Error: " +:+ error +:+ nl).
End console.
