(* ===== verification/ServiceManager.v ===== *)
(** * The installed service (playitd/src/manager.rs, linux.rs;
      playit-cli/src/service.rs, linux.rs)

    Starting, stopping and asking for the background service through systemd or
    OpenRC, on Linux, and why its socket cannot be reached. *)

From S2P Require Import Prelude Program Text CliModel Ipc.
From stdpp Require Import pretty.
#[local] Open Scope string_scope.
#[local] Open Scope list_scope.
#[local] Open Scope Z_scope.

(** ** Errors and states (manager.rs) *)

Inductive ServiceManagerError : Type :=
  | NotAvailable (msg : string)
  | StartFailed (msg : string)
  | StopFailed (msg : string)
  | ServiceNotFound
  | ManagerIoError (e : io_error).

Definition display_manager_error (e : ServiceManagerError) : string :=
  match e with
  | NotAvailable msg => "Service manager not available: " +:+ msg
  | StartFailed msg => "Failed to start service: " +:+ msg
  | StopFailed msg => "Failed to stop service: " +:+ msg
  | ServiceNotFound => "Service not found"
  | ManagerIoError e => "IO error: " +:+ err_msg e
  end.

Inductive InstalledServiceState : Set := ServiceRunning | ServiceStopped | ServiceUnknown.

Inductive LinuxServiceManager : Set := Systemd | OpenRc.

Definition default_socket_path : string := "/run/playit/playitd.sock".

(** ** The commands of the service managers (playitd/src/linux.rs) *)

Definition SYSTEMD_SERVICE_NAME : string := "playit".
Definition OPENRC_SERVICE_NAME : string := "playit".

Definition systemd_start_args : list string := ["start"; SYSTEMD_SERVICE_NAME].
Definition systemd_is_active_args : list string := ["is-active"; "--quiet"; SYSTEMD_SERVICE_NAME].
Definition systemd_stop_args : list string := ["stop"; SYSTEMD_SERVICE_NAME].
Definition openrc_start_args : list string := [OPENRC_SERVICE_NAME; "start"].
Definition openrc_status_args : list string := [OPENRC_SERVICE_NAME; "status"].
Definition openrc_stop_args : list string := [OPENRC_SERVICE_NAME; "stop"].

(** [args.join(" ")]. *)
Fixpoint join_args (args : list string) : string :=
  match args with
  | [] => EmptyString
  | [a] => a
  | a :: args => a +:+ " " +:+ join_args args
  end.

(** [output.status.success()]. *)
Definition success (o : Output) : bool := bool_decide (out_status o = Some 0).

Section manager.
Context {CB : CliBuild}.

(** What went wrong: the error text, or the output, or the status. *)
Definition failure_detail (o : Output) : string :=
  let stderr := str_trim (out_stderr o) in
  let stdout := str_trim (out_stdout o) in
  if decide (stderr = EmptyString) then
    if decide (stdout = EmptyString) then "exit status " +:+ display_exit_status (out_status o) else stdout
  else stderr.

Definition run_systemctl (args : list string) (err_builder : string → ServiceManagerError) :
    Cli (ServiceManagerError + ()) :=
  r ← ask (Command "systemctl" args);
  match r with
  | inl e => mret (inl (err_builder ("Failed to run systemctl: " +:+ err_msg e)))
  | inr output =>
      if success output then mret (inr ())
      else mret (inl (err_builder ("systemctl " +:+ join_args args +:+ " failed: " +:+
                                   str_trim (out_stderr output))))
  end.

Definition run_rc_service (args : list string) (err_builder : string → ServiceManagerError) :
    Cli (ServiceManagerError + ()) :=
  r ← ask (Command "rc-service" args);
  match r with
  | inl e => mret (inl (err_builder ("Failed to run rc-service: " +:+ err_msg e)))
  | inr output =>
      if success output then mret (inr ())
      else mret (inl (err_builder ("rc-service " +:+ join_args args +:+ " failed: " +:+
                                   failure_detail output)))
  end.

Definition start_systemd_service : Cli (ServiceManagerError + ()) := run_systemctl systemd_start_args StartFailed.
Definition start_openrc_service : Cli (ServiceManagerError + ()) := run_rc_service openrc_start_args StartFailed.
Definition stop_systemd_service : Cli (ServiceManagerError + ()) := run_systemctl systemd_stop_args StopFailed.
Definition stop_openrc_service : Cli (ServiceManagerError + ()) := run_rc_service openrc_stop_args StopFailed.

Definition is_systemd_service_active : Cli (ServiceManagerError + bool) :=
  r ← ask (Command "systemctl" systemd_is_active_args);
  match r with
  | inl e => mret (inl (NotAvailable ("Failed to run systemctl: " +:+ err_msg e)))
  | inr output =>
      match out_status output with
      | Some 0 => mret (inr true)
      | Some 3 | Some 4 => mret (inr false)
      | _ => mret (inl (NotAvailable ("systemctl " +:+ join_args systemd_is_active_args +:+ " failed: " +:+
                                      failure_detail output)))
      end
  end.

Definition is_openrc_service_active : Cli (ServiceManagerError + bool) :=
  r ← ask (Command "rc-service" openrc_status_args);
  mret (match r with
        | inl e => inl (NotAvailable ("Failed to run rc-service: " +:+ err_msg e))
        | inr output => inr (success output)
        end).

(** ** The manager (manager.rs) *)

Definition installed_service_is_active_with_linux_manager (manager : LinuxServiceManager) :
    Cli (ServiceManagerError + bool) :=
  match manager with
  | Systemd => is_systemd_service_active
  | OpenRc => is_openrc_service_active
  end.

Definition installed_service_state : Cli (ServiceManagerError + InstalledServiceState) :=
  active ←? is_systemd_service_active;
  mret (inr (if (active : bool) then ServiceRunning else ServiceStopped)).

Definition installed_service_is_running : Cli (ServiceManagerError + bool) :=
  state ←? installed_service_state;
  mret (inr (match state with ServiceRunning => true | _ => false end)).

(** The rounds that are left of [for _ in 0..50]. *)
Fixpoint wait_rounds (n : nat) : Cli (ServiceManagerError + ()) :=
  match n with
  | O => mret (inl (StartFailed "Service did not start within timeout"))
  | S n =>
      ask (Sleep 100);;
      running ← ask (IsRunning default_socket_path);
      if (running : bool) then mret (inr ()) else wait_rounds n
  end.

Definition wait_for_installed_service : Cli (ServiceManagerError + ()) := wait_rounds 50.

Definition start_with (manager : LinuxServiceManager) : Cli (ServiceManagerError + ()) :=
  match manager with
  | Systemd => start_systemd_service
  | OpenRc => start_openrc_service
  end.

Definition ensure_installed_service_running : Cli (ServiceManagerError + ()) :=
  running ← ask (IsRunning default_socket_path);
  if (running : bool) then mret (inr ())
  else
    active ←? is_systemd_service_active;
    if (active : bool) then mret (inr ())
    else _ ←? start_systemd_service; wait_for_installed_service.

Definition ensure_installed_service_running_with_linux_manager (manager : LinuxServiceManager) :
    Cli (ServiceManagerError + ()) :=
  running ← ask (IsRunning default_socket_path);
  if (running : bool) then mret (inr ())
  else
    active ←? installed_service_is_active_with_linux_manager manager;
    if (active : bool) then mret (inr ())
    else _ ←? start_with manager; wait_for_installed_service.

Definition stop_installed_service : Cli (ServiceManagerError + ()) := stop_systemd_service.

Definition stop_installed_service_with_linux_manager (manager : LinuxServiceManager) :
    Cli (ServiceManagerError + ()) :=
  match manager with
  | Systemd => stop_systemd_service
  | OpenRc => stop_openrc_service
  end.
End manager.
