(* ===== verification/SocketAccess.v ===== *)
(** * Reaching the service's socket (playit-cli/src/linux.rs, service.rs;
      playitd/src/unix.rs, unix_account.rs)

    Who may use the socket that the daemon makes, why a user cannot, and the
    command line's ways to start and stop the installed service. *)

From S2P Require Import Prelude Program OriginLookup Text CliModel Ipc ServiceManager.
From stdpp Require Import pretty.
From Stdlib Require Import Ascii.
#[local] Open Scope string_scope.
#[local] Open Scope list_scope.
#[local] Open Scope Z_scope.

(** ** Accounts (unix_account.rs) *)

Definition effective_uid : Cli Z := ask EffectiveUid.
Definition effective_gid : Cli Z := ask EffectiveGid.

Definition current_user_is_root : Cli bool :=
  uid ← effective_uid; mret (bool_decide (uid = 0)).

Definition group_info_by_gid (gid : Z) : Cli (option UnixGroupInfo) := ask (GroupByGid gid).

Definition current_user_account : Cli (option UnixUserAccount) :=
  uid ← effective_uid; ask (UserByUid uid).

Definition current_process_has_group (gid : Z) : Cli bool :=
  egid ← effective_gid;
  if decide (egid = gid) then mret true
  else
    groups ← ask GroupAccessList;
    mret (match groups with Some groups => bool_decide (gid ∈ groups) | None => false end).

(** ** Why the socket cannot be reached (linux.rs) *)

Definition PLAYIT_GROUP_NAME : string := "playit".

Inductive LinuxSocketAccessIssue : Type :=
  | MissingSocket
  | InspectFailed (error : string)
  | NotASocket
  | PlayitGroupJoinRequired
  | PlayitGroupRefreshRequired
  | GenericPermissionDenied (current_uid current_gid socket_uid socket_gid socket_mode : Z).

Record LinuxGroupInfo : Type := { lg_name : string; lg_members : list string }.

Definition lookup_group_info (group_gid : Z) : Cli (option LinuxGroupInfo) :=
  group ← group_info_by_gid group_gid;
  mret ((λ g, {| lg_name := gi_name g; lg_members := gi_members g |}) <$> group).

Definition current_user_in_group (target_gid : Z) : Cli bool := current_process_has_group target_gid.

(** The write bit of the class the user is in: [0o200], [0o020], [0o002]. *)
Definition current_user_can_write_socket (metadata : Metadata) : Cli bool :=
  current_uid ← effective_uid;
  if decide (current_uid = 0) then mret true
  else if decide (current_uid = md_uid metadata) then mret (negb (Z.land (md_mode metadata) 128 =? 0))
  else
    member ← current_user_in_group (md_gid metadata);
    if (member : bool) then mret (negb (Z.land (md_mode metadata) 16 =? 0))
    else mret (negb (Z.land (md_mode metadata) 2 =? 0)).

Definition current_user_account_is_configured_for_group (target_gid : Z) (group : option LinuxGroupInfo) :
    Cli (option bool) :=
  account ← current_user_account;
  match account with
  | None => mret None
  | Some account =>
      if decide (ua_primary_gid account = target_gid) then mret (Some true)
      else mret ((λ g, bool_decide (ua_username account ∈ lg_members g)) <$> group)
  end.

Definition playit_group_access_issue (target_gid : Z) (group : option LinuxGroupInfo) :
    Cli (option LinuxSocketAccessIssue) :=
  configured ← current_user_account_is_configured_for_group target_gid group;
  mret (match configured with
        | Some true => Some PlayitGroupRefreshRequired
        | Some false => Some PlayitGroupJoinRequired
        | None => None
        end).

(** [Path::parent] of a path with no slash at its end: what is before the last
    slash, or the root. *)
Definition parent_dir (socket_path : string) : option string :=
  match after_last "/" socket_path with
  | Some name =>
      let dir := String.substring 0 (String.length socket_path - String.length name - 1) socket_path in
      Some (if decide (dir = EmptyString) then "/" else dir)
  | None => if decide (socket_path = EmptyString) then None else Some EmptyString
  end.

Definition socket_parent_access_issue (path : string) : Cli (option LinuxSocketAccessIssue) :=
  match parent_dir path with
  | None => mret None
  | Some parent =>
      metadata ← ask (ReadMetadata parent);
      match metadata with
      | inl _ => mret None
      | inr metadata =>
          parent_group ← lookup_group_info (md_gid metadata);
          if decide (lg_name <$> parent_group = Some PLAYIT_GROUP_NAME)
          then playit_group_access_issue (md_gid metadata) parent_group
          else mret None
      end
  end.

Definition socket_access_issue (socket_path : string) : Cli (option LinuxSocketAccessIssue) :=
  m ← ask (ReadMetadata socket_path);
  match m with
  | inl error =>
      if decide (err_kind error = NotFound) then mret (Some MissingSocket)
      else if decide (err_kind error = IoPermissionDenied) then
        issue ← socket_parent_access_issue socket_path;
        mret (match issue with Some issue => Some issue | None => Some (InspectFailed (err_msg error)) end)
      else mret (Some (InspectFailed (err_msg error)))
  | inr metadata =>
      if negb (md_is_socket metadata) then mret (Some NotASocket)
      else
        current_uid ← effective_uid;
        current_gid ← effective_gid;
        socket_group ← lookup_group_info (md_gid metadata);
        writable ← current_user_can_write_socket metadata;
        if (writable : bool) then mret None
        else
          issue ← (if decide (lg_name <$> socket_group = Some PLAYIT_GROUP_NAME)
                   then playit_group_access_issue (md_gid metadata) socket_group
                   else mret None);
          match issue with
          | Some issue => mret (Some issue)
          | None =>
              mret (Some (GenericPermissionDenied current_uid current_gid (md_uid metadata) (md_gid metadata)
                            (Z.land (md_mode metadata) 511)))
          end
  end.

(** ** Messages *)

(** [{:o}]: a mode has at most eleven octal digits. *)
Fixpoint octal_digits (n : nat) (v : Z) : string :=
  match n with
  | O => EmptyString
  | S n =>
      let d := String (ascii_of_nat (48 + Z.to_nat (v `mod` 8))) EmptyString in
      if decide (v < 8) then d else octal_digits n (v / 8) +:+ d
  end.

Definition octal (v : Z) : string := octal_digits 11 v.

Definition service_start_command (service_manager : LinuxServiceManager) (is_root : bool) : string :=
  match service_manager, is_root with
  | Systemd, true => "systemctl start playit"
  | Systemd, false => "sudo systemctl start playit"
  | OpenRc, true => "rc-service playit start"
  | OpenRc, false => "sudo rc-service playit start"
  end.

Definition service_start_prompt (service_manager : LinuxServiceManager) (is_root : bool) : string :=
  "The playit service is not running." +:+ nl +:+
  "Start it now so playit can run in the background?" +:+ nl +:+ nl +:+
  "Command: " +:+ service_start_command service_manager is_root +:+
  (if is_root then EmptyString else nl +:+ "You may be asked for your password.").

Definition service_restart_command (service_manager : LinuxServiceManager) : string :=
  match service_manager with
  | Systemd => "sudo systemctl restart playit"
  | OpenRc => "sudo rc-service playit restart"
  end.

Definition format_playit_group_join_message (socket_path : string) : string :=
  "The playit service is running, but this shell cannot access its IPC socket:" +:+ nl +:+ "  " +:+
  socket_path +:+ nl +:+ nl +:+
  "The socket is restricted to the `playit` group. Add your user to that group:" +:+ nl +:+
  "  sudo usermod -aG playit $USER" +:+ nl +:+ nl +:+
  "Then refresh group membership for this shell:" +:+ nl +:+ "  newgrp playit" +:+ nl +:+ nl +:+
  "After that, run:" +:+ nl +:+ "  playit".

Definition format_playit_group_refresh_message (socket_path : string) : string :=
  "The playit service is running, but this shell cannot access its IPC socket:" +:+ nl +:+ "  " +:+
  socket_path +:+ nl +:+ nl +:+
  "Your user is already in the `playit` group, but this shell has not picked up that membership yet." +:+
  nl +:+ nl +:+
  "Refresh group membership for this shell:" +:+ nl +:+ "  newgrp playit" +:+ nl +:+ nl +:+
  "Then run:" +:+ nl +:+ "  playit".

Definition format_socket_access_issue (socket_path : string) (issue : LinuxSocketAccessIssue)
    (service_manager : LinuxServiceManager) : string :=
  match issue with
  | MissingSocket =>
      "The playit service is running, but its IPC socket does not exist yet:" +:+ nl +:+ "  " +:+
      socket_path +:+ nl +:+ nl +:+ "Restart the service, then try again:" +:+ nl +:+ "  " +:+
      service_restart_command service_manager
  | InspectFailed error =>
      "The playit service is running, but playit could not inspect its IPC socket:" +:+ nl +:+ "  " +:+
      socket_path +:+ nl +:+ nl +:+ "Error: " +:+ error
  | NotASocket =>
      "The playit service is running, but this path is not a Unix socket:" +:+ nl +:+ "  " +:+
      socket_path +:+ nl +:+ nl +:+ "Remove or rename that file, then restart the service:" +:+ nl +:+ "  " +:+
      service_restart_command service_manager
  | PlayitGroupJoinRequired => format_playit_group_join_message socket_path
  | PlayitGroupRefreshRequired => format_playit_group_refresh_message socket_path
  | GenericPermissionDenied current_uid current_gid socket_uid socket_gid socket_mode =>
      "The playit service is running, but this user cannot access its IPC socket:" +:+ nl +:+ "  " +:+
      socket_path +:+ nl +:+ nl +:+
      "Current user uid=" +:+ pretty current_uid +:+ ", gid=" +:+ pretty current_gid +:+ nl +:+
      "Socket owner uid=" +:+ pretty socket_uid +:+ ", gid=" +:+ pretty socket_gid +:+
      ", mode=" +:+ octal socket_mode +:+ nl +:+ nl +:+
      "Check the socket permissions or run playit from a user that can access this socket."
  end.

Definition installed_service_unreachable_message (service_manager : LinuxServiceManager) : Cli string :=
  issue ← socket_access_issue default_socket_path;
  mret (match issue with
        | Some issue => format_socket_access_issue default_socket_path issue service_manager
        | None =>
            "The playit service is running, but this shell cannot reach its IPC socket:" +:+ nl +:+ "  " +:+
            default_socket_path +:+ nl +:+ nl +:+
            "Try running `playit status` again in a few seconds. If it still fails, restart the service with:"
            +:+ nl +:+ "  " +:+ service_restart_command service_manager
        end).

Definition is_linux_socket_access_message (message : string) : bool :=
  starts_with "The playit service is running, but" message.

(** ** The installed service, for the commands (linux.rs, service.rs) *)

Inductive ServiceManagerMode : Set := ModeNone | ModeSystemd | ModeOpenRc.

Inductive InstalledServiceStartState : Set := AlreadyRunningState | Started.

Inductive InstalledServiceStopState : Set := AlreadyStopped | StopRequested.

Definition linux_service_manager (service_manager : ServiceManagerMode) : option LinuxServiceManager :=
  match service_manager with
  | ModeNone => None
  | ModeSystemd => Some Systemd
  | ModeOpenRc => Some OpenRc
  end.

Definition no_service_manager_selected_message : string :=
  "The playit daemon is not reachable at " +:+ default_socket_path +:+ "." +:+ nl +:+
  "playitd must be running in the background before playit can connect to it." +:+ nl +:+ nl +:+
  "Run with --systemd or --openrc to let playit start the installed service, or start playitd manually and connect with --socket-path:"
  +:+ nl +:+ "  playitd --socket-path=./playit.sock --secret-path=./playit.toml" +:+ nl +:+
  "  playit --socket-path=./playit.sock".

Definition no_service_manager_selected_error : CliError :=
  CliError_ServiceError no_service_manager_selected_message.

Section for_cli.
Context {CB : CliBuild}.

Definition installed_service_is_active (service_manager : LinuxServiceManager) : Cli bool :=
  r ← installed_service_is_active_with_linux_manager service_manager;
  or_throw (λ error, CliError_ServiceError ("Failed to check service status: " +:+ display_manager_error error)) r.

(** The rounds that are left of [for _ in 0..20]. *)
Fixpoint reach_rounds (n : nat) : Cli bool :=
  match n with
  | O => mret false
  | S n =>
      running ← ask (IsRunning default_socket_path);
      if (running : bool) then mret true else ask (Sleep 100);; reach_rounds n
  end.

(** The commands always pass their console. *)
Definition prepare_installed_service_for_cli (service_manager : LinuxServiceManager) : Cli bool :=
  active ← installed_service_is_active service_manager;
  if (active : bool) then
    reached ← reach_rounds 20;
    if (reached : bool) then mret true
    else
      message ← installed_service_unreachable_message service_manager;
      throw (CliError_ServiceError message)
  else
    is_root ← current_user_is_root;
    should_start ← yn_question (service_start_prompt service_manager is_root) (Some true);
    if (should_start : bool) then mret false
    else throw (CliError_ServiceError
                  ("The playit service is not running. Start it with `" +:+
                   service_start_command service_manager false +:+ "`, then run `playit` again.")).

Definition ensure_installed_service_running_for_cli (service_manager : ServiceManagerMode) :
    Cli InstalledServiceStartState :=
  running ← ask (IsRunning default_socket_path);
  if (running : bool) then mret AlreadyRunningState
  else
    match linux_service_manager service_manager with
    | None => throw no_service_manager_selected_error
    | Some linux_manager =>
        ready ← prepare_installed_service_for_cli linux_manager;
        if (ready : bool) then mret AlreadyRunningState
        else
          r ← ensure_installed_service_running_with_linux_manager linux_manager;
          or_throw (λ error, CliError_ServiceError ("Failed to start service: " +:+ display_manager_error error)) r;;
          mret Started
    end.

Definition installed_service_is_active_for_cli (service_manager : ServiceManagerMode) : Cli bool :=
  match linux_service_manager service_manager with
  | None => throw no_service_manager_selected_error
  | Some linux_manager => installed_service_is_active linux_manager
  end.

Definition stop_installed_service_for_cli (service_manager : ServiceManagerMode) : Cli InstalledServiceStopState :=
  match linux_service_manager service_manager with
  | None => throw no_service_manager_selected_error
  | Some linux_manager =>
      active ← installed_service_is_active_for_cli service_manager;
      if (active : bool) then
        stop_installed_service_with_linux_manager linux_manager;;
        mret StopRequested
      else
        ask (Println "The playit service is already stopped.");;
        mret AlreadyStopped
  end.
End for_cli.
