(* ===== verification/CliSession.v ===== *)
(** * Attaching to the service (playit-cli/src/client.rs, account.rs)

    The targets of the commands, their error messages, and the two ways to
    follow a service: the terminal application and the plain output; and the
    account commands. *)

From S2P Require Import Prelude Net OriginLookup Json Text Api HttpClient ApiTunnels ApiAccount ApiClient WebApi SessionStore IpcModel Ipc FileSystem Program Tui CliModel ServiceManager SocketAccess.
From stdpp Require Import pretty.
From Stdlib Require Import Ascii.
#[local] Open Scope string_scope.
#[local] Open Scope list_scope.
#[local] Open Scope Z_scope.

(** ** Account commands (playit-cli/src/account.rs)

    Signing in, the stored session, and the client it authorises. *)

(** ** Reading lines *)

(** [trim_end_matches(\['\r', '\n'\])]. *)
Fixpoint drop_line_ends (l : list ascii) : list ascii :=
  match l with
  | c :: rest => if decide (c = "010"%char ∨ c = "013"%char) then drop_line_ends rest else l
  | [] => []
  end.

Definition trim_line_end (s : string) : string :=
  String.string_of_list_ascii (reverse (drop_line_ends (reverse (String.list_ascii_of_string s)))).

Definition read_stdin_line : Cli string :=
  blocking (
    l ← ask ReadLine;
    line ← or_throw CliError_RenderError l;
    mret (trim_line_end line)).

Definition read_line (prompt : string) : Cli string :=
  blocking (
    ask (Print (prompt +:+ ": "));;
    f ← ask Flush;
    or_throw CliError_RenderError f;;
    l ← ask ReadLine;
    line ← or_throw CliError_RenderError l;
    mret (str_trim line)).

Definition prompt_line (prompt : string) : Cli string := read_line prompt.

Definition read_password (password_stdin : bool) : Cli string :=
  if password_stdin then read_stdin_line
  else
    var ← ask (EnvVar "PLAYIT_PASSWORD");
    match var with
    | Some password =>
        if decide (password = EmptyString) then
          throw (CliError_SessionError "PLAYIT_PASSWORD is set but empty")
        else mret password
    | None =>
        ask (Eprintln "password input is echoed; prefer PLAYIT_PASSWORD or --password-stdin");;
        read_stdin_line
    end.

(** ** The stored session *)

Definition session_file : Cli path :=
  dir ← ask ConfigDir;
  match dir with
  | Some dir => mret (dir ++ ["playit-cli"; "account-session.json"])
  | None => throw (CliError_SessionError "could not locate the user config directory")
  end.

Definition store_error (e : SessionStoreError) : CliError := CliError_SessionError (display_store_error e).

Definition load_stored_session : Cli PersistedSession :=
  p ← session_file;
  r ← ask (SessionLoad p);
  stored ← or_throw store_error r;
  match stored with
  | Some stored => mret stored
  | None => throw (CliError_SessionError "not logged in; run `playit account login` first")
  end.

Definition stored_account_client (stored : PersistedSession) : HttpClient :=
  builder_build (builder_bearer (builder_new (PersistedSession_api_base stored))
                   (PersistedSession_session_key stored)).

Definition stored_client : Cli (PersistedSession * HttpClient) :=
  stored ← load_stored_session;
  mret (stored, stored_account_client stored).

(** ** Commands *)

Definition ApiAccountStatus_debug (s : ApiAccountStatus) : string :=
  match s with
  | ApiAccountStatus_Guest => "Guest"
  | ApiAccountStatus_EmailNotVerified => "EmailNotVerified"
  | ApiAccountStatus_Verified => "Verified"
  end.

Section account.
Context {FM : Formats} {CB : CliBuild}.

Definition report_session (session : AccountSession) : Cli () :=
  write_screen ("signed in as account " +:+ pretty (AccountSession_account_id session) +:+ " (" +:+
                ApiAccountStatus_debug (WebAuthToken_account_status (WebSession_auth (se_session session))) +:+ ")");;
  if requires_totp session then
    write_screen "the stored session still requires a TOTP code; run `playit account login` again to complete it."
  else mret ().

Definition run_account_login (email : option string) (password_stdin : bool) : Cli () :=
  email ← (match email with Some email => mret email | None => read_line "playit.gg email" end);
  password ← read_password password_stdin;
  r ← sign_in_call API_BASE (str_trim email) password;
  session ← or_throw (λ e, CliError_SessionError (display_signin_error e)) r;
  session ←
    (if requires_totp session then
       write_screen "this account requires a TOTP code";;
       code ← read_line "TOTP code";
       r ← complete_totp_call session (str_trim code);
       or_throw (λ e, CliError_SessionError (display_totp_error e)) r
     else mret session);
  report_session session;;
  p ← session_file;
  now ← ask NowUnix;
  r ← ask (SessionSave p (from_account_session session now));
  or_throw store_error r;;
  write_screen "account session stored".

Definition run_account_status : Cli () :=
  stored ← load_stored_session;
  write_screen ("account " +:+ pretty (PersistedSession_account_id stored) +:+ " (" +:+
                PersistedSession_api_base stored +:+ "), saved at unix " +:+
                pretty (PersistedSession_saved_at_unix stored)).

(** [validate_with_key] of what is stored. *)
Definition validate_stored (stored : PersistedSession) : Cli () :=
  r ← validate_with_key_call (PersistedSession_api_base stored) (PersistedSession_session_key stored);
  or_throw (λ e, CliError_SessionError (display_web_error e)) r.

Definition run_account_validate : Cli () :=
  stored ← load_stored_session;
  validate_stored stored;;
  write_screen ("account " +:+ pretty (PersistedSession_account_id stored) +:+ " session is valid (" +:+
                PersistedSession_api_base stored +:+ ")").

Definition require_valid_stored_session : Cli () :=
  stored ← load_stored_session;
  validate_stored stored;;
  write_screen ("using stored account " +:+ pretty (PersistedSession_account_id stored) +:+ " (" +:+
                PersistedSession_api_base stored +:+ ")").

Definition run_account_logout : Cli () :=
  p ← session_file;
  r ← ask (SessionClear p);
  or_throw store_error r;;
  write_screen "account session cleared".
End account.

(** ** Targets *)

Inductive AttachMode : Set := Interactive | StdoutMode.

Inductive AttachErrorContext : Type :=
  | Standard
  | AutoCommand (start_attempt_failed : option string).

Inductive CliTarget : Type :=
  | InstalledService
  | ExplicitSocket (socket_path : string).

Definition from_socket_path (socket_path : option string) : CliTarget :=
  match socket_path with
  | Some socket_path => ExplicitSocket socket_path
  | None => InstalledService
  end.

Definition target_socket_path (t : CliTarget) : string :=
  match t with
  | InstalledService => default_socket_path
  | ExplicitSocket path => path
  end.

(** ** Messages *)

Definition ipc_connection_error : CliError :=
  CliError_IpcError "Could not connect to the playit service. Start it with `playit start`, then try again.".

Definition auto_attach_error (target : CliTarget) (start_attempt_failed : option string) : CliError :=
  match target with
  | InstalledService =>
      match start_attempt_failed with
      | Some error =>
          if is_linux_socket_access_message error then CliError_IpcError error
          else if starts_with "The playit service is running, but" error then CliError_IpcError error
          else if starts_with "The playit service is not reachable" error then CliError_IpcError error
          else CliError_IpcError
                 ("Could not connect to the playit service. playit also tried to start it first, but startup failed: "
                  +:+ error)
      | None =>
          CliError_IpcError
            "Could not connect to the playit service. playit tried to start it first, but it is still not reachable."
      end
  | ExplicitSocket _ => ipc_connection_error
  end.

Definition initial_attach_error (target : CliTarget) (error_context : AttachErrorContext) : CliError :=
  match error_context with
  | Standard => ipc_connection_error
  | AutoCommand start_attempt_failed => auto_attach_error target start_attempt_failed
  end.

Definition attach_lost_message (target : CliTarget) (error : string) : string :=
  match target with
  | InstalledService =>
      "Connection to the playit service was lost: " +:+ error +:+ ". Run " +:+ dq +:+ "playit attach" +:+ dq +:+
      " to reconnect."
  | ExplicitSocket path =>
      "Connection to the playit daemon was lost: " +:+ error +:+ ". Reattach with " +:+ dq +:+
      "playit attach --socket-path " +:+ path +:+ dq +:+ " once the daemon is reachable again."
  end.

Definition format_log_level (level : LogLevel) : string :=
  match level with
  | LogTrace => "TRACE"
  | LogDebug => "DEBUG"
  | LogInfo => "INFO"
  | LogWarn => "WARN"
  | LogError => "ERROR"
  end.

Definition format_service_phase (phase : ServicePhase) : string :=
  match phase with
  | PhaseWaitingForSecret => "waiting for secret"
  | PhaseHasInvalidSecret => "invalid secret"
  | PhaseDisabledOverLimit => "disabled over limit"
  | PhaseStarting => "starting"
  | PhaseReconnecting => "reconnecting"
  | PhaseRunning => "running"
  | PhaseStopping => "stopping"
  | PhaseError => "error"
  end.

(** [{:>5}]. *)
Definition pad5 (s : string) : string :=
  String.substring 0 (5 - String.length s) "     " +:+ s.

(** ** Connecting *)

Definition connect_target (target : CliTarget) : Cli nat :=
  r ← ask (Connect (target_socket_path target));
  or_throw (λ _, ipc_connection_error) r.

(** ** The terminal application *)

Section session.
Context {CB : CliBuild}.
(** [DateTime::from_timestamp_millis] and its format, where there is such a time. *)
Context (timestamp_text : Z → option string).

Definition set_terminal (t : TuiApp) (up : bool) : TuiApp :=
  {| tui_service_logs := tui_service_logs t; tui_agent_data := tui_agent_data t; tui_stats := tui_stats t;
     tui_mode := tui_mode t; tui_should_quit := tui_should_quit t; tui_quit_confirm := tui_quit_confirm t;
     tui_terminal := up |}.

(** The operations return the state with their result: an error leaves what
    was done before it. *)
Definition init_terminal (t : TuiApp) : Cli (TuiApp * (io_error + ())) :=
  r ← ask EnableRawMode;
  match r with
  | inl e => mret (t, inl e)
  | inr _ =>
      r ← ask EnterAlternateScreen;
      match r with
      | inl e => mret (t, inl e)
      | inr _ =>
          r ← ask NewTerminal;
          mret (match r with inl e => (t, inl e) | inr _ => (set_terminal t true, inr ()) end)
      end
  end.

Definition restore_terminal (t : TuiApp) : Cli (TuiApp * (io_error + ())) :=
  if tui_terminal t then
    let t := set_terminal t false in
    r ← ask DisableRawMode;
    match r with
    | inl e => mret (t, inl e)
    | inr _ =>
        r ← ask LeaveAlternateScreen;
        match r with
        | inl e => mret (t, inl e)
        | inr _ => r ← ask ShowCursor; mret (t, r)
        end
    end
  else mret (t, inr ()).

Definition render_err {A} (r : io_error + A) : CliError + A :=
  match r with inl e => inl (CliError_RenderError e) | inr a => inr a end.

Definition tui_init (t : TuiApp) : Cli (TuiApp * (CliError + ())) :=
  if tui_terminal t then mret (t, inr ())
  else r ← init_terminal t; let '(t, r) := r in mret (t, render_err r).

Definition tui_shutdown (t : TuiApp) : Cli (TuiApp * (CliError + ())) :=
  r ← restore_terminal t; let '(t, r) := r in mret (t, render_err r).

(** The terminal is set up here. *)
Definition draw (t : TuiApp) : Cli (io_error + ()) :=
  match tui_mode t with
  | TuiMessage message => ask (Draw (message_screen t message))
  | TuiRunning =>
      now ← ask NowMilli;
      log_height ← ask LogAreaHeight;
      ask (Draw (running_screen ratio_text cargo_pkg_version t now log_height))
  end.

(** Poll for an event and handle it, if it is a key. *)
Definition tick_key (t : TuiApp) : Cli (TuiApp * (CliError + ())) :=
  p ← ask (PollEvent 50);
  match p with
  | inl e => mret (t, inl (CliError_RenderError e))
  | inr false => mret (t, inr ())
  | inr true =>
      ev ← ask ReadEvent;
      match ev with
      | inl e => mret (t, inl (CliError_RenderError e))
      | inr None => mret (t, inr ())
      | inr (Some key) =>
          let '(t, declined) := handle_key_event t key in
          (if (declined : bool) then ask DeclineClose else mret ());;
          mret (t, inr ())
      end
  end.

Definition tick (t : TuiApp) : Cli (TuiApp * (CliError + bool)) :=
  r ← tui_init t;
  let '(t, r) := r in
  match r with
  | inl e => mret (t, inl e)
  | inr _ =>
      d ← draw t;
      match d with
      | inl e => mret (t, inl (CliError_RenderError e))
      | inr _ =>
          r ← tick_key t;
          let '(t, r) := r in
          match r with
          | inl e => mret (t, inl e)
          | inr _ =>
              confirming ← ask IsConfirmingClose;
              let t := if (confirming : bool) && negb (tui_quit_confirm t)
                       then set_quit t (tui_should_quit t) true else t in
              mret (t, inr (negb (tui_should_quit t)))
          end
      end
  end.

Definition print_detach_message : Cli () :=
  ask (Println "Detached from service. Service continues running in background.");;
  ask (Println "Use 'playit stop' to stop the service.").

(** What leaving the session drops: the guard, and the application, which
    restores the terminal once more. *)
Definition leave_tui (t : TuiApp) : Cli () :=
  ask DropCloseGuard;;
  restore_terminal t;;
  mret ().

(** The end of the loop: [shutdown()?], then [k]; the drops come last. *)
Definition shutdown_then (t : TuiApp) (k : Cli (CliError + ())) : Cli (TuiApp + (CliError + ())) :=
  r ← tui_shutdown t;
  let '(t, r) := r in
  match r with
  | inl e => leave_tui t;; mret (inr (inl e))
  | inr _ => out ← k; leave_tui t;; mret (inr out)
  end.

Definition tui_round (client : nat) (target : CliTarget) (t : TuiApp) : Cli (TuiApp + (CliError + ())) :=
  u ← ask (UpdateOrTick client 50);
  match u with
  | inl (inr update) => mret (inl (apply_tui_update t update))
  | inl (inl error) =>
      shutdown_then t (ask (Println (attach_lost_message target (display_ipc_error error)));; mret (inr ()))
  | inr () =>
      r ← tick t;
      let '(t, r) := r in
      match r with
      | inr true => mret (inl t)
      | inr false => shutdown_then t (print_detach_message;; mret (inr ()))
      | inl error => shutdown_then t (mret (inl error))
      end
  end.

Definition run_attach_tui_session (client : nat) (target : CliTarget) (subscribe : SubscribeResponse) : Cli () :=
  let snapshot := sr_snapshot subscribe in
  let t := apply_status TuiApp_new (sn_status snapshot) in
  let t := apply_lifecycle t (sn_lifecycle snapshot) in
  let t := tui_set_stats t (sn_stats snapshot) in
  ask CloseGuard;;
  r ← cli_loop (tui_round client target) t;
  or_throw id r.

(** ** Plain output *)

Definition format_timestamp_millis (millis : Z) : string :=
  default (pretty millis +:+ "ms") (timestamp_text (as_i64 millis)).

Definition apply_stdout_update (update : ServiceUpdate) : Cli () :=
  match update with
  | UpdateLog entry =>
      ask (Println (format_timestamp_millis (le_timestamp entry) +:+ " " +:+
                    pad5 (format_log_level (le_level entry)) +:+ " " +:+ le_target entry +:+ ": " +:+
                    le_message entry))
  | _ => mret ()
  end.

Definition stdout_round (client : nat) (target : CliTarget) (_ : ()) : Cli (() + ()) :=
  u ← ask (UpdateOrCtrlC client);
  match u with
  | inl (inr update) => apply_stdout_update update;; mret (inl ())
  | inl (inl error) =>
      ask (Eprintln (attach_lost_message target (display_ipc_error error)));; mret (inr ())
  | inr () => ask (Println EmptyString);; print_detach_message;; mret (inr ())
  end.

Definition run_attach_stdout_session (client : nat) (target : CliTarget) : Cli () :=
  cli_loop (stdout_round client target) ().

Definition run_attach_command_with_context (target : CliTarget) (mode : AttachMode)
    (error_context : AttachErrorContext) : Cli () :=
  c ← attempt (connect_target target);
  client ← or_throw (λ _, initial_attach_error target error_context) c;
  s ← subscribe_call client;
  subscribe ← or_throw (λ _, initial_attach_error target error_context) s;
  match mode with
  | Interactive => run_attach_tui_session client target subscribe
  | StdoutMode => run_attach_stdout_session client target
  end.

Definition run_attach_command (target : CliTarget) (mode : AttachMode) : Cli () :=
  run_attach_command_with_context target mode Standard.
End session.
