(* ===== verification/CliCommands.v ===== *)
(** * The commands (playit-cli/src/main.rs, client.rs)

    Setting up the agent (the claim, in the browser or with the stored
    account), managing the service, and the rest of the command line. *)

From S2P Require Import Prelude Net OriginLookup Json Text Api HttpClient ApiTunnels ApiAccount ApiClient WebApi SessionStore IpcModel Ipc Program Tui CliModel ServiceManager SocketAccess CliSession.
From stdpp Require Import pretty.
#[local] Open Scope string_scope.
#[local] Open Scope list_scope.
#[local] Open Scope Z_scope.

(** ** Claim codes (main.rs) *)

Section codes.
Context {CB : CliBuild}.

Definition claim_generate : Cli string :=
  buffer ← ask (RandomBytes 5);
  mret (hex_encode buffer).

Definition claim_url (code : string) : CliError + string :=
  match hex_decode code with
  | None => inl CliError_InvalidClaimCode
  | Some _ => inr ("https://playit.gg/claim/" +:+ code)
  end.

Definition parse_claim_agent_type (value : option string) : CliError + ClaimAgentType :=
  match value with
  | None => inr ClaimAgentType_SelfManaged
  | Some value =>
      let other := str_trim value in
      if decide (other = EmptyString ∨ other = "self-managed") then inr ClaimAgentType_SelfManaged
      else if decide (other = "assignable") then inr ClaimAgentType_Assignable
      else inl (CliError_ApiFail ("invalid --agent-type " +:+ debug_str other +:+
                                  ": expected `assignable` or `self-managed`"))
  end.

Definition claim_setup_req (code : string) (agent_type : ClaimAgentType) : ReqClaimSetup :=
  {| ReqClaimSetup_code := code; ReqClaimSetup_agent_type := agent_type;
     ReqClaimSetup_version := "playit " +:+ cargo_pkg_version |}.
End codes.

(** ** Claims (main.rs) *)

Definition ClaimAgentType_debug (t : ClaimAgentType) : string :=
  match t with
  | ClaimAgentType_Assignable => "Assignable"
  | ClaimAgentType_SelfManaged => "SelfManaged"
  end.

Section claims.
Context {FM : Formats} {CB : CliBuild}.

(** [PlayitApi::create(API_BASE, None)]. *)
Definition anonymous_api : HttpClient := PlayitApi_create API_BASE None.

Definition web_failed (e : WebApiError) : CliError := CliError_SessionError (display_web_error e).

Definition claim_inspect (claim_code : string) : Cli () :=
  r ← api_invoke claim_setup anonymous_api (claim_setup_req claim_code ClaimAgentType_SelfManaged);
  setup ← or_throw (from_api_error (λ f, to_value (Serde := ep_fail claim_setup) f)) r;
  write_screen ("claim " +:+ claim_code +:+ ": " +:+ ClaimSetupResponse_name setup).

(** The rounds that are left of [for _ in 0..40]. *)
Fixpoint details_rounds (n : nat) (api : HttpClient) (claim_code : string) : Cli ClaimDetails :=
  match n with
  | O => throw (CliError_ApiFail ("timed out waiting for claim " +:+ claim_code +:+
                                  " to become visible; is the machine polling this code?"))
  | S n =>
      api_invoke claim_setup anonymous_api (claim_setup_req claim_code ClaimAgentType_SelfManaged);;
      r ← web_call web_claim_details api {| ReqClaimDetails_code := claim_code |};
      answer ← or_throw web_failed r;
      match answer with
      | ApiSuccess details => mret details
      | ApiFailed ClaimDetailsFail_WaitingForAgent => ask (Sleep 500);; details_rounds n api claim_code
      | ApiFailed fail =>
          throw (CliError_ApiFail ("cannot use claim " +:+ claim_code +:+ ": " +:+ ClaimDetailsFail_name fail))
      | ApiErrored error => throw (CliError_ApiError error)
      end
  end.

Definition await_claim_details (api : HttpClient) (claim_code : string) : Cli ClaimDetails :=
  details_rounds 40 api claim_code.

(** The name that was given, or the line that is asked for. *)
Definition agent_name (name : option string) : Cli string :=
  name ← (match name with
          | Some name => if decide (str_trim name = EmptyString) then prompt_line "agent name" else mret name
          | None => prompt_line "agent name"
          end);
  let name := str_trim name in
  if decide (name = EmptyString) then throw (CliError_ApiFail "agent name must not be empty") else mret name.

Definition claim_approve (claim_code : string) (name agent_type : option string) : Cli () :=
  or_throw id (claim_url claim_code);;
  stored ← stored_client;
  let api := snd stored in
  details ← await_claim_details api claim_code;
  write_screen ("claim " +:+ claim_code +:+ ": " +:+ ClaimAgentType_debug (ClaimDetails_agent_type details) +:+
                " named " +:+ debug_str (ClaimDetails_name details));;
  name ← agent_name name;
  agent_type ← or_throw id (parse_claim_agent_type agent_type);
  r ← web_call web_claim_accept api
        {| ReqClaimAccept_code := claim_code; ReqClaimAccept_name := name; ReqClaimAccept_agent_type := agent_type |};
  answer ← or_throw web_failed r;
  match answer with
  | ApiSuccess accepted =>
      write_screen ("claim approved, agent " +:+ show uuid_text (ClaimAccepted_agent_id accepted) +:+ " (" +:+
                    name +:+ ")");;
      write_screen ("run `claim exchange " +:+ claim_code +:+ "` to fetch the agent secret")
  | ApiFailed fail =>
      throw (CliError_ApiFail ("claim " +:+ claim_code +:+ " was not approved: " +:+ ClaimAcceptFail_name fail))
  | ApiErrored error => throw (CliError_ApiError error)
  end.

Definition claim_reject (claim_code : string) : Cli () :=
  or_throw id (claim_url claim_code);;
  stored ← stored_client;
  r ← web_call web_claim_reject (snd stored) {| ReqClaimReject_code := claim_code |};
  answer ← or_throw web_failed r;
  match answer with
  | ApiSuccess _ => write_screen ("claim " +:+ claim_code +:+ " rejected")
  | ApiFailed fail =>
      throw (CliError_ApiFail ("claim " +:+ claim_code +:+ " was not rejected: " +:+ ClaimRejectFail_name fail))
  | ApiErrored error => throw (CliError_ApiError error)
  end.

(** *** Exchanging a claim *)

(** What the setup loop goes on with: the message that is shown next, or the
    end. *)
Definition setup_round (claim_code : string) (agent_type : ClaimAgentType) (last_message : string) :
    Cli (string + (CliError + ())) :=
  r ← api_invoke claim_setup anonymous_api (claim_setup_req claim_code agent_type);
  match r with
  | inl error =>
      write_screen (last_message +:+ nl +:+ nl +:+ "Error: " +:+ debug_setup_error error);;
      ask (Sleep 2000);;
      mret (inl last_message)
  | inr ClaimSetupResponse_UserAccepted =>
      write_screen "Program approved. Finishing setup...";;
      mret (inr (inr ()))
  | inr ClaimSetupResponse_UserRejected =>
      write_screen "Setup was not approved in the browser.";;
      ask (Sleep 3000);;
      mret (inr (inl CliError_AgentClaimRejected))
  | inr waiting =>
      match claim_url claim_code with
      | inl e => mret (inr (inl e))
      | inr url =>
          let last_message :=
            (match waiting with
             | ClaimSetupResponse_WaitingForUserVisit => "Open this link to finish setting up playit:"
             | _ => "Approve this program in your browser:"
             end) +:+ nl +:+ url in
          write_screen last_message;;
          ask (Sleep 200);;
          mret (inl last_message)
      end
  end.

Definition exchange_round (claim_code : string) (end_at : Z) (_ : ()) : Cli (() + string) :=
  r ← api_invoke claim_exchange anonymous_api {| ReqClaimExchange_code := claim_code |};
  match r with
  | inr res => mret (inr (AgentSecretKey_secret_key res))
  | inl (ErrFail status) =>
      write_screen ("Waiting for claim code " +:+ dq +:+ claim_code +:+ dq +:+ " to be approved: " +:+
                    ClaimExchangeError_name status);;
      now ← ask NowMilli;
      if decide (end_at < now) then
        write_screen "Setup timed out before the program was approved.";;
        ask (Sleep 2000);;
        throw CliError_TimedOut
      else ask (Sleep 2000);; mret (inl ())
  | inl error => throw (from_api_error (λ f, to_value (Serde := ep_fail claim_exchange) f) error)
  end.

(** The guard is dropped at the end of the block, errors included. *)
Definition claim_exchange_cmd (claim_code : string) (agent_type : ClaimAgentType) (wait_sec : Z) : Cli string :=
  end_at ← (if decide (wait_sec = 0) then mret (2 ^ 64 - 1)
            else now ← ask NowMilli; checked (u_add overflow_checks 64 now (wait_sec * 1000)));
  ask CloseGuard;;
  done ← cli_loop (setup_round claim_code agent_type) "Preparing setup...";
  ask DropCloseGuard;;
  or_throw id done;;
  cli_loop (exchange_round claim_code end_at) ().

(** ** Agents (main.rs) *)

Fixpoint write_agents (agents : list AgentListEntry) : Cli () :=
  match agents with
  | [] => mret ()
  | agent :: agents =>
      write_screen (show uuid_text (AgentListEntry_id agent) +:+ " " +:+ AgentListEntry_name agent);;
      write_agents agents
  end.

Definition agents_list : Cli () :=
  stored ← stored_client;
  r ← web_call web_agents_list (snd stored) (Object []);
  answer ← or_throw web_failed r;
  match answer with
  | ApiSuccess list =>
      (match AgentsList_agents list with [] => write_screen "no agents" | _ => mret () end);;
      write_agents (AgentsList_agents list)
  | ApiFailed fail => throw (CliError_ApiFail ("agents list failed: " +:+ json_string fail))
  | ApiErrored error => throw (CliError_ApiError error)
  end.

Definition parse_uuid (s : string) : option Uuid := read uuid_text (str_trim s).

Definition agents_delete (agent_id : string) (move_tunnels_to : option string) (disable_tunnels : bool) : Cli () :=
  match parse_uuid agent_id with
  | None => throw (CliError_ApiFail ("invalid agent id: " +:+ agent_id))
  | Some id =>
      move_to ← (match move_tunnels_to with
                 | None => mret None
                 | Some to =>
                     match parse_uuid to with
                     | Some to => mret (Some to)
                     | None => throw (CliError_ApiFail ("invalid --move-tunnels-to agent id: " +:+ to))
                     end
                 end);
      stored ← stored_client;
      r ← web_call web_agents_delete (snd stored)
            {| ReqAgentsDelete_agent_id := id;
               ReqAgentsDelete_tunnels_strategy :=
                 MoveToAgent
                   {| AgentDeleteMoveDetails_agent_id := move_to;
                      AgentDeleteMoveDetails_disable_tunnels := disable_tunnels |} |};
      answer ← or_throw web_failed r;
      match answer with
      | ApiSuccess _ => write_screen ("agent " +:+ show uuid_text id +:+ " deleted")
      | ApiFailed fail =>
          throw (CliError_ApiFail ("agent " +:+ show uuid_text id +:+ " was not deleted: " +:+ json_string fail))
      | ApiErrored error => throw (CliError_ApiError error)
      end
  end.
End claims.

(** ** Setup (main.rs, client.rs) *)

Definition target_is_installed (t : CliTarget) : bool :=
  match t with InstalledService => true | ExplicitSocket _ => false end.

Definition lifecycle_unread {CB : CliBuild} (e : IpcError) : CliError :=
  CliError_IpcError ("Failed to read playitd lifecycle: " +:+ display_ipc_error e).

Section setup.
Context {FM : Formats} {CB : CliBuild}.

(** [if matches!(target, InstalledService) { ensure_..(..).await?; }]. *)
Definition ensure_installed (target : CliTarget) (service_manager : ServiceManagerMode) : Cli () :=
  if target_is_installed target
  then ensure_installed_service_running_for_cli service_manager;; mret ()
  else mret ().

Definition ensure_service_waiting_for_secret (target : CliTarget) (service_manager : ServiceManagerMode) : Cli () :=
  ensure_installed target service_manager;;
  client ← connect_target target;
  r ← lifecycle_call client;
  lifecycle ← or_throw lifecycle_unread r;
  match lifecycle with
  | WaitingForSecret => mret ()
  | HasInvalidSecret error =>
      throw (CliError_ServiceError
               ("Setup cannot continue because the playit service has an invalid secret: " +:+ se_message error +:+
                ". Run `playit reset`, then run `playit setup` again."))
  | DisabledOverLimit _ =>
      throw (CliError_ServiceError
               ("Setup is unavailable because this account is over the agent limit." +:+ nl +:+
                agent_over_limit_guidance))
  | Starting =>
      throw (CliError_ServiceError "The playit service is still starting. Try setup again in a few seconds.")
  | Running _ =>
      throw (CliError_ServiceError
               "The playit service already has a configured secret. Run `playit reset` before claiming a new agent.")
  | Stopping =>
      throw (CliError_ServiceError "The playit service is stopping. Try setup again after it stops.")
  | LifecycleError error =>
      throw (CliError_ServiceError
               ("The playit service reported an error and is not ready for setup: " +:+ se_message error))
  end.

Definition provision_service_secret (target : CliTarget) (secret : string)
    (service_manager : ServiceManagerMode) : Cli () :=
  ensure_installed target service_manager;;
  client ← connect_target target;
  r ← set_secret_call client secret;
  response ← or_throw (λ error, CliError_IpcError ("Failed to provision secret: " +:+ display_ipc_error error)) r;
  if cr_accepted response then mret ()
  else throw (CliError_IpcError (default "playitd rejected the secret" (cr_message response))).

(** Both ways end with the exchange and the provisioning. *)
Definition setup_complete : string := "playit setup is complete. The background service is ready.".

Definition run_setup_flow (target : CliTarget) (service_manager : ServiceManagerMode) (direct : bool)
    (name : option string) : Cli () :=
  if direct then
    require_valid_stored_session;;
    ensure_service_waiting_for_secret target service_manager;;
    claim_code ← claim_generate;
    claim_approve claim_code name None;;
    key ← claim_exchange_cmd claim_code ClaimAgentType_Assignable 0;
    provision_service_secret target key service_manager;;
    write_screen setup_complete
  else
    ensure_service_waiting_for_secret target service_manager;;
    claim_code ← claim_generate;
    url ← or_throw id (claim_url claim_code);
    write_screen ("Open this link to finish setting up playit:" +:+ nl +:+ url);;
    key ← claim_exchange_cmd claim_code ClaimAgentType_Assignable 0;
    provision_service_secret target key service_manager;;
    r ← api_invoke login_guest (PlayitApi_create API_BASE (Some key)) ReqLoginGuest_new;
    (match r with
     | inr session =>
         write_screen ("Guest login:" +:+ nl +:+ "https://playit.gg/login/guest-account/" +:+
                       WebSession_session_key session);;
         ask (Sleep 10000)
     | inl _ => mret ()
     end);;
    write_screen setup_complete.

(** ** The service (client.rs) *)

(** The rounds that are left of [for _ in 0..50]. *)
Fixpoint auto_rounds (n : nat) (client : nat) : Cli AgentLifecycle :=
  match n with
  | O => mret Starting
  | S n =>
      r ← lifecycle_call client;
      lifecycle ← or_throw lifecycle_unread r;
      match lifecycle with
      | Starting => ask (Sleep 100);; auto_rounds n client
      | _ => mret lifecycle
      end
  end.

Definition wait_for_auto_lifecycle (client : nat) : Cli AgentLifecycle := auto_rounds 50 client.

Definition reset_rejected : string := "playitd rejected the reset request".

Definition reset_failed (e : IpcError) : CliError :=
  CliError_IpcError ("Failed to reset secret: " +:+ display_ipc_error e).

Definition reset_service_secret_for_setup (target : CliTarget) : Cli () :=
  client ← connect_target target;
  r ← reset_secret_call client;
  response ← or_throw reset_failed r;
  if cr_accepted response then mret ()
  else throw (CliError_IpcError (default reset_rejected (cr_message response))).

(** The rounds that are left of [for _ in 0..50]. *)
Fixpoint secret_rounds (n : nat) (target : CliTarget) : Cli () :=
  match n with
  | O =>
      throw (CliError_ServiceError
               "Timed out while waiting for the playit service to become ready for setup after the reset.")
  | S n =>
      c ← attempt (connect_target target);
      match c with
      | inl _ => ask (Sleep 100);; secret_rounds n target
      | inr client =>
          r ← lifecycle_call client;
          lifecycle ← or_throw lifecycle_unread r;
          match lifecycle with
          | WaitingForSecret => mret ()
          | HasInvalidSecret _ | DisabledOverLimit _ | Running _ | Starting =>
              ask (Sleep 100);; secret_rounds n target
          | Stopping =>
              throw (CliError_ServiceError
                       "The playit service is stopping and did not become ready for setup after the reset.")
          | LifecycleError error =>
              throw (CliError_ServiceError
                       ("The playit service reported an error after the reset: " +:+ se_message error))
          end
      end
  end.

Definition wait_for_service_waiting_for_secret (target : CliTarget) : Cli () := secret_rounds 50 target.
Context (timestamp_text : Z → option string).

(** What is done for the state that the service is in, before attaching. *)
Definition prepare_lifecycle (target : CliTarget) (service_manager : ServiceManagerMode)
    (lifecycle : AgentLifecycle) : Cli () :=
  match lifecycle with
  | Running _ => mret ()
  | WaitingForSecret => run_setup_flow target service_manager false None
  | HasInvalidSecret error =>
      should_reset ← yn_question
        ("The playit service has an invalid secret: " +:+ se_message error +:+ "." +:+ nl +:+
         "Reset it now and run setup again?") (Some false);
      if (should_reset : bool) then
        reset_service_secret_for_setup target;;
        wait_for_service_waiting_for_secret target;;
        run_setup_flow target service_manager false None
      else
        throw (CliError_ServiceError
                 "The playit service has an invalid secret. Run `playit reset`, then run `playit` again to set up this agent.")
  | DisabledOverLimit _ =>
      throw (CliError_ServiceError (agent_over_limit_title +:+ nl +:+ agent_over_limit_guidance))
  | Starting =>
      throw (CliError_ServiceError
               "Timed out while waiting for the playit service to finish starting. Try `playit status` to check its current state.")
  | Stopping =>
      throw (CliError_ServiceError "The playit service is stopping. Try again in a few seconds.")
  | LifecycleError error =>
      throw (CliError_ServiceError
               ("The playit service reported an error and cannot continue: " +:+ se_message error))
  end.

Definition run_auto_command (target : CliTarget) (attach_mode : AttachMode)
    (service_manager : ServiceManagerMode) : Cli () :=
  start_attempt_failed ←
    (match target with
     | InstalledService =>
         r ← attempt (ensure_installed_service_running_for_cli service_manager);
         mret (match r with inl error => Some (display_cli_error error) | inr _ => None end)
     | ExplicitSocket _ => mret None
     end);
  c ← attempt (connect_target target);
  client ← or_throw (λ _, initial_attach_error target (AutoCommand start_attempt_failed)) c;
  lifecycle ← wait_for_auto_lifecycle client;
  prepare_lifecycle target service_manager lifecycle;;
  run_attach_command_with_context timestamp_text target attach_mode (AutoCommand start_attempt_failed).

Definition run_start_command (target : CliTarget) (service_manager : ServiceManagerMode) : Cli () :=
  match target with
  | ExplicitSocket path =>
      throw (CliError_ServiceError
               ("`playit start` only manages the installed background service. Remove `--socket-path " +:+ path +:+
                "` or start that daemon manually."))
  | InstalledService =>
      match service_manager with
      | ModeNone =>
          throw (CliError_ServiceError
                   ("`playit start` can only start the installed service when run with --systemd or --openrc." +:+
                    nl +:+ nl +:+
                    "If you are managing playitd yourself, start it in the background and connect with --socket-path:"
                    +:+ nl +:+ "  playitd --socket-path=./playit.sock --secret-path=./playit.toml" +:+ nl +:+
                    "  playit --socket-path=./playit.sock"))
      | _ =>
          state ← ensure_installed_service_running_for_cli service_manager;
          ask (Println (match state with
                        | AlreadyRunningState => "The playit service is already running."
                        | Started => "The playit service started."
                        end));;
          ask (Println ("Run " +:+ dq +:+ "playit attach" +:+ dq +:+ " to view logs and tunnel status."))
      end
  end.

Definition unreachable_over_ipc : string :=
  "Could not reach the playit service over IPC. Trying the system service manager instead.".

(** Whether the service manager has to stop the service. *)
Definition stop_over_ipc (target : CliTarget) : Cli bool :=
  c ← attempt (connect_target target);
  match c with
  | inl _ => ask (Eprintln unreachable_over_ipc);; mret true
  | inr client =>
      r ← stop_call client;
      match r with
      | inr response =>
          if cr_accepted response then
            ask (Println "Asked the playit service to stop.");;
            ask (Sleep 1000);;
            mret false
          else mret true
      | inl _ => ask (Eprintln unreachable_over_ipc);; mret true
      end
  end.

Definition stop_installed (service_manager : ServiceManagerMode) (target : CliTarget) : Cli () :=
  direct_stop_fallback ← stop_over_ipc target;
  already_stopped ←
    (if (direct_stop_fallback : bool) then
       state ← stop_installed_service_for_cli service_manager;
       mret (match state with AlreadyStopped => true | StopRequested => false end)
     else mret false);
  if (already_stopped : bool) then mret ()
  else
    ask (Sleep 500);;
    running ← ask (IsRunning default_socket_path);
    ask (Println (if (running : bool)
                  then "The playit service may still be running. Run `playit status` to check."
                  else "The playit service stopped.")).

Definition run_stop_command (target : CliTarget) (service_manager : ServiceManagerMode) : Cli () :=
  match target with
  | InstalledService => stop_installed service_manager target
  | ExplicitSocket path =>
      client ← connect_target target;
      r ← stop_call client;
      response ← or_throw (λ error, CliError_IpcError ("Failed to stop daemon at " +:+ path +:+ ": " +:+
                                                       display_ipc_error error)) r;
      if cr_accepted response then
        ask (Println ("playitd stop requested for socket " +:+ path));;
        ask (Sleep 1000);;
        running ← ask (IsRunning path);
        ask (Println (if (running : bool)
                      then "The playit daemon may still be running. Check the daemon process for socket " +:+
                           path +:+ "."
                      else "playitd daemon stopped"))
      else throw (CliError_IpcError
                    (default ("playitd rejected stop request for " +:+ path) (cr_message response)))
  end.

(** ** Looking at the service (client.rs) *)

Fixpoint println_all (lines : list string) : Cli () :=
  match lines with
  | [] => mret ()
  | line :: lines => ask (Println line);; println_all lines
  end.

(** [{:?}] of the list of capabilities. *)
Definition debug_capabilities (l : list string) : string :=
  "[" +:+ (match l with
           | [] => EmptyString
           | c :: l => foldl (λ acc c, acc +:+ ", " +:+ debug_str c) (debug_str c) l
           end) +:+ "]".

Definition bool_text (b : bool) : string := if b then "true" else "false".

Definition status_lines (target : CliTarget) (status : ServiceStatus) : list string :=
  [match target with
   | InstalledService => "playit service status:"
   | ExplicitSocket path => "playitd daemon status for socket " +:+ path +:+ ":"
   end;
   "  Phase: " +:+ format_service_phase (ss_phase status);
   "  PID: " +:+ pretty (ss_pid status);
   "  Uptime: " +:+ pretty (ss_uptime_secs status) +:+ " seconds";
   "  Version: " +:+ ss_version status;
   "  Socket: " +:+ ss_socket_path status;
   match ss_secret_path status with
   | Some secret_path => "  Secret path: " +:+ secret_path
   | None => "  Secret path: <inline secret>"
   end;
   "  Secret configured: " +:+ bool_text (ss_has_secret status);
   "  IPC version: " +:+ pretty (pi_ipc_version (ss_protocol status))] ++
  (match pi_capabilities (ss_protocol status) with
   | [] => []
   | l => ["  Capabilities: " +:+ debug_capabilities l]
   end) ++
  (if decide (ss_phase status = PhaseDisabledOverLimit)
   then "  Message:" :: ((λ line, "    " +:+ line) <$>
                         (str_lines agent_over_limit_title ++ str_lines agent_over_limit_guidance))
   else []) ++
  (match ss_last_error status with
   | Some error => ["  Last error: " +:+ se_message error]
   | None => []
   end).

Definition run_status_command (target : CliTarget) : Cli () :=
  running ← ask (IsRunning (target_socket_path target));
  if (running : bool) then
    client ← connect_target target;
    r ← status_call client;
    match r with
    | inr status => println_all (status_lines target status)
    | inl _ => throw ipc_connection_error
    end
  else
    ask (Println (match target with
                  | InstalledService => "The playit service is not running."
                  | ExplicitSocket path => "The playit daemon is not reachable at socket " +:+ path +:+ "."
                  end)).

Definition run_reset_command (target : CliTarget) : Cli () :=
  client ← connect_target target;
  r ← reset_secret_call client;
  reset_response ← or_throw reset_failed r;
  if cr_accepted reset_response then
    r ← stop_call client;
    stop_response ← or_throw (λ error, CliError_IpcError
      ("Secret was reset, but failed to stop playitd: " +:+ display_ipc_error error)) r;
    if cr_accepted stop_response then
      ask (Println (default "playitd reset the secret file" (cr_message reset_response)));;
      ask (Println ("playitd stop requested: " +:+ default "shutdown requested" (cr_message stop_response)))
    else throw (CliError_IpcError
                  (default "Secret was reset, but playitd rejected the stop request" (cr_message stop_response)))
  else throw (CliError_IpcError (default reset_rejected (cr_message reset_response))).

Definition run_secret_path_command (target : CliTarget) : Cli () :=
  client ← connect_target target;
  r ← get_secret_path_call client;
  response ← or_throw (λ error, CliError_IpcError ("Failed to read secret path: " +:+ display_ipc_error error)) r;
  match sp_secret_path response with
  | None =>
      throw (CliError_IpcError "playitd is using an inline --secret, so no secret file path is available")
  | Some secret_path => ask (Println secret_path)
  end.

Definition run_account_login_url_command (target : CliTarget) : Cli () :=
  client ← connect_target target;
  r ← get_account_login_url_call client;
  response ← or_throw (λ error, CliError_IpcError
    ("Failed to create account login URL: " +:+ display_ipc_error error)) r;
  ask (Println (al_login_url response)).
End setup.

(** ** The command line (playit-cli/src/main.rs)

    The arguments as clap parses them, and what each command runs. *)

Inductive AccountCommands : Type :=
  | AccountLoginUrl
  | AccountLogin (email : option string) (password_stdin : bool)
  | AccountLogout
  | AccountStatus
  | AccountValidate.

Inductive ClaimCommands : Type :=
  | ClaimGenerate
  | ClaimUrl (claim_code name type : string)
  | ClaimExchange (claim_code : string) (wait : Z)
  | ClaimInspect (claim_code : string)
  | ClaimApprove (claim_code : string) (name agent_type : option string)
  | ClaimReject (claim_code : string).

Inductive AgentCommands : Type :=
  | AgentsListCmd
  | AgentsDeleteCmd (agent_id : string) (move_tunnels_to : option string) (disable_tunnels : bool).

Inductive Commands : Type :=
  | CmdVersion
  | CmdAttach (stdout : bool)
  | CmdStart
  | CmdStop
  | CmdStatus
  | CmdReset
  | CmdSecretPath
  | CmdSetup (direct : bool) (name : option string)
  | CmdAgents (command : AgentCommands)
  | CmdAccount (command : AccountCommands)
  | CmdClaim (command : ClaimCommands).

(** [struct Cli]. *)
Record CliArgs : Type := {
  cli_stdout : bool;
  cli_socket_path : option string;
  cli_systemd : bool;
  cli_openrc : bool;
  cli_command : option Commands;
}.

(** [None]: [unreachable!], which clap's [conflicts_with] rules out. *)
Definition service_manager_mode (cli : CliArgs) : option ServiceManagerMode :=
  match cli_systemd cli, cli_openrc cli with
  | true, false => Some ModeSystemd
  | false, true => Some ModeOpenRc
  | false, false => Some ModeNone
  | true, true => None
  end.

Definition attach_stdout (cli : CliArgs) : bool :=
  match cli_command cli with Some (CmdAttach stdout) => stdout | _ => false end.

Definition attach_mode_of (stdout_mode : bool) : AttachMode := if stdout_mode then StdoutMode else Interactive.

Section main.
Context {FM : Formats} {CB : CliBuild}.
Context (timestamp_text : Z → option string).

Definition run_account (target : CliTarget) (command : AccountCommands) : Cli () :=
  match command with
  | AccountLoginUrl => run_account_login_url_command target
  | AccountLogin email password_stdin => run_account_login email password_stdin
  | AccountLogout => run_account_logout
  | AccountStatus => run_account_status
  | AccountValidate => run_account_validate
  end.

Definition run_claim (command : ClaimCommands) : Cli () :=
  match command with
  | ClaimGenerate => code ← claim_generate; write_screen code
  | ClaimUrl claim_code _ _ => url ← or_throw id (claim_url claim_code); write_screen url
  | ClaimExchange claim_code wait =>
      secret_key ← claim_exchange_cmd claim_code ClaimAgentType_SelfManaged wait;
      write_screen secret_key
  | ClaimInspect claim_code => claim_inspect claim_code
  | ClaimApprove claim_code name agent_type => claim_approve claim_code name agent_type
  | ClaimReject claim_code => claim_reject claim_code
  end.

Definition run_agents (command : AgentCommands) : Cli () :=
  match command with
  | AgentsListCmd => agents_list
  | AgentsDeleteCmd agent_id move_tunnels_to disable_tunnels =>
      agents_delete agent_id move_tunnels_to disable_tunnels
  end.

Definition run_command (cli : CliArgs) (target : CliTarget) (service_manager : ServiceManagerMode)
    (attach_mode : AttachMode) : Cli () :=
  match cli_command cli with
  | None => run_auto_command timestamp_text target attach_mode service_manager
  | Some (CmdAttach stdout) =>
      run_attach_command timestamp_text target (attach_mode_of (cli_stdout cli || stdout))
  | Some CmdStart => run_start_command target service_manager
  | Some CmdStop => run_stop_command target service_manager
  | Some CmdStatus => run_status_command target
  | Some CmdVersion => ask (Println cargo_pkg_version)
  | Some (CmdSetup direct name) => run_setup_flow target service_manager direct name
  | Some (CmdAgents command) => run_agents command
  | Some CmdReset => run_reset_command target
  | Some CmdSecretPath => run_secret_path_command target
  | Some (CmdAccount command) => run_account target command
  | Some (CmdClaim command) => run_claim command
  end.

Definition run_cli (cli : CliArgs) : Cli () :=
  ask (RegisterPlatform Platform_Linux);;
  ask (RegisterVersion cargo_pkg_version "308943e8-faef-4835-a2ba-270351f72aa3");;
  match service_manager_mode cli with
  | None => checked Panic
  | Some service_manager =>
      let stdout_mode := cli_stdout cli || attach_stdout cli in
      (if stdout_mode then ask InitStdoutTracing else mret ());;
      run_command cli (from_socket_path (cli_socket_path cli)) service_manager (attach_mode_of stdout_mode)
  end.

(** The exit code. *)
Definition main (cli : CliArgs) : prog call Z :=
  r ← run_cli cli (ConsoleUi_new None);
  match snd r with
  | inr _ => Ret 0
  | inl error => Vis (Eprintln (display_cli_error error)) (λ _, Ret 1)
  end.
End main.
