(* ===== verification/CliLogic.v ===== *)
(** * A logic for commands

    Triples for programs that carry the console and may fail, over the logic of
    traces ([Program.v]); and the calls of a command by kind, so that the parts
    of a command that only write, read and wait need no attention. *)

From S2P Require Import Prelude Text Net Json OriginLookup Api ApiTunnels ApiAccount HttpClient ApiClient WebApi SessionStore IpcModel Ipc FileSystem Program Tui CliModel ServiceManager SocketAccess CliSession CliCommands.
#[local] Open Scope list_scope.

Notation hist := (list (event call)).

Lemma obeys_all (P : event call → Prop) h t : obeys (λ _, P) h t → Forall P t.
Proof.
  intros Ho. apply Forall_forall. intros e (l1 & l2 & ->)%list_elem_of_split. by apply (Ho l1 e l2).
Qed.

(** ** Triples *)

(** The console answers no question by itself, as in every command. *)
Definition asking (ui : ConsoleUi) : Prop := auto_answer ui = None.

(** An error may come with any history that obeys the protocol. *)
Definition holds (ok : hist → event call → Prop) {A} (P : hist → Prop) (m : Cli A) (Q : A → hist → Prop) : Prop :=
  ∀ ui, asking ui → triple ok P (m ui)
    (λ r h, asking (fst r) ∧ match snd r with inr a => Q a h | inl _ => True end).

Section rules.
Context (ok : hist → event call → Prop).

Lemma holds_ret {A} (P : hist → Prop) (a : A) (Q : A → hist → Prop) :
  (∀ h, P h → Q a h) → holds ok P (mret a) Q.
Proof. intros HQ ui Hui. apply triple_ret. cbn. auto. Qed.

Lemma holds_throw {A} P e (Q : A → hist → Prop) : holds ok P (throw e) Q.
Proof. intros ui Hui. apply triple_ret. cbn. auto. Qed.

Lemma holds_bind {A B} P (m : Cli A) R (k : A → Cli B) Q :
  holds ok P m R → (∀ a, holds ok (R a) (k a) Q) → holds ok P (m ≫= k) Q.
Proof.
  intros Hm Hk ui Hui. unfold mbind, Cli_bind. eapply triple_then; [by apply Hm|].
  intros [ui' [e|a]].
  - apply triple_ret. cbn. tauto.
  - apply triple_given. intros Hui'. by apply Hk.
Qed.

Lemma holds_conseq {A} (P P' : hist → Prop) (m : Cli A) (Q Q' : A → hist → Prop) :
  holds ok P' m Q' → (∀ h, P h → P' h) → (∀ a h, Q' a h → Q a h) → holds ok P m Q.
Proof.
  intros Hm HP HQ ui Hui. eapply triple_conseq; [by apply Hm|done|].
  intros [ui' [e|a]] h; cbn; [tauto|]. intros []. auto.
Qed.

Lemma holds_ask {X} (P : hist → Prop) (e : call X) (Q : X → hist → Prop) :
  (∀ h x, P h → ok h (Event e x)) → (∀ h x, P h → Q x (h ++ [Event e x])) → holds ok P (ask e) Q.
Proof.
  intros Hok HQ ui Hui. apply triple_vis; [done|]. intros x. apply triple_ret. cbn.
  intros h' (h & -> & Hh). auto.
Qed.

Lemma holds_frame {A} P (m : Cli A) Q F :
  lasting F → holds ok P m Q → holds ok (λ h, P h ∧ F h) m (λ a h, Q a h ∧ F h).
Proof.
  intros HF Hm ui Hui. eapply triple_conseq; [by apply (triple_frame _ _ _ _ F HF (Hm ui Hui))|done|].
  intros [ui' [e|a]] h; cbn; tauto.
Qed.

(** What the history says before a part is still there after it. *)
Lemma holds_seq {A B} P (m : Cli A) R (k : A → Cli B) Q :
  lasting P → holds ok P m R → (∀ a, holds ok (λ h, P h ∧ R a h) (k a) Q) → holds ok P (m ≫= k) Q.
Proof.
  intros HP Hm Hk. eapply holds_bind; [|exact Hk].
  apply (holds_conseq P (λ h, P h ∧ P h) _ _ (λ a h, R a h ∧ P h)); [by apply holds_frame|tauto|tauto].
Qed.

Lemma holds_attempt {A} P (m : Cli A) Q :
  lasting P → holds ok P m Q →
  holds ok P (attempt m) (λ r h, P h ∧ match r with inr a => Q a h | inl _ => True end).
Proof.
  intros HP Hm ui Hui. unfold attempt. eapply triple_then.
  - eapply (triple_conseq _ _ (λ h, P h ∧ P h)); [apply (triple_frame _ _ _ _ P HP (Hm ui Hui))|tauto|].
    intros r h H. exact H.
  - intros [ui' [e|a]]; apply triple_ret; cbn; tauto.
Qed.

Lemma holds_or_throw {F A} P (f : F → CliError) (r : F + A) (Q : A → hist → Prop) :
  (∀ a h, r = inr a → P h → Q a h) → holds ok P (or_throw f r) Q.
Proof. intros HQ. destruct r as [e|a]; [apply holds_throw|]. apply holds_ret. auto. Qed.

Lemma holds_loop {I R} (Inv : I → hist → Prop) (body : I → Cli (I + R)) i (Q : R → hist → Prop) :
  (∀ i, holds ok (Inv i) (body i) (λ ir h, match ir with inl i' => Inv i' h | inr r => Q r h end)) →
  holds ok (Inv i) (cli_loop body i) Q.
Proof.
  intros Hb ui Hui. unfold cli_loop.
  apply (triple_conseq ok _ (λ h, asking ui ∧ Inv i h) _ _
           (λ r h, asking (fst r) ∧ match snd r with inr a => Q a h | inl _ => True end)); [|auto|auto].
  apply (triple_iter ok (λ s h, asking (fst s) ∧ Inv (snd s) h) _ (ui, i) _
           (λ r h, asking (fst r) ∧ match snd r with inr a => Q a h | inl _ => True end)).
  - intros [ui' i']. apply triple_given. intros Hui'.
    apply (triple_then ok (Inv i') _ (λ r h, asking (fst r) ∧
             match snd r with inr ir => match ir with inl i' => Inv i' h | inr r => Q r h end | inl _ => True end));
      [by apply Hb|].
    intros [ui'' [e|[i''|r]]]; apply triple_ret; cbn; tauto.
  - intros r. by apply triple_ret.
Qed.

Lemma holds_exit {A} P code (Q : A → hist → Prop) : (∀ h x, ok h (Event (Exit code) x)) → holds ok P (exit code) Q.
Proof. intros H ui Hui. apply triple_vis; [intros h []|intros []]. Qed.

Lemma holds_checked {A} P (o : outcome Empty_set A) (Q : A → hist → Prop) :
  (∀ a h, o = Ok a → P h → Q a h) → holds ok P (checked o) Q.
Proof.
  intros HQ. destruct o as [a|[]|]; [apply holds_ret; auto|].
  intros ui Hui. apply triple_vis; [intros h []|intros []].
Qed.

Lemma holds_get_ui (P : hist → Prop) (Q : ConsoleUi → hist → Prop) :
  (∀ ui h, asking ui → P h → Q ui h) → holds ok P get_ui Q.
Proof. intros HQ ui Hui. apply triple_ret. cbn. auto. Qed.

Lemma holds_put_ui (P : hist → Prop) ui (Q : () → hist → Prop) :
  asking ui → (∀ h, P h → Q () h) → holds ok P (put_ui ui) Q.
Proof. intros Hui HQ ui' Hui'. apply triple_ret. cbn. auto. Qed.

Lemma holds_pre {A} (F : Prop) (P : hist → Prop) (m : Cli A) Q :
  (F → holds ok P m Q) → holds ok (λ h, P h ∧ F) m Q.
Proof.
  intros Hm ui Hui. eapply triple_conseq; [apply triple_given; intros HF; exact (Hm HF ui Hui)| |done]. tauto.
Qed.
End rules.

(** ** Kinds of calls *)

Inductive kind : Set :=
  | KTerminal     (** text in and out, keys *)
  | KScreen       (** the terminal as a screen *)
  | KProcess      (** clocks, waiting, signals, identity, the end *)
  | KGuard        (** the guards of the signal handler *)
  | KSystem       (** looking at the system *)
  | KManager      (** commands of the service manager *)
  | KReach        (** looking for the service *)
  | KQuery        (** requests that only ask, and updates *)
  | KChange       (** requests that change the service *)
  | KApi
  | KStore.       (** the session file *)

#[global] Instance kind_eq_dec : EqDecision kind.
Proof. solve_decision. Defined.

Definition request_kind (r : ServiceRequest) : kind :=
  match r with
  | Subscribe | GetStatus | GetState | GetTunnels | GetAccountTunnels | GetAccount | GetSecretPath
  | GetAccountLoginUrl => KQuery
  | _ => KChange
  end.

Definition call_kind {X} (e : call X) : kind :=
  match e with
  | Println _ | Print _ | Eprintln _ | Flush | ReadLine => KTerminal
  | LogAreaHeight | PollEvent _ | ReadEvent => KTerminal
  | EnableRawMode | EnterAlternateScreen | NewTerminal | DisableRawMode | LeaveAlternateScreen | ShowCursor
  | Draw _ => KScreen
  | Join | EnvVar _ | RegisterPlatform _ | RegisterVersion _ _ | InitStdoutTracing
  | NowMilli | NowUnix | InstantNow | Sleep _ | RandomBytes _ | Exit _ | PanicExit
  | IsConfirmingClose | DeclineClose => KProcess
  | CloseGuard | DropCloseGuard => KGuard
  | IsRunning _ | Connect _ => KReach
  | Request _ r => request_kind r
  | UpdateOrTick _ _ | UpdateOrCtrlC _ => KQuery
  | Api _ _ _ => KApi
  | ConfigDir | SessionSave _ _ | SessionLoad _ | SessionClear _ => KStore
  | Command _ _ => KManager
  | ReadMetadata _ | EffectiveUid | EffectiveGid | GroupAccessList | GroupByGid _ | UserByUid _ => KSystem
  end.

(** A command that only makes calls of the kinds [ks]. *)
Definition only (ks : list kind) {A} (m : Cli A) : Prop :=
  holds (λ _ e, call_kind (ev_call e) ∈ ks) (λ _, True) m (λ _ _, True).

Lemma only_holds ok ks {A} P (m : Cli A) :
  only ks m → (∀ h X (e : call X) x, call_kind e ∈ ks → ok h (Event e x)) → holds ok P m (λ _ _, True).
Proof.
  intros Hm Hok ui Hui. eapply triple_weaken; [eapply triple_conseq; [by apply Hm|done|done]|].
  intros h [X e x]. apply Hok.
Qed.

Lemma only_sub ks ks' {A} (m : Cli A) : only ks m → ks ⊆ ks' → only ks' m.
Proof. intros Hm Hks ui Hui. eapply triple_weaken; [by apply Hm|]. intros h e. apply Hks. Qed.

Create HintDb quiet discriminated.

Section only_rules.
Context (ks : list kind).

Lemma only_ret {A} (a : A) : only ks (mret a).
Proof. by apply holds_ret. Qed.

Lemma only_throw {A} e : only ks (throw e : Cli A).
Proof. apply holds_throw. Qed.

Lemma only_bind {A B} (m : Cli A) (k : A → Cli B) : only ks m → (∀ a, only ks (k a)) → only ks (m ≫= k).
Proof. intros Hm Hk. eapply holds_bind; [exact Hm|exact Hk]. Qed.

Lemma only_ask {X} (e : call X) : call_kind e ∈ ks → only ks (ask e).
Proof. intros He. by apply holds_ask. Qed.

Lemma only_attempt {A} (m : Cli A) : only ks m → only ks (attempt m).
Proof.
  intros Hm. eapply holds_conseq; [apply (holds_attempt _ (λ _, True) _ _ (lasting_pure True) Hm)|done|done].
Qed.

Lemma only_or_throw {F A} (f : F → CliError) (r : F + A) : only ks (or_throw f r).
Proof. by apply holds_or_throw. Qed.

Lemma only_loop {I R} (body : I → Cli (I + R)) i : (∀ i, only ks (body i)) → only ks (cli_loop body i).
Proof.
  intros Hb. apply (holds_loop _ (λ _ _, True)). intros i'. eapply holds_conseq; [apply Hb|done|].
  by intros [] ?.
Qed.

Lemma only_exit {A} code : only ks (exit code : Cli A).
Proof. apply holds_exit. intros h []. Qed.

Lemma only_checked {A} (o : outcome Empty_set A) : only ks (checked o).
Proof. by apply holds_checked. Qed.

Lemma only_get_ui : only ks get_ui.
Proof. by apply holds_get_ui. Qed.

Lemma only_with_ui {A} (k : ConsoleUi → Cli A) :
  (∀ ui, asking ui → only ks (k ui)) → only ks (get_ui ≫= k).
Proof.
  intros Hk. apply (holds_bind _ _ _ (λ ui _, True ∧ asking ui)); [by apply holds_get_ui|].
  intros ui. apply holds_pre. exact (Hk ui).
Qed.

Lemma only_put_ui ui : asking ui → only ks (put_ui ui).
Proof. intros ?. by apply holds_put_ui. Qed.
End only_rules.

#[export] Hint Resolve only_ret only_throw only_or_throw only_checked only_exit only_get_ui : quiet.

Ltac in_kinds := first [assumption | refine (bool_decide_unpack _ _); vm_compute; exact I].
#[export] Hint Extern 1 (_ ∈ _) => in_kinds : quiet.

(** Walk through a command part by part. *)
Ltac quiet_step :=
  match goal with
  | |- ∀ _, _ => intro
  | |- only _ (_ ≫= _) => apply only_bind
  | |- only _ (ask _) => apply only_ask; cbn; in_kinds
  | |- only _ (attempt _) => apply only_attempt
  | |- only _ (and_then _ _) => apply only_bind
  | |- only _ (err_map _ _) => apply only_bind
  | |- only _ (cli_loop _ _) => apply only_loop
  | |- only _ _ => solve [auto with quiet]
  | |- only _ (match ?x with _ => _ end) => destruct x
  | |- only _ (let '_ := ?x in _) => destruct x
  end.
Ltac quiet := repeat quiet_step.

(** ** Parts of commands *)

Section console.
Context {CB : CliBuild} (ks : list kind).
Context (HT : KTerminal ∈ ks) (HP : KProcess ∈ ks).

Lemma only_blocking {A} (m : Cli A) : only ks m → only ks (blocking m).
Proof. intros Hm. unfold blocking. quiet. Qed.

Lemma only_yn_question q d : only ks (yn_question q d).
Proof. unfold yn_question. quiet. apply only_blocking. unfold yn_round. quiet. Qed.

Lemma only_write_screen_inner c : only ks (write_screen_inner c).
Proof.
  apply only_with_ui. intros ui Hui. unfold shown_recently. quiet. by apply only_put_ui.
Qed.
Hint Resolve only_yn_question only_write_screen_inner : quiet.

Lemma only_write_screen c : only ks (write_screen c).
Proof. unfold write_screen. quiet. Qed.

Lemma only_read_stdin_line : only ks read_stdin_line.
Proof. apply only_blocking. quiet. Qed.

Lemma only_read_line p : only ks (read_line p).
Proof. apply only_blocking. quiet. Qed.
Hint Resolve only_write_screen only_read_stdin_line only_read_line : quiet.

Lemma only_read_password b : only ks (read_password b).
Proof. unfold read_password. quiet. Qed.

Lemma only_report_session s : only ks (report_session s).
Proof. unfold report_session. quiet. Qed.

Lemma only_agent_name n : only ks (agent_name n).
Proof. unfold agent_name, prompt_line. quiet. Qed.

Lemma only_claim_generate : only ks claim_generate.
Proof. unfold claim_generate. quiet. Qed.
End console.

#[export] Hint Resolve only_yn_question only_write_screen only_read_stdin_line only_read_line
  only_read_password only_report_session only_agent_name only_claim_generate : quiet.

Section service.
Context {CB : CliBuild} (ks : list kind).
Context (HT : KTerminal ∈ ks) (HP : KProcess ∈ ks) (HR : KReach ∈ ks).

Lemma only_connect_target t : only ks (connect_target t).
Proof. unfold connect_target. quiet. Qed.

Lemma only_client_call {T} c r s (f : ServiceResponse → option T) :
  request_kind r ∈ ks → only ks (client_call c r s f).
Proof. intros Hr. unfold client_call. quiet. Qed.

Lemma only_wait_rounds n : only ks (wait_rounds n).
Proof. induction n; cbn [wait_rounds]; quiet. Qed.

Lemma only_reach_rounds n : only ks (reach_rounds n).
Proof. induction n; cbn [reach_rounds]; quiet. Qed.
Context (HM : KManager ∈ ks).
Hint Resolve only_wait_rounds only_reach_rounds only_connect_target : quiet.

Lemma only_is_active m : only ks (installed_service_is_active_with_linux_manager m).
Proof. destruct m; unfold installed_service_is_active_with_linux_manager, is_systemd_service_active,
  is_openrc_service_active; quiet. Qed.

Lemma only_start_with m : only ks (start_with m).
Proof. destruct m; unfold start_with, start_systemd_service, start_openrc_service, run_systemctl,
  run_rc_service; quiet. Qed.

Lemma only_stop_with m : only ks (stop_installed_service_with_linux_manager m).
Proof. destruct m; unfold stop_installed_service_with_linux_manager, stop_systemd_service, stop_openrc_service,
  run_systemctl, run_rc_service; quiet. Qed.
Hint Resolve only_is_active only_start_with only_stop_with : quiet.

Lemma only_ensure_running m : only ks (ensure_installed_service_running_with_linux_manager m).
Proof. unfold ensure_installed_service_running_with_linux_manager, wait_for_installed_service. quiet. Qed.

Lemma only_is_active_cli m : only ks (installed_service_is_active m).
Proof. unfold installed_service_is_active. quiet. Qed.
Hint Resolve only_ensure_running only_is_active_cli : quiet.

Lemma only_stop_installed m : only ks (stop_installed_service_for_cli m).
Proof. unfold stop_installed_service_for_cli, installed_service_is_active_for_cli. quiet. Qed.
Context (HS : KSystem ∈ ks).

Lemma only_access_issue p : only ks (socket_access_issue p).
Proof.
  unfold socket_access_issue, socket_parent_access_issue, playit_group_access_issue,
    current_user_account_is_configured_for_group, current_user_account, current_user_can_write_socket,
    current_user_in_group, current_process_has_group, lookup_group_info, group_info_by_gid, effective_gid,
    effective_uid.
  quiet.
Qed.
Hint Resolve only_access_issue : quiet.

Lemma only_prepare m : only ks (prepare_installed_service_for_cli m).
Proof.
  unfold prepare_installed_service_for_cli, installed_service_unreachable_message, current_user_is_root, effective_uid.
  quiet.
Qed.
Hint Resolve only_prepare : quiet.

Lemma only_ensure_cli m : only ks (ensure_installed_service_running_for_cli m).
Proof. unfold ensure_installed_service_running_for_cli. quiet. Qed.
Hint Resolve only_ensure_cli : quiet.

Lemma only_ensure_installed t m : only ks (ensure_installed t m).
Proof. unfold ensure_installed. quiet. Qed.
End service.

#[export] Hint Resolve only_connect_target only_stop_installed only_ensure_cli only_ensure_installed
  only_client_call : quiet.
