(* ===== verification/CliTheorems.v ===== *)
(** * What the commands do to the service

    For every command line, and whatever the user, the service, the service
    manager and the API answer: when a secret is provisioned, when one is
    reset, when the service is started and stopped, and with which credentials
    the API is called. *)

From S2P Require Import Prelude Text Net Json OriginLookup Api ApiTunnels ApiAccount HttpClient ApiClient WebApi SessionStore IpcModel Ipc FileSystem Program Tui CliModel ServiceManager SocketAccess CliSession CliCommands CliLogic.
#[local] Open Scope string_scope.
#[local] Open Scope list_scope.

(** ** Facts about the history *)

Definition answered {X} (e : call X) (x : X) (h : hist) : Prop := Event e x ∈ h.

(** The user's answer to a question with the default [d]. *)
Definition said (d : option bool) (b : bool) (h : hist) : Prop :=
  ∃ line, answered ReadLine (inr line) h ∧ answer_of d line = Some b.

Definition service_waiting (h : hist) : Prop :=
  ∃ c, answered (Request c GetState) (inr (RespState WaitingForSecret)) h.

Definition service_refused_secret (h : hist) : Prop :=
  ∃ c e, answered (Request c GetState) (inr (RespState (HasInvalidSecret e))) h.

Definition reset_done (h : hist) : Prop :=
  ∃ c m, answered (Request c ResetSecret) (inr (RespResetSecret {| cr_accepted := true; cr_message := m |})) h.

Section facts.
Context {FM : Formats} {CB : CliBuild}.

Definition generated (code : string) (h : hist) : Prop :=
  ∃ bytes, answered (RandomBytes 5) bytes h ∧ code = hex_encode bytes.

Definition claim_accepted (code : string) (h : hist) : Prop :=
  ∃ ty, answered (Api claim_setup anonymous_api (claim_setup_req code ty))
          (inr (ApiSuccess ClaimSetupResponse_UserAccepted)) h.

Definition claim_exchanged (code secret : string) (h : hist) : Prop :=
  ∃ res, answered (Api claim_exchange anonymous_api {| ReqClaimExchange_code := code |})
           (inr (ApiSuccess res)) h ∧ AgentSecretKey_secret_key res = secret.

(** The session that is stored was found to be valid, and the claim was
    accepted with a stored session. *)
Definition session_valid (h : hist) : Prop :=
  ∃ p stored l, answered (SessionLoad p) (inr (Some stored)) h ∧
    answered (Api tunnels_list (stored_account_client stored) all_tunnels) (inr (ApiSuccess l)) h.

Definition approved (code : string) (h : hist) : Prop :=
  ∃ p stored name ty acc, answered (SessionLoad p) (inr (Some stored)) h ∧
    answered (Api web_claim_accept (stored_account_client stored)
                {| ReqClaimAccept_code := code; ReqClaimAccept_name := name; ReqClaimAccept_agent_type := ty |})
      (inr (ApiSuccess acc)) h.

(** A secret may be provisioned. *)
Definition provision_due (direct : bool) (secret : string) (h : hist) : Prop :=
  ∃ code, generated code h ∧ service_waiting h ∧ claim_accepted code h ∧ claim_exchanged code secret h ∧
    if direct then session_valid h ∧ approved code h else True.

(** ** The protocol *)

Definition is_claim_path (p : string) : bool :=
  bool_decide (p ∈ ["/claim/setup"; "/claim/details"; "/claim/accept"; "/claim/exchange"]).

Definition setup_command (cmd : option Commands) : option bool :=
  match cmd with
  | None => Some false
  | Some (CmdSetup direct _) => Some direct
  | _ => None
  end.

Definition policy (cmd : option Commands) (h : hist) (ev : event call) : Prop :=
  match ev_call ev with
  | Request _ (SetSecret secret) => ∃ direct, setup_command cmd = Some direct ∧ provision_due direct secret h
  | Request _ ResetSecret =>
      cmd = Some CmdReset ∨ (cmd = None ∧ service_refused_secret h ∧ said (Some false) true h)
  | Request _ Stop => cmd = Some CmdStop ∨ (cmd = Some CmdReset ∧ reset_done h)
  | Request _ r => request_kind r = KQuery
  | Command _ args =>
      args ∈ [systemd_is_active_args; openrc_status_args] ∨
      (args ∈ [systemd_start_args; openrc_start_args] ∧ said (Some true) true h) ∨
      (args ∈ [systemd_stop_args; openrc_stop_args] ∧ cmd = Some CmdStop)
  | Api e _ _ => setup_command cmd ≠ None → is_claim_path (ep_path e) = true → service_waiting h
  | _ => True
  end.
End facts.

(** Facts about the past last. *)
Create HintDb lasting discriminated.

Lemma answered_lasting {X} (e : call X) x : lasting (answered e x).
Proof. apply lasting_in. Qed.

Lemma lasting_if (b : bool) (F G : hist → Prop) : lasting F → lasting G → lasting (λ h, if b then F h else G h).
Proof. by destruct b. Qed.

Lemma lasting_all {A} (F : A → hist → Prop) : (∀ a, lasting (F a)) → lasting (λ h, ∀ a, F a h).
Proof. intros HF h t Ha a. by apply HF. Qed.

#[export] Hint Resolve answered_lasting : lasting.

Ltac lasts :=
  try assumption;
  lazymatch goal with
  | |- lasting (λ h, ∀ x, _) => apply lasting_all; intro; lasts
  | |- lasting (λ h, ∃ x, _) => apply lasting_ex; intro; lasts
  | |- lasting (λ h, _ ∧ _) => apply lasting_and; lasts
  | |- lasting (λ h, if _ then _ else _) => apply lasting_if; lasts
  | |- lasting (λ _, ?P) => first [apply lasting_pure | solve [auto with lasting]]
  | |- lasting (?f _) => first [solve [auto with lasting] | unfold f; lasts]
  | |- lasting _ => solve [auto with lasting]
  end.

Lemma said_lasting d b : lasting (said d b).
Proof. unfold said. lasts. Qed.

Lemma service_waiting_lasting : lasting service_waiting.
Proof. unfold service_waiting. lasts. Qed.

Lemma service_refused_lasting : lasting service_refused_secret.
Proof. unfold service_refused_secret. lasts. Qed.

Lemma reset_done_lasting : lasting reset_done.
Proof. unfold reset_done. lasts. Qed.

#[export] Hint Resolve said_lasting service_waiting_lasting service_refused_lasting reset_done_lasting : lasting.

(** ** Parts of the commands *)

Lemma answered_here {X} (e : call X) x h : answered e x (h ++ [Event e x]).
Proof. apply elem_of_app. right. by apply list_elem_of_singleton. Qed.

Lemma answered_app {X} (e : call X) x h t : answered e x h → answered e x (h ++ t).
Proof. apply answered_lasting. Qed.

#[export] Hint Resolve answered_here answered_app : lasting.

(** The calls that every policy allows. *)
Definition free_kinds : list kind := [KTerminal; KScreen; KProcess; KGuard; KSystem; KReach; KQuery; KStore].

Section policies.
Context {FM : Formats} {CB : CliBuild}.

Lemma generated_lasting code : lasting (generated code).
Proof. unfold generated. lasts. Qed.
Lemma claim_accepted_lasting code : lasting (claim_accepted code).
Proof. unfold claim_accepted. lasts. Qed.
Lemma claim_exchanged_lasting code s : lasting (claim_exchanged code s).
Proof. unfold claim_exchanged. lasts. Qed.
Lemma session_valid_lasting : lasting session_valid.
Proof. unfold session_valid. lasts. Qed.
Lemma approved_lasting code : lasting (approved code).
Proof. unfold approved. lasts. Qed.
Hint Resolve generated_lasting claim_accepted_lasting claim_exchanged_lasting session_valid_lasting
  approved_lasting : lasting.

Lemma free_allowed cmd h X (e : call X) x : call_kind e ∈ free_kinds → policy cmd h (Event e x).
Proof.
  intros Hk. assert (call_kind e ≠ KApi ∧ call_kind e ≠ KChange ∧ call_kind e ≠ KManager) as (HA & HC & HM).
  { split_and!; intros Hn; rewrite Hn in Hk; revert Hk; refine (bool_decide_unpack _ _); vm_compute; exact I. }
  destruct e; try done. by destruct request.
Qed.

Lemma free cmd {A} P (m : Cli A) : only free_kinds m → holds (policy cmd) P m (λ _ _, True).
Proof. intros Hm. eapply only_holds; [exact Hm|]. intros. by apply free_allowed. Qed.

(** A question that got an answer. *)
Section answers.
Context (ok : hist → event call → Prop).
Context (Hok : ∀ h X (e : call X) x, call_kind e ∈ [KTerminal; KProcess] → ok h (Event e x)).

Lemma holds_talk {A} P (m : Cli A) : only [KTerminal; KProcess] m → holds ok P m (λ _ _, True).
Proof. intros Hm. by eapply only_holds. Qed.

Lemma holds_blocking {A} P (m : Cli A) Q :
  lasting P → (∀ a, lasting (Q a)) → holds ok P m Q → holds ok P (blocking m) Q.
Proof.
  intros HP HQ Hm. unfold blocking. eapply holds_bind; [by apply holds_attempt|]. intros [e|a].
  - eapply holds_bind; [eapply holds_talk; quiet|]. intros []; [apply holds_or_throw; by intros|apply holds_throw].
  - eapply holds_bind.
    + apply (holds_ask _ _ _ (λ _ h, Q a h)); [intros; apply Hok; in_kinds|]. intros h x [_ Hq]. by apply HQ.
    + intros []; [apply holds_or_throw; by intros ? ? [= ->]|apply holds_throw].
Qed.

Lemma yn_question_says q d : holds ok (λ _, True) (yn_question q d) (λ b h, said d b h).
Proof.
  unfold yn_question. apply (holds_bind _ _ _ (λ ui _, True ∧ asking ui)); [by apply holds_get_ui|].
  intros ui. apply holds_pre. unfold asking. intros Hui. rewrite Hui. apply holds_blocking; [apply lasting_pure|apply said_lasting|].
  apply (holds_loop _ (λ _ _, True)). intros u. unfold yn_round.
  eapply holds_bind; [eapply holds_talk; quiet|intros ?].
  eapply holds_bind; [eapply holds_talk; quiet|intros ?].
  eapply holds_bind; [eapply holds_talk; quiet|intros ?].
  eapply holds_bind.
  { apply (holds_ask _ _ _ (λ l h, answered ReadLine l h)); [intros; apply Hok; in_kinds|].
    intros. apply answered_here. }
  intros l. eapply holds_bind; [apply (holds_or_throw _ _ _ _ (λ line h, answered ReadLine (inr line) h)); by intros ? ? ->|].
  intros line. destruct (answer_of d line) as [b|] eqn:Ha.
  - apply holds_ret. intros h Hl. by exists line.
  - eapply holds_bind; [eapply holds_talk; quiet|]. intros ?. by apply holds_ret.
Qed.
End answers.

Lemma then_free cmd {A B} P (m : Cli A) (k : A → Cli B) Q :
  lasting P → only free_kinds m → (∀ a, holds (policy cmd) P (k a) Q) → holds (policy cmd) P (m ≫= k) Q.
Proof.
  intros HP Hm Hk. eapply holds_seq; [done|by apply free|]. intros a.
  eapply holds_conseq; [apply Hk|tauto|done].
Qed.

(** A call that the policy allows here. *)
Lemma then_ask cmd {X B} (P : hist → Prop) (e : call X) (k : X → Cli B) Q :
  lasting P → (∀ h x, P h → policy cmd h (Event e x)) →
  (∀ x, holds (policy cmd) (λ h, P h ∧ answered e x h) (k x) Q) → holds (policy cmd) P (ask e ≫= k) Q.
Proof.
  intros HP Hok Hk. eapply holds_seq; [done| |exact Hk]. apply holds_ask; [done|].
  intros. apply answered_here.
Qed.

(** Any fact of the history can be dropped. *)
Lemma holds_drop ok {A} P (m : Cli A) Q : holds ok (λ _, True) m Q → holds ok P m Q.
Proof. intros Hm. by eapply holds_conseq; [exact Hm| |]. Qed.

(** What is known is still known after a part of no interest. *)
Lemma free_keep cmd {A} (P F : hist → Prop) (m : Cli A) :
  only free_kinds m → lasting F → (∀ h, P h → F h) → holds (policy cmd) P m (λ _ h, F h).
Proof.
  intros Hm HF HPF. apply (holds_conseq _ _ (λ h, True ∧ F h) _ _ (λ _ h, True ∧ F h)).
  - apply holds_frame; [done|]. by apply free.
  - auto.
  - by intros a h [].
Qed.

(** *** The service manager *)

Ltac manager_call :=
  apply then_ask; [lasts|intros h x Hh; cbn; set_solver|intros [?|o]; [apply holds_ret; tauto|]].

Lemma is_active_policy cmd m :
  holds (policy cmd) (λ _, True) (installed_service_is_active_with_linux_manager m) (λ _ _, True).
Proof.
  destruct m; cbn [installed_service_is_active_with_linux_manager];
    unfold is_systemd_service_active, is_openrc_service_active.
  - manager_call. repeat case_match; apply holds_ret; tauto.
  - apply then_ask; [lasts|intros h x Hh; cbn; set_solver|]. intros x. apply holds_ret. tauto.
Qed.

Lemma is_active_cli_policy cmd m :
  holds (policy cmd) (λ _, True) (installed_service_is_active m) (λ _ _, True).
Proof.
  eapply holds_bind; [apply is_active_policy|]. intros r. apply holds_or_throw. tauto.
Qed.

Lemma start_policy cmd m : holds (policy cmd) (said (Some true) true) (start_with m) (λ _ _, True).
Proof.
  destruct m; cbn [start_with]; unfold start_systemd_service, start_openrc_service, run_systemctl, run_rc_service;
    manager_call; case_match; apply holds_ret; tauto.
Qed.

Lemma stop_policy m :
  holds (policy (Some CmdStop)) (λ _, True) (stop_installed_service_with_linux_manager m) (λ _ _, True).
Proof.
  destruct m; cbn [stop_installed_service_with_linux_manager];
    unfold stop_systemd_service, stop_openrc_service, run_systemctl, run_rc_service;
    manager_call; case_match; apply holds_ret; tauto.
Qed.

Lemma prepare_policy cmd m :
  holds (policy cmd) (λ _, True) (prepare_installed_service_for_cli m)
    (λ ready h, ready = false → said (Some true) true h).
Proof.
  unfold prepare_installed_service_for_cli.
  eapply holds_bind; [apply is_active_cli_policy|]. intros [].
  - apply then_free; [lasts|apply only_reach_rounds; in_kinds|]. intros []; [by apply holds_ret|].
    apply then_free; [lasts| |intros ?; apply holds_throw].
    unfold installed_service_unreachable_message. quiet. apply only_access_issue; in_kinds.
  - apply then_free; [lasts|unfold current_user_is_root, effective_uid; quiet|]. intros is_root.
    eapply holds_bind; [apply yn_question_says|].
    { intros h X e x Hk. apply free_allowed. revert Hk. set_solver. }
    intros []; [|apply holds_throw]. by apply holds_ret.
Qed.

Lemma ensure_running_policy cmd m :
  holds (policy cmd) (said (Some true) true) (ensure_installed_service_running_with_linux_manager m) (λ _ _, True).
Proof.
  unfold ensure_installed_service_running_with_linux_manager.
  apply then_free; [lasts|quiet|]. intros []; [by apply holds_ret|].
  unfold and_then at 1. eapply holds_seq; [lasts|apply holds_drop, is_active_policy|].
  intros [e|[]]; [by apply holds_ret|by apply holds_ret|]. unfold and_then.
  eapply holds_bind; [eapply holds_conseq; [apply start_policy|tauto|done]|].
  intros [e|[]]; [by apply holds_ret|]. apply free. apply only_wait_rounds; in_kinds.
Qed.

Lemma ensure_cli_policy cmd m :
  holds (policy cmd) (λ _, True) (ensure_installed_service_running_for_cli m) (λ _ _, True).
Proof.
  unfold ensure_installed_service_running_for_cli. apply then_free; [lasts|quiet|]. intros []; [by apply holds_ret|].
  destruct (linux_service_manager m) as [lm|]; [|apply holds_throw].
  eapply holds_bind; [apply prepare_policy|]. intros []; [by apply holds_ret|].
  eapply holds_bind; [eapply holds_conseq; [apply ensure_running_policy| |done]|].
  { cbn. auto. }
  intros r. eapply holds_bind; [by apply (holds_or_throw _ _ _ _ (λ _ _, True))|]. intros ?. by apply holds_ret.
Qed.

Lemma ensure_installed_policy cmd t m :
  holds (policy cmd) (λ _, True) (ensure_installed t m) (λ _ _, True).
Proof.
  unfold ensure_installed. destruct (target_is_installed t); [|by apply holds_ret].
  eapply holds_bind; [apply ensure_cli_policy|]. intros ?. by apply holds_ret.
Qed.

(** *** Requests and calls *)

Lemma client_call_policy cmd {T} P c req exp (f : ServiceResponse → option T) :
  (∀ h x, P h → policy cmd h (Event (Request c req) x)) →
  holds (policy cmd) P (client_call c req exp f)
    (λ r h, ∀ v, r = inr v → ∃ resp, answered (Request c req) (inr resp) h ∧ f resp = Some v).
Proof.
  intros Hok. unfold client_call. eapply holds_bind; [apply (holds_ask _ _ _ (λ x h, answered (Request c req) x h))|];
    [done|intros; apply answered_here|].
  intros [e|resp]; apply holds_ret; intros h Ha v Hv; [done|]. exists resp. split; [done|]. revert Hv.
  unfold expect, expect_response, ok_or. destruct resp; try done; destruct (f _); congruence.
Qed.

Lemma lifecycle_policy cmd c :
  holds (policy cmd) (λ _, True) (lifecycle_call c)
    (λ r h, ∀ l, r = inr l → answered (Request c GetState) (inr (RespState l)) h).
Proof.
  eapply holds_conseq; [apply (client_call_policy cmd (λ _, True)); by intros|done|]. cbn. intros r h Hr l Hl.
  destruct (Hr l Hl) as (resp & Ha & Hf). destruct resp; try done. by injection Hf as ->.
Qed.

(** A call of the API that is not a claim, or while the service waits. *)
Definition api_free (cmd : option Commands) (P : hist → Prop) (e : Endpoint) : Prop :=
  setup_command cmd = None ∨ is_claim_path (ep_path e) = false ∨ ∀ h, P h → service_waiting h.

Lemma then_api cmd {B} (P : hist → Prop) e c q (k : _ → Cli B) Q :
  lasting P → api_free cmd P e →
  (∀ x, holds (policy cmd) (λ h, P h ∧ answered (Api e c q) x h) (k x) Q) →
  holds (policy cmd) P (ask (Api e c q) ≫= k) Q.
Proof.
  intros HP Hfree Hk. apply then_ask; [done| |done]. intros h x Hh. cbn. intros Hs Hp.
  destruct Hfree as [?|[?|?]]; [done|congruence|auto].
Qed.

Lemma invoke_policy cmd P e c q :
  lasting P → api_free cmd P e →
  holds (policy cmd) P (api_invoke e c q) (λ r h, ∀ v, r = inr v → answered (Api e c q) (inr (ApiSuccess v)) h).
Proof.
  intros HP Hf. apply then_api; [done|done|]. intros x. apply holds_ret. intros h [_ Ha] v.
  destruct x as [?|[]]; cbn; try done. by intros [= ->].
Qed.

Lemma invoke_no_fail_policy cmd P e c q :
  lasting P → api_free cmd P e →
  holds (policy cmd) P (api_invoke_no_fail e c q)
    (λ r h, ∀ v, r = inr v → answered (Api e c q) (inr (ApiSuccess v)) h).
Proof.
  intros HP Hf. apply then_api; [done|done|]. intros x. apply holds_ret. intros h [_ Ha] v.
  destruct x as [?|[]]; cbn; try done. by intros [= ->].
Qed.

Lemma web_call_policy cmd P e c q :
  lasting P → api_free cmd P e →
  holds (policy cmd) P (web_call e c q) (λ r h, ∀ v, r = inr v → answered (Api e c q) (inr v) h).
Proof.
  intros HP Hf. apply then_api; [done|done|]. intros x. apply holds_ret. intros h [_ Ha] v.
  destruct x as [?|x]; cbn; [done|]. by intros [= ->].
Qed.

(** *** The stored session *)

Lemma load_policy cmd :
  holds (policy cmd) (λ _, True) load_stored_session
    (λ stored h, ∃ p, answered (SessionLoad p) (inr (Some stored)) h).
Proof.
  unfold load_stored_session, session_file. apply then_free; [lasts|quiet|]. intros p.
  apply then_ask; [lasts|done|]. intros r.
  eapply holds_bind; [apply (holds_or_throw _ _ _ _ (λ o h, answered (SessionLoad p) (inr o) h)); by intros ? ? -> []|].
  intros [stored|]; [|apply holds_throw]. apply holds_ret. eauto.
Qed.

Lemma stored_client_policy cmd :
  holds (policy cmd) (λ _, True) stored_client
    (λ r h, snd r = stored_account_client (fst r) ∧ ∃ p, answered (SessionLoad p) (inr (Some (fst r))) h).
Proof. eapply holds_bind; [apply load_policy|]. intros stored. by apply holds_ret. Qed.

Lemma validate_policy cmd stored P :
  lasting P →
  holds (policy cmd) P (validate_stored stored)
    (λ _ h, ∃ l, answered (Api tunnels_list (stored_account_client stored) all_tunnels) (inr (ApiSuccess l)) h).
Proof.
  intros HP. unfold validate_stored, validate_with_key_call.
  eapply holds_bind; [eapply holds_bind; [by apply invoke_no_fail_policy; [|right; left]|intros r]|].
  - apply (holds_ret _ _ _ (λ r h, ∀ u, r = inr u → ∃ l, answered (Api tunnels_list (stored_account_client stored)
      all_tunnels) (inr (ApiSuccess l)) h)).
    intros h Ha u. destruct r as [?|l]; [done|]. intros _. exists l. by apply Ha.
  - intros r. apply holds_or_throw. intros u h -> Hr. by eapply Hr.
Qed.

Lemma require_session_policy cmd :
  holds (policy cmd) (λ _, True) require_valid_stored_session (λ _ h, session_valid h).
Proof.
  unfold require_valid_stored_session. eapply holds_seq; [lasts|apply load_policy|]. intros stored.
  eapply holds_seq; [lasts|apply validate_policy; lasts|]. intros ?.
  apply free_keep; [quiet|lasts|]. intros h [[_ [p Hp]] [l Hl]]. by exists p, stored, l.
Qed.

(** *** Claims *)

Lemma ensure_waiting_policy cmd t m :
  holds (policy cmd) (λ _, True) (ensure_service_waiting_for_secret t m) (λ _ h, service_waiting h).
Proof.
  unfold ensure_service_waiting_for_secret. eapply holds_bind; [apply ensure_installed_policy|]. intros ?.
  apply then_free; [lasts|quiet|]. intros c. eapply holds_bind; [apply lifecycle_policy|]. intros r.
  eapply holds_bind;
    [apply (holds_or_throw _ _ _ _ (λ l h, answered (Request c GetState) (inr (RespState l)) h)); by intros ? ? -> H; apply H|].
  intros []; try apply holds_throw. apply holds_ret. intros h Ha. by exists c.
Qed.

Lemma generate_policy cmd P : lasting P → holds (policy cmd) P claim_generate (λ code h, generated code h).
Proof.
  intros HP. unfold claim_generate. apply then_ask; [done|done|]. intros bytes. apply holds_ret.
  intros h [_ Ha]. by exists bytes.
Qed.

Section waiting.
Context (cmd : option Commands) (P : hist → Prop) (HP : lasting P).
Context (HW : setup_command cmd = None ∨ ∀ h, P h → service_waiting h).

Lemma claim_call_free e (R : hist → Prop) : (∀ h, R h → P h) → api_free cmd R e.
Proof. intros HR. destruct HW as [?|Hw]; [by left|]. right. right. auto. Qed.

Lemma details_policy n api code :
  holds (policy cmd) P (details_rounds n api code) (λ _ h, P h).
Proof.
  induction n as [|n IH]; cbn [details_rounds]; [apply holds_throw|].
  eapply holds_seq; [done|apply (invoke_policy cmd _ claim_setup); [done|by apply claim_call_free]|]. intros ?.
  eapply holds_seq; [lasts|apply (web_call_policy cmd _ web_claim_details); [lasts|apply claim_call_free; tauto]|]. intros r.
  apply (holds_conseq _ _ P _ _ (λ _ h, P h)); [|tauto|done].
  eapply holds_seq; [done|by apply (holds_or_throw _ _ _ _ (λ _ _, True))|]. intros ans.
  apply (holds_conseq _ _ P _ _ (λ _ h, P h)); [|tauto|done].
  destruct ans as [d|[]|e]; try apply holds_throw; [by apply holds_ret|].
  apply then_free; [done|quiet|]. intros ?. apply IH.
Qed.

Lemma approve_policy code name ty :
  holds (policy cmd) P (claim_approve code name ty) (λ _ h, approved code h).
Proof.
  unfold claim_approve. apply then_free; [done|quiet|]. intros ?.
  eapply holds_seq; [done|apply holds_drop, stored_client_policy|]. intros [stored api]. cbn [fst snd].
  set (P1 := λ h, P h ∧ api = stored_account_client stored ∧ ∃ p, answered (SessionLoad p) (inr (Some stored)) h).
  assert (lasting P1) as HP1 by (unfold P1; lasts).
  eapply holds_seq; [exact HP1|eapply holds_conseq; [apply details_policy|unfold P1; tauto|done]|]. intros details.
  apply (holds_conseq _ _ P1 _ _ (λ _ h, approved code h)); [|tauto|done].
  apply then_free; [done|quiet|]. intros ?. apply then_free; [done|quiet|]. intros name'.
  apply then_free; [done|quiet|]. intros ty'.
  eapply holds_seq; [done|apply (web_call_policy cmd _ web_claim_accept); [done|apply claim_call_free; unfold P1; tauto]|]. intros r.
  eapply holds_bind; [apply (holds_or_throw _ _ _ _ (λ v h, P1 h ∧ answered (Api web_claim_accept api
     {| ReqClaimAccept_code := code; ReqClaimAccept_name := name'; ReqClaimAccept_agent_type := ty' |}) (inr v) h))|].
  { intros v h -> [H1 H2]. auto. }
  intros [acc|?|?]; [|apply holds_throw..].
  apply free_keep; [quiet|lasts|]. intros h [(_ & -> & p & Hp) Ha]. by exists p, stored, name', ty', acc.
Qed.

Lemma setup_loop_policy code ty :
  holds (policy cmd) P (cli_loop (setup_round code ty) "Preparing setup...")
    (λ r h, r = inr () → claim_accepted code h).
Proof.
  apply (holds_loop _ (λ _ h, P h)). intros last. unfold setup_round.
  eapply holds_seq; [done|apply (invoke_policy cmd _ claim_setup); [done|by apply claim_call_free]|].
  intros [e|resp]; cbn beta iota.
  - apply then_free; [lasts|quiet|]. intros ?. apply then_free; [lasts|quiet|]. intros ?.
    apply holds_ret. tauto.
  - destruct resp; cbn beta iota.
    + destruct (claim_url code); [by apply holds_ret|].
      apply then_free; [lasts|quiet|]. intros ?. apply then_free; [lasts|quiet|]. intros ?. apply holds_ret. tauto.
    + destruct (claim_url code); [by apply holds_ret|].
      apply then_free; [lasts|quiet|]. intros ?. apply then_free; [lasts|quiet|]. intros ?. apply holds_ret. tauto.
    + apply then_free; [lasts|quiet|]. intros ?. apply holds_ret. intros h [_ Ha] _. exists ty. by apply Ha.
    + apply then_free; [lasts|quiet|]. intros ?. apply then_free; [lasts|quiet|]. intros ?. by apply holds_ret.
Qed.

Lemma exchange_loop_policy code end_at :
  holds (policy cmd) P (cli_loop (exchange_round code end_at) ()) (λ key h, claim_exchanged code key h).
Proof.
  apply (holds_loop _ (λ _ h, P h)). intros ?. unfold exchange_round.
  eapply holds_seq; [done|apply (invoke_policy cmd _ claim_exchange); [done|by apply claim_call_free]|].
  intros [[status|?|?]|res]; try apply holds_throw; cbn beta iota.
  - apply then_free; [lasts|quiet|]. intros ?. apply then_free; [lasts|quiet|]. intros now. case_decide.
    + apply then_free; [lasts|quiet|]. intros ?. apply then_free; [lasts|quiet|]. intros ?. apply holds_throw.
    + apply then_free; [lasts|quiet|]. intros ?. apply holds_ret. tauto.
  - apply holds_ret. intros h [_ Ha]. exists res. split; [by apply Ha|done].
Qed.

Lemma exchange_policy code ty wait :
  holds (policy cmd) P (claim_exchange_cmd code ty wait)
    (λ key h, claim_accepted code h ∧ claim_exchanged code key h).
Proof.
  unfold claim_exchange_cmd. apply then_free; [done|quiet|]. intros end_at.
  apply then_free; [done|quiet|]. intros ?.
  eapply holds_seq; [done|apply setup_loop_policy|]. intros r.
  apply then_free; [lasts|quiet|]. intros ?.
  eapply holds_bind; [apply (holds_or_throw _ _ _ _ (λ _ h, claim_accepted code h ∧ P h))|].
  { intros [] h -> []. auto. }
  intros ?. eapply holds_conseq; [apply (holds_frame _ P _ (λ key h, claim_exchanged code key h) (claim_accepted code))| |].
  - lasts.
  - apply exchange_loop_policy.
  - cbn. tauto.
  - cbn. tauto.
Qed.
End waiting.

(** *** Setup *)

Lemma provision_policy cmd direct t secret m P :
  setup_command cmd = Some direct → lasting P → (∀ h, P h → provision_due direct secret h) →
  holds (policy cmd) P (provision_service_secret t secret m)
    (λ _ h, ∃ c msg, answered (Request c (SetSecret secret))
       (inr (RespSetSecret {| cr_accepted := true; cr_message := msg |})) h).
Proof.
  intros Hc HP Hdue. unfold provision_service_secret.
  eapply holds_seq; [done|apply holds_drop, ensure_installed_policy|]. intros ?.
  apply (holds_conseq _ _ P _ _ (λ _ h, ∃ c msg, answered (Request c (SetSecret secret))
    (inr (RespSetSecret {| cr_accepted := true; cr_message := msg |})) h)); [|tauto|done].
  apply then_free; [done|quiet|]. intros c.
  eapply holds_bind; [apply (client_call_policy cmd P); intros h x Hh; cbn; eauto|]. intros r.
  eapply holds_bind; [apply (holds_or_throw _ _ _ _ (λ v h, answered (Request c (SetSecret secret)) (inr (RespSetSecret v)) h))|].
  { intros v h -> Hr. destruct (Hr v eq_refl) as (resp & Ha & Hf). destruct resp; try done. by injection Hf as ->. }
  intros [acc msg]. cbn. destruct acc; [|apply holds_throw]. apply holds_ret. eauto.
Qed.

Lemma setup_policy cmd direct t m name :
  setup_command cmd = Some direct →
  holds (policy cmd) (λ _, True) (run_setup_flow t m direct name)
    (λ _ h, ∃ c secret msg, answered (Request c (SetSecret secret))
       (inr (RespSetSecret {| cr_accepted := true; cr_message := msg |})) h).
Proof.
  intros Hc. unfold run_setup_flow. destruct direct.
  - eapply holds_bind; [apply require_session_policy|]. intros ?.
    eapply holds_seq; [lasts|apply holds_drop, ensure_waiting_policy|]. intros ?.
    eapply holds_seq; [lasts|apply generate_policy; lasts|]. intros code.
    eapply holds_seq; [lasts|apply approve_policy; [lasts|right; tauto]|]. intros ?.
    eapply holds_seq; [lasts|apply exchange_policy; [lasts|right; tauto]|]. intros key.
    eapply holds_bind; [eapply (provision_policy cmd true); [done|lasts|]|].
    { intros h Hh. exists code. tauto. }
    intros ?. apply free_keep; [quiet|lasts|]. intros h (c & msg & Ha). eauto.
  - eapply holds_bind; [apply ensure_waiting_policy|]. intros ?.
    eapply holds_seq; [lasts|apply generate_policy; lasts|]. intros code.
    apply then_free; [lasts|quiet|]. intros url. apply then_free; [lasts|quiet|]. intros ?.
    eapply holds_seq; [lasts|apply exchange_policy; [lasts|right; tauto]|]. intros key.
    eapply holds_bind; [eapply (provision_policy cmd false); [done|lasts|]|].
    { intros h Hh. exists code. tauto. }
    intros ?. eapply holds_seq; [lasts|apply (invoke_policy cmd _ login_guest); [lasts|by right; left]|]. intros r.
    apply free_keep; [quiet|lasts|]. intros h [(c & msg & Ha) _]. eauto.
Qed.

(** *** The other commands *)

Lemma plain_policy cmd {A} (m : Cli A) :
  setup_command cmd = None → only (KApi :: free_kinds) m → holds (policy cmd) (λ _, True) m (λ _ _, True).
Proof.
  intros Hc Hm. eapply only_holds; [exact Hm|]. intros h X e x Hk.
  apply elem_of_cons in Hk as [Hk|Hk]; [|by apply free_allowed].
  destruct e; try done; [by destruct request|]. cbn. by rewrite Hc.
Qed.

Lemma only_load ks : KStore ∈ ks → only ks load_stored_session.
Proof. intros HS. unfold load_stored_session, session_file. quiet. Qed.

Lemma only_details ks n api code : KApi ∈ ks → KProcess ∈ ks → only ks (details_rounds n api code).
Proof.
  intros HA HP. induction n; cbn [details_rounds]; unfold api_invoke, web_call; quiet.
Qed.

Lemma only_attach ks ts t m c :
  KTerminal ∈ ks → KScreen ∈ ks → KGuard ∈ ks → KProcess ∈ ks → KReach ∈ ks → KQuery ∈ ks →
  only ks (run_attach_command_with_context ts t m c).
Proof.
  intros HT HS HG HP HR HQ.
  unfold run_attach_command_with_context, subscribe_call, run_attach_tui_session, run_attach_stdout_session.
  quiet.
  - unfold tui_round, shutdown_then, leave_tui, tui_shutdown, restore_terminal, tick, tui_init, init_terminal,
      draw, tick_key, print_detach_message. quiet.
  - unfold stdout_round, apply_stdout_update, print_detach_message. quiet.
Qed.

(** The commands that only talk to the user, the API, the session file and the
    service. *)
Section plain_commands.
Context (ks : list kind).
Context (HT : KTerminal ∈ ks) (HP : KProcess ∈ ks) (HR : KReach ∈ ks) (HQ : KQuery ∈ ks) (HS : KStore ∈ ks)
  (HA : KApi ∈ ks).

Lemma only_account t c : only ks (run_account t c).
Proof.
  destruct c; cbn [run_account].
  - unfold run_account_login_url_command, get_account_login_url_call. quiet.
  - unfold run_account_login, sign_in_call, complete_totp_call, api_invoke, session_file. quiet.
  - unfold run_account_logout, session_file. quiet.
  - unfold run_account_status. quiet. apply only_load; in_kinds.
  - unfold run_account_validate, validate_stored, validate_with_key_call, api_invoke_no_fail. quiet.
    apply only_load; in_kinds.
Qed.

Lemma only_agents_write l : only ks (write_agents l).
Proof. induction l; cbn [write_agents]; quiet. Qed.

Lemma only_stored_client : only ks stored_client.
Proof. unfold stored_client. quiet. apply only_load; in_kinds. Qed.
Hint Resolve only_stored_client only_agents_write : quiet.

Lemma only_agents c : only ks (run_agents c).
Proof. destruct c; cbn [run_agents]; [unfold agents_list|unfold agents_delete]; unfold web_call; quiet. Qed.

Lemma only_println_all l : only ks (println_all l).
Proof. induction l; cbn [println_all]; quiet. Qed.

Lemma only_claim c : KGuard ∈ ks → only ks (run_claim c).
Proof.
  intros HG. destruct c; cbn [run_claim].
  - quiet.
  - quiet.
  - unfold claim_exchange_cmd. quiet; [unfold setup_round|unfold exchange_round]; unfold api_invoke; quiet.
  - unfold claim_inspect, api_invoke. quiet.
  - unfold claim_approve, web_call, await_claim_details. quiet. apply only_details; in_kinds.
  - unfold claim_reject, web_call. quiet.
Qed.

End plain_commands.
Hint Resolve only_stored_client only_agents_write : quiet.

(** *** Stopping and resetting *)

Lemma stop_installed_policy t m :
  holds (policy (Some CmdStop)) (λ _, True) (run_stop_command t m) (λ _ _, True).
Proof.
  assert (∀ c, holds (policy (Some CmdStop)) (λ _, True) (stop_call c) (λ _ _, True)) as Hstop.
  { intros c. eapply holds_conseq; [apply (client_call_policy (Some CmdStop) (λ _, True))| |]; [cbn; auto|done|done]. }
  unfold run_stop_command. destruct t as [|path].
  - unfold stop_installed, stop_over_ipc. eapply (holds_bind _ _ _ (λ _ _, True)).
    + apply then_free; [lasts|quiet|]. intros [e|c]; [apply free; quiet|].
      eapply holds_bind; [apply Hstop|]. intros r. apply free. quiet.
    + intros fallback. apply (holds_bind _ _ _ (λ _ _, True)); [|intros b; apply free; quiet].
      destruct fallback; [|by apply holds_ret].
      apply (holds_bind _ _ _ (λ _ _, True)); [|intros ?; by apply holds_ret].
      unfold stop_installed_service_for_cli. destruct m; cbn [linux_service_manager]; [apply holds_throw|..];
        (eapply holds_bind; [apply is_active_cli_policy|]; intros [];
         [eapply holds_bind; [apply stop_policy|]; intros ?; by apply holds_ret|apply free; quiet]).
  - apply then_free; [lasts|quiet|]. intros c. eapply holds_bind; [apply Hstop|]. intros r. apply free. quiet.
Qed.

Lemma reset_policy t : holds (policy (Some CmdReset)) (λ _, True) (run_reset_command t) (λ _ _, True).
Proof.
  unfold run_reset_command. apply then_free; [lasts|quiet|]. intros c.
  eapply holds_bind; [apply (client_call_policy (Some CmdReset) (λ _, True)); cbn; auto|]. intros r.
  eapply holds_bind; [apply (holds_or_throw _ _ _ _ (λ v h, answered (Request c ResetSecret) (inr (RespResetSecret v)) h))|].
  { intros v h -> Hr. destruct (Hr v eq_refl) as (resp & Ha & Hf). destruct resp; try done. by injection Hf as ->. }
  intros [acc msg]. cbn. destruct acc; [|apply holds_throw].
  apply (holds_bind _ _ _ (λ _ _, True)); [|intros ?; apply free; quiet].
  eapply holds_conseq; [apply (client_call_policy (Some CmdReset) reset_done); cbn; auto| |done].
  intros h Ha. by exists c, msg.
Qed.

(** *** The command without arguments *)

Lemma auto_rounds_policy n c :
  holds (policy None) (λ _, True) (auto_rounds n c)
    (λ l h, l = Starting ∨ answered (Request c GetState) (inr (RespState l)) h).
Proof.
  induction n as [|n IH]; cbn [auto_rounds]; [apply holds_ret; auto|].
  eapply holds_bind; [apply lifecycle_policy|]. intros r.
  eapply holds_bind; [apply (holds_or_throw _ _ _ _ (λ l h, answered (Request c GetState) (inr (RespState l)) h));
    by intros ? ? -> H; apply H|].
  intros l. destruct l; try (apply holds_ret; by auto). apply then_free; [lasts|quiet|]. intros ?.
  eapply holds_drop, IH.
Qed.

Lemma secret_rounds_policy n t : holds (policy None) (λ _, True) (secret_rounds n t) (λ _ _, True).
Proof.
  induction n as [|n IH]; cbn [secret_rounds]; [apply holds_throw|].
  apply then_free; [lasts|quiet|]. intros [e|c]; [apply then_free; [lasts|quiet|]; intros ?; apply IH|].
  eapply holds_bind; [apply lifecycle_policy|]. intros r.
  apply (holds_bind _ _ _ (λ _ _, True)); [by apply holds_or_throw|].
  intros []; try apply holds_throw; try (apply then_free; [lasts|quiet|]; intros ?; apply IH).
  by apply holds_ret.
Qed.

Lemma reset_for_setup_policy t P :
  lasting P → (∀ h, P h → service_refused_secret h ∧ said (Some false) true h) →
  holds (policy None) P (reset_service_secret_for_setup t) (λ _ _, True).
Proof.
  intros HP Hh. unfold reset_service_secret_for_setup. apply then_free; [done|quiet|]. intros c.
  eapply holds_bind; [apply (client_call_policy None P); cbn; auto|]. intros r. apply free. quiet.
Qed.

Lemma prepare_lifecycle_policy c t m l :
  holds (policy None) (λ h, l = Starting ∨ answered (Request c GetState) (inr (RespState l)) h)
    (prepare_lifecycle t m l) (λ _ _, True).
Proof.
  assert (∀ P, holds (policy None) P (run_setup_flow t m false None) (λ _ _, True)) as Hs.
  { intros P. eapply holds_conseq; [by apply (setup_policy None false)|done|done]. }
  destruct l; cbn [prepare_lifecycle]; try apply holds_throw; [apply Hs| |by apply holds_ret].
  apply (holds_conseq _ _ service_refused_secret _ _ (λ _ _, True)); [|intros h [?|Ha]; [done|by exists c, e]|done].
  eapply holds_seq; [lasts|apply holds_drop, yn_question_says|].
  { intros h X e' x Hk. apply free_allowed. revert Hk. set_solver. }
  intros []; [|apply holds_throw].
  eapply holds_seq; [lasts|apply reset_for_setup_policy; [lasts|tauto]|]. intros ?.
  eapply holds_bind; [apply holds_drop, secret_rounds_policy|]. intros ?. apply Hs.
Qed.

Lemma auto_policy ts t mode m : holds (policy None) (λ _, True) (run_auto_command ts t mode m) (λ _ _, True).
Proof.
  unfold run_auto_command. apply (holds_bind _ _ _ (λ _ _, True)).
  { destruct t; [|by apply holds_ret]. apply (holds_bind _ _ _ (λ _ _, True)); [|intros ?; by apply holds_ret].
    eapply holds_conseq; [apply (holds_attempt _ (λ _, True)); [lasts|apply ensure_cli_policy]|done|done]. }
  intros failed. apply then_free; [lasts|quiet|]. intros r. apply then_free; [lasts|quiet|]. intros c.
  eapply holds_bind; [apply auto_rounds_policy|]. intros l.
  eapply holds_bind; [apply prepare_lifecycle_policy|]. intros ?. apply free. apply only_attach; in_kinds.
Qed.

(** *** All commands *)

(** What a command that ends without an error has done. *)
Definition accomplished (cmd : option Commands) (h : hist) : Prop :=
  match cmd with
  | Some (CmdSetup _ _) =>
      ∃ c secret msg, answered (Request c (SetSecret secret))
        (inr (RespSetSecret {| cr_accepted := true; cr_message := msg |})) h
  | _ => True
  end.

Lemma accomplished_lasting cmd : lasting (accomplished cmd).
Proof. destruct cmd as [[]|]; try apply lasting_pure. unfold accomplished. lasts. Qed.

Lemma run_command_policy ts cli t m mode :
  holds (policy (cli_command cli)) (λ _, True) (run_command ts cli t m mode)
    (λ _ h, accomplished (cli_command cli) h).
Proof.
  unfold run_command. destruct (cli_command cli) as [[]|]; cbn [accomplished].
  - apply free; quiet.
  - apply free. apply only_attach; in_kinds.
  - unfold run_start_command. destruct t; [|apply holds_throw]. destruct m; [apply holds_throw|..];
      (eapply holds_bind; [apply ensure_cli_policy|intros ?; apply free; quiet]).
  - apply stop_installed_policy.
  - apply free. unfold run_status_command, status_call. quiet. apply only_println_all; in_kinds.
  - apply reset_policy.
  - apply free. unfold run_secret_path_command, get_secret_path_call. quiet.
  - by apply setup_policy.
  - apply plain_policy; [done|apply only_agents; in_kinds].
  - apply plain_policy; [done|apply only_account; in_kinds].
  - apply plain_policy; [done|apply only_claim; in_kinds].
  - apply auto_policy.
Qed.

Lemma run_cli_policy ts cli :
  holds (policy (cli_command cli)) (λ _, True) (run_cli ts cli) (λ _ h, accomplished (cli_command cli) h).
Proof.
  unfold run_cli. apply then_free; [lasts|quiet|]. intros ?. apply then_free; [lasts|quiet|]. intros ?.
  destruct (service_manager_mode cli); [|by apply holds_checked].
  apply then_free; [lasts|quiet|]. intros ?. apply run_command_policy.
Qed.
End policies.

(** ** The theorem *)

(** C17: Whatever the user, the service, the service manager and the API answer,
    and however far [playit] has come: a secret is given to the service only by
    [setup] (or without a command), of a service that said that it waits for
    one, and it is the secret the API gave in exchange for the claim code that
    this run made up, after the API said that the claim was accepted; with
    [--direct], a session loaded from the store was found valid, and the claim
    was accepted with a session loaded from it (each step loads it anew). These
    two commands call the API's claim endpoints only after the service said that
    it waits (those of [claim] may). A secret is reset only by
    [reset], or without a command after the service refused it and the user said
    yes; the service is stopped only by [stop], or by [reset] once the secret is
    gone; the service manager starts it only after the user said yes, for which
    an empty line counts where yes is the default. A setup that ends without an
    error has had its secret accepted. *)
Theorem service_changes_justified {FM : Formats} {CB : CliBuild} timestamp_text cli t o :
  exec (main timestamp_text cli) t o →
  obeys (policy (cli_command cli)) [] t ∧ (o = Some 0%Z → accomplished (cli_command cli) t).
Proof.
  intros Ht. assert (triple (policy (cli_command cli)) (λ _, True) (main timestamp_text cli)
    (λ code h, code = 0%Z → accomplished (cli_command cli) h)) as Hmain.
  { eapply triple_then; [by apply run_cli_policy|]. intros [ui [e|[]]]; cbn.
    - apply triple_vis; [done|]. intros ?. by apply triple_ret.
    - apply triple_ret. tauto. }
  destruct (Hmain [] t o I Ht) as [Ho HQ]. split; [done|]. intros ->. by apply (HQ 0%Z).
Qed.
