(* ===== verification/CliSignals.v ===== *)
(** * The terminal is left as it was found

    The guards that turn Ctrl-C into a question, and the terminal as a screen,
    over every run of the program: what is taken is given back, on every way
    out; and what Ctrl-C does at any moment of a run. *)

From S2P Require Import Prelude Text Net Json OriginLookup Api ApiTunnels ApiAccount HttpClient ApiClient WebApi SessionStore IpcModel Ipc FileSystem Program Tui CliModel ServiceManager SocketAccess CliSession CliCommands CliLogic CliTheorems.
#[local] Open Scope list_scope.

(** ** What is held *)

(** [None]: a guard was taken twice, or dropped without one. *)
Definition held_step (o : option bool) (ev : event call) : option bool :=
  match ev_call ev with
  | CloseGuard => if decide (o = Some false) then Some true else None
  | DropCloseGuard => if decide (o = Some true) then Some false else None
  | _ => o
  end.

Definition held_after (h : hist) : option bool := foldl held_step (Some false) h.

(** The terminal: a screen is set up on it; it is in raw mode; it shows the
    alternate screen; its cursor is hidden, as drawing leaves it; and a call
    that sets it up or gives it back has failed. *)
Record terminal_state : Set := TState {
  tm_up : bool;
  tm_raw : bool;
  tm_alternate : bool;
  tm_hidden : bool;
  tm_failed : bool;
}.

Definition plain_terminal : terminal_state := TState false false false false false.

Definition failing (s : terminal_state) : terminal_state :=
  TState (tm_up s) (tm_raw s) (tm_alternate s) (tm_hidden s) true.

Definition terminal_step (s : terminal_state) (ev : event call) : terminal_state :=
  let '(TState up raw alt hidden failed) := s in
  match ev with
  | @Event _ _ e x =>
      match e in call X return X → terminal_state with
      | EnableRawMode => λ r, match r with inr _ => TState up true alt hidden failed | inl _ => failing s end
      | EnterAlternateScreen => λ r, match r with inr _ => TState up raw true hidden failed | inl _ => failing s end
      | NewTerminal => λ r, match r with inr _ => TState true raw alt hidden failed | inl _ => failing s end
      | Draw _ => λ _, TState up raw alt true failed
      | DisableRawMode => λ r,
          match r with
          | inr _ => TState false false alt hidden failed
          | inl _ => TState false raw alt hidden true
          end
      | LeaveAlternateScreen => λ r, match r with inr _ => TState up raw false hidden failed | inl _ => failing s end
      | ShowCursor => λ r, match r with inr _ => TState up raw alt false failed | inl _ => failing s end
      | _ => λ _, s
      end x
  end.

Definition terminal_after (h : hist) : terminal_state := foldl terminal_step plain_terminal h.

(** A guard is taken when none is held and dropped when one is; a terminal is
    drawn to and given back only when it is set up, and set up only when it is
    not. *)
Definition tidy_policy (h : hist) (ev : event call) : Prop :=
  match ev_call ev with
  | CloseGuard => held_after h = Some false
  | DropCloseGuard => held_after h = Some true
  | Draw _ | DisableRawMode => tm_up (terminal_after h) = true
  | EnableRawMode | EnterAlternateScreen | NewTerminal => tm_up (terminal_after h) = false
  | _ => True
  end.

(** The terminal is a screen, or is as it was found; as far as nothing failed. *)
Definition screen_is (b : bool) (s : terminal_state) : Prop :=
  tm_up s = b ∧
  (tm_failed s = false → tm_raw s = b ∧ tm_alternate s = b ∧ (b = false → tm_hidden s = false)).

Definition state_in (g : bool) (P : terminal_state → Prop) (h : hist) : Prop :=
  held_after h = Some g ∧ P (terminal_after h).

Definition state_is (g b : bool) : hist → Prop := state_in g (screen_is b).

Lemma held_app h t : held_after (h ++ t) = foldl held_step (held_after h) t.
Proof. apply foldl_app. Qed.

Lemma terminal_app h t : terminal_after (h ++ t) = foldl terminal_step (terminal_after h) t.
Proof. apply foldl_app. Qed.

(** ** Triples with what holds after an error *)

Definition runs {A} (ok : hist → event call → Prop) (P : hist → Prop) (m : Cli A)
    (Q : CliError + A → hist → Prop) : Prop :=
  ∀ ui, asking ui → triple ok P (m ui) (λ r h, asking (fst r) ∧ Q (snd r) h).

Section rules.
Context (ok : hist → event call → Prop).

Lemma runs_ret {A} (P : hist → Prop) (a : A) Q : (∀ h, P h → Q (inr a) h) → runs ok P (mret a) Q.
Proof. intros HQ ui Hui. apply triple_ret. cbn. auto. Qed.

Lemma runs_throw {A} (P : hist → Prop) e (Q : CliError + A → hist → Prop) :
  (∀ h, P h → Q (inl e) h) → runs ok P (throw e) Q.
Proof. intros HQ ui Hui. apply triple_ret. cbn. auto. Qed.

Lemma runs_bind {A B} P (m : Cli A) R (k : A → Cli B) Q :
  runs ok P m R → (∀ a, runs ok (R (inr a)) (k a) Q) → (∀ e h, R (inl e) h → Q (inl e) h) →
  runs ok P (m ≫= k) Q.
Proof.
  intros Hm Hk He ui Hui. unfold mbind, Cli_bind. eapply triple_then; [by apply Hm|]. intros [ui' [e|a]].
  - apply triple_ret. cbn. intros h []. auto.
  - apply triple_given. intros Hui'. by apply Hk.
Qed.

(** A part that does not fail. *)
Lemma runs_seq {A B} P (m : Cli A) (R : A → hist → Prop) (k : A → Cli B) Q :
  runs ok P m (λ r h, ∃ a, r = inr a ∧ R a h) → (∀ a, runs ok (R a) (k a) Q) → runs ok P (m ≫= k) Q.
Proof.
  intros Hm Hk. eapply runs_bind; [exact Hm| |by intros e h (a & ? & _)].
  intros a ui Hui. eapply triple_conseq; [apply (Hk a ui Hui)| |done]. by intros h (a' & [= ->] & Ha).
Qed.

Lemma runs_ask {X} (P : hist → Prop) (e : call X) (R : X → hist → Prop) :
  (∀ h x, P h → ok h (Event e x) ∧ R x (h ++ [Event e x])) → runs ok P (ask e) (λ r h, ∃ x, r = inr x ∧ R x h).
Proof.
  intros H ui Hui. apply triple_vis; [intros h x Hh; by apply H|]. intros x. apply triple_ret. cbn.
  intros h' (h & -> & Hh). split; [done|]. exists x. split; [done|by apply H].
Qed.

Lemma runs_conseq {A} (P P' : hist → Prop) (m : Cli A) (Q Q' : CliError + A → hist → Prop) :
  runs ok P' m Q' → (∀ h, P h → P' h) → (∀ r h, Q' r h → Q r h) → runs ok P m Q.
Proof.
  intros Hm HP HQ ui Hui. eapply triple_conseq; [by apply Hm|done|]. intros [ui' r] h []. cbn. auto.
Qed.

Lemma runs_loop {I R} (Inv : I → hist → Prop) (body : I → Cli (I + R)) i (Q : R → hist → Prop) :
  (∀ i, runs ok (Inv i) (body i)
     (λ r h, ∃ ir, r = inr ir ∧ match ir with inl i' => Inv i' h | inr r => Q r h end)) →
  runs ok (Inv i) (cli_loop body i) (λ r h, ∃ a, r = inr a ∧ Q a h).
Proof.
  intros Hb ui Hui. unfold cli_loop.
  apply (triple_conseq ok _ (λ h, asking ui ∧ Inv i h) _ _
           (λ r h, asking (fst r) ∧ ∃ a, snd r = inr a ∧ Q a h)); [|auto|auto].
  apply (triple_iter ok (λ s h, asking (fst s) ∧ Inv (snd s) h) _ (ui, i) _
           (λ r h, asking (fst r) ∧ ∃ a, snd r = inr a ∧ Q a h)).
  - intros [ui' i']. apply triple_given. intros Hui'. eapply triple_then; [by apply Hb|].
    intros [ui'' [e|[i''|r]]]; apply triple_ret; cbn; naive_solver.
  - intros r. by apply triple_ret.
Qed.

Lemma runs_pre {A} (F : Prop) (P : hist → Prop) (m : Cli A) Q :
  (F → runs ok P m Q) → runs ok (λ h, P h ∧ F) m Q.
Proof.
  intros Hm ui Hui. eapply triple_conseq; [apply triple_given; intros HF; exact (Hm HF ui Hui)| |done]. tauto.
Qed.

Lemma runs_or_throw {F A} (P : hist → Prop) (f : F → CliError) (r : F + A) Q :
  (∀ x h, P h → Q x h) → runs ok P (or_throw f r) Q.
Proof. intros HQ. destruct r; [by apply runs_throw; auto|by apply runs_ret; auto]. Qed.
End rules.

(** ** Parts that take nothing *)

Definition calm_kinds : list kind := [KTerminal; KProcess; KSystem; KReach; KQuery; KManager; KChange; KApi; KStore].

Lemma calm_step g b (t : hist) :
  Forall (λ ev, call_kind (ev_call ev) ∈ calm_kinds) t → foldl held_step g t = g ∧ foldl terminal_step b t = b.
Proof.
  induction 1 as [|[X e x] t He _ [IH1 IH2]]; [done|]. cbn [foldl].
  assert (held_step g (Event e x) = g ∧ terminal_step b (Event e x) = b) as [-> ->]; [|done].
  destruct b, e; try done; exfalso; revert He; apply (bool_decide_unpack _); by vm_compute.
Qed.

Lemma calm_state g b h t : Forall (λ ev, call_kind (ev_call ev) ∈ calm_kinds) t → state_is g b h → state_is g b (h ++ t).
Proof.
  intros Ht [H1 H2]. unfold state_is, state_in. rewrite held_app, terminal_app, H1.
  destruct (calm_step (Some g) (terminal_after h) t Ht) as [-> ->]. done.
Qed.

Lemma calm_allowed h X (e : call X) x : call_kind e ∈ calm_kinds → tidy_policy h (Event e x).
Proof. intros He. destruct e; try done; exfalso; revert He; apply (bool_decide_unpack _); by vm_compute. Qed.

Lemma calm {A} g b (m : Cli A) (Q : CliError + A → Prop) :
  runs (λ _ e, call_kind (ev_call e) ∈ calm_kinds) (λ _, True) m (λ r _, Q r) →
  runs tidy_policy (state_is g b) m (λ r h, Q r ∧ state_is g b h).
Proof.
  intros Hm ui Hui h t o Hh Ht. destruct (Hm ui Hui h t o I Ht) as [Ho Hr]. split.
  - intros t1 [X e x] t2 Heq. apply calm_allowed. by apply (Ho t1 (Event e x) t2).
  - intros r Hor. destruct (Hr r Hor) as [Ha HQ]. split_and!; [done|done|].
    apply calm_state; [|done]. by eapply obeys_all.
Qed.

Lemma only_runs {A} (m : Cli A) :
  only calm_kinds m → runs (λ _ e, call_kind (ev_call e) ∈ calm_kinds) (λ _, True) m (λ _ _, True).
Proof.
  intros Hm ui Hui. eapply triple_conseq; [by apply Hm|done|]. by intros [ui' r] h [].
Qed.

Lemma then_calm {A B} g b (m : Cli A) (k : A → Cli B) Q :
  only calm_kinds m → (∀ a, runs tidy_policy (state_is g b) (k a) Q) → (∀ e h, state_is g b h → Q (inl e) h) →
  runs tidy_policy (state_is g b) (m ≫= k) Q.
Proof.
  intros Hm Hk He. eapply runs_bind; [by apply calm, only_runs|..].
  - intros a. eapply runs_conseq; [apply Hk|tauto|done].
  - cbn. intros e h []. auto.
Qed.

(** *** Parts that do not fail *)

Definition sure {A} (m : Cli A) : Prop :=
  runs (λ _ e, call_kind (ev_call e) ∈ calm_kinds) (λ _, True) m (λ r _, ∃ a, r = inr a).

Lemma sure_ret {A} (a : A) : sure (mret a).
Proof. apply runs_ret. eauto. Qed.

Lemma sure_bind {A B} (m : Cli A) (k : A → Cli B) : sure m → (∀ a, sure (k a)) → sure (m ≫= k).
Proof.
  intros Hm Hk. eapply (runs_seq _ _ _ (λ _ _, True)); [|exact Hk].
  eapply runs_conseq; [exact Hm|done|]. intros r h [a ->]. by exists a.
Qed.

Lemma sure_ask {X} (e : call X) : call_kind e ∈ calm_kinds → sure (ask e).
Proof.
  intros He. eapply runs_conseq; [apply (runs_ask _ (λ _, True) e (λ _ _, True)); auto|done|]. intros r h (x & -> & _). eauto.
Qed.

Lemma sure_attempt {A} (m : Cli A) : only calm_kinds m → sure (attempt m).
Proof.
  intros Hm ui Hui. unfold attempt. eapply triple_then; [by apply only_runs|]. intros [ui' r].
  apply triple_ret. cbn. intros h []. eauto.
Qed.

Lemma sure_checked {A} (o : outcome Empty_set A) : sure (checked o).
Proof.
  destruct o as [a|[]|]; [apply sure_ret|]. intros ui Hui. apply triple_vis; [intros h []|intros []].
Qed.

Lemma sure_exit {A} code : sure (exit code : Cli A).
Proof. intros ui Hui. apply triple_vis; [intros h []|intros []]. Qed.

Lemma sure_with_ui {A} (k : ConsoleUi → Cli A) : (∀ ui, asking ui → sure (k ui)) → sure (get_ui ≫= k).
Proof. intros Hk ui Hui. exact (Hk ui Hui ui Hui). Qed.

Section console.
Context {FM : Formats} {CB : CliBuild}.

Lemma sure_write_screen_inner c : sure (write_screen_inner c).
Proof.
  apply sure_with_ui. intros ui Hui. apply sure_bind.
  - destruct (last_display ui) as [[ts last]|]; [|apply sure_ret]. unfold shown_recently.
    apply sure_bind; [apply sure_ask; in_kinds|]. intros ?.
    apply sure_bind; [apply sure_checked|]. intros ?. apply sure_ret.
  - intros []; [apply sure_ret|]. apply sure_bind; [apply sure_ask; in_kinds|]. intros ?.
    apply sure_bind; [apply sure_ask; in_kinds|]. intros now. intros ui' Hui'. apply triple_ret. cbn. eauto.
Qed.

Lemma sure_write_screen c : sure (write_screen c).
Proof.
  unfold write_screen. apply sure_bind; [apply sure_ask; in_kinds|]. intros []; [|apply sure_write_screen_inner].
  apply sure_bind; [apply sure_attempt, only_yn_question; in_kinds|].
  intros [e|[]]; [apply sure_ask; in_kinds|apply sure_exit|apply sure_ask; in_kinds].
Qed.

Lemma sure_setup_round code ty last : sure (setup_round code ty last).
Proof.
  unfold setup_round, api_invoke. apply sure_bind.
  { apply sure_bind; [apply sure_ask; in_kinds|]. intros ?. apply sure_ret. }
  intros [e|[]].
  2,3: destruct (claim_url code).
  all: repeat first [apply sure_ret | apply sure_bind; [apply sure_write_screen || (apply sure_ask; in_kinds)|]; intros ?].
Qed.

(** ** The guard of a claim *)

Definition tidy {A} (m : Cli A) : Prop := runs tidy_policy (state_is false false) m (λ _ h, state_is false false h).

Lemma tidy_calm {A} (m : Cli A) : only calm_kinds m → tidy m.
Proof.
  intros Hm. eapply runs_conseq; [by apply (calm false false m (λ _, True)), only_runs|done|]. by intros r h [].
Qed.

Lemma tidy_bind {A B} (m : Cli A) (k : A → Cli B) : tidy m → (∀ a, tidy (k a)) → tidy (m ≫= k).
Proof. intros Hm Hk. eapply runs_bind; [exact Hm|exact Hk|done]. Qed.

Lemma take_guard b : runs tidy_policy (state_is false b) (ask CloseGuard) (λ r h, ∃ x, r = inr x ∧ state_is true b h).
Proof.
  apply (runs_ask _ _ _ (λ _, state_is true b)). intros h x [H1 H2]. split; [done|].
  unfold state_is, state_in. rewrite held_app, terminal_app, H1. by destruct (terminal_after h).
Qed.

Lemma drop_guard b : runs tidy_policy (state_is true b) (ask DropCloseGuard) (λ r h, ∃ x, r = inr x ∧ state_is false b h).
Proof.
  apply (runs_ask _ _ _ (λ _, state_is false b)). intros h x [H1 H2]. split; [done|].
  unfold state_is, state_in. rewrite held_app, terminal_app, H1. by destruct (terminal_after h).
Qed.

Lemma tidy_exchange code ty wait : tidy (claim_exchange_cmd code ty wait).
Proof.
  unfold claim_exchange_cmd. apply tidy_bind; [apply tidy_calm; quiet|]. intros end_at.
  eapply runs_seq; [apply take_guard|]. intros ?.
  eapply runs_seq; [|intros r; eapply runs_seq; [apply drop_guard|intros ?]].
  - apply (runs_conseq _ _ (state_is true false) _ _ (λ r h, (∃ a, r = inr a) ∧ state_is true false h)).
    + apply calm. apply (runs_conseq _ _ (λ _, True) _ _ (λ r _, ∃ a, r = inr a ∧ True)); [|done|naive_solver].
      apply (runs_loop _ (λ _ _, True) _ _ (λ _ _, True)). intros last.
      eapply runs_conseq; [apply sure_setup_round|done|]. intros ? h [ir ->]. exists ir. by destruct ir.
    + done.
    + intros ? h [[x ->] ?]. eauto.
  - apply tidy_bind; [apply tidy_calm; quiet|]. intros ?. apply tidy_calm. unfold exchange_round, api_invoke. quiet.
Qed.

(** ** The screen of a session *)

(** A part of the session that returns its result: [t] goes in with the
    terminal as [b] says, and what comes out says how the terminal is. *)
Definition keeps_screen {A} (g b : bool) (m : Cli (TuiApp * A)) (Q : TuiApp → A → Prop) : Prop :=
  runs tidy_policy (state_is g b) m
    (λ r h, ∃ x, r = inr x ∧ state_is g (tui_terminal (fst x)) h ∧ Q (fst x) (snd x)).

Lemma screen_call {X} g (P : terminal_state → Prop) (e : call X) (R : X → terminal_state → Prop) :
  (∀ h x, P (terminal_after h) → tidy_policy h (Event e x)) → (∀ o x, held_step o (Event e x) = o) →
  (∀ s x, P s → R x (terminal_step s (Event e x))) →
  runs tidy_policy (state_in g P) (ask e) (λ r h, ∃ x, r = inr x ∧ state_in g (R x) h).
Proof.
  intros Hok Hh Hs. apply (runs_ask _ _ _ (λ x, state_in g (R x))). intros h x [H1 H2].
  split; [by apply Hok|]. unfold state_in. rewrite held_app, terminal_app, H1. cbn [foldl]. rewrite Hh. auto.
Qed.

(** A call that leaves the terminal as it is. *)
Lemma other_call {X} g b (e : call X) :
  (∀ h x, screen_is b (terminal_after h) → tidy_policy h (Event e x)) → (∀ o x, held_step o (Event e x) = o) →
  (∀ s x, screen_is b s → screen_is b (terminal_step s (Event e x))) →
  runs tidy_policy (state_is g b) (ask e) (λ r h, ∃ x, r = inr x ∧ state_is g b h).
Proof. apply (screen_call g (screen_is b) e (λ _, screen_is b)). Qed.

Ltac other := eapply runs_seq; [apply other_call; [done|done|by intros []]|].

(** The terminal on its way: down or up, with what is still to be undone, or
    already done, as far as nothing failed. *)
Definition halfway (raw alternate : bool) (shown : bool) (s : terminal_state) : Prop :=
  tm_up s = false ∧
  (tm_failed s = false → tm_raw s = raw ∧ tm_alternate s = alternate ∧ (shown = true → tm_hidden s = false)).

Ltac by_terminal :=
  intros [up raw alt hidden failed] x; unfold screen_is, halfway; destruct x; cbn; naive_solver.

Lemma restore_screen g t :
  keeps_screen g (tui_terminal t) (restore_terminal t) (λ t' _, tui_terminal t' = false).
Proof.
  unfold restore_terminal, keeps_screen. destruct (tui_terminal t) eqn:Ht;
    [|apply runs_ret; intros h Hh; exists (t, inr ()); cbn; by rewrite Ht].
  assert (∀ P x, (∀ s, P s → screen_is false s) → runs tidy_policy (state_in g P) (mret (set_terminal t false, x))
    (λ r h, ∃ x : TuiApp * (io_error + ()), r = inr x ∧ state_is g (tui_terminal x.1) h ∧ tui_terminal x.1 = false)) as Hret.
  { intros P x HP. apply runs_ret. intros h [H1 H2]. exists (set_terminal t false, x).
    split; [done|]. split; [by split; [|apply HP]|done]. }
  eapply runs_seq; [apply (screen_call _ _ _ (λ r, match r with inl _ => screen_is false | inr _ => halfway false true false end));
    [by intros h x [? _]|done|by_terminal]|].
  intros [e|[]]; [by apply Hret|].
  eapply runs_seq; [apply (screen_call _ _ _ (λ r, match r with inl _ => screen_is false | inr _ => halfway false false false end));
    [done|done|by_terminal]|].
  intros [e|[]]; [by apply Hret|].
  eapply runs_seq; [apply (screen_call _ _ _ (λ _, screen_is false)); [done|done|by_terminal]|].
  intros x. by apply Hret.
Qed.

Lemma init_screen g t :
  keeps_screen g (tui_terminal t) (tui_init t) (λ t' r, r = inr () → tui_terminal t' = true).
Proof.
  unfold tui_init, init_terminal, keeps_screen. destruct (tui_terminal t) eqn:Ht.
  { apply runs_ret. intros h Hh. exists (t, inr ()). cbn. by rewrite Ht. }
  assert (∀ e, runs tidy_policy (state_is g false) (mret (t, inl e : io_error + ()))
    (λ r h, ∃ x : TuiApp * (io_error + ()), r = inr x ∧ state_is g (tui_terminal x.1) h ∧
       (x.2 = inr () → tui_terminal x.1 = true))) as Hret.
  { intros e. apply runs_ret. intros h Hh. exists (t, inl e). cbn. by rewrite Ht. }
  eapply (runs_seq _ _ _ (λ x h, state_is g (tui_terminal x.1) h ∧ (x.2 = inr () → tui_terminal x.1 = true))).
  - eapply runs_seq; [apply (screen_call _ _ _ (λ r, match r with inl _ => screen_is false | inr _ => halfway true false true end));
      [by intros h x [? _]|done|by_terminal]|].
    intros [e|[]]; [apply Hret|].
    eapply runs_seq; [apply (screen_call _ _ _ (λ r, match r with inl _ => screen_is false | inr _ => halfway true true true end));
      [by intros h x [? _]|done|by_terminal]|].
    intros [e|[]]; [apply Hret|].
    eapply runs_seq; [apply (screen_call _ _ _ (λ r, match r with inl _ => screen_is false | inr _ => screen_is true end));
      [by intros h x [? _]|done|by_terminal]|].
    intros [e|[]]; [apply Hret|]. apply runs_ret. intros h Hh. by exists (set_terminal t true, inr ()).
  - intros [t' r]. apply runs_ret. cbn. intros h [Hh Hr]. exists (t', render_err r). cbn.
    split; [done|]. split; [done|]. intros Hi. apply Hr. destruct r as [|[]]; done.
Qed.

(** Updates and keys do not touch the terminal. *)
Lemma update_terminal t u : tui_terminal (apply_tui_update t u) = tui_terminal t.
Proof.
  destruct u as [st|l|?|?]; cbn; try done; [|by destruct l]. unfold apply_status. by destruct (status_message st).
Qed.

Lemma key_terminal t key : tui_terminal (fst (handle_key_event t key)) = tui_terminal t.
Proof. unfold handle_key_event. repeat case_match; done. Qed.

Lemma draw_screen g t : runs tidy_policy (state_is g true) (draw t) (λ r h, ∃ x, r = inr x ∧ state_is g true h).
Proof.
  assert (∀ s, runs tidy_policy (state_is g true) (ask (Draw s)) (λ r h, ∃ x, r = inr x ∧ state_is g true h)) as Hd.
  { intros sc. apply other_call; [by intros h x [? _]|done|]. intros [up raw alt hidden failed] x. unfold screen_is. cbn. naive_solver. }
  unfold draw. destruct (tui_mode t); [apply Hd|]. other. intros now. other. intros height. apply Hd.
Qed.

Lemma tick_key_screen g t : keeps_screen g (tui_terminal t) (tick_key t) (λ _ _, True).
Proof.
  unfold tick_key. assert (∀ t' (x : CliError + ()), tui_terminal t' = tui_terminal t →
    runs tidy_policy (state_is g (tui_terminal t)) (mret (t', x))
      (λ r h, ∃ x : TuiApp * (CliError + ()), r = inr x ∧ state_is g (tui_terminal x.1) h ∧ True)) as Hret.
  { intros t' x Ht. apply runs_ret. intros h Hh. exists (t', x). cbn. by rewrite Ht. }
  other. intros [?|[]]; [by apply Hret| |by apply Hret]. other. intros [?|[key|]]; [by apply Hret| |by apply Hret].
  pose proof (key_terminal t key) as Hk. destruct (handle_key_event t key) as [t' declined]. cbn in Hk.
  destruct declined; [other; intros ?; by apply Hret|]. eapply (runs_seq _ _ _ (λ _, state_is g (tui_terminal t))).
  - apply runs_ret. eauto.
  - intros ?. by apply Hret.
Qed.

Lemma tick_screen g t : keeps_screen g (tui_terminal t) (tick t) (λ _ _, True).
Proof.
  unfold tick. assert (∀ t' b (x : CliError + bool), tui_terminal t' = b →
    runs tidy_policy (state_is g b) (mret (t', x))
      (λ r h, ∃ x : TuiApp * (CliError + bool), r = inr x ∧ state_is g (tui_terminal x.1) h ∧ True)) as Hret.
  { intros t' b x Ht. apply runs_ret. intros h Hh. exists (t', x). cbn. by rewrite Ht. }
  eapply runs_seq; [apply init_screen|]. intros [t1 r]. cbn [fst snd].
  destruct r as [e|[]].
  { eapply runs_conseq; [by apply Hret|tauto|done]. }
  apply (runs_conseq _ _ (λ h, state_is g true h ∧ tui_terminal t1 = true) _ _
    (λ r h, ∃ x : TuiApp * (CliError + bool), r = inr x ∧ state_is g (tui_terminal x.1) h ∧ True));
    [|by intros h [Hh Ht]; rewrite (Ht eq_refl) in Hh; auto|done].
  apply runs_pre. intros Ht.
  eapply runs_seq; [apply draw_screen|]. intros [e|?]; [by apply Hret|].
  eapply runs_seq; [rewrite <- Ht; apply tick_key_screen|]. intros [t2 r]. cbn [fst snd].
  apply (runs_conseq _ _ (state_is g (tui_terminal t2)) _ _
    (λ r h, ∃ x : TuiApp * (CliError + bool), r = inr x ∧ state_is g (tui_terminal x.1) h ∧ True)); [|tauto|done].
  destruct r; [by apply Hret|]. other. intros confirming. apply Hret. by destruct (_ && _).
Qed.

Lemma leave_screen t :
  runs tidy_policy (state_is true (tui_terminal t)) (leave_tui t) (λ r h, ∃ x, r = inr x ∧ state_is false false h).
Proof.
  unfold leave_tui. eapply runs_seq; [apply drop_guard|]. intros ?.
  eapply runs_seq; [apply restore_screen|]. intros [t' r]. apply runs_ret. cbn. intros h [Hh Ht]. rewrite Ht in Hh. eauto.
Qed.

(** What a session does last, whatever becomes of the terminal. *)
Lemma shutdown_screen t (k : Cli (CliError + ())) :
  sure k → runs tidy_policy (state_is true (tui_terminal t)) (shutdown_then t k)
    (λ r h, ∃ x, r = inr (inr x) ∧ state_is false false h).
Proof.
  intros Hk. unfold shutdown_then, tui_shutdown.
  eapply (runs_seq _ _ _ (λ x h, state_is true (tui_terminal x.1) h)).
  { eapply runs_seq; [apply restore_screen|]. intros [t' r]. apply runs_ret. cbn. intros h [Hh _].
    exists (t', render_err r). auto. }
  assert (∀ t' x, runs tidy_policy (state_is true (tui_terminal t')) (leave_tui t';; mret (inr x))
    (λ r h, ∃ x : CliError + (), r = inr (inr x : TuiApp + _) ∧ state_is false false h)) as Hleave.
  { intros t' x. eapply runs_seq; [apply leave_screen|]. intros ?. apply runs_ret. eauto. }
  intros [t' [e|[]]]; cbn [fst]; [apply Hleave|].
  eapply (runs_seq _ _ _ (λ _, state_is true (tui_terminal t'))); [|intros out; apply Hleave].
  eapply runs_conseq; [exact (calm true (tui_terminal t') k (λ r, ∃ a, r = inr a) Hk)|done|]. intros r h [[a ->] Hh]. eauto.
Qed.

Lemma sure_detach : sure (print_detach_message;; mret (inr () : CliError + ())).
Proof.
  unfold print_detach_message.
  repeat first [apply sure_ret | apply sure_ask; in_kinds | apply sure_bind; [|intros ?]].
Qed.

Definition session_goes_on (r : CliError + (TuiApp + (CliError + ()))) (h : hist) : Prop :=
  ∃ ir, r = inr ir ∧ match ir with inl t' => state_is true (tui_terminal t') h | inr _ => state_is false false h end.

Lemma round_screen client target t :
  runs tidy_policy (state_is true (tui_terminal t)) (tui_round client target t) session_goes_on.
Proof.
  assert (∀ t' k, sure k → runs tidy_policy (state_is true (tui_terminal t')) (shutdown_then t' k) session_goes_on) as Hdown.
  { intros t' k Hk. eapply runs_conseq; [by apply shutdown_screen|done|]. intros r h (x & -> & Hh). by exists (inr x). }
  unfold tui_round. other. intros [[error|update]|[]].
  - apply Hdown. apply sure_bind; [apply sure_ask; in_kinds|]. intros ?. apply sure_ret.
  - apply runs_ret. intros h Hh. exists (inl (apply_tui_update t update)). by rewrite update_terminal.
  - eapply runs_seq; [apply tick_screen|]. intros [t' r]. cbn [fst snd].
    apply (runs_conseq _ _ (state_is true (tui_terminal t')) _ _ session_goes_on); [|tauto|done].
    destruct r as [error|[]]; [apply Hdown, sure_ret| |apply Hdown, sure_detach].
    apply runs_ret. intros h Hh. by exists (inl t').
Qed.

Lemma tidy_session client target subscribe : tidy (run_attach_tui_session client target subscribe).
Proof.
  unfold run_attach_tui_session. eapply runs_seq; [apply take_guard|]. intros ?.
  eapply (runs_seq _ _ _ (λ _, state_is false false)); [|intros r; by apply runs_or_throw].
  match goal with |- runs _ _ (cli_loop _ ?t) _ => assert (tui_terminal t = false) as Ht end.
  { set (u := UpdateStats (sn_stats (sr_snapshot subscribe))).
    change (tui_set_stats ?t (sn_stats _)) with (apply_tui_update t u).
    change (apply_lifecycle ?t ?l) with (apply_tui_update t (UpdateLifecycle l)).
    change (apply_status ?t ?l) with (apply_tui_update t (UpdateStatus l)). by rewrite !update_terminal. }
  eapply runs_conseq; [apply (runs_loop _ (λ t, state_is true (tui_terminal t)) _ _ (λ _, state_is false false))| |done].
  - intros t. eapply runs_conseq; [apply round_screen|done|]. intros r h (ir & -> & Hh). by exists ir.
  - by rewrite Ht.
Qed.

(** ** All commands *)

Context (ts : Z → option string).

Lemma tidy_attach t m c : tidy (run_attach_command_with_context ts t m c).
Proof.
  unfold run_attach_command_with_context, subscribe_call. do 4 (apply tidy_bind; [apply tidy_calm; quiet|]; intros ?).
  destruct m; [apply tidy_session|]. apply tidy_calm.
  unfold run_attach_stdout_session, stdout_round, apply_stdout_update, print_detach_message. quiet.
Qed.

Lemma calm_load : only calm_kinds load_stored_session.
Proof. apply only_load. in_kinds. Qed.
Lemma calm_stored : only calm_kinds stored_client.
Proof. apply only_stored_client; in_kinds. Qed.
Hint Resolve calm_load calm_stored : quiet.

Lemma calm_approve code name ty : only calm_kinds (claim_approve code name ty).
Proof. unfold claim_approve, web_call, await_claim_details. quiet. apply only_details; in_kinds. Qed.
Hint Resolve calm_approve : quiet.

Lemma tidy_setup t m direct name : tidy (run_setup_flow t m direct name).
Proof.
  assert (∀ key, tidy (provision_service_secret t key m)) as Hp.
  { intros key. apply tidy_calm. unfold provision_service_secret, set_secret_call. quiet. }
  assert (tidy (ensure_service_waiting_for_secret t m)) as He.
  { apply tidy_calm. unfold ensure_service_waiting_for_secret, lifecycle_call. quiet. }
  unfold run_setup_flow. destruct direct.
  - apply tidy_bind; [apply tidy_calm; unfold require_valid_stored_session, validate_stored, validate_with_key_call,
      api_invoke_no_fail; quiet|]. intros ?.
    apply tidy_bind; [done|]. intros ?. do 2 (apply tidy_bind; [apply tidy_calm; quiet|]; intros ?).
    apply tidy_bind; [apply tidy_exchange|]. intros key. apply tidy_bind; [done|]. intros ?. apply tidy_calm. quiet.
  - apply tidy_bind; [done|]. intros ?. do 3 (apply tidy_bind; [apply tidy_calm; quiet|]; intros ?).
    apply tidy_bind; [apply tidy_exchange|]. intros key. apply tidy_bind; [done|]. intros ?. apply tidy_calm.
    unfold api_invoke. quiet.
Qed.

Lemma tidy_auto t mode m : tidy (run_auto_command ts t mode m).
Proof.
  unfold run_auto_command. do 3 (apply tidy_bind; [apply tidy_calm; quiet|]; intros ?).
  apply tidy_bind.
  { apply tidy_calm. unfold wait_for_auto_lifecycle. generalize 50%nat. intros n.
    induction n; cbn [auto_rounds]; unfold lifecycle_call; quiet. }
  intros l. apply tidy_bind; [|intros ?; apply tidy_attach].
  destruct l; cbn [prepare_lifecycle]; try (apply tidy_calm; quiet; fail); [apply tidy_setup|].
  apply tidy_bind; [apply tidy_calm; quiet|]. intros []; [|apply tidy_calm; quiet].
  apply tidy_bind; [apply tidy_calm; unfold reset_service_secret_for_setup, reset_secret_call; quiet|]. intros ?.
  apply tidy_bind; [|intros ?; apply tidy_setup]. apply tidy_calm.
  unfold wait_for_service_waiting_for_secret. generalize 50%nat. intros n.
  induction n; cbn [secret_rounds]; unfold lifecycle_call; quiet.
Qed.

Lemma tidy_claim c : tidy (run_claim c).
Proof.
  destruct c; cbn [run_claim]; try (apply tidy_calm; quiet; fail).
  - apply tidy_bind; [apply tidy_exchange|]. intros ?. apply tidy_calm. quiet.
  - apply tidy_calm. unfold claim_inspect, api_invoke. quiet.
  - apply tidy_calm. unfold claim_reject, web_call. quiet.
Qed.

Lemma tidy_run_command cli t m mode : tidy (run_command ts cli t m mode).
Proof.
  unfold run_command. destruct (cli_command cli) as [[]|].
  - apply tidy_calm; quiet.
  - apply tidy_attach.
  - apply tidy_calm. unfold run_start_command. quiet.
  - apply tidy_calm. unfold run_stop_command, stop_installed, stop_over_ipc, stop_call. quiet.
  - apply tidy_calm. unfold run_status_command, status_call. quiet. apply only_println_all; in_kinds.
  - apply tidy_calm. unfold run_reset_command, reset_secret_call, stop_call. quiet.
  - apply tidy_calm. unfold run_secret_path_command, get_secret_path_call. quiet.
  - apply tidy_setup.
  - apply tidy_calm, only_agents; in_kinds.
  - apply tidy_calm, only_account; in_kinds.
  - apply tidy_claim.
  - apply tidy_auto.
Qed.

Lemma tidy_run_cli cli : tidy (run_cli ts cli).
Proof.
  unfold run_cli. do 2 (apply tidy_bind; [apply tidy_calm; quiet|]; intros ?).
  destruct (service_manager_mode cli); [|apply tidy_calm; quiet].
  apply tidy_bind; [apply tidy_calm; quiet|]. intros ?. apply tidy_run_command.
Qed.

Lemma main_tidy cli t o :
  exec (main ts cli) t o → obeys tidy_policy [] t ∧ (o ≠ None → state_is false false t).
Proof.
  intros Ht. assert (triple tidy_policy (state_is false false) (main ts cli) (λ _, state_is false false)) as Hmain.
  { eapply triple_then; [by apply tidy_run_cli|]. intros [ui [e|[]]]; cbn.
    - apply triple_vis; [done|]. intros x. apply triple_ret. intros h' (h & -> & _ & Hh).
      by apply calm_state; [constructor; [in_kinds|constructor]|].
    - apply triple_ret. tauto. }
  destruct (Hmain [] t o) as [Ho HQ]; [done|done|]. split; [done|]. destruct o as [code|]; [|done].
  intros _. by apply (HQ code).
Qed.
End console.

(** ** Ctrl-C *)

Lemma signal_run_snoc s ops o : signal_run s (ops ++ [o]) = signal_run s ops ≫= λ s, signal_step s o.
Proof.
  revert s. induction ops as [|o' ops IH]; intros s; cbn; [by destruct (signal_step s o)|].
  destruct (signal_step s o') as [s'|]; cbn; [apply IH|done].
Qed.

Lemma asked_after_snoc b ops o : asked_after b (ops ++ [o]) = asked_after (asked_after b ops) [o].
Proof. revert b. induction ops as [|o' ops IH]; intros b; [done|]. destruct o'; cbn [app asked_after]; apply IH. Qed.

Lemma guards_held_snoc ops o : guards_held (ops ++ [o]) = foldl (λ n o, match o with OpGuard => n + 1 | OpDrop => n - 1 | _ => n end)%Z (guards_held ops) [o].
Proof. apply foldl_app. Qed.

(** The Ctrl-C of a sequence, each with what came before it. *)
Definition every_ctrl_c (P : list signal_op → Prop) (ops : list signal_op) : Prop :=
  ∀ l1 l2, ops = l1 ++ OpCtrlC :: l2 → P l1.

Lemma every_ctrl_c_snoc P ops o :
  every_ctrl_c P ops → (o = OpCtrlC → P ops) → every_ctrl_c P (ops ++ [o]).
Proof.
  intros Hops Ho l1 l2 Heq. destruct l2 as [|o2 l2 _] using rev_ind.
  - apply app_inj_tail in Heq as [-> ->]. by apply Ho.
  - change (OpCtrlC :: l2 ++ [o2]) with ((OpCtrlC :: l2) ++ [o2]) in Heq. rewrite (assoc_L (++)) in Heq.
    apply app_inj_tail in Heq as [-> ->]. by apply (Hops l1 l2).
Qed.

(** How the handler stands after [ops]. *)
Definition handler_spec (ops : list signal_op) (r : option Inner) : Prop :=
  match r with
  | None => ∃ l1 l2, ops = l1 ++ OpCtrlC :: l2 ∧ (guards_held l1 = 0%Z ∨ asked_after false l1 = true)
  | Some s =>
      confirm_close s = guards_held ops ∧ close_requested s = asked_after false ops ∧
      every_ctrl_c (λ l1, guards_held l1 ≠ 0%Z ∧ asked_after false l1 = false) ops
  end.

Lemma signal_run_spec ops : guards_ok ops → handler_spec ops (signal_run setup ops).
Proof.
  induction ops as [|o ops IH] using rev_ind; intros Hg; [split_and!; [done|done|intros [] ? ?; done]|].
  assert (0 ≤ guards_held ops < 2 ^ 32 ∧ 0 ≤ guards_held (ops ++ [o]) < 2 ^ 32)%Z as [Hr Hr'].
  { split; [by apply (Hg ops [o])|]. apply (Hg _ []). by rewrite (right_id_L [] (++)). }
  assert (guards_ok ops) as Hg'.
  { intros l1 l2 ->. apply (Hg l1 (l2 ++ [o])). by rewrite (assoc_L (++)). }
  specialize (IH Hg'). rewrite signal_run_snoc. destruct (signal_run setup ops) as [s|]; cbn [mbind option_bind].
  2:{ destruct IH as (l1 & l2 & -> & Hl). exists l1, (l2 ++ [o]). split; [|done]. by rewrite <- (assoc_L (++)). }
  destruct IH as (Hc & Hq & He). unfold handler_spec. rewrite asked_after_snoc, <- Hq.
  rewrite guards_held_snoc in Hr' |- *. rewrite <- Hc in Hr, Hr' |- *. cbn [foldl] in Hr' |- *.
  destruct o; cbn in Hr' |- *; try rewrite wrap_small by (unfold uint; lia);
    try (split_and!; [done|done|]; apply every_ctrl_c_snoc; [done|]; by intros ?).
  unfold on_ctrl_c. case_decide as Hz; [|destruct (close_requested s) eqn:Hcr].
  - exists ops, []. rewrite <- Hc. auto.
  - exists ops, []. rewrite <- Hq. auto.
  - cbn. split_and!; [done|done|]. apply every_ctrl_c_snoc; [done|]. intros _. rewrite <- Hc, <- Hq. done.
Qed.

(** What a run does to the handler. *)
Definition signal_event (ev : event call) : option signal_op :=
  match ev_call ev with
  | CloseGuard => Some OpGuard
  | DropCloseGuard => Some OpDrop
  | DeclineClose => Some OpDecline
  | _ => None
  end.

Definition without_ctrl_c (ops : list signal_op) : list signal_op :=
  omap (λ o, match o with OpCtrlC => None | o => Some o end) ops.

Lemma guards_held_without ops : guards_held (without_ctrl_c ops) = guards_held ops.
Proof.
  unfold guards_held. generalize 0%Z. induction ops as [|[] ops IH]; intros n; cbn; try apply IH. done.
Qed.

Lemma omap_app_inv {A B : Type} (f : A → option B) l k1 k2 :
  omap f l = k1 ++ k2 → ∃ l1 l2, l = l1 ++ l2 ∧ omap f l1 = k1.
Proof.
  revert k1. induction l as [|x l IH]; intros k1 Hl; cbn in Hl.
  - exists [], []. destruct k1; [done|discriminate].
  - destruct k1 as [|y k1]; [by exists [], (x :: l)|]. destruct (f x) as [z|] eqn:Hf.
    + injection Hl as -> Hl. destruct (IH k1 Hl) as (l1 & l2 & -> & <-). exists (x :: l1), l2. cbn. by rewrite Hf.
    + destruct (IH (y :: k1) Hl) as (l1 & l2 & -> & Hk). exists (x :: l1), l2. cbn. by rewrite Hf.
Qed.

(** A run that keeps the rules holds at most one guard. *)
Lemma held_guards t :
  obeys tidy_policy [] t → ∃ g, held_after t = Some g ∧ guards_held (omap signal_event t) = if g then 1%Z else 0%Z.
Proof.
  induction t as [|[X e x] t IH] using rev_ind; intros Ho; [by exists false|].
  destruct IH as (g & Hh & Hg); [intros l1 ev l2 ->; apply (Ho l1 ev (l2 ++ [Event e x])); by rewrite <- (assoc_L (++))|].
  specialize (Ho t (Event e x) [] eq_refl). cbn in Ho. rewrite omap_app, held_app, Hh. cbn [foldl].
  destruct e; cbn in Ho |- *; rewrite ?(right_id_L [] (++)); try (by exists g);
    try (rewrite guards_held_snoc, Hg; cbn; try by exists g).
  - rewrite Hh in Ho. injection Ho as ->. by exists true.
  - rewrite Hh in Ho. injection Ho as ->. by exists false.
Qed.

Lemma held_guards_ok t ops :
  obeys tidy_policy [] t → without_ctrl_c ops = omap signal_event t →
  ∀ l1 l2, ops = l1 ++ l2 → guards_held l1 = 0%Z ∨ guards_held l1 = 1%Z.
Proof.
  intros Ho Hops l1 l2 ->. unfold without_ctrl_c in Hops. rewrite omap_app in Hops.
  destruct (omap_app_inv _ _ _ _ (eq_sym Hops)) as (t1 & t2 & -> & Ht).
  destruct (held_guards t1) as (g & _ & Hg).
  { intros u1 ev u2 ->. apply (Ho u1 ev (u2 ++ t2)). by rewrite <- (assoc_L (++)). }
  rewrite <- (guards_held_without l1). unfold without_ctrl_c. rewrite <- Ht, Hg. destruct g; auto.
Qed.

(** C30: Every run of [playit] that returns, whatever its surroundings answer,
    gives back what it took. The guard against Ctrl-C is dropped, and a terminal
    that was set up as a screen is given back, on every way out, errors
    included; if no call that sets it up or gives it back failed, it has left
    raw mode and the alternate screen, and its cursor is shown. (When one
    fails, what remains is not undone: so the code.) Nothing is drawn on a
    terminal that is not set up, and at most one guard is held at a time. So,
    wherever Ctrl-C is pressed during the run, its handler ends the process
    (then nothing is given back) exactly when no guard is held, or when it was
    pressed before and the user has not declined since; otherwise the process
    goes on, and the question whether to close is pending until it is declined.
    This is the program's handler; [attach --stdout] also listens for Ctrl-C
    itself, to end its session. *)
Theorem run_leaves_terminal {FM : Formats} {CB : CliBuild} timestamp_text cli t o ops :
  exec (main timestamp_text cli) t o → without_ctrl_c ops = omap signal_event t →
  obeys tidy_policy [] t ∧
  (o ≠ None → held_after t = Some false ∧
    let s := terminal_after t in
    tm_up s = false ∧
    (tm_failed s = false → tm_raw s = false ∧ tm_alternate s = false ∧ tm_hidden s = false)) ∧
  handler_spec ops (signal_run setup ops).
Proof.
  intros Ht Hops. destruct (main_tidy timestamp_text cli t o Ht) as [Ho Hc]. split; [done|]. split.
  { intros Hn. destruct (Hc Hn) as [H1 [H2 H3]]. split; [done|]. split; [done|]. naive_solver. }
  apply signal_run_spec. intros l1 l2 Hl. destruct (held_guards_ok t ops Ho Hops l1 l2 Hl); lia.
Qed.
