(* ===== verification/CliCredentials.v ===== *)
(** * With whose credentials the commands act

    For every command line and every answer: which client a call of the API is
    made with, and what is written to the session file. Then runs in a row over
    a session store: what a login stored is what later commands act with. *)

From S2P Require Import Prelude Net OriginLookup Json Text Api HttpClient ApiTunnels ApiAccount ApiClient WebApi SessionStore SessionTheorems IpcModel Ipc FileSystem Program Tui CliModel ServiceManager SocketAccess CliSession CliCommands CliLogic CliTheorems.
#[local] Open Scope string_scope.
#[local] Open Scope list_scope.

(** ** Facts and protocol *)

Section facts.
Context {FM : Formats} {CB : CliBuild}.

(** The session that signing in gave, and the one the second factor gave. *)
Definition signed_in (s : AccountSession) (h : hist) : Prop :=
  ∃ creds ws now, answered (Api login_signin anonymous_api creds) (inr (ApiSuccess ws)) h ∧
    s = AccountSession_new API_BASE ws now.

Definition totp_passed (s : AccountSession) (h : hist) : Prop :=
  ∃ s0 code ws now, signed_in s0 h ∧ requires_totp s0 = true ∧
    answered (Api login_totp (account_client s0) {| ReqLoginTotp_code := code |}) (inr (ApiSuccess ws)) h ∧
    s = AccountSession_new (se_api_base s0) ws now.

Definition session_earned (s : AccountSession) (h : hist) : Prop :=
  (signed_in s h ∧ requires_totp s = false) ∨ totp_passed s h.

Definition loaded (stored : PersistedSession) (h : hist) : Prop :=
  ∃ p, answered (SessionLoad p) (inr (Some stored)) h.

Definition anonymous_paths : list string := ["/login/signin"; "/claim/setup"; "/claim/exchange"].
Definition account_paths : list string :=
  ["/tunnels/list"; "/claim/details"; "/claim/accept"; "/claim/reject"; "/agents/list"; "/agents/delete"].

(** The client that a call may be made with: nobody's, the stored account's,
    that of the session which still needs the second factor, or the agent's
    whose secret was just exchanged. *)
Definition client_due (path : string) (c : HttpClient) (h : hist) : Prop :=
  (path ∈ anonymous_paths ∧ c = anonymous_api) ∨
  (path ∈ account_paths ∧ ∃ stored, loaded stored h ∧ c = stored_account_client stored) ∨
  (path = "/login/totp" ∧ ∃ s, signed_in s h ∧ requires_totp s = true ∧ c = account_client s) ∨
  (path = "/login/guest" ∧ ∃ code key, claim_exchanged code key h ∧ c = PlayitApi_create API_BASE (Some key)).

Definition credentials_policy (cmd : option Commands) (h : hist) (ev : event call) : Prop :=
  match ev_call ev with
  | Api e c _ => client_due (ep_path e) c h
  | SessionSave _ stored =>
      (∃ email pw, cmd = Some (CmdAccount (AccountLogin email pw))) ∧
      ∃ s now, session_earned s h ∧ stored = from_account_session s now
  | SessionClear _ => cmd = Some (CmdAccount AccountLogout)
  | _ => True
  end.
End facts.

(** ** Parts *)

Definition local_kinds : list kind := [KTerminal; KScreen; KProcess; KGuard; KSystem; KReach; KQuery; KManager; KChange].

Section parts.
Context {FM : Formats} {CB : CliBuild} (cmd : option Commands).

Lemma signed_in_lasting s : lasting (signed_in s).
Proof. unfold signed_in. lasts. Qed.
Hint Resolve signed_in_lasting : lasting.

Lemma loaded_lasting stored : lasting (loaded stored).
Proof. unfold loaded. lasts. Qed.
Hint Resolve loaded_lasting claim_exchanged_lasting : lasting.

Lemma session_earned_lasting s : lasting (session_earned s).
Proof.
  intros h t [[H1 H2]|(s0 & code & ws & now & H1 & H2 & H3 & H4)]; [left|right].
  - split; [by apply signed_in_lasting|done].
  - exists s0, code, ws, now. split_and!; [by apply signed_in_lasting|done|by apply answered_lasting|done].
Qed.
Hint Resolve session_earned_lasting : lasting.

Lemma local_holds {A} P (m : Cli A) : only local_kinds m → holds (credentials_policy cmd) P m (λ _ _, True).
Proof.
  intros Hm. eapply only_holds; [exact Hm|]. intros h X e x Hk.
  assert (call_kind e ≠ KApi ∧ call_kind e ≠ KStore) as [HA HS].
  { split; intros Hn; rewrite Hn in Hk; revert Hk; refine (bool_decide_unpack _ _); vm_compute; exact I. }
  by destruct e.
Qed.

Lemma then_local {A B} P (m : Cli A) (k : A → Cli B) Q :
  lasting P → only local_kinds m → (∀ a, holds (credentials_policy cmd) P (k a) Q) →
  holds (credentials_policy cmd) P (m ≫= k) Q.
Proof.
  intros HP Hm Hk. eapply holds_seq; [done|by apply local_holds|]. intros a.
  eapply holds_conseq; [apply Hk|tauto|done].
Qed.

Lemma then_asks {X B} (P : hist → Prop) (e : call X) (k : X → Cli B) Q :
  lasting P → (∀ h x, P h → credentials_policy cmd h (Event e x)) →
  (∀ x, holds (credentials_policy cmd) (λ h, P h ∧ answered e x h) (k x) Q) →
  holds (credentials_policy cmd) P (ask e ≫= k) Q.
Proof.
  intros HP Hok Hk. eapply holds_seq; [done| |exact Hk]. apply holds_ask; [done|].
  intros. apply answered_here.
Qed.

(** A call made with the right client. *)
Lemma invoke_due (P : hist → Prop) e c q :
  lasting P → (∀ h, P h → client_due (ep_path e) c h) →
  holds (credentials_policy cmd) P (api_invoke e c q)
    (λ r h, ∀ v, r = inr v → answered (Api e c q) (inr (ApiSuccess v)) h).
Proof.
  intros HP Hd. apply then_asks; [done|intros h x Hh; exact (Hd h Hh)|]. intros x. apply holds_ret. intros h [_ Ha] v.
  destruct x as [?|[]]; cbn; try done. by intros [= ->].
Qed.

Lemma web_due (P : hist → Prop) e c q :
  lasting P → (∀ h, P h → client_due (ep_path e) c h) →
  holds (credentials_policy cmd) P (web_call e c q) (λ _ _, True).
Proof. intros HP Hd. apply then_asks; [done|intros h x Hh; exact (Hd h Hh)|]. intros x. by apply holds_ret. Qed.

(** *** The stored account *)

Lemma load_due : holds (credentials_policy cmd) (λ _, True) load_stored_session (λ stored h, loaded stored h).
Proof.
  unfold load_stored_session, session_file. apply (holds_bind _ _ _ (λ _ _, True)).
  { apply then_asks; [lasts|done|]. intros [?|]; [by apply holds_ret|apply holds_throw]. }
  intros p. apply then_asks; [lasts|done|]. intros r.
  eapply holds_bind; [apply (holds_or_throw _ _ _ _ (λ o h, answered (SessionLoad p) (inr o) h)); by intros ? ? -> []|].
  intros [stored|]; [|apply holds_throw]. apply holds_ret. intros h Ha. by exists p.
Qed.

Lemma stored_client_due :
  holds (credentials_policy cmd) (λ _, True) stored_client (λ r h, loaded (fst r) h ∧ snd r = stored_account_client (fst r)).
Proof. eapply holds_bind; [apply load_due|]. intros stored. by apply holds_ret. Qed.

Definition account_ready (api : HttpClient) (h : hist) : Prop :=
  ∃ stored, loaded stored h ∧ api = stored_account_client stored.

Lemma account_ready_lasting api : lasting (account_ready api).
Proof. unfold account_ready. lasts. Qed.
Hint Resolve account_ready_lasting : lasting.

Lemma with_stored {B} (k : PersistedSession * HttpClient → Cli B) Q :
  (∀ r, holds (credentials_policy cmd) (account_ready (snd r)) (k r) Q) →
  holds (credentials_policy cmd) (λ _, True) (stored_client ≫= k) Q.
Proof.
  intros Hk. eapply holds_bind; [apply stored_client_due|]. intros r.
  eapply holds_conseq; [apply Hk| |done]. intros h []. by exists (fst r).
Qed.

Lemma account_due path api h : path ∈ account_paths → account_ready api h → client_due path api h.
Proof. intros Hp Hr. right. left. done. Qed.

Lemma validate_due stored : holds (credentials_policy cmd) (loaded stored) (validate_stored stored) (λ _ _, True).
Proof.
  unfold validate_stored, validate_with_key_call, api_invoke_no_fail.
  apply (holds_bind _ _ _ (λ _ _, True)); [|intros ?; by apply holds_or_throw].
  apply (holds_bind _ _ _ (λ _ _, True)); [|intros ?; by apply holds_ret].
  apply then_asks; [lasts| |intros x; by apply holds_ret].
  intros h x Hl. apply account_due; [cbn; set_solver|]. by exists stored.
Qed.

Lemma details_due n api code :
  holds (credentials_policy cmd) (account_ready api) (details_rounds n api code) (λ _ _, True).
Proof.
  induction n as [|n IH]; cbn [details_rounds]; [apply holds_throw|].
  eapply holds_seq; [lasts|apply (invoke_due _ claim_setup); [lasts|]|].
  { intros h _. left. split; [cbn; set_solver|done]. }
  intros ?. apply (holds_conseq _ _ (account_ready api) _ _ (λ _ _, True)); [|tauto|done].
  eapply holds_seq; [lasts|apply (web_due _ web_claim_details); [lasts|]|].
  { intros h Hr. apply account_due; [cbn; set_solver|done]. }
  intros r. apply (holds_conseq _ _ (account_ready api) _ _ (λ _ _, True)); [|tauto|done].
  apply then_local; [lasts|quiet|]. intros [d|[]|e]; try apply holds_throw; [by apply holds_ret|].
  apply then_local; [lasts|quiet|]. intros ?. apply IH.
Qed.

Lemma approve_due code name ty :
  holds (credentials_policy cmd) (λ _, True) (claim_approve code name ty) (λ _ _, True).
Proof.
  unfold claim_approve. apply then_local; [lasts|quiet|]. intros ?. apply with_stored. intros [stored api]. cbn [snd].
  eapply holds_seq; [lasts|apply details_due|]. intros details.
  apply (holds_conseq _ _ (account_ready api) _ _ (λ _ _, True)); [|tauto|done].
  do 3 (apply then_local; [lasts|quiet|]; intros ?).
  eapply holds_bind; [apply (web_due _ web_claim_accept); [lasts|]|].
  { intros h Hr. apply account_due; [cbn; set_solver|done]. }
  intros r. apply local_holds. quiet.
Qed.

Lemma exchange_due code ty wait :
  holds (credentials_policy cmd) (λ _, True) (claim_exchange_cmd code ty wait) (λ key h, claim_exchanged code key h).
Proof.
  assert (∀ path h, path ∈ anonymous_paths → client_due path anonymous_api h) as Hanon by (intros; by left).
  unfold claim_exchange_cmd. do 2 (apply then_local; [lasts|quiet|]; intros ?).
  apply (holds_bind _ _ _ (λ _ _, True)).
  { apply (holds_loop _ (λ _ _, True)). intros last. unfold setup_round.
    eapply holds_bind; [apply (invoke_due (λ _, True) claim_setup); [lasts|]|].
    { intros h _. apply Hanon. cbn. set_solver. }
    intros r. eapply holds_conseq; [apply (local_holds (λ _, True)); quiet|done|]. by intros []. }
  intros done. do 2 (apply then_local; [lasts|quiet|]; intros ?).
  apply (holds_loop _ (λ _ _, True)). intros ?. unfold exchange_round.
  eapply holds_bind; [apply (invoke_due (λ _, True) claim_exchange); [lasts|]|].
  { intros h _. apply Hanon. cbn. set_solver. }
  intros [[status|?|?]|res]; try apply holds_throw; cbn beta iota.
  - apply (holds_conseq _ _ (λ _, True) _ _ (λ r _, r = inl ())); [|done|by intros ? ? ->].
    do 2 (apply then_local; [lasts|quiet|]; intros ?). case_decide.
    + do 2 (apply then_local; [lasts|quiet|]; intros ?). apply holds_throw.
    + apply then_local; [lasts|quiet|]. intros ?. by apply holds_ret.
  - apply holds_ret. intros h Ha. exists res. split; [by apply Ha|done].
Qed.

(** *** Signing in *)

Lemma sign_in_due email password :
  holds (credentials_policy cmd) (λ _, True) (sign_in_call API_BASE email password)
    (λ r h, ∀ s, r = inr s → signed_in s h).
Proof.
  unfold sign_in_call. destruct (blank email password); [by apply holds_ret|].
  eapply holds_bind; [apply (invoke_due (λ _, True) login_signin); [lasts|]|].
  { intros h _. left. split; [cbn; set_solver|done]. }
  intros r. apply then_asks; [lasts|done|]. intros now. apply holds_ret. intros h [Hr _] s.
  destruct r as [[[]|?|?]|ws]; cbn; try done. intros [= <-]. exists (credentials email password), ws, now. auto.
Qed.

Lemma totp_due s code :
  holds (credentials_policy cmd) (λ h, signed_in s h ∧ requires_totp s = true) (complete_totp_call s code)
    (λ r h, ∀ s', r = inr s' → totp_passed s' h).
Proof.
  unfold complete_totp_call. apply then_asks; [lasts| |].
  { intros h x []. right. right. left. cbn. eauto. }
  intros r. apply then_asks; [lasts|done|]. intros now. apply holds_ret. intros h [[[Hs Hq] Ha] _] s' Hr.
  exists s, code. destruct r as [?|[ws|f|?]]; cbn in Hr; try done; [|by destruct f].
  injection Hr as <-. exists ws, now. done.
Qed.

(** The session that [login] stores. *)
Lemma second_factor_due s :
  holds (credentials_policy cmd) (signed_in s)
    (if requires_totp s then
       write_screen "this account requires a TOTP code";;
       code ← read_line "TOTP code";
       r ← complete_totp_call s (str_trim code);
       or_throw (λ e, CliError_SessionError (display_totp_error e)) r
     else mret s) session_earned.
Proof.
  destruct (requires_totp s) eqn:Hq; [|apply holds_ret; by left].
  do 2 (apply then_local; [lasts|quiet|]; intros ?).
  eapply holds_bind; [eapply holds_conseq; [apply totp_due|by intros h Hs|done]|].
  intros r. apply holds_or_throw. intros s' h -> Hr. right. by apply Hr.
Qed.

Lemma login_due email pw :
  cmd = Some (CmdAccount (AccountLogin email pw)) →
  holds (credentials_policy cmd) (λ _, True) (run_account_login email pw) (λ _ _, True).
Proof.
  intros Hc. unfold run_account_login. do 2 (apply then_local; [lasts|quiet|]; intros ?).
  eapply holds_bind; [apply sign_in_due|]. intros r.
  eapply holds_bind; [apply (holds_or_throw _ _ _ _ signed_in); by intros ? ? -> Hr; apply Hr|]. intros s0.
  eapply holds_bind; [apply second_factor_due|]. intros s.
  apply then_local; [lasts|quiet|]. intros ?. unfold session_file.
  eapply (holds_seq _ _ _ (λ _ _, True)); [lasts| |].
  { apply then_asks; [lasts|done|]. intros [?|]; [by apply holds_ret|apply holds_throw]. }
  intros p. apply (holds_conseq _ _ (session_earned s) _ _ (λ _ _, True)); [|tauto|done].
  apply then_local; [lasts|quiet|]. intros now. apply then_asks; [lasts| |].
  { intros h x Hs. split; [eauto|]. exists s, now. done. }
  intros r'. apply local_holds. quiet.
Qed.

(** *** Setup *)

Lemma setup_due t m direct name :
  holds (credentials_policy cmd) (λ _, True) (run_setup_flow t m direct name) (λ _ _, True).
Proof.
  unfold run_setup_flow. destruct direct.
  - unfold require_valid_stored_session. eapply holds_bind.
    { eapply holds_bind; [apply load_due|]. intros stored. eapply holds_bind; [apply validate_due|]. intros ?.
      apply (local_holds (λ _, True)). quiet. }
    intros ?. apply then_local; [lasts|unfold ensure_service_waiting_for_secret, lifecycle_call; quiet|]. intros ?.
    apply then_local; [lasts|quiet|]. intros code. eapply holds_bind; [apply approve_due|]. intros ?.
    eapply holds_bind; [apply exchange_due|]. intros key. apply local_holds.
    unfold provision_service_secret, set_secret_call. quiet.
  - apply then_local; [lasts|unfold ensure_service_waiting_for_secret, lifecycle_call; quiet|]. intros ?.
    apply then_local; [lasts|quiet|]. intros code. do 2 (apply then_local; [lasts|quiet|]; intros ?).
    eapply holds_bind; [apply exchange_due|]. intros key.
    apply then_local; [lasts|unfold provision_service_secret, set_secret_call; quiet|]. intros ?.
    eapply holds_bind; [apply (invoke_due _ login_guest); [lasts|]|].
    { intros h Hx. right. right. right. cbn. eauto. }
    intros r. apply local_holds. quiet.
Qed.

Lemma auto_due ts t mode m : holds (credentials_policy cmd) (λ _, True) (run_auto_command ts t mode m) (λ _ _, True).
Proof.
  unfold run_auto_command. apply then_local; [lasts|quiet|]. intros ?. apply then_local; [lasts|quiet|]. intros ?.
  apply then_local; [lasts|quiet|]. intros c.
  apply then_local; [lasts| |].
  { unfold wait_for_auto_lifecycle. generalize 50%nat. intros n. induction n; cbn [auto_rounds]; unfold lifecycle_call; quiet. }
  intros l. apply (holds_bind _ _ _ (λ _ _, True)); [|intros ?; apply local_holds, only_attach; in_kinds].
  destruct l; cbn [prepare_lifecycle]; try apply holds_throw; [apply setup_due| |by apply holds_ret].
  apply then_local; [lasts|quiet|]. intros []; [|apply holds_throw].
  apply then_local; [lasts|unfold reset_service_secret_for_setup, reset_secret_call; quiet|]. intros ?.
  apply then_local; [lasts| |intros ?; apply setup_due].
  unfold wait_for_service_waiting_for_secret. generalize 50%nat. intros n.
  induction n; cbn [secret_rounds]; unfold lifecycle_call; quiet.
Qed.

(** *** The other commands *)

Lemma account_cmd_due t c :
  cmd = Some (CmdAccount c) → holds (credentials_policy cmd) (λ _, True) (run_account t c) (λ _ _, True).
Proof.
  intros Hc. destruct c; cbn [run_account].
  - apply local_holds. unfold run_account_login_url_command, get_account_login_url_call. quiet.
  - by apply login_due.
  - unfold run_account_logout, session_file. apply (holds_bind _ _ _ (λ _ _, True)).
    { apply then_asks; [lasts|done|]. intros [?|]; [by apply holds_ret|apply holds_throw]. }
    intros p. apply then_asks; [lasts|done|]. intros r. apply local_holds. quiet.
  - eapply holds_bind; [apply load_due|]. intros ?. apply local_holds. quiet.
  - eapply holds_bind; [apply load_due|]. intros ?. eapply holds_bind; [apply validate_due|]. intros ?.
    apply local_holds. quiet.
Qed.

Lemma agents_due c : holds (credentials_policy cmd) (λ _, True) (run_agents c) (λ _ _, True).
Proof.
  destruct c as [|id mv dis]; cbn [run_agents].
  - unfold agents_list. apply with_stored. intros [stored api].
    eapply holds_bind; [apply (web_due _ web_agents_list); [lasts|]|].
    { intros h Hr. apply account_due; [cbn; set_solver|done]. }
    intros r. apply local_holds. quiet. generalize (AgentsList_agents data). intros l.
    induction l; cbn [write_agents]; quiet.
  - unfold agents_delete. destruct (parse_uuid id); [|apply holds_throw].
    apply then_local; [lasts|quiet|]. intros mv'. apply with_stored. intros [stored api].
    eapply holds_bind; [apply (web_due _ web_agents_delete); [lasts|]|].
    { intros h Hr. apply account_due; [cbn; set_solver|done]. }
    intros r. apply local_holds. quiet.
Qed.

Lemma claim_cmd_due c : holds (credentials_policy cmd) (λ _, True) (run_claim c) (λ _ _, True).
Proof.
  destruct c; cbn [run_claim].
  - apply local_holds. quiet.
  - apply local_holds. quiet.
  - eapply holds_bind; [apply exchange_due|]. intros ?. apply local_holds. quiet.
  - unfold claim_inspect. eapply holds_bind; [apply (invoke_due (λ _, True) claim_setup); [lasts|]|].
    { intros h _. left. split; [cbn; set_solver|done]. }
    intros r. apply local_holds. quiet.
  - apply approve_due.
  - unfold claim_reject. apply then_local; [lasts|quiet|]. intros ?. apply with_stored. intros [stored api].
    eapply holds_bind; [apply (web_due _ web_claim_reject); [lasts|]|].
    { intros h Hr. apply account_due; [cbn; set_solver|done]. }
    intros r. apply local_holds. quiet.
Qed.
End parts.

Lemma run_cli_due {FM : Formats} {CB : CliBuild} ts cli :
  holds (credentials_policy (cli_command cli)) (λ _, True) (run_cli ts cli) (λ _ _, True).
Proof.
  unfold run_cli. do 2 (apply then_local; [lasts|quiet|]; intros ?).
  destruct (service_manager_mode cli); [|by apply holds_checked].
  apply then_local; [lasts|quiet|]. intros ?. unfold run_command.
  destruct (cli_command cli) as [[]|].
  - apply local_holds; quiet.
  - apply local_holds. apply only_attach; in_kinds.
  - apply local_holds. unfold run_start_command. quiet.
  - apply local_holds. unfold run_stop_command, stop_installed, stop_over_ipc, stop_call. quiet.
  - apply local_holds. unfold run_status_command, status_call. quiet.
    generalize (status_lines (from_socket_path (cli_socket_path cli))). intros f. generalize (f s0). intros l.
    induction l; cbn [println_all]; quiet.
  - apply local_holds. unfold run_reset_command, reset_secret_call, stop_call. quiet.
  - apply local_holds. unfold run_secret_path_command, get_secret_path_call. quiet.
  - apply setup_due.
  - apply agents_due.
  - by apply account_cmd_due.
  - apply claim_cmd_due.
  - apply auto_due.
Qed.

Lemma main_due {FM : Formats} {CB : CliBuild} ts cli t o :
  exec (main ts cli) t o → obeys (credentials_policy (cli_command cli)) [] t.
Proof.
  intros Ht. assert (triple (credentials_policy (cli_command cli)) (λ _, True) (main ts cli) (λ _ _, True)) as Hmain.
  { eapply triple_then; [by apply run_cli_due|]. intros [ui [e|[]]]; cbn.
    - apply triple_vis; [done|]. intros ?. by apply triple_ret.
    - by apply triple_ret. }
  by destruct (Hmain [] t o I Ht).
Qed.

(** C18: whatever the surroundings answer, the program [playit] calls the API
    with nobody's credentials to sign in and for the machine's side of a claim;
    with the stored session, as it was read from its file, for everything that
    concerns the account; with the session that signing in just gave, to
    complete it with the second factor; with the agent's secret, once the claim
    was exchanged, for the guest login. It writes a session file only in
    [account login], and what it writes is the session that the API gave for the
    credentials, if that needs no code, or the one it gave for the code; it
    deletes the file only in [account logout]. *)
Theorem credentials_justified {FM : Formats} {CB : CliBuild} timestamp_text cli t o :
  exec (main timestamp_text cli) t o → obeys (credentials_policy (cli_command cli)) [] t.
Proof. apply main_due. Qed.

(** ** A login is what the later commands act with

    Runs of the program one after the other, with a session store between
    them that keeps what it promises ([StoreLaws]): the session that [account
    login] earned is the one that every later command calls the API with. *)

(** ** What the store was asked and what it answered *)

Definition store_event (ev : event call) : option (path * store_op * store_answer) :=
  match ev with
  | @Event _ _ e x =>
      match e in call X return X → _ with
      | SessionSave p s => λ r, Some (p, StSave s, match r with inl e => AnsFailed e | inr _ => AnsDone end)
      | SessionLoad p => λ r, Some (p, StLoad, match r with inl e => AnsFailed e | inr o => AnsLoaded o end)
      | SessionClear p => λ r, Some (p, StClear, match r with inl e => AnsFailed e | inr _ => AnsDone end)
      | _ => λ _, None
      end x
  end.

Definition sessions (t : hist) : list (path * store_op * store_answer) := omap store_event t.

(** The calls of [t] for the file [p] were answered by a store in the state
    [s], and there were no others. *)
Definition kept_by {S : Type} {ST : SessionStore S} (p : path) (s : S) (t : hist) : Prop :=
  Forall (λ c, c.1.1 = p ∧ store_op_wf c.1.2) (sessions t) ∧
  (store_run ((λ c, c.1.2) <$> sessions t) s).1 = (λ c, c.2) <$> sessions t.

(** The commands that leave the session as it is. *)
Definition keeps_session (cmd : option Commands) : bool :=
  match cmd with
  | Some (CmdAccount (AccountLogin _ _)) | Some (CmdAccount AccountLogout) => false
  | _ => true
  end.

Lemma sessions_app t1 t2 : sessions (t1 ++ t2) = sessions t1 ++ sessions t2.
Proof. apply omap_app. Qed.

(** Calls of other kinds do not concern it. *)
Lemma sessions_none (ks : list kind) t :
  KStore ∉ ks → Forall (λ ev : event call, call_kind (ev_call ev) ∈ ks) t → sessions t = [].
Proof.
  intros HS. induction 1 as [|[X e x] t He _ IH]; [done|]. cbn.
  destruct e; cbn in He |- *; try done. all: exfalso; tauto.
Qed.

Notation anything := (λ (_ : hist) (_ : event call), True).

Lemma quiet_sessions (ks : list kind) {A} (m : Cli A) l :
  KStore ∉ ks → only ks m → holds anything (λ h, sessions h = l) m (λ _ h, sessions h = l).
Proof.
  intros HS Hm ui Hui h t o Hh Ht. destruct (Hm ui Hui h t o I Ht) as [Ho Hr].
  apply obeys_all in Ho. split; [done|]. intros a Ha. split; [apply (Hr a Ha)|].
  destruct (snd a); [done|]. rewrite sessions_app, (sessions_none ks t HS Ho), Hh. by rewrite (right_id_L [] (++)).
Qed.

Definition unstored_kinds : list kind := KApi :: local_kinds.

Section login.
Context {FM : Formats} {CB : CliBuild}.

Lemma then_unstored {A B} (m : Cli A) (k : A → Cli B) l Q :
  only unstored_kinds m → (∀ a, holds anything (λ h, sessions h = l) (k a) Q) →
  holds anything (λ h, sessions h = l) (m ≫= k) Q.
Proof.
  intros Hm Hk. eapply holds_bind; [|exact Hk]. apply (quiet_sessions unstored_kinds); [|done].
  refine (bool_decide_unpack _ _). by vm_compute.
Qed.

(** A login that succeeds has saved one session, and asked for nothing else. *)
Lemma login_sessions email pw :
  holds anything (λ h, sessions h = []) (run_account_login email pw)
    (λ _ h, ∃ p x, sessions h = [(p, StSave x, AnsDone)]).
Proof.
  unfold run_account_login, sign_in_call, complete_totp_call, api_invoke.
  do 4 (apply then_unstored; [quiet|]; intros ?). apply then_unstored; [quiet|]. intros s.
  apply then_unstored; [quiet|]. intros ?. eapply (holds_bind _ _ _ (λ _ h, sessions h = [])).
  { unfold session_file. eapply (holds_bind _ _ _ (λ _ h, sessions h = [])).
    - apply holds_ask; [done|]. intros h x Hh. by rewrite sessions_app, Hh.
    - intros [dir|]; [by apply holds_ret|apply holds_throw]. }
  intros p. apply then_unstored; [quiet|]. intros now. eapply holds_bind.
  { apply (holds_ask _ _ _ (λ r h, ∃ a, sessions h = [(p, StSave (from_account_session s now), a)] ∧
      (r = inr () → a = AnsDone))); [done|]. intros h x Hh. rewrite sessions_app, Hh. cbn. eexists. split; [done|].
    by intros ->. }
  intros r. eapply holds_bind.
  { apply (holds_or_throw _ _ _ _ (λ _ h, sessions h = [(p, StSave (from_account_session s now), AnsDone)])).
    intros [] h -> (ans & Ha & Hd). by rewrite <- (Hd eq_refl). }
  intros ?. eapply holds_conseq; [apply (quiet_sessions unstored_kinds)| |].
  - refine (bool_decide_unpack _ _). by vm_compute.
  - quiet.
  - intros h Hh. exact Hh.
  - intros ? h Hh. by exists p, (from_account_session s now).
Qed.

Lemma run_cli_login ts cli email pw :
  cli_command cli = Some (CmdAccount (AccountLogin email pw)) →
  holds anything (λ h, sessions h = []) (run_cli ts cli) (λ _ h, ∃ p x, sessions h = [(p, StSave x, AnsDone)]).
Proof.
  intros Hc. unfold run_cli. do 2 (apply then_unstored; [quiet|]; intros ?).
  destruct (service_manager_mode cli); [|by apply holds_checked].
  apply then_unstored; [quiet|]. intros ?. unfold run_command. rewrite Hc. apply login_sessions.
Qed.

Lemma main_login ts cli email pw t :
  cli_command cli = Some (CmdAccount (AccountLogin email pw)) → exec (main ts cli) t (Some 0%Z) →
  ∃ p x, sessions t = [(p, StSave x, AnsDone)].
Proof.
  intros Hc Ht. assert (triple anything (λ h, sessions h = []) (main ts cli)
    (λ code h, code = 0%Z → ∃ p x, sessions h = [(p, StSave x, AnsDone)])) as Hmain.
  { eapply triple_then; [by apply (run_cli_login ts cli email pw)|]. intros [ui [e|[]]]; cbn.
    - apply triple_vis; [done|]. intros ?. by apply triple_ret.
    - apply triple_ret. tauto. }
  by destruct (Hmain [] t (Some 0%Z) eq_refl Ht) as [_ H]; apply (H 0%Z).
Qed.

(** What a later command has loaded. *)
Lemma kept_loads cmd t :
  keeps_session cmd = true → obeys (credentials_policy cmd) [] t → Forall (λ c, c.1.2 = StLoad) (sessions t).
Proof.
  intros Hk Ho. apply Forall_forall. intros c Hc. apply list_elem_of_omap in Hc as ([X e x] & He & Hc).
  apply list_elem_of_split in He as (l1 & l2 & ->). specialize (Ho l1 _ l2 eq_refl).
  destruct e; cbn in Hc; try done; injection Hc as <-; cbn in Ho |- *; [|done|].
  - destruct Ho as [(email & pw & ->) _]. done.
  - by subst cmd.
Qed.
End login.

(** ** Runs one after the other *)

Lemma cell_run_loads l c :
  Forall (λ o, o = StLoad) l → (cell_run l c).1 = replicate (length l) (AnsLoaded c).
Proof.
  induction 1 as [|o l -> _ IH]; [done|]. cbn. destruct (cell_run l c) as [answers c']. cbn in IH |- *. by rewrite IH.
Qed.

Lemma loaded_session p stored (h : hist) :
  answered (SessionLoad p) (inr (Some stored)) h → (p, StLoad, AnsLoaded (Some stored)) ∈ sessions h.
Proof. intros Hh. apply list_elem_of_omap. by eexists. Qed.

Lemma in_concat_run {A : Type} (ev : event call) (rs : list (A * hist)) :
  ev ∈ concat (snd <$> rs) → ∃ r, r ∈ rs ∧ ev ∈ r.2.
Proof.
  induction rs as [|r rs IH]; cbn; [by intros ?%elem_of_nil|]. intros [Hev|Hev]%elem_of_app.
  - exists r. split; [apply elem_of_cons; auto|done].
  - destruct (IH Hev) as (r' & Hr & He). exists r'. split; [apply elem_of_cons; auto|done].
Qed.

Lemma in_concat_run_2 {A : Type} (ev : event call) (rs : list (A * hist)) r :
  r ∈ rs → ev ∈ r.2 → ev ∈ concat (snd <$> rs).
Proof.
  intros Hr Hev. induction Hr as [rs|r' rs Hr IH]; cbn; apply elem_of_app; auto.
Qed.

Section runs.
Context {FM : Formats} {CB : CliBuild} (ts : Z → option string).
Context {S : Type} {ST : SessionStore S} {R : option PersistedSession → S → Prop} {L : StoreLaws S ST R}.

(** A run of a command that leaves the session as it is. *)
Definition later_run (r : CliArgs * hist) : Prop :=
  keeps_session (cli_command r.1) = true ∧ ∃ o, exec (main ts r.1) r.2 o.

Lemma later_policy r : later_run r → obeys (credentials_policy (cli_command r.1)) [] r.2.
Proof. intros [_ [o Ho]]. by eapply main_due. Qed.

Lemma later_loads rs :
  Forall later_run rs → Forall (λ c, c.1.2 = StLoad) (sessions (concat (snd <$> rs))).
Proof.
  induction 1 as [|r rs Hr _ IH]; [constructor|]. cbn. rewrite sessions_app. apply Forall_app. split; [|done].
  eapply kept_loads; [apply Hr|by apply later_policy].
Qed.

Lemma kept_answers p p' s c x t rs :
  R c s → sessions t = [(p', StSave x, AnsDone)] → Forall later_run rs →
  kept_by p s (t ++ concat (snd <$> rs)) →
  ∀ a, a ∈ sessions (concat (snd <$> rs)) → a.2 = AnsLoaded (Some x).
Proof.
  intros HR Ht Hrs [Hops Hrun] a Ha. rewrite sessions_app, Ht, !fmap_app in Hrun. rewrite sessions_app, Ht in Hops.
  pose proof (later_loads rs Hrs) as Hl. remember (sessions (concat (snd <$> rs))) as l eqn:El. clear El.
  destruct (store_run_refines ([StSave x] ++ ((λ c, c.1.2) <$> l)) c s HR) as [Hc _].
  { change [StSave x] with ((λ c : path * store_op * store_answer, c.1.2) <$> [(p', StSave x, AnsDone)]).
    rewrite <- fmap_app. apply Forall_fmap. eapply Forall_impl; [exact Hops|]. by intros ? []. }
  cbn in Hrun, Hc. rewrite Hrun in Hc. cbn in Hc.
  destruct (cell_run ((λ c, c.1.2) <$> l) (Some x)) as [answers c'] eqn:Hcr. cbn in Hc. injection Hc as Hc.
  assert (answers = replicate (length l) (AnsLoaded (Some x))) as ->.
  { pose proof (cell_run_loads ((λ c : path * store_op * store_answer, c.1.2) <$> l) (Some x)) as H.
    rewrite Hcr, length_fmap in H. apply H. by apply Forall_fmap. }
  apply (list_elem_of_fmap_2 (λ c : path * store_op * store_answer, c.2)) in Ha. rewrite Hc in Ha. by apply elem_of_replicate in Ha as [? _].
Qed.

(** C26: When [playit account login] has succeeded, the session that the API
    gave for the credentials (after the second factor, where the account needs
    one) is the one that every later command acts with: whatever commands are
    run afterwards, however they go, as long as none of them is another login
    or a logout and the session's file is kept by a store that does what it
    promises, every call for the account carries that session's key, and goes
    to the address it was earned at. *)
Theorem login_authorizes_commands p s c cli email pw t rs :
  R c s → cli_command cli = Some (CmdAccount (AccountLogin email pw)) → exec (main ts cli) t (Some 0%Z) →
  Forall later_run rs → kept_by p s (t ++ concat (snd <$> rs)) →
  ∃ session, session_earned session t ∧
    ∀ e client q x, Event (Api e client q) x ∈ concat (snd <$> rs) → ep_path e ∈ account_paths →
      client = account_client session.
Proof.
  intros HR Hc Ht Hrs Hk. destruct (main_login ts cli email pw t Hc Ht) as (p' & stored & Hs).
  assert (∃ session now, session_earned session t ∧ stored = from_account_session session now) as (session & now & He & ->).
  { assert ((p', StSave stored, AnsDone) ∈ sessions t) as Hin by (rewrite Hs; set_solver).
    apply list_elem_of_omap in Hin as ([X e x] & Hin & Hev). apply list_elem_of_split in Hin as (l1 & l2 & ->).
    destruct e; cbn in Hev; try done. injection Hev as -> -> _.
    pose proof (main_due _ _ _ _ Ht) as Ho.
    destruct (Ho l1 _ l2 eq_refl) as [_ (sn & now & Hse & Hst)]. exists sn, now. split; [|done].
    by apply session_earned_lasting. }
  exists session. split; [done|]. intros e client q x Hin Hp.
  apply in_concat_run in Hin as (r & Hr & Hin). apply list_elem_of_split in Hin as (l1 & l2 & Hl).
  rewrite Forall_forall in Hrs. pose proof (later_policy r (Hrs r Hr)) as Ho. specialize (Ho l1 _ l2 Hl). cbn in Ho.
  assert (ep_path e ∉ anonymous_paths ∧ ep_path e ≠ "/login/totp" ∧ ep_path e ≠ "/login/guest") as (Hn1 & Hn2 & Hn3).
  { clear Ho. revert Hp. generalize (ep_path e). clear. intros path. unfold account_paths. rewrite !elem_of_cons.
    intros Hp; repeat destruct Hp as [->|Hp]; [..|by apply elem_of_nil in Hp];
      (split; [refine (bool_decide_unpack _ _); by vm_compute|done]). }
  destruct Ho as [[Ha _]|[(_ & stored & [p1 Hld] & ->)|[[Ha _]|[Ha _]]]]; try done.
  assert (AnsLoaded (Some stored) = AnsLoaded (Some (from_account_session session now))) as [= ->]; [|done].
  apply (kept_answers p p' s c _ t rs HR) with (a := (p1, StLoad, AnsLoaded (Some stored))); [done|by apply Forall_forall|done|].
  apply loaded_session. apply in_concat_run_2 with r; [done|]. rewrite Hl. apply elem_of_app. by left.
Qed.
End runs.
