(* ===== verification/CliWorld.v ===== *)
(** * Runs of the command line

    Surroundings in which the program runs to its end: a service that waits
    for its secret, an API that accepts, a home directory. They show that the
    theorems about the program's traces are about traces that it has. And the
    program's calls to the API over a transport. *)

From S2P Require Import Prelude Net OriginLookup Json Text Api HttpClient ApiTunnels ApiAccount ApiClient WebApi SessionStore SessionTheorems IpcModel Ipc FileSystem Program Tui CliModel ServiceManager SocketAccess CliSession CliCommands CliLogic CliTheorems CliSignals CliCredentials.
From Stdlib Require Import Ascii.
#[local] Open Scope string_scope.
#[local] Open Scope list_scope.
#[local] Open Scope Z_scope.

(** ** A build *)

Definition hex_digits : list ascii := String.list_ascii_of_string "0123456789abcdef".

Definition hex_digit (n : Z) : ascii := nth (Z.to_nat n) hex_digits "0"%char.

Definition hex_value (c : ascii) : option Z := Z.of_nat ∘ fst <$> list_find (λ d, d = c) hex_digits.

Fixpoint hex_of (bytes : list Z) : string :=
  match bytes with
  | [] => EmptyString
  | b :: bytes => String (hex_digit (b / 16)) (String (hex_digit (b mod 16)) (hex_of bytes))
  end.

Fixpoint of_hex (s : string) : option (list Z) :=
  match s with
  | EmptyString => Some []
  | String a (String b s) =>
      hi ← hex_value a; lo ← hex_value b; bytes ← of_hex s; Some (hi * 16 + lo :: bytes)
  | _ => None
  end.

#[local] Instance plain_build : CliBuild := {|
  debug_str s := dq +:+ s +:+ dq;
  debug_cli_error _ := "error";
  debug_api_error _ := "api error";
  display_client_error _ := "client error";
  debug_client_error _ := "client error";
  debug_setup_error _ := "setup error";
  debug_service_error_code _ := "code";
  display_json_error := "json error";
  display_exit_status _ := "exit status";
  json_string _ := "{}";
  hex_encode := hex_of;
  hex_decode := of_hex;
  ratio_text _ _ := "0.00";
  cargo_pkg_version := "1.0.0";
  api_base_var := None;
  overflow_checks := true;
|}.

Lemma hex_digit_value n : 0 ≤ n < 16 → hex_value (hex_digit n) = Some n.
Proof.
  intros Hn. assert (n ∈ seqZ 0 16) as Hs by (apply elem_of_seqZ; lia).
  apply (Forall_forall (λ n, hex_value (hex_digit n) = Some n) (seqZ 0 16)); [|done].
  refine (bool_decide_unpack _ _). by vm_compute.
Qed.

Lemma of_hex_of bytes : Forall (uint 8) bytes → of_hex (hex_of bytes) = Some bytes.
Proof.
  induction 1 as [|b bytes Hb _ IH]; [done|]. unfold uint in Hb. cbn [hex_of of_hex].
  rewrite !hex_digit_value, IH by (try apply Z.mod_pos_bound; try split; try apply Z.div_lt_upper_bound; try apply Z.div_pos; lia).
  cbn. f_equal. f_equal. pose proof (Z.div_mod b 16). lia.
Qed.

Lemma hex_of_length bytes : String.length (hex_of bytes) = (2 * length bytes)%nat.
Proof. induction bytes as [|b bytes IH]; [done|]. cbn in *. rewrite IH. lia. Qed.

#[local] Instance plain_build_laws : CliBuildLaws plain_build.
Proof. split; [exact of_hex_of|exact hex_of_length]. Qed.

(** ** Surroundings *)

(** The documents the API answers with. *)
Definition api_document (path : string) : value :=
  if decide (path = "/claim/setup") then to_value ClaimSetupResponse_UserAccepted
  else if decide (path = "/claim/exchange") then to_value {| AgentSecretKey_secret_key := "5ec2e7" |}
  else if decide (path = "/agents/list") then to_value {| AgentsList_agents := [] |}
  else to_value verified_session.

Definition session_file_path : path := [root; "home"; "playit-cli"; "account-session.json"].

#[local] Instance home_file : SessionStore fs :=
  file_store (JF := bit_file) session_file_path 493 420 (λ _, "not a session").

Definition surroundings X (e : call X) : fs → option X * fs :=
  match e in call X return fs → option X * fs with
  | SessionSave _ x => λ s, let '(r, s) := save x s in (Some r, s)
  | SessionLoad _ => λ s, let '(r, s) := load s in (Some r, s)
  | SessionClear _ => λ s, let '(r, s) := clear s in (Some r, s)
  | Println _ | Print _ | Eprintln _ | RegisterPlatform _ | InitStdoutTracing | Sleep _
  | DeclineClose | CloseGuard | DropCloseGuard => λ s, (Some (), s)
  | Flush => λ s, (Some (inr ()), s)
  | ReadLine => λ s, (Some (inr "password"), s)
  | Join | IsRunning _ => λ s, (Some true, s)
  | IsConfirmingClose => λ s, (Some false, s)
  | NowMilli | NowUnix | InstantNow => λ s, (Some 1700000000, s)
  | RegisterVersion _ _ => λ s,
      (Some {| AgentVersion_variant_id := 1; AgentVersion_version_major := 1; AgentVersion_version_minor := 0;
               AgentVersion_version_patch := 0 |}, s)
  | EnvVar _ => λ s, (Some None, s)
  | RandomBytes _ => λ s, (Some [1; 35; 69; 103; 137], s)
  | Connect _ => λ s, (Some (inr 0%nat), s)
  | Request _ GetState => λ s, (Some (inr (RespState WaitingForSecret)), s)
  | Request _ (SetSecret _) => λ s,
      (Some (inr (RespSetSecret {| cr_accepted := true; cr_message := None |})), s)
  | ConfigDir => λ s, (Some (Some [root; "home"]), s)
  | Api e _ _ => λ s, (inr ∘ ApiSuccess <$> from_value (Serde := ep_res e) (api_document (ep_path e)), s)
  | _ => λ s, (None, s)
  end.

(** A run from a state of the home directory: its calls, its exit code and the
    state it leaves. *)
Definition session_of (cli : CliArgs) (s : fs) : hist * (option Z * fs) :=
  match run (recorded surroundings) 10 (main (λ _, None) cli) ([], s) with
  | Returned code (h, s) => (h, (Some code, s))
  | Ended (h, s) => (h, (None, s))
  | Cut => ([], (None, s))
  end.

Lemma session_traced cli s : exec (main (λ _, None) cli) (session_of cli s).1 (session_of cli s).2.1.
Proof.
  unfold session_of. pose proof (run_traced surroundings 10 (main (λ _, None) cli) [] s) as Ht.
  destruct (run _ _ _ _) as [code [h s']|[h s']|]; cbn in *; [| |apply exec_nil];
    by destruct Ht as (t & -> & Ht).
Qed.

Definition command_line (cmd : Commands) : CliArgs :=
  {| cli_stdout := false; cli_socket_path := Some "/tmp/playit.sock"; cli_systemd := false; cli_openrc := false;
     cli_command := Some cmd |}.

Definition setup_run := session_of (command_line (CmdSetup false None)) (no_faults home).

(** The secret is given to the service with the eighteenth call. *)
Lemma service_changes_justified_witness :
  setup_run.2.1 = Some 0 ∧ accomplished (Some (CmdSetup false None)) setup_run.1 ∧
  setup_run.1 !! 17%nat = Some (Event (Request 0 (SetSecret "5ec2e7"))
                                 (inr (RespSetSecret {| cr_accepted := true; cr_message := None |}))) ∧
  provision_due false "5ec2e7" (take 17 setup_run.1).
Proof.
  pose proof (session_traced (command_line (CmdSetup false None)) (no_faults home)) as Ht. fold setup_run in Ht.
  assert (setup_run.2.1 = Some 0) as Hr by (by vm_compute).
  destruct (service_changes_justified (λ _, None) (command_line (CmdSetup false None)) setup_run.1 setup_run.2.1 Ht) as [Ho Ha].
  split; [done|]. split; [by apply Ha|].
  assert (setup_run.1 !! 17%nat = Some (Event (Request 0 (SetSecret "5ec2e7"))
    (inr (RespSetSecret {| cr_accepted := true; cr_message := None |})))) as Hs by (by vm_compute).
  split; [exact Hs|]. destruct (Ho _ _ _ (eq_sym (take_drop_middle _ _ _ Hs))) as (direct & [= <-] & Hd). exact Hd.
Defined.

(** Ctrl-C while the claim is waited for: the process goes on, and the question
    is pending. *)
Lemma run_leaves_terminal_witness :
  omap signal_event setup_run.1 = [OpGuard; OpDrop] ∧ held_after setup_run.1 = Some false ∧
  signal_run setup [OpGuard; OpCtrlC; OpDrop] = Some {| confirm_close := 0; close_requested := true |} ∧
  handler_spec [OpGuard; OpCtrlC; OpDrop] (signal_run setup [OpGuard; OpCtrlC; OpDrop]).
Proof.
  assert (omap signal_event setup_run.1 = [OpGuard; OpDrop]) as Hs by (by vm_compute).
  destruct (run_leaves_terminal (λ _, None) (command_line (CmdSetup false None)) setup_run.1 setup_run.2.1
    [OpGuard; OpCtrlC; OpDrop]) as (_ & Hc & Hh).
  - apply session_traced.
  - by rewrite Hs.
  - split; [exact Hs|]. split; [|by split; [vm_compute|]].
    apply Hc. assert (setup_run.2.1 = Some 0) as -> by (by vm_compute). done.
Defined.

Definition login_command : Commands := CmdAccount (AccountLogin (Some "me@example.com") true).
Definition login_run := session_of (command_line login_command) (no_faults home).
Definition earned : AccountSession := AccountSession_new "https://api.playit.gg" verified_session 1700000000.

Lemma credentials_justified_witness :
  login_run.2.1 = Some 0 ∧
  omap store_event login_run.1 = [(session_file_path, StSave (from_account_session earned 1700000000), AnsDone)] ∧
  obeys (credentials_policy (Some login_command)) [] login_run.1.
Proof.
  split; [by vm_compute|]. split; [by vm_compute|].
  apply (credentials_justified (λ _, None) (command_line login_command) login_run.1 login_run.2.1).
  apply session_traced.
Defined.

(** Afterwards the agents are listed. *)
Definition listing_run := session_of (command_line (CmdAgents AgentsListCmd)) login_run.2.2.

Definition api_event (ev : event call) : option (string * HttpClient) :=
  match ev_call ev with Api e client _ => Some (ep_path e, client) | _ => None end.

Lemma home_file_cell : file_cell (JF := bit_file) session_file_path [root; "home"; "playit-cli"] None (no_faults home).
Proof.
  split; [done|]. split; [|done]. intros k c m Hk. cbn in Hk.
  destruct k as [|[|[|[|k]]]]; [lia | done | done | done | lia].
Qed.

Lemma login_authorizes_commands_witness :
  omap api_event listing_run.1 = [("/agents/list", account_client earned)] ∧
  ∃ session, session_earned session login_run.1 ∧
    ∀ e client q x, Event (Api e client q) x ∈ listing_run.1 → ep_path e ∈ account_paths →
      client = account_client session.
Proof.
  split; [by vm_compute|].
  pose proof (login_authorizes_commands (λ _, None)
    (L := file_laws (JL := bit_file_laws) session_file_path [root; "home"; "playit-cli"] 493 420 (λ _, "not a session") eq_refl)
    session_file_path (no_faults home) None (command_line login_command) (Some "me@example.com") true login_run.1
    [(command_line (CmdAgents AgentsListCmd), listing_run.1)]) as H.
  rewrite <- (right_id_L [] (++) listing_run.1). apply H.
  - exact home_file_cell.
  - done.
  - assert (login_run.2.1 = Some 0) as <- by (by vm_compute). apply session_traced.
  - repeat constructor. exists listing_run.2.1. apply session_traced.
  - split; [|by vm_compute]. assert (sessions (login_run.1 ++ concat [listing_run.1]) =
      [(session_file_path, StSave (from_account_session earned 1700000000), AnsDone);
       (session_file_path, StLoad, AnsLoaded (Some (from_account_session earned 1700000000)))]) as Hs by (by vm_compute).
    cbn [fmap list_fmap snd]. rewrite Hs. repeat constructor; by vm_compute.
Defined.

(** ** The command line's API calls are the API client's

    The commands call the API through [Api] events; over the HTTP client
    ([ApiClient.v]) each of their account calls is the one of [WebApi.v]. *)

Section online.
Context {FM : Formats} {CB : CliBuild} {JT : JsonText} {T : Transport JT}.
(** The clock, and the answers to all other calls. *)
Context (now : Z) (elsewhere : ∀ X, call X → traffic JT → option X * traffic JT).

Definition online X (e : call X) : traffic JT → option X * traffic JT :=
  match e in call X return traffic JT → option X * traffic JT with
  | Api e client req => exchange_call e client req
  | InstantNow => λ t, (Some now, t)
  | e => elsewhere _ e
  end.

(** What a call over HTTP comes to in a run: it returns, or never does. *)
Definition ran_call {A : Type} (ui : ConsoleUi) (r : option A * traffic JT) : ran (traffic JT) (ConsoleUi * (CliError + A)) :=
  match r with
  | (Some a, t) => Returned (ui, inr a) t
  | (None, t) => Ended t
  end.

Lemma run_api {A : Type} n e client req (f : _ → A) ui t :
  run online n ((r ← ask (Api e client req); mret (f r)) ui) t =
    ran_call ui (let '(r, t) := exchange_call e client req t in (f <$> r, t)).
Proof. unfold mbind, Cli_bind, ask. cbn -[exchange_call]. by destruct (exchange_call e client req t) as [[r|] t']. Qed.

Lemma run_api_clock {A : Type} n e client req (f : _ → Z → A) ui t :
  run online n ((r ← ask (Api e client req); now ← ask InstantNow; mret (f r now)) ui) t =
    ran_call ui (let '(r, t) := exchange_call e client req t in ((λ r, f r now) <$> r, t)).
Proof. unfold mbind, Cli_bind, ask. cbn -[exchange_call]. by destruct (exchange_call e client req t) as [[r|] t']. Qed.

(** The account calls of the commands are those of the API client, for
    every transport and every state of the connection: signing in, completing
    the second factor, validating a stored key, and the calls that are posted
    for an account give the same result and send the same requests, retries
    included. *)
Theorem cli_calls_equivalent n ui t :
  (∀ api_base email password,
     run online n (sign_in_call api_base email password ui) t =
       ran_call ui (sign_in debug_api_error display_client_error api_base email password now t)) ∧
  (∀ s code,
     run online n (complete_totp_call s code ui) t =
       ran_call ui (complete_totp debug_api_error debug_client_error s code now t)) ∧
  (∀ api_base key,
     run online n (validate_with_key_call api_base key ui) t =
       ran_call ui (validate_with_key debug_api_error debug_client_error api_base key t)) ∧
  (∀ e client req, ep_policy e = RetryNever →
     run online n (web_call e client req ui) t = ran_call ui (post debug_client_error e client req t)).
Proof.
  split_and!.
  - intros api_base email password. unfold sign_in_call, sign_in. destruct (blank email password); [done|].
    unfold api_invoke, invoke, mbind, Cli_bind, ask. cbn -[exchange_call]. by destruct (exchange_call login_signin _ _ t) as [[r|] t'].
  - intros s code. unfold complete_totp_call. rewrite (run_api_clock _ login_totp). done.
  - intros api_base key. unfold validate_with_key_call, validate_with_key, check_account_read, api_invoke_no_fail, invoke_no_fail, mbind, Cli_bind, ask.
    cbn -[exchange_call].
    destruct (exchange_call tunnels_list _ _ t) as [[r|] t']; [|done]. by destruct r as [?|[]].
  - intros e client req He. unfold web_call, post. rewrite run_api. unfold exchange_call. by rewrite He.
Qed.
End online.

Lemma cli_calls_equivalent_witness :
  let surr := online (T := welcoming) 0 (λ _ _ t, (None, t)) in
  let ui := ConsoleUi_new None in
  (∃ t, run surr 5 (sign_in_call (CB := plain_build) "https://api.playit.gg" "me@example.com" "pw" ui) quiet =
     Returned (ui, inr (inr (AccountSession_new "https://api.playit.gg" verified_session 0))) t) ∧
  run surr 5 (web_call (CB := plain_build) web_claim_reject
         (account_client (AccountSession_new "https://api.playit.gg" verified_session 0)) {| ReqClaimReject_code := "c0de" |} ui) quiet =
    ran_call ui (post (T := welcoming) (λ _, "client error") web_claim_reject
         (account_client (AccountSession_new "https://api.playit.gg" verified_session 0)) {| ReqClaimReject_code := "c0de" |} quiet).
Proof.
  intros surr ui.
  destruct (cli_calls_equivalent (CB := plain_build) (T := welcoming) 0 (λ _ _ t, (None, t)) 5 ui quiet)
    as (Hs & _ & _ & Hp).
  split.
  - unfold surr. rewrite Hs. eexists. vm_compute. reflexivity.
  - by apply (Hp web_claim_reject).
Defined.
