(* ===== verification/AgentIdentity.v ===== *)
(** * The agent's identity (agent_control/version.rs, platform.rs, mod.rs)

    The version and the platform a process registers once, and the API client
    that a control connection registers and finds its servers with. *)

From S2P Require Import Prelude Bytes Net Text Json OriginLookup ControlMessages FileSystem Api ApiTunnels ApiAccount HttpClient ApiClient WebApi ControlIo ControlConnect IpcModel RuntimeError SecretStore RuntimeOptions.
From stdpp Require Import pretty.
From Stdlib Require Import Ascii.
#[local] Open Scope string_scope.
#[local] Open Scope list_scope.
#[local] Open Scope Z_scope.

(** ** Platforms (platform.rs) *)

(** The [target_os] of the build, as far as the code tells them apart. *)
Inductive target_os : Set :=
  | os_windows | os_linux | os_freebsd | os_macos | os_android | os_ios | os_other.

Definition current_platform (os : target_os) : Platform :=
  match os with
  | os_windows => Platform_Windows
  | os_linux => Platform_Linux
  | os_freebsd => Platform_Freebsd
  | os_macos => Platform_Macos
  | os_android => Platform_Android
  | os_ios => Platform_Ios
  | os_other => Platform_Unknown
  end.

(** ** Registration (version.rs) *)

(** The two cells of the process, each written once. *)
Record identity_cells : Type := {
  AGENT_VERSION : option AgentVersion;
  PLATFORM : option Platform;
}.

Definition unregistered : identity_cells := {| AGENT_VERSION := None; PLATFORM := None |}.

Definition get_platform (os : target_os) (c : identity_cells) : Platform * identity_cells :=
  let platform := default (current_platform os) (PLATFORM c) in
  (platform, {| AGENT_VERSION := AGENT_VERSION c; PLATFORM := Some platform |}).

Definition register_platform (platform : Platform) (c : identity_cells) : identity_cells :=
  {| AGENT_VERSION := AGENT_VERSION c; PLATFORM := Some (default platform (PLATFORM c)) |}.

Definition register_version (version : AgentVersion) (c : identity_cells) : identity_cells :=
  {| AGENT_VERSION := Some (default version (AGENT_VERSION c)); PLATFORM := PLATFORM c |}.

Section register.
Context {FM : Formats}.

(** [u32::from_str(parts.next().unwrap()).unwrap()]. *)
Definition version_part (i : nat) (parts : list string) : outcome Empty_set Z :=
  match parts !! i ≫= uint_from_str 32 with Some n => Ok n | None => Panic end.

Definition parse_version (v_str variant_id : string) : outcome Empty_set AgentVersion :=
  let parts := split_on "." (default EmptyString (head (split_on "-" v_str))) in
  match version_part 0 parts, version_part 1 parts, version_part 2 parts, read uuid_text variant_id with
  | Ok major, Ok minor, Ok patch, Some variant_id =>
      Ok {| AgentVersion_variant_id := variant_id; AgentVersion_version_major := major;
            AgentVersion_version_minor := minor; AgentVersion_version_patch := patch |}
  | _, _, _, _ => Panic
  end.

Definition help_register_version (v_str variant_id : string) (c : identity_cells) :
    outcome Empty_set (AgentVersion * identity_cells) :=
  match AGENT_VERSION c with
  | Some version => Ok (version, c)
  | None =>
      match parse_version v_str variant_id with
      | Ok version => Ok (version, {| AGENT_VERSION := Some version; PLATFORM := PLATFORM c |})
      | Err e => match e with end
      | Panic => Panic
      end
  end.

Definition get_version (cargo_pkg_version : string) (c : identity_cells) :
    outcome Empty_set (AgentVersion * identity_cells) :=
  help_register_version cargo_pkg_version "308943e8-faef-4835-a2ba-270351f72aa3" c.
End register.

(** ** The API of a control connection (mod.rs) *)

Record AuthApi : Type := {
  au_client : HttpClient;
  au_version : AgentVersion;
  au_platform : Platform;
}.

Definition AuthApi_new_with_identity (api_url secret_key : string) (version : AgentVersion) (platform : Platform) : AuthApi :=
  {| au_client := PlayitApi_create api_url (Some secret_key); au_version := version; au_platform := platform |}.

Definition register_request (a : AuthApi) (pong : Pong) : ReqProtoRegister :=
  {| ReqProtoRegister_agent_version := None;
     ReqProtoRegister_proto_version := 2;
     ReqProtoRegister_version := au_version a;
     ReqProtoRegister_platform := au_platform a;
     ReqProtoRegister_client_addr := pong_client_addr pong;
     ReqProtoRegister_tunnel_addr := pong_tunnel_addr pong |}.

Section calls.
Context {FM : Formats} {JT : JsonText} {T : Transport JT}.
(** [serde_json::to_string]. *)
Context (json_string : value → string).

Definition AuthApi_new (os : target_os) (cargo_pkg_version api_url secret_key : string) (c : identity_cells) :
    outcome Empty_set (AuthApi * identity_cells) :=
  match get_version cargo_pkg_version c with
  | Ok (version, c) => Ok (AuthApi_new_with_identity api_url secret_key version (current_platform os), c)
  | Err e => match e with end
  | Panic => Panic
  end.

(** [SetupError::from] (errors.rs). *)
Definition setup_error_from {F : Type} (fail_value : F → value) (e : ApiClient.ApiError F HttpClientError) : SetupError :=
  match e with
  | ErrApi api => ControlIo.ApiError api
  | ErrClient error => RequestError error
  | ErrFail fail => ApiFail (json_string (fail_value fail))
  end.

Definition authenticate (a : AuthApi) (pong : Pong) (t : traffic JT) :
    option (result SetupError SignedAgentKey) * traffic JT :=
  let '(r, t) := invoke proto_register (au_client a) (register_request a pong) t in
  ((λ r, match r with
         | inr key => ROk key
         | inl e => RErr (setup_error_from (λ f, to_value (Serde := ProtoRegisterError_serde) f) e)
         end) <$> r, t).

Definition no_agent : ReqAgentsRoutingGet := {| ReqAgentsRoutingGet_agent_id := None |}.

Definition get_control_addresses (a : AuthApi) (t : traffic JT) :
    option (result SetupError (list SocketAddr)) * traffic JT :=
  let '(r, t) := invoke agents_routing_get (au_client a) no_agent t in
  ((λ r, match r with
         | inr routing => ROk (control_addresses (AgentRouting_targets6 routing) (AgentRouting_targets4 routing))
         | inl e => RErr (setup_error_from (λ f, to_value (Serde := AgentRoutingGetError_serde) f) e)
         end) <$> r, t).
End calls.

(** ** Versions as text *)

(** [c] does not occur in [s]. *)
Definition free_of (c : ascii) (s : string) : Prop := split_on c s = [s].

Lemma split_on_cons c s : ∃ p ps, split_on c s = p :: ps.
Proof. induction s as [|a s (p & ps & IH)]; cbn; [eauto|]. rewrite IH. case_decide; eauto. Qed.

Lemma free_of_cons c a s : a ≠ c → free_of c s → free_of c (String a s).
Proof. intros Ha Hs. unfold free_of in *. cbn. rewrite decide_False by done. by rewrite Hs. Qed.

Lemma free_of_inv c a s : free_of c (String a s) → a ≠ c ∧ free_of c s.
Proof.
  unfold free_of. cbn. case_decide as Ha.
  - destruct (split_on_cons c s) as (p & ps & ->). discriminate.
  - intros Hs. split; [done|]. destruct (split_on c s) as [|p ps] eqn:Hp; [by destruct (split_on_cons c s) as (? & ? & ?); congruence|].
    by injection Hs as -> ->.
Qed.

Lemma free_of_app c a b : free_of c a → free_of c b → free_of c (a +:+ b).
Proof.
  induction a as [|x a IH]; intros Ha Hb; [done|]. apply free_of_inv in Ha as [Hx Ha].
  change (String x a +:+ b) with (String x (a +:+ b)). apply free_of_cons; auto.
Qed.

Lemma split_on_free_app c a b : free_of c a → split_on c (a +:+ String c b) = a :: split_on c b.
Proof.
  induction a as [|x a IH]; intros Ha.
  - change (EmptyString +:+ String c b) with (String c b). cbn. by rewrite decide_True.
  - apply free_of_inv in Ha as [Hx Ha]. change (String x a +:+ String c b) with (String x (a +:+ String c b)).
    cbn. rewrite decide_False by done. by rewrite IH.
Qed.

(** A number in decimal has digits only. *)
Lemma digits_free w acc s n c : digit_value c = None → digits_value w acc s = Some n → free_of c s.
Proof.
  intros Hc. revert acc. induction s as [|a s IH]; intros acc Hd; [done|]. cbn in Hd.
  destruct (digit_value a) as [d|] eqn:Ha; [|done]. apply free_of_cons; [congruence|].
  cbn in Hd. case_decide; [by eapply IH|done].
Qed.

Lemma uint_free w s n c : digit_value c = None → c ≠ "+"%char → uint_from_str w s = Some n → free_of c s.
Proof.
  intros Hc Hp Hs. destruct s as [|a r]; [done|]. destruct (decide (a = "+"%char)) as [->|Ha].
  - apply free_of_cons; [done|]. destruct r as [|b r]; [done|]. by eapply digits_free.
  - assert (digits_value w 0 (String a r) = Some n) as Hd; [|by eapply digits_free].
    rewrite <- Hs. destruct a as [[] [] [] [] [] [] [] []]; done.
Qed.

Section round_trip.
Context {FM : Formats} {FL : FormatsLaws FM}.

(** A version as the crate's is written: three numbers, and a label after a
    dash, or none. *)
Definition version_text (v : AgentVersion) (label : option string) : string :=
  pretty (AgentVersion_version_major v) +:+ "." +:+ pretty (AgentVersion_version_minor v) +:+ "." +:+
  pretty (AgentVersion_version_patch v) +:+
  match label with Some l => String "-" l | None => EmptyString end.

Lemma parse_version_text v label :
  AgentVersion_wf v → parse_version (version_text v label) (show uuid_text (AgentVersion_variant_id v)) = Ok v.
Proof.
  intros (Hid & Hma & Hmi & Hpa). destruct v as [id ma mi pa]. cbn in *.
  apply uint_from_str_pretty in Hma, Hmi, Hpa.
  assert (∀ c s n, uint_from_str 32 s = Some n → c = "."%char ∨ c = "-"%char → free_of c s) as Hfree.
  { intros c s n Hn [-> | ->]; by eapply uint_free. }
  assert (head (split_on "-" (version_text {| AgentVersion_variant_id := id; AgentVersion_version_major := ma;
    AgentVersion_version_minor := mi; AgentVersion_version_patch := pa |} label)) =
    Some ((((pretty ma +:+ ".") +:+ pretty mi) +:+ ".") +:+ pretty pa)) as Hhead.
  { assert (free_of "-" ((((pretty ma +:+ ".") +:+ pretty mi) +:+ ".") +:+ pretty pa)) as Hf.
    { repeat apply free_of_app; try done; eauto. }
    unfold version_text. cbn [AgentVersion_version_major AgentVersion_version_minor AgentVersion_version_patch].
    rewrite !append_assoc. destruct label; [by rewrite split_on_free_app|]. by rewrite append_nil, Hf. }
  unfold parse_version. rewrite Hhead. change (default EmptyString (Some ?x)) with x. rewrite <- !append_assoc.
  change ("." +:+ pretty pa) with (String "." (pretty pa)).
  change ("." +:+ pretty mi +:+ String "." (pretty pa)) with (String "." (pretty mi +:+ String "." (pretty pa))).
  rewrite !split_on_free_app by eauto. assert (split_on "." (pretty pa) = [pretty pa]) as -> by (eapply Hfree; eauto).
  unfold version_part. cbn. rewrite Hma, Hmi, Hpa, (uuid_reads_back id) by done. done.
Qed.
End round_trip.

(** ** What is registered *)

(** What other parts of a process may do to the cells. *)
Inductive identity_op : Type :=
  | IdGetPlatform
  | IdRegisterPlatform (platform : Platform)
  | IdRegisterVersion (version : AgentVersion)
  | IdHelpRegister (v_str variant_id : string).

Section registered.
Context {FM : Formats} {FL : FormatsLaws FM} (os : target_os).

Definition identity_step (o : identity_op) (c : identity_cells) : outcome Empty_set identity_cells :=
  match o with
  | IdGetPlatform => Ok (get_platform os c).2
  | IdRegisterPlatform platform => Ok (register_platform platform c)
  | IdRegisterVersion version => Ok (register_version version c)
  | IdHelpRegister v_str variant_id =>
      match help_register_version v_str variant_id c with Ok (_, c) => Ok c | Err e => Err e | Panic => Panic end
  end.

Fixpoint identity_run (l : list identity_op) (c : identity_cells) : outcome Empty_set identity_cells :=
  match l with
  | [] => Ok c
  | o :: l => match identity_step o c with Ok c => identity_run l c | Err e => Err e | Panic => Panic end
  end.

Lemma identity_run_kept l c v :
  AGENT_VERSION c = Some v → ∃ c', identity_run l c = Ok c' ∧ AGENT_VERSION c' = Some v.
Proof.
  revert c. induction l as [|o l IH]; intros c Hc; [by exists c|]. cbn.
  destruct o; cbn; try (apply IH; cbn; rewrite Hc; done).
  unfold help_register_version. rewrite Hc. by apply IH.
Qed.

Context {JT : JsonText} {T : Transport JT} (json_string : value → string).

Lemma invoke_sends (e : Endpoint) (c : HttpClient) (req : ep_Req e) (t : traffic JT) :
  ∃ r t', invoke e c req t = (Some r, t') ∧
    sent_more (max_attempts (ep_policy e)) (http_request c (ep_path e) (@to_value _ (ep_req e) req)) t t'.
Proof.
  unfold invoke. rewrite exchange_call_policy. destruct (exchange_call_sends e c req t) as (r & k & t' & -> & Ht & Hk).
  exists (unwrap r), t'. split; [done|]. by exists k.
Qed.

(** The agent registers as what the process said it is. The text of a
    version, with or without a label, is read as that version; it is the one
    that every later part of the process gets, whatever they register. The API
    client made with it registers a control connection with one request, never
    repeated, to the API's address and under the agent's own key, that names
    that version and the two addresses of the pong it answers; looking up the
    control servers is repeated at most twice. Both calls come to a result. *)
Theorem agent_registers_identity v label c l api_url secret_key :
  AGENT_VERSION c = None → AgentVersion_wf v →
  ∃ c1 c2 a,
    help_register_version (version_text v label) (show uuid_text (AgentVersion_variant_id v)) c = Ok (v, c1) ∧
    identity_run l c1 = Ok c2 ∧
    (∀ cargo_pkg_version, AuthApi_new os cargo_pkg_version api_url secret_key c2 = Ok (a, c2)) ∧ au_version a = v ∧
    ∀ pong t,
      (let '(r, t1) := authenticate json_string a pong t in
       r ≠ None ∧
       sent_more 1
         {| hr_url := api_url +:+ "/proto/register"; hr_auth := Some ("Agent-Key " +:+ str_trim secret_key);
            hr_body := to_text (to_value (register_request a pong)) |} t t1) ∧
      (let '(r, t1) := get_control_addresses json_string a t in
       r ≠ None ∧
       sent_more 3
         {| hr_url := api_url +:+ "/agents/routing/get"; hr_auth := Some ("Agent-Key " +:+ str_trim secret_key);
            hr_body := to_text (to_value no_agent) |} t t1).
Proof.
  intros Hc Hv. pose proof (parse_version_text v label Hv) as Hp.
  set (c1 := {| AGENT_VERSION := Some v; PLATFORM := PLATFORM c |}).
  destruct (identity_run_kept l c1 v eq_refl) as (c2 & Hl & Hc2).
  exists c1, c2, (AuthApi_new_with_identity api_url secret_key v (current_platform os)). split_and!.
  - unfold help_register_version. by rewrite Hc, Hp.
  - done.
  - intros pkg. unfold AuthApi_new, get_version, help_register_version. by rewrite Hc2.
  - done.
  - intros pong t. split.
    + unfold authenticate. destruct (invoke_sends proto_register (au_client (AuthApi_new_with_identity api_url secret_key v (current_platform os)))
        (register_request (AuthApi_new_with_identity api_url secret_key v (current_platform os)) pong) t) as (r & t' & -> & Hs). done.
    + unfold get_control_addresses. destruct (invoke_sends agents_routing_get (au_client (AuthApi_new_with_identity api_url secret_key v (current_platform os)))
        no_agent t) as (r & t' & -> & Hs). done.
Qed.
End registered.

Definition beta_version : AgentVersion :=
  {| AgentVersion_variant_id := 1; AgentVersion_version_major := 1; AgentVersion_version_minor := 20;
     AgentVersion_version_patch := 3 |}.

Lemma agent_registers_identity_witness :
  version_text beta_version (Some "beta.1") = "1.20.3-beta.1" ∧
  ∃ c1 c2 a,
    help_register_version "1.20.3-beta.1" (show uuid_text 1) unregistered = Ok (beta_version, c1) ∧
    identity_run os_linux [IdHelpRegister "nonsense" "no id"; IdRegisterPlatform Platform_Docker] c1 = Ok c2 ∧
    (∀ cargo_pkg_version, AuthApi_new os_linux cargo_pkg_version "https://api.playit.gg" "5ec2e7" c2 = Ok (a, c2)) ∧
    au_version a = beta_version.
Proof.
  assert (Hv : version_text beta_version (Some "beta.1") = "1.20.3-beta.1") by (by vm_compute).
  split; [exact Hv|].
  destruct (agent_registers_identity os_linux (T := welcoming) (λ _, "{}") beta_version (Some "beta.1") unregistered
    [IdHelpRegister "nonsense" "no id"; IdRegisterPlatform Platform_Docker] "https://api.playit.gg" "5ec2e7")
    as (c1 & c2 & a & H1 & H2 & H3 & H4 & _); [done|by repeat split|].
  exists c1, c2, a. rewrite Hv in H1. done.
Defined.
