(* ===== verification/Daemon.v ===== *)
(** * The daemon (playitd: daemon.rs, paths.rs, unix.rs, bin/playitd.rs, and the
      listener of ipc_server.rs)

    The process around the runtime: its options, its socket and who may use
    it, and the order in which it starts and ends, as a program
    ([Program.prog]) of the calls it makes; and the updates made of its log. *)

From S2P Require Import Prelude Net OriginLookup Json Text Api ApiTunnels ApiAccount IpcModel Ipc RuntimeError SecretStore RuntimeOptions FileSystem Program CliModel ServiceManager SocketAccess AgentIdentity.
From stdpp Require Import pretty.
From Stdlib Require Import Ascii.
#[local] Open Scope string_scope.
#[local] Open Scope list_scope.
#[local] Open Scope Z_scope.

(** ** Options and errors (daemon.rs) *)

Record DaemonOptions : Type := {
  do_secret : option string;
  do_secret_path : option path;
  do_socket_path : option string;
  do_log_path : option path;
  do_platform_docker : bool;
  do_version : VersionDetails;
}.

Inductive DaemonError : Type :=
  | DaemonIpc (e : IpcError)
  | DaemonRuntime (e : RuntimeError)
  | DaemonSetupError (e : string).

Definition display_daemon_error {CB : CliBuild} (e : DaemonError) : string :=
  match e with
  | DaemonIpc error => "IPC error: " +:+ display_ipc_error error
  | DaemonRuntime error => "Runtime error: " +:+ RuntimeError_display error
  | DaemonSetupError error => "Setup error: " +:+ error
  end.

(** ** Calls *)

(** Which branch of the daemon's [select!] was taken; the last says what the
    task of the server returned, or why it could not be joined. *)
Inductive daemon_end : Type :=
  | EndCtrlC
  | EndHostShutdown
  | EndRuntime (r : RuntimeError + ())
  | EndIpc (r : string + (IpcError + ())).

Inductive dcall : Type → Type :=
  | DPathExists (p : path) : dcall bool
  | DConfigLocalDir : dcall (option path)
  | DEnvVar (name : string) : dcall (option string)
  | DReadFile (p : path) : dcall (io_error + string)
  | DCreateDirAll (p : path) : dcall (io_error + ())
  | DRemoveFile (p : string) : dcall (io_error + ())
  (** the subscriber is installed; a log file is given by its directory and
      its name *)
  | DInitTracing (use_ansi : bool) (file : option (path * string)) : dcall ()
  | DEprintln (line : string) : dcall ()
  (** the runtime *)
  | DStartRuntime (options : RuntimeOptions) : dcall (RuntimeError + ())
  | DShutdownRuntime : dcall (RuntimeError + ())
  | DDropRuntime : dcall ()
  (** the socket *)
  | DSocketName (e : IpcEndpoint) : dcall (io_error + ())
  | DConnect (e : IpcEndpoint) : dcall (io_error + ())
  | DListen (e : IpcEndpoint) (mode : option Z) : dcall (io_error + ())
  | DSocketExists (p : string) : dcall bool
  | DEffectiveUid : dcall Z
  | DGroupGid (name : string) : dcall (option Z)
  | DChmod (p : string) (mode : Z) : dcall (io_error + ())
  | DChown (p : string) (gid : Z) : dcall (io_error + ())
  (** the server's task *)
  | DSpawnServer : dcall ()
  | DSelect : dcall daemon_end
  | DCancelHost : dcall ()
  | DJoinServer (millis : Z) : dcall ()
  (** inside the server's task *)
  | DAccept : dcall (option (io_error + nat))
  | DSpawnClient (stream : nat) : dcall ()
  | DSleep (millis : Z) : dcall ().

(** ** Paths (paths.rs, playit-ipc/src/paths.rs), on Linux *)

Definition playit_config_dir : prog dcall path :=
  dir ← perform DConfigLocalDir;
  mret (default ["."] dir ++ ["playit_gg"]).

Definition linux_default_secret_path : prog dcall (option path) :=
  let path := [root; "etc"; "playit"; "playit.toml"] in
  exists_ ← perform (DPathExists path);
  mret (if (exists_ : bool) then Some path else None).

Definition default_secret_path : prog dcall path :=
  here ← perform (DPathExists ["playit.toml"]);
  if (here : bool) then mret ["playit.toml"]
  else
    etc ← linux_default_secret_path;
    match etc with
    | Some path => mret path
    | None => dir ← playit_config_dir; mret (dir ++ ["playit.toml"])
    end.

(** ** The socket's permissions (unix.rs), on Linux *)

Definition PLAYIT_SOCKET_GROUP_NAME : string := "playit".

(** [0o660]. *)
Definition PLAYIT_SOCKET_MODE : Z := 432.

Record SocketPermissionTarget : Type := {
  sp_path : string;
  sp_group_name : string;
  sp_mode : Z;
  sp_chown_group : bool;
}.

Definition socket_permission_target (socket_path : string) (effective_uid : Z) : option SocketPermissionTarget :=
  if starts_with "@" socket_path || starts_with "\\.\pipe\" socket_path then None
  else Some {| sp_path := socket_path; sp_group_name := PLAYIT_SOCKET_GROUP_NAME;
               sp_mode := PLAYIT_SOCKET_MODE; sp_chown_group := bool_decide (effective_uid = 0) |}.

(** [CString::new] fails on a text with a zero byte. *)
Definition has_nul (s : string) : bool := existsb (Ascii.eqb "000"%char) (String.list_ascii_of_string s).

Definition bind_failed (k : ErrorKind) (message : string) : IpcError := BindFailed (IoError k message).

Definition apply_socket_permissions {CB : CliBuild} (socket_path : string) (group_gid : option Z) (mode : Z) :
    prog dcall (IpcError + ()) :=
  r ← perform (DChmod socket_path mode);
  match r with
  | inl error =>
      mret (inl (bind_failed (err_kind error)
        ("failed to chmod IPC socket " +:+ socket_path +:+ " to " +:+ octal mode +:+ ": " +:+ err_msg error)))
  | inr _ =>
      match group_gid with
      | None => mret (inr ())
      | Some group_gid =>
          if has_nul socket_path then
            mret (inl (bind_failed InvalidInput ("invalid IPC socket path " +:+ debug_str socket_path)))
          else
            r ← perform (DChown socket_path group_gid);
            match r with
            | inl error =>
                mret (inl (bind_failed IoPermissionDenied
                  ("failed to chown IPC socket " +:+ socket_path +:+ " to group gid " +:+ pretty group_gid +:+
                   ": " +:+ err_msg error)))
            | inr _ => mret (inr ())
            end
      end
  end.

Definition configure_socket_permissions {CB : CliBuild} (socket_path : string) : prog dcall (IpcError + ()) :=
  uid ← perform DEffectiveUid;
  match socket_permission_target socket_path uid with
  | None => mret (inr ())
  | Some target =>
      there ← perform (DSocketExists (sp_path target));
      if (there : bool) then
        group_gid ← (if sp_chown_group target then perform (DGroupGid (sp_group_name target)) else mret None);
        apply_socket_permissions (sp_path target) group_gid (sp_mode target)
      else mret (inl (bind_failed NotFound ("IPC socket " +:+ sp_path target +:+ " was not created")))
  end.

(** ** The socket (ipc_server.rs, playit-ipc/src/ipc.rs) *)

(** [io::Error::new(InvalidInput, error)]. *)
Definition invalid_name (error : io_error) : io_error := IoError InvalidInput (err_msg error).

Definition try_connect (endpoint : IpcEndpoint) : prog dcall (IpcError + ()) :=
  _ ←! prog_map_err (λ e, ConnectionFailed (invalid_name e)) (perform (DSocketName endpoint));
  prog_map_err ConnectionFailed (perform (DConnect endpoint)).

(** The components of a path's text: repeated separators and inner dots do
    not count. *)
Definition path_of_text (s : string) : path :=
  let parts := split_on "/" s in
  let inner := filter (λ c, c ≠ EmptyString ∧ c ≠ "."%string) in
  match parts with
  | EmptyString :: (_ :: _) as rest => root :: inner rest
  | "."%string :: rest => "."%string :: inner rest
  | _ => inner parts
  end.

(** [IpcServer::new]; the server keeps the path of its socket. *)
Definition IpcServer_new (socket_path : option string) : prog dcall (IpcError + string) :=
  let socket_path := default default_socket_path socket_path in
  let endpoint := IpcEndpoint_parse socket_path in
  answered ← try_connect endpoint;
  match answered with
  | inr _ => mret (inl AlreadyRunning)
  | inl _ =>
      (if is_windows_named_pipe endpoint then mret ()
       else
         _ ← match filesystem_path endpoint ≫= (λ p, parent (path_of_text p)) with
             | Some (_ :: _ as parent) => r ← perform (DCreateDirAll parent); mret ()
             | _ => mret ()
             end;
         match filesystem_path endpoint with
         | Some path => r ← perform (DRemoveFile path); mret ()
         | None => mret ()
         end);;
      mret (inr socket_path)
  end.

Definition create_listener (socket_path : string) : prog dcall (IpcError + ()) :=
  let endpoint := IpcEndpoint_parse socket_path in
  _ ←! prog_map_err (λ e, BindFailed (invalid_name e)) (perform (DSocketName endpoint));
  match endpoint with
  | Namespaced _ => prog_map_err BindFailed (perform (DListen endpoint None))
  | Filesystem _ =>
      r ← perform (DListen endpoint (Some PLAYIT_SOCKET_MODE));
      match r with
      | inr listener => mret (inr listener)
      | inl error =>
          if decide (err_kind error = Unsupported)
          then prog_map_err BindFailed (perform (DListen endpoint None))
          else mret (inl (BindFailed error))
      end
  end.

Definition bind_listener {CB : CliBuild} (socket_path : string) : prog dcall (IpcError + ()) :=
  _ ←! create_listener socket_path;
  configure_socket_permissions socket_path.

(** [IpcServer::run], the task that accepts clients until it is cancelled. *)
Definition server_round (_ : ()) : prog dcall (() + ()) :=
  accepted ← perform DAccept;
  match accepted with
  | None => mret (inr ())
  | Some (inr stream) => _ ← perform (DSpawnClient stream); mret (inl ())
  | Some (inl _) => _ ← perform (DSleep 100); mret (inl ())
  end.

Definition server_run : prog dcall (IpcError + ()) :=
  _ ← iterate server_round ();
  mret (inr ()).

(** ** Logs (daemon.rs) *)

Definition log_parent (path : path) : list string := default ["."] (parent path).

Definition create_log_parent_dir (path : path) : prog dcall (string + ()) :=
  prog_map_err (λ error, "Failed to create log directory " +:+ display (log_parent path) +:+ ": " +:+ err_msg error)
    (perform (DCreateDirAll (log_parent path))).

Definition log_file_writer (path : path) : prog dcall (string + (list string * string)) :=
  _ ←! create_log_parent_dir path;
  match file_name path with
  | Some name => mret (inr (log_parent path, name))
  | None => mret (inl ("Invalid --log-path " +:+ display path))
  end.

Definition init_tracing (use_ansi : bool) (log_path : option path) : prog dcall (string + ()) :=
  match log_path with
  | Some path =>
      writer ←! log_file_writer path;
      _ ← perform (DInitTracing use_ansi (Some writer));
      mret (inr ())
  | None => _ ← perform (DInitTracing use_ansi None); mret (inr ())
  end.

(** ** The daemon (daemon.rs) *)

Section daemon.
Context {CB : CliBuild}.
(** [serde_json::from_str], [serde_yml::from_str]: the document, or the text of
    the error; [Display] of [ParseIntError]. *)
Context (parse_json parse_yaml : string → string + VersionOverrideFile).
Context (parse_int_error : string → string).

Definition load_version_overrides (path : path) : prog dcall (string + VersionOverrideFile) :=
  content ←! prog_map_err (λ error, "Failed to read version override file " +:+ display path +:+ ": " +:+ err_msg error)
               (perform (DReadFile path));
  let parsed what r :=
    match r with
    | inl error => inl ("Invalid " +:+ what +:+ " in " +:+ display path +:+ ": " +:+ error)
    | inr overrides => inr overrides
    end in
  mret (match to_lowercase <$> extension path with
        | Some "json" => parsed "JSON" (parse_json content)
        | Some "yaml" | Some "yml" => parsed "YAML" (parse_yaml content)
        | _ => inl ("Unsupported version override file format for " +:+ display path +:+
                    ". Use .json, .yaml, or .yml")
        end).

Definition api_base : prog dcall string :=
  var ← perform (DEnvVar "API_BASE");
  mret (default "https://api.playit.gg" var).

(** The socket and the server, once the runtime runs; an error ends the
    runtime. *)
Definition open_server (socket_path : option string) : prog dcall (DaemonError + ()) :=
  r ← (server ←! IpcServer_new socket_path; bind_listener server);
  match r with
  | inr _ => _ ← perform DSpawnServer; mret (inr ())
  | inl error => _ ← perform DShutdownRuntime; mret (inl (DaemonIpc error))
  end.

(** What the [select!] of the daemon gives; [inl] leaves [run_daemon] at once
    (the [?] on the result of the join). *)
Definition daemon_result (e : daemon_end) : DaemonError + (DaemonError + ()) :=
  match e with
  | EndCtrlC | EndHostShutdown => inr (inr ())
  | EndRuntime (inr _) => inr (inr ())
  | EndRuntime (inl error) => inr (inl (DaemonRuntime error))
  | EndIpc (inl error) => inl (DaemonSetupError ("IPC task failed: " +:+ error))
  | EndIpc (inr (inl error)) => inr (inl (DaemonIpc error))
  | EndIpc (inr (inr _)) => inr (inr ())
  end.

(** [None] is a panic: when the [select!] ended with the server's task, its
    handle was awaited to the end there, and awaiting it again, as what follows
    does, panics. *)
Definition serve : prog dcall (option (DaemonError + ())) :=
  ended ← perform DSelect;
  match daemon_result ended with
  | inl error => mret (Some (inl error))
  | inr result =>
      _ ← perform DCancelHost;
      match ended with
      | EndIpc _ => mret None
      | _ =>
          _ ← perform (DJoinServer 5000);
          shutdown_result ← prog_map_err DaemonRuntime (perform DShutdownRuntime);
          mret (Some match result, shutdown_result with
                     | inl error, _ => inl error
                     | inr _, inl error => inl error
                     | inr _, inr _ => inr ()
                     end)
      end
  end.

(** The runtime is dropped when [run_daemon] returns, and when it panics. *)
Definition run_daemon (options : DaemonOptions) : prog dcall (option (DaemonError + ())) :=
  secret_path ← (match do_secret_path options with Some p => mret p | None => default_secret_path end);
  base ← api_base;
  let runtime_options :=
    {| ro_secret_path := secret_path; ro_secret := do_secret options; ro_version := do_version options;
       ro_platform_docker := do_platform_docker options; ro_api_base := base |} in
  let platform := if do_platform_docker options then Platform_Docker else current_platform os_linux in
  started ← (_ ←! prog_map_err DaemonSetupError
               (init_tracing (match platform with Platform_Linux | Platform_Docker => true | _ => false end)
                  (do_log_path options));
             prog_map_err DaemonRuntime (perform (DStartRuntime runtime_options)));
  match started with
  | inl error => mret (Some (inl error))
  | inr _ =>
      opened ← open_server (do_socket_path options);
      result ← (match opened with inl error => mret (Some (inl error)) | inr _ => serve end);
      _ ← perform DDropRuntime;
      mret result
  end.

(** ** The program (bin/playitd.rs) *)

Record DaemonCli : Type := {
  dc_secret : option string;
  dc_secret_path : option path;
  dc_socket_path : option string;
  dc_log_path : option path;
  dc_platform_docker : bool;
  dc_version_overrides : option path;
}.

(** How the process ends: with its code, or by a panic. *)
Inductive ExitCode : Set := ExitSuccess | ExitFailure | ExitPanic.

Definition playitd_version (cli : DaemonCli) : prog dcall (string + VersionDetails) :=
  match from_version_string parse_int_error cargo_pkg_version DEFAULT_VARIANT_ID with
  | inl error => mret (inl ("playitd version error: " +:+ error))
  | inr version =>
      match dc_version_overrides cli with
      | None => mret (inr version)
      | Some path =>
          overrides ←! prog_map_err (λ error, "playitd version override error: " +:+ error)
                         (load_version_overrides path);
          mret (inr (apply_overrides version overrides))
      end
  end.

Definition playitd_options (cli : DaemonCli) (version : VersionDetails) : prog dcall DaemonOptions :=
  secret_path ← (match dc_secret cli with
                 | Some _ => mret None
                 | None =>
                     match dc_secret_path cli with
                     | Some p => mret (Some p)
                     | None => p ← default_secret_path; mret (Some p)
                     end
                 end);
  mret {| do_secret := dc_secret cli; do_secret_path := secret_path; do_socket_path := dc_socket_path cli;
          do_log_path := dc_log_path cli; do_platform_docker := dc_platform_docker cli; do_version := version |}.

Definition playitd_main (cli : DaemonCli) : prog dcall ExitCode :=
  version ← playitd_version cli;
  match version with
  | inl message => _ ← perform (DEprintln message); mret ExitFailure
  | inr version =>
      options ← playitd_options cli version;
      result ← run_daemon options;
      match result with
      | None => mret ExitPanic
      | Some (inr _) => mret ExitSuccess
      | Some (inl error) => _ ← perform (DEprintln ("playitd error: " +:+ display_daemon_error error)); mret ExitFailure
      end
  end.
End daemon.

(** ** Log events as updates (playitd/src/logging.rs)

    The layer that turns each event the daemon logs into an update for its
    subscribers. The rate limiter itself is the [governor] crate's; what it
    answers is an argument. *)

(** The value of a field, as the visitor is given it: a text, or anything else
    by what [{:?}] writes of it. *)
Inductive field_value : Set :=
  | FieldStr (s : string)
  | FieldDebug (text : string).

(** [MessageVisitor] is its message. *)
Definition record_text (message name text : string) : string :=
  if decide (name = "message") then text
  else (if decide (message = EmptyString) then message else message +:+ ", ") +:+ name +:+ "=" +:+ text.

Definition record_debug (message name text : string) : string := record_text message name text.
Definition record_str (message name value : string) : string := record_text message name value.

Definition record_field (message : string) (field : string * field_value) : string :=
  match field with
  | (name, FieldStr value) => record_str message name value
  | (name, FieldDebug text) => record_debug message name text
  end.

Inductive tracing_level : Set := TRACE | DEBUG | INFO | WARN | ERROR.

Definition level_to_wire (level : tracing_level) : LogLevel :=
  match level with
  | TRACE => LogTrace
  | DEBUG => LogDebug
  | INFO => LogInfo
  | WARN => LogWarn
  | ERROR => LogError
  end.

(** [LogRateLimiter::allow]: spans always pass. *)
Definition allow (is_event within_rate : bool) : bool := negb is_event || within_rate.

Definition on_event (level : tracing_level) (target : string) (fields : list (string * field_value)) (now : Z) :
    ServiceUpdate :=
  UpdateLog {| le_level := level_to_wire level; le_target := target;
         le_message := foldl record_field EmptyString fields; le_timestamp := now |}.

(** ** The message of an event *)

Definition field_text (v : field_value) : string :=
  match v with FieldStr s => s | FieldDebug s => s end.

(** The fields after the message, as they are appended. *)
Definition field_list (fields : list (string * field_value)) : string :=
  foldr (λ field rest, ", " +:+ fst field +:+ "=" +:+ field_text (snd field) +:+ rest) EmptyString fields.

Lemma record_fields message fields :
  message ≠ EmptyString → Forall (λ field, fst field ≠ "message") fields →
  foldl record_field message fields = message +:+ field_list fields.
Proof.
  intros Hm Hf. revert message Hm. induction Hf as [|[name v] fields Hn _ IH]; intros message Hm; cbn [foldl field_list foldr].
  - by rewrite append_nil.
  - assert (record_field message (name, v) = message +:+ ", " +:+ name +:+ "=" +:+ field_text v) as ->.
    { cbn in Hn. destruct v; cbn [record_field field_text]; unfold record_str, record_debug, record_text;
        rewrite !decide_False by done; by rewrite !append_assoc. }
    rewrite IH by (destruct message; done). fold (field_list fields). cbn [fst snd]. by rewrite !append_assoc.
Qed.

(** An event whose message comes first shows it first, then its fields in
    order, none lost. *)
Lemma on_event_message level target message fields now :
  field_text message ≠ EmptyString → Forall (λ field, fst field ≠ "message") fields →
  ∃ entry, on_event level target (("message", message) :: fields) now = UpdateLog entry ∧
    le_message entry = field_text message +:+ field_list fields.
Proof.
  intros Hm Hf. eexists. split; [done|]. cbn [le_message foldl].
  rewrite <- (record_fields (field_text message) fields) by done.
  by destruct message.
Qed.
