(* ===== verification/DaemonTheorems.v ===== *)
(** * The order in which the daemon starts and ends

    What has happened in a run of the daemon, as a state that each call
    advances; the calls that are allowed in each state; and that every run of
    [playitd] makes only those, whatever the system answers. And the socket
    that it leaves, as the command line finds it: who is let in is told that
    nothing is wrong. *)

From S2P Require Import Prelude OriginLookup Json Text Api ApiTunnels ApiAccount IpcModel Ipc RuntimeError SecretStore RuntimeOptions FileSystem Program CliModel ServiceManager SocketAccess CliWorld AgentIdentity Daemon.
From Stdlib Require Import Ascii.
#[local] Open Scope string_scope.
#[local] Open Scope list_scope.
#[local] Open Scope Z_scope.

(** ** What has happened *)

Record dstate : Type := DState {
  (** the runtime was started, was asked to end (and how it did), was dropped *)
  ds_started : bool;
  ds_shutdown : option (RuntimeError + ());
  ds_dropped : bool;
  (** nobody answered at the socket; its file was removed *)
  ds_unanswered : bool;
  ds_removed : bool;
  (** a mode at creation is not supported; the daemon listens *)
  ds_unsupported : bool;
  ds_listening : bool;
  (** the socket's mode was set; the user, the group and the group set *)
  ds_mode : option Z;
  ds_uid : option Z;
  ds_group : option (option Z);
  ds_owner : option Z;
  (** the server's task: spawned, the end of the wait, cancelled, joined *)
  ds_spawned : bool;
  ds_ended : option daemon_end;
  ds_cancelled : bool;
  ds_joined : bool;
}.

Definition fresh : dstate :=
  DState false None false false false false false None None None None false None false false.

Definition dstep (s : dstate) (ev : event dcall) : dstate :=
  let '(DState st sh dr un rm us li mo ui gr ow sp en ca jo) := s in
  match ev with
  | @Event _ _ e x =>
      match e in dcall X return X → dstate with
      | DStartRuntime _ => λ r, match r with inr _ => DState true sh dr un rm us li mo ui gr ow sp en ca jo | inl _ => s end
      | DShutdownRuntime => λ r, DState st (Some r) dr un rm us li mo ui gr ow sp en ca jo
      | DDropRuntime => λ _, DState st sh true un rm us li mo ui gr ow sp en ca jo
      | DSocketName _ => λ r, match r with inl _ => DState st sh dr true rm us li mo ui gr ow sp en ca jo | inr _ => s end
      | DConnect _ => λ r, match r with inl _ => DState st sh dr true rm us li mo ui gr ow sp en ca jo | inr _ => s end
      | DRemoveFile _ => λ _, DState st sh dr un true us li mo ui gr ow sp en ca jo
      | DListen _ _ => λ r,
          match r with
          | inr _ => DState st sh dr un rm us true mo ui gr ow sp en ca jo
          | inl error => DState st sh dr un rm (us || bool_decide (err_kind error = Unsupported)) li mo ui gr ow sp en ca jo
          end
      | DEffectiveUid => λ uid, DState st sh dr un rm us li mo (Some uid) gr ow sp en ca jo
      | DGroupGid _ => λ gid, DState st sh dr un rm us li mo ui (Some gid) ow sp en ca jo
      | DChmod _ mode => λ r, match r with inr _ => DState st sh dr un rm us li (Some mode) ui gr ow sp en ca jo | inl _ => s end
      | DChown _ gid => λ r, match r with inr _ => DState st sh dr un rm us li mo ui gr (Some gid) sp en ca jo | inl _ => s end
      | DSpawnServer => λ _, DState st sh dr un rm us li mo ui gr ow true en ca jo
      | DSelect => λ r, DState st sh dr un rm us li mo ui gr ow sp (Some r) ca jo
      | DCancelHost => λ _, DState st sh dr un rm us li mo ui gr ow sp en true jo
      | DJoinServer _ => λ _, DState st sh dr un rm us li mo ui gr ow sp en ca true
      | _ => λ _, s
      end x
  end.

Definition dstate_after (h : list (event dcall)) : dstate := foldl dstep fresh h.

(** ** What is allowed *)

(** A socket that is a file of the file system. *)
Definition socket_file (path : string) : bool :=
  is_filesystem (IpcEndpoint_parse path) && negb (is_windows_named_pipe (IpcEndpoint_parse path)).

(** Only the owner and the group of the socket may use it; as root, the group
    is the group of playit if there is one. *)
Definition secured (s : dstate) : Prop :=
  ds_mode s = Some PLAYIT_SOCKET_MODE ∧
  (∃ uid, ds_uid s = Some uid ∧
     (uid = 0 → ds_group s = Some None ∨ ∃ gid, ds_group s = Some (Some gid) ∧ ds_owner s = Some gid)).

Definition daemon_policy (path : string) (s : dstate) (ev : event dcall) : Prop :=
  match ev_call ev with
  | DStartRuntime _ => ds_started s = false
  | DSocketName e | DConnect e => e = IpcEndpoint_parse path ∧ ds_started s = true
  | DRemoveFile p => p = path ∧ socket_file path = true ∧ ds_unanswered s = true ∧ ds_listening s = false
  | DListen e mode =>
      e = IpcEndpoint_parse path ∧ ds_unanswered s = true ∧ ds_listening s = false ∧
      (socket_file path = true → ds_removed s = true) ∧
      (is_filesystem e = true → mode = Some PLAYIT_SOCKET_MODE ∨ mode = None ∧ ds_unsupported s = true)
  | DChmod p mode => p = path ∧ mode = PLAYIT_SOCKET_MODE ∧ ds_listening s = true
  | DGroupGid name => name = PLAYIT_SOCKET_GROUP_NAME
  | DChown p gid => p = path ∧ ds_uid s = Some 0 ∧ ds_group s = Some (Some gid) ∧ ds_mode s = Some PLAYIT_SOCKET_MODE
  | DSpawnServer => ds_spawned s = false ∧ ds_listening s = true ∧ (socket_file path = true → secured s)
  | DSelect => ds_spawned s = true
  | DCancelHost => ds_ended s ≠ None
  | DJoinServer _ => ds_cancelled s = true ∧ ∀ r, ds_ended s ≠ Some (EndIpc r)
  | DShutdownRuntime => ds_started s = true ∧ ds_shutdown s = None ∧ (ds_spawned s = true → ds_joined s = true)
  | DDropRuntime => ds_started s = true ∧ ds_dropped s = false
  | _ => True
  end.

(** How a run may leave the runtime: never started, or ended and dropped;
    dropped without the end only when the server's task ended first. *)
Definition left_tidy (s : dstate) : Prop :=
  ds_started s = true →
  ds_dropped s = true ∧ (ds_shutdown s ≠ None ∨ ∃ r, ds_ended s = Some (EndIpc r)).

(** A run that went well: it ended because it was asked to, or because the
    runtime ended without an error. *)
Definition went_well (s : dstate) : Prop :=
  (∃ e, ds_ended s = Some e ∧ daemon_result e = inr (inr ())) ∧ ds_shutdown s = Some (inr ()).

(** The server's task ended first, by itself. *)
Definition server_ended (s : dstate) : Prop := ∃ r, ds_ended s = Some (EndIpc (inr r)).

Definition exit_of (s : dstate) (code : ExitCode) : Prop :=
  (code = ExitSuccess ↔ went_well s) ∧ (code = ExitPanic ↔ server_ended s).

Definition end_of (s : dstate) (r : option (DaemonError + ())) : Prop :=
  (r = Some (inr ()) ↔ went_well s) ∧ (r = None ↔ server_ended s).

(** ** Rules *)

Section rules.
Context (path : string).

Notation ok := (λ h ev, daemon_policy path (dstate_after h) ev).
Notation at_state s := (λ h, dstate_after h = s).

Lemma at_ret {A} s (a : A) (Q : A → list (event dcall) → Prop) :
  (∀ h, dstate_after h = s → Q a h) → triple ok (at_state s) (Ret a) Q.
Proof. apply triple_ret. Qed.

Lemma at_vis {X A} s (e : dcall X) (k : X → prog dcall A) Q :
  (∀ x, daemon_policy path s (Event e x)) →
  (∀ x, triple ok (at_state (dstep s (Event e x))) (k x) Q) →
  triple ok (at_state s) (Vis e k) Q.
Proof. apply track_vis. Qed.

Lemma at_then {A B} s (m : prog dcall A) (R : A → dstate → Prop) (k : A → prog dcall B) Q :
  triple ok (at_state s) m (λ a h, R a (dstate_after h)) →
  (∀ a s', R a s' → triple ok (at_state s') (k a) Q) →
  triple ok (at_state s) (m ≫= k) Q.
Proof. apply track_then. Qed.
End rules.

(** Runs a program from a state: each call must be allowed there, each answer
    is a case. *)
Ltac head_case m :=
  lazymatch m with
  | prog_then ?m' _ => head_case m'
  | match ?x with _ => _ end => destruct x eqn:?; subst
  end.

Ltac answer x :=
  lazymatch type of x with
  | sum _ _ => destruct x
  | unit => destruct x
  | bool => destruct x
  | option _ => destruct x
  | _ => idtac
  end.

Ltac run_step :=
  lazymatch goal with
  | |- triple _ _ (Ret _) _ => let Hs := fresh in apply at_ret; intros ? Hs; cbn beta iota; rewrite Hs; clear Hs
  | |- triple _ _ (Vis _ _) _ =>
      apply at_vis; [intros ?; unfold daemon_policy; cbn [ev_call]; try exact I|intros ?x; answer x; cbn [dstep]]
  | |- triple _ _ ?m _ =>
      first [ progress (unfold prog_map_err, prog_try, perform, mbind, prog_bind, mret, prog_ret; cbn [prog_then])
            | head_case m ]
  end.

Ltac run_calls := repeat run_step.

(** ** The parts that change nothing the policy speaks of *)

Section parts.
Context {CB : CliBuild} (path : string).

Notation ok := (λ h ev, daemon_policy path (dstate_after h) ev).
Notation at_state s := (λ h, dstate_after h = s).
Notation same s := (λ _ h, dstate_after h = s).

Lemma default_secret_path_quiet s : triple ok (at_state s) default_secret_path (same s).
Proof.
  unfold default_secret_path, linux_default_secret_path, playit_config_dir. destruct s.
  run_calls; done.
Qed.

Lemma api_base_quiet s : triple ok (at_state s) api_base (same s).
Proof. unfold api_base. destruct s. run_calls; done. Qed.

Lemma init_tracing_quiet s ansi log : triple ok (at_state s) (init_tracing ansi log) (same s).
Proof. unfold init_tracing, log_file_writer, create_log_parent_dir. destruct s. run_calls; done. Qed.

Lemma playitd_version_quiet s pj py pe cli : triple ok (at_state s) (playitd_version pj py pe cli) (same s).
Proof. unfold playitd_version, load_version_overrides. destruct s. run_calls; done. Qed.

Lemma playitd_options_quiet s cli v :
  triple ok (at_state s) (playitd_options cli v) (λ o h, dstate_after h = s ∧ do_socket_path o = dc_socket_path cli).
Proof.
  unfold playitd_options, default_secret_path, linux_default_secret_path, playit_config_dir. destruct s.
  run_calls; done.
Qed.

(** ** The socket *)

(** The runtime runs, and there is no server yet. *)
Definition opening (s : dstate) : Prop :=
  ds_started s = true ∧ ds_shutdown s = None ∧ ds_dropped s = false ∧
  ds_spawned s = false ∧ ds_ended s = None ∧ ds_cancelled s = false ∧ ds_joined s = false.

Definition server_made (s : dstate) : Prop :=
  opening s ∧ ds_unanswered s = true ∧ ds_listening s = false ∧ (socket_file path = true → ds_removed s = true).

Definition listens (s : dstate) : Prop := opening s ∧ ds_listening s = true.

Lemma parse_cases p :
  (∃ name, IpcEndpoint_parse p = Namespaced name ∧ socket_file p = false) ∨
  (IpcEndpoint_parse p = Filesystem p ∧ is_windows_named_pipe (Filesystem p) = negb (socket_file p)).
Proof.
  assert ((∃ name, IpcEndpoint_parse p = Namespaced name) ∨ IpcEndpoint_parse p = Filesystem p) as [[name He]|He].
  - destruct p as [|a p]; [by right|]. destruct (ascii_dec a "@"%char) as [->|Ha]; [left; by eexists|].
    right. by destruct a as [[] [] [] [] [] [] [] []].
  - left. exists name. unfold socket_file. by rewrite He.
  - right. unfold socket_file. rewrite He. cbn [is_filesystem andb]. by rewrite negb_involutive.
Qed.

(** Closes a goal about a state that is known. *)
Ltac by_state := unfold server_made, listens, opening in *; simpl in *; repeat match goal with H : IpcEndpoint_parse _ = _ |- _ => rewrite H end; simpl in *;
  repeat case_bool_decide; split_and!; intros; simplify_eq/=; try done; try congruence; rewrite ?orb_true_r; auto.

Lemma IpcServer_new_opens s socket_path :
  path = default default_socket_path socket_path → opening s → ds_listening s = false →
  triple ok (at_state s) (IpcServer_new socket_path)
    (λ r h, match r with inl _ => opening (dstate_after h) | inr p => p = path ∧ server_made (dstate_after h) end).
Proof.
  intros Hp Hs Hl. unfold IpcServer_new, try_connect, opening in *. rewrite <- Hp. clear Hp.
  destruct s; simpl in *. destruct Hs as (-> & -> & -> & -> & -> & -> & ->). subst.
  destruct (parse_cases path) as [(name & He & Hf)|[He Hf]]; rewrite He; [cbn [filesystem_path is_windows_named_pipe]|rewrite Hf; destruct (socket_file path) eqn:?; cbn [filesystem_path negb]];
    run_calls; by_state.
Qed.

Lemma create_listener_listens s :
  server_made s →
  triple ok (at_state s) (create_listener path)
    (λ r h, opening (dstate_after h) ∧ (r = inr () → ds_listening (dstate_after h) = true)).
Proof.
  unfold create_listener, server_made, opening. destruct s; simpl.
  intros ((-> & -> & -> & -> & -> & -> & ->) & -> & -> & Hr).
  destruct (parse_cases path) as [(name & He & Hf)|[He Hf]]; rewrite He; run_calls; by_state.
Qed.

Lemma parse_at name : IpcEndpoint_parse (String "@" name) = Namespaced name.
Proof. done. Qed.

Lemma permission_target_socket uid :
  socket_permission_target path uid =
  if socket_file path
  then Some {| sp_path := path; sp_group_name := PLAYIT_SOCKET_GROUP_NAME; sp_mode := PLAYIT_SOCKET_MODE;
               sp_chown_group := bool_decide (uid = 0) |}
  else None.
Proof.
  unfold socket_permission_target, starts_with.
  destruct (parse_cases path) as [(name & He & Hf)|[He Hf]].
  - rewrite Hf. assert (String.prefix "@" path = true) as ->; [|done].
    revert He. destruct path as [|a p]; [done|]. cbn.
    destruct a as [[] [] [] [] [] [] [] []]; try done. by destruct p.
  - cbn [is_windows_named_pipe] in Hf. rewrite Hf.
    assert (String.prefix "@" path = false) as ->; [|by destruct (socket_file path)].
    revert He. destruct path as [|a p]; [done|]. cbn [String.prefix].
    destruct (ascii_dec "@" a) as [<-|]; [|done]. by rewrite parse_at.
Qed.

Lemma configure_secures s :
  listens s →
  triple ok (at_state s) (configure_socket_permissions path)
    (λ r h, opening (dstate_after h) ∧ ds_listening (dstate_after h) = true ∧
            (r = inr () → socket_file path = true → secured (dstate_after h))).
Proof.
  unfold configure_socket_permissions, listens, opening. destruct s; simpl.
  intros ((-> & -> & -> & -> & -> & -> & ->) & ->).
  apply at_vis; [done|]. intros uid. cbn [dstep]. rewrite permission_target_socket.
  unfold apply_socket_permissions.
  destruct (socket_file path); cbn [sp_path sp_group_name sp_mode sp_chown_group];
    [destruct (decide (uid = 0)) as [->|Hu]; [rewrite bool_decide_true by done|rewrite bool_decide_false by done]|];
    run_calls; try done; try by_state.
  all: split; [done|]; eexists; split; [done|]; intros; first [done|by left|right; by eexists].
Qed.
(** A server runs, or the runtime was ended. *)
Definition opened (r : DaemonError + ()) (s : dstate) : Prop :=
  match r with
  | inr _ => ds_started s = true ∧ ds_shutdown s = None ∧ ds_dropped s = false ∧ ds_spawned s = true ∧
             ds_ended s = None ∧ ds_cancelled s = false ∧ ds_joined s = false
  | inl _ => ds_started s = true ∧ ds_shutdown s ≠ None ∧ ds_dropped s = false ∧ ds_ended s = None
  end.

Lemma bind_listener_secures s :
  server_made s →
  triple ok (at_state s) (bind_listener path)
    (λ r h, opening (dstate_after h) ∧
            (r = inr () → ds_listening (dstate_after h) = true ∧ (socket_file path = true → secured (dstate_after h)))).
Proof.
  intros Hs. unfold bind_listener, prog_try.
  apply (at_then _ _ _ (λ r s, opening s ∧ (r = inr () → ds_listening s = true))).
  - by apply create_listener_listens.
  - intros [e|[]] s' [Ho Hl]; [apply at_ret; intros h ->; by split|].
    refine (triple_conseq _ _ _ _ _ _ (configure_secures s' (conj Ho (Hl eq_refl))) _ _); [done|].
    intros r h (H1 & H2 & H3). auto.
Qed.

Lemma open_server_opens s socket_path :
  path = default default_socket_path socket_path → opening s → ds_listening s = false →
  triple ok (at_state s) (open_server socket_path) (λ r h, opened r (dstate_after h)).
Proof.
  intros Hp Hs Hl. unfold open_server.
  apply (at_then _ _ _ (λ r s, opening s ∧
    (r = inr () → ds_listening s = true ∧ (socket_file path = true → secured s)))).
  - unfold prog_try. apply (at_then _ _ _
      (λ r s, match r with inl _ => opening s | inr p => p = path ∧ server_made s end));
      [by apply IpcServer_new_opens|].
    intros [e|p] s' H; [apply at_ret; intros h ->; by split|]. destruct H as [-> H].
    by apply bind_listener_secures.
  - intros [e|[]] s' [Ho Hr]; unfold opening, opened in *; destruct s'; simpl in *;
      destruct Ho as (-> & -> & -> & -> & -> & -> & ->).
    + run_calls; by_state.
    + destruct (Hr eq_refl) as [-> Hsec]. run_calls; by_state.
Qed.

(** The end of a run. *)
Definition served (r : option (DaemonError + ())) (s : dstate) : Prop :=
  ds_started s = true ∧ ds_dropped s = false ∧
  (ds_shutdown s ≠ None ∨ ∃ r, ds_ended s = Some (EndIpc r)) ∧ end_of s r.

Lemma serve_ends s :
  opened (inr ()) s → triple ok (at_state s) serve (λ r h, served r (dstate_after h)).
Proof.
  unfold serve, opened, served, end_of, went_well, server_ended. destruct s; simpl.
  intros (-> & -> & -> & -> & -> & -> & ->).
  apply at_vis; [done|]. intros ended. cbn [dstep].
  destruct ended as [| |[e|[]]|[e|[e|[]]]]; cbn [daemon_result];
    run_calls; try done; simpl; split_and!; try done; try naive_solver; try destruct u; naive_solver.
Qed.

Definition running : dstate :=
  DState true None false false false false false None None None None false None false false.

Lemma unwell_fresh e : left_tidy fresh ∧ end_of fresh (Some (inl e)).
Proof. split; [by intros [=]|]. unfold end_of, went_well, server_ended. cbn. naive_solver. Qed.

Lemma run_daemon_ends s options :
  s = fresh → path = default default_socket_path (do_socket_path options) →
  triple ok (at_state s) (run_daemon options)
    (λ r h, left_tidy (dstate_after h) ∧ end_of (dstate_after h) r).
Proof.
  intros -> Hp. unfold run_daemon.
  apply (at_then _ _ _ (λ _ s, s = fresh)).
  { destruct (do_secret_path options); [by apply at_ret|apply default_secret_path_quiet]. }
  intros p ? ->. apply (at_then _ _ _ (λ _ s, s = fresh)); [apply api_base_quiet|].
  intros base ? ->. apply (at_then _ _ _ (λ r s, s = match r with inl _ => fresh | inr _ => running end)).
  { unfold prog_try at 1, prog_map_err at 1. apply (at_then _ _ _ (λ _ s, s = fresh)).
    - apply (at_then _ _ _ (λ _ s, s = fresh)); [apply init_tracing_quiet|]. intros r ? ->. by apply at_ret.
    - intros [e|[]] ? ->; [apply at_ret; by intros h ->|]. run_calls; done. }
  intros [e|[]] ? ->; [apply at_ret; intros h ->; apply unwell_fresh|].
  apply (at_then _ _ _ opened); [by apply open_server_opens|].
  intros r s Ho. apply (at_then _ _ _ served).
  - destruct r as [e|[]]; [|by apply serve_ends].
    apply at_ret. intros h ->. destruct Ho as (H1 & H2 & H3 & H4).
    split_and!; auto; unfold end_of, went_well, server_ended; rewrite H4; naive_solver.
  - intros r' s' (H1 & H2 & H3 & H4). destruct s'; simpl in *. subst.
    run_calls; [done|]. split; [by intros _|]. exact H4.
Qed.

Lemma main_ends pj py pe cli s :
  s = fresh → path = default default_socket_path (dc_socket_path cli) →
  triple ok (at_state s) (playitd_main pj py pe cli)
    (λ code h, left_tidy (dstate_after h) ∧ exit_of (dstate_after h) code).
Proof.
  intros -> Hp. unfold playitd_main.
  apply (at_then _ _ _ (λ _ s, s = fresh)); [apply playitd_version_quiet|].
  intros [e|v] ? ->.
  { run_calls. destruct (unwell_fresh (DaemonSetupError e)) as [Ht [Hw Hp']]. split; [done|]. unfold exit_of. naive_solver. }
  apply (at_then _ _ _ (λ o s, s = fresh ∧ do_socket_path o = dc_socket_path cli)); [apply playitd_options_quiet|].
  intros options ? [-> Ho].
  apply (at_then _ _ _ (λ r s, left_tidy s ∧ end_of s r));
    [apply run_daemon_ends; [done|by rewrite Ho]|].
  intros [[e|[]]|] s [Ht [Hw Hp']].
  - destruct s. run_calls. split; [done|]. split; [rewrite <-Hw | rewrite <-Hp']; done.
  - apply at_ret. intros h ->. split; [done|]. split; [rewrite <-Hw | rewrite <-Hp']; done.
  - apply at_ret. intros h ->. split; [done|]. split; [rewrite <-Hw | rewrite <-Hp']; done.
Qed.
End parts.

(** ** The server's task *)

(** The clients that were accepted, and those that have a task of their own. *)
Definition accepted_client (ev : event dcall) : option nat :=
  match ev with
  | @Event _ _ e x =>
      match e in dcall X return X → option nat with
      | DAccept => λ r, match r with Some (inr stream) => Some stream | _ => None end
      | _ => λ _, None
      end x
  end.

Definition served_client (ev : event dcall) : option nat :=
  match ev_call ev with DSpawnClient stream => Some stream | _ => None end.

Definition all_served (h : list (event dcall)) : Prop := omap served_client h = omap accepted_client h.

(** The next client is accepted when those before it are served. *)
Definition server_policy (h : list (event dcall)) (ev : event dcall) : Prop :=
  match ev_call ev with DAccept => all_served h | _ => True end.

Lemma all_served_quiet h ev : served_client ev = accepted_client ev → all_served h → all_served (h ++ [ev]).
Proof. unfold all_served. rewrite !omap_app. cbn. intros ->. by intros ->. Qed.

(** Every client the listener accepts is served, once and in order; errors of
    the listener end nothing; the task ends only when it is cancelled. *)
Lemma server_serves t o :
  exec server_run t o → obeys server_policy [] t ∧ ∀ r, o = Some r → r = inr () ∧ all_served t.
Proof.
  intros Ht.
  cut (triple server_policy (λ h, [] = h) server_run (λ r h, r = inr () ∧ all_served h)).
  { intros H. exact (H [] t o eq_refl Ht). }
  unfold server_run. eapply triple_then with (R := λ _, all_served); [|intros []; by apply triple_ret].
  apply (triple_conseq _ _ all_served _ _ (λ _, all_served));
    [apply (triple_iter _ (λ _, all_served) _ () _ (λ _, all_served))|by intros h <-|done].
  - intros []. unfold server_round. apply triple_vis; [done|]. intros [[e|stream]|].
    + apply triple_vis; [done|]. intros x. apply triple_ret. intros h' (h & -> & h0 & -> & Hh).
      by repeat apply all_served_quiet.
    + apply triple_vis; [done|]. intros x. apply triple_ret. intros h' (h & -> & h0 & -> & Hh).
      unfold all_served in *. rewrite !omap_app. cbn. by rewrite Hh, !(right_id_L [] (++)).
    + apply triple_ret. intros h' (h & -> & Hh). by apply all_served_quiet.
  - intros []. by apply triple_ret.
Qed.

(** ** The daemon *)

Section claim.
Context {CB : CliBuild} (parse_json parse_yaml : string → string + VersionOverrideFile) (parse_int_error : string → string).

(** C19: Every run of [playitd], whatever the system answers, obeys the policy
    of its socket: it removes the socket's file only after nobody answered
    there; it listens once, with the restricted mode unless that is not
    supported; it serves no client before the mode (and, as root, the group)
    of the socket is set; it ends the runtime once, and with a server only
    after the server was cancelled and joined. When it is over, a runtime that
    was started was dropped, and was ended before unless the server's task
    ended first; it returns success exactly when it was asked to end, or the
    runtime ended by itself, without an error, and the runtime's end was
    without one; and it panics exactly when the server's task ended by itself
    first (its handle, awaited to the end, is awaited again). *)
Theorem daemon_orderly cli t o :
  exec (playitd_main parse_json parse_yaml parse_int_error cli) t o →
  obeys (λ h, daemon_policy (default default_socket_path (dc_socket_path cli)) (dstate_after h)) [] t ∧
  ∀ code, o = Some code →
    left_tidy (dstate_after t) ∧ (code = ExitSuccess ↔ went_well (dstate_after t)) ∧
    (code = ExitPanic ↔ server_ended (dstate_after t)).
Proof. intros Ht. by apply (main_ends _ parse_json parse_yaml parse_int_error cli fresh eq_refl eq_refl [] t o eq_refl). Qed.
End claim.

(** ** A run *)

(** A system on which everything goes well, for root, with the group 990; the
    listener cannot set a mode at creation; a client asks the daemon to stop. *)
Definition good_answer {X} (e : dcall X) : option X :=
  match e in dcall X return option X with
  | DPathExists _ => Some false
  | DConfigLocalDir => Some (Some ["/"; "root"; ".config"])
  | DEnvVar _ => Some None
  | DReadFile _ => Some (inl (IoError NotFound "no such file"))
  | DCreateDirAll _ | DRemoveFile _ => Some (inr ())
  | DInitTracing _ _ | DEprintln _ => Some ()
  | DStartRuntime _ | DShutdownRuntime => Some (inr ())
  | DDropRuntime => Some ()
  | DSocketName _ => Some (inr ())
  | DConnect _ => Some (inl (IoError NotFound "no such file"))
  | DListen _ (Some _) => Some (inl (IoError Unsupported "no mode"))
  | DListen _ None => Some (inr ())
  | DSocketExists _ => Some true
  | DEffectiveUid => Some 0
  | DGroupGid _ => Some (Some 990)
  | DChmod _ _ | DChown _ _ => Some (inr ())
  | DSpawnServer => Some ()
  | DSelect => Some EndHostShutdown
  | DCancelHost => Some ()
  | DJoinServer _ => Some ()
  | DAccept => Some None
  | DSpawnClient _ | DSleep _ => Some ()
  end.

Definition plain_cli : DaemonCli :=
  {| dc_secret := None; dc_secret_path := None; dc_socket_path := None; dc_log_path := None;
     dc_platform_docker := false; dc_version_overrides := None |}.

Definition good_run (m : prog dcall ExitCode) : list (event dcall) * option ExitCode :=
  traced_run (λ X e (s : ()), (good_answer e, s)) 1 m ().

Lemma good_run_exec m : exec m (good_run m).1 (good_run m).2.
Proof. apply traced_run_exec. Qed.

Definition no_overrides (_ : string) : string + VersionOverrideFile := inl "no document".

Definition stopped_daemon : prog dcall ExitCode :=
  playitd_main (CB := plain_build) no_overrides no_overrides (λ _, "invalid digit") plain_cli.

Lemma daemon_orderly_witness :
  (good_run stopped_daemon).2 = Some ExitSuccess ∧
  obeys (λ h, daemon_policy default_socket_path (dstate_after h)) [] (good_run stopped_daemon).1 ∧
  left_tidy (dstate_after (good_run stopped_daemon).1) ∧
  went_well (dstate_after (good_run stopped_daemon).1) ∧
  ds_owner (dstate_after (good_run stopped_daemon).1) = Some 990.
Proof.
  assert (Hr : (good_run stopped_daemon).2 = Some ExitSuccess) by (vm_compute; reflexivity).
  destruct (daemon_orderly (CB := plain_build) no_overrides no_overrides (λ _, "invalid digit") plain_cli _ _
              (good_run_exec stopped_daemon)) as [Ho Hq].
  destruct (Hq _ Hr) as (Ht & Hw & _).
  split_and!; [exact Hr|exact Ho|exact Ht|by apply Hw|vm_compute; reflexivity].
Defined.

(** ** Who reaches the daemon's socket

    The machine as a user's process sees it, and what the command line finds
    about the socket that the daemon left there: the class of the user decides,
    and the advice it gives works. *)

(** ** The machine *)

Record machine : Type := {
  mc_metadata : string → io_error + Metadata;
  mc_uid : Z;
  mc_gid : Z;
  mc_groups : option (list Z);
  mc_group : Z → option UnixGroupInfo;
  mc_account : Z → option UnixUserAccount;
}.

Definition machine_answer (M : machine) {X} (e : call X) : option X :=
  match e in call X return option X with
  | ReadMetadata p => Some (mc_metadata M p)
  | EffectiveUid => Some (mc_uid M)
  | EffectiveGid => Some (mc_gid M)
  | GroupAccessList => Some (mc_groups M)
  | GroupByGid gid => Some (mc_group M gid)
  | UserByUid uid => Some (mc_account M uid)
  | _ => None
  end.

(** What a part of the command line finds on a machine. *)
Definition finds {A} (M : machine) (m : Cli A) (ui : ConsoleUi) (a : A) : Prop :=
  ∀ n, run (λ X e (s : ()), (machine_answer M e, s)) n (m ui) () = Returned (ui, inr a) ().

Lemma finds_ret {A} M ui (a : A) : finds M (mret a) ui a.
Proof. by intros n. Qed.

Lemma finds_ask {X} M ui (e : call X) x : machine_answer M e = Some x → finds M (ask e) ui x.
Proof. intros He n. cbn. by rewrite He. Qed.

Lemma run_then {E S A B} (handle : ∀ X, E X → S → option X * S) n (m : prog E A) (k : A → prog E B) s a s' :
  run handle n m s = Returned a s' → run handle n (prog_then m k) s = run handle n (k a) s'.
Proof.
  revert k s. induction m as [A' a'|X A' e k' IH|I R A' body IHb i k' IH]; intros k s; cbn.
  - by intros [= -> ->].
  - destruct (handle X e s) as [[x|] s1]; [apply IH|done].
  - destruct (run_loop _ n i s) as [r s1|s1|]; [apply IH|done|done].
Qed.

Lemma finds_bind {A B} M ui (m : Cli A) (k : A → Cli B) a b :
  finds M m ui a → finds M (k a) ui b → finds M (m ≫= k) ui b.
Proof.
  intros Hm Hk n. unfold mbind, Cli_bind. rewrite (run_then _ _ _ _ _ _ _ (Hm n)). apply Hk.
Qed.

(** ** What is found of the process *)

(** The process has the group. *)
Definition has_group (M : machine) (gid : Z) : bool :=
  bool_decide (mc_gid M = gid) || match mc_groups M with Some l => bool_decide (gid ∈ l) | None => false end.

(** The classes of a file's mode: the owner, the group, everyone else. *)
Definition may_write (M : machine) (md : Metadata) : bool :=
  if decide (mc_uid M = 0) then true
  else
    let bit := if decide (mc_uid M = md_uid md) then 7 else if has_group M (md_gid md) then 4 else 1 in
    Z.testbit (md_mode md) bit.

(** Whether the system lists the user as a member of the group. *)
Definition listed (M : machine) (g : UnixGroupInfo) (a : UnixUserAccount) (gid : Z) : bool :=
  bool_decide (ua_primary_gid a = gid) || bool_decide (ua_username a ∈ gi_members g).

Definition denied (M : machine) (md : Metadata) : LinuxSocketAccessIssue :=
  GenericPermissionDenied (mc_uid M) (mc_gid M) (md_uid md) (md_gid md) (Z.land (md_mode md) 511).

Definition diagnosis (M : machine) (md : Metadata) : option LinuxSocketAccessIssue :=
  if negb (md_is_socket md) then Some NotASocket
  else if may_write M md then None
  else
    match mc_group M (md_gid md), mc_account M (mc_uid M) with
    | Some g, Some a =>
        if decide (gi_name g = PLAYIT_GROUP_NAME) then
          Some (if listed M g a (md_gid md) then PlayitGroupRefreshRequired else PlayitGroupJoinRequired)
        else Some (denied M md)
    | _, _ => Some (denied M md)
    end.

Lemma land_bit v i : 0 ≤ i → negb (Z.land v (2 ^ i) =? 0) = Z.testbit v i.
Proof.
  intros Hi. destruct (Z.testbit v i) eqn:Hb.
  - apply negb_true_iff, Z.eqb_neq. intros H0. assert (Z.testbit (Z.land v (2 ^ i)) i = true) as Ht.
    { rewrite Z.land_spec, Hb, Z.pow2_bits_true by done. done. }
    rewrite H0, Z.bits_0 in Ht. done.
  - apply negb_false_iff, Z.eqb_eq, Z.bits_inj'. intros j Hj. rewrite Z.land_spec, Z.bits_0, Z.pow2_bits_eqb by done.
    destruct (Z.eqb_spec i j) as [<-|]; [by rewrite Hb|by rewrite andb_false_r].
Qed.

Section machine.
Context (M : machine) (ui : ConsoleUi).

Lemma finds_has_group gid : finds M (current_process_has_group gid) ui (has_group M gid).
Proof.
  unfold current_process_has_group, effective_gid, has_group. eapply finds_bind; [by apply finds_ask|].
  cbn beta. case_decide; [rewrite bool_decide_true by done; apply finds_ret|].
  rewrite bool_decide_false by done. eapply finds_bind; [by apply finds_ask|apply finds_ret].
Qed.

Lemma finds_can_write md : finds M (current_user_can_write_socket md) ui (may_write M md).
Proof.
  unfold current_user_can_write_socket, may_write, effective_uid, current_user_in_group.
  eapply finds_bind; [by apply finds_ask|]. cbn beta. case_decide; [apply finds_ret|].
  case_decide; [rewrite <- (land_bit _ 7) by done; apply finds_ret|].
  eapply finds_bind; [apply finds_has_group|]. cbn beta.
  destruct (has_group M (md_gid md)); [rewrite <- (land_bit _ 4) by done|rewrite <- (land_bit _ 1) by done]; apply finds_ret.
Qed.

Lemma finds_group gid :
  finds M (lookup_group_info gid) ui
    ((λ g, {| lg_name := gi_name g; lg_members := gi_members g |}) <$> mc_group M gid).
Proof. unfold lookup_group_info, group_info_by_gid. eapply finds_bind; [by apply finds_ask|apply finds_ret]. Qed.

Lemma finds_membership gid g :
  finds M (playit_group_access_issue gid (Some {| lg_name := gi_name g; lg_members := gi_members g |})) ui
    ((λ a, if listed M g a gid then PlayitGroupRefreshRequired else PlayitGroupJoinRequired) <$> mc_account M (mc_uid M)).
Proof.
  unfold playit_group_access_issue, current_user_account_is_configured_for_group, current_user_account, effective_uid.
  eapply finds_bind; [eapply finds_bind; [eapply finds_bind; [by apply finds_ask|cbn beta; by apply finds_ask]|]|].
  - cbn beta. instantiate (1 := (λ a, listed M g a gid) <$> mc_account M (mc_uid M)).
    destruct (mc_account M (mc_uid M)) as [a|]; [|apply finds_ret]. cbn. unfold listed.
    case_decide; [rewrite (bool_decide_true (ua_primary_gid a = gid)) by done|rewrite (bool_decide_false (ua_primary_gid a = gid)) by done];
      apply finds_ret.
  - cbn beta. destruct (mc_account M (mc_uid M)) as [a|]; [|apply finds_ret]. cbn.
    destruct (listed M g a gid); apply finds_ret.
Qed.

Lemma finds_diagnosis path md :
  mc_metadata M path = inr md → finds M (socket_access_issue path) ui (diagnosis M md).
Proof.
  intros Hmd. unfold socket_access_issue, diagnosis, effective_uid, effective_gid.
  eapply finds_bind; [by apply finds_ask|]. cbn beta. rewrite Hmd. cbn.
  destruct (md_is_socket md); [|apply finds_ret]. cbn [negb].
  eapply finds_bind; [by apply finds_ask|]. eapply finds_bind; [by apply finds_ask|].
  eapply finds_bind; [apply finds_group|]. eapply finds_bind; [apply finds_can_write|]. cbn beta.
  destruct (may_write M md); [apply finds_ret|].
  destruct (mc_group M (md_gid md)) as [g|]; cbn; [|eapply finds_bind; apply finds_ret].
  destruct (decide (gi_name g = PLAYIT_GROUP_NAME)) as [->|Hn].
  - rewrite decide_True by done. eapply finds_bind; [apply finds_membership|].
    destruct (mc_account M (mc_uid M)); apply finds_ret.
  - rewrite decide_False by congruence. eapply finds_bind; [apply finds_ret|].
    destruct (mc_account M (mc_uid M)); apply finds_ret.
Qed.
End machine.

(** ** The socket the daemon leaves *)

(** A socket with the mode the daemon sets. *)
Definition daemon_socket (md : Metadata) : Prop :=
  md_is_socket md = true ∧ Z.land (md_mode md) 511 = PLAYIT_SOCKET_MODE.

(** The process of a user who has joined the group and logged in again. *)
Definition in_group (M : machine) (gid : Z) : machine :=
  {| mc_metadata := mc_metadata M; mc_uid := mc_uid M; mc_gid := mc_gid M;
     mc_groups := Some (gid :: default [] (mc_groups M));
     mc_group := mc_group M; mc_account := mc_account M |}.

Lemma mode_bit v i : 0 ≤ i < 9 → Z.testbit v i = Z.testbit (Z.land v 511) i.
Proof.
  intros Hi. rewrite Z.land_spec. change 511 with (Z.ones 9). rewrite Z.ones_spec_low by lia. by rewrite andb_true_r.
Qed.

Lemma may_write_socket M md :
  daemon_socket md →
  may_write M md = bool_decide (mc_uid M = 0) || bool_decide (mc_uid M = md_uid md) || has_group M (md_gid md).
Proof.
  intros [_ Hm]. unfold may_write.
  destruct (decide (mc_uid M = 0)); [by rewrite bool_decide_true|]. rewrite bool_decide_false by done. cbn [orb].
  destruct (decide (mc_uid M = md_uid md)).
  - rewrite bool_decide_true by done. rewrite mode_bit, Hm by lia. done.
  - rewrite bool_decide_false by done. cbn [orb].
    destruct (has_group M (md_gid md)); rewrite mode_bit, Hm by lia; done.
Qed.

Lemma has_group_joined M gid : has_group (in_group M gid) gid = true.
Proof. unfold has_group. cbn. rewrite (bool_decide_true (gid ∈ _)) by apply list_elem_of_here. apply orb_true_r. Qed.

(** C31: On the socket that the daemon leaves, the command line finds that the
    user has no access problem exactly for root, the socket's owner and
    processes with its group; every other user gets the advice to join the
    group, or to log in again when the system lists them as a member already,
    if the group is playit's and the account is known, and the denial with
    both sides' numbers if not. And the advice works: once the process has the
    group, no problem is left. *)
Theorem daemon_socket_diagnosed (M : machine) (ui : ConsoleUi) (path : string) (md : Metadata) :
  mc_metadata M path = inr md → daemon_socket md →
  finds M (socket_access_issue path) ui (diagnosis M md) ∧
  (diagnosis M md = None ↔ mc_uid M = 0 ∨ mc_uid M = md_uid md ∨ has_group M (md_gid md) = true) ∧
  (∀ g a, diagnosis M md ≠ None → mc_group M (md_gid md) = Some g → gi_name g = PLAYIT_GROUP_NAME →
     mc_account M (mc_uid M) = Some a →
     diagnosis M md = Some (if listed M g a (md_gid md) then PlayitGroupRefreshRequired else PlayitGroupJoinRequired)) ∧
  finds (in_group M (md_gid md)) (socket_access_issue path) ui None.
Proof.
  intros Hmd Hs. pose proof Hs as [Hsock _]. split_and!.
  - by apply finds_diagnosis.
  - unfold diagnosis. rewrite Hsock, (may_write_socket M md Hs). cbn [negb].
    destruct (bool_decide _ || bool_decide _ || _) eqn:Hw.
    + rewrite !orb_true_iff, !bool_decide_eq_true in Hw. tauto.
    + rewrite !orb_false_iff, !bool_decide_eq_false in Hw. destruct Hw as [[H1 H2] H3].
      split; [repeat case_match; done|]. intros [?|[?|?]]; congruence.
  - intros g a Hn Hg Hname Ha. revert Hn. unfold diagnosis. rewrite Hsock, Hg, Ha. cbn [negb].
    destruct (may_write M md); [done|]. by rewrite decide_True.
  - replace None with (diagnosis (in_group M (md_gid md)) md); [by apply finds_diagnosis|].
    unfold diagnosis. rewrite Hsock, (may_write_socket _ md Hs), has_group_joined, orb_true_r. done.
Qed.

(** An account that was added to the group after it logged in. *)
Definition alices_machine : machine :=
  {| mc_metadata _ := inr {| md_is_socket := true; md_uid := 0; md_gid := 990; md_mode := 49152 + 432 |};
     mc_uid := 1000; mc_gid := 1000; mc_groups := Some [1000; 27];
     mc_group gid := if decide (gid = 990) then Some {| gi_name := "playit"; gi_gid := 990; gi_members := ["alice"] |} else None;
     mc_account uid := if decide (uid = 1000) then Some {| ua_username := "alice"; ua_primary_gid := 1000 |} else None |}.

Lemma daemon_socket_diagnosed_witness :
  finds alices_machine (socket_access_issue default_socket_path) {| auto_answer := None; last_display := None |}
    (Some PlayitGroupRefreshRequired) ∧
  finds (in_group alices_machine 990) (socket_access_issue default_socket_path) {| auto_answer := None; last_display := None |} None.
Proof.
  destruct (daemon_socket_diagnosed alices_machine {| auto_answer := None; last_display := None |} default_socket_path _
              eq_refl (conj eq_refl eq_refl)) as (H1 & _ & _ & H4).
  split; [exact H1|exact H4].
Defined.
