(* ===== verification/WindowsHost.v ===== *)
(** * The service on Windows (playitd/src/bin/playitd-service.rs; the Windows
      parts of playitd/src/manager.rs and paths.rs)

    The calls that the Windows programs make; asking the service manager for
    the installed service, starting it and stopping it; and the host that runs
    the daemon as a service. Theorems: every handle that is opened is closed,
    the last one first, and used only while it is open; and the host reports
    its states in order and ends only when the daemon has. *)

From S2P Require Import Prelude OriginLookup Json IpcModel Ipc FileSystem Program CliModel ServiceManager.
From Stdlib Require Import Ascii.
#[local] Open Scope string_scope.
#[local] Open Scope list_scope.
#[local] Open Scope Z_scope.

(** ** Calls *)

(** [std::io::Error::last_os_error]: its code and its text. *)
Record os_error : Type := OsError { os_code : Z; os_text : string }.

Inductive ServiceState : Set := StartPending | SvcRunning | StopPending | SvcStopped.

(** [ServiceStatus] of the windows_service crate, as far as the host sets it. *)
Record ReportedStatus : Type := {
  current_state : ServiceState;
  accepts_stop : bool;
  exit_code : Z;
  wait_hint : Z;
}.

Inductive shutdown_wait : Set := ShutdownAsked | ShutdownDisconnected | ShutdownTimeout.

Inductive wcall : Type → Type :=
  (** the service manager *)
  | OpenSCManager (access : Z) : wcall (option nat)
  | OpenService (manager : nat) (name : string) (access : Z) : wcall (option nat)
  | WStartService (service : nat) : wcall bool
  | ControlService (service : nat) (control : Z) : wcall bool
  | QueryServiceStatusEx (service : nat) : wcall (option Z)
  | CloseServiceHandle (handle : nat) : wcall ()
  | LastOsError : wcall os_error
  (** the daemon's pipe *)
  | WIsRunning (socket_path : string) : wcall bool
  | WConnect (socket_path : string) : wcall (IpcError + nat)
  | WRequest (client : nat) (request : ServiceRequest) : wcall (IpcError + ServiceResponse)
  (** time, the environment, files, processes *)
  | WSleep (millis : Z) : wcall ()
  | WNow : wcall Z
  | ProgramData : wcall (option path)
  | WCurrentExe : wcall (io_error + path)
  | WCreateDirAll (p : path) : wcall (io_error + ())
  | WExists (p : path) : wcall bool
  | WRemoveFile (p : path) : wcall (io_error + ())
  | SpawnProcess (program : path) (args : list string) (flags : Z) : wcall (io_error + nat)
  | TryWait (child : nat) : wcall (io_error + option (option Z))
  | Kill (child : nat) : wcall (io_error + ())
  | Wait (child : nat) : wcall (io_error + option Z)
  | BuildRuntime : wcall bool
  | WEprintln (line : string) : wcall ()
  (** a blocking task of the runtime could be joined *)
  | SpawnBlocking : wcall (option string)
  (** the host of the service *)
  | RegisterHandler (label : string) : wcall (string + ())
  | SetServiceStatus (status : ReportedStatus) : wcall (string + ())
  | RecvShutdown (millis : Z) : wcall shutdown_wait
  (** the shell and COM *)
  | SHGetKnownFolderPath : wcall (string + option nat)
  | WideToString (p : nat) : wcall (string + path)
  | CoTaskMemFree (p : nat) : wcall ()
  | CoInitializeEx : wcall Z
  | CoUninitialize : wcall ()
  | CoCreateShellLink : wcall (string + nat)
  | LinkSetPath (link : nat) (p : path) : wcall (string + ())
  | LinkSetWorkingDirectory (link : nat) (p : path) : wcall (string + ())
  | LinkSetDescription (link : nat) (text : string) : wcall (string + ())
  | LinkCast (link : nat) : wcall (string + nat)
  | PersistSave (file : nat) (p : path) : wcall (string + ()).

Notation W := (prog wcall).

(** ** Paths (paths.rs, playit-ipc/src/paths.rs) *)

(** [Path::with_file_name]. *)
Definition with_file_name (p : path) (name : string) : path :=
  match file_name p with
  | Some _ => default [] (parent p) ++ [name]
  | None => p ++ [name]
  end.

Definition pipe_path : string := "\\.\pipe\playitd-system".

Definition windows_service_data_dir : W path :=
  dir ← perform ProgramData;
  mret (default ["C:\"; "ProgramData"] dir ++ ["playit_gg"]).

Definition windows_service_secret_path : W path :=
  dir ← windows_service_data_dir; mret (dir ++ ["playit.toml"]).

Definition windows_service_log_path : W path :=
  dir ← windows_service_data_dir; mret (dir ++ ["logs"; "playitd.log"]).

(** ** The installed service (manager.rs) *)

Definition INSTALLED_SERVICE_LABEL : string := "playitd".

Definition SC_MANAGER_CONNECT : Z := 0x1.
Definition SERVICE_QUERY_STATUS : Z := 0x4.
Definition SERVICE_START : Z := 0x10.
Definition SERVICE_STOP : Z := 0x20.
Definition SERVICE_CONTROL_STOP : Z := 0x1.
Definition SERVICE_RUNNING : Z := 0x4.
Definition ERROR_SERVICE_ALREADY_RUNNING : Z := 1056.
Definition ERROR_SERVICE_DOES_NOT_EXIST : Z := 1060.
Definition ERROR_SERVICE_NOT_ACTIVE : Z := 1062.

(** A [ServiceHandle] is closed when the function that has it returns. *)
Definition with_handle {A} (h : nat) (m : W A) : W A :=
  r ← m; _ ← perform (CloseServiceHandle h); mret r.

Definition open_windows_service_manager : W (ServiceManagerError + nat) :=
  manager ← perform (OpenSCManager SC_MANAGER_CONNECT);
  match manager with
  | Some m => mret (inr m)
  | None =>
      e ← perform LastOsError;
      mret (inl (NotAvailable ("failed to open Windows service manager: " +:+ os_text e)))
  end.

Inductive ServiceAction : Set := ActionStart | ActionStop.

Definition open_service_error (action : ServiceAction) : W ServiceManagerError :=
  e ← perform LastOsError;
  mret (if decide (os_code e = ERROR_SERVICE_DOES_NOT_EXIST) then ServiceNotFound
        else
          let message := "failed to open Windows service: " +:+ os_text e in
          match action with
          | ActionStart => StartFailed message
          | ActionStop => StopFailed message
          end).

Definition windows_start_installed_service : W (ServiceManagerError + ()) :=
  manager ←! open_windows_service_manager;
  with_handle manager (
    service ← perform (OpenService manager INSTALLED_SERVICE_LABEL (Z.lor SERVICE_START SERVICE_QUERY_STATUS));
    match service with
    | None => e ← open_service_error ActionStart; mret (inl e)
    | Some service =>
        with_handle service (
          started ← perform (WStartService service);
          if (started : bool) then mret (inr ())
          else
            e ← perform LastOsError;
            mret (if decide (os_code e = ERROR_SERVICE_ALREADY_RUNNING) then inr ()
                  else inl (StartFailed (os_text e))))
    end).

Definition windows_stop_installed_service : W (ServiceManagerError + ()) :=
  manager ←! open_windows_service_manager;
  with_handle manager (
    service ← perform (OpenService manager INSTALLED_SERVICE_LABEL (Z.lor SERVICE_STOP SERVICE_QUERY_STATUS));
    match service with
    | None => e ← open_service_error ActionStop; mret (inl e)
    | Some service =>
        with_handle service (
          stopped ← perform (ControlService service SERVICE_CONTROL_STOP);
          if (stopped : bool) then mret (inr ())
          else
            e ← perform LastOsError;
            mret (if decide (os_code e = ERROR_SERVICE_NOT_ACTIVE) then inr ()
                  else inl (StopFailed (os_text e))))
    end).

Definition windows_installed_service_state : W (ServiceManagerError + InstalledServiceState) :=
  manager ←! open_windows_service_manager;
  with_handle manager (
    service ← perform (OpenService manager INSTALLED_SERVICE_LABEL SERVICE_QUERY_STATUS);
    match service with
    | None => mret (inr ServiceStopped)
    | Some service =>
        with_handle service (
          queried ← perform (QueryServiceStatusEx service);
          match queried with
          | None =>
              e ← perform LastOsError;
              mret (inl (NotAvailable ("failed to query Windows service status: " +:+ os_text e)))
          | Some state => mret (inr (if decide (state = SERVICE_RUNNING) then ServiceRunning else ServiceStopped))
          end)
    end).

Definition windows_service_is_running : W (ServiceManagerError + bool) :=
  state ←! windows_installed_service_state;
  mret (inr match state with ServiceRunning => true | _ => false end).

Fixpoint windows_wait_rounds (n : nat) : W (ServiceManagerError + ()) :=
  match n with
  | O => mret (inl (StartFailed "Service did not start within timeout"))
  | S n =>
      _ ← perform (WSleep 100);
      running ← perform (WIsRunning pipe_path);
      if (running : bool) then mret (inr ()) else windows_wait_rounds n
  end.

Definition windows_ensure_service_running : W (ServiceManagerError + ()) :=
  running ← perform (WIsRunning pipe_path);
  if (running : bool) then mret (inr ())
  else _ ←! windows_start_installed_service; windows_wait_rounds 50.

(** ** The daemon's client (playit-ipc/src/ipc.rs) *)

Definition windows_client_call {T} (client : nat) (request : ServiceRequest) (expected : string)
    (extract : ServiceResponse → option T) : W (IpcError + T) :=
  r ← perform (WRequest client request);
  mret (match r with inl e => inl e | inr response => expect response expected extract end).

Definition windows_stop_call (client : nat) : W (IpcError + CommandResponse) :=
  windows_client_call client Stop "stop response"
    (λ r, match r with RespStop x => Some x | _ => None end).

Definition windows_reset_secret_call (client : nat) : W (IpcError + CommandResponse) :=
  windows_client_call client ResetSecret "reset secret response"
    (λ r, match r with RespResetSecret x => Some x | _ => None end).

Definition windows_lifecycle_call (client : nat) : W (IpcError + AgentLifecycle) :=
  windows_client_call client GetState "lifecycle response"
    (λ r, match r with RespState x => Some x | _ => None end).

(** ** The host of the service (playitd-service.rs) *)

Definition START_TIMEOUT : Z := 15000.
Definition STOP_TIMEOUT : Z := 15000.
Definition CREATE_NO_WINDOW : Z := 0x08000000.

Inductive ServiceControl : Set := ControlStop | ControlShutdown | ControlInterrogate | ControlOther.
Inductive HandlerResult : Set := HandlerNoError | HandlerNotImplemented.

(** The handler of the host's controls: whether it sends on the channel, and
    its answer. *)
Definition control_handler (control : ServiceControl) : bool * HandlerResult :=
  match control with
  | ControlStop | ControlShutdown => (true, HandlerNoError)
  | ControlInterrogate => (false, HandlerNoError)
  | ControlOther => (false, HandlerNotImplemented)
  end.

Definition set_service_status (state : ServiceState) (accepts : bool) (code wait : Z) : W (string + ()) :=
  perform (SetServiceStatus
    {| current_state := state; accepts_stop := accepts; exit_code := code; wait_hint := wait |}).

Definition exit_code_from_status (code : option Z) : Z :=
  match code with
  | Some code => if 0 <=? code then code else 1
  | None => 1
  end.

Definition spawn_daemon_process : W (io_error + nat) :=
  secret_path ← windows_service_secret_path;
  log_path ← windows_service_log_path;
  _ ←! (match parent secret_path with Some p => perform (WCreateDirAll p) | None => mret (inr ()) end);
  _ ←! (match parent log_path with Some p => perform (WCreateDirAll p) | None => mret (inr ()) end);
  exe ←! perform WCurrentExe;
  perform (SpawnProcess (with_file_name exe "playitd.exe")
             ["--socket-path"; pipe_path; "--secret-path"; display secret_path; "--log-path"; display log_path]
             CREATE_NO_WINDOW).

Inductive StartupState : Set := Ready | Exited (code : Z) | TimedOut.

Definition startup_round (child : nat) (deadline : Z) : W (() + StartupState) :=
  now ← perform WNow;
  if decide (now < deadline) then
    status ← perform (TryWait child);
    match status with
    | inr (Some status) => mret (inr (Exited (exit_code_from_status status)))
    | inl _ => mret (inr (Exited 1))
    | inr None =>
        running ← perform (WIsRunning pipe_path);
        if (running : bool) then mret (inr Ready)
        else _ ← perform (WSleep 200); mret (inl ())
    end
  else mret (inr TimedOut).

Definition wait_for_startup_ready (child : nat) (timeout : Z) : W StartupState :=
  runtime ← perform BuildRuntime;
  if (runtime : bool) then
    now ← perform WNow;
    iterate (λ _, startup_round child (now + timeout)) ()
  else mret TimedOut.

Definition request_child_shutdown : W () :=
  runtime ← perform BuildRuntime;
  if (runtime : bool) then
    client ← perform (WConnect pipe_path);
    match client with
    | inr client => _ ← windows_stop_call client; mret ()
    | inl _ => mret ()
    end
  else mret ().

Definition waited_exit_code (child : nat) : W Z :=
  status ← perform (Wait child);
  mret (match status with inr status => exit_code_from_status status | inl _ => 1 end).

(** Left with the code of an exit that was seen, or to wait after a kill. *)
Definition child_exit_round (child : nat) (deadline : Z) : W (() + option Z) :=
  status ← perform (TryWait child);
  match status with
  | inr (Some status) => mret (inr (Some (exit_code_from_status status)))
  | inl _ => mret (inr (Some 1))
  | inr None =>
      now ← perform WNow;
      if decide (now < deadline) then _ ← perform (WSleep 200); mret (inl ())
      else _ ← perform (Kill child); mret (inr None)
  end.

Definition wait_for_child_exit (child : nat) (timeout : Z) : W Z :=
  now ← perform WNow;
  seen ← iterate (λ _, child_exit_round child (now + timeout)) ();
  match seen with
  | Some code => mret code
  | None => waited_exit_code child
  end.

Definition terminate_child (child : nat) : W Z :=
  _ ← perform (Kill child); waited_exit_code child.

Definition stop_or_exit_round (child : nat) : W (() + (string + Z)) :=
  status ← perform (TryWait child);
  match status with
  | inr (Some status) => mret (inr (inr (exit_code_from_status status)))
  | _ =>
      asked ← perform (RecvShutdown 250);
      match asked with
      | ShutdownTimeout => mret (inl ())
      | ShutdownAsked | ShutdownDisconnected =>
          reported ← set_service_status StopPending false 0 STOP_TIMEOUT;
          match reported with
          | inl e => mret (inr (inl e))
          | inr _ =>
              _ ← request_child_shutdown;
              code ← wait_for_child_exit child STOP_TIMEOUT;
              mret (inr (inr code))
          end
      end
  end.

Definition wait_for_stop_or_exit (child : nat) : W (string + Z) :=
  iterate (λ _, stop_or_exit_round child) ().

Definition report_stopped (code : Z) : W (string + ()) := set_service_status SvcStopped false code 0.

Definition run_service : W (string + ()) :=
  _ ←! perform (RegisterHandler INSTALLED_SERVICE_LABEL);
  _ ←! set_service_status StartPending false 0 START_TIMEOUT;
  spawned ← spawn_daemon_process;
  match spawned with
  | inl error =>
      _ ← perform (WEprintln ("failed to spawn playitd: " +:+ err_msg error));
      report_stopped 1
  | inr child =>
      ready ← wait_for_startup_ready child START_TIMEOUT;
      match ready with
      | Exited code => report_stopped code
      | TimedOut => code ← terminate_child child; report_stopped code
      | Ready =>
          _ ←! set_service_status SvcRunning true 0 0;
          code ←! wait_for_stop_or_exit child;
          report_stopped code
      end
  end.

Definition service_main : W () :=
  r ← run_service;
  match r with
  | inl error => perform (WEprintln ("playitd-service error: " +:+ error))
  | inr _ => mret ()
  end.

(** ** Handles of the service manager *)

(** The handles that are open, the last one first. *)
Definition handles_step (open : list nat) (ev : event wcall) : list nat :=
  match ev with
  | @Event _ _ e x =>
      match e in wcall X return X → list nat with
      | OpenSCManager _ | OpenService _ _ _ => λ r, match r with Some h => h :: open | None => open end
      | CloseServiceHandle _ => λ _, tail open
      | _ => λ _, open
      end x
  end.

(** A handle is used while it is open, and closed before those that were
    opened earlier. *)
Definition handles_policy (open : list nat) (ev : event wcall) : Prop :=
  match ev_call ev with
  | OpenService h _ _ | WStartService h | ControlService h _ | QueryServiceStatusEx h | CloseServiceHandle h =>
      head open = Some h
  | _ => True
  end.

Notation handled start := (λ h ev, handles_policy (summary handles_step start h) ev).

(** Follows a program call by call from a state that is known: each call must
    be allowed there, each answer is a case. *)
Ltac follow_case m :=
  lazymatch m with
  | prog_then ?m' _ => follow_case m'
  | match ?x with _ => _ end => destruct x eqn:?; subst
  end.

Ltac follow_answer x :=
  lazymatch type of x with
  | sum _ _ => destruct x
  | unit => destruct x
  | bool => destruct x
  | option _ => destruct x
  | shutdown_wait => destruct x
  | _ => idtac
  end.

Ltac follow_step :=
  lazymatch goal with
  | |- triple _ _ (Ret _) _ => let Hs := fresh in apply triple_ret; intros ? Hs; cbn beta iota; rewrite Hs; clear Hs
  | |- triple _ _ (Vis _ _) _ => apply track_vis; [intros ?|intros ?x; follow_answer x]
  | |- triple _ _ ?m _ =>
      first [ progress (unfold prog_map_err, prog_try, perform, mbind, prog_bind, mret, prog_ret; cbn [prog_then])
            | follow_case m ]
  end.

Ltac follow := repeat follow_step.

Section handles.
Context (start : list nat).

Lemma windows_service_state_handles s :
  triple (handled start) (λ h, summary handles_step start h = s) windows_installed_service_state
    (λ _ h, summary handles_step start h = s).
Proof. unfold windows_installed_service_state, open_windows_service_manager, with_handle. follow; done. Qed.

Lemma windows_start_handles s :
  triple (handled start) (λ h, summary handles_step start h = s) windows_start_installed_service
    (λ _ h, summary handles_step start h = s).
Proof. unfold windows_start_installed_service, open_windows_service_manager, with_handle, open_service_error. follow; done. Qed.

Lemma windows_stop_handles s :
  triple (handled start) (λ h, summary handles_step start h = s) windows_stop_installed_service
    (λ _ h, summary handles_step start h = s).
Proof. unfold windows_stop_installed_service, open_windows_service_manager, with_handle, open_service_error. follow; done. Qed.
End handles.

(** ** The order of a run of the host *)

Inductive child_life : Set :=
  | NoChild
  | ChildRuns (child : nat)
  | ChildEnded (child : nat)
  (** the system would not say *)
  | ChildUnknown (child : nat).

Definition child_id (c : child_life) : option nat :=
  match c with
  | NoChild => None
  | ChildRuns child | ChildEnded child | ChildUnknown child => Some child
  end.

Record hstate : Type := HState {
  (** the last state that was reported, and that a report failed *)
  h_status : option ServiceState;
  h_failed : bool;
  h_child : child_life;
  (** the code to report *)
  h_code : Z;
  (** the daemon answered at its pipe when it was last asked *)
  h_reached : bool;
  (** there is no runtime to ask it with *)
  h_unable : bool;
  h_asked : bool;
  (** when the wait began, and the last time that was read *)
  h_since : option Z;
  h_now : Z;
}.

Definition host_start : hstate := HState None false NoChild 1 false false false None 0.

Definition hstep (s : hstate) (ev : event wcall) : hstate :=
  let '(HState st fa ch co re un asked si no) := s in
  match ev with
  | @Event _ _ e x =>
      match e in wcall X return X → hstate with
      | RegisterHandler _ => λ r,
          match r with inl _ => HState st true ch co re un asked si no | inr _ => s end
      | SetServiceStatus status => λ r,
          match r with
          | inl _ => HState st true ch co re un asked si no
          | inr _ => HState (Some (current_state status)) fa ch co re un asked None no
          end
      | SpawnProcess _ _ _ => λ r,
          match r with inr child => HState st fa (ChildRuns child) co re un asked si no | inl _ => s end
      | TryWait child => λ r,
          match r with
          | inr (Some code) => HState st fa (ChildEnded child) (exit_code_from_status code) re un asked si no
          | inr None => HState st fa (ChildRuns child) co re un asked si no
          | inl _ => HState st fa (ChildUnknown child) 1 re un asked si no
          end
      | Wait child => λ r,
          match r with
          | inr code => HState st fa (ChildEnded child) (exit_code_from_status code) re un asked si no
          | inl _ => HState st fa (ChildUnknown child) 1 re un asked si no
          end
      | WIsRunning _ => λ r, HState st fa ch co r un asked si no
      | BuildRuntime => λ r, HState st fa ch co re (negb r) asked si no
      | RecvShutdown _ => λ r,
          match r with ShutdownTimeout => s | _ => HState st fa ch co re un true si no end
      | WNow => λ now, HState st fa ch co re un asked (Some (default now si)) now
      | _ => λ _, s
      end x
  end.

(** The wait has lasted as long as it may. *)
Definition overdue (s : hstate) (timeout : Z) : Prop := ∃ t, h_since s = Some t ∧ t + timeout <= h_now s.

Definition host_policy (s : hstate) (ev : event wcall) : Prop :=
  match ev_call ev with
  | SetServiceStatus status =>
      match current_state status with
      | StartPending => h_status s = None ∧ h_child s = NoChild
      | SvcRunning =>
          h_status s = Some StartPending ∧ h_reached s = true ∧ (∃ child, h_child s = ChildRuns child) ∧
          accepts_stop status = true
      | StopPending =>
          h_status s = Some SvcRunning ∧ h_asked s = true ∧ (∀ child, h_child s ≠ ChildEnded child)
      | SvcStopped =>
          (h_status s ≠ None ∧ h_status s ≠ Some SvcStopped) ∧ (∀ child, h_child s ≠ ChildRuns child) ∧
          accepts_stop status = false ∧ exit_code status = h_code s
      end
  | SpawnProcess _ _ _ => h_status s = Some StartPending ∧ h_child s = NoChild
  | TryWait child | Wait child => child_id (h_child s) = Some child
  | Kill child =>
      h_child s = ChildRuns child ∧
      (h_status s = Some StartPending ∧ (h_unable s = true ∨ overdue s START_TIMEOUT) ∨
       h_status s = Some StopPending ∧ overdue s STOP_TIMEOUT)
  | WConnect _ => h_status s = Some StopPending
  | WRequest _ request => h_status s = Some StopPending ∧ request = Stop
  | _ => True
  end.

Notation hosted := (λ h ev, host_policy (summary hstep host_start h) ev).
Notation host_at s := (λ h, summary hstep host_start h = s).

(** Closes a goal about a state that is known. *)
Ltac by_host := cbn in *; repeat split; intros; simplify_eq/=; eauto; try done; try congruence; try lia.

Lemma spawn_daemon_hosted s :
  h_status s = Some StartPending → h_child s = NoChild →
  triple hosted (host_at s) spawn_daemon_process
    (λ r h, summary hstep host_start h = match r with inl _ => s | inr child =>
       HState (h_status s) (h_failed s) (ChildRuns child) (h_code s) (h_reached s) (h_unable s) (h_asked s) (h_since s) (h_now s) end).
Proof.
  intros Hs Hc. destruct s. simpl in *. subst.
  unfold spawn_daemon_process, windows_service_secret_path, windows_service_log_path, windows_service_data_dir.
  follow; by_host.
Qed.

(** The daemon started, and its start is being waited for. *)
Definition starting (child : nat) (s : hstate) : Prop :=
  h_status s = Some StartPending ∧ h_failed s = false ∧ h_child s = ChildRuns child.

Definition startup_seen (child : nat) (r : StartupState) (s : hstate) : Prop :=
  h_status s = Some StartPending ∧ h_failed s = false ∧
  match r with
  | Ready => h_child s = ChildRuns child ∧ h_reached s = true
  | Exited code => (∀ child, h_child s ≠ ChildRuns child) ∧ h_code s = code
  | TimedOut => h_child s = ChildRuns child ∧ (h_unable s = true ∨ overdue s START_TIMEOUT)
  end.

Lemma startup_hosted child s :
  starting child s → h_since s = None →
  triple hosted (host_at s) (wait_for_startup_ready child START_TIMEOUT)
    (λ r h, startup_seen child r (summary hstep host_start h)).
Proof.
  intros (Hs & Hf & Hc) Hsi. destruct s. simpl in *. subst.
  unfold wait_for_startup_ready, startup_round.
  follow; [by_host|by_host| |by_host; unfold startup_seen; by_host].
  eapply (track_iter hstep host_start host_policy (λ _ s, starting child s ∧ h_since s = Some x)).
  { by_host. }
  intros [] s ((Hs & Hf & Hc) & Hsi). destruct s. simpl in *. subst.
  follow; try by_host; unfold startup_seen, starting, overdue; by_host.
  right. exists x. split; [done|]. lia.
Qed.

Definition stopping (child : nat) (s : hstate) : Prop :=
  h_status s = Some StopPending ∧ h_failed s = false ∧ child_id (h_child s) = Some child.

(** What may be reported as the end. *)
Definition ended (code : Z) (s : hstate) : Prop :=
  (∀ child, h_child s ≠ ChildRuns child) ∧ h_code s = code.

Lemma waited_hosted child s :
  child_id (h_child s) = Some child →
  triple hosted (host_at s) (waited_exit_code child)
    (λ code h, h_status (summary hstep host_start h) = h_status s ∧
       h_failed (summary hstep host_start h) = h_failed s ∧ ended code (summary hstep host_start h)).
Proof.
  intros Hc. destruct s. simpl in *. unfold waited_exit_code, ended. follow; by_host.
Qed.

Lemma child_exit_hosted child s :
  stopping child s → h_since s = None →
  triple hosted (host_at s) (wait_for_child_exit child STOP_TIMEOUT)
    (λ code h, h_status (summary hstep host_start h) = Some StopPending ∧
       h_failed (summary hstep host_start h) = false ∧ ended code (summary hstep host_start h)).
Proof.
  intros (Hs & Hf & Hc) Hsi. destruct s. simpl in *. subst. unfold wait_for_child_exit.
  follow; [by_host|].
  apply (track_then hstep host_start host_policy _ _
    (λ r s, stopping child s ∧ match r with Some code => ended code s | None => True end)).
  - apply (track_iter hstep host_start host_policy (λ _ s, stopping child s ∧ h_since s = Some x)
      (λ r s, stopping child s ∧ match r with Some code => ended code s | None => True end)); [by_host|].
    intros [] s ((Hs & Hf & Hc') & Hsi). destruct s. simpl in *. subst.
    unfold child_exit_round, stopping, ended, overdue. follow; try by_host.
    right. split; [done|]. exists x. cbn. split; [done|]. lia.
  - intros [code|] s' ((Hs & Hf & Hc') & He).
    + apply triple_ret. by intros h ->.
    + eapply triple_conseq; [by apply waited_hosted|done|].
      intros code h (-> & -> & Hend). done.
Qed.

Lemma shutdown_hosted child s :
  stopping child s → h_since s = None →
  triple hosted (host_at s) request_child_shutdown
    (λ _ h, stopping child (summary hstep host_start h) ∧ h_since (summary hstep host_start h) = None).
Proof.
  intros (Hs & Hf & Hc) Hsi. destruct s. simpl in *. subst.
  unfold request_child_shutdown, windows_stop_call, windows_client_call, stopping. follow; by_host.
Qed.

(** The daemon serves. *)
Definition serving (child : nat) (s : hstate) : Prop :=
  h_status s = Some SvcRunning ∧ h_failed s = false ∧ child_id (h_child s) = Some child.

Definition left_serving (r : string + Z) (s : hstate) : Prop :=
  match r with
  | inl _ => h_failed s = true
  | inr code => (h_status s = Some SvcRunning ∨ h_status s = Some StopPending) ∧ h_failed s = false ∧ ended code s
  end.

Lemma stop_or_exit_hosted child s :
  serving child s →
  triple hosted (host_at s) (wait_for_stop_or_exit child)
    (λ r h, left_serving r (summary hstep host_start h)).
Proof.
  intros Hs. apply (track_iter hstep host_start host_policy (λ _ s, serving child s)); [done|].
  clear s Hs. intros [] s (Hs & Hf & Hc). destruct s. simpl in *. subst.
  unfold stop_or_exit_round, set_service_status. follow; try solve [unfold left_serving, ended, serving; by_host].
  all: apply (track_then hstep host_start host_policy _ _ (λ _ s, stopping child s ∧ h_since s = None));
    [apply shutdown_hosted; by_host|].
  all: intros [] s' [Hst Hsi];
    apply (track_then hstep host_start host_policy _ _
      (λ code s, h_status s = Some StopPending ∧ h_failed s = false ∧ ended code s));
    [by apply child_exit_hosted|].
  all: intros code s'' (Hs & Hf & He); apply triple_ret; intros h ->; by cbn; eauto.
Qed.

Lemma terminate_hosted child s :
  h_status s = Some StartPending → h_child s = ChildRuns child → h_unable s = true ∨ overdue s START_TIMEOUT →
  triple hosted (host_at s) (terminate_child child)
    (λ code h, h_status (summary hstep host_start h) = h_status s ∧
       h_failed (summary hstep host_start h) = h_failed s ∧ ended code (summary hstep host_start h)).
Proof.
  intros Hs Hc Ho. destruct s. simpl in *. subst. unfold terminate_child, waited_exit_code, ended.
  follow; by_host.
Qed.

(** How a run of the host ends: reported, with the daemon ended, never started
    or in a state the system would not tell; or a report failed. *)
Definition host_left (r : string + ()) (s : hstate) : Prop :=
  match r with
  | inl _ => h_failed s = true
  | inr _ => h_status s = Some SvcStopped ∧ h_failed s = false ∧ ∀ child, h_child s ≠ ChildRuns child
  end.

Lemma report_stopped_hosted code s :
  h_failed s = false → h_status s ≠ None → h_status s ≠ Some SvcStopped → ended code s →
  triple hosted (host_at s) (report_stopped code) (λ r h, host_left r (summary hstep host_start h)).
Proof.
  intros Hf Hn Hst [Hc <-]. destruct s. simpl in *. subst.
  unfold report_stopped, set_service_status, host_left. follow; by_host.
Qed.

Lemma run_service_hosted :
  triple hosted (host_at host_start) run_service (λ r h, host_left r (summary hstep host_start h)).
Proof.
  unfold run_service, set_service_status.
  follow; try solve [by_host].
  apply (track_then hstep host_start host_policy _ _ (λ r s, h_since s = None ∧ match r with
    | inl _ => h_status s = Some StartPending ∧ h_failed s = false ∧ ended 1 s
    | inr child => starting child s end)).
  { eapply triple_conseq; [|intros h Hh; exact Hh|]; [by apply spawn_daemon_hosted|]. intros [?|child] h Hh; rewrite Hh; by_host. }
  intros [error|child] s [Hsi Hs].
  { destruct Hs as (Hs & Hf & He). destruct s. simpl in *. subst. follow; [by_host|]. by apply report_stopped_hosted. }
  apply (track_then hstep host_start host_policy _ _ (startup_seen child)); [by apply startup_hosted|].
  clear s Hsi Hs. intros [|code|] s (Hs & Hf & Hr); [| |destruct Hr as [Hc Hr]].
  - destruct Hr as [Hc Hr]. destruct s. simpl in *. subst.
    follow; [by_host; eauto|by_host|].
    match goal with |- triple _ ?P (Iter _ _ ?k) ?Q => change (triple hosted P (wait_for_stop_or_exit child ≫= k) Q) end.
    apply (track_then hstep host_start host_policy _ _ left_serving); [by apply stop_or_exit_hosted|].
    intros [e|code] s; cbn; [intros Hf; apply triple_ret; by intros h ->|].
    intros (Hs & Hf & He). apply report_stopped_hosted; [done|destruct Hs; congruence..|done].
  - by apply report_stopped_hosted; [done|congruence..|].
  - apply (track_then hstep host_start host_policy _ _
      (λ code s, h_status s = Some StartPending ∧ h_failed s = false ∧ ended code s)).
    { eapply triple_conseq; [|intros h Hh; exact Hh|]; [by apply terminate_hosted|].
      cbn beta. intros code h. by rewrite Hs, Hf. }
    clear s Hs Hf Hc Hr. intros code s (Hs & Hf & He). by apply report_stopped_hosted; [done|congruence..|].
Qed.

(** C20: The Windows service host keeps its order, whatever the system
    answers. It reports that it starts, that it runs, that it stops and that
    it has stopped, in this order; it starts the daemon once, and reports that
    it runs only when the daemon runs and answers at its pipe; it asks the
    daemon to stop only after it has reported that it stops, because it was
    asked to; it kills the daemon only when a wait of fifteen seconds is over
    (or it has no means to ask it). It reports that it has stopped, with the
    code of the daemon's end, when the daemon has ended, and with code 1 when
    the daemon was never started or the system would not say whether it has
    ended (it may then still run), but never when the system last said that
    it runs. When it returns, it has reported that in one of these cases, or
    a report failed. *)
Theorem service_host_orderly (t : list (event wcall)) (o : option (string + ())) :
  exec run_service t o →
  obeys hosted [] t ∧ ∀ r, o = Some r → host_left r (summary hstep host_start t).
Proof. intros Ht. by apply (run_service_hosted [] t o). Qed.


(** ** A machine

    The state is whether the daemon runs; the service manager is asked to stop
    it. *)
Definition windows_machine X (e : wcall X) (runs : bool) : option X * bool :=
  match e in wcall X return option X * bool with
  | OpenSCManager _ => (Some (Some 1%nat), runs)
  | OpenService _ _ _ => (Some (Some 2%nat), runs)
  | WStartService _ => (Some true, true)
  | ControlService _ _ => (Some runs, false)
  | QueryServiceStatusEx _ => (Some (Some (if runs then SERVICE_RUNNING else 1)), runs)
  | CloseServiceHandle _ => (Some (), runs)
  | LastOsError => (Some (OsError ERROR_SERVICE_NOT_ACTIVE "not active"), runs)
  | WIsRunning _ => (Some runs, runs)
  | WConnect _ => (Some (if runs then inr 3%nat else inl NotRunning), runs)
  | WRequest _ request =>
      let accepted := {| cr_accepted := true; cr_message := None |} in
      match request with
      | Stop => (Some (inr (RespStop accepted)), false)
      | ResetSecret => (Some (inr (RespResetSecret accepted)), runs)
      | _ => (Some (inr (RespState Starting)), runs)
      end
  | WSleep _ => (Some (), runs)
  | WNow => (Some 0, runs)
  | ProgramData => (Some None, runs)
  | WCurrentExe => (Some (inr ["C:\"; "playit"; "playitd-service.exe"]), runs)
  | WCreateDirAll _ => (Some (inr ()), runs)
  | WExists _ => (Some true, runs)
  | WRemoveFile _ => (Some (inr ()), runs)
  | SpawnProcess _ _ _ => (Some (inr 7%nat), true)
  | TryWait _ => (Some (inr (if runs then None else Some (Some 0))), runs)
  | Kill _ => (Some (inr ()), false)
  | Wait _ => (Some (inr (Some 0)), runs)
  | BuildRuntime => (Some true, runs)
  | WEprintln _ => (Some (), runs)
  | SpawnBlocking => (Some None, runs)
  | RegisterHandler _ => (Some (inr ()), runs)
  | SetServiceStatus _ => (Some (inr ()), runs)
  | RecvShutdown _ => (Some ShutdownAsked, runs)
  | SHGetKnownFolderPath => (Some (inr (Some 4%nat)), runs)
  | WideToString _ => (Some (inr ["C:\"; "Startup"]), runs)
  | CoTaskMemFree _ => (Some (), runs)
  | CoInitializeEx => (Some 0, runs)
  | CoUninitialize => (Some (), runs)
  | CoCreateShellLink => (Some (inr 5%nat), runs)
  | LinkSetPath _ _ => (Some (inr ()), runs)
  | LinkSetWorkingDirectory _ _ => (Some (inr ()), runs)
  | LinkSetDescription _ _ => (Some (inr ()), runs)
  | LinkCast _ => (Some (inr 6%nat), runs)
  | PersistSave _ _ => (Some (inr ()), runs)
  end.

Definition hosted_run : list (event wcall) * option (string + ()) := traced_run windows_machine 2 run_service false.

Lemma service_host_orderly_witness :
  hosted_run.2 = Some (inr ()) ∧ obeys hosted [] hosted_run.1 ∧
  h_status (summary hstep host_start hosted_run.1) = Some SvcStopped ∧
  h_child (summary hstep host_start hosted_run.1) = ChildEnded 7.
Proof.
  assert (Hr : hosted_run.2 = Some (inr ())) by (vm_compute; reflexivity).
  destruct (service_host_orderly _ _ (traced_run_exec windows_machine 2 run_service false)) as [Ho Hq].
  destruct (Hq _ Hr) as (Hs & _ & _).
  split_and!; [exact Hr|exact Ho|exact Hs|vm_compute; reflexivity].
Defined.
