(* ===== verification/Tray.v ===== *)
(** * The tray on Windows (playitd-tray)

    The tray's two threads. The frontend is a window: its procedure handles one
    message at a time, but a message box or the menu that it shows has a
    message loop of its own, which calls the procedure again. The backend is a
    thread that takes requests from a queue, asks and changes the service, and
    puts what it found into another queue. The frontend's handlers are programs
    of atomic pieces of work on what the threads share; the machine runs the
    stack of handlers and the backend step by step. *)

From S2P Require Import Prelude OriginLookup Json IpcModel Ipc FileSystem Program CliModel ServiceManager WindowsHost.
From Stdlib Require Import Ascii.
#[local] Open Scope string_scope.
#[local] Open Scope list_scope.
#[local] Open Scope Z_scope.

(** ** Requests and responses (protocol.rs) *)

Inductive BackendRequest : Set := RefreshStatus | StartService | StopService | ResetAgent | BackendShutdown.

Inductive BackendRequestKind : Set := KindRefreshStatus | KindStartService | KindStopService | KindResetAgent.

#[global] Instance BackendRequest_eq_dec : EqDecision BackendRequest.
Proof. solve_decision. Defined.

#[global] Instance BackendRequestKind_eq_dec : EqDecision BackendRequestKind.
Proof. solve_decision. Defined.

Record ServiceStateSnapshot : Set := {
  snap_service_running : bool;
  snap_reset_agent_enabled : bool;
}.

Record BackendResponse : Type := RequestCompleted {
  resp_request : BackendRequestKind;
  resp_snapshot : ServiceStateSnapshot;
  resp_error : option string;
}.

(** Texts of the libraries: of a result code, and of a closed channel. *)
Class TrayBuild : Type := {
  hresult_text : Z → string;
  kanal_error : string;
}.

(** ** The startup shortcut (startup_shortcut.rs) *)

Section shortcut.
Context {TB : TrayBuild}.

Definition TRAY_SHORTCUT_NAME : string := "Playit Tray.lnk".
Definition TRAY_SHORTCUT_DESCRIPTION : string :=
  "Shows the Playit tray icon when the background service is running.".

Definition known_folder_shortcut_path (folder_name : string) : W (string + path) :=
  wide_path ←! prog_map_err (λ error, "Failed to resolve " +:+ folder_name +:+ ": " +:+ error)
                 (perform SHGetKnownFolderPath);
  match wide_path with
  | None => mret (inl (folder_name +:+ " path was empty"))
  | Some wide_path =>
      path ←! prog_map_err (λ error, "Failed to read " +:+ folder_name +:+ " path: " +:+ error)
                (perform (WideToString wide_path));
      _ ← perform (CoTaskMemFree wide_path);
      mret (inr (path ++ [TRAY_SHORTCUT_NAME]))
  end.

Definition startup_shortcut_path : W (string + path) :=
  known_folder_shortcut_path "the current user's Startup folder".

Definition startup_shortcut_exists : W (string + bool) :=
  p ←! startup_shortcut_path; b ← perform (WExists p); mret (inr b).

Definition remove_startup_shortcut : W (string + ()) :=
  shortcut_path ←! startup_shortcut_path;
  present ← perform (WExists shortcut_path);
  if (present : bool) then
    prog_map_err (λ error, "Failed to delete startup shortcut at " +:+ display shortcut_path +:+ ": " +:+ err_msg error)
      (perform (WRemoveFile shortcut_path))
  else mret (inr ()).

Definition S_OK : Z := 0.
Definition S_FALSE : Z := 1.
Definition RPC_E_CHANGED_MODE : Z := 0x80010106 - 2 ^ 32.

(** [ComInitialization]: whether to uninitialise when it is dropped. *)
Definition initialize_com : W (string + bool) :=
  result ← perform CoInitializeEx;
  mret (if decide (result = S_OK ∨ result = S_FALSE) then inr true
        else if decide (result = RPC_E_CHANGED_MODE) then inr false
        else inl ("Failed to initialize COM for the tray shortcut helper (HRESULT " +:+ hresult_text result +:+ ")")).

Definition create_startup_shortcut (tray_path working_directory shortcut_path : path) : W (string + ()) :=
  link ←! prog_map_err (λ error, "Failed to create the ShellLink COM object: " +:+ error)
            (perform CoCreateShellLink);
  _ ←! prog_map_err (λ error, "Failed to set the tray shortcut target to " +:+ display tray_path +:+ ": " +:+ error)
         (perform (LinkSetPath link tray_path));
  _ ←! prog_map_err (λ error, "Failed to set the tray shortcut working directory to " +:+
                              display working_directory +:+ ": " +:+ error)
         (perform (LinkSetWorkingDirectory link working_directory));
  _ ←! prog_map_err (λ error, "Failed to set the tray shortcut description: " +:+ error)
         (perform (LinkSetDescription link TRAY_SHORTCUT_DESCRIPTION));
  file ←! prog_map_err (λ error, "Failed to query the tray shortcut persistence interface: " +:+ error)
            (perform (LinkCast link));
  prog_map_err (λ error, "Failed to save the startup shortcut at " +:+ display shortcut_path +:+ ": " +:+ error)
    (perform (PersistSave file shortcut_path)).

Definition ensure_startup_shortcut : W (string + ()) :=
  shortcut_path ←! startup_shortcut_path;
  tray_path ←! prog_map_err (λ error, "Failed to resolve playitd-tray.exe path: " +:+ err_msg error)
                 (perform WCurrentExe);
  match parent tray_path with
  | None => mret (inl ("Failed to resolve the working directory for " +:+ display tray_path))
  | Some working_directory =>
      _ ←! (match parent shortcut_path with
            | Some dir =>
                prog_map_err (λ error, "Failed to create the current user's Startup folder at " +:+
                                       display dir +:+ ": " +:+ err_msg error)
                  (perform (WCreateDirAll dir))
            | None => mret (inr ())
            end);
      com ←! initialize_com;
      r ← create_startup_shortcut tray_path working_directory shortcut_path;
      _ ← (if (com : bool) then perform CoUninitialize else mret ());
      mret r
  end.

End shortcut.

(** ** What the backend does (backend_actions.rs) *)

Definition CREATE_NEW_CONSOLE : Z := 0x10.

Definition playit_cli_path : W (string + path) :=
  exe ←! prog_map_err (λ error, "Failed to resolve playit.exe path: " +:+ err_msg error) (perform WCurrentExe);
  mret (inr (with_file_name exe "playit.exe")).

Definition launch_playit : W (string + ()) :=
  cli_path ←! playit_cli_path;
  _ ←! prog_map_err (λ error, "Could not open playit.exe: " +:+ err_msg error)
         (perform (SpawnProcess cli_path [] CREATE_NEW_CONSOLE));
  mret (inr ()).

Definition launch_status_window : W (string + ()) :=
  cli_path ←! playit_cli_path;
  _ ←! prog_map_err (λ error, "Could not open the playit status window: " +:+ err_msg error)
         (perform (SpawnProcess cli_path ["attach"] CREATE_NEW_CONSOLE));
  mret (inr ()).

Definition response_error_title (request : BackendRequestKind) : string :=
  match request with
  | KindRefreshStatus => "Failed to refresh playit tray"
  | KindStartService => "Failed to start playit service"
  | KindStopService => "Failed to stop playit service"
  | KindResetAgent => "Failed to reset playit agent setup"
  end.

Definition query_service_running_sync : W bool :=
  r ← windows_service_is_running;
  mret (match r with inr running => running | inl _ => false end).

(** [spawn_blocking]: the task cannot be joined, or it has run. *)
Definition query_service_running_async : W bool :=
  failed ← perform SpawnBlocking;
  match failed with
  | Some _ => mret false
  | None => query_service_running_sync
  end.

Definition stop_installed_service_async : W (string + ()) :=
  failed ← perform SpawnBlocking;
  match failed with
  | Some error => mret (inl ("Failed to join installed service stop task: " +:+ error))
  | None => prog_map_err display_manager_error windows_stop_installed_service
  end.

Section backend.
Context {CB : CliBuild}.

Definition query_service_lifecycle_async : W (string + AgentLifecycle) :=
  client ←! prog_map_err (λ error, "Could not connect to the playit service: " +:+ display_ipc_error error)
              (perform (WConnect pipe_path));
  prog_map_err (λ error, "Could not read the playit service status: " +:+ display_ipc_error error)
    (windows_lifecycle_call client).

Definition query_reset_agent_enabled_async (service_running : bool) : W bool :=
  if service_running then
    lifecycle ← query_service_lifecycle_async;
    mret (match lifecycle with inr WaitingForSecret | inr Stopping => false | _ => true end)
  else mret false.

Definition query_service_state_snapshot_async : W ServiceStateSnapshot :=
  service_running ← query_service_running_async;
  reset_agent_enabled ← query_reset_agent_enabled_async service_running;
  mret {| snap_service_running := service_running; snap_reset_agent_enabled := reset_agent_enabled |}.

Definition start_service_async : W (string + ()) :=
  running ← query_service_running_async;
  if (running : bool) then mret (inr ())
  else
    prog_map_err (λ error, "The background service did not start: " +:+ display_manager_error error)
      windows_ensure_service_running.

Definition may_still_run : string :=
  "The playit service may still be running. Try again in a few seconds or stop it from Windows Services.".

(** The daemon is asked to stop. *)
Definition stop_over_ipc : W () :=
  client ← perform (WConnect pipe_path);
  match client with
  | inr client =>
      r ← windows_stop_call client;
      match r with
      | inr response => if cr_accepted response then perform (WSleep 1000) else mret ()
      | inl _ => mret ()
      end
  | inl _ => mret ()
  end.

Definition stop_service_async : W (string + ()) :=
  running ← query_service_running_async;
  if (running : bool) then
    _ ← stop_over_ipc;
    _ ← stop_installed_service_async;
    _ ← perform (WSleep 500);
    running ← perform (WIsRunning pipe_path);
    mret (if (running : bool) then inl may_still_run else inr ())
  else mret (inr ()).

Definition reset_agent_async : W (string + ()) :=
  running ← query_service_running_async;
  if (running : bool) then
    lifecycle ← query_service_lifecycle_async;
    match lifecycle with
    | inr WaitingForSecret =>
        mret (inl "The playit service is already waiting for setup. Open playit to finish setup.")
    | _ =>
        client ←! prog_map_err (λ error, "Could not connect to the playit service: " +:+ display_ipc_error error)
                    (perform (WConnect pipe_path));
        response ←! prog_map_err (λ error, "Could not reset the agent setup: " +:+ display_ipc_error error)
                      (windows_reset_secret_call client);
        if cr_accepted response then
          _ ←! stop_service_async; launch_playit
        else mret (inl (default "The playit service rejected the reset request." (cr_message response)))
    end
  else mret (inl "Reset Agent Setup is unavailable because the playit service is not running.").

Definition err {A B} (r : A + B) : option A := match r with inl e => Some e | inr _ => None end.

Definition request_action (request : BackendRequest) : option (BackendRequestKind * W (option string)) :=
  match request with
  | RefreshStatus => Some (KindRefreshStatus, mret None)
  | StartService => Some (KindStartService, r ← start_service_async; mret (err r))
  | StopService => Some (KindStopService, r ← stop_service_async; mret (err r))
  | ResetAgent => Some (KindResetAgent, r ← reset_agent_async; mret (err r))
  | BackendShutdown => None
  end.

Definition handle_request (request : BackendRequest) : W (option BackendResponse) :=
  match request_action request with
  | None => mret None
  | Some (request_kind, action) =>
      error ← action;
      snapshot ← query_service_state_snapshot_async;
      mret (Some (RequestCompleted request_kind snapshot error))
  end.
End backend.

(** ** The frontend's state (state.rs) *)

Inductive MouseButton : Set := LeftButton | RightButton | MiddleButton.
Inductive MouseButtonState : Set := ButtonUp | ButtonDown.

Inductive UiEvent : Set :=
  | TrayClick (button : MouseButton) (button_state : MouseButtonState)
  | MenuActivated (id : Z)
  | RefreshAfterMenu.

Record MenuItem : Type := { mi_id : Z; mi_text : string; mi_enabled : bool }.

Definition set_enabled (b : bool) (m : MenuItem) : MenuItem :=
  {| mi_id := mi_id m; mi_text := mi_text m; mi_enabled := b |}.

Definition set_text (text : string) (m : MenuItem) : MenuItem :=
  {| mi_id := mi_id m; mi_text := text; mi_enabled := mi_enabled m |}.

(** The tray icon is its tooltip. The queues are what the threads share. *)
Record AppState : Type := MkApp {
  open_status : MenuItem;
  start_service : MenuItem;
  stop_service : MenuItem;
  reset_agent : MenuItem;
  add_tray_icon_to_startup : MenuItem;
  tray_icon_action : MenuItem;
  tray : option string;
  service_running : bool;
  startup_shortcut_present : bool;
  reset_agent_enabled : bool;
  refresh_inflight : bool;
  service_action_pending : bool;
  menu_visible : bool;
  tooltip_dirty : bool;
  refresh_after_current : bool;
}.

(** The items have fresh ids. *)
Definition AppState_new (first_id : Z) (service_running startup_shortcut_present : bool) : AppState :=
  let item n text := {| mi_id := first_id + n; mi_text := text; mi_enabled := true |} in
  MkApp (item 0 "Open Status Window") (item 1 "Start Background Service") (item 2 "Stop Background Service")
    (item 3 "Reset Agent Setup") (item 4 "Show Tray Icon at Startup") (item 5 "Close Tray Icon")
    None service_running startup_shortcut_present false false false false false false.

Definition set_tray (x : option string) (st : AppState) : AppState :=
  let '(MkApp os ss sp ra ad ta _ sr pr re ri pe mv td rc) := st in
  MkApp os ss sp ra ad ta x sr pr re ri pe mv td rc.

Definition set_refresh_inflight (x : bool) (st : AppState) : AppState :=
  let '(MkApp os ss sp ra ad ta tr sr pr re _ pe mv td rc) := st in
  MkApp os ss sp ra ad ta tr sr pr re x pe mv td rc.

Definition set_service_action_pending (x : bool) (st : AppState) : AppState :=
  let '(MkApp os ss sp ra ad ta tr sr pr re ri _ mv td rc) := st in
  MkApp os ss sp ra ad ta tr sr pr re ri x mv td rc.

Definition set_menu_visible (x : bool) (st : AppState) : AppState :=
  let '(MkApp os ss sp ra ad ta tr sr pr re ri pe _ td rc) := st in
  MkApp os ss sp ra ad ta tr sr pr re ri pe x td rc.

Definition set_tooltip_dirty (x : bool) (st : AppState) : AppState :=
  let '(MkApp os ss sp ra ad ta tr sr pr re ri pe mv _ rc) := st in
  MkApp os ss sp ra ad ta tr sr pr re ri pe mv x rc.

Definition set_refresh_after_current (x : bool) (st : AppState) : AppState :=
  let '(MkApp os ss sp ra ad ta tr sr pr re ri pe mv td _) := st in
  MkApp os ss sp ra ad ta tr sr pr re ri pe mv td x.

(** ** The shared desk

    The window's state (none once the window is gone), its event handlers and
    its timer, the queues between the threads with what the backend is doing,
    the messages that wait for the window; which of the next calls of the
    system fail; and what went wrong so far. *)

Inductive worker : Type :=
  | Waiting
  | Handling (request : BackendRequest)
  | Sending (response : BackendResponse)
  | Posting
  | WorkerGone.

Inductive message : Set := MsgInit | MsgUi | MsgBackend | MsgTimer | MsgClose.

#[global] Instance message_eq_dec : EqDecision message.
Proof. solve_decision. Defined.

Record desk : Type := MkDesk {
  dk_app : option AppState;
  dk_handlers : bool;
  dk_timer : bool;
  dk_quit : bool;
  dk_ui : list UiEvent;
  dk_requests : list BackendRequest;
  dk_responses : list BackendResponse;
  dk_worker : worker;
  dk_posted : list message;
  dk_faults : list (option string);
  (** a message could not be posted; a tooltip could not be set; the state was
      used after it was freed *)
  dk_lost : bool;
  dk_tip_failed : bool;
  dk_dangling : bool;
}.

(** A piece of work that is not interrupted. *)
Definition Desk (A : Type) : Type := desk → A * desk.

#[global] Instance Desk_ret : MRet Desk := λ A a d, (a, d).
#[global] Instance Desk_bind : MBind Desk := λ A B f m d, let '(a, d) := m d in f a d.

Definition put_app (app : AppState) : Desk () := λ '(MkDesk _ ha ti qu ui rq rs wo po fa lo tf da),
  ((), MkDesk (Some app) ha ti qu ui rq rs wo po fa lo tf da).

Definition put_tray_events (on : bool) : Desk () := λ '(MkDesk ap _ ti qu ui rq rs wo po fa lo tf da),
  ((), MkDesk ap on ti qu ui rq rs wo po fa lo tf da).

Definition put_timer (on : bool) : Desk () := λ '(MkDesk ap ha _ qu ui rq rs wo po fa lo tf da),
  ((), MkDesk ap ha on qu ui rq rs wo po fa lo tf da).

Definition put_ui (events : list UiEvent) : Desk () := λ '(MkDesk ap ha ti qu _ rq rs wo po fa lo tf da),
  ((), MkDesk ap ha ti qu events rq rs wo po fa lo tf da).

Definition put_requests (requests : list BackendRequest) : Desk () := λ '(MkDesk ap ha ti qu ui _ rs wo po fa lo tf da),
  ((), MkDesk ap ha ti qu ui requests rs wo po fa lo tf da).

Definition put_responses (responses : list BackendResponse) : Desk () := λ '(MkDesk ap ha ti qu ui rq _ wo po fa lo tf da),
  ((), MkDesk ap ha ti qu ui rq responses wo po fa lo tf da).

Definition put_posted (posted : list message) : Desk () := λ '(MkDesk ap ha ti qu ui rq rs wo _ fa lo tf da),
  ((), MkDesk ap ha ti qu ui rq rs wo posted fa lo tf da).

Definition note_lost  : Desk () := λ '(MkDesk ap ha ti qu ui rq rs wo po fa _ tf da),
  ((), MkDesk ap ha ti qu ui rq rs wo po fa true tf da).

Definition note_tip_failed  : Desk () := λ '(MkDesk ap ha ti qu ui rq rs wo po fa lo _ da),
  ((), MkDesk ap ha ti qu ui rq rs wo po fa lo true da).

Definition note_dangling  : Desk () := λ '(MkDesk ap ha ti qu ui rq rs wo po fa lo tf _),
  ((), MkDesk ap ha ti qu ui rq rs wo po fa lo tf true).

Definition post_quit  : Desk () := λ '(MkDesk ap ha ti _ ui rq rs wo po fa lo tf da),
  ((), MkDesk ap ha ti true ui rq rs wo po fa lo tf da).

Definition free_app  : Desk () := λ '(MkDesk _ ha ti qu ui rq rs wo po fa lo tf da),
  ((), MkDesk None ha ti qu ui rq rs wo po fa lo tf da).

Definition get {A} (f : desk → A) : Desk A := λ d, (f d, d).

(** How the next call of the system that can fail ends. *)
Definition next_fault : Desk (option string) := λ '(MkDesk ap ha ti qu ui rq rs wo po fa lo tf da),
  (default None (head fa), MkDesk ap ha ti qu ui rq rs wo po (tail fa) lo tf da).

(** [PostMessageW]: not to a window that is gone. *)
Definition PostMessage (m : message) : Desk () :=
  app ← get dk_app;
  match app with
  | None => mret ()
  | Some _ =>
      fault ← next_fault;
      match fault with
      | Some _ => note_lost
      | None => posted ← get dk_posted; put_posted (posted ++ [m])
      end
  end.

(** ** The frontend's work (frontend.rs) *)

Section frontend.
Context {TB : TrayBuild}.

Definition REQUEST_CAPACITY : nat := 8.
Definition RESPONSE_CAPACITY : nat := 4.

(** [last_error] (util.rs), with the code's text. *)
Definition last_error (context code : string) : string := context +:+ " (Win32 error " +:+ code +:+ ")".

Definition tray_tooltip (service_running : bool) : string :=
  if service_running then "Playit background service is running"
  else "Playit background service is stopped".

Definition apply_startup_shortcut_state (present : bool) (st : AppState) : AppState :=
  let '(MkApp os ss sp ra ad ta tr sr _ re ri pe mv td rc) := st in
  MkApp os ss sp ra (set_enabled (negb present) ad)
    (set_text (if present then "Remove Tray Icon from Startup" else "Close Tray Icon") ta)
    tr sr present re ri pe mv td rc.

(** The part of [apply_service_state] that sets the fields and the items. *)
Definition set_service_state (running reset : bool) (st : AppState) : AppState :=
  let '(MkApp os ss sp ra ad ta tr _ pr _ ri pe mv td rc) := st in
  apply_startup_shortcut_state pr
    (MkApp (set_enabled running os) (set_enabled (negb running && negb pe) ss) (set_enabled (running && negb pe) sp)
       (set_enabled reset ra) ad ta tr running pr reset ri pe mv td rc).

Definition apply_service_state (st : AppState) (running reset : bool) : Desk ((string + ()) * AppState) :=
  let state_changed := negb (Bool.eqb (service_running st) running) in
  let st := set_service_state running reset st in
  if menu_visible st then
    mret (inr (), set_tooltip_dirty (tooltip_dirty st || state_changed) st)
  else
    match tray st with
    | Some _ =>
        if state_changed || tooltip_dirty st then
          fault ← next_fault;
          match fault with
          | Some error => _ ← note_tip_failed; mret (inl ("Failed to update tray tooltip: " +:+ error), st)
          | None => mret (inr (), set_tooltip_dirty false (set_tray (Some (tray_tooltip running)) st))
          end
        else mret (inr (), st)
    | None => mret (inr (), st)
    end.

(** [try_send_request] (backend.rs): the receiver is gone, the queue is full. *)
Definition try_send_request (request : BackendRequest) : Desk (string + bool) :=
  w ← get dk_worker;
  match w with
  | WorkerGone => mret (inl ("Tray backend request channel failed: " +:+ kanal_error))
  | _ =>
      requests ← get dk_requests;
      if decide (length requests < REQUEST_CAPACITY)%nat then
        _ ← put_requests (requests ++ [request]); mret (inr true)
      else mret (inr false)
  end.

Definition is_service_action (request : BackendRequest) : bool :=
  match request with StartService | StopService => true | _ => false end.

Definition is_refresh (request : BackendRequest) : bool :=
  match request with RefreshStatus => true | _ => false end.

(** Applies the state again, and returns its error or [r]. *)
Definition reapply (st : AppState) (r : string + ()) : Desk (string + ()) :=
  '(applied, st) ← apply_service_state st (service_running st) (reset_agent_enabled st);
  _ ← put_app st;
  mret (match applied with inl error => inl error | inr _ => r end).

(** The request is sent; an action that was not is no longer pending. *)
Definition send_request (st : AppState) (request : BackendRequest) : Desk (string + ()) :=
  sent ← try_send_request request;
  match sent with
  | inr true =>
      _ ← put_app (if is_refresh request then set_refresh_inflight true st else st); mret (inr ())
  | inr false =>
      if is_refresh request then _ ← put_app (set_refresh_after_current true st); mret (inr ())
      else
        let e := inl "playit tray backend queue is full" in
        if is_service_action request then reapply (set_service_action_pending false st) e else mret e
  | inl error =>
      let st := if is_refresh request then set_refresh_inflight false st else st in
      if is_service_action request then reapply (set_service_action_pending false st) (inl error)
      else _ ← put_app st; mret (inl error)
  end.

Definition dispatch_request (request : BackendRequest) : Desk (string + ()) :=
  app ← get dk_app;
  match app with
  | None => mret (inr ())
  | Some st =>
      if is_refresh request && refresh_inflight st then
        _ ← put_app (set_refresh_after_current true st); mret (inr ())
      else if is_service_action request then
        let st := set_service_action_pending true st in
        '(applied, st) ← apply_service_state st (service_running st) (reset_agent_enabled st);
        _ ← put_app st;
        match applied with
        | inl error => mret (inl error)
        | inr _ => send_request st request
        end
      else send_request st request
  end.

(** [initialize_tray]: the icon may not load or not be built, the timer may
    not start. *)
Definition initialize_tray : Desk (string + ()) :=
  app ← get dk_app;
  match app with
  | None => mret (inl "tray state is missing")
  | Some st =>
      loaded ← next_fault;
      match loaded with
      | Some error => mret (inl error)
      | None =>
          built ← next_fault;
          match built with
          | Some error => mret (inl ("Failed to build tray icon: " +:+ error))
          | None =>
              _ ← put_tray_events true;
              let st := set_tray (Some (tray_tooltip (service_running st))) st in
              '(applied, st) ← apply_service_state st (service_running st) (reset_agent_enabled st);
              _ ← put_app st;
              match applied with
              | inl error => mret (inl error)
              | inr _ =>
                  dispatched ← dispatch_request RefreshStatus;
                  match dispatched with
                  | inl error => mret (inl error)
                  | inr _ =>
                      timer ← next_fault;
                      match timer with
                      | Some error => mret (inl (last_error "failed to start tray status timer" error))
                      | None => _ ← put_timer true; mret (inr ())
                      end
                  end
              end
          end
      end
  end.

(** The event handlers: the event is queued and the window is told. *)
Definition ui_event (event : UiEvent) : Desk () :=
  events ← get dk_ui; _ ← put_ui (events ++ [event]); PostMessage MsgUi.

Definition next_ui_event : Desk (option UiEvent) :=
  app ← get dk_app;
  match app with
  | None => mret None
  | Some _ =>
      events ← get dk_ui;
      match events with
      | [] => mret None
      | event :: events => _ ← put_ui events; mret (Some event)
      end
  end.

(** The response is taken and its state applied. *)
Definition next_response : Desk (option (BackendResponse * (string + ()))) :=
  app ← get dk_app;
  match app with
  | None => mret None
  | Some st =>
      responses ← get dk_responses;
      match responses with
      | [] => mret None
      | response :: responses =>
          _ ← put_responses responses;
          let st :=
            match resp_request response with
            | KindRefreshStatus => set_refresh_inflight false st
            | KindStartService | KindStopService => set_service_action_pending false st
            | KindResetAgent => st
            end in
          '(applied, st) ← apply_service_state st (snap_service_running (resp_snapshot response))
                             (snap_reset_agent_enabled (resp_snapshot response));
          _ ← put_app st;
          mret (Some (response, applied))
      end
  end.

(** The refresh that was put off, through the reference that was taken before
    a message box may have been shown. *)
Definition follow_refresh : Desk (string + ()) :=
  app ← get dk_app;
  match app with
  | None => _ ← note_dangling; mret (inr ())
  | Some st =>
      if refresh_after_current st then
        _ ← put_app (set_refresh_after_current false st); dispatch_request RefreshStatus
      else mret (inr ())
  end.

Inductive MenuAction : Set :=
  | OpenStatus | MenuStartService | MenuStopService | MenuResetAgent
  | AddTrayIconToStartup | CloseOrRemoveTrayIcon | Ignore.

Definition menu_action (st : AppState) (id : Z) : MenuAction :=
  if decide (id = mi_id (open_status st)) then OpenStatus
  else if decide (id = mi_id (start_service st)) then MenuStartService
  else if decide (id = mi_id (stop_service st)) then MenuStopService
  else if decide (id = mi_id (reset_agent st)) then MenuResetAgent
  else if decide (id = mi_id (add_tray_icon_to_startup st)) then AddTrayIconToStartup
  else if decide (id = mi_id (tray_icon_action st)) then CloseOrRemoveTrayIcon
  else Ignore.

(** The menu is about to be shown (whether there is a tray to show it), and
    was closed. *)
Definition menu_opens : Desk bool :=
  app ← get dk_app;
  match app with
  | None => mret false
  | Some st => _ ← put_app (set_menu_visible true st); mret (bool_decide (is_Some (tray st)))
  end.

Definition menu_closed : Desk () :=
  app ← get dk_app;
  match app with
  | None => PostMessage MsgUi
  | Some st => _ ← put_app (set_menu_visible false st); ui_event RefreshAfterMenu
  end.

(** [WM_DESTROY] and [WM_NCDESTROY]. *)
Definition on_destroy : Desk () :=
  _ ← put_timer false;
  _ ← put_tray_events false;
  app ← get dk_app;
  _ ← (match app with
       | Some st => _ ← put_app (set_tray None st); _ ← try_send_request BackendShutdown; mret ()
       | None => mret ()
       end);
  post_quit.

Definition on_ncdestroy : Desk () := free_app.

(** [DestroyWindow]: sends both messages; what was posted to the window is
    gone with it. *)
Definition destroy_window : Desk () :=
  app ← get dk_app;
  match app with
  | None => mret ()
  | Some _ => _ ← on_destroy; _ ← on_ncdestroy; put_posted []
  end.
End frontend.

(** ** The handlers *)

(** The calls of a handler: pieces of work on the desk, windows of the system
    that have a message loop of their own, and everything else. *)
Inductive fcall : Type → Type :=
  | InitializeTray : fcall (string + ())
  | NextUiEvent : fcall (option UiEvent)
  | NextResponse : fcall (option (BackendResponse * (string + ())))
  | FollowRefresh : fcall (string + ())
  | DispatchRequest (request : BackendRequest) : fcall (string + ())
  | LookUpMenu (id : Z) : fcall (option MenuAction)
  | ShortcutAdded : fcall ()
  | ShortcutPresent : fcall (option bool)
  | MenuOpens : fcall bool
  | MenuClosed : fcall ()
  | DestroyWindow : fcall ()
  | ShowError (title message : string) : fcall ()
  | ConfirmWarning (title message : string) : fcall bool
  | ShowMenu : fcall ()
  | Platform {X} (c : wcall X) : fcall X.

Notation Handler := (prog fcall).

Section handlers.
Context {TB : TrayBuild}.

(** The work of a call; none: its answer comes from outside. *)
Definition local_work {X} (e : fcall X) : option (Desk X) :=
  match e in fcall X return option (Desk X) with
  | InitializeTray => Some initialize_tray
  | NextUiEvent => Some next_ui_event
  | NextResponse => Some next_response
  | FollowRefresh => Some follow_refresh
  | DispatchRequest request => Some (dispatch_request request)
  | LookUpMenu id => Some (app ← get dk_app; mret ((λ st, menu_action st id) <$> (app : option AppState)))
  | ShortcutAdded => Some (app ← get dk_app;
      match app with Some st => put_app (apply_startup_shortcut_state true st) | None => mret () end)
  | ShortcutPresent => Some (app ← get dk_app; mret (startup_shortcut_present <$> (app : option AppState)))
  | MenuOpens => Some menu_opens
  | MenuClosed => Some menu_closed
  | DestroyWindow => Some destroy_window
  | ShowError _ _ | ConfirmWarning _ _ | ShowMenu | Platform _ => None
  end.

Definition modal {X} (e : fcall X) : bool :=
  match e with ShowError _ _ | ConfirmWarning _ _ | ShowMenu => true | _ => false end.

Definition platform {A} (m : W A) : Handler A := lift (@Platform) m.

Definition show_error (title : string) (r : string + ()) : Handler () :=
  match r with inl error => perform (ShowError title error) | inr _ => mret () end.

Definition confirm_close_with_running_service (remove_from_startup : option bool) : Handler bool :=
  let action := if default false remove_from_startup then "remove the tray icon from startup"
                else "close the tray icon" in
  perform (ConfirmWarning "Playit Service Is Still Running"
    ("The background service will keep running if you " +:+ action +:+ " now." +:+ nl +:+ nl +:+
     "Choose Cancel to keep the tray icon open and stop the service first, or OK to continue.")).

Definition close_or_remove : Handler (string + ()) :=
  service_running ← platform query_service_running_sync;
  remove_from_startup ← perform ShortcutPresent;
  confirmed ← (if (service_running : bool) then confirm_close_with_running_service remove_from_startup else mret true);
  if (confirmed : bool) then
    _ ←! (if default false remove_from_startup then platform remove_startup_shortcut else mret (inr ()));
    _ ← perform DestroyWindow;
    mret (inr ())
  else mret (inr ()).

Definition handle_menu_event (id : Z) : Handler (string + ()) :=
  action ← perform (LookUpMenu id);
  match action with
  | None | Some Ignore => mret (inr ())
  | Some OpenStatus => platform launch_status_window
  | Some MenuStartService => perform (DispatchRequest StartService)
  | Some MenuStopService => perform (DispatchRequest StopService)
  | Some MenuResetAgent => perform (DispatchRequest ResetAgent)
  | Some AddTrayIconToStartup =>
      _ ←! platform ensure_startup_shortcut; _ ← perform ShortcutAdded; mret (inr ())
  | Some CloseOrRemoveTrayIcon => close_or_remove
  end.

Definition show_tray_menu : Handler () :=
  shown ← perform MenuOpens;
  _ ← (if (shown : bool) then perform ShowMenu else mret ());
  perform MenuClosed.

Definition handle_ui_event (event : UiEvent) : Handler () :=
  match event with
  | TrayClick LeftButton ButtonUp =>
      r ← platform launch_playit; show_error "Failed to open playit" r
  | TrayClick RightButton ButtonUp => show_tray_menu
  | MenuActivated id => r ← handle_menu_event id; show_error "Playit tray action failed" r
  | RefreshAfterMenu =>
      r ← perform (DispatchRequest RefreshStatus); show_error "Failed to refresh playit tray" r
  | TrayClick _ _ => mret ()
  end.

Definition process_ui_events : Handler () :=
  iterate (λ _,
    next_event ← perform NextUiEvent;
    match next_event with
    | None => mret (inr ())
    | Some event => _ ← handle_ui_event event; mret (inl ())
    end) ().

Definition handle_response (response : BackendResponse) (applied : string + ()) : Handler () :=
  _ ← show_error "Failed to refresh playit tray" applied;
  _ ← (if decide (resp_request response = KindRefreshStatus) then
         r ← perform FollowRefresh; show_error "Failed to refresh playit tray" r
       else mret ());
  match resp_error response with
  | Some error => perform (ShowError (response_error_title (resp_request response)) error)
  | None => mret ()
  end.

Definition process_backend_responses : Handler () :=
  iterate (λ _,
    next ← perform NextResponse;
    match next with
    | None => mret (inr ())
    | Some (response, applied) => _ ← handle_response response applied; mret (inl ())
    end) ().

(** [window_proc]; a close goes to [DefWindowProcW]. *)
Definition window_proc (m : message) : Handler () :=
  match m with
  | MsgInit =>
      r ← perform InitializeTray;
      match r with
      | inl error =>
          _ ← perform (ShowError "Failed to initialize playit tray" error); perform DestroyWindow
      | inr _ => mret ()
      end
  | MsgUi => process_ui_events
  | MsgBackend => process_backend_responses
  | MsgTimer =>
      r ← perform (DispatchRequest RefreshStatus); show_error "Failed to refresh playit tray" r
  | MsgClose => perform DestroyWindow
  end.

(** ** The machine *)

(** A message that is being handled: the calls so far, and what is left. *)
Record frame : Type := Frame {
  fr_message : message;
  fr_calls : list (event fcall);
  fr_left : Handler ();
}.

Definition suspended (f : frame) : Prop :=
  ∃ X (e : fcall X) (k : X → Handler ()), fr_left f = Vis e k ∧ modal e = true.

(** The thread waits for messages: in the loop of [run], or in the loop of a
    window that a handler shows. *)
Definition pumping (stack : list frame) : Prop :=
  match stack with [] => True | f :: _ => suspended f end.

Definition started (m : message) : frame := Frame m [] (window_proc m).

Definition with_faults (faults : list (option string)) (d : desk) : desk :=
  let '(MkDesk ap ha ti qu ui rq rs wo po _ lo tf da) := d in
  MkDesk ap ha ti qu ui rq rs wo po faults lo tf da.

Definition set_worker (w : worker) (d : desk) : desk :=
  let '(MkDesk ap ha ti qu ui rq rs _ po fa lo tf da) := d in
  MkDesk ap ha ti qu ui rq rs w po fa lo tf da.

(** The frontend: the top handler goes on, or a message is taken. *)
Inductive frontend_step : desk * list frame → desk * list frame → Prop :=
  | step_work {X} d m h (e : fcall X) k fs work faults x d' :
      local_work e = Some work → work (with_faults faults d) = (x, d') →
      frontend_step (d, Frame m h (Vis e k) :: fs) (d', Frame m (h ++ [Event e x]) (k x) :: fs)
  | step_answer {X} d m h (e : fcall X) k fs x :
      local_work e = None →
      frontend_step (d, Frame m h (Vis e k) :: fs) (d, Frame m (h ++ [Event e x]) (k x) :: fs)
  | step_round {I R} d m h (body : I → Handler (I + R)) i (k : R → Handler ()) fs :
      frontend_step (d, Frame m h (Iter body i k) :: fs) (d, Frame m h (unroll body i k) :: fs)
  | step_return d m h fs : frontend_step (d, Frame m h (Ret ()) :: fs) (d, fs)
  | step_message d m posted fs :
      pumping fs → dk_posted d = m :: posted →
      frontend_step (d, fs) ((put_posted posted d).2, started m :: fs)
  | step_timer d fs : pumping fs → dk_timer d = true → frontend_step (d, fs) (d, started MsgTimer :: fs)
  | step_close d fs : pumping fs → is_Some (dk_app d) → frontend_step (d, fs) (d, started MsgClose :: fs)
  | step_event d fs faults event :
      pumping fs → dk_handlers d = true →
      frontend_step (d, fs) ((ui_event event (with_faults faults d)).2, fs).
End handlers.

(** The backend (backend.rs): the rounds of its loop. The queue to it is
    closed when the window's state is freed; the window's handle is known
    before the first message. *)
Inductive backend_step `{CliBuild} : desk → desk → Prop :=
  | worker_takes d request rest :
      dk_worker d = Waiting → dk_requests d = request :: rest →
      backend_step d
        (set_worker (if decide (request = BackendShutdown) then WorkerGone else Handling request)
           (put_requests rest d).2)
  | worker_closed d :
      dk_worker d = Waiting → dk_requests d = [] → dk_app d = None → backend_step d (set_worker WorkerGone d)
  | worker_handled d request t response :
      dk_worker d = Handling request → exec (handle_request request) t (Some (Some response)) →
      backend_step d (set_worker (Sending response) d)
  | worker_no_response d request t :
      dk_worker d = Handling request → exec (handle_request request) t (Some None) →
      backend_step d (set_worker Waiting d)
  | worker_sent d response :
      dk_worker d = Sending response → is_Some (dk_app d) → (length (dk_responses d) < RESPONSE_CAPACITY)%nat →
      backend_step d (set_worker Posting (put_responses (dk_responses d ++ [response]) d).2)
  | worker_unsent d response :
      dk_worker d = Sending response → dk_app d = None → backend_step d (set_worker WorkerGone d)
  | worker_posted d faults :
      dk_worker d = Posting →
      backend_step d (set_worker Waiting (PostMessage MsgBackend (with_faults faults d)).2).

Inductive tray_step `{CliBuild} {TB : TrayBuild} : desk * list frame → desk * list frame → Prop :=
  | tray_frontend s s' : frontend_step s s' → tray_step s s'
  | tray_backend d d' fs : backend_step d d' → tray_step (d, fs) (d', fs).

(** The window was created and the worker has its runtime ([expect], which is
    not modelled); the first message may have been lost. *)
Definition tray_start (first_id : Z) (running present posted : bool) : desk * list frame :=
  (MkDesk (Some (AppState_new first_id running present)) false false false [] [] [] Waiting
     (if posted then [MsgInit] else []) [] false false false, []).

(** ** The process (main.rs, mod.rs, util.rs, [run] of frontend.rs) *)

Inductive rcall : Type → Type :=
  | CreateMutex (name : string) : rcall (option nat)
  | GetLastError : rcall Z
  | CloseMutex (handle : nat) : rcall ()
  | SpawnBackend : rcall (io_error + ())
  | GetModuleHandle : rcall bool
  | RegisterClass (name : string) : rcall bool
  | AppendMenuItems : rcall (string + ())
  | CreateWindow (name title : string) (state : AppState) : rcall bool
  | DropState : rcall ()
  | SetHwnd : rcall ()
  | PostInit : rcall bool
  | GetMessage : rcall Z
  | DispatchMessage : rcall ()
  | AttachConsole : rcall bool
  | AllocConsole : rcall bool
  | SetConsoleOutputCP (cp : Z) : rcall bool
  | SetPanicHook : rcall ()
  | ErrorBox (title message : string) : rcall ()
  | ProcessExit (code : Z) : rcall Empty_set
  | FreshMenuIds : rcall Z
  | OnPlatform {X} (c : wcall X) : rcall X.

Notation Process := (prog rcall).

Section process.
Context {TB : TrayBuild} (code_text : Z → string).

Definition last_win32_error (context : string) : Process string :=
  code ← perform GetLastError; mret (last_error context (code_text code)).

Definition ERROR_ALREADY_EXISTS : Z := 183.

Definition SingleInstanceGuard_new (name : string) : Process (string + option nat) :=
  handle ← perform (CreateMutex name);
  match handle with
  | None => e ← last_win32_error "failed to create tray mutex"; mret (inl e)
  | Some handle =>
      code ← perform GetLastError;
      if decide (code ≠ 0 ∧ code = ERROR_ALREADY_EXISTS) then _ ← perform (CloseMutex handle); mret (inr None)
      else mret (inr (Some handle))
  end.

(** The message loop of [run]. *)
Definition message_loop : Process (string + ()) :=
  iterate (λ _,
    result ← perform GetMessage;
    if decide (result = -1) then e ← last_win32_error "tray message loop failed"; mret (inr (inl e))
    else if decide (result = 0) then mret (inr (inr ()))
    else _ ← perform DispatchMessage; mret (inl ())) ().

(** [run] with the guard at hand. *)
Definition run_guarded : Process (string + ()) :=
  _ ←! prog_map_err (λ error, "Failed to spawn tray backend thread: " +:+ err_msg error) (perform SpawnBackend);
  shortcut ← lift (@OnPlatform) startup_shortcut_exists;
  let startup_shortcut_present := match shortcut with inr value => value | inl _ => false end in
  module ← perform GetModuleHandle;
  if negb module then e ← last_win32_error "failed to get module handle"; mret (inl e)
  else
    registered ← perform (RegisterClass "PlayitTrayWindowClass");
    if negb registered then e ← last_win32_error "failed to register tray window class"; mret (inl e)
    else
      running ← lift (@OnPlatform) query_service_running_sync;
      first_id ← perform FreshMenuIds;
      _ ←! prog_map_err (λ error, "Failed to build tray menu: " +:+ error) (perform AppendMenuItems);
      created ← perform (CreateWindow "PlayitTrayWindowClass" "playit tray"
                           (AppState_new first_id running startup_shortcut_present));
      if negb created then
        _ ← perform DropState;
        e ← last_win32_error "failed to create tray window"; mret (inl e)
      else
        _ ← perform SetHwnd;
        _ ← perform PostInit;
        message_loop.

(** The guard's handle is closed when [run] returns. *)
Definition run_tray : Process (string + ()) :=
  guard ←! SingleInstanceGuard_new "Local\playitd-tray";
  match guard with
  | None => mret (inr ())
  | Some handle => r ← run_guarded; _ ← perform (CloseMutex handle); mret r
  end.

(** [validate_arg_values]. *)
Fixpoint validate_arg_values (args : list string) : string + () :=
  match args with
  | [] => inr ()
  | arg :: args =>
      if decide (arg = "--debug-console") then validate_arg_values args
      else inl ("Unsupported playitd-tray argument: " +:+ arg)
  end.

Record RunError : Type := { re_message : string; re_show_dialog : bool }.

Definition RunError_interactive (message : string) : RunError := {| re_message := message; re_show_dialog := true |}.

Definition run_from_args (args : list string) : Process (RunError + ()) :=
  match validate_arg_values args with
  | inl e => mret (inl (RunError_interactive e))
  | inr _ => prog_map_err RunError_interactive run_tray
  end.

Definition init_debug_console_from_args (args : list string) : Process () :=
  if decide ("--debug-console" ∈ args) then
    attached ← perform AttachConsole;
    _ ← (if (attached : bool) then mret true else perform AllocConsole);
    _ ← perform (SetConsoleOutputCP 65001);
    perform SetPanicHook
  else mret ().

(** The first of the arguments is the program's name. *)
Definition tray_main (args : list string) : Process () :=
  _ ← init_debug_console_from_args args;
  r ← run_from_args (tail args);
  match r with
  | inr _ => mret ()
  | inl error =>
      _ ← (if re_show_dialog error then perform (ErrorBox "Failed to start playit tray" (re_message error))
           else lift (@OnPlatform) (perform (WEprintln (re_message error))));
      e ← perform (ProcessExit 1); match (e : Empty_set) with end
  end.
End process.
