(* ===== verification/TrayTheorems.v ===== *)
(** * The tray's threads agree

    The invariant of the tray's machine, by induction on its runs: the flags
    of the window's state against what is on its way through the queues, the
    menu and the tooltip against the state, and that no event and no response
    is forgotten. What the backend asks of the service and in which order. And
    that only the process which has the tray's mutex sets a tray up. *)

From S2P Require Import Prelude OriginLookup Json IpcModel Ipc FileSystem Program CliModel ServiceManager WindowsHost Tray CliWorld.
From Stdlib Require Import Ascii.
#[local] Open Scope string_scope.
#[local] Open Scope list_scope.
#[local] Open Scope Z_scope.

(** ** What is on its way *)

(** How many requests, and answers to them, a weight counts in the queues and
    at the backend. *)
Definition outstanding (fq : BackendRequest → nat) (fr : BackendRequestKind → nat) (d : desk) : nat :=
  (sum_list_with fq (dk_requests d) +
   match dk_worker d with Handling request => fq request | Sending response => fr (resp_request response) | _ => 0 end +
   sum_list_with (λ r, fr (resp_request r)) (dk_responses d))%nat.

Definition refresh_request (r : BackendRequest) : nat := if is_refresh r then 1 else 0.
Definition refresh_kind (k : BackendRequestKind) : nat := match k with KindRefreshStatus => 1 | _ => 0 end.
Definition action_request (r : BackendRequest) : nat := if is_service_action r then 1 else 0.
Definition action_kind (k : BackendRequestKind) : nat :=
  match k with KindStartService | KindStopService => 1 | _ => 0 end.

Definition refreshes : desk → nat := outstanding refresh_request refresh_kind.
Definition actions : desk → nat := outstanding action_request action_kind.

(** ** What the window shows *)

Definition menu_right (st : AppState) : Prop :=
  mi_enabled (open_status st) = service_running st ∧
  mi_enabled (start_service st) = negb (service_running st) && negb (service_action_pending st) ∧
  mi_enabled (stop_service st) = service_running st && negb (service_action_pending st) ∧
  mi_enabled (reset_agent st) = reset_agent_enabled st ∧
  mi_enabled (add_tray_icon_to_startup st) = negb (startup_shortcut_present st).

Definition tooltip_right (st : AppState) (tip_failed : bool) : Prop :=
  ∀ tip, tray st = Some tip →
    tip = tray_tooltip (service_running st) ∨ tooltip_dirty st = true ∨ tip_failed = true.

(** The window's state agrees with [refreshing] refreshes and [acting] actions
    on their way. *)
Record app_ok (st : AppState) (refreshing acting : nat) (tip_failed : bool) : Prop := {
  ok_refresh : refreshing = if refresh_inflight st then 1%nat else 0%nat;
  ok_pending : service_action_pending st = true → (1 <= acting)%nat ∨ tip_failed = true;
  ok_menu : is_Some (tray st) → menu_right st;
  ok_tooltip : tooltip_right st tip_failed;
}.

Record desk_base (d : desk) : Prop := {
  ok_requests : (length (dk_requests d) <= REQUEST_CAPACITY)%nat;
  ok_responses : (length (dk_responses d) <= RESPONSE_CAPACITY)%nat;
  ok_handling : dk_worker d ≠ Handling BackendShutdown;
  ok_open : is_Some (dk_app d) → dk_worker d ≠ WorkerGone ∧ BackendShutdown ∉ dk_requests d;
}.

Definition desk_ok (d : desk) : Prop :=
  desk_base d ∧ ∀ st, dk_app d = Some st → app_ok st (refreshes d) (actions d) (dk_tip_failed d).

(** ** Applying a state *)

(** The desk after calls that only concern the tooltip. *)
Definition tip_change (faults : list (option string)) (tip_failed : bool) (d : desk) : desk :=
  let '(MkDesk ap ha ti qu ui rq rs wo po _ lo _ da) := d in
  MkDesk ap ha ti qu ui rq rs wo po faults lo tip_failed da.

Definition apply_kept (st st' : AppState) : Prop :=
  refresh_inflight st' = refresh_inflight st ∧ service_action_pending st' = service_action_pending st ∧
  (is_Some (tray st') ↔ is_Some (tray st)).

Lemma apply_service_state_ok st running reset d :
  tooltip_right st (dk_tip_failed d) →
  ∃ r st' fa tf,
    apply_service_state st running reset d = ((r, st'), tip_change fa tf d) ∧
    (dk_tip_failed d = true → tf = true) ∧ (∀ e, r = inl e → tf = true) ∧
    apply_kept st st' ∧ menu_right st' ∧ tooltip_right st' tf.
Proof.
  intros Ht. destruct d, st. unfold tooltip_right, apply_kept in *. simpl in *.
  unfold apply_service_state, mbind, Desk_bind, mret, Desk_ret. simpl.
  destruct menu_visible.
  - eexists _, _, _, _. split; [done|]. simpl. split_and!; try done.
    intros tip Htip. destruct (Ht tip Htip) as [->|[->| ->]]; [|by auto..].
    destruct tooltip_dirty; [by auto|]. simpl. destruct service_running, running; auto.
  - destruct tray as [tip|]; [|eexists _, _, _, _; split; [done|]; simpl; split_and!; done].
    destruct (negb (Bool.eqb service_running running) || tooltip_dirty) eqn:Hc.
    + destruct dk_faults as [|[error|] fa]; simpl; eexists _, _, _, _; (split; [done|]); simpl;
        split_and!; try done; intros ? [= <-]; eauto.
    + eexists _, _, _, _. split; [done|]. simpl. split_and!; try done.
      intros ? [= <-]. apply orb_false_iff in Hc as [Hc ->].
      destruct (Ht tip eq_refl) as [->|[?| ?]]; [|done|by auto]. left. by destruct service_running, running.
Qed.

(** ** Work on the desk *)

(** Work of the window that leaves the queues of events and responses, the
    messages and the backend as they are. *)
Definition quiet (d d' : desk) : Prop :=
  (is_Some (dk_app d') ↔ is_Some (dk_app d)) ∧ dk_ui d' = dk_ui d ∧ dk_responses d' = dk_responses d ∧
  dk_worker d' = dk_worker d ∧ dk_posted d' = dk_posted d ∧ dk_lost d' = dk_lost d ∧
  dk_dangling d' = dk_dangling d ∧ (dk_tip_failed d = true → dk_tip_failed d' = true).

#[global] Instance quiet_refl : Reflexive quiet.
Proof. by intros d. Qed.

#[global] Instance quiet_trans : Transitive quiet.
Proof.
  intros d1 d2 d3 (H1 & H2 & H3 & H4 & H5 & H6 & H7 & H8) (K1 & K2 & K3 & K4 & K5 & K6 & K7 & K8).
  split_and!; [by etrans|by etrans..|auto].
Qed.

Lemma tip_change_quiet fa tf d : (dk_tip_failed d = true → tf = true) → quiet d (tip_change fa tf d).
Proof. by destruct d. Qed.

(** The desk with another state of the window. *)
Lemma put_app_base st d : desk_base d → is_Some (dk_app d) → desk_base (put_app st d).2 ∧ quiet d (put_app st d).2.
Proof.
  intros [] Ha. destruct d. simpl in *. split; [by split; simpl; auto|].
  unfold quiet; simpl; split_and!; auto. split; eauto.
Qed.

Lemma put_app_ok st d :
  desk_base d → is_Some (dk_app d) → app_ok st (refreshes d) (actions d) (dk_tip_failed d) →
  desk_ok (put_app st d).2 ∧ quiet d (put_app st d).2.
Proof.
  intros Hd Ha Hst. destruct (put_app_base st d Hd Ha) as [Hb Hq]. split; [|done]. split; [done|].
  destruct d. by intros ? [= <-].
Qed.

Lemma put_app_then {A} (a : A) st d :
  desk_base d → is_Some (dk_app d) → app_ok st (refreshes d) (actions d) (dk_tip_failed d) →
  desk_ok (let '(_, d) := put_app st d in (a, d)).2 ∧ quiet d (let '(_, d) := put_app st d in (a, d)).2.
Proof. intros Hd Ha Hst. pose proof (put_app_ok st d Hd Ha Hst). by destruct (put_app st d). Qed.

(** Applying a state to the window's. *)
Lemma applied_base st running reset d :
  desk_base d → is_Some (dk_app d) → tooltip_right st (dk_tip_failed d) →
  ∃ r st' d', apply_service_state st running reset d = ((r, st'), d') ∧
    desk_base d' ∧ quiet d d' ∧ (∀ fq fr, outstanding fq fr d' = outstanding fq fr d) ∧
    apply_kept st st' ∧ menu_right st' ∧ tooltip_right st' (dk_tip_failed d') ∧
    (∀ e, r = inl e → dk_tip_failed d' = true).
Proof.
  intros Hd Ha Ht.
  destruct (apply_service_state_ok st running reset d Ht) as (r & st' & fa & tf & -> & Htf & He & Hk & Hm & Ht').
  eexists _, _, _. split; [done|]. pose proof (tip_change_quiet fa tf d Htf).
  destruct d. destruct Hd. simpl in *. by split_and!.
Qed.

(** The state that was applied agrees with what is on its way. *)
Lemma applied_app st st' n m tf :
  n = (if refresh_inflight st then 1 else 0)%nat →
  (service_action_pending st = true → (1 <= m)%nat ∨ tf = true) →
  apply_kept st st' → menu_right st' → tooltip_right st' tf → app_ok st' n m tf.
Proof. intros -> Hp (Hi & Hpe & Htr) Hm Ht. split; [by rewrite Hi|by rewrite Hpe|done|done]. Qed.

Lemma reapply_ok st r d :
  desk_base d → is_Some (dk_app d) → refreshes d = (if refresh_inflight st then 1 else 0)%nat →
  service_action_pending st = false → tooltip_right st (dk_tip_failed d) →
  desk_ok (reapply st r d).2 ∧ quiet d (reapply st r d).2.
Proof.
  intros Hd Ha Hr Hp Ht. unfold reapply, mbind, Desk_bind, mret, Desk_ret.
  destruct (applied_base st (service_running st) (reset_agent_enabled st) d)
    as (r' & st' & d' & -> & Hb & Hq & Hout & Hk & Hm & Ht' & _); [done..|].
  edestruct (put_app_then (match r' with inl error => inl error | inr _ => r end) st' d' Hb) as [Hd' Hq']; [by apply Hq| |split; [exact Hd'|by etrans]].
  eapply applied_app; [by unfold refreshes; rewrite Hout|congruence|done..].
Qed.

(** ** Sending a request *)

Lemma outstanding_send fq fr request d :
  outstanding fq fr (put_requests (dk_requests d ++ [request]) d).2 = (outstanding fq fr d + fq request)%nat.
Proof. destruct d. unfold outstanding. simpl. rewrite sum_list_with_app. simpl. lia. Qed.

Lemma put_requests_tip requests d : dk_tip_failed (put_requests requests d).2 = dk_tip_failed d.
Proof. by destruct d. Qed.

Section sending.
Context {TB : TrayBuild}.

Lemma queued_base request d :
  request ≠ BackendShutdown → desk_base d → (length (dk_requests d) < REQUEST_CAPACITY)%nat →
  desk_base (put_requests (dk_requests d ++ [request]) d).2 ∧ quiet d (put_requests (dk_requests d ++ [request]) d).2.
Proof.
  intros Hr [Hq Hs Hh Ho] Hl. destruct d; simpl in *. split; [|done].
  split; simpl; auto.
  - rewrite length_app. simpl. lia.
  - intros Ha. destruct Ho as [Hw Hn]; [done|]. split; [done|]. rewrite not_elem_of_app, list_elem_of_singleton. auto.
Qed.

Lemma try_send_open request d :
  dk_worker d ≠ WorkerGone →
  try_send_request request d =
    if decide (length (dk_requests d) < REQUEST_CAPACITY)%nat
    then (inr true, (put_requests (dk_requests d ++ [request]) d).2) else (inr false, d).
Proof.
  intros Hw. unfold try_send_request, mbind, Desk_bind, mret, Desk_ret, get.
  destruct d; simpl in *. destruct dk_worker; try done; by destruct (decide _).
Qed.

(** A request is sent from a state in which it may count as pending. *)
Lemma send_request_ok st request d :
  request ≠ BackendShutdown → desk_base d → dk_app d = Some st →
  app_ok st (refreshes d) (actions d + action_request request) (dk_tip_failed d) →
  is_refresh request && refresh_inflight st = false →
  desk_ok (send_request st request d).2 ∧ quiet d (send_request st request d).2.
Proof.
  intros Hr Hd Ha [Hre Hp Hm Ht] Hf. pose proof (ok_open d Hd) as [Hw _]; [by rewrite Ha|].
  unfold send_request, mbind, Desk_bind, mret, Desk_ret. rewrite try_send_open by done.
  destruct (decide _) as [Hl|Hl].
  - destruct (queued_base request d) as [Hb Hq]; [done..|].
    edestruct (put_app_then (inr () : string + ()) (if is_refresh request then set_refresh_inflight true st else st) _ Hb)
      as [H1 H2]; [| |split; [exact H1|by etrans]].
    + apply Hq. by rewrite Ha.
    + unfold refreshes, actions in *. rewrite !outstanding_send, Hre, put_requests_tip.
      destruct st, request; simpl in *; split; simpl; auto; by subst.
  - destruct (is_refresh request) eqn:Hir; [|destruct (is_service_action request) eqn:Hia].
    + apply put_app_then; [done|by rewrite Ha|]. destruct st, request; simpl in *; try done.
      unfold action_request in Hp. simpl in Hp. rewrite Nat.add_0_r in Hp. by split.
    + apply reapply_ok; [done|by rewrite Ha|by destruct st..].
    + cbn. split; [|done]. split; [done|]. intros ? Ha'. rewrite Ha in Ha'. injection Ha' as <-.
      unfold action_request in Hp. rewrite Hia, Nat.add_0_r in Hp. by split.
Qed.

Lemma dispatch_request_ok request d :
  request ≠ BackendShutdown → desk_ok d →
  desk_ok (dispatch_request request d).2 ∧ quiet d (dispatch_request request d).2.
Proof.
  intros Hr [Hb Hap]. unfold dispatch_request, mbind, Desk_bind, mret, Desk_ret, get.
  destruct (dk_app d) as [st|] eqn:Ha; [|split; [split; [done|]|done]; cbn; intros ? Hs; congruence].
  destruct (Hap st eq_refl) as [Hre Hp Hm Ht].
  destruct (is_refresh request && refresh_inflight st) eqn:Hf.
  { apply put_app_then; [done|by rewrite Ha|]. by destruct st; split. }
  destruct (is_service_action request) eqn:Hia.
  - destruct (applied_base (set_service_action_pending true st) (service_running (set_service_action_pending true st))
      (reset_agent_enabled (set_service_action_pending true st)) d)
      as (r & st' & d' & -> & Hb' & Hq & Hout & Hk & Hm' & Ht' & He); [done|by rewrite Ha|by destruct st|].
    destruct (put_app_base st' d') as [Hb'' Hq']; [done|apply Hq; by rewrite Ha|].
    assert (Happ : app_ok st' (refreshes d) (actions d + action_request request) (dk_tip_failed d')).
    { eapply applied_app; [|intros _; left; unfold action_request; rewrite Hia; lia|done..]. rewrite Hre. by destruct st. }
    assert (∀ fq fr, outstanding fq fr (put_app st' d').2 = outstanding fq fr d) as Hout'.
    { intros fq fr. rewrite <- Hout. by destruct d'. }
    assert (dk_app (put_app st' d').2 = Some st' ∧ dk_tip_failed (put_app st' d').2 = dk_tip_failed d') as [Ha' Htf]
      by by destruct d'.
    destruct (put_app st' d') as [[] d1]. cbn in *. destruct r as [e|[]].
    + split; [|by etrans]. split; [done|]. cbn. intros ? Hs. rewrite Ha' in Hs. injection Hs as <-.
      unfold refreshes, actions. rewrite !Hout', Htf. destruct Happ. split; auto. intros _. right. by eapply He.
    + destruct (send_request_ok st' request d1) as [Hd1 Hq1]; [done..| | |split; [done|by do 2 etrans]].
      * unfold refreshes, actions. by rewrite !Hout', Htf.
      * by destruct request.
  - apply send_request_ok; [done..| |done]. split; auto. unfold action_request. rewrite Hia. by rewrite Nat.add_0_r.
Qed.

(** A refresh that was put off. *)
Lemma follow_refresh_ok d :
  desk_ok d → is_Some (dk_app d) → desk_ok (follow_refresh d).2 ∧ quiet d (follow_refresh d).2.
Proof.
  intros [Hb Hap] [st Ha]. unfold follow_refresh, mbind, Desk_bind, mret, Desk_ret, get. rewrite Ha.
  destruct (refresh_after_current st); [|done].
  destruct (put_app_ok (set_refresh_after_current false st) d) as [Hd1 Hq1]; [done|by rewrite Ha| |].
  { destruct (Hap st Ha). by destruct st; split. }
  destruct (put_app (set_refresh_after_current false st) d) as [[] d1]. cbn in *.
  destruct (dispatch_request_ok RefreshStatus d1) as [Hd2 Hq2]; [done..|]. split; [done|by etrans].
Qed.
End sending.

(** ** Every piece of work *)

(** What the other handlers can rely on when one of them works. *)
Record moves (d d' : desk) : Prop := {
  mv_app : is_Some (dk_app d') → is_Some (dk_app d);
  mv_tip : dk_tip_failed d = true → dk_tip_failed d' = true;
  mv_lost : dk_lost d = true → dk_lost d' = true;
  mv_worker : dk_worker d' = dk_worker d;
  mv_posted m : is_Some (dk_app d') → m ∈ dk_posted d → m ∈ dk_posted d';
  mv_responses : dk_responses d' ≠ [] → dk_responses d ≠ [];
  mv_ui : is_Some (dk_app d') → dk_ui d' ≠ [] → dk_ui d ≠ [] ∨ dk_lost d' = true ∨ MsgUi ∈ dk_posted d';
}.

Lemma quiet_moves d d' : quiet d d' → moves d d'.
Proof. intros (H1 & H2 & H3 & H4 & H5 & H6 & H7 & H8). split; rewrite ?H2, ?H3, ?H5, ?H6; naive_solver. Qed.

Lemma moves_trans d1 d2 d3 : moves d1 d2 → moves d2 d3 → moves d1 d3.
Proof.
  intros [] []. split; auto; [congruence|].
  intros Ha Hui. destruct (mv_ui1 Ha Hui) as [Hu|[?|?]]; [|by auto..].
  destruct (mv_ui0 (mv_app1 Ha) Hu) as [?|[?|?]]; auto.
Qed.

Lemma with_faults_ok fa d : desk_ok d → desk_ok (with_faults fa d).
Proof. intros [[] Ha]. destruct d. split; [by split|done]. Qed.

Lemma with_faults_quiet fa d : quiet d (with_faults fa d).
Proof. by destruct d. Qed.

Lemma desk_ok_closed d : desk_base d → dk_app d = None → desk_ok d.
Proof. intros Hb Ha. split; [done|]. intros st Hs. congruence. Qed.

Lemma ui_event_ok event d :
  desk_ok d → desk_ok (ui_event event d).2 ∧ moves d (ui_event event d).2 ∧ dk_dangling (ui_event event d).2 = dk_dangling d.
Proof.
  intros [[] Ha]. destruct d as [ap ? ? ? ? ? ? ? ? fa]. simpl in *.
  unfold ui_event, PostMessage, next_fault, mbind, Desk_bind, mret, Desk_ret, get. simpl.
  destruct ap as [st|]; [destruct fa as [|[]]|]; simpl; (split; [split; [by split|done]|]).
  all: split; [split; simpl; try done; intros; rewrite ?elem_of_app, ?list_elem_of_singleton; auto; by destruct H|done].
Qed.

Lemma ui_event_app event d : is_Some (dk_app d) → is_Some (dk_app (ui_event event d).2).
Proof.
  destruct d as [ap ? ? ? ? ? ? ? ? fa]. intros [st Ha]. simpl in Ha. subst.
  unfold ui_event, PostMessage, next_fault, mbind, Desk_bind, mret, Desk_ret, get. simpl.
  destruct fa as [|[]]; simpl; eauto.
Qed.

Lemma next_ui_event_ok d :
  desk_ok d →
  let '(r, d') := next_ui_event d in
  desk_ok d' ∧ moves d d' ∧ dk_dangling d' = dk_dangling d ∧ (r = None → is_Some (dk_app d') → dk_ui d' = []).
Proof.
  intros [[] Ha]. destruct d as [ap ? ? ? ui]. simpl in *.
  unfold next_ui_event, mbind, Desk_bind, mret, Desk_ret, get. simpl.
  destruct ap as [st|]; [destruct ui as [|event ui]|]; simpl; (split; [split; [by split|done]|]);
    (split; [by split; simpl; auto|split; [done|]]); try done.
Qed.

Lemma outstanding_take fq fr response rest d :
  dk_responses d = response :: rest →
  outstanding fq fr d = (outstanding fq fr (put_responses rest d).2 + fr (resp_request response))%nat.
Proof. destruct d. unfold outstanding. simpl. intros ->. simpl. lia. Qed.

Section work.
Context {TB : TrayBuild}.

Lemma next_response_ok d :
  desk_ok d →
  let '(r, d') := next_response d in
  desk_ok d' ∧ moves d d' ∧ dk_dangling d' = dk_dangling d ∧
  (r = None → is_Some (dk_app d') → dk_responses d' = []) ∧
  (∀ response e, r = Some (response, inl e) → dk_tip_failed d' = true) ∧
  (∀ x, r = Some x → is_Some (dk_app d')).
Proof.
  intros [Hb Hap]. unfold next_response, mbind, Desk_bind, mret, Desk_ret, get.
  destruct (dk_app d) as [st|] eqn:Ha.
  2: { split; [by apply desk_ok_closed|]. split; [by apply quiet_moves|]. split; [done|]. rewrite Ha. split_and!; [by intros _ []|done|done]. }
  destruct (dk_responses d) as [|response rest] eqn:Hrs.
  { split; [split; [done|intros st' Hst'; apply Hap; congruence]|]. split; [by apply quiet_moves|]. by split_and!. }
  destruct (Hap st eq_refl) as [Hre Hp Hm Ht]. unfold refreshes, actions in *.
  rewrite (outstanding_take refresh_request refresh_kind _ _ d Hrs) in Hre.
  rewrite (outstanding_take action_request action_kind _ _ d Hrs) in Hp.
  assert (desk_base (put_responses rest d).2 ∧ dk_app (put_responses rest d).2 = Some st ∧
          dk_tip_failed (put_responses rest d).2 = dk_tip_failed d ∧ dk_responses (put_responses rest d).2 = rest ∧
          moves d (put_responses rest d).2 ∧ dk_dangling (put_responses rest d).2 = dk_dangling d) as (Hb1 & Ha1 & Ht1 & Hr1 & Hm1 & Hd1).
  { destruct d, Hb. simpl in *. subst. simpl in *. split_and!; try done; split; simpl; auto; lia. }
  set (st1 := match resp_request response with
              | KindRefreshStatus => set_refresh_inflight false st
              | KindResetAgent => st
              | _ => set_service_action_pending false st
              end).
  assert (outstanding refresh_request refresh_kind (put_responses rest d).2 = (if refresh_inflight st1 then 1 else 0)%nat ∧
          (service_action_pending st1 = true →
             (1 <= outstanding action_request action_kind (put_responses rest d).2)%nat ∨ dk_tip_failed d = true) ∧
          tooltip_right st1 (dk_tip_failed d)) as (Hre1 & Hp1 & Htip1).
  { unfold st1. destruct (resp_request response); simpl in Hre, Hp; rewrite ?Nat.add_0_r in *; destruct st; simpl in *;
      split_and!; auto; try done; destruct refresh_inflight; lia. }
  destruct (put_responses rest d) as [[] d1]. cbn in *.
  destruct (applied_base st1 (snap_service_running (resp_snapshot response)) (snap_reset_agent_enabled (resp_snapshot response)) d1)
    as (r & st' & d' & Happ & Hb' & Hq & Hout & Hk & Hm' & Ht' & He); [done|by rewrite Ha1|by rewrite Ht1|].
  replace (match resp_request response with _ => _ end) with st1 by (unfold st1; by destruct (resp_request response)).
  rewrite Happ. destruct (put_app_ok st' d') as [Hd' Hq']; [done|apply Hq; by rewrite Ha1| |].
  { eapply applied_app; [by unfold refreshes; rewrite Hout| |done..].
    unfold actions. rewrite Hout. intros H. destruct (Hp1 H) as [?|Htf]; [by left|]. right. apply Hq. congruence. }
  assert (dk_app (put_app st' d').2 = Some st' ∧ dk_tip_failed (put_app st' d').2 = dk_tip_failed d') as [Ha' Htf]
    by by destruct d'.
  destruct (put_app st' d') as [[] d2]. cbn in *. assert (quiet d1 d2) as Hq2 by by etrans.
  split; [done|]. split; [by eapply moves_trans; [|apply quiet_moves]|].
  split; [by destruct Hq2 as (_ & _ & _ & _ & _ & _ & -> & _)|]. split_and!; [done| |].
  - intros ? e [= -> ->]. rewrite Htf. by eapply He.
  - intros. by rewrite Ha'.
Qed.

Lemma next_fault_ok d : desk_ok d → desk_ok (next_fault d).2 ∧ quiet d (next_fault d).2 ∧ dk_app (next_fault d).2 = dk_app d.
Proof. intros [[] Ha]. destruct d. split; [split; [by split|done]|]. done. Qed.

Lemma put_handlers_ok on d : desk_ok d → desk_ok (put_tray_events on d).2 ∧ quiet d (put_tray_events on d).2 ∧ dk_app (put_tray_events on d).2 = dk_app d.
Proof. intros [[] Ha]. destruct d. split; [split; [by split|done]|]. done. Qed.

Lemma put_timer_ok on d : desk_ok d → desk_ok (put_timer on d).2 ∧ quiet d (put_timer on d).2.
Proof. intros [[] Ha]. destruct d. split; [split; [by split|done]|]. done. Qed.

(** The icon was built. *)
Lemma applied_new_tray st d :
  desk_ok d → dk_app d = Some st →
  let st1 := set_tray (Some (tray_tooltip (service_running st))) st in
  ∃ r st' d', apply_service_state st1 (service_running st1) (reset_agent_enabled st1) d = ((r, st'), d') ∧
    desk_ok (put_app st' d').2 ∧ quiet d (put_app st' d').2.
Proof.
  intros [Hb Hap] Ha st1. destruct (Hap st Ha) as [Hre Hp Hm Ht].
  destruct (applied_base st1 (service_running st1) (reset_agent_enabled st1) d)
    as (r & st' & d' & -> & Hb' & Hq & Hout & Hk & Hm' & Ht' & He); [done|by rewrite Ha| |].
  { unfold st1. destruct st. simpl in *. intros tip [= <-]. by left. }
  eexists _, _, _. split; [done|].
  destruct (put_app_ok st' d') as [Hd' Hq']; [done|apply Hq; by rewrite Ha| |split; [done|by etrans]].
  eapply (applied_app st1); [unfold refreshes in *; rewrite Hout, Hre| |done..].
  - unfold st1. by destruct st.
  - unfold actions in *. rewrite Hout. intros Hpe. destruct Hp as [?|Htf]; [unfold st1 in Hpe; by destruct st|by left|].
    right. by apply Hq.
Qed.

Lemma initialize_tray_ok d : desk_ok d → desk_ok (initialize_tray d).2 ∧ quiet d (initialize_tray d).2.
Proof.
  intros Hd. unfold initialize_tray, mbind, Desk_bind, mret, Desk_ret, get.
  destruct (dk_app d) as [st|] eqn:Ha; [|done].
  destruct (next_fault_ok d Hd) as (Hd1 & Hq1 & Ha1). destruct (next_fault d) as [[error|] d1]; [done|]. cbn in *.
  destruct (next_fault_ok d1 Hd1) as (Hd2 & Hq2 & Ha2).
  destruct (next_fault d1) as [[error|] d2]; [split; [done|by etrans]|]. cbn in *.
  destruct (put_handlers_ok true d2 Hd2) as (Hd3 & Hq3 & Ha3). destruct (put_tray_events true d2) as [[] d3]. cbn in *.
  assert (Hq : quiet d d3) by by do 2 etrans.
  destruct (applied_new_tray st d3 Hd3) as (r & st' & d4 & -> & Hd5 & Hq5); [congruence|].
  destruct (put_app st' d4) as [[] d5]. cbn in *. destruct r as [e|[]]; [split; [done|by etrans]|].
  destruct (dispatch_request_ok RefreshStatus d5) as [Hd6 Hq6]; [done..|].
  destruct (dispatch_request RefreshStatus d5) as [[e|[]] d6]; cbn in *; [split; [done|by do 2 etrans]|].
  destruct (next_fault_ok d6 Hd6) as (Hd7 & Hq7 & _).
  destruct (next_fault d6) as [[error|] d7]; cbn in *; [split; [done|by do 3 etrans]|].
  destruct (put_timer_ok true d7 Hd7) as (Hd8 & Hq8). destruct (put_timer true d7) as [[] d8]. cbn in *.
  split; [done|by do 4 etrans].
Qed.

(** Work that only concerns the menu's flag or the shortcut's items. *)
Lemma small_change_ok (f : AppState → AppState) st d :
  desk_ok d → dk_app d = Some st → refresh_inflight (f st) = refresh_inflight st →
  service_action_pending (f st) = service_action_pending st → tray (f st) = tray st →
  service_running (f st) = service_running st → tooltip_dirty (f st) = tooltip_dirty st →
  (menu_right st → menu_right (f st)) →
  desk_ok (put_app (f st) d).2 ∧ quiet d (put_app (f st) d).2.
Proof.
  intros [Hb Hap] Ha H1 H2 H3 H4 H5 H6. destruct (Hap st Ha) as [Hre Hp Hm Ht].
  apply put_app_ok; [done|by rewrite Ha|]. split; [by rewrite H1|by rewrite H2|rewrite H3; auto|].
  unfold tooltip_right. by rewrite H3, H4, H5.
Qed.

Lemma menu_opens_ok d : desk_ok d → desk_ok (menu_opens d).2 ∧ quiet d (menu_opens d).2.
Proof.
  intros Hd. unfold menu_opens, mbind, Desk_bind, mret, Desk_ret, get. destruct (dk_app d) as [st|] eqn:Ha; [|done].
  destruct (small_change_ok (set_menu_visible true) st d) as [H1 H2]; [done|done|by destruct st..|].
  by destruct (put_app (set_menu_visible true st) d).
Qed.

Lemma shortcut_added_ok d :
  desk_ok d →
  let d' := (match dk_app d with
             | Some st => put_app (apply_startup_shortcut_state true st) d
             | None => ((), d) end).2 in
  desk_ok d' ∧ quiet d d'.
Proof.
  intros Hd d'. unfold d'. destruct (dk_app d) as [st|] eqn:Ha; [|done].
  apply small_change_ok; [done|done|by destruct st..|].
  destruct st. unfold menu_right. simpl. naive_solver.
Qed.

Lemma menu_closed_ok d :
  desk_ok d → desk_ok (menu_closed d).2 ∧ moves d (menu_closed d).2 ∧ dk_dangling (menu_closed d).2 = dk_dangling d ∧
  (is_Some (dk_app d) → is_Some (dk_app (menu_closed d).2)).
Proof.
  intros Hd. unfold menu_closed, mbind, Desk_bind, mret, Desk_ret, get. destruct (dk_app d) as [st|] eqn:Ha.
  - destruct (small_change_ok (set_menu_visible false) st d) as [H1 H2]; [done|done|by destruct st..|].
    destruct (put_app (set_menu_visible false st) d) as [[] d1]. cbn in *.
    destruct (ui_event_ok RefreshAfterMenu d1 H1) as (Hd2 & Hm & Hdl).
    split; [done|]. split; [eapply moves_trans; [by apply quiet_moves|done]|].
    split; [rewrite Hdl; apply H2|]. intros _. apply ui_event_app, H2. by rewrite Ha.
  - unfold PostMessage, mbind, Desk_bind, mret, Desk_ret, get. rewrite Ha. cbn.
    split; [done|]. split; [by apply quiet_moves|]. split; [done|]. by rewrite Ha.
Qed.

Lemma destroy_window_ok d :
  desk_ok d → desk_ok (destroy_window d).2 ∧ moves d (destroy_window d).2 ∧
  dk_dangling (destroy_window d).2 = dk_dangling d.
Proof.
  intros [[] Ha]. destruct d as [ap ? ? ? ? rq]. simpl in *.
  unfold destroy_window, on_destroy, on_ncdestroy, try_send_request, mbind, Desk_bind, mret, Desk_ret, get. simpl.
  destruct ap as [st|]; [|by split; [split; [by split|done]|]; split; [apply quiet_moves|]].
  destruct dk_worker; simpl; repeat (destruct (decide _); simpl).
  all: split; [split; [split; simpl; rewrite ?length_app; simpl; try lia; try done; by intros []|done]|].
  all: split; [split; simpl; auto; by intros []|done].
Qed.
End work.

(** ** What a handler knows

    From its last call: that it has just taken a refresh's response and
    applied it (the reference to the window's state is good), that a queue was
    empty; and that it has seen a tooltip fail. *)

Record note : Type := Note {
  nt_fresh : bool;
  nt_tipped : bool;
  nt_ui_empty : bool;
  nt_responses_empty : bool;
}.

Definition no_note : note := Note false false false false.

Definition note_step (n : note) (ev : event fcall) : note :=
  let nothing := Note false (nt_tipped n) false false in
  match ev with
  | @Event _ _ e x =>
      match e in fcall X return X → note with
      | NextUiEvent => λ r, Note false (nt_tipped n) (match r with None => true | _ => false end) false
      | NextResponse => λ r,
          match r with
          | None => Note false (nt_tipped n) false true
          | Some (response, inl _) => Note false true false false
          | Some (response, inr _) => Note (bool_decide (resp_request response = KindRefreshStatus)) (nt_tipped n) false false
          end
      | _ => λ _, nothing
      end x
  end.

Definition note_policy (n : note) (ev : event fcall) : Prop :=
  match ev_call ev with
  | FollowRefresh => nt_fresh n = true ∨ nt_tipped n = true
  | ShowError _ _ | ConfirmWarning _ _ | ShowMenu => nt_fresh n = false
  | DispatchRequest request => request ≠ BackendShutdown
  | _ => True
  end.

Notation noted := (λ h ev, note_policy (summary note_step no_note h) ev).
Notation note_at n := (λ h, summary note_step no_note h = n).
Notation now := (summary note_step no_note).

Section handlers.
Context {TB : TrayBuild}.

(** A handler with no reference to the state. *)
Definition plain (n : note) : Prop := nt_fresh n = false.

Lemma platform_noted {A} (m : W A) n :
  plain n → triple noted (note_at n) (platform m) (λ _ h, plain (now h)).
Proof.
  intros Hn. eapply triple_conseq; [apply (triple_lift (@Platform) noted (λ h, plain (now h)))| |done]; cbn.
  - done.
  - intros X e x h _. unfold summary. by rewrite foldl_app.
  - by intros h ->.
Qed.

(** Closes a goal about a note. *)
Ltac by_note :=
  lazymatch goal with
  | |- triple _ _ _ _ => fail
  | _ => unfold note_policy, plain in *; cbn in *; try done; auto
  end.

Lemma close_or_remove_noted n :
  plain n → triple noted (note_at n) close_or_remove (λ _ h, plain (now h)).
Proof.
  intros Hn. unfold close_or_remove.
  apply (track_then note_step no_note note_policy _ _ (λ _, plain)); [by apply platform_noted|].
  clear n Hn. intros running n Hn. unfold confirm_close_with_running_service.
  follow; try by_note.
  all: match goal with |- triple _ _ (prog_then (platform ?m) ?k) ?Q =>
         apply (track_then note_step no_note note_policy _ (platform m) (λ _, plain)); [by apply platform_noted|] end.
  all: clear n Hn; intros r n Hn; follow; by_note.
Qed.

Lemma handle_menu_event_noted id n :
  plain n → triple noted (note_at n) (handle_menu_event id) (λ _ h, plain (now h)).
Proof.
  intros Hn. unfold handle_menu_event.
  apply (track_then note_step no_note note_policy _ _ (λ _, plain)); [follow; by_note|].
  clear n Hn. intros [[]|] n Hn; try solve [by apply platform_noted|by apply close_or_remove_noted|follow; by_note].
  apply (track_then note_step no_note note_policy _ _ (λ _, plain)); [by apply platform_noted|].
  clear n Hn. intros r n Hn. follow; by_note.
Qed.

Lemma show_error_noted title r n :
  plain n → triple noted (note_at n) (show_error title r) (λ _ h, plain (now h)).
Proof. intros Hn. unfold show_error. follow; by_note. Qed.

Lemma handle_ui_event_noted ev n :
  plain n → triple noted (note_at n) (handle_ui_event ev) (λ _ h, plain (now h)).
Proof.
  intros Hn. unfold handle_ui_event.
  assert (∀ title (m : Handler (string + ())),
    triple noted (note_at n) m (λ _ h, plain (now h)) →
    triple noted (note_at n) (r ← m; show_error title r) (λ _ h, plain (now h))) as Hshow.
  { intros title m Hm. apply (track_then note_step no_note note_policy _ _ (λ _, plain)); [done|].
    intros r n' Hn'. by apply show_error_noted. }
  destruct ev as [[] []|id|].
  1: apply Hshow; by apply platform_noted.
  2: unfold show_tray_menu; follow; by_note.
  5: apply Hshow; by apply handle_menu_event_noted.
  5: apply Hshow.
  all: follow; by_note.
Qed.

Lemma process_ui_events_noted :
  triple noted (note_at no_note) process_ui_events (λ _ h, nt_ui_empty (now h) = true).
Proof.
  apply (track_iter note_step no_note note_policy (λ _, plain) (λ _ n, nt_ui_empty n = true)); [done|].
  intros [] n Hn.
  apply (track_then note_step no_note note_policy _ _ (λ r n, plain n ∧ (r = None → nt_ui_empty n = true))).
  { follow; by_note. }
  clear n Hn. intros [ev|] n [Hn He]; [|follow; by auto].
  apply (track_then note_step no_note note_policy _ _ (λ _, plain)); [by apply handle_ui_event_noted|].
  clear n Hn He. intros [] n Hn. follow. by_note.
Qed.

(** A response that was taken: the reference to the state is good, or the
    tooltip failed. *)
Definition taken (response : BackendResponse) (applied : string + ()) (n : note) : Prop :=
  match applied with
  | inr _ => nt_fresh n = bool_decide (resp_request response = KindRefreshStatus)
  | inl _ => nt_fresh n = false ∧ nt_tipped n = true
  end.

Lemma handle_response_noted response applied n :
  taken response applied n →
  triple noted (note_at n) (handle_response response applied) (λ _ _, True).
Proof.
  intros Hn. unfold handle_response, show_error. destruct applied as [e|[]], n; cbn in Hn.
  - destruct Hn as [-> ->]. follow; first [by_note|by apply triple_ret].
  - subst. destruct (resp_request response) eqn:Hk; case_bool_decide; try done; follow; first [by_note|by apply triple_ret].
Qed.

Lemma process_backend_responses_noted :
  triple noted (note_at no_note) process_backend_responses (λ _ h, nt_responses_empty (now h) = true).
Proof.
  apply (track_iter note_step no_note note_policy (λ _ _, True) (λ _ n, nt_responses_empty n = true)); [done|].
  intros [] n _.
  apply (track_then note_step no_note note_policy _ _
    (λ r n, match r with None => nt_responses_empty n = true | Some (response, applied) => taken response applied n end)).
  { follow; [by_note| |by_note]. destruct p as [response [|]]; by_note. }
  clear n. intros [[response applied]|] n Hn; [|follow; by auto].
  apply (track_then note_step no_note note_policy _ _ (λ _ _, True)); [by apply handle_response_noted|].
  clear n Hn. intros [] n _. by apply triple_ret.
Qed.

Lemma window_proc_noted m :
  triple noted (note_at no_note) (window_proc m)
    (λ _ h, match m with
            | MsgUi => nt_ui_empty (now h) = true
            | MsgBackend => nt_responses_empty (now h) = true
            | _ => True
            end).
Proof.
  destruct m; cbn [window_proc].
  - follow; first [by_note|by apply triple_ret].
  - apply process_ui_events_noted.
  - apply process_backend_responses_noted.
  - unfold show_error. follow; first [by_note|by apply triple_ret].
  - follow; first [by_note|by apply triple_ret].
Qed.

(** ** Handlers on the stack *)

Lemma frame_call {X} m h (e : fcall X) k x :
  steps (window_proc m) h (Vis e k) → note_policy (now h) (Event e x).
Proof.
  intros Hs. apply steps_exec with (t := [Event e x]) (o := None) in Hs.
  - apply (window_proc_noted m [] _ None) in Hs as [Ho _]; [|done]. by apply (Ho h (Event e x) []).
  - right. exists x, []. split; [done|]. apply exec_nil.
Qed.

Lemma frame_return m h :
  steps (window_proc m) h (Ret ()) →
  (m = MsgUi → nt_ui_empty (now h) = true) ∧ (m = MsgBackend → nt_responses_empty (now h) = true).
Proof.
  intros Hs. apply steps_exec with (t := []) (o := Some ()) in Hs; [|cbn; auto]. rewrite (right_id_L [] (++)) in Hs.
  apply (window_proc_noted m [] _ (Some ())) in Hs as [_ Hq]; [|done]. specialize (Hq () eq_refl).
  by split; intros ->.
Qed.

Lemma modal_answer {X} (e : fcall X) : modal e = true → inhabited X.
Proof. by destruct e; intros; try done; repeat constructor. Qed.

(** A handler that shows a window has no reference to the state. *)
Lemma suspended_plain f :
  steps (window_proc (fr_message f)) (fr_calls f) (fr_left f) → suspended f → nt_fresh (now (fr_calls f)) = false.
Proof.
  intros Hs (X & e & k & Hl & Hm). rewrite Hl in Hs. destruct (modal_answer e Hm) as [x].
  pose proof (frame_call _ _ e k x Hs) as Hp. by destruct e.
Qed.
End handlers.


(** ** The invariant *)

Section invariant.
Context {CB : CliBuild} {TB : TrayBuild}.

Definition in_hand (m : message) (empty : note → bool) (fs : list frame) : Prop :=
  Exists (λ f, fr_message f = m ∧ empty (now (fr_calls f)) = false) fs.

Record frames_ok (d : desk) (fs : list frame) : Prop := {
  fo_steps : Forall (λ f, steps (window_proc (fr_message f)) (fr_calls f) (fr_left f)) fs;
  fo_below : Forall suspended (tail fs);
  fo_fresh : Forall (λ f, nt_fresh (now (fr_calls f)) = true → is_Some (dk_app d)) fs;
  fo_tipped : Forall (λ f, nt_tipped (now (fr_calls f)) = true → dk_tip_failed d = true) fs;
  fo_dangling : dk_dangling d = true → dk_tip_failed d = true;
  (** no response and no event is forgotten *)
  fo_responses : is_Some (dk_app d) → dk_responses d ≠ [] →
    dk_lost d = true ∨ dk_worker d = Posting ∨ MsgBackend ∈ dk_posted d ∨ in_hand MsgBackend nt_responses_empty fs;
  fo_ui : is_Some (dk_app d) → dk_ui d ≠ [] →
    dk_lost d = true ∨ MsgUi ∈ dk_posted d ∨ in_hand MsgUi nt_ui_empty fs;
}.

Definition tray_ok (s : desk * list frame) : Prop := desk_ok s.1 ∧ frames_ok s.1 s.2.

(** What the calls add to what was known. *)
Definition call_effect {X} (e : fcall X) (x : X) (d' : desk) : Prop :=
  match e in fcall X return X → Prop with
  | NextUiEvent => λ r, r = None → is_Some (dk_app d') → dk_ui d' = []
  | NextResponse => λ r,
      (r = None → is_Some (dk_app d') → dk_responses d' = []) ∧
      (∀ response error, r = Some (response, inl error) → dk_tip_failed d' = true) ∧
      (∀ y, r = Some y → is_Some (dk_app d'))
  | _ => λ _, True
  end x.

Definition is_follow {X} (e : fcall X) : bool := match e with FollowRefresh => true | _ => false end.

Lemma quiet_dangling d d' : quiet d d' → dk_dangling d' = dk_dangling d.
Proof. by intros (_ & _ & _ & _ & _ & _ & ? & _). Qed.

(** Quiet work has no other effect. *)
Lemma quiet_work {A X} (e : fcall X) (x : X) d (work : Desk A) a d' :
  work d = (a, d') → desk_ok (work d).2 ∧ quiet d (work d).2 → call_effect e x d' →
  desk_ok d' ∧ moves d d' ∧ call_effect e x d' ∧
  (dk_dangling d' = true → dk_dangling d = true ∨ is_follow e = true ∧ dk_app d = None).
Proof.
  intros Hw [Hd Hq] Hc. rewrite Hw in Hd, Hq. cbn in Hd, Hq. split_and!; [done|by apply quiet_moves|done|]. rewrite (quiet_dangling _ _ Hq). auto.
Qed.

Lemma work_ok {X} (e : fcall X) work n d x d' :
  local_work e = Some work → note_policy n (Event e x) → desk_ok d → work d = (x, d') →
  desk_ok d' ∧ moves d d' ∧ call_effect e x d' ∧
  (dk_dangling d' = true → dk_dangling d = true ∨ is_follow e = true ∧ dk_app d = None).
Proof.
  intros Hw Hn Hd Hx. destruct e; cbn [local_work] in Hw; try discriminate Hw; injection Hw as <-.
  - eapply quiet_work; [done|by apply initialize_tray_ok|done].
  - pose proof (next_ui_event_ok d Hd) as H. rewrite Hx in H. destruct H as (? & ? & Hdl & ?).
    split_and!; [done..|]. rewrite Hdl. auto.
  - pose proof (next_response_ok d Hd) as H. rewrite Hx in H. destruct H as (? & ? & Hdl & ?).
    split_and!; [done..|]. rewrite Hdl. auto.
  - destruct (dk_app d) as [st|] eqn:Ha.
    { rewrite <- Ha. eapply quiet_work; [done|apply follow_refresh_ok; [done|by rewrite Ha]|done]. }
    unfold follow_refresh, mbind, Desk_bind, mret, Desk_ret, get in Hx. rewrite Ha in Hx.
    destruct Hd as [[] Hap]. destruct d. simpl in *. simplify_eq/=.
    split_and!; [split; [by split|done]|by split; simpl; auto|done|by auto].
  - eapply quiet_work; [done|by apply dispatch_request_ok|done].
  - unfold mbind, Desk_bind, mret, Desk_ret, get in Hx. simplify_eq/=. split_and!; [done|by apply quiet_moves|done|by auto].
  - pose proof (shortcut_added_ok d Hd) as H. unfold mbind, Desk_bind, mret, Desk_ret, get in Hx.
    destruct (dk_app d) eqn:Ha; [|simplify_eq/=; split_and!; [done|by apply quiet_moves|done|by auto]].
    rewrite <- Ha. eapply (quiet_work ShortcutAdded); [exact Hx|done|done].
  - unfold mbind, Desk_bind, mret, Desk_ret, get in Hx. simplify_eq/=. split_and!; [done|by apply quiet_moves|done|by auto].
  - eapply quiet_work; [done|by apply menu_opens_ok|done].
  - pose proof (menu_closed_ok d Hd) as H. rewrite Hx in H. destruct H as (? & ? & Hdl & ?). cbn in *.
    split_and!; [done..|]. rewrite Hdl. auto.
  - pose proof (destroy_window_ok d Hd) as H. rewrite Hx in H. destruct H as (? & ? & Hdl). cbn in *.
    split_and!; [done..|]. rewrite Hdl. auto.
Qed.

Lemma frames_cons (P : frame → Prop) f fs : Forall P (f :: fs) ↔ P f ∧ Forall P fs.
Proof. split; [by inversion 1|by intros []; constructor]. Qed.

Lemma some_frame (P : frame → Prop) f fs : Exists P (f :: fs) ↔ P f ∨ Exists P fs.
Proof. split; [by inversion 1; auto|by intros []; constructor]. Qed.

Lemma frames_plain (P : Prop) fs :
  Forall (λ f, steps (window_proc (fr_message f)) (fr_calls f) (fr_left f)) fs → Forall suspended fs →
  Forall (λ f, nt_fresh (now (fr_calls f)) = true → P) fs.
Proof.
  induction fs as [|f fs IH]; [by constructor|]. rewrite !frames_cons. intros [Hs Hss] [Hb Hbs].
  split; [|by apply IH]. by rewrite (suspended_plain f).
Qed.

Lemma now_snoc h ev : now (h ++ [ev]) = note_step (now h) ev.
Proof. unfold summary. by rewrite foldl_app. Qed.

(** A handler's call: the others are in windows of their own. *)
Lemma frames_call {X} m h (e : fcall X) k fs x d d' :
  frames_ok d (Frame m h (Vis e k) :: fs) → moves d d' → call_effect e x d' →
  (dk_dangling d' = true → dk_dangling d = true ∨ is_follow e = true ∧ dk_app d = None) →
  frames_ok d' (Frame m (h ++ [Event e x]) (k x) :: fs).
Proof.
  intros [Hs Hb Hf Ht Hdl Hr Hu] Hm He Hd. cbn in Hb.
  apply frames_cons in Hs as [Hs Hss]. apply frames_cons in Hf as [Hf Hfs]. apply frames_cons in Ht as [Ht Hts]. cbn in *.
  pose proof (frame_call m h e k x Hs) as Hp.
  split; cbn.
  - apply frames_cons. split; [exact (steps_call _ h e k x Hs)|done].
  - done.
  - apply frames_cons. cbn [fr_calls]. rewrite now_snoc. split; [destruct e; cbn; try done|].
    + destruct x as [[response [err|]]|]; try done. intros _. by eapply He.
    + by apply frames_plain.
  - apply frames_cons. cbn [fr_calls]. rewrite now_snoc. split; [|eapply List.Forall_impl; [|exact Hts]; intros f Hf' ?; by apply Hm, Hf'].
    destruct e; cbn; try (intros; by apply Hm, Ht).
    destruct x as [[response [err|]]|]; cbn; try (intros; by apply Hm, Ht). intros _. by eapply He.
  - intros Hd'. destruct (Hd Hd') as [?|[Hfo Ha]]; [by apply Hm, Hdl|]. destruct e; try done.
    destruct Hp as [Hp|Hp]; [|by apply Hm, Ht]. destruct (Hf Hp). congruence.
  - intros Ha Hne. destruct (Hr (mv_app _ _ Hm Ha) (mv_responses _ _ Hm Hne)) as [?|[?|[?|Hin]]].
    + left. by apply Hm.
    + right; left. by rewrite (mv_worker _ _ Hm).
    + right; right; left. by apply Hm.
    + do 3 right. apply some_frame in Hin as [[Heq He']|Hin]; apply some_frame; [left|by right]. cbn [fr_message fr_calls] in *.
      split; [done|]. rewrite now_snoc. destruct e; try done. destruct x as [[? []]|]; [done..|].
      destruct He as [He _]. by destruct Hne; apply He.
  - intros Ha Hne. destruct (mv_ui _ _ Hm Ha Hne) as [Hn|[?|?]]; [|by auto..].
    destruct (Hu (mv_app _ _ Hm Ha) Hn) as [?|[?|Hin]].
    + left. by apply Hm.
    + right; left. by apply Hm.
    + do 2 right. apply some_frame in Hin as [[Heq He']|Hin]; apply some_frame; [left|by right]. cbn [fr_message fr_calls] in *.
      split; [done|]. rewrite now_snoc. destruct e; try done; [|by destruct x as [[? []]|]].
      destruct x; [done|]. by destruct Hne; apply He.
Qed.

(** What happens on the desk while every handler waits. *)
Lemma frames_idle d d' fs :
  frames_ok d fs → (is_Some (dk_app d') ↔ is_Some (dk_app d)) → dk_dangling d' = dk_dangling d →
  (dk_tip_failed d = true → dk_tip_failed d' = true) →
  (is_Some (dk_app d') → dk_responses d' ≠ [] → in_hand MsgBackend nt_responses_empty fs ∨
     dk_lost d' = true ∨ dk_worker d' = Posting ∨ MsgBackend ∈ dk_posted d') →
  (is_Some (dk_app d') → dk_ui d' ≠ [] → in_hand MsgUi nt_ui_empty fs ∨ dk_lost d' = true ∨ MsgUi ∈ dk_posted d') →
  frames_ok d' fs.
Proof.
  intros [Hs Hb Hf Ht Hdl Hr Hu] Ha Hda Htf Hre Hui. split; [done..| | | | |].
  - eapply List.Forall_impl; [|exact Hf]. intros f Hff ?. by apply Ha, Hff.
  - eapply List.Forall_impl; [|exact Ht]. intros f Hff ?. by apply Htf, Hff.
  - rewrite Hda. auto.
  - intros. destruct Hre as [?|[?|[?|?]]]; auto.
  - intros. destruct Hui as [?|[?|?]]; auto.
Qed.

(** A message is taken from those that wait. *)
Lemma frames_push d m fs :
  frames_ok d fs → pumping fs → frames_ok d (started m :: fs).
Proof.
  intros [Hs Hb Hf Ht Hdl Hr Hu] Hp. split; cbn.
  - apply frames_cons. split; [apply steps_start|done].
  - destruct fs; [done|]. by apply frames_cons.
  - by apply frames_cons.
  - by apply frames_cons.
  - done.
  - intros. destruct Hr as [?|[?|[?|?]]]; auto. do 3 right. by apply some_frame; right.
  - intros. destruct Hu as [?|[?|?]]; auto. do 2 right. by apply some_frame; right.
Qed.

Lemma frames_pop d m h fs :
  frames_ok d (Frame m h (Ret ()) :: fs) → frames_ok d fs.
Proof.
  intros [Hs Hb Hf Ht Hdl Hr Hu]. cbn [tail] in *.
  apply frames_cons in Hs as [Hs Hss]. apply frames_cons in Hf as [Hf Hfs]. apply frames_cons in Ht as [Ht Hts]. cbn [fr_message fr_calls fr_left] in *.
  destruct (frame_return m h Hs) as [Hui Hre].
  split; [done| |done..| |].
  - destruct fs; [done|]. by apply frames_cons in Hb as [_ Hb].
  - intros Ha Hne. destruct (Hr Ha Hne) as [?|[?|[?|Hin]]]; auto. do 3 right.
    apply some_frame in Hin as [[Heq He]|Hin]; [|done]. cbn [fr_message fr_calls] in *. by rewrite (Hre Heq) in He.
  - intros Ha Hne. destruct (Hu Ha Hne) as [?|[?|Hin]]; auto. do 2 right.
    apply some_frame in Hin as [[Heq He]|Hin]; [|done]. cbn [fr_message fr_calls] in *. by rewrite (Hui Heq) in He.
Qed.

(** ** The backend's steps *)

Lemma any_triple {E : Type → Type} {A} (m : prog E A) : triple (λ _ _, True) (λ _, True) m (λ _ _, True).
Proof. intros h t o _ _. by split. Qed.

(** A response answers its request. *)
Lemma handled_kind request t r :
  exec (handle_request request) t (Some r) →
  match r with
  | None => request = BackendShutdown
  | Some response =>
      refresh_kind (resp_request response) = refresh_request request ∧
      action_kind (resp_request response) = action_request request
  end.
Proof.
  unfold handle_request. destruct (request_action request) as [[kind action]|] eqn:Ha.
  2: { intros [_ [?|[= ->]]]; [done|]. by destruct request. }
  match goal with |- exec ?m _ _ → _ =>
    assert (Hm : triple (λ _ _, True) (λ _, True) m
      (λ r _, ∃ snapshot error, r = Some (RequestCompleted kind snapshot error))) end.
  { eapply triple_then; [apply any_triple|]. intros error. eapply triple_then; [apply any_triple|].
    intros snapshot. apply triple_ret. intros h _. by eexists _, _. }
  intros He. destruct (Hm [] t (Some r) I He) as [_ Hq].
  destruct (Hq r eq_refl) as (snapshot & error & ->). cbn. by destruct request; simplify_eq/=.
Qed.

Lemma backend_desk_ok d d' : desk_ok d → backend_step d d' → desk_ok d'.
Proof.
  intros [Hb Hap] Hs.
  destruct Hs as [d request rest Hw Hq|d Hw Hq Ha|d request t response Hw He|d request t Hw He|d response Hw Ha Hl|d response Hw Ha|d fa Hw].
  - destruct Hb as [Hq1 Hr1 Hh Ho]. destruct d; simpl in *; subst; simpl in *.
    destruct (decide (request = BackendShutdown)) as [->|Hne].
    + assert (dk_app = None) as ->. { destruct dk_app; [|done]. destruct Ho as [_ Hn]; [eauto|]. set_solver. }
      apply desk_ok_closed; [split; simpl; auto; [lia|by intros []]|done].
    + split; [split; simpl; auto; [lia|congruence|]|].
      { intros Ha. destruct (Ho Ha) as [? Hn]. split; [done|]. set_solver. }
      intros st Hst. simpl in Hst. destruct (Hap st Hst) as [Hre Hp Hm Ht]. split; [|clear Hre|done|done].
      * rewrite <- Hre. unfold refreshes, outstanding. simpl. lia.
      * simpl. intros Hpe. destruct (Hp Hpe) as [Hle|?]; [left|by right]. revert Hle.
        unfold actions, outstanding. simpl. lia.
  - destruct Hb. destruct d; simpl in *; subst. apply desk_ok_closed; [by split; simpl; auto; intros []|done].
  - apply handled_kind in He as [Hk1 Hk2]. destruct Hb. destruct d; simpl in *; subst.
    split; [by split; simpl; auto; intros Ha; split; [|apply ok_open0]|].
    intros st Hst. simpl in Hst. destruct (Hap st Hst) as [Hre Hp Hm Ht].
    by split; unfold refreshes, actions, outstanding in *; simpl in *; rewrite ?Hk1, ?Hk2.
  - apply handled_kind in He. subst. by destruct Hb.
  - destruct Hb. destruct d; simpl in *; subst.
    split; [split; simpl; auto; [rewrite length_app; simpl; lia|by intros _; split; [|apply ok_open0]]|].
    intros st Hst. simpl in Hst. destruct (Hap st Hst) as [Hre Hp Hm Ht].
    split; unfold refreshes, actions, outstanding in *; simpl in *; rewrite ?sum_list_with_app; simpl; [lia| |done|done].
    intros Hpe. destruct (Hp Hpe); [left; lia|by right].
  - destruct Hb. destruct d; simpl in *; subst. apply desk_ok_closed; [by split; simpl; auto; intros []|done].
  - destruct Hb. destruct d as [ap]; simpl in *; subst.
    unfold PostMessage, next_fault, mbind, Desk_bind, mret, Desk_ret, get. simpl.
    destruct ap as [st|]; [destruct fa as [|[]]|]; simpl.
    all: split; [by split; simpl; auto; intros Ha; split; [|apply ok_open0]|].
    all: intros st' Hst; destruct (Hap st' Hst) as [Hre Hp Hm Ht]; by split.
Qed.

Lemma backend_frames_ok d d' fs : frames_ok d fs → backend_step d d' → frames_ok d' fs.
Proof.
  intros Hf Hs. pose proof Hf as [_ _ _ _ _ Hr Hu].
  destruct Hs as [d request rest Hw Hq|d Hw Hq Ha|d request t response Hw He|d request t Hw He|d response Hw Ha Hl|d response Hw Ha|d fa Hw].
  all: apply (frames_idle d); [done|..]; destruct d as [ap]; simpl in *; subst; try done; auto.
  all: try (intros Ha' Hne; destruct (Hr Ha' Hne) as [?|[?|[?|?]]]; by auto).
  all: try (intros Ha' Hne; destruct (Hu Ha' Hne) as [?|[?|?]]; by auto).
  all: unfold PostMessage, next_fault, mbind, Desk_bind, mret, Desk_ret, get; simpl.
  all: destruct ap as [st|]; [destruct fa as [|[]]|]; simpl; try done; auto.
  all: try (intros; rewrite ?elem_of_app, ?list_elem_of_singleton; auto).
  all: try (destruct (Hu H H0) as [?|[?|?]]; by rewrite ?elem_of_app; auto).
  all: by destruct H.
Qed.

(** ** Every step keeps it *)

Lemma frontend_ok s s' : tray_ok s → frontend_step s s' → tray_ok s'.
Proof.
  intros [Hd Hf] Hs.
  destruct Hs as [X d m h e k fs work fa x d' Hw Hx|X d m h e k fs x Hw|I R d m h body i k fs|d m h fs
                 |d m posted fs Hp Hq|d fs Hp Ht|d fs Hp Ha|d fs fa event Hp Hh]; cbn [fst snd] in *.
  - pose proof Hf as [Hst _ _ _ _ _ _]. apply frames_cons in Hst as [Hst _].
    destruct (work_ok e work (now h) (with_faults fa d) x d') as (Hd' & Hm & He & Hdl); [done|by apply (frame_call m h e k)|by apply with_faults_ok|done|].
    split; [done|]. eapply frames_call; [done| |done|by destruct d].
    eapply moves_trans; [|done]. apply quiet_moves, with_faults_quiet.
  - split; [done|]. eapply frames_call; [done|by apply quiet_moves|by destruct e|by auto].
  - split; [done|]. destruct Hf as [Hst Hb Hfr Ht Hdl Hr Hu]. apply frames_cons in Hst as [Hst Hss].
    split; [|done| | |done|..].
    + apply frames_cons. split; [exact (steps_round _ h body i k Hst)|done].
    + apply frames_cons in Hfr. by apply frames_cons.
    + apply frames_cons in Ht. by apply frames_cons.
    + intros Ha Hne. destruct (Hr Ha Hne) as [?|[?|[?|Hin]]]; auto. do 3 right. apply some_frame in Hin. by apply some_frame.
    + intros Ha Hne. destruct (Hu Ha Hne) as [?|[?|Hin]]; auto. do 2 right. apply some_frame in Hin. by apply some_frame.
  - split; [done|by eapply frames_pop].
  - split; [destruct Hd as [[] Hap]; destruct d; by split; [split|]|].
    pose proof (frames_push d m fs Hf Hp) as Hf'. pose proof Hf as [_ _ _ _ _ Hr Hu].
    apply (frames_idle d); [done|destruct d; simpl in *; subst; try done; auto..].
    + intros Ha Hne. destruct (Hr Ha Hne) as [?|[?|[Hin|Hin]]]; auto.
      * apply elem_of_cons in Hin as [<-|Hin]; [left|by auto]. apply some_frame. by left.
      * left. apply some_frame. by right.
    + intros Ha Hne. destruct (Hu Ha Hne) as [?|[Hin|Hin]]; auto.
      * apply elem_of_cons in Hin as [<-|Hin]; [left|by auto]. apply some_frame. by left.
      * left. apply some_frame. by right.
  - split; [done|by apply frames_push].
  - split; [done|by apply frames_push].
  - destruct (ui_event_ok event (with_faults fa d)) as (Hd' & Hm & Hdl); [by apply with_faults_ok|].
    split; [done|]. assert (Hm' : moves d (ui_event event (with_faults fa d)).2).
    { eapply moves_trans; [|done]. apply quiet_moves, with_faults_quiet. }
    pose proof Hf as [_ _ _ _ _ Hr Hu]. apply (frames_idle d); [done| |etrans; [exact Hdl|by destruct d]|apply Hm'|..].
    + split; [apply Hm'|]. intros Ha. apply ui_event_app. by destruct d.
    + intros Ha Hne. destruct (Hr (mv_app _ _ Hm' Ha) (mv_responses _ _ Hm' Hne)) as [?|[Hwk|[?|?]]]; auto.
      * right; left. by apply Hm'.
      * do 2 right; left. by etrans; [apply (mv_worker _ _ Hm')|].
      * do 3 right. by apply Hm'.
    + intros Ha Hne. destruct (mv_ui _ _ Hm' Ha Hne) as [Hn|[?|?]]; [|by auto..].
      destruct (Hu (mv_app _ _ Hm' Ha) Hn) as [?|[?|?]]; auto.
      * right; left. by apply Hm'.
      * do 2 right. by apply Hm'.
Qed.

Lemma tray_step_ok s s' : tray_ok s → tray_step s s' → tray_ok s'.
Proof.
  intros Hs Ht. destruct Ht as [s s' Hf|d d' fs Hb]; [exact (frontend_ok s s' Hs Hf)|]. destruct Hs as [Hd Hf].
  split; [by eapply backend_desk_ok|by eapply backend_frames_ok].
Qed.

Lemma tray_start_ok first_id running present posted : tray_ok (tray_start first_id running present posted).
Proof.
  split; [split|]; cbn.
  - split; cbn; [lia|lia|done|]. intros _. split; [done|]. set_solver.
  - intros st [= <-]. split; [done|done|by intros []|done].
  - by split; cbn.
Qed.

(** C21: The tray's two threads agree in every state the tray reaches,
    whatever the user does, whichever boxes are open, whatever the system and
    the service answer. The queues stay within their bounds. While the window
    is there, so is the backend; one refresh is on its way (queued, handled,
    or answered and not taken) when the state says so, and none otherwise;
    while an action is pending one is on its way, unless a tooltip could not
    be set; once there is an icon its menu is enabled as the state demands,
    and its tooltip tells whether the service runs, unless it is to be set
    again or could not be set. No response and no event is forgotten: while a
    queue is not empty, its message waits for the window, or a handler that
    has not yet found it empty is at work, or (for a response) the backend is
    about to post the message, or a post failed. And the window's state is
    used after it was freed only if a tooltip could not be set. *)
Theorem tray_coherent (first_id : Z) (running present posted : bool) (d : desk) (fs : list frame) :
  rtc tray_step (tray_start first_id running present posted) (d, fs) →
  (length (dk_requests d) <= REQUEST_CAPACITY)%nat ∧ (length (dk_responses d) <= RESPONSE_CAPACITY)%nat ∧
  (∀ st, dk_app d = Some st →
     dk_worker d ≠ WorkerGone ∧ app_ok st (refreshes d) (actions d) (dk_tip_failed d) ∧
     (dk_responses d ≠ [] →
        dk_lost d = true ∨ dk_worker d = Posting ∨ MsgBackend ∈ dk_posted d ∨ in_hand MsgBackend nt_responses_empty fs) ∧
     (dk_ui d ≠ [] → dk_lost d = true ∨ MsgUi ∈ dk_posted d ∨ in_hand MsgUi nt_ui_empty fs)) ∧
  (dk_dangling d = true → dk_tip_failed d = true).
Proof.
  intros Hr. assert (tray_ok (d, fs)) as [[[Hq Hrs Hh Ho] Hap] [_ _ _ _ Hdl Hre Hu]].
  { pose proof (tray_start_ok first_id running present posted) as Hs. revert Hs.
    induction Hr; [done|]. intros Hs. by eapply IHHr, tray_step_ok. }
  cbn in *. split_and!; [done..| |done]. intros st Ha.
  split_and!; [by apply Ho; rewrite Ha|by apply Hap|intros; apply Hre; [by rewrite Ha|done]|intros; apply Hu; [by rewrite Ha|done]].
Qed.
End invariant.

(** ** Runs *)

Definition plain_tray : TrayBuild := {| hresult_text := λ _, "0x80004005"; kanal_error := "closed" |}.

#[local] Existing Instance plain_build.
#[local] Existing Instance plain_tray.

Notation reaches s := (rtc tray_step (tray_start 1000 false false true) s).

(** One more step of a run: of the handler on top, of a message, of the
    backend. *)
Ltac next_step t := eapply rtc_l; [t|]; cbn [snd].
Ltac do_work fs fa := next_step ltac:(apply tray_frontend; refine (step_work _ _ _ _ _ fs _ fa _ _ _ _); [reflexivity|vm_compute; reflexivity]).
Ltac do_answer fs x := next_step ltac:(apply tray_frontend; refine (step_answer _ _ _ _ _ fs x _); reflexivity).
Ltac do_round fs := next_step ltac:(apply tray_frontend; refine (step_round _ _ _ _ _ _ fs)).
Ltac do_return fs := next_step ltac:(apply tray_frontend; refine (step_return _ _ _ fs)).
Ltac do_message m rest fs := next_step ltac:(apply tray_frontend; refine (step_message _ m rest fs _ _); [hnf; eauto 6|reflexivity]).

Definition initialized : desk :=
  let st := (apply_service_state (set_tray (Some (tray_tooltip false)) (AppState_new 1000 false false)) false false
               (tray_start 1000 false false true).1).1.2 in
  MkDesk (Some (set_refresh_inflight true st)) true true false [] [RefreshStatus] [] Waiting [] [] false false false.

Lemma reaches_initialized : reaches (initialized, []).
Proof.
  do_message MsgInit (@nil message) (@nil frame).
  do_work (@nil frame) (@nil (option string)).
  do_return (@nil frame). apply rtc_refl.
Qed.

Lemma tray_coherent_witness :
  ∃ st, dk_app initialized = Some st ∧ refresh_inflight st = true ∧ refreshes initialized = 1%nat ∧ menu_right st.
Proof.
  destruct (tray_coherent 1000 false false true initialized [] reaches_initialized) as (_ & _ & Ha & _).
  eexists. split; [reflexivity|]. destruct (Ha _ eq_refl) as (_ & [Hr _ Hm _] & _ & _).
  split_and!; [reflexivity|exact Hr|apply Hm; by eexists].
Defined.

Lemma runs_on s1 s2 s3 : rtc tray_step s1 s2 → rtc tray_step s2 s3 → rtc tray_step s1 s3.
Proof. induction 1; [done|]. intros. eapply rtc_l; eauto. Qed.

Definition running_response : BackendResponse :=
  RequestCompleted KindRefreshStatus {| snap_service_running := true; snap_reset_agent_enabled := true |} None.

Lemma handled_refresh : ∃ t, exec (handle_request RefreshStatus) t (Some (Some running_response)).
Proof.
  eexists. pose proof (traced_run_exec windows_machine 1 (handle_request RefreshStatus) true) as H.
  assert (Hr : (traced_run windows_machine 1 (handle_request RefreshStatus) true).2 = Some (Some running_response))
    by (vm_compute; reflexivity).
  rewrite Hr in H. exact H.
Qed.

(** A run that frees the window's state under a handler: the tooltip could not
    be set, and the window is closed while the message box says so. *)
Lemma tray_use_after_free : ∃ s, reaches s ∧ dk_dangling s.1 = true.
Proof.
  destruct handled_refresh as [t Ht].
  eexists. split.
  - eapply runs_on; [exact reaches_initialized|].
    next_step ltac:(apply tray_backend; eapply worker_takes; reflexivity).
    next_step ltac:(apply tray_backend; eapply worker_handled; [reflexivity|exact Ht]).
    next_step ltac:(apply tray_backend; eapply worker_sent; [reflexivity|by eexists|vm_compute; lia]).
    next_step ltac:(apply tray_backend; refine (worker_posted _ [] _); reflexivity).
    do_message MsgBackend (@nil message) (@nil frame).
    do_round (@nil frame).
    do_work (@nil frame) [Some "the tray is busy"].
    next_step ltac:(apply tray_frontend; refine (step_close _ _ _ _); [hnf; by eexists _, _, _|by eexists]).
    next_step ltac:(apply tray_frontend; refine (step_work _ _ _ _ _ _ _ [] _ _ _ _); [reflexivity|vm_compute; reflexivity]).
    next_step ltac:(apply tray_frontend; refine (step_return _ _ _ _)).
    do_answer (@nil frame) tt.
    do_work (@nil frame) (@nil (option string)).
    apply rtc_refl.
  - vm_compute. reflexivity.
Qed.

(** ** What the backend asks of the service *)

(** What has happened while a request is handled: the handles that are open;
    what the service manager said when it was last asked and whether it ever
    said that the service runs; whether the daemon answered when it was last
    asked, and that it waits for a secret; a reset was accepted, a stop was
    tried, playit was started. *)
Record bstate : Type := BState {
  b_open : list nat;
  b_runs : option bool;
  b_seen : bool;
  b_answers : option bool;
  b_waiting : bool;
  b_reset : bool;
  b_tried : bool;
  b_launched : bool;
}.

Definition backend_start : bstate := BState [] None false None false false false false.

Definition bstep (s : bstate) (ev : event wcall) : bstate :=
  let '(BState op ru se an wa re tr la) := s in
  let op := handles_step op ev in
  let s := BState op ru se an wa re tr la in
  match ev with
  | @Event _ _ e x =>
      match e in wcall X return X → bstate with
      | SpawnBlocking => λ _, BState op None se an wa re tr la
      | QueryServiceStatusEx _ => λ r,
          match r with
          | Some state =>
              let runs := bool_decide (state = SERVICE_RUNNING) in BState op (Some runs) (se || runs) an wa re tr la
          | None => s
          end
      | WIsRunning _ => λ r, BState op ru se (Some r) wa re tr la
      | WRequest _ request => λ r,
          match request with
          | GetState => BState op ru se an (match r with inr (RespState WaitingForSecret) => true | _ => false end) re tr la
          | ResetSecret =>
              BState op ru se an wa (re || match r with inr (RespResetSecret response) => cr_accepted response | _ => false end) tr la
          | Stop => BState op ru se an wa re true la
          | _ => s
          end
      | ControlService _ _ => λ _, BState op ru se an wa re true la
      | WSleep millis => λ _, BState op ru se an wa re (tr || bool_decide (millis = 500)) la
      | SpawnProcess _ _ _ => λ r, match r with inr _ => BState op ru se an wa re tr true | inl _ => s end
      | _ => λ _, s
      end x
  end.

(** The service may be stopped: that was asked for, or a reset was accepted. *)
Definition may_stop (request : BackendRequest) (s : bstate) : Prop :=
  b_seen s = true ∧ (request = StopService ∨ request = ResetAgent ∧ b_reset s = true).

Definition backend_policy (request : BackendRequest) (s : bstate) (ev : event wcall) : Prop :=
  handles_policy (b_open s) ev ∧
  match ev_call ev with
  | WStartService _ => request = StartService ∧ b_runs s ≠ Some true ∧ b_answers s = Some false
  | ControlService _ _ => may_stop request s
  | WRequest _ GetState => True
  | WRequest _ Stop => may_stop request s
  | WRequest _ ResetSecret => request = ResetAgent ∧ b_seen s = true ∧ b_waiting s = false
  | WRequest _ _ => False
  | SpawnProcess _ _ _ =>
      request = ResetAgent ∧ b_reset s = true ∧
      (b_tried s = true ∧ b_answers s = Some false ∨ b_tried s = false ∧ b_runs s ≠ Some true)
  | _ => True
  end.

(** What a response says. *)
Definition response_justified (request : BackendRequest) (response : BackendResponse) (s : bstate) : Prop :=
  b_open s = [] ∧
  (snap_reset_agent_enabled (resp_snapshot response) = true → snap_service_running (resp_snapshot response) = true) ∧
  (snap_service_running (resp_snapshot response) = true → b_runs s = Some true) ∧
  match request with
  | RefreshStatus => resp_request response = KindRefreshStatus ∧ resp_error response = None
  | StartService =>
      resp_request response = KindStartService ∧
      (resp_error response = None → b_seen s = true ∨ b_answers s = Some true)
  | StopService =>
      resp_request response = KindStopService ∧
      (resp_error response = None → b_tried s = true → b_answers s = Some false)
  | ResetAgent =>
      resp_request response = KindResetAgent ∧
      (resp_error response = None → b_reset s = true ∧ b_launched s = true)
  | BackendShutdown => False
  end.

Section backend_actions.
Context {CB : CliBuild} (request : BackendRequest).

Notation asked := (λ h ev, backend_policy request (summary bstep backend_start h) ev).
Notation b_at s := (λ h, summary bstep backend_start h = s).
Notation b_now := (summary bstep backend_start).

(** Closes a goal about a state that is known. *)
Ltac by_backend :=
  lazymatch goal with
  | |- triple _ _ _ _ => fail
  | _ => unfold backend_policy, handles_policy, may_stop in *; cbn in *; repeat case_bool_decide; try split_and!; intros; simplify_eq/=; auto; try done; try congruence; try by naive_solver
  end.

(** Asking the service manager changes what is known of the service only. *)
Definition queried (s : bstate) (r : bool) (s' : bstate) : Prop :=
  ∃ runs seen, s' = BState (b_open s) runs seen (b_answers s) (b_waiting s) (b_reset s) (b_tried s) (b_launched s) ∧
    (b_seen s = true → seen = true) ∧ (r = true → runs = Some true ∧ seen = true) ∧ (r = false → runs ≠ Some true).

Lemma query_running_asked s :
  triple asked (b_at s) query_service_running_async (λ r h, queried s r (b_now h)).
Proof.
  destruct s as [op ru se an wa re tr la].
  unfold query_service_running_async, query_service_running_sync, windows_service_is_running,
    windows_installed_service_state, open_windows_service_manager, with_handle.
  follow; try by_backend.
  all: unfold queried; eexists _, _; split; [cbn; reflexivity|]; cbn; repeat case_bool_decide; subst; split_and!; intros; try done; rewrite ?orb_true_r; try done.
  - by rewrite orb_false_r.
  - by destruct (decide (z = SERVICE_RUNNING)).
Qed.

Lemma expect_reset response expected x :
  expect response expected (λ r, match r with RespResetSecret x => Some x | _ => None end) = inr x →
  response = RespResetSecret x.
Proof. unfold expect, expect_response, ok_or. by destruct response; intros; simplify_eq/=. Qed.

Lemma lifecycle_asked s :
  triple asked (b_at s) query_service_lifecycle_async
    (λ r h, ∃ wa, b_now h = BState (b_open s) (b_runs s) (b_seen s) (b_answers s) wa (b_reset s) (b_tried s) (b_launched s) ∧
       (wa = true → b_waiting s = true ∨ r = inr WaitingForSecret)).
Proof.
  destruct s as [op ru se an wa re tr la].
  unfold query_service_lifecycle_async, windows_lifecycle_call, windows_client_call.
  follow; try by_backend.
  all: eexists; split; [cbn; reflexivity|]; cbn; try by auto.
  intros Hw. right. destruct s; try done. match goal with l : AgentLifecycle |- _ => by destruct l end.
Qed.

Lemma reset_enabled_asked running s :
  triple asked (b_at s) (query_reset_agent_enabled_async running)
    (λ r h, ∃ wa, b_now h = BState (b_open s) (b_runs s) (b_seen s) (b_answers s) wa (b_reset s) (b_tried s) (b_launched s) ∧
       (r = true → running = true)).
Proof.
  unfold query_reset_agent_enabled_async. destruct running.
  - apply (track_then bstep backend_start (backend_policy request) _ _ (λ _ s', ∃ wa,
      s' = BState (b_open s) (b_runs s) (b_seen s) (b_answers s) wa (b_reset s) (b_tried s) (b_launched s))).
    + eapply triple_post; [apply lifecycle_asked|]. intros r h (wa & -> & _). eauto.
    + intros r s' (wa & ->). apply triple_ret. intros h ->. eauto.
  - apply triple_ret. intros h ->. exists (b_waiting s). by destruct s.
Qed.

(** What a snapshot adds. *)
Definition snapped (s : bstate) (snap : ServiceStateSnapshot) (s' : bstate) : Prop :=
  ∃ runs seen wa,
    s' = BState (b_open s) runs seen (b_answers s) wa (b_reset s) (b_tried s) (b_launched s) ∧
    (b_seen s = true → seen = true) ∧ (snap_service_running snap = true → runs = Some true) ∧
    (snap_reset_agent_enabled snap = true → snap_service_running snap = true).

Lemma snapshot_asked s :
  triple asked (b_at s) query_service_state_snapshot_async (λ snap h, snapped s snap (b_now h)).
Proof.
  apply (track_then bstep backend_start (backend_policy request) _ _ (queried s)); [apply query_running_asked|].
  intros running s' (runs & seen & -> & Hse & Ht & Hf).
  apply (track_then bstep backend_start (backend_policy request) _ _ (λ r s', ∃ wa,
      s' = BState (b_open s) runs seen (b_answers s) wa (b_reset s) (b_tried s) (b_launched s) ∧
      (r = true → running = true))); [apply reset_enabled_asked|].
  intros enabled s' (wa & -> & He). apply triple_ret. intros h ->. exists runs, seen, wa.
  split_and!; [done|done|by intros; apply Ht|done].
Qed.

Lemma wait_rounds_asked n s :
  triple asked (b_at s) (windows_wait_rounds n)
    (λ r h, ∃ an, b_now h = BState (b_open s) (b_runs s) (b_seen s) an (b_waiting s) (b_reset s) (b_tried s) (b_launched s) ∧
       (r = inr () → an = Some true)).
Proof.
  revert s. induction n as [|n IH]; intros s; cbn [windows_wait_rounds].
  - apply triple_ret. intros h ->. exists (b_answers s). by destruct s.
  - destruct s as [op ru se an wa re tr la]. follow; try by_backend.
    + eexists. split; [cbn; by rewrite orb_false_r|done].
    + eapply triple_post; [apply IH|]. cbn. rewrite orb_false_r. done.
Qed.

Lemma start_asked s :
  request = StartService → b_open s = [] →
  triple asked (b_at s) start_service_async
    (λ r h, b_open (b_now h) = [] ∧ (r = inr () → b_seen (b_now h) = true ∨ b_answers (b_now h) = Some true)).
Proof.
  intros Hreq Ho. apply (bool_decide_eq_true_2 (request = StartService)) in Hreq. apply (track_then bstep backend_start (backend_policy request) _ _ (queried s)); [apply query_running_asked|].
  intros running s' (runs & seen & -> & Hse & Ht & Hf). rewrite Ho.
  destruct running; [apply triple_ret; intros h ->; destruct Ht; [done|]; cbn; auto|]. specialize (Hf eq_refl).
  unfold windows_ensure_service_running, windows_start_installed_service, open_windows_service_manager, with_handle, open_service_error.
  follow; apply (bool_decide_eq_true_1 (request = StartService)) in Hreq; try by_backend.
  all: apply (track_then bstep backend_start (backend_policy request) _ (windows_wait_rounds 50)
         (λ r s', b_open s' = [] ∧ (r = inr () → b_answers s' = Some true)));
    [eapply triple_post; [apply wait_rounds_asked|]; by intros r h (an & -> & Han)|].
  all: intros r s' [Ho' Han]; apply triple_ret; intros h ->; split; [done|].
  all: destruct r as [|[]]; intros; simplify_eq/=; auto.
Qed.

(** A stop, after a reset or because it was asked for. *)
Definition stop_tried (s : bstate) (r : string + ()) (s' : bstate) : Prop :=
  b_open s' = b_open s ∧ b_reset s' = b_reset s ∧ b_launched s' = b_launched s ∧
  (r = inr () → b_tried s' = true ∧ b_answers s' = Some false ∨ b_tried s' = b_tried s ∧ b_runs s' ≠ Some true).

(** The service was seen to run and may be stopped. *)
Definition stoppable (s s' : bstate) : Prop :=
  b_open s' = b_open s ∧ b_reset s' = b_reset s ∧ b_launched s' = b_launched s ∧ may_stop request s'.

Lemma stop_installed_asked s :
  may_stop request s →
  triple asked (b_at s) stop_installed_service_async (λ _ h, stoppable s (b_now h)).
Proof.
  intros Hs. destruct s as [op ru se an wa re tr la].
  unfold stop_installed_service_async, windows_stop_installed_service, open_windows_service_manager, with_handle, open_service_error.
  follow; unfold stoppable, backend_policy, handles_policy, may_stop in *; cbn in *; auto.
Qed.

Lemma stop_request_asked client s :
  may_stop request s →
  triple asked (b_at s) (windows_stop_call client) (λ _ h, stoppable s (b_now h)).
Proof.
  intros Hs. destruct s as [op ru se an wa re tr la]. unfold windows_stop_call, windows_client_call.
  follow; unfold stoppable, backend_policy, handles_policy, may_stop in *; cbn in *; auto.
Qed.

Lemma stop_ipc_asked s :
  may_stop request s → triple asked (b_at s) stop_over_ipc (λ _ h, stoppable s (b_now h)).
Proof.
  intros Hs. apply (track_then bstep backend_start (backend_policy request) _ _ (λ _ s', s' = s)).
  { destruct s. follow; by_backend. }
  intros [e|client] s' ->; [apply triple_ret; intros h ->; by unfold stoppable|].
  apply (track_then bstep backend_start (backend_policy request) _ _ (λ _, stoppable s)); [by apply stop_request_asked|].
  intros r s' Hs'. unfold stoppable in *. destruct s' as [op ru se an wa re tr la].
  follow; unfold backend_policy, handles_policy, may_stop in *; cbn in *; auto.
Qed.

Lemma stoppable_trans s1 s2 s3 : stoppable s1 s2 → stoppable s2 s3 → stoppable s1 s3.
Proof. intros (H1 & H2 & H3 & _) (K1 & K2 & K3 & K4). unfold stoppable. split_and!; [congruence..|done]. Qed.

Lemma stop_asked s :
  request = StopService ∨ request = ResetAgent ∧ b_reset s = true →
  triple asked (b_at s) stop_service_async (λ r h, stop_tried s r (b_now h)).
Proof.
  intros Hreq. apply (track_then bstep backend_start (backend_policy request) _ _ (queried s)); [apply query_running_asked|].
  intros running s' (runs & seen & -> & Hse & Ht & Hf).
  destruct running; [|apply triple_ret; intros h ->; unfold stop_tried; cbn; split_and!; try done; right; auto].
  destruct (Ht eq_refl) as [-> ->].
  apply (track_then bstep backend_start (backend_policy request) _ _ (λ _, stoppable s)).
  { eapply triple_post; [by apply stop_ipc_asked|]. intros [] h. apply stoppable_trans. by unfold stoppable, may_stop. }
  intros [] s1 Hs1. apply (track_then bstep backend_start (backend_policy request) _ _ (λ _, stoppable s)).
  { eapply triple_post; [apply stop_installed_asked, Hs1|]. intros r h. by apply stoppable_trans. }
  clear s1 Hs1. intros r [op ru se an wa re tr la] (Ho & Hre & Hla & _). unfold stop_tried. cbn in Ho, Hre, Hla.
  follow; cbn; split_and!; try done. intros _. left. by rewrite orb_true_r.
Qed.

Lemma launch_asked s :
  request = ResetAgent → b_reset s = true →
  b_tried s = true ∧ b_answers s = Some false ∨ b_tried s = false ∧ b_runs s ≠ Some true →
  triple asked (b_at s) launch_playit
    (λ r h, b_open (b_now h) = b_open s ∧ (r = inr () → b_reset (b_now h) = true ∧ b_launched (b_now h) = true)).
Proof.
  intros Hreq Hre Hs. destruct s as [op ru se an wa re tr la]. unfold launch_playit, playit_cli_path.
  follow; by_backend.
Qed.

(** A request has just begun to be handled, as far as a reset is concerned. *)
Definition untouched (s : bstate) : Prop :=
  b_open s = [] ∧ b_waiting s = false ∧ b_reset s = false ∧ b_tried s = false ∧ b_launched s = false.

Definition reset_done (r : string + ()) (s : bstate) : Prop :=
  b_open s = [] ∧ (r = inr () → b_reset s = true ∧ b_launched s = true).

Lemma reset_call_asked client s :
  request = ResetAgent → b_seen s = true → b_waiting s = false →
  triple asked (b_at s) (windows_reset_secret_call client)
    (λ r h, b_open (b_now h) = b_open s ∧ b_tried (b_now h) = b_tried s ∧
       (∀ response, r = inr response → cr_accepted response = true → b_reset (b_now h) = true)).
Proof.
  intros Hreq Hse Hw. destruct s as [op ru se an wa re tr la]. cbn in *.
  unfold windows_reset_secret_call, windows_client_call.
  follow; unfold backend_policy, handles_policy; cbn; split_and!; try done.
  intros response ->%expect_reset Hacc. by rewrite Hacc, orb_true_r.
Qed.

Lemma reset_after_stop s :
  request = ResetAgent → b_open s = [] → b_reset s = true → b_tried s = false →
  triple asked (b_at s) (_ ←! stop_service_async; launch_playit) (λ r h, reset_done r (b_now h)).
Proof.
  intros Hreq Ho Hre Htr. apply (track_then bstep backend_start (backend_policy request) _ _ (stop_tried s)); [by apply stop_asked; auto|].
  intros [e|[]] s' (Ho' & Hre' & Hla' & Hr); [apply triple_ret; intros h ->; split; [congruence|done]|].
  eapply triple_post; [apply launch_asked; [done|congruence|]|].
  - destruct (Hr eq_refl) as [?|[? ?]]; [by left|right; split; [congruence|done]].
  - intros r h [Hoo Hrr]. split; [congruence|done].
Qed.

Lemma reset_asked s :
  request = ResetAgent → untouched s →
  triple asked (b_at s) reset_agent_async (λ r h, reset_done r (b_now h)).
Proof.
  intros Hreq (Ho & Hw & Hre & Htr & Hla).
  apply (track_then bstep backend_start (backend_policy request) _ _ (queried s)); [apply query_running_asked|].
  intros running s' (runs & seen & -> & Hse & Ht & Hf). rewrite Ho, Hw, Hre, Htr, Hla.
  destruct running; [|by apply triple_ret; intros h ->].
  destruct (Ht eq_refl) as [-> ->].
  apply (track_then bstep backend_start (backend_policy request) _ _ (λ r s', b_open s' = [] ∧ b_seen s' = true ∧
    b_tried s' = false ∧ (b_waiting s' = true → r = inr WaitingForSecret))).
  { eapply triple_post; [apply lifecycle_asked|]. intros r h (wa & -> & Hwa). cbn in *. naive_solver. }
  intros lifecycle s1 (Ho1 & Hse1 & Htr1 & Hw1).
  destruct (decide (b_waiting s1 = true)) as [Hwait|Hwait].
  { rewrite (Hw1 Hwait). apply triple_ret. intros h ->. by split. }
  apply not_true_is_false in Hwait.
  match goal with |- triple _ _ ?m _ =>
    assert (Hrest : triple asked (b_at s1)
      (client ←! prog_map_err (λ error, "Could not connect to the playit service: " +:+ display_ipc_error error)
                    (perform (WConnect pipe_path));
       response ←! prog_map_err (λ error, "Could not reset the agent setup: " +:+ display_ipc_error error)
                      (windows_reset_secret_call client);
       if cr_accepted response then _ ←! stop_service_async; launch_playit
       else mret (inl (default "The playit service rejected the reset request." (cr_message response))))
      (λ r h, reset_done r (b_now h))) end.
  - apply (track_then bstep backend_start (backend_policy request) _ _ (λ _ s', s' = s1)).
    { destruct s1. follow; by_backend. }
    intros [e|client] ? ->; [apply triple_ret; intros h ->; by split|].
    apply (track_then bstep backend_start (backend_policy request) _ _ (λ r s', b_open s' = [] ∧ b_tried s' = false ∧
      (∀ response, r = inr response → cr_accepted response = true → b_reset s' = true))).
    { apply (track_then bstep backend_start (backend_policy request) _ _ (λ r s', b_open s' = [] ∧ b_tried s' = false ∧
        (∀ response, r = inr response → cr_accepted response = true → b_reset s' = true))).
      - eapply triple_post; [by apply reset_call_asked|]. intros r h. by rewrite Ho1, Htr1.
      - intros r s' (? & ? & Hr). apply triple_ret. intros h ->. split_and!; [done|done|]. destruct r; naive_solver. }
    intros [e|response] s' (Ho2 & Htr2 & Hr2); [apply triple_ret; intros h ->; by split|].
    destruct (cr_accepted response) eqn:Hacc; [|apply triple_ret; intros h ->; by split].
    apply reset_after_stop; eauto.
  - destruct lifecycle as [e|[]]; try exact Hrest. apply triple_ret. intros h ->. by split.
Qed.

(** An action and the snapshot after it. *)
Lemma request_asked kind (action : W (option string)) (R : option string → bstate → Prop) :
  triple asked (b_at backend_start) action (λ e h, R e (b_now h)) →
  (∀ e s snap s', R e s → snapped s snap s' → response_justified request (RequestCompleted kind snap e) s') →
  triple asked (b_at backend_start)
    (error ← action; snapshot ← query_service_state_snapshot_async; mret (Some (RequestCompleted kind snapshot error)))
    (λ r h, ∀ response, r = Some response → response_justified request response (b_now h)).
Proof.
  intros Ha HR. apply (track_then bstep backend_start (backend_policy request) _ _ R); [done|].
  intros e s He. apply (track_then bstep backend_start (backend_policy request) _ _ (snapped s)); [apply snapshot_asked|].
  intros snap s' Hs'. apply triple_ret. intros h -> response [= <-]. eauto.
Qed.

(** The error of an action. *)
Lemma action_err_asked (action : W (string + ())) (R : string + () → bstate → Prop) s :
  triple asked (b_at s) action (λ r h, R r (b_now h)) →
  triple asked (b_at s) (r ← action; mret (err r)) (λ e h, ∃ r, e = err r ∧ R r (b_now h)).
Proof.
  intros Ha. apply (track_then bstep backend_start (backend_policy request) _ _ R); [done|].
  intros r s' Hr. apply triple_ret. intros h ->. eauto.
Qed.
End backend_actions.

Lemma no_err (r : string + ()) : err r = None → r = inr ().
Proof. by destruct r as [|[]]. Qed.

Section requests.
Context {CB : CliBuild}.

Lemma handle_request_asked request :
  triple (λ h ev, backend_policy request (summary bstep backend_start h) ev)
    (λ h, summary bstep backend_start h = backend_start) (handle_request request)
    (λ r h, ∀ response, r = Some response → response_justified request response (summary bstep backend_start h)).
Proof.
  destruct request; unfold handle_request; cbn [request_action].
  - apply (request_asked _ _ _ (λ e s, e = None ∧ s = backend_start)); [by apply triple_ret|].
    intros e s snap s' [-> ->] (runs & seen & wa & -> & ? & ? & ?). by split_and!.
  - apply (request_asked _ _ _ (λ e s, ∃ r, e = err r ∧
      b_open s = [] ∧ (r = inr () → b_seen s = true ∨ b_answers s = Some true)));
      [apply (action_err_asked _ _ (λ r s, b_open s = [] ∧ (r = inr () → b_seen s = true ∨ b_answers s = Some true)));
       by apply start_asked|].
    intros e s snap s' (r & -> & Ho & Hr) (runs & seen & wa & -> & ? & ? & ?).
    split_and!; [done..|]. intros He. destruct (Hr (no_err r He)); cbn; auto.
  - apply (request_asked _ _ _ (λ e s, ∃ r, e = err r ∧ stop_tried backend_start r s));
      [apply (action_err_asked _ _ (stop_tried backend_start)); by apply stop_asked; auto|].
    intros e s snap s' (r & -> & Ho & _ & _ & Hr) (runs & seen & wa & -> & ? & ? & ?).
    split_and!; [done..|]. cbn. intros He Htr. destruct (Hr (no_err r He)) as [[_ ?]|[Ht _]]; [done|]. by rewrite Ht in Htr.
  - apply (request_asked _ _ _ (λ e s, ∃ r, e = err r ∧ reset_done r s));
      [apply (action_err_asked _ _ reset_done); by apply reset_asked|].
    intros e s snap s' (r & -> & Ho & Hr) (runs & seen & wa & -> & ? & ? & ?).
    split_and!; [done..|]. cbn. intros He. by apply Hr, no_err.
  - by apply triple_ret.
Qed.

(** C22: The tray's backend does to the service what the request asks for,
    whatever the system and the daemon answer. The service is started only for
    a start, when it was not found running and the daemon does not answer; it is
    told to stop only when it was seen running, for a stop or after an accepted
    reset; its secret is reset only for a reset, when it was seen running and
    did not last say that it waits for a secret; playit is opened only after an
    accepted reset, when either a stop was tried and the daemon then did not
    answer, or none was, the service not being found running (it was stopped, or
    could not be asked about). Handles are used while open, and closed when the
    response is given. A response says that the service runs only when the
    manager's last answer did, and allows a reset only when it says so; without
    an error, after a start the service was seen running or the daemon answers,
    after a stop that was tried the daemon does not, and a reset was accepted
    and playit opened. *)
Theorem tray_backend_justified (request : BackendRequest) (t : list (event wcall)) (o : option (option BackendResponse)) :
  exec (handle_request request) t o →
  obeys (λ h ev, backend_policy request (summary bstep backend_start h) ev) [] t ∧
  ∀ response, o = Some (Some response) → response_justified request response (summary bstep backend_start t).
Proof.
  intros He. destruct (handle_request_asked request [] t o eq_refl He) as [Ho Hq]. split; [done|].
  intros response ->. by apply (Hq _ eq_refl).
Qed.
End requests.

(** The machine on which playit is opened without starting the daemon. *)
Definition tray_machine X (e : wcall X) (runs : bool) : option X * bool :=
  match e in wcall X return option X * bool with
  | SpawnProcess _ _ _ => (Some (inr 7%nat), runs)
  | e => windows_machine _ e runs
  end.

Definition reset_run : list (event wcall) * option (option BackendResponse) :=
  traced_run tray_machine 1 (handle_request (CB := plain_build) ResetAgent) true.

Lemma tray_backend_justified_witness :
  ∃ response, reset_run.2 = Some (Some response) ∧ resp_error response = None ∧
    b_reset (summary bstep backend_start reset_run.1) = true ∧ b_launched (summary bstep backend_start reset_run.1) = true ∧
    obeys (λ h ev, backend_policy ResetAgent (summary bstep backend_start h) ev) [] reset_run.1.
Proof.
  pose (response := RequestCompleted KindResetAgent
    {| snap_service_running := false; snap_reset_agent_enabled := false |} None).
  assert (Hr : reset_run.2 = Some (Some response)) by (vm_compute; reflexivity).
  destruct (tray_backend_justified (CB := plain_build) ResetAgent _ _ (traced_run_exec tray_machine 1 (handle_request (CB := plain_build) ResetAgent) true)) as [Ho Hq].
  destruct (Hq response Hr) as (_ & _ & _ & _ & Hd). destruct (Hd eq_refl) as [H1 H2].
  exists response. split_and!; [exact Hr|reflexivity|exact H1|exact H2|exact Ho].
Defined.

(** ** One tray at a time *)

(** The mutex that is held, and whether another process had it. *)
Definition guard_step (s : option nat * bool) (ev : event rcall) : option nat * bool :=
  match ev with
  | @Event _ _ e x =>
      match e in rcall X return X → option nat * bool with
      | CreateMutex _ => λ r, (r, s.2)
      | GetLastError => λ code, (s.1, s.2 || bool_decide (code = ERROR_ALREADY_EXISTS))
      | CloseMutex _ => λ _, (None, s.2)
      | _ => λ _, s
      end x
  end.

(** The tray is set up only by the process that has the mutex for itself; the
    mutex is given back once. *)
Definition guard_policy (s : option nat * bool) (ev : event rcall) : Prop :=
  match ev_call ev with
  | CreateMutex _ => s.1 = None
  | CloseMutex h => s.1 = Some h
  | SpawnBackend | RegisterClass _ => is_Some s.1 ∧ s.2 = false
  | CreateWindow _ _ _ | GetMessage => is_Some s.1
  | _ => True
  end.

Notation guarded := (λ h ev, guard_policy (summary guard_step (None, false) h) ev).
Notation guard_at s := (λ h, summary guard_step (None, false) h = s).

Section process.
Context {TB : TrayBuild} (code_text : Z → string).

Lemma message_loop_guarded handle had :
  triple guarded (guard_at (Some handle, had)) (message_loop code_text)
    (λ _ h, ∃ had', summary guard_step (None, false) h = (Some handle, had')).
Proof.
  apply (track_iter guard_step (None, false) guard_policy (λ _ s, ∃ had, s = (Some handle, had))
    (λ _ s, ∃ had, s = (Some handle, had))); [eauto|].
  intros [] ? [had' ->]. unfold last_win32_error. follow; cbn; eauto.
Qed.

Lemma platform_guarded {A} (m : W A) s :
  triple guarded (guard_at s) (lift (@OnPlatform) m) (λ _ h, summary guard_step (None, false) h = s).
Proof.
  apply (triple_lift (@OnPlatform) guarded); [done|]. intros X e x h Hh. unfold summary in *. by rewrite foldl_app, Hh.
Qed.

Lemma run_guarded_guarded handle :
  triple guarded (guard_at (Some handle, false)) (run_guarded code_text)
    (λ _ h, ∃ had, summary guard_step (None, false) h = (Some handle, had)).
Proof.
  unfold run_guarded.
  apply (track_then guard_step (None, false) guard_policy _ _ (λ _ s, s = (Some handle, false))); [follow; cbn; eauto|].
  intros [e|[]] ? ->; [apply triple_ret; intros h ->; eauto|].
  apply (track_then guard_step (None, false) guard_policy _ _ (λ _ s, s = (Some handle, false))); [apply platform_guarded|].
  intros shortcut ? ->. unfold last_win32_error.
  follow; try discriminate; try solve [cbn; eauto].
  apply (track_then guard_step (None, false) guard_policy _ (lift (@OnPlatform) query_service_running_sync)
    (λ _ s, s = (Some handle, false))); [apply platform_guarded|].
  intros running ? ->. follow; try discriminate; try solve [cbn; eauto]. apply message_loop_guarded.
Qed.

Lemma run_tray_guarded :
  triple guarded (guard_at (None, false)) (run_tray code_text)
    (λ _ h, (summary guard_step (None, false) h).1 = None).
Proof.
  unfold run_tray.
  apply (track_then guard_step (None, false) guard_policy _ _
    (λ r s, match r with inr (Some handle) => s = (Some handle, false) | _ => s.1 = None end)).
  { unfold SingleInstanceGuard_new, last_win32_error. follow; cbn; eauto. case_bool_decide; [|done]. subst.
    exfalso. naive_solver. }
  intros [e|[handle|]] s Hs; [apply triple_ret; by intros h ->| |apply triple_ret; by intros h ->].
  subst. apply (track_then guard_step (None, false) guard_policy _ _ (λ _ s, ∃ had, s = (Some handle, had))); [apply run_guarded_guarded|].
  intros r ? [had ->]. follow; cbn; eauto.
Qed.
End process.
