(* ===== verification/WindowsSetup.v ===== *)
(** * The installer's helper and the descriptors on Windows
      (playitd-windows-setup; playitd/src/windows.rs;
      playit-runtime/src/windows_secret.rs, and secret.rs on Windows)

    Who may use the daemon's pipe and its files: security identifiers and the
    texts of the descriptors that name them; the commands of the installer's
    helper, its log, and the migration of an old secret. Theorems: a descriptor
    names the system, the administrators and at most one user, whatever text is
    given for the user; a secret is stored in a file that is protected before it
    is written, and replaced in one step; what is opened is closed; a migration
    changes no file that exists; and the log keeps every entry on its line. *)

From S2P Require Import Prelude OriginLookup Json Text IpcModel Ipc RuntimeError SecretStore SecretTheorems RuntimeOptions AgentIdentity FileSystem Program CliModel ServiceManager Tui WindowsHost Tray.
From stdpp Require Import pretty.
From Stdlib Require Import Ascii.
#[local] Open Scope string_scope.
#[local] Open Scope list_scope.
#[local] Open Scope Z_scope.

(** ** Security identifiers (sid.rs, windows.rs, windows_secret.rs: the three
    copies are the same) *)

Definition is_ascii_digit (c : ascii) : bool := let n := nat_of_ascii c in ((48 <=? n) && (n <=? 57))%nat.

(** A character with the White_Space property somewhere. *)
Fixpoint has_white_space (l : list ascii) : bool :=
  match l with
  | [] => false
  | _ :: rest => bool_decide (is_Some (strip_any white_space l)) || has_white_space rest
  end.

Definition breaks_out (c : ascii) : bool := bool_decide (c ∈ ["("%char; ")"%char; ";"%char]).

Definition sid_char (c : ascii) : bool := is_ascii_digit c || bool_decide (c ∈ ["S"%char; "-"%char]).

Definition digits_part (part : string) : bool :=
  negb (bool_decide (part = EmptyString)) && forallb is_ascii_digit (String.list_ascii_of_string part).

Definition normalize_sid (sid : string) : option string :=
  let chars := String.list_ascii_of_string sid in
  if negb (starts_with "S-1-" sid) then None
  else if has_white_space chars || existsb breaks_out chars then None
  else if negb (forallb sid_char chars) then None
  else
    match split_on "-" sid with
    | s :: one :: parts =>
        if negb (bool_decide (s = "S") && bool_decide (one = "1")) then None
        else if negb (forallb digits_part parts) then None
        else Some sid
    | _ => None
    end.

(** ** Descriptors *)

Definition pipe_security_sddl (user_sid : option string) : string :=
  "D:P(A;;GA;;;SY)(A;;GA;;;BA)" +:+
  match user_sid ≫= normalize_sid with
  | Some user_sid => "(A;;GA;;;" +:+ user_sid +:+ ")"
  | None => EmptyString
  end.

Definition RESTRICTED_DATA_SDDL : string := "D:P(A;;FA;;;SY)(A;;FA;;;BA)".
Definition SECRET_FILE_ACCESS_SDDL_PREFIX : string := "D:P(A;;FA;;;SY)(A;;FA;;;BA)(A;;FA;;;".

Definition secret_path_sddl (user_sid : string) : io_error + string :=
  match normalize_sid user_sid with
  | None => inl (IoError InvalidInput "Windows returned an invalid current-user SID")
  | Some user_sid => inr (SECRET_FILE_ACCESS_SDDL_PREFIX +:+ user_sid +:+ ")")
  end.

(** *** How a descriptor is read

    The entries of a protected access list, each the fields between the
    semicolons: kind, flags, rights, object, inherited object, trustee. *)

Fixpoint until (c : ascii) (s : string) : option (string * string) :=
  match s with
  | EmptyString => None
  | String a s =>
      if decide (a = c) then Some (EmptyString, s)
      else '(before, after) ← until c s; Some (String a before, after)
  end.

Fixpoint parse_entries (fuel : nat) (s : string) : option (list (list string)) :=
  match fuel, s with
  | _, EmptyString => Some []
  | O, _ => None
  | S fuel, String a s =>
      if decide (a = "("%char) then
        '(body, s) ← until ")" s;
        entries ← parse_entries fuel s;
        Some (split_on ";" body :: entries)
      else None
  end.

Definition parse_protected_dacl (sddl : string) : option (list (list string)) :=
  if starts_with "D:P" sddl
  then parse_entries (String.length sddl) (String.substring 3 (String.length sddl - 3) sddl)
  else None.

(** The entry that allows [trustee] the [rights]. *)
Definition allow (rights trustee : string) : list string :=
  ["A"; EmptyString; rights; EmptyString; EmptyString; trustee].

Definition LOCAL_SYSTEM : string := "SY".
Definition ADMINISTRATORS : string := "BA".

Lemma until_free c a b : free_of c a → until c (a +:+ String c b) = Some (a, b).
Proof.
  induction a as [|x a IH]; intros Ha.
  - change (EmptyString +:+ String c b) with (String c b). cbn. by rewrite decide_True.
  - apply free_of_inv in Ha as [Hx Ha]. rewrite append_cons. cbn. rewrite decide_False by done. by rewrite IH.
Qed.

Lemma sid_chars_free c s :
  forallb sid_char (String.list_ascii_of_string s) = true → sid_char c = false → free_of c s.
Proof.
  intros Hs Hc. induction s as [|a s IH]; [done|]. cbn in Hs. apply andb_true_iff in Hs as [Ha Hs].
  apply free_of_cons; [congruence|auto].
Qed.

(** What is left of a text that passed the checks. *)
Lemma normalize_sid_spec s sid :
  normalize_sid s = Some sid →
  sid = s ∧ forallb sid_char (String.list_ascii_of_string sid) = true ∧
  ∃ parts, split_on "-" sid = "S" :: "1" :: parts ∧ parts ≠ [] ∧ Forall (λ p, digits_part p = true) parts.
Proof.
  unfold normalize_sid. destruct (starts_with "S-1-" s) eqn:Hst; [|done]. cbn [negb].
  destruct (_ || _); [done|]. destruct (forallb sid_char _) eqn:Hc; [|done]. cbn [negb].
  destruct (split_on "-" s) as [|p [|q parts]] eqn:Hsp; [done..|].
  destruct (bool_decide (p = "S") && bool_decide (q = "1")) eqn:Hpq; [|done]. cbn [negb].
  destruct (forallb digits_part parts) eqn:Hd; [|done]. intros [= <-].
  apply andb_true_iff in Hpq as [->%bool_decide_eq_true ->%bool_decide_eq_true].
  split; [done|]. split; [done|]. exists parts. split; [done|]. split.
  - intros ->. unfold starts_with in Hst. apply String.prefix_correct in Hst.
    destruct s as [|a0 [|a1 [|a2 [|a3 s]]]]; try done. cbn in Hst. injection Hst as -> -> -> ->.
    cbn in Hsp. destruct (split_on_cons "-" s) as (x & xs & Hx). rewrite Hx in Hsp. done.
  - apply Forall_forall. intros x Hx. rewrite forallb_forall in Hd. by apply Hd, list_elem_of_In.
Qed.

(** ** Reading back a descriptor *)

Definition entry_body (rights trustee : string) : string := "A;;" +:+ rights +:+ ";;;" +:+ trustee.

Fixpoint entries_text (rights : string) (trustees : list string) : string :=
  match trustees with
  | [] => EmptyString
  | t :: ts => "(" +:+ entry_body rights t +:+ ")" +:+ entries_text rights ts
  end.

(** A field: none of the characters that separate fields or entries. *)
Definition field (s : string) : Prop := free_of ";" s ∧ free_of ")" s.

Lemma split_entry rights trustee :
  field rights → field trustee → split_on ";" (entry_body rights trustee) = allow rights trustee.
Proof.
  intros [Hr _] [Ht _]. unfold entry_body.
  change ("A;;" +:+ rights +:+ ";;;" +:+ trustee) with ("A" +:+ String ";" (EmptyString +:+ String ";" (rights +:+ ";;;" +:+ trustee))).
  rewrite split_on_free_app by done. rewrite split_on_free_app by done.
  change (";;;" +:+ trustee) with (String ";" (EmptyString +:+ String ";" (EmptyString +:+ String ";" trustee))).
  do 3 (rewrite split_on_free_app by done). by rewrite Ht.
Qed.

Lemma parse_entries_text rights trustees fuel :
  field rights → Forall field trustees → (length trustees <= fuel)%nat →
  parse_entries fuel (entries_text rights trustees) = Some (map (allow rights) trustees).
Proof.
  intros Hr Hts. revert fuel. induction Hts as [|t ts Ht Hts IH]; intros fuel Hf; cbn in Hf; [by destruct fuel|].
  destruct fuel as [|fuel]; [lia|]. cbn [entries_text].
  change ("(" +:+ entry_body rights t +:+ ")" +:+ entries_text rights ts)
    with (String "(" (entry_body rights t +:+ String ")" (entries_text rights ts))).
  cbn [parse_entries]. rewrite decide_True by done. rewrite until_free.
  - cbn. rewrite IH by lia. cbn. by rewrite split_entry.
  - destruct Hr as [_ Hr], Ht as [_ Ht]. unfold entry_body. by repeat (apply free_of_app; [done|]).
Qed.

Lemma substring_all s : String.substring 0 (String.length s) s = s.
Proof. induction s as [|a s IH]; [done|]. cbn. by rewrite IH. Qed.

Lemma entries_text_length rights trustees : (length trustees <= String.length (entries_text rights trustees))%nat.
Proof. induction trustees as [|t ts IH]; cbn [entries_text]; [done|]. rewrite !append_length. cbn. lia. Qed.

Lemma parse_dacl_text rights trustees :
  field rights → Forall field trustees →
  parse_protected_dacl ("D:P" +:+ entries_text rights trustees) = Some (map (allow rights) trustees).
Proof.
  intros Hr Hts. unfold parse_protected_dacl.
  change ("D:P" +:+ entries_text rights trustees) with (String "D" (String ":" (String "P" (entries_text rights trustees)))).
  assert (∀ s, starts_with "D:P" (String "D" (String ":" (String "P" s))) = true) as -> by by intros [].
  cbn [String.length String.substring Nat.sub]. rewrite Nat.sub_0_r, substring_all.
  apply parse_entries_text; [done..|]. pose proof (entries_text_length rights trustees). lia.
Qed.

Lemma sid_field s sid : normalize_sid s = Some sid → field sid.
Proof. intros (_ & Hc & _)%normalize_sid_spec. split; by apply sid_chars_free. Qed.

(** C24: The descriptors let in only who they are meant for, whatever text is
    given for the user's security identifier: read back, that of the daemon's
    pipe has one entry for the system, one for the administrators, and one for
    the user if the text is an identifier; that of a secret has these three,
    and there is none when the text is no identifier; that of the service's
    data has the first two. All are protected and only allow. And an identifier
    is the text itself, an S, a 1 and at least one number, so the user's entry
    names no well-known group by its alias. *)
Theorem sddl_safe (user : option string) (text : string) :
  parse_protected_dacl (pipe_security_sddl user) =
    Some (map (allow "GA") (LOCAL_SYSTEM :: ADMINISTRATORS :: option_list (user ≫= normalize_sid))) ∧
  match secret_path_sddl text with
  | inr sddl =>
      normalize_sid text = Some text ∧
      parse_protected_dacl sddl = Some (map (allow "FA") [LOCAL_SYSTEM; ADMINISTRATORS; text])
  | inl _ => normalize_sid text = None
  end ∧
  parse_protected_dacl RESTRICTED_DATA_SDDL = Some (map (allow "FA") [LOCAL_SYSTEM; ADMINISTRATORS]) ∧
  (∀ sid, normalize_sid text = Some sid →
     sid = text ∧ ∃ parts, split_on "-" sid = "S" :: "1" :: parts ∧ parts ≠ [] ∧ Forall (λ p, digits_part p = true) parts).
Proof.
  split_and!.
  - unfold pipe_security_sddl. destruct (user ≫= normalize_sid) as [sid|] eqn:Hs.
    + apply (parse_dacl_text "GA" [LOCAL_SYSTEM; ADMINISTRATORS; sid]); [done|].
      repeat constructor. all: destruct user as [u|]; [|done]; by apply (sid_field u).
    + reflexivity.
  - unfold secret_path_sddl. destruct (normalize_sid text) as [sid|] eqn:Hs; [|done].
    pose proof (normalize_sid_spec _ _ Hs) as (-> & _ & _). split; [done|].
    apply (parse_dacl_text "FA" [LOCAL_SYSTEM; ADMINISTRATORS; text]); [done|].
    repeat constructor; by apply (sid_field text).
  - reflexivity.
  - intros sid Hs. by apply normalize_sid_spec in Hs as (-> & _ & Hp).
Qed.

Lemma sddl_safe_witness :
  parse_protected_dacl (pipe_security_sddl (Some "S-1-5-21-7)(A;;GA;;;WD")) =
    Some (map (allow "GA") [LOCAL_SYSTEM; ADMINISTRATORS]) ∧
  parse_protected_dacl (pipe_security_sddl (Some "S-1-5-21-1-2-3-1001")) =
    Some (map (allow "GA") [LOCAL_SYSTEM; ADMINISTRATORS; "S-1-5-21-1-2-3-1001"]).
Proof.
  split.
  - exact (proj1 (sddl_safe (Some "S-1-5-21-7)(A;;GA;;;WD") EmptyString)).
  - exact (proj1 (sddl_safe (Some "S-1-5-21-1-2-3-1001") EmptyString)).
Defined.

(** ** Calls *)

Inductive scall : Type → Type :=
  (** tokens, identifiers and descriptors; an inner [None] is a null pointer *)
  | OpenProcessToken : scall (option (option nat))
  | CloseHandle (handle : nat) : scall ()
  | TokenUserSize (token : nat) : scall Z
  | GetTokenUser (token : nat) (size : Z) : scall (option nat)
  | ConvertSidToStringSid (sid : nat) : scall (option (option nat))
  | ReadLocalString (p : nat) : scall string
  | LocalFree (p : nat) : scall ()
  | ConvertSddl (sddl : string) : scall (option (option nat))
  | GetSecurityDescriptorDacl (descriptor : nat) : scall (option (option nat))
  | SetNamedSecurityInfo (p : path) (information : Z) (dacl : nat) : scall Z
  | MoveFileEx (source destination : path) (flags : Z) : scall bool
  | SLastOsError : scall io_error
  | FromRawOsError (code : Z) : scall io_error
  | JoinBlocking : scall (option string)
  (** files, commands, the registry, the environment *)
  | SReadToString (p : path) : scall (io_error + string)
  | SWrite (p : path) (content : string) : scall (io_error + ())
  (** [true]: a directory *)
  | SMetadata (p : path) : scall (io_error + bool)
  | SCreateNew (p : path) : scall (io_error + nat)
  | SWriteAll (file : nat) (content : string) : scall (io_error + ())
  | SSyncAll (file : nat) : scall (io_error + ())
  | SCloseFile (file : nat) : scall ()
  | RunCommand (program : string) (args : list string) (flags : Z) : scall (io_error + Output)
  | RegGetValueSize (subkey value : string) : scall (Z * Z)
  | RegGetValue (subkey value : string) (units : Z) : scall (Z * (list Z * Z))
  | ExpandSize (value : string) : scall Z
  | ExpandEnvironmentStrings (value : string) (units : Z) : scall (Z * list Z)
  | FromUtf16 (units : list Z) : scall (string + string)
  | PathFrom (text : string) : scall path
  | TempDir : scall path
  | SystemTimeMillis : scall (option Z)
  | AppendLine (p : path) (line : string) : scall (io_error + ())
  | SEprintln (line : string) : scall ()
  | MigrateFrom (new_path profile_dir : path) : scall (string + ())
  | OnWindows {X} (c : wcall X) : scall X.

Notation Setup := (prog scall).

Definition on_windows {A} (m : W A) : Setup A := lift (@OnWindows) m.

(** [U16CString::from_str], [wide_string]: no NUL inside. *)
Definition has_nul (s : string) : bool := bool_decide ("000"%char ∈ String.list_ascii_of_string s).
Definition path_has_nul (p : path) : bool := existsb has_nul p.

(** ** Who runs the process (windows.rs, windows_secret.rs) *)

Definition sid_to_string (sid : nat) : Setup (io_error + string) :=
  converted ← perform (ConvertSidToStringSid sid);
  match converted with
  | None | Some None => e ← perform SLastOsError; mret (inl e)
  | Some (Some string_sid) =>
      text ← perform (ReadLocalString string_sid);
      _ ← perform (LocalFree string_sid);
      mret (inr text)
  end.

Definition token_user_sid_string (token : nat) : Setup (io_error + string) :=
  needed ← perform (TokenUserSize token);
  if decide (needed = 0) then e ← perform SLastOsError; mret (inl e)
  else
    user ← perform (GetTokenUser token needed);
    match user with
    | None => e ← perform SLastOsError; mret (inl e)
    | Some sid => sid_to_string sid
    end.

Definition current_process_user_sid : Setup (io_error + string) :=
  opened ← perform OpenProcessToken;
  match opened with
  | None | Some None => e ← perform SLastOsError; mret (inl e)
  | Some (Some token) =>
      r ← token_user_sid_string token;
      _ ← perform (CloseHandle token);
      mret r
  end.

(** ** Applying a descriptor to a path *)

(** With the descriptor at hand: its list is found and set. *)
Definition DACL_SECURITY_INFORMATION : Z := 4.
Definition PROTECTED_DACL_SECURITY_INFORMATION : Z := 2 ^ 31.
Definition MOVEFILE_REPLACE_EXISTING : Z := 1.
Definition MOVEFILE_WRITE_THROUGH : Z := 8.

Definition set_dacl (no_dacl bad_path : string) (descriptor : nat) (p : path) : Setup (io_error + ()) :=
  found ← perform (GetSecurityDescriptorDacl descriptor);
  match found with
  | None => e ← perform SLastOsError; mret (inl e)
  | Some None => mret (inl (IoError InvalidData no_dacl))
  | Some (Some dacl) =>
      if path_has_nul p then mret (inl (IoError InvalidInput bad_path))
      else
        result ← perform (SetNamedSecurityInfo p
          (Z.lor DACL_SECURITY_INFORMATION PROTECTED_DACL_SECURITY_INFORMATION) dacl);
        if decide (result = 0) then mret (inr ())
        else e ← perform (FromRawOsError result); mret (inl e)
  end.

Definition apply_sddl (bad_sddl empty no_dacl bad_path : string) (sddl : string) (p : path) : Setup (io_error + ()) :=
  if has_nul sddl then mret (inl (IoError InvalidInput bad_sddl))
  else
    converted ← perform (ConvertSddl sddl);
    match converted with
    | None => e ← perform SLastOsError; mret (inl e)
    | Some None => mret (inl (IoError InvalidData empty))
    | Some (Some descriptor) =>
        r ← set_dacl no_dacl bad_path descriptor p;
        _ ← perform (LocalFree descriptor);
        mret r
    end.

(** windows_secret.rs *)
Definition protect_path (p : path) : Setup (io_error + ()) :=
  user_sid ←! current_process_user_sid;
  match secret_path_sddl user_sid with
  | inl e => mret (inl e)
  | inr sddl =>
      apply_sddl "Windows security descriptor contains an embedded NUL" "Windows returned an empty secret security descriptor"
        "secret security descriptor has no DACL" "secret path contains an embedded NUL" sddl p
  end.

Definition protect_path_async (p : path) : Setup (io_error + ()) :=
  failed ← perform JoinBlocking;
  match failed with
  | Some error => mret (inl (IoError Other ("secret ACL task failed: " +:+ error)))
  | None => protect_path p
  end.

Definition replace_file (source destination : path) : Setup (io_error + ()) :=
  if path_has_nul source || path_has_nul destination then
    mret (inl (IoError InvalidInput "secret path contains an embedded NUL"))
  else
    moved ← perform (MoveFileEx source destination (Z.lor MOVEFILE_REPLACE_EXISTING MOVEFILE_WRITE_THROUGH));
    if (moved : bool) then mret (inr ()) else e ← perform SLastOsError; mret (inl e).

(** ** The secret file (playit-runtime/src/secret.rs on Windows) *)

(** [Path::parent] and [Path::file_name] on Windows: a component that ends with
    a backslash is the root of a drive. *)
Definition drive_root (c : string) : bool :=
  match reverse (String.list_ascii_of_string c) with "\"%char :: _ => true | _ => false end.

Definition windows_parent (p : path) : option path :=
  match reverse p with
  | [] => None
  | c :: rest => if drive_root c then None else Some (reverse rest)
  end.

Definition windows_file_name (p : path) : option string :=
  match reverse p with
  | [] => None
  | c :: _ => if drive_root c || bool_decide (c = "..") then None else Some c
  end.

Fixpoint windows_missing_dirs (fuel : nat) (current : path) : Setup (RuntimeError + list path) :=
  match fuel with
  | O => mret (inr [])
  | S fuel =>
      r ← perform (SMetadata current);
      match r with
      | inr true => mret (inr [])
      | inr false =>
          mret (inl (RuntimeError_secret SecretWriteFailed
            ("Secret path parent " +:+ display current +:+ " is not a directory") true))
      | inl e =>
          if decide (err_kind e = NotFound) then
            match windows_parent current with
            | None => mret (inr [current])
            | Some next =>
                if decide (next = current) then mret (inr [current])
                else rest ←! windows_missing_dirs fuel next; mret (inr (current :: rest))
            end
          else mret (inl (write_failed ("Failed to inspect secret directory " +:+ display current) e))
      end
  end.

Fixpoint windows_secure_dirs (dirs : list path) : Setup (RuntimeError + ()) :=
  match dirs with
  | [] => mret (inr ())
  | d :: dirs =>
      _ ←! prog_map_err (write_failed ("Failed to secure secret directory " +:+ display d)) (protect_path_async d);
      windows_secure_dirs dirs
  end.

Definition windows_ensure_secret_parent (p : path) : Setup (RuntimeError + ()) :=
  match windows_parent p with
  | None | Some [] => mret (inr ())
  | Some dir =>
      new_directories ←! windows_missing_dirs (S (length dir)) dir;
      _ ←! prog_map_err (write_failed ("Failed to create secret directory " +:+ display dir))
             (on_windows (perform (WCreateDirAll dir)));
      windows_secure_dirs new_directories
  end.

(** [unique] is the process id, the variant and the random suffix. *)
Definition windows_tmp_path (p : path) (unique : string) : path :=
  default [] (windows_parent p) ++ ["." +:+ default "playit.toml" (windows_file_name p) +:+ ".tmp-" +:+ unique].

(** The temporary file is closed when it was written, and on every way out. *)
Definition windows_fill (tmp : path) (file : nat) (content : string) : Setup (RuntimeError + ()) :=
  _ ←! prog_map_err (write_failed ("Failed to secure temporary secret file " +:+ display tmp)) (protect_path tmp);
  _ ←! prog_map_err (write_failed ("Failed to write temporary secret file " +:+ display tmp))
         (perform (SWriteAll file content));
  prog_map_err (write_failed ("Failed to sync temporary secret file " +:+ display tmp)) (perform (SSyncAll file)).

Definition windows_write_steps (p tmp : path) (content : string) : Setup (RuntimeError + ()) :=
  file ←! prog_map_err (write_failed ("Failed to create temporary secret file " +:+ display tmp)) (perform (SCreateNew tmp));
  filled ← windows_fill tmp file content;
  _ ← perform (SCloseFile file);
  match filled with
  | inl e => mret (inl e)
  | inr _ =>
      _ ←! prog_map_err (write_failed ("Failed to replace secret file " +:+ display p +:+ " with " +:+ display tmp))
             (replace_file tmp p);
      prog_map_err (write_failed ("Failed to secure secret file " +:+ display p)) (protect_path p)
  end.

Definition windows_secure_write_blocking (p : path) (unique content : string) : Setup (RuntimeError + ()) :=
  let tmp := windows_tmp_path p unique in
  result ← windows_write_steps p tmp content;
  match result with
  | inr _ => mret (inr ())
  | inl e => _ ← on_windows (perform (WRemoveFile tmp)); mret (inl e)
  end.

Definition windows_secure_write_secret_file (p : path) (unique content : string) : Setup (RuntimeError + ()) :=
  failed ← perform JoinBlocking;
  match failed with
  | Some error =>
      mret (inl (RuntimeError_secret SecretWriteFailed ("Failed to join secret file writer task: " +:+ error) true))
  | None => windows_secure_write_blocking p unique content
  end.

Definition windows_secret_content {SL : SecretLib} (p : path) (secret : string) : string :=
  if decide (extension p = Some "toml") then toml_print secret else secret.

Definition windows_persist_secret_file {SL : SecretLib} (unique : string) (p : path) (secret : string) :
    Setup (RuntimeError + string) :=
  match validate_secret (str_trim secret) with
  | inl e => mret (inl (RuntimeError_secret InvalidSecret e false))
  | inr secret =>
      _ ←! windows_ensure_secret_parent p;
      _ ←! windows_secure_write_secret_file p unique (windows_secret_content p secret);
      mret (inr secret)
  end.

(** windows.rs; the texts of the library's errors are parameters *)
Section windows_rs.
Context (nul_error : string).

Definition set_restricted_data_dacl (p : path) : Setup (io_error + ()) :=
  apply_sddl ("invalid data security descriptor: " +:+ nul_error) "Windows returned an empty security descriptor"
    "security descriptor has no DACL" ("invalid data path: " +:+ nul_error) RESTRICTED_DATA_SDDL p.

Definition installed_user_sid_path : Setup path :=
  dir ← on_windows windows_service_data_dir; mret (dir ++ ["installed_user.sid"]).

Definition secure_installed_user_sid_storage : Setup (io_error + ()) :=
  p ← installed_user_sid_path;
  _ ←! (match parent p with Some dir => set_restricted_data_dacl dir | None => mret (inr ()) end);
  set_restricted_data_dacl p.

Definition read_installed_user_sid : Setup (option string) :=
  p ← installed_user_sid_path;
  content ← perform (SReadToString p);
  mret (match content with inl _ => None | inr content => normalize_sid (str_trim content) end).

Definition write_current_user_sid : Setup (io_error + path) :=
  p ← installed_user_sid_path;
  installed ← read_installed_user_sid;
  match installed with
  | Some _ => mret (inr p)
  | None =>
      sid ←! current_process_user_sid;
      _ ←! (match parent p with Some dir => on_windows (perform (WCreateDirAll dir)) | None => mret (inr ()) end);
      _ ←! perform (SWrite p (sid +:+ nl));
      _ ←! secure_installed_user_sid_storage;
      mret (inr p)
  end.

(** The text of the pipe's descriptor. *)
Definition restricted_pipe_security_descriptor : Setup (IpcError + string) :=
  user_sid ← read_installed_user_sid;
  user_sid ← (match user_sid with
              | Some sid => mret (Some sid)
              | None => r ← current_process_user_sid; mret (match r with inr sid => Some sid | inl _ => None end)
              end);
  let sddl := pipe_security_sddl user_sid in
  mret (if has_nul sddl
        then inl (BindFailed (IoError InvalidInput ("invalid pipe security descriptor string: " +:+ nul_error)))
        else inr sddl).
End windows_rs.

(** ** Permissions (permissions.rs) *)

Definition SETUP_NO_WINDOW : Z := 0x08000000.
Definition AUTHENTICATED_USERS_ICACLS_SID : string := "*S-1-5-11".
Definition SERVICE_ACCESS_ACE : string := "(A;;LCRPWPLO;;;AU)".

(** [str::find] and [str::contains]. *)
Definition str_find (pat s : string) : option nat := String.index 0 pat s.
Definition str_contains (pat s : string) : bool := bool_decide (is_Some (str_find pat s)).

Definition add_service_access_ace (sddl : string) : string + string :=
  if str_contains SERVICE_ACCESS_ACE sddl then inr sddl
  else if negb (starts_with "D:" sddl) then inl ("Service security descriptor has no DACL: " +:+ sddl)
  else
    let insert_at := default (String.length sddl) (str_find "S:" sddl) in
    inr (String.substring 0 insert_at sddl +:+ SERVICE_ACCESS_ACE +:+
         String.substring insert_at (String.length sddl - insert_at) sddl).

(** [join] with a separator. *)
Fixpoint join_with (sep : string) (parts : list string) : string :=
  match parts with
  | [] => EmptyString
  | [p] => p
  | p :: ps => p +:+ sep +:+ join_with sep ps
  end.

Section setup.
Context {CB : CliBuild} {TB : TrayBuild} (nul_error : string).

Definition command_output_text (output : Output) : string :=
  "exit_status=" +:+ display_exit_status (out_status output) +:+ " stdout=" +:+ dq +:+ str_trim (out_stdout output) +:+
  dq +:+ " stderr=" +:+ dq +:+ str_trim (out_stderr output) +:+ dq.

Definition run_command_with_output (program : string) (args : list string) : Setup (string + Output) :=
  prog_map_err (λ error, "Failed to run " +:+ program +:+ ": " +:+ err_msg error)
    (perform (RunCommand program args SETUP_NO_WINDOW)).

Definition run_command (program : string) (args : list string) : Setup (string + ()) :=
  output ←! run_command_with_output program args;
  mret (if success output then inr () else inl (command_output_text output)).

Definition service_security_descriptor : Setup (string + string) :=
  output ←! prog_map_err (λ error, "Failed to read the " +:+ INSTALLED_SERVICE_LABEL +:+ " service security descriptor: " +:+ error)
              (run_command_with_output "sc.exe" ["sdshow"; INSTALLED_SERVICE_LABEL]);
  mret (match List.find (starts_with "D:") (map str_trim (str_lines (out_stdout output))) with
        | Some line => inr line
        | None => inl ("Failed to find a DACL in sc.exe sdshow output: " +:+ command_output_text output)
        end).

Definition grant_service_permissions : Setup (string + ()) :=
  current_sddl ←! service_security_descriptor;
  match add_service_access_ace current_sddl with
  | inl e => mret (inl e)
  | inr updated_sddl =>
      if decide (updated_sddl = current_sddl) then mret (inr ())
      else
        prog_map_err (λ error, "Failed to grant Authenticated Users access to the " +:+ INSTALLED_SERVICE_LABEL +:+
                               " service: " +:+ error)
          (run_command "sc.exe" ["sdset"; INSTALLED_SERVICE_LABEL; updated_sddl])
  end.

Definition grant_log_folder_permissions : Setup (string + ()) :=
  log_path ← on_windows windows_service_log_path;
  match parent log_path with
  | None => mret (inl "Failed to resolve playit service log directory")
  | Some log_dir =>
      _ ←! prog_map_err (λ error, "Failed to create playit service log directory at " +:+ display log_dir +:+ ": " +:+ err_msg error)
             (on_windows (perform (WCreateDirAll log_dir)));
      prog_map_err (λ error, "Failed to grant Authenticated Users modify access to " +:+ display log_dir +:+ ": " +:+ error)
        (run_command "icacls.exe" [display log_dir; "/grant"; AUTHENTICATED_USERS_ICACLS_SID +:+ ":(OI)(CI)M"])
  end.

(** The installing user's identifier, as the installer gave it. *)
Definition given_sid (installed_user_sid : option string) : string + string :=
  match installed_user_sid with
  | None => inl "MSI did not provide the installing user's SID"
  | Some text =>
      let sid := str_trim text in
      if decide (sid = EmptyString) then inl "MSI did not provide the installing user's SID"
      else match normalize_sid sid with
           | Some sid => inr sid
           | None => inl ("MSI provided an invalid installing user SID: " +:+ sid)
           end
  end.

Definition write_installed_user_sid (installed_user_sid : option string) : Setup (string + ()) :=
  match given_sid installed_user_sid with
  | inl e => mret (inl e)
  | inr sid =>
      p ← installed_user_sid_path;
      _ ←! (match parent p with
            | Some dir =>
                prog_map_err (λ error, "Failed to create installed user SID directory at " +:+ display dir +:+ ": " +:+ err_msg error)
                  (on_windows (perform (WCreateDirAll dir)))
            | None => mret (inr ())
            end);
      _ ←! prog_map_err (λ error, "Failed to write installed user SID to " +:+ display p +:+ ": " +:+ err_msg error)
             (perform (SWrite p (sid +:+ nl)));
      prog_map_err (λ error, "Failed to restrict installed user SID permissions at " +:+ display p +:+ ": " +:+ err_msg error)
        (secure_installed_user_sid_storage nul_error)
  end.

Definition failed {A} (r : string + A) : list string := match r with inl e => [e] | inr _ => [] end.

Definition apply_installer_permissions (installed_user_sid : option string) : Setup (string + ()) :=
  logs ← grant_log_folder_permissions;
  service ← grant_service_permissions;
  sid ← write_installed_user_sid installed_user_sid;
  let errors := failed logs ++ failed service ++ failed sid in
  mret (match errors with [] => inr () | _ => inl (join_with "; " errors) end).

(** ** The user's profile (secret_migration.rs) *)

Definition PROFILE_LIST_REGISTRY_KEY : string := "SOFTWARE\Microsoft\Windows NT\CurrentVersion\ProfileList".
Definition PROFILE_IMAGE_PATH_VALUE : string := "ProfileImagePath".
Definition ERROR_SUCCESS : Z := 0.
Definition ERROR_FILE_NOT_FOUND : Z := 2.
Definition ERROR_MORE_DATA : Z := 234.

Definition profile_registry_subkey (sid : string) : string := PROFILE_LIST_REGISTRY_KEY +:+ "\" +:+ sid.

(** [byte_len.div_ceil(2)]: units of two bytes. *)
Definition units_of (byte_len : Z) : Z := (byte_len + 1) / 2.

Fixpoint drop_nuls (reversed : list Z) : list Z :=
  match reversed with
  | 0 :: rest => drop_nuls rest
  | l => l
  end.

(** The text of the value: cut to its length, its NULs taken off. *)
Definition value_units (buffer : list Z) (byte_len : Z) : list Z :=
  reverse (drop_nuls (reverse (take (Z.to_nat (units_of byte_len)) buffer))).

Definition read_profile_image_path (sid : string) : Setup (string + option string) :=
  let subkey := profile_registry_subkey sid in
  '(status, byte_len) ← perform (RegGetValueSize subkey PROFILE_IMAGE_PATH_VALUE);
  if decide (status = ERROR_FILE_NOT_FOUND) then mret (inr None)
  else if decide (status ≠ ERROR_SUCCESS ∧ status ≠ ERROR_MORE_DATA) then
    mret (inl ("Failed to read " +:+ PROFILE_IMAGE_PATH_VALUE +:+ " size from HKLM\" +:+ subkey +:+ ": " +:+ pretty status))
  else
    '(status, (buffer, byte_len)) ← perform (RegGetValue subkey PROFILE_IMAGE_PATH_VALUE (units_of byte_len));
    if decide (status = ERROR_FILE_NOT_FOUND) then mret (inr None)
    else if decide (status ≠ ERROR_SUCCESS) then
      mret (inl ("Failed to read " +:+ PROFILE_IMAGE_PATH_VALUE +:+ " from HKLM\" +:+ subkey +:+ ": " +:+ pretty status))
    else
      text ← perform (FromUtf16 (value_units buffer byte_len));
      mret (match text with
            | inr text => inr (Some text)
            | inl error => inl ("Failed to decode " +:+ PROFILE_IMAGE_PATH_VALUE +:+ " from HKLM\" +:+ subkey +:+ ": " +:+ error)
            end).

Definition expand_environment_strings (value : string) : Setup (string + string) :=
  let expand_failed (e : io_error) :=
    "Failed to expand environment variables in profile path " +:+ value +:+ ": " +:+ err_msg e in
  needed ← perform (ExpandSize value);
  if decide (needed = 0) then e ← perform SLastOsError; mret (inl (expand_failed e))
  else
    '(written, buffer) ← perform (ExpandEnvironmentStrings value needed);
    if decide (written = 0) then e ← perform SLastOsError; mret (inl (expand_failed e))
    else if decide (written > needed) then
      mret (inl ("Expanded profile path did not fit in allocated buffer for " +:+ value))
    else
      prog_map_err (λ error, "Failed to decode expanded profile path for " +:+ value +:+ ": " +:+ error)
        (perform (FromUtf16 (take (Z.to_nat (written - 1)) buffer))).

Definition profile_dir_for_sid (sid : string) : Setup (string + option path) :=
  profile_image_path ←! read_profile_image_path sid;
  match profile_image_path with
  | None => mret (inr None)
  | Some text =>
      expanded ←! expand_environment_strings text;
      p ← perform (PathFrom expanded);
      mret (inr (Some p))
  end.

Definition migrate_v17_secret (installed_user_sid : option string) : Setup (string + ()) :=
  match given_sid installed_user_sid with
  | inl e => mret (inl e)
  | inr sid =>
      new_path ← on_windows windows_service_secret_path;
      present ← on_windows (perform (WExists new_path));
      if (present : bool) then mret (inr ())
      else
        profile_dir ←! profile_dir_for_sid sid;
        match profile_dir with
        | None => mret (inr ())
        | Some profile_dir => perform (MigrateFrom new_path profile_dir)
        end
  end.

(** ** The shortcut (startup_shortcut.rs: the tray's, but the program is the
    tray beside this one) *)

Definition setup_ensure_startup_shortcut : W (string + ()) :=
  shortcut_path ←! startup_shortcut_path;
  setup_path ←! prog_map_err (λ error, "Failed to resolve playitd-windows-setup.exe path: " +:+ err_msg error)
                  (perform WCurrentExe);
  match parent setup_path with
  | None => mret (inl ("Failed to resolve the working directory for " +:+ display setup_path))
  | Some working_directory =>
      let tray_path := working_directory ++ ["playitd-tray.exe"] in
      _ ←! (match parent shortcut_path with
            | Some dir =>
                prog_map_err (λ error, "Failed to create the current user's Startup folder at " +:+
                                       display dir +:+ ": " +:+ err_msg error)
                  (perform (WCreateDirAll dir))
            | None => mret (inr ())
            end);
      com ←! initialize_com;
      r ← create_startup_shortcut tray_path working_directory shortcut_path;
      _ ← (if (com : bool) then perform CoUninitialize else mret ());
      mret r
  end.

(** ** The log (setup_log.rs) *)

Definition LOG_RELATIVE_PATH : list string := ["playit_gg"; "logs"; "playit-installer.log"].

Definition log_path_from_base (base : path) : path := base ++ LOG_RELATIVE_PATH.

Definition default_log_path : Setup path :=
  base ← on_windows (perform ProgramData);
  mret (log_path_from_base (default ["C:\"; "ProgramData"] base)).

Definition temp_log_path : Setup path := dir ← perform TempDir; mret (dir ++ ["playit-installer.log"]).

Definition append_log_line (p : path) (line : string) : Setup (io_error + ()) :=
  _ ←! (match parent p with Some dir => on_windows (perform (WCreateDirAll dir)) | None => mret (inr ()) end);
  perform (AppendLine p line).
End setup.

Definition escape_char (c : ascii) : string :=
  if decide (c = "\"%char) then "\\"
  else if decide (c = "034"%char) then "\" +:+ dq
  else if decide (c = "013"%char) then "\r"
  else if decide (c = "010"%char) then "\n"
  else if decide (c = "009"%char) then "\t"
  else String c EmptyString.

Fixpoint escape_log_value (value : string) : string :=
  match value with
  | EmptyString => EmptyString
  | String c rest => escape_char c +:+ escape_log_value rest
  end.

Definition format_log_line (timestamp_millis : Z) (command status detail : string) : string :=
  "timestamp_ms=" +:+ pretty timestamp_millis +:+ " command=" +:+ dq +:+ escape_log_value command +:+ dq +:+
  " status=" +:+ status +:+ " detail=" +:+ dq +:+ escape_log_value detail +:+ dq.

(** The line of a command's result. *)
Definition result_line (now : Z) (command : string) (result : string + ()) : string :=
  let status := match result with inr _ => "success" | inl _ => "failure" end in
  let detail := match result with inr _ => "completed" | inl error => error end in
  format_log_line now command status detail.

Definition log_command_result (command : string) (result : string + ()) : Setup (string + ()) :=
  now ← perform SystemTimeMillis;
  let line := result_line (default 0 now) command result in
  p ← default_log_path;
  r ← append_log_line p line;
  _ ← (match r with
       | inl _ => tmp ← temp_log_path; _ ← append_log_line tmp line; mret ()
       | inr _ => mret ()
       end);
  mret result.

(** ** The commands (main.rs) *)

Definition COMMANDS : list string :=
  ["apply-installer-permissions"; "ensure-startup-shortcut"; "migrate-v17-secret"; "remove-startup-shortcut";
   "write-installed-user-sid"].

Definition usage : string :=
  "Usage: playitd-windows-setup <command>" +:+ nl +:+ "Commands:" +:+ nl +:+ "  " +:+ join_with (nl +:+ "  ") COMMANDS.

Definition unexpected_extra_arguments (args : list string) : string :=
  "Unexpected extra argument(s) for playitd-windows-setup: " +:+ join_with " " args.

Definition require_no_extra_arguments (args : list string) : string + () :=
  match args with [] => inr () | _ => inl (unexpected_extra_arguments args) end.

Section commands.
Context {CB : CliBuild} {TB : TrayBuild} (nul_error : string).

(** A command's work; [inr]: its result is logged, [inl]: it is not. *)
Definition run_setup_command (command : string) (extra_args : list string) : Setup (string + (string + ())) :=
  if decide (command = "apply-installer-permissions") then
    r ← (if decide (1 < length extra_args)%nat then mret (inl (unexpected_extra_arguments extra_args))
         else apply_installer_permissions nul_error (head extra_args));
    mret (inr r)
  else if decide (command = "ensure-startup-shortcut") then
    r ← (match require_no_extra_arguments extra_args with
         | inl e => mret (inl e)
         | inr _ => on_windows setup_ensure_startup_shortcut
         end);
    mret (inr r)
  else if decide (command = "migrate-v17-secret") then
    r ← (if decide (1 < length extra_args)%nat then mret (inl (unexpected_extra_arguments extra_args))
         else migrate_v17_secret (head extra_args));
    mret (inr r)
  else if decide (command = "remove-startup-shortcut") then
    r ← (match require_no_extra_arguments extra_args with
         | inl e => mret (inl e)
         | inr _ => on_windows remove_startup_shortcut
         end);
    mret (inr r)
  else if decide (command = "write-installed-user-sid") then
    match require_no_extra_arguments extra_args with
    | inl e => mret (inl e)
    | inr _ =>
        r ← write_current_user_sid nul_error;
        mret (match r with inl e => inl ("Failed to write installed user SID: " +:+ err_msg e) | inr _ => inr (inr ()) end)
    end
  else mret (inr (inl ("Unsupported playitd-windows-setup command: " +:+ command))).

Definition run_and_log (args : list string) : Setup (string + ()) :=
  match args with
  | [] => log_command_result "<missing>" (inl ("Missing command." +:+ nl +:+ usage))
  | command :: extra_args =>
      r ← run_setup_command command extra_args;
      match r with
      | inl error => mret (inl error)
      | inr result => log_command_result command result
      end
  end.

(** The process's exit code. *)
Definition setup_main (args : list string) : Setup Z :=
  r ← run_and_log args;
  match r with
  | inl error => _ ← perform (SEprintln error); mret 1
  | inr _ => mret 0
  end.
End commands.

(** ** The migration of an old secret (secret_migration.rs) *)

Inductive MigrationStatus : Set := AlreadyConfigured | MissingLegacy | Copied.

Definition v17_secret_path_from_profile (profile_dir : path) : path :=
  profile_dir ++ ["AppData"; "Local"; "playit_gg"; "playit.toml"].

(** [Path::exists]. *)
Definition path_exists {E} (p : path) : FS E bool :=
  r ← fs_try (metadata p); mret (match r with inr _ => true | inl _ => false end).

(** Windows knows no modes. *)
Definition no_mode : Z := 0.

(** A file's content is a text of bytes: [fs::read] reads it as it is. *)
Definition migrate_v17_secret_from_profile (new_path profile_dir : path) : FS string MigrationStatus :=
  present ← path_exists new_path;
  if (present : bool) then mret AlreadyConfigured
  else
    let old_path := v17_secret_path_from_profile profile_dir in
    old_present ← path_exists old_path;
    if negb old_present then mret MissingLegacy
    else
      _ ← (match parent new_path with
           | Some dir =>
               fs_map_err (λ error, "Failed to create playit service config directory at " +:+ display dir +:+ ": " +:+ err_msg error)
                 (create_dir_all no_mode dir)
           | None => mret ()
           end);
      present ← path_exists new_path;
      if (present : bool) then mret AlreadyConfigured
      else
        content ← fs_map_err (λ error, "Failed to read legacy playit config at " +:+ display old_path +:+ ": " +:+ err_msg error)
                    (read_to_string old_path);
        created ← fs_try (create_new new_path no_mode);
        match created with
        | inl error =>
            if decide (err_kind error = AlreadyExists) then mret AlreadyConfigured
            else fs_err ("Failed to create migrated playit config at " +:+ display new_path +:+ ": " +:+ err_msg error)
        | inr _ =>
            _ ← fs_map_err (λ error, "Failed to write migrated playit config to " +:+ display new_path +:+ ": " +:+ err_msg error)
                  (write_all new_path content);
            mret Copied
        end.

Section migration.
Context (n0 : nodes) (new_path profile_dir : path).
Notation old_path := (v17_secret_path_from_profile profile_dir).

(** Nothing that was there has changed, and only directories are new. *)
Definition untouched_nodes (n : nodes) : Prop :=
  (∀ p x, n0 !! p = Some x → n !! p = Some x) ∧ n !! new_path = n0 !! new_path ∧
  (∀ p content mode, n !! p = Some (File content mode) → n0 !! p = Some (File content mode)).

(** ... but for the new secret, which holds a beginning of the old one. *)
Definition migrating (n : nodes) : Prop :=
  (∀ p x, n0 !! p = Some x → n !! p = Some x) ∧
  (n !! new_path = n0 !! new_path ∨
   n0 !! new_path = None ∧ ∃ legacy mode k, n0 !! old_path = Some (File legacy mode) ∧
     n !! new_path = Some (File (string_take k legacy) no_mode)).

Definition migrated (r : string + MigrationStatus) (n : nodes) : Prop :=
  migrating n ∧
  match r with
  | inr Copied =>
      n0 !! new_path = None ∧ ∃ legacy mode, n0 !! old_path = Some (File legacy mode) ∧
        n !! new_path = Some (File legacy no_mode)
  | inr _ => n !! new_path = n0 !! new_path
  | inl _ => True
  end.

Lemma untouched_migrating n : untouched_nodes n → migrating n.
Proof. intros (H1 & H2 & _). split; [done|]. by left. Qed.

Lemma make_dirs_untouched (rest walked : path) n :
  (length walked + length rest < length new_path)%nat → untouched_nodes n →
  untouched_nodes (make_dirs no_mode walked rest n).2.
Proof.
  revert walked n. induction rest as [|c rest IH]; intros walked n Hl Hn; cbn [make_dirs]; [done|].
  cbn in Hl. destruct (n !! (walked ++ [c])) as [[]|] eqn:Hp; [apply IH; [rewrite length_app; cbn; lia|done]|done|].
  apply IH; [rewrite length_app; cbn; lia|]. destruct Hn as (H1 & H2 & H3). split_and!.
  - intros p x Hx. rewrite lookup_insert_ne; [by apply H1|]. intros <-. apply H1 in Hx. congruence.
  - rewrite lookup_insert_ne; [done|]. intros Heq. rewrite <- Heq, length_app in Hl. cbn in Hl. lia.
  - intros p content mode. rewrite lookup_insert_Some. intros [[_ ?]|[_ ?]]; [done|by eapply H3].
Qed.

Notation run_triple := (FileSystem.triple migrating).

Lemma path_exists_untouched p : run_triple untouched_nodes (path_exists (E := string) p) (λ _, untouched_nodes).
Proof.
  eapply (triple_bind _ _ _ _ (λ _, untouched_nodes)); [|intros r; by apply fs_triple_ret|done].
  eapply (triple_try _ _ _ (λ _, untouched_nodes)); [|done].
  apply triple_sys; intros; cbn; auto using untouched_migrating.
Qed.

Lemma migrate_writes content mode :
  n0 !! old_path = Some (File content mode) → n0 !! new_path = None →
  run_triple (λ n, (∀ p x, n0 !! p = Some x → n !! p = Some x) ∧ n !! new_path = Some (File EmptyString no_mode))
    (_ ← fs_map_err (λ error, "Failed to write migrated playit config to " +:+ display new_path +:+ ": " +:+ err_msg error)
           (write_all new_path content);
     mret Copied) migrated.
Proof.
  intros Hold Hnew.
  assert (∀ n text, (∀ p x, n0 !! p = Some x → n !! p = Some x) → n !! new_path = Some (File EmptyString no_mode) →
    (∀ p x, n0 !! p = Some x → set_content new_path text n !! p = Some x) ∧
    set_content new_path text n !! new_path = Some (File text no_mode)) as Hset.
  { intros n text Hk Hn. unfold set_content. rewrite Hn. split; [|by rewrite lookup_insert_eq].
    intros p x Hp. rewrite lookup_insert_ne; [auto|]. intros <-. congruence. }
  assert (string_take (String.length content) content = content) as Hfull by apply substring_all.
  eapply (triple_bind _ _ _ _ (λ r n, migrating n ∧ (r = inr () → n !! new_path = Some (File content no_mode)))).
  - eapply (triple_map_err _ _ _ _ _ (λ r n, migrating n ∧ (r = inr () → n !! new_path = Some (File content no_mode)))); [|by intros [] n [? Hc]; split; auto|naive_solver].
    apply triple_sys; cbn.
    + intros n [Hk Hn]. destruct (Hset n content Hk Hn) as [Hk' Hn'].
      assert (migrating (set_content new_path content n)); [|done].
      split; [done|]. right. split; [done|]. eexists _, _, (String.length content). by rewrite Hfull.
    + intros n e k [Hk Hn]. destruct (Hset n (string_take k content) Hk Hn) as [Hk' Hn'].
      assert (migrating (set_content new_path (string_take k content) n)); [|done].
      split; [done|]. right. split; [done|]. by eexists _, _, k.
  - intros []. apply fs_triple_ret. intros n [Hm Hn]. split; [done|]. split; [done|]. eauto.
  - intros e n [Hm _]. by split.
Qed.

Lemma migrate_creates content mode :
  n0 !! old_path = Some (File content mode) →
  run_triple untouched_nodes
    (created ← fs_try (create_new new_path no_mode);
     match created with
     | inl error =>
         if decide (err_kind error = AlreadyExists) then mret AlreadyConfigured
         else fs_err ("Failed to create migrated playit config at " +:+ display new_path +:+ ": " +:+ err_msg error)
     | inr _ =>
         _ ← fs_map_err (λ error, "Failed to write migrated playit config to " +:+ display new_path +:+ ": " +:+ err_msg error)
               (write_all new_path content);
         mret Copied
     end) migrated.
Proof.
  intros Hold.
  eapply (triple_bind _ _ _ _ (λ r n, match r with
    | inr (inr _) => n0 !! new_path = None ∧ (∀ p x, n0 !! p = Some x → n !! p = Some x) ∧
                     n !! new_path = Some (File EmptyString no_mode)
    | _ => untouched_nodes n
    end)).
  - eapply (triple_try _ _ _ (λ r n, match r with
      | inr _ => n0 !! new_path = None ∧ (∀ p x, n0 !! p = Some x → n !! p = Some x) ∧
                 n !! new_path = Some (File EmptyString no_mode)
      | _ => untouched_nodes n
      end)); [|done].
    apply triple_sys; cbn; [|intros; by split; [apply untouched_migrating|]].
    intros n Hn. pose proof Hn as (H1 & H2 & H3).
    destruct (n !! new_path) eqn:Hnew; [by split; [apply untouched_migrating|]|].
    destruct (has_parent n new_path); [|by split; [apply untouched_migrating|]]. cbn.
    assert (∀ p x, n0 !! p = Some x → <[new_path:=File EmptyString no_mode]> n !! p = Some x) as Hk.
    { intros p x Hp. rewrite lookup_insert_ne; [auto|]. intros <-. congruence. }
    split; [|by rewrite lookup_insert_eq].
    split; [done|]. right. split; [done|]. exists content, mode, 0%nat. rewrite lookup_insert_eq. by destruct content.
  - intros [error|[]].
    + case_decide; [apply fs_triple_ret|apply triple_err]; intros n Hn; (split; [by apply untouched_migrating|]); [apply Hn|done].
    + intros s r s' Hrun (Hnew & Hk & Hn). by apply (migrate_writes content mode Hold Hnew s r s' Hrun).
  - intros e n Hn. by split; [apply untouched_migrating|].
Qed.

Lemma migrate_untouched_end (status : MigrationStatus) :
  status ≠ Copied → run_triple untouched_nodes (mret status) migrated.
Proof.
  intros Hs. apply fs_triple_ret. intros n Hn. split; [by apply untouched_migrating|]. destruct status; [apply Hn..|done].
Qed.

Lemma migrate_triple : run_triple untouched_nodes (migrate_v17_secret_from_profile new_path profile_dir) migrated.
Proof.
  assert (∀ e n, untouched_nodes n → migrated (inl e) n) as Herr.
  { intros e n Hn. by split; [apply untouched_migrating|]. }
  unfold migrate_v17_secret_from_profile.
  eapply triple_bind; [apply path_exists_untouched| |by auto]. intros [|]; [by apply migrate_untouched_end|].
  eapply triple_bind; [apply path_exists_untouched| |by auto]. intros [|]; [|by apply migrate_untouched_end]. cbn [negb].
  eapply (triple_bind _ _ _ _ (λ _, untouched_nodes)); [| |by auto].
  { destruct (parent new_path) as [dir|] eqn:Hdir; [|by apply fs_triple_ret].
    eapply (triple_map_err _ _ _ _ _ (λ _, untouched_nodes)); [|done|done].
    apply triple_sys; [|by intros; split; [apply untouched_migrating|]].
    intros n Hn. assert (untouched_nodes (make_dirs no_mode [] dir n).2); [|by split; [apply untouched_migrating|]].
    apply make_dirs_untouched; [|done]. cbn. by apply parent_shorter in Hdir. }
  intros []. eapply triple_bind; [apply path_exists_untouched| |by auto]. intros [|]; [by apply migrate_untouched_end|].
  eapply (triple_bind _ _ _ _ (λ r n, untouched_nodes n ∧ ∀ content, r = inr content → ∃ mode, n0 !! old_path = Some (File content mode))).
  - eapply (triple_map_err _ _ _ _ _ (λ r n, untouched_nodes n ∧ ∀ content, r = inr content → ∃ mode, n0 !! old_path = Some (File content mode)));
      [|intros content n [Hn Hc]; split; [done|intros ? [= <-]; eauto]|intros e n [Hn _]; by split].
    apply triple_sys; cbn; [|intros n e k Hn; split; [by apply untouched_migrating|by split]].
    intros n Hn. split; [by apply untouched_migrating|]. split; [done|].
    intros content. destruct (n !! old_path) as [[]|] eqn:Ho; cbn; [done| |done]. intros [= ->].
    destruct Hn as (_ & _ & H3). eauto.
  - intros content s r s' Hrun [Hn Hc]. destruct (Hc content eq_refl) as [mode Hold].
    by apply (migrate_creates content mode Hold s r s' Hrun).
  - intros e n [Hn _]. by apply Herr.
Qed.
End migration.

(** C25: A migration of the old secret is safe, whichever of its calls fail
    and whenever it stops. In every state that others can see in between, and
    in the last one, every file and directory that was there is there
    unchanged, a secret that was configured included; the new secret is as it
    was, or it did not exist and holds a beginning of the old one. When the
    migration says that it copied, there was no new secret before, and it is
    the whole of the old one. In every other case without an error the new
    secret is as it was. *)
Theorem migration_safe (s : fs) (new_path profile_dir : path) (r : string + MigrationStatus) (s' : fs) :
  migrate_v17_secret_from_profile new_path profile_dir s = (r, s') →
  (∃ seen, fs_seen s' = fs_seen s ++ seen ∧ Forall (migrating (fs_nodes s) new_path profile_dir) seen) ∧
  migrated (fs_nodes s) new_path profile_dir r (fs_nodes s').
Proof.
  intros Hrun. destruct (migrate_triple (fs_nodes s) new_path profile_dir s r s' Hrun) as (seen & Hs & Hi & Hq).
  - by split_and!.
  - split; [eauto|done].
Qed.

(** A machine with an old secret, and what the migration makes of it when a
    call fails: the write, after some bytes. *)
Definition legacy_nodes : nodes :=
  <[v17_secret_path_from_profile ["Users"; "Alice"] := File "secret_key = 0123" no_mode]>
  (<[["ProgramData"] := Dir no_mode]> ∅).

Definition migrate_on (faults : list fault) : (string + MigrationStatus) * fs :=
  migrate_v17_secret_from_profile ["ProgramData"; "playit.toml"] ["Users"; "Alice"]
    {| fs_nodes := legacy_nodes; fs_faults := faults; fs_seen := [] |}.

Lemma migration_safe_witness :
  (migrate_on []).1 = inr Copied ∧
  fs_nodes (migrate_on []).2 !! ["ProgramData"; "playit.toml"] = Some (File "secret_key = 0123" no_mode) ∧
  Forall (migrating legacy_nodes ["ProgramData"; "playit.toml"] ["Users"; "Alice"]) (fs_seen (migrate_on []).2).
Proof.
  destruct (migrate_on []) as [r s'] eqn:Hrun.
  destruct (migration_safe _ _ _ _ _ Hrun) as [(seen & Hs & Hi) (_ & Hq)].
  assert (Hr : r = inr Copied) by (apply (f_equal fst) in Hrun; vm_compute in Hrun; by symmetry).
  subst r. destruct Hq as (_ & legacy & mode & Hl & Hn). vm_compute in Hl. injection Hl as <- <-.
  cbn in Hs. split_and!; [reflexivity|exact Hn|]. cbn [snd]. rewrite Hs. exact Hi.
Defined.

(** A write that fails half way leaves a beginning of the secret, which the
    next migration takes for a configured one. *)
Lemma migration_torn :
  let s := (migrate_on [None; None; None; None; None; None; Some (IoError Other "disk full", 6%nat)]).2 in
  fs_nodes s !! ["ProgramData"; "playit.toml"] = Some (File "secret" no_mode) ∧
  (migrate_v17_secret_from_profile ["ProgramData"; "playit.toml"] ["Users"; "Alice"] s).1 = inr AlreadyConfigured.
Proof. vm_compute. split; reflexivity. Qed.

(** ** The service's access entry *)

Lemma substring_prefix p b : String.substring 0 (String.length p) (p +:+ b) = p.
Proof. induction p as [|x p IH]; [by destruct b|]. rewrite append_cons. cbn. by rewrite IH. Qed.

Lemma substring_middle a p b : String.substring (String.length a) (String.length p) (a +:+ p +:+ b) = p.
Proof. induction a as [|x a IH]; [exact (substring_prefix p b)|]. rewrite append_cons. cbn. apply IH. Qed.

Lemma contains_middle a p b : p ≠ EmptyString → str_contains p (a +:+ p +:+ b) = true.
Proof.
  intros Hp. apply bool_decide_eq_true. unfold str_find.
  destruct (String.index 0 p (a +:+ p +:+ b)) as [i|] eqn:Hi; [eauto|].
  destruct (String.index_correct3 0 (String.length a) p (a +:+ p +:+ b) Hi Hp); [lia|apply substring_middle].
Qed.

Lemma substring_split i s :
  (i <= String.length s)%nat → String.substring 0 i s +:+ String.substring i (String.length s - i) s = s.
Proof.
  revert i. induction s as [|x s IH]; intros i Hi; cbn in Hi.
  - assert (i = O) as -> by lia. done.
  - destruct i as [|i]; [exact (substring_all (String x s))|]. cbn [String.substring String.length Nat.sub].
    rewrite append_cons. f_equal. apply IH. lia.
Qed.

(** The entry is added once: what has it is left as it is, what gets it has it
    between the parts that it had. *)
Lemma add_service_access_ace_spec sddl updated :
  add_service_access_ace sddl = inr updated →
  add_service_access_ace updated = inr updated ∧
  (updated = sddl ∨ ∃ dacl sacl, sddl = dacl +:+ sacl ∧ updated = dacl +:+ SERVICE_ACCESS_ACE +:+ sacl).
Proof.
  unfold add_service_access_ace at 1. destruct (str_contains SERVICE_ACCESS_ACE sddl) eqn:Hc.
  { intros [= <-]. unfold add_service_access_ace. rewrite Hc. auto. }
  destruct (negb (starts_with "D:" sddl)); [done|]. intros [= <-]. split.
  { unfold add_service_access_ace. by rewrite contains_middle. }
  right. eexists _, _. split; [|done]. rewrite substring_split; [done|].
  destruct (str_find "S:" sddl) as [i|] eqn:Hi; cbn; [|lia].
  destruct (decide (i <= String.length sddl)%nat) as [|Hgt]; [done|exfalso].
  pose proof (String.index_correct1 _ _ _ _ Hi) as Hsub. revert Hsub.
  assert (∀ s j, (String.length s < j)%nat → String.substring j 2 s = EmptyString) as Hout.
  { clear. induction s as [|x s IH]; intros [|j] Hj; cbn in *; try lia; [done|]. apply IH. lia. }
  rewrite Hout by lia. done.
Qed.

(** ** Reading the log *)

Definition unescape_char (c : ascii) : option ascii :=
  if decide (c = "\"%char) then Some "\"%char
  else if decide (c = "034"%char) then Some "034"%char
  else if decide (c = "r"%char) then Some "013"%char
  else if decide (c = "n"%char) then Some "010"%char
  else if decide (c = "t"%char) then Some "009"%char
  else None.

(** A value up to its closing quote, and what follows. *)
Fixpoint read_value (s : string) : option (string * string) :=
  match s with
  | EmptyString => None
  | String c rest =>
      if decide (c = "034"%char) then Some (EmptyString, rest)
      else if decide (c = "\"%char) then
        match rest with
        | EmptyString => None
        | String d rest =>
            x ← unescape_char d; '(v, r) ← read_value rest; Some (String x v, r)
        end
      else '(v, r) ← read_value rest; Some (String c v, r)
  end.

Lemma read_escaped_char c rest :
  read_value (escape_char c +:+ rest) = '(v, r) ← read_value rest; Some (String c v, r).
Proof.
  unfold escape_char. repeat case_decide; subst; rewrite ?append_cons; try reflexivity.
  cbn [read_value]. rewrite !decide_False by done. reflexivity.
Qed.

Lemma read_escaped value rest : read_value (escape_log_value value +:+ dq +:+ rest) = Some (value, rest).
Proof.
  induction value as [|c value IH]; [reflexivity|]. cbn [escape_log_value].
  rewrite <- append_assoc, read_escaped_char, IH. done.
Qed.

Lemma escape_free c value : c = "010"%char ∨ c = "013"%char → free_of c (escape_log_value value).
Proof.
  intros Hc. induction value as [|a value IH]; [done|]. cbn [escape_log_value]. apply free_of_app; [|done].
  unfold escape_char. repeat case_decide; destruct Hc; subst; try done; apply free_of_cons; done.
Qed.

Definition detail_of (result : string + ()) : string := match result with inr _ => "completed" | inl error => error end.
Definition status_of (result : string + ()) : string := match result with inr _ => "success" | inl _ => "failure" end.

(** The installer's log keeps every entry: whatever the command's name
    and its error contain, the entry is one line, and the name, whether the
    command succeeded, and its error can be read back from it. *)
Theorem installer_log_faithful (now : Z) (command : string) (result : string + ()) :
  uint 128 now →
  let line := result_line now command result in
  free_of "010" line ∧ free_of "013" line ∧
  ∃ q1 q2,
    line = "timestamp_ms=" +:+ pretty now +:+ " command=" +:+ dq +:+ q1 ∧
    read_value q1 = Some (command, " status=" +:+ status_of result +:+ " detail=" +:+ dq +:+ q2) ∧
    read_value q2 = Some (detail_of result, EmptyString).
Proof.
  intros Hnow line.
  assert (∀ c, c = "010"%char ∨ c = "013"%char → free_of c line) as Hfree.
  { intros c Hc. pose proof (escape_free c command Hc) as H1. pose proof (escape_free c (detail_of result) Hc) as H2.
    assert (free_of c (pretty now)) as H3.
    { eapply uint_free; [by destruct Hc; subst|by destruct Hc; subst|by apply uint_from_str_pretty]. }
    assert (free_of c (status_of result)) as H4 by by destruct Hc, result; subst.
    unfold line, result_line, format_log_line. fold (status_of result) (detail_of result).
    repeat (apply free_of_app; [first [done|by destruct Hc; subst]|]). by destruct Hc; subst. }
  split; [auto|]. split; [auto|].
  eexists _, (escape_log_value (detail_of result) +:+ dq).
  split; [reflexivity|]. split.
  - apply read_escaped.
  - rewrite <- (append_nil dq). apply read_escaped.
Qed.

Lemma installer_log_faithful_witness :
  ∃ q1 q2,
    result_line 123 "ensure-startup-shortcut" (inl ("failed" +:+ nl +:+ dq +:+ "badly" +:+ dq)) =
      "timestamp_ms=" +:+ pretty 123 +:+ " command=" +:+ dq +:+ q1 ∧
    read_value q1 = Some ("ensure-startup-shortcut", " status=failure detail=" +:+ dq +:+ q2) ∧
    read_value q2 = Some ("failed" +:+ nl +:+ dq +:+ "badly" +:+ dq, EmptyString).
Proof.
  destruct (installer_log_faithful 123 "ensure-startup-shortcut" (inl ("failed" +:+ nl +:+ dq +:+ "badly" +:+ dq)))
    as (_ & _ & q1 & q2 & H1 & H2 & H3); [unfold uint; lia|].
  exists q1, q2. split; [exact H1|]. split; [exact H2|exact H3].
Defined.

(** ** What is opened is closed, and what is applied was meant *)

Inductive holding : Set := HoldsToken (h : nat) | HoldsLocal (p : nat).

(** What happened to files: the directories that were found missing, the file
    that was created, until it is moved or removed, whether it is open, what was
    written to it and what of this is safely stored, and the last move, with
    what was stored then. *)
Record fstate : Type := FState {
  f_missing : list path;
  f_made : option path;
  f_open : option nat;
  f_text : option string;
  f_stored : option string;
  f_moved : option (path * option string);
}.

Definition fstep (f : fstate) (ev : event scall) : fstate :=
  let '(FState mi ma op te st mo) := f in
  match ev with
  | @Event _ _ e x =>
      match e in scall X return X → fstate with
      | SMetadata p => λ r,
          match r with inl e => if decide (err_kind e = NotFound) then FState (mi ++ [p]) ma op te st mo else f | inr _ => f end
      | SCreateNew p => λ r, match r with inr h => FState mi (Some p) (Some h) None None mo | inl _ => f end
      | SWriteAll _ content => λ r, match r with inr _ => FState mi ma op (Some content) st mo | inl _ => f end
      | SSyncAll _ => λ r, match r with inr _ => FState mi ma op te te mo | inl _ => f end
      | SCloseFile _ => λ _, FState mi ma None te st mo
      | MoveFileEx _ p _ => λ r, if (r : bool) then FState mi None op te st (Some (p, st)) else f
      | OnWindows (WRemoveFile _) => λ _, FState mi None op te st mo
      | _ => λ _, f
      end x
  end.

Record kstate : Type := KState {
  (** what is held, the last first *)
  k_held : list holding;
  (** the last descriptor and its text, and the list that was found in one *)
  k_sddl : option (nat * string);
  k_dacl : option (nat * nat);
  (** what was applied where *)
  k_set : list (path * string);
  k_files : fstate;
}.

Definition kstart : kstate := KState [] None None [] (FState [] None None None None None).

Definition kstep (s : kstate) (ev : event scall) : kstate :=
  let '(KState he sd da se fi) := s in
  match ev with
  | @Event _ _ e x =>
      match e in scall X return X → kstate with
      | OpenProcessToken => λ r, match r with Some (Some h) => KState (HoldsToken h :: he) sd da se fi | _ => s end
      | ConvertSidToStringSid _ => λ r, match r with Some (Some p) => KState (HoldsLocal p :: he) sd da se fi | _ => s end
      | ConvertSddl text => λ r, match r with Some (Some d) => KState (HoldsLocal d :: he) (Some (d, text)) da se fi | _ => s end
      | CloseHandle _ | LocalFree _ => λ _, KState (tail he) sd da se fi
      | GetSecurityDescriptorDacl d => λ r, match r with Some (Some a) => KState he sd (Some (d, a)) se fi | _ => s end
      | SetNamedSecurityInfo p _ _ => λ r,
          if decide (r = 0) then KState he sd da (se ++ [(p, from_option snd EmptyString sd)]) fi else s
      | _ => λ _, KState he sd da se (fstep fi ev)
      end x
  end.

(** A text for a secret: read back, it is protected and lets in the system, the
    administrators and one user. *)
Definition secret_text (text : string) : Prop :=
  ∃ sid, normalize_sid sid = Some sid ∧
    parse_protected_dacl text = Some (map (allow "FA") [LOCAL_SYSTEM; ADMINISTRATORS; sid]).

Lemma secret_sddl_text sid text : secret_path_sddl sid = inr text → secret_text text.
Proof.
  unfold secret_path_sddl. destruct (normalize_sid sid) as [sid'|] eqn:Hn; [|done]. intros [= <-].
  pose proof (normalize_sid_spec _ _ Hn) as (-> & _ & _). exists sid. split; [done|].
  apply (parse_dacl_text "FA" [LOCAL_SYSTEM; ADMINISTRATORS; sid]); [done|].
  repeat constructor; by apply (sid_field sid).
Qed.

Section protection.
(** Which paths may get an access list, and which other calls may be made. *)
Context (may : fstate → path → Prop) (others : kstate → event scall → Prop).

Definition protection_policy (s : kstate) (ev : event scall) : Prop :=
  match ev_call ev with
  | TokenUserSize h | GetTokenUser h _ => HoldsToken h ∈ k_held s
  | CloseHandle h => head (k_held s) = Some (HoldsToken h)
  | ReadLocalString p | GetSecurityDescriptorDacl p => HoldsLocal p ∈ k_held s
  | LocalFree p => head (k_held s) = Some (HoldsLocal p)
  | SetNamedSecurityInfo p information dacl =>
      (* the list, and that nothing is inherited *)
      Z.testbit information 2 = true ∧ Z.testbit information 31 = true ∧
      ∃ d text, k_dacl s = Some (d, dacl) ∧ k_sddl s = Some (d, text) ∧ HoldsLocal d ∈ k_held s ∧
        may (k_files s) p ∧ secret_text text
  | OpenProcessToken | ConvertSidToStringSid _ | ConvertSddl _ | SLastOsError | FromRawOsError _ | JoinBlocking => True
  | _ => others s ev
  end.

Notation guarded := (λ h ev, protection_policy (summary kstep kstart h) ev).
Notation k_at s := (λ h, summary kstep kstart h = s).
Notation k_now := (summary kstep kstart).

Lemma current_sid_guarded s :
  triple guarded (k_at s) current_process_user_sid (λ _ h, k_now h = s).
Proof.
  destruct s as [he sd da se []].
  unfold current_process_user_sid, token_user_sid_string, sid_to_string.
  follow; unfold protection_policy; cbn; try done; set_solver.
Qed.

(** A descriptor is applied, or an error says that it was not. *)
Definition applied (s : kstate) (p : path) (sddl : string) (r : io_error + ()) (s' : kstate) : Prop :=
  k_held s' = k_held s ∧ k_files s' = k_files s ∧ k_set s' = k_set s ++ match r with inr _ => [(p, sddl)] | inl _ => [] end.

Lemma apply_sddl_guarded bad empty no_dacl bad_path sddl p s :
  may (k_files s) p → secret_text sddl →
  triple guarded (k_at s) (apply_sddl bad empty no_dacl bad_path sddl p) (λ r h, applied s p sddl r (k_now h)).
Proof.
  intros Hmay Htext. destruct s as [he sd da se []]. unfold apply_sddl, set_dacl, applied.
  follow; unfold protection_policy; cbn in *; rewrite ?app_nil_r; try done; try set_solver.
  all: try (eexists _, _; split_and!; [done|done|set_solver|done|done]).
  all: case_decide; [done|]; cbn; rewrite ?app_nil_r; done.
Qed.

(** What protecting a path leaves. *)
Definition protected (s : kstate) (p : path) (ok : bool) (s' : kstate) : Prop :=
  k_held s' = k_held s ∧ k_files s' = k_files s ∧
  if ok then ∃ text, k_set s' = k_set s ++ [(p, text)] ∧ secret_text text else k_set s' = k_set s.

Definition succeeded {A B} (r : A + B) : bool := match r with inr _ => true | inl _ => false end.

Lemma protect_path_guarded p s :
  may (k_files s) p →
  triple guarded (k_at s) (protect_path p) (λ r h, protected s p (succeeded r) (k_now h)).
Proof.
  intros Hmay. apply (track_then kstep kstart protection_policy _ _ (λ _ s', s' = s)); [apply current_sid_guarded|].
  intros [e|sid] ? ->; [apply triple_ret; by intros h ->|].
  destruct (secret_path_sddl sid) as [e|text] eqn:Htext; [apply triple_ret; by intros h ->|].
  eapply triple_post; [apply apply_sddl_guarded; [done|by eapply secret_sddl_text]|].
  intros [e|[]] h (Hh & Hf & Hs); split_and!; [done|done| |done|done|]; cbn in *; [by rewrite app_nil_r in Hs|].
  eexists. split; [done|by eapply secret_sddl_text].
Qed.

Lemma protect_path_async_guarded p s :
  may (k_files s) p →
  triple guarded (k_at s) (protect_path_async p) (λ r h, protected s p (succeeded r) (k_now h)).
Proof.
  intros Hmay. apply (track_then kstep kstart protection_policy _ _ (λ _ s', s' = s)).
  { destruct s as [???? []]. follow; done. }
  intros [e|] ? ->; [apply triple_ret; by intros h ->|by apply protect_path_guarded].
Qed.
End protection.

(** Protecting a path makes no other calls, and leaves nothing open. *)
Theorem protection_applied (target : path) (t : list (event scall)) (o : option (io_error + ())) :
  exec (protect_path target) t o →
  obeys (λ h ev, protection_policy (λ _ q, q = target) (λ _ _, False) (summary kstep kstart h) ev) [] t ∧
  ∀ r, o = Some r → protected kstart target (succeeded r) (summary kstep kstart t).
Proof.
  intros He. destruct (protect_path_guarded (λ _ q, q = target) (λ _ _, False) target kstart eq_refl [] t o eq_refl He)
    as [Ho Hq]. split; [done|]. intros r Hr. by apply Hq.
Qed.

(** ** Storing a secret *)

Section storing.
Context (target tmp : path) (content : string).

(** Who may get an access list: the secret, its temporary file, and directories
    that were missing. *)
Definition secret_paths (f : fstate) (q : path) : Prop := q = target ∨ q = tmp ∨ q ∈ f_missing f.

Definition is_protected (s : kstate) (q : path) : Prop := ∃ text, (q, text) ∈ k_set s ∧ secret_text text.

Definition secret_calls (s : kstate) (ev : event scall) : Prop :=
  let f := k_files s in
  match ev_call ev with
  | SMetadata _ => f_made f = None ∧ f_moved f = None
  | OnWindows (WCreateDirAll dir) => windows_parent target = Some dir ∧ f_made f = None ∧ f_moved f = None
  | SCreateNew q =>
      q = tmp ∧ f_made f = None ∧ f_moved f = None ∧ ∀ d, d ∈ f_missing f → is_protected s d
  | SWriteAll file text => f_made f = Some tmp ∧ f_open f = Some file ∧ text = content ∧ is_protected s tmp
  | SSyncAll file => f_open f = Some file
  | SCloseFile file => f_open f = Some file
  | MoveFileEx q q' flags =>
      (* over what is there, and written through *)
      Z.testbit flags 0 = true ∧ Z.testbit flags 3 = true ∧ q = tmp ∧ q' = target ∧ f_made f = Some tmp ∧ f_open f = None ∧ f_stored f = Some content
  | OnWindows (WRemoveFile q) => q = tmp ∧ f_open f = None
  | _ => False
  end.

Notation policy := (protection_policy secret_paths secret_calls).
Notation stored := (λ h ev, policy (summary kstep kstart h) ev).
Notation k_at s := (λ h, summary kstep kstart h = s).
Notation k_now := (summary kstep kstart).

(** Nothing but access lists has changed. *)
Definition settled (s s' : kstate) : Prop :=
  k_held s' = k_held s ∧ k_files s' = k_files s ∧ k_set s ⊆ k_set s'.

#[local] Instance settled_trans : Transitive settled.
Proof. intros s1 s2 s3 (H1 & H2 & H3) (H4 & H5 & H6). split_and!; [congruence..|set_solver]. Qed.

Lemma is_protected_mono s s' q : settled s s' → is_protected s q → is_protected s' q.
Proof. intros (_ & _ & Hs) (text & Hq & Ht). exists text. split; [set_solver|done]. Qed.

Lemma protected_settled s q ok s' : protected s q ok s' → settled s s' ∧ (ok = true → is_protected s' q).
Proof.
  intros (Hh & Hf & Hs). destruct ok.
  - destruct Hs as (text & Hs & Ht). split; [split_and!; [done|done|rewrite Hs; set_solver]|]. intros _. exists text. rewrite Hs. split; [set_solver|done].
  - split; [split_and!; [done|done|by rewrite Hs]|done].
Qed.

Lemma map_err_stored {A B} (m : Setup (io_error + A)) (f : io_error → B) s (R : bool → kstate → Prop) :
  triple stored (k_at s) m (λ r h, R (succeeded r) (k_now h)) →
  triple stored (k_at s) (prog_map_err f m) (λ r h, R (succeeded r) (k_now h)).
Proof.
  intros Hm. unfold prog_map_err. apply (track_then kstep kstart policy _ _ (λ r s', R (succeeded r) s')); [done|].
  intros [e|x] s' HR; apply triple_ret; by intros h ->.
Qed.

(** Running [protect_path], with its error renamed, before something else. *)
Lemma protect_then {A B} (m : Setup (io_error + ())) (f : io_error → B) (k : () → Setup (B + A)) q s Q :
  triple stored (k_at s) m (λ r h, protected s q (succeeded r) (k_now h)) →
  (∀ e s', settled s s' → triple stored (k_at s') (mret (inl e)) Q) →
  (∀ s', settled s s' → is_protected s' q → triple stored (k_at s') (k ()) Q) →
  triple stored (k_at s) (x ←! prog_map_err f m; k x) Q.
Proof.
  intros Hm He Hk. unfold prog_try. eapply (track_then kstep kstart policy _ _ (λ r s', protected s q (succeeded r) s')).
  - by apply (map_err_stored m f s (protected s q)).
  - intros [e|[]] s' [Hs Hp]%protected_settled; [by apply He|by apply Hk; [|apply Hp]].
Qed.
(** A call that may fail, before something else. *)
Lemma io_then {A B X} (e : scall (io_error + X)) (f : io_error → B) (k : X → Setup (B + A)) s Q :
  (∀ x, policy s (Event e x)) →
  (∀ err, triple stored (k_at (kstep s (Event e (inl err)))) (mret (inl (f err))) Q) →
  (∀ x, triple stored (k_at (kstep s (Event e (inr x)))) (k x) Q) →
  triple stored (k_at s) (x ←! prog_map_err f (perform e); k x) Q.
Proof. intros Hp He Hk. apply track_vis; [done|]. intros [err|x]; [apply He|apply Hk]. Qed.

Definition add_missing (extra : list path) (f : fstate) : fstate :=
  let '(FState mi ma op te st mo) := f in FState (mi ++ extra) ma op te st mo.

Lemma missing_dirs_stored fuel current s :
  f_made (k_files s) = None → f_moved (k_files s) = None →
  triple stored (k_at s) (windows_missing_dirs fuel current)
    (λ r h, ∃ extra, k_held (k_now h) = k_held s ∧ k_set (k_now h) = k_set s ∧
       k_files (k_now h) = add_missing extra (k_files s) ∧ ∀ dirs, r = inr dirs → extra = dirs).
Proof.
  revert current s. induction fuel as [|fuel IH]; intros current [he sd da se [mi ma op te st mo]] Hm Hv; cbn in Hm, Hv; subst; cbn.
  { apply triple_ret. intros h ->. exists []. cbn. rewrite app_nil_r. naive_solver. }
  apply track_vis; [done|]. intros [e|dir]; cbn.
  2: { destruct dir; apply triple_ret; intros h ->; exists []; cbn; rewrite app_nil_r; naive_solver. }
  destruct (decide (err_kind e = NotFound)) as [He|He].
  2: { apply triple_ret. intros h ->. exists []. cbn. rewrite app_nil_r. naive_solver. }
  assert (∀ s, k_at (KState he sd da se (FState (mi ++ [current]) None op te st None)) s →
    ∃ extra, k_held (k_now s) = he ∧ k_set (k_now s) = se ∧
      k_files (k_now s) = FState (mi ++ extra) None op te st None ∧ extra = [current]) as Hone.
  { intros h ->. exists [current]. done. }
  destruct (windows_parent current) as [next|]; [destruct (decide (next = current))|];
    [apply triple_ret; intros h Hh; destruct (Hone h Hh) as (?&?&?&?&->); exists [current]; naive_solver| |
     apply triple_ret; intros h Hh; destruct (Hone h Hh) as (?&?&?&?&->); exists [current]; naive_solver].
  unfold prog_try. apply (track_then kstep kstart policy _ _ (λ r s', ∃ extra, k_held s' = he ∧ k_set s' = se ∧
    k_files s' = FState ((mi ++ [current]) ++ extra) None op te st None ∧ ∀ dirs, r = inr dirs → extra = dirs)).
  { by apply (IH next (KState he sd da se (FState (mi ++ [current]) None op te st None))). }
  intros r s' (extra & Hh & Hs & Hf & Hd). rewrite <- app_assoc in Hf.
  destruct r as [e'|rest]; apply triple_ret; intros h ->; exists (current :: extra); split_and!; [done..| |].
  - naive_solver.
  - intros dirs [= <-]. by rewrite (Hd rest eq_refl).
Qed.

Lemma secure_dirs_stored dirs s :
  (∀ d, d ∈ dirs → d ∈ f_missing (k_files s)) →
  triple stored (k_at s) (windows_secure_dirs dirs)
    (λ r h, settled s (k_now h) ∧ (succeeded r = true → ∀ d, d ∈ dirs → is_protected (k_now h) d)).
Proof.
  revert s. induction dirs as [|d dirs IH]; intros s Hd; cbn [windows_secure_dirs].
  { apply triple_ret. intros h ->. split; [by split_and!|set_solver]. }
  eapply protect_then; [apply protect_path_async_guarded; right; right; set_solver| |].
  - intros e s' Hs. apply triple_ret. by intros h ->.
  - intros s' Hs Hp. eapply triple_post; [apply IH|].
    + intros d' Hd'. destruct Hs as (_ & -> & _). set_solver.
    + intros r h [Hs' Hr]. split; [by etrans|]. intros Hok d' [->|Hd']%elem_of_cons; [by eapply is_protected_mono|by apply Hr].
Qed.

(** The directory is there; no file has been made. *)
Definition prepared (ok : bool) (s : kstate) : Prop :=
  k_held s = [] ∧ (∃ missing, k_files s = FState missing None None None None None) ∧
  (ok = true → ∀ d, d ∈ f_missing (k_files s) → is_protected s d).

Lemma ensure_parent_stored :
  triple stored (k_at kstart) (windows_ensure_secret_parent target) (λ r h, prepared (succeeded r) (k_now h)).
Proof.
  assert (∀ r, triple stored (k_at kstart) (mret r) (λ (r : RuntimeError + ()) h, prepared (succeeded r) (k_now h))) as Hnone.
  { intros r. apply triple_ret. intros h ->. split_and!; [done|by eexists|set_solver]. }
  unfold windows_ensure_secret_parent. destruct (windows_parent target) as [[|c dir]|] eqn:Hp; [apply Hnone| |apply Hnone].
  unfold prog_try at 1. eapply (track_then kstep kstart policy _ _ (λ r s', ∃ extra, k_held s' = [] ∧ k_set s' = [] ∧
    k_files s' = FState extra None None None None None ∧ ∀ dirs, r = inr dirs → extra = dirs)).
  { by apply (missing_dirs_stored _ _ kstart). }
  intros [e|dirs] [he sd da se fi] (extra & Hh & Hs & Hf & Hd); cbn in *; subst.
  { apply triple_ret. intros h ->. split_and!; [done|by eexists|done]. }
  rewrite (Hd dirs eq_refl) in *.
  apply io_then.
  - by intros x.
  - intros e. apply triple_ret. intros h ->. split_and!; [done|by eexists|done].
  - intros x. eapply triple_post; [apply secure_dirs_stored; done|].
    intros r h [(Hh & Hf & _) Hr]. cbn in *. split_and!; [done|by eexists|].
    intros Hok d. rewrite Hf. by apply Hr.
Qed.
(** The temporary file is open: it is filled and stored. *)
Lemma fill_stored file s missing :
  k_held s = [] → k_files s = FState missing (Some tmp) (Some file) None None None →
  triple stored (k_at s) (windows_fill tmp file content)
    (λ r h, k_held (k_now h) = [] ∧ ∃ text kept,
       k_files (k_now h) = FState missing (Some tmp) (Some file) text kept None ∧ (succeeded r = true → kept = Some content)).
Proof.
  intros Hh Hf. unfold windows_fill. eapply protect_then; [apply protect_path_guarded; by right; left| |].
  { intros e s' (Hh' & Hf' & _). apply triple_ret. intros h ->. rewrite Hh', Hf', Hh, Hf. split; [done|]. by exists None, None. }
  intros [he sd da se fi] (Hh' & Hf' & _) Hp. rewrite Hh in Hh'. rewrite Hf in Hf'. cbn in Hh', Hf'. subst he fi.
  apply io_then; [done| |].
  { intros e. apply triple_ret. intros h ->. split; [done|]. by exists None, None. }
  intros [].
  apply (map_err_stored (perform (SSyncAll file)) _ _ (λ ok s', k_held s' = [] ∧ ∃ text kept,
    k_files s' = FState missing (Some tmp) (Some file) text kept None ∧ (ok = true → kept = Some content))).
  apply track_vis; [done|]. intros [e|[]]; apply triple_ret; intros h ->; (split; [done|]); cbn.
  - by exists (Some content), None.
  - by exists (Some content), (Some content).
Qed.

Lemma replace_file_stored s missing text :
  k_files s = FState missing (Some tmp) None text (Some content) None →
  triple stored (k_at s) (replace_file tmp target)
    (λ r h, k_held (k_now h) = k_held s ∧ k_set (k_now h) = k_set s ∧
       k_files (k_now h) = if succeeded r then FState missing None None text (Some content) (Some (target, Some content)) else k_files s).
Proof.
  destruct s as [he sd da se fi]. cbn. intros ->. unfold replace_file.
  destruct (_ || _); [apply triple_ret; by intros h ->|].
  apply track_vis; [done|]. intros []; [apply triple_ret; by intros h ->|]. cbn.
  apply track_vis; [done|]. intros e. apply triple_ret. by intros h ->.
Qed.

(** What is left when the file was written, and when all is over. *)
Definition written (ok : bool) (s : kstate) : Prop :=
  k_held s = [] ∧ f_open (k_files s) = None ∧
  (f_moved (k_files s) = None ∨ f_moved (k_files s) = Some (target, Some content)) ∧
  (ok = true → f_made (k_files s) = None ∧ f_moved (k_files s) = Some (target, Some content) ∧ is_protected s target).

Lemma write_steps_stored s :
  prepared true s →
  triple stored (k_at s) (windows_write_steps target tmp content) (λ r h, written (succeeded r) (k_now h)).
Proof.
  intros (Hh & [missing Hf] & Hd). destruct s as [he sd da se fi]. cbn in Hh, Hf. subst he fi.
  specialize (Hd eq_refl). unfold windows_write_steps. apply io_then.
  - by intros x.
  - intros e. apply triple_ret. intros h ->. split_and!; [done|done|by left|done].
  - intros file. apply (track_then kstep kstart policy _ _ (λ r s', k_held s' = [] ∧ ∃ text kept,
      k_files s' = FState missing (Some tmp) (Some file) text kept None ∧ (succeeded r = true → kept = Some content))).
    { by apply fill_stored. }
    intros r [he' sd' da' se' fi'] (Hh & text & kept & Hf & Hk). cbn in Hh, Hf. subst.
    apply track_vis; [done|]. intros []. destruct r as [e|[]].
    { apply triple_ret. intros h ->. split_and!; [done|done|by left|done]. }
    rewrite (Hk eq_refl). unfold prog_try. eapply (track_then kstep kstart policy _ _ (λ r s', k_held s' = [] ∧
      k_files s' = if succeeded r then FState missing None None text (Some content) (Some (target, Some content))
                   else FState missing (Some tmp) None text (Some content) None)).
    { eapply (map_err_stored (replace_file tmp target) _ _ (λ ok s', k_held s' = [] ∧ k_files s' = if ok then _ else _)).
      eapply triple_post; [by eapply replace_file_stored|]. by intros r h (-> & _ & ->). }
    intros [e|[]] s'' [Hh Hf]; cbn in Hf.
    { apply triple_ret. intros h ->. split_and!; [done|by rewrite Hf|by rewrite Hf; left|done]. }
    apply (map_err_stored (protect_path target) _ _ written).
    eapply triple_post; [apply protect_path_guarded; by left|].
    intros r h [(Hh' & Hf' & _) Hp]%protected_settled. unfold written. rewrite Hh', Hf', Hf.
    split_and!; [done|done|by right|]. intros Hok. split_and!; [done|done|by apply Hp].
Qed.
Lemma secure_write_stored unique s :
  tmp = windows_tmp_path target unique → prepared true s →
  triple stored (k_at s) (windows_secure_write_secret_file target unique content)
    (λ r h, written (succeeded r) (k_now h) ∧ f_made (k_files (k_now h)) = None).
Proof.
  intros Ht Hp. unfold windows_secure_write_secret_file.
  apply (track_then kstep kstart policy _ _ (λ _ s', s' = s)).
  { destruct s as [???? []]. follow; done. }
  intros [e|] ? ->.
  { destruct Hp as (Hh & [missing Hf] & _). apply triple_ret. intros h ->. unfold written. rewrite Hh, Hf.
    split_and!; try done. by left. }
  unfold windows_secure_write_blocking. rewrite <- Ht.
  apply (track_then kstep kstart policy _ _ (λ r s', written (succeeded r) s')); [by apply write_steps_stored|].
  intros [e|[]] [he sd da se [mi ma op te st mo]] (Hh & Ho & Hm & Hok); cbn in *; subst.
  - apply track_vis; [done|]. intros r. apply triple_ret. by intros h ->.
  - apply triple_ret. intros h ->. destruct (Hok eq_refl) as (-> & -> & ?). done.
Qed.
End storing.

Lemma validate_secret_same {SL : SecretLib} text kept : validate_secret text = inr kept → kept = text.
Proof. unfold validate_secret. case_decide; [done|]. case_match; naive_solver. Qed.

(** C23: Storing a secret on Windows is safe, whatever the system answers and
    whenever it stops. The secret goes into one file only: the temporary one,
    which the process itself has created, after every directory that was
    missing was protected; and it is written only after the file itself was
    protected. To be protected is to have an access list, which inherits
    nothing, that lets in the system, the administrators and one user. The
    secret's own file is neither written nor removed: it is replaced in one step, by the
    closed file that holds all of the new secret, written through to the disk.
    No other file is touched, and tokens and descriptors are used while they
    are held and given back. When it returns, nothing is open or held, and the
    temporary file is moved or was told to be removed; the secret is as it was
    or it is the new one, and when success is reported it is the new one, and
    protected. *)
Theorem windows_secret_stored {SL : SecretLib} (unique : string) (target : path) (secret : string)
    (t : list (event scall)) (o : option (RuntimeError + string)) :
  exec (windows_persist_secret_file unique target secret) t o →
  let tmp := windows_tmp_path target unique in
  let content := windows_secret_content target (str_trim secret) in
  obeys (λ h ev, protection_policy (secret_paths target tmp) (secret_calls target tmp content) (summary kstep kstart h) ev) [] t ∧
  ∀ r, o = Some r →
    written target content (succeeded r) (summary kstep kstart t) ∧
    f_made (k_files (summary kstep kstart t)) = None ∧
    ∀ kept, r = inr kept → kept = str_trim secret.
Proof.
  intros He tmp content. revert He.
  pose (policy := protection_policy (secret_paths target tmp) (secret_calls target tmp content)).
  assert (triple (λ h ev, policy (summary kstep kstart h) ev) (λ h, summary kstep kstart h = kstart)
    (windows_persist_secret_file unique target secret)
    (λ r h, written target content (succeeded r) (summary kstep kstart h) ∧
       f_made (k_files (summary kstep kstart h)) = None ∧ ∀ kept, r = inr kept → kept = str_trim secret)) as Hm;
    [|intros He; destruct (Hm [] t o eq_refl He) as [Ho Hq]; split; [done|]; intros r Hr; by apply Hq].
  unfold windows_persist_secret_file. destruct (validate_secret (str_trim secret)) as [e|kept] eqn:Hv.
  { apply triple_ret. intros h ->. split_and!; try done. split_and!; [done|done|by left|done]. }
  apply validate_secret_same in Hv. subst kept. unfold prog_try.
  apply (track_then kstep kstart policy _ _ (λ r s', prepared (succeeded r) s')); [apply ensure_parent_stored|].
  intros [e|[]] s Hs.
  { destruct Hs as (Hh & [missing Hf] & _). apply triple_ret. intros h ->. unfold written. rewrite Hh, Hf.
    split_and!; try done. by left. }
  apply (track_then kstep kstart policy _ _
    (λ r s', written target content (succeeded r) s' ∧ f_made (k_files s') = None)); [by apply secure_write_stored|].
  intros [e|[]] s' [Hw Hn]; apply triple_ret; intros h ->; split_and!; naive_solver.
Qed.

(** A machine whose user is known and on which the directory of the secret is
    missing. *)
Definition setup_machine X (e : scall X) (s : ()) : option X * () :=
  (match e in scall X return option X with
   | OpenProcessToken => Some (Some (Some 1%nat))
   | CloseHandle _ => Some ()
   | TokenUserSize _ => Some 44
   | GetTokenUser _ _ => Some (Some 2%nat)
   | ConvertSidToStringSid _ => Some (Some (Some 3%nat))
   | ReadLocalString _ => Some "S-1-5-21-1-2-3-1001"
   | LocalFree _ => Some ()
   | ConvertSddl _ => Some (Some (Some 4%nat))
   | GetSecurityDescriptorDacl _ => Some (Some (Some 5%nat))
   | SetNamedSecurityInfo _ _ _ => Some 0
   | JoinBlocking => Some None
   | SMetadata p => Some (if decide (p = ["C:\"; "ProgramData"]) then inr true else inl (IoError NotFound "not found"))
   | SCreateNew _ => Some (inr 6%nat)
   | SWriteAll _ _ => Some (inr ())
   | SSyncAll _ => Some (inr ())
   | SCloseFile _ => Some ()
   | MoveFileEx _ _ _ => Some true
   | OnWindows c => match c in wcall X return option X with WCreateDirAll _ => Some (inr ()) | _ => None end
   | _ => None
   end, s).

Definition secret_file : path := ["C:\"; "ProgramData"; "playit_gg"; "playit.toml"].

Definition stored_run : list (event scall) * option (RuntimeError + string) :=
  traced_run setup_machine 1 (windows_persist_secret_file (SL := plain_lib) "1-a" secret_file "ab12") ().

Lemma windows_secret_stored_witness :
  stored_run.2 = Some (inr "ab12") ∧
  f_moved (k_files (summary kstep kstart stored_run.1)) = Some (secret_file, Some (toml_print (SecretLib := plain_lib) "ab12")) ∧
  is_protected (summary kstep kstart stored_run.1) secret_file.
Proof.
  assert (Hr : stored_run.2 = Some (inr "ab12")) by (vm_compute; reflexivity).
  destruct (windows_secret_stored (SL := plain_lib) "1-a" secret_file "ab12" _ _
    (traced_run_exec setup_machine 1 (windows_persist_secret_file (SL := plain_lib) "1-a" secret_file "ab12") ())) as [_ Hq].
  destruct (Hq _ Hr) as [(_ & _ & _ & Hw) _]. destruct (Hw eq_refl) as (_ & Hm & Hp).
  split; [exact Hr|]. split; [exact Hm|exact Hp].
Defined.
