(* ===== verification/AgentLife.v ===== *)
(** * The life of an agent (agent_core/src/playit_agent.rs, agent_control/mod.rs)

    How an agent is built, from its sockets to its tables, and how its tasks
    end. An agent that was built starts in a state from which its tasks are
    safe for ever; when it ends, its tasks have. *)

From S2P Require Import Prelude Bytes Net Wire Proto ControlMessages ControlFormat ControlFeed ProtoTheorems UdpProto OriginLookup Utils Packets UdpClients UdpClientsTheory UdpChannel ControlIo ControlConnect EstablishedControl MaintainedControl TcpPipe TcpClients PlayitAgent Api ApiTunnels ApiAccount HttpClient ApiClient AgentIdentity Program.
#[local] Open Scope list_scope.
#[local] Open Scope Z_scope.

(** ** Sockets (mod.rs) *)

(** [DualStackUdpSocket]: whether there is a socket for IPv6, and the counter of
    [recv_from]. *)
Record DualStackUdpSocket : Type := { ds_has_ip6 : bool; ds_next : Z }.

(** [DualStackUdpSocket::new], from what the two binds return. *)
Definition DualStackUdpSocket_new (ip4 ip6 : io_error + ()) : io_error + DualStackUdpSocket :=
  match ip4 with
  | inl e => inl e
  | inr _ => inr {| ds_has_ip6 := match ip6 with inr _ => true | inl _ => false end; ds_next := 0 |}
  end.

(** ** Construction *)

Record PlayitAgentSettings : Type := {
  pas_api_url : string;
  pas_secret_key : string;
  pas_tcp_settings : TcpSettings;
}.

Section agent.
Context {BO : ByteOrder} {ML : EncodingLib} {WL : WatchLib} {AQ : ArrayQueueLib} {SL : SlabLib} {sock : Type}.
Context (hex_decode : string → option (list byte)).

Record PlayitAgent : Type := {
  pa_auth : AuthApi;
  pa_control : MaintainedControl;
  pa_udp_clients : UdpClients (sock := sock);
  pa_origin_packets : PacketsInner;
  pa_udp_channel : UdpChannel.Shared;
  pa_tunnel_packets : PacketsInner;
  pa_tcp_clients : Worker;
  pa_stats : AgentStats;
}.

(** The sockets are made by the host ([wd_create_io]); the API and the servers
    answer as [setup] asks. *)
Definition new_with_identity (settings : PlayitAgentSettings) (lookup : OriginLookup) (version : AgentVersion)
    (platform : Platform) : M () (result SetupError PlayitAgent) :=
  io ← m_ask wd_create_io;
  match io with
  | Some e => mret (RErr e)
  | None =>
      let auth := AuthApi_new_with_identity (pas_api_url settings) (pas_secret_key settings) version platform in
      control ← setup hex_decode;
      match control with
      | RErr e => mret (RErr e)
      | ROk control =>
          tunnel_packets ← m_lift (Packets_new (1024 * 8)%nat);
          origin_packets ← m_lift (Packets_new (1024 * 8)%nat);
          socket ← m_ask wd_create_io;
          match socket with
          | Some e => mret (RErr e)
          | None =>
              let stats := AgentStats_new in
              mret (ROk {| pa_auth := auth; pa_control := control;
                           pa_udp_clients := UdpClients_new lookup stats; pa_origin_packets := origin_packets;
                           pa_udp_channel := Shared_default; pa_tunnel_packets := tunnel_packets;
                           pa_tcp_clients := Worker_new (pas_tcp_settings settings) lookup stats;
                           pa_stats := stats |})
          end
      end
  end.

(** The tunnel task as [run] starts it. *)
Definition first_tunnel_task (agent : PlayitAgent) (now : Z) : TunnelTask :=
  {| tt_control := pa_control agent; tt_last_control_addr_check := now; tt_should_renew_udp := false |}.
End agent.

(** ** Setting up the control session *)

Section facts.
Context {BO : ByteOrder} {ML : EncodingLib} {WL : WatchLib} {AQ : ArrayQueueLib} {SL : SlabLib} {sock : Type}.
Context {BOL : ByteOrderLaws BO} {MLL : EncodingLaws ML} {WLL : WatchLaws WL} {AQL : ArrayQueueLaws AQ} {SLL : SlabLaws SL}.
Context (hex_decode : string → option (list byte)).

(** A session that the server at [addr] registered. *)
Definition registered_by (a : answers) (addr : SocketAddr) (e : EstablishedControl) : Prop :=
  cc_control_addr (ec_conn e) = addr ∧ ec_current_ping e = None ∧
  ∃ id, answered a 1024 addr {| rpc_request_id := id; rpc_content := ResAgentRegistered (ec_registered e) |}.

Lemma registered_by_wf a addr e : registered_by a addr e → session_wf e.
Proof.
  intros (_ & Hp & id & n & data & rest & _ & Hr). apply ControlFeed_read_wf in Hr. split; [exact Hr|by rewrite Hp].
Qed.

Lemma auth_into_established_ends c w :
  clock_ok (wd w) →
  m_wp (auth_into_established hex_decode) c w (λ r _ w',
    r ≠ MPanic ∧ wd w' = wd w ∧ ∀ e, r = MDone (ROk e) → registered_by (wd w) (cc_control_addr c) e).
Proof.
  intros Hc. unfold auth_into_established. apply m_wp_bind. unfold m_wp at 1.
  pose proof (authenticate_ok hex_decode c w Hc) as Hok.
  destruct (ConnectedControl_authenticate hex_decode c w) as [[r c'] w1] eqn:Ha.
  destruct Hok as (Hr & Hw & _). destruct r as [[reg|e]| |]; [| | |done]; [|by split_and!..].
  pose proof (m_rel_MDone _ _ _ _ _ _ _ (authenticate_rel hex_decode) Ha) as [Haddr _].
  apply authenticate_sound in Ha as (i & j & key & bytes & _ & _ & _ & Hans); [|done].
  apply m_wp_bind. unfold m_wp at 1, m_get.
  destruct (pong_session_expire_at (cc_pong_latest c')); unfold m_wp, mbind, M_bind, m_now, mret, M_ret; cbn;
    (split_and!; [done|done|]); intros e [= <-]; cbn; split_and!; try done; eauto.
Qed.

(** [setup] does not panic; the session it ends with is one that a server named
    by the API registered. *)
Lemma setup_ends w :
  clock_ok (wd w) →
  m_wp (setup hex_decode) () w (λ r _ w',
    r ≠ MPanic ∧ wd w' = wd w ∧
    ∀ m, r = MDone (ROk m) →
      maintained_wf m ∧ mc_control_state m = watch_new Connected ∧
      ∃ n addr, wd_targets (wd w) n = ROk (mc_last_control_targets m) ∧ addr ∈ mc_last_control_targets m ∧
        registered_by (wd w) addr (mc_control m)).
Proof.
  intros Hc. unfold setup. apply m_wp_bind, m_wp_ask; [|by intros; split_and!]. intros n w1 Hw1.
  destruct (wd_targets (wd w) n) as [addrs|e] eqn:Ht; [|by split_and!].
  apply m_wp_bind. unfold m_wp at 1.
  pose proof (m_ok_try_timeout SetupTimeout _ _ _ (connect_to_first_ok addrs) I () w1) as Hok.
  rewrite Hw1 in Hok. specialize (Hok Hc).
  destruct (m_try_timeout SetupTimeout _ () w1) as [[r []] w2] eqn:Hrun.
  destruct Hok as (Hr & Hw2 & _). destruct r as [[c|e]| |]; [| | |done]; [|by split_and!..].
  apply m_try_timeout_inv in Hrun as (wa & ra & wb & Hwa & Hcon & Hwb & _ & [<-|[_ ?]]); [|done].
  apply connect_to_first_sound in Hcon as [Hin _]; [|by rewrite Hwa, Hw1].
  assert (clock_ok (wd w2)) as Hc2 by by rewrite Hw2.
  apply m_wp_bind.
  assert (m_wp (m_try_timeout SetupTimeout (auth_into_established hex_decode)) c w2 (λ r _ w',
    r ≠ MPanic ∧ wd w' = wd w ∧ ∀ e, r = MDone (ROk e) → registered_by (wd w) (cc_control_addr c) e)) as Ha.
  { apply m_wp_try_timeout. intros w0 Hw0. eapply m_wp_mono; [by apply auth_into_established_ends; rewrite Hw0|].
    cbn beta. rewrite Hw0, Hw2. intros r s w3 (H1 & H2 & H3) w4 Hw4. rewrite Hw4.
    split; [by split_and!|]. intros ->. by split_and!. }
  unfold m_wp in *. destruct (m_try_timeout SetupTimeout (auth_into_established hex_decode) c w2) as [[r c'] w3].
  destruct Ha as (Hnp & Hw3 & Hreg). destruct r as [[e|e]| |]; [| | |done]; [|by split_and!..].
  unfold mbind, M_bind, m_now, mret, M_ret. cbn. split_and!; [done|done|]. intros m [= <-]. cbn.
  specialize (Hreg e eq_refl). split_and!; [split; [by eapply registered_by_wf|done]|done|]. by exists n, (cc_control_addr c).
Qed.

Lemma UdpClients_new_table lookup stats : clients_inv (UdpClients_new (SL := SL) (sock := sock) lookup stats).
Proof.
  split; [|cbn; unfold uint; lia]. split; cbn.
  - intros key slot. by rewrite lookup_empty.
  - intros slot c. by rewrite slab_get_new.
Qed.

Lemma Worker_new_inv settings lookup : sys_inv {| sys_worker := Worker_new settings lookup AgentStats_new; sys_tasks := [] |}.
Proof. split_and!; [apply NoDup_nil_2|apply Forall_nil_2|cbn; lia|done]. Qed.

(** ** An agent that was built *)

(** Where an agent starts: a session that a server named by the API registered,
    consistent tables, full pools. *)
Definition agent_ready (a : answers) (agent : PlayitAgent (sock := sock)) : Prop :=
  maintained_wf (pa_control agent) ∧ mc_control_state (pa_control agent) = watch_new Connected ∧
  (∃ n addr, wd_targets a n = ROk (mc_last_control_targets (pa_control agent)) ∧
     addr ∈ mc_last_control_targets (pa_control agent) ∧ registered_by a addr (mc_control (pa_control agent))) ∧
  clients_inv (pa_udp_clients agent) ∧
  sys_inv {| sys_worker := pa_tcp_clients agent; sys_tasks := [] |} ∧
  pool_inv (start (pa_origin_packets agent)) ∧ pool_inv (start (pa_tunnel_packets agent)).

Lemma new_with_identity_ends settings lookup version platform w :
  clock_ok (wd w) →
  m_wp (new_with_identity (sock := sock) hex_decode settings lookup version platform) () w (λ r _ w',
    r ≠ MPanic ∧ wd w' = wd w ∧ ∀ agent, r = MDone (ROk agent) → agent_ready (wd w) agent).
Proof.
  intros Hc. unfold new_with_identity. apply m_wp_bind, m_wp_ask; [|by intros; split_and!].
  intros n w1 Hw1. destruct (wd_create_io (wd w) n); [by split_and!|].
  apply m_wp_bind. eapply m_wp_mono; [apply setup_ends; by rewrite Hw1|]. cbn beta. rewrite Hw1.
  intros r [] w2 (Hnp & Hw2 & Hm). destruct r as [[m|e]| |]; [| | |done]; [|by split_and!..].
  destruct (Hm m eq_refl) as (Hwf & Hst & Hreg).
  destruct (Packets_new_spec (1024 * 8)) as (p & Hp & Hinv & _).
  rewrite Hp. unfold m_lift. apply m_wp_bind. unfold m_wp at 1. apply m_wp_bind. unfold m_wp at 1.
  apply m_wp_bind, m_wp_ask; [|intros; split_and!; [done|congruence|done]]. intros k w3 Hw3.
  destruct (wd_create_io (wd w2) k); unfold m_wp, mret, M_ret; (split_and!; [done|congruence|]); [done|].
  intros agent [= <-]. split_and!; [done|done|done|apply UdpClients_new_table|apply Worker_new_inv|done|done].
Qed.

Lemma m_ask_free {S A} (f : answers → nat → A) (s : S) w :
  wd_budget w = None → m_ask f s w = (MDone (f (wd w) (wd_pos w)), s, bump w).
Proof. intros Hb. unfold m_ask, m_await, m_ask_raw, mbind, M_bind. by rewrite Hb. Qed.

Lemma new_with_identity_succeeds settings lookup version platform w m w1 :
  wd_budget w = None → (∀ n, wd_create_io (wd w) n = None) →
  setup hex_decode () (bump w) = (MDone (ROk m), (), w1) → wd_budget w1 = None → wd w1 = wd w →
  ∃ agent w', new_with_identity (sock := sock) hex_decode settings lookup version platform () w =
    (MDone (ROk agent), (), w') ∧ pa_control agent = m.
Proof.
  intros Hb Hio Hs Hb1 Hw1. destruct (Packets_new_spec (1024 * 8)) as (p & Hp & _).
  unfold new_with_identity, mbind, M_bind. rewrite m_ask_free, Hio, Hs, Hp by done. cbn [m_lift].
  unfold m_lift. rewrite m_ask_free, Hw1, Hio by done. by eexists _, _.
Qed.

(** Building an agent, whatever the network, the API and the host answer,
    does not panic. When it succeeds, the control session is one that a server
    named by the API has registered, and published as connected; the tables of
    UDP and TCP clients are consistent and both packet pools are full. From
    there, in the release build, the tunnel task runs for any number of rounds,
    whatever it meets, without a panic. *)
Theorem agent_built_safe settings lookup version platform w :
  clock_ok (wd w) →
  let '(r, _, w') := new_with_identity (sock := sock) hex_decode settings lookup version platform () w in
  r ≠ MPanic ∧
  ∀ agent, r = MDone (ROk agent) →
    agent_ready (wd w) agent ∧
    ∀ flags now v, clock_ok (wd v) →
      let '(r', t', _) := tunnel_loop hex_decode false flags (first_tunnel_task agent now) v in
      r' ≠ MPanic ∧ maintained_wf (tt_control t').
Proof.
  intros Hc. pose proof (new_with_identity_ends settings lookup version platform w Hc) as H. unfold m_wp in H.
  destruct (new_with_identity hex_decode settings lookup version platform () w) as [[r []] w'].
  destruct H as (Hnp & _ & Hr). split; [done|]. intros agent Ha. specialize (Hr agent Ha). split; [done|].
  intros flags now v Hv. destruct Hr as [Hwf _].
  pose proof (tunnel_loop_keeps hex_decode flags (first_tunnel_task agent now) v Hv Hwf) as Hk. unfold m_wp in Hk.
  destruct (tunnel_loop hex_decode false flags _ v) as [[r' t'] v']. tauto.
Qed.
End facts.

(** ** The end of [run] *)

Inductive agent_task : Set := TunnelTask_ | UdpTask_.

#[global] Instance agent_task_eq_dec : EqDecision agent_task.
Proof. solve_decision. Defined.

(** What [select!] ended with: a task, or the cancellation. *)
Inductive acall : Type → Type :=
  | ASpawn (t : agent_task) : acall ()
  | ASelect : acall (option agent_task)
  | ACancel : acall ()
  | AJoin (t : agent_task) (millis : Z) : acall bool
  | AAbort (t : agent_task) : acall ()
  | AAwait (t : agent_task) : acall ().

(** A task that is not done has five seconds, then it is aborted. *)
Definition end_task (finished : option agent_task) (t : agent_task) : prog acall () :=
  if decide (finished = Some t) then mret ()
  else
    in_time ← perform (AJoin t 5000);
    if (in_time : bool) then mret ()
    else _ ← perform (AAbort t); perform (AAwait t).

Definition agent_run : prog acall () :=
  _ ← perform (ASpawn TunnelTask_);
  _ ← perform (ASpawn UdpTask_);
  finished ← perform ASelect;
  _ ← perform ACancel;
  _ ← end_task finished TunnelTask_;
  end_task finished UdpTask_.

(** A task is over: [select!] or a join saw its end, or it was awaited. *)
Definition over (t : agent_task) (h : list (event acall)) : Prop :=
  Event ASelect (Some t) ∈ h ∨ (∃ n, Event (AJoin t n) true ∈ h) ∨ Event (AAwait t) () ∈ h.

(** Tasks are joined after the cancellation, and aborted only when the five
    seconds they had are over. *)
Definition agent_policy (h : list (event acall)) (ev : event acall) : Prop :=
  match ev_call ev with
  | AJoin t n => Event ACancel () ∈ h ∧ n = 5000
  | AAbort t => Event (AJoin t 5000) false ∈ h
  | AAwait t => Event (AAbort t) () ∈ h
  | _ => True
  end.

Lemma over_lasting t : lasting (over t).
Proof. intros h u. unfold over. setoid_rewrite elem_of_app. naive_solver. Qed.

Lemma end_task_over f t :
  triple agent_policy (λ h, Event ACancel () ∈ h ∧ Event ASelect f ∈ h) (end_task f t) (λ _ h, over t h).
Proof.
  unfold end_task. case_decide as Hf; [apply triple_ret; intros h [_ H]; left; by rewrite <- Hf|].
  apply triple_vis; [intros h x [H _]; by split|]. intros [].
  - apply triple_ret. intros h (h0 & -> & _). right. left. exists 5000. apply elem_of_app. right. by left.
  - apply triple_vis; [intros h [] (h0 & -> & _); apply elem_of_app; right; by left|]. intros [].
    apply triple_perform. intros h [] (h0 & -> & _).
    split; [apply elem_of_app; right; by left|]. right. right. apply elem_of_app. right. by left.
Qed.

(** However the tasks behave: when [run] returns, both have ended. *)
Lemma agent_run_ends t o :
  exec agent_run t o → obeys agent_policy [] t ∧ (o = Some () → over TunnelTask_ t ∧ over UdpTask_ t).
Proof.
  intros Ht.
  cut (triple agent_policy (λ h, [] = h) agent_run (λ _ h, over TunnelTask_ h ∧ over UdpTask_ h)).
  { intros H. destruct (H [] t o eq_refl Ht) as [Ho HQ]. split; [done|]. intros ->. by apply (HQ ()). }
  unfold agent_run. do 2 (apply triple_vis; [done|]; intros []).
  apply triple_vis; [done|]. intros f. apply triple_vis; [done|]. intros [].
  set (P := λ h : list (event acall), Event ACancel () ∈ h ∧ Event ASelect f ∈ h).
  apply (triple_conseq _ _ P _ _ (λ _ h, over TunnelTask_ h ∧ over UdpTask_ h)); [|intros h (h0 & -> & h1 & -> & _); unfold P; rewrite !elem_of_app, !list_elem_of_singleton; tauto|done].
  assert (lasting P) as HP by (apply lasting_and; apply lasting_in).
  apply (triple_then _ _ _ (λ _ h, P h ∧ over TunnelTask_ h)).
  { apply (triple_conseq _ _ (λ h, P h ∧ P h) _ _ (λ _ h, over TunnelTask_ h ∧ P h)); [|tauto|tauto].
    apply triple_frame; [done|apply end_task_over]. }
  intros []. apply (triple_conseq _ _ (λ h, P h ∧ over TunnelTask_ h) _ _ (λ _ h, over UdpTask_ h ∧ over TunnelTask_ h));
    [apply triple_frame; [apply over_lasting|apply end_task_over]|tauto|tauto].
Qed.

(** ** Witness *)

#[local] Existing Instance big_endian.
#[local] Existing Instance big_endian_laws.
#[local] Existing Instance reference_encoding.
#[local] Existing Instance reference_encoding_laws.
#[local] Existing Instance ref_watch.
#[local] Existing Instance ref_watch_laws.
#[local] Existing Instance ref_queue.
#[local] Existing Instance ref_queue_laws.
#[local] Existing Instance ref_slab.
#[local] Existing Instance ref_slab_laws.

(** A server that answers pings first, then the registration. *)
Definition answer_packet (id : Z) (res : ControlResponse) : recv_result :=
  RecvPacket (ControlFeed_enc (FeedResponse {| rpc_request_id := id; rpc_content := res |})) sample_v4.

Definition welcoming : answers := {|
  wd_clock _ := 1000;
  wd_recv n := if decide (n < 6)%nat then answer_packet 1 (ResPong sample_pong)
               else answer_packet 1000 (ResAgentRegistered sample_registered);
  wd_send _ := None;
  wd_sign _ _ _ := ROk "00ff"%string;
  wd_targets _ := ROk [sample_v4];
  wd_create_io _ := None;
  wd_cut _ := None;
|}.

Definition sample_settings : PlayitAgentSettings :=
  {| pas_api_url := "https://api.playit.gg"; pas_secret_key := "00ff"; pas_tcp_settings := TcpSettings_default |}.

Definition sample_version : AgentVersion :=
  {| AgentVersion_variant_id := 7; AgentVersion_version_major := 1; AgentVersion_version_minor := 0;
     AgentVersion_version_patch := 10 |}.

Definition sample_setup : M () (result SetupError MaintainedControl) := setup (λ _, Some [Byte.x00; Byte.xff]).

Lemma sample_setup_done :
  ∃ m, (sample_setup () (bump (sample_world welcoming))).1.1 = MDone (ROk m).
Proof. eexists. vm_compute. reflexivity. Qed.

(** The construction succeeds with that server. *)
Lemma sample_agent_built :
  ∃ agent w', new_with_identity (sock := SocketAddr) (λ _, Some [Byte.x00; Byte.xff]) sample_settings
    OriginLookup_default sample_version Platform_Linux () (sample_world welcoming) = (MDone (ROk agent), (), w').
Proof.
  destruct sample_setup_done as [m Hm].
  assert (wd_budget (sample_setup () (bump (sample_world welcoming))).2 = None) as Hb by (vm_compute; reflexivity).
  assert (wd (sample_setup () (bump (sample_world welcoming))).2 = welcoming) as Hw.
  { pose proof (setup_ends (λ _, Some [Byte.x00; Byte.xff]) (bump (sample_world welcoming))) as H.
    unfold m_wp in H. fold sample_setup in H. destruct (sample_setup () _) as [[r []] w'].
    apply H. intros n. decide_now. }
  destruct (sample_setup () (bump (sample_world welcoming))) as [[r []] w1] eqn:Hs. cbn in Hm, Hb, Hw. subst r.
  destruct (new_with_identity_succeeds (sock := SocketAddr) (λ _, Some [Byte.x00; Byte.xff]) sample_settings
    OriginLookup_default sample_version Platform_Linux (sample_world welcoming) m w1) as (agent & w' & H & _);
    [done|done|exact Hs|done|done|]. eauto.
Qed.

Lemma agent_built_safe_witness :
  ∃ agent : PlayitAgent (sock := SocketAddr),
    agent_ready welcoming agent ∧
    (tunnel_loop (λ _, Some [Byte.x00; Byte.xff]) false [true; false] (first_tunnel_task agent 1000)
       (sample_world sample_refusing)).1.1 ≠ MPanic.
Proof.
  destruct sample_agent_built as (agent & w' & Hrun). exists agent.
  pose proof (agent_built_safe (sock := SocketAddr) (λ _, Some [Byte.x00; Byte.xff]) sample_settings OriginLookup_default
    sample_version Platform_Linux (sample_world welcoming)) as H.
  rewrite Hrun in H. destruct H as [_ H]; [intros n; decide_now|].
  destruct (H agent eq_refl) as [Hready Hloop]. split; [exact Hready|].
  specialize (Hloop [true; false] 1000 (sample_world sample_refusing)).
  destruct (tunnel_loop _ _ _ _ _) as [[r t'] v']. apply Hloop. intros n. decide_now.
Defined.
